(* ===== verification/_CoqProject ===== *)
-Q . S2P
Prelude.v
State.v
Machine.v
Monad.v
Spinlock.v
Smp.v
Cstring.v
Kalloc.v
Vm.v
Pagetable.v
Proc.v
Sched.v
Sleeplock.v
Virtio.v
Bio.v
Bufcache.v
Diskio.v
Log.v
Transact.v
Crash.v
Fs.v
Console.v
Tty.v
Pipe.v
File.v
Procsys.v
Exec.v
Syscall.v
Trap.v
Main.v
Ulib.v
Unix.v
Utils.v
Grep.v
Uproc.v
Grind.v
Usertests.v
Sh.v
Shrun.v
Umalloc.v
Mkfs.v
Readfs.v
Namei.v
Image.v
Readfile.v
Riscv.v
Asm.v
Trampoline.v
Start.v
Uvm.v
Newproc.v
Fork.v
Ucall.v
Initcode.v
Rtypes.v
