(* ===== verification/Prelude.v ===== *)
(** * Modified xv6: a verification development

    xv6 is a small Unix for RISC-V multiprocessors; this version adds three
    schedulers (first come first served, priorities, multi-level feedback queues),
    system call tracing, waitx() and setpriority().  The development models the
    kernel, the assembly around it, the program that builds the file system image
    and the user programs, and proves what makes each of them correct.  Paths below
    are relative to src/.

    ** How the code is modelled

    - Integers are [Z] with the wrap-around of their C type written out ([u8], [u16],
      [u32], [u64], [s16], [s32] in this file); physical memory is a finite map from
      addresses to bytes; a struct is a record with the same fields; a pointer into a
      static table is an index, a null pointer [None].  [State.kernel] is the record of
      all global variables and of the hart the code runs on.
    - A kernel function is a term of the monad [Monad.M]: it runs on a [kernel] and
      ends in [Ret], [Panic] (panic()), [Away] (switched out for good), [Spin] (waits
      for a lock that is held, or for a device), [Undef] (a null or wild pointer) or
      [NoFuel].  The environment of [M] lists what the rest of the system does to the
      state each time the thread is off the CPU, so a theorem for every environment
      is a theorem for every interleaving at those points.
    - What is not code of the repository is a parameter: [Platform] (symbols of the
      linker script, device registers), [Config] (the scheduling policy chosen when
      the kernel is compiled), [Device] (the virtio block device), [Symbols] (addresses
      the assembly refers to), with its documented behaviour as [PlatformOk],
      [DeviceOk], [SymbolsOk].  Components meet in classes as well: the buffer cache
      and all above it run on any [Disk], whose laws [DiskOk] the driver discharges.
    - The assembly files are lists of instructions run by the interpreter of Riscv.v
      on a hart with its registers, control and status registers and memory.
    - A user program is a tree of system calls (Unix.v), so its loops need no bound.
      [Unix.answer] is the specification of the system calls as one process sees
      them, every answer that depends on other processes, memory or the disk being a
      choice; the theorems hold for all choices.  The shell (Shrun.v) has its own such
      tree, in which the program of a forked child is a subtree.

    ** The files

    The kernel:
    - Prelude: integers, lists, table scans, tactics.  State: kernel/*.h and the
      global variables.  Machine: a concrete booted machine for examples.  Monad:
      the monad, its loops and its proof rules.
    - Spinlock: spinlock.c and the interrupt flags of riscv.h.  Smp: the locks on
      several harts, as a step relation.  Sleeplock: sleeplock.c.
    - Cstring: string.c on memory.  Kalloc: kalloc.c.  Vm: vm.c.  Pagetable: page
      tables as maps, the refinement of walk(), mappages(), copyin(), copyout().
      Uvm: uvmcreate(), uvmcopy() and uvmunmap() on these maps.
    - Proc: the process table, sleep(), wakeup(), kill(), setpriority().  Sched:
      scheduler().  Procsys: fork(), exit(), wait(), waitx().  Newproc, Fork: the
      runs of allocproc() and fork().
    - Virtio: virtio_disk.c.  Diskio: the driver with its device.  Bio: bio.c.
      Bufcache: the cache as a cache.  Log: log.c.  Transact, Crash: the writes of a
      transaction, and crashes between them.
    - Fs: fs.c.  Readfs, Namei: reading files and resolving paths against what the
      disk stores.  File: file.c.  Pipe: pipe.c.  Readfile: read() from trapframe to
      disk.
    - Console: uart.c, console.c, printf.c.  Tty: line editing.
    - Exec: exec.c.  Syscall: syscall.c's arguments and sysfile.c.  Trap: trap.c,
      plic.c, sysproc.c, syscall().  Main: main.c.

    The machine level:
    - Riscv: the instructions.  Asm: swtch.S, kernelvec.S and trampoline.S.
      Trampoline: user space and back.  Start: entry.S and start.c.  Rtypes: the
      typing of the machine state.
    - Ucall: user/usys.pl and the path of a system call through stub, trampoline,
      trap.c and syscall.c.  Initcode: user/initcode.S and the bytes in proc.c.

    The host and user programs:
    - Mkfs: mkfs/mkfs.c.  Image: the kernel on the image mkfs builds.
    - Ulib: user/ulib.c, user/printf.c.  Umalloc: user/umalloc.c.
    - Unix: system calls and the logic for programs.  Utils: cat, wc, ls, echo, kill,
      ln, mkdir, rm.  Grep: grep.c.  Uproc: init, forktest, zombie, time, strace,
      setpriority, schedulertest, stressfs.  Grind: grind.c.  Usertests: the file
      tests of usertests.c.
    - Sh, Shrun: the parser and the execution of commands of user/sh.c.

    ** What the theorems show

    - Storage, bottom to top: the driver moves blocks ([Diskio.virtio_write_read]); a
      transaction is atomic, whatever writes a crash cuts off ([Crash.commit_crash_safe],
      [Log.log_write_absorbs]); paths are resolved ([Namei.namei_resolves]); read()
      delivers the bytes of the file ([Readfile.sys_read_reads]); mkfs lays out what it
      was given ([Mkfs.mkfs_image]) and the kernel reads exactly that
      ([Image.kernel_reads_image]).
    - Memory: page-table operations refine updates of a map ([Pagetable.mappages_maps],
      [Pagetable.copyout_then_copyin]); fork() copies an address space
      ([Fork.fork_copies]); the allocators are lists without loss or overlap (Kalloc,
      [Umalloc.malloc_safe]).
    - Processes and scheduling: mutual exclusion ([Smp.spinlock_mutual_exclusion]), no
      lost wakeup ([Proc.sleep_then_wakeup]), each policy selects the process it
      promises and ageing prevents starvation (Sched), time slices
      ([Trap.timer_preemption]), the formula of the dynamic priority and its range.
    - Control transfer: boot ([Start.hart_boots]), context switch, traps in the kernel
      and from user space ([Asm.kernelvec_transparent], [Asm.timervec_transparent],
      [Trampoline.trampoline_round_trip]), a whole system call
      ([Ucall.system_call_returns]), the first program ([Initcode.initcode_execs_init]),
      and the types of the machine state ([Rtypes.assembly_typed]).
    - Pipes and console: first in, first out (Pipe), line editing
      ([Tty.consoleintr_edits_line]).
    - Programs: the shell's parser ends and a line does what it says
      ([Sh.parsecmd_ends], [Shrun.shell_runs_line]); grep matches the language of its
      pattern and filters files (Grep); wc counts, ls lists, cat copies (Utils); init
      keeps one shell ([Uproc.init_keeps_shell]); forktest passes; grind never leaks.
      The specification these proofs rely on passes the file tests of usertests.c
      ([Usertests.usertests_pass]).

    ** Bounds and fuel

    [Monad.loop] runs at most 2^64 rounds, more than any loop of the kernel makes
    before its 64-bit counter would wrap, and the theorems show that it returns.  Polling
    loops are bounded by [spin_fuel]; a loop around sleep() by the length of the
    environment, since each round sleeps once.  The parser of the shell has fuel 4 n + 4
    for a line of n bytes, proved to be enough ([Sh.parsecmd_ends]); namex() one
    unit for each byte of the path; iappend() one for each byte written; the search in
    malloc() one for each block of the ring.  [Unix.run] takes fuel, and [Unix.always]
    implies that some amount is enough for every list of choices; [Unix.safe] is about
    any number of steps of programs that do not end.  Every test of Usertests.v ends
    within 1100 steps.

    ** Not modelled

    - The tests of user/usertests.c that pass bad addresses, change directories or
      depend on several processes: [Unix.answer] is what one process sees, with paths
      as flat names.  What they check of the kernel is what its theorems state.
    - kernel/ramdisk.c: not compiled, and it uses fields and constants that no longer
      exist.
    - kernel/defs.h, user/user.h as prototypes; accessors of riscv.h that nothing calls.
    - Instruction fetch, caches and the memory order of the machine: code runs on one
      hart between the points where it can be switched out, and the atomic swap of a
      spinlock is one step.  kernel.ld and the Makefile, which the parameters describe. *)

From Stdlib Require Export ZArith Lia.
From stdpp Require Export base tactics gmap strings option.
From stdpp Require Export list.

#[global] Open Scope Z_scope.

(** ** Machine integers

    C integers are [Z] with their wrap-around written out: [u32 x] is what an
    [uint] variable holds after [x] is assigned to it, [s32 x] the same for
    [int]. *)

#[global] Arguments Z.add : simpl never.
#[global] Arguments Z.sub : simpl never.
#[global] Arguments Z.mul : simpl never.
#[global] Arguments Z.opp : simpl never.
#[global] Arguments Z.pow : simpl never.
#[global] Arguments Z.div : simpl never.
#[global] Arguments Z.modulo : simpl never.
#[global] Arguments Z.land : simpl never.
#[global] Arguments Z.lor : simpl never.
#[global] Arguments Z.lnot : simpl never.
#[global] Arguments Z.shiftl : simpl never.
#[global] Arguments Z.shiftr : simpl never.
#[global] Arguments Z.testbit : simpl never.
#[global] Arguments Z.of_nat : simpl never.
#[global] Arguments Z.to_nat : simpl never.
#[global] Arguments Z.ltb : simpl never.
#[global] Arguments Z.leb : simpl never.
#[global] Arguments Z.eqb : simpl never.

Declare Scope cint_scope.
Delimit Scope cint_scope with cint.

Definition u8 (x : Z) : Z := x mod 2 ^ 8.

Definition u16 (x : Z) : Z := x mod 2 ^ 16.

Definition u32 (x : Z) : Z := x mod 2 ^ 32.

Definition u64 (x : Z) : Z := x mod 2 ^ 64.

Definition s16 (x : Z) : Z := (x + 2 ^ 15) mod 2 ^ 16 - 2 ^ 15.

Definition s32 (x : Z) : Z := (x + 2 ^ 31) mod 2 ^ 32 - 2 ^ 31.

Notation "a +32 b" := (u32 (a + b)) (at level 50, left associativity) : cint_scope.
Notation "a -32 b" := (u32 (a - b)) (at level 50, left associativity) : cint_scope.
Notation "a *32 b" := (u32 (a * b)) (at level 40, left associativity) : cint_scope.
Notation "a +64 b" := (u64 (a + b)) (at level 50, left associativity) : cint_scope.
Notation "a -64 b" := (u64 (a - b)) (at level 50, left associativity) : cint_scope.

#[global] Open Scope cint_scope.

Create HintDb cint.

Lemma u32_range x : 0 <= u32 x < 2 ^ 32.
Proof. apply Z.mod_pos_bound. lia. Qed.

Lemma u64_range x : 0 <= u64 x < 2 ^ 64.
Proof. apply Z.mod_pos_bound. lia. Qed.

Lemma s32_range x : - 2 ^ 31 <= s32 x < 2 ^ 31.
Proof. unfold s32. pose proof (Z.mod_pos_bound (x + 2 ^ 31) (2 ^ 32)). lia. Qed.

Lemma u32_small x : 0 <= x < 2 ^ 32 -> u32 x = x.
Proof. intros. apply Z.mod_small. lia. Qed.

Lemma u64_small x : 0 <= x < 2 ^ 64 -> u64 x = x.
Proof. intros. apply Z.mod_small. lia. Qed.

Lemma s32_small x : - 2 ^ 31 <= x < 2 ^ 31 -> s32 x = x.
Proof. intros. unfold s32. rewrite Z.mod_small; lia. Qed.

#[export] Hint Resolve u32_range u64_range s32_range : cint.

(** ** Bytes of a C string constant *)

Fixpoint bytes_of (s : string) : list Z :=
  match s with
  | EmptyString => []
  | String c s => Z.of_N (Ascii.N_of_ascii c) :: bytes_of s
  end.

(** ** Selecting the first best element of a table scan

    Every scheduler of proc.c scans the process table keeping the best
    candidate so far; a candidate is replaced only by a strictly better one.
    [scan better l] is that loop over the (index, element) pairs. *)

Section Scan.
Context {A : Type} (better : A -> A -> bool).

Definition keep (best : option A) (x : A) : option A :=
  match best with
  | None => Some x
  | Some b => if better x b then Some x else best
  end.

Definition scan (l : list A) : option A := fold_left keep l None.

Hypothesis better_irrefl : forall x, better x x = false.
Hypothesis better_trans :
  forall x y z, better x y = true -> better y z = true -> better x z = true.
Hypothesis better_cotrans :
  forall x y z, better x z = true -> better x y = true \/ better y z = true.

Lemma fold_keep_Some l b :
  exists x, fold_left keep l (Some b) = Some x /\
    ((x = b /\ forall y, y ∈ l -> better y b = false) \/
     (better x b = true /\
      exists l1 l2, l = l1 ++ x :: l2 /\
        (forall y, y ∈ l1 -> better y x = false /\ better x y = true) /\
        (forall y, y ∈ l2 -> better y x = false))).
Proof using better_irrefl better_trans better_cotrans.
  revert b; induction l as [|a l IH]; intros b; simpl.
  { exists b. split; [done|]. left. split; [done|]. by intros y ?%elem_of_nil. }
  destruct (better a b) eqn:Hab.
  - destruct (IH a) as (x & -> & [[-> Hl]|(Hxa & l1 & l2 & -> & H1 & H2)]);
      exists x || exists a; (split; [done|]; right).
    + split; [done|]. exists [], l. split; [done|].
      split; [by intros y ?%elem_of_nil | done].
    + split; [eauto|]. exists (a :: l1), l2. split; [done|]. split; [|done].
      intros y [->|Hy]%elem_of_cons; [|auto]. split; [|done].
      destruct (better a x) eqn:Hax; [|done].
      by rewrite <- (better_irrefl a), (better_trans a x a).
  - destruct (IH b) as (x & -> & [[-> Hl]|(Hxb & l1 & l2 & -> & H1 & H2)]);
      exists x || exists b; (split; [done|]).
    + left. split; [done|]. intros y [->|Hy]%elem_of_cons; auto.
    + right. split; [done|]. exists (a :: l1), l2. split; [done|]. split; [|done].
      intros y [->|Hy]%elem_of_cons; [|auto].
      assert (Hxa : better x a = true)
        by (destruct (better_cotrans x a b Hxb); congruence).
      split; [|done]. destruct (better a x) eqn:Hax; [|done].
      by rewrite <- (better_irrefl a), (better_trans a x a).
Qed.

(** The scan of a non-empty list returns an element that nothing beats, and
    that strictly beats everything before it: the first minimum. *)
Lemma scan_spec l x :
  scan l = Some x <->
  exists l1 l2, l = l1 ++ x :: l2 /\
    (forall y, y ∈ l1 -> better x y = true) /\
    (forall y, y ∈ l1 ++ l2 -> better y x = false).
Proof using better_irrefl better_trans better_cotrans.
  unfold scan. split.
  - destruct l as [|a l]; [done|]. simpl.
    destruct (fold_keep_Some l a) as (z & -> & Hz). intros [= ->].
    destruct Hz as [[-> Hl]|(Hxa & l1 & l2 & -> & H1 & H2)].
    + exists [], l. split; [done|]. split; [by intros y ?%elem_of_nil | done].
    + exists (a :: l1), l2. split; [done|]. split.
      * intros y [->|Hy]%elem_of_cons; [done|]. by apply H1.
      * intros y [[->|Hy]%elem_of_cons|Hy]%elem_of_app; [|by apply H1|by apply H2].
        destruct (better a x) eqn:Hax; [|done].
        by rewrite <- (better_irrefl a), (better_trans a x a).
  - intros (l1 & l2 & -> & H1 & H2). rewrite fold_left_app.
    assert (Hk : keep (fold_left keep l1 None) x = Some x).
    { destruct l1 as [|a l1]; [done|]. simpl.
      destruct (fold_keep_Some l1 a) as (z & -> & Hz). simpl.
      assert (better x z = true) as ->; [|done].
      destruct Hz as [[-> _]|(_ & k1 & k2 & -> & _)]; apply H1; set_solver. }
    cbn [fold_left]. rewrite Hk. clear Hk H1.
    assert (Hl : forall y, y ∈ l2 -> better y x = false)
      by (intros; apply H2; set_solver). clear H2.
    induction l2 as [|b l2 IH]; [done|]. simpl. rewrite (Hl b) by set_solver.
    apply IH. intros; apply Hl; set_solver.
Qed.

Lemma scan_None l : scan l = None <-> l = [].
Proof using better_irrefl better_trans better_cotrans.
  unfold scan. destruct l as [|a l]; [done|]. simpl. split; [|done].
  destruct (fold_keep_Some l a) as (z & -> & _). done.
Qed.

End Scan.

(** The lexicographic order on the keys the schedulers compare. *)
Definition lt3 (a b : Z * Z * Z) : bool :=
  let '(a1, a2, a3) := a in
  let '(b1, b2, b3) := b in
  (a1 <? b1) || ((a1 =? b1) && ((a2 <? b2) || ((a2 =? b2) && (a3 <? b3)))).

Lemma lt3_lt a1 a2 a3 b1 b2 b3 :
  lt3 (a1, a2, a3) (b1, b2, b3) = true <->
  a1 < b1 \/ a1 = b1 /\ (a2 < b2 \/ a2 = b2 /\ a3 < b3).
Proof.
  unfold lt3. rewrite orb_true_iff, andb_true_iff, orb_true_iff, andb_true_iff.
  by rewrite !Z.ltb_lt, !Z.eqb_eq.
Qed.

Lemma lt3_irrefl a : lt3 a a = false.
Proof.
  destruct a as [[a1 a2] a3]. apply not_true_is_false. rewrite lt3_lt. lia.
Qed.

Lemma lt3_trans a b c : lt3 a b = true -> lt3 b c = true -> lt3 a c = true.
Proof. destruct a as [[? ?] ?], b as [[? ?] ?], c as [[? ?] ?]. rewrite !lt3_lt. lia. Qed.

Lemma lt3_cotrans a b c : lt3 a c = true -> lt3 a b = true \/ lt3 b c = true.
Proof. destruct a as [[? ?] ?], b as [[? ?] ?], c as [[? ?] ?]. rewrite !lt3_lt. lia. Qed.

(** ** Lists *)

Lemma fold_left_filter {A B} (P : B -> bool) (f : A -> B -> A) l a :
  fold_left (fun a b => if P b then f a b else a) l a = fold_left f (filter P l) a.
Proof.
  revert a. induction l as [|b l IH]; intros a; [done|]. cbn [fold_left]. rewrite filter_cons.
  destruct (P b); cbn; rewrite IH; done.
Qed.

Lemma Forall_elem {A} (P : A -> Prop) l x : Forall P l -> x ∈ l -> P x.
Proof. rewrite Forall_forall. auto. Qed.

(** Updating one entry of a table whose value is known. *)
Lemma alter_same {A} (f : A -> A) (l : list A) i x :
  l !! i = Some x -> f x = x -> alter f i l = l.
Proof.
  intros Hx Hf. apply list_eq. intros j. rewrite list_lookup_alter.
  case_decide; [subst; by rewrite Hx; simpl; rewrite Hf | done].
Qed.

Lemma alter_at {A} (f g : A -> A) (l : list A) i x :
  l !! i = Some x -> f x = g x -> alter f i l = alter g i l.
Proof. intros Hx Hf. apply list_alter_ext; [|done]. intros y. rewrite Hx. by intros [= <-]. Qed.

Lemma list_insert_alter_const {A} (x : A) (l : list A) i y :
  l !! i = Some y -> <[i := x]> l = alter (fun _ => x) i l.
Proof.
  intros Hy. apply list_eq. intros j. rewrite list_lookup_alter.
  destruct (decide (i = j)) as [->|Hne].
  - rewrite Hy, list_lookup_insert_eq by (by eapply lookup_lt_Some). done.
  - by rewrite list_lookup_insert_ne.
Qed.

(** ** Tactics shared by the components *)

(** Split on the boolean tests of the code and turn them into propositions. *)
(** Case analysis on the comparisons of integers in the goal, inner ones
    first. *)
Ltac no_if t := lazymatch t with context [if _ then _ else _] => fail | _ => idtac end.

Ltac zcases :=
  repeat match goal with
  | |- context [?a <? ?b] => no_if a; no_if b; destruct (Z.ltb_spec a b)
  | |- context [?a <=? ?b] => no_if a; no_if b; destruct (Z.leb_spec a b)
  | |- context [?a =? ?b] => no_if a; no_if b; destruct (Z.eqb_spec a b)
  end.

Ltac destruct_bool :=
  repeat match goal with
  | H : (_ && _)%bool = true |- _ => apply andb_true_iff in H; destruct H
  | H : (_ || _)%bool = false |- _ => apply orb_false_iff in H; destruct H
  | H : (?a <? ?b) = true |- _ => apply Z.ltb_lt in H
  | H : (?a <? ?b) = false |- _ => apply Z.ltb_ge in H
  | H : (?a <=? ?b) = true |- _ => apply Z.leb_le in H
  | H : (?a <=? ?b) = false |- _ => apply Z.leb_gt in H
  | H : (?a =? ?b) = true |- _ => apply Z.eqb_eq in H
  | H : (?a =? ?b) = false |- _ => apply Z.eqb_neq in H
  | H : bool_decide _ = true |- _ => apply bool_decide_eq_true in H
  | H : bool_decide _ = false |- _ => apply bool_decide_eq_false in H
  | H : negb _ = true |- _ => apply negb_true_iff in H
  | H : negb _ = false |- _ => apply negb_false_iff in H
  end.

(** Linear arithmetic with division and remainder by constants. *)
Ltac dlia := Z.to_euclidean_division_equations; lia.
