(* ===== verification/State.v ===== *)
(** * The kernel's data: constants, structs and global variables

    One Rocq record per C struct, one field per C field, and one record
    [kernel] whose fields are the kernel's global variables.  A pointer to an
    element of a static table ([proc[]], [cpus[]], [ftable.file[]],
    [itable.inode[]], [bcache.buf[]]) is the element's index, a null pointer is
    [None]; an address of physical memory is a [Z].  Spinlocks are named by
    [lockid] and sleep channels by [chan], so that two C expressions give the
    same address exactly when they give the same constructor term. *)

From S2P Require Import Prelude.



(** ** Record update: [r <| field := v |>] and [r <| field ::= f |>] *)

Class Update {R T : Type} (proj : R -> T) := upd : (T -> T) -> R -> R.
#[global] Hint Mode Update - - + : typeclass_instances.
Arguments upd {R T} proj {_} f r.

Notation "r <| p ::= f |>" := (upd p f r) (at level 12, left associativity).
Notation "r <| p := v |>" := (upd p (fun _ => v) r) (at level 12, left associativity).

(** ** Constants: param.h, riscv.h, memlayout.h, fs.h *)

Definition NPROC : nat := 64.
Definition NCPU : nat := 8.
Definition NOFILE : nat := 16.
Definition NFILE : nat := 100.
Definition NINODE : nat := 50.
Definition NDEV : Z := 10.
Definition ROOTDEV : Z := 1.
Definition MAXARG : nat := 32.
Definition MAXOPBLOCKS : Z := 10.
Definition LOGSIZE : Z := MAXOPBLOCKS * 3.
Definition NBUF : nat := 30.
Definition FSSIZE : Z := 1000.
Definition MAXPATH : Z := 128.
Definition NPQ : nat := 5.
Definition MAXAGE : Z := 15.

Definition PGSIZE : Z := 4096.
Definition PGSHIFT : Z := 12.
Definition PTE_V : Z := Z.shiftl 1 0.
Definition PTE_R : Z := Z.shiftl 1 1.
Definition PTE_W : Z := Z.shiftl 1 2.
Definition PTE_X : Z := Z.shiftl 1 3.
Definition PTE_U : Z := Z.shiftl 1 4.
Definition MAXVA : Z := Z.shiftl 1 (9 + 9 + 9 + 12 - 1).
Definition SATP_SV39 : Z := Z.shiftl 8 60.

Definition SSTATUS_SPP : Z := Z.shiftl 1 8.
Definition SSTATUS_SPIE : Z := Z.shiftl 1 5.
Definition SSTATUS_SIE : Z := Z.shiftl 1 1.

Definition UART0 : Z := 0x10000000.
Definition UART0_IRQ : Z := 10.
Definition VIRTIO0 : Z := 0x10001000.
Definition VIRTIO0_IRQ : Z := 1.
Definition PLIC : Z := 0x0c000000.
Definition KERNBASE : Z := 0x80000000.
Definition PHYSTOP : Z := KERNBASE + 128 * 1024 * 1024.
Definition TRAMPOLINE : Z := MAXVA - PGSIZE.
Definition KSTACK (p : Z) : Z := TRAMPOLINE - (p + 1) * 2 * PGSIZE.
Definition TRAPFRAME : Z := TRAMPOLINE - PGSIZE.

Definition ROOTINO : Z := 1.
Definition BSIZE : Z := 1024.
Definition FSMAGIC : Z := 0x10203040.
Definition NDIRECT : nat := 12.
Definition NINDIRECT : nat := 256.
Definition MAXFILE : nat := NDIRECT + NINDIRECT.
Definition DIRSIZ : nat := 14.
Definition T_DIR : Z := 1.
Definition T_FILE : Z := 2.
Definition T_DEVICE : Z := 3.
Definition CONSOLE : Z := 1.
Definition PIPESIZE : Z := 512.
Definition INPUT_BUF : Z := 128.
Definition UART_TX_BUF_SIZE : Z := 32.
Definition NUM : nat := 8.

(** ** The build-time choice of scheduler: the macro SCHEDULER of the Makefile *)

Inductive policy := RR | FCFS | PBS | MLFQ.

Class Config := sched_policy : policy.

(** ** What the kernel is linked with and runs on

    Linker symbols and the addresses of assembly entry points, and the values
    memory-mapped device registers return: the [n]th read of a device register
    gives [dev_read addr n], whatever the device does.  [uninit] is the value an
    uninitialised local variable happens to have.  [spin_fuel] bounds how often
    a busy-wait on a device register is retried. *)

Class Platform := {
  sym_end : Z;
  sym_etext : Z;
  sym_trampoline : Z;
  sym_uservec : Z;
  sym_userret : Z;
  sym_kernelvec : Z;
  sym_usertrap : Z;
  sym_forkret : Z;
  sym_disk_pages : Z;
  dev_read : Z -> nat -> Z;
  uninit : Z;
  spin_fuel : nat;
}.

(** ** Names of locks and sleep channels *)

(** The sleep-locks: one per buffer of the cache and one per in-memory inode. *)
Inductive sleepid := SBuf (i : nat) | SInode (i : nat).

Inductive lockid :=
| LPid | LWait | LTicks | LKmem | LFtable | LBcache | LItable | LLog | LCons
| LPr | LUart | LVdisk
| LProc (i : nat)
| LPipe (pa : Z)
| LSleep (id : sleepid).

Inductive chan :=
| ChNull
| ChTicks
| ChProc (i : nat)
| ChPipeRead (pa : Z)
| ChPipeWrite (pa : Z)
| ChSleepLock (id : sleepid)
| ChLog
| ChCons
| ChUart
| ChBuf (i : nat)
| ChDiskFree.

#[export] Instance sleepid_eq_dec : EqDecision sleepid.
Proof. solve_decision. Defined.
#[export] Instance lockid_eq_dec : EqDecision lockid.
Proof. solve_decision. Defined.
#[export] Instance chan_eq_dec : EqDecision chan.
Proof. solve_decision. Defined.

Definition lockid_code (l : lockid) : nat * Z :=
  match l with
  | LPid => (0%nat, 0) | LWait => (0%nat, 1) | LTicks => (0%nat, 2)
  | LKmem => (0%nat, 3) | LFtable => (0%nat, 4) | LBcache => (0%nat, 5)
  | LItable => (0%nat, 6) | LLog => (0%nat, 7) | LCons => (0%nat, 8)
  | LPr => (0%nat, 9) | LUart => (0%nat, 10) | LVdisk => (0%nat, 11)
  | LProc i => (1%nat, Z.of_nat i)
  | LPipe pa => (2%nat, pa)
  | LSleep (SBuf i) => (3%nat, Z.of_nat i)
  | LSleep (SInode i) => (4%nat, Z.of_nat i)
  end.

Definition lockid_decode (c : nat * Z) : option lockid :=
  match c with
  | (0%nat, z) =>
      [LPid; LWait; LTicks; LKmem; LFtable; LBcache; LItable; LLog; LCons;
       LPr; LUart; LVdisk] !! Z.to_nat z
  | (1%nat, z) => Some (LProc (Z.to_nat z))
  | (2%nat, z) => Some (LPipe z)
  | (3%nat, z) => Some (LSleep (SBuf (Z.to_nat z)))
  | (4%nat, z) => Some (LSleep (SInode (Z.to_nat z)))
  | _ => None
  end.

#[export] Instance lockid_countable : Countable lockid.
Proof.
  apply (inj_countable lockid_code lockid_decode).
  intros [| | | | | | | | | | | | i | pa | [i|i]]; simpl; rewrite ?Nat2Z.id; done.
Defined.

(** ** spinlock.h, sleeplock.h, proc.h *)

Record spinlock := mkspinlock {
  lk_locked : bool;
  lk_name : string;
  lk_cpu : option nat
}.

#[export] Instance upd_lk_locked : Update lk_locked :=
  fun f r => mkspinlock (f (lk_locked r)) (lk_name r) (lk_cpu r).
#[export] Instance upd_lk_name : Update lk_name :=
  fun f r => mkspinlock (lk_locked r) (f (lk_name r)) (lk_cpu r).
#[export] Instance upd_lk_cpu : Update lk_cpu :=
  fun f r => mkspinlock (lk_locked r) (lk_name r) (f (lk_cpu r)).

Record sleeplock := mksleeplock {
  sl_locked : bool;
  sl_name : string;
  sl_pid : Z
}.

#[export] Instance upd_sl_locked : Update sl_locked :=
  fun f r => mksleeplock (f (sl_locked r)) (sl_name r) (sl_pid r).
#[export] Instance upd_sl_name : Update sl_name :=
  fun f r => mksleeplock (sl_locked r) (f (sl_name r)) (sl_pid r).
#[export] Instance upd_sl_pid : Update sl_pid :=
  fun f r => mksleeplock (sl_locked r) (sl_name r) (f (sl_pid r)).

(** Saved registers for kernel context switches. *)
Record context := mkcontext {
  ctx_ra : Z;
  ctx_sp : Z;
  ctx_s : list Z
}.

#[export] Instance upd_ctx_ra : Update ctx_ra :=
  fun f r => mkcontext (f (ctx_ra r)) (ctx_sp r) (ctx_s r).
#[export] Instance upd_ctx_sp : Update ctx_sp :=
  fun f r => mkcontext (ctx_ra r) (f (ctx_sp r)) (ctx_s r).
#[export] Instance upd_ctx_s : Update ctx_s :=
  fun f r => mkcontext (ctx_ra r) (ctx_sp r) (f (ctx_s r)).

Definition context0 : context := mkcontext 0 0 (replicate 12 0).

Record cpu := mkcpu {
  c_proc : option nat;
  c_context : context;
  c_noff : Z;
  c_intena : bool
}.

#[export] Instance upd_c_proc : Update c_proc :=
  fun f r => mkcpu (f (c_proc r)) (c_context r) (c_noff r) (c_intena r).
#[export] Instance upd_c_context : Update c_context :=
  fun f r => mkcpu (c_proc r) (f (c_context r)) (c_noff r) (c_intena r).
#[export] Instance upd_c_noff : Update c_noff :=
  fun f r => mkcpu (c_proc r) (c_context r) (f (c_noff r)) (c_intena r).
#[export] Instance upd_c_intena : Update c_intena :=
  fun f r => mkcpu (c_proc r) (c_context r) (c_noff r) (f (c_intena r)).

Lemma cpu_eq (r1 r2 : cpu) :
  c_proc r1 = c_proc r2 -> c_context r1 = c_context r2 -> c_noff r1 = c_noff r2 -> c_intena
  r1 = c_intena r2 -> r1 = r2.
Proof. destruct r1, r2; cbn. intros. by subst. Qed.

Record trapframe := mktrapframe {
  tf_kernel_satp : Z;
  tf_kernel_sp : Z;
  tf_kernel_trap : Z;
  tf_epc : Z;
  tf_kernel_hartid : Z;
  tf_ra : Z;
  tf_sp : Z;
  tf_gp : Z;
  tf_tp : Z;
  tf_t0 : Z;
  tf_t1 : Z;
  tf_t2 : Z;
  tf_s0 : Z;
  tf_s1 : Z;
  tf_a0 : Z;
  tf_a1 : Z;
  tf_a2 : Z;
  tf_a3 : Z;
  tf_a4 : Z;
  tf_a5 : Z;
  tf_a6 : Z;
  tf_a7 : Z;
  tf_s2 : Z;
  tf_s3 : Z;
  tf_s4 : Z;
  tf_s5 : Z;
  tf_s6 : Z;
  tf_s7 : Z;
  tf_s8 : Z;
  tf_s9 : Z;
  tf_s10 : Z;
  tf_s11 : Z;
  tf_t3 : Z;
  tf_t4 : Z;
  tf_t5 : Z;
  tf_t6 : Z
}.

#[export] Instance upd_tf_kernel_satp : Update tf_kernel_satp :=
  fun f r => mktrapframe (f (tf_kernel_satp r)) (tf_kernel_sp r) (tf_kernel_trap r) (tf_epc
    r) (tf_kernel_hartid r) (tf_ra r) (tf_sp r) (tf_gp r) (tf_tp r) (tf_t0 r) (tf_t1 r)
    (tf_t2 r) (tf_s0 r) (tf_s1 r) (tf_a0 r) (tf_a1 r) (tf_a2 r) (tf_a3 r) (tf_a4 r) (tf_a5
    r) (tf_a6 r) (tf_a7 r) (tf_s2 r) (tf_s3 r) (tf_s4 r) (tf_s5 r) (tf_s6 r) (tf_s7 r)
    (tf_s8 r) (tf_s9 r) (tf_s10 r) (tf_s11 r) (tf_t3 r) (tf_t4 r) (tf_t5 r) (tf_t6 r).
#[export] Instance upd_tf_kernel_sp : Update tf_kernel_sp :=
  fun f r => mktrapframe (tf_kernel_satp r) (f (tf_kernel_sp r)) (tf_kernel_trap r) (tf_epc
    r) (tf_kernel_hartid r) (tf_ra r) (tf_sp r) (tf_gp r) (tf_tp r) (tf_t0 r) (tf_t1 r)
    (tf_t2 r) (tf_s0 r) (tf_s1 r) (tf_a0 r) (tf_a1 r) (tf_a2 r) (tf_a3 r) (tf_a4 r) (tf_a5
    r) (tf_a6 r) (tf_a7 r) (tf_s2 r) (tf_s3 r) (tf_s4 r) (tf_s5 r) (tf_s6 r) (tf_s7 r)
    (tf_s8 r) (tf_s9 r) (tf_s10 r) (tf_s11 r) (tf_t3 r) (tf_t4 r) (tf_t5 r) (tf_t6 r).
#[export] Instance upd_tf_kernel_trap : Update tf_kernel_trap :=
  fun f r => mktrapframe (tf_kernel_satp r) (tf_kernel_sp r) (f (tf_kernel_trap r)) (tf_epc
    r) (tf_kernel_hartid r) (tf_ra r) (tf_sp r) (tf_gp r) (tf_tp r) (tf_t0 r) (tf_t1 r)
    (tf_t2 r) (tf_s0 r) (tf_s1 r) (tf_a0 r) (tf_a1 r) (tf_a2 r) (tf_a3 r) (tf_a4 r) (tf_a5
    r) (tf_a6 r) (tf_a7 r) (tf_s2 r) (tf_s3 r) (tf_s4 r) (tf_s5 r) (tf_s6 r) (tf_s7 r)
    (tf_s8 r) (tf_s9 r) (tf_s10 r) (tf_s11 r) (tf_t3 r) (tf_t4 r) (tf_t5 r) (tf_t6 r).
#[export] Instance upd_tf_epc : Update tf_epc :=
  fun f r => mktrapframe (tf_kernel_satp r) (tf_kernel_sp r) (tf_kernel_trap r) (f (tf_epc
    r)) (tf_kernel_hartid r) (tf_ra r) (tf_sp r) (tf_gp r) (tf_tp r) (tf_t0 r) (tf_t1 r)
    (tf_t2 r) (tf_s0 r) (tf_s1 r) (tf_a0 r) (tf_a1 r) (tf_a2 r) (tf_a3 r) (tf_a4 r) (tf_a5
    r) (tf_a6 r) (tf_a7 r) (tf_s2 r) (tf_s3 r) (tf_s4 r) (tf_s5 r) (tf_s6 r) (tf_s7 r)
    (tf_s8 r) (tf_s9 r) (tf_s10 r) (tf_s11 r) (tf_t3 r) (tf_t4 r) (tf_t5 r) (tf_t6 r).
#[export] Instance upd_tf_kernel_hartid : Update tf_kernel_hartid :=
  fun f r => mktrapframe (tf_kernel_satp r) (tf_kernel_sp r) (tf_kernel_trap r) (tf_epc r)
    (f (tf_kernel_hartid r)) (tf_ra r) (tf_sp r) (tf_gp r) (tf_tp r) (tf_t0 r) (tf_t1 r)
    (tf_t2 r) (tf_s0 r) (tf_s1 r) (tf_a0 r) (tf_a1 r) (tf_a2 r) (tf_a3 r) (tf_a4 r) (tf_a5
    r) (tf_a6 r) (tf_a7 r) (tf_s2 r) (tf_s3 r) (tf_s4 r) (tf_s5 r) (tf_s6 r) (tf_s7 r)
    (tf_s8 r) (tf_s9 r) (tf_s10 r) (tf_s11 r) (tf_t3 r) (tf_t4 r) (tf_t5 r) (tf_t6 r).
#[export] Instance upd_tf_ra : Update tf_ra :=
  fun f r => mktrapframe (tf_kernel_satp r) (tf_kernel_sp r) (tf_kernel_trap r) (tf_epc r)
    (tf_kernel_hartid r) (f (tf_ra r)) (tf_sp r) (tf_gp r) (tf_tp r) (tf_t0 r) (tf_t1 r)
    (tf_t2 r) (tf_s0 r) (tf_s1 r) (tf_a0 r) (tf_a1 r) (tf_a2 r) (tf_a3 r) (tf_a4 r) (tf_a5
    r) (tf_a6 r) (tf_a7 r) (tf_s2 r) (tf_s3 r) (tf_s4 r) (tf_s5 r) (tf_s6 r) (tf_s7 r)
    (tf_s8 r) (tf_s9 r) (tf_s10 r) (tf_s11 r) (tf_t3 r) (tf_t4 r) (tf_t5 r) (tf_t6 r).
#[export] Instance upd_tf_sp : Update tf_sp :=
  fun f r => mktrapframe (tf_kernel_satp r) (tf_kernel_sp r) (tf_kernel_trap r) (tf_epc r)
    (tf_kernel_hartid r) (tf_ra r) (f (tf_sp r)) (tf_gp r) (tf_tp r) (tf_t0 r) (tf_t1 r)
    (tf_t2 r) (tf_s0 r) (tf_s1 r) (tf_a0 r) (tf_a1 r) (tf_a2 r) (tf_a3 r) (tf_a4 r) (tf_a5
    r) (tf_a6 r) (tf_a7 r) (tf_s2 r) (tf_s3 r) (tf_s4 r) (tf_s5 r) (tf_s6 r) (tf_s7 r)
    (tf_s8 r) (tf_s9 r) (tf_s10 r) (tf_s11 r) (tf_t3 r) (tf_t4 r) (tf_t5 r) (tf_t6 r).
#[export] Instance upd_tf_gp : Update tf_gp :=
  fun f r => mktrapframe (tf_kernel_satp r) (tf_kernel_sp r) (tf_kernel_trap r) (tf_epc r)
    (tf_kernel_hartid r) (tf_ra r) (tf_sp r) (f (tf_gp r)) (tf_tp r) (tf_t0 r) (tf_t1 r)
    (tf_t2 r) (tf_s0 r) (tf_s1 r) (tf_a0 r) (tf_a1 r) (tf_a2 r) (tf_a3 r) (tf_a4 r) (tf_a5
    r) (tf_a6 r) (tf_a7 r) (tf_s2 r) (tf_s3 r) (tf_s4 r) (tf_s5 r) (tf_s6 r) (tf_s7 r)
    (tf_s8 r) (tf_s9 r) (tf_s10 r) (tf_s11 r) (tf_t3 r) (tf_t4 r) (tf_t5 r) (tf_t6 r).
#[export] Instance upd_tf_tp : Update tf_tp :=
  fun f r => mktrapframe (tf_kernel_satp r) (tf_kernel_sp r) (tf_kernel_trap r) (tf_epc r)
    (tf_kernel_hartid r) (tf_ra r) (tf_sp r) (tf_gp r) (f (tf_tp r)) (tf_t0 r) (tf_t1 r)
    (tf_t2 r) (tf_s0 r) (tf_s1 r) (tf_a0 r) (tf_a1 r) (tf_a2 r) (tf_a3 r) (tf_a4 r) (tf_a5
    r) (tf_a6 r) (tf_a7 r) (tf_s2 r) (tf_s3 r) (tf_s4 r) (tf_s5 r) (tf_s6 r) (tf_s7 r)
    (tf_s8 r) (tf_s9 r) (tf_s10 r) (tf_s11 r) (tf_t3 r) (tf_t4 r) (tf_t5 r) (tf_t6 r).
#[export] Instance upd_tf_t0 : Update tf_t0 :=
  fun f r => mktrapframe (tf_kernel_satp r) (tf_kernel_sp r) (tf_kernel_trap r) (tf_epc r)
    (tf_kernel_hartid r) (tf_ra r) (tf_sp r) (tf_gp r) (tf_tp r) (f (tf_t0 r)) (tf_t1 r)
    (tf_t2 r) (tf_s0 r) (tf_s1 r) (tf_a0 r) (tf_a1 r) (tf_a2 r) (tf_a3 r) (tf_a4 r) (tf_a5
    r) (tf_a6 r) (tf_a7 r) (tf_s2 r) (tf_s3 r) (tf_s4 r) (tf_s5 r) (tf_s6 r) (tf_s7 r)
    (tf_s8 r) (tf_s9 r) (tf_s10 r) (tf_s11 r) (tf_t3 r) (tf_t4 r) (tf_t5 r) (tf_t6 r).
#[export] Instance upd_tf_t1 : Update tf_t1 :=
  fun f r => mktrapframe (tf_kernel_satp r) (tf_kernel_sp r) (tf_kernel_trap r) (tf_epc r)
    (tf_kernel_hartid r) (tf_ra r) (tf_sp r) (tf_gp r) (tf_tp r) (tf_t0 r) (f (tf_t1 r))
    (tf_t2 r) (tf_s0 r) (tf_s1 r) (tf_a0 r) (tf_a1 r) (tf_a2 r) (tf_a3 r) (tf_a4 r) (tf_a5
    r) (tf_a6 r) (tf_a7 r) (tf_s2 r) (tf_s3 r) (tf_s4 r) (tf_s5 r) (tf_s6 r) (tf_s7 r)
    (tf_s8 r) (tf_s9 r) (tf_s10 r) (tf_s11 r) (tf_t3 r) (tf_t4 r) (tf_t5 r) (tf_t6 r).
#[export] Instance upd_tf_t2 : Update tf_t2 :=
  fun f r => mktrapframe (tf_kernel_satp r) (tf_kernel_sp r) (tf_kernel_trap r) (tf_epc r)
    (tf_kernel_hartid r) (tf_ra r) (tf_sp r) (tf_gp r) (tf_tp r) (tf_t0 r) (tf_t1 r) (f
    (tf_t2 r)) (tf_s0 r) (tf_s1 r) (tf_a0 r) (tf_a1 r) (tf_a2 r) (tf_a3 r) (tf_a4 r) (tf_a5
    r) (tf_a6 r) (tf_a7 r) (tf_s2 r) (tf_s3 r) (tf_s4 r) (tf_s5 r) (tf_s6 r) (tf_s7 r)
    (tf_s8 r) (tf_s9 r) (tf_s10 r) (tf_s11 r) (tf_t3 r) (tf_t4 r) (tf_t5 r) (tf_t6 r).
#[export] Instance upd_tf_s0 : Update tf_s0 :=
  fun f r => mktrapframe (tf_kernel_satp r) (tf_kernel_sp r) (tf_kernel_trap r) (tf_epc r)
    (tf_kernel_hartid r) (tf_ra r) (tf_sp r) (tf_gp r) (tf_tp r) (tf_t0 r) (tf_t1 r) (tf_t2
    r) (f (tf_s0 r)) (tf_s1 r) (tf_a0 r) (tf_a1 r) (tf_a2 r) (tf_a3 r) (tf_a4 r) (tf_a5 r)
    (tf_a6 r) (tf_a7 r) (tf_s2 r) (tf_s3 r) (tf_s4 r) (tf_s5 r) (tf_s6 r) (tf_s7 r) (tf_s8
    r) (tf_s9 r) (tf_s10 r) (tf_s11 r) (tf_t3 r) (tf_t4 r) (tf_t5 r) (tf_t6 r).
#[export] Instance upd_tf_s1 : Update tf_s1 :=
  fun f r => mktrapframe (tf_kernel_satp r) (tf_kernel_sp r) (tf_kernel_trap r) (tf_epc r)
    (tf_kernel_hartid r) (tf_ra r) (tf_sp r) (tf_gp r) (tf_tp r) (tf_t0 r) (tf_t1 r) (tf_t2
    r) (tf_s0 r) (f (tf_s1 r)) (tf_a0 r) (tf_a1 r) (tf_a2 r) (tf_a3 r) (tf_a4 r) (tf_a5 r)
    (tf_a6 r) (tf_a7 r) (tf_s2 r) (tf_s3 r) (tf_s4 r) (tf_s5 r) (tf_s6 r) (tf_s7 r) (tf_s8
    r) (tf_s9 r) (tf_s10 r) (tf_s11 r) (tf_t3 r) (tf_t4 r) (tf_t5 r) (tf_t6 r).
#[export] Instance upd_tf_a0 : Update tf_a0 :=
  fun f r => mktrapframe (tf_kernel_satp r) (tf_kernel_sp r) (tf_kernel_trap r) (tf_epc r)
    (tf_kernel_hartid r) (tf_ra r) (tf_sp r) (tf_gp r) (tf_tp r) (tf_t0 r) (tf_t1 r) (tf_t2
    r) (tf_s0 r) (tf_s1 r) (f (tf_a0 r)) (tf_a1 r) (tf_a2 r) (tf_a3 r) (tf_a4 r) (tf_a5 r)
    (tf_a6 r) (tf_a7 r) (tf_s2 r) (tf_s3 r) (tf_s4 r) (tf_s5 r) (tf_s6 r) (tf_s7 r) (tf_s8
    r) (tf_s9 r) (tf_s10 r) (tf_s11 r) (tf_t3 r) (tf_t4 r) (tf_t5 r) (tf_t6 r).
#[export] Instance upd_tf_a1 : Update tf_a1 :=
  fun f r => mktrapframe (tf_kernel_satp r) (tf_kernel_sp r) (tf_kernel_trap r) (tf_epc r)
    (tf_kernel_hartid r) (tf_ra r) (tf_sp r) (tf_gp r) (tf_tp r) (tf_t0 r) (tf_t1 r) (tf_t2
    r) (tf_s0 r) (tf_s1 r) (tf_a0 r) (f (tf_a1 r)) (tf_a2 r) (tf_a3 r) (tf_a4 r) (tf_a5 r)
    (tf_a6 r) (tf_a7 r) (tf_s2 r) (tf_s3 r) (tf_s4 r) (tf_s5 r) (tf_s6 r) (tf_s7 r) (tf_s8
    r) (tf_s9 r) (tf_s10 r) (tf_s11 r) (tf_t3 r) (tf_t4 r) (tf_t5 r) (tf_t6 r).
#[export] Instance upd_tf_a2 : Update tf_a2 :=
  fun f r => mktrapframe (tf_kernel_satp r) (tf_kernel_sp r) (tf_kernel_trap r) (tf_epc r)
    (tf_kernel_hartid r) (tf_ra r) (tf_sp r) (tf_gp r) (tf_tp r) (tf_t0 r) (tf_t1 r) (tf_t2
    r) (tf_s0 r) (tf_s1 r) (tf_a0 r) (tf_a1 r) (f (tf_a2 r)) (tf_a3 r) (tf_a4 r) (tf_a5 r)
    (tf_a6 r) (tf_a7 r) (tf_s2 r) (tf_s3 r) (tf_s4 r) (tf_s5 r) (tf_s6 r) (tf_s7 r) (tf_s8
    r) (tf_s9 r) (tf_s10 r) (tf_s11 r) (tf_t3 r) (tf_t4 r) (tf_t5 r) (tf_t6 r).
#[export] Instance upd_tf_a3 : Update tf_a3 :=
  fun f r => mktrapframe (tf_kernel_satp r) (tf_kernel_sp r) (tf_kernel_trap r) (tf_epc r)
    (tf_kernel_hartid r) (tf_ra r) (tf_sp r) (tf_gp r) (tf_tp r) (tf_t0 r) (tf_t1 r) (tf_t2
    r) (tf_s0 r) (tf_s1 r) (tf_a0 r) (tf_a1 r) (tf_a2 r) (f (tf_a3 r)) (tf_a4 r) (tf_a5 r)
    (tf_a6 r) (tf_a7 r) (tf_s2 r) (tf_s3 r) (tf_s4 r) (tf_s5 r) (tf_s6 r) (tf_s7 r) (tf_s8
    r) (tf_s9 r) (tf_s10 r) (tf_s11 r) (tf_t3 r) (tf_t4 r) (tf_t5 r) (tf_t6 r).
#[export] Instance upd_tf_a4 : Update tf_a4 :=
  fun f r => mktrapframe (tf_kernel_satp r) (tf_kernel_sp r) (tf_kernel_trap r) (tf_epc r)
    (tf_kernel_hartid r) (tf_ra r) (tf_sp r) (tf_gp r) (tf_tp r) (tf_t0 r) (tf_t1 r) (tf_t2
    r) (tf_s0 r) (tf_s1 r) (tf_a0 r) (tf_a1 r) (tf_a2 r) (tf_a3 r) (f (tf_a4 r)) (tf_a5 r)
    (tf_a6 r) (tf_a7 r) (tf_s2 r) (tf_s3 r) (tf_s4 r) (tf_s5 r) (tf_s6 r) (tf_s7 r) (tf_s8
    r) (tf_s9 r) (tf_s10 r) (tf_s11 r) (tf_t3 r) (tf_t4 r) (tf_t5 r) (tf_t6 r).
#[export] Instance upd_tf_a5 : Update tf_a5 :=
  fun f r => mktrapframe (tf_kernel_satp r) (tf_kernel_sp r) (tf_kernel_trap r) (tf_epc r)
    (tf_kernel_hartid r) (tf_ra r) (tf_sp r) (tf_gp r) (tf_tp r) (tf_t0 r) (tf_t1 r) (tf_t2
    r) (tf_s0 r) (tf_s1 r) (tf_a0 r) (tf_a1 r) (tf_a2 r) (tf_a3 r) (tf_a4 r) (f (tf_a5 r))
    (tf_a6 r) (tf_a7 r) (tf_s2 r) (tf_s3 r) (tf_s4 r) (tf_s5 r) (tf_s6 r) (tf_s7 r) (tf_s8
    r) (tf_s9 r) (tf_s10 r) (tf_s11 r) (tf_t3 r) (tf_t4 r) (tf_t5 r) (tf_t6 r).
#[export] Instance upd_tf_a6 : Update tf_a6 :=
  fun f r => mktrapframe (tf_kernel_satp r) (tf_kernel_sp r) (tf_kernel_trap r) (tf_epc r)
    (tf_kernel_hartid r) (tf_ra r) (tf_sp r) (tf_gp r) (tf_tp r) (tf_t0 r) (tf_t1 r) (tf_t2
    r) (tf_s0 r) (tf_s1 r) (tf_a0 r) (tf_a1 r) (tf_a2 r) (tf_a3 r) (tf_a4 r) (tf_a5 r) (f
    (tf_a6 r)) (tf_a7 r) (tf_s2 r) (tf_s3 r) (tf_s4 r) (tf_s5 r) (tf_s6 r) (tf_s7 r) (tf_s8
    r) (tf_s9 r) (tf_s10 r) (tf_s11 r) (tf_t3 r) (tf_t4 r) (tf_t5 r) (tf_t6 r).
#[export] Instance upd_tf_a7 : Update tf_a7 :=
  fun f r => mktrapframe (tf_kernel_satp r) (tf_kernel_sp r) (tf_kernel_trap r) (tf_epc r)
    (tf_kernel_hartid r) (tf_ra r) (tf_sp r) (tf_gp r) (tf_tp r) (tf_t0 r) (tf_t1 r) (tf_t2
    r) (tf_s0 r) (tf_s1 r) (tf_a0 r) (tf_a1 r) (tf_a2 r) (tf_a3 r) (tf_a4 r) (tf_a5 r)
    (tf_a6 r) (f (tf_a7 r)) (tf_s2 r) (tf_s3 r) (tf_s4 r) (tf_s5 r) (tf_s6 r) (tf_s7 r)
    (tf_s8 r) (tf_s9 r) (tf_s10 r) (tf_s11 r) (tf_t3 r) (tf_t4 r) (tf_t5 r) (tf_t6 r).
#[export] Instance upd_tf_s2 : Update tf_s2 :=
  fun f r => mktrapframe (tf_kernel_satp r) (tf_kernel_sp r) (tf_kernel_trap r) (tf_epc r)
    (tf_kernel_hartid r) (tf_ra r) (tf_sp r) (tf_gp r) (tf_tp r) (tf_t0 r) (tf_t1 r) (tf_t2
    r) (tf_s0 r) (tf_s1 r) (tf_a0 r) (tf_a1 r) (tf_a2 r) (tf_a3 r) (tf_a4 r) (tf_a5 r)
    (tf_a6 r) (tf_a7 r) (f (tf_s2 r)) (tf_s3 r) (tf_s4 r) (tf_s5 r) (tf_s6 r) (tf_s7 r)
    (tf_s8 r) (tf_s9 r) (tf_s10 r) (tf_s11 r) (tf_t3 r) (tf_t4 r) (tf_t5 r) (tf_t6 r).
#[export] Instance upd_tf_s3 : Update tf_s3 :=
  fun f r => mktrapframe (tf_kernel_satp r) (tf_kernel_sp r) (tf_kernel_trap r) (tf_epc r)
    (tf_kernel_hartid r) (tf_ra r) (tf_sp r) (tf_gp r) (tf_tp r) (tf_t0 r) (tf_t1 r) (tf_t2
    r) (tf_s0 r) (tf_s1 r) (tf_a0 r) (tf_a1 r) (tf_a2 r) (tf_a3 r) (tf_a4 r) (tf_a5 r)
    (tf_a6 r) (tf_a7 r) (tf_s2 r) (f (tf_s3 r)) (tf_s4 r) (tf_s5 r) (tf_s6 r) (tf_s7 r)
    (tf_s8 r) (tf_s9 r) (tf_s10 r) (tf_s11 r) (tf_t3 r) (tf_t4 r) (tf_t5 r) (tf_t6 r).
#[export] Instance upd_tf_s4 : Update tf_s4 :=
  fun f r => mktrapframe (tf_kernel_satp r) (tf_kernel_sp r) (tf_kernel_trap r) (tf_epc r)
    (tf_kernel_hartid r) (tf_ra r) (tf_sp r) (tf_gp r) (tf_tp r) (tf_t0 r) (tf_t1 r) (tf_t2
    r) (tf_s0 r) (tf_s1 r) (tf_a0 r) (tf_a1 r) (tf_a2 r) (tf_a3 r) (tf_a4 r) (tf_a5 r)
    (tf_a6 r) (tf_a7 r) (tf_s2 r) (tf_s3 r) (f (tf_s4 r)) (tf_s5 r) (tf_s6 r) (tf_s7 r)
    (tf_s8 r) (tf_s9 r) (tf_s10 r) (tf_s11 r) (tf_t3 r) (tf_t4 r) (tf_t5 r) (tf_t6 r).
#[export] Instance upd_tf_s5 : Update tf_s5 :=
  fun f r => mktrapframe (tf_kernel_satp r) (tf_kernel_sp r) (tf_kernel_trap r) (tf_epc r)
    (tf_kernel_hartid r) (tf_ra r) (tf_sp r) (tf_gp r) (tf_tp r) (tf_t0 r) (tf_t1 r) (tf_t2
    r) (tf_s0 r) (tf_s1 r) (tf_a0 r) (tf_a1 r) (tf_a2 r) (tf_a3 r) (tf_a4 r) (tf_a5 r)
    (tf_a6 r) (tf_a7 r) (tf_s2 r) (tf_s3 r) (tf_s4 r) (f (tf_s5 r)) (tf_s6 r) (tf_s7 r)
    (tf_s8 r) (tf_s9 r) (tf_s10 r) (tf_s11 r) (tf_t3 r) (tf_t4 r) (tf_t5 r) (tf_t6 r).
#[export] Instance upd_tf_s6 : Update tf_s6 :=
  fun f r => mktrapframe (tf_kernel_satp r) (tf_kernel_sp r) (tf_kernel_trap r) (tf_epc r)
    (tf_kernel_hartid r) (tf_ra r) (tf_sp r) (tf_gp r) (tf_tp r) (tf_t0 r) (tf_t1 r) (tf_t2
    r) (tf_s0 r) (tf_s1 r) (tf_a0 r) (tf_a1 r) (tf_a2 r) (tf_a3 r) (tf_a4 r) (tf_a5 r)
    (tf_a6 r) (tf_a7 r) (tf_s2 r) (tf_s3 r) (tf_s4 r) (tf_s5 r) (f (tf_s6 r)) (tf_s7 r)
    (tf_s8 r) (tf_s9 r) (tf_s10 r) (tf_s11 r) (tf_t3 r) (tf_t4 r) (tf_t5 r) (tf_t6 r).
#[export] Instance upd_tf_s7 : Update tf_s7 :=
  fun f r => mktrapframe (tf_kernel_satp r) (tf_kernel_sp r) (tf_kernel_trap r) (tf_epc r)
    (tf_kernel_hartid r) (tf_ra r) (tf_sp r) (tf_gp r) (tf_tp r) (tf_t0 r) (tf_t1 r) (tf_t2
    r) (tf_s0 r) (tf_s1 r) (tf_a0 r) (tf_a1 r) (tf_a2 r) (tf_a3 r) (tf_a4 r) (tf_a5 r)
    (tf_a6 r) (tf_a7 r) (tf_s2 r) (tf_s3 r) (tf_s4 r) (tf_s5 r) (tf_s6 r) (f (tf_s7 r))
    (tf_s8 r) (tf_s9 r) (tf_s10 r) (tf_s11 r) (tf_t3 r) (tf_t4 r) (tf_t5 r) (tf_t6 r).
#[export] Instance upd_tf_s8 : Update tf_s8 :=
  fun f r => mktrapframe (tf_kernel_satp r) (tf_kernel_sp r) (tf_kernel_trap r) (tf_epc r)
    (tf_kernel_hartid r) (tf_ra r) (tf_sp r) (tf_gp r) (tf_tp r) (tf_t0 r) (tf_t1 r) (tf_t2
    r) (tf_s0 r) (tf_s1 r) (tf_a0 r) (tf_a1 r) (tf_a2 r) (tf_a3 r) (tf_a4 r) (tf_a5 r)
    (tf_a6 r) (tf_a7 r) (tf_s2 r) (tf_s3 r) (tf_s4 r) (tf_s5 r) (tf_s6 r) (tf_s7 r) (f
    (tf_s8 r)) (tf_s9 r) (tf_s10 r) (tf_s11 r) (tf_t3 r) (tf_t4 r) (tf_t5 r) (tf_t6 r).
#[export] Instance upd_tf_s9 : Update tf_s9 :=
  fun f r => mktrapframe (tf_kernel_satp r) (tf_kernel_sp r) (tf_kernel_trap r) (tf_epc r)
    (tf_kernel_hartid r) (tf_ra r) (tf_sp r) (tf_gp r) (tf_tp r) (tf_t0 r) (tf_t1 r) (tf_t2
    r) (tf_s0 r) (tf_s1 r) (tf_a0 r) (tf_a1 r) (tf_a2 r) (tf_a3 r) (tf_a4 r) (tf_a5 r)
    (tf_a6 r) (tf_a7 r) (tf_s2 r) (tf_s3 r) (tf_s4 r) (tf_s5 r) (tf_s6 r) (tf_s7 r) (tf_s8
    r) (f (tf_s9 r)) (tf_s10 r) (tf_s11 r) (tf_t3 r) (tf_t4 r) (tf_t5 r) (tf_t6 r).
#[export] Instance upd_tf_s10 : Update tf_s10 :=
  fun f r => mktrapframe (tf_kernel_satp r) (tf_kernel_sp r) (tf_kernel_trap r) (tf_epc r)
    (tf_kernel_hartid r) (tf_ra r) (tf_sp r) (tf_gp r) (tf_tp r) (tf_t0 r) (tf_t1 r) (tf_t2
    r) (tf_s0 r) (tf_s1 r) (tf_a0 r) (tf_a1 r) (tf_a2 r) (tf_a3 r) (tf_a4 r) (tf_a5 r)
    (tf_a6 r) (tf_a7 r) (tf_s2 r) (tf_s3 r) (tf_s4 r) (tf_s5 r) (tf_s6 r) (tf_s7 r) (tf_s8
    r) (tf_s9 r) (f (tf_s10 r)) (tf_s11 r) (tf_t3 r) (tf_t4 r) (tf_t5 r) (tf_t6 r).
#[export] Instance upd_tf_s11 : Update tf_s11 :=
  fun f r => mktrapframe (tf_kernel_satp r) (tf_kernel_sp r) (tf_kernel_trap r) (tf_epc r)
    (tf_kernel_hartid r) (tf_ra r) (tf_sp r) (tf_gp r) (tf_tp r) (tf_t0 r) (tf_t1 r) (tf_t2
    r) (tf_s0 r) (tf_s1 r) (tf_a0 r) (tf_a1 r) (tf_a2 r) (tf_a3 r) (tf_a4 r) (tf_a5 r)
    (tf_a6 r) (tf_a7 r) (tf_s2 r) (tf_s3 r) (tf_s4 r) (tf_s5 r) (tf_s6 r) (tf_s7 r) (tf_s8
    r) (tf_s9 r) (tf_s10 r) (f (tf_s11 r)) (tf_t3 r) (tf_t4 r) (tf_t5 r) (tf_t6 r).
#[export] Instance upd_tf_t3 : Update tf_t3 :=
  fun f r => mktrapframe (tf_kernel_satp r) (tf_kernel_sp r) (tf_kernel_trap r) (tf_epc r)
    (tf_kernel_hartid r) (tf_ra r) (tf_sp r) (tf_gp r) (tf_tp r) (tf_t0 r) (tf_t1 r) (tf_t2
    r) (tf_s0 r) (tf_s1 r) (tf_a0 r) (tf_a1 r) (tf_a2 r) (tf_a3 r) (tf_a4 r) (tf_a5 r)
    (tf_a6 r) (tf_a7 r) (tf_s2 r) (tf_s3 r) (tf_s4 r) (tf_s5 r) (tf_s6 r) (tf_s7 r) (tf_s8
    r) (tf_s9 r) (tf_s10 r) (tf_s11 r) (f (tf_t3 r)) (tf_t4 r) (tf_t5 r) (tf_t6 r).
#[export] Instance upd_tf_t4 : Update tf_t4 :=
  fun f r => mktrapframe (tf_kernel_satp r) (tf_kernel_sp r) (tf_kernel_trap r) (tf_epc r)
    (tf_kernel_hartid r) (tf_ra r) (tf_sp r) (tf_gp r) (tf_tp r) (tf_t0 r) (tf_t1 r) (tf_t2
    r) (tf_s0 r) (tf_s1 r) (tf_a0 r) (tf_a1 r) (tf_a2 r) (tf_a3 r) (tf_a4 r) (tf_a5 r)
    (tf_a6 r) (tf_a7 r) (tf_s2 r) (tf_s3 r) (tf_s4 r) (tf_s5 r) (tf_s6 r) (tf_s7 r) (tf_s8
    r) (tf_s9 r) (tf_s10 r) (tf_s11 r) (tf_t3 r) (f (tf_t4 r)) (tf_t5 r) (tf_t6 r).
#[export] Instance upd_tf_t5 : Update tf_t5 :=
  fun f r => mktrapframe (tf_kernel_satp r) (tf_kernel_sp r) (tf_kernel_trap r) (tf_epc r)
    (tf_kernel_hartid r) (tf_ra r) (tf_sp r) (tf_gp r) (tf_tp r) (tf_t0 r) (tf_t1 r) (tf_t2
    r) (tf_s0 r) (tf_s1 r) (tf_a0 r) (tf_a1 r) (tf_a2 r) (tf_a3 r) (tf_a4 r) (tf_a5 r)
    (tf_a6 r) (tf_a7 r) (tf_s2 r) (tf_s3 r) (tf_s4 r) (tf_s5 r) (tf_s6 r) (tf_s7 r) (tf_s8
    r) (tf_s9 r) (tf_s10 r) (tf_s11 r) (tf_t3 r) (tf_t4 r) (f (tf_t5 r)) (tf_t6 r).
#[export] Instance upd_tf_t6 : Update tf_t6 :=
  fun f r => mktrapframe (tf_kernel_satp r) (tf_kernel_sp r) (tf_kernel_trap r) (tf_epc r)
    (tf_kernel_hartid r) (tf_ra r) (tf_sp r) (tf_gp r) (tf_tp r) (tf_t0 r) (tf_t1 r) (tf_t2
    r) (tf_s0 r) (tf_s1 r) (tf_a0 r) (tf_a1 r) (tf_a2 r) (tf_a3 r) (tf_a4 r) (tf_a5 r)
    (tf_a6 r) (tf_a7 r) (tf_s2 r) (tf_s3 r) (tf_s4 r) (tf_s5 r) (tf_s6 r) (tf_s7 r) (tf_s8
    r) (tf_s9 r) (tf_s10 r) (tf_s11 r) (tf_t3 r) (tf_t4 r) (tf_t5 r) (f (tf_t6 r)).

Inductive procstate := UNUSED | USED | SLEEPING | RUNNABLE | RUNNING | ZOMBIE.

#[export] Instance procstate_eq_dec : EqDecision procstate.
Proof. solve_decision. Defined.

(** Per-process state.  [p_trapframe] and [p_pagetable] are physical
    addresses, 0 for null. *)
Record proc := mkproc {
  p_state : procstate;
  p_chan : chan;
  p_killed : Z;
  p_xstate : Z;
  p_pid : Z;
  p_parent : option nat;
  p_kstack : Z;
  p_sz : Z;
  p_pagetable : Z;
  p_trapframe : Z;
  p_context : context;
  p_ofile : list (option nat);
  p_cwd : option nat;
  p_name : list Z;
  p_rtime : Z;
  p_ctime : Z;
  p_etime : Z;
  p_stime : Z;
  p_ntime : Z;
  p_mask : Z;
  p_priority : Z;
  p_queue : Z;
  p_last_qtime : Z;
  p_qticks : list Z
}.

#[export] Instance upd_p_state : Update p_state :=
  fun f r => mkproc (f (p_state r)) (p_chan r) (p_killed r) (p_xstate r) (p_pid r) (p_parent
    r) (p_kstack r) (p_sz r) (p_pagetable r) (p_trapframe r) (p_context r) (p_ofile r)
    (p_cwd r) (p_name r) (p_rtime r) (p_ctime r) (p_etime r) (p_stime r) (p_ntime r) (p_mask
    r) (p_priority r) (p_queue r) (p_last_qtime r) (p_qticks r).
#[export] Instance upd_p_chan : Update p_chan :=
  fun f r => mkproc (p_state r) (f (p_chan r)) (p_killed r) (p_xstate r) (p_pid r) (p_parent
    r) (p_kstack r) (p_sz r) (p_pagetable r) (p_trapframe r) (p_context r) (p_ofile r)
    (p_cwd r) (p_name r) (p_rtime r) (p_ctime r) (p_etime r) (p_stime r) (p_ntime r) (p_mask
    r) (p_priority r) (p_queue r) (p_last_qtime r) (p_qticks r).
#[export] Instance upd_p_killed : Update p_killed :=
  fun f r => mkproc (p_state r) (p_chan r) (f (p_killed r)) (p_xstate r) (p_pid r) (p_parent
    r) (p_kstack r) (p_sz r) (p_pagetable r) (p_trapframe r) (p_context r) (p_ofile r)
    (p_cwd r) (p_name r) (p_rtime r) (p_ctime r) (p_etime r) (p_stime r) (p_ntime r) (p_mask
    r) (p_priority r) (p_queue r) (p_last_qtime r) (p_qticks r).
#[export] Instance upd_p_xstate : Update p_xstate :=
  fun f r => mkproc (p_state r) (p_chan r) (p_killed r) (f (p_xstate r)) (p_pid r) (p_parent
    r) (p_kstack r) (p_sz r) (p_pagetable r) (p_trapframe r) (p_context r) (p_ofile r)
    (p_cwd r) (p_name r) (p_rtime r) (p_ctime r) (p_etime r) (p_stime r) (p_ntime r) (p_mask
    r) (p_priority r) (p_queue r) (p_last_qtime r) (p_qticks r).
#[export] Instance upd_p_pid : Update p_pid :=
  fun f r => mkproc (p_state r) (p_chan r) (p_killed r) (p_xstate r) (f (p_pid r)) (p_parent
    r) (p_kstack r) (p_sz r) (p_pagetable r) (p_trapframe r) (p_context r) (p_ofile r)
    (p_cwd r) (p_name r) (p_rtime r) (p_ctime r) (p_etime r) (p_stime r) (p_ntime r) (p_mask
    r) (p_priority r) (p_queue r) (p_last_qtime r) (p_qticks r).
#[export] Instance upd_p_parent : Update p_parent :=
  fun f r => mkproc (p_state r) (p_chan r) (p_killed r) (p_xstate r) (p_pid r) (f (p_parent
    r)) (p_kstack r) (p_sz r) (p_pagetable r) (p_trapframe r) (p_context r) (p_ofile r)
    (p_cwd r) (p_name r) (p_rtime r) (p_ctime r) (p_etime r) (p_stime r) (p_ntime r) (p_mask
    r) (p_priority r) (p_queue r) (p_last_qtime r) (p_qticks r).
#[export] Instance upd_p_kstack : Update p_kstack :=
  fun f r => mkproc (p_state r) (p_chan r) (p_killed r) (p_xstate r) (p_pid r) (p_parent r)
    (f (p_kstack r)) (p_sz r) (p_pagetable r) (p_trapframe r) (p_context r) (p_ofile r)
    (p_cwd r) (p_name r) (p_rtime r) (p_ctime r) (p_etime r) (p_stime r) (p_ntime r) (p_mask
    r) (p_priority r) (p_queue r) (p_last_qtime r) (p_qticks r).
#[export] Instance upd_p_sz : Update p_sz :=
  fun f r => mkproc (p_state r) (p_chan r) (p_killed r) (p_xstate r) (p_pid r) (p_parent r)
    (p_kstack r) (f (p_sz r)) (p_pagetable r) (p_trapframe r) (p_context r) (p_ofile r)
    (p_cwd r) (p_name r) (p_rtime r) (p_ctime r) (p_etime r) (p_stime r) (p_ntime r) (p_mask
    r) (p_priority r) (p_queue r) (p_last_qtime r) (p_qticks r).
#[export] Instance upd_p_pagetable : Update p_pagetable :=
  fun f r => mkproc (p_state r) (p_chan r) (p_killed r) (p_xstate r) (p_pid r) (p_parent r)
    (p_kstack r) (p_sz r) (f (p_pagetable r)) (p_trapframe r) (p_context r) (p_ofile r)
    (p_cwd r) (p_name r) (p_rtime r) (p_ctime r) (p_etime r) (p_stime r) (p_ntime r) (p_mask
    r) (p_priority r) (p_queue r) (p_last_qtime r) (p_qticks r).
#[export] Instance upd_p_trapframe : Update p_trapframe :=
  fun f r => mkproc (p_state r) (p_chan r) (p_killed r) (p_xstate r) (p_pid r) (p_parent r)
    (p_kstack r) (p_sz r) (p_pagetable r) (f (p_trapframe r)) (p_context r) (p_ofile r)
    (p_cwd r) (p_name r) (p_rtime r) (p_ctime r) (p_etime r) (p_stime r) (p_ntime r) (p_mask
    r) (p_priority r) (p_queue r) (p_last_qtime r) (p_qticks r).
#[export] Instance upd_p_context : Update p_context :=
  fun f r => mkproc (p_state r) (p_chan r) (p_killed r) (p_xstate r) (p_pid r) (p_parent r)
    (p_kstack r) (p_sz r) (p_pagetable r) (p_trapframe r) (f (p_context r)) (p_ofile r)
    (p_cwd r) (p_name r) (p_rtime r) (p_ctime r) (p_etime r) (p_stime r) (p_ntime r) (p_mask
    r) (p_priority r) (p_queue r) (p_last_qtime r) (p_qticks r).
#[export] Instance upd_p_ofile : Update p_ofile :=
  fun f r => mkproc (p_state r) (p_chan r) (p_killed r) (p_xstate r) (p_pid r) (p_parent r)
    (p_kstack r) (p_sz r) (p_pagetable r) (p_trapframe r) (p_context r) (f (p_ofile r))
    (p_cwd r) (p_name r) (p_rtime r) (p_ctime r) (p_etime r) (p_stime r) (p_ntime r) (p_mask
    r) (p_priority r) (p_queue r) (p_last_qtime r) (p_qticks r).
#[export] Instance upd_p_cwd : Update p_cwd :=
  fun f r => mkproc (p_state r) (p_chan r) (p_killed r) (p_xstate r) (p_pid r) (p_parent r)
    (p_kstack r) (p_sz r) (p_pagetable r) (p_trapframe r) (p_context r) (p_ofile r) (f
    (p_cwd r)) (p_name r) (p_rtime r) (p_ctime r) (p_etime r) (p_stime r) (p_ntime r)
    (p_mask r) (p_priority r) (p_queue r) (p_last_qtime r) (p_qticks r).
#[export] Instance upd_p_name : Update p_name :=
  fun f r => mkproc (p_state r) (p_chan r) (p_killed r) (p_xstate r) (p_pid r) (p_parent r)
    (p_kstack r) (p_sz r) (p_pagetable r) (p_trapframe r) (p_context r) (p_ofile r) (p_cwd
    r) (f (p_name r)) (p_rtime r) (p_ctime r) (p_etime r) (p_stime r) (p_ntime r) (p_mask r)
    (p_priority r) (p_queue r) (p_last_qtime r) (p_qticks r).
#[export] Instance upd_p_rtime : Update p_rtime :=
  fun f r => mkproc (p_state r) (p_chan r) (p_killed r) (p_xstate r) (p_pid r) (p_parent r)
    (p_kstack r) (p_sz r) (p_pagetable r) (p_trapframe r) (p_context r) (p_ofile r) (p_cwd
    r) (p_name r) (f (p_rtime r)) (p_ctime r) (p_etime r) (p_stime r) (p_ntime r) (p_mask r)
    (p_priority r) (p_queue r) (p_last_qtime r) (p_qticks r).
#[export] Instance upd_p_ctime : Update p_ctime :=
  fun f r => mkproc (p_state r) (p_chan r) (p_killed r) (p_xstate r) (p_pid r) (p_parent r)
    (p_kstack r) (p_sz r) (p_pagetable r) (p_trapframe r) (p_context r) (p_ofile r) (p_cwd
    r) (p_name r) (p_rtime r) (f (p_ctime r)) (p_etime r) (p_stime r) (p_ntime r) (p_mask r)
    (p_priority r) (p_queue r) (p_last_qtime r) (p_qticks r).
#[export] Instance upd_p_etime : Update p_etime :=
  fun f r => mkproc (p_state r) (p_chan r) (p_killed r) (p_xstate r) (p_pid r) (p_parent r)
    (p_kstack r) (p_sz r) (p_pagetable r) (p_trapframe r) (p_context r) (p_ofile r) (p_cwd
    r) (p_name r) (p_rtime r) (p_ctime r) (f (p_etime r)) (p_stime r) (p_ntime r) (p_mask r)
    (p_priority r) (p_queue r) (p_last_qtime r) (p_qticks r).
#[export] Instance upd_p_stime : Update p_stime :=
  fun f r => mkproc (p_state r) (p_chan r) (p_killed r) (p_xstate r) (p_pid r) (p_parent r)
    (p_kstack r) (p_sz r) (p_pagetable r) (p_trapframe r) (p_context r) (p_ofile r) (p_cwd
    r) (p_name r) (p_rtime r) (p_ctime r) (p_etime r) (f (p_stime r)) (p_ntime r) (p_mask r)
    (p_priority r) (p_queue r) (p_last_qtime r) (p_qticks r).
#[export] Instance upd_p_ntime : Update p_ntime :=
  fun f r => mkproc (p_state r) (p_chan r) (p_killed r) (p_xstate r) (p_pid r) (p_parent r)
    (p_kstack r) (p_sz r) (p_pagetable r) (p_trapframe r) (p_context r) (p_ofile r) (p_cwd
    r) (p_name r) (p_rtime r) (p_ctime r) (p_etime r) (p_stime r) (f (p_ntime r)) (p_mask r)
    (p_priority r) (p_queue r) (p_last_qtime r) (p_qticks r).
#[export] Instance upd_p_mask : Update p_mask :=
  fun f r => mkproc (p_state r) (p_chan r) (p_killed r) (p_xstate r) (p_pid r) (p_parent r)
    (p_kstack r) (p_sz r) (p_pagetable r) (p_trapframe r) (p_context r) (p_ofile r) (p_cwd
    r) (p_name r) (p_rtime r) (p_ctime r) (p_etime r) (p_stime r) (p_ntime r) (f (p_mask r))
    (p_priority r) (p_queue r) (p_last_qtime r) (p_qticks r).
#[export] Instance upd_p_priority : Update p_priority :=
  fun f r => mkproc (p_state r) (p_chan r) (p_killed r) (p_xstate r) (p_pid r) (p_parent r)
    (p_kstack r) (p_sz r) (p_pagetable r) (p_trapframe r) (p_context r) (p_ofile r) (p_cwd
    r) (p_name r) (p_rtime r) (p_ctime r) (p_etime r) (p_stime r) (p_ntime r) (p_mask r) (f
    (p_priority r)) (p_queue r) (p_last_qtime r) (p_qticks r).
#[export] Instance upd_p_queue : Update p_queue :=
  fun f r => mkproc (p_state r) (p_chan r) (p_killed r) (p_xstate r) (p_pid r) (p_parent r)
    (p_kstack r) (p_sz r) (p_pagetable r) (p_trapframe r) (p_context r) (p_ofile r) (p_cwd
    r) (p_name r) (p_rtime r) (p_ctime r) (p_etime r) (p_stime r) (p_ntime r) (p_mask r)
    (p_priority r) (f (p_queue r)) (p_last_qtime r) (p_qticks r).
#[export] Instance upd_p_last_qtime : Update p_last_qtime :=
  fun f r => mkproc (p_state r) (p_chan r) (p_killed r) (p_xstate r) (p_pid r) (p_parent r)
    (p_kstack r) (p_sz r) (p_pagetable r) (p_trapframe r) (p_context r) (p_ofile r) (p_cwd
    r) (p_name r) (p_rtime r) (p_ctime r) (p_etime r) (p_stime r) (p_ntime r) (p_mask r)
    (p_priority r) (p_queue r) (f (p_last_qtime r)) (p_qticks r).
#[export] Instance upd_p_qticks : Update p_qticks :=
  fun f r => mkproc (p_state r) (p_chan r) (p_killed r) (p_xstate r) (p_pid r) (p_parent r)
    (p_kstack r) (p_sz r) (p_pagetable r) (p_trapframe r) (p_context r) (p_ofile r) (p_cwd
    r) (p_name r) (p_rtime r) (p_ctime r) (p_etime r) (p_stime r) (p_ntime r) (p_mask r)
    (p_priority r) (p_queue r) (p_last_qtime r) (f (p_qticks r)).

Lemma proc_eq (r1 r2 : proc) :
  p_state r1 = p_state r2 -> p_chan r1 = p_chan r2 -> p_killed r1 = p_killed r2 -> p_xstate
  r1 = p_xstate r2 -> p_pid r1 = p_pid r2 -> p_parent r1 = p_parent r2 -> p_kstack r1 =
  p_kstack r2 -> p_sz r1 = p_sz r2 -> p_pagetable r1 = p_pagetable r2 -> p_trapframe r1 =
  p_trapframe r2 -> p_context r1 = p_context r2 -> p_ofile r1 = p_ofile r2 -> p_cwd r1 =
  p_cwd r2 -> p_name r1 = p_name r2 -> p_rtime r1 = p_rtime r2 -> p_ctime r1 = p_ctime r2 ->
  p_etime r1 = p_etime r2 -> p_stime r1 = p_stime r2 -> p_ntime r1 = p_ntime r2 -> p_mask r1
  = p_mask r2 -> p_priority r1 = p_priority r2 -> p_queue r1 = p_queue r2 -> p_last_qtime r1
  = p_last_qtime r2 -> p_qticks r1 = p_qticks r2 -> r1 = r2.
Proof. destruct r1, r2; cbn. intros. by subst. Qed.

(** A [struct proc] of the zero-initialised table [proc[]]. *)
Definition proc0 : proc :=
  mkproc UNUSED ChNull 0 0 0 None 0 0 0 0 context0 (replicate NOFILE None) None
    (replicate 16 0) 0 0 0 0 0 0 0 0 0 (replicate NPQ 0).

(** ** file.h, fs.h, buf.h, log.c, pipe.c, console.c, uart.c *)

Inductive fdtype := FD_NONE | FD_PIPE | FD_INODE | FD_DEVICE.

#[export] Instance fdtype_eq_dec : EqDecision fdtype.
Proof. solve_decision. Defined.

Record file := mkfile {
  f_type : fdtype;
  f_ref : Z;
  f_readable : bool;
  f_writable : bool;
  f_pipe : Z;
  f_ip : option nat;
  f_off : Z;
  f_major : Z
}.

#[export] Instance upd_f_type : Update f_type :=
  fun f r => mkfile (f (f_type r)) (f_ref r) (f_readable r) (f_writable r) (f_pipe r) (f_ip
    r) (f_off r) (f_major r).
#[export] Instance upd_f_ref : Update f_ref :=
  fun f r => mkfile (f_type r) (f (f_ref r)) (f_readable r) (f_writable r) (f_pipe r) (f_ip
    r) (f_off r) (f_major r).
#[export] Instance upd_f_readable : Update f_readable :=
  fun f r => mkfile (f_type r) (f_ref r) (f (f_readable r)) (f_writable r) (f_pipe r) (f_ip
    r) (f_off r) (f_major r).
#[export] Instance upd_f_writable : Update f_writable :=
  fun f r => mkfile (f_type r) (f_ref r) (f_readable r) (f (f_writable r)) (f_pipe r) (f_ip
    r) (f_off r) (f_major r).
#[export] Instance upd_f_pipe : Update f_pipe :=
  fun f r => mkfile (f_type r) (f_ref r) (f_readable r) (f_writable r) (f (f_pipe r)) (f_ip
    r) (f_off r) (f_major r).
#[export] Instance upd_f_ip : Update f_ip :=
  fun f r => mkfile (f_type r) (f_ref r) (f_readable r) (f_writable r) (f_pipe r) (f (f_ip
    r)) (f_off r) (f_major r).
#[export] Instance upd_f_off : Update f_off :=
  fun f r => mkfile (f_type r) (f_ref r) (f_readable r) (f_writable r) (f_pipe r) (f_ip r)
    (f (f_off r)) (f_major r).
#[export] Instance upd_f_major : Update f_major :=
  fun f r => mkfile (f_type r) (f_ref r) (f_readable r) (f_writable r) (f_pipe r) (f_ip r)
    (f_off r) (f (f_major r)).

Lemma file_eq (r1 r2 : file) :
  f_type r1 = f_type r2 -> f_ref r1 = f_ref r2 -> f_readable r1 = f_readable r2 ->
  f_writable r1 = f_writable r2 -> f_pipe r1 = f_pipe r2 -> f_ip r1 = f_ip r2 -> f_off r1 =
  f_off r2 -> f_major r1 = f_major r2 -> r1 = r2.
Proof. destruct r1, r2; cbn. intros. by subst. Qed.

Definition file0 : file := mkfile FD_NONE 0 false false 0 None 0 0.

Record inode := mkinode {
  i_dev : Z;
  i_inum : Z;
  i_ref : Z;
  i_lock : sleeplock;
  i_valid : bool;
  i_type : Z;
  i_major : Z;
  i_minor : Z;
  i_nlink : Z;
  i_size : Z;
  i_addrs : list Z
}.

#[export] Instance upd_i_dev : Update i_dev :=
  fun f r => mkinode (f (i_dev r)) (i_inum r) (i_ref r) (i_lock r) (i_valid r) (i_type r)
    (i_major r) (i_minor r) (i_nlink r) (i_size r) (i_addrs r).
#[export] Instance upd_i_inum : Update i_inum :=
  fun f r => mkinode (i_dev r) (f (i_inum r)) (i_ref r) (i_lock r) (i_valid r) (i_type r)
    (i_major r) (i_minor r) (i_nlink r) (i_size r) (i_addrs r).
#[export] Instance upd_i_ref : Update i_ref :=
  fun f r => mkinode (i_dev r) (i_inum r) (f (i_ref r)) (i_lock r) (i_valid r) (i_type r)
    (i_major r) (i_minor r) (i_nlink r) (i_size r) (i_addrs r).
#[export] Instance upd_i_lock : Update i_lock :=
  fun f r => mkinode (i_dev r) (i_inum r) (i_ref r) (f (i_lock r)) (i_valid r) (i_type r)
    (i_major r) (i_minor r) (i_nlink r) (i_size r) (i_addrs r).
#[export] Instance upd_i_valid : Update i_valid :=
  fun f r => mkinode (i_dev r) (i_inum r) (i_ref r) (i_lock r) (f (i_valid r)) (i_type r)
    (i_major r) (i_minor r) (i_nlink r) (i_size r) (i_addrs r).
#[export] Instance upd_i_type : Update i_type :=
  fun f r => mkinode (i_dev r) (i_inum r) (i_ref r) (i_lock r) (i_valid r) (f (i_type r))
    (i_major r) (i_minor r) (i_nlink r) (i_size r) (i_addrs r).
#[export] Instance upd_i_major : Update i_major :=
  fun f r => mkinode (i_dev r) (i_inum r) (i_ref r) (i_lock r) (i_valid r) (i_type r) (f
    (i_major r)) (i_minor r) (i_nlink r) (i_size r) (i_addrs r).
#[export] Instance upd_i_minor : Update i_minor :=
  fun f r => mkinode (i_dev r) (i_inum r) (i_ref r) (i_lock r) (i_valid r) (i_type r)
    (i_major r) (f (i_minor r)) (i_nlink r) (i_size r) (i_addrs r).
#[export] Instance upd_i_nlink : Update i_nlink :=
  fun f r => mkinode (i_dev r) (i_inum r) (i_ref r) (i_lock r) (i_valid r) (i_type r)
    (i_major r) (i_minor r) (f (i_nlink r)) (i_size r) (i_addrs r).
#[export] Instance upd_i_size : Update i_size :=
  fun f r => mkinode (i_dev r) (i_inum r) (i_ref r) (i_lock r) (i_valid r) (i_type r)
    (i_major r) (i_minor r) (i_nlink r) (f (i_size r)) (i_addrs r).
#[export] Instance upd_i_addrs : Update i_addrs :=
  fun f r => mkinode (i_dev r) (i_inum r) (i_ref r) (i_lock r) (i_valid r) (i_type r)
    (i_major r) (i_minor r) (i_nlink r) (i_size r) (f (i_addrs r)).

Lemma inode_eq (r1 r2 : inode) :
  i_dev r1 = i_dev r2 -> i_inum r1 = i_inum r2 -> i_ref r1 = i_ref r2 -> i_lock r1 = i_lock
  r2 -> i_valid r1 = i_valid r2 -> i_type r1 = i_type r2 -> i_major r1 = i_major r2 ->
  i_minor r1 = i_minor r2 -> i_nlink r1 = i_nlink r2 -> i_size r1 = i_size r2 -> i_addrs r1
  = i_addrs r2 -> r1 = r2.
Proof. destruct r1, r2; cbn. intros. by subst. Qed.

Record superblock := mksuperblock {
  sb_magic : Z;
  sb_size : Z;
  sb_nblocks : Z;
  sb_ninodes : Z;
  sb_nlog : Z;
  sb_logstart : Z;
  sb_inodestart : Z;
  sb_bmapstart : Z
}.

#[export] Instance upd_sb_magic : Update sb_magic :=
  fun f r => mksuperblock (f (sb_magic r)) (sb_size r) (sb_nblocks r) (sb_ninodes r)
    (sb_nlog r) (sb_logstart r) (sb_inodestart r) (sb_bmapstart r).
#[export] Instance upd_sb_size : Update sb_size :=
  fun f r => mksuperblock (sb_magic r) (f (sb_size r)) (sb_nblocks r) (sb_ninodes r)
    (sb_nlog r) (sb_logstart r) (sb_inodestart r) (sb_bmapstart r).
#[export] Instance upd_sb_nblocks : Update sb_nblocks :=
  fun f r => mksuperblock (sb_magic r) (sb_size r) (f (sb_nblocks r)) (sb_ninodes r)
    (sb_nlog r) (sb_logstart r) (sb_inodestart r) (sb_bmapstart r).
#[export] Instance upd_sb_ninodes : Update sb_ninodes :=
  fun f r => mksuperblock (sb_magic r) (sb_size r) (sb_nblocks r) (f (sb_ninodes r))
    (sb_nlog r) (sb_logstart r) (sb_inodestart r) (sb_bmapstart r).
#[export] Instance upd_sb_nlog : Update sb_nlog :=
  fun f r => mksuperblock (sb_magic r) (sb_size r) (sb_nblocks r) (sb_ninodes r) (f (sb_nlog
    r)) (sb_logstart r) (sb_inodestart r) (sb_bmapstart r).
#[export] Instance upd_sb_logstart : Update sb_logstart :=
  fun f r => mksuperblock (sb_magic r) (sb_size r) (sb_nblocks r) (sb_ninodes r) (sb_nlog r)
    (f (sb_logstart r)) (sb_inodestart r) (sb_bmapstart r).
#[export] Instance upd_sb_inodestart : Update sb_inodestart :=
  fun f r => mksuperblock (sb_magic r) (sb_size r) (sb_nblocks r) (sb_ninodes r) (sb_nlog r)
    (sb_logstart r) (f (sb_inodestart r)) (sb_bmapstart r).
#[export] Instance upd_sb_bmapstart : Update sb_bmapstart :=
  fun f r => mksuperblock (sb_magic r) (sb_size r) (sb_nblocks r) (sb_ninodes r) (sb_nlog r)
    (sb_logstart r) (sb_inodestart r) (f (sb_bmapstart r)).

(** A buffer of the block cache; [b_prev] and [b_next] are indices into the
    buffer array, the list head being index [NBUF]. *)
Record buf := mkbuf {
  b_valid : bool;
  b_disk : Z;
  b_dev : Z;
  b_blockno : Z;
  b_lock : sleeplock;
  b_refcnt : Z;
  b_prev : nat;
  b_next : nat;
  b_data : list Z
}.

#[export] Instance upd_b_valid : Update b_valid :=
  fun f r => mkbuf (f (b_valid r)) (b_disk r) (b_dev r) (b_blockno r) (b_lock r) (b_refcnt
    r) (b_prev r) (b_next r) (b_data r).
#[export] Instance upd_b_disk : Update b_disk :=
  fun f r => mkbuf (b_valid r) (f (b_disk r)) (b_dev r) (b_blockno r) (b_lock r) (b_refcnt
    r) (b_prev r) (b_next r) (b_data r).
#[export] Instance upd_b_dev : Update b_dev :=
  fun f r => mkbuf (b_valid r) (b_disk r) (f (b_dev r)) (b_blockno r) (b_lock r) (b_refcnt
    r) (b_prev r) (b_next r) (b_data r).
#[export] Instance upd_b_blockno : Update b_blockno :=
  fun f r => mkbuf (b_valid r) (b_disk r) (b_dev r) (f (b_blockno r)) (b_lock r) (b_refcnt
    r) (b_prev r) (b_next r) (b_data r).
#[export] Instance upd_b_lock : Update b_lock :=
  fun f r => mkbuf (b_valid r) (b_disk r) (b_dev r) (b_blockno r) (f (b_lock r)) (b_refcnt
    r) (b_prev r) (b_next r) (b_data r).
#[export] Instance upd_b_refcnt : Update b_refcnt :=
  fun f r => mkbuf (b_valid r) (b_disk r) (b_dev r) (b_blockno r) (b_lock r) (f (b_refcnt
    r)) (b_prev r) (b_next r) (b_data r).
#[export] Instance upd_b_prev : Update b_prev :=
  fun f r => mkbuf (b_valid r) (b_disk r) (b_dev r) (b_blockno r) (b_lock r) (b_refcnt r) (f
    (b_prev r)) (b_next r) (b_data r).
#[export] Instance upd_b_next : Update b_next :=
  fun f r => mkbuf (b_valid r) (b_disk r) (b_dev r) (b_blockno r) (b_lock r) (b_refcnt r)
    (b_prev r) (f (b_next r)) (b_data r).
#[export] Instance upd_b_data : Update b_data :=
  fun f r => mkbuf (b_valid r) (b_disk r) (b_dev r) (b_blockno r) (b_lock r) (b_refcnt r)
    (b_prev r) (b_next r) (f (b_data r)).

Lemma buf_eq (r1 r2 : buf) :
  b_valid r1 = b_valid r2 -> b_disk r1 = b_disk r2 -> b_dev r1 = b_dev r2 -> b_blockno r1 =
  b_blockno r2 -> b_lock r1 = b_lock r2 -> b_refcnt r1 = b_refcnt r2 -> b_prev r1 = b_prev
  r2 -> b_next r1 = b_next r2 -> b_data r1 = b_data r2 -> r1 = r2.
Proof. destruct r1, r2; cbn. intros. by subst. Qed.

Record logstate := mklog {
  log_start : Z;
  log_size : Z;
  log_outstanding : Z;
  log_committing : bool;
  log_dev : Z;
  lh_n : Z;
  lh_block : list Z
}.

#[export] Instance upd_log_start : Update log_start :=
  fun f r => mklog (f (log_start r)) (log_size r) (log_outstanding r) (log_committing r)
    (log_dev r) (lh_n r) (lh_block r).
#[export] Instance upd_log_size : Update log_size :=
  fun f r => mklog (log_start r) (f (log_size r)) (log_outstanding r) (log_committing r)
    (log_dev r) (lh_n r) (lh_block r).
#[export] Instance upd_log_outstanding : Update log_outstanding :=
  fun f r => mklog (log_start r) (log_size r) (f (log_outstanding r)) (log_committing r)
    (log_dev r) (lh_n r) (lh_block r).
#[export] Instance upd_log_committing : Update log_committing :=
  fun f r => mklog (log_start r) (log_size r) (log_outstanding r) (f (log_committing r))
    (log_dev r) (lh_n r) (lh_block r).
#[export] Instance upd_log_dev : Update log_dev :=
  fun f r => mklog (log_start r) (log_size r) (log_outstanding r) (log_committing r) (f
    (log_dev r)) (lh_n r) (lh_block r).
#[export] Instance upd_lh_n : Update lh_n :=
  fun f r => mklog (log_start r) (log_size r) (log_outstanding r) (log_committing r)
    (log_dev r) (f (lh_n r)) (lh_block r).
#[export] Instance upd_lh_block : Update lh_block :=
  fun f r => mklog (log_start r) (log_size r) (log_outstanding r) (log_committing r)
    (log_dev r) (lh_n r) (f (lh_block r)).

Record pipe := mkpipe {
  pi_data : list Z;
  pi_nread : Z;
  pi_nwrite : Z;
  pi_readopen : bool;
  pi_writeopen : bool
}.

#[export] Instance upd_pi_data : Update pi_data :=
  fun f r => mkpipe (f (pi_data r)) (pi_nread r) (pi_nwrite r) (pi_readopen r) (pi_writeopen
    r).
#[export] Instance upd_pi_nread : Update pi_nread :=
  fun f r => mkpipe (pi_data r) (f (pi_nread r)) (pi_nwrite r) (pi_readopen r) (pi_writeopen
    r).
#[export] Instance upd_pi_nwrite : Update pi_nwrite :=
  fun f r => mkpipe (pi_data r) (pi_nread r) (f (pi_nwrite r)) (pi_readopen r) (pi_writeopen
    r).
#[export] Instance upd_pi_readopen : Update pi_readopen :=
  fun f r => mkpipe (pi_data r) (pi_nread r) (pi_nwrite r) (f (pi_readopen r)) (pi_writeopen
    r).
#[export] Instance upd_pi_writeopen : Update pi_writeopen :=
  fun f r => mkpipe (pi_data r) (pi_nread r) (pi_nwrite r) (pi_readopen r) (f (pi_writeopen
    r)).

Record console := mkconsole {
  cons_buf : list Z;
  cons_r : Z;
  cons_w : Z;
  cons_e : Z
}.

#[export] Instance upd_cons_buf : Update cons_buf :=
  fun f r => mkconsole (f (cons_buf r)) (cons_r r) (cons_w r) (cons_e r).
#[export] Instance upd_cons_r : Update cons_r :=
  fun f r => mkconsole (cons_buf r) (f (cons_r r)) (cons_w r) (cons_e r).
#[export] Instance upd_cons_w : Update cons_w :=
  fun f r => mkconsole (cons_buf r) (cons_r r) (f (cons_w r)) (cons_e r).
#[export] Instance upd_cons_e : Update cons_e :=
  fun f r => mkconsole (cons_buf r) (cons_r r) (cons_w r) (f (cons_e r)).

Record uart := mkuart {
  uart_tx_buf : list Z;
  uart_tx_w : Z;
  uart_tx_r : Z
}.

#[export] Instance upd_uart_tx_buf : Update uart_tx_buf :=
  fun f r => mkuart (f (uart_tx_buf r)) (uart_tx_w r) (uart_tx_r r).
#[export] Instance upd_uart_tx_w : Update uart_tx_w :=
  fun f r => mkuart (uart_tx_buf r) (f (uart_tx_w r)) (uart_tx_r r).
#[export] Instance upd_uart_tx_r : Update uart_tx_r :=
  fun f r => mkuart (uart_tx_buf r) (uart_tx_w r) (f (uart_tx_r r)).

(** ** virtio_disk.c

    A DMA address the driver hands to the disk: an operation header
    [disk.ops[i]], the data of buffer [b], or a status byte
    [disk.info[i].status]. *)
Inductive dma := DmaNull | DmaOp (i : nat) | DmaData (b : nat) | DmaStatus (i : nat).

Record vdesc := mkvdesc {
  d_addr : dma;
  d_len : Z;
  d_flags : Z;
  d_next : Z
}.

#[export] Instance upd_d_addr : Update d_addr :=
  fun f r => mkvdesc (f (d_addr r)) (d_len r) (d_flags r) (d_next r).
#[export] Instance upd_d_len : Update d_len :=
  fun f r => mkvdesc (d_addr r) (f (d_len r)) (d_flags r) (d_next r).
#[export] Instance upd_d_flags : Update d_flags :=
  fun f r => mkvdesc (d_addr r) (d_len r) (f (d_flags r)) (d_next r).
#[export] Instance upd_d_next : Update d_next :=
  fun f r => mkvdesc (d_addr r) (d_len r) (d_flags r) (f (d_next r)).

Record vreq := mkvreq {
  vr_type : Z;
  vr_reserved : Z;
  vr_sector : Z
}.

#[export] Instance upd_vr_type : Update vr_type :=
  fun f r => mkvreq (f (vr_type r)) (vr_reserved r) (vr_sector r).
#[export] Instance upd_vr_reserved : Update vr_reserved :=
  fun f r => mkvreq (vr_type r) (f (vr_reserved r)) (vr_sector r).
#[export] Instance upd_vr_sector : Update vr_sector :=
  fun f r => mkvreq (vr_type r) (vr_reserved r) (f (vr_sector r)).

(** The driver's [struct disk].  [v_ring] and [v_idx] are the available ring,
    [v_uring] and [v_uidx] the used ring, which the device writes. *)
Record virtq := mkvirtq {
  v_desc : list vdesc;
  v_idx : Z;
  v_ring : list Z;
  v_uidx : Z;
  v_uring : list Z;
  v_free : list bool;
  v_used_idx : Z;
  v_info_b : list (option nat);
  v_info_status : list Z;
  v_ops : list vreq
}.

#[export] Instance upd_v_desc : Update v_desc :=
  fun f r => mkvirtq (f (v_desc r)) (v_idx r) (v_ring r) (v_uidx r) (v_uring r) (v_free r)
    (v_used_idx r) (v_info_b r) (v_info_status r) (v_ops r).
#[export] Instance upd_v_idx : Update v_idx :=
  fun f r => mkvirtq (v_desc r) (f (v_idx r)) (v_ring r) (v_uidx r) (v_uring r) (v_free r)
    (v_used_idx r) (v_info_b r) (v_info_status r) (v_ops r).
#[export] Instance upd_v_ring : Update v_ring :=
  fun f r => mkvirtq (v_desc r) (v_idx r) (f (v_ring r)) (v_uidx r) (v_uring r) (v_free r)
    (v_used_idx r) (v_info_b r) (v_info_status r) (v_ops r).
#[export] Instance upd_v_uidx : Update v_uidx :=
  fun f r => mkvirtq (v_desc r) (v_idx r) (v_ring r) (f (v_uidx r)) (v_uring r) (v_free r)
    (v_used_idx r) (v_info_b r) (v_info_status r) (v_ops r).
#[export] Instance upd_v_uring : Update v_uring :=
  fun f r => mkvirtq (v_desc r) (v_idx r) (v_ring r) (v_uidx r) (f (v_uring r)) (v_free r)
    (v_used_idx r) (v_info_b r) (v_info_status r) (v_ops r).
#[export] Instance upd_v_free : Update v_free :=
  fun f r => mkvirtq (v_desc r) (v_idx r) (v_ring r) (v_uidx r) (v_uring r) (f (v_free r))
    (v_used_idx r) (v_info_b r) (v_info_status r) (v_ops r).
#[export] Instance upd_v_used_idx : Update v_used_idx :=
  fun f r => mkvirtq (v_desc r) (v_idx r) (v_ring r) (v_uidx r) (v_uring r) (v_free r) (f
    (v_used_idx r)) (v_info_b r) (v_info_status r) (v_ops r).
#[export] Instance upd_v_info_b : Update v_info_b :=
  fun f r => mkvirtq (v_desc r) (v_idx r) (v_ring r) (v_uidx r) (v_uring r) (v_free r)
    (v_used_idx r) (f (v_info_b r)) (v_info_status r) (v_ops r).
#[export] Instance upd_v_info_status : Update v_info_status :=
  fun f r => mkvirtq (v_desc r) (v_idx r) (v_ring r) (v_uidx r) (v_uring r) (v_free r)
    (v_used_idx r) (v_info_b r) (f (v_info_status r)) (v_ops r).
#[export] Instance upd_v_ops : Update v_ops :=
  fun f r => mkvirtq (v_desc r) (v_idx r) (v_ring r) (v_uidx r) (v_uring r) (v_free r)
    (v_used_idx r) (v_info_b r) (v_info_status r) (f (v_ops r)).

(** ** The running hart

    The control and status registers of the hart that executes the modelled
    code, its [tp] register (the index of its [struct cpu]), the per-CPU
    structs and the spinlocks: everything interrupt masking and locking
    touches. *)
Record hart := mkhart {
  tp : nat;
  sstatus : Z;
  sepc : Z;
  scause : Z;
  stval : Z;
  stvec : Z;
  satp : Z;
  sip : Z;
  cpus : list cpu;
  locks : gmap lockid spinlock
}.

#[export] Instance upd_tp : Update tp :=
  fun f r => mkhart (f (tp r)) (sstatus r) (sepc r) (scause r) (stval r) (stvec r) (satp r)
    (sip r) (cpus r) (locks r).
#[export] Instance upd_sstatus : Update sstatus :=
  fun f r => mkhart (tp r) (f (sstatus r)) (sepc r) (scause r) (stval r) (stvec r) (satp r)
    (sip r) (cpus r) (locks r).
#[export] Instance upd_sepc : Update sepc :=
  fun f r => mkhart (tp r) (sstatus r) (f (sepc r)) (scause r) (stval r) (stvec r) (satp r)
    (sip r) (cpus r) (locks r).
#[export] Instance upd_scause : Update scause :=
  fun f r => mkhart (tp r) (sstatus r) (sepc r) (f (scause r)) (stval r) (stvec r) (satp r)
    (sip r) (cpus r) (locks r).
#[export] Instance upd_stval : Update stval :=
  fun f r => mkhart (tp r) (sstatus r) (sepc r) (scause r) (f (stval r)) (stvec r) (satp r)
    (sip r) (cpus r) (locks r).
#[export] Instance upd_stvec : Update stvec :=
  fun f r => mkhart (tp r) (sstatus r) (sepc r) (scause r) (stval r) (f (stvec r)) (satp r)
    (sip r) (cpus r) (locks r).
#[export] Instance upd_satp : Update satp :=
  fun f r => mkhart (tp r) (sstatus r) (sepc r) (scause r) (stval r) (stvec r) (f (satp r))
    (sip r) (cpus r) (locks r).
#[export] Instance upd_sip : Update sip :=
  fun f r => mkhart (tp r) (sstatus r) (sepc r) (scause r) (stval r) (stvec r) (satp r) (f
    (sip r)) (cpus r) (locks r).
#[export] Instance upd_cpus : Update cpus :=
  fun f r => mkhart (tp r) (sstatus r) (sepc r) (scause r) (stval r) (stvec r) (satp r) (sip
    r) (f (cpus r)) (locks r).
#[export] Instance upd_locks : Update locks :=
  fun f r => mkhart (tp r) (sstatus r) (sepc r) (scause r) (stval r) (stvec r) (satp r) (sip
    r) (cpus r) (f (locks r)).

Lemma hart_eq (r1 r2 : hart) :
  tp r1 = tp r2 -> sstatus r1 = sstatus r2 -> sepc r1 = sepc r2 -> scause r1 = scause r2 ->
  stval r1 = stval r2 -> stvec r1 = stvec r2 -> satp r1 = satp r2 -> sip r1 = sip r2 -> cpus
  r1 = cpus r2 -> locks r1 = locks r2 -> r1 = r2.
Proof. destruct r1, r2; cbn. intros. by subst. Qed.

(** ** The kernel's global variables

    [mem] is physical memory by byte (absent bytes read as 0); page tables,
    user pages and the links of the page allocator's free list live in it.
    Trapframes and pipes, the two structs the kernel places in pages of their
    own, are kept by the address of their page.  [disk] is the contents of the
    disk by block number and [dwrites] the blocks written to it, oldest first.
    [mmio] is the sequence of writes to device registers, [mmio_reads] how
    many device registers have been read. *)
Record kernel := mkkernel {
  hw : hart;
  procs : list proc;
  nextpid : Z;
  initproc : option nat;
  forkret_first : bool;
  ticks : Z;
  freelist : Z;
  mem : gmap Z Z;
  tfs : gmap Z trapframe;
  pipes : gmap Z pipe;
  kernel_pagetable : Z;
  ftable : list file;
  devsw_console : bool;
  bcache : list buf;
  disk : gmap Z (list Z);
  dwrites : list (Z * list Z);
  itable : list inode;
  sb : superblock;
  klog : logstate;
  cons : console;
  uart_tx : uart;
  pr_locking : bool;
  panicked : bool;
  vdisk : virtq;
  started : bool;
  mmio : list (Z * Z);
  mmio_reads : nat
}.

#[export] Instance upd_hw : Update hw :=
  fun f r => mkkernel (f (hw r)) (procs r) (nextpid r) (initproc r) (forkret_first r) (ticks
    r) (freelist r) (mem r) (tfs r) (pipes r) (kernel_pagetable r) (ftable r) (devsw_console
    r) (bcache r) (disk r) (dwrites r) (itable r) (sb r) (klog r) (cons r) (uart_tx r)
    (pr_locking r) (panicked r) (vdisk r) (started r) (mmio r) (mmio_reads r).
#[export] Instance upd_procs : Update procs :=
  fun f r => mkkernel (hw r) (f (procs r)) (nextpid r) (initproc r) (forkret_first r) (ticks
    r) (freelist r) (mem r) (tfs r) (pipes r) (kernel_pagetable r) (ftable r) (devsw_console
    r) (bcache r) (disk r) (dwrites r) (itable r) (sb r) (klog r) (cons r) (uart_tx r)
    (pr_locking r) (panicked r) (vdisk r) (started r) (mmio r) (mmio_reads r).
#[export] Instance upd_nextpid : Update nextpid :=
  fun f r => mkkernel (hw r) (procs r) (f (nextpid r)) (initproc r) (forkret_first r) (ticks
    r) (freelist r) (mem r) (tfs r) (pipes r) (kernel_pagetable r) (ftable r) (devsw_console
    r) (bcache r) (disk r) (dwrites r) (itable r) (sb r) (klog r) (cons r) (uart_tx r)
    (pr_locking r) (panicked r) (vdisk r) (started r) (mmio r) (mmio_reads r).
#[export] Instance upd_initproc : Update initproc :=
  fun f r => mkkernel (hw r) (procs r) (nextpid r) (f (initproc r)) (forkret_first r) (ticks
    r) (freelist r) (mem r) (tfs r) (pipes r) (kernel_pagetable r) (ftable r) (devsw_console
    r) (bcache r) (disk r) (dwrites r) (itable r) (sb r) (klog r) (cons r) (uart_tx r)
    (pr_locking r) (panicked r) (vdisk r) (started r) (mmio r) (mmio_reads r).
#[export] Instance upd_forkret_first : Update forkret_first :=
  fun f r => mkkernel (hw r) (procs r) (nextpid r) (initproc r) (f (forkret_first r)) (ticks
    r) (freelist r) (mem r) (tfs r) (pipes r) (kernel_pagetable r) (ftable r) (devsw_console
    r) (bcache r) (disk r) (dwrites r) (itable r) (sb r) (klog r) (cons r) (uart_tx r)
    (pr_locking r) (panicked r) (vdisk r) (started r) (mmio r) (mmio_reads r).
#[export] Instance upd_ticks : Update ticks :=
  fun f r => mkkernel (hw r) (procs r) (nextpid r) (initproc r) (forkret_first r) (f (ticks
    r)) (freelist r) (mem r) (tfs r) (pipes r) (kernel_pagetable r) (ftable r)
    (devsw_console r) (bcache r) (disk r) (dwrites r) (itable r) (sb r) (klog r) (cons r)
    (uart_tx r) (pr_locking r) (panicked r) (vdisk r) (started r) (mmio r) (mmio_reads r).
#[export] Instance upd_freelist : Update freelist :=
  fun f r => mkkernel (hw r) (procs r) (nextpid r) (initproc r) (forkret_first r) (ticks r)
    (f (freelist r)) (mem r) (tfs r) (pipes r) (kernel_pagetable r) (ftable r)
    (devsw_console r) (bcache r) (disk r) (dwrites r) (itable r) (sb r) (klog r) (cons r)
    (uart_tx r) (pr_locking r) (panicked r) (vdisk r) (started r) (mmio r) (mmio_reads r).
#[export] Instance upd_mem : Update mem :=
  fun f r => mkkernel (hw r) (procs r) (nextpid r) (initproc r) (forkret_first r) (ticks r)
    (freelist r) (f (mem r)) (tfs r) (pipes r) (kernel_pagetable r) (ftable r)
    (devsw_console r) (bcache r) (disk r) (dwrites r) (itable r) (sb r) (klog r) (cons r)
    (uart_tx r) (pr_locking r) (panicked r) (vdisk r) (started r) (mmio r) (mmio_reads r).
#[export] Instance upd_tfs : Update tfs :=
  fun f r => mkkernel (hw r) (procs r) (nextpid r) (initproc r) (forkret_first r) (ticks r)
    (freelist r) (mem r) (f (tfs r)) (pipes r) (kernel_pagetable r) (ftable r)
    (devsw_console r) (bcache r) (disk r) (dwrites r) (itable r) (sb r) (klog r) (cons r)
    (uart_tx r) (pr_locking r) (panicked r) (vdisk r) (started r) (mmio r) (mmio_reads r).
#[export] Instance upd_pipes : Update pipes :=
  fun f r => mkkernel (hw r) (procs r) (nextpid r) (initproc r) (forkret_first r) (ticks r)
    (freelist r) (mem r) (tfs r) (f (pipes r)) (kernel_pagetable r) (ftable r)
    (devsw_console r) (bcache r) (disk r) (dwrites r) (itable r) (sb r) (klog r) (cons r)
    (uart_tx r) (pr_locking r) (panicked r) (vdisk r) (started r) (mmio r) (mmio_reads r).
#[export] Instance upd_kernel_pagetable : Update kernel_pagetable :=
  fun f r => mkkernel (hw r) (procs r) (nextpid r) (initproc r) (forkret_first r) (ticks r)
    (freelist r) (mem r) (tfs r) (pipes r) (f (kernel_pagetable r)) (ftable r)
    (devsw_console r) (bcache r) (disk r) (dwrites r) (itable r) (sb r) (klog r) (cons r)
    (uart_tx r) (pr_locking r) (panicked r) (vdisk r) (started r) (mmio r) (mmio_reads r).
#[export] Instance upd_ftable : Update ftable :=
  fun f r => mkkernel (hw r) (procs r) (nextpid r) (initproc r) (forkret_first r) (ticks r)
    (freelist r) (mem r) (tfs r) (pipes r) (kernel_pagetable r) (f (ftable r))
    (devsw_console r) (bcache r) (disk r) (dwrites r) (itable r) (sb r) (klog r) (cons r)
    (uart_tx r) (pr_locking r) (panicked r) (vdisk r) (started r) (mmio r) (mmio_reads r).
#[export] Instance upd_devsw_console : Update devsw_console :=
  fun f r => mkkernel (hw r) (procs r) (nextpid r) (initproc r) (forkret_first r) (ticks r)
    (freelist r) (mem r) (tfs r) (pipes r) (kernel_pagetable r) (ftable r) (f (devsw_console
    r)) (bcache r) (disk r) (dwrites r) (itable r) (sb r) (klog r) (cons r) (uart_tx r)
    (pr_locking r) (panicked r) (vdisk r) (started r) (mmio r) (mmio_reads r).
#[export] Instance upd_bcache : Update bcache :=
  fun f r => mkkernel (hw r) (procs r) (nextpid r) (initproc r) (forkret_first r) (ticks r)
    (freelist r) (mem r) (tfs r) (pipes r) (kernel_pagetable r) (ftable r) (devsw_console r)
    (f (bcache r)) (disk r) (dwrites r) (itable r) (sb r) (klog r) (cons r) (uart_tx r)
    (pr_locking r) (panicked r) (vdisk r) (started r) (mmio r) (mmio_reads r).
#[export] Instance upd_disk : Update disk :=
  fun f r => mkkernel (hw r) (procs r) (nextpid r) (initproc r) (forkret_first r) (ticks r)
    (freelist r) (mem r) (tfs r) (pipes r) (kernel_pagetable r) (ftable r) (devsw_console r)
    (bcache r) (f (disk r)) (dwrites r) (itable r) (sb r) (klog r) (cons r) (uart_tx r)
    (pr_locking r) (panicked r) (vdisk r) (started r) (mmio r) (mmio_reads r).
#[export] Instance upd_dwrites : Update dwrites :=
  fun f r => mkkernel (hw r) (procs r) (nextpid r) (initproc r) (forkret_first r) (ticks r)
    (freelist r) (mem r) (tfs r) (pipes r) (kernel_pagetable r) (ftable r) (devsw_console r)
    (bcache r) (disk r) (f (dwrites r)) (itable r) (sb r) (klog r) (cons r) (uart_tx r)
    (pr_locking r) (panicked r) (vdisk r) (started r) (mmio r) (mmio_reads r).
#[export] Instance upd_itable : Update itable :=
  fun f r => mkkernel (hw r) (procs r) (nextpid r) (initproc r) (forkret_first r) (ticks r)
    (freelist r) (mem r) (tfs r) (pipes r) (kernel_pagetable r) (ftable r) (devsw_console r)
    (bcache r) (disk r) (dwrites r) (f (itable r)) (sb r) (klog r) (cons r) (uart_tx r)
    (pr_locking r) (panicked r) (vdisk r) (started r) (mmio r) (mmio_reads r).
#[export] Instance upd_sb : Update sb :=
  fun f r => mkkernel (hw r) (procs r) (nextpid r) (initproc r) (forkret_first r) (ticks r)
    (freelist r) (mem r) (tfs r) (pipes r) (kernel_pagetable r) (ftable r) (devsw_console r)
    (bcache r) (disk r) (dwrites r) (itable r) (f (sb r)) (klog r) (cons r) (uart_tx r)
    (pr_locking r) (panicked r) (vdisk r) (started r) (mmio r) (mmio_reads r).
#[export] Instance upd_klog : Update klog :=
  fun f r => mkkernel (hw r) (procs r) (nextpid r) (initproc r) (forkret_first r) (ticks r)
    (freelist r) (mem r) (tfs r) (pipes r) (kernel_pagetable r) (ftable r) (devsw_console r)
    (bcache r) (disk r) (dwrites r) (itable r) (sb r) (f (klog r)) (cons r) (uart_tx r)
    (pr_locking r) (panicked r) (vdisk r) (started r) (mmio r) (mmio_reads r).
#[export] Instance upd_cons : Update cons :=
  fun f r => mkkernel (hw r) (procs r) (nextpid r) (initproc r) (forkret_first r) (ticks r)
    (freelist r) (mem r) (tfs r) (pipes r) (kernel_pagetable r) (ftable r) (devsw_console r)
    (bcache r) (disk r) (dwrites r) (itable r) (sb r) (klog r) (f (cons r)) (uart_tx r)
    (pr_locking r) (panicked r) (vdisk r) (started r) (mmio r) (mmio_reads r).
#[export] Instance upd_uart_tx : Update uart_tx :=
  fun f r => mkkernel (hw r) (procs r) (nextpid r) (initproc r) (forkret_first r) (ticks r)
    (freelist r) (mem r) (tfs r) (pipes r) (kernel_pagetable r) (ftable r) (devsw_console r)
    (bcache r) (disk r) (dwrites r) (itable r) (sb r) (klog r) (cons r) (f (uart_tx r))
    (pr_locking r) (panicked r) (vdisk r) (started r) (mmio r) (mmio_reads r).
#[export] Instance upd_pr_locking : Update pr_locking :=
  fun f r => mkkernel (hw r) (procs r) (nextpid r) (initproc r) (forkret_first r) (ticks r)
    (freelist r) (mem r) (tfs r) (pipes r) (kernel_pagetable r) (ftable r) (devsw_console r)
    (bcache r) (disk r) (dwrites r) (itable r) (sb r) (klog r) (cons r) (uart_tx r) (f
    (pr_locking r)) (panicked r) (vdisk r) (started r) (mmio r) (mmio_reads r).
#[export] Instance upd_panicked : Update panicked :=
  fun f r => mkkernel (hw r) (procs r) (nextpid r) (initproc r) (forkret_first r) (ticks r)
    (freelist r) (mem r) (tfs r) (pipes r) (kernel_pagetable r) (ftable r) (devsw_console r)
    (bcache r) (disk r) (dwrites r) (itable r) (sb r) (klog r) (cons r) (uart_tx r)
    (pr_locking r) (f (panicked r)) (vdisk r) (started r) (mmio r) (mmio_reads r).
#[export] Instance upd_vdisk : Update vdisk :=
  fun f r => mkkernel (hw r) (procs r) (nextpid r) (initproc r) (forkret_first r) (ticks r)
    (freelist r) (mem r) (tfs r) (pipes r) (kernel_pagetable r) (ftable r) (devsw_console r)
    (bcache r) (disk r) (dwrites r) (itable r) (sb r) (klog r) (cons r) (uart_tx r)
    (pr_locking r) (panicked r) (f (vdisk r)) (started r) (mmio r) (mmio_reads r).
#[export] Instance upd_started : Update started :=
  fun f r => mkkernel (hw r) (procs r) (nextpid r) (initproc r) (forkret_first r) (ticks r)
    (freelist r) (mem r) (tfs r) (pipes r) (kernel_pagetable r) (ftable r) (devsw_console r)
    (bcache r) (disk r) (dwrites r) (itable r) (sb r) (klog r) (cons r) (uart_tx r)
    (pr_locking r) (panicked r) (vdisk r) (f (started r)) (mmio r) (mmio_reads r).
#[export] Instance upd_mmio : Update mmio :=
  fun f r => mkkernel (hw r) (procs r) (nextpid r) (initproc r) (forkret_first r) (ticks r)
    (freelist r) (mem r) (tfs r) (pipes r) (kernel_pagetable r) (ftable r) (devsw_console r)
    (bcache r) (disk r) (dwrites r) (itable r) (sb r) (klog r) (cons r) (uart_tx r)
    (pr_locking r) (panicked r) (vdisk r) (started r) (f (mmio r)) (mmio_reads r).
#[export] Instance upd_mmio_reads : Update mmio_reads :=
  fun f r => mkkernel (hw r) (procs r) (nextpid r) (initproc r) (forkret_first r) (ticks r)
    (freelist r) (mem r) (tfs r) (pipes r) (kernel_pagetable r) (ftable r) (devsw_console r)
    (bcache r) (disk r) (dwrites r) (itable r) (sb r) (klog r) (cons r) (uart_tx r)
    (pr_locking r) (panicked r) (vdisk r) (started r) (mmio r) (f (mmio_reads r)).

Lemma kernel_eq (r1 r2 : kernel) :
  hw r1 = hw r2 -> procs r1 = procs r2 -> nextpid r1 = nextpid r2 -> initproc r1 = initproc
  r2 -> forkret_first r1 = forkret_first r2 -> ticks r1 = ticks r2 -> freelist r1 = freelist
  r2 -> mem r1 = mem r2 -> tfs r1 = tfs r2 -> pipes r1 = pipes r2 -> kernel_pagetable r1 =
  kernel_pagetable r2 -> ftable r1 = ftable r2 -> devsw_console r1 = devsw_console r2 ->
  bcache r1 = bcache r2 -> disk r1 = disk r2 -> dwrites r1 = dwrites r2 -> itable r1 =
  itable r2 -> sb r1 = sb r2 -> klog r1 = klog r2 -> cons r1 = cons r2 -> uart_tx r1 =
  uart_tx r2 -> pr_locking r1 = pr_locking r2 -> panicked r1 = panicked r2 -> vdisk r1 =
  vdisk r2 -> started r1 = started r2 -> mmio r1 = mmio r2 -> mmio_reads r1 = mmio_reads r2
  -> r1 = r2.
Proof. destruct r1, r2; cbn. intros. by subst. Qed.

