(* ===== verification/Machine.v ===== *)
(** * A concrete machine

    A booted machine with an idle disk on which the theorems of the
    development are evaluated: every lock is initialised and free, hart 0 runs
    process 0 with interrupts enabled. *)

From S2P Require Import Prelude State.

Definition platform0 : Platform := {|
  sym_end := 0x80020000;
  sym_etext := 0x80008000;
  sym_trampoline := 0x80007000;
  sym_uservec := 0x80007000;
  sym_userret := 0x80007090;
  sym_kernelvec := 0x80005000;
  sym_usertrap := 0x80002000;
  sym_forkret := 0x80001000;
  sym_disk_pages := 0x8001c000;
  dev_read := fun a n => 0x60;
  uninit := 0xdeadbeef;
  spin_fuel := 8;
|}.

Definition unlocked (name : string) : spinlock := mkspinlock false name None.

Definition locks0 : gmap lockid spinlock :=
  list_to_map
    ((fun lk => (lk, unlocked "lock")) <$>
       [LPid; LWait; LTicks; LKmem; LFtable; LBcache; LItable; LLog; LCons; LPr; LUart; LVdisk] ++
       (LProc <$> seq 0 NPROC) ++ ((LSleep ∘ SBuf) <$> seq 0 NBUF) ++
       ((LSleep ∘ SInode) <$> seq 0 NINODE)).

Definition cpu0 : cpu := mkcpu (Some 0%nat) context0 0 true.

Definition hart0 : hart :=
  mkhart 0 SSTATUS_SIE 0 0 0 0 0 0 (cpu0 :: replicate 7 (mkcpu None context0 0 false)) locks0.

Definition sleeplock0 : sleeplock := mksleeplock false "sleep lock" 0.

(** Buffer [i] of the list built by binit(), the head being number NBUF. *)
Definition buf0 (i : nat) : buf :=
  let prev := if (i =? NBUF)%nat then 0%nat else S i in
  let next := if (i =? 0)%nat then NBUF else Nat.pred i in
  mkbuf false 0 0 0 sleeplock0 0 prev next (replicate (Z.to_nat BSIZE) 0).

Definition inode0 : inode := mkinode 0 0 0 sleeplock0 false 0 0 0 0 0 (replicate (S NDIRECT) 0).

Definition log0 : logstate := mklog 2 30 0 false 1 0 (replicate (Z.to_nat LOGSIZE) 0).

Definition virtq0 : virtq :=
  mkvirtq (replicate NUM (mkvdesc DmaNull 0 0 0)) 0 (replicate NUM 0) 0 (replicate NUM 0)
    (replicate NUM true) 0 (replicate NUM None) (replicate NUM 0) (replicate NUM (mkvreq 0 0 0)).

Definition sb0 : superblock := mksuperblock FSMAGIC FSSIZE 954 200 30 2 32 45.

(** The machine with the given processes in the first slots of the table. *)
Definition machine (ps : list proc) : kernel :=
  mkkernel hart0 (ps ++ replicate (NPROC - length ps) proc0) 1 (Some 0%nat) false 0
    0 ∅ ∅ ∅ 0 (replicate NFILE file0) true (buf0 <$> seq 0 (S NBUF)) ∅ [] (replicate NINODE inode0)
    sb0 log0 (mkconsole (replicate 128 0) 0 0 0) (mkuart (replicate 32 0) 0 0) true false virtq0
    true [] 0.

(** Sample processes. *)
Definition running (pid : Z) : proc := proc0 <| p_state := RUNNING |> <| p_pid := pid |>.

Definition runnable (pid ctime : Z) : proc :=
  proc0 <| p_state := RUNNABLE |> <| p_pid := pid |> <| p_ctime := ctime |> <| p_priority := 60 |>.

Definition sleeper (pid : Z) (ch : chan) (since : Z) : proc :=
  proc0 <| p_state := SLEEPING |> <| p_pid := pid |> <| p_chan := ch |> <| p_stime := since |>.
