(* ===== verification/Monad.v ===== *)
(** * The kernel monad: state, panics, blocking

    A C function of the kernel is a term of [M A]: it runs on the global state
    [kernel] and ends in one of the [outcome]s below.  A function that gives up
    the CPU (through [sched], proc.c) is resumed later in a state that the rest
    of the system produced: the environment argument of [M] lists, one entry
    per time the thread is switched out, what the other threads, interrupt
    handlers and harts do to the state until it is switched in again.  When the
    list is used up the thread stays off the CPU ([Away]).  Between two such
    points the code of one thread runs without interference on the data its
    locks protect. *)

From S2P Require Import Prelude State.

Definition env : Type := list (kernel -> kernel).

(** How a run of kernel code can end: [Ret], it returned; [Panic], it called
    panic() (printf.c), which never returns; [Away], it is switched out for
    good; [Spin], it spins for ever on a lock that no other code can release;
    [Undef], it dereferenced a null pointer or indexed an array out of bounds;
    [NoFuel], a loop of the model ran out of fuel. *)
Inductive outcome (A : Type) :=
| Ret (a : A) (e : env) (s : kernel)
| Panic (msg : string) (s : kernel)
| Away (s : kernel)
| Spin (lk : lockid) (s : kernel)
| Undef (why : string)
| NoFuel.
Arguments Ret {A} a e s.
Arguments Panic {A} msg s.
Arguments Away {A} s.
Arguments Spin {A} lk s.
Arguments Undef {A} why.
Arguments NoFuel {A}.

Definition M (A : Type) : Type := env -> kernel -> outcome A.

Definition ret {A} (a : A) : M A := fun e s => Ret a e s.

Definition bind {A B} (m : M A) (k : A -> M B) : M B := fun e s =>
  match m e s with
  | Ret a e s => k a e s
  | Panic msg s => Panic msg s
  | Away s => Away s
  | Spin lk s => Spin lk s
  | Undef why => Undef why
  | NoFuel => NoFuel
  end.

Declare Scope kernel_scope.
Delimit Scope kernel_scope with kernel.
Notation "x <- m ; k" := (bind m (fun x => k))
  (at level 20, m at level 100, k at level 200) : kernel_scope.
Notation "' p <- m ; k" := (bind m (fun x => match x with p => k end))
  (at level 20, p pattern, m at level 100, k at level 200) : kernel_scope.
Notation "m ;; k" := (bind m (fun _ => k))
  (at level 100, k at level 200, right associativity) : kernel_scope.
#[global] Open Scope kernel_scope.

(** ** Primitives *)

Definition gets {A} (f : kernel -> A) : M A := fun e s => Ret (f s) e s.

Definition modify (f : kernel -> kernel) : M unit := fun e s => Ret tt e (f s).

(** panic() of printf.c: the machine stops. *)
Definition panic {A} (msg : string) : M A := fun _ s => Panic msg s.

Definition undef {A} (why : string) : M A := fun _ _ => Undef why.

Definition spin {A} (lk : lockid) : M A := fun _ s => Spin lk s.

Definition nofuel {A} : M A := fun _ _ => NoFuel.

(** A pointer or array access: undefined behaviour when there is nothing. *)
Definition deref {A} (why : string) (o : option A) : M A :=
  match o with Some a => ret a | None => undef why end.

(** Leave the CPU and come back: the next entry of the environment. *)
Definition away : M unit := fun e s =>
  match e with
  | [] => Away s
  | g :: e => Ret tt e (g s)
  end.

Definition when (b : bool) (m : M unit) : M unit := if b then m else ret tt.

(** ** Loops *)

(** [for(x in l) f(x);] *)
Fixpoint for_ {X} (l : list X) (f : X -> M unit) : M unit :=
  match l with
  | [] => ret tt
  | x :: l => f x ;; for_ l f
  end.

(** [for(x in l)] whose body may leave the loop (return, break, goto) with a
    value. *)
Fixpoint for_find {X R} (l : list X) (f : X -> M (option R)) : M (option R) :=
  match l with
  | [] => ret None
  | x :: l =>
      r <- f x;
      match r with Some _ => ret r | None => for_find l f end
  end.

(** [for(x in l)] that updates local variables [a]. *)
Fixpoint for_fold {X S} (l : list X) (f : S -> X -> M S) (a : S) : M S :=
  match l with
  | [] => ret a
  | x :: l => a <- f a x; for_fold l f a
  end.

(** [while] on local variables [a]: the body continues with [inl] and leaves
    the loop with [inr]. *)
Fixpoint while {S R} (fuel : nat) (body : S -> M (S + R)) (a : S) : M R :=
  match fuel with
  | O => nofuel
  | Datatypes.S fuel =>
      r <- body a;
      match r with inl a => while fuel body a | inr r => ret r end
  end.

(** The same with room for [2 ^ k] rounds; [inl] when they did not suffice. *)
Fixpoint rounds {S R} (k : nat) (body : S -> M (S + R)) (a : S) : M (S + R) :=
  match k with
  | O => body a
  | Datatypes.S k =>
      r <- rounds k body a;
      match r with inl a => rounds k body a | inr r => ret (inr r) end
  end.

(** A loop on a counter: no counter of the code has more than 64 bits. *)
Definition loop {S R} (body : S -> M (S + R)) (a : S) : M R :=
  r <- rounds 64 body a;
  match r with inl _ => nofuel | inr r => ret r end.

(** A loop each of whose rounds, but for [k] of them, sleeps: the environment
    bounds the number of rounds. *)
Definition sleep_loop {S R} (k : nat) (body : S -> M (S + R)) (a : S) : M R :=
  fun e s => while (Datatypes.S (length e + k)) body a e s.

(** ** Running *)

Lemma bind_run {A B} (m : M A) (k : A -> M B) e s a e' s' :
  m e s = Ret a e' s' -> (x <- m; k x) e s = k a e' s'.
Proof. unfold bind. by intros ->. Qed.

Lemma bind_assoc {A B C} (m : M A) (k : A -> M B) (h : B -> M C) e s :
  (y <- (x <- m; k x); h y) e s = (x <- m; y <- k x; h y) e s.
Proof. unfold bind. by destruct (m e s). Qed.

Lemma for_app {X} (l1 l2 : list X) f e s :
  for_ (l1 ++ l2) f e s = (for_ l1 f ;; for_ l2 f) e s.
Proof.
  revert e s; induction l1 as [|x l1 IH]; intros; [done|].
  simpl. rewrite bind_assoc. unfold bind at 1 2. destruct (f x e s); auto.
Qed.

Lemma bind_inv {A B} (m : M A) (k : A -> M B) e s r e' s' :
  (x <- m; k x) e s = Ret r e' s' ->
  exists a e1 s1, m e s = Ret a e1 s1 /\ k a e1 s1 = Ret r e' s'.
Proof. unfold bind. destruct (m e s); try done. eauto. Qed.

(** [rounds k] is [2 ^ k] unfoldings of the loop: enough fuel for [while] is
    enough for [loop]. *)
Fixpoint unroll {S R} (n : nat) (body : S -> M (S + R)) (a : S) : M (S + R) :=
  match n with
  | O => ret (inl a)
  | Datatypes.S n =>
      r <- body a;
      match r with inl a => unroll n body a | inr r => ret (inr r) end
  end.

Lemma unroll_S {S R} n (body : S -> M (S + R)) a :
  unroll (Datatypes.S n) body a =
  (r <- body a; match r with inl a => unroll n body a | inr r => ret (inr r) end).
Proof. done. Qed.

Lemma unroll_add {S R} n m (body : S -> M (S + R)) a e s :
  unroll (n + m) body a e s =
  (r <- unroll n body a;
   match r with inl a => unroll m body a | inr r => ret (inr r) end) e s.
Proof.
  revert a e s. induction n as [|n IH]; intros a e s; [done|]. simpl. unfold bind.
  destruct (body a e s) as [[a'|r] e' s'| | | | |]; try done; apply IH.
Qed.

Lemma rounds_unroll {S R} k (body : S -> M (S + R)) a e s :
  rounds k body a e s = unroll (2 ^ k) body a e s.
Proof.
  revert a e s. induction k as [|k IH]; intros a e s.
  - simpl. unfold bind, ret. by destruct (body a e s) as [[?|?] ? ?| | | | |].
  - replace (2 ^ Datatypes.S k)%nat with (2 ^ k + 2 ^ k)%nat by (simpl; lia).
    rewrite unroll_add. simpl. unfold bind. rewrite IH.
    destruct (unroll _ body a e s) as [[a'|r] e' s'| | | | |]; try done; apply IH.
Qed.

Lemma unroll_enough {S R} n m (body : S -> M (S + R)) a e s r e' s' :
  unroll n body a e s = Ret (inr r) e' s' -> (n <= m)%nat ->
  unroll m body a e s = Ret (inr r) e' s'.
Proof.
  intros H Hle. replace m with (n + (m - n))%nat by lia.
  rewrite unroll_add. unfold bind. by rewrite H.
Qed.

(** A loop that ends within [n] rounds ends. *)
Lemma loop_run {S R} n (body : S -> M (S + R)) a e s r e' s' :
  unroll n body a e s = Ret (inr r) e' s' -> (N.of_nat n <= 2 ^ 64)%N ->
  loop body a e s = Ret r e' s'.
Proof.
  intros H Hle. unfold loop. rewrite (bind_run _ _ _ _ (inr r) e' s'); [done|].
  rewrite rounds_unroll. eapply unroll_enough; [done|].
  assert (N.of_nat (2 ^ 64) = 2 ^ 64)%N as Hp by (rewrite Nat2N.inj_pow; done). lia.
Qed.

Lemma while_run {S R} n fuel (body : S -> M (S + R)) a e s r e' s' :
  unroll n body a e s = Ret (inr r) e' s' -> (n <= fuel)%nat ->
  while fuel body a e s = Ret r e' s'.
Proof.
  revert fuel a e s. induction n as [|n IH]; intros fuel a e s; [done|].
  destruct fuel as [|fuel]; [lia|]. cbn [unroll while]. unfold bind.
  destruct (body a e s) as [[a'|r'] e1 s1| | | | |]; try done.
  - intros H Hle. apply IH; [done|lia].
  - by intros [= -> -> ->].
Qed.

(** The round in which a loop ended. *)
Lemma while_last {S R} fuel (body : S -> M (S + R)) a e s r e' s' :
  while fuel body a e s = Ret r e' s' -> exists a1 e1 s1, body a1 e1 s1 = Ret (inr r) e' s'.
Proof.
  revert a e s. induction fuel as [|fuel IH]; intros a e s; [done|]. cbn [while]. unfold bind.
  destruct (body a e s) as [[a1|r1] e1 s1| | | | |] eqn:E; try done.
  - apply IH.
  - intros [= -> -> ->]. eauto.
Qed.

(** ** Total correctness

    [wp m Q e s]: run from [s], [m] returns (no panic, no undefined behaviour,
    no deadlock) and the result satisfies [Q]. *)

Definition wp {A} (m : M A) (Q : A -> env -> kernel -> Prop) (e : env) (s : kernel) : Prop :=
  match m e s with Ret a e s => Q a e s | _ => False end.

(** Every state [m] leaves behind satisfies [Q], whichever way [m] ends. *)
Definition leaves {A} (m : M A) (Q : kernel -> Prop) (e : env) (s : kernel) : Prop :=
  match m e s with
  | Ret _ _ s | Panic _ s | Away s | Spin _ s => Q s
  | Undef _ | NoFuel => True
  end.

Lemma wp_bind {A B} (m : M A) (k : A -> M B) Q e s :
  wp m (fun a => wp (k a) Q) e s -> wp (x <- m; k x) Q e s.
Proof. unfold wp, bind. by destruct (m e s). Qed.

Lemma wp_mono {A} (m : M A) (Q Q' : A -> env -> kernel -> Prop) e s :
  wp m Q e s -> (forall a e s, Q a e s -> Q' a e s) -> wp m Q' e s.
Proof. unfold wp. destruct (m e s); auto. Qed.

Lemma wp_run {A} (m : M A) (Q : A -> env -> kernel -> Prop) e s :
  wp m Q e s <-> exists a e' s', m e s = Ret a e' s' /\ Q a e' s'.
Proof.
  unfold wp. destruct (m e s); split; try done; try (by intros (?&?&?&?&?)).
  - eauto.
  - by intros (?&?&?&[= -> -> ->]&?).
Qed.

(** ** What an operation leaves unchanged

    [Keeps f m]: the component [f] of the state is the same in every state [m]
    leaves, as long as the environment keeps it too. *)

Definition env_keeps {X} (f : kernel -> X) (e : env) : Prop :=
  Forall (fun g => forall s, f (g s) = f s) e.

Class Keeps {A X} (f : kernel -> X) (m : M A) : Prop :=
  keeps : forall e s, env_keeps f e ->
    match m e s with
    | Ret _ e' s' => f s' = f s /\ env_keeps f e'
    | Panic _ s' | Away s' | Spin _ s' => f s' = f s
    | Undef _ | NoFuel => True
    end.

#[global] Typeclasses Opaque ret bind gets modify panic undef spin nofuel deref away when.
#[global] Typeclasses Opaque for_ for_find for_fold while rounds loop sleep_loop unroll.

#[export] Instance keeps_ret {A X} (f : kernel -> X) (a : A) : Keeps f (ret a).
Proof. done. Qed.

#[export] Instance keeps_gets {A X} (f : kernel -> X) (g : kernel -> A) : Keeps f (gets g).
Proof. done. Qed.

#[export] Instance keeps_panic {A X} (f : kernel -> X) msg : Keeps f (@panic A msg).
Proof. done. Qed.

#[export] Instance keeps_undef {A X} (f : kernel -> X) msg : Keeps f (@undef A msg).
Proof. done. Qed.

#[export] Instance keeps_nofuel {A X} (f : kernel -> X) : Keeps f (@nofuel A).
Proof. done. Qed.

#[export] Instance keeps_spin {A X} (f : kernel -> X) lk : Keeps f (@spin A lk).
Proof. done. Qed.

#[export] Instance keeps_deref {A X} (f : kernel -> X) why (o : option A) :
  Keeps f (deref why o).
Proof. by destruct o. Qed.

Lemma keeps_modify {X} (f : kernel -> X) (g : kernel -> kernel) :
  (forall s, f (g s) = f s) -> Keeps f (modify g).
Proof. intros Hg e s He. cbn. auto. Qed.

#[export] Instance keeps_away {X} (f : kernel -> X) : Keeps f away.
Proof.
  intros [|g e] s He; cbn; [done|]. inversion He as [|?? Hg He']; subst. auto.
Qed.

#[export] Instance keeps_bind {A B X} (f : kernel -> X) (m : M A) (k : A -> M B) :
  Keeps f m -> (forall a, Keeps f (k a)) -> Keeps f (x <- m; k x).
Proof.
  intros Hm Hk e s He. specialize (Hm e s He). unfold bind.
  destruct (m e s) as [a e' s'| | | | |]; try done. destruct Hm as [Hs He'].
  specialize (Hk a e' s' He'). rewrite Hs in Hk.
  by destruct (k a e' s').
Qed.

#[export] Instance keeps_if {A X} (f : kernel -> X) (b : bool) (m1 m2 : M A) :
  Keeps f m1 -> Keeps f m2 -> Keeps f (if b then m1 else m2).
Proof. by destruct b. Qed.

#[export] Instance keeps_when {X} (f : kernel -> X) (b : bool) (m : M unit) :
  Keeps f m -> Keeps f (when b m).
Proof. by destruct b. Qed.

#[export] Instance keeps_for {X Y} (f : kernel -> Y) (l : list X) (b : X -> M unit) :
  (forall x, Keeps f (b x)) -> Keeps f (for_ l b).
Proof.
  intros Hb. induction l; simpl; [apply _|]. by apply keeps_bind.
Qed.

#[export] Instance keeps_for_find {X R Y} (f : kernel -> Y) (l : list X)
    (b : X -> M (option R)) :
  (forall x, Keeps f (b x)) -> Keeps f (for_find l b).
Proof.
  intros Hb. induction l; simpl; [apply _|]. apply keeps_bind; [done|].
  intros [r|]; [apply _|done].
Qed.

#[export] Instance keeps_for_fold {X S Y} (f : kernel -> Y) (l : list X)
    (b : S -> X -> M S) a :
  (forall a x, Keeps f (b a x)) -> Keeps f (for_fold l b a).
Proof.
  intros Hb. revert a. induction l; intros a'; simpl; [apply _|].
  apply keeps_bind; [done|]. intros; apply IHl.
Qed.

#[export] Instance keeps_while {S R Y} (f : kernel -> Y) n (b : S -> M (S + R)) a :
  (forall a, Keeps f (b a)) -> Keeps f (while n b a).
Proof.
  intros Hb. revert a. induction n; intros a; simpl; [apply _|].
  apply keeps_bind; [done|]. intros [?|?]; [apply IHn|apply _].
Qed.

#[export] Instance keeps_sleep_loop {S R Y} (f : kernel -> Y) k (b : S -> M (S + R)) a :
  (forall a, Keeps f (b a)) -> Keeps f (sleep_loop k b a).
Proof. intros Hb e s He. unfold sleep_loop. by apply keeps_while. Qed.

#[export] Instance keeps_loop {S R Y} (f : kernel -> Y) (b : S -> M (S + R)) a :
  (forall a, Keeps f (b a)) -> Keeps f (loop b a).
Proof.
  intros Hb. unfold loop. apply keeps_bind.
  - generalize 64%nat as k; intros k. revert a.
    induction k as [|k IH]; intros a; simpl; [apply Hb|].
    apply keeps_bind; [apply IH|]. intros [?|?]; [apply IH|apply _].
  - intros [?|?]; apply _.
Qed.

Lemma keeps_run {A X} (f : kernel -> X) (m : M A) `{!Keeps f m} e s a e' s' :
  env_keeps f e -> m e s = Ret a e' s' -> f s' = f s /\ env_keeps f e'.
Proof. intros He Hr. pose proof (keeps e s He) as Hk. by rewrite Hr in Hk. Qed.

(** Prove [Keeps] of a function from its body: primitives by computation,
    calls by their instances, case analysis on the data the code tests. *)
Ltac solve_keeps :=
  repeat first
    [ progress intros
    | lazymatch goal with
      | |- Keeps _ (bind _ _) => apply keeps_bind
      | |- Keeps _ (when _ _) => apply keeps_when
      | |- Keeps _ (for_ _ _) => apply keeps_for
      | |- Keeps _ (for_find _ _) => apply keeps_for_find
      | |- Keeps _ (for_fold _ _ _) => apply keeps_for_fold
      | |- Keeps _ (while _ _ _) => apply keeps_while
      | |- Keeps _ (sleep_loop _ _ _) => apply keeps_sleep_loop
      | |- Keeps _ (loop _ _) => apply keeps_loop
      | |- Keeps _ (modify _) => apply keeps_modify; intros; reflexivity
      | |- Keeps _ (match ?x with _ => _ end) => destruct x
      | |- Keeps _ (let _ := _ in _) => cbv zeta
      | |- Keeps _ _ => exact _
      end ].

(** ** Invariants

    [good f P o]: the component [f] satisfies [P] in whatever state the run
    ended.  [Maintains f P m]: running [m] keeps it so. *)

Definition good {A X} (f : kernel -> X) (P : X -> Prop) (o : outcome A) : Prop :=
  match o with
  | Ret _ e s => P (f s) /\ env_keeps f e
  | Panic _ s | Away s | Spin _ s => P (f s)
  | Undef _ | NoFuel => True
  end.

Class Maintains {A X} (f : kernel -> X) (P : X -> Prop) (m : M A) : Prop :=
  maintains : forall e s, env_keeps f e -> P (f s) -> good f P (m e s).

Section Maintains.
Context {X : Type} (f : kernel -> X) (P : X -> Prop).

#[export] Instance keeps_maintains {A} (m : M A) : Keeps f m -> Maintains f P m.
Proof.
  intros Hk e s He HP. specialize (Hk e s He). unfold good.
  destruct (m e s); try (by rewrite Hk); [|done..]. destruct Hk as [-> ?]. done.
Qed.

Lemma good_bind {A B} (m : M A) (k : A -> M B) e s :
  good f P (m e s) ->
  (forall a e' s', P (f s') -> env_keeps f e' -> good f P (k a e' s')) ->
  good f P ((x <- m; k x) e s).
Proof. unfold bind. destruct (m e s); try done. intros [? ?] Hk. by apply Hk. Qed.

Lemma good_bind_keeps {A B} (m : M A) `{!Keeps f m} (k : A -> M B) e s :
  env_keeps f e -> P (f s) ->
  (forall a e' s', f s' = f s -> env_keeps f e' -> good f P (k a e' s')) ->
  good f P ((x <- m; k x) e s).
Proof.
  intros He HP Hk. pose proof (keeps e s He) as Hm. unfold bind.
  destruct (m e s); try (unfold good; by rewrite Hm); [|done..]. destruct Hm. by apply Hk.
Qed.

Lemma maintains_bind {A B} (m : M A) (k : A -> M B) :
  Maintains f P m -> (forall a, Maintains f P (k a)) -> Maintains f P (x <- m; k x).
Proof. intros Hm Hk e s He HP. apply good_bind; [by apply Hm|]. intros; by apply Hk. Qed.

Lemma maintains_rounds {S R} k (b : S -> M (S + R)) a :
  (forall a, Maintains f P (b a)) -> Maintains f P (rounds k b a).
Proof.
  intros Hb. revert a. induction k as [|k IH]; intros a; cbn [rounds]; [apply Hb|].
  apply maintains_bind; [apply IH|]. intros [x|x]; [apply IH|]. intros e s He HP. by split.
Qed.

Lemma maintains_loop {S R} (b : S -> M (S + R)) a :
  (forall a, Maintains f P (b a)) -> Maintains f P (loop b a).
Proof.
  intros Hb. apply maintains_bind; [by apply maintains_rounds|].
  intros [x|x] e s He HP; [done|by split].
Qed.

End Maintains.

(** ** Symbolic execution *)

(** Reduce the primitives at the head of a run and the projections of updated
    states; state updates themselves stay folded. *)
Ltac mred :=
  cbv beta iota zeta delta [bind ret gets modify deref when panic undef spin nofuel away].

(** Simplify the projections of updated records, one at a time: the equation
    is checked for an arbitrary record, so its cost does not depend on how the
    updated one was built. *)
Ltac st_with t u H :=
  pattern t;
  lazymatch goal with |- ?P _ => refine (@eq_ind_r _ u P _ t H) end;
  cbv beta.

Ltac st_step :=
  match goal with
  | |- context [ ?p (@upd ?R ?T ?q ?i ?f ?s) ] =>
      is_const p;
      let t := constr:(p (@upd R T q i f s)) in
      first
        [ let H := constr:((fun x : R => eq_refl (p x) : p (@upd R T q i f x) = p x) s) in
          st_with t constr:(p s) H
        | let H := constr:((fun x : R => eq_refl (f (q x)) : p (@upd R T q i f x) = f (q x)) s) in
          st_with t constr:(f (q s)) H ]
  end.

Ltac st := repeat st_step.

(** Two states are equal: compare them field by field. *)
Ltac state_eq := apply kernel_eq; st; try reflexivity.

Create HintDb kernel.

(** Run the call at the head of [x <- m; k] with an equation for it. *)
Tactic Notation "mrun" open_constr(H) :=
  erewrite bind_run by (eapply H; st; eauto 10 with kernel).

(** One step of a run, per primitive. *)

Section Steps.
Context {A B : Type} (k : A -> M B) (e : env) (s : kernel).

Lemma step_ret a : bind (ret a) k e s = k a e s.
Proof. done. Qed.

Lemma step_gets f : bind (gets f) k e s = k (f s) e s.
Proof. done. Qed.

Lemma step_deref why a : bind (deref why (Some a)) k e s = k a e s.
Proof. done. Qed.

End Steps.

Lemma step_modify {B} f (k : unit -> M B) e s : bind (modify f) k e s = k tt e (f s).
Proof. done. Qed.

Lemma step_when_true {B} m (k : unit -> M B) e s : bind (when true m) k e s = bind m k e s.
Proof. done. Qed.

Lemma step_when_false {B} m (k : unit -> M B) e s : bind (when false m) k e s = k tt e s.
Proof. done. Qed.

(** Run the primitive at the head of a run. *)
Ltac mstep :=
  lazymatch goal with
  | |- ?L = _ =>
    lazymatch L with
    | bind (ret ?a) ?k ?e ?s => rewrite (step_ret k e s a)
    | bind (gets ?f) ?k ?e ?s => rewrite (step_gets k e s f)
    | bind (modify ?f) ?k ?e ?s => rewrite (step_modify f k e s)
    | bind (when true ?m) ?k ?e ?s => rewrite (step_when_true m k e s)
    | bind (when false ?m) ?k ?e ?s => rewrite (step_when_false m k e s)
    | bind (deref ?w (Some ?a)) ?k ?e ?s => rewrite (step_deref k e s w a)
    | bind (bind ?m ?h) ?k ?e ?s => rewrite (bind_assoc m h k e s)
    | when true ?m ?e ?s => change L with (m e s)
    | when false ?m ?e ?s => change L with (Ret tt e s)
    | gets ?f ?e ?s => change L with (Ret (f s) e s)
    | modify ?f ?e ?s => change L with (Ret tt e (f s))
    | ret ?a ?e ?s => change L with (Ret a e s)
    end
  end; cbv beta iota; st.

Ltac msteps := repeat mstep.
