(* ===== verification/Spinlock.v ===== *)
(** * Interrupt masking and spinlocks: riscv.h, spinlock.c, cpuid()/mycpu()

    The operations as the code has them, and their effect on the running hart:
    [lock_h] and [unlock_h] are what [acquire] and [release] do to it, and
    [unlock_h] undoes [lock_h].  Every other component is verified with the
    equations [acquire_run] and [release_run]. *)

From S2P Require Import Prelude State Machine Monad.

(** ** Supervisor registers (riscv.h) *)

Definition r_sstatus : M Z := gets (fun s => sstatus (hw s)).

Definition w_sstatus (x : Z) : M unit := modify (fun s => s <| hw ::= fun h => h <| sstatus := x |> |>).

Definition intr_on : M unit := x <- r_sstatus; w_sstatus (Z.lor x SSTATUS_SIE).

Definition intr_off : M unit := x <- r_sstatus; w_sstatus (Z.land x (Z.lnot SSTATUS_SIE)).

Definition intr_get : M bool :=
  x <- r_sstatus; ret (negb (Z.land x SSTATUS_SIE =? 0)).

Definition r_tp : M nat := gets (fun s => tp (hw s)).

(** ** The current CPU (proc.c) *)

Definition cpuid : M nat := id <- r_tp; ret id.

(** [&cpus[id]], as the index [id]. *)
Definition mycpu : M nat := id <- cpuid; ret id.

Definition cpu_at (c : nat) : M cpu :=
  o <- gets (fun s => cpus (hw s) !! c); deref "cpus" o.

Definition cpu_upd (c : nat) (f : cpu -> cpu) : M unit :=
  modify (fun s => s <| hw ::= fun h => h <| cpus ::= alter f c |> |>).

Definition lock_at (lk : lockid) : M spinlock :=
  o <- gets (fun s => locks (hw s) !! lk); deref "spinlock" o.

Definition lock_upd (lk : lockid) (f : spinlock -> spinlock) : M unit :=
  modify (fun s => s <| hw ::= fun h => h <| locks ::= alter f lk |> |>).

(** ** spinlock.c *)

Definition initlock (lk : lockid) (name : string) : M unit :=
  modify (fun s => s <| hw ::= fun h => h <| locks ::= <[lk := mkspinlock false name None]> |> |>).

Definition holding (lk : lockid) : M bool :=
  l <- lock_at lk;
  c <- mycpu;
  ret (lk_locked l && bool_decide (lk_cpu l = Some c)).

Definition push_off : M unit :=
  old <- intr_get;
  intr_off ;;
  c <- mycpu; cc <- cpu_at c;
  when (c_noff cc =? 0) (cpu_upd c (fun c => c <| c_intena := old |>)) ;;
  cpu_upd c (fun c => c <| c_noff ::= fun n => n + 1 |>).

Definition pop_off : M unit :=
  c <- mycpu;
  i <- intr_get;
  if i then panic "pop_off - interruptible" else
  cc <- cpu_at c;
  if c_noff cc <? 1 then panic "pop_off" else
  cpu_upd c (fun c => c <| c_noff ::= fun n => n - 1 |>) ;;
  cc <- cpu_at c;
  when ((c_noff cc =? 0) && c_intena cc) intr_on.

(** The atomic swap on [lk->locked] leaves the lock taken when it was free;
    when another CPU holds it the loop spins. *)
Definition acquire (lk : lockid) : M unit :=
  push_off ;;
  h <- holding lk;
  if h then panic "acquire" else
  l <- lock_at lk;
  if lk_locked l then spin lk else
  lock_upd lk (fun l => l <| lk_locked := true |>) ;;
  c <- mycpu;
  lock_upd lk (fun l => l <| lk_cpu := Some c |>).

Definition release (lk : lockid) : M unit :=
  h <- holding lk;
  if negb h then panic "release" else
  lock_upd lk (fun l => l <| lk_cpu := None |>) ;;
  lock_upd lk (fun l => l <| lk_locked := false |>) ;;
  pop_off.

(** ** The effect on the running hart *)

(** Are device interrupts enabled? *)
Definition sie (h : hart) : bool := Z.testbit (sstatus h) 1.

#[global] Arguments sie : simpl never.

Definition intr_off_h (h : hart) : hart :=
  h <| sstatus ::= fun x => Z.land x (Z.lnot SSTATUS_SIE) |>.

Definition push_h (h : hart) : hart :=
  intr_off_h h <| cpus ::=
    alter (fun c => c <| c_intena ::= fun i => if c_noff c =? 0 then sie h else i |>
                      <| c_noff ::= fun n => n + 1 |>) (tp h) |>.

Definition pop_h (h : hart) : hart :=
  h <| sstatus ::= fun x =>
         match cpus h !! tp h with
         | Some c => if (c_noff c =? 1) && c_intena c then Z.lor x SSTATUS_SIE else x
         | None => x
         end |>
    <| cpus ::= alter (fun c => c <| c_noff ::= fun n => n - 1 |>) (tp h) |>.

Definition lock_h (lk : lockid) (h : hart) : hart :=
  push_h h <| locks ::= alter (fun l => l <| lk_locked := true |> <| lk_cpu := Some (tp h) |>) lk |>.

Definition unlock_h (lk : lockid) (h : hart) : hart :=
  pop_h h <| locks ::= alter (fun l => l <| lk_cpu := None |> <| lk_locked := false |>) lk |>.

(** How deep the running hart's push_off() calls are nested. *)
Definition noff (h : hart) : Z :=
  match cpus h !! tp h with Some c => c_noff c | None => 0 end.

(** The hart's bookkeeping of interrupts is consistent: with no lock held the
    saved [intena] says whether interrupts are on, with a lock held they are
    off. *)
Definition settled (h : hart) : Prop :=
  exists c, cpus h !! tp h = Some c /\ 0 <= c_noff c /\
    (c_noff c = 0 -> c_intena c = sie h) /\ (0 < c_noff c -> sie h = false).

Definition free (lk : lockid) (h : hart) : Prop :=
  exists name, locks h !! lk = Some (mkspinlock false name None).

Definition held (lk : lockid) (h : hart) : Prop :=
  exists name, locks h !! lk = Some (mkspinlock true name (Some (tp h))).

(** Held by some CPU, this one or another. *)
Definition taken (lk : lockid) (h : hart) : Prop :=
  exists l, locks h !! lk = Some l /\ lk_locked l = true.

(** ** Bits of sstatus *)

Lemma sie_bit x : negb (Z.land x SSTATUS_SIE =? 0) = Z.testbit x 1.
Proof.
  change SSTATUS_SIE with (2 ^ 1).
  destruct (Z.testbit x 1) eqn:Hx.
  - apply negb_true_iff, Z.eqb_neq. intros H0.
    assert (Z.testbit (Z.land x (2 ^ 1)) 1 = true) as Hc
      by (rewrite Z.land_spec, Hx; reflexivity).
    by rewrite H0, Z.bits_0 in Hc.
  - apply negb_false_iff, Z.eqb_eq. apply Z.bits_inj'. intros n Hn.
    rewrite Z.land_spec, Z.bits_0, Z.pow2_bits_eqb by lia.
    destruct (Z.eqb_spec 1 n) as [<-|]; [by rewrite Hx | by rewrite andb_false_r].
Qed.

Lemma sie_clear x : Z.testbit (Z.land x (Z.lnot SSTATUS_SIE)) 1 = false.
Proof. rewrite Z.land_spec. apply andb_false_r. Qed.

Lemma sie_set x : Z.testbit (Z.lor x SSTATUS_SIE) 1 = true.
Proof. rewrite Z.lor_spec. apply orb_true_r. Qed.

Lemma clear_unset x : Z.testbit x 1 = false -> Z.land x (Z.lnot SSTATUS_SIE) = x.
Proof.
  intros Hx. change SSTATUS_SIE with (2 ^ 1). apply Z.bits_inj'. intros n Hn.
  rewrite Z.land_spec, Z.lnot_spec, Z.pow2_bits_eqb by lia.
  destruct (Z.eqb_spec 1 n) as [<-|]; [by rewrite Hx | by rewrite andb_true_r].
Qed.

Lemma set_clear x :
  Z.testbit x 1 = true -> Z.lor (Z.land x (Z.lnot SSTATUS_SIE)) SSTATUS_SIE = x.
Proof.
  intros Hx. change SSTATUS_SIE with (2 ^ 1). apply Z.bits_inj'. intros n Hn.
  rewrite Z.lor_spec, Z.land_spec, Z.lnot_spec, Z.pow2_bits_eqb by lia.
  destruct (Z.eqb_spec 1 n) as [<-|]; [by rewrite Hx |].
  by rewrite andb_true_r, orb_false_r.
Qed.

(** ** Equations of the hart transformers *)

Lemma tp_lock lk h : tp (lock_h lk h) = tp h.
Proof. done. Qed.

Lemma cpu_lock lk h c :
  cpus h !! tp h = Some c ->
  cpus (lock_h lk h) !! tp h =
    Some (c <| c_intena := if c_noff c =? 0 then sie h else c_intena c |>
            <| c_noff := c_noff c + 1 |>).
Proof. intros Hc. cbn. by rewrite list_lookup_alter, decide_True, Hc. Qed.

Lemma settled_push h : settled h -> settled (push_h h).
Proof.
  intros (c & Hc & Hn & _ & _). eexists. split.
  { cbn. by rewrite list_lookup_alter, decide_True, Hc. }
  cbn. split; [lia|]. split; [lia|]. intros _. unfold sie. cbn. apply sie_clear.
Qed.

Lemma noff_push h : settled h -> 0 < noff (push_h h).
Proof.
  intros (c & Hc & Hn & _). unfold noff. cbn. rewrite list_lookup_alter, decide_True, Hc by done.
  cbn. lia.
Qed.

Lemma noff_lock lk h : settled h -> noff (lock_h lk h) = noff h + 1.
Proof.
  intros (c & Hc & _). unfold noff. rewrite tp_lock, (cpu_lock _ _ _ Hc), Hc. done.
Qed.

Lemma settled_lock lk h : settled h -> settled (lock_h lk h).
Proof.
  intros (c & Hc & Hn & _ & _). eexists. rewrite tp_lock, (cpu_lock _ _ _ Hc).
  split; [done|]. cbn. split; [lia|]. split; [lia|].
  intros _. unfold sie. cbn. apply sie_clear.
Qed.

Lemma held_lock lk h : free lk h -> held lk (lock_h lk h).
Proof.
  intros [name Hl]. exists name. cbn. by rewrite lookup_alter, decide_True, Hl.
Qed.

Lemma free_lock_ne lk lk' h : lk <> lk' -> free lk' h -> free lk' (lock_h lk h).
Proof. intros Hne [name Hl]. exists name. cbn. by rewrite lookup_alter_ne. Qed.

Lemma held_lock_ne lk lk' h : lk <> lk' -> held lk' h -> held lk' (lock_h lk h).
Proof. intros Hne [name Hl]. exists name. cbn. by rewrite lookup_alter_ne. Qed.

Lemma noff_pos_sie h : settled h -> 0 < noff h -> sie h = false.
Proof. intros (c & Hc & _ & _ & Hoff). unfold noff. rewrite Hc. auto. Qed.

(** Releasing undoes acquiring, whatever was done to the two locks' order. *)
Lemma pop_push h : settled h -> pop_h (push_h h) = h.
Proof.
  intros (c & Hc & Hn & H0 & Hp). apply hart_eq; try done.
  - cbn. rewrite list_lookup_alter, decide_True, Hc by done. cbn.
    destruct (Z.eqb_spec (c_noff c) 0) as [E|E].
    + rewrite E. change (0 + 1 =? 1) with true. cbn [andb].
      destruct (sie h) eqn:Hs; [by apply set_clear | by apply clear_unset].
    + replace (c_noff c + 1 =? 1) with false by (symmetry; apply Z.eqb_neq; lia).
      cbn. apply clear_unset. apply Hp. lia.
  - cbn. rewrite list_alter_alter_eq. apply (alter_same _ _ _ c); [done|].
    cbn. destruct (Z.eqb_spec (c_noff c) 0) as [E|E]; apply cpu_eq; cbn;
      rewrite ?H0 by done; done || lia.
Qed.

Lemma unlock_lock lk h : settled h -> free lk h -> unlock_h lk (lock_h lk h) = h.
Proof.
  intros Hs [name Hl]. rewrite <- (pop_push h Hs) at 2. apply hart_eq; try done.
  cbn. rewrite alter_alter_eq. apply alter_id. intros l.
  rewrite Hl. by intros [= <-].
Qed.

Lemma unlock_lock_swap lk lk' h :
  settled h -> lk <> lk' -> free lk h ->
  unlock_h lk (lock_h lk' (lock_h lk h)) = lock_h lk' h.
Proof.
  intros Hs Hne Hf. transitivity (lock_h lk' (unlock_h lk (lock_h lk h)));
    [|by rewrite unlock_lock].
  rewrite unlock_lock by done. destruct Hs as (c & Hc & Hn & H0 & Hp).
  assert (Hcc : forall f, cpus h !! tp h = Some c -> alter f (tp h) (cpus h) !! tp h = Some (f c))
    by (intros f _; by rewrite list_lookup_alter, decide_True, Hc).
  apply hart_eq; try done.
  - cbn. rewrite list_alter_alter_eq, Hcc by done. cbn.
    replace (c_noff c + 1 + 1 =? 1) with false by (symmetry; apply Z.eqb_neq; lia).
    cbn. apply clear_unset, sie_clear.
  - cbn. rewrite !list_alter_alter_eq. apply list_eq. intros j.
    rewrite !list_lookup_alter. case_decide; [subst|done]. rewrite Hc. cbn.
    replace (c_noff c + 1 =? 0) with false by (symmetry; apply Z.eqb_neq; lia).
    f_equal. apply cpu_eq; cbn; done || lia.
  - cbn. destruct Hf as [name Hl]. apply map_eq. intros k.
    rewrite !lookup_alter. repeat case_decide; subst; try congruence.
    by rewrite Hl.
Qed.

(** ** Running the lock operations *)

Lemma ret_hw {A} (a : A) e s f g :
  f (hw s) = g (hw s) -> Ret a e (s <| hw ::= f |>) = Ret a e (s <| hw ::= g |>).
Proof. intros H. unfold upd, upd_hw. by rewrite H. Qed.

(** Two runs that end in states differing only in the hart: compare the harts
    field by field. *)
Ltac hart_fields :=
  match goal with
  | |- Ret ?a ?e ?A = Ret ?a ?e (upd hw ?g ?s) =>
      change A with (s <| hw := hw A |>); apply ret_hw; apply hart_eq; try reflexivity
  end.

Lemma holding_run lk e s l :
  locks (hw s) !! lk = Some l ->
  holding lk e s = Ret (lk_locked l && bool_decide (lk_cpu l = Some (tp (hw s)))) e s.
Proof.
  intros Hl. unfold holding, lock_at, mycpu, cpuid, r_tp. mred. by rewrite Hl.
Qed.

Lemma push_off_any e s :
  is_Some (cpus (hw s) !! tp (hw s)) -> push_off e s = Ret tt e (s <| hw ::= push_h |>).
Proof.
  intros (c & Hc). unfold push_off, intr_get, intr_off, mycpu, cpuid, r_tp,
    cpu_at, cpu_upd, r_sstatus, w_sstatus. mred.
  rewrite sie_bit. cbn. rewrite Hc. mred.
  destruct (c_noff c =? 0) eqn:E; mred; hart_fields; cbn; [rewrite list_alter_alter_eq|];
    apply list_alter_ext; try done; intros c'; rewrite Hc; intros [= <-]; cbn; by rewrite E.
Qed.

Lemma push_off_run e s :
  settled (hw s) -> push_off e s = Ret tt e (s <| hw ::= push_h |>).
Proof. intros (c & Hc & _). apply push_off_any. by eexists. Qed.

Lemma pop_off_run e s :
  settled (hw s) -> 0 < noff (hw s) -> pop_off e s = Ret tt e (s <| hw ::= pop_h |>).
Proof.
  intros Hs Hn. pose proof (noff_pos_sie _ Hs Hn) as Hoff.
  destruct Hs as (c & Hc & _). unfold noff in Hn. rewrite Hc in Hn.
  unfold pop_off, intr_get, intr_on, mycpu, cpuid, r_tp, cpu_at, cpu_upd, r_sstatus,
    w_sstatus. mred.
  rewrite sie_bit. fold (sie (hw s)). rewrite Hoff, Hc. mred.
  replace (c_noff c <? 1) with false by (symmetry; apply Z.ltb_ge; lia).
  mred. cbn. rewrite list_lookup_alter, decide_True, Hc by done. cbn.
  replace (c_noff c - 1 =? 0) with (c_noff c =? 1)
    by (destruct (Z.eqb_spec (c_noff c) 1), (Z.eqb_spec (c_noff c - 1) 0); lia).
  destruct ((c_noff c =? 1) && c_intena c) eqn:E; mred; hart_fields; cbn; by rewrite Hc, E.
Qed.

Lemma acquire_run lk e s :
  settled (hw s) -> free lk (hw s) ->
  acquire lk e s = Ret tt e (s <| hw ::= lock_h lk |>).
Proof.
  intros Hs [name Hl]. unfold acquire. mrun push_off_run.
  erewrite bind_run by (by apply holding_run). cbn [lk_locked andb].
  unfold lock_at, lock_upd, mycpu, cpuid, r_tp. mred. cbn. rewrite Hl. mred. cbn.
  hart_fields. cbn. by rewrite alter_alter_eq.
Qed.

Lemma release_run lk e s :
  settled (hw s) -> 0 < noff (hw s) -> held lk (hw s) ->
  release lk e s = Ret tt e (s <| hw ::= unlock_h lk |>).
Proof.
  intros Hs Hn [name Hl]. unfold release.
  erewrite bind_run by (by apply holding_run). cbn [lk_locked lk_cpu andb].
  rewrite bool_decide_true by done. cbn [negb].
  unfold lock_upd. mred. rewrite pop_off_run by done.
  hart_fields. cbn. by rewrite alter_alter_eq.
Qed.

#[global] Arguments lock_h : simpl never.
#[global] Arguments unlock_h : simpl never.

(** ** The other outcomes *)

Lemma acquire_held lk e s :
  settled (hw s) -> held lk (hw s) ->
  acquire lk e s = Panic "acquire" (s <| hw ::= push_h |>).
Proof.
  intros Hs [name Hl]. unfold acquire. mrun push_off_run.
  erewrite bind_run by (by apply holding_run). cbn. by rewrite bool_decide_true.
Qed.

Lemma acquire_taken lk e s :
  settled (hw s) -> taken lk (hw s) -> ~ held lk (hw s) ->
  acquire lk e s = Spin lk (s <| hw ::= push_h |>).
Proof.
  intros Hs (l & Hl & Hlk) Hnh. unfold acquire. mrun push_off_run.
  erewrite bind_run by (by apply holding_run). rewrite Hlk. cbn [andb].
  rewrite bool_decide_false.
  - unfold lock_at. mred. st. cbn. rewrite Hl. by rewrite Hlk.
  - intros Hc. apply Hnh. exists (lk_name l). rewrite Hl. destruct l; cbn in *. by subst.
Qed.

Lemma release_not_held lk e s l :
  locks (hw s) !! lk = Some l -> ~ held lk (hw s) ->
  release lk e s = Panic "release" s.
Proof.
  intros Hl Hnh. unfold release. erewrite bind_run by (by apply holding_run).
  destruct (lk_locked l && _) eqn:E; [|done]. exfalso. destruct_bool. apply Hnh.
  exists (lk_name l). rewrite Hl. destruct l; cbn in *. by subst.
Qed.

(** ** Interrupt entry

    An interrupt clears SIE without touching [intena], which is stale while no
    lock is held; the first push_off() overwrites it.  [norm_h] is the hart
    with [intena] up to date. *)

Definition norm_h (h : hart) : hart :=
  h <| cpus ::= alter (fun c => c <| c_intena ::= fun i => if c_noff c =? 0 then sie h else i |>) (tp h) |>.

Definition orderly (h : hart) : Prop :=
  exists c, cpus h !! tp h = Some c /\ 0 <= c_noff c /\ (0 < c_noff c -> sie h = false).

Lemma settled_norm h : orderly h -> settled (norm_h h).
Proof.
  intros (c & Hc & Hn & Hoff). eexists. split.
  { cbn. by rewrite list_lookup_alter, decide_True, Hc. }
  cbn. unfold sie, norm_h. cbn. fold (sie h). split; [done|]. split; [|done].
  intros ->. done.
Qed.

Lemma norm_settled h : settled h -> norm_h h = h.
Proof.
  intros (c & Hc & Hn & H0' & _). apply hart_eq; try done. cbn. eapply alter_same; [done|].
  apply cpu_eq; try done. cbn. destruct (Z.eqb_spec (c_noff c) 0) as [E|E]; [|done].
  by rewrite H0'.
Qed.

Lemma push_norm h : push_h (norm_h h) = push_h h.
Proof.
  apply hart_eq; try done. cbn. rewrite list_alter_alter_eq. apply list_alter_ext; [|done].
  intros c _. apply cpu_eq; cbn; [done|done|done|]. unfold sie, norm_h. cbn.
  by destruct (c_noff c =? 0).
Qed.

(** Code that starts with push_off() runs as from the normalised hart. *)
Lemma push_off_norm e s : orderly (hw s) -> push_off e s = push_off e (s <| hw ::= norm_h |>).
Proof.
  intros Ho. rewrite push_off_any.
  2:{ destruct Ho as (c & Hc & _). by exists c. }
  rewrite push_off_run by (st; by apply settled_norm). f_equal. apply kernel_eq; st; try done.
  by rewrite push_norm.
Qed.

Lemma acquire_norm lk e s : orderly (hw s) -> acquire lk e s = acquire lk e (s <| hw ::= norm_h |>).
Proof. intros Ho. unfold acquire, bind. by rewrite push_off_norm. Qed.

(** ** Automation for lock brackets *)

Lemma noff_lock_pos lk h : settled h -> 0 < noff (lock_h lk h).
Proof.
  intros Hs. rewrite noff_lock by done. destruct Hs as (c & Hc & Hn & _).
  unfold noff. rewrite Hc. lia.
Qed.

#[export] Hint Resolve settled_lock held_lock noff_lock_pos settled_push noff_push : kernel.
#[export] Hint Resolve free_lock_ne held_lock_ne : kernel.
#[export] Hint Extern 5 (@eq lockid _ _ -> False) => discriminate : kernel.
#[export] Hint Extern 5 (_ <> _) => discriminate : kernel.

Lemma ret_state {A} (a : A) e S T : S = T -> Ret a e S = Ret a e T.
Proof. by intros ->. Qed.

(** The run ends in the given state: locks and interrupts are restored, and
    the other fields agree. *)
Ltac same_hw :=
  apply ret_state; state_eq; rewrite ?unlock_lock by eauto with kernel; try done.

(** Components of the state that locks and interrupt masking do not touch. *)
Class IgnoresHw {X} (f : kernel -> X) : Prop :=
  ignores_hw : forall g s, f (s <| hw ::= g |>) = f s.

#[export] Hint Extern 1 (IgnoresHw _) => intros ? ?; reflexivity : typeclass_instances.

Section KeepsLocks.
Context {X : Type} (f : kernel -> X) `{!IgnoresHw f}.

Lemma keeps_hw g : Keeps f (modify (fun s => s <| hw ::= g s |>)).
Proof using IgnoresHw0. apply keeps_modify. intros s. apply (ignores_hw (g s) s). Qed.

#[export] Instance keeps_push_off : Keeps f push_off.
Proof using IgnoresHw0.
  unfold push_off, intr_get, intr_off, cpu_at, cpu_upd, mycpu, cpuid, r_tp,
    r_sstatus, w_sstatus.
  solve_keeps; apply keeps_modify; intros; apply ignores_hw.
Qed.

#[export] Instance keeps_pop_off : Keeps f pop_off.
Proof using IgnoresHw0.
  unfold pop_off, intr_get, intr_on, cpu_at, cpu_upd, mycpu, cpuid, r_tp,
    r_sstatus, w_sstatus.
  solve_keeps; apply keeps_modify; intros; apply ignores_hw.
Qed.

#[export] Instance keeps_holding lk : Keeps f (holding lk).
Proof. unfold holding, lock_at, mycpu, cpuid, r_tp. solve_keeps. Qed.

#[export] Instance keeps_acquire lk : Keeps f (acquire lk).
Proof using IgnoresHw0.
  unfold acquire, lock_at, lock_upd, mycpu, cpuid, r_tp.
  solve_keeps; apply keeps_modify; intros; apply ignores_hw.
Qed.

#[export] Instance keeps_release lk : Keeps f (release lk).
Proof using IgnoresHw0.
  unfold release, lock_upd. solve_keeps; apply keeps_modify; intros; apply ignores_hw.
Qed.

#[export] Instance keeps_initlock lk name : Keeps f (initlock lk name).
Proof using IgnoresHw0. unfold initlock. apply keeps_modify. intros; apply ignores_hw. Qed.

End KeepsLocks.

(** ** Theorems *)

Lemma free_norm lk h : free lk h -> free lk (norm_h h).
Proof. done. Qed.

(** A critical section.  acquire() of a free lock returns holding it with
    interrupts off; acquiring it again on the same CPU panics; releasing it
    restores every lock, and the interrupt enable bit and nesting depth of
    before the acquire, whichever they were. *)
Theorem critical_section lk e s :
  orderly (hw s) -> free lk (hw s) ->
  exists s1, acquire lk e s = Ret tt e s1 /\ held lk (hw s1) /\ sie (hw s1) = false /\
    (exists s2, acquire lk e s1 = Panic "acquire" s2) /\
    release lk e s1 = Ret tt e (s <| hw ::= norm_h |>) /\
    sstatus (norm_h (hw s)) = sstatus (hw s) /\ locks (norm_h (hw s)) = locks (hw s) /\
    noff (norm_h (hw s)) = noff (hw s).
Proof.
  intros Ho Hf. pose proof (settled_norm _ Ho) as Hs. pose proof (free_norm _ _ Hf) as Hf'.
  exists (s <| hw ::= norm_h |> <| hw ::= lock_h lk |>).
  split; [rewrite acquire_norm by done; by apply acquire_run|]. st.
  split; [by apply held_lock|]. split.
  { apply noff_pos_sie; [by apply settled_lock|by apply noff_lock_pos]. }
  split; [eexists; apply acquire_held; st; [by apply settled_lock|by apply held_lock]|].
  split; [|split; [done|split; [done|]]].
  - rewrite release_run by (st; eauto with kernel). same_hw.
  - destruct Ho as (c & Hc & _). unfold noff. cbn.
    by rewrite list_lookup_alter, decide_True, Hc by done.
Qed.

