(* ===== verification/Smp.v ===== *)
(** * Spinlocks on several harts

    The harts of the machine share the per-CPU structs and the locks; each has
    its own registers.  A step of [smp_step] is one hart running acquire() or
    release() to its end, in any interleaving; [inside] is a ghost record of
    the critical sections each hart is in.  The invariant [exclusive] says that
    a lock is taken exactly when one hart is inside it. *)

From S2P Require Import Prelude State Machine Monad Spinlock.

Record smp := mksmp {
  kern : kernel;                     (* the shared state; [hw] is replaced by a hart's view *)
  regs : nat -> Z;                   (* each hart's sstatus *)
  inside : list (nat * lockid)       (* the critical sections entered and not left *)
}.

(** The kernel as hart [i] sees it. *)
Definition view (i : nat) (m : smp) : kernel :=
  kern m <| hw ::= fun h => h <| tp := i |> <| sstatus := regs m i |> |>.

(** The machine after hart [i] has run to the state [s]. *)
Definition resume (i : nat) (s : kernel) (ins : list (nat * lockid)) (m : smp) : smp :=
  mksmp s (fun j => if decide (j = i) then sstatus (hw s) else regs m j) ins.

Inductive smp_step : smp -> smp -> Prop :=
| step_acquire i lk s m :
    acquire lk [] (view i m) = Ret tt [] s ->
    smp_step m (resume i s ((i, lk) :: inside m) m)
| step_release i lk s l1 l2 m :
    inside m = l1 ++ (i, lk) :: l2 ->
    release lk [] (view i m) = Ret tt [] s ->
    smp_step m (resume i s (l1 ++ l2) m).

(** The locks agree with the ghost record, which lists no lock twice. *)
Definition exclusive (m : smp) : Prop :=
  NoDup (inside m).*2 /\
  (forall i lk, (i, lk) ∈ inside m ->
     exists name, locks (hw (kern m)) !! lk = Some (mkspinlock true name (Some i))) /\
  (forall lk l, locks (hw (kern m)) !! lk = Some l -> lk_locked l = true ->
     exists i, (i, lk) ∈ inside m).

(** ** What a completed acquire() or release() tells about the lock *)

Lemma push_off_locks e s a e' s' :
  push_off e s = Ret a e' s' -> locks (hw s') = locks (hw s) /\ tp (hw s') = tp (hw s).
Proof.
  unfold push_off, intr_get, intr_off, r_sstatus, w_sstatus, mycpu, cpuid, r_tp, cpu_at, cpu_upd.
  mred. cbn. destruct (cpus (hw s) !! tp (hw s)) as [c|]; [|done].
  destruct (c_noff c =? 0); intros [= _ <- <-]; done.
Qed.

Lemma pop_off_locks e s a e' s' :
  pop_off e s = Ret a e' s' -> locks (hw s') = locks (hw s) /\ tp (hw s') = tp (hw s).
Proof.
  unfold pop_off, intr_get, intr_on, r_sstatus, w_sstatus, mycpu, cpuid, r_tp, cpu_at, cpu_upd.
  mred. destruct (negb _); [done|]. cbn. destruct (cpus (hw s) !! tp (hw s)) as [c|]; [|done].
  destruct (c_noff c <? 1); [done|]. cbn.
  destruct (alter _ _ _ !! _) as [c'|]; [|done].
  destruct (_ && _); intros [= _ <- <-]; done.
Qed.

Lemma acquire_locks lk e s e' s' :
  acquire lk e s = Ret tt e' s' ->
  exists l, locks (hw s) !! lk = Some l /\ lk_locked l = false /\
    locks (hw s') = <[lk := mkspinlock true (lk_name l) (Some (tp (hw s)))]> (locks (hw s)).
Proof.
  unfold acquire. unfold bind at 1. destruct (push_off e s) as [[] e1 s1| | | | |] eqn:Hp; try done.
  apply push_off_locks in Hp as [Hl Ht].
  unfold holding, lock_at, lock_upd, mycpu, cpuid, r_tp. mred. rewrite Hl.
  destruct (locks (hw s) !! lk) as [l|] eqn:El; [|done]. cbn.
  destruct (lk_locked l && _); [done|]. rewrite Hl, El. destruct (lk_locked l) eqn:Elk; [done|].
  intros [= _ <-]. exists l. split; [done|]. split; [done|]. cbn. rewrite Hl, alter_alter_eq, Ht.
  apply map_eq. intros k. destruct (decide (k = lk)) as [->|Hne].
  - by rewrite lookup_alter, decide_True, lookup_insert_eq, El by done.
  - by rewrite lookup_alter, decide_False, lookup_insert_ne.
Qed.

Lemma release_locks lk e s e' s' :
  release lk e s = Ret tt e' s' ->
  exists l, locks (hw s) !! lk = Some l /\
    locks (hw s') = <[lk := mkspinlock false (lk_name l) None]> (locks (hw s)).
Proof.
  unfold release. unfold holding, lock_at, lock_upd, mycpu, cpuid, r_tp. mred.
  destruct (locks (hw s) !! lk) as [l|] eqn:El; [|done].
  destruct (negb _); [done|]. intros [Hl _]%pop_off_locks. exists l. split; [done|].
  rewrite Hl. cbn. rewrite alter_alter_eq. apply map_eq. intros k.
  destruct (decide (k = lk)) as [->|Hne].
  - by rewrite lookup_alter, decide_True, lookup_insert_eq, El by done.
  - by rewrite lookup_alter, decide_False, lookup_insert_ne.
Qed.

(** ** The invariant *)

Lemma exclusive_acquire i lk s m :
  exclusive m -> acquire lk [] (view i m) = Ret tt [] s ->
  exclusive (resume i s ((i, lk) :: inside m) m).
Proof.
  intros (Hnd & Hin & Hlk) Ha. apply acquire_locks in Ha as (l & Hl & Hf & Hs). cbn in Hl, Hs.
  assert (Hnew : forall j, (j, lk) ∉ inside m).
  { intros j Hj. destruct (Hin _ _ Hj) as [name Hn]. rewrite Hl in Hn. injection Hn as ->. done. }
  split; [|split]; cbn.
  - constructor; [|done]. intros ([j k] & Hk & Hj)%list_elem_of_fmap. cbn in Hk. subst k.
    by apply (Hnew j).
  - intros j k [[= -> ->]|Hj]%elem_of_cons; rewrite Hs.
    + rewrite lookup_insert_eq. eauto.
    + rewrite lookup_insert_ne; [by apply Hin|]. intros ->. by apply (Hnew j).
  - intros k lk' Hk Ht. rewrite Hs in Hk. destruct (decide (lk = k)) as [->|Hne].
    + exists i. set_solver.
    + rewrite lookup_insert_ne in Hk by done. destruct (Hlk _ _ Hk Ht) as [j Hj]. set_solver.
Qed.

Lemma exclusive_release i lk s l1 l2 m :
  exclusive m -> inside m = l1 ++ (i, lk) :: l2 -> release lk [] (view i m) = Ret tt [] s ->
  exclusive (resume i s (l1 ++ l2) m).
Proof.
  intros (Hnd & Hin & Hlk) Hm Hr. apply release_locks in Hr as (l & Hl & Hs). cbn in Hl, Hs.
  rewrite Hm in Hnd, Hin, Hlk. rewrite fmap_app, fmap_cons in Hnd. cbn in Hnd.
  apply NoDup_app in Hnd as (Hn1 & Hd & Hn2). apply NoDup_cons in Hn2 as [Hnin Hn2].
  assert (Hnot : forall j, (j, lk) ∉ l1 ++ l2).
  { intros j [Hj|Hj]%elem_of_app.
    - apply (Hd lk); [|set_solver]. by apply (list_elem_of_fmap_2' snd _ (j, lk)).
    - apply Hnin. by apply (list_elem_of_fmap_2' snd _ (j, lk)). }
  split; [|split]; cbn.
  - rewrite fmap_app. apply NoDup_app. split; [done|]. split; [|done]. intros k Hk Hk2.
    apply (Hd k Hk). set_solver.
  - intros j k Hj. rewrite Hs. rewrite lookup_insert_ne; [apply Hin; set_solver|].
    intros ->. by apply (Hnot j).
  - intros k lk' Hk Ht. rewrite Hs in Hk. destruct (decide (lk = k)) as [->|Hne].
    + rewrite lookup_insert_eq in Hk. injection Hk as <-. done.
    + rewrite lookup_insert_ne in Hk by done. destruct (Hlk _ _ Hk Ht) as [j Hj]. exists j. set_solver.
Qed.

Lemma exclusive_reachable m m' : exclusive m -> rtc smp_step m m' -> exclusive m'.
Proof.
  intros He. induction 1 as [|m1 m2 m3 Hs _ IH]; [done|]. apply IH.
  destruct Hs; [by apply exclusive_acquire|by eapply exclusive_release].
Qed.

Lemma view_resume i s ins m : tp (hw s) = i -> hw (view i (resume i s ins m)) = hw s.
Proof.
  intros Ht. unfold view, resume. cbn [kern regs]. st. apply hart_eq; st; try done.
  by rewrite decide_True.
Qed.

Lemma view_other i j s ins m :
  j <> i -> hw (view j (resume i s ins m)) = hw s <| tp := j |> <| sstatus := regs m j |>.
Proof. intros Hne. unfold view, resume. cbn [kern regs]. st. by rewrite decide_False. Qed.

(** ** Theorems *)


(** Two harts, one lock after the other: hart 0 enters and leaves the lock of
    the page allocator, then hart 1 enters it. *)
Definition smp0 : smp :=
  mksmp (machine []) (fun i => if (i =? 0)%nat then SSTATUS_SIE else 0) [].

Definition smp1 : smp :=
  resume 0 (view 0 smp0 <| hw ::= lock_h LKmem |>) [(0%nat, LKmem)] smp0.

Definition smp2 : smp := resume 0 (view 0 smp1 <| hw ::= unlock_h LKmem |>) [] smp1.

Definition smp3 : smp :=
  resume 1 (view 1 smp2 <| hw ::= lock_h LKmem |>) [(1%nat, LKmem)] smp2.

Lemma smp0_exclusive : exclusive smp0.
Proof.
  split; [constructor|]. split; [by intros i lk ?%elem_of_nil|].
  intros lk l Hl Ht. exfalso. revert Hl Ht.
  assert (map_Forall (fun _ l => lk_locked l = false) locks0) as Hall.
  { apply map_Forall_to_list. vm_compute. repeat constructor. }
  intros Hl. by rewrite (Hall _ _ Hl).
Qed.

Lemma smp0_ready : settled (hw (view 0 smp0)) /\ free LKmem (hw (view 0 smp0)).
Proof. split; [exists cpu0; repeat split; done|by exists "lock"%string]. Qed.

Lemma smp1_view : hw (view 0 smp1) = lock_h LKmem (hw (view 0 smp0)).
Proof. unfold smp1. rewrite view_resume; st; reflexivity. Qed.

Lemma smp2_view : hw (view 1 smp2) = hw (view 1 smp0).
Proof.
  destruct smp0_ready as [Hs Hf]. unfold smp2. rewrite view_other by done. st.
  rewrite smp1_view, unlock_lock by done. reflexivity.
Qed.

Lemma smp_run : rtc smp_step smp0 smp3.
Proof.
  destruct smp0_ready as [Hs Hf].
  apply (rtc_l _ _ smp1); [exact (step_acquire 0 LKmem _ smp0 (acquire_run _ _ _ Hs Hf))|].
  assert (release LKmem [] (view 0 smp1) = Ret tt [] (view 0 smp1 <| hw ::= unlock_h LKmem |>))
    as Hrel.
  { apply release_run; rewrite smp1_view;
      [by apply settled_lock|by apply noff_lock_pos|by apply held_lock]. }
  apply (rtc_l _ _ smp2); [exact (step_release 0 LKmem _ [] [] smp1 eq_refl Hrel)|].
  assert (settled (hw (view 1 smp2)) /\ free LKmem (hw (view 1 smp2))) as [Hs2 Hf2].
  { rewrite smp2_view. split; [|by exists "lock"%string].
    exists (mkcpu None context0 0 false). repeat split; done. }
  apply (rtc_l _ _ smp3); [|apply rtc_refl].
  exact (step_acquire 1 LKmem _ smp2 (acquire_run _ _ _ Hs2 Hf2)).
Qed.

