(* ===== verification/Cstring.v ===== *)
(** * Physical memory and string.c

    Memory is a finite map from addresses to bytes, absent bytes being 0.
    [memset], [memcmp] and [memmove] run on it byte by byte in the order of
    the C loops; a kernel-local character buffer is a list of bytes, and a
    pointer into it is the suffix it points to ([strncmp], [strncpy],
    [safestrcpy], [strlen]). *)

From S2P Require Import Prelude State Monad.

(** ** Loads and stores *)

Definition ld8 (m : gmap Z Z) (a : Z) : Z := default 0 (m !! a).

Definition st8 (a v : Z) (m : gmap Z Z) : gmap Z Z := <[a := u8 v]> m.

(** [n] bytes from [a] on, little-endian. *)
Fixpoint ld_le (m : gmap Z Z) (a : Z) (n : nat) : Z :=
  match n with
  | O => 0
  | S n => ld8 m a + 256 * ld_le m (a + 1) n
  end.

Fixpoint st_le (a v : Z) (n : nat) (m : gmap Z Z) : gmap Z Z :=
  match n with
  | O => m
  | S n => st_le (a + 1) (v / 256) n (st8 a v m)
  end.

Definition ld32 (m : gmap Z Z) (a : Z) : Z := ld_le m a 4.

Definition ld64 (m : gmap Z Z) (a : Z) : Z := ld_le m a 8.

Definition st32 (a v : Z) : gmap Z Z -> gmap Z Z := st_le a v 4.

Definition st64 (a v : Z) : gmap Z Z -> gmap Z Z := st_le a v 8.

(** The [n] bytes at [a]. *)
Fixpoint bytes_at (m : gmap Z Z) (a : Z) (n : nat) : list Z :=
  match n with
  | O => []
  | S n => ld8 m a :: bytes_at m (a + 1) n
  end.

(** Store a list of bytes at [a]. *)
Fixpoint put_bytes (a : Z) (l : list Z) (m : gmap Z Z) : gmap Z Z :=
  match l with
  | [] => m
  | b :: l => put_bytes (a + 1) l (st8 a b m)
  end.

(** A value as [n] little-endian bytes, as [(char* )&x] shows it. *)
Fixpoint le_bytes (n : nat) (v : Z) : list Z :=
  match n with
  | O => []
  | S n => u8 v :: le_bytes n (v / 256)
  end.

Fixpoint le_value (l : list Z) : Z :=
  match l with
  | [] => 0
  | b :: l => b + 256 * le_value l
  end.

(** ** string.c on memory *)

Fixpoint memset (dst c : Z) (n : nat) (m : gmap Z Z) : gmap Z Z :=
  match n with
  | O => m
  | S n => memset (dst + 1) c n (st8 dst c m)
  end.

Fixpoint memcmp (v1 v2 : Z) (n : nat) (m : gmap Z Z) : Z :=
  match n with
  | O => 0
  | S n =>
      if ld8 m v1 =? ld8 m v2 then memcmp (v1 + 1) (v2 + 1) n m
      else ld8 m v1 - ld8 m v2
  end.

(** [while(n-- > 0) *d++ = *s++;] *)
Fixpoint copy_up (d s : Z) (n : nat) (m : gmap Z Z) : gmap Z Z :=
  match n with
  | O => m
  | S n => copy_up (d + 1) (s + 1) n (st8 d (ld8 m s) m)
  end.

(** [while(n-- > 0) *--d = *--s;] *)
Fixpoint copy_down (d s : Z) (n : nat) (m : gmap Z Z) : gmap Z Z :=
  match n with
  | O => m
  | S n => copy_down (d - 1) (s - 1) n (st8 (d - 1) (ld8 m (s - 1)) m)
  end.

Definition memmove (dst src : Z) (n : nat) (m : gmap Z Z) : gmap Z Z :=
  if (n =? 0)%nat then m
  else if (src <? dst) && (dst <? src + Z.of_nat n)
  then copy_down (dst + Z.of_nat n) (src + Z.of_nat n) n m
  else copy_up dst src n m.

Definition memcpy (dst src : Z) (n : nat) (m : gmap Z Z) : gmap Z Z :=
  memmove dst src n m.

(** ** string.c on character buffers *)

Fixpoint strncmp (p q : list Z) (n : nat) : Z :=
  match n with
  | O => 0
  | S n =>
      if negb (hd 0 p =? 0) && (hd 0 p =? hd 0 q)
      then strncmp (tl p) (tl q) n
      else hd 0 p - hd 0 q
  end.

(** The buffer [s] with its first [n] bytes zeroed. *)
Fixpoint zero_fill (s : list Z) (n : nat) : list Z :=
  match n, s with
  | S n, _ :: s => 0 :: zero_fill s n
  | _, _ => s
  end.

(** The destination buffer after [strncpy(s, t, n)]. *)
Fixpoint strncpy (s t : list Z) (n : nat) : list Z :=
  match n, s with
  | S n, _ :: s =>
      if hd 0 t =? 0 then 0 :: zero_fill s n else hd 0 t :: strncpy s (tl t) n
  | _, _ => s
  end.

(** [while(--n > 0 && ( *s++ = *t++) != 0); *s = 0;] *)
Fixpoint safestrcpy_loop (s t : list Z) (n : nat) : list Z :=
  match n, s with
  | O, _ => s
  | S O, _ :: s => 0 :: s
  | S n, _ :: s =>
      if hd 0 t =? 0 then 0 :: zero_fill s 1
      else hd 0 t :: safestrcpy_loop s (tl t) n
  | _, [] => []
  end.

(** The destination buffer after [safestrcpy(s, t, n)]. *)
Definition safestrcpy (s t : list Z) (n : Z) : list Z :=
  if n <=? 0 then s else safestrcpy_loop s t (Z.to_nat n).

(** Bytes before the first NUL; a buffer that has none ends at its length. *)
Fixpoint strlen (s : list Z) : Z :=
  match s with
  | [] => 0
  | c :: s => if c =? 0 then 0 else 1 + strlen s
  end.

(** A buffer's contents as a C string: up to its first NUL. *)
Fixpoint cstr (s : list Z) : list Z :=
  match s with
  | [] => []
  | c :: s => if c =? 0 then [] else c :: cstr s
  end.

(** ** Fields of a structure laid over a byte array *)

(** The [n] bytes of [l] at [off]. *)
Definition sub_bytes (l : list Z) (off n : nat) : list Z := take n (drop off l).

(** [l] with [bs] stored at [off]. *)
Definition splice (off : nat) (bs l : list Z) : list Z :=
  take off l ++ bs ++ drop (off + length bs) l.

Definition get16 (l : list Z) (off : nat) : Z := le_value (sub_bytes l off 2).

Definition get32 (l : list Z) (off : nat) : Z := le_value (sub_bytes l off 4).

Definition get64 (l : list Z) (off : nat) : Z := le_value (sub_bytes l off 8).

Definition put16 (off : nat) (v : Z) (l : list Z) : list Z := splice off (le_bytes 2 v) l.

Definition put32 (off : nat) (v : Z) (l : list Z) : list Z := splice off (le_bytes 4 v) l.

#[global] Arguments ld8 : simpl never.
#[global] Arguments st8 : simpl never.
#[global] Arguments ld32 : simpl never.
#[global] Arguments st32 : simpl never.
#[global] Arguments ld64 : simpl never.
#[global] Arguments st64 : simpl never.
#[global] Arguments memmove : simpl never.

(** ** Facts about loads and stores *)

Lemma u8_range x : 0 <= u8 x < 256.
Proof. apply Z.mod_pos_bound. lia. Qed.

Lemma u8_small x : 0 <= x < 256 -> u8 x = x.
Proof. intros. apply Z.mod_small. lia. Qed.

Lemma ld8_st8 m a a' v : ld8 (st8 a v m) a' = if a =? a' then u8 v else ld8 m a'.
Proof.
  unfold ld8, st8. destruct (Z.eqb_spec a a') as [->|Hne].
  - by rewrite lookup_insert_eq.
  - by rewrite lookup_insert_ne.
Qed.

Lemma ld8_st8_ne m a a' v : a <> a' -> ld8 (st8 a v m) a' = ld8 m a'.
Proof. intros. rewrite ld8_st8. by destruct (Z.eqb_spec a a'). Qed.

(** Membership of an address in a range, as a test. *)
Definition within (a base : Z) (n : nat) : bool := (base <=? a) && (a <? base + Z.of_nat n).

Lemma within_true a base n : within a base n = true <-> base <= a < base + Z.of_nat n.
Proof. unfold within. rewrite andb_true_iff, Z.leb_le, Z.ltb_lt. lia. Qed.

Lemma within_false a base n : within a base n = false <-> ~ base <= a < base + Z.of_nat n.
Proof. rewrite <- within_true. by destruct (within a base n). Qed.

Lemma ld8_memset dst c n m a :
  ld8 (memset dst c n m) a = if within a dst n then u8 c else ld8 m a.
Proof.
  revert dst m. induction n as [|n IH]; intros dst m; simpl.
  - assert (within a dst 0 = false) as -> by (apply within_false; lia). done.
  - rewrite IH, ld8_st8. destruct (within a (dst + 1) n) eqn:E1.
    + apply within_true in E1. assert (within a dst (S n) = true) as ->; [|done].
      apply within_true; lia.
    + apply within_false in E1. destruct (Z.eqb_spec dst a) as [->|Hne].
      * assert (within a a (S n) = true) as ->; [|done]. apply within_true; lia.
      * assert (within a dst (S n) = false) as ->; [|done]. apply within_false; lia.
Qed.

Lemma ld_le_ext m m' a n :
  (forall a', a <= a' < a + Z.of_nat n -> ld8 m a' = ld8 m' a') ->
  ld_le m a n = ld_le m' a n.
Proof.
  revert a. induction n as [|n IH]; intros a H; simpl; [done|].
  rewrite (H a) by lia. rewrite (IH (a + 1)); [done|]. intros; apply H; lia.
Qed.

Lemma ld8_st_le a v n m a' : ~ a <= a' < a + Z.of_nat n -> ld8 (st_le a v n m) a' = ld8 m a'.
Proof.
  revert a v m. induction n as [|n IH]; intros a v m H; simpl; [done|].
  rewrite IH by lia. apply ld8_st8_ne. lia.
Qed.

Lemma ld_le_st_le a v n m : ld_le (st_le a v n m) a n = v mod 256 ^ Z.of_nat n.
Proof.
  revert a v m. induction n as [|n IH]; intros a v m; simpl.
  { change (256 ^ Z.of_nat 0) with 1. by rewrite Z.mod_1_r. }
  rewrite IH, ld8_st_le, ld8_st8, Z.eqb_refl by lia.
  unfold u8. change (2 ^ 8) with 256.
  rewrite Nat2Z.inj_succ, Z.pow_succ_r by lia.
  rewrite Z.rem_mul_r by lia. lia.
Qed.

Lemma ld_le_st_le_ne a a' v n m k :
  a + Z.of_nat n <= a' \/ a' + Z.of_nat k <= a ->
  ld_le (st_le a v n m) a' k = ld_le m a' k.
Proof. intros H. apply ld_le_ext. intros b Hb. apply ld8_st_le. lia. Qed.

Lemma ld64_st64 m a v : ld64 (st64 a v m) a = u64 v.
Proof. apply ld_le_st_le. Qed.

Lemma ld64_st64_ne m a a' v : a + 8 <= a' \/ a' + 8 <= a -> ld64 (st64 a v m) a' = ld64 m a'.
Proof. intros. apply ld_le_st_le_ne. lia. Qed.

Lemma ld8_st64_ne m a b v : ~ a <= b < a + 8 -> ld8 (st64 a v m) b = ld8 m b.
Proof. intros. by apply ld8_st_le. Qed.

Lemma ld_le_range m a n :
  (forall a, 0 <= ld8 m a < 256) -> 0 <= ld_le m a n < 256 ^ Z.of_nat n.
Proof.
  intros H. revert a. induction n as [|n IH]; intros a; simpl; [lia|].
  rewrite Nat2Z.inj_succ, Z.pow_succ_r by lia. specialize (H a). specialize (IH (a + 1)). lia.
Qed.

(** Every byte of memory is a byte. *)
Definition bytes_ok (m : gmap Z Z) : Prop := forall a, 0 <= ld8 m a < 256.

Lemma bytes_ok_st8 a v m : bytes_ok m -> bytes_ok (st8 a v m).
Proof. intros H b. rewrite ld8_st8. destruct (a =? b); [apply u8_range|apply H]. Qed.

Lemma bytes_ok_st_le a v n m : bytes_ok m -> bytes_ok (st_le a v n m).
Proof. revert a v m. induction n; intros; simpl; [done|]. apply IHn. by apply bytes_ok_st8. Qed.

Lemma bytes_ok_memset d c n m : bytes_ok m -> bytes_ok (memset d c n m).
Proof. revert d m. induction n; intros; simpl; [done|]. apply IHn. by apply bytes_ok_st8. Qed.

Lemma ld_le_memset d c n m a k :
  d <= a -> a + Z.of_nat k <= d + Z.of_nat n ->
  ld_le (memset d c n m) a k = ld_le (memset a c k m) a k.
Proof.
  intros. apply ld_le_ext. intros b Hb. rewrite !ld8_memset.
  assert (within b d n = true) as -> by (apply within_true; lia).
  assert (within b a k = true) as -> by (apply within_true; lia). done.
Qed.

Lemma ld_le_memset_ne d c n m a k :
  d + Z.of_nat n <= a \/ a + Z.of_nat k <= d -> ld_le (memset d c n m) a k = ld_le m a k.
Proof.
  intros. apply ld_le_ext. intros b Hb. rewrite ld8_memset.
  assert (within b d n = false) as -> by (apply within_false; lia). done.
Qed.

Lemma ld_le_zero m a n :
  (forall b, a <= b < a + Z.of_nat n -> ld8 m b = 0) -> ld_le m a n = 0.
Proof.
  revert a. induction n as [|n IH]; intros a H; simpl; [done|].
  rewrite (H a), (IH (a + 1)) by (lia || (intros; apply H; lia)). done.
Qed.

Lemma ld64_memset0 d n m a :
  d <= a -> a + 8 <= d + Z.of_nat n -> ld64 (memset d 0 n m) a = 0.
Proof.
  intros. apply ld_le_zero. intros b Hb. rewrite ld8_memset.
  by assert (within b d n = true) as -> by (apply within_true; lia).
Qed.

(** ** memmove *)

Lemma ld8_copy_up d s n m a :
  ~ (s < d < s + Z.of_nat n) ->
  ld8 (copy_up d s n m) a =
    if within a d n then u8 (ld8 m (s + (a - d))) else ld8 m a.
Proof.
  revert d s m. induction n as [|n IH]; intros d s m H; simpl.
  - assert (within a d 0 = false) as -> by (apply within_false; lia). done.
  - rewrite IH by lia. destruct (within a (d + 1) n) eqn:E.
    + apply within_true in E.
      assert (within a d (S n) = true) as -> by (apply within_true; lia).
      replace (s + 1 + (a - (d + 1))) with (s + (a - d)) by lia.
      rewrite ld8_st8_ne by lia. done.
    + apply within_false in E. rewrite ld8_st8. destruct (Z.eqb_spec d a) as [->|Hne].
      * assert (within a a (S n) = true) as -> by (apply within_true; lia).
        by replace (s + (a - a)) with s by lia.
      * assert (within a d (S n) = false) as -> by (apply within_false; lia). done.
Qed.

Lemma ld8_copy_down d s n m a :
  ~ (d < s < d + Z.of_nat n) ->
  ld8 (copy_down (d + Z.of_nat n) (s + Z.of_nat n) n m) a =
    if within a d n then u8 (ld8 m (s + (a - d))) else ld8 m a.
Proof.
  revert m. induction n as [|n IH]; intros m H.
  - simpl. assert (within a d 0 = false) as -> by (apply within_false; lia). done.
  - cbn [copy_down].
    replace (d + Z.of_nat (S n) - 1) with (d + Z.of_nat n) by lia.
    replace (s + Z.of_nat (S n) - 1) with (s + Z.of_nat n) by lia.
    rewrite IH by lia. destruct (within a d n) eqn:E.
    + apply within_true in E.
      assert (within a d (S n) = true) as -> by (apply within_true; lia).
      rewrite ld8_st8_ne by lia. done.
    + apply within_false in E. rewrite ld8_st8.
      destruct (Z.eqb_spec (d + Z.of_nat n) a) as [Ha|Hne].
      * assert (within a d (S n) = true) as -> by (apply within_true; lia).
        by replace (s + (a - d)) with (s + Z.of_nat n) by lia.
      * assert (within a d (S n) = false) as -> by (apply within_false; lia). done.
Qed.

Lemma ld8_memmove dst src n m a :
  ld8 (memmove dst src n m) a =
    if within a dst n then u8 (ld8 m (src + (a - dst))) else ld8 m a.
Proof.
  unfold memmove. destruct (Nat.eqb_spec n 0) as [->|Hn].
  { assert (within a dst 0 = false) as -> by (apply within_false; lia). done. }
  destruct ((src <? dst) && (dst <? src + Z.of_nat n)) eqn:E.
  - destruct_bool. apply ld8_copy_down. lia.
  - apply andb_false_iff in E. apply ld8_copy_up. destruct E; destruct_bool; lia.
Qed.

(** ** Byte lists in memory *)

Lemma bytes_at_ext m m' a n :
  (forall b, a <= b < a + Z.of_nat n -> ld8 m b = ld8 m' b) -> bytes_at m a n = bytes_at m' a n.
Proof.
  revert a. induction n as [|n IH]; intros a H; simpl; [done|].
  rewrite (H a), (IH (a + 1)) by (lia || (intros; apply H; lia)). done.
Qed.

Lemma length_bytes_at m a n : length (bytes_at m a n) = n.
Proof. revert a. induction n; intros; simpl; auto. Qed.

Lemma ld8_put_bytes a l m b :
  ld8 (put_bytes a l m) b =
    if within b a (length l) then u8 (nth (Z.to_nat (b - a)) l 0) else ld8 m b.
Proof.
  revert a m. induction l as [|x l IH]; intros a m; cbn [put_bytes length].
  - assert (within b a 0 = false) as -> by (apply within_false; lia). done.
  - rewrite IH. destruct (within b (a + 1) (length l)) eqn:E.
    + apply within_true in E.
      assert (within b a (S (length l)) = true) as -> by (apply within_true; lia).
      replace (Z.to_nat (b - a)) with (S (Z.to_nat (b - (a + 1)))) by lia. done.
    + apply within_false in E. rewrite ld8_st8. destruct (Z.eqb_spec a b) as [->|Hne].
      * assert (within b b (S (length l)) = true) as -> by (apply within_true; lia).
        by replace (Z.to_nat (b - b)) with 0%nat by lia.
      * assert (within b a (S (length l)) = false) as -> by (apply within_false; lia). done.
Qed.

Lemma bytes_at_put_bytes a l m :
  Forall (fun b => 0 <= b < 256) l -> bytes_at (put_bytes a l m) a (length l) = l.
Proof.
  intros Hl. revert a m. induction Hl as [|x l Hx Hl IH]; intros a m; [done|]. simpl.
  f_equal; [|apply IH]. rewrite ld8_put_bytes.
  assert (within a (a + 1) (length l) = false) as -> by (apply within_false; lia).
  rewrite ld8_st8, Z.eqb_refl. by apply u8_small.
Qed.

Lemma le_value_bytes n v : le_value (le_bytes n v) = v mod 256 ^ Z.of_nat n.
Proof.
  revert v. induction n as [|n IH]; intros v; simpl.
  { change (256 ^ Z.of_nat 0) with 1. by rewrite Z.mod_1_r. }
  rewrite IH, Nat2Z.inj_succ, Z.pow_succ_r, Z.rem_mul_r by lia. done.
Qed.

Lemma length_le_bytes n v : length (le_bytes n v) = n.
Proof. revert v. induction n; intros; simpl; auto. Qed.

Lemma le_bytes_ok n v : Forall (fun b => 0 <= b < 256) (le_bytes n v).
Proof. revert v. induction n; intros; simpl; constructor; [apply u8_range|auto]. Qed.

(** ** String copies *)

Lemma length_zero_fill s n : length (zero_fill s n) = length s.
Proof. revert s. induction n; intros [|? s]; simpl; auto. Qed.

Lemma length_safestrcpy s t n : length (safestrcpy s t n) = length s.
Proof.
  unfold safestrcpy. destruct (n <=? 0); [done|].
  generalize (Z.to_nat n) as k. intros k. revert s t.
  induction k as [|k IH]; intros [|c s] t; [done|done|by destruct k|].
  destruct k as [|k]; [done|]. cbn [safestrcpy_loop]. destruct (hd 0 t =? 0).
  - cbn [length]. by rewrite length_zero_fill.
  - cbn [length]. by rewrite IH.
Qed.

Lemma length_strncpy s t n : length (strncpy s t n) = length s.
Proof.
  revert s t. induction n as [|n IH]; intros [|c s] t; simpl; try done.
  destruct (hd 0 t =? 0); simpl; [by rewrite length_zero_fill | by rewrite IH].
Qed.

Lemma cstr_zero_fill s n : (0 < n)%nat -> cstr (zero_fill s n) = [].
Proof. destruct n, s; simpl; done || lia. Qed.

Lemma hd_zero_cstr t : hd 0 t = 0 -> cstr t = [].
Proof. destruct t as [|c t]; simpl; [done|]. by intros ->. Qed.

Lemma hd_ne_cstr t : hd 0 t <> 0 -> cstr t = hd 0 t :: cstr (tl t).
Proof.
  destruct t as [|c t]; simpl; [done|]. intros. by destruct (Z.eqb_spec c 0).
Qed.

(** *** Fields of structures *)

Lemma sub_bytes_app_l a b o n : (o + n <= length a)%nat -> sub_bytes (a ++ b) o n = sub_bytes a o n.
Proof. intros. unfold sub_bytes. rewrite drop_app_le, take_app_le; rewrite ?length_drop; lia || done. Qed.

Lemma sub_bytes_app_r a b o n :
  (length a <= o)%nat -> sub_bytes (a ++ b) o n = sub_bytes b (o - length a) n.
Proof. intros. unfold sub_bytes. by rewrite drop_app_ge. Qed.

Lemma sub_bytes_all a n : length a = n -> sub_bytes a 0 n = a.
Proof. intros <-. unfold sub_bytes. rewrite drop_0. apply take_ge. lia. Qed.

Lemma length_splice off bs l :
  (off + length bs <= length l)%nat -> length (splice off bs l) = length l.
Proof. intros. unfold splice. rewrite !length_app, length_take, length_drop. lia. Qed.

Lemma sub_bytes_splice off bs l o n :
  (off + length bs <= length l)%nat -> (o + n <= length bs)%nat ->
  sub_bytes (splice off bs l) (off + o) n = sub_bytes bs o n.
Proof.
  intros. unfold splice. rewrite sub_bytes_app_r; rewrite length_take_le by lia; [|lia].
  rewrite sub_bytes_app_l by lia. f_equal. lia.
Qed.

Lemma sub_bytes_splice_ne off bs l o n :
  (off + length bs <= length l)%nat -> (o + n <= off \/ off + length bs <= o)%nat ->
  sub_bytes (splice off bs l) o n = sub_bytes l o n.
Proof.
  intros Hl Ho. unfold splice. rewrite <- (take_drop off l) at 3.
  assert (Ht : length (take off l) = off) by (apply length_take_le; lia). destruct Ho as [Ho|Ho].
  - by rewrite !sub_bytes_app_l by lia.
  - rewrite !sub_bytes_app_r by lia. rewrite Ht. unfold sub_bytes. rewrite !drop_drop.
    do 2 f_equal. lia.
Qed.

Lemma bytes_at_lookup m a n i :
  (i < n)%nat -> bytes_at m a n !! i = Some (ld8 m (a + Z.of_nat i)).
Proof.
  revert a i. induction n as [|n IH]; intros a [|i] Hi; [lia|lia| |]; cbn [bytes_at lookup list_lookup].
  - by rewrite Z.add_0_r.
  - change (bytes_at m (a + 1) n !! i = Some (ld8 m (a + Z.of_nat (S i)))).
    rewrite IH by lia. do 2 f_equal. lia.
Qed.

Lemma safestrcpy_loop_cstr k s t :
  (S k <= length s)%nat -> cstr (safestrcpy_loop s t (S k)) = take k (cstr t).
Proof.
  revert s t. induction k as [|k IH]; intros [|c s] t Hl; cbn in Hl; [lia|done|lia|].
  cbn [safestrcpy_loop]. destruct (Z.eqb_spec (hd 0 t) 0) as [E|E].
  - rewrite (hd_zero_cstr t E). done.
  - rewrite (hd_ne_cstr t E). cbn [cstr take]. destruct (Z.eqb_spec (hd 0 t) 0); [done|].
    f_equal. apply IH. lia.
Qed.

Lemma safestrcpy_loop_nul k s t :
  (S k <= length s)%nat -> exists i, (i <= k)%nat /\ safestrcpy_loop s t (S k) !! i = Some 0.
Proof.
  revert s t. induction k as [|k IH]; intros [|c s] t Hl; cbn in Hl; [lia| |lia|].
  { by exists 0%nat. }
  cbn [safestrcpy_loop]. destruct (hd 0 t =? 0).
  - exists 0%nat. split; [lia|done].
  - destruct (IH s (tl t)) as (i & Hi & Hz); [lia|]. exists (S i). split; [lia|done].
Qed.

(** ** Theorems *)

(** memmove() copies the source as it was before the call, however the two
    ranges overlap, and changes nothing outside the destination. *)
Lemma memmove_copies dst src n m :
  bytes_ok m ->
  bytes_at (memmove dst src n m) dst n = bytes_at m src n /\
  forall a, ~ dst <= a < dst + Z.of_nat n -> ld8 (memmove dst src n m) a = ld8 m a.
Proof.
  intros Hm. split.
  - apply list_eq. intros i. destruct (decide (i < n)%nat) as [Hi|Hi].
    + rewrite !bytes_at_lookup by done. rewrite ld8_memmove.
      assert (within (dst + Z.of_nat i) dst n = true) as -> by (apply within_true; lia).
      rewrite u8_small by apply Hm. do 2 f_equal. lia.
    + by rewrite !lookup_ge_None_2 by (rewrite length_bytes_at; lia).
  - intros a Ha. rewrite ld8_memmove.
    by assert (within a dst n = false) as -> by (by apply within_false).
Qed.

(** safestrcpy() with a buffer of [n] bytes always leaves a NUL-terminated
    string in it: as much of the source string as fits into [n - 1] bytes. *)
Lemma safestrcpy_terminates s t n :
  0 < n -> n <= Z.of_nat (length s) ->
  cstr (safestrcpy s t n) = take (Z.to_nat n - 1) (cstr t) /\
  (exists i, (i < Z.to_nat n)%nat /\ safestrcpy s t n !! i = Some 0) /\
  length (safestrcpy s t n) = length s.
Proof.
  intros Hn Hl. split; [|split; [|apply length_safestrcpy]]; unfold safestrcpy;
    rewrite (proj2 (Z.leb_gt _ _)) by done;
    replace (Z.to_nat n) with (S (Z.to_nat n - 1)) by lia; rewrite ?Nat.sub_succ, ?Nat.sub_0_r.
  - apply safestrcpy_loop_cstr. lia.
  - destruct (safestrcpy_loop_nul (Z.to_nat n - 1) s t) as (i & ? & ?); [lia|].
    exists i. split; [lia|done].
Qed.

(** strncmp() returns 0 exactly when the two strings agree in their first
    [n] characters. *)
Lemma strncmp_eq p q n :
  strncmp p q n = 0 <-> take n (cstr p) = take n (cstr q).
Proof.
  revert p q. induction n as [|n IH]; intros p q; [done|]. cbn [strncmp].
  destruct (Z.eqb_spec (hd 0 p) 0) as [Ep|Ep]; cbn [negb andb].
  - rewrite (hd_zero_cstr p Ep), Ep. destruct (Z.eq_dec (hd 0 q) 0) as [Eq|Eq].
    + rewrite (hd_zero_cstr q Eq), Eq. done.
    + rewrite (hd_ne_cstr q Eq). cbn. split; [lia|done].
  - rewrite (hd_ne_cstr p Ep). destruct (Z.eqb_spec (hd 0 p) (hd 0 q)) as [E|E].
    + rewrite IH. rewrite (hd_ne_cstr q) by congruence. cbn [take]. rewrite <- E.
      split; [by intros ->|by intros [= ->]].
    + split; [lia|]. destruct (Z.eq_dec (hd 0 q) 0) as [Eq|Eq].
      * rewrite (hd_zero_cstr q Eq). done.
      * rewrite (hd_ne_cstr q Eq). cbn. intros [= Hh _]. congruence.
Qed.
