(* ===== verification/Kalloc.v ===== *)
(** * The physical page allocator: kalloc.c

    The free list is threaded through the free pages themselves: [freelist] is
    [kmem.freelist] and the link [r->next] is the 64-bit word at the start of
    page [r].  [free_pages] relates that memory to the abstract list of free
    pages; [kalloc] and [kfree] are a stack on it. *)

From S2P Require Import Prelude State Machine Monad Spinlock Cstring.

Definition mem_upd (f : gmap Z Z -> gmap Z Z) : M unit := modify (fun s => s <| mem ::= f |>).

(** Bytes of a page, as a loop bound. *)
Definition PGBYTES : nat := Z.to_nat PGSIZE.

Lemma PGBYTES_Z : Z.of_nat PGBYTES = 4096.
Proof. reflexivity. Qed.

#[global] Opaque PGBYTES.

Definition PGROUNDUP (sz : Z) : Z := Z.land (u64 (sz + PGSIZE - 1)) (Z.lnot (PGSIZE - 1)).

Definition PGROUNDDOWN (a : Z) : Z := Z.land a (Z.lnot (PGSIZE - 1)).

Lemma land_page x : Z.land x (Z.lnot (PGSIZE - 1)) = PGSIZE * (x / PGSIZE).
Proof.
  change (PGSIZE - 1) with (Z.ones 12). rewrite <- Z.ldiff_land, Z.ldiff_ones_r by lia.
  rewrite Z.shiftl_mul_pow2, Z.shiftr_div_pow2 by lia. change (2 ^ 12) with PGSIZE. lia.
Qed.

Lemma PGROUNDDOWN_eq a : PGROUNDDOWN a = PGSIZE * (a / PGSIZE).
Proof. apply land_page. Qed.

Lemma PGROUNDUP_eq sz :
  0 <= sz -> sz + PGSIZE - 1 < 2 ^ 64 -> PGROUNDUP sz = PGSIZE * ((sz + PGSIZE - 1) / PGSIZE).
Proof.
  intros. unfold PGROUNDUP. rewrite land_page, u64_small; [done|]. unfold PGSIZE in *. lia.
Qed.

(** The facts of the link map (kernel.ld) the kernel relies on: the kernel is
    loaded at KERNBASE and fits into memory. *)
Class PlatformOk `{Platform} : Prop := {
  end_ok : KERNBASE <= sym_end <= PHYSTOP;
  etext_ok : KERNBASE < sym_etext < PHYSTOP /\ sym_etext mod PGSIZE = 0;
}.

Section Kalloc.
Context `{Platform}.

(** Filling the page with junk ends the life of a trapframe or pipe kept in
    it. *)
Definition kfree (pa : Z) : M unit :=
  if negb (pa mod PGSIZE =? 0) || (pa <? sym_end) || (PHYSTOP <=? pa)
  then panic "kfree" else
  modify (fun s => s <| mem ::= memset pa 1 PGBYTES |>
                     <| tfs ::= delete pa |> <| pipes ::= delete pa |>) ;;
  acquire LKmem ;;
  next <- gets freelist;
  mem_upd (st64 pa next) ;;
  modify (fun s => s <| freelist := pa |>) ;;
  release LKmem.

Definition kalloc : M Z :=
  acquire LKmem ;;
  r <- gets freelist;
  when (negb (r =? 0))
    (next <- gets (fun s => ld64 (mem s) r);
     modify (fun s => s <| freelist := next |>)) ;;
  release LKmem ;;
  when (negb (r =? 0)) (mem_upd (memset r 5 PGBYTES)) ;;
  ret r.

Definition freerange (pa_start pa_end : Z) : M unit :=
  loop (fun p =>
    if p + PGSIZE <=? pa_end
    then kfree p ;; ret (inl (p + PGSIZE))
    else ret (inr tt)) (PGROUNDUP pa_start).

Definition kinit : M unit :=
  initlock LKmem "kmem" ;;
  freerange sym_end PHYSTOP.

(** ** The abstract free list *)

(** The pages the allocator manages. *)
Definition page_ok (pa : Z) : Prop :=
  pa mod PGSIZE = 0 /\ sym_end <= pa < PHYSTOP.

(** [linked m r l]: following the links in [m] from [r] gives the pages [l]. *)
Fixpoint linked (m : gmap Z Z) (r : Z) (l : list Z) : Prop :=
  match l with
  | [] => r = 0
  | p :: l => r = p /\ linked m (ld64 m p) l
  end.

Definition free_pages (s : kernel) (l : list Z) : Prop :=
  linked (mem s) (freelist s) l /\ Forall page_ok l /\ NoDup l.

(** The state after [kfree pa] and after [kalloc], locks and interrupts being
    as before. *)
Definition freed (pa : Z) (s : kernel) : kernel :=
  s <| mem ::= fun m => st64 pa (freelist s) (memset pa 1 PGBYTES m) |>
    <| tfs ::= delete pa |> <| pipes ::= delete pa |> <| freelist := pa |>.

Definition alloced (s : kernel) : kernel :=
  if freelist s =? 0 then s else
  s <| freelist := ld64 (mem s) (freelist s) |>
    <| mem ::= memset (freelist s) 5 PGBYTES |>.

Lemma kfree_run pa e s :
  page_ok pa -> settled (hw s) -> free LKmem (hw s) ->
  kfree pa e s = Ret tt e (freed pa s).
Proof.
  intros (Hm & Hlo & Hhi) Hs Hf. unfold kfree.
  assert (negb (pa mod PGSIZE =? 0) || (pa <? sym_end) || (PHYSTOP <=? pa) = false) as ->.
  { rewrite Hm. repeat apply orb_false_intro; [done|apply Z.ltb_ge|apply Z.leb_gt]; lia. }
  msteps. mrun acquire_run. unfold mem_upd. msteps.
  rewrite release_run by (st; eauto with kernel). unfold freed. same_hw.
Qed.

Lemma kalloc_run e s :
  settled (hw s) -> free LKmem (hw s) ->
  kalloc e s = Ret (freelist s) e (alloced s).
Proof.
  intros Hs Hf. unfold kalloc, alloced, mem_upd. mrun acquire_run. msteps.
  destruct (freelist s =? 0); cbn [negb]; msteps; mrun release_run; msteps; same_hw.
Qed.

(** ** The allocator implements a stack of pages *)

Lemma linked_ext m m' r l :
  (forall p, p ∈ l -> ld64 m' p = ld64 m p) -> linked m r l -> linked m' r l.
Proof.
  revert r. induction l as [|p l IH]; intros r Hl; [done|]. cbn. intros [-> Hk].
  split; [done|]. rewrite Hl by set_solver. apply IH; [|done]. intros; apply Hl; set_solver.
Qed.

Lemma pages_apart p q :
  page_ok p -> page_ok q -> p <> q -> p + 4096 <= q \/ q + 4096 <= p.
Proof. intros [Hp _] [Hq _] Hne. unfold PGSIZE in *. dlia. Qed.

Lemma freed_link pa s p :
  page_ok pa -> page_ok p -> pa <> p -> ld64 (mem (freed pa s)) p = ld64 (mem s) p.
Proof.
  intros Hpa Hp Hne. destruct (pages_apart _ _ Hpa Hp Hne); unfold freed; st;
    rewrite ld64_st64_ne by lia; apply ld_le_memset_ne; rewrite PGBYTES_Z; lia.
Qed.

Lemma freed_free_pages pa s l :
  page_ok pa -> 0 <= freelist s < 2 ^ 64 -> pa ∉ l ->
  free_pages s l -> free_pages (freed pa s) (pa :: l).
Proof.
  intros Hpa Hfl Hn (Hl & Hok & Hnd). split; [|split; by constructor].
  split; [done|].
  assert (ld64 (mem (freed pa s)) pa = freelist s) as ->
    by (unfold freed; st; by rewrite ld64_st64, u64_small).
  apply (linked_ext (mem s)); [|done]. intros p Hp. apply freed_link; [done| |set_solver].
  by eapply Forall_elem.
Qed.

Lemma free_pages_head `{!PlatformOk} s l : free_pages s l -> 0 <= freelist s < 2 ^ 64.
Proof.
  intros (Hl & Hok & _). pose proof end_ok. unfold KERNBASE, PHYSTOP in *.
  destruct l as [|p l]; cbn in Hl; [lia|]. destruct Hl as [-> _].
  apply Forall_cons in Hok as [(_ & ?) _]. unfold PHYSTOP, KERNBASE in *. lia.
Qed.

Lemma page_ok_nonzero `{!PlatformOk} p : page_ok p -> p <> 0.
Proof. intros (_ & ?). pose proof end_ok. unfold KERNBASE in *. lia. Qed.

Lemma alloced_nil s : free_pages s [] -> alloced s = s.
Proof. intros (Hl & _). cbn in Hl. unfold alloced. by rewrite Hl. Qed.

Lemma alloced_cons `{!PlatformOk} s p l :
  free_pages s (p :: l) ->
  freelist s = p /\ page_ok p /\ (p ∉ l) /\
  alloced s = (s <| freelist := ld64 (mem s) p |> <| mem ::= memset p 5 PGBYTES |>).
Proof.
  intros (Hl & Hok & Hnd). destruct Hl as [Hf Hl]. apply Forall_cons in Hok as [Hp _].
  apply NoDup_cons in Hnd as [Hn _]. split; [done|]. split; [done|]. split; [done|].
  unfold alloced. rewrite Hf. destruct (Z.eqb_spec p 0); [|done].
  by destruct (page_ok_nonzero p).
Qed.

Lemma alloced_free_pages `{!PlatformOk} s p l :
  free_pages s (p :: l) -> free_pages (alloced s) l.
Proof.
  intros Hfp. destruct (alloced_cons _ _ _ Hfp) as (Hf & Hp & Hn & ->).
  destruct Hfp as (Hl & Hok & Hnd). destruct Hl as [_ Hl].
  apply Forall_cons in Hok as [_ Hok]. apply NoDup_cons in Hnd as [_ Hnd].
  split; [|done]. st. apply (linked_ext (mem s)); [|done]. intros q Hq.
  apply ld_le_memset_ne. rewrite PGBYTES_Z.
  destruct (pages_apart p q Hp (Forall_elem _ _ _ Hok Hq)); [set_solver|lia|lia].
Qed.

(** ** The client interface *)

(** Stacking the freed page, with nothing outside it changed. *)
Lemma kfree_spec `{!PlatformOk} pa l e s :
  free_pages s l -> page_ok pa -> pa ∉ l -> settled (hw s) -> free LKmem (hw s) ->
  exists s', kfree pa e s = Ret tt e s' /\ free_pages s' (pa :: l) /\ hw s' = hw s /\
    (forall a, ~ pa <= a < pa + PGSIZE -> ld8 (mem s') a = ld8 (mem s) a).
Proof.
  intros Hfp Hpa Hn Hs Hf. exists (freed pa s). split; [by apply kfree_run|].
  split; [by eapply freed_free_pages; eauto using free_pages_head|]. split; [done|].
  intros a Ha. unfold freed; st. unfold PGSIZE in Ha. rewrite ld8_st64_ne by lia.
  rewrite ld8_memset. by assert (within a pa PGBYTES = false) as ->
    by (apply within_false; rewrite PGBYTES_Z; lia).
Qed.

(** Popping a page, filled with junk, with nothing outside it changed; 0 when
    there is none. *)
Lemma kalloc_spec `{!PlatformOk} l e s :
  free_pages s l -> settled (hw s) -> free LKmem (hw s) ->
  exists s', kalloc e s = Ret (hd 0 l) e s' /\ free_pages s' (tl l) /\ hw s' = hw s /\
    (forall a, l = [] \/ ~ hd 0 l <= a < hd 0 l + PGSIZE -> ld8 (mem s') a = ld8 (mem s) a) /\
    (forall a, l <> [] -> hd 0 l <= a < hd 0 l + PGSIZE -> ld8 (mem s') a = 5).
Proof.
  intros Hfp Hs Hf. exists (alloced s). rewrite kalloc_run by done.
  destruct l as [|p l].
  - rewrite (alloced_nil s Hfp). destruct Hfp as (Hl & ?). cbn in Hl. rewrite Hl. done.
  - pose proof (alloced_free_pages _ _ _ Hfp) as Hfp'.
    destruct (alloced_cons _ _ _ Hfp) as (-> & Hp & Hn & Ha). split; [done|].
    split; [done|]. rewrite Ha. st. cbn [hd]. unfold PGSIZE.
    split; [done|]. split; intros a; [intros [?|Hout]|intros _ Hin]; [done|..];
      rewrite ld8_memset.
    + by assert (within a p PGBYTES = false) as ->
        by (apply within_false; rewrite PGBYTES_Z; lia).
    + by assert (within a p PGBYTES = true) as ->
        by (apply within_true; rewrite PGBYTES_Z; lia).
Qed.

(** The [n] pages from [p] on, the last one first. *)
Fixpoint pages_down (p : Z) (n : nat) : list Z :=
  match n with
  | O => []
  | S n => pages_down (p + PGSIZE) n ++ [p]
  end.

Lemma pages_down_range p n q : q ∈ pages_down p n -> p <= q.
Proof.
  revert p. induction n as [|n IH]; intros p; cbn; [by intros ?%elem_of_nil|].
  intros [Hq%IH|Hq]%elem_of_app; [unfold PGSIZE in *; lia|set_solver by lia].
Qed.

Lemma freerange_unroll `{!PlatformOk} n p pa_end l e s :
  p mod 4096 = 0 -> sym_end <= p -> pa_end <= PHYSTOP ->
  p + 4096 * Z.of_nat n <= pa_end < p + 4096 * Z.of_nat n + 4096 ->
  free_pages s l -> (forall q, q ∈ l -> q < p) -> settled (hw s) -> free LKmem (hw s) ->
  exists s', unroll (S n) (fun p =>
      if p + PGSIZE <=? pa_end then kfree p ;; ret (inl (p + PGSIZE)) else ret (inr tt)) p e s
    = Ret (inr tt) e s' /\ free_pages s' (pages_down p n ++ l) /\ hw s' = hw s.
Proof.
  revert p l s. induction n as [|n IH]; intros p l s Hp Hlo Hhi Hn Hfp Hl Hs Hf.
  - exists s. split; [|done]. cbn [unroll]. unfold PGSIZE.
    destruct (Z.leb_spec (p + 4096) pa_end); [lia|done].
  - assert (p + 4096 <= pa_end) as Hle by lia.
    assert (page_ok p) as Hok by (split; [done|lia]).
    destruct (kfree_spec p l e s Hfp Hok) as (s1 & Hr & Hfp1 & Hhw & _); [|done|done|].
    { intros Hin%Hl. lia. }
    destruct (IH (p + 4096) (p :: l) s1) as (s2 & Hr2 & Hfp2 & Hhw2);
      [by rewrite Z.add_mod, Hp|lia|done|lia|done| |by rewrite Hhw|by rewrite Hhw|].
    { intros q [->|Hq%Hl]%elem_of_cons; lia. }
    exists s2. rewrite Hhw2, Hhw. cbn [pages_down]. rewrite <- app_assoc. split; [|done].
    rewrite <- Hr2. cbn [unroll]. unfold PGSIZE. rewrite (proj2 (Z.leb_le _ _) Hle).
    unfold bind at 1 2. rewrite Hr. done.
Qed.

(** Booting frees every page between the end of the kernel and PHYSTOP. *)
Lemma kinit_spec `{!PlatformOk} e s :
  freelist s = 0 -> settled (hw s) ->
  exists s', kinit e s = Ret tt e s' /\
    free_pages s' (pages_down (PGROUNDUP sym_end)
      (Z.to_nat ((PHYSTOP - PGROUNDUP sym_end) / PGSIZE))).
Proof.
  intros Hfl Hs. pose proof end_ok as He. unfold kinit, initlock. rewrite step_modify.
  set (s1 := s <| hw ::= _ |>).
  set (n := Z.to_nat _). assert (exists q, PGROUNDUP sym_end = 4096 * q /\
    sym_end <= 4096 * q < sym_end + 4096) as (q & Hq & Hle).
  { eexists. rewrite PGROUNDUP_eq; unfold PGSIZE, PHYSTOP, KERNBASE in *; [|lia|lia].
    split; [done|dlia]. }
  rewrite Hq in *. assert (Z.of_nat n = 557056 - q) as Hn.
  { unfold n, PGSIZE, PHYSTOP, KERNBASE in *. rewrite Z2Nat.id; dlia. }
  destruct (freerange_unroll n (4096 * q) PHYSTOP [] e s1) as (s2 & Hr & Hfp & _);
    try done; unfold PHYSTOP, KERNBASE in *; [dlia|lia|lia| | | |].
  - split; [|split; [|]; constructor]. unfold s1. cbn. by rewrite Hfl.
  - by intros ? ?%elem_of_nil.
  - exists "kmem"%string. unfold s1. cbn. by rewrite lookup_insert_eq.
  - exists s2. rewrite app_nil_r in Hfp. split; [|done]. unfold freerange. rewrite Hq.
    eapply loop_run; [exact Hr|]. lia.
Qed.

(** ** What the allocator does not touch *)

#[export] Instance kfree_keeps_procs pa : Keeps procs (kfree pa).
Proof. unfold kfree, mem_upd. solve_keeps. Qed.

#[export] Instance kalloc_keeps_procs : Keeps procs kalloc.
Proof. unfold kalloc, mem_upd. solve_keeps. Qed.

Lemma pages_down_elem p n k :
  (k < n)%nat -> p + PGSIZE * Z.of_nat k ∈ pages_down p n.
Proof.
  revert p k. induction n as [|n IH]; intros p k Hk; [lia|]. cbn [pages_down].
  apply elem_of_app. destruct k as [|k]; [right; apply list_elem_of_singleton; lia|left].
  replace (p + PGSIZE * Z.of_nat (S k)) with (p + PGSIZE + PGSIZE * Z.of_nat k) by lia.
  apply IH. lia.
Qed.

Lemma pages_down_complete `{!PlatformOk} pa :
  page_ok pa ->
  pa ∈ pages_down (PGROUNDUP sym_end) (Z.to_nat ((PHYSTOP - PGROUNDUP sym_end) / PGSIZE)).
Proof.
  intros (Hm & Hlo & Hhi). pose proof end_ok as He.
  assert (PGROUNDUP sym_end = PGSIZE * ((sym_end + PGSIZE - 1) / PGSIZE)) as ->
    by (apply PGROUNDUP_eq; unfold PGSIZE, PHYSTOP, KERNBASE in *; lia).
  unfold PGSIZE, PHYSTOP, KERNBASE in *. set (q := (sym_end + 4096 - 1) / 4096).
  assert (4096 * q <= pa) by (unfold q; dlia).
  replace pa with (4096 * q + 4096 * Z.of_nat (Z.to_nat (pa / 4096 - q))) by dlia.
  apply (pages_down_elem (4096 * q)). apply Z2Nat.inj_lt; dlia.
Qed.

(** ** Theorems *)

(** Booting puts every whole page between the end of the kernel and the end
    of memory on the free list, each once. *)
Theorem kinit_frees_every_page `{!PlatformOk} e s :
  freelist s = 0 -> settled (hw s) ->
  exists s' l, kinit e s = Ret tt e s' /\ linked (mem s') (freelist s') l /\ NoDup l /\
    forall pa, pa ∈ l <-> page_ok pa.
Proof.
  intros Hfl Hs. destruct (kinit_spec e s Hfl Hs) as (s' & Hr & Hl & Hok & Hnd).
  eexists s', _. split; [done|]. split; [exact Hl|]. split; [done|]. intros pa. split.
  - intros Hin. by eapply Forall_elem.
  - apply pages_down_complete.
Qed.

(** A page that is freed is the next one allocated; it comes filled with
    junk (the byte 5), the rest of memory is as before, and so are the other
    free pages. *)
Theorem kfree_then_kalloc `{!PlatformOk} pa l e s :
  free_pages s l -> page_ok pa -> pa ∉ l -> settled (hw s) -> free LKmem (hw s) ->
  exists s', (kfree pa ;; kalloc) e s = Ret pa e s' /\ free_pages s' l /\ hw s' = hw s /\
    forall a, ld8 (mem s') a = if decide (pa <= a < pa + PGSIZE) then 5 else ld8 (mem s) a.
Proof.
  intros Hfp Hpa Hn Hs Hf.
  destruct (kfree_spec pa l e s Hfp Hpa Hn Hs Hf) as (s1 & Hr1 & Hfp1 & Hhw1 & Hm1).
  destruct (kalloc_spec (pa :: l) e s1 Hfp1) as (s2 & Hr2 & Hfp2 & Hhw2 & Hout & Hin);
    [by rewrite Hhw1..|].
  exists s2. erewrite bind_run by done. cbn [hd tl] in *. split; [done|]. split; [done|].
  split; [congruence|]. intros a. case_decide.
  - by apply Hin.
  - rewrite Hout by (by right). by apply Hm1.
Qed.

(** kfree() panics on every address that is not a page of the allocator:
    unaligned, inside the kernel or beyond the end of memory. *)
Lemma kfree_panics pa e s : ~ page_ok pa -> kfree pa e s = Panic "kfree" s.
Proof.
  intros Hn. unfold kfree. destruct (_ || _) eqn:E; [done|]. exfalso. apply Hn.
  destruct_bool. split; [done|lia].
Qed.

End Kalloc.

(** A state whose free list consists of the pages [l]. *)
Fixpoint stocked (l : list Z) (s : kernel) : kernel :=
  match l with
  | [] => s <| freelist := 0 |>
  | p :: l => let s := stocked l s in
              s <| mem ::= st64 p (freelist s) |> <| freelist := p |>
  end.

(** ** On the sample machine *)

#[export] Instance platform0_ok : @PlatformOk platform0.
Proof. split; vm_compute; repeat split; congruence. Qed.

Lemma machine_kmem_free ps : free LKmem (hw (machine ps)).
Proof. by exists "lock"%string. Qed.

