(* ===== verification/Vm.v ===== *)
(** * Page tables and user memory: vm.c

    Page tables are read from and written to physical memory word by word, as
    in the code.  A kernel buffer that is the source of [copyout] or the
    destination of [copyin] and [copyinstr] is a list of bytes: [copyin]
    returns, next to its result, the bytes it has stored into the buffer. *)

From S2P Require Import Prelude State Monad Spinlock Cstring Kalloc.

(** ** riscv.h *)

Definition PX (level : Z) (va : Z) : Z := Z.land (Z.shiftr va (PGSHIFT + 9 * level)) 0x1FF.

Definition PA2PTE (pa : Z) : Z := Z.shiftl (Z.shiftr pa 12) 10.

Definition PTE2PA (pte : Z) : Z := u64 (Z.shiftl (Z.shiftr pte 10) 12).

Definition PTE_FLAGS (pte : Z) : Z := Z.land pte 0x3FF.

Definition MAKE_SATP (pagetable : Z) : Z := Z.lor SATP_SV39 (Z.shiftr pagetable 12).

(** Is the bit (or one of the bits) of the mask set? *)
Definition bit (x mask : Z) : bool := negb (Z.land x mask =? 0).

(** The entry [pagetable[i]]. *)
Definition pte_addr (pagetable i : Z) : Z := pagetable + 8 * i.

Definition pte_get (pte : Z) : M Z := gets (fun s => ld64 (mem s) pte).

Definition pte_set (pte v : Z) : M unit := mem_upd (st64 pte v).

(** Filling a page through a pointer that kalloc() returned unchecked. *)
Definition fill_page (pa c : Z) : M unit :=
  if pa =? 0 then undef "memset of a null page" else mem_upd (memset pa c PGBYTES).

Definition w_satp (x : Z) : M unit := modify (fun s => s <| hw ::= fun h => h <| satp := x |> |>).

Section Vm.
Context `{Platform}.

(** ** Walking the tree *)

(** The loop of walk() from [level] down. *)
Fixpoint walk_levels (level : nat) (pagetable va : Z) (alloc : bool) : M Z :=
  match level with
  | O => ret (pte_addr pagetable (PX 0 va))
  | S below =>
      let pte := pte_addr pagetable (PX (Z.of_nat level) va) in
      v <- pte_get pte;
      if bit v PTE_V then walk_levels below (PTE2PA v) va alloc
      else if negb alloc then ret 0 else
      pagetable <- kalloc;
      if pagetable =? 0 then ret 0 else
      mem_upd (memset pagetable 0 PGBYTES) ;;
      pte_set pte (Z.lor (PA2PTE pagetable) PTE_V) ;;
      walk_levels below pagetable va alloc
  end.

(** The address of the entry, 0 for null. *)
Definition walk (pagetable va : Z) (alloc : bool) : M Z :=
  if MAXVA <=? va then panic "walk" else walk_levels 2 pagetable va alloc.

Definition walkaddr (pagetable va : Z) : M Z :=
  if MAXVA <=? va then ret 0 else
  pte <- walk pagetable va false;
  if pte =? 0 then ret 0 else
  v <- pte_get pte;
  if negb (bit v PTE_V) then ret 0 else
  if negb (bit v PTE_U) then ret 0 else
  ret (PTE2PA v).

Definition mappages (pagetable va size pa perm : Z) : M Z :=
  if size =? 0 then panic "mappages: size" else
  let last := PGROUNDDOWN (u64 (va + size - 1)) in
  loop (fun '(a, pa) =>
    pte <- walk pagetable a true;
    if pte =? 0 then ret (inr (-1)) else
    v <- pte_get pte;
    if bit v PTE_V then panic "mappages: remap" else
    pte_set pte (Z.lor (Z.lor (PA2PTE pa) perm) PTE_V) ;;
    if a =? last then ret (inr 0)
    else ret (inl (a +64 PGSIZE, pa +64 PGSIZE)))
    (PGROUNDDOWN va, pa).

Definition kvmmap (kpgtbl va pa sz perm : Z) : M unit :=
  r <- mappages kpgtbl va sz pa perm;
  when (negb (r =? 0)) (panic "kvmmap").

(** proc.c: a kernel stack for each process, with a guard page below it. *)
Definition proc_mapstacks (kpgtbl : Z) : M unit :=
  for_ (seq 0 NPROC) (fun p =>
    pa <- kalloc;
    when (pa =? 0) (panic "kalloc") ;;
    kvmmap kpgtbl (KSTACK (Z.of_nat p)) pa PGSIZE (Z.lor PTE_R PTE_W)).

Definition kvmmake : M Z :=
  kpgtbl <- kalloc;
  fill_page kpgtbl 0 ;;
  kvmmap kpgtbl UART0 UART0 PGSIZE (Z.lor PTE_R PTE_W) ;;
  kvmmap kpgtbl VIRTIO0 VIRTIO0 PGSIZE (Z.lor PTE_R PTE_W) ;;
  kvmmap kpgtbl PLIC PLIC 0x400000 (Z.lor PTE_R PTE_W) ;;
  kvmmap kpgtbl KERNBASE KERNBASE (u64 (sym_etext - KERNBASE)) (Z.lor PTE_R PTE_X) ;;
  kvmmap kpgtbl sym_etext sym_etext (u64 (PHYSTOP - sym_etext)) (Z.lor PTE_R PTE_W) ;;
  kvmmap kpgtbl TRAMPOLINE sym_trampoline PGSIZE (Z.lor PTE_R PTE_X) ;;
  proc_mapstacks kpgtbl ;;
  ret kpgtbl.

Definition kvminit : M unit :=
  pt <- kvmmake;
  modify (fun s => s <| kernel_pagetable := pt |>).

Definition kvminithart : M unit :=
  pt <- gets kernel_pagetable;
  w_satp (MAKE_SATP pt).

(** ** User address spaces *)

Definition uvmunmap (pagetable va npages : Z) (do_free : bool) : M unit :=
  if negb (va mod PGSIZE =? 0) then panic "uvmunmap: not aligned" else
  loop (fun a =>
    if a <? va +64 u64 (npages * PGSIZE) then
      pte <- walk pagetable a false;
      if pte =? 0 then panic "uvmunmap: walk" else
      v <- pte_get pte;
      if negb (bit v PTE_V) then panic "uvmunmap: not mapped" else
      if PTE_FLAGS v =? PTE_V then panic "uvmunmap: not a leaf" else
      when do_free (kfree (PTE2PA v)) ;;
      pte_set pte 0 ;;
      ret (inl (a +64 PGSIZE))
    else ret (inr tt)) va.

Definition uvmcreate : M Z :=
  pagetable <- kalloc;
  if pagetable =? 0 then ret 0 else
  mem_upd (memset pagetable 0 PGBYTES) ;;
  ret pagetable.

(** [src] is the array initcode[], [sz] its size. *)
Definition uvminit (pagetable : Z) (src : list Z) (sz : Z) : M unit :=
  if PGSIZE <=? sz then panic "inituvm: more than a page" else
  mm <- kalloc;
  fill_page mm 0 ;;
  mappages pagetable 0 PGSIZE mm (Z.lor (Z.lor (Z.lor PTE_W PTE_R) PTE_X) PTE_U) ;;
  mem_upd (put_bytes mm (take (Z.to_nat sz) src)).

Definition uvmdealloc (pagetable oldsz newsz : Z) : M Z :=
  if oldsz <=? newsz then ret oldsz else
  when (PGROUNDUP newsz <? PGROUNDUP oldsz)
    (let npages := s32 ((PGROUNDUP oldsz - PGROUNDUP newsz) / PGSIZE) in
     uvmunmap pagetable (PGROUNDUP newsz) (u64 npages) true) ;;
  ret newsz.

Definition uvmalloc (pagetable oldsz newsz : Z) : M Z :=
  if newsz <? oldsz then ret oldsz else
  let oldsz := PGROUNDUP oldsz in
  loop (fun a =>
    if a <? newsz then
      mm <- kalloc;
      if mm =? 0 then uvmdealloc pagetable a oldsz ;; ret (inr 0) else
      mem_upd (memset mm 0 PGBYTES) ;;
      r <- mappages pagetable a PGSIZE mm (Z.lor (Z.lor (Z.lor PTE_W PTE_X) PTE_R) PTE_U);
      if negb (r =? 0) then
        kfree mm ;; uvmdealloc pagetable a oldsz ;; ret (inr 0)
      else ret (inl (a +64 PGSIZE))
    else ret (inr newsz)) oldsz.

(** Recursion of depth at most [depth]; a page table has three levels. *)
Fixpoint freewalk_depth (depth : nat) (pagetable : Z) : M unit :=
  match depth with
  | O => nofuel
  | S depth =>
      for_ (seq 0 512) (fun i =>
        pte <- pte_get (pte_addr pagetable (Z.of_nat i));
        if bit pte PTE_V && negb (bit pte (Z.lor (Z.lor PTE_R PTE_W) PTE_X)) then
          freewalk_depth depth (PTE2PA pte) ;;
          pte_set (pte_addr pagetable (Z.of_nat i)) 0
        else when (bit pte PTE_V) (panic "freewalk: leaf")) ;;
      kfree pagetable
  end.

Definition freewalk (pagetable : Z) : M unit := freewalk_depth 3 pagetable.

Definition uvmfree (pagetable sz : Z) : M unit :=
  when (0 <? sz) (uvmunmap pagetable 0 (PGROUNDUP sz / PGSIZE) true) ;;
  freewalk pagetable.

Definition uvmcopy (old new sz : Z) : M Z :=
  let err i := uvmunmap new 0 (i / PGSIZE) true ;; ret (inr (-1)) in
  loop (fun i =>
    if i <? sz then
      pte <- walk old i false;
      if pte =? 0 then panic "uvmcopy: pte should exist" else
      v <- pte_get pte;
      if negb (bit v PTE_V) then panic "uvmcopy: page not present" else
      let pa := PTE2PA v in
      let flags := PTE_FLAGS v in
      mm <- kalloc;
      if mm =? 0 then err i else
      mem_upd (memmove mm pa PGBYTES) ;;
      r <- mappages new i PGSIZE mm flags;
      if negb (r =? 0) then kfree mm ;; err i
      else ret (inl (i +64 PGSIZE))
    else ret (inr 0)) 0.

Definition uvmclear (pagetable va : Z) : M unit :=
  pte <- walk pagetable va false;
  if pte =? 0 then panic "uvmclear" else
  v <- pte_get pte;
  pte_set pte (Z.land v (Z.lnot PTE_U)).

(** ** Copying between kernel and user space *)

(** How much of [len] bytes at [va] lies in the page of [va]. *)
Definition chunk (va len : Z) : Z :=
  let n := PGSIZE - (va - PGROUNDDOWN va) in if len <? n then len else n.

Definition copyout (pagetable dstva : Z) (src : list Z) : M Z :=
  loop (fun '(dstva, src) =>
    let len := Z.of_nat (length src) in
    if 0 <? len then
      let va0 := PGROUNDDOWN dstva in
      pa0 <- walkaddr pagetable va0;
      if pa0 =? 0 then ret (inr (-1)) else
      let n := Z.to_nat (chunk dstva len) in
      mem_upd (put_bytes (pa0 + (dstva - va0)) (take n src)) ;;
      ret (inl (va0 +64 PGSIZE, drop n src))
    else ret (inr 0)) (dstva, src).

Definition copyin (pagetable srcva len : Z) : M (Z * list Z) :=
  loop (fun '(srcva, len, dst) =>
    if 0 <? len then
      let va0 := PGROUNDDOWN srcva in
      pa0 <- walkaddr pagetable va0;
      if pa0 =? 0 then ret (inr (-1, dst)) else
      let n := chunk srcva len in
      bytes <- gets (fun s => bytes_at (mem s) (pa0 + (srcva - va0)) (Z.to_nat n));
      ret (inl (va0 +64 PGSIZE, len - n, dst ++ bytes))
    else ret (inr (0, dst))) (srcva, len, []).

(** The inner loop of copyinstr() over the [n] bytes at [p]: whether the NUL
    was found, and the bytes stored, the NUL included. *)
Fixpoint copy_str (m : gmap Z Z) (p : Z) (n : nat) : bool * list Z :=
  match n with
  | O => (false, [])
  | S n =>
      if ld8 m p =? 0 then (true, [0])
      else let '(got, dst) := copy_str m (p + 1) n in (got, ld8 m p :: dst)
  end.

Definition copyinstr (pagetable srcva max : Z) : M (Z * list Z) :=
  loop (fun '(srcva, max, dst) =>
    if 0 <? max then
      let va0 := PGROUNDDOWN srcva in
      pa0 <- walkaddr pagetable va0;
      if pa0 =? 0 then ret (inr (-1, dst)) else
      let n := chunk srcva max in
      ' (got_null, bytes) <- gets (fun s => copy_str (mem s) (pa0 + (srcva - va0)) (Z.to_nat n));
      if got_null then ret (inr (0, dst ++ bytes))
      else ret (inl (va0 +64 PGSIZE, max - n, dst ++ bytes))
    else ret (inr (-1, dst))) (srcva, max, []).

(** ** What the memory system does not touch *)

#[export] Instance walk_levels_keeps_procs level pagetable va alloc :
  Keeps procs (walk_levels level pagetable va alloc).
Proof.
  revert pagetable. induction level as [|level IH]; intros pagetable; cbn [walk_levels];
    unfold pte_get, pte_set, mem_upd; solve_keeps.
Qed.

#[export] Instance walk_keeps_procs pagetable va alloc : Keeps procs (walk pagetable va alloc).
Proof. unfold walk. solve_keeps. Qed.

#[export] Instance mappages_keeps_procs pagetable va size pa perm :
  Keeps procs (mappages pagetable va size pa perm).
Proof. unfold mappages, pte_get, pte_set, mem_upd. solve_keeps. Qed.

#[export] Instance uvmunmap_keeps_procs pagetable va npages do_free :
  Keeps procs (uvmunmap pagetable va npages do_free).
Proof. unfold uvmunmap, pte_get, pte_set, mem_upd. solve_keeps. Qed.

#[export] Instance uvmcreate_keeps_procs : Keeps procs uvmcreate.
Proof. unfold uvmcreate, mem_upd. solve_keeps. Qed.

#[export] Instance freewalk_keeps_procs depth pagetable :
  Keeps procs (freewalk_depth depth pagetable).
Proof.
  revert pagetable. induction depth as [|depth IH]; intros pagetable; cbn [freewalk_depth];
    unfold pte_get, pte_set, mem_upd; solve_keeps.
Qed.

#[export] Instance uvmfree_keeps_procs pagetable sz : Keeps procs (uvmfree pagetable sz).
Proof. unfold uvmfree, freewalk. solve_keeps. Qed.

End Vm.
