(* ===== verification/Pagetable.v ===== *)
(** * Page tables as maps from virtual pages to entries (vm.c)

    [translate m root va] is the entry that the three-level tree at [root] in
    memory [m] has for [va].  [shape] is the invariant of the tree: the table
    pages are allocated pages with a level each, and every table is the target
    of one entry.  Against it walk(), mappages() and uvmunmap() are operations
    on that map, and copyout() and copyin() read and write through it. *)

From S2P Require Import Prelude State Machine Monad Spinlock Cstring Kalloc Vm.

(** ** Words and bits *)

Lemma lor_lt a b n : 0 <= n -> 0 <= a < 2 ^ n -> 0 <= b < 2 ^ n -> 0 <= Z.lor a b < 2 ^ n.
Proof.
  intros Hn Ha Hb. assert (0 <= Z.lor a b) by (apply Z.lor_nonneg; lia). split; [done|].
  assert (Z.lor a b / 2 ^ n = 0) as Hz.
  { rewrite <- Z.shiftr_div_pow2, Z.shiftr_lor, !Z.shiftr_div_pow2 by done.
    by rewrite !Z.div_small by lia. }
  apply Z.div_small_iff in Hz; lia.
Qed.

(** An entry as mappages() writes it. *)
Definition leaf (pa perm : Z) : Z := Z.lor (Z.lor (PA2PTE pa) perm) PTE_V.

(** Addresses that fit into an entry. *)
Definition frame_ok (pa : Z) : Prop := pa mod PGSIZE = 0 /\ 0 <= pa < 2 ^ 56.

Definition perm_ok (perm : Z) : Prop := 0 <= perm < 1024.

Lemma PA2PTE_eq pa : frame_ok pa -> PA2PTE pa = 1024 * (pa / 4096).
Proof.
  intros [Hm Hr]. unfold PA2PTE. rewrite Z.shiftl_mul_pow2, Z.shiftr_div_pow2 by lia.
  change (2 ^ 12) with 4096. change (2 ^ 10) with 1024. lia.
Qed.

Lemma leaf_range pa perm : frame_ok pa -> perm_ok perm -> 0 <= leaf pa perm < 2 ^ 64.
Proof.
  intros Hpa Hp. unfold leaf. rewrite (PA2PTE_eq pa Hpa). destruct Hpa as [_ Hr]. unfold perm_ok in Hp.
  apply lor_lt; [lia| |by split]. apply lor_lt; [lia| |lia]. dlia.
Qed.

Lemma shiftr_perm x : 0 <= x < 1024 -> Z.shiftr x 10 = 0.
Proof. intros. rewrite Z.shiftr_div_pow2 by lia. apply Z.div_small. done. Qed.

Lemma PTE2PA_leaf pa perm : frame_ok pa -> perm_ok perm -> PTE2PA (leaf pa perm) = pa.
Proof.
  intros Hpa Hp. pose proof (PA2PTE_eq pa Hpa) as He. destruct Hpa as [Hm Hr]. unfold PTE2PA, leaf.
  rewrite !Z.shiftr_lor, (shiftr_perm perm), (shiftr_perm PTE_V) by (done || by split).
  rewrite !Z.lor_0_r, He, Z.shiftr_div_pow2, Z.shiftl_mul_pow2 by lia.
  unfold PGSIZE in *. rewrite u64_small; change (2 ^ 10) with 1024; change (2 ^ 12) with 4096; dlia.
Qed.

Lemma bit_testbit x n : 0 <= n -> bit x (2 ^ n) = Z.testbit x n.
Proof.
  intros Hn. unfold bit. destruct (Z.testbit x n) eqn:E.
  - apply negb_true_iff, Z.eqb_neq. intros Hz.
    assert (Z.testbit (Z.land x (2 ^ n)) n = true) as Hc
      by (by rewrite Z.land_spec, E, Z.pow2_bits_true).
    by rewrite Hz, Z.bits_0 in Hc.
  - apply negb_false_iff, Z.eqb_eq. apply Z.bits_inj'. intros k Hk.
    rewrite Z.land_spec, Z.bits_0, Z.pow2_bits_eqb by lia.
    destruct (Z.eqb_spec n k) as [<-|]; [by rewrite E|by rewrite andb_false_r].
Qed.

Lemma bit_V x : bit x PTE_V = Z.testbit x 0.
Proof. apply (bit_testbit x 0). lia. Qed.

Lemma leaf_valid pa perm : bit (leaf pa perm) PTE_V = true.
Proof. rewrite bit_V. unfold leaf. rewrite Z.lor_spec. apply orb_true_r. Qed.

Lemma bit_0 : bit 0 PTE_V = false.
Proof. done. Qed.

Lemma leaf_U pa perm :
  frame_ok pa -> perm_ok perm -> bit (leaf pa perm) PTE_U = bit perm PTE_U.
Proof.
  intros Hpa Hp. rewrite !(bit_testbit _ 4) by lia. unfold leaf. rewrite !Z.lor_spec.
  rewrite PA2PTE_eq by done. change 1024 with (2 ^ 10). rewrite Z.mul_comm, Z.mul_pow2_bits_low by lia.
  cbn. by rewrite orb_false_r.
Qed.

Lemma PX_eq level va : 0 <= level -> PX level va = va / 2 ^ (12 + 9 * level) mod 512.
Proof.
  intros. unfold PX, PGSHIFT. change 0x1FF with (Z.ones 9).
  rewrite Z.land_ones, Z.shiftr_div_pow2 by lia. done.
Qed.

Lemma PX_range level va : 0 <= level -> 0 <= PX level va < 512.
Proof. intros. rewrite PX_eq by done. apply Z.mod_pos_bound. lia. Qed.

(** The page number of a virtual address. *)
Definition vpn (va : Z) : Z := va / 4096.

Lemma vpn_range va : 0 <= va < MAXVA -> 0 <= vpn va < 2 ^ 26.
Proof. change MAXVA with (2 ^ 38). unfold vpn. dlia. Qed.

Lemma PX_vpn va va' :
  0 <= va < MAXVA -> 0 <= va' < MAXVA ->
  PX 0 va = PX 0 va' -> PX 1 va = PX 1 va' -> PX 2 va = PX 2 va' -> vpn va = vpn va'.
Proof.
  unfold vpn. rewrite !PX_eq by lia.
  change (2 ^ (12 + 9 * 0)) with 4096. change (2 ^ (12 + 9 * 1)) with (4096 * 512).
  change (2 ^ (12 + 9 * 2)) with (4096 * 512 * 512). rewrite <- !Z.div_div by lia.
  intros H1%vpn_range H2%vpn_range. unfold vpn in *.
  generalize dependent (va / 4096). generalize dependent (va' / 4096). intros q' H2 q H1. dlia.
Qed.

Lemma PX_same_page level va : 0 <= level -> PX level (4096 * vpn va) = PX level va.
Proof.
  intros. rewrite !PX_eq, Z.pow_add_r by lia. change (2 ^ 12) with 4096. unfold vpn.
  rewrite <- !Z.div_div by lia. by rewrite (Z.mul_comm 4096), Z.div_mul.
Qed.

(** ** Entries and the tree *)

(** The entry [pagetable[i]] of the table at [p]. *)
Definition entry (m : gmap Z Z) (p i : Z) : Z := ld64 m (pte_addr p i).

(** The address of the last-level entry for [va], following valid entries. *)
Fixpoint trav (m : gmap Z Z) (level : nat) (p va : Z) : option Z :=
  match level with
  | O => Some (pte_addr p (PX 0 va))
  | S below =>
      let v := entry m p (PX (Z.of_nat level) va) in
      if bit v PTE_V then trav m below (PTE2PA v) va else None
  end.

(** The valid entry for [va] in the page table [root]. *)
Definition translate (m : gmap Z Z) (root va : Z) : option Z :=
  match trav m 2 root va with
  | Some a => if bit (ld64 m a) PTE_V then Some (ld64 m a) else None
  | None => None
  end.

Section Tree.
Context `{Platform} `{!PlatformOk}.

(** [lvl] gives the level of each table page. *)
Record shape (m : gmap Z Z) (lvl : gmap Z nat) : Prop := {
  shape_page p k : lvl !! p = Some k -> page_ok p;
  shape_child p k i : lvl !! p = Some (S k) -> 0 <= i < 512 ->
    bit (entry m p i) PTE_V = true -> lvl !! PTE2PA (entry m p i) = Some k;
  shape_inj p p' k k' i i' : lvl !! p = Some (S k) -> lvl !! p' = Some (S k') ->
    0 <= i < 512 -> 0 <= i' < 512 ->
    bit (entry m p i) PTE_V = true -> bit (entry m p' i') PTE_V = true ->
    PTE2PA (entry m p i) = PTE2PA (entry m p' i') -> p = p' /\ i = i';
}.

(** Tables may have been added, all of them empty at the last level; no other
    entry and nothing outside the tables has changed. *)
Record grows (m : gmap Z Z) (lvl : gmap Z nat) (m' : gmap Z Z) (lvl' : gmap Z nat) : Prop := {
  grows_shape : shape m' lvl';
  grows_sub : lvl ⊆ lvl';
  grows_inner p k i : lvl !! p = Some (S k) -> 0 <= i < 512 ->
    bit (entry m p i) PTE_V = true -> entry m' p i = entry m p i;
  grows_leaf p i : lvl !! p = Some 0%nat -> 0 <= i < 512 -> entry m' p i = entry m p i;
  grows_new p i : lvl' !! p = Some 0%nat -> lvl !! p = None -> 0 <= i < 512 -> entry m' p i = 0;
  grows_fresh p k i : lvl' !! p = Some (S k) -> 0 <= i < 512 ->
    bit (entry m' p i) PTE_V = true ->
    (lvl !! p = None \/ bit (entry m p i) PTE_V = false) ->
    lvl !! PTE2PA (entry m' p i) = None;
  grows_frame a : (forall p, is_Some (lvl' !! p) -> ~ p <= a < p + PGSIZE) ->
    ld8 m' a = ld8 m a;
}.

Lemma grows_refl m lvl : shape m lvl -> grows m lvl m lvl.
Proof. intros Hs. split; try done. - congruence. - intros ?????? [?|?]; congruence. Qed.

Lemma grows_trans m lvl m1 lvl1 m2 lvl2 :
  grows m lvl m1 lvl1 -> grows m1 lvl1 m2 lvl2 -> grows m lvl m2 lvl2.
Proof.
  intros G1 G2. pose proof (grows_sub _ _ _ _ G1) as S1. pose proof (grows_sub _ _ _ _ G2) as S2.
  split.
  - by apply G2.
  - by etransitivity.
  - intros p k i Hp Hi Hv. rewrite (grows_inner _ _ _ _ G2 p k i); [by eapply grows_inner| |done|].
    + by eapply lookup_weaken.
    + by rewrite (grows_inner _ _ _ _ G1 p k i).
  - intros p i Hp Hi. rewrite (grows_leaf _ _ _ _ G2 p i); [by eapply grows_leaf| |done].
    by eapply lookup_weaken.
  - intros p i Hp Hn Hi. destruct (lvl1 !! p) as [k|] eqn:E.
    + assert (k = 0%nat) as -> by (eapply lookup_weaken in E; [|done]; congruence).
      rewrite (grows_leaf _ _ _ _ G2 p i) by done. by eapply grows_new.
    + by eapply (grows_new _ _ _ _ G2).
  - intros p k i Hp Hi Hv Hnew. destruct (lvl1 !! p) as [k1|] eqn:E.
    + assert (k1 = S k) as -> by (eapply lookup_weaken in E; [|done]; congruence).
      destruct (bit (entry m1 p i) PTE_V) eqn:Ev.
      * rewrite (grows_inner _ _ _ _ G2 p k i) in * by done. by eapply (grows_fresh _ _ _ _ G1).
      * assert (lvl1 !! PTE2PA (entry m2 p i) = None) as Hn by (eapply grows_fresh; eauto).
        by eapply lookup_weaken_None.
    + assert (lvl1 !! PTE2PA (entry m2 p i) = None) as Hn by (eapply grows_fresh; eauto).
      by eapply lookup_weaken_None.
  - intros a Ha. rewrite (grows_frame _ _ _ _ G2 a) by done. apply (grows_frame _ _ _ _ G1).
    intros p [k Hk]. apply Ha. exists k. by eapply lookup_weaken.
Qed.

(** ** Memory of tables *)

Lemma entry_st64 m p i v : entry (st64 (pte_addr p i) v m) p i = u64 v.
Proof. apply ld64_st64. Qed.

Lemma pte_addr_apart p q i j :
  page_ok p -> page_ok q -> 0 <= i < 512 -> 0 <= j < 512 -> (p, i) <> (q, j) ->
  pte_addr p i + 8 <= pte_addr q j \/ pte_addr q j + 8 <= pte_addr p i.
Proof.
  intros Hp Hq Hi Hj Hne. unfold pte_addr. destruct (Z.eq_dec p q) as [->|Hpq].
  - assert (i <> j) by congruence. lia.
  - destruct (pages_apart p q Hp Hq Hpq); lia.
Qed.

Lemma entry_st64_ne m p q i j v :
  page_ok p -> page_ok q -> 0 <= i < 512 -> 0 <= j < 512 -> (p, i) <> (q, j) ->
  entry (st64 (pte_addr p i) v m) q j = entry m q j.
Proof. intros. apply ld64_st64_ne. by apply pte_addr_apart. Qed.

Lemma entry_memset_ne m p q c j :
  page_ok p -> page_ok q -> 0 <= j < 512 -> p <> q ->
  entry (memset p c PGBYTES m) q j = entry m q j.
Proof.
  intros Hp Hq Hj Hne. apply ld_le_memset_ne. rewrite PGBYTES_Z. unfold pte_addr.
  destruct (pages_apart p q Hp Hq Hne); lia.
Qed.

Lemma entry_memset0 m p j : 0 <= j < 512 -> entry (memset p 0 PGBYTES m) p j = 0.
Proof. intros Hj. apply ld64_memset0; rewrite ?PGBYTES_Z; unfold pte_addr; lia. Qed.

Lemma page_frame_ok p : page_ok p -> frame_ok p.
Proof.
  intros [Hm Hr]. pose proof end_ok. split; [done|]. unfold KERNBASE, PHYSTOP, KERNBASE in *. lia.
Qed.

(** Linking a new empty table into an invalid entry. *)
Lemma grows_link m m' lvl p k i q :
  shape m lvl -> lvl !! p = Some (S k) -> 0 <= i < 512 -> bit (entry m p i) PTE_V = false ->
  lvl !! q = None -> page_ok q ->
  (forall j, 0 <= j < 512 -> entry m' q j = 0) -> entry m' p i = leaf q 0 ->
  (forall p' j, is_Some (lvl !! p') -> 0 <= j < 512 -> (p', j) <> (p, i) ->
     entry m' p' j = entry m p' j) ->
  (forall a, (~ q <= a < q + PGSIZE) -> (~ p <= a < p + PGSIZE) -> ld8 m' a = ld8 m a) ->
  grows m lvl m' (<[q := k]> lvl).
Proof.
  intros Hs Hp Hi Hinv Hq Hqok Hzero Hlink Hother Hframe.
  assert (Hpa : PTE2PA (leaf q 0) = q) by (apply PTE2PA_leaf; [by apply page_frame_ok|by split]).
  assert (Hcases : forall p' k' j, <[q := k]> lvl !! p' = Some (S k') -> 0 <= j < 512 ->
    bit (entry m' p' j) PTE_V = true ->
    (p' = p /\ j = i /\ k' = k /\ PTE2PA (entry m' p' j) = q) \/
    ((p', j) <> (p, i) /\ lvl !! p' = Some (S k') /\ entry m' p' j = entry m p' j)).
  { intros p' k' j Hl Hj Hv. destruct (decide (q = p')) as [<-|Hne].
    { by rewrite Hzero in Hv. }
    rewrite lookup_insert_ne in Hl by done. destruct (decide ((p', j) = (p, i))) as [[= -> ->]|Hd].
    - left. rewrite Hlink, Hpa. repeat split; congruence.
    - right. split; [done|]. split; [done|]. by apply Hother. }
  split.
  - split.
    + intros p' k' Hl. destruct (decide (q = p')) as [<-|]; [done|].
      rewrite lookup_insert_ne in Hl by done. by eapply shape_page.
    + intros p' k' j Hl Hj Hv.
      destruct (Hcases p' k' j Hl Hj Hv) as [(-> & -> & -> & ->)|(Hd & Hl' & He)].
      * by rewrite lookup_insert_eq.
      * rewrite He in *. assert (lvl !! PTE2PA (entry m p' j) = Some k') by (by eapply shape_child).
        rewrite lookup_insert_ne by congruence. done.
    + intros p1 p2 k1 k2 i1 i2 Hl1 Hl2 Hi1 Hi2 Hv1 Hv2 Heq.
      destruct (Hcases p1 k1 i1 Hl1 Hi1 Hv1) as [(-> & -> & _ & E1)|(Hd1 & Hl1' & E1)],
        (Hcases p2 k2 i2 Hl2 Hi2 Hv2) as [(-> & -> & _ & E2)|(Hd2 & Hl2' & E2)]; [done|..].
      * rewrite E1, E2 in *. assert (lvl !! PTE2PA (entry m p2 i2) = Some k2)
          by (by eapply shape_child). congruence.
      * rewrite E1, E2 in *. assert (lvl !! PTE2PA (entry m p1 i1) = Some k1)
          by (by eapply shape_child). congruence.
      * rewrite E1, E2 in *. eapply shape_inj; eauto.
  - by apply insert_subseteq.
  - intros p' k' j Hl Hj Hv. apply Hother; [by eexists|done|]. intros [= -> ->]. congruence.
  - intros p' j Hl Hj. apply Hother; [by eexists|done|]. intros [= -> ->]. congruence.
  - intros p' j Hl Hn Hj. destruct (decide (q = p')) as [<-|]; [by apply Hzero|].
    rewrite lookup_insert_ne in Hl by done. congruence.
  - intros p' k' j Hl Hj Hv Hor.
    destruct (Hcases p' k' j Hl Hj Hv) as [(-> & -> & -> & ->)|(Hd & Hl' & He)]; [done|].
    destruct Hor as [?|?]; congruence.
  - intros a Ha. apply Hframe.
    + apply Ha. exists k. by rewrite lookup_insert_eq.
    + apply Ha. exists (S k). rewrite lookup_insert_ne by congruence. done.
Qed.

(** ** walk() *)

Lemma walk_levels_lookup level p va e s :
  walk_levels level p va false e s = Ret (default 0 (trav (mem s) level p va)) e s.
Proof.
  revert p. induction level as [|level IH]; intros p; [done|].
  cbn [walk_levels trav]. unfold pte_get, entry. msteps.
  destruct (bit _ PTE_V); [apply IH|done].
Qed.

(** The invariant of an address space: the tree, and the free pages, which are
    none of its tables. *)
Record space (s : kernel) (lvl : gmap Z nat) (l : list Z) : Prop := {
  space_shape : shape (mem s) lvl;
  space_free : free_pages s l;
  space_apart q : q ∈ l -> lvl !! q = None;
  space_settled : settled (hw s);
  space_kmem : free LKmem (hw s);
}.

(** The outcome of code that may only have added tables. *)
Record walked (s : kernel) (lvl : gmap Z nat) (l : list Z) (s' : kernel) (lvl' : gmap Z nat)
    (l' : list Z) : Prop := {
  walked_space : space s' lvl' l';
  walked_grows : grows (mem s) lvl (mem s') lvl';
  walked_free q : q ∈ l' -> q ∈ l;
  walked_tables p : is_Some (lvl' !! p) -> is_Some (lvl !! p) \/ p ∈ l;
}.

Lemma walked_refl s lvl l : space s lvl l -> walked s lvl l s lvl l.
Proof. intros Hsp. split; [done|apply grows_refl, Hsp|done|by left]. Qed.

Lemma walked_trans s lvl l s1 lvl1 l1 s2 lvl2 l2 :
  walked s lvl l s1 lvl1 l1 -> walked s1 lvl1 l1 s2 lvl2 l2 -> walked s lvl l s2 lvl2 l2.
Proof.
  intros W1 W2. split; [apply W2|eapply grows_trans; [apply W1|apply W2]|..].
  - intros q Hq. by eapply walked_free, walked_free.
  - intros p [Hp|Hp]%(walked_tables _ _ _ _ _ _ W2).
    + by apply W1.
    + right. by apply (walked_free _ _ _ _ _ _ W1).
Qed.

(** The state after walk() has put a new table [q] into entry [i] of [p]. *)
Definition linked_table (p i q : Z) (s : kernel) : kernel :=
  alloced s <| mem ::= memset q 0 PGBYTES |>
            <| mem ::= st64 (pte_addr p i) (Z.lor (PA2PTE q) PTE_V) |>.

Lemma u64_link q : page_ok q -> u64 (Z.lor (PA2PTE q) PTE_V) = leaf q 0.
Proof.
  intros Hq. unfold leaf. rewrite Z.lor_0_r. apply u64_small.
  pose proof (leaf_range q 0 (page_frame_ok q Hq)) as Hr. unfold leaf in Hr.
  rewrite Z.lor_0_r in Hr. apply Hr. by split.
Qed.

Lemma linked_table_entry p i q s :
  page_ok q -> entry (mem (linked_table p i q s)) p i = leaf q 0.
Proof. intros Hq. unfold linked_table. st. rewrite entry_st64. by apply u64_link. Qed.

Lemma link_walked s lvl q l p k i :
  space s lvl (q :: l) -> lvl !! p = Some (S k) -> 0 <= i < 512 ->
  bit (entry (mem s) p i) PTE_V = false ->
  walked s lvl (q :: l) (linked_table p i q s) (<[q := k]> lvl) l.
Proof.
  intros [Hsh Hfp Hap Hs Hf] Hp Hi Hinv.
  assert (Hqn : lvl !! q = None) by (apply Hap; rewrite elem_of_cons; by left).
  assert (Htl : forall r, r ∈ l -> lvl !! r = None)
    by (intros r Hr; apply Hap; rewrite elem_of_cons; by right).
  destruct (alloced_cons _ _ _ Hfp) as (Hfl & Hqok & Hnin & Ha).
  pose proof (alloced_free_pages _ _ _ Hfp) as Hfp'.
  assert (Hpok : page_ok p) by (by eapply shape_page).
  assert (p <> q) as Hpq by congruence.
  set (m' := st64 (pte_addr p i) (Z.lor (PA2PTE q) PTE_V)
               (memset q 0 PGBYTES (memset q 5 PGBYTES (mem s)))).
  assert (Hlinkpages : forall r, r ∈ l -> ld64 m' r = ld64 (mem (alloced s)) r).
  { intros r Hr. assert (page_ok r).
    { destruct Hfp' as (_ & Hok & _). by eapply Forall_elem. }
    assert (r <> q) by (intros ->; exact (Hnin Hr)).
    assert (r <> p) by (intros ->; rewrite (Htl _ Hr) in Hp; discriminate Hp).
    replace r with (pte_addr r 0) by (unfold pte_addr; lia). fold (entry m' r 0). unfold m'.
    rewrite entry_st64_ne by (done || lia || congruence). rewrite entry_memset_ne by (done || lia).
    unfold entry. rewrite Ha. st. done. }
  assert (Hgrow : grows (mem s) lvl m' (<[q := k]> lvl)).
  { apply (grows_link _ _ _ p k i); try assumption; unfold m'.
    - intros j Hj. rewrite entry_st64_ne by (done || congruence). by apply entry_memset0.
    - rewrite entry_st64. by apply u64_link.
    - intros p' j [k' Hk'] Hj Hne. assert (page_ok p') by (by eapply shape_page).
      rewrite entry_st64_ne by (done || congruence).
      by rewrite !entry_memset_ne by (done || congruence).
    - intros a Hout1 Hout2. rewrite ld8_st64_ne by (unfold pte_addr, PGSIZE in *; lia).
      rewrite !ld8_memset. unfold PGSIZE in *.
      by assert (within a q PGBYTES = false) as -> by (apply within_false; rewrite PGBYTES_Z; lia). }
  assert (Hmem : mem (linked_table p i q s) = m') by (unfold linked_table; rewrite Ha; by st).
  clearbody m'. split; [split|..].
  - rewrite Hmem. apply Hgrow.
  - destruct Hfp' as (Hl & Hok & Hnd). split; [|exact (conj Hok Hnd)]. rewrite Hmem.
    eapply linked_ext; [apply Hlinkpages|]. unfold linked_table. st. exact Hl.
  - intros r Hr. rewrite lookup_insert_ne by (intros ->; exact (Hnin Hr)). exact (Htl r Hr).
  - unfold linked_table. rewrite Ha. st. exact Hs.
  - unfold linked_table. rewrite Ha. st. exact Hf.
  - rewrite Hmem. exact Hgrow.
  - intros r Hr. rewrite elem_of_cons. right. exact Hr.
  - intros r Hr. rewrite elem_of_cons. destruct (decide (q = r)) as [<-|Hne]; [right; left; reflexivity|].
    rewrite lookup_insert_ne in Hr by exact Hne. left. exact Hr.
Qed.

Lemma space_kalloc s lvl l e :
  space s lvl l -> kalloc e s = Ret (hd 0 l) e (alloced s) /\ (l = [] -> alloced s = s).
Proof.
  intros [_ Hfp _ Hs Hf]. rewrite kalloc_run by done. split.
  - destruct l as [|q l]; destruct Hfp as (Hl & _); cbn in Hl; [by rewrite Hl|].
    destruct Hl as [-> _]. done.
  - intros ->. by apply alloced_nil.
Qed.

(** Walking with [alloc] set: the tables that are missing are added; the result
    is 0 only if there was no page left. *)
Lemma walk_alloc level p va lvl l e s :
  space s lvl l -> lvl !! p = Some level ->
  exists r s' lvl' l', walk_levels level p va true e s = Ret r e s' /\
    walked s lvl l s' lvl' l' /\ (length l <= length l' + level)%nat /\
    ((level <= length l)%nat -> r <> 0) /\
    (r <> 0 -> trav (mem s') level p va = Some r).
Proof.
  revert p lvl l s. induction level as [|level IH]; intros p lvl l s Hsp Hp.
  { exists (pte_addr p (PX 0 va)), s, lvl, l. split; [done|]. split; [by apply walked_refl|].
    split; [lia|]. split; [|done]. intros _. pose proof (PX_range 0 va ltac:(lia)).
    assert (page_ok p) as (_ & Hlo & _) by (eapply shape_page; [apply Hsp|done]).
    pose proof end_ok. unfold pte_addr, KERNBASE in *. lia. }
  cbn [walk_levels trav]. pose proof (PX_range (Z.of_nat (S level)) va ltac:(lia)) as Hi.
  set (i := PX _ va) in *. unfold pte_get. rewrite step_gets. fold (entry (mem s) p i).
  destruct (bit (entry (mem s) p i) PTE_V) eqn:Hv.
  - destruct (IH (PTE2PA (entry (mem s) p i)) lvl l s Hsp) as (r & s' & lvl' & l' & Hr & W & Hl & Hen & Ht).
    { eapply shape_child; [apply Hsp|done..]. }
    exists r, s', lvl', l'. split; [done|]. split; [done|]. split; [lia|]. split; [intros; apply Hen; lia|].
    intros Hne. rewrite (grows_inner _ _ _ _ (walked_grows _ _ _ _ _ _ W) p level i) by done.
    rewrite Hv. by apply Ht.
  - cbn [negb]. destruct (space_kalloc s lvl l e Hsp) as [Hk Hnil].
    rewrite (bind_run _ _ _ _ _ _ _ Hk). destruct l as [|q l]; cbn [hd].
    { exists 0, s, lvl, []. rewrite Hnil by done. split; [done|]. split; [by apply walked_refl|].
      cbn. split; [lia|]. split; [lia|done]. }
    assert (Hqok : page_ok q) by (apply (alloced_cons s q l), Hsp).
    pose proof (page_ok_nonzero q Hqok) as Hq0. rewrite (proj2 (Z.eqb_neq q 0) Hq0). unfold mem_upd, pte_set, mem_upd. rewrite !step_modify.
    pose proof (link_walked s lvl q l p level i Hsp Hp Hi Hv) as W1. fold (linked_table p i q s).
    destruct (IH q (<[q := level]> lvl) l (linked_table p i q s)) as (r & s' & lvl' & l' & Hr & W & Hl & Hen & Ht).
    { apply W1. }
    { by rewrite lookup_insert_eq. }
    exists r, s', lvl', l'. split; [exact Hr|]. split; [by eapply walked_trans|]. cbn.
    split; [lia|]. split; [intros; apply Hen; lia|]. intros Hne.
    pose proof (linked_table_entry p i q s Hqok) as He.
    assert (Hlv : <[q := level]> lvl !! p = Some (S level)).
    { eapply lookup_weaken; [exact Hp|]. apply (grows_sub _ _ _ _ (walked_grows _ _ _ _ _ _ W1)). }
    rewrite (grows_inner _ _ _ _ (walked_grows _ _ _ _ _ _ W) p level i Hlv Hi);
      rewrite He; [|apply leaf_valid]. rewrite leaf_valid, PTE2PA_leaf; [by apply Ht|by apply page_frame_ok|by split].
Qed.

(** ** Translation *)

Lemma trav_leaf m lvl level p va a :
  shape m lvl -> lvl !! p = Some level -> trav m level p va = Some a ->
  exists p0, lvl !! p0 = Some 0%nat /\ a = pte_addr p0 (PX 0 va).
Proof.
  intros Hs. revert p. induction level as [|level IH]; intros p Hp; cbn [trav].
  - intros [= <-]. eauto.
  - destruct (bit _ _) eqn:Hv; [|done]. apply IH. eapply shape_child; [done..| |done].
    apply PX_range. lia.
Qed.

(** Different addresses have different entries. *)
Lemma trav_inj m lvl level p p' va va' a :
  shape m lvl -> lvl !! p = Some level -> lvl !! p' = Some level ->
  trav m level p va = Some a -> trav m level p' va' = Some a ->
  p = p' /\ forall k, (k <= level)%nat -> PX (Z.of_nat k) va = PX (Z.of_nat k) va'.
Proof.
  intros Hs. revert p p'. induction level as [|level IH]; intros p p' Hp Hp'.
  - cbn [trav]. intros [= <-] [= Heq].
    pose proof (PX_range 0 va ltac:(lia)). pose proof (PX_range 0 va' ltac:(lia)).
    destruct (decide ((p', PX 0 va') = (p, PX 0 va))) as [[= -> E]|Hne].
    + split; [done|]. intros k Hk. by assert (k = 0%nat) as -> by lia.
    + apply pte_addr_apart in Hne; [lia|by eapply shape_page..|done|done].
  - cbn [trav]. pose proof (PX_range (Z.of_nat (S level)) va ltac:(lia)) as Hi.
    pose proof (PX_range (Z.of_nat (S level)) va' ltac:(lia)) as Hi'.
    destruct (bit (entry m p _) _) eqn:Hv; [|done]. destruct (bit (entry m p' _) _) eqn:Hv'; [|done].
    intros H1 H2. edestruct IH as [Heq Hk]; [| |exact H1|exact H2|];
      [by eapply shape_child..|].
    destruct (shape_inj m lvl Hs _ _ _ _ _ _ Hp Hp' Hi Hi' Hv Hv' Heq) as [-> Hidx].
    split; [done|]. intros k Hle. destruct (decide (k = S level)) as [->|]; [done|]. apply Hk. lia.
Qed.

(** New tables add no translation and change none. *)
Lemma trav_new m lvl m' lvl' level p va a :
  grows m lvl m' lvl' -> lvl' !! p = Some level -> lvl !! p = None ->
  trav m' level p va = Some a ->
  exists p0, a = pte_addr p0 (PX 0 va) /\ lvl' !! p0 = Some 0%nat /\ lvl !! p0 = None.
Proof.
  intros G. revert p. induction level as [|level IH]; intros p Hp Hn; cbn [trav].
  - intros [= <-]. eauto.
  - pose proof (PX_range (Z.of_nat (S level)) va ltac:(lia)) as Hi.
    destruct (bit _ _) eqn:Hv; [|done]. apply IH.
    + eapply shape_child; [apply G|done..].
    + eapply grows_fresh; eauto.
Qed.

Lemma trav_grows m lvl m' lvl' level p va :
  shape m lvl -> grows m lvl m' lvl' -> lvl !! p = Some level ->
  match trav m level p va with
  | Some a => trav m' level p va = Some a
  | None => forall a, trav m' level p va = Some a ->
      exists p0, a = pte_addr p0 (PX 0 va) /\ lvl' !! p0 = Some 0%nat /\ lvl !! p0 = None
  end.
Proof.
  intros Hs G. revert p. induction level as [|level IH]; intros p Hp; cbn [trav]; [done|].
  pose proof (PX_range (Z.of_nat (S level)) va ltac:(lia)) as Hi.
  destruct (bit (entry m p _) _) eqn:Hv.
  - rewrite (grows_inner _ _ _ _ G p level) by done. rewrite Hv. apply IH.
    by eapply shape_child.
  - intros a. destruct (bit (entry m' p _) _) eqn:Hv'; [|done].
    assert (lvl' !! p = Some (S level)) by (eapply lookup_weaken; [done|apply G]).
    eapply trav_new; [done| |].
    + eapply shape_child; [apply G|done..].
    + eapply grows_fresh; eauto.
Qed.

Lemma translate_grows m lvl m' lvl' root va :
  shape m lvl -> grows m lvl m' lvl' -> lvl !! root = Some 2%nat ->
  translate m' root va = translate m root va.
Proof.
  intros Hs G Hr. unfold translate. pose proof (trav_grows m lvl m' lvl' 2 root va Hs G Hr) as Ht.
  pose proof (PX_range 0 va ltac:(lia)).
  destruct (trav m 2 root va) as [a|] eqn:E.
  - rewrite Ht. destruct (trav_leaf m lvl 2 root va a) as (p0 & Hp0 & ->); [done..|].
    fold (entry m' p0 (PX 0 va)) (entry m p0 (PX 0 va)). by rewrite (grows_leaf _ _ _ _ G p0).
  - destruct (trav m' 2 root va) as [a|]; [|done].
    destruct (Ht a eq_refl) as (p0 & -> & Hl & Hn). fold (entry m' p0 (PX 0 va)).
    by rewrite (grows_new _ _ _ _ G p0).
Qed.

(** *** Changing a last-level entry *)

Section Leaf.
Context (m : gmap Z Z) (lvl : gmap Z nat) (Hshape : shape m lvl).
Context (p0 i v : Z) (Hp0 : lvl !! p0 = Some 0%nat) (Hi : 0 <= i < 512).

Lemma entry_set_leaf p k j :
  lvl !! p = Some (S k) -> 0 <= j < 512 -> entry (st64 (pte_addr p0 i) v m) p j = entry m p j.
Proof using Hshape Hp0 Hi.
  intros Hp Hj. apply entry_st64_ne; [by eapply shape_page..|done|done|congruence].
Qed.

Lemma shape_set_leaf : shape (st64 (pte_addr p0 i) v m) lvl.
Proof using Hshape Hp0 Hi.
  split.
  - by apply shape_page with m.
  - intros p k j Hp Hj. rewrite (entry_set_leaf p k j) by done. by apply shape_child.
  - intros p p' k k' j j' Hp Hp' Hj Hj'. rewrite (entry_set_leaf p k j) by done.
    rewrite (entry_set_leaf p' k' j') by done. by eapply shape_inj.
Qed.

Lemma trav_set_leaf level p va :
  lvl !! p = Some level -> trav (st64 (pte_addr p0 i) v m) level p va = trav m level p va.
Proof using Hshape Hp0 Hi.
  revert p. induction level as [|level IH]; intros p Hp; cbn [trav]; [done|].
  pose proof (PX_range (Z.of_nat (S level)) va ltac:(lia)) as Hj.
  rewrite (entry_set_leaf p level) by done. destruct (bit _ _) eqn:Hv; [|done].
  apply IH. by eapply shape_child.
Qed.

End Leaf.

Lemma trav_page m root va va' :
  vpn va' = vpn va -> trav m 2 root va' = trav m 2 root va.
Proof.
  intros E. cbn [trav]. cbn [Z.of_nat Pos.of_succ_nat Pos.succ].
  rewrite <- !(PX_same_page _ va'), <- !(PX_same_page _ va) by lia. by rewrite E.
Qed.

(** Writing the entry of [va] changes the translation of its page only. *)
Lemma translate_set m lvl root va a v va' :
  shape m lvl -> lvl !! root = Some 2%nat -> 0 <= va < MAXVA -> 0 <= va' < MAXVA ->
  trav m 2 root va = Some a ->
  translate (st64 a v m) root va' =
    if vpn va' =? vpn va then (if bit (u64 v) PTE_V then Some (u64 v) else None)
    else translate m root va'.
Proof.
  intros Hs Hr Hva Hva' Ht. destruct (trav_leaf m lvl 2 root va a) as (p0 & Hp0 & ->); [done..|].
  pose proof (PX_range 0 va ltac:(lia)) as Hi. unfold translate.
  rewrite (trav_set_leaf m lvl) by done. destruct (Z.eqb_spec (vpn va') (vpn va)) as [E|E].
  - rewrite (trav_page m root va va' E), Ht. by rewrite ld64_st64.
  - destruct (trav m 2 root va') as [a'|] eqn:Ht'; [|done].
    destruct (trav_leaf m lvl 2 root va' a') as (p1 & Hp1 & ->); [done..|].
    pose proof (PX_range 0 va' ltac:(lia)) as Hi'.
    fold (entry (st64 (pte_addr p0 (PX 0 va)) v m) p1 (PX 0 va')) (entry m p1 (PX 0 va')).
    rewrite entry_st64_ne; [done|by eapply shape_page..|done|done|]. intros [= -> Hpx].
    rewrite Hpx in Ht. destruct (trav_inj m lvl 2 root root va va' _ Hs Hr Hr Ht Ht') as [_ Hk].
    apply E. symmetry. apply PX_vpn; [done|done|apply (Hk 0%nat)|apply (Hk 1%nat)|apply (Hk 2%nat)]; lia.
Qed.

Lemma space_set_leaf s lvl l p0 i v :
  space s lvl l -> lvl !! p0 = Some 0%nat -> 0 <= i < 512 ->
  space (s <| mem ::= st64 (pte_addr p0 i) v |>) lvl l.
Proof.
  intros [Hsh (Hl & Hok & Hnd) Hap Hs Hf] Hp0 Hi. split; [..|exact Hap|exact Hs|exact Hf]; st.
  - by apply shape_set_leaf.
  - split; [|exact (conj Hok Hnd)]. st. eapply linked_ext; [|exact Hl]. intros q Hq.
    replace q with (pte_addr q 0) by (unfold pte_addr; lia).
    apply entry_st64_ne; [by eapply shape_page|by eapply Forall_elem|done|done|].
    intros [= -> _]. rewrite (Hap q Hq) in Hp0. discriminate Hp0.
Qed.

(** ** mappages() *)

(** Only the tables among the pages of [lvl] were written. *)
Definition same_outside (lvl : gmap Z nat) (m m' : gmap Z Z) : Prop :=
  forall a, (forall p, is_Some (lvl !! p) -> ~ p <= a < p + PGSIZE) -> ld8 m' a = ld8 m a.

(** What code that maps or unmaps pages of [root] preserves. *)
Record remapped (s : kernel) (lvl : gmap Z nat) (l : list Z) (s' : kernel) (lvl' : gmap Z nat)
    (l' : list Z) : Prop := {
  remapped_space : space s' lvl' l';
  remapped_sub : lvl ⊆ lvl';
  remapped_free q : q ∈ l' -> q ∈ l;
  remapped_tables p : is_Some (lvl' !! p) -> is_Some (lvl !! p) \/ p ∈ l;
  remapped_outside : same_outside lvl' (mem s) (mem s');
}.

Lemma same_outside_set lvl m p0 i v :
  is_Some (lvl !! p0) -> 0 <= i < 512 -> same_outside lvl m (st64 (pte_addr p0 i) v m).
Proof.
  intros Hp Hi a Ha. specialize (Ha p0 Hp). apply ld8_st64_ne. unfold pte_addr, PGSIZE in *. lia.
Qed.

Lemma remapped_trans s lvl l s1 lvl1 l1 s2 lvl2 l2 :
  remapped s lvl l s1 lvl1 l1 -> remapped s1 lvl1 l1 s2 lvl2 l2 -> remapped s lvl l s2 lvl2 l2.
Proof.
  intros [? Hs1 Hf1 Ht1 Ho1] [? Hs2 Hf2 Ht2 Ho2]. split; [done|by etransitivity|auto|..].
  { intros p [Hp|Hp]%Ht2; [auto|right; auto]. }
  intros a Ha. rewrite Ho2 by done. apply Ho1. intros p [k Hk]. apply Ha. exists k.
  by eapply lookup_weaken.
Qed.

Lemma walked_remapped s lvl l s' lvl' l' :
  walked s lvl l s' lvl' l' -> remapped s lvl l s' lvl' l'.
Proof. intros [Hsp G Hf Ht]. split; [done|apply G|done|done|]. intros a. apply G. Qed.

(** One round of mappages(): the page of [va] becomes mapped, or there was no
    page for a table. *)
Lemma map_step root va pa perm lvl l e s :
  space s lvl l -> lvl !! root = Some 2%nat -> 0 <= va < MAXVA -> frame_ok pa -> perm_ok perm ->
  translate (mem s) root va = None ->
  exists r s1 lvl' l', walk root va true e s = Ret r e s1 /\
    remapped s lvl l s1 lvl' l' /\ (length l <= length l' + 2)%nat /\
    ((2 <= length l)%nat -> r <> 0) /\
    (forall a, translate (mem s1) root a = translate (mem s) root a) /\
    (r <> 0 -> bit (ld64 (mem s1) r) PTE_V = false /\
       let s2 := s1 <| mem ::= st64 r (leaf pa perm) |> in
       remapped s lvl l s2 lvl' l' /\
       forall a, 0 <= a < MAXVA -> translate (mem s2) root a =
         if vpn a =? vpn va then Some (leaf pa perm) else translate (mem s) root a).
Proof.
  intros Hsp Hr Hva Hpa Hperm Hnone. unfold walk. rewrite (proj2 (Z.leb_gt _ _)) by lia.
  destruct (walk_alloc 2 root va lvl l e s Hsp Hr) as (r & s1 & lvl' & l' & Hw & W & Hlen & Hen & Ht).
  assert (Htr : forall a, translate (mem s1) root a = translate (mem s) root a).
  { intros a. apply translate_grows with lvl lvl'; [apply Hsp|apply W|done]. }
  exists r, s1, lvl', l'. split; [done|]. split; [by apply walked_remapped|].
  split; [done|]. split; [done|]. split; [done|]. intros Hne. specialize (Ht Hne).
  assert (Hr' : lvl' !! root = Some 2%nat) by (eapply lookup_weaken; [done|apply W]).
  assert (Hsp' : space s1 lvl' l') by apply W.
  destruct (trav_leaf (mem s1) lvl' 2 root va r) as (p0 & Hp0 & ->); [apply Hsp'|done|done|].
  pose proof (PX_range 0 va ltac:(lia)) as Hi. split.
  { rewrite <- Htr in Hnone. unfold translate in Hnone. rewrite Ht in Hnone. by destruct (bit _ _). }
  cbv zeta. split.
  - eapply remapped_trans; [by apply walked_remapped|]. split; [by apply space_set_leaf|done|done|by left|].
    st. apply same_outside_set; [by eexists|done].
  - intros a Ha. st. rewrite (translate_set (mem s1) lvl' root va) by (done || apply Hsp').
    rewrite u64_small by (by apply leaf_range). by rewrite leaf_valid, Htr.
Qed.

(** The pages [v] to [v + n] of the table map the frames from [pa] on; the
    other pages are as in [m]. *)
Definition maps (m m' : gmap Z Z) (root v : Z) (n : nat) (pa perm : Z) : Prop :=
  forall a, 0 <= a < MAXVA -> translate m' root a =
    if (v <=? vpn a) && (vpn a <=? v + Z.of_nat n)
    then Some (leaf (pa + 4096 * (vpn a - v)) perm) else translate m root a.

(** The body of the loop of mappages(). *)
Definition mappages_body (root last perm : Z) : Z * Z -> M (Z * Z + Z) := fun '(a, pa) =>
  pte <- walk root a true;
  if pte =? 0 then ret (inr (-1)) else
  v <- pte_get pte;
  if bit v PTE_V then panic "mappages: remap" else
  pte_set pte (Z.lor (Z.lor (PA2PTE pa) perm) PTE_V) ;;
  if a =? last then ret (inr 0)
  else ret (inl (a +64 PGSIZE, pa +64 PGSIZE)).

Lemma vpn_page v : vpn (4096 * v) = v.
Proof. unfold vpn. dlia. Qed.

(** One round; [r] is what walk() returned. *)
Lemma mappages_round root v last pa perm lvl l e s :
  space s lvl l -> lvl !! root = Some 2%nat -> 0 <= v < 2 ^ 26 -> frame_ok pa -> perm_ok perm ->
  translate (mem s) root (4096 * v) = None ->
  exists r s' lvl' l',
    mappages_body root last perm (4096 * v, pa) e s =
      Ret (if r =? 0 then inr (-1) else if 4096 * v =? last then inr 0
           else inl (4096 * v +64 PGSIZE, pa +64 PGSIZE)) e s' /\
    remapped s lvl l s' lvl' l' /\ (length l <= length l' + 2)%nat /\
    ((2 <= length l)%nat -> r <> 0) /\
    forall a, 0 <= a < MAXVA -> translate (mem s') root a =
      if negb (r =? 0) && (vpn a =? v) then Some (leaf pa perm) else translate (mem s) root a.
Proof.
  intros Hsp Hr Hv Hpa Hperm Hnone.
  destruct (map_step root (4096 * v) pa perm lvl l e s) as
    (r & s1 & lvl1 & l1 & Hw & Rm & Hlen & Hen & Htr & Hset);
    [done|done|change MAXVA with (2 ^ 38); lia|done..|].
  unfold mappages_body. rewrite (bind_run _ _ _ _ _ _ _ Hw).
  destruct (Z.eqb_spec r 0) as [->|Hne].
  { exists 0, s1, lvl1, l1. split; [done|]. split; [done|]. split; [done|]. split; [done|].
    intros; apply Htr. }
  destruct (Hset Hne) as (Hinv & Rm2 & Hmap). rewrite vpn_page in Hmap.
  unfold pte_get, pte_set, mem_upd. rewrite step_gets, Hinv, step_modify. fold (leaf pa perm).
  exists r, (s1 <| mem ::= st64 r (leaf pa perm) |>), lvl1, l1.
  rewrite (proj2 (Z.eqb_neq r 0)) by done. split; [by destruct (_ =? last)|].
  split; [exact Rm2|]. split; [done|]. split; [done|]. exact Hmap.
Qed.

(** Compare translations by the ranges the page number is in. *)
Ltac page_cases := zcases; cbn [andb negb]; try lia; try done; do 2 f_equal; lia.

Lemma mappages_unroll n root v pa perm lvl l e s :
  space s lvl l -> lvl !! root = Some 2%nat -> 0 <= v -> v + Z.of_nat n < 2 ^ 26 ->
  frame_ok pa -> pa + 4096 * Z.of_nat n < 2 ^ 56 -> perm_ok perm ->
  (forall a, 0 <= a < MAXVA -> v <= vpn a <= v + Z.of_nat n -> translate (mem s) root a = None) ->
  exists r s' lvl' l',
    unroll (S n) (mappages_body root (4096 * (v + Z.of_nat n)) perm) (4096 * v, pa) e s =
      Ret (inr r) e s' /\
    remapped s lvl l s' lvl' l' /\ (r = 0 \/ r = -1) /\
    ((2 * S n <= length l)%nat -> r = 0) /\
    (r = 0 -> maps (mem s) (mem s') root v n pa perm) /\
    (forall a, 0 <= a < MAXVA -> ~ v <= vpn a <= v + Z.of_nat n ->
       translate (mem s') root a = translate (mem s) root a).
Proof.
  revert v pa s lvl l. induction n as [|n IH]; intros v pa s lvl l Hsp Hr Hv Hvn Hpa Hpan Hperm Hnone;
    cbn [unroll]; set (last := 4096 * (v + _));
    (destruct (mappages_round root v last pa perm lvl l e s) as
      (r & s1 & lvl1 & l1 & Hb & Rm & Hlen & Hen & Htr); [done|done|lia|done|done| |]);
    try (apply Hnone; [change MAXVA with (2 ^ 38); lia|rewrite vpn_page; lia]);
    rewrite (bind_run _ _ _ _ _ _ _ Hb);
    (destruct (Z.eqb_spec r 0) as [->|Hne];
      [exists (-1), s1, lvl1, l1; split; [done|]; split; [done|]; split; [by right|];
       split; [intros Hl; exfalso; apply Hen; [lia|done]|]; split; [done|]; auto|]).
  - rewrite (proj2 (Z.eqb_eq _ _)) by (unfold last; lia).
    exists 0, s1, lvl1, l1. split; [done|]. split; [done|]. split; [by left|]. split; [done|].
    unfold maps. cbn [Z.of_nat]. rewrite !Z.add_0_r.
    split; [intros _|]; intros a Ha; rewrite Htr by done; cbn [negb andb].
    + page_cases.
    + intros Hout. page_cases.
  - rewrite (proj2 (Z.eqb_neq _ _)) by (unfold last; lia). destruct Hpa as [Hpam Hpar].
    unfold PGSIZE. rewrite !u64_small by lia. replace (4096 * v + 4096) with (4096 * (v + 1)) by lia.
    replace last with (4096 * (v + 1 + Z.of_nat n)) by (unfold last; lia).
    destruct (IH (v + 1) (pa + 4096) s1 lvl1 l1) as (r' & s' & lvl' & l' & Hrun & Rm' & Hcase & Hen' & Hmaps & Hout);
      [apply Rm|eapply lookup_weaken; [done|apply Rm]|lia|lia
      |split; [by rewrite <- Zplus_mod_idemp_l, Hpam|lia]|lia|done| |].
    { intros a Ha Hin. rewrite Htr by done. cbn [negb andb]. rewrite (proj2 (Z.eqb_neq _ _)) by lia.
      apply Hnone; [done|lia]. }
    exists r', s', lvl', l'. split; [done|]. split; [by eapply remapped_trans|]. split; [done|].
    split; [intros; apply Hen'; lia|]. cbn [negb andb] in Htr. split.
    + intros Hz a Ha. rewrite (Hmaps Hz), Htr by done. page_cases.
    + intros a Ha Hn. rewrite Hout by (done || lia). rewrite Htr by done. page_cases.
Qed.

(** ** walkaddr() *)

(** The physical address of the user byte at [va], if the page is mapped for
    user code. *)
Definition uaddr (m : gmap Z Z) (root va : Z) : option Z :=
  match translate m root va with
  | Some v => if bit v PTE_U then Some (PTE2PA v + va mod 4096) else None
  | None => None
  end.

Lemma trav_nonzero m lvl root va a :
  shape m lvl -> lvl !! root = Some 2%nat -> trav m 2 root va = Some a -> a <> 0.
Proof.
  intros Hs Hr Ht. destruct (trav_leaf m lvl 2 root va a) as (p0 & Hp0 & ->); [done..|].
  pose proof (PX_range 0 va ltac:(lia)). apply (shape_page m lvl Hs) in Hp0 as (_ & Hlo & _).
  pose proof end_ok. unfold pte_addr, KERNBASE in *. lia.
Qed.

Lemma walkaddr_run root va lvl e s :
  shape (mem s) lvl -> lvl !! root = Some 2%nat -> 0 <= va < MAXVA ->
  walkaddr root va e s =
    Ret (match translate (mem s) root va with
         | Some v => if bit v PTE_U then PTE2PA v else 0
         | None => 0
         end) e s.
Proof.
  intros Hs Hr Hva. unfold walkaddr, walk. rewrite (proj2 (Z.leb_gt _ _)) by lia.
  rewrite (bind_run _ _ _ _ _ _ _ (walk_levels_lookup 2 root va e s)). unfold translate.
  destruct (trav (mem s) 2 root va) as [a|] eqn:E; cbn [default]; [|done].
  rewrite (proj2 (Z.eqb_neq _ _)) by (by eapply trav_nonzero). unfold pte_get. rewrite step_gets.
  destruct (bit _ PTE_V); cbn [negb]; [|done]. by destruct (bit _ PTE_U).
Qed.

(** *** Memory that agrees on the tables *)

Definition same_tables (lvl : gmap Z nat) (m m' : gmap Z Z) : Prop :=
  forall p a, is_Some (lvl !! p) -> p <= a < p + PGSIZE -> ld8 m' a = ld8 m a.

Lemma entry_same_tables lvl m m' p k i :
  same_tables lvl m m' -> lvl !! p = Some k -> 0 <= i < 512 -> entry m' p i = entry m p i.
Proof.
  intros Hsame Hp Hi. apply ld_le_ext. intros a Ha. apply (Hsame p); [by eexists|].
  unfold pte_addr, PGSIZE in *. lia.
Qed.

Lemma shape_same_tables lvl m m' : same_tables lvl m m' -> shape m lvl -> shape m' lvl.
Proof.
  intros Hsame Hs. split.
  - by apply shape_page with m.
  - intros p k j Hp Hj. rewrite (entry_same_tables lvl m m' p (S k) j) by done.
    by apply shape_child.
  - intros p p' k k' j j' Hp Hp' Hj Hj'.
    rewrite (entry_same_tables lvl m m' p (S k) j), (entry_same_tables lvl m m' p' (S k') j') by done.
    by eapply shape_inj.
Qed.

Lemma trav_same_tables lvl m m' level p va :
  same_tables lvl m m' -> shape m lvl -> lvl !! p = Some level ->
  trav m' level p va = trav m level p va.
Proof.
  intros Hsame Hs. revert p. induction level as [|level IH]; intros p Hp; cbn [trav]; [done|].
  pose proof (PX_range (Z.of_nat (S level)) va ltac:(lia)) as Hj.
  rewrite (entry_same_tables lvl m m' p (S level)) by done. destruct (bit _ _) eqn:Hv; [|done].
  apply IH. by eapply shape_child.
Qed.

Lemma translate_same_tables lvl m m' root va :
  same_tables lvl m m' -> shape m lvl -> lvl !! root = Some 2%nat ->
  translate m' root va = translate m root va.
Proof.
  intros Hsame Hs Hr. unfold translate. rewrite (trav_same_tables lvl m m') by done.
  destruct (trav m 2 root va) as [a|] eqn:E; [|done].
  destruct (trav_leaf m lvl 2 root va a) as (p0 & Hp0 & ->); [done..|].
  fold (entry m' p0 (PX 0 va)) (entry m p0 (PX 0 va)).
  rewrite (entry_same_tables lvl m m' p0 0) by (done || (apply PX_range; lia)). done.
Qed.

(** ** copyout() and copyin() *)

(** Byte-wise stores and loads at the user addresses from [va] on, [f] giving
    the physical address of each. *)
Fixpoint ustore (f : Z -> Z) (va : Z) (l : list Z) (m : gmap Z Z) : gmap Z Z :=
  match l with
  | [] => m
  | b :: l => ustore f (va + 1) l (st8 (f va) b m)
  end.

Fixpoint uload (f : Z -> Z) (m : gmap Z Z) (va : Z) (n : nat) : list Z :=
  match n with
  | O => []
  | S n => ld8 m (f va) :: uload f m (va + 1) n
  end.

Lemma put_bytes_ustore f va pa l m :
  (forall i, 0 <= i < Z.of_nat (length l) -> f (va + i) = pa + i) ->
  put_bytes pa l m = ustore f va l m.
Proof.
  revert va pa m. induction l as [|b l IH]; intros va pa m Hf; [done|]. cbn [put_bytes ustore].
  cbn [length] in Hf. pose proof (Hf 0 ltac:(lia)) as H0'. rewrite !Z.add_0_r in H0'. rewrite H0'.
  apply IH. intros i Hi. rewrite <- !Z.add_assoc. apply Hf. lia.
Qed.

Lemma bytes_at_uload f va pa m n :
  (forall i, 0 <= i < Z.of_nat n -> f (va + i) = pa + i) -> bytes_at m pa n = uload f m va n.
Proof.
  revert va pa. induction n as [|n IH]; intros va pa Hf; [done|]. cbn [bytes_at uload].
  pose proof (Hf 0 ltac:(lia)) as H0'. rewrite !Z.add_0_r in H0'. rewrite H0'.
  f_equal. apply IH. intros i Hi. rewrite <- !Z.add_assoc. apply Hf. lia.
Qed.

Lemma ustore_app f va l1 l2 m :
  ustore f va (l1 ++ l2) m = ustore f (va + Z.of_nat (length l1)) l2 (ustore f va l1 m).
Proof.
  revert va m. induction l1 as [|b l1 IH]; intros va m; cbn [app ustore length].
  - by rewrite Z.add_0_r.
  - rewrite IH. f_equal. lia.
Qed.

Lemma uload_app f va n1 n2 m :
  uload f m va (n1 + n2) = uload f m va n1 ++ uload f m (va + Z.of_nat n1) n2.
Proof.
  revert va. induction n1 as [|n1 IH]; intros va; cbn [Nat.add uload app].
  - by rewrite Z.add_0_r.
  - rewrite IH. do 2 f_equal. f_equal. lia.
Qed.

Lemma ld8_ustore_out f va l m a :
  (forall i, 0 <= i < Z.of_nat (length l) -> f (va + i) <> a) -> ld8 (ustore f va l m) a = ld8 m a.
Proof.
  revert va m. induction l as [|b l IH]; intros va m Hf; [done|]. cbn [ustore]. cbn [length] in Hf.
  rewrite IH.
  - apply ld8_st8_ne. pose proof (Hf 0 ltac:(lia)) as H0'. by rewrite Z.add_0_r in H0'.
  - intros i Hi. rewrite <- Z.add_assoc. apply Hf. lia.
Qed.

Lemma uload_ustore f va l m :
  (forall i j, 0 <= i < j -> j < Z.of_nat (length l) -> f (va + i) <> f (va + j)) ->
  Forall (fun b => 0 <= b < 256) l -> uload f (ustore f va l m) va (length l) = l.
Proof.
  intros Hf Hl. revert va m Hf. induction Hl as [|b l Hb Hl IH]; intros va m Hf; [done|].
  cbn [length ustore uload] in *. f_equal.
  - rewrite ld8_ustore_out, ld8_st8, Z.eqb_refl; [by apply u8_small|].
    intros i Hi. pose proof (Hf 0 (1 + i) ltac:(lia) ltac:(lia)) as Hne.
    rewrite Z.add_0_r, Z.add_assoc in Hne. done.
  - apply IH. intros i j Hi Hj. rewrite <- !Z.add_assoc. apply Hf; lia.
Qed.

(** The [n] bytes from [va] on are mapped for user code, to the addresses [f]
    outside the tables. *)
Definition user_range (m : gmap Z Z) (lvl : gmap Z nat) (root va : Z) (n : Z) (f : Z -> Z) : Prop :=
  forall i, 0 <= i < n -> uaddr m root (va + i) = Some (f (va + i)) /\ 4096 <= f (va + i) /\
    forall p, is_Some (lvl !! p) -> ~ p <= f (va + i) < p + PGSIZE.

Lemma chunk_range va len :
  0 < len -> 1 <= chunk va len <= len /\ va mod 4096 + chunk va len <= 4096 /\
    (chunk va len < len -> va mod 4096 + chunk va len = 4096).
Proof.
  intros Hl. unfold chunk. rewrite PGROUNDDOWN_eq. unfold PGSIZE.
  pose proof (Z.mod_pos_bound va 4096 ltac:(lia)). pose proof (Z.div_mod va 4096 ltac:(lia)).
  replace (va - 4096 * (va / 4096)) with (va mod 4096) by lia. zcases; lia.
Qed.

Lemma user_range_step m lvl root va n f k :
  0 <= k <= n -> user_range m lvl root va n f -> user_range m lvl root (va + k) (n - k) f.
Proof. intros Hk Hu i Hi. rewrite <- Z.add_assoc. apply Hu. lia. Qed.

Lemma user_range_same m m' lvl root va n f :
  same_tables lvl m m' -> shape m lvl -> lvl !! root = Some 2%nat ->
  user_range m lvl root va n f -> user_range m' lvl root va n f.
Proof.
  intros Hsame Hs Hr Hu i Hi. unfold uaddr. rewrite (translate_same_tables lvl m m') by done.
  by apply Hu.
Qed.

Lemma same_tables_ustore m lvl root va l f :
  user_range m lvl root va (Z.of_nat (length l)) f -> same_tables lvl m (ustore f va l m).
Proof.
  intros Hu p a Hp Ha. apply ld8_ustore_out. intros i Hi Heq.
  destruct (Hu i Hi) as (_ & _ & Hout). apply (Hout p Hp). by rewrite Heq.
Qed.

(** The part of the range in the first page is contiguous. *)
Lemma user_page m lvl root va len f e s :
  mem s = m -> shape m lvl -> lvl !! root = Some 2%nat -> 0 < len -> 0 <= va -> va + len <= MAXVA ->
  user_range m lvl root va len f ->
  exists pa0, walkaddr root (PGROUNDDOWN va) e s = Ret pa0 e s /\ pa0 <> 0 /\
    forall i, 0 <= i < chunk va len -> f (va + i) = pa0 + (va - PGROUNDDOWN va) + i.
Proof.
  intros <- Hs Hr Hlen Hva Hmax Hu. destruct (chunk_range va len Hlen) as (Hc1 & Hc2 & _).
  pose proof (Z.mod_pos_bound va 4096 ltac:(lia)) as Hmod. pose proof (Z.div_mod va 4096 ltac:(lia)) as Hdm.
  assert (Hsame : forall i, 0 <= i < chunk va len -> vpn (va + i) = vpn (PGROUNDDOWN va) /\
    (va + i) mod 4096 = va mod 4096 + i).
  { intros i Hi. rewrite PGROUNDDOWN_eq. unfold PGSIZE. rewrite vpn_page. unfold vpn. dlia. }
  assert (Hf : forall i, 0 <= i < chunk va len -> exists v,
    translate (mem s) root (PGROUNDDOWN va) = Some v /\ bit v PTE_U = true /\
    f (va + i) = PTE2PA v + (va mod 4096 + i)).
  { intros i Hi. destruct (Hu i ltac:(lia)) as (Hua & _). destruct (Hsame i Hi) as [Hv Hm].
    unfold uaddr in Hua. unfold translate in *. rewrite (trav_page _ _ _ _ Hv), Hm in Hua.
    destruct (trav _ _ _ _) as [a|]; [|done]. destruct (bit _ PTE_V); [|done].
    exists (ld64 (mem s) a). destruct (bit _ PTE_U); [|done]. by injection Hua as <-. }
  destruct (Hf 0 ltac:(lia)) as (v & Ht & HU & Hf0). exists (PTE2PA v).
  split; [|split].
  - rewrite (walkaddr_run root _ lvl) by (done || (rewrite PGROUNDDOWN_eq; unfold PGSIZE; lia)).
    by rewrite Ht, HU.
  - destruct (Hu 0 ltac:(lia)) as (_ & Hlo & _). lia.
  - intros i Hi. destruct (Hf i Hi) as (v' & Ht' & _ & ->). rewrite PGROUNDDOWN_eq. unfold PGSIZE.
    assert (v' = v) as -> by congruence. lia.
Qed.

Definition copyout_body (root : Z) : Z * list Z -> M (Z * list Z + Z) := fun '(dstva, src) =>
  let len := Z.of_nat (length src) in
  if 0 <? len then
    let va0 := PGROUNDDOWN dstva in
    pa0 <- walkaddr root va0;
    if pa0 =? 0 then ret (inr (-1)) else
    let n := Z.to_nat (chunk dstva len) in
    mem_upd (put_bytes (pa0 + (dstva - va0)) (take n src)) ;;
    ret (inl (va0 +64 PGSIZE, drop n src))
  else ret (inr 0).

Lemma next_page va len :
  0 <= va -> 0 < len -> va + len <= MAXVA -> chunk va len < len ->
  PGROUNDDOWN va +64 PGSIZE = va + chunk va len.
Proof.
  intros Hva Hl Hmax Hc. change MAXVA with (2 ^ 38) in Hmax.
  destruct (chunk_range va len Hl) as (_ & _ & Hend). specialize (Hend Hc).
  pose proof (Z.div_mod va 4096 ltac:(lia)). pose proof (Z.mod_pos_bound va 4096 ltac:(lia)).
  rewrite PGROUNDDOWN_eq. unfold PGSIZE. rewrite u64_small; lia.
Qed.

Lemma copyout_unroll k root va src lvl f e s :
  (length src <= k)%nat -> shape (mem s) lvl -> lvl !! root = Some 2%nat ->
  0 <= va -> va + Z.of_nat (length src) <= MAXVA ->
  user_range (mem s) lvl root va (Z.of_nat (length src)) f ->
  unroll (S (S k)) (copyout_body root) (va, src) e s =
    Ret (inr 0) e (s <| mem ::= ustore f va src |>).
Proof.
  revert va src s. induction k as [|k IH]; intros va src s Hk Hs Hr Hva Hmax Hu;
    rewrite unroll_S; unfold copyout_body at 1; cbv zeta.
  { assert (src = []) as -> by (by destruct src; cbn in Hk; [|lia]). cbn. apply ret_state. by state_eq. }
  destruct (Z.ltb_spec 0 (Z.of_nat (length src))) as [Hpos|Hz].
  2:{ assert (src = []) as -> by (by destruct src; cbn in Hz; [|lia]). apply ret_state. by state_eq. }
  set (len := Z.of_nat (length src)) in *.
  destruct (user_page (mem s) lvl root va len f e s) as (pa0 & Hw & Hne & Hf); [done..|].
  destruct (chunk_range va len Hpos) as (Hc & _ & _). set (n := Z.to_nat (chunk va len)).
  assert (Hn : length (take n src) = n) by (apply length_take_le; lia).
  rewrite bind_assoc, (bind_run _ _ _ _ _ _ _ Hw), (proj2 (Z.eqb_neq _ _) Hne).
  unfold mem_upd. rewrite bind_assoc, step_modify, step_ret. cbv iota beta.
  assert (Hput : forall m, put_bytes (pa0 + (va - PGROUNDDOWN va)) (take n src) m = ustore f va (take n src) m).
  { intros m. apply put_bytes_ustore. rewrite Hn. intros i Hi. apply Hf. lia. }
  set (s1 := s <| mem ::= _ |>). assert (Hm1 : mem s1 = ustore f va (take n src) (mem s)) by (apply Hput).
  assert (Hsame : same_tables lvl (mem s) (mem s1)).
  { rewrite Hm1. apply same_tables_ustore with root. rewrite Hn. intros i Hi. apply Hu. lia. }
  destruct (Z.eq_dec (chunk va len) len) as [Heq|Hlt].
  - assert (drop n src = []) as -> by (apply drop_ge; lia).
    rewrite unroll_S. unfold copyout_body at 1. cbv zeta. cbn. apply ret_state. unfold s1. state_eq.
    rewrite Hput, take_ge by lia. done.
  - rewrite (next_page va len) by (done || lia). fold n.
    assert (Hlen : length (drop n src) = (length src - n)%nat) by apply length_drop.
    rewrite IH; [|lia|by eapply shape_same_tables|done|lia|lia|].
    + apply ret_state. unfold s1. state_eq. rewrite Hput. rewrite <- (take_drop n src) at 3.
      rewrite ustore_app, Hn. f_equal. lia.
    + apply user_range_same with (mem s); [done..|]. rewrite Hlen.
      replace (Z.of_nat (length src - n)) with (len - chunk va len) by lia.
      apply user_range_step; [lia|done].
Qed.

Lemma copyout_run root va src lvl f e s :
  shape (mem s) lvl -> lvl !! root = Some 2%nat -> 0 <= va ->
  va + Z.of_nat (length src) <= MAXVA ->
  user_range (mem s) lvl root va (Z.of_nat (length src)) f ->
  copyout root va src e s = Ret 0 e (s <| mem ::= ustore f va src |>).
Proof.
  intros. eapply loop_run; [eapply (copyout_unroll (length src)); eauto|].
  change MAXVA with (2 ^ 38) in *. lia.
Qed.

Definition copyin_body (root : Z) : Z * Z * list Z -> M (Z * Z * list Z + Z * list Z) :=
  fun '(srcva, len, dst) =>
  if 0 <? len then
    let va0 := PGROUNDDOWN srcva in
    pa0 <- walkaddr root va0;
    if pa0 =? 0 then ret (inr (-1, dst)) else
    let n := chunk srcva len in
    bytes <- gets (fun s => bytes_at (mem s) (pa0 + (srcva - va0)) (Z.to_nat n));
    ret (inl (va0 +64 PGSIZE, len - n, dst ++ bytes))
  else ret (inr (0, dst)).

Lemma copyin_unroll k root va len dst lvl f e s :
  0 <= len <= Z.of_nat k -> shape (mem s) lvl -> lvl !! root = Some 2%nat ->
  0 <= va -> va + len <= MAXVA -> user_range (mem s) lvl root va len f ->
  unroll (S (S k)) (copyin_body root) (va, len, dst) e s =
    Ret (inr (0, dst ++ uload f (mem s) va (Z.to_nat len))) e s.
Proof.
  revert va len dst. induction k as [|k IH]; intros va len dst Hk Hs Hr Hva Hmax Hu;
    rewrite unroll_S; unfold copyin_body at 1; cbv zeta.
  { assert (len = 0) as -> by lia. cbn. by rewrite app_nil_r. }
  destruct (Z.ltb_spec 0 len) as [Hpos|Hz].
  2:{ assert (len = 0) as -> by lia. cbn. by rewrite app_nil_r. }
  destruct (user_page (mem s) lvl root va len f e s) as (pa0 & Hw & Hne & Hf); [done..|].
  destruct (chunk_range va len Hpos) as (Hc & _ & _).
  rewrite bind_assoc, (bind_run _ _ _ _ _ _ _ Hw), (proj2 (Z.eqb_neq _ _) Hne).
  rewrite bind_assoc, step_gets, step_ret. cbv iota beta.
  rewrite (bytes_at_uload f va) by (intros i Hi; apply Hf; lia).
  destruct (Z.eq_dec (chunk va len) len) as [->|Hlt].
  - rewrite Z.sub_diag, unroll_S. reflexivity.
  - rewrite (next_page va len) by (done || lia).
    rewrite IH; [|lia|done|done|lia|lia|apply user_range_step; [lia|done]].
    rewrite <- app_assoc. do 3 f_equal.
    replace (Z.to_nat len) with (Z.to_nat (chunk va len) + Z.to_nat (len - chunk va len))%nat by lia.
    rewrite uload_app. do 3 f_equal. lia.
Qed.

Lemma copyin_run root va len lvl f e s :
  shape (mem s) lvl -> lvl !! root = Some 2%nat -> 0 <= va -> 0 <= len ->
  va + len <= MAXVA -> user_range (mem s) lvl root va len f ->
  copyin root va len e s = Ret (0, uload f (mem s) va (Z.to_nat len)) e s.
Proof.
  intros. apply (loop_run (S (S (Z.to_nat len))) (copyin_body root)).
  - rewrite (copyin_unroll _ _ _ _ _ lvl f) by (done || lia). done.
  - change MAXVA with (2 ^ 38) in *. lia.
Qed.

Lemma mappages_run root va size pa perm lvl l e s :
  space s lvl l -> lvl !! root = Some 2%nat -> 0 <= va -> 0 < size -> va + size <= MAXVA ->
  frame_ok pa -> pa + size + 4096 < 2 ^ 56 -> perm_ok perm ->
  (forall a, vpn va <= vpn a <= vpn (va + size - 1) -> translate (mem s) root a = None) ->
  let n := Z.to_nat (vpn (va + size - 1) - vpn va) in
  exists r s' lvl' l', mappages root va size pa perm e s = Ret r e s' /\
    remapped s lvl l s' lvl' l' /\ (r = 0 \/ r = -1) /\
    ((2 * S n <= length l)%nat -> r = 0) /\
    (r = 0 -> maps (mem s) (mem s') root (vpn va) n pa perm) /\
    (forall a, 0 <= a < MAXVA -> ~ vpn va <= vpn a <= vpn (va + size - 1) ->
       translate (mem s') root a = translate (mem s) root a).
Proof.
  intros Hsp Hr Hva Hsz Hmax Hpa Hpa2 Hperm Hnone n. change MAXVA with (2 ^ 38) in *.
  assert (Hn : Z.of_nat n = vpn (va + size - 1) - vpn va) by (unfold n, vpn; dlia).
  destruct (mappages_unroll n root (vpn va) pa perm lvl l e s) as
    (r & s' & lvl' & l' & Hrun & Rm & Hcase & Hen & Hmap & Hout);
    [done|done|unfold vpn; dlia|rewrite Hn; unfold vpn; dlia|done|rewrite Hn; unfold vpn; dlia|done
    |intros a _ Ha; apply Hnone; lia|].
  exists r, s', lvl', l'. split; [|split; [done|]; split; [done|]; split; [done|]; split; [done|]].
  - unfold mappages. rewrite (proj2 (Z.eqb_neq size 0)) by lia. rewrite u64_small by lia.
    rewrite !PGROUNDDOWN_eq. unfold PGSIZE. fold (vpn va) (vpn (va + size - 1)).
    replace (vpn (va + size - 1)) with (vpn va + Z.of_nat n) by lia.
    eapply loop_run; [exact Hrun|]. unfold vpn in Hn. assert (Z.of_nat n < 2 ^ 38) by dlia. lia.
  - intros a Ha Hr'. apply Hout; [done|lia].
Qed.

(** ** Theorems *)

(** an entry round-trips: the frame address and the permissions written by
    PA2PTE and the flags are the ones read back. *)
Lemma pte_round_trip pa perm :
  frame_ok pa -> perm_ok perm ->
  PTE2PA (leaf pa perm) = pa /\ PTE_FLAGS (leaf pa perm) = Z.lor perm PTE_V /\
  0 <= leaf pa perm < 2 ^ 64.
Proof.
  intros Hpa Hp. split; [by apply PTE2PA_leaf|]. split; [|by apply leaf_range].
  unfold PTE_FLAGS, leaf. rewrite (PA2PTE_eq pa Hpa). change 0x3FF with (Z.ones 10).
  rewrite !Z.land_lor_distr_l, !Z.land_ones by lia. change (2 ^ 10) with 1024.
  rewrite (Z.mul_comm 1024), Z.mod_mul by lia. unfold perm_ok in Hp.
  rewrite (Z.mod_small perm) by lia. done.
Qed.

(** C26: mappages() in a well-formed page table returns 0 or -1, never panics,
    keeps the table well-formed, takes new tables from the free list and
    changes only table pages.  With two free
    pages per page mapped it returns 0; then exactly the pages of the range are
    mapped, each to its frame with the given permissions.  In either case the
    translation of every other address is as before. *)
Theorem mappages_maps root va size pa perm lvl l e s :
  space s lvl l -> lvl !! root = Some 2%nat -> 0 <= va -> 0 < size -> va + size <= MAXVA ->
  frame_ok pa -> pa + size + 4096 < 2 ^ 56 -> perm_ok perm ->
  (forall a, vpn va <= vpn a <= vpn (va + size - 1) -> translate (mem s) root a = None) ->
  exists r s' lvl' l', mappages root va size pa perm e s = Ret r e s' /\
    space s' lvl' l' /\ lvl ⊆ lvl' /\
    (forall p, is_Some (lvl' !! p) -> is_Some (lvl !! p) \/ p ∈ l) /\
    same_outside lvl' (mem s) (mem s') /\ (r = 0 \/ r = -1) /\
    (2 * (vpn (va + size - 1) - vpn va + 1) <= Z.of_nat (length l) -> r = 0) /\
    forall a, 0 <= a < MAXVA -> (r = 0 \/ ~ vpn va <= vpn a <= vpn (va + size - 1)) ->
      translate (mem s') root a =
        if (vpn va <=? vpn a) && (vpn a <=? vpn (va + size - 1))
        then Some (leaf (pa + 4096 * (vpn a - vpn va)) perm)
        else translate (mem s) root a.
Proof.
  intros. edestruct (mappages_run root va size pa perm lvl l e s) as
    (r & s' & lvl' & l' & Hrun & Rm & Hcase & Hen & Hmap & Hout); [done..|].
  exists r, s', lvl', l'. split; [done|]. split; [apply Rm|]. split; [apply Rm|].
  split; [apply Rm|]. split; [apply Rm|].
  split; [done|]. assert (vpn va <= vpn (va + size - 1)) by (unfold vpn; dlia).
  split; [intros; apply Hen; lia|]. intros a Ha [->|Hn].
  - rewrite (Hmap eq_refl a Ha). rewrite Z2Nat.id by lia.
    by replace (vpn va + (vpn (va + size - 1) - vpn va)) with (vpn (va + size - 1)) by lia.
  - rewrite Hout by done. page_cases.
Qed.

(** C27: bytes copied out to mapped user memory with copyout() are the bytes
    copyin() reads back, whatever pages the range spans; the copy changes no
    page table. *)
Theorem copyout_then_copyin root va src lvl f e s :
  shape (mem s) lvl -> lvl !! root = Some 2%nat -> 0 <= va ->
  va + Z.of_nat (length src) <= MAXVA -> Forall (fun b => 0 <= b < 256) src ->
  user_range (mem s) lvl root va (Z.of_nat (length src)) f ->
  (forall i j, 0 <= i < j -> j < Z.of_nat (length src) -> f (va + i) <> f (va + j)) ->
  exists s', copyout root va src e s = Ret 0 e s' /\
    copyin root va (Z.of_nat (length src)) e s' = Ret (0, src) e s' /\
    (forall a, translate (mem s') root a = translate (mem s) root a).
Proof.
  intros Hs Hr Hva Hmax Hsrc Hu Hinj. pose proof (same_tables_ustore _ _ _ _ _ _ Hu) as Hsame.
  exists (s <| mem ::= ustore f va src |>). split; [by eapply copyout_run|]. split.
  - rewrite (copyin_run root va _ lvl f); [|st; by eapply shape_same_tables|done..|lia|done|].
    + st. by rewrite Nat2Z.id, uload_ustore.
    + st. by eapply user_range_same.
  - intros a. st. by apply translate_same_tables with lvl.
Qed.

End Tree.

(** ** A fresh page table on the sample machine *)

Section Fresh.
#[local] Existing Instance platform0.

Lemma stocked_outside l s a :
  Forall (fun p => ~ p <= a < p + 8) l -> ld8 (mem (stocked l s)) a = ld8 (mem s) a.
Proof.
  induction l as [|p l IH]; intros Hl; cbn [stocked]; [done|]. apply Forall_cons in Hl as [Hp Hl].
  st. rewrite ld8_st64_ne by done. by apply IH.
Qed.

Lemma stocked_free_pages l s : Forall page_ok l -> NoDup l -> free_pages (stocked l s) l.
Proof.
  induction l as [|p l IH]; intros Hok Hnd; cbn [stocked]; [by split|].
  pose proof Hok as [Hp Hok']%Forall_cons. pose proof Hnd as [Hn Hnd']%NoDup_cons.
  destruct (IH Hok' Hnd') as (Hl & _ & _). pose proof (free_pages_head _ _ (IH Hok' Hnd')).
  split; [|done]. st. cbn [linked]. split; [done|]. rewrite ld64_st64, u64_small by done.
  eapply linked_ext; [|exact Hl]. intros q Hq. apply ld64_st64_ne.
  assert (page_ok q) by (by eapply Forall_elem). assert (p <> q) by (by intros ->).
  destruct (pages_apart p q); [done..|lia|lia].
Qed.

Lemma stocked_hw l s : hw (stocked l s) = hw s.
Proof. induction l as [|p l IH]; cbn [stocked]; st; done. Qed.

Lemma fresh_entry root l ps i :
  page_ok root -> Forall page_ok l -> root ∉ l -> 0 <= i < 512 ->
  entry (mem (stocked l (machine ps))) root i = 0.
Proof.
  intros Hr Hl Hn Hi. apply ld_le_zero. intros b Hb. rewrite stocked_outside; [done|].
  apply Forall_forall. intros p Hp. assert (page_ok p) by (by eapply Forall_elem).
  assert (p <> root) by (by intros ->). unfold pte_addr in Hb.
  destruct (pages_apart p root); [done..|lia|lia].
Qed.

Lemma fresh_space root l ps :
  page_ok root -> Forall page_ok l -> NoDup l -> root ∉ l ->
  space (stocked l (machine ps)) {[root := 2%nat]} l /\
  forall a, translate (mem (stocked l (machine ps))) root a = None.
Proof.
  intros Hr Hl Hnd Hn.
  assert (He : forall i, 0 <= i < 512 -> entry (mem (stocked l (machine ps))) root i = 0)
    by (intros; by apply fresh_entry).
  split; [split|].
  - split.
    + by intros p k [<- <-]%lookup_singleton_Some.
    + intros p k i [<- _]%lookup_singleton_Some Hi. by rewrite He.
    + intros p p' k k' i i' [<- _]%lookup_singleton_Some _ Hi _. by rewrite He.
  - by apply stocked_free_pages.
  - intros q Hq. apply lookup_singleton_ne. by intros ->.
  - rewrite stocked_hw. exists cpu0. repeat split; done.
  - rewrite stocked_hw. apply machine_kmem_free.
  - intros a. unfold translate. cbn [trav]. rewrite He by (apply PX_range; lia). done.
Qed.

(** Twelve free pages, and a root table apart from them. *)
Definition spare : list Z := (fun i => 0x80100000 + 4096 * Z.of_nat i) <$> seq 0 12.

Definition root0 : Z := 0x80200000.

Lemma spare_space : space (stocked spare (machine [])) {[root0 := 2%nat]} spare /\
  forall a, translate (mem (stocked spare (machine []))) root0 a = None.
Proof.
  apply fresh_space.
  - split; [reflexivity|]. vm_compute. split; congruence.
  - repeat (constructor; [split; [reflexivity|vm_compute; split; congruence]|]). constructor.
  - apply (bool_decide_unpack _). vm_compute. done.
  - apply (bool_decide_unpack _). vm_compute. done.
Qed.

Lemma mappages_maps_witness :
  exists s', mappages root0 0x1000 8192 0x80300000 (Z.lor PTE_R PTE_U) []
               (stocked spare (machine [])) = Ret 0 [] s' /\
    translate (mem s') root0 0x2345 = Some (leaf 0x80301000 (Z.lor PTE_R PTE_U)).
Proof.
  destruct (mappages_maps root0 0x1000 8192 0x80300000 (Z.lor PTE_R PTE_U) {[root0 := 2%nat]} spare []
    (stocked spare (machine []))) as (r & s' & lvl' & l' & Hr & _ & _ & _ & _ & _ & Hen & Hmap).
  - apply spare_space.
  - reflexivity.
  - lia.
  - lia.
  - vm_compute. congruence.
  - split; [reflexivity|]. vm_compute. split; congruence.
  - lia.
  - vm_compute. split; congruence.
  - intros a _. apply spare_space.
  - assert (r = 0) as -> by (apply Hen; vm_compute; congruence). exists s'. split; [exact Hr|].
    rewrite Hmap; [reflexivity|vm_compute; split; congruence|left; reflexivity].
Defined.

(** The user addresses 0x1000 to 0x2fff of the mapping above. *)
Definition user0 (a : Z) : Z := 0x80300000 + (a - 0x1000).

Lemma user0_range m lvl va n :
  (forall a, 0x1000 <= a < 0x3000 ->
     translate m root0 a = Some (leaf (0x80300000 + 4096 * (vpn a - 1)) (Z.lor PTE_R PTE_U))) ->
  (forall p, is_Some (lvl !! p) -> p = root0 \/ p ∈ spare) ->
  0x1000 <= va -> va + n <= 0x3000 -> user_range m lvl root0 va n user0.
Proof.
  intros Hm Ht Hlo Hhi i Hi. split; [|split; [unfold user0; lia|]].
  - unfold uaddr. rewrite Hm by lia.
    assert (frame_ok (0x80300000 + 4096 * (vpn (va + i) - 1))).
    { assert (1 <= vpn (va + i) <= 2) by (unfold vpn; dlia). split; [unfold PGSIZE; dlia|lia]. }
    rewrite leaf_U, PTE2PA_leaf by (done || (vm_compute; split; congruence)).
    change (bit (Z.lor PTE_R PTE_U) PTE_U) with true. cbn [andb]. f_equal. unfold user0, vpn. dlia.
  - intros p Hp. apply Ht in Hp as [->|Hp].
    + unfold user0, root0, PGSIZE. lia.
    + apply list_elem_of_fmap in Hp as (k & -> & Hk%elem_of_seq). unfold user0, PGSIZE. lia.
Qed.

(** A memory with a page table that maps that range. *)
Lemma user0_memory :
  exists m lvl, shape m lvl /\ lvl !! root0 = Some 2%nat /\
    forall va n, 0x1000 <= va -> va + n <= 0x3000 -> user_range m lvl root0 va n user0.
Proof.
  destruct (mappages_run root0 0x1000 8192 0x80300000 (Z.lor PTE_R PTE_U) {[root0 := 2%nat]} spare []
    (stocked spare (machine []))) as (r & s & lvl' & l' & _ & Rm & _ & Hen & Hmap & _).
  - apply spare_space.
  - reflexivity.
  - lia.
  - lia.
  - vm_compute. congruence.
  - split; [reflexivity|]. vm_compute. split; congruence.
  - lia.
  - vm_compute. split; congruence.
  - intros a _. apply spare_space.
  - assert (r = 0) as -> by (apply Hen; vm_compute; lia). specialize (Hmap eq_refl).
    exists (mem s), lvl'. split; [apply Rm|]. split; [eapply lookup_weaken; [|apply Rm]; reflexivity|].
    intros va n Hlo Hhi. apply user0_range; [|..|done|done].
    + intros a Ha. rewrite Hmap by (change MAXVA with (2 ^ 38); lia).
      assert (1 <= vpn a <= 2) by (unfold vpn; dlia).
      change (Z.of_nat _) with 1. change (vpn 0x1000) with 1.
      rewrite (proj2 (Z.leb_le 1 (vpn a))), (proj2 (Z.leb_le (vpn a) (1 + 1))) by lia. reflexivity.
    + intros p Hp. apply (remapped_tables _ _ _ _ _ _ Rm) in Hp as [[k Hk]|Hp]; [left|right; exact Hp].
      apply lookup_singleton_Some in Hk as [Hk _]. symmetry. exact Hk.
Qed.

Lemma copyout_then_copyin_witness :
  exists s s', copyout root0 0x1ffe [104; 101; 108; 108; 111] [] s = Ret 0 [] s' /\
    copyin root0 0x1ffe 5 [] s' = Ret (0, [104; 101; 108; 108; 111]) [] s'.
Proof.
  destruct user0_memory as (m & lvl & Hs & Hr & Hu). exists (machine [] <| mem := m |>).
  destruct (copyout_then_copyin root0 0x1ffe [104; 101; 108; 108; 111] lvl user0 []
    (machine [] <| mem := m |>)) as (s' & Ho & Hi & _); [..|exists s'; split; [exact Ho|exact Hi]].
  - exact Hs.
  - exact Hr.
  - lia.
  - vm_compute. congruence.
  - repeat constructor; lia.
  - apply Hu; [lia|cbn; lia].
  - intros i j Hi Hj. unfold user0. lia.
Defined.

End Fresh.
