(* ===== verification/Proc.v ===== *)
(** * Processes: the process table, sleep and wakeup (proc.c)

    A [struct proc*] is an index into the table [procs].  [swtch] is the point
    where a thread leaves the CPU: [away] (Monad.v).  This file has the part of
    proc.c that the rest of the kernel calls; fork(), exit(), wait() and
    waitx() are in Procsys.v and scheduler() is in Sched.v. *)

From S2P Require Import Prelude State Machine Monad Spinlock Cstring Kalloc Vm.

Definition proc_at (i : nat) : M proc :=
  o <- gets (fun s => procs s !! i); deref "proc" o.

Definition proc_upd (i : nat) (f : proc -> proc) : M unit :=
  modify (fun s => s <| procs ::= alter f i |>).

Definition tf_at (pa : Z) : M trapframe :=
  o <- gets (fun s => tfs s !! pa); deref "trapframe" o.

Definition tf_upd (pa : Z) (f : trapframe -> trapframe) : M unit :=
  tf <- tf_at pa; modify (fun s => s <| tfs ::= <[pa := f tf]> |>).

(** A struct in a page that kalloc() has just filled with 5s. *)
Definition tf_junk : trapframe :=
  let z := 0x0505050505050505 in
  mktrapframe z z z z z z z z z z z z z z z z z z z z z z z z z z z z z z z z z z z z.

(** ** The current process *)

Definition myproc : M (option nat) :=
  push_off ;;
  c <- mycpu; cc <- cpu_at c;
  let p := c_proc cc in
  pop_off ;;
  ret p.

(** [myproc()] where the code dereferences the result. *)
Definition curproc : M nat := o <- myproc; deref "myproc" o.

Definition allocpid : M Z :=
  acquire LPid ;;
  pid <- gets nextpid;
  modify (fun s => s <| nextpid := s32 (pid + 1) |>) ;;
  release LPid ;;
  ret pid.

Definition procinit : M unit :=
  initlock LPid "nextpid" ;;
  initlock LWait "wait_lock" ;;
  for_ (seq 0 NPROC) (fun p =>
    initlock (LProc p) "proc" ;;
    proc_upd p (fun p' => p' <| p_kstack := KSTACK (Z.of_nat p) |>)).

Section Proc.
Context `{Platform}.

(** ** Page tables of processes, allocation and release of a table slot *)

Definition proc_pagetable (p : nat) : M Z :=
  pagetable <- uvmcreate;
  if pagetable =? 0 then ret 0 else
  r <- mappages pagetable TRAMPOLINE PGSIZE sym_trampoline (Z.lor PTE_R PTE_X);
  if r <? 0 then uvmfree pagetable 0 ;; ret 0 else
  pp <- proc_at p;
  r <- mappages pagetable TRAPFRAME PGSIZE (p_trapframe pp) (Z.lor PTE_R PTE_W);
  if r <? 0 then
    uvmunmap pagetable TRAMPOLINE 1 false ;;
    uvmfree pagetable 0 ;;
    ret 0
  else ret pagetable.

Definition proc_freepagetable (pagetable sz : Z) : M unit :=
  uvmunmap pagetable TRAMPOLINE 1 false ;;
  uvmunmap pagetable TRAPFRAME 1 false ;;
  uvmfree pagetable sz.

Definition freeproc (p : nat) : M unit :=
  pp <- proc_at p;
  when (negb (p_trapframe pp =? 0)) (kfree (p_trapframe pp)) ;;
  proc_upd p (fun p => p <| p_trapframe := 0 |>) ;;
  when (negb (p_pagetable pp =? 0)) (proc_freepagetable (p_pagetable pp) (p_sz pp)) ;;
  proc_upd p (fun p => p <| p_pagetable := 0 |> <| p_sz := 0 |> <| p_pid := 0 |>
                         <| p_parent := None |> <| p_name ::= <[0%nat := 0]> |>
                         <| p_chan := ChNull |> <| p_killed := 0 |> <| p_xstate := 0 |>
                         <| p_state := UNUSED |>).

(** The fields allocproc() sets last; [now] is the variable ticks. *)
Definition init_proc (now : Z) (p : proc) : proc :=
  p <| p_context := context0 <| ctx_ra := sym_forkret |> <| ctx_sp := u64 (p_kstack p + PGSIZE) |> |>
    <| p_rtime := 0 |> <| p_etime := u32 (-1) |> <| p_ctime := now |> <| p_ntime := 0 |>
    <| p_priority := 60 |> <| p_last_qtime := s32 now |> <| p_queue := 0 |>
    <| p_qticks := replicate NPQ 0 |>.

(** From the label [found:] on. *)
Definition allocproc_found (p : nat) : M (option nat) :=
  pid <- allocpid;
  proc_upd p (fun p => p <| p_pid := pid |> <| p_state := USED |>) ;;
  tf <- kalloc;
  proc_upd p (fun p => p <| p_trapframe := tf |>) ;;
  if tf =? 0 then freeproc p ;; release (LProc p) ;; ret None else
  modify (fun s => s <| tfs ::= <[tf := tf_junk]> |>) ;;
  pt <- proc_pagetable p;
  proc_upd p (fun p => p <| p_pagetable := pt |>) ;;
  if pt =? 0 then freeproc p ;; release (LProc p) ;; ret None else
  now <- gets ticks;
  proc_upd p (init_proc now) ;;
  ret (Some p).

Definition allocproc : M (option nat) :=
  found <- for_find (seq 0 NPROC) (fun p =>
    acquire (LProc p) ;;
    pp <- proc_at p;
    if bool_decide (p_state pp = UNUSED) then ret (Some p)
    else release (LProc p) ;; ret None);
  match found with
  | None => ret None
  | Some p => allocproc_found p
  end.

(** ** Leaving the CPU *)

Definition sched : M unit :=
  p <- curproc;
  h <- holding (LProc p);
  if negb h then panic "sched p->lock" else
  c <- mycpu; cc <- cpu_at c;
  if negb (c_noff cc =? 1) then panic "sched locks" else
  pp <- proc_at p;
  if bool_decide (p_state pp = RUNNING) then panic "sched running" else
  i <- intr_get;
  if i then panic "sched interruptible" else
  let intena := c_intena cc in
  away ;;
  c <- mycpu;
  cpu_upd c (fun c => c <| c_intena := intena |>).

Definition yield : M unit :=
  p <- curproc;
  acquire (LProc p) ;;
  proc_upd p (fun p => p <| p_state := RUNNABLE |>) ;;
  sched ;;
  release (LProc p).

Definition sleep (ch : chan) (lk : lockid) : M unit :=
  p <- curproc;
  acquire (LProc p) ;;
  release lk ;;
  now <- gets ticks;
  proc_upd p (fun p => p <| p_chan := ch |> <| p_state := SLEEPING |> <| p_stime := now |>) ;;
  sched ;;
  proc_upd p (fun p => p <| p_chan := ChNull |>) ;;
  release (LProc p) ;;
  acquire lk.

(** ** Waking and killing *)

Definition wakeup (ch : chan) : M unit :=
  for_ (seq 0 NPROC) (fun p =>
    me <- myproc;
    when (bool_decide (Some p <> me))
      (acquire (LProc p) ;;
       pp <- proc_at p;
       now <- gets ticks;
       when (bool_decide (p_state pp = SLEEPING) && bool_decide (p_chan pp = ch))
         (proc_upd p (fun p => p <| p_state := RUNNABLE |>
                                 <| p_stime ::= fun t => now -32 t |>)) ;;
       release (LProc p))).

Definition kill (pid : Z) : M Z :=
  r <- for_find (seq 0 NPROC) (fun p =>
    acquire (LProc p) ;;
    pp <- proc_at p;
    if p_pid pp =? pid then
      proc_upd p (fun p => p <| p_killed := 1 |>) ;;
      when (bool_decide (p_state pp = SLEEPING))
        (proc_upd p (fun p => p <| p_state := RUNNABLE |>)) ;;
      release (LProc p) ;;
      ret (Some 0)
    else release (LProc p) ;; ret None);
  ret (default (-1) r).

(** ** Accounting and priorities *)

Definition update_time : M unit :=
  for_ (seq 0 NPROC) (fun p =>
    acquire (LProc p) ;;
    pp <- proc_at p;
    when (bool_decide (p_state pp = RUNNING))
      (proc_upd p (fun p => p <| p_rtime ::= fun t => t +32 1 |>)) ;;
    release (LProc p)).

(** The percentage of its recent time a process slept, in tenths; the C type
    of the quotient is uint, that of the variable int. *)
Definition niceness (p : proc) : Z :=
  if negb (p_rtime p +32 p_stime p =? 0)
  then s32 (p_stime p *32 10 / (p_rtime p +32 p_stime p))
  else 5.

(** The dynamic priority of PBS. *)
Definition dynamic_priority (p : proc) : Z :=
  let dp := s32 (p_priority p - niceness p + 5) in
  let dp := if 100 <? dp then 100 else dp in
  if dp <? 0 then 0 else dp.

Definition setpriority (priority pid : Z) : M Z :=
  r <- for_find (seq 0 NPROC) (fun p =>
    pp <- proc_at p;
    if p_pid pp =? pid then
      let old_priority := p_priority pp in
      let dp1 := dynamic_priority pp in
      proc_upd p (fun p => p <| p_rtime := 0 |> <| p_stime := 0 |> <| p_priority := priority |>) ;;
      pp <- proc_at p;
      let dp2 := dynamic_priority pp in
      when (dp2 <? dp1) yield ;;
      ret (Some old_priority)
    else ret None);
  ret (default (-1) r).

(** ** Copying to and from either address space

    [user_dst] and [user_src] choose between a user address and a kernel
    address, which is either physical memory or a local variable of the
    caller: the bytes delivered to a local variable are the caller's to use. *)

Inductive dest := DUser (va : Z) | DPhys (pa : Z) | DLocal.

Inductive source := SUser (va : Z) | SLocal (bytes : list Z).

(** [dst + n], [src + n]. *)
Definition dest_add (d : dest) (n : Z) : dest :=
  match d with
  | DUser va => DUser (va +64 n)
  | DPhys pa => DPhys (pa + n)
  | DLocal => DLocal
  end.

Definition source_add (d : source) (n : Z) : source :=
  match d with
  | SUser va => SUser (va +64 n)
  | SLocal l => SLocal (drop (Z.to_nat n) l)
  end.

Definition either_copyout (dst : dest) (src : list Z) : M Z :=
  o <- myproc;
  match dst with
  | DUser va =>
      p <- deref "myproc" o; pp <- proc_at p;
      copyout (p_pagetable pp) va src
  | DPhys pa => mem_upd (put_bytes pa src) ;; ret 0
  | DLocal => ret 0
  end.

Definition either_copyin (src : source) (len : Z) : M (Z * list Z) :=
  o <- myproc;
  match src with
  | SUser va =>
      p <- deref "myproc" o; pp <- proc_at p;
      copyin (p_pagetable pp) va len
  | SLocal l => ret (0, take (Z.to_nat len) l)
  end.

End Proc.

(** ** Running the process-table loops *)

(** The process running on this hart. *)
Definition cur (h : hart) : option nat :=
  match cpus h !! tp h with Some c => c_proc c | None => None end.

Lemma cur_push h : cur (push_h h) = cur h.
Proof.
  unfold cur. cbn. rewrite list_lookup_alter, decide_True by done. by destruct (cpus h !! tp h).
Qed.

Lemma cur_lock lk h : cur (lock_h lk h) = cur h.
Proof. apply cur_push. Qed.

Lemma myproc_run e s :
  settled (hw s) -> myproc e s = Ret (cur (hw s)) e s.
Proof.
  intros Hs. unfold myproc. mrun push_off_run. unfold mycpu, cpuid, r_tp, cpu_at. msteps.
  rewrite <- cur_push. unfold cur. change (tp (push_h (hw s))) with (tp (hw s)).
  destruct (settled_push _ Hs) as (c & Hc & _). change (tp (push_h (hw s))) with (tp (hw s)) in Hc.
  rewrite Hc. msteps. mrun pop_off_run. msteps. apply ret_state. state_eq. by rewrite pop_push.
Qed.

(** The lock discipline a scan of the table needs: no process lock is held. *)
Definition procs_ok (s : kernel) : Prop :=
  length (procs s) = NPROC /\ settled (hw s) /\
  forall i, (i < NPROC)%nat -> free (LProc i) (hw s).

Lemma for_seq_run (I : kernel -> Prop) (F : nat -> kernel -> kernel) body k n e s :
  (forall i s, (k <= i < k + n)%nat -> I s -> body i e s = Ret tt e (F i s)) ->
  (forall i s, (k <= i < k + n)%nat -> I s -> I (F i s)) -> I s ->
  for_ (seq k n) body e s = Ret tt e (fold_left (fun s i => F i s) (seq k n) s).
Proof.
  revert k s. induction n as [|n IH]; intros k s Hb HI Hs; [done|]. cbn [seq for_ fold_left].
  erewrite bind_run by (apply Hb; [lia|done]). apply IH; [..|by apply HI; [lia|]].
  - intros; apply Hb; [lia|done].
  - intros; apply HI; [lia|done].
Qed.

Lemma fold_alter_lookup {A} (f : nat -> A -> A) k n (l : list A) i :
  fold_left (fun l j => alter (f j) j l) (seq k n) l !! i =
    (if decide (k <= i < k + n)%nat then f i else id) <$> l !! i.
Proof.
  revert k l. induction n as [|n IH]; intros k l; cbn [seq fold_left].
  - rewrite decide_False by lia. by rewrite option_fmap_id.
  - rewrite IH, list_lookup_alter. case_decide as H1; case_decide as H2; subst;
      rewrite ?option_fmap_id; try lia.
    + by rewrite decide_True by lia.
    + rewrite decide_True by lia. by destruct (l !! i).
    + by rewrite decide_False, option_fmap_id by lia.
Qed.

Lemma fold_alter_imap {A} (f : nat -> A -> A) (l : list A) :
  fold_left (fun l j => alter (f j) j l) (seq 0 (length l)) l = imap f l.
Proof.
  apply list_eq. intros i. rewrite fold_alter_lookup, list_lookup_imap. case_decide as H; [done|].
  by rewrite lookup_ge_None_2 by lia.
Qed.

Lemma fold_procs (f : nat -> proc -> proc) l s :
  fold_left (fun s i => s <| procs ::= alter (f i) i |>) l s =
  s <| procs ::= fun ps => fold_left (fun ps i => alter (f i) i ps) l ps |>.
Proof.
  revert s. induction l as [|i l IH]; intros s; cbn [fold_left]; [by destruct s|].
  rewrite IH. done.
Qed.

Lemma procs_ok_alter s f i : procs_ok s -> procs_ok (s <| procs ::= alter f i |>).
Proof. intros (Hl & Hs & Hf). split; [|done]. st. by rewrite length_alter. Qed.

(** A loop over the table whose body updates one entry after the other. *)
Lemma for_procs_run (I : kernel -> Prop) (f : nat -> proc -> proc) body e s :
  (forall i s p, procs_ok s -> I s -> procs s !! i = Some p ->
     body i e s = Ret tt e (s <| procs ::= alter (f i) i |>)) ->
  (forall i s, I s -> I (s <| procs ::= alter (f i) i |>)) ->
  procs_ok s -> I s ->
  for_ (seq 0 NPROC) body e s = Ret tt e (s <| procs ::= imap f |>).
Proof.
  intros Hb HI Hok Hi.
  rewrite (for_seq_run (fun s => procs_ok s /\ I s) (fun i s => s <| procs ::= alter (f i) i |>));
    [| |by intros i s' _ []; split; [apply procs_ok_alter|apply HI]|done].
  - rewrite fold_procs. apply ret_state, kernel_eq; st; try done.
    destruct Hok as [Hl _]. by rewrite <- Hl, fold_alter_imap.
  - intros i s' Hi' [Hok' HI']. destruct (lookup_lt_is_Some_2 (procs s') i) as [p Hp].
    { destruct Hok' as [-> _]. lia. }
    by eapply Hb.
Qed.

Lemma proc_at_run i e s p : procs s !! i = Some p -> proc_at i e s = Ret p e s.
Proof. intros Hp. unfold proc_at. msteps. by rewrite Hp. Qed.

Lemma tf_at_run a tf e s : tfs s !! a = Some tf -> tf_at a e s = Ret tf e s.
Proof. intros E. unfold tf_at. by rewrite step_gets, E. Qed.

Lemma tf_upd_run a tf f e s : tfs s !! a = Some tf -> tf_upd a f e s = Ret tt e (s <| tfs ::= <[a := f tf]> |>).
Proof. intros E. unfold tf_upd. by rewrite (bind_run _ _ _ _ _ _ _ (tf_at_run a tf e s E)). Qed.

Lemma procs_ok_free s i p : procs_ok s -> procs s !! i = Some p -> free (LProc i) (hw s).
Proof.
  intros (Hl & _ & Hf) Hp. apply Hf. rewrite <- Hl. by eapply lookup_lt_Some.
Qed.

Lemma procs_ok_settled s : procs_ok s -> settled (hw s).
Proof. by intros (_ & ? & _). Qed.

#[export] Hint Resolve procs_ok_free procs_ok_settled : kernel.

Lemma procs_ok_lock s lk :
  procs_ok s -> (forall i, lk <> LProc i) -> procs_ok (s <| hw ::= lock_h lk |>).
Proof.
  intros (Hl & Hs & Hf) Hne. split; [done|]. st. split; [by apply settled_lock|].
  intros i Hi. by apply free_lock_ne; [|apply Hf].
Qed.

Lemma cur_norm h : cur (norm_h h) = cur h.
Proof. unfold cur. cbn. rewrite list_lookup_alter, decide_True by done. by destruct (cpus h !! tp h). Qed.

(** An update of a process under its lock. *)
Lemma locked_upd_run i f e s p :
  settled (hw s) -> free (LProc i) (hw s) -> procs s !! i = Some p ->
  (acquire (LProc i) ;; proc_upd i f ;; release (LProc i)) e s =
    Ret tt e (s <| procs ::= alter f i |>).
Proof.
  intros Hs Hf Hp. unfold proc_upd. mrun acquire_run. msteps.
  rewrite release_run by (st; eauto with kernel). same_hw.
Qed.

(** *** wakeup() *)

Definition woken (ch : chan) (now : Z) (p : proc) : proc :=
  if bool_decide (p_state p = SLEEPING) && bool_decide (p_chan p = ch)
  then p <| p_state := RUNNABLE |> <| p_stime ::= fun t => now -32 t |>
  else p.

(** The table after wakeup(ch): every other process that sleeps on [ch] is
    runnable, and its [stime] is how long it slept. *)
Definition wake_all (ch : chan) (s : kernel) : list proc :=
  imap (fun i p => if decide (Some i = cur (hw s)) then p else woken ch (ticks s) p) (procs s).

Lemma wakeup_run ch e s :
  procs_ok s -> wakeup ch e s = Ret tt e (s <| procs := wake_all ch s |>).
Proof.
  intros Hok. unfold wakeup, wake_all.
  set (f i p := if decide (Some i = cur (hw s)) then p else woken ch (ticks s) p).
  rewrite (for_procs_run (fun s' => hw s' = hw s /\ ticks s' = ticks s) f); [done|..|done|done].
  - intros i s' p Hok' [Hhw Ht] Hp. mrun myproc_run. rewrite Hhw. unfold f at 1.
    destruct (decide (Some i = cur (hw s))) as [Hc|Hc].
    { rewrite bool_decide_false by (by intros []). msteps.
      apply ret_state. state_eq. symmetry. by eapply alter_same. }
    rewrite bool_decide_true by done. msteps. mrun acquire_run. mrun proc_at_run. msteps.
    rewrite Ht. unfold woken, proc_upd. destruct (_ && _) eqn:E; msteps;
      (rewrite release_run by (st; eauto with kernel)); same_hw.
    + by eapply alter_at; [done|rewrite E].
    + symmetry. eapply alter_same; [done|by rewrite E].
  - done.
Qed.

(** *** kill() *)

Definition slain (p : proc) : proc :=
  p <| p_killed := 1 |>
    <| p_state ::= fun st => if bool_decide (st = SLEEPING) then RUNNABLE else st |>.

(** A search of a table that leaves at the first entry accepted by [P]. *)
Lemma for_find_run {A R} (l : list A) (P : A -> bool) (body : nat -> M (option R))
    (r : nat -> A -> R) (F : nat -> kernel -> kernel) k e s :
  (forall i x, l !! i = Some x -> body (k + i)%nat e s =
     if P x then Ret (Some (r (k + i)%nat x)) e (F (k + i)%nat s) else Ret None e s) ->
  for_find (seq k (length l)) body e s =
    match list_find P l with
    | Some (i, x) => Ret (Some (r (k + i)%nat x)) e (F (k + i)%nat s)
    | None => Ret None e s
    end.
Proof.
  revert k. induction l as [|x l IH]; intros k Hb; [done|]. cbn [length seq for_find list_find].
  unfold bind. rewrite <- (Nat.add_0_r k) at 1. rewrite (Hb 0%nat x) by done.
  destruct (P x) eqn:E; [done|]. cbn. rewrite IH.
  - rewrite decide_False by (by intros []).
    destruct (list_find P l) as [[i y]|]; cbn; [|done]. by rewrite Nat.add_succ_r.
  - intros i y Hy. rewrite Nat.add_succ_comm. by apply Hb.
Qed.

(** The same when the body may also leave the CPU: the search stops at the
    first accepted entry. *)
Lemma for_find_first {A R} (l : list A) (P : A -> bool) (body : nat -> M (option R)) k e s :
  (forall i x, l !! i = Some x -> P x = false -> body (k + i)%nat e s = Ret None e s) ->
  for_find (seq k (length l)) body e s =
    match list_find P l with
    | Some (i, x) =>
        (r <- body (k + i)%nat;
         match r with
         | Some _ => ret r
         | None => for_find (seq (S (k + i)) (length l - S i)) body
         end) e s
    | None => Ret None e s
    end.
Proof.
  revert k. induction l as [|x l IH]; intros k Hb; [done|]. cbn [length seq for_find list_find].
  destruct (P x) eqn:E.
  - rewrite decide_True by done. cbn. by rewrite Nat.add_0_r, Nat.sub_0_r.
  - rewrite decide_False by (by intros []). rewrite (bind_run _ _ _ _ None e s); [|].
    + rewrite IH; [|intros i y Hy; rewrite Nat.add_succ_comm; by apply Hb].
      destruct (list_find P l) as [[i y]|]; cbn; [|done]. by rewrite Nat.add_succ_r.
    + rewrite <- (Nat.add_0_r k). by apply (Hb 0%nat x).
Qed.

(** A search of the process table that updates the process it finds. *)
Lemma find_proc_run {R} (P : proc -> bool) (body : nat -> M (option R)) (r : proc -> R) f e s :
  length (procs s) = NPROC ->
  (forall i p, procs s !! i = Some p -> body i e s =
     if P p then Ret (Some (r p)) e (s <| procs ::= alter f i |>) else Ret None e s) ->
  for_find (seq 0 NPROC) body e s =
    match list_find P (procs s) with
    | Some (i, p) => Ret (Some (r p)) e (s <| procs ::= alter f i |>)
    | None => Ret None e s
    end.
Proof.
  intros Hl Hb. rewrite <- Hl.
  rewrite (for_find_run (procs s) P body (fun _ => r) (fun i s => s <| procs ::= alter f i |>)); [done|].
  intros i p Hp. by apply Hb.
Qed.

Lemma kill_run pid e s :
  procs_ok s ->
  kill pid e s =
    match list_find (fun p => p_pid p =? pid) (procs s) with
    | Some (i, _) => Ret 0 e (s <| procs ::= alter slain i |>)
    | None => Ret (-1) e s
    end.
Proof.
  intros Hok. unfold kill.
  unfold bind at 1. rewrite (find_proc_run (fun p => p_pid p =? pid) _ (fun _ => 0) slain).
  - by destruct (list_find _ _) as [[? ?]|].
  - apply Hok.
  - intros i p Hp. mrun acquire_run. mrun proc_at_run. unfold proc_upd.
    destruct (p_pid p =? pid); msteps.
    + destruct (bool_decide (p_state p = SLEEPING)) eqn:E; msteps; mrun release_run; msteps;
        same_hw; rewrite ?list_alter_alter_eq; (eapply alter_at; [done|]);
        unfold slain; cbn; unfold upd, upd_p_state, upd_p_killed; cbn; by rewrite E.
    + mrun release_run. msteps. same_hw.
Qed.

(** *** update_time() *)

Definition ran (p : proc) : proc :=
  if bool_decide (p_state p = RUNNING) then p <| p_rtime ::= fun t => t +32 1 |> else p.

Lemma update_time_run e s :
  procs_ok s -> update_time e s = Ret tt e (s <| procs ::= imap (fun _ => ran) |>).
Proof.
  intros Hok. unfold update_time.
  rewrite (for_procs_run (fun _ => True) (fun _ => ran)); [done|..|done|done|done].
  - intros i s' p Hok' _ Hp. mrun acquire_run. mrun proc_at_run. unfold ran, proc_upd.
    destruct (bool_decide _) eqn:E; msteps; (rewrite release_run by (st; eauto with kernel)); same_hw.
    + by eapply alter_at; [done|rewrite E].
    + symmetry. eapply alter_same; [done|by rewrite E].
Qed.

Lemma procs_ok_imap s f : procs_ok s -> procs_ok (s <| procs ::= imap f |>).
Proof. intros (Hl & Hs & Hf). split; [|done]. st. by rewrite length_imap. Qed.

Lemma procs_ok_wake ch s : procs_ok s -> procs_ok (s <| procs := wake_all ch s |>).
Proof. intros (Hl & Hs & Hf). split; [|done]. st. unfold wake_all. by rewrite length_imap. Qed.

#[export] Hint Resolve procs_ok_imap procs_ok_wake procs_ok_alter : kernel.

(** *** Leaving the CPU and coming back *)

(** Process [p] runs on this hart, inside one critical section that is its own
    lock's: the condition under which sched() switches. *)
Definition switchable (p : nat) (s : kernel) : Prop :=
  settled (hw s) /\ cur (hw s) = Some p /\ held (LProc p) (hw s) /\ noff (hw s) = 1.

Lemma curproc_run p e s :
  settled (hw s) -> cur (hw s) = Some p -> curproc e s = Ret p e s.
Proof. intros Hs Hc. unfold curproc. mrun myproc_run. by rewrite Hc. Qed.

Lemma held_holding lk e s : held lk (hw s) -> holding lk e s = Ret true e s.
Proof. intros [name Hl]. rewrite (holding_run _ _ _ _ Hl). cbn. by rewrite bool_decide_true. Qed.

Lemma sched_run p pp e s :
  switchable p s -> procs s !! p = Some pp -> p_state pp <> RUNNING ->
  exists c, cpus (hw s) !! tp (hw s) = Some c /\
    sched e s = (away ;; id <- mycpu; cpu_upd id (fun c' => c' <| c_intena := c_intena c |>)) e s.
Proof.
  intros (Hs & Hc & Hh & Hn) Hp Hr. unfold sched. mrun curproc_run.
  erewrite bind_run by (by apply held_holding). cbn [negb].
  pose proof (noff_pos_sie _ Hs ltac:(lia)) as Hoff. destruct Hs as (c & Hcc & _).
  exists c. split; [done|]. unfold noff in Hn. rewrite Hcc in Hn.
  unfold mycpu at 1, cpuid at 1, r_tp at 1, cpu_at. msteps. rewrite Hcc. msteps. rewrite Hn. cbn [Z.eqb negb].
  change (1 =? 1) with true. cbn [negb]. mrun proc_at_run. rewrite bool_decide_false by done.
  unfold intr_get, r_sstatus. msteps. rewrite sie_bit. fold (sie (hw s)). rewrite Hoff. done.
Qed.

Lemma sched_away p pp s :
  switchable p s -> procs s !! p = Some pp -> p_state pp <> RUNNING -> sched [] s = Away s.
Proof. intros H1 H2 H3. destruct (sched_run p pp [] s H1 H2 H3) as (c & _ & ->). done. Qed.

Lemma switchable_lock p s :
  settled (hw s) -> cur (hw s) = Some p -> free (LProc p) (hw s) -> noff (hw s) = 0 ->
  switchable p (s <| hw ::= lock_h (LProc p) |>).
Proof.
  intros Hs Hc Hf Hn. repeat split; st; eauto with kernel.
  - by rewrite cur_lock.
  - rewrite noff_lock by done. lia.
Qed.

Lemma switchable_procs p f i s : switchable p s -> switchable p (s <| procs ::= alter f i |>).
Proof. done. Qed.

(** yield() leaves the process runnable, switched out inside its lock. *)
Lemma yield_away p pp s :
  settled (hw s) -> cur (hw s) = Some p -> free (LProc p) (hw s) -> noff (hw s) = 0 ->
  procs s !! p = Some pp ->
  yield [] s = Away (s <| hw ::= lock_h (LProc p) |>
                       <| procs ::= alter (fun p => p <| p_state := RUNNABLE |>) p |>).
Proof.
  intros Hs Hc Hf Hn Hp. unfold yield. mrun curproc_run. mrun acquire_run.
  unfold proc_upd. msteps. unfold bind at 1. erewrite (sched_away p); [done|..|].
  - by apply switchable_procs, switchable_lock.
  - st. rewrite list_lookup_alter, decide_True, Hp by done. done.
  - done.
Qed.

(** The process running with no lock held but the ones in [lock_h]. *)
Definition quiet (p : nat) (h : hart) : Prop :=
  settled h /\ cur h = Some p /\ free (LProc p) h /\ noff h = 0.

(** The table entry of a process that sleeps on [ch] since [now]. *)
Definition parked (ch : chan) (now : Z) (p : proc) : proc :=
  p <| p_chan := ch |> <| p_state := SLEEPING |> <| p_stime := now |>.

(** The state sleep() leaves when it switches out. *)
Definition asleep (p : nat) (ch : chan) (h : hart) (s : kernel) : kernel :=
  s <| hw := lock_h (LProc p) h |> <| procs ::= alter (parked ch (ticks s)) p |>.

Lemma sleep_run p pp ch lk h e s :
  quiet p h -> free lk h -> lk <> LProc p -> hw s = lock_h lk h -> procs s !! p = Some pp ->
  sleep ch lk e s =
    (sched ;; proc_upd p (fun p => p <| p_chan := ChNull |>) ;; release (LProc p) ;; acquire lk)
      e (asleep p ch h s).
Proof.
  intros (Hs & Hc & Hf & Hn) Hlk Hne Hhw Hp. unfold sleep.
  assert (settled (hw s)) by (rewrite Hhw; eauto with kernel).
  erewrite bind_run by (apply (curproc_run p); [done|by rewrite Hhw, cur_lock]).
  assert (free (LProc p) (hw s)) by (rewrite Hhw; eauto with kernel).
  mrun acquire_run. erewrite bind_run; [|apply release_run; st; rewrite Hhw; eauto 6 with kernel].
  unfold proc_upd at 1. msteps. set (s1 := upd procs _ _).
  assert (s1 = asleep p ch h s) as ->; [|done]. unfold s1, asleep. state_eq.
  rewrite Hhw. by rewrite unlock_lock_swap.
Qed.

Lemma asleep_switchable p ch h s : quiet p h -> switchable p (asleep p ch h s).
Proof.
  intros (Hs & Hc & Hf & Hn). unfold asleep, switchable. st. split; [eauto with kernel|].
  split; [by rewrite cur_lock|]. split; [eauto with kernel|]. rewrite noff_lock by done. lia.
Qed.

Lemma asleep_lookup p pp ch h s :
  procs s !! p = Some pp -> procs (asleep p ch h s) !! p = Some (parked ch (ticks s) pp).
Proof. intros Hp. unfold asleep. st. by rewrite list_lookup_alter, decide_True, Hp. Qed.

Lemma intena_lock lk h c :
  settled h -> noff h = 0 -> cpus (lock_h lk h) !! tp h = Some c -> c_intena c = sie h.
Proof.
  intros (c' & Hc' & _) Hn Hc. unfold noff in Hn. rewrite Hc' in Hn.
  rewrite (cpu_lock _ _ _ Hc') in Hc. injection Hc as <-. cbn. by rewrite Hn.
Qed.

(** Switched in again on a hart where it is the current process, with the same
    saved interrupt state, sched() returns the state it finds. *)
Lemma sched_back p pp h h' g e s :
  hw s = lock_h (LProc p) h -> quiet p h -> procs s !! p = Some pp -> p_state pp <> RUNNING ->
  hw (g s) = lock_h (LProc p) h' -> quiet p h' -> sie h' = sie h ->
  sched (g :: e) s = Ret tt e (g s).
Proof.
  intros Hhw (Hs & Hc & Hf & Hn) Hp Hr Hg (Hs' & Hc' & Hf' & Hn') Hsie.
  destruct (sched_run p pp (g :: e) s) as (c & Hcc & ->); [|done..|].
  { unfold switchable. rewrite Hhw. split; [eauto with kernel|]. split; [by rewrite cur_lock|].
    split; [eauto with kernel|]. rewrite noff_lock by done. lia. }
  assert (c_intena c = sie h') as ->.
  { rewrite Hsie. rewrite Hhw in Hcc. by eapply intena_lock. }
  unfold away, bind at 1. cbv beta iota. unfold mycpu, cpuid, r_tp, cpu_upd. msteps.
  apply ret_state. state_eq. rewrite Hg. apply hart_eq; try done. cbn.
  destruct (settled_lock (LProc p) _ Hs') as (c' & Hc1 & _). rewrite tp_lock in Hc1.
  eapply alter_same; [exact Hc1|]. apply cpu_eq; try done. cbn. symmetry. by eapply intena_lock.
Qed.

(** Resumed on a hart where it is the current process and its lock is held,
    sleep() returns holding [lk] again. *)
Lemma sleep_resumed p pp ch lk h h' g e s :
  quiet p h -> free lk h -> lk <> LProc p -> hw s = lock_h lk h -> procs s !! p = Some pp ->
  quiet p h' -> free lk h' -> sie h' = sie h -> hw (g (asleep p ch h s)) = lock_h (LProc p) h' ->
  sleep ch lk (g :: e) s =
    Ret tt e (g (asleep p ch h s) <| procs ::= alter (fun p => p <| p_chan := ChNull |>) p |>
                <| hw := lock_h lk h' |>).
Proof.
  intros Hq Hlk Hne Hhw Hp Hq' Hlk' Hsie Hg. rewrite (sleep_run p pp ch lk h) by done.
  erewrite bind_run by (eapply (sched_back p); [done..|by apply asleep_lookup|done|done|done|done]).
  destruct Hq' as (Hs' & Hc' & Hf' & Hn'). unfold proc_upd. msteps.
  erewrite bind_run by (apply release_run; st; rewrite Hg; eauto with kernel).
  rewrite acquire_run; [|st; rewrite Hg, unlock_lock by done; done..].
  apply ret_state. state_eq. by rewrite Hg, unlock_lock.
Qed.

(** Switched out with nothing to resume it, the process stays asleep. *)
Lemma sleep_away p pp ch lk h s :
  quiet p h -> free lk h -> lk <> LProc p -> hw s = lock_h lk h -> procs s !! p = Some pp ->
  sleep ch lk [] s = Away (asleep p ch h s).
Proof.
  intros Hq Hlk Hne Hhw Hp. rewrite (sleep_run p pp ch lk h) by done. unfold bind at 1.
  erewrite sched_away; [done|by apply asleep_switchable|by apply asleep_lookup|done].
Qed.

(** *** Allocation *)

Section Allocation.
Context `{Platform}.

#[export] Instance proc_pagetable_keeps_procs p : Keeps procs (proc_pagetable p).
Proof. unfold proc_pagetable, proc_at. solve_keeps. Qed.

#[export] Instance allocpid_keeps_procs : Keeps procs allocpid.
Proof. unfold allocpid. solve_keeps. Qed.

(** The scan of allocproc() for an unused slot. *)
Definition find_unused : M (option nat) :=
  for_find (seq 0 NPROC) (fun p =>
    acquire (LProc p) ;;
    pp <- proc_at p;
    if bool_decide (p_state pp = UNUSED) then ret (Some p)
    else release (LProc p) ;; ret None).

#[export] Instance find_unused_keeps_procs : Keeps procs find_unused.
Proof. unfold find_unused, proc_at. solve_keeps. Qed.

(** One step of a completed run that leaves the table alone. *)
Ltac keep_step H :=
  let a := fresh "a" in let e1 := fresh "e" in let s1 := fresh "s" in
  let Hr := fresh "Hr" in let Hp := fresh "Hp" in let He := fresh "He" in
  apply bind_inv in H as (a & e1 & s1 & Hr & H);
  eapply (keeps_run procs) in Hr as [Hp He]; [|exact _|eassumption].

(** The entry allocproc() returns is that of the slot it found, with the
    fields it sets. *)
Lemma allocproc_found_entry p q e s e' s' :
  env_keeps procs e -> allocproc_found p e s = Ret (Some q) e' s' ->
  q = p /\ exists pid tf pt now,
    procs s' = alter (fun pp => init_proc now (pp <| p_pid := pid |> <| p_state := USED |>
      <| p_trapframe := tf |> <| p_pagetable := pt |>)) p (procs s).
Proof.
  intros He Hr. unfold allocproc_found in Hr. keep_step Hr. unfold proc_upd in Hr.
  rewrite step_modify in Hr. keep_step Hr. rewrite step_modify in Hr.
  destruct (a0 =? 0).
  { apply bind_inv in Hr as (? & ? & ? & _ & Hr). apply bind_inv in Hr as (? & ? & ? & _ & Hr). done. }
  rewrite step_modify in Hr. keep_step Hr. rewrite step_modify in Hr.
  destruct (a1 =? 0).
  { apply bind_inv in Hr as (? & ? & ? & _ & Hr). apply bind_inv in Hr as (? & ? & ? & _ & Hr). done. }
  rewrite step_gets, step_modify in Hr. injection Hr as <- <- <-. split; [done|].
  exists a, a0, a1, (ticks (s2 <| procs ::= alter (fun p => p <| p_pagetable := a1 |>) p |>)).
  st. rewrite Hp1. st. rewrite Hp0. st. rewrite Hp, !list_alter_alter_eq. done.
Qed.

Lemma find_unused_run e s :
  procs_ok s ->
  find_unused e s =
    match list_find (fun p => p_state p = UNUSED) (procs s) with
    | Some (i, _) => Ret (Some i) e (s <| hw ::= lock_h (LProc i) |>)
    | None => Ret None e s
    end.
Proof.
  intros Hok. unfold find_unused. destruct Hok as [Hl Hrest] eqn:E. rewrite <- Hl.
  rewrite (for_find_run (procs s) (fun p => bool_decide (p_state p = UNUSED)) _ (fun i _ => i)
    (fun i s => s <| hw ::= lock_h (LProc i) |>)).
  - rewrite (list_find_ext _ (fun p => p_state p = UNUSED)); [done|].
    intros p. rewrite bool_decide_spec. done.
  - intros i p Hp. clear E. assert (procs_ok s) by done. mrun acquire_run. mrun proc_at_run.
    destruct (bool_decide _); [done|]. mrun release_run. msteps. same_hw.
Qed.

End Allocation.

(** ** Theorems *)

(** wakeup(ch) makes exactly the other processes that sleep on [ch]
    runnable and turns their [stime] from the time they went to sleep into the
    time they slept; no other process, lock or variable changes. *)
Lemma wakeup_wakes_exactly ch e s :
  procs_ok s ->
  exists ps, wakeup ch e s = Ret tt e (s <| procs := ps |>) /\ length ps = NPROC /\
    forall i p, procs s !! i = Some p ->
      ps !! i = Some
        (if bool_decide (p_state p = SLEEPING) && bool_decide (p_chan p = ch) &&
            bool_decide (Some i <> cur (hw s))
         then p <| p_state := RUNNABLE |> <| p_stime := ticks s -32 p_stime p |>
         else p).
Proof.
  intros Hok. exists (wake_all ch s). split; [by apply wakeup_run|].
  split; [unfold wake_all; rewrite length_imap; apply Hok|].
  intros i p Hp. unfold wake_all. rewrite list_lookup_imap, Hp. cbn. f_equal. unfold woken.
  destruct (decide (Some i = cur (hw s))) as [Hc|Hc].
  - rewrite (bool_decide_false (Some i <> _)) by (by intros []). by rewrite andb_false_r.
  - rewrite (bool_decide_true (Some i <> _)) by done. by rewrite andb_true_r.
Qed.


(** kill(pid) marks the first process with that pid as killed, makes it
    runnable if it was sleeping, and returns 0; without such a process it
    returns -1 and changes nothing. *)
Lemma kill_marks_first_match pid e s :
  procs_ok s ->
  ((forall i q, procs s !! i = Some q -> p_pid q <> pid) /\ kill pid e s = Ret (-1) e s) \/
  (exists i q, procs s !! i = Some q /\ p_pid q = pid /\
     (forall j r, procs s !! j = Some r -> (j < i)%nat -> p_pid r <> pid) /\
     kill pid e s = Ret 0 e (s <| procs ::= <[i := q <| p_killed := 1 |>
       <| p_state := if decide (p_state q = SLEEPING) then RUNNABLE else p_state q |>]> |>)).
Proof.
  intros Hok. rewrite (kill_run pid e s Hok).
  destruct (list_find _ (procs s)) as [[i q]|] eqn:E.
  - right. apply list_find_Some in E as (Hq & Hpid & Hfirst). exists i, q.
    split; [done|]. split; [by apply Is_true_eq_true, Z.eqb_eq in Hpid|]. split.
    + intros j r Hr Hj Heq. eapply (Hfirst j r Hr Hj). by rewrite Heq, Z.eqb_refl.
    + apply ret_state. state_eq. rewrite (list_insert_alter_const _ _ _ _ Hq).
      eapply alter_at; [done|].
      unfold slain, upd, upd_p_state, upd_p_killed. cbn. by destruct (p_state q).
  - left. split; [|done]. apply list_find_None in E. intros i q Hq Heq.
    eapply Forall_lookup_1 in E; [|done]. apply E. by rewrite Heq, Z.eqb_refl.
Qed.

(** setpriority() gives the first process with the pid the new static
    priority, forgets its running and sleeping times, returns the old priority
    and gives up the CPU exactly when the dynamic priority improved; without
    such a process it returns -1 and changes nothing. *)
Theorem setpriority_result p prio pid s :
  quiet p (hw s) -> (p < NPROC)%nat -> procs_ok s ->
  setpriority prio pid [] s =
    match list_find (fun q => p_pid q = pid) (procs s) with
    | None => Ret (-1) [] s
    | Some (i, q) =>
        let q' := q <| p_rtime := 0 |> <| p_stime := 0 |> <| p_priority := prio |> in
        let s' := s <| procs ::= <[i := q']> |> in
        if dynamic_priority q' <? dynamic_priority q
        then Away (s' <| hw ::= lock_h (LProc p) |>
                      <| procs ::= alter (fun p => p <| p_state := RUNNABLE |>) p |>)
        else Ret (p_priority q) [] s'
    end.
Proof.
  intros Hq Hlt Hok. unfold setpriority.
  rewrite (list_find_ext _ (fun q => p_pid q =? pid)) by (intros q; rewrite <- Z.eqb_eq; by destruct (_ =? _)).
  destruct Hok as [Hl Hok]. rewrite <- Hl. unfold bind at 1.
  rewrite (for_find_first (procs s) (fun q => p_pid q =? pid)).
  2:{ intros i q Hi Hne. mrun proc_at_run. by rewrite Hne. }
  destruct (list_find _ (procs s)) as [[i q]|] eqn:E; [|done].
  apply list_find_Some in E as (Hi & Hpid & _). apply Is_true_eq_true in Hpid.
  cbn [Nat.add]. cbv zeta. set (q' := q <| p_rtime := 0 |> <| p_stime := 0 |> <| p_priority := prio |>).
  set (s' := s <| procs ::= _ |>).
  assert (Hq' : procs s' !! i = Some q').
  { unfold s'. st. apply list_lookup_insert_eq. eauto using lookup_lt_Some. }
  assert (Hset : forall e, proc_upd i (fun p => p <| p_rtime := 0 |> <| p_stime := 0 |>
                   <| p_priority := prio |>) e s = Ret tt e s').
  { intros e. unfold proc_upd, modify. apply ret_state. unfold s'. state_eq.
    rewrite (list_insert_alter_const _ _ _ _ Hi). by eapply alter_at. }
  rewrite bind_assoc. mrun proc_at_run. rewrite Hpid, bind_assoc.
  erewrite bind_run by apply Hset. rewrite bind_assoc. mrun proc_at_run.
  destruct (dynamic_priority q' <? dynamic_priority q); [|done].
  rewrite bind_assoc, step_when_true.
  destruct (lookup_lt_is_Some_2 (procs s') p) as [pp Hp].
  { unfold s'. st. rewrite length_insert, Hl. done. }
  destruct Hq as (Hs & Hc & Hf & Hn). unfold bind at 1. by rewrite (yield_away p pp).
Qed.

(** C39: the dynamic priority is the documented formula, with no wrap-around,
    for a valid static priority and times below 2^28 ticks. *)
Theorem dynamic_priority_formula p :
  0 <= p_priority p <= 100 -> 0 <= p_rtime p < 2 ^ 28 -> 0 <= p_stime p < 2 ^ 28 ->
  let nice := if p_rtime p + p_stime p =? 0 then 5
              else 10 * p_stime p / (p_rtime p + p_stime p) in
  0 <= nice <= 10 /\
  dynamic_priority p = Z.max 0 (Z.min (p_priority p - nice + 5) 100).
Proof.
  intros Hp Hr Hs. cbv zeta. unfold dynamic_priority, niceness.
  rewrite !u32_small by lia. rewrite (Z.mul_comm (p_stime p) 10).
  destruct (Z.eqb_spec (p_rtime p + p_stime p) 0) as [E|E]; cbn [negb].
  - split; [lia|]. rewrite s32_small by lia. zcases; lia.
  - set (n := 10 * p_stime p / _). assert (0 <= n <= 10) as Hn.
    { unfold n. split; [apply Z.div_pos; lia|].
      apply Z.div_le_upper_bound; lia. }
    split; [done|]. rewrite (s32_small n) by lia. rewrite s32_small by lia. zcases; lia.
Qed.


(** C40: kill(0) succeeds on a free slot, and the next process allocated is born
    killed: allocproc() takes that slot and does not clear the flag. *)
Theorem kill_zero_dooms_next `{Platform} s s1 s2 p e :
  procs_ok s ->
  (forall i q, procs s !! i = Some q -> p_pid q = 0 <-> p_state q = UNUSED) ->
  kill 0 [] s = Ret 0 [] s1 -> allocproc [] s1 = Ret (Some p) e s2 ->
  exists q, procs s !! p = Some q /\ p_state q = UNUSED /\
    p_killed <$> procs s2 !! p = Some 1.
Proof.
  intros Hok Hpid Hk Ha. rewrite (kill_run 0 [] s Hok) in Hk.
  destruct (list_find _ (procs s)) as [[i q]|] eqn:E; [|done].
  injection Hk as <-. apply list_find_Some in E as (Hi & Hz & Hfirst).
  apply Is_true_eq_true, Z.eqb_eq in Hz.
  assert (p_state q = UNUSED) as Hu by (by apply (Hpid i)).
  set (s1 := s <| procs ::= alter slain i |>) in *.
  assert (list_find (fun p => p_state p = UNUSED) (procs s1) = Some (i, slain q)) as Hfind.
  { apply list_find_Some. unfold s1. st. split; [by rewrite list_lookup_alter, decide_True, Hi|].
    split; [cbn; by rewrite Hu|]. intros j r.
    rewrite list_lookup_alter. intros Hr Hlt Hun. rewrite decide_False in Hr by lia. apply (Hfirst j r Hr Hlt). apply (Hpid j r Hr) in Hun. by rewrite Hun. }
  assert (Hr : allocproc [] s1 = allocproc_found i [] (s1 <| hw ::= lock_h (LProc i) |>)).
  { change allocproc with (found <- find_unused; match found with
      | None => ret None | Some p => allocproc_found p end).
    unfold bind. rewrite find_unused_run by (by apply procs_ok_alter). by rewrite Hfind. }
  rewrite Hr in Ha. apply allocproc_found_entry in Ha as [-> (pid & tf & pt & now & Hps)];
    [|constructor]. exists q. split; [done|]. split; [done|]. rewrite Hps. unfold s1. st.
  by rewrite !list_lookup_alter, !decide_True, Hi by done.
Qed.

(** ** The sample machine satisfies the lock discipline *)

Lemma machine_settled ps : settled (hw (machine ps)).
Proof. exists cpu0. repeat split; done. Qed.

Lemma machine_quiet ps : quiet 0 (hw (machine ps)).
Proof. split; [apply machine_settled|]. split; [done|]. split; [by exists "lock"%string|done]. Qed.

Lemma machine_procs_ok ps : (length ps <= NPROC)%nat -> procs_ok (machine ps).
Proof.
  intros Hps. split; [|split].
  - cbn. rewrite length_app, length_replicate. unfold NPROC in *. lia.
  - apply machine_settled.
  - assert (Forall (fun i => locks0 !! LProc i = Some (unlocked "lock")) (seq 0 NPROC)) as Hall
      by (repeat constructor).
    intros i Hi. exists "lock"%string. apply (Forall_elem _ _ i Hall). apply elem_of_seq. lia.
Qed.


Lemma dynamic_priority_formula_witness :
  dynamic_priority (runnable 2 0 <| p_rtime := 6 |> <| p_stime := 4 |>) = 61.
Proof. apply dynamic_priority_formula; vm_compute; split; congruence. Defined.

(** Eight free pages: enough for a process. *)
Definition alloc_machine : kernel :=
  @stocked ((fun i => 0x80100000 + 4096 * Z.of_nat i) <$> seq 0 8) (machine [running 1]).

Definition allocates (p : nat) (o : outcome (option nat)) : bool :=
  match o with Ret (Some q) _ _ => (p =? q)%nat | _ => false end.

Lemma allocates_ret p o : allocates p o = true -> exists e s, o = Ret (Some p) e s.
Proof. destruct o as [[q|] e s| | | | |]; try done. intros ->%Nat.eqb_eq. eauto. Qed.

Lemma alloc_machine_pids i q :
  procs alloc_machine !! i = Some q -> p_pid q = 0 <-> p_state q = UNUSED.
Proof.
  change (procs alloc_machine) with (running 1 :: replicate (NPROC - 1) proc0).
  intros [[-> <-]|[_ [-> _]%lookup_replicate]]%lookup_cons_Some; done.
Qed.

Lemma kill_zero_dooms_next_witness :
  exists s1 e s2, kill 0 [] alloc_machine = Ret 0 [] s1 /\
    @allocproc platform0 [] s1 = Ret (Some 1%nat) e s2 /\ p_killed <$> procs s2 !! 1%nat = Some 1.
Proof.
  exists (alloc_machine <| procs ::= alter slain 1%nat |>).
  assert (Hok : procs_ok alloc_machine) by (apply (machine_procs_ok [running 1]); vm_compute; lia).
  assert (Hk : kill 0 [] alloc_machine = Ret 0 [] (alloc_machine <| procs ::= alter slain 1%nat |>)).
  { rewrite (kill_run 0 [] alloc_machine Hok).
    assert (list_find (fun p => p_pid p =? 0) (procs alloc_machine) = Some (1%nat, proc0)) as ->
      by reflexivity. done. }
  destruct (allocates_ret 1 (@allocproc platform0 [] (alloc_machine <| procs ::= alter slain 1%nat |>)))
    as (e & s2 & Ha); [vm_compute; reflexivity|].
  exists e, s2. split; [exact Hk|]. split; [exact Ha|].
  destruct (kill_zero_dooms_next _ _ _ _ _ Hok alloc_machine_pids Hk Ha) as (q & _ & _ & Hq).
  exact Hq.
Defined.
