(* ===== verification/Sched.v ===== *)
(** * The scheduler: scheduler() of proc.c

    [sched_round] is one iteration of the infinite loop under each of the four
    policies: a scan of the table that selects a process ([select]) and the
    switch to it ([dispatch]).  RR has no selection, it dispatches while it
    scans. *)

From stdpp Require Import sorting.
From S2P Require Import Prelude State Machine Monad Spinlock Cstring Kalloc Vm Proc.

Section Sched.
Context `{Platform} `{Config}.

Definition is_runnable (p : proc) : bool := bool_decide (p_state p = RUNNABLE).

(** [if(p->state == RUNNABLE){ ...; p->state = RUNNING; c->proc = p; swtch();
    c->proc = 0; }] under [p->lock]; [account] is what the policy records,
    [None] if that indexes an array out of bounds. *)
Definition dispatch (c : nat) (account : Z -> proc -> option proc) (p : nat) : M unit :=
  acquire (LProc p) ;;
  pp <- proc_at p;
  when (is_runnable pp)
    (now <- gets ticks;
     pp <- deref "qticks" (account now pp);
     proc_upd p (fun _ => pp) ;;
     proc_upd p (fun p => p <| p_state := RUNNING |>) ;;
     cpu_upd c (fun c => c <| c_proc := Some p |>) ;;
     away ;;
     cpu_upd c (fun c => c <| c_proc := None |>)) ;;
  release (LProc p).

(** A scan of the table under each process's lock, with the choice so far in
    a local variable. *)
Definition scan_procs {A} (step : A -> nat -> proc -> M A) (a : A) : M A :=
  for_fold (seq 0 NPROC) (fun a p =>
    acquire (LProc p) ;;
    pp <- proc_at p;
    a <- (if is_runnable pp then step a p pp else ret a);
    release (LProc p) ;;
    ret a) a.

(** ** First come, first served *)

Definition fcfs_step (sel : option nat) (p : nat) (pp : proc) : M (option nat) :=
  match sel with
  | None => ret (Some p)
  | Some q =>
      qq <- proc_at q;
      if p_ctime pp <? p_ctime qq then ret (Some p) else ret sel
  end.

Definition select_fcfs : M (option nat) := scan_procs fcfs_step None.

(** ** Priority based: the selected process and [max_dp] *)

Definition pbs_step (a : option nat * Z) (p : nat) (pp : proc) : M (option nat * Z) :=
  let '(sel, max_dp) := a in
  let dp := dynamic_priority pp in
  if dp <? max_dp then ret (Some p, dp)
  else if dp =? max_dp then
    q <- deref "selectedProc" sel;
    qq <- proc_at q;
    if p_ntime pp <? p_ntime qq then ret (Some p, max_dp)
    else if p_ntime pp =? p_ntime qq then
      if p_ctime pp <? p_ctime qq then ret (Some p, max_dp) else ret a
    else ret a
  else ret a.

Definition select_pbs : M (option nat) :=
  ' (sel, _) <- scan_procs pbs_step (None, 101); ret sel.

(** selectedProc->ntime++ *)
Definition count_run (now : Z) (p : proc) : option proc :=
  Some (p <| p_ntime ::= fun n => n +32 1 |>).

(** ** Multi-level feedback queue *)

(** The first loop: a process that has waited more than MAXAGE ticks moves up
    a queue. *)
Definition age_proc (now : Z) (p : proc) : proc :=
  if is_runnable p && negb (p_queue p =? 0) && (MAXAGE <? now -32 p_last_qtime p)
  then p <| p_queue ::= fun q => q - 1 |> <| p_last_qtime := s32 now |>
  else p.

Definition ageing : M unit :=
  for_ (seq 0 NPROC) (fun p =>
    acquire (LProc p) ;;
    now <- gets ticks;
    proc_upd p (age_proc now) ;;
    release (LProc p)).

Definition mlfq_step (sel : option nat) (p : nat) (pp : proc) : M (option nat) :=
  match sel with
  | None => ret (Some p)
  | Some q =>
      qq <- proc_at q;
      if (p_queue pp <? p_queue qq) ||
         ((p_queue pp =? p_queue qq) && (p_last_qtime pp <? p_last_qtime qq))
      then ret (Some p) else ret sel
  end.

Definition select_mlfq : M (option nat) := scan_procs mlfq_step None.

(** The accounting of a dispatch: qticks[] is indexed by the queue. *)
Definition account_mlfq (now : Z) (p : proc) : option proc :=
  let q := p_queue p in
  if (q <? 0) || (Z.of_nat NPQ <=? q) then None else
  Some (p <| p_last_qtime := s32 now |>
          <| p_qticks ::= alter (fun t => s32 (t + Z.shiftl 1 q)) (Z.to_nat q) |>
          <| p_ntime ::= fun n => n +32 1 |>).

(** ** The loop *)

Definition no_account (now : Z) (p : proc) : option proc := Some p.

Definition dispatch_selected (c : nat) (account : Z -> proc -> option proc) (sel : option nat) : M unit :=
  match sel with
  | Some p => dispatch c account p
  | None => ret tt
  end.

Definition sched_round (c : nat) : M unit :=
  intr_on ;;
  match sched_policy with
  | RR => for_ (seq 0 NPROC) (dispatch c no_account)
  | FCFS => sel <- select_fcfs; dispatch_selected c no_account sel
  | PBS => sel <- select_pbs; dispatch_selected c count_run sel
  | MLFQ => ageing ;; sel <- select_mlfq; dispatch_selected c account_mlfq sel
  end.

(** The first [n] rounds of the loop. *)
Definition scheduler (n : nat) : M unit :=
  c <- mycpu;
  cpu_upd c (fun c => c <| c_proc := None |>) ;;
  for_ (seq 0 n) (fun _ => sched_round c).

(** ** What a scan of the table selects *)

(** The runnable processes, with their table index, in table order. *)
Definition candidates (s : kernel) : list (nat * proc) :=
  filter (fun x => is_runnable x.2) (imap pair (procs s)).

(** The selected index is the first of the runnable processes with the least
    key. *)
Definition selected (key : proc -> Z * Z * Z) (s : kernel) (sel : option nat) : Prop :=
  match sel with
  | None => forall i p, procs s !! i = Some p -> p_state p <> RUNNABLE
  | Some i =>
      exists p, procs s !! i = Some p /\ p_state p = RUNNABLE /\
        (forall j q, procs s !! j = Some q -> p_state q = RUNNABLE -> lt3 (key q) (key p) = false) /\
        (forall j q, (j < i)%nat -> procs s !! j = Some q -> p_state q = RUNNABLE ->
           lt3 (key p) (key q) = true)
  end.

Definition key_fcfs (p : proc) : Z * Z * Z := (p_ctime p, 0, 0).

Definition key_pbs (p : proc) : Z * Z * Z := (dynamic_priority p, p_ntime p, p_ctime p).

Definition key_mlfq (p : proc) : Z * Z * Z := (p_queue p, p_last_qtime p, 0).

Lemma for_fold_run {A} (l : list proc) (I : A -> Prop) (f : A -> nat -> M A)
    (g : A -> nat -> proc -> A) k a e s :
  (forall a i p, I a -> l !! i = Some p ->
     f a (k + i)%nat e s = Ret (g a (k + i)%nat p) e s /\ I (g a (k + i)%nat p)) -> I a ->
  for_fold (seq k (length l)) f a e s =
    Ret (fold_left (fun a x => g a x.1 x.2) (imap (fun i p => (k + i, p)%nat) l) a) e s.
Proof.
  revert k a. induction l as [|p l IH]; intros k a Hf Ha; [done|].
  cbn [length seq for_fold imap fold_left fst snd].
  destruct (Hf a 0%nat p Ha eq_refl) as [Hr Hi]. rewrite Nat.add_0_r in Hr, Hi |- *.
  rewrite (bind_run _ _ _ _ _ _ _ Hr). rewrite IH; [|..|done].
  - do 2 f_equal. apply imap_ext. intros i q _. by rewrite Nat.add_succ_comm.
  - intros a' i q Ha' Hq. rewrite Nat.add_succ_comm. by apply Hf.
Qed.

Lemma scan_procs_run {A} (I : A -> Prop) (step : A -> nat -> proc -> M A)
    (g : A -> nat -> proc -> A) a e s :
  procs_ok s ->
  (forall a i p h, I a -> procs s !! i = Some p -> p_state p = RUNNABLE ->
     step a i p e (s <| hw := h |>) = Ret (g a i p) e (s <| hw := h |>) /\ I (g a i p)) ->
  I a ->
  scan_procs step a e s = Ret (fold_left (fun a x => g a x.1 x.2) (candidates s) a) e s.
Proof.
  intros Hok Hs Ha. unfold scan_procs. destruct Hok as [Hl Hok']. rewrite <- Hl.
  rewrite (for_fold_run (procs s) I _ (fun a i p => if is_runnable p then g a i p else a));
    [|..|done].
  - unfold candidates. by rewrite <- fold_left_filter.
  - intros a' i p Ha' Hp. assert (Hok : procs_ok s) by done. mrun acquire_run.
    mrun proc_at_run. destruct (is_runnable p) eqn:E.
    + apply bool_decide_eq_true in E.
      destruct (Hs a' i p (lock_h (LProc i) (hw s)) Ha' Hp E) as [Hr Hi].
      split; [|done]. erewrite bind_run by exact Hr. mrun release_run. msteps. same_hw.
    + split; [|done]. msteps. mrun release_run. msteps. same_hw.
Qed.

Lemma elem_of_candidates s i p :
  (i, p) ∈ candidates s <-> procs s !! i = Some p /\ p_state p = RUNNABLE.
Proof.
  unfold candidates. rewrite list_elem_of_filter, elem_of_lookup_imap. cbn.
  unfold is_runnable. rewrite bool_decide_spec. split.
  - intros [Hr (j & q & [= -> ->] & Hq)]. done.
  - intros [Hp Hr]. split; [done|]. by exists i, p.
Qed.

(** Candidates come in the order of their indices. *)
Definition before (x y : nat * proc) : Prop := (x.1 < y.1)%nat.

Lemma sorted_imap k (l : list proc) :
  StronglySorted before (imap (fun i p => (k + i, p)%nat) l).
Proof.
  revert k. induction l as [|p l IH]; intros k; constructor.
  - erewrite imap_ext; [apply (IH (S k))|]. intros i q _. cbn. by rewrite Nat.add_succ_r.
  - apply Forall_forall. intros x (i & q & -> & _)%elem_of_lookup_imap. unfold before. cbn. lia.
Qed.

Lemma sorted_candidates s : StronglySorted before (candidates s).
Proof.
  unfold candidates. assert (Hs := sorted_imap 0 (procs s)). cbn in Hs.
  change (imap pair (procs s)) with (imap (fun i p => (i, p)) (procs s)).
  induction Hs as [|x l Hs IH Hx]; [constructor|]. rewrite filter_cons.
  case_decide; [|done]. constructor; [done|]. rewrite Forall_forall in Hx |- *.
  intros y [_ Hy]%list_elem_of_filter. by apply Hx.
Qed.

Lemma sorted_before l1 l2 x y :
  StronglySorted before (l1 ++ x :: l2) -> y ∈ l1 ++ x :: l2 -> before y x -> y ∈ l1.
Proof.
  intros Hs. induction l1 as [|z l1 IH]; cbn in *.
  - apply StronglySorted_inv in Hs as [_ Hx]. intros [->|Hy]%elem_of_cons; unfold before; [lia|].
    rewrite Forall_forall in Hx. specialize (Hx y Hy). unfold before in Hx. lia.
  - apply StronglySorted_inv in Hs as [Hs _]. intros [->|Hy]%elem_of_cons Hb; set_solver.
Qed.

Definition better (key : proc -> Z * Z * Z) (x y : nat * proc) : bool := lt3 (key x.2) (key y.2).

Lemma scan_selected key s : selected key s (fst <$> scan (better key) (candidates s)).
Proof.
  pose proof (fun x : nat * proc => lt3_irrefl (key x.2)) as Hirr.
  pose proof (fun x y z : nat * proc => lt3_trans (key x.2) (key y.2) (key z.2)) as Htr.
  pose proof (fun x y z : nat * proc => lt3_cotrans (key x.2) (key y.2) (key z.2)) as Hco.
  destruct (scan (better key) (candidates s)) as [[i p]|] eqn:E; cbn.
  - apply scan_spec in E as (l1 & l2 & Hl & H1 & H2); [|done..].
    assert (Hin : (i, p) ∈ candidates s) by (rewrite Hl; set_solver).
    apply elem_of_candidates in Hin as [Hp Hr]. exists p. split; [done|]. split; [done|]. split.
    + intros j q Hq Hqr. assert (Hin : (j, q) ∈ candidates s) by by apply elem_of_candidates.
      destruct (decide (j = i)) as [->|Hne].
      { rewrite Hp in Hq. injection Hq as ->. apply (Hirr (i, q)). }
      apply (H2 (j, q)). rewrite Hl in Hin. set_solver.
    + intros j q Hj Hq Hqr. apply (H1 (j, q)).
      assert (Hin : (j, q) ∈ candidates s) by by apply elem_of_candidates.
      pose proof (sorted_candidates s) as Hs. rewrite Hl in Hs, Hin.
      by apply (sorted_before _ _ _ _ Hs Hin).
  - apply scan_None in E; [|done..]. intros i p Hp Hr.
    assert (Hin : (i, p) ∈ candidates s) by by apply elem_of_candidates. rewrite E in Hin.
    by apply elem_of_nil in Hin.
Qed.

(** ** The code's scans compute that selection

    The code keeps the index of the best process so far and looks it up again
    for each comparison. *)

(** An index as the process it denotes. *)
Definition entry (s : kernel) (i : nat) : option (nat * proc) := p ← procs s !! i; Some (i, p).

Definition valid (s : kernel) (sel : option nat) : Prop :=
  match sel with Some i => is_Some (procs s !! i) | None => True end.

Definition pick (key : proc -> Z * Z * Z) (s : kernel) (sel : option nat) (i : nat) (p : proc)
    : option nat :=
  fst <$> keep (better key) (sel ≫= entry s) (i, p).

Lemma fold_pick key s l b :
  Forall (fun x => procs s !! x.1 = Some x.2) l ->
  match b with Some x => procs s !! x.1 = Some x.2 | None => True end ->
  fold_left (fun a x => pick key s a x.1 x.2) l (fst <$> b) =
  fst <$> fold_left (keep (better key)) l b.
Proof.
  revert b. induction l as [|[i p] l IH]; intros b Hl Hb; [done|].
  apply Forall_cons in Hl as [Hx Hl]. cbn [fold_left fst snd]. rewrite <- IH; [|done|].
  - f_equal. unfold pick. do 2 f_equal. destruct b as [[j q]|]; [|done]. cbn. unfold entry.
    cbn in Hb. by rewrite Hb.
  - destruct b as [[j q]|]; cbn; [|done]. by destruct (better key (i, p) (j, q)).
Qed.

Lemma candidates_valid s : Forall (fun x => procs s !! x.1 = Some x.2) (candidates s).
Proof. apply Forall_forall. intros [i p] Hx. by apply elem_of_candidates in Hx as [? _]. Qed.

Lemma pick_valid key s a i p :
  valid s a -> procs s !! i = Some p -> valid s (pick key s a i p).
Proof.
  intros Ha Hp. unfold pick, valid in *. destruct a as [q|]; cbn; [|by rewrite Hp].
  destruct Ha as [qq Hq]. unfold entry. rewrite Hq. cbn.
  destruct (better key (i, p) (q, qq)); cbn; by rewrite ?Hp, ?Hq.
Qed.

Lemma scan_pick_run key step e s :
  procs_ok s ->
  (forall a i p h, valid s a -> procs s !! i = Some p ->
     step a i p e (s <| hw := h |>) = Ret (pick key s a i p) e (s <| hw := h |>)) ->
  scan_procs step None e s = Ret (fst <$> scan (better key) (candidates s)) e s.
Proof.
  intros Hok Hs. rewrite (scan_procs_run (valid s) step (pick key s)); [|done| |done].
  - f_equal. apply (fold_pick key s _ None); [apply candidates_valid|done].
  - intros a i p h Ha Hp _. split; [by apply Hs|by apply pick_valid].
Qed.

Lemma fcfs_step_run a i p h e s :
  valid s a -> procs s !! i = Some p ->
  fcfs_step a i p e (s <| hw := h |>) = Ret (pick key_fcfs s a i p) e (s <| hw := h |>).
Proof.
  intros Ha Hp. unfold fcfs_step, pick. destruct a as [q|]; [|done]. destruct Ha as [qq Hq].
  mrun (proc_at_run q). unfold entry. cbn. rewrite Hq. cbn. unfold better, key_fcfs, lt3. cbn.
  rewrite Z.eqb_refl, Z.ltb_irrefl, andb_false_r, orb_false_r.
  by destruct (p_ctime p <? p_ctime qq).
Qed.

Lemma mlfq_step_run a i p h e s :
  valid s a -> procs s !! i = Some p ->
  mlfq_step a i p e (s <| hw := h |>) = Ret (pick key_mlfq s a i p) e (s <| hw := h |>).
Proof.
  intros Ha Hp. unfold mlfq_step, pick. destruct a as [q|]; [|done]. destruct Ha as [qq Hq].
  mrun (proc_at_run q). unfold entry. cbn. rewrite Hq. cbn. unfold better, key_mlfq, lt3. cbn.
  rewrite Z.ltb_irrefl, andb_false_r, orb_false_r. by destruct (_ || _).
Qed.

(** [max_dp] is the key of the selection so far. *)
Definition pbs_acc (s : kernel) (sel : option nat) : option nat * Z :=
  (sel, match sel ≫= entry s with Some x => dynamic_priority x.2 | None => 101 end).

Lemma dynamic_priority_range p : 0 <= dynamic_priority p <= 100.
Proof.
  unfold dynamic_priority. destruct (Z.ltb_spec 100 (s32 (p_priority p - niceness p + 5))).
  - done.
  - destruct (Z.ltb_spec (s32 (p_priority p - niceness p + 5)) 0); lia.
Qed.

Lemma pbs_step_run a i p h e s :
  valid s a -> procs s !! i = Some p ->
  pbs_step (pbs_acc s a) i p e (s <| hw := h |>) =
    Ret (pbs_acc s (pick key_pbs s a i p)) e (s <| hw := h |>).
Proof.
  intros Ha Hp. unfold pbs_step, pick, pbs_acc. pose proof (dynamic_priority_range p).
  destruct a as [q|]; cbn.
  - destruct Ha as [qq Hq]. unfold entry. rewrite Hq. cbn. unfold better, key_pbs, lt3. cbn.
    destruct (_ <? _) eqn:E1; cbn; [by rewrite Hp|].
    destruct (_ =? _) eqn:E2; cbn; [|by rewrite Hq]. apply Z.eqb_eq in E2.
    mrun (proc_at_run q).
    destruct (p_ntime p <? _); cbn; [by rewrite Hp, <- E2|].
    destruct (p_ntime p =? _); cbn; [|by rewrite Hq].
    destruct (p_ctime p <? _); cbn; [by rewrite Hp, <- E2|by rewrite Hq].
  - destruct (Z.ltb_spec (dynamic_priority p) 101); [|lia]. unfold entry. by rewrite Hp.
Qed.

Lemma select_fcfs_run e s :
  procs_ok s ->
  select_fcfs e s = Ret (fst <$> scan (better key_fcfs) (candidates s)) e s.
Proof. intros Hok. apply scan_pick_run; [done|]. intros; by apply fcfs_step_run. Qed.

Lemma select_mlfq_run e s :
  procs_ok s ->
  select_mlfq e s = Ret (fst <$> scan (better key_mlfq) (candidates s)) e s.
Proof. intros Hok. apply scan_pick_run; [done|]. intros; by apply mlfq_step_run. Qed.

Lemma fold_pbs_acc s l a :
  fold_left (fun a x => pbs_acc s (pick key_pbs s a.1 x.1 x.2)) l (pbs_acc s a) =
  pbs_acc s (fold_left (fun a x => pick key_pbs s a x.1 x.2) l a).
Proof. revert a. induction l as [|x l IH]; intros a; [done|]. apply IH. Qed.

Lemma select_pbs_run e s :
  procs_ok s ->
  select_pbs e s = Ret (fst <$> scan (better key_pbs) (candidates s)) e s.
Proof.
  intros Hok. unfold select_pbs. change (None, 101) with (pbs_acc s None).
  pose proof (scan_procs_run (fun a => exists sel, a = pbs_acc s sel /\ valid s sel) pbs_step
    (fun a i p => pbs_acc s (pick key_pbs s a.1 i p)) (pbs_acc s None) e s Hok) as Hr.
  cbv beta in Hr. rewrite fold_pbs_acc in Hr. erewrite bind_run; [|apply Hr].
  - unfold pbs_acc at 1. cbv beta iota. unfold ret. f_equal.
    apply (fold_pick key_pbs s _ None); [apply candidates_valid|done].
  - intros a i p h (sel & -> & Hv) Hp _. split; [by apply pbs_step_run|].
    eexists. split; [done|]. by apply pick_valid.
  - by exists None.
Qed.

(** *** Ageing *)

Lemma ageing_run e s :
  procs_ok s ->
  ageing e s = Ret tt e (s <| procs ::= imap (fun _ => age_proc (ticks s)) |>).
Proof.
  intros Hok. unfold ageing.
  rewrite (for_procs_run (fun s' => ticks s' = ticks s) (fun _ => age_proc (ticks s)));
    [done| |done|done|done].
  intros i s' p Hok' Ht Hp. mrun acquire_run. msteps. rewrite Ht. unfold proc_upd. msteps.
  rewrite release_run by (st; eauto with kernel). same_hw.
Qed.

(** *** Dispatching *)

Lemma dispatch_idle c account p pp e s :
  settled (hw s) -> free (LProc p) (hw s) -> procs s !! p = Some pp -> p_state pp <> RUNNABLE ->
  dispatch c account p e s = Ret tt e s.
Proof.
  intros Hs Hf Hp Hr. unfold dispatch. mrun acquire_run. mrun proc_at_run.
  unfold is_runnable. rewrite bool_decide_false by done. msteps.
  rewrite release_run by (st; eauto with kernel). same_hw.
Qed.

(** The state in which the scheduler has switched to process [p], whose table
    entry is [pp]. *)
Definition switched (c p : nat) (pp : proc) (s : kernel) : kernel :=
  s <| procs ::= <[p := pp <| p_state := RUNNING |>]> |>
    <| hw ::= fun h => lock_h (LProc p) h <| cpus ::= alter (fun c => c <| c_proc := Some p |>) c |> |>.

Lemma dispatch_away c account p pp pp' s :
  settled (hw s) -> free (LProc p) (hw s) -> procs s !! p = Some pp -> p_state pp = RUNNABLE ->
  account (ticks s) pp = Some pp' ->
  dispatch c account p [] s = Away (switched c p pp' s).
Proof.
  intros Hs Hf Hp Hr Ha. unfold dispatch. mrun acquire_run. mrun proc_at_run.
  unfold is_runnable. rewrite bool_decide_true by done. msteps. rewrite Ha.
  unfold proc_upd, cpu_upd. msteps. unfold away, bind at 1. f_equal. unfold switched. state_eq.
  rewrite list_alter_alter_eq. by rewrite (list_insert_alter_const _ _ _ pp).
Qed.

Lemma intr_on_id e s : sie (hw s) = true -> intr_on e s = Ret tt e s.
Proof.
  intros Hs. unfold intr_on, r_sstatus, w_sstatus. msteps. apply ret_state. state_eq.
  apply hart_eq; st; try done. unfold sie in Hs. apply Z.bits_inj'. intros n Hn.
  change SSTATUS_SIE with (2 ^ 1). rewrite Z.lor_spec, Z.pow2_bits_eqb by lia.
  destruct (Z.eqb_spec 1 n) as [<-|]; [by rewrite Hs | by rewrite orb_false_r].
Qed.

(** *** The queues of MLFQ *)

(** Every process is in one of the NPQ queues. *)
Definition queue_ok (p : proc) : Prop :=
  0 <= p_queue p < Z.of_nat NPQ /\ length (p_qticks p) = NPQ.

Definition queues_ok (s : kernel) : Prop := Forall queue_ok (procs s).

Lemma age_queue_ok now p : queue_ok p -> queue_ok (age_proc now p).
Proof.
  intros [Hq Hl]. unfold age_proc. destruct (_ && _) eqn:E; [|done]. destruct_bool.
  split; [cbn; lia|done].
Qed.

Lemma account_mlfq_ok now p :
  queue_ok p -> exists p', account_mlfq now p = Some p' /\ queue_ok p' /\ p_queue p' = p_queue p.
Proof.
  intros [Hq Hl]. unfold account_mlfq.
  destruct (Z.ltb_spec (p_queue p) 0); [lia|]. destruct (Z.leb_spec (Z.of_nat NPQ) (p_queue p)); [lia|].
  cbn. eexists. split; [done|]. split; [|done]. split; [done|]. cbn. by rewrite length_alter.
Qed.

(** The state after the ageing loop. *)
Definition aged (s : kernel) : kernel := s <| procs ::= imap (fun _ => age_proc (ticks s)) |>.

Lemma Forall_imap {A} (P : A -> Prop) (f : nat -> A -> A) l :
  (forall i x, P x -> P (f i x)) -> Forall P l -> Forall P (imap f l).
Proof.
  intros Hf Hl. apply Forall_lookup. intros i x. rewrite list_lookup_imap.
  intros (y & Hy & ->)%fmap_Some. apply Hf. by eapply Forall_lookup_1.
Qed.

Lemma aged_ok s : procs_ok s -> queues_ok s -> procs_ok (aged s) /\ queues_ok (aged s).
Proof.
  intros Hok Hq. split; [by apply procs_ok_imap|]. unfold aged, queues_ok. st.
  apply Forall_imap; [|done]. intros. by apply age_queue_ok.
Qed.

Lemma queues_ok_switched c i p s :
  queues_ok s -> queue_ok p -> queues_ok (switched c i p s).
Proof. intros Hs Hp. unfold queues_ok, switched. st. by apply Forall_insert. Qed.

(** *** Ageing over time *)

(** The times of successive rounds, each more than MAXAGE ticks after the one
    before; [from] is when the process entered its queue. *)
Fixpoint spaced (from : Z) (times : list Z) : Prop :=
  match times with
  | [] => True
  | t :: times => from + MAXAGE < t < 2 ^ 31 /\ spaced t times
  end.

Definition aged_over (times : list Z) (p : proc) : proc :=
  fold_left (fun p t => age_proc t p) times p.

Lemma age_runnable now p : p_state (age_proc now p) = p_state p.
Proof. unfold age_proc. by destruct (_ && _). Qed.

Lemma age_moves_up now p :
  p_state p = RUNNABLE -> 0 < p_queue p -> 0 <= p_last_qtime p ->
  p_last_qtime p + MAXAGE < now < 2 ^ 31 ->
  age_proc now p = p <| p_queue := p_queue p - 1 |> <| p_last_qtime := now |>.
Proof.
  intros Hr Hq Hl Hn. unfold age_proc, is_runnable, MAXAGE in *. rewrite bool_decide_true by done.
  destruct (Z.eqb_spec (p_queue p) 0); [lia|]. rewrite u32_small by lia.
  destruct (Z.ltb_spec 15 (now - p_last_qtime p)); [|lia]. cbn. by rewrite s32_small by lia.
Qed.

Lemma age_top now p : p_queue p = 0 -> age_proc now p = p.
Proof. intros Hq. unfold age_proc. by rewrite Hq, andb_false_r. Qed.

Lemma aged_over_top times p : p_queue p = 0 -> aged_over times p = p.
Proof.
  intros Hq. induction times as [|t times IH]; [done|]. unfold aged_over. cbn.
  by rewrite age_top.
Qed.

(** ** Theorems *)

(** Under FCFS the scan of the process table selects, among the runnable
    processes, the one created first (the lowest table slot among equals), and
    none exactly when no process is runnable. *)
Theorem fcfs_selects_earliest e s :
  procs_ok s ->
  exists sel, select_fcfs e s = Ret sel e s /\ selected key_fcfs s sel.
Proof. intros Hok. eexists. split; [by apply select_fcfs_run|apply scan_selected]. Qed.

(** C16: under PBS the scan selects the runnable process with the least dynamic
    priority, ties broken by the number of times it was scheduled and then by
    creation time; the null selectedProc is never dereferenced. *)
Theorem pbs_selects_lowest_priority e s :
  procs_ok s ->
  exists sel, select_pbs e s = Ret sel e s /\ selected key_pbs s sel.
Proof. intros Hok. eexists. split; [by apply select_pbs_run|apply scan_selected]. Qed.

(** Under MLFQ the scan selects the front of the topmost non-empty queue:
    the least queue number and, within it, the process that has been in the
    queue longest. *)
Theorem mlfq_selects_front_of_top_queue e s :
  procs_ok s ->
  exists sel, select_mlfq e s = Ret sel e s /\ selected key_mlfq s sel.
Proof. intros Hok. eexists. split; [by apply select_mlfq_run|apply scan_selected]. Qed.

(** C13: one round of the MLFQ scheduler.  It first ages the waiting processes,
    then either finds nothing runnable and changes nothing else, or switches
    to the front of the topmost queue, charging its time slice to that queue;
    no array is indexed out of bounds, no lock is left wrong, and every process
    is still in one of the five queues. *)
Theorem mlfq_round_dispatches c s :
  sched_policy = MLFQ -> procs_ok s -> queues_ok s -> sie (hw s) = true ->
  (selected key_mlfq (aged s) None /\ sched_round c [] s = Ret tt [] (aged s)) \/
  (exists i p p', selected key_mlfq (aged s) (Some i) /\ procs (aged s) !! i = Some p /\
     account_mlfq (ticks s) p = Some p' /\
     sched_round c [] s = Away (switched c i p' (aged s)) /\
     queues_ok (switched c i p' (aged s))).
Proof.
  intros Hpol Hok Hq Hsie. destruct (aged_ok s Hok Hq) as [Hok' Hq'].
  assert (Hr : sched_round c [] s =
    dispatch_selected c account_mlfq (fst <$> scan (better key_mlfq) (candidates (aged s))) [] (aged s)).
  { unfold sched_round. rewrite Hpol. erewrite bind_run by (by apply intr_on_id).
    erewrite bind_run by (by apply ageing_run). fold (aged s).
    by erewrite bind_run by (by apply select_mlfq_run). }
  rewrite Hr. pose proof (scan_selected key_mlfq (aged s)) as Hsel.
  destruct (fst <$> scan _ _) as [i|]; [right|by left].
  destruct Hsel as (p & Hp & Hrun & Hrest). 
  destruct (account_mlfq_ok (ticks s) p) as (p' & Ha & Hqp & _).
  { by eapply Forall_lookup_1 in Hq'. }
  exists i, p, p'. split; [by exists p|]. split; [done|]. split; [done|]. split.
  - cbn. apply dispatch_away with p; eauto with kernel.
  - by apply queues_ok_switched.
Qed.


End Sched.

(** Four processes on the sample machine: one running, three runnable. *)
Definition demo : kernel := machine [running 1; runnable 2 7; runnable 3 5; runnable 4 5].

Lemma pbs_selects_lowest_priority_witness :
  exists sel, select_pbs [] demo = Ret sel [] demo /\ selected key_pbs demo sel.
Proof. apply pbs_selects_lowest_priority. apply machine_procs_ok. vm_compute. lia. Defined.

Lemma demo_queues_ok : queues_ok demo.
Proof. unfold queues_ok. apply Forall_forall. intros p Hp.
  assert (Forall (fun p => p_queue p = 0 /\ length (p_qticks p) = NPQ) (procs demo)) as Hall
    by (repeat constructor).
  destruct (Forall_elem _ _ _ Hall Hp) as [Hq Hl]. split; [rewrite Hq; done|done].
Qed.

Lemma mlfq_round_dispatches_witness :
  let c := 0%nat in
  (selected key_mlfq (aged demo) None /\ @sched_round MLFQ c [] demo = Ret tt [] (aged demo)) \/
  (exists i p p', selected key_mlfq (aged demo) (Some i) /\ procs (aged demo) !! i = Some p /\
     account_mlfq (ticks demo) p = Some p' /\
     @sched_round MLFQ c [] demo = Away (switched c i p' (aged demo)) /\
     queues_ok (switched c i p' (aged demo))).
Proof.
  apply (@mlfq_round_dispatches MLFQ); [done| |apply demo_queues_ok|done].
  apply machine_procs_ok. vm_compute. lia.
Defined.

