(* ===== verification/Sleeplock.v ===== *)
(** * Sleep-locks: sleeplock.c

    A sleep-lock is a field of its buffer or in-memory inode; [sleepid] names
    it, its spinlock [lk->lk] ([LSleep]) and its sleep channel. *)

From S2P Require Import Prelude State Monad Spinlock Kalloc Vm Proc.

(** The sleep-lock a name stands for, read and updated in the state. *)
Definition slock_of (id : sleepid) (s : kernel) : option sleeplock :=
  match id with
  | SBuf i => b_lock <$> bcache s !! i
  | SInode i => i_lock <$> itable s !! i
  end.

Definition slock_set (id : sleepid) (f : sleeplock -> sleeplock) (s : kernel) : kernel :=
  match id with
  | SBuf i => s <| bcache ::= alter (fun b => b <| b_lock ::= f |>) i |>
  | SInode i => s <| itable ::= alter (fun ip => ip <| i_lock ::= f |>) i |>
  end.

Definition slock_at (id : sleepid) : M sleeplock :=
  o <- gets (slock_of id); deref "sleeplock" o.

Definition slock_upd (id : sleepid) (f : sleeplock -> sleeplock) : M unit := modify (slock_set id f).

Definition initsleeplock (lk : sleepid) (name : string) : M unit :=
  initlock (LSleep lk) "sleep lock" ;;
  slock_upd lk (fun l => l <| sl_name := name |> <| sl_locked := false |> <| sl_pid := 0 |>).

Definition acquiresleep (lk : sleepid) : M unit :=
  acquire (LSleep lk) ;;
  sleep_loop 0 (fun _ =>
    l <- slock_at lk;
    if sl_locked l then sleep (ChSleepLock lk) (LSleep lk) ;; ret (inl tt)
    else ret (inr tt)) tt ;;
  slock_upd lk (fun l => l <| sl_locked := true |>) ;;
  p <- curproc; pp <- proc_at p;
  slock_upd lk (fun l => l <| sl_pid := p_pid pp |>) ;;
  release (LSleep lk).

Definition releasesleep (lk : sleepid) : M unit :=
  acquire (LSleep lk) ;;
  slock_upd lk (fun l => l <| sl_locked := false |> <| sl_pid := 0 |>) ;;
  wakeup (ChSleepLock lk) ;;
  release (LSleep lk).

Definition holdingsleep (lk : sleepid) : M bool :=
  acquire (LSleep lk) ;;
  l <- slock_at lk;
  r <- (if sl_locked l
        then p <- curproc; pp <- proc_at p; ret (sl_pid l =? p_pid pp)
        else ret false);
  release (LSleep lk) ;;
  ret r.

(** ** Running *)

(** Process [p] with number [pid] runs on this hart in kernel code, with no
    spinlock held by anyone. *)
Definition calm (p : nat) (pid : Z) (s : kernel) : Prop :=
  procs_ok s /\ quiet p (hw s) /\
  exists pp, procs s !! p = Some pp /\ p_pid pp = pid /\ p_state pp = RUNNING.

Definition taken_by (pid : Z) (l : sleeplock) : sleeplock := l <| sl_locked := true |> <| sl_pid := pid |>.

Definition let_go (l : sleeplock) : sleeplock := l <| sl_locked := false |> <| sl_pid := 0 |>.

Lemma slock_of_hw id f s : slock_of id (s <| hw ::= f |>) = slock_of id s.
Proof. by destruct id. Qed.

Lemma slock_set_hw id f s : hw (slock_set id f s) = hw s.
Proof. by destruct id. Qed.

Lemma slock_set_procs id f s : procs (slock_set id f s) = procs s.
Proof. by destruct id. Qed.

Lemma slock_set_comm id f g s : slock_set id f (s <| hw ::= g |>) = slock_set id f s <| hw ::= g |>.
Proof. by destruct id. Qed.

Lemma slock_set_set id f g s : slock_set id g (slock_set id f s) = slock_set id (g ∘ f) s.
Proof.
  destruct id; cbn [slock_set]; apply kernel_eq; st; try done; apply list_alter_alter_eq.
Qed.

Lemma slock_at_run id l e s : slock_of id s = Some l -> slock_at id e s = Ret l e s.
Proof. intros Hl. unfold slock_at. msteps. by rewrite Hl. Qed.

Lemma calm_settled p pid s : calm p pid s -> settled (hw s).
Proof. by intros (_ & (? & _) & _). Qed.

Lemma calm_cur p pid s : calm p pid s -> cur (hw s) = Some p.
Proof. by intros (_ & (_ & ? & _) & _). Qed.

#[export] Hint Resolve calm_settled calm_cur : kernel.

(** acquiresleep() of a free lock does not sleep. *)
Lemma acquiresleep_run p pid id l e s :
  calm p pid s -> free (LSleep id) (hw s) -> slock_of id s = Some l -> sl_locked l = false ->
  acquiresleep id e s = Ret tt e (slock_set id (taken_by pid) s).
Proof.
  intros Hc Hf Hl Hu. destruct Hc as (Hok & (Hs & Hcur & _) & pp & Hpp & <- & _).
  unfold acquiresleep. mrun acquire_run.
  erewrite bind_run; [|unfold sleep_loop; apply (while_run 1); [|lia]; rewrite unroll_S;
    erewrite bind_run; [|erewrite bind_run by (apply slock_at_run; rewrite slock_of_hw; exact Hl);
                         rewrite Hu; reflexivity]; reflexivity].
  unfold slock_upd. rewrite step_modify, slock_set_comm.
  erewrite bind_run by (apply (curproc_run p); st; rewrite slock_set_hw; [|rewrite cur_lock]; eauto with kernel).
  erewrite bind_run by (apply proc_at_run; st; rewrite slock_set_procs; exact Hpp).
  rewrite step_modify, slock_set_comm, slock_set_set.
  rewrite release_run by (st; rewrite slock_set_hw; eauto with kernel).
  apply ret_state. transitivity (slock_set id (taken_by (p_pid pp)) s <| hw ::= fun _ => hw s |>).
  - apply kernel_eq; st; try done. rewrite slock_set_hw. by apply unlock_lock.
  - apply kernel_eq; st; try done. by rewrite slock_set_hw.
Qed.

Lemma releasesleep_run p pid id e s :
  calm p pid s -> free (LSleep id) (hw s) ->
  releasesleep id e s =
    Ret tt e (slock_set id let_go s <| procs := wake_all (ChSleepLock id) s |>).
Proof.
  intros Hc Hf. destruct Hc as (Hok & (Hs & Hcur & _) & _).
  unfold releasesleep. mrun acquire_run. unfold slock_upd. rewrite step_modify, slock_set_comm.
  erewrite bind_run; [|apply wakeup_run].
  2:{ apply procs_ok_lock; [|done]. destruct Hok as (? & ? & ?). split; rewrite ?slock_set_procs, ?slock_set_hw; done. }
  rewrite release_run by (st; rewrite slock_set_hw; eauto with kernel).
  apply ret_state, kernel_eq; st; try done.
  - rewrite !slock_set_hw. by apply unlock_lock.
  - unfold wake_all. st. rewrite slock_set_procs, slock_set_hw, cur_lock. by destruct id.
Qed.

Lemma holdingsleep_run p pid id l e s :
  calm p pid s -> free (LSleep id) (hw s) -> slock_of id s = Some l ->
  holdingsleep id e s = Ret (sl_locked l && (sl_pid l =? pid)) e s.
Proof.
  intros Hc Hf Hl. destruct Hc as (Hok & (Hs & Hcur & _) & pp & Hpp & <- & _).
  unfold holdingsleep. mrun acquire_run.
  erewrite bind_run by (apply slock_at_run; rewrite slock_of_hw; exact Hl).
  destruct (sl_locked l); cbn [andb]; msteps.
  - erewrite bind_run by (apply (curproc_run p); st; [|rewrite cur_lock]; eauto with kernel).
    rewrite bind_assoc. mrun proc_at_run. msteps. mrun release_run. same_hw.
  - mrun release_run. same_hw.
Qed.

Lemma calm_slock p pid id f s : calm p pid s -> calm p pid (slock_set id f s).
Proof.
  intros ((Hl & Hs & Hf) & Hq & Hpp). split; [split; [|split]|split];
    rewrite ?slock_set_procs, ?slock_set_hw; done.
Qed.

(** Waking others leaves the running process as it was. *)
Lemma wake_all_cur ch p s : cur (hw s) = Some p -> wake_all ch s !! p = procs s !! p.
Proof.
  intros Hc. unfold wake_all. rewrite list_lookup_imap.
  destruct (procs s !! p); cbn; [|done]. by rewrite decide_True.
Qed.

Lemma calm_wake ch p pid s : calm p pid s -> calm p pid (s <| procs := wake_all ch s |>).
Proof.
  intros (Hok & Hq & pp & Hpp & ?). split; [by apply procs_ok_wake|]. split; [done|].
  exists pp. st. destruct Hq as (_ & Hc & _). by rewrite wake_all_cur.
Qed.
