(* ===== verification/Virtio.v ===== *)
(** * The disk driver: virtio_disk.c

    The driver's rings are the fields of [vdisk].  What the device does with
    them (read a request, move the data, put the chain on the used ring, raise
    the interrupt) happens while the caller sleeps, so it is part of the
    environment.  Device registers are read and written through [mmio_read]
    and [mmio_write]. *)

From S2P Require Import Prelude State Monad Spinlock Kalloc Vm Proc.

Section Mmio.
Context `{Platform}.

Definition mmio_read (a : Z) : M Z :=
  n <- gets mmio_reads;
  modify (fun s => s <| mmio_reads ::= S |>) ;;
  ret (dev_read a n).

Definition mmio_write (a v : Z) : M unit :=
  modify (fun s => s <| mmio ::= fun t => t ++ [(a, v)] |>).

End Mmio.

Definition VIRTIO_MMIO_MAGIC_VALUE : Z := 0x000.
Definition VIRTIO_MMIO_VERSION : Z := 0x004.
Definition VIRTIO_MMIO_DEVICE_ID : Z := 0x008.
Definition VIRTIO_MMIO_VENDOR_ID : Z := 0x00c.
Definition VIRTIO_MMIO_DEVICE_FEATURES : Z := 0x010.
Definition VIRTIO_MMIO_DRIVER_FEATURES : Z := 0x020.
Definition VIRTIO_MMIO_GUEST_PAGE_SIZE : Z := 0x028.
Definition VIRTIO_MMIO_QUEUE_SEL : Z := 0x030.
Definition VIRTIO_MMIO_QUEUE_NUM_MAX : Z := 0x034.
Definition VIRTIO_MMIO_QUEUE_NUM : Z := 0x038.
Definition VIRTIO_MMIO_QUEUE_PFN : Z := 0x040.
Definition VIRTIO_MMIO_QUEUE_NOTIFY : Z := 0x050.
Definition VIRTIO_MMIO_INTERRUPT_STATUS : Z := 0x060.
Definition VIRTIO_MMIO_INTERRUPT_ACK : Z := 0x064.
Definition VIRTIO_MMIO_STATUS : Z := 0x070.
Definition VIRTIO_CONFIG_S_ACKNOWLEDGE : Z := 1.
Definition VIRTIO_CONFIG_S_DRIVER : Z := 2.
Definition VIRTIO_CONFIG_S_DRIVER_OK : Z := 4.
Definition VIRTIO_CONFIG_S_FEATURES_OK : Z := 8.
Definition VRING_DESC_F_NEXT : Z := 1.
Definition VRING_DESC_F_WRITE : Z := 2.
Definition VIRTIO_BLK_T_IN : Z := 0.
Definition VIRTIO_BLK_T_OUT : Z := 1.

Definition vdesc0 : vdesc := mkvdesc DmaNull 0 0 0.

Definition vd_upd (f : virtq -> virtq) : M unit := modify (fun s => s <| vdisk ::= f |>).

Definition desc_at (i : nat) : M vdesc :=
  o <- gets (fun s => v_desc (vdisk s) !! i); deref "disk.desc" o.

Definition desc_upd (i : nat) (f : vdesc -> vdesc) : M unit :=
  vd_upd (fun v => v <| v_desc ::= alter f i |>).

Definition buf_at (b : nat) : M buf :=
  o <- gets (fun s => bcache s !! b); deref "bcache.buf" o.

Definition buf_upd (b : nat) (f : buf -> buf) : M unit :=
  modify (fun s => s <| bcache ::= alter f b |>).

Section Virtio.
Context `{Platform}.

(** The feature bits the driver does not accept. *)
Definition refused_features : list Z := [5; 7; 11; 12; 27; 29; 28].

Definition virtio_disk_init : M unit :=
  let R r := VIRTIO0 + r in
  initlock LVdisk "virtio_disk" ;;
  magic <- mmio_read (R VIRTIO_MMIO_MAGIC_VALUE);
  bad <- (if negb (magic =? 0x74726976) then ret true else
          v <- mmio_read (R VIRTIO_MMIO_VERSION);
          if negb (v =? 1) then ret true else
          d <- mmio_read (R VIRTIO_MMIO_DEVICE_ID);
          if negb (d =? 2) then ret true else
          n <- mmio_read (R VIRTIO_MMIO_VENDOR_ID);
          ret (negb (n =? 0x554d4551)));
  if bad then panic "could not find virtio disk" else
  let status := Z.lor 0 VIRTIO_CONFIG_S_ACKNOWLEDGE in
  mmio_write (R VIRTIO_MMIO_STATUS) status ;;
  let status := Z.lor status VIRTIO_CONFIG_S_DRIVER in
  mmio_write (R VIRTIO_MMIO_STATUS) status ;;
  features <- mmio_read (R VIRTIO_MMIO_DEVICE_FEATURES);
  let features := fold_left (fun f b => Z.land f (Z.lnot (Z.shiftl 1 b))) refused_features features in
  mmio_write (R VIRTIO_MMIO_DRIVER_FEATURES) (u32 features) ;;
  let status := Z.lor status VIRTIO_CONFIG_S_FEATURES_OK in
  mmio_write (R VIRTIO_MMIO_STATUS) status ;;
  let status := Z.lor status VIRTIO_CONFIG_S_DRIVER_OK in
  mmio_write (R VIRTIO_MMIO_STATUS) status ;;
  mmio_write (R VIRTIO_MMIO_GUEST_PAGE_SIZE) PGSIZE ;;
  mmio_write (R VIRTIO_MMIO_QUEUE_SEL) 0 ;;
  max <- mmio_read (R VIRTIO_MMIO_QUEUE_NUM_MAX);
  if max =? 0 then panic "virtio disk has no queue 0" else
  if max <? Z.of_nat NUM then panic "virtio disk max queue too short" else
  mmio_write (R VIRTIO_MMIO_QUEUE_NUM) (Z.of_nat NUM) ;;
  vd_upd (fun v => v <| v_desc := replicate NUM vdesc0 |> <| v_idx := 0 |>
                     <| v_ring := replicate NUM 0 |> <| v_uidx := 0 |>
                     <| v_uring := replicate NUM 0 |>) ;;
  mmio_write (R VIRTIO_MMIO_QUEUE_PFN) (u32 (Z.shiftr sym_disk_pages PGSHIFT)) ;;
  vd_upd (fun v => v <| v_free := replicate NUM true |>).

(** ** Descriptors *)

(** -1 when none is free. *)
Definition alloc_desc : M Z :=
  r <- for_find (seq 0 NUM) (fun i =>
    o <- gets (fun s => v_free (vdisk s) !! i);
    f <- deref "disk.free" o;
    if (f : bool) then vd_upd (fun v => v <| v_free ::= <[i := false]> |>) ;; ret (Some (Z.of_nat i))
    else ret None);
  ret (default (-1) r).

Definition free_desc (i : Z) : M unit :=
  if Z.of_nat NUM <=? i then panic "free_desc 1" else
  o <- gets (fun s => v_free (vdisk s) !! Z.to_nat i);
  f <- deref "disk.free" o;
  if (f : bool) then panic "free_desc 2" else
  desc_upd (Z.to_nat i) (fun d => d <| d_addr := DmaNull |> <| d_len := 0 |>
                                    <| d_flags := 0 |> <| d_next := 0 |>) ;;
  vd_upd (fun v => v <| v_free ::= <[Z.to_nat i := true]> |>) ;;
  wakeup ChDiskFree.

(** A descriptor freed twice panics, so a chain of [NUM] descriptors ends
    within [NUM + 1] rounds. *)
Definition free_chain (i : Z) : M unit :=
  while (S NUM) (fun i =>
    d <- desc_at (Z.to_nat i);
    let flag := d_flags d in
    let nxt := d_next d in
    free_desc i ;;
    if bit flag VRING_DESC_F_NEXT then ret (inl nxt) else ret (inr tt)) i.

(** The three descriptors, [None] when fewer are free. *)
Definition alloc3_desc : M (option (list Z)) :=
  r <- for_fold (seq 0 3) (fun acc _ =>
    match acc with
    | None => ret None
    | Some idx =>
        d <- alloc_desc;
        if d <? 0 then for_ idx free_desc ;; ret None
        else ret (Some (idx ++ [d]))
    end) (Some []);
  ret r.

(** ** Requests *)

(** From "format the three descriptors" to the queue notification. *)
Definition submit (b : nat) (write : bool) (sector i0 i1 i2 : Z) : M unit :=
  let n0 := Z.to_nat i0 in let n1 := Z.to_nat i1 in let n2 := Z.to_nat i2 in
  vd_upd (fun v => v <| v_ops ::= <[n0 :=
    mkvreq (if write then VIRTIO_BLK_T_OUT else VIRTIO_BLK_T_IN) 0 sector]> |>) ;;
  desc_upd n0 (fun _ => mkvdesc (DmaOp n0) 16 VRING_DESC_F_NEXT i1) ;;
  desc_upd n1 (fun _ => mkvdesc (DmaData b) BSIZE
    (Z.lor (if write then 0 else VRING_DESC_F_WRITE) VRING_DESC_F_NEXT) i2) ;;
  vd_upd (fun v => v <| v_info_status ::= <[n0 := 0xff]> |>) ;;
  desc_upd n2 (fun _ => mkvdesc (DmaStatus n0) 1 VRING_DESC_F_WRITE 0) ;;
  buf_upd b (fun b => b <| b_disk := 1 |>) ;;
  vd_upd (fun v => v <| v_info_b ::= <[n0 := Some b]> |>) ;;
  vd_upd (fun v => v <| v_ring ::= <[Z.to_nat (v_idx v mod Z.of_nat NUM) := i0]> |>) ;;
  vd_upd (fun v => v <| v_idx ::= fun i => u16 (i + 1) |>) ;;
  mmio_write (VIRTIO0 + VIRTIO_MMIO_QUEUE_NOTIFY) 0.

Definition virtio_disk_rw (b : nat) (write : bool) : M unit :=
  bb <- buf_at b;
  let sector := b_blockno bb *32 (BSIZE / 512) in
  acquire LVdisk ;;
  idx <- sleep_loop 0 (fun _ =>
    r <- alloc3_desc;
    match r with
    | Some idx => ret (inr idx)
    | None => sleep ChDiskFree LVdisk ;; ret (inl tt)
    end) tt;
  match idx with
  | [i0; i1; i2] =>
      submit b write sector i0 i1 i2 ;;
      sleep_loop 0 (fun _ =>
        bb <- buf_at b;
        if b_disk bb =? 1 then sleep (ChBuf b) LVdisk ;; ret (inl tt)
        else ret (inr tt)) tt ;;
      vd_upd (fun v => v <| v_info_b ::= <[Z.to_nat i0 := None]> |>) ;;
      free_chain i0 ;;
      release LVdisk
  | _ => undef "idx"
  end.

Definition virtio_disk_intr : M unit :=
  acquire LVdisk ;;
  st <- mmio_read (VIRTIO0 + VIRTIO_MMIO_INTERRUPT_STATUS);
  mmio_write (VIRTIO0 + VIRTIO_MMIO_INTERRUPT_ACK) (Z.land st 0x3) ;;
  loop (fun _ =>
    v <- gets vdisk;
    if v_used_idx v =? v_uidx v then ret (inr tt) else
    id <- deref "used->ring" (v_uring v !! Z.to_nat (v_used_idx v mod Z.of_nat NUM));
    status <- deref "disk.info" (v_info_status v !! Z.to_nat id);
    if negb (status =? 0) then panic "virtio_disk_intr status" else
    ob <- deref "disk.info" (v_info_b v !! Z.to_nat id);
    b <- deref "b" ob;
    buf_upd b (fun b => b <| b_disk := 0 |>) ;;
    wakeup (ChBuf b) ;;
    vd_upd (fun v => v <| v_used_idx ::= fun i => u16 (i + 1) |>) ;;
    ret (inl tt)) tt ;;
  release LVdisk.

End Virtio.
