(* ===== verification/Bio.v ===== *)
(** * The buffer cache: bio.c

    [bcache] holds the NBUF buffers and, at index NBUF, the list head; the
    links [b->prev] and [b->next] are indices into it.  The disk driver the
    cache runs on is the interface [Disk]; virtio_disk.c is its instance. *)

From S2P Require Import Prelude State Monad Spinlock Cstring Kalloc Vm Proc Sleeplock Virtio.

(** Transfer a buffer from ([false]) or to ([true]) the disk. *)
Class Disk := disk_rw : nat -> bool -> M unit.

#[export] Instance virtio_disk `{Platform} : Disk := virtio_disk_rw.

(** The list head [bcache.head]. *)
Definition bhead : nat := NBUF.

Definition binit : M unit :=
  initlock LBcache "bcache" ;;
  buf_upd bhead (fun h => h <| b_prev := bhead |> <| b_next := bhead |>) ;;
  for_ (seq 0 NBUF) (fun b =>
    h <- buf_at bhead;
    buf_upd b (fun b => b <| b_next := b_next h |> <| b_prev := bhead |>) ;;
    initsleeplock (SBuf b) "buffer" ;;
    buf_upd (b_next h) (fun n => n <| b_prev := b |>) ;;
    buf_upd bhead (fun h => h <| b_next := b |>)).

(** Follow [link] from the head until a buffer satisfies [p] or the head is
    reached again; the list has NBUF elements. *)
Definition find_buf (link : buf -> nat) (p : buf -> bool) : M (option nat) :=
  h <- buf_at bhead;
  while (S NBUF) (fun b =>
    if (b =? bhead)%nat then ret (inr None) else
    bb <- buf_at b;
    if p bb then ret (inr (Some b)) else ret (inl (link bb))) (link h).

Section Bio.
Context `{Disk}.

Definition bget (dev blockno : Z) : M nat :=
  acquire LBcache ;;
  cached <- find_buf b_next (fun b => (b_dev b =? dev) && (b_blockno b =? blockno));
  match cached with
  | Some b =>
      buf_upd b (fun b => b <| b_refcnt ::= fun n => n +32 1 |>) ;;
      release LBcache ;;
      acquiresleep (SBuf b) ;;
      ret b
  | None =>
      victim <- find_buf b_prev (fun b => b_refcnt b =? 0);
      match victim with
      | Some b =>
          buf_upd b (fun b => b <| b_dev := dev |> <| b_blockno := blockno |>
                                <| b_valid := false |> <| b_refcnt := 1 |>) ;;
          release LBcache ;;
          acquiresleep (SBuf b) ;;
          ret b
      | None => panic "bget: no buffers"
      end
  end.

Definition bread (dev blockno : Z) : M nat :=
  b <- bget dev blockno;
  bb <- buf_at b;
  when (negb (b_valid bb))
    (disk_rw b false ;;
     buf_upd b (fun b => b <| b_valid := true |>)) ;;
  ret b.

Definition bwrite (b : nat) : M unit :=
  h <- holdingsleep (SBuf b);
  if negb h then panic "bwrite" else
  disk_rw b true.

Definition brelse (b : nat) : M unit :=
  h <- holdingsleep (SBuf b);
  if negb h then panic "brelse" else
  releasesleep (SBuf b) ;;
  acquire LBcache ;;
  buf_upd b (fun b => b <| b_refcnt ::= fun n => n -32 1 |>) ;;
  bb <- buf_at b;
  when (b_refcnt bb =? 0)
    (buf_upd (b_next bb) (fun n => n <| b_prev := b_prev bb |>) ;;
     buf_upd (b_prev bb) (fun n => n <| b_next := b_next bb |>) ;;
     h <- buf_at bhead;
     buf_upd b (fun b => b <| b_next := b_next h |> <| b_prev := bhead |>) ;;
     buf_upd (b_next h) (fun n => n <| b_prev := b |>) ;;
     buf_upd bhead (fun h => h <| b_next := b |>)) ;;
  release LBcache.

Definition bpin (b : nat) : M unit :=
  acquire LBcache ;;
  buf_upd b (fun b => b <| b_refcnt ::= fun n => n +32 1 |>) ;;
  release LBcache.

Definition bunpin (b : nat) : M unit :=
  acquire LBcache ;;
  buf_upd b (fun b => b <| b_refcnt ::= fun n => n -32 1 |>) ;;
  release LBcache.

(** The bytes of [b->data], read and written. *)
Definition bdata (b : nat) : M (list Z) := bb <- buf_at b; ret (b_data bb).

Definition bdata_upd (b : nat) (f : list Z -> list Z) : M unit :=
  buf_upd b (fun b => b <| b_data ::= f |>).

End Bio.
