(* ===== verification/Bufcache.v ===== *)
(** * The buffer cache as a cache

    The theory of bio.c.  The list of buffers is a ring through the list head
    ([ring]); a buffer is in use while it is pinned or held ([cache] counts
    both in the reference count); an unused buffer holds what is on the disk,
    so that recycling it loses nothing.  [content] is what the cache and the
    disk together store in a block; bread() returns it, and only a change of
    the bytes of a held buffer changes it.

    The disk is used through the contract [DiskOk] of the interface [Disk]. *)

From S2P Require Import Prelude State Machine Monad Spinlock Cstring Kalloc Vm Proc Sleeplock Virtio Bio.

(** ** Doubly linked rings *)

(** The last element of [x :: l]. *)
Fixpoint tail (x : nat) (l : list nat) : nat := match l with [] => x | z :: l => tail z l end.

Lemma tail_in x l : tail x l ∈ x :: l.
Proof. revert x. induction l as [|z l IH]; intros x; cbn; [set_solver|]. specialize (IH z). set_solver. Qed.

Section Chain.
Context (nx pv : nat -> nat).

(** From [x] through [l] to [y], linked in both directions. *)
Fixpoint chain (x : nat) (l : list nat) (y : nat) : Prop :=
  match l with
  | [] => nx x = y /\ pv y = x
  | z :: l => (nx x = z /\ pv z = x) /\ chain z l y
  end.

Lemma chain_app x l1 z l2 y : chain x (l1 ++ z :: l2) y <-> chain x l1 z /\ chain z l2 y.
Proof. revert x. induction l1 as [|w l1 IH]; intros x; cbn; [tauto|]. rewrite IH. tauto. Qed.

Lemma chain_last x l y : chain x l y -> pv y = tail x l /\ nx (tail x l) = y.
Proof. revert x. induction l as [|z l IH]; intros x; cbn [chain tail]; [tauto|]. intros [_ Hc]. by apply IH. Qed.

Lemma chain_first x l y : chain x l y -> nx x = hd y l /\ pv (hd y l) = x.
Proof. destruct l; cbn; tauto. Qed.

End Chain.

Lemma chain_ext nx pv nx' pv' x l y :
  chain nx pv x l y -> (forall w, w ∈ x :: l -> nx' w = nx w) ->
  (forall w, w ∈ l ++ [y] -> pv' w = pv w) -> chain nx' pv' x l y.
Proof.
  revert x. induction l as [|z l IH]; intros x Hc Hn Hp; cbn [chain app] in *.
  - rewrite Hn, Hp by set_solver. done.
  - rewrite Hn, Hp by set_solver. split; [tauto|]. apply IH; [tauto|..]; intros; [apply Hn|apply Hp]; set_solver.
Qed.

(** The same chain, led from its last element to another end. *)
Lemma chain_retarget nx pv nx' pv' x l y y' :
  chain nx pv x l y -> NoDup (x :: l) ->
  (forall w, w ∈ x :: l -> w <> tail x l -> nx' w = nx w) -> nx' (tail x l) = y' ->
  (forall w, w ∈ l -> pv' w = pv w) -> pv' y' = tail x l -> chain nx' pv' x l y'.
Proof.
  revert x. induction l as [|z l IH]; intros x Hc [Hx Hd]%NoDup_cons Hn Ht Hp Hy; cbn [chain tail] in *; [done|].
  assert (x <> tail z l) by (intros ->; apply Hx, tail_in).
  rewrite Hn, Hp by (done || apply list_elem_of_here). split; [tauto|].
  apply IH; [tauto|done|..]; try done; intros; [apply Hn|apply Hp]; set_solver.
Qed.

Definition fupd (x v : nat) (f : nat -> nat) : nat -> nat := fun w => if decide (w = x) then v else f w.

Lemma fupd_eq x v f : fupd x v f x = v.
Proof. unfold fupd. by rewrite decide_True. Qed.

Lemma fupd_ne x v f w : w <> x -> fupd x v f w = f w.
Proof. intros. unfold fupd. by rewrite decide_False. Qed.

Lemma fupd_ext x v f g w : f w = g w -> fupd x v f w = fupd x v g w.
Proof. intros E. unfold fupd. by case_decide. Qed.

(** Two nodes are different: by one of the hypotheses on their positions. *)
Ltac apart := solve [ eauto 4 using list_elem_of_here, list_elem_of_further
                    | apply not_eq_sym; eauto 4 using list_elem_of_here, list_elem_of_further ].

(** Unlinking [b] and linking it in again behind the head, as brelse() does. *)
Lemma chain_move nx pv h l1 b l2 :
  chain nx pv h (l1 ++ b :: l2) h -> NoDup (h :: l1 ++ b :: l2) ->
  let p := pv b in let n := nx b in
  let nx2 := fupd p n nx in let f := nx2 h in
  chain (fupd h b (fupd b f nx2)) (fupd f b (fupd b h (fupd n p pv))) h (b :: l1 ++ l2) h.
Proof.
  intros [H1 H2]%chain_app [Hh [Hd1 [Hd12 [Hb Hd2]%NoDup_cons]]%NoDup_app]%NoDup_cons. cbv zeta.
  destruct (chain_last _ _ _ _ _ H1) as [-> _]. destruct (chain_first _ _ _ _ _ H2) as [-> Hpn].
  set (n := hd h l2) in *.
  assert (A1 : forall w, w ∈ l1 -> w <> h) by set_solver.
  assert (A2 : forall w, w ∈ l1 -> w <> b) by set_solver.
  assert (A3 : forall w, w ∈ l1 -> w <> n) by (destruct l2; cbn in n; set_solver).
  assert (A4 : forall w, w ∈ l2 -> w <> h) by set_solver.
  assert (A5 : forall w, w ∈ l2 -> w <> b) by set_solver.
  assert (A6 : n <> b) by (destruct l2; cbn in n; set_solver).
  assert (A7 : h <> b) by set_solver. clear Hh Hb.
  destruct l1 as [|f l1]; cbn [tail app].
  - rewrite fupd_eq. destruct H1 as [Hnh Hph]. cbn [chain]. split; [split|].
    + apply fupd_eq.
    + rewrite fupd_ne by apart. apply fupd_eq.
    + eapply chain_ext; [exact H2|..].
      * intros w [->|Hw]%elem_of_cons; rewrite fupd_ne by apart.
        { rewrite fupd_eq. symmetry. by apply (chain_first nx pv). }
        by rewrite !fupd_ne by apart.
      * intros w Hw. destruct (decide (w = n)) as [->|]; [by rewrite fupd_eq|].
        apply elem_of_app in Hw as [Hw|Hw%list_elem_of_singleton]; subst; by rewrite !fupd_ne by apart.
  - destruct H1 as [[Hnf Hpf] H1]. pose proof (tail_in f l1) as Ht. apply NoDup_cons in Hd1 as Hd1'.
    destruct Hd1' as [Hf1 Hd1'].
    rewrite (fupd_ne _ _ nx h), Hnf by apart. cbn [chain]. split; [split|split; [split|]].
    + apply fupd_eq.
    + rewrite fupd_ne by apart. apply fupd_eq.
    + rewrite fupd_ne by apart. apply fupd_eq.
    + apply fupd_eq.
    + assert (A8 : forall w, w ∈ l1 -> w <> f) by (intros w Hw ->; done).
      assert (Hr : chain (fupd h b (fupd b f (fupd (tail f l1) n nx)))
                         (fupd f b (fupd b h (fupd n (tail f l1) pv))) f l1 n).
      { apply (chain_retarget nx pv _ _ f l1 b); [done|done|..].
        - intros w Hw Hne. by rewrite !fupd_ne by apart.
        - rewrite !fupd_ne by apart. apply fupd_eq.
        - intros w Hw. by rewrite !fupd_ne by apart.
        - rewrite !fupd_ne by apart. apply fupd_eq. }
      destruct l2 as [|n' l2]; cbn in n; [by rewrite app_nil_r|]. apply chain_app. split; [done|].
      destruct H2 as [_ H2]. apply NoDup_cons in Hd2 as [Hn' _].
      eapply chain_ext; [exact H2|..].
      * intros w Hw. assert (w <> tail f l1) by (intros ->; by apply (Hd12 _ Ht), list_elem_of_further).
        by rewrite !fupd_ne by apart.
      * intros w [Hw|Hw%list_elem_of_singleton]%elem_of_app; [|subst; by rewrite !fupd_ne by apart].
        assert (w <> f) by (intros ->; apply (Hd12 f); [left|by do 2 right]).
        assert (w <> n) by (intros ->; done). by rewrite !fupd_ne by apart.
Qed.

(** Following one of the two links. *)
Fixpoint follows (f : nat -> nat) (x : nat) (l : list nat) (y : nat) : Prop :=
  match l with
  | [] => f x = y
  | z :: l => f x = z /\ follows f z l y
  end.

Lemma chain_follows_next nx pv x l y : chain nx pv x l y -> follows nx x l y.
Proof. revert x. induction l as [|z l IH]; intros x; cbn; [tauto|]. intros [[? _] ?]. auto. Qed.

Lemma follows_snoc f x l z y : follows f x l z -> f z = y -> follows f x (l ++ [z]) y.
Proof. revert x. induction l as [|w l IH]; intros x; cbn; [by intros -> ->|]. intros [? ?] ?. auto. Qed.

Lemma chain_follows_prev nx pv x l y : chain nx pv x l y -> follows pv y (rev l) x.
Proof.
  revert x. induction l as [|z l IH]; intros x; cbn; [tauto|]. intros [[_ Hp] Hc].
  apply follows_snoc; auto.
Qed.

(** ** The list of buffers *)

Definition link_of (link : buf -> nat) (bc : list buf) (x : nat) : nat :=
  match bc !! x with Some b => link b | None => x end.

(** [l] lists the buffers from the most recently to the least recently used. *)
Definition ring (bc : list buf) (l : list nat) : Prop :=
  Permutation l (seq 0 NBUF) /\ chain (link_of b_next bc) (link_of b_prev bc) bhead l bhead.

Lemma ring_elem bc l b : ring bc l -> b ∈ l <-> (b < NBUF)%nat.
Proof. intros [Hp _]. rewrite Hp, elem_of_seq. lia. Qed.

Lemma ring_nodup bc l : ring bc l -> NoDup (bhead :: l).
Proof.
  intros Hr. constructor; [rewrite (ring_elem _ _ _ Hr); unfold bhead; lia|].
  destruct Hr as [Hp _]. rewrite Hp. apply NoDup_seq.
Qed.

Lemma buf_at_run b bb e s : bcache s !! b = Some bb -> buf_at b e s = Ret bb e s.
Proof. intros Hb. unfold buf_at. msteps. by rewrite Hb. Qed.

(** What a search of the list finds. *)
Definition found (p : buf -> bool) (bc : list buf) (r : option nat) : Prop :=
  match r with
  | Some b => (b < NBUF)%nat /\ exists bb, bc !! b = Some bb /\ p bb = true
  | None => forall b bb, (b < NBUF)%nat -> bc !! b = Some bb -> p bb = false
  end.

Lemma find_unroll (link : buf -> nat) (p : buf -> bool) l x e s :
  length (bcache s) = S NBUF -> follows (link_of link (bcache s)) x l bhead ->
  (forall b, b ∈ l -> (b < NBUF)%nat) ->
  exists r, unroll (S (length l)) (fun b =>
      if (b =? bhead)%nat then ret (inr None) else
      bb <- buf_at b;
      if p bb then ret (inr (Some b)) else ret (inl (link bb))) (link_of link (bcache s) x) e s =
    Ret (inr r) e s /\
    match r with
    | Some b => b ∈ l /\ exists bb, bcache s !! b = Some bb /\ p bb = true
    | None => forall b bb, b ∈ l -> bcache s !! b = Some bb -> p bb = false
    end.
Proof.
  intros Hl. revert x. induction l as [|z l IH]; intros x Hf Hlt; cbn [follows length] in *.
  - exists (@None nat). rewrite unroll_S, Hf, Nat.eqb_refl. split; [done|]. by intros b bb Hb%elem_of_nil.
  - destruct Hf as [-> Hf]. assert (Hz : (z < NBUF)%nat) by (apply Hlt; left).
    destruct (lookup_lt_is_Some_2 (bcache s) z) as [bb Hbb]; [lia|].
    rewrite unroll_S, (proj2 (Nat.eqb_neq _ _)) by (unfold bhead; lia).
    rewrite bind_assoc, (bind_run _ _ _ _ _ _ _ (buf_at_run _ _ _ _ Hbb)).
    destruct (p bb) eqn:Hp.
    + exists (Some z). split; [done|]. split; [left|eauto].
    + rewrite step_ret. replace (link bb) with (link_of link (bcache s) z) by (unfold link_of; by rewrite Hbb).
      destruct (IH z Hf) as (r & Hr & Hspec); [by intros; apply Hlt; right|].
      exists r. split; [exact Hr|]. destruct r as [b|].
      * destruct Hspec. split; [by right|done].
      * intros b b' [->|Hb]%elem_of_cons; [congruence|]. by apply Hspec.
Qed.

Lemma find_buf_run link p l e s :
  length (bcache s) = S NBUF -> Permutation l (seq 0 NBUF) ->
  follows (link_of link (bcache s)) bhead l bhead ->
  exists r, find_buf link p e s = Ret r e s /\ found p (bcache s) r.
Proof.
  intros Hl Hp Hf. destruct (lookup_lt_is_Some_2 (bcache s) bhead) as [h Hh]; [unfold bhead; lia|].
  assert (He : forall b, b ∈ l <-> (b < NBUF)%nat) by (intros b; rewrite Hp, elem_of_seq; lia).
  destruct (find_unroll link p l bhead e s Hl Hf) as (r & Hr & Hspec); [by intros b ?%He|].
  exists r. split.
  - unfold find_buf. rewrite (bind_run _ _ _ _ _ _ _ (buf_at_run _ _ _ _ Hh)).
    replace (link h) with (link_of link (bcache s) bhead) by (unfold link_of; by rewrite Hh).
    eapply while_run; [exact Hr|]. rewrite Hp, length_seq. lia.
  - destruct r as [b|]; cbn; [by rewrite <- He|]. intros b bb ?%He. by apply Hspec.
Qed.

Lemma find_next_run p l e s :
  length (bcache s) = S NBUF -> ring (bcache s) l ->
  exists r, find_buf b_next p e s = Ret r e s /\ found p (bcache s) r.
Proof. intros Hl [Hp Hc]. eapply find_buf_run; [done|done|]. by eapply chain_follows_next. Qed.

Lemma find_prev_run p l e s :
  length (bcache s) = S NBUF -> ring (bcache s) l ->
  exists r, find_buf b_prev p e s = Ret r e s /\ found p (bcache s) r.
Proof.
  intros Hl [Hp Hc]. apply (find_buf_run _ _ (rev l)); [done| |by eapply chain_follows_prev].
  by rewrite <- Permutation_rev.
Qed.

(** ** The invariant of the cache

    [pins] counts the pins of each buffer, [held] lists the buffers the running
    process has locked and [dirty] those of them whose bytes it has changed
    since they were last written to disk. *)

Record buf_ok (pid : Z) (pins : nat -> Z) (held dirty : list nat) (dk : gmap Z (list Z)) (b : nat) (bb : buf) : Prop := {
  bo_disk : b_disk bb = 0;
  bo_pins : 0 <= pins b < 2 ^ 31;
  bo_ref : b_refcnt bb = pins b + (if decide (b ∈ held) then 1 else 0);
  bo_lock : sl_locked (b_lock bb) = bool_decide (b ∈ held);
  bo_pid : b ∈ held -> sl_pid (b_lock bb) = pid;
  bo_len : length (b_data bb) = Z.to_nat BSIZE;
  bo_dev : b_valid bb = true -> b_dev bb = ROOTDEV;
  bo_block : b_dev bb = ROOTDEV -> 0 <= b_blockno bb < 2 ^ 31 /\ is_Some (dk !! b_blockno bb);
  bo_clean : b_valid bb = true -> pins b = 0 -> b ∉ dirty -> dk !! b_blockno bb = Some (b_data bb);
}.

Record cache (pid : Z) (pins : nat -> Z) (held dirty : list nat) (bc : list buf) (dk : gmap Z (list Z)) : Prop := {
  ca_len : length bc = S NBUF;
  ca_ring : exists l, ring bc l;
  ca_buf : forall b bb, (b < NBUF)%nat -> bc !! b = Some bb -> buf_ok pid pins held dirty dk b bb;
  ca_uniq : forall b b' bb bb', (b < NBUF)%nat -> (b' < NBUF)%nat ->
    bc !! b = Some bb -> bc !! b' = Some bb' -> b_dev bb = ROOTDEV -> b_dev bb' = ROOTDEV ->
    b_blockno bb = b_blockno bb' -> b = b';
  ca_disk : forall bn d, dk !! bn = Some d -> length d = Z.to_nat BSIZE;
  ca_dirty : forall b, b ∈ dirty -> b ∈ held;
}.

(** What block [bn] stores: the valid buffer for it, else the disk. *)
Definition caches (bn : Z) (bb : buf) : bool :=
  b_valid bb && (b_dev bb =? ROOTDEV) && (b_blockno bb =? bn).

Definition content (bc : list buf) (dk : gmap Z (list Z)) (bn : Z) : option (list Z) :=
  match list_find (fun bb => caches bn bb) (take NBUF bc) with
  | Some (_, bb) => Some (b_data bb)
  | None => dk !! bn
  end.

Lemma caches_true bn bb :
  caches bn bb = true <-> b_valid bb = true /\ b_dev bb = ROOTDEV /\ b_blockno bb = bn.
Proof. unfold caches. rewrite !andb_true_iff, !Z.eqb_eq. tauto. Qed.

(** The two cases of [content]. *)
Lemma content_cached pid pins held dirty bc dk bn b bb :
  cache pid pins held dirty bc dk -> (b < NBUF)%nat -> bc !! b = Some bb -> caches bn bb = true ->
  content bc dk bn = Some (b_data bb).
Proof.
  intros Hc Hb Hbb Hca. unfold content. destruct (list_find _ _) as [[i x]|] eqn:E.
  - apply list_find_Some in E as (Hi & Hx & _). apply lookup_take_Some in Hi as [Hi Hlt].
    assert (i = b) as ->.
    { apply Is_true_true, caches_true in Hx as (_ & ? & ?). apply caches_true in Hca as (_ & ? & ?).
      eapply (ca_uniq _ _ _ _ _ _ Hc); eauto; congruence. }
    congruence.
  - apply list_find_None in E. rewrite Forall_forall in E. exfalso. apply (E bb).
    + apply (list_elem_of_lookup_2 _ b). by apply lookup_take_Some.
    + by rewrite Hca.
Qed.

Lemma content_uncached bc dk bn :
  (forall b bb, (b < NBUF)%nat -> bc !! b = Some bb -> caches bn bb = false) ->
  content bc dk bn = dk !! bn.
Proof.
  intros Hno. unfold content. destruct (list_find _ _) as [[i x]|] eqn:E; [|done].
  apply list_find_Some in E as (Hi & Hx & _). apply lookup_take_Some in Hi as [Hi Hlt].
  by rewrite (Hno i x) in Hx.
Qed.

Lemma content_cases (bc : list buf) bn :
  (exists b bb, (b < NBUF)%nat /\ bc !! b = Some bb /\ caches bn bb = true) \/
  (forall b bb, (b < NBUF)%nat -> bc !! b = Some bb -> caches bn bb = false).
Proof.
  destruct (list_find (fun bb => caches bn bb) (take NBUF bc)) as [[i x]|] eqn:E.
  - apply list_find_Some in E as (Hi & Hx & _). apply lookup_take_Some in Hi as [Hi Hlt].
    left. exists i, x. repeat split; try done. by apply Is_true_true.
  - apply list_find_None in E. rewrite Forall_forall in E. right. intros b bb Hb Hbb.
    apply not_true_is_false. intros Ht. apply (E bb).
    + apply (list_elem_of_lookup_2 _ b). by apply lookup_take_Some.
    + by rewrite Ht.
Qed.

Lemma cache_lookup pid pins held dirty bc dk b :
  cache pid pins held dirty bc dk -> (b < NBUF)%nat -> exists bb, bc !! b = Some bb.
Proof. intros Hc Hb. apply lookup_lt_is_Some_2. rewrite (ca_len _ _ _ _ _ _ Hc). lia. Qed.

(** Only the elements of the lists matter. *)
Lemma cache_perm pid pins held dirty held' dirty' bc dk :
  (forall x, x ∈ held' <-> x ∈ held) -> (forall x, x ∈ dirty' <-> x ∈ dirty) ->
  cache pid pins held dirty bc dk -> cache pid pins held' dirty' bc dk.
Proof.
  intros Hh Hd []. split; try done.
  - intros b bb Hb Hbb. destruct (ca_buf0 b bb Hb Hbb). split; try done.
    + by rewrite (decide_ext _ _ _ _ (Hh b)).
    + rewrite bo_lock0. symmetry. by apply bool_decide_ext.
    + by rewrite Hh.
    + by rewrite Hd.
  - intros b. rewrite Hh, Hd. auto.
Qed.

(** *** Changing one buffer *)

Section Update.
Context (pid : Z) (pins : nat -> Z) (held dirty : list nat) (bc : list buf) (dk : gmap Z (list Z)).
Context (b : nat) (bb : buf) (Hc : cache pid pins held dirty bc dk) (Hb : (b < NBUF)%nat) (Hbb : bc !! b = Some bb).

(** The list is unchanged when the links are. *)
Lemma ring_update bb' l :
  b_next bb' = b_next bb -> b_prev bb' = b_prev bb -> ring bc l -> ring (<[b := bb']> bc) l.
Proof using Hbb.
  intros Hn Hp [Hperm Hch]. split; [done|]. eapply chain_ext; [exact Hch|..]; intros w _;
    unfold link_of; (destruct (decide (b = w)) as [<-|Hne];
    [rewrite list_lookup_insert_eq, Hbb by (by eapply lookup_lt_Some); done|by rewrite list_lookup_insert_ne]).
Qed.

Lemma cache_update pins' held' dirty' dk' bb' :
  b_next bb' = b_next bb -> b_prev bb' = b_prev bb ->
  buf_ok pid pins' held' dirty' dk' b bb' ->
  (b_dev bb' = ROOTDEV -> forall b2 bb2, (b2 < NBUF)%nat -> bc !! b2 = Some bb2 -> b2 <> b ->
    b_dev bb2 = ROOTDEV -> b_blockno bb2 <> b_blockno bb') ->
  (forall b2 bb2, (b2 < NBUF)%nat -> b2 <> b -> bc !! b2 = Some bb2 -> buf_ok pid pins' held' dirty' dk' b2 bb2) ->
  (forall bn d, dk' !! bn = Some d -> length d = Z.to_nat BSIZE) ->
  (forall b2, b2 ∈ dirty' -> b2 ∈ held') ->
  cache pid pins' held' dirty' (<[b := bb']> bc) dk'.
Proof using Hc Hb Hbb.
  intros Hn Hp Hok Hun Hoth Hlen Hdh. pose proof (lookup_lt_Some _ _ _ Hbb) as Hlt.
  split; [|..|exact Hlen|exact Hdh].
  - rewrite length_insert. apply (ca_len _ _ _ _ _ _ Hc).
  - destruct (ca_ring _ _ _ _ _ _ Hc) as [l Hl]. exists l. by apply ring_update.
  - intros b2 bb2 Hb2. destruct (decide (b = b2)) as [<-|Hne].
    + rewrite list_lookup_insert_eq by done. by intros [= <-].
    + rewrite list_lookup_insert_ne by done. intros H2. by apply Hoth.
  - intros b1 b2 bb1 bb2 H1 H2. destruct (decide (b = b1)) as [<-|Hne1], (decide (b = b2)) as [<-|Hne2];
      rewrite ?list_lookup_insert_eq by done; rewrite ?list_lookup_insert_ne by done.
    + done.
    + intros [= <-] Hb2 Hd1 Hd2 E. by destruct (Hun Hd1 b2 bb2 H2 Hb2 (not_eq_sym Hne2) Hd2).
    + intros Hb1 [= <-] Hd1 Hd2 E. by destruct (Hun Hd2 b1 bb1 H1 Hb1 (not_eq_sym Hne1) Hd1).
    + by apply (ca_uniq _ _ _ _ _ _ Hc).
Qed.

(** The other buffers keep their part of the invariant when only [b] enters or
    leaves the lists. *)
Lemma buf_ok_other pins' held' dirty' dk' b2 bb2 :
  buf_ok pid pins held dirty dk b2 bb2 -> pins' b2 = pins b2 -> (b2 ∈ held' <-> b2 ∈ held) ->
  (b2 ∈ dirty -> b2 ∈ dirty') ->
  (b_dev bb2 = ROOTDEV -> dk' !! b_blockno bb2 = dk !! b_blockno bb2) ->
  buf_ok pid pins' held' dirty' dk' b2 bb2.
Proof.
  intros [] Hp Hh Hd Hk. split; try done; rewrite ?Hp; try done.
  - rewrite bo_ref0, (decide_ext _ _ _ _ Hh). done.
  - rewrite bo_lock0. by apply bool_decide_ext.
  - rewrite Hh. done.
  - intros Hr. rewrite Hk by done. auto.
  - intros Hv Hz Hnd. rewrite Hk by auto. apply bo_clean0; auto.
Qed.

End Update.

Lemma alter_insert {A} (f : A -> A) (l : list A) i x : l !! i = Some x -> alter f i l = <[i := f x]> l.
Proof. intros Hx. rewrite (list_insert_alter_const _ _ _ _ Hx). by apply (alter_at _ _ _ _ x). Qed.

Section Content.
Context (pid : Z) (pins : nat -> Z) (held dirty : list nat) (bc : list buf) (dk : gmap Z (list Z)).
Context (b : nat) (bb : buf) (Hc : cache pid pins held dirty bc dk) (Hb : (b < NBUF)%nat) (Hbb : bc !! b = Some bb).

(** Bookkeeping changes of a buffer change no content. *)
Lemma content_keep pins' held' dirty' bb' bn :
  cache pid pins' held' dirty' (<[b := bb']> bc) dk ->
  b_valid bb' = b_valid bb -> b_dev bb' = b_dev bb -> b_blockno bb' = b_blockno bb -> b_data bb' = b_data bb ->
  content (<[b := bb']> bc) dk bn = content bc dk bn.
Proof using Hc Hb Hbb.
  intros Hc' Hv Hd Hn Hda. pose proof (lookup_lt_Some _ _ _ Hbb) as Hlt.
  assert (Hca : caches bn bb' = caches bn bb) by (unfold caches; by rewrite Hv, Hd, Hn).
  destruct (content_cases bc bn) as [(i & x & Hi & Hx & Ht)|Hno].
  - rewrite (content_cached _ _ _ _ _ _ _ _ _ Hc Hi Hx Ht). destruct (decide (b = i)) as [<-|Hne].
    + assert (x = bb) as -> by congruence.
      rewrite (content_cached _ _ _ _ _ _ bn b bb' Hc' Hb); [by rewrite Hda| |congruence].
      by apply list_lookup_insert_eq.
    + eapply content_cached; [done|done| |done]. by rewrite list_lookup_insert_ne.
  - rewrite (content_uncached bc) by done. apply content_uncached. intros i x Hi.
    destruct (decide (b = i)) as [<-|Hne].
    + rewrite list_lookup_insert_eq by done. intros [= <-]. rewrite Hca. by apply (Hno b).
    + rewrite list_lookup_insert_ne by done. by apply Hno.
Qed.

(** A clean buffer can be dropped. *)
Lemma content_drop bb' bn :
  (b_valid bb = true -> dk !! b_blockno bb = Some (b_data bb)) -> b_valid bb' = false ->
  (forall pins' held' dirty', cache pid pins' held' dirty' (<[b := bb']> bc) dk ->
  content (<[b := bb']> bc) dk bn = content bc dk bn).
Proof using Hc Hb Hbb.
  intros Hclean Hv pins' held' dirty' Hc'. pose proof (lookup_lt_Some _ _ _ Hbb) as Hlt.
  assert (Hno' : caches bn bb' = false) by (unfold caches; by rewrite Hv).
  destruct (content_cases bc bn) as [(i & x & Hi & Hx & Ht)|Hno].
  - rewrite (content_cached _ _ _ _ _ _ _ _ _ Hc Hi Hx Ht). destruct (decide (b = i)) as [<-|Hne].
    + assert (x = bb) as -> by congruence. apply caches_true in Ht as Ht'. destruct Ht' as (Hvb & Hdb & <-).
      rewrite content_uncached; [by apply Hclean|]. intros j y Hj.
      destruct (decide (b = j)) as [<-|Hne]; [rewrite list_lookup_insert_eq by done; by intros [= <-]|].
      rewrite list_lookup_insert_ne by done. intros Hy. apply not_true_is_false. intros (_ & Hdy & Hny)%caches_true.
      apply Hne. by apply (ca_uniq _ _ _ _ _ _ Hc b j bb y).
    + eapply content_cached; [done|done| |done]. by rewrite list_lookup_insert_ne.
  - rewrite (content_uncached bc) by done. apply content_uncached. intros i x Hi.
    destruct (decide (b = i)) as [<-|Hne].
    + rewrite list_lookup_insert_eq by done. by intros [= <-].
    + rewrite list_lookup_insert_ne by done. by apply Hno.
Qed.

(** A valid buffer determines the content of its block and of no other. *)
Lemma content_set pins' held' dirty' dk' bb' bn :
  cache pid pins' held' dirty' (<[b := bb']> bc) dk' -> b_dev bb = ROOTDEV ->
  b_valid bb' = true -> b_dev bb' = ROOTDEV -> b_blockno bb' = b_blockno bb ->
  (bn <> b_blockno bb -> dk' !! bn = dk !! bn) ->
  content (<[b := bb']> bc) dk' bn = if decide (bn = b_blockno bb) then Some (b_data bb') else content bc dk bn.
Proof using Hc Hb Hbb.
  intros Hc' Hd0 Hv Hd Hn Hk. pose proof (lookup_lt_Some _ _ _ Hbb) as Hlt. case_decide as E.
  - eapply content_cached; [done|done|by apply list_lookup_insert_eq|]. apply caches_true. by rewrite Hv, Hd, Hn.
  - assert (Hca : caches bn bb' = false).
    { apply not_true_is_false. intros (_ & _ & ?)%caches_true. congruence. }
    assert (Hcb : caches bn bb = false).
    { apply not_true_is_false. intros (_ & _ & ?)%caches_true. congruence. }
    destruct (content_cases bc bn) as [(i & x & Hi & Hx & Ht)|Hno].
    + rewrite (content_cached _ _ _ _ _ _ _ _ _ Hc Hi Hx Ht).
      assert (b <> i) by congruence.
      eapply content_cached; [done|done| |done]. by rewrite list_lookup_insert_ne.
    + rewrite (content_uncached bc), content_uncached; [by apply Hk| |done]. intros i x Hi.
      destruct (decide (b = i)) as [<-|Hne].
      * rewrite list_lookup_insert_eq by done. by intros [= <-].
      * rewrite list_lookup_insert_ne by done. by apply Hno.
Qed.

End Content.

(** *** Relinking a buffer at the front of the list *)

Lemma link_set_next bc x v w :
  (x < length bc)%nat ->
  link_of b_next (alter (fun b => b <| b_next := v |>) x bc) w = fupd x v (link_of b_next bc) w.
Proof.
  intros Hx. unfold link_of, fupd. destruct (lookup_lt_is_Some_2 bc x Hx) as [y Hy].
  rewrite list_lookup_alter. destruct (decide (w = x)) as [->|Hne].
  - by rewrite decide_True, Hy.
  - by rewrite decide_False.
Qed.

Lemma link_set_prev bc x v w :
  (x < length bc)%nat ->
  link_of b_prev (alter (fun b => b <| b_prev := v |>) x bc) w = fupd x v (link_of b_prev bc) w.
Proof.
  intros Hx. unfold link_of, fupd. destruct (lookup_lt_is_Some_2 bc x Hx) as [y Hy].
  rewrite list_lookup_alter. destruct (decide (w = x)) as [->|Hne].
  - by rewrite decide_True, Hy.
  - by rewrite decide_False.
Qed.

(** A change of buffers that leaves a link alone. *)
Lemma link_alter link f bc x w :
  (forall b, link (f b) = link b) -> link_of link (alter f x bc) w = link_of link bc w.
Proof.
  intros Hf. unfold link_of. rewrite list_lookup_alter. case_decide; [subst|done].
  destruct (bc !! w); cbn; auto.
Qed.

Definition unlinked (bb : buf) (bc : list buf) : list buf :=
  alter (fun n => n <| b_next := b_next bb |>) (b_prev bb)
    (alter (fun n => n <| b_prev := b_prev bb |>) (b_next bb) bc).

Definition relinked (b : nat) (h : buf) (bc : list buf) : list buf :=
  alter (fun h => h <| b_next := b |>) bhead
    (alter (fun n => n <| b_prev := b |>) (b_next h)
       (alter (fun b => b <| b_next := b_next h |> <| b_prev := bhead |>) b bc)).

Lemma tail_lt x l : (x <= NBUF)%nat -> (forall y, y ∈ l -> (y <= NBUF)%nat) -> (tail x l <= NBUF)%nat.
Proof. intros Hx Hl. pose proof (tail_in x l) as [->|H]%elem_of_cons; auto. Qed.

Lemma unlinked_next bb bc w :
  (b_prev bb < length bc)%nat ->
  link_of b_next (unlinked bb bc) w = fupd (b_prev bb) (b_next bb) (link_of b_next bc) w.
Proof.
  intros Hp. unfold unlinked. rewrite link_set_next by (by rewrite length_alter). unfold fupd.
  case_decide; [done|]. by apply link_alter.
Qed.

Lemma unlinked_prev bb bc w :
  (b_next bb < length bc)%nat ->
  link_of b_prev (unlinked bb bc) w = fupd (b_next bb) (b_prev bb) (link_of b_prev bc) w.
Proof. intros Hn. unfold unlinked. rewrite link_alter by done. by apply link_set_prev. Qed.

Lemma relinked_next b h bc w :
  (b < length bc)%nat -> (bhead < length bc)%nat ->
  link_of b_next (relinked b h bc) w = fupd bhead b (fupd b (b_next h) (link_of b_next bc)) w.
Proof.
  intros Hb Hh. unfold relinked. rewrite link_set_next by (by rewrite !length_alter). unfold fupd.
  case_decide; [done|]. rewrite link_alter by done. unfold link_of. rewrite list_lookup_alter.
  destruct (decide (w = b)) as [->|Hne].
  - rewrite decide_True by done. by destruct (lookup_lt_is_Some_2 bc b Hb) as [x ->].
  - by rewrite decide_False.
Qed.

Lemma relinked_prev b h bc w :
  (b < length bc)%nat -> (b_next h < length bc)%nat ->
  link_of b_prev (relinked b h bc) w = fupd (b_next h) b (fupd b bhead (link_of b_prev bc)) w.
Proof.
  intros Hb Hh. unfold relinked. rewrite link_alter by done.
  rewrite link_set_prev by (by rewrite length_alter). unfold fupd.
  case_decide; [done|]. unfold link_of. rewrite list_lookup_alter. destruct (decide (w = b)) as [->|Hne].
  - rewrite decide_True by done. by destruct (lookup_lt_is_Some_2 bc b Hb) as [x ->].
  - by rewrite decide_False.
Qed.

Lemma relink_ring bc l b bb h :
  ring bc l -> length bc = S NBUF -> (b < NBUF)%nat -> bc !! b = Some bb ->
  unlinked bb bc !! bhead = Some h -> exists l', ring (relinked b h (unlinked bb bc)) l'.
Proof.
  intros Hr Hlen Hb Hbb Hh. pose proof (ring_nodup _ _ Hr) as Hnd.
  assert (Hin : b ∈ l) by (by apply (ring_elem _ _ _ Hr)).
  assert (Hle : forall y, y ∈ l -> (y <= NBUF)%nat) by (intros y Hy%(ring_elem _ _ _ Hr); lia).
  apply list_elem_of_split in Hin as (l1 & l2 & ->). destruct Hr as [Hperm Hch].
  assert (Hn : link_of b_next bc b = b_next bb) by (unfold link_of; by rewrite Hbb).
  assert (Hp : link_of b_prev bc b = b_prev bb) by (unfold link_of; by rewrite Hbb).
  assert (Hnlt : (b_next bb < length bc)%nat).
  { apply chain_app in Hch as [_ H2]. apply chain_first in H2 as [H2 _]. rewrite <- Hn, H2.
    destruct l2 as [|y l2]; cbn; [unfold bhead; lia|]. rewrite Hlen. apply Nat.lt_succ_r, Hle. set_solver. }
  assert (Hplt : (b_prev bb < length bc)%nat).
  { apply chain_app in Hch as [H1 _]. apply chain_last in H1 as [H1 _]. rewrite <- Hp, H1, Hlen.
    apply Nat.lt_succ_r, tail_lt; [unfold bhead; lia|]. intros y Hy. apply Hle. set_solver. }
  pose proof (chain_move _ _ _ _ _ _ Hch Hnd) as Hm. cbv zeta in Hm. rewrite Hn, Hp in Hm.
  assert (Hf : b_next h = fupd (b_prev bb) (b_next bb) (link_of b_next bc) bhead).
  { rewrite <- unlinked_next by done. unfold link_of. by rewrite Hh. }
  rewrite <- Hf in Hm. exists (b :: l1 ++ l2). split; [by rewrite <- Hperm, <- Permutation_middle|].
  assert (Hul : length (unlinked bb bc) = S NBUF) by (unfold unlinked; by rewrite !length_alter).
  assert (Hflt : (b_next h <= NBUF)%nat).
  { rewrite Hf. unfold fupd. case_decide; [lia|]. pose proof (chain_first _ _ _ _ _ Hch) as [-> _].
    destruct l1; cbn; apply Hle; set_solver. }
  eapply chain_ext; [exact Hm|..]; intros w _.
  - rewrite relinked_next by (unfold bhead; lia). by apply fupd_ext, fupd_ext, unlinked_next.
  - rewrite relinked_prev by lia. by apply fupd_ext, fupd_ext, unlinked_prev.
Qed.

(** A buffer without its links. *)
Definition plain (bb : buf) : buf := bb <| b_prev := 0%nat |> <| b_next := 0%nat |>.

(** What a buffer says about the disk. *)
Definition view (bb : buf) : bool * Z * Z * list Z := (b_valid bb, b_dev bb, b_blockno bb, b_data bb).

Definition same_view (bc bc' : list buf) : Prop := forall b, view <$> bc' !! b = view <$> bc !! b.

Lemma same_view_lookup bc bc' b bb :
  same_view bc bc' -> bc !! b = Some bb -> exists bb', bc' !! b = Some bb' /\ view bb' = view bb.
Proof. intros Hv Hb. specialize (Hv b). rewrite Hb in Hv. destruct (bc' !! b) as [x|]; [|done].
  exists x. split; [done|]. by apply (inj Some). Qed.

Lemma content_view pid pins held dirty pins' held' dirty' bc bc' dk bn :
  cache pid pins held dirty bc dk -> cache pid pins' held' dirty' bc' dk -> same_view bc bc' ->
  content bc' dk bn = content bc dk bn.
Proof.
  intros Hc Hc' Hv. assert (Hca : forall x y, view x = view y -> caches bn x = caches bn y).
  { intros x y [= E1 E2 E3 E4]. unfold caches. by rewrite E1, E2, E3. }
  destruct (content_cases bc bn) as [(i & x & Hi & Hx & Ht)|Hno].
  - rewrite (content_cached _ _ _ _ _ _ _ _ _ Hc Hi Hx Ht).
    destruct (same_view_lookup _ _ _ _ Hv Hx) as (y & Hy & E). pose proof E as [= _ _ _ <-].
    eapply content_cached; [exact Hc'|done|done|]. by rewrite (Hca _ _ E).
  - rewrite (content_uncached bc) by done. apply content_uncached. intros i y Hi Hy.
    destruct (same_view_lookup bc' bc i y) as (x & Hx & E); [intros b; symmetry; apply Hv|done|].
    rewrite <- (Hca _ _ E). by apply (Hno i).
Qed.

Lemma cache_plain pid pins held dirty bc bc' dk :
  cache pid pins held dirty bc dk -> length bc' = S NBUF -> (exists l, ring bc' l) ->
  (forall b, plain <$> bc' !! b = plain <$> bc !! b) -> cache pid pins held dirty bc' dk.
Proof.
  intros Hc Hl Hr Hp.
  assert (Hlk : forall b y, bc' !! b = Some y -> exists x, bc !! b = Some x /\ plain y = plain x).
  { intros b y Hy. specialize (Hp b). rewrite Hy in Hp. destruct (bc !! b) as [x|]; [|done].
    exists x. split; [done|]. by apply (inj Some). }
  split; [done|done|..|apply (ca_disk _ _ _ _ _ _ Hc)|apply (ca_dirty _ _ _ _ _ _ Hc)].
  - intros b y Hb Hy. destruct (Hlk b y Hy) as (x & Hx & E). pose proof E as [= E1 E2 E3 E4 E5 E6 E7].
    destruct (ca_buf _ _ _ _ _ _ Hc b x Hb Hx). split; rewrite ?E1, ?E2, ?E3, ?E4, ?E5, ?E6, ?E7; done.
  - intros b b' y y' Hb Hb' Hy Hy'. destruct (Hlk b y Hy) as (x & Hx & E), (Hlk b' y' Hy') as (x' & Hx' & E').
    pose proof E as [= E1 E2 E3 E4 E5 E6 E7]. pose proof E' as [= F1 F2 F3 F4 F5 F6 F7].
    rewrite E3, E4, F3, F4. by apply (ca_uniq _ _ _ _ _ _ Hc).
Qed.

Lemma plain_alter f x (bc : list buf) b :
  (forall bb, plain (f bb) = plain bb) -> plain <$> alter f x bc !! b = plain <$> bc !! b.
Proof.
  intros Hf. rewrite list_lookup_alter. case_decide; [|done]. subst.
  destruct (bc !! b); cbn; [by rewrite Hf|done].
Qed.

(** The relinked list, with the invariant. *)
Lemma cache_relinked pid pins held dirty bc dk b bb h :
  cache pid pins held dirty bc dk -> (b < NBUF)%nat -> bc !! b = Some bb -> unlinked bb bc !! bhead = Some h ->
  cache pid pins held dirty (relinked b h (unlinked bb bc)) dk /\ same_view bc (relinked b h (unlinked bb bc)).
Proof.
  intros Hc Hb Hbb Hh. destruct (ca_ring _ _ _ _ _ _ Hc) as [l Hl].
  assert (Hp : forall i, plain <$> relinked b h (unlinked bb bc) !! i = plain <$> bc !! i).
  { intros i. unfold relinked, unlinked. by rewrite !plain_alter. }
  split.
  - eapply cache_plain; [exact Hc| |apply (relink_ring bc l b bb h Hl (ca_len _ _ _ _ _ _ Hc) Hb Hbb Hh)|exact Hp].
    unfold relinked, unlinked. rewrite !length_alter. apply (ca_len _ _ _ _ _ _ Hc).
  - intros i. specialize (Hp i).
    destruct (relinked b h (unlinked bb bc) !! i) as [y|], (bc !! i) as [x|]; try done. cbn in *.
    apply (inj Some) in Hp as [= E1 E2 E3 E4 E5 E6 E7]. unfold view. congruence.
Qed.

(** ** The contract of the disk *)

(** The state without what disk requests change. *)
Definition erase_io (s : kernel) : kernel :=
  s <| bcache := [] |> <| procs := [] |> <| disk := ∅ |> <| dwrites := [] |>
    <| vdisk := virtq0 |> <| mmio := [] |> <| mmio_reads := 0%nat |>.

(** The process is running with the locks of the cache and the disk free. *)
Definition ready (p : nat) (pid : Z) (s : kernel) : Prop :=
  calm p pid s /\ free LBcache (hw s) /\ free LVdisk (hw s) /\
  forall b, (b < NBUF)%nat -> free (LSleep (SBuf b)) (hw s).

(** What the scheduler and wakeup() leave alone in a process. *)
Definition face (pp : proc) : Z * Z * list (option nat) * option nat * Z :=
  (p_pagetable pp, p_sz pp, p_ofile pp, p_cwd pp, p_killed pp).

Definition same_face (p : nat) (s s' : kernel) : Prop := face <$> procs s' !! p = face <$> procs s !! p.

(** A request for an existing block is served: a read fills the buffer with the
    block, a write replaces the block by the bytes of the buffer and is the
    last write the disk has seen.  [idle] is the condition the driver keeps
    between requests, [serves n e] says that the environment answers [n]
    requests. *)
Class DiskOk `{Disk} := {
  idle : virtq -> Prop;
  serves : nat -> env -> Prop;
  disk_io : forall p pid n b bb (w : bool) d e s,
    serves (S n) e -> ready p pid s -> idle (vdisk s) -> (b < NBUF)%nat -> bcache s !! b = Some bb ->
    b_disk bb = 0 -> 0 <= b_blockno bb < 2 ^ 31 -> disk s !! b_blockno bb = Some d ->
    exists e' s', disk_rw b w e s = Ret tt e' s' /\ serves n e' /\ erase_io s' = erase_io s /\
      calm p pid s' /\ idle (vdisk s') /\
      bcache s' = (if w then bcache s else <[b := bb <| b_data := d |>]> (bcache s)) /\
      disk s' = (if w then <[b_blockno bb := b_data bb]> (disk s) else disk s) /\
      dwrites s' = (if w then dwrites s ++ [(b_blockno bb, b_data bb)] else dwrites s) /\ same_face p s s';
  serves_less : forall n e, serves (S n) e -> serves n e;
}.

Lemma ready_erase p pid s s' : erase_io s' = erase_io s -> calm p pid s' -> ready p pid s -> ready p pid s'.
Proof.
  intros He Hc (_ & H1 & H2 & H3). split; [done|].
  change (hw s') with (hw (erase_io s')). rewrite He. done.
Qed.

Lemma ready_calm p pid s : ready p pid s -> calm p pid s.
Proof. by intros (? & _). Qed.

Lemma ready_bcache_lock p pid s : ready p pid s -> free LBcache (hw s).
Proof. by intros (_ & ? & _). Qed.

Lemma ready_settled p pid s : ready p pid s -> settled (hw s).
Proof. intros [? _]. by eapply calm_settled. Qed.

#[export] Hint Resolve ready_calm ready_bcache_lock ready_settled : kernel.

Section Operations.
Context `{HD : Disk, !DiskOk} (p : nat) (pid : Z).

Record session (pins : nat -> Z) (held dirty : list nat) (s : kernel) : Prop := {
  se_ready : ready p pid s;
  se_idle : idle (vdisk s);
  se_cache : cache pid pins held dirty (bcache s) (disk s);
}.

(** Only buffers have changed. *)
Lemma session_bcache pins held dirty pins' held' dirty' bc s :
  session pins held dirty s -> cache pid pins' held' dirty' bc (disk s) ->
  session pins' held' dirty' (s <| bcache := bc |>).
Proof. intros [Hr Hi Hc] Hc'. by split. Qed.

(** *** bget *)

(** The buffer bget() returns for a block that is cached. *)
Definition got (bb : buf) : buf := bb <| b_refcnt ::= fun n => n +32 1 |> <| b_lock ::= taken_by pid |>.

(** The buffer it recycles for a block that is not. *)
Definition recycled (bn : Z) (bb : buf) : buf :=
  bb <| b_dev := ROOTDEV |> <| b_blockno := bn |> <| b_valid := false |> <| b_refcnt := 1 |>
     <| b_lock ::= taken_by pid |>.

Section Got.
Context (pins : nat -> Z) (held dirty : list nat) (bc : list buf) (dk : gmap Z (list Z)) (b : nat) (bb : buf).
Context (Hc : cache pid pins held dirty bc dk) (Hb : (b < NBUF)%nat) (Hbb : bc !! b = Some bb) (Hh : b ∉ held).

Lemma buf_ok_hold b2 bb2 :
  (b2 < NBUF)%nat -> b2 <> b -> bc !! b2 = Some bb2 -> buf_ok pid pins (b :: held) dirty dk b2 bb2.
Proof using Hc.
  intros Hb2 Hne Hbb2. eapply (buf_ok_other pid pins held dirty dk); try done.
  - by apply (ca_buf _ _ _ _ _ _ Hc).
  - rewrite elem_of_cons. tauto.
Qed.

Lemma cache_got : cache pid pins (b :: held) dirty (<[b := got bb]> bc) dk.
Proof using Hc Hb Hbb Hh.
  eapply cache_update; [exact Hc|exact Hb|exact Hbb|done|done|..].
  - destruct (ca_buf _ _ _ _ _ _ Hc b bb Hb Hbb). split; cbn; try done.
    + rewrite bo_ref0, decide_False, decide_True by set_solver. rewrite u32_small; lia.
    + by rewrite bool_decide_true by set_solver.
  - intros Hd b2 bb2 Hb2 Hbb2 Hne Hd2 E. apply Hne. by apply (ca_uniq _ _ _ _ _ _ Hc b2 b bb2 bb).
  - apply buf_ok_hold.
  - apply (ca_disk _ _ _ _ _ _ Hc).
  - intros b2 Hb2. right. by apply (ca_dirty _ _ _ _ _ _ Hc).
Qed.

Lemma cache_recycled bn :
  pins b = 0 -> 0 <= bn < 2 ^ 31 -> is_Some (dk !! bn) ->
  (forall b2 bb2, (b2 < NBUF)%nat -> bc !! b2 = Some bb2 -> b_dev bb2 = ROOTDEV -> b_blockno bb2 <> bn) ->
  cache pid pins (b :: held) dirty (<[b := recycled bn bb]> bc) dk.
Proof using Hc Hb Hbb Hh.
  intros Hp Hbn Hex Hno. eapply cache_update; [exact Hc|exact Hb|exact Hbb|done|done|..].
  - destruct (ca_buf _ _ _ _ _ _ Hc b bb Hb Hbb). split; cbn; try done.
    + rewrite decide_True by set_solver. lia.
    + by rewrite bool_decide_true by set_solver.
  - intros _ b2 bb2 Hb2 Hbb2 Hne Hd2. cbn. by apply (Hno b2).
  - apply buf_ok_hold.
  - apply (ca_disk _ _ _ _ _ _ Hc).
  - intros b2 Hb2. right. by apply (ca_dirty _ _ _ _ _ _ Hc).
Qed.

End Got.

(** The cached buffer of a block. *)
Definition slot_for (bn : Z) (bc : list buf) (b : nat) : Prop :=
  (b < NBUF)%nat /\ exists bb, bc !! b = Some bb /\ b_dev bb = ROOTDEV /\ b_blockno bb = bn.

(** A buffer that can be recycled. *)
Definition room (pins : nat -> Z) (held : list nat) : Prop := exists b, (b < NBUF)%nat /\ pins b = 0 /\ b ∉ held.

Lemma bcache_unlock lk f s :
  settled (hw s) -> free lk (hw s) ->
  s <| hw ::= lock_h lk |> <| bcache ::= f |> <| hw ::= unlock_h lk |> = s <| bcache ::= f |>.
Proof. intros Hs Hf. apply kernel_eq; st; try done. by apply unlock_lock. Qed.

Lemma bget_ok pins held dirty bn e s :
  session pins held dirty s -> 0 <= bn < 2 ^ 31 -> is_Some (disk s !! bn) ->
  (forall b, slot_for bn (bcache s) b -> b ∉ held) ->
  room pins held \/ (exists b, slot_for bn (bcache s) b) ->
  exists b bb bb', bget ROOTDEV bn e s = Ret b e (s <| bcache ::= <[b := bb']> |>) /\
    (b < NBUF)%nat /\ b ∉ held /\ bcache s !! b = Some bb /\
    (slot_for bn (bcache s) b /\ bb' = got bb \/
     (forall b, ~ slot_for bn (bcache s) b) /\ pins b = 0 /\ bb' = recycled bn bb).
Proof.
  intros [Hr Hi Hc] Hbn Hex Hnh Hroom. destruct (ca_ring _ _ _ _ _ _ Hc) as [l Hl].
  unfold bget. mrun acquire_run.
  destruct (find_next_run (fun b => (b_dev b =? ROOTDEV) && (b_blockno b =? bn)) l e
    (s <| hw ::= lock_h LBcache |>)) as (r & Hr1 & Hf1); [apply (ca_len _ _ _ _ _ _ Hc)|done|].
  rewrite (bind_run _ _ _ _ _ _ _ Hr1). change (bcache (s <| hw ::= lock_h LBcache |>)) with (bcache s) in Hf1.
  destruct r as [b|]; cbn [found] in Hf1.
  - destruct Hf1 as (Hb & bb & Hbb & [Hd Hn]%andb_true_iff). apply Z.eqb_eq in Hd, Hn.
    assert (Hs : slot_for bn (bcache s) b) by (split; eauto).
    exists b, bb, (got bb). split; [|eauto 10].
    unfold buf_upd. rewrite step_modify. mrun release_run. rewrite bcache_unlock by eauto with kernel.
    erewrite bind_run; [|eapply acquiresleep_run with (l := b_lock bb)].
    + apply ret_state, kernel_eq; st; try done. cbn [slock_set]. st.
      by rewrite list_alter_alter_eq, (alter_insert _ _ _ _ Hbb).
    + apply (ready_calm p pid), Hr.
    + by apply Hr.
    + cbn. st. by rewrite list_lookup_alter, decide_True, Hbb.
    + rewrite (bo_lock _ _ _ _ _ _ _ (ca_buf _ _ _ _ _ _ Hc b bb Hb Hbb)).
      by apply bool_decide_false, Hnh.
  - assert (Hno : forall b, ~ slot_for bn (bcache s) b).
    { intros b (Hb & bb & Hbb & Hd & Hn). specialize (Hf1 b bb Hb Hbb). by rewrite Hd, Hn, !Z.eqb_refl in Hf1. }
    destruct (find_prev_run (fun b => b_refcnt b =? 0) l e (s <| hw ::= lock_h LBcache |>))
      as (r & Hr2 & Hf2); [apply (ca_len _ _ _ _ _ _ Hc)|done|].
    rewrite (bind_run _ _ _ _ _ _ _ Hr2). change (bcache (s <| hw ::= lock_h LBcache |>)) with (bcache s) in Hf2.
    destruct r as [b|]; cbn [found] in Hf2.
    + destruct Hf2 as (Hb & bb & Hbb & Hz%Z.eqb_eq).
      pose proof (ca_buf _ _ _ _ _ _ Hc b bb Hb Hbb) as Hbo.
      assert (Hp : pins b = 0 /\ b ∉ held).
      { destruct Hbo. rewrite bo_ref0 in Hz. case_decide; [lia|]. split; [lia|done]. }
      exists b, bb, (recycled bn bb). split; [|destruct Hp; eauto 10].
      unfold buf_upd. rewrite step_modify. mrun release_run. rewrite bcache_unlock by eauto with kernel.
      erewrite bind_run; [|eapply acquiresleep_run with (l := b_lock bb)].
      * apply ret_state, kernel_eq; st; try done. cbn [slock_set]. st.
        by rewrite list_alter_alter_eq, (alter_insert _ _ _ _ Hbb).
      * apply (ready_calm p pid), Hr.
      * by apply Hr.
      * cbn. st. by rewrite list_lookup_alter, decide_True, Hbb.
      * rewrite (bo_lock _ _ _ _ _ _ _ Hbo). by apply bool_decide_false, Hp.
    + exfalso. destruct Hroom as [(b & Hb & Hp & Hh)|[b Hb]]; [|by apply (Hno b)].
      destruct (cache_lookup _ _ _ _ _ _ b Hc Hb) as [bb Hbb]. specialize (Hf2 b bb Hb Hbb).
      apply Z.eqb_neq in Hf2. destruct (ca_buf _ _ _ _ _ _ Hc b bb Hb Hbb).
      rewrite bo_ref0, decide_False in Hf2 by done. lia.
Qed.

(** *** bread *)

(** What bread() gives its caller: the buffer [b], locked, with the content of
    the block; no block has changed. *)
Record granted (pins : nat -> Z) (held dirty : list nat) (bn : Z) (s : kernel) (b : nat) (bb : buf) (s' : kernel)
  : Prop := {
  gr_session : session pins (b :: held) dirty s';
  gr_erase : erase_io s' = erase_io s;
  gr_disk : disk s' = disk s;
  gr_writes : dwrites s' = dwrites s;
  gr_lt : (b < NBUF)%nat;
  gr_new : b ∉ held;
  gr_buf : bcache s' !! b = Some bb;
  gr_dev : b_dev bb = ROOTDEV;
  gr_valid : b_valid bb = true;
  gr_block : b_blockno bb = bn;
  gr_data : content (bcache s) (disk s) bn = Some (b_data bb);
  gr_content : forall bn', content (bcache s') (disk s') bn' = content (bcache s) (disk s) bn';
  gr_other : forall b', b' <> b -> bcache s' !! b' = bcache s !! b';
  gr_slot : forall b', slot_for bn (bcache s) b' -> b' = b;
  gr_pinned : pins b <> 0 -> slot_for bn (bcache s) b;
  gr_face : same_face p s s';
}.

Definition filled (d : list Z) (bb : buf) : buf := bb <| b_data := d |> <| b_valid := true |>.

Lemma cache_filled pins held dirty bc dk b bb d :
  cache pid pins held dirty bc dk -> (b < NBUF)%nat -> bc !! b = Some bb -> b_dev bb = ROOTDEV ->
  dk !! b_blockno bb = Some d -> cache pid pins held dirty (<[b := filled d bb]> bc) dk.
Proof.
  intros Hc Hb Hbb Hd Hdk. eapply cache_update; [exact Hc|exact Hb|exact Hbb|done|done|..].
  - destruct (ca_buf _ _ _ _ _ _ Hc b bb Hb Hbb). split; cbn; try done. by apply (ca_disk _ _ _ _ _ _ Hc) in Hdk.
  - intros _ b2 bb2 Hb2 Hbb2 Hne Hd2 E. apply Hne. by apply (ca_uniq _ _ _ _ _ _ Hc b2 b bb2 bb).
  - intros b2 bb2 Hb2 _ Hbb2. by apply (ca_buf _ _ _ _ _ _ Hc).
  - apply (ca_disk _ _ _ _ _ _ Hc).
  - apply (ca_dirty _ _ _ _ _ _ Hc).
Qed.

(** Reading in the block of an invalid buffer changes no content. *)
Lemma content_filled pins held dirty bc dk b bb d bn :
  cache pid pins held dirty bc dk -> (b < NBUF)%nat -> bc !! b = Some bb -> b_dev bb = ROOTDEV ->
  b_valid bb = false -> dk !! b_blockno bb = Some d ->
  content (<[b := filled d bb]> bc) dk bn = content bc dk bn.
Proof.
  intros Hc Hb Hbb Hd Hv Hdk. pose proof (cache_filled _ _ _ _ _ _ _ _ Hc Hb Hbb Hd Hdk) as Hc'.
  rewrite (content_set pid pins held dirty bc dk b bb Hc Hb Hbb pins held dirty) by done.
  case_decide as E; [|done]. subst bn. rewrite (content_uncached bc); [by rewrite Hdk|].
  intros i x Hi Hx. apply not_true_is_false. intros (Hvx & Hdx & Hnx)%caches_true.
  assert (i = b) as -> by (by apply (ca_uniq _ _ _ _ _ _ Hc i b x bb)). congruence.
Qed.

(** The end of bread(): fetch the data if the buffer is not valid. *)
Lemma fetch_ok pins held dirty n b bb e s :
  serves (S n) e -> session pins held dirty s -> (b < NBUF)%nat -> bcache s !! b = Some bb ->
  b_dev bb = ROOTDEV ->
  exists e' s' bb', (bb <- buf_at b;
      when (negb (b_valid bb)) (disk_rw b false ;; buf_upd b (fun b => b <| b_valid := true |>)) ;;
      ret b) e s = Ret b e' s' /\ serves n e' /\ session pins held dirty s' /\ erase_io s' = erase_io s /\
    disk s' = disk s /\ dwrites s' = dwrites s /\ bcache s' = <[b := bb']> (bcache s) /\
    b_valid bb' = true /\ b_dev bb' = ROOTDEV /\ b_blockno bb' = b_blockno bb /\ same_face p s s' /\
    forall bn, content (bcache s') (disk s') bn = content (bcache s) (disk s) bn.
Proof using.
  intros He [Hr Hi Hc] Hb Hbb Hd. rewrite (bind_run _ _ _ _ _ _ _ (buf_at_run _ _ _ _ Hbb)).
  destruct (b_valid bb) eqn:Hv; cbn [negb].
  - exists e, s, bb. rewrite step_when_false. rewrite (list_insert_id (bcache s)) by done.
    split; [done|]. split; [by apply serves_less|]. split; [by split|]. by repeat split.
  - destruct (ca_buf _ _ _ _ _ _ Hc b bb Hb Hbb). destruct (bo_block0 Hd) as (Hbn & d & Hdk).
    destruct (disk_io p pid n b bb false d e s) as (e' & s' & Hrun & He' & Her & Hca & Hi' & Hbc & Hdk' & Hdw & Hfc); try done.
    rewrite step_when_true, bind_assoc, (bind_run _ _ _ _ _ _ _ Hrun). unfold buf_upd. rewrite step_modify.
    assert (Hbc' : alter (fun b => b <| b_valid := true |>) b (bcache s') = <[b := filled d bb]> (bcache s)).
    { rewrite Hbc. erewrite alter_insert by (apply list_lookup_insert_eq; by eapply lookup_lt_Some).
      by rewrite list_insert_insert_eq. }
    eexists e', _, (filled d bb). split; [reflexivity|]. split; [done|]. st. rewrite Hbc', Hdk', Hdw.
    split; [|do 8 (split; [done|]); intros; by apply (content_filled pins held dirty)].
    split; st; [|done|].
    + apply (ready_erase p pid s); [|done|done]. rewrite <- Her. done.
    + rewrite Hbc', Hdk'. by apply cache_filled.
Qed.

Lemma bread_ok pins held dirty n bn e s :
  serves (S n) e -> session pins held dirty s -> 0 <= bn < 2 ^ 31 -> is_Some (disk s !! bn) ->
  (forall b, slot_for bn (bcache s) b -> b ∉ held) ->
  room pins held \/ (exists b, slot_for bn (bcache s) b) ->
  exists b bb e' s', bread ROOTDEV bn e s = Ret b e' s' /\ serves n e' /\
    granted pins held dirty bn s b bb s'.
Proof using.
  intros He Hse Hbn Hex Hnh Hroom.
  destruct (bget_ok pins held dirty bn e s Hse Hbn Hex Hnh Hroom) as (b & bb & bb1 & Hget & Hb & Hh & Hbb & Hcase).
  destruct Hse as [Hr Hi Hc]. pose proof (lookup_lt_Some _ _ _ Hbb) as Hlt.
  assert (H1 : cache pid pins (b :: held) dirty (<[b := bb1]> (bcache s)) (disk s) /\
    b_dev bb1 = ROOTDEV /\ b_blockno bb1 = bn /\ (forall b', slot_for bn (bcache s) b' -> b' = b) /\
    forall bn', content (<[b := bb1]> (bcache s)) (disk s) bn' = content (bcache s) (disk s) bn').
  { destruct Hcase as [[(_ & bb0 & Hbb0 & Hd & Hn) ->]|(Hno & Hp & ->)].
    - assert (bb0 = bb) as -> by congruence. pose proof (cache_got _ _ _ _ _ _ _ Hc Hb Hbb Hh) as Hc'.
      split; [done|]. split; [done|]. split; [done|]. split; [|intros; by eapply content_keep].
      intros b' (Hb' & bb' & Hbb' & Hd' & Hn'). apply (ca_uniq _ _ _ _ _ _ Hc b' b bb' bb); congruence.
    - assert (Hc' : cache pid pins (b :: held) dirty (<[b := recycled bn bb]> (bcache s)) (disk s)).
      { apply cache_recycled; try done. intros b2 bb2 Hb2 Hbb2 Hd2 Hn2. apply (Hno b2). split; eauto. }
      split; [done|]. split; [done|]. split; [done|]. split; [by intros b' ?%Hno|].
      intros bn'. eapply content_drop; [exact Hc|exact Hb|exact Hbb| |done|exact Hc'].
      intros Hv. apply (bo_clean _ _ _ _ _ _ _ (ca_buf _ _ _ _ _ _ Hc b bb Hb Hbb)); [done|done|].
      intros Hdi. by apply Hh, (ca_dirty _ _ _ _ _ _ Hc). }
  destruct H1 as (Hc1 & Hd1 & Hn1 & Hslot & Hcont).
  destruct (fetch_ok pins (b :: held) dirty n b bb1 e (s <| bcache ::= <[b := bb1]> |>))
    as (e' & s' & bb' & Hf & He' & Hse' & Her & Hdk & Hdw & Hbc & Hv & Hd & Hn & Hfc & Hco); try done.
  { by apply list_lookup_insert_eq. }
  exists b, bb', e', s'. split; [|split; [done|]].
  - unfold bread. rewrite (bind_run _ _ _ _ _ _ _ Hget). exact Hf.
  - assert (Hbb' : bcache s' !! b = Some bb').
    { rewrite Hbc. apply list_lookup_insert_eq. cbn. by rewrite length_insert. }
    split; try done.
    + congruence.
    + rewrite <- Hcont. etransitivity; [symmetry; apply Hco|].
      eapply content_cached; [apply (se_cache _ _ _ _ Hse')|done|done|]. apply caches_true. by rewrite Hv, Hd, Hn, Hn1.
    + intros bn'. rewrite Hco. apply Hcont.
    + intros b' Hne. rewrite Hbc. cbn. by rewrite !list_lookup_insert_ne.
    + intros Hp. by destruct Hcase as [[? _]|(_ & ? & _)].
Qed.

(** *** Writing *)

(** The holder of a buffer changes its bytes. *)
Lemma bdata_upd_ok pins held dirty b bb f e s :
  session pins held dirty s -> (b < NBUF)%nat -> b ∈ held -> bcache s !! b = Some bb ->
  b_dev bb = ROOTDEV -> b_valid bb = true -> length (f (b_data bb)) = Z.to_nat BSIZE ->
  exists s', bdata_upd b f e s = Ret tt e s' /\ s' = s <| bcache := <[b := bb <| b_data ::= f |>]> (bcache s) |> /\
    session pins held (b :: dirty) s' /\
    forall bn, content (bcache s') (disk s') bn =
      if decide (bn = b_blockno bb) then Some (f (b_data bb)) else content (bcache s) (disk s) bn.
Proof using.
  intros Hse Hb Hh Hbb Hd Hv Hlen. destruct Hse as [Hr Hi Hc].
  assert (Hc' : cache pid pins held (b :: dirty) (<[b := bb <| b_data ::= f |>]> (bcache s)) (disk s)).
  { eapply cache_update; [exact Hc|exact Hb|exact Hbb|done|done|..].
    - destruct (ca_buf _ _ _ _ _ _ Hc b bb Hb Hbb). split; cbn; try done. intros _ _ []. left.
    - intros _ b2 bb2 Hb2 Hbb2 Hne Hd2 E. apply Hne. by apply (ca_uniq _ _ _ _ _ _ Hc b2 b bb2 bb).
    - intros b2 bb2 Hb2 Hne Hbb2. eapply buf_ok_other; [by apply (ca_buf _ _ _ _ _ _ Hc)|done|done| |done].
      by right.
    - apply (ca_disk _ _ _ _ _ _ Hc).
    - intros b2 [->|Hb2]%elem_of_cons; [done|]. by apply (ca_dirty _ _ _ _ _ _ Hc). }
  eexists. split; [|split; [reflexivity|split; [by split|]]].
  - unfold bdata_upd, buf_upd. cbn. apply ret_state, kernel_eq; st; try done. by apply alter_insert.
  - intros bn. cbn [bcache disk]. by apply (content_set pid pins held dirty _ _ _ _ Hc Hb Hbb pins held (b :: dirty)).
Qed.

Lemma holding_held pins held dirty b bb e s :
  session pins held dirty s -> (b < NBUF)%nat -> b ∈ held -> bcache s !! b = Some bb ->
  holdingsleep (SBuf b) e s = Ret true e s.
Proof using.
  intros [Hr Hi Hc] Hb Hh Hbb. destruct (ca_buf _ _ _ _ _ _ Hc b bb Hb Hbb).
  rewrite (holdingsleep_run p pid _ (b_lock bb)); [|apply Hr|by apply Hr|cbn; by rewrite Hbb].
  by rewrite bo_lock0, bool_decide_true, bo_pid0, Z.eqb_refl.
Qed.

Lemma bwrite_ok pins held dirty dirty' n b bb e s :
  serves (S n) e -> session pins held dirty s -> (b < NBUF)%nat -> b ∈ held -> bcache s !! b = Some bb ->
  b_dev bb = ROOTDEV -> b_valid bb = true -> (forall x, x ∈ dirty' <-> x ∈ dirty /\ x <> b) ->
  exists e' s', bwrite b e s = Ret tt e' s' /\ serves n e' /\ session pins held dirty' s' /\
    erase_io s' = erase_io s /\ bcache s' = bcache s /\
    disk s' = <[b_blockno bb := b_data bb]> (disk s) /\ dwrites s' = dwrites s ++ [(b_blockno bb, b_data bb)] /\
    forall bn, content (bcache s') (disk s') bn = content (bcache s) (disk s) bn.
Proof using.
  intros He Hse Hb Hh Hbb Hd Hv Hdir. pose proof (holding_held _ _ _ _ _ e _ Hse Hb Hh Hbb) as Hhold.
  destruct Hse as [Hr Hi Hc]. pose proof (ca_buf _ _ _ _ _ _ Hc b bb Hb Hbb) as Hbo. destruct Hbo.
  destruct (bo_block0 Hd) as (Hbn & d & Hdk).
  destruct (disk_io p pid n b bb true d e s) as (e' & s' & Hrun & He' & Her & Hca & Hi' & Hbc & Hdk' & Hdw & Hfc); try done.
  assert (Hc' : cache pid pins held dirty' (<[b := bb]> (bcache s)) (disk s')).
  { rewrite Hdk'. eapply cache_update; [exact Hc|exact Hb|exact Hbb|done|done|..].
    - split; try done.
      + intros _. split; [done|]. rewrite lookup_insert_eq. eauto.
      + intros _ _ _. apply lookup_insert_eq.
    - intros _ b2 bb2 Hb2 Hbb2 Hne Hd2 E. apply Hne. by apply (ca_uniq _ _ _ _ _ _ Hc b2 b bb2 bb).
    - intros b2 bb2 Hb2 Hne Hbb2. eapply buf_ok_other; [by apply (ca_buf _ _ _ _ _ _ Hc)|done|done|..].
      + intros Hb2d. by apply Hdir.
      + intros Hd2. apply lookup_insert_ne. intros E. apply Hne. by apply (ca_uniq _ _ _ _ _ _ Hc b2 b bb2 bb).
    - intros bn d' [[_ <-]|[_ ?]]%lookup_insert_Some; [done|]. by eapply (ca_disk _ _ _ _ _ _ Hc).
    - intros x [Hx _]%Hdir. by apply (ca_dirty _ _ _ _ _ _ Hc). }
  exists e', s'. split; [|split; [done|]].
  - unfold bwrite. rewrite (bind_run _ _ _ _ _ _ _ Hhold). exact Hrun.
  - rewrite Hbc. split; [|do 4 (split; [done|])].
    + split; [by apply (ready_erase p pid s)|done|]. rewrite Hbc. by rewrite list_insert_id in Hc' by done.
    + intros bn. rewrite Hdk' in *. rewrite <- (list_insert_id (bcache s) b bb Hbb) at 1.
      rewrite (content_set pid pins held dirty (bcache s) (disk s) b bb Hc Hb Hbb pins held dirty'); try done.
      * destruct (decide (bn = b_blockno bb)) as [->|]; [|done]. symmetry. eapply content_cached; [exact Hc|exact Hb|exact Hbb|].
        by apply caches_true.
      * intros Hne. by apply lookup_insert_ne.
Qed.

(** *** brelse *)

(** The buffer after its holder has let it go. *)
Definition dropped (bb : buf) : buf := bb <| b_lock ::= let_go |> <| b_refcnt ::= fun n => n -32 1 |>.

Lemma cache_dropped pins held held' dirty bc dk b bb :
  cache pid pins held dirty bc dk -> (b < NBUF)%nat -> bc !! b = Some bb -> b ∈ held -> b ∉ dirty ->
  (forall x, x ∈ held' <-> x ∈ held /\ x <> b) ->
  cache pid pins held' dirty (<[b := dropped bb]> bc) dk /\ b_refcnt (dropped bb) = pins b.
Proof using.
  intros Hc Hb Hbb Hh Hnd Hheld. pose proof (ca_buf _ _ _ _ _ _ Hc b bb Hb Hbb) as Hbo.
  assert (Hnh : b ∉ held') by (rewrite Hheld; tauto).
  assert (Hrc : b_refcnt (dropped bb) = pins b).
  { destruct Hbo. cbn. rewrite bo_ref0, decide_True by done. rewrite u32_small; lia. }
  split; [|done]. eapply cache_update; [exact Hc|exact Hb|exact Hbb|done|done|..].
  - destruct Hbo. split; try done.
    + rewrite Hrc, decide_False by done. lia.
    + cbn. by rewrite bool_decide_false.
  - intros Hd b2 bb2 Hb2 Hbb2 Hne Hd2 E. apply Hne. by apply (ca_uniq _ _ _ _ _ _ Hc b2 b bb2 bb).
  - intros b2 bb2 Hb2 Hne Hbb2. eapply buf_ok_other; [by apply (ca_buf _ _ _ _ _ _ Hc)|done| |done|done].
    rewrite Hheld. tauto.
  - apply (ca_disk _ _ _ _ _ _ Hc).
  - intros x Hx. apply Hheld. split; [by apply (ca_dirty _ _ _ _ _ _ Hc)|]. by intros ->.
Qed.

(** The part of brelse() under bcache.lock. *)
Lemma drop_run b bb1 e s :
  (b < NBUF)%nat -> length (bcache s) = S NBUF -> bcache s !! b = Some bb1 ->
  let bb2 := bb1 <| b_refcnt ::= fun n => n -32 1 |> in
  let bc := <[b := bb2]> (bcache s) in
  exists h, unlinked bb2 bc !! bhead = Some h /\
  forall (k : unit -> M unit),
  (buf_upd b (fun b => b <| b_refcnt ::= fun n => n -32 1 |>) ;;
   bb <- buf_at b;
   when (b_refcnt bb =? 0)
    (buf_upd (b_next bb) (fun n => n <| b_prev := b_prev bb |>) ;;
     buf_upd (b_prev bb) (fun n => n <| b_next := b_next bb |>) ;;
     h <- buf_at bhead;
     buf_upd b (fun b => b <| b_next := b_next h |> <| b_prev := bhead |>) ;;
     buf_upd (b_next h) (fun n => n <| b_prev := b |>) ;;
     buf_upd bhead (fun h => h <| b_next := b |>)) ;; k tt) e s =
  k tt e (s <| bcache := if b_refcnt bb2 =? 0 then relinked b h (unlinked bb2 bc) else bc |>).
Proof using.
  intros Hb Hlen Hbb bb2 bc.
  assert (Hbc : alter (fun b => b <| b_refcnt ::= fun n => n -32 1 |>) b (bcache s) = bc)
    by (by apply alter_insert).
  destruct (lookup_lt_is_Some_2 (unlinked bb2 bc) bhead) as [h Hh].
  { unfold unlinked, bc. rewrite !length_alter, length_insert, Hlen. unfold bhead. lia. }
  exists h. split; [done|]. intros k. unfold buf_upd. rewrite step_modify.
  erewrite bind_run by (apply buf_at_run; st; rewrite Hbc; apply list_lookup_insert_eq; lia).
  destruct (b_refcnt bb2 =? 0).
  - msteps. erewrite bind_run by (apply buf_at_run; st; rewrite Hbc; exact Hh). msteps.
    f_equal. apply kernel_eq; st; try done. by rewrite Hbc.
  - rewrite step_when_false. f_equal. apply kernel_eq; st; done.
Qed.

Lemma brelse_ok pins held held' dirty b bb e s :
  session pins held dirty s -> (b < NBUF)%nat -> bcache s !! b = Some bb -> b ∈ held -> b ∉ dirty ->
  (forall x, x ∈ held' <-> x ∈ held /\ x <> b) ->
  exists s', brelse b e s = Ret tt e s' /\ session pins held' dirty s' /\ erase_io s' = erase_io s /\
    disk s' = disk s /\ dwrites s' = dwrites s /\ same_face p s s' /\
    same_view (bcache s) (bcache s').
Proof using.
  intros Hse Hb Hbb Hh Hnd Hheld. pose proof (holding_held _ _ _ _ _ e _ Hse Hb Hh Hbb) as Hhold.
  destruct Hse as [Hr Hi Hc]. pose proof (ca_len _ _ _ _ _ _ Hc) as Hlen.
  destruct (cache_dropped _ _ _ _ _ _ _ _ Hc Hb Hbb Hh Hnd Hheld) as [Hc' Hrc].
  set (s1 := slock_set (SBuf b) let_go s <| procs := wake_all (ChSleepLock (SBuf b)) s |>).
  assert (Hr1 : ready p pid s1).
  { apply (ready_erase p pid s); [done| |done].
    exact (calm_wake _ _ _ _ (ready_calm _ _ _ Hr)). }
  assert (Hbb1 : bcache s1 !! b = Some (bb <| b_lock ::= let_go |>)).
  { cbn. by rewrite list_lookup_alter, decide_True, Hbb. }
  destruct (drop_run b (bb <| b_lock ::= let_go |>) e (s1 <| hw ::= lock_h LBcache |>) Hb) as (h & Hh' & Hrun);
    [cbn; by rewrite length_alter|exact Hbb1|].
  assert (Hbc : <[b := bb <| b_lock ::= let_go |> <| b_refcnt ::= fun n => n -32 1 |>]>
                  (bcache (s1 <| hw ::= lock_h LBcache |>)) = <[b := dropped bb]> (bcache s)).
  { cbn. rewrite (alter_insert _ _ _ _ Hbb). by rewrite list_insert_insert_eq. }
  rewrite Hbc in Hh', Hrun. set (bc2 := if (_ =? 0) then _ else _) in Hrun.
  assert (Hfin : cache pid pins held' dirty bc2 (disk s) /\ same_view (bcache s) bc2).
  { assert (Hv : same_view (bcache s) (<[b := dropped bb]> (bcache s))).
    { intros i. destruct (decide (b = i)) as [<-|Hne]; [|by rewrite list_lookup_insert_ne].
      rewrite list_lookup_insert_eq by (rewrite Hlen; lia). by rewrite Hbb. }
    subst bc2. destruct (_ =? 0); [|done].
    destruct (cache_relinked _ _ _ _ _ _ b (dropped bb) h Hc' Hb) as [Hc2 Hv2]; [|done|].
    { apply list_lookup_insert_eq. rewrite Hlen. lia. }
    split; [done|]. intros i. by rewrite Hv2. }
  destruct Hfin as [Hc2 Hv2].
  exists (s1 <| bcache := bc2 |>). split; [|split; [|split; [|split; [|split; [|split; [|exact Hv2]]]]]]; try done.
  - unfold brelse. rewrite (bind_run _ _ _ _ _ _ _ Hhold). cbn [negb].
    rewrite (bind_run _ _ _ _ _ _ _ (releasesleep_run p pid (SBuf b) e s (ready_calm _ _ _ Hr) ltac:(by apply Hr))).
    fold s1. erewrite bind_run by (apply acquire_run; apply Hr1 || by eapply ready_settled).
    rewrite (Hrun (fun _ => release LBcache)).
    rewrite release_run by (st; eauto with kernel). same_hw.
  - unfold same_face, s1. st. rewrite wake_all_cur by (by eapply calm_cur, ready_calm). done.
Qed.

(** *** bpin, bunpin *)

Definition repin (d : Z) (b : nat) (pins : nat -> Z) : nat -> Z := fun x => if decide (x = b) then pins x + d else pins x.

Definition recount (f : Z -> Z) (bb : buf) : buf := bb <| b_refcnt ::= f |>.

Lemma count_run f b e s :
  ready p pid s -> (acquire LBcache ;; buf_upd b (recount f) ;; release LBcache) e s =
    Ret tt e (s <| bcache ::= alter (recount f) b |>).
Proof using.
  intros Hr. unfold buf_upd. mrun acquire_run. msteps.
  rewrite release_run by (st; eauto with kernel). same_hw.
Qed.

(** A pin less: the buffer must be clean if it was the last one. *)
Lemma bunpin_ok pins held dirty b bb e s :
  session pins held dirty s -> (b < NBUF)%nat -> bcache s !! b = Some bb -> 0 < pins b ->
  (b_valid bb = true -> disk s !! b_blockno bb = Some (b_data bb)) ->
  exists s', bunpin b e s = Ret tt e s' /\ session (repin (-1) b pins) held dirty s' /\
    erase_io s' = erase_io s /\ disk s' = disk s /\ dwrites s' = dwrites s /\ same_view (bcache s) (bcache s').
Proof using.
  intros [Hr Hi Hc] Hb Hbb Hp Hclean. pose proof (ca_buf _ _ _ _ _ _ Hc b bb Hb Hbb) as Hbo.
  set (f := fun n => n -32 1). exists (s <| bcache := <[b := recount f bb]> (bcache s) |>).
  split; [|split; [|split; [|split; [|split]]]]; try done.
  - unfold bunpin. etransitivity; [by apply (count_run f)|]. apply ret_state, kernel_eq; st; try done.
    by apply alter_insert.
  - split; [done|done|]. eapply cache_update; [exact Hc|exact Hb|exact Hbb|done|done|..].
    + destruct Hbo. unfold repin. split; try done; rewrite ?decide_True by done; try done.
      * lia.
      * cbn. unfold f. rewrite bo_ref0. case_decide; rewrite u32_small; lia.
      * intros Hv _ _. by apply Hclean.
    + intros Hd b2 bb2 Hb2 Hbb2 Hne Hd2 E. apply Hne. by apply (ca_uniq _ _ _ _ _ _ Hc b2 b bb2 bb).
    + intros b2 bb2 Hb2 Hne Hbb2. eapply buf_ok_other; [by apply (ca_buf _ _ _ _ _ _ Hc)| |done..].
      unfold repin. by rewrite decide_False.
    + apply (ca_disk _ _ _ _ _ _ Hc).
    + apply (ca_dirty _ _ _ _ _ _ Hc).
  - intros i. st. destruct (decide (b = i)) as [<-|Hne]; [|by rewrite list_lookup_insert_ne].
    rewrite list_lookup_insert_eq by (by eapply lookup_lt_Some). by rewrite Hbb.
Qed.

End Operations.
