(* ===== verification/Diskio.v ===== *)
(** * The disk: the driver of virtio_disk.c with its device

    The device is not part of the kernel: [device] is what it does when it is
    notified, and [DeviceOk] is what the virtio specification promises of a
    block device.  While the caller of virtio_disk_rw() sleeps, the device
    serves the request and interrupts, virtio_disk_intr() wakes the sleeper, and
    the scheduler switches back to it ([answer]).  With that the driver gives the
    buffer cache the disk it relies on. *)

From S2P Require Import Prelude State Machine Monad Spinlock Cstring Kalloc Vm Proc Sched Sleeplock Virtio Bio Bufcache.

(** ** The device *)

(** A request as the device finds it in the descriptors. *)
Record request := mkrequest {
  rq_head : Z;
  rq_op : vreq;
  rq_buf : nat;
  rq_in : bool;
  rq_status : nat;
}.

(** The next chain of the available ring: the operation, the data, which the
    device writes when [VRING_DESC_F_WRITE] is set, and the status byte. *)
Definition pending (v : virtq) : option request :=
  if v_uidx v =? v_idx v then None else
  head ← v_ring v !! Z.to_nat (v_uidx v mod Z.of_nat NUM);
  d0 ← v_desc v !! Z.to_nat head;
  d1 ← v_desc v !! Z.to_nat (d_next d0);
  d2 ← v_desc v !! Z.to_nat (d_next d1);
  match d_addr d0, d_addr d1, d_addr d2 with
  | DmaOp k, DmaData b, DmaStatus st =>
      if bit (d_flags d0) VRING_DESC_F_NEXT && bit (d_flags d1) VRING_DESC_F_NEXT &&
         negb (bit (d_flags d2) VRING_DESC_F_NEXT) && bit (d_flags d2) VRING_DESC_F_WRITE &&
         (d_len d0 =? 16) && (d_len d1 =? BSIZE) && (d_len d2 =? 1)
      then op ← v_ops v !! k; Some (mkrequest head op b (bit (d_flags d1) VRING_DESC_F_WRITE) st)
      else None
  | _, _, _ => None
  end.

(** The chain on the used ring, with status 0. *)
Definition complete (r : request) (v : virtq) : virtq :=
  v <| v_info_status ::= <[rq_status r := 0]> |>
    <| v_uring ::= <[Z.to_nat (v_uidx v mod Z.of_nat NUM) := rq_head r]> |>
    <| v_uidx := u16 (v_uidx v + 1) |>.

(** A sector is 512 bytes. *)
Definition rq_block (r : request) : Z := vr_sector (rq_op r) / (BSIZE / 512).

Class Device := device : kernel -> kernel.

Class DeviceOk `{Device} := {
  device_in : forall s r d,
    pending (vdisk s) = Some r -> vr_type (rq_op r) = VIRTIO_BLK_T_IN -> rq_in r = true ->
    vr_sector (rq_op r) mod (BSIZE / 512) = 0 -> disk s !! rq_block r = Some d ->
    device s = s <| bcache ::= alter (fun b => b <| b_data := d |>) (rq_buf r) |> <| vdisk ::= complete r |>;
  device_out : forall s r bb,
    pending (vdisk s) = Some r -> vr_type (rq_op r) = VIRTIO_BLK_T_OUT -> rq_in r = false ->
    vr_sector (rq_op r) mod (BSIZE / 512) = 0 -> is_Some (disk s !! rq_block r) -> bcache s !! rq_buf r = Some bb ->
    device s = s <| disk ::= <[rq_block r := b_data bb]> |> <| dwrites ::= fun l => l ++ [(rq_block r, b_data bb)] |>
                 <| vdisk ::= complete r |>;
}.

(** ** The driver's queue *)

(** No request is outstanding. *)
Record idle_queue (v : virtq) : Prop := {
  iq_desc : length (v_desc v) = NUM;
  iq_ring : length (v_ring v) = NUM;
  iq_uring : length (v_uring v) = NUM;
  iq_info_b : length (v_info_b v) = NUM;
  iq_status : length (v_info_status v) = NUM;
  iq_ops : length (v_ops v) = NUM;
  iq_free : v_free v = replicate NUM true;
  iq_idx : 0 <= v_idx v < 2 ^ 16;
  iq_uidx : v_uidx v = v_idx v;
  iq_used : v_used_idx v = v_idx v;
}.

Lemma find_free k n : list_find (fun x : bool => x) (replicate k false ++ replicate (S n) true) = Some (k, true).
Proof.
  apply list_find_app_Some. right. rewrite length_replicate, Nat.sub_diag. split; [lia|]. split; [|done].
  apply list_find_None, Forall_replicate. by intros [].
Qed.

Lemma alloc_desc_run k n e s :
  v_free (vdisk s) = replicate k false ++ replicate (S n) true -> (k + S n = NUM)%nat ->
  alloc_desc e s = Ret (Z.of_nat k) e (s <| vdisk ::= fun v => v <| v_free := replicate (S k) false ++ replicate n true |> |>).
Proof.
  intros Hf Hn. unfold alloc_desc, bind at 1.
  assert (Hl : length (v_free (vdisk s)) = NUM) by (rewrite Hf, length_app, !length_replicate; lia).
  rewrite <- Hl, (for_find_run _ (fun x : bool => x) _ (fun i _ => Z.of_nat i)
    (fun i s => s <| vdisk ::= fun v => v <| v_free ::= <[i := false]> |> |>)).
  - rewrite Hf, find_free. cbn [ret]. apply ret_state. state_eq.
    change (vdisk s <| v_free := <[k := false]> (v_free (vdisk s)) |> =
            vdisk s <| v_free := replicate (S k) false ++ replicate n true |>). f_equal.
    rewrite Hf, insert_app_r_alt by (by rewrite length_replicate). rewrite length_replicate, Nat.sub_diag.
    by rewrite (replicate_S_end k), <- app_assoc.
  - intros i x Hx. cbn. msteps. rewrite Hx. msteps. by destruct x.
Qed.

Lemma alloc3_desc_run e s :
  v_free (vdisk s) = replicate NUM true ->
  alloc3_desc e s = Ret (Some [0; 1; 2]) e (s <| vdisk ::= fun v => v <| v_free := replicate 3 false ++ replicate 5 true |> |>).
Proof.
  intros Hf. unfold alloc3_desc. cbn [seq for_fold].
  assert (Hstep : forall k n idx e s, v_free (vdisk s) = replicate k false ++ replicate (S n) true -> (k + S n = NUM)%nat ->
    (d <- alloc_desc; if d <? 0 then for_ idx free_desc ;; ret None else ret (Some (idx ++ [d]))) e s =
    Ret (Some (idx ++ [Z.of_nat k])) e (s <| vdisk ::= fun v => v <| v_free := replicate (S k) false ++ replicate n true |> |>)).
  { intros k n idx e' s' Hf' Hn. rewrite (bind_run _ _ _ _ _ _ _ (alloc_desc_run k n e' s' Hf' Hn)).
    by rewrite (proj2 (Z.ltb_ge _ 0)) by lia. }
  rewrite bind_assoc, (bind_run _ _ _ _ _ _ _ (Hstep 0%nat 7%nat [] e s Hf eq_refl)).
  rewrite bind_assoc. erewrite bind_run by (by apply (Hstep 1%nat 6%nat)).
  rewrite bind_assoc. erewrite bind_run by (by apply (Hstep 2%nat 5%nat)). done.
Qed.

(** The queue with a request in the descriptors 0, 1 and 2. *)
Definition submitted (b : nat) (write : bool) (sector : Z) (v : virtq) : virtq :=
  v <| v_ops ::= <[0%nat := mkvreq (if write then VIRTIO_BLK_T_OUT else VIRTIO_BLK_T_IN) 0 sector]> |>
    <| v_desc ::= fun l =>
         alter (fun _ => mkvdesc (DmaStatus 0) 1 VRING_DESC_F_WRITE 0) 2%nat
         (alter (fun _ => mkvdesc (DmaData b) BSIZE
            (Z.lor (if write then 0 else VRING_DESC_F_WRITE) VRING_DESC_F_NEXT) 2) 1%nat
         (alter (fun _ => mkvdesc (DmaOp 0) 16 VRING_DESC_F_NEXT 1) 0%nat l)) |>
    <| v_info_status ::= <[0%nat := 0xff]> |>
    <| v_info_b ::= <[0%nat := Some b]> |>
    <| v_ring ::= <[Z.to_nat (v_idx v mod Z.of_nat NUM) := 0]> |>
    <| v_idx := u16 (v_idx v + 1) |>.

Definition mark (x : Z) (b : buf) : buf := b <| b_disk := x |>.

Lemma submit_run b w sector e s :
  submit b w sector 0 1 2 e s = Ret tt e (s <| vdisk ::= submitted b w sector |> <| bcache ::= alter (mark 1) b |>
    <| mmio ::= fun t => t ++ [(VIRTIO0 + VIRTIO_MMIO_QUEUE_NOTIFY, 0)] |>).
Proof. reflexivity. Qed.

(** Lists of the queue's length, as their elements. *)
Lemma list8 {A} (l : list A) : length l = NUM -> exists a b c d e f g h, l = [a; b; c; d; e; f; g; h].
Proof. intros Hl. do 8 (destruct l as [|? l]; [done|]). destruct l; [|done]. eauto 10. Qed.

(** Descriptor [i] free again. *)
Definition freed (i : nat) (v : virtq) : virtq :=
  v <| v_desc ::= alter (fun _ => vdesc0) i |> <| v_free ::= <[i := true]> |>.

Lemma free_desc_run i e s :
  procs_ok s -> (i < NUM)%nat -> v_free (vdisk s) !! i = Some false ->
  free_desc (Z.of_nat i) e s = Ret tt e (s <| vdisk ::= freed i |> <| procs := wake_all ChDiskFree s |>).
Proof.
  intros Hok Hi Hf. unfold free_desc. rewrite (proj2 (Z.leb_gt _ _)) by lia. msteps. rewrite Nat2Z.id, Hf. msteps.
  unfold desc_upd, vd_upd. msteps. by rewrite wakeup_run.
Qed.

(** The three descriptors of a request are freed. *)
Lemma free_chain_run p e s :
  procs_ok s -> cur (hw s) = Some p -> v_free (vdisk s) = replicate 3 false ++ replicate 5 true ->
  (exists d0 d1 d2 l, v_desc (vdisk s) = d0 :: d1 :: d2 :: l /\
    bit (d_flags d0) VRING_DESC_F_NEXT = true /\ d_next d0 = 1 /\
    bit (d_flags d1) VRING_DESC_F_NEXT = true /\ d_next d1 = 2 /\ bit (d_flags d2) VRING_DESC_F_NEXT = false) ->
  exists ps, free_chain 0 e s =
      Ret tt e (s <| vdisk ::= fun v => freed 2 (freed 1 (freed 0 v)) |> <| procs := ps |>) /\
    length ps = NPROC /\ ps !! p = procs s !! p.
Proof.
  intros Hok Hc Hf (d0 & d1 & d2 & l & Hd & F0 & N0 & F1 & N1 & F2). unfold free_chain.
  assert (Hround : forall i n d (flag : bool) e s, procs_ok s -> (i < NUM)%nat -> v_free (vdisk s) !! i = Some false ->
    v_desc (vdisk s) !! i = Some d -> bit (d_flags d) VRING_DESC_F_NEXT = flag -> d_next d = n ->
    (d <- desc_at (Z.to_nat (Z.of_nat i));
     let flag := d_flags d in let nxt := d_next d in
     free_desc (Z.of_nat i) ;;
     if bit flag VRING_DESC_F_NEXT then ret (inl nxt) else ret (inr tt)) e s =
    Ret (if flag then inl n else inr tt) e (s <| vdisk ::= freed i |> <| procs := wake_all ChDiskFree s |>)).
  { intros i n d flag e' s' Hok' Hi Hf' Hd' Hb Hn. unfold desc_at. rewrite Nat2Z.id. msteps. rewrite Hd'. msteps.
    erewrite bind_run by (by apply free_desc_run). rewrite Hb, Hn. by destruct flag. }
  pose (s1 := s <| vdisk ::= freed 0 |> <| procs := wake_all ChDiskFree s |>).
  pose (s2 := s1 <| vdisk ::= freed 1 |> <| procs := wake_all ChDiskFree s1 |>).
  assert (Hok1 : procs_ok s1) by exact (procs_ok_wake ChDiskFree s Hok).
  assert (Hok2 : procs_ok s2) by exact (procs_ok_wake ChDiskFree s1 Hok1).
  exists (wake_all ChDiskFree s2). split; [|split].
  - apply (while_run 3); [|unfold NUM; lia].
    rewrite unroll_S. erewrite bind_run.
    2:{ apply (Hround 0%nat 1 d0 true); try done; [unfold NUM; lia|by rewrite Hf|by rewrite Hd]. }
    cbv beta iota. rewrite unroll_S. erewrite bind_run.
    2:{ apply (Hround 1%nat 2 d1 true e s1); try done; [unfold NUM; lia|cbn; by rewrite Hf|cbn; by rewrite Hd]. }
    cbv beta iota. rewrite unroll_S. erewrite bind_run.
    2:{ apply (Hround 2%nat (d_next d2) d2 false e s2); try done; [unfold NUM; lia|cbn; by rewrite Hf|cbn; by rewrite Hd]. }
    reflexivity.
  - unfold wake_all. rewrite length_imap. apply Hok2.
  - rewrite wake_all_cur by done. change (procs s2) with (wake_all ChDiskFree s1). rewrite wake_all_cur by done.
    change (procs s1) with (wake_all ChDiskFree s). by rewrite wake_all_cur.
Qed.

Lemma u16_next i : 0 <= i < 2 ^ 16 -> u16 (i + 1) <> i.
Proof. unfold u16. intros. dlia. Qed.

(** The queue through a request: taken by the device, handled, freed. *)
Section Queue.
Context (b : nat) (w : bool) (sector : Z) (v : virtq) (Hv : idle_queue v).

Definition asked : virtq := submitted b w sector (v <| v_free := replicate 3 false ++ replicate 5 true |>).

Definition asked_for : request :=
  mkrequest 0 (mkvreq (if w then VIRTIO_BLK_T_OUT else VIRTIO_BLK_T_IN) 0 sector) b (negb w) 0.

(** The device finds the request in the queue the driver has built. *)
Lemma pending_asked : pending asked = Some asked_for.
Proof using Hv.
  destruct Hv as [H1 H2 H3 H4 H5 H6 H7 H8 H9 H10]. unfold pending, asked_for, asked, submitted.
  destruct (list8 _ H1) as (?&?&?&?&?&?&?&?&E1), (list8 _ H6) as (?&?&?&?&?&?&?&?&E6).
  clear Hv. destruct v as [vd vi vr vu vur vf vui vb vs vo]. cbn in *. subst.
  rewrite (proj2 (Z.eqb_neq _ _)) by (by apply not_eq_sym, u16_next).
  rewrite list_lookup_insert_eq by (rewrite H2; unfold NUM; dlia). by destruct w.
Qed.

Definition closed (v2 : virtq) : virtq :=
  freed 2 (freed 1 (freed 0 (v2 <| v_used_idx ::= fun i => u16 (i + 1) |> <| v_info_b ::= <[0%nat := None]> |>))).

Lemma completed_ready :
  let v2 := complete asked_for asked in
  0 <= v_used_idx v2 < 2 ^ 16 /\ v_uidx v2 = u16 (v_used_idx v2 + 1) /\
  v_uring v2 !! Z.to_nat (v_used_idx v2 mod Z.of_nat NUM) = Some 0 /\
  v_info_status v2 !! 0%nat = Some 0 /\ v_info_b v2 !! 0%nat = Some (Some b).
Proof using Hv.
  destruct Hv as [H1 H2 H3 H4 H5 H6 H7 H8 H9 H10]. cbn.
  destruct (list8 _ H4) as (?&?&?&?&?&?&?&?&E4), (list8 _ H5) as (?&?&?&?&?&?&?&?&E5).
  rewrite H9, H10. split; [done|]. split; [done|]. split; [|by rewrite E4, E5].
  apply list_lookup_insert_eq. rewrite H3. unfold NUM. dlia.
Qed.

Lemma completed_chain :
  exists d0 d1 d2 l, v_desc (complete asked_for asked) = d0 :: d1 :: d2 :: l /\
    bit (d_flags d0) VRING_DESC_F_NEXT = true /\ d_next d0 = 1 /\
    bit (d_flags d1) VRING_DESC_F_NEXT = true /\ d_next d1 = 2 /\ bit (d_flags d2) VRING_DESC_F_NEXT = false.
Proof using Hv.
  destruct (list8 _ (iq_desc _ Hv)) as (?&?&?&?&?&?&?&?&E). cbn. rewrite E. cbn.
  do 4 eexists. split; [done|]. by destruct w.
Qed.

Lemma completed_idle : idle_queue (closed (complete asked_for asked)).
Proof using Hv.
  destruct Hv as [H1 H2 H3 H4 H5 H6 H7 H8 H9 H10].
  split; cbn; rewrite ?length_alter, ?length_insert, ?length_alter; try done.
  - unfold u16. dlia.
  - by rewrite H9.
  - by rewrite H10.
Qed.

End Queue.

(** The hart in the scheduler. *)
Definition unowned (h : hart) : hart := h <| cpus ::= alter (fun c => c <| c_proc := None |>) (tp h) |>.

Lemma settled_unowned h : settled h -> settled (unowned h).
Proof.
  intros (c & Hc & Hn & H0 & Hp). exists (c <| c_proc := None |>). cbn.
  rewrite list_lookup_alter, decide_True, Hc by done. done.
Qed.

Lemma cur_unowned h : cur (unowned h) = None.
Proof. unfold cur. cbn. rewrite list_lookup_alter, decide_True by done. by destruct (cpus h !! tp h). Qed.

Lemma free_unowned lk h : free lk h -> free lk (unowned h).
Proof. done. Qed.

Lemma lock_unowned lk h : unowned (lock_h lk h) = lock_h lk (unowned h).
Proof. apply hart_eq; try done. unfold unowned, lock_h, push_h. cbn. by rewrite !list_alter_alter_eq. Qed.

Lemma owned_again p h :
  settled h -> cur h = Some p ->
  lock_h (LProc p) (unowned h) <| cpus ::= alter (fun c => c <| c_proc := Some p |>) (tp h) |> = lock_h (LProc p) h.
Proof.
  intros (c & Hc & _) Hcur. apply hart_eq; try done. unfold unowned, lock_h, push_h. cbn. rewrite !list_alter_alter_eq. apply list_eq. intros i.
  rewrite !list_lookup_alter. case_decide; [subst|done]. rewrite Hc. cbn. f_equal.
  unfold cur in Hcur. rewrite Hc in Hcur. by apply cpu_eq.
Qed.

Section Served.
Context `{Platform}.

(** The interrupt handler with one chain on the used ring. *)
Definition handled (b : nat) (s : kernel) : kernel :=
  s <| bcache ::= alter (mark 0) b |> <| procs := wake_all (ChBuf b) s |>
    <| vdisk ::= fun v => v <| v_used_idx ::= fun i => u16 (i + 1) |> |>
    <| mmio_reads ::= S |>
    <| mmio ::= fun t => t ++ [(VIRTIO0 + VIRTIO_MMIO_INTERRUPT_ACK,
         Z.land (dev_read (VIRTIO0 + VIRTIO_MMIO_INTERRUPT_STATUS) (mmio_reads s)) 3)] |>.

Lemma virtio_disk_intr_run b e s :
  procs_ok s -> free LVdisk (hw s) ->
  0 <= v_used_idx (vdisk s) < 2 ^ 16 -> v_uidx (vdisk s) = u16 (v_used_idx (vdisk s) + 1) ->
  v_uring (vdisk s) !! Z.to_nat (v_used_idx (vdisk s) mod Z.of_nat NUM) = Some 0 ->
  v_info_status (vdisk s) !! 0%nat = Some 0 -> v_info_b (vdisk s) !! 0%nat = Some (Some b) ->
  virtio_disk_intr e s = Ret tt e (handled b s).
Proof.
  intros (Hl & Hs & Hf) Hlk Hu Hui Hring Hst Hb. unfold virtio_disk_intr. mrun acquire_run.
  unfold mmio_read, mmio_write. msteps. set (s1 := upd mmio _ _).
  erewrite bind_run; [|apply (loop_run 2); [|done]; cbn [unroll]].
  2:{ rewrite bind_assoc, step_gets. change (vdisk s1) with (vdisk s).
    rewrite (proj2 (Z.eqb_neq _ _)) by (rewrite Hui; by apply not_eq_sym, u16_next).
    rewrite Hring. msteps. change (Z.to_nat 0) with 0%nat. rewrite Hst, Hb. msteps.
    change (negb (0 =? 0)) with false. cbv iota. msteps. unfold buf_upd. msteps.
    erewrite bind_run by (apply wakeup_run; unfold s1; split; [done|split; st; [eauto with kernel|
      intros i Hi; apply free_lock_ne; [done|by apply Hf]]]).
    unfold vd_upd. msteps.
    change (vdisk s1) with (vdisk s). rewrite Hui, Z.eqb_refl. reflexivity. }
  rewrite release_run by (unfold s1; st; eauto with kernel). apply ret_state. unfold handled, s1. state_eq.
  - by rewrite unlock_lock.
  - unfold wake_all. st. by rewrite cur_lock.
Qed.

(** ** What happens while the caller sleeps *)

Context `{Device}.

(** The hart is back in scheduler(), in the loop that dispatched the sleeper; the
    device serves the request and interrupts; the scheduler dispatches the
    process that was woken. *)
Definition answer (s : kernel) : kernel :=
  match cur (hw s) with
  | None => s
  | Some p =>
      match (cpu_upd (tp (hw s)) (fun c => c <| c_proc := None |>) ;; release (LProc p) ;;
             modify device ;; virtio_disk_intr ;; dispatch (tp (hw s)) no_account p) [] s with
      | Away s' => s'
      | _ => s
      end
  end.

(** The sleeper is dispatched again with its request served. *)
Lemma answer_run p pp h b s s' :
  quiet p h -> free LVdisk h -> (forall i, (i < NPROC)%nat -> free (LProc i) h) -> length (procs s) = NPROC ->
  hw s = lock_h LVdisk h -> procs s !! p = Some pp ->
  s' = device (asleep p (ChBuf b) h s <| hw := unowned h |>) ->
  hw s' = unowned h -> procs s' = procs (asleep p (ChBuf b) h s) -> ticks s' = ticks s ->
  0 <= v_used_idx (vdisk s') < 2 ^ 16 -> v_uidx (vdisk s') = u16 (v_used_idx (vdisk s') + 1) ->
  v_uring (vdisk s') !! Z.to_nat (v_used_idx (vdisk s') mod Z.of_nat NUM) = Some 0 ->
  v_info_status (vdisk s') !! 0%nat = Some 0 -> v_info_b (vdisk s') !! 0%nat = Some (Some b) ->
  exists ps, answer (asleep p (ChBuf b) h s) = handled b s' <| procs := ps |> <| hw := lock_h (LProc p) h |> /\
    length ps = NPROC /\ exists pp', ps !! p = Some pp' /\ p_pid pp' = p_pid pp /\ p_state pp' = RUNNING /\
      face pp' = face pp.
Proof.
  intros (Hs & Hc & Hf & Hn) Hlk Hfs Hl Hhw Hp Es' Hhw' Hps' Ht' Hu Hui Hring Hst Hb. unfold answer.
  change (hw (asleep p (ChBuf b) h s)) with (lock_h (LProc p) h). rewrite cur_lock, Hc, tp_lock.
  unfold cpu_upd. rewrite step_modify.
  assert (E1 : release (LProc p) [] (asleep p (ChBuf b) h s <| hw ::= unowned |>) =
    Ret tt [] (asleep p (ChBuf b) h s <| hw := unowned h |>)).
  { pose proof (settled_unowned _ Hs) as Hsu.
    assert (Eh : hw (asleep p (ChBuf b) h s <| hw ::= unowned |>) = lock_h (LProc p) (unowned h)) by apply lock_unowned.
    rewrite release_run by (rewrite Eh; eauto using free_unowned with kernel). apply ret_state, kernel_eq; st; try done.
    change (unlock_h (LProc p) (unowned (lock_h (LProc p) h)) = unowned h). by rewrite lock_unowned, unlock_lock. }
  rewrite (bind_run _ _ _ _ _ _ _ E1), step_modify, <- Es'.
  assert (Hok : procs_ok s').
  { split; [by rewrite Hps'; cbn; rewrite length_alter|]. rewrite Hhw'. eauto using settled_unowned. }
  rewrite (bind_run _ _ _ _ _ _ _ (virtio_disk_intr_run b [] s' Hok ltac:(by rewrite Hhw') Hu Hui Hring Hst Hb)).
  assert (Hw : wake_all (ChBuf b) s' !! p = Some (woken (ChBuf b) (ticks s) (parked (ChBuf b) (ticks s) pp))).
  { unfold wake_all. rewrite list_lookup_imap, Hps', (asleep_lookup _ pp) by done. cbn.
    by rewrite Hhw', cur_unowned, decide_False, Ht'. }
  assert (Hr : p_state (woken (ChBuf b) (ticks s) (parked (ChBuf b) (ticks s) pp)) = RUNNABLE)
    by (unfold woken, parked; cbn; by rewrite !bool_decide_true).
  assert (Hpid : p_pid (woken (ChBuf b) (ticks s) (parked (ChBuf b) (ticks s) pp)) = p_pid pp)
    by (unfold woken; by case_match).
  assert (Hfa : face (woken (ChBuf b) (ticks s) (parked (ChBuf b) (ticks s) pp)) = face pp)
    by (unfold woken; by case_match).
  assert (Hfh : free (LProc p) (hw (handled b s'))) by (change (free (LProc p) (hw s')); by rewrite Hhw').
  rewrite (dispatch_away _ _ p _ _ (handled b s') ltac:(by apply Hok) Hfh Hw Hr eq_refl).
  eexists. split; [|split].
  - unfold switched. apply kernel_eq; st; try done. change (hw (handled b s')) with (hw s'). rewrite Hhw'.
    by apply owned_again.
  - st. rewrite length_insert. change (procs (handled b s')) with (wake_all (ChBuf b) s').
    unfold wake_all. rewrite length_imap. apply Hok.
  - eexists. split; [apply list_lookup_insert_eq|done].
    change (procs (handled b s')) with (wake_all (ChBuf b) s'). by eapply lookup_lt_Some.
Qed.

Context {HOk : DeviceOk}.

(** What the device does to the buffer [b] and to the disk. *)
Definition moved (b : nat) (w : bool) (bn : Z) (bb : buf) (d : list Z) (s : kernel) : kernel :=
  s <| bcache ::= if w then id else alter (fun b => b <| b_data := d |>) b |>
    <| disk ::= if w then insert bn (b_data bb) else id |>
    <| dwrites ::= fun l => if w then l ++ [(bn, b_data bb)] else l |>.

Lemma device_moves b (w : bool) bn v bb d s :
  idle_queue v -> vdisk s = asked b w (2 * bn) v -> disk s !! bn = Some d -> bcache s !! b = Some bb ->
  device s = moved b w bn bb d s <| vdisk ::= complete (asked_for b w (2 * bn)) |>.
Proof.
  intros Hv Hvd Hd Hb. pose proof (pending_asked b w (2 * bn) v Hv) as Hp. rewrite <- Hvd in Hp.
  assert (Hm : 2 * bn mod (BSIZE / 512) = 0) by (change (BSIZE / 512) with 2; dlia).
  assert (Hr : rq_block (asked_for b w (2 * bn)) = bn) by (unfold rq_block; cbn; change (BSIZE / 512) with 2; dlia).
  unfold moved. destruct w.
  - rewrite (device_out s _ bb Hp) by (rewrite ?Hr; done). rewrite Hr. by state_eq.
  - rewrite (device_in s _ d Hp) by (rewrite ?Hr; done). by state_eq.
Qed.

Section Transfer.
Context (p : nat) (pid : Z) (b : nat) (bb : buf) (w : bool) (d : list Z) (s : kernel).
Context (Hr : ready p pid s) (Hv : idle_queue (vdisk s)) (Hb : bcache s !! b = Some bb) (Hbd : b_disk bb = 0).
Context (Hbn : 0 <= b_blockno bb < 2 ^ 31) (Hd : disk s !! b_blockno bb = Some d).

Notation sector := (2 * b_blockno bb).

(** The state with the request submitted. *)
Definition requested : kernel :=
  s <| hw ::= lock_h LVdisk |> <| vdisk ::= asked b w sector |> <| bcache ::= alter (mark 1) b |>
    <| mmio ::= fun t => t ++ [(VIRTIO0 + VIRTIO_MMIO_QUEUE_NOTIFY, 0)] |>.

(** The state in which sleep() returns. *)
Definition served : kernel :=
  handled b (moved b w (b_blockno bb) bb d requested <| vdisk ::= complete (asked_for b w sector) |>).

Definition answered (ps : list proc) : kernel := served <| procs := ps |>.

(** A process table with the process running. *)
Definition runs (ps : list proc) : Prop :=
  length ps = NPROC /\ exists pp, ps !! p = Some pp /\ p_pid pp = pid /\ p_state pp = RUNNING /\
    Some (face pp) = face <$> procs s !! p.

(** The answer does not depend on what the hart did meanwhile. *)
Lemma answered_eq ps f h1 h2 :
  handled b (moved b w (b_blockno bb) bb d (asleep p (ChBuf b) (hw s) requested <| hw := h1 |>)
      <| vdisk ::= complete (asked_for b w sector) |>)
    <| procs := ps |> <| hw := h2 |> <| procs ::= f |> <| hw := lock_h LVdisk (hw s) |> = answered (f ps).
Proof using. unfold answered, served, moved, handled, asleep, requested. state_eq. Qed.

Lemma request_answered e :
  exists ps, sleep (ChBuf b) LVdisk (answer :: e) requested = Ret tt e (answered ps) /\ runs ps.
Proof using Hr Hv Hb Hbd Hd HOk.
  destruct Hr as (((Hl & Hs & Hf) & Hq & pp & Hpp & Hpid & Hrun) & _ & Hlk & _).
  set (t0 := asleep p (ChBuf b) (hw s) requested <| hw := unowned (hw s) |>).
  assert (Hdev : device t0 = moved b w (b_blockno bb) bb d t0 <| vdisk ::= complete (asked_for b w sector) |>).
  { rewrite (device_moves b w (b_blockno bb) (vdisk s) (mark 1 bb) d t0 Hv eq_refl Hd); [done|].
    cbn. by rewrite list_lookup_alter, decide_True, Hb. }
  destruct (completed_ready b w sector (vdisk s) Hv) as (Q1 & Q2 & Q3 & Q4 & Q5).
  assert (Hvd : vdisk (device t0) = complete (asked_for b w sector) (asked b w sector (vdisk s)))
    by (by rewrite Hdev).
  rewrite <- Hvd in Q1, Q2, Q3, Q4, Q5.
  assert (A1 : hw requested = lock_h LVdisk (hw s)) by (unfold requested; st; reflexivity).
  assert (A2 : procs requested = procs s) by (unfold requested; st; reflexivity).
  assert (A3 : hw (device t0) = unowned (hw s)) by (rewrite Hdev; unfold moved, t0; st; reflexivity).
  assert (A4 : procs (device t0) = procs (asleep p (ChBuf b) (hw s) requested))
    by (rewrite Hdev; unfold moved, t0; st; reflexivity).
  assert (A5 : ticks (device t0) = ticks requested) by (rewrite Hdev; unfold moved, t0, asleep; st; reflexivity).
  rewrite <- A2 in Hl, Hpp.
  destruct (answer_run p pp (hw s) b requested (device t0) Hq Hlk Hf Hl A1 Hpp eq_refl A3 A4 A5 Q1 Q2 Q3 Q4 Q5) as
    (ps & Ha & Hlp & pp' & Hpp' & Hpid' & Hrun' & Hface').
  exists (alter (fun p => p <| p_chan := ChNull |>) p ps). split.
  - rewrite (sleep_resumed p pp (ChBuf b) LVdisk (hw s) (hw s) answer); try done.
    + rewrite Ha, Hdev. apply ret_state, answered_eq.
    + by rewrite Ha.
  - split; [by rewrite length_alter|]. exists (pp' <| p_chan := ChNull |>).
    rewrite list_lookup_alter, decide_True, Hpp' by done. split; [done|]. cbn. rewrite <- A2, Hpp. cbn. by rewrite Hpid', <- Hface'.
Qed.

(** The request is submitted with the driver's lock held; what is left waits
    for the device. *)
Lemma request_run e :
  virtio_disk_rw b w e s =
    (sleep_loop 0 (fun _ =>
       bb <- buf_at b;
       if b_disk bb =? 1 then sleep (ChBuf b) LVdisk ;; ret (inl tt) else ret (inr tt)) tt ;;
     vd_upd (fun v => v <| v_info_b ::= <[0%nat := None]> |>) ;;
     free_chain 0 ;;
     release LVdisk) e requested.
Proof using Hr Hv Hb Hbn.
  destruct Hr as (((Hl & Hs & Hf) & Hq & _) & _ & Hlk & _).
  unfold virtio_disk_rw, buf_at at 1. msteps. rewrite Hb. msteps. mrun acquire_run.
  erewrite bind_run.
  2:{ unfold sleep_loop. apply (while_run 1); [|lia]. rewrite unroll_S, bind_assoc.
      erewrite bind_run by (apply alloc3_desc_run; apply Hv). reflexivity. }
  cbv iota. rewrite (bind_run _ _ _ _ tt e requested); [done|].
  rewrite submit_run. apply ret_state. unfold requested, asked.
  assert (E : b_blockno bb *32 (BSIZE / 512) = sector).
  { change (BSIZE / 512) with 2. rewrite u32_small by lia. lia. }
  rewrite E. state_eq.
Qed.

(** The wait ends when the request has been answered. *)
Lemma wait_run ps e :
  sleep (ChBuf b) LVdisk (answer :: e) requested = Ret tt e (answered ps) ->
  sleep_loop 0 (fun _ =>
       bb <- buf_at b;
       if b_disk bb =? 1 then sleep (ChBuf b) LVdisk ;; ret (inl tt) else ret (inr tt)) tt (answer :: e) requested =
    Ret tt e (answered ps).
Proof using Hb.
  intros Hsl. unfold sleep_loop. apply (while_run 2); [|cbn [length]; lia].
  assert (B1 : bcache requested !! b = Some (mark 1 bb)).
  { unfold requested. st. by rewrite list_lookup_alter, decide_True, Hb. }
  assert (B2 : exists bb', bcache (answered ps) !! b = Some (mark 0 bb')).
  { unfold answered, served, handled. st. rewrite list_lookup_alter, decide_True by done.
    unfold moved. st. destruct w; cbn [id]; rewrite ?list_lookup_alter, ?decide_True, B1 by done; eauto. }
  destruct B2 as [bb' B2]. unfold buf_at. rewrite unroll_S. msteps. rewrite B1. msteps.
  change (b_disk (mark 1 bb) =? 1) with true. cbv iota. msteps. rewrite (bind_run _ _ _ _ _ _ _ Hsl). msteps.
  rewrite unroll_S. msteps. rewrite B2. done.
Qed.

(** The state virtio_disk_rw() returns in. *)
Definition transferred (ps : list proc) : kernel :=
  answered ps
    <| vdisk := closed (complete (asked_for b w sector) (asked b w sector (vdisk s))) |> <| hw := hw s |>.

Lemma close_eq a v ps ps' :
  vdisk a = v <| v_used_idx ::= fun i => u16 (i + 1) |> -> settled (hw s) /\ free LVdisk (hw s) -> hw a = lock_h LVdisk (hw s) ->
  a <| procs := ps |> <| vdisk ::= fun v => v <| v_info_b ::= <[0%nat := None]> |> |>
    <| vdisk ::= fun v => freed 2 (freed 1 (freed 0 v)) |> <| procs := ps' |> <| hw ::= unlock_h LVdisk |> =
  a <| procs := ps' |> <| vdisk := closed v |> <| hw := hw s |>.
Proof using. intros Hv' [Hs Hf] Hhw. state_eq; [by rewrite Hhw, unlock_lock|by rewrite Hv']. Qed.

Lemma virtio_disk_rw_run e :
  exists ps, virtio_disk_rw b w (answer :: e) s = Ret tt e (transferred ps) /\ runs ps.
Proof using Hr Hv Hb Hbd Hbn Hd HOk.
  destruct (request_answered e) as (ps & Hsl & Hlp & pp & Hpp & Hpid & Hrun & Hface).
  destruct Hr as (((Hl & Hs & Hf) & Hq & _) & _ & Hlk & _).
  set (u := answered ps <| vdisk ::= fun v => v <| v_info_b ::= <[0%nat := None]> |> |>).
  assert (Hhs : hw served = lock_h LVdisk (hw s)) by (unfold served, handled, moved, requested; st; reflexivity).
  assert (Hvs : vdisk served = complete (asked_for b w sector) (asked b w sector (vdisk s))
      <| v_used_idx ::= fun i => u16 (i + 1) |>) by (unfold served, handled, moved, requested; st; reflexivity).
  assert (Hhw : hw u = hw served) by (unfold u, answered; st; reflexivity). rewrite Hhs in Hhw.
  assert (Hps : procs u = ps) by (unfold u, answered; st; reflexivity).
  assert (Hvu : vdisk u = vdisk served <| v_info_b ::= <[0%nat := None]> |>) by (unfold u, answered; st; reflexivity).
  rewrite Hvs in Hvu.
  destruct (free_chain_run p e u) as (ps' & Hfc & Hl' & Hp').
  - split; [by rewrite Hps|]. rewrite Hhw. split; [eauto with kernel|]. intros i Hi. apply free_lock_ne; [done|auto].
  - rewrite Hhw, cur_lock. apply Hq.
  - by rewrite Hvu.
  - rewrite Hvu. exact (completed_chain b w sector (vdisk s) Hv).
  - exists ps'. split; [|split; [done|rewrite Hp', Hps; eauto]].
    rewrite request_run, (bind_run _ _ _ _ _ _ _ (wait_run ps e Hsl)). unfold vd_upd. rewrite step_modify. fold u.
    rewrite (bind_run _ _ _ _ _ _ _ Hfc), release_run by (st; rewrite Hhw; eauto with kernel).
    apply ret_state. unfold u, transferred, answered.
    rewrite (close_eq served _ ps ps' Hvs (conj Hs Hlk) Hhs). reflexivity.
Qed.

End Transfer.
(** *** The buffer cache's disk *)

(** The environment answers the next [n] requests. *)
Definition answers (n : nat) (e : env) : Prop := exists e', e = replicate n answer ++ e'.

Lemma marked (b : nat) bb (w : bool) d (bc : list buf) :
  bc !! b = Some bb -> b_disk bb = 0 ->
  alter (mark 0) b ((if w then id else alter (fun b => b <| b_data := d |>) b) (alter (mark 1) b bc)) =
  if w then bc else <[b := bb <| b_data := d |>]> bc.
Proof.
  intros Hb Hbd. apply list_eq. intros i. pose proof (lookup_lt_Some _ _ _ Hb) as Hlt. destruct (decide (b = i)) as [<-|Hne].
  - destruct w; cbn [id]; rewrite ?list_lookup_insert_eq, !list_lookup_alter, !decide_True, Hb by done; cbn; f_equal;
      by apply buf_eq.
  - destruct w; cbn [id]; rewrite ?list_lookup_insert_ne, !list_lookup_alter, !decide_False by done; done.
Qed.

Lemma transfer_ok p pid b bb (w : bool) d e s :
  ready p pid s -> idle_queue (vdisk s) -> bcache s !! b = Some bb -> b_disk bb = 0 ->
  0 <= b_blockno bb < 2 ^ 31 -> disk s !! b_blockno bb = Some d ->
  exists s', virtio_disk_rw b w (answer :: e) s = Ret tt e s' /\ erase_io s' = erase_io s /\
    calm p pid s' /\ idle_queue (vdisk s') /\
    bcache s' = (if w then bcache s else <[b := bb <| b_data := d |>]> (bcache s)) /\
    disk s' = (if w then <[b_blockno bb := b_data bb]> (disk s) else disk s) /\
    dwrites s' = (if w then dwrites s ++ [(b_blockno bb, b_data bb)] else dwrites s) /\ same_face p s s'.
Proof.
  intros Hr Hv Hb Hbd Hbn Hd.
  destruct (virtio_disk_rw_run p pid b bb w d s Hr Hv Hb Hbd Hbn Hd e) as (ps & Hrun & Hlp & pp & Hpp & Hpid & Hst & Hface).
  exists (transferred b bb w d s ps). split; [exact Hrun|].
  destruct Hr as ((Hok & Hq & _) & _ & _ & _). split; [|split; [|split; [|split; [|split; [|split]]]]].
  - unfold transferred, answered, served, handled, moved, requested, erase_io. state_eq.
  - split; [split; [done|apply Hok]|]. split; [done|]. by exists pp.
  - exact (completed_idle b w (2 * b_blockno bb) (vdisk s) Hv).
  - unfold transferred, answered, served, handled, moved, requested. st. by apply marked.
  - unfold transferred, answered, served, handled, moved, requested. st. by destruct w.
  - unfold transferred, answered, served, handled, moved, requested. st. by destruct w.
  - unfold same_face, transferred, answered. st. by rewrite Hpp, <- Hface.
Qed.

Lemma virtio_disk_io p pid n b bb (w : bool) d e s :
  answers (S n) e -> ready p pid s -> idle_queue (vdisk s) -> (b < NBUF)%nat -> bcache s !! b = Some bb ->
  b_disk bb = 0 -> 0 <= b_blockno bb < 2 ^ 31 -> disk s !! b_blockno bb = Some d ->
  exists e' s', virtio_disk_rw b w e s = Ret tt e' s' /\ answers n e' /\ erase_io s' = erase_io s /\
    calm p pid s' /\ idle_queue (vdisk s') /\
    bcache s' = (if w then bcache s else <[b := bb <| b_data := d |>]> (bcache s)) /\
    disk s' = (if w then <[b_blockno bb := b_data bb]> (disk s) else disk s) /\
    dwrites s' = (if w then dwrites s ++ [(b_blockno bb, b_data bb)] else dwrites s) /\ same_face p s s'.
Proof.
  intros (e' & ->) Hr Hv _ Hb Hbd Hbn Hd.
  destruct (transfer_ok p pid b bb w d (replicate n answer ++ e') s Hr Hv Hb Hbd Hbn Hd) as (s' & Hrun & Hs').
  exists (replicate n answer ++ e'), s'. split; [exact Hrun|]. split; [by exists e'|exact Hs'].
Qed.

Lemma answers_less n e : answers (S n) e -> answers n e.
Proof. intros (e' & ->). exists (answer :: e'). by rewrite replicate_S_end, <- app_assoc. Qed.

#[export] Instance virtio_disk_ok : @DiskOk virtio_disk := {|
  idle := idle_queue; serves := answers; disk_io := virtio_disk_io; serves_less := answers_less
|}.

End Served.

(** ** A device *)

Definition block_device (s : kernel) : kernel :=
  match pending (vdisk s) with
  | None => s
  | Some r =>
      if vr_type (rq_op r) =? VIRTIO_BLK_T_IN
      then s <| bcache ::= alter (fun b => b <| b_data := default [] (disk s !! rq_block r) |>) (rq_buf r) |>
             <| vdisk ::= complete r |>
      else match bcache s !! rq_buf r with
           | Some bb => s <| disk ::= <[rq_block r := b_data bb]> |>
                          <| dwrites ::= fun l => l ++ [(rq_block r, b_data bb)] |> <| vdisk ::= complete r |>
           | None => s
           end
  end.

#[export] Instance device0 : Device := block_device.

#[export] Instance device0_ok : DeviceOk.
Proof.
  split; unfold device, device0, block_device.
  - intros s r d Hp Ht _ _ Hd. by rewrite Hp, Ht, Hd.
  - intros s r bb Hp Ht _ _ _ Hb. by rewrite Hp, Ht, Hb.
Qed.

(** ** Write and read back *)

(** C3: the disk driver round trip.  virtio_disk_rw() from a buffer and then
    to another buffer of the same block, with a device that follows the virtio
    specification and the interrupt handler run while the caller sleeps, both
    return: the second buffer holds the data of the first, the block of the disk
    as well, one write reached the disk, and the queue is idle again with every
    descriptor free. *)
Theorem virtio_write_read `{Platform, DeviceOk} p pid b b' bb bb' d e s :
  ready p pid s -> idle_queue (vdisk s) -> b <> b' -> bcache s !! b = Some bb -> bcache s !! b' = Some bb' ->
  b_disk bb = 0 -> b_disk bb' = 0 -> b_blockno bb' = b_blockno bb -> 0 <= b_blockno bb < 2 ^ 31 ->
  disk s !! b_blockno bb = Some d ->
  exists s', (virtio_disk_rw b true ;; virtio_disk_rw b' false) (answer :: answer :: e) s = Ret tt e s' /\
    bcache s' = <[b' := bb' <| b_data := b_data bb |>]> (bcache s) /\
    disk s' = <[b_blockno bb := b_data bb]> (disk s) /\ dwrites s' = dwrites s ++ [(b_blockno bb, b_data bb)] /\
    idle_queue (vdisk s') /\ erase_io s' = erase_io s.
Proof.
  intros Hr Hv Hne Hb Hb' Hd Hd' Hn Hbn Hdk.
  destruct (transfer_ok p pid b bb true d (answer :: e) s) as (s1 & R1 & E1 & C1 & V1 & B1 & D1 & W1 & _); try done.
  destruct (transfer_ok p pid b' bb' false (b_data bb) e s1) as (s2 & R2 & E2 & C2 & V2 & B2 & D2 & W2 & _); try done.
  - by apply (ready_erase p pid s).
  - by rewrite B1.
  - by rewrite Hn.
  - rewrite D1, Hn. apply lookup_insert_eq.
  - exists s2. rewrite (bind_run _ _ _ _ _ _ _ R1), B2, D2, W2, E2, B1, D1. done.
Qed.

Definition disk_machine : kernel :=
  machine [running 1]
    <| bcache ::= fun l => alter (fun b => b <| b_blockno := 50 |> <| b_data := replicate 1024 65 |>) 3%nat
                           (alter (fun b => b <| b_blockno := 50 |>) 4%nat l) |>
    <| disk := {[50 := replicate 1024 0]} |>.

Lemma machine_ready_at pp s :
  hw s = hart0 -> procs s = procs (machine [pp]) -> p_state pp = RUNNING -> ready 0 (p_pid pp) s.
Proof.
  intros Hh Hp Hst. split; [|rewrite Hh; split; [by exists "lock"%string|split; [by exists "lock"%string|]]].
  - destruct (machine_procs_ok [pp]) as (Hl & Hs & Hf); [cbn; unfold NPROC; lia|].
    split; [split; [by rewrite Hp|by rewrite Hh]|]. split; [rewrite Hh; exact (machine_quiet [])|].
    exists pp. by rewrite Hp.
  - assert (Forall (fun b => locks0 !! LSleep (SBuf b) = Some (unlocked "lock")) (seq 0 NBUF)) as Hall
      by (repeat constructor).
    intros b Hb. exists "lock"%string. apply (Forall_elem _ _ b Hall). apply elem_of_seq. lia.
Qed.

Lemma machine_ready pid s :
  hw s = hart0 -> procs s = procs (machine [running pid]) -> ready 0 pid s.
Proof. intros Hh Hp. by apply (machine_ready_at (running pid)). Qed.

Lemma virtq0_idle : idle_queue virtq0.
Proof. by split. Qed.

Lemma virtio_write_read_witness :
  exists s', (virtio_disk_rw 3 true ;; virtio_disk_rw 4 false)
      [@answer platform0 device0; @answer platform0 device0] disk_machine = Ret tt [] s' /\
    (b_data <$> bcache s' !! 4%nat) = Some (replicate 1024 65) /\ disk s' !! 50 = Some (replicate 1024 65).
Proof.
  destruct (virtio_write_read (H := platform0) 0 1 3 4 (buf0 3 <| b_blockno := 50 |> <| b_data := replicate 1024 65 |>)
    (buf0 4 <| b_blockno := 50 |>) (replicate 1024 0) [] disk_machine) as (s' & R & Hb & Hd & _).
  - by apply machine_ready.
  - apply virtq0_idle.
  - done.
  - reflexivity.
  - reflexivity.
  - reflexivity.
  - reflexivity.
  - reflexivity.
  - cbn. lia.
  - reflexivity.
  - exists s'. split; [exact R|]. split.
    + rewrite Hb, list_lookup_insert_eq; [reflexivity|]. cbn. lia.
    + rewrite Hd. apply lookup_insert_eq.
Defined.
