(* ===== verification/Log.v ===== *)
(** * The redo log: log.c

    The in-memory header [log.lh] is [lh_n] and [lh_block] of [klog]; the
    on-disk header is the block at [log.start], an [int] count followed by the
    block numbers. *)

From S2P Require Import Prelude State Machine Monad Spinlock Cstring Kalloc Vm Proc Sleeplock Virtio Bio.

Definition log_upd (f : logstate -> logstate) : M unit := modify (fun s => s <| klog ::= f |>).

(** [log.lh.block[i]] *)
Definition lh_at (i : Z) : M Z :=
  o <- gets (fun s => lh_block (klog s) !! Z.to_nat i); deref "log.lh.block" o.

Definition lh_set (i v : Z) : M unit :=
  lh_at i ;; log_upd (fun l => l <| lh_block ::= <[Z.to_nat i := v]> |>).

(** [for(i = 0; i < log.lh.n; i++) body(i)] *)
Definition for_lh (body : Z -> M unit) : M unit :=
  loop (fun i =>
    n <- gets (fun s => lh_n (klog s));
    if i <? n then body i ;; ret (inl (i + 1)) else ret (inr tt)) 0.

Section Log.
Context `{Disk}.

Definition install_trans (recovering : bool) : M unit :=
  for_lh (fun tail =>
    l <- gets klog;
    lbuf <- bread (log_dev l) (u32 (log_start l + tail + 1));
    bn <- lh_at tail;
    dbuf <- bread (log_dev l) (u32 bn);
    data <- bdata lbuf;
    bdata_upd dbuf (fun _ => data) ;;
    bwrite dbuf ;;
    when (negb recovering) (bunpin dbuf) ;;
    brelse lbuf ;;
    brelse dbuf).

Definition read_head : M unit :=
  l <- gets klog;
  buf <- bread (log_dev l) (u32 (log_start l));
  lh <- bdata buf;
  log_upd (fun l => l <| lh_n := s32 (get32 lh 0) |>) ;;
  for_lh (fun i => lh_set i (s32 (get32 lh (Z.to_nat (4 + 4 * i))))) ;;
  brelse buf.

Definition write_head : M unit :=
  l <- gets klog;
  buf <- bread (log_dev l) (u32 (log_start l));
  bdata_upd buf (put32 0 (lh_n l)) ;;
  for_lh (fun i => bn <- lh_at i; bdata_upd buf (put32 (Z.to_nat (4 + 4 * i)) bn)) ;;
  bwrite buf ;;
  brelse buf.

Definition recover_from_log : M unit :=
  read_head ;;
  install_trans true ;;
  log_upd (fun l => l <| lh_n := 0 |>) ;;
  write_head.

(** [sizeof(struct logheader)] is 4 + 4 * LOGSIZE. *)
Definition initlog (dev : Z) (sb : superblock) : M unit :=
  if BSIZE <=? 4 + 4 * LOGSIZE then panic "initlog: too big logheader" else
  initlock LLog "log" ;;
  log_upd (fun l => l <| log_start := s32 (sb_logstart sb) |> <| log_size := s32 (sb_nlog sb) |>
                      <| log_dev := dev |>) ;;
  recover_from_log.

Definition begin_op : M unit :=
  acquire LLog ;;
  sleep_loop 0 (fun _ =>
    l <- gets klog;
    if log_committing l then sleep ChLog LLog ;; ret (inl tt)
    else if LOGSIZE <? lh_n l + (log_outstanding l + 1) * MAXOPBLOCKS then
      sleep ChLog LLog ;; ret (inl tt)
    else
      log_upd (fun l => l <| log_outstanding ::= fun n => n + 1 |>) ;;
      release LLog ;;
      ret (inr tt)) tt.

Definition write_log : M unit :=
  for_lh (fun tail =>
    l <- gets klog;
    to <- bread (log_dev l) (u32 (log_start l + tail + 1));
    bn <- lh_at tail;
    from <- bread (log_dev l) (u32 bn);
    data <- bdata from;
    bdata_upd to (fun _ => data) ;;
    bwrite to ;;
    brelse from ;;
    brelse to).

Definition commit : M unit :=
  n <- gets (fun s => lh_n (klog s));
  when (0 <? n)
    (write_log ;;
     write_head ;;
     install_trans false ;;
     log_upd (fun l => l <| lh_n := 0 |>) ;;
     write_head).

Definition end_op : M unit :=
  acquire LLog ;;
  log_upd (fun l => l <| log_outstanding ::= fun n => n - 1 |>) ;;
  l <- gets klog;
  if log_committing l then panic "log.committing" else
  do_commit <-
    (if log_outstanding l =? 0
     then log_upd (fun l => l <| log_committing := true |>) ;; ret true
     else wakeup ChLog ;; ret false);
  release LLog ;;
  when do_commit
    (commit ;;
     acquire LLog ;;
     log_upd (fun l => l <| log_committing := false |>) ;;
     wakeup ChLog ;;
     release LLog).

(** The first [i < n] with [log.lh.block[i] == blockno], else [n]. *)
Fixpoint absorb (block : list Z) (n : nat) (blockno : Z) : nat :=
  match n, block with
  | S n, bn :: block => if u32 bn =? blockno then O else S (absorb block n blockno)
  | _, _ => O
  end.

Definition log_write (b : nat) : M unit :=
  acquire LLog ;;
  l <- gets klog;
  if (LOGSIZE <=? lh_n l) || (log_size l - 1 <=? lh_n l) then panic "too big a transaction" else
  if log_outstanding l <? 1 then panic "log_write outside of trans" else
  bb <- buf_at b;
  let i := Z.of_nat (absorb (lh_block l) (Z.to_nat (lh_n l)) (b_blockno bb)) in
  lh_set i (s32 (b_blockno bb)) ;;
  when (i =? lh_n l)
    (bpin b ;;
     log_upd (fun l => l <| lh_n ::= fun n => n + 1 |>)) ;;
  release LLog.

End Log.

(** ** The blocks of a transaction *)

(** The block numbers in the in-memory header. *)
Definition logged (l : logstate) : list Z := take (Z.to_nat (lh_n l)) (lh_block l).

Definition log_ok (l : logstate) : Prop :=
  0 <= lh_n l <= LOGSIZE /\ length (lh_block l) = Z.to_nat LOGSIZE /\
  NoDup (logged l) /\ Forall (fun b => 0 <= b < 2 ^ 31) (logged l).

Lemma absorb_in block n bn :
  Forall (fun b => 0 <= b < 2 ^ 31) (take n block) -> bn ∈ take n block ->
  (absorb block n bn < n)%nat /\ block !! absorb block n bn = Some bn.
Proof.
  revert n. induction block as [|b block IH]; intros [|n] Hf Hin; cbn in *; try by apply elem_of_nil in Hin.
  apply Forall_cons in Hf as [Hb Hf]. rewrite u32_small by lia. destruct (Z.eqb_spec b bn) as [->|Hne].
  - split; [lia|done].
  - apply elem_of_cons in Hin as [?|Hin]; [congruence|]. destruct (IH n Hf Hin) as [? ?]. split; [lia|done].
Qed.

Lemma absorb_notin block n bn :
  (n <= length block)%nat -> Forall (fun b => 0 <= b < 2 ^ 31) (take n block) ->
  bn ∉ take n block -> absorb block n bn = n.
Proof.
  revert n. induction block as [|b block IH]; intros [|n] Hl Hf Hin; cbn in *; try done; try lia.
  apply Forall_cons in Hf as [Hb Hf]. rewrite u32_small by lia. rewrite elem_of_cons in Hin.
  destruct (Z.eqb_spec b bn) as [->|Hne]; [by destruct Hin; left|]. f_equal. apply IH; [lia|done|tauto].
Qed.

Lemma lh_set_run i v e s :
  (Z.to_nat i < length (lh_block (klog s)))%nat ->
  lh_set i v e s = Ret tt e (s <| klog ::= fun l => l <| lh_block ::= <[Z.to_nat i := v]> |> |>).
Proof.
  intros Hi. apply lookup_lt_is_Some in Hi as [x Hx]. unfold lh_set, lh_at, log_upd.
  rewrite bind_assoc, step_gets, Hx, step_deref. done.
Qed.

Lemma bpin_run b e s :
  settled (hw s) -> free LBcache (hw s) ->
  bpin b e s = Ret tt e (s <| bcache ::= alter (fun b => b <| b_refcnt ::= fun n => n +32 1 |>) b |>).
Proof.
  intros Hs Hf. unfold bpin, buf_upd. mrun acquire_run. msteps.
  rewrite release_run by (st; eauto with kernel). same_hw.
Qed.

(** ** Theorems *)

(** C37: log_write() inside a transaction with room.  A block that is already in
    the transaction is absorbed: nothing changes.  Another block is appended to
    the header and its buffer is pinned.  No block is ever recorded twice. *)
Theorem log_write_absorbs b bb e s :
  settled (hw s) -> free LLog (hw s) -> free LBcache (hw s) -> log_ok (klog s) ->
  lh_n (klog s) < LOGSIZE -> lh_n (klog s) < log_size (klog s) - 1 -> 1 <= log_outstanding (klog s) ->
  bcache s !! b = Some bb -> 0 <= b_blockno bb < 2 ^ 31 ->
  exists s', log_write b e s = Ret tt e s' /\ log_ok (klog s') /\
    if decide (b_blockno bb ∈ logged (klog s)) then s' = s
    else logged (klog s') = logged (klog s) ++ [b_blockno bb] /\
         bcache s' = alter (fun b => b <| b_refcnt ::= fun n => n +32 1 |>) b (bcache s) /\
         hw s' = hw s.
Proof.
  intros Hs Hf Hfb Hok Hn Hsz Hout Hb Hbn. pose proof Hok as (Hr & Hl & Hnd & Hall).
  unfold log_write. mrun acquire_run. rewrite step_gets. st.
  rewrite (proj2 (Z.leb_gt _ _)), (proj2 (Z.leb_gt _ _)), (proj2 (Z.ltb_ge _ _)) by lia. cbn [orb].
  unfold buf_at. rewrite bind_assoc, step_gets. st. rewrite Hb, step_deref.
  rewrite s32_small by lia. change LOGSIZE with 30 in *. case_decide as Hin.
  - destruct (absorb_in _ _ _ Hall Hin) as [Hlt Hat]. set (i := absorb _ _ _) in *. 
    erewrite bind_run by (apply lh_set_run; st; lia).
    rewrite (proj2 (Z.eqb_neq _ _)) by lia. rewrite step_when_false.
    exists s. split; [|done]. rewrite release_run by (st; eauto with kernel). apply ret_state. state_eq.
    + by rewrite unlock_lock.
    + destruct (klog s) as [st sz out com dev n blk]. unfold upd, upd_lh_block. cbn in *. f_equal.
      rewrite Nat2Z.id. by apply list_insert_id.
  - assert (absorb (lh_block (klog s)) (Z.to_nat (lh_n (klog s))) (b_blockno bb) =
      Z.to_nat (lh_n (klog s))) as -> by (apply absorb_notin; [lia|done|done]).
    rewrite Z2Nat.id by lia. erewrite bind_run by (apply lh_set_run; st; lia).
    rewrite Z.eqb_refl, step_when_true, bind_assoc. mrun bpin_run. unfold log_upd. rewrite step_modify.
    eexists. split; [apply release_run; st; eauto with kernel|]. st.
    set (l := klog s) in *. unfold log_ok, logged.
    assert (Hlog : take (Z.to_nat (lh_n l + 1)) (<[Z.to_nat (lh_n l) := b_blockno bb]> (lh_block l)) =
      take (Z.to_nat (lh_n l)) (lh_block l) ++ [b_blockno bb]).
    { replace (Z.to_nat (lh_n l + 1)) with (S (Z.to_nat (lh_n l))) by lia.
      erewrite take_S_r by (apply list_lookup_insert_eq; lia). by rewrite take_insert_ge by lia. }
    cbn [lh_n lh_block]. unfold upd, upd_lh_n, upd_lh_block. cbn [lh_n lh_block]. rewrite Hlog, length_insert.
    split; [|split; [done|split; [done|by rewrite unlock_lock]]].
    change LOGSIZE with 30. split; [lia|]. split; [done|]. split.
    + apply NoDup_app. split; [done|]. split; [|apply NoDup_singleton].
      intros x Hx ->%list_elem_of_singleton. done.
    + apply Forall_app. split; [done|]. by constructor.
Qed.

(** The machine in a transaction that has written block 45; buffer 3 caches
    block [bn]. *)
Definition log_machine (bn : Z) : kernel :=
  (machine []) <| klog := mklog 2 30 1 false 1 1 (45 :: replicate 29 0) |>
               <| bcache ::= alter (fun b => b <| b_dev := 1 |> <| b_blockno := bn |> <| b_refcnt := 1 |>) 3%nat |>.

Lemma log_machine_ok bn : log_ok (klog (log_machine bn)).
Proof.
  change (klog (log_machine bn)) with (mklog 2 30 1 false 1 1 (45 :: replicate 29 0)).
  unfold log_ok, logged. cbn [lh_n lh_block]. change (Z.to_nat 1) with 1%nat. cbn [take].
  split; [vm_compute; split; congruence|]. split; [reflexivity|]. split; [apply NoDup_singleton|].
  by repeat constructor.
Qed.

Lemma log_machine_free bn lk : lk ∈ [LLog; LBcache] -> free lk (hw (log_machine bn)).
Proof. intros Hin. exists "lock"%string. repeat (apply elem_of_cons in Hin as [->|Hin]; [reflexivity|]). by apply elem_of_nil in Hin. Qed.

Lemma log_write_absorbs_witness :
  log_write 3 [] (log_machine 45) = Ret tt [] (log_machine 45) /\
  exists s', log_write 3 [] (log_machine 46) = Ret tt [] s' /\ logged (klog s') = [45; 46].
Proof.
  assert (Hb : forall bn, bcache (log_machine bn) !! 3%nat =
    Some (buf0 3 <| b_dev := 1 |> <| b_blockno := bn |> <| b_refcnt := 1 |>)) by reflexivity.
  pose proof (fun bn (Hbn : 0 <= bn < 2 ^ 31) => log_write_absorbs 3 _ [] (log_machine bn) (machine_settled [])
    (log_machine_free bn LLog ltac:(set_solver)) (log_machine_free bn LBcache ltac:(set_solver))
    (log_machine_ok bn) eq_refl eq_refl ltac:(vm_compute; congruence) (Hb bn) Hbn) as Hw.
  cbn [b_blockno] in Hw. split.
  - destruct (Hw 45) as (s' & Hrun & _ & Hs'); [by split|].
    case_decide as Hd; [rewrite Hs' in Hrun; exact Hrun|destruct Hd; apply list_elem_of_here].
  - destruct (Hw 46) as (s' & Hrun & _ & Hs'); [by split|]. exists s'. split; [exact Hrun|].
    case_decide as Hd; [|exact (proj1 Hs')].
    by apply (list_elem_of_singleton (A := Z) 46 45) in Hd.
Defined.
