(* ===== verification/Transact.v ===== *)
(** * Committing and recovering a transaction: what log.c writes

    The runs of write_log(), write_head(), install_trans(), read_head(),
    commit() and initlog() against the contract of the buffer cache
    (Bufcache.v): the sequence of blocks each of them writes to the disk.
    Crash.v draws the conclusion for a crash at any point. *)

From S2P Require Import Prelude State Machine Monad Spinlock Cstring Kalloc Vm Proc Sleeplock Virtio Bio Bufcache Log.

(** ** Sequences of writes *)

Definition write_block (dk : gmap Z (list Z)) (w : Z * list Z) : gmap Z (list Z) := <[w.1 := w.2]> dk.

(** The disk after a sequence of writes. *)
Definition replay (W : list (Z * list Z)) (dk : gmap Z (list Z)) : gmap Z (list Z) := fold_left write_block W dk.

Lemma replay_app W1 W2 dk : replay (W1 ++ W2) dk = replay W2 (replay W1 dk).
Proof. apply fold_left_app. Qed.

Lemma replay_other W dk bn : bn ∉ W.*1 -> replay W dk !! bn = dk !! bn.
Proof.
  revert dk. induction W as [|[b d] W IH]; intros dk Hn; [done|]. cbn in Hn |- *.
  rewrite IH by set_solver. apply lookup_insert_ne. set_solver.
Qed.

Lemma replay_in W dk bn d : NoDup W.*1 -> (bn, d) ∈ W -> replay W dk !! bn = Some d.
Proof.
  revert dk. induction W as [|[b x] W IH]; intros dk Hnd Hin; [by apply elem_of_nil in Hin|].
  cbn in Hnd. apply NoDup_cons in Hnd as [Hx Hd].
  cbn. apply elem_of_cons in Hin as [[= <- <-]|Hin]; [|by apply IH].
  rewrite replay_other by done. apply lookup_insert_eq.
Qed.

Lemma replay_some W dk bn : is_Some (dk !! bn) -> is_Some (replay W dk !! bn).
Proof.
  revert dk. induction W as [|[b x] W IH]; intros dk Hs; [done|]. apply IH. unfold write_block. cbn.
  rewrite lookup_insert. case_decide; eauto.
Qed.

(** The same on block contents given as a function. *)
Definition overlay (W : list (Z * list Z)) (c : Z -> option (list Z)) : Z -> option (list Z) :=
  fold_left (fun c w bn => if decide (bn = w.1) then Some w.2 else c bn) W c.

Lemma overlay_snoc W b d c bn :
  overlay (W ++ [(b, d)]) c bn = if decide (bn = b) then Some d else overlay W c bn.
Proof. unfold overlay. by rewrite fold_left_app. Qed.

Lemma overlay_other W c bn : bn ∉ W.*1 -> overlay W c bn = c bn.
Proof.
  induction W as [|[b d] W IH] using rev_ind; [done|]. rewrite fmap_app, elem_of_app. intros Hn.
  rewrite overlay_snoc, decide_False by (intros ->; apply Hn; right; left). apply IH. tauto.
Qed.

Lemma overlay_in W c bn d : NoDup W.*1 -> (bn, d) ∈ W -> overlay W c bn = Some d.
Proof.
  induction W as [|[b x] W IH] using rev_ind; [by intros _ ?%elem_of_nil|].
  rewrite fmap_app. intros (Hd & Hx & _)%NoDup_app [Hin|[= -> ->]%list_elem_of_singleton]%elem_of_app.
  - rewrite overlay_snoc, decide_False; [by apply IH|]. intros ->. apply (Hx b); [|left].
    by apply (list_elem_of_fmap_2 fst) in Hin.
  - by rewrite overlay_snoc, decide_True.
Qed.

(** [s] is reached from [s0] by the writes [W]. *)
Definition wrote (W : list (Z * list Z)) (s0 s : kernel) : Prop :=
  dwrites s = dwrites s0 ++ W /\ disk s = replay W (disk s0).

Lemma wrote_nil s : wrote [] s s.
Proof. split; [by rewrite app_nil_r|done]. Qed.

Lemma wrote_trans W1 W2 s0 s1 s2 : wrote W1 s0 s1 -> wrote W2 s1 s2 -> wrote (W1 ++ W2) s0 s2.
Proof. intros [H1 H2] [H3 H4]. split; [by rewrite H3, H1, app_assoc|]. by rewrite H4, H2, replay_app. Qed.

Lemma wrote_same s0 s1 : disk s1 = disk s0 -> dwrites s1 = dwrites s0 -> wrote [] s0 s1.
Proof. intros Hd Hw. split; [by rewrite Hw, app_nil_r|done]. Qed.

(** ** The header block *)

(** [hb->block[i] = lh.block[i]] for the blocks from [i] on. *)
Fixpoint put_blocks (i : nat) (blocks : list Z) (data : list Z) : list Z :=
  match blocks with
  | [] => data
  | bn :: blocks => put_blocks (S i) blocks (put32 (4 + 4 * i) bn data)
  end.

Definition head_bytes (blocks : list Z) (data : list Z) : list Z :=
  put_blocks 0 blocks (put32 0 (Z.of_nat (length blocks)) data).

Definition head_count (data : list Z) : Z := s32 (get32 data 0).

Definition head_block (data : list Z) (i : nat) : Z := s32 (get32 data (4 + 4 * i)).

Lemma length_put32 off v l : (off + 4 <= length l)%nat -> length (put32 off v l) = length l.
Proof. intros. apply length_splice. by rewrite length_le_bytes. Qed.

Lemma get32_put32 off v l : (off + 4 <= length l)%nat -> get32 (put32 off v l) off = u32 v.
Proof.
  intros. unfold get32, put32. rewrite <- (Nat.add_0_r off) at 2.
  rewrite sub_bytes_splice by (rewrite length_le_bytes; lia).
  rewrite sub_bytes_all by apply length_le_bytes. rewrite le_value_bytes. done.
Qed.

Lemma get32_put32_ne off v l o :
  (off + 4 <= length l)%nat -> (o + 4 <= off \/ off + 4 <= o)%nat -> get32 (put32 off v l) o = get32 l o.
Proof. intros. unfold get32, put32. by rewrite sub_bytes_splice_ne by (rewrite length_le_bytes; lia). Qed.

Lemma length_put_blocks i blocks data :
  (4 + 4 * (i + length blocks) <= length data)%nat -> length (put_blocks i blocks data) = length data.
Proof.
  revert i data. induction blocks as [|bn blocks IH]; intros i data Hl; cbn [length put_blocks] in *; [done|].
  rewrite IH; rewrite length_put32; lia.
Qed.

Lemma put_blocks_app i l1 l2 data :
  put_blocks i (l1 ++ l2) data = put_blocks (i + length l1) l2 (put_blocks i l1 data).
Proof.
  revert i data. induction l1 as [|b l1 IH]; intros i data; cbn [app put_blocks length]; [by rewrite Nat.add_0_r|].
  rewrite IH. f_equal. lia.
Qed.

Lemma put_blocks_snoc blocks data i bn :
  blocks !! i = Some bn ->
  put_blocks 0 (take (S i) blocks) data = put32 (4 + 4 * i) bn (put_blocks 0 (take i blocks) data).
Proof.
  intros Hb. erewrite take_S_r by done. rewrite put_blocks_app. cbn [put_blocks].
  rewrite length_take_le by (apply lookup_lt_Some in Hb; lia). done.
Qed.

(** Words outside the blocks that are stored stay. *)
Lemma put_blocks_before i blocks data o :
  (4 + 4 * (i + length blocks) <= length data)%nat -> (o + 4 <= 4 + 4 * i)%nat ->
  get32 (put_blocks i blocks data) o = get32 data o.
Proof.
  revert i data. induction blocks as [|bn blocks IH]; intros i data Hl Ho; cbn [length put_blocks] in *; [done|].
  rewrite IH by (rewrite ?length_put32; lia). apply get32_put32_ne; lia.
Qed.

Lemma put_blocks_at i blocks data j bn :
  (4 + 4 * (i + length blocks) <= length data)%nat -> blocks !! j = Some bn ->
  get32 (put_blocks i blocks data) (4 + 4 * (i + j)) = u32 bn.
Proof.
  revert i data j. induction blocks as [|b blocks IH]; intros i data j Hl Hj; cbn [length put_blocks] in *; [done|].
  destruct j as [|j]; cbn in Hj.
  - injection Hj as ->. rewrite put_blocks_before by (rewrite ?length_put32; lia).
    rewrite Nat.add_0_r. apply get32_put32. lia.
  - replace (i + S j)%nat with (S i + j)%nat by lia. apply IH; [rewrite length_put32; lia|done].
Qed.

Section Header.
Context (blocks data : list Z) (Hl : (4 + 4 * length blocks <= length data)%nat).

Lemma length_head : length (head_bytes blocks data) = length data.
Proof using Hl. unfold head_bytes. rewrite length_put_blocks; rewrite length_put32; lia. Qed.

Lemma head_count_bytes : (Z.of_nat (length blocks) < 2 ^ 31) -> head_count (head_bytes blocks data) = Z.of_nat (length blocks).
Proof using Hl.
  intros. unfold head_count, head_bytes. rewrite put_blocks_before by (rewrite ?length_put32; lia).
  rewrite get32_put32 by lia. rewrite u32_small by lia. apply s32_small. lia.
Qed.

Lemma head_block_bytes i bn :
  blocks !! i = Some bn -> 0 <= bn < 2 ^ 31 -> head_block (head_bytes blocks data) i = bn.
Proof using Hl.
  intros Hi Hbn. unfold head_block, head_bytes. change (4 * i)%nat with (4 * (0 + i))%nat.
  rewrite (put_blocks_at 0 _ _ _ bn); [|rewrite length_put32; lia|done].
  rewrite u32_small by lia. apply s32_small. lia.
Qed.

End Header.

(** ** Loops over the header *)

Lemma for_lh_unroll (I : nat -> env -> kernel -> Prop) (body : Z -> M unit) n k i e s :
  (forall i e s, (i < n)%nat -> I i e s -> exists e' s', body (Z.of_nat i) e s = Ret tt e' s' /\ I (S i) e' s') ->
  (forall i e s, I i e s -> lh_n (klog s) = Z.of_nat n) ->
  (i + k = n)%nat -> I i e s ->
  exists e' s', unroll (S k) (fun i =>
      n <- gets (fun s => lh_n (klog s));
      if i <? n then body i ;; ret (inl (i + 1)) else ret (inr tt)) (Z.of_nat i) e s =
    Ret (inr tt) e' s' /\ I n e' s'.
Proof.
  intros Hb Hn. revert i e s. induction k as [|k IH]; intros i e s Hik HI; rewrite unroll_S.
  - exists e, s. rewrite bind_assoc, step_gets, (Hn i e s HI), (proj2 (Z.ltb_ge _ _)) by lia.
    rewrite step_ret. split; [done|]. by replace n with i by lia.
  - destruct (Hb i e s) as (e1 & s1 & Hrun & HI1); [lia|done|].
    rewrite bind_assoc, step_gets, (Hn i e s HI), (proj2 (Z.ltb_lt _ _)) by lia.
    rewrite bind_assoc, (bind_run _ _ _ _ _ _ _ Hrun), step_ret.
    replace (Z.of_nat i + 1) with (Z.of_nat (S i)) by lia. apply IH; [lia|done].
Qed.

Lemma for_lh_ok (I : nat -> env -> kernel -> Prop) (body : Z -> M unit) n e s :
  (forall i e s, (i < n)%nat -> I i e s -> exists e' s', body (Z.of_nat i) e s = Ret tt e' s' /\ I (S i) e' s') ->
  (forall i e s, I i e s -> lh_n (klog s) = Z.of_nat n) ->
  (n <= 30)%nat -> I 0%nat e s ->
  exists e' s', for_lh body e s = Ret tt e' s' /\ I n e' s'.
Proof.
  intros Hb Hn Hle HI. destruct (for_lh_unroll I body n n 0 e s Hb Hn) as (e' & s' & Hrun & HI'); [lia|done|].
  exists e', s'. split; [|done]. unfold for_lh. by apply (loop_run (S n)); [|lia].
Qed.

(** ** Blocks in use *)

(** Block [bn] is cached in a pinned buffer. *)
Definition pinned (pins : nat -> Z) (bc : list buf) (bn : Z) : Prop := exists b, slot_for bn bc b /\ 0 < pins b.

Lemma slot_view bn bc bc' b : same_view bc bc' -> slot_for bn bc b -> slot_for bn bc' b.
Proof.
  intros Hv (Hb & bb & Hbb & Hd & Hn). split; [done|].
  destruct (same_view_lookup _ _ _ _ Hv Hbb) as (bb' & Hbb' & [= _ ? ? _]). exists bb'. split; [done|]. by split; congruence.
Qed.

Lemma pinned_view pins bc bc' bn : same_view bc bc' -> pinned pins bc bn -> pinned pins bc' bn.
Proof. intros Hv (b & Hs & Hp). exists b. split; [|done]. by eapply slot_view. Qed.

Lemma erase_klog s s' : erase_io s' = erase_io s -> klog s' = klog s.
Proof. intros He. change (klog s') with (klog (erase_io s')). by rewrite He. Qed.

Lemma lh_at_run i bn e s : lh_block (klog s) !! i = Some bn -> lh_at (Z.of_nat i) e s = Ret bn e s.
Proof. intros Hi. unfold lh_at. msteps. by rewrite Nat2Z.id, Hi. Qed.

Section Transactions.
Context `{HD : Disk, HO : !DiskOk} (p : nat) (pid : Z).

Lemma pinned_granted pins held dirty bn0 s b bb s' bn :
  granted p pid pins held dirty bn0 s b bb s' -> pinned pins (bcache s) bn -> pinned pins (bcache s') bn.
Proof.
  intros G (b' & Hs & Hp). exists b'. split; [|done]. destruct Hs as (Hb & bb' & Hbb' & Hd & Hn).
  split; [done|]. destruct (decide (b' = b)) as [->|Hne].
  - destruct (gr_pinned _ _ _ _ _ _ _ _ _ _ G) as (_ & bb0 & Hbb0 & _ & Hn0); [lia|].
    exists bb. split; [apply G|]. split; [apply G|]. rewrite (gr_block _ _ _ _ _ _ _ _ _ _ G). congruence.
  - exists bb'. by rewrite (gr_other _ _ _ _ _ _ _ _ _ _ G).
Qed.

(** One block has been written to the disk, and nothing else has changed. *)
Record stored (pins : nat -> Z) (bn : Z) (d : list Z) (s s' : kernel) : Prop := {
  st_session : session p pid pins [] [] s';
  st_erase : erase_io s' = erase_io s;
  st_wrote : wrote [(bn, d)] s s';
  st_content : forall bn', content (bcache s') (disk s') bn' =
    if decide (bn' = bn) then Some d else content (bcache s) (disk s) bn';
}.

(** A buffer that is filled with [d], written and released. *)
Lemma store_ok pins held n b bb d e s :
  serves (S n) e -> session p pid pins (b :: held) [] s -> (b < NBUF)%nat -> bcache s !! b = Some bb ->
  b_dev bb = ROOTDEV -> b_valid bb = true -> length d = Z.to_nat BSIZE ->
  exists e' s', (bdata_upd b (fun _ => d) ;; bwrite b) e s = Ret tt e' s' /\ serves n e' /\
    session p pid pins (b :: held) [] s' /\ erase_io s' = erase_io s /\ wrote [(b_blockno bb, d)] s s' /\
    bcache s' = <[b := bb <| b_data := d |>]> (bcache s) /\
    forall bn', content (bcache s') (disk s') bn' =
      if decide (bn' = b_blockno bb) then Some d else content (bcache s) (disk s) bn'.
Proof.
  intros He Hse Hb Hbb Hd Hv Hlen.
  destruct (bdata_upd_ok p pid pins (b :: held) [] b bb (fun _ => d) e s) as (s1 & Hu & Hs1 & Hse1 & Hc1);
    try done; [left|].
  assert (Hbb1 : bcache s1 !! b = Some (bb <| b_data := d |>)).
  { rewrite Hs1. cbn. apply list_lookup_insert_eq. by eapply lookup_lt_Some. }
  destruct (bwrite_ok p pid pins (b :: held) [b] [] n b (bb <| b_data := d |>) e s1)
    as (e2 & s2 & Hw & He2 & Hse2 & Her2 & Hbc2 & Hdk2 & Hdw2 & Hc2); try done; [left|set_solver|].
  exists e2, s2. rewrite (bind_run _ _ _ _ _ _ _ Hu).
  split; [done|]. split; [done|]. split; [done|]. split; [by rewrite Her2, Hs1|].
  split; [|split].
  - split; [rewrite Hdw2, Hs1; done|]. rewrite Hdk2, Hs1. done.
  - by rewrite Hbc2, Hs1.
  - intros bn'. rewrite Hc2. apply Hc1.
Qed.

(** Both buffers of a copy are released. *)
Lemma release2_ok pins held a b ba bb e s :
  session p pid pins held [] s -> (a < NBUF)%nat -> (b < NBUF)%nat -> a <> b ->
  bcache s !! a = Some ba -> bcache s !! b = Some bb -> (forall z, z ∈ held <-> z = a \/ z = b) ->
  exists s', (brelse a ;; brelse b) e s = Ret tt e s' /\ session p pid pins [] [] s' /\
    erase_io s' = erase_io s /\ wrote [] s s' /\ same_view (bcache s) (bcache s').
Proof.
  intros Hse Ha Hb Hne Hba Hbb Hh.
  destruct (brelse_ok p pid pins held [b] [] a ba e s) as (s1 & Hr1 & Hse1 & Her1 & Hdk1 & Hdw1 & _ & Hv1); try done.
  { apply Hh. by left. } { set_solver. } { intros x. rewrite Hh, list_elem_of_singleton. naive_solver. }
  destruct (same_view_lookup _ _ _ _ Hv1 Hbb) as (bb1 & Hbb1 & _).
  destruct (brelse_ok p pid pins [b] [] [] b bb1 e s1) as (s2 & Hr2 & Hse2 & Her2 & Hdk2 & Hdw2 & _ & Hv2); try done.
  { left. } { set_solver. } { set_solver. }
  exists s2. rewrite (bind_run _ _ _ _ _ _ _ Hr1). split; [done|]. split; [done|].
  split; [by rewrite Her2|]. split; [apply wrote_same; congruence|].
  intros x. by rewrite Hv2.
Qed.

Section Copy.
Context (pins : nat -> Z) (src dst : Z) (d : list Z) (n : nat) (e : env) (s : kernel).
Context (He : serves (S (S (S n))) e) (Hse : session p pid pins [] [] s) (Hne : src <> dst).
Context (Hsrc : 0 <= src < 2 ^ 31) (Hdst : 0 <= dst < 2 ^ 31).
Context (Hxs : is_Some (disk s !! src)) (Hxd : is_Some (disk s !! dst)).
Context (Hcont : content (bcache s) (disk s) src = Some d) (Hroom : room pins []).

(** Two blocks are read, one after the other. *)
Lemma bread2_ok b1 b2 :
  b1 <> b2 -> (b1 = src \/ b1 = dst) -> (b2 = src \/ b2 = dst) ->
  (forall b, room pins [b]) \/ pinned pins (bcache s) b2 ->
  exists x y bx b_y e1 s1 e2 s2, bread ROOTDEV b1 e s = Ret x e1 s1 /\ bread ROOTDEV b2 e1 s1 = Ret y e2 s2 /\
    serves (S n) e2 /\ granted p pid pins [] [] b1 s x bx s1 /\ granted p pid pins [x] [] b2 s1 y b_y s2 /\
    x <> y /\ bcache s2 !! x = Some bx.
Proof using He Hse Hne Hsrc Hdst Hxs Hxd Hroom.
  intros H12 H1 H2 Hr2.
  assert (Hok : forall b, b = src \/ b = dst -> 0 <= b < 2 ^ 31 /\ is_Some (disk s !! b)) by (intros b [->| ->]; done).
  destruct (Hok b1 H1) as [Hb1 Hx1], (Hok b2 H2) as [Hb2 Hx2].
  destruct (bread_ok p pid pins [] [] (S (S n)) b1 e s) as (x & bx & e1 & s1 & Hr1 & He1 & G1); try done;
    [by intros; apply not_elem_of_nil|by left|].
  destruct (bread_ok p pid pins [x] [] (S n) b2 e1 s1) as (y & b_y & e2 & s2 & Hrd2 & He2 & G2); try done.
  - apply G1.
  - by rewrite (gr_disk _ _ _ _ _ _ _ _ _ _ G1).
  - intros b (_ & bb & Hbb & _ & Hn) ->%list_elem_of_singleton. apply H12.
    rewrite <- (gr_block _ _ _ _ _ _ _ _ _ _ G1), <- Hn. pose proof (gr_buf _ _ _ _ _ _ _ _ _ _ G1). congruence.
  - destruct Hr2 as [Hr2|Hp]; [by left|right].
    destruct (pinned_granted _ _ _ _ _ _ _ _ _ G1 Hp) as (b & Hb & _). by exists b.
  - assert (x <> y).
    { intros ->. apply (gr_new _ _ _ _ _ _ _ _ _ _ G2). left. }
    exists x, y, bx, b_y, e1, s1, e2, s2. do 6 (split; [done|]).
    rewrite (gr_other _ _ _ _ _ _ _ _ _ _ G2) by done. apply G1.
Qed.

(** In the middle of a copy: the buffer [x] of [dst] holds [d] and is on disk,
    [y] is the buffer of [src], and both are held. *)
Record copied (pins' : nat -> Z) (x y : nat) (s3 : kernel) : Prop := {
  co_session : session p pid pins' [x; y] [] s3;
  co_erase : erase_io s3 = erase_io s;
  co_wrote : wrote [(dst, d)] s s3;
  co_x : (x < NBUF)%nat /\ exists bx, bcache s3 !! x = Some bx /\ b_dev bx = ROOTDEV /\ b_blockno bx = dst /\
         disk s3 !! dst = Some (b_data bx);
  co_y : (y < NBUF)%nat /\ exists b_y, bcache s3 !! y = Some b_y;
  co_ne : x <> y;
  co_content : forall bn', content (bcache s3) (disk s3) bn' =
    if decide (bn' = dst) then Some d else content (bcache s) (disk s) bn';
  co_pinned : forall bn, pinned pins (bcache s) bn -> pinned pins (bcache s3) bn;
  co_slot : forall b, slot_for dst (bcache s) b -> 0 < pins b -> b = x;
}.

Lemma pinned_data pins0 bc b bb dat bn :
  bc !! b = Some bb -> pinned pins0 bc bn -> pinned pins0 (<[b := bb <| b_data := dat |>]> bc) bn.
Proof using.
  intros Hbb (b' & (Hb' & bb' & Hbb' & Hd & Hn) & Hp). exists b'. split; [|done]. split; [done|].
  destruct (decide (b = b')) as [<-|Hn'].
  - exists (bb <| b_data := dat |>). rewrite list_lookup_insert_eq by (by eapply lookup_lt_Some).
    split; [done|]. cbn. by split; congruence.
  - exists bb'. by rewrite list_lookup_insert_ne.
Qed.

(** Both blocks have been read: [x] is the buffer of [dst], [y] that of [src]. *)
Record loaded (x : nat) (bx : buf) (y : nat) (s2 : kernel) : Prop := {
  lo_session : session p pid pins [x; y] [] s2;
  lo_erase : erase_io s2 = erase_io s;
  lo_disk : disk s2 = disk s;
  lo_writes : dwrites s2 = dwrites s;
  lo_lt : (x < NBUF)%nat /\ (y < NBUF)%nat /\ x <> y;
  lo_x : bcache s2 !! x = Some bx /\ b_dev bx = ROOTDEV /\ b_valid bx = true /\ b_blockno bx = dst;
  lo_y : exists b_y, bcache s2 !! y = Some b_y /\ b_data b_y = d;
  lo_content : forall bn, content (bcache s2) (disk s2) bn = content (bcache s) (disk s) bn;
  lo_pinned : forall bn, pinned pins (bcache s) bn -> pinned pins (bcache s2) bn;
  lo_slot : forall b, slot_for dst (bcache s) b -> 0 < pins b -> b = x;
}.

Section Loaded.
Context (b1 b2 : Z) (z1 z2 : nat) (bz1 bz2 : buf) (s1 s2 : kernel).
Context (G1 : granted p pid pins [] [] b1 s z1 bz1 s1) (G2 : granted p pid pins [z1] [] b2 s1 z2 bz2 s2).

Lemma granted2 :
  erase_io s2 = erase_io s /\ disk s2 = disk s /\ dwrites s2 = dwrites s /\
  (forall bn, content (bcache s2) (disk s2) bn = content (bcache s) (disk s) bn) /\
  (forall bn, pinned pins (bcache s) bn -> pinned pins (bcache s2) bn).
Proof using G1 G2.
  split; [by rewrite (gr_erase _ _ _ _ _ _ _ _ _ _ G2), (gr_erase _ _ _ _ _ _ _ _ _ _ G1)|].
  split; [by rewrite (gr_disk _ _ _ _ _ _ _ _ _ _ G2), (gr_disk _ _ _ _ _ _ _ _ _ _ G1)|].
  split; [by rewrite (gr_writes _ _ _ _ _ _ _ _ _ _ G2), (gr_writes _ _ _ _ _ _ _ _ _ _ G1)|]. split.
  - intros bn. by rewrite (gr_content _ _ _ _ _ _ _ _ _ _ G2), (gr_content _ _ _ _ _ _ _ _ _ _ G1).
  - intros bn Hp. eapply pinned_granted; [exact G2|]. by eapply pinned_granted.
Qed.

Lemma session_swap : session p pid pins [z1; z2] [] s2.
Proof using G2.
  destruct (gr_session _ _ _ _ _ _ _ _ _ _ G2) as [? ? Hc]. split; [done|done|].
  eapply cache_perm; [..|exact Hc]; [|done]. intros x. rewrite !elem_of_cons. clear. tauto.
Qed.

End Loaded.

Lemma loaded_dst_src x y bx b_y s1 s2 :
  granted p pid pins [] [] dst s x bx s1 -> granted p pid pins [x] [] src s1 y b_y s2 ->
  x <> y -> bcache s2 !! x = Some bx -> loaded x bx y s2.
Proof using Hcont.
  intros G1 G2 Hxy Hbx. destruct (granted2 _ _ _ _ _ _ _ _ G1 G2) as (H1 & H2 & H3 & H4 & H5).
  split; try done.
  - by eapply session_swap.
  - split; [apply G1|]. split; [apply G2|done].
  - split; [done|]. split; [apply G1|]. split; apply G1.
  - exists b_y. split; [apply G2|]. pose proof (gr_data _ _ _ _ _ _ _ _ _ _ G2) as E.
    rewrite (gr_content _ _ _ _ _ _ _ _ _ _ G1), Hcont in E. by injection E.
  - intros b Hs _. by apply G1.
Qed.

Lemma loaded_src_dst x y bx b_y s1 s2 :
  granted p pid pins [] [] src s y b_y s1 -> granted p pid pins [y] [] dst s1 x bx s2 ->
  x <> y -> bcache s2 !! y = Some b_y -> loaded x bx y s2.
Proof using Hcont Hne.
  intros G1 G2 Hxy Hby. destruct (granted2 _ _ _ _ _ _ _ _ G1 G2) as (H1 & H2 & H3 & H4 & H5).
  split; try done.
  - apply G2.
  - split; [apply G2|]. split; [apply G1|done].
  - split; [apply G2|]. split; [apply G2|]. split; apply G2.
  - exists b_y. split; [done|]. pose proof (gr_data _ _ _ _ _ _ _ _ _ _ G1) as E. rewrite Hcont in E. by injection E.
  - intros b Hs Hp. apply (gr_slot _ _ _ _ _ _ _ _ _ _ G2). destruct Hs as (Hb & bb & Hbb & Hd & Hn).
    assert (b <> y).
    { intros ->. destruct (gr_pinned _ _ _ _ _ _ _ _ _ _ G1) as (_ & bb' & Hbb' & _ & Hn'); [lia|]. congruence. }
    split; [done|]. exists bb. by rewrite (gr_other _ _ _ _ _ _ _ _ _ _ G1).
Qed.

(** [dst] is overwritten. *)
Lemma store_loaded x bx y e2 s2 :
  loaded x bx y s2 -> serves (S n) e2 ->
  exists e3 s3, (bdata_upd x (fun _ => d) ;; bwrite x) e2 s2 = Ret tt e3 s3 /\ serves n e3 /\ copied pins x y s3.
Proof using.
  intros [Hs2 Her Hdk Hdw (Hx & Hy & Hxy) (Hbx & Hdev & Hv & Hbn) (b_y & Hby & Hd) Hco Hpi Hsl] Hserv.
  destruct (store_ok pins [y] n x bx d e2 s2) as (e3 & s3 & R3 & He3 & Hse3 & Her3 & Hw3 & Hbc3 & Hc3); try done.
  { rewrite <- Hd. eapply bo_len, (ca_buf _ _ _ _ _ _ (se_cache _ _ _ _ _ _ Hs2)); done. }
  rewrite Hbn in Hw3, Hc3. destruct Hw3 as [Hw3 Hd3].
  exists e3, s3. split; [done|]. split; [done|]. split; try done.
  - by rewrite Her3.
  - split; [by rewrite Hw3, Hdw|by rewrite Hd3, Hdk].
  - split; [done|]. exists (bx <| b_data := d |>). rewrite Hbc3, list_lookup_insert_eq by (by eapply lookup_lt_Some).
    do 3 (split; [done|]). rewrite Hd3. cbn. apply lookup_insert_eq.
  - split; [done|]. exists b_y. by rewrite Hbc3, list_lookup_insert_ne.
  - intros bn'. by rewrite Hc3, Hco.
  - intros bn Hp%Hpi. rewrite Hbc3. by apply pinned_data.
Qed.

(** Both buffers are released. *)
Lemma close_copied pins' x y a b e3 s3 :
  copied pins' x y s3 -> (a, b) = (x, y) \/ (a, b) = (y, x) ->
  exists s4, (brelse a ;; brelse b) e3 s3 = Ret tt e3 s4 /\ stored pins' dst d s s4 /\
    forall bn, pinned pins' (bcache s3) bn -> pinned pins' (bcache s4) bn.
Proof using.
  intros [Hs3 Her3 Hw3 (Hx & bx & Hbx & _) (Hy & b_y & Hby) Hxy Hc3 _ _] Hab.
  assert (exists ba bb, (a < NBUF)%nat /\ (b < NBUF)%nat /\ a <> b /\ bcache s3 !! a = Some ba /\
    bcache s3 !! b = Some bb /\ forall z, z ∈ [x; y] <-> z = a \/ z = b) as (ba & bb & Ha & Hb & Hne' & Hba & Hbb & Hin).
  { destruct Hab as [[= -> ->]|[= -> ->]]; [exists bx, b_y|exists b_y, bx];
      (do 5 (split; [done|])); intros z; rewrite !elem_of_cons, elem_of_nil; clear; naive_solver. }
  destruct (release2_ok pins' [x; y] a b ba bb e3 s3) as (s4 & R4 & Hse4 & Her4 & Hw4 & Hv4); try done.
  exists s4. split; [done|]. destruct Hw4 as [Hw4 Hdk4]. cbn in Hdk4. split.
  - split; [done|by rewrite Her4| |].
    + destruct Hw3 as [E1 E2]. split; [by rewrite Hw4, app_nil_r|by rewrite Hdk4].
    + intros bn'. rewrite <- Hc3, Hdk4. eapply content_view; [apply Hs3| |done].
      rewrite <- Hdk4. apply Hse4.
  - intros bn. by apply pinned_view.
Qed.

(** write_log(): [dst] is a block of the log, [src] a pinned block. *)
Lemma copy_log_ok (at_ : M Z) :
  (forall e s', erase_io s' = erase_io s -> at_ e s' = Ret src e s') -> pinned pins (bcache s) src ->
  exists e' s', (to <- bread ROOTDEV dst; bn <- at_; from <- bread ROOTDEV (u32 bn); data <- bdata from;
      bdata_upd to (fun _ => data) ;; bwrite to ;; brelse from ;; brelse to) e s = Ret tt e' s' /\
    serves n e' /\ stored pins dst d s s' /\
    forall bn, pinned pins (bcache s) bn -> pinned pins (bcache s') bn.
Proof using He Hse Hne Hsrc Hdst Hxs Hxd Hcont Hroom.
  intros Hat Hpin.
  destruct (bread2_ok dst src) as (t & f & bt & bf & e1 & s1 & e2 & s2 & R1 & R2 & He2 & G1 & G2 & Htf & Hbt);
    [done|by right|by left|by right|].
  pose proof (loaded_dst_src _ _ _ _ _ _ G1 G2 Htf Hbt) as L.
  destruct (store_loaded _ _ _ e2 _ L He2) as (e3 & s3 & R3 & He3 & C).
  destruct (close_copied pins t f f t e3 s3 C) as (s4 & R4 & St & Hp4); [by right|].
  destruct (lo_y _ _ _ _ L) as (b_y & Hby & Hd).
  exists e3, s4. split; [|split; [done|split; [done|]]].
  - rewrite (bind_run _ _ _ _ _ _ _ R1), (bind_run _ _ _ _ _ _ _ (Hat _ _ (gr_erase _ _ _ _ _ _ _ _ _ _ G1))).
    rewrite (u32_small src), (bind_run _ _ _ _ _ _ _ R2) by lia. unfold bdata at 1. rewrite bind_assoc.
    rewrite (bind_run _ _ _ _ _ _ _ (buf_at_run _ _ _ _ Hby)), step_ret, Hd.
    rewrite <- bind_assoc, (bind_run _ _ _ _ _ _ _ R3). exact R4.
  - intros bn Hp. by apply Hp4, (co_pinned _ _ _ _ C).
Qed.

Lemma pinned_repin bc x bx bn :
  bc !! x = Some bx -> b_blockno bx = dst -> bn <> dst -> pinned pins bc bn -> pinned (repin (-1) x pins) bc bn.
Proof using.
  intros Hbx Hn Hbn (b & Hs & Hp). exists b. split; [done|]. unfold repin. rewrite decide_False; [done|].
  intros ->. destruct Hs as (_ & bb & Hbb & _ & E). congruence.
Qed.

(** The copy is unpinned once it is on disk. *)
Lemma unpin_copied x y e3 s3 :
  copied pins x y s3 -> 0 < pins x ->
  exists s4, bunpin x e3 s3 = Ret tt e3 s4 /\ copied (repin (-1) x pins) x y s4 /\
    forall bn, bn <> dst -> pinned pins (bcache s) bn -> pinned (repin (-1) x pins) (bcache s4) bn.
Proof using.
  intros [Hs3 Her3 [Hw3 Hd3] (Hx & bx & Hbx & Hdev & Hbn & Hdk) (Hy & b_y & Hby) Hxy Hc3 Hp3 Hsl] Hp.
  destruct (bunpin_ok p pid pins [x; y] [] x bx e3 s3) as (s4 & R4 & Hse4 & Her4 & Hdk4 & Hdw4 & Hv4); try done.
  { by rewrite Hbn. }
  destruct (same_view_lookup _ _ _ _ Hv4 Hbx) as (bx' & Hbx' & [= E1 E2 E3 E4]).
  destruct (same_view_lookup _ _ _ _ Hv4 Hby) as (by' & Hby' & _).
  assert (Hpin : forall bn, pinned pins (bcache s) bn -> pinned pins (bcache s4) bn)
    by (intros bn ?%Hp3; by eapply pinned_view).
  exists s4. split; [done|]. split; [split; try done|].
  - by rewrite Her4.
  - split; congruence.
  - split; [done|]. exists bx'. do 3 (split; [congruence|]). congruence.
  - split; [done|]. by exists by'.
  - intros bn'. rewrite <- Hc3, Hdk4. eapply content_view; [apply Hs3| |done]. rewrite <- Hdk4. apply Hse4.
  - intros bn Hne' Hb%Hpin. eapply pinned_repin; [done|congruence|done|done].
Qed.

(** install_trans(): [src] is a block of the log, [dst] its home. *)
Lemma copy_home_ok (recovering : bool) (at_ : M Z) :
  (forall e s', erase_io s' = erase_io s -> at_ e s' = Ret dst e s') ->
  (if recovering then forall b, room pins [b] else pinned pins (bcache s) dst) ->
  exists e' s' pins', (lbuf <- bread ROOTDEV src; bn <- at_; dbuf <- bread ROOTDEV (u32 bn); data <- bdata lbuf;
      bdata_upd dbuf (fun _ => data) ;; bwrite dbuf ;; when (negb recovering) (bunpin dbuf) ;;
      brelse lbuf ;; brelse dbuf) e s = Ret tt e' s' /\
    serves n e' /\ stored pins' dst d s s' /\ (recovering = true -> pins' = pins) /\
    (forall b, pins b = 0 -> pins' b = 0) /\
    forall bn, bn <> dst -> pinned pins (bcache s) bn -> pinned pins' (bcache s') bn.
Proof using He Hse Hne Hsrc Hdst Hxs Hxd Hcont Hroom.
  intros Hat Hrec.
  destruct (bread2_ok src dst) as (y & x & b_y & bx & e1 & s1 & e2 & s2 & R1 & R2 & He2 & G1 & G2 & Hyx & Hby);
    [done|by left|by right|by destruct recovering; [left|right]|].
  pose proof (loaded_src_dst _ _ _ _ _ _ G1 G2 (not_eq_sym Hyx) Hby) as L.
  destruct (store_loaded _ _ _ e2 _ L He2) as (e3 & s3 & R3 & He3 & C).
  assert (exists s4 pins', when (negb recovering) (bunpin x) e3 s3 = Ret tt e3 s4 /\ copied pins' x y s4 /\
    (recovering = true -> pins' = pins) /\ (forall b, pins b = 0 -> pins' b = 0) /\
    forall bn, bn <> dst -> pinned pins (bcache s) bn -> pinned pins' (bcache s4) bn)
    as (s4 & pins' & R4 & C4 & Hpr & Hp0 & Hp4).
  { destruct recovering; cbn [negb].
    - exists s3, pins. do 4 (split; [done|]). intros bn _. apply C.
    - destruct Hrec as (b & Hb & Hp). pose proof (lo_slot _ _ _ _ L b Hb Hp) as ->.
      destruct (unpin_copied x y e3 s3 C Hp) as (s4 & R4 & C4 & Hp4).
      exists s4, (repin (-1) x pins). do 3 (split; [done|]). split; [|done].
      intros b Hz. unfold repin. rewrite decide_False; [done|]. intros ->. lia. }
  destruct (close_copied pins' x y y x e3 s4 C4) as (s5 & R5 & St & Hp5); [by right|].
  destruct (lo_y _ _ _ _ L) as (by' & Hby' & Hd).
  exists e3, s5, pins'. split; [|split; [done|split; [done|split; [done|split; [done|]]]]].
  - rewrite (bind_run _ _ _ _ _ _ _ R1), (bind_run _ _ _ _ _ _ _ (Hat _ _ (gr_erase _ _ _ _ _ _ _ _ _ _ G1))).
    rewrite (u32_small dst), (bind_run _ _ _ _ _ _ _ R2) by lia. unfold bdata at 1. rewrite bind_assoc.
    rewrite (bind_run _ _ _ _ _ _ _ (buf_at_run _ _ _ _ Hby')), step_ret, Hd.
    rewrite <- bind_assoc, (bind_run _ _ _ _ _ _ _ R3), (bind_run _ _ _ _ _ _ _ R4). exact R5.
  - intros bn Hbn Hp. by apply Hp5, Hp4.
Qed.

End Copy.
(** ** The log on disk *)

(** The log occupies [size] existing blocks from [start] on. *)
Record log_area (start size : Z) (dk : gmap Z (list Z)) : Prop := {
  la_range : 0 <= start /\ start + size < 2 ^ 31;
  la_exists : forall bn, start <= bn < start + size -> is_Some (dk !! bn);
}.

(** Blocks that a transaction may write: outside the log, and each once. *)
Record homes (start size : Z) (blocks : list Z) (dk : gmap Z (list Z)) : Prop := {
  ho_nodup : NoDup blocks;
  ho_block : forall bn, bn ∈ blocks -> 0 <= bn < 2 ^ 31 /\ ~ start <= bn < start + size /\ is_Some (dk !! bn);
  ho_fit : (length blocks <= 30)%nat /\ Z.of_nat (length blocks) < size;
}.

(** The in-memory log describes the transaction. *)
Record logs (start : Z) (blocks : list Z) (l : logstate) : Prop := {
  lg_start : log_start l = start;
  lg_dev : log_dev l = ROOTDEV;
  lg_n : lh_n l = Z.of_nat (length blocks);
  lg_block : forall i bn, blocks !! i = Some bn -> lh_block l !! i = Some bn;
}.

Definition log_slot (start : Z) (i : nat) : Z := start + Z.of_nat i + 1.

(** The data of the transaction, written to the log. *)
Definition log_writes (start : Z) (datas : list (list Z)) : list (Z * list Z) :=
  imap (fun i d => (log_slot start i, d)) datas.

Lemma log_writes_elem start datas bn :
  bn ∈ (log_writes start datas).*1 <-> exists i, (i < length datas)%nat /\ bn = log_slot start i.
Proof.
  unfold log_writes. rewrite list_elem_of_fmap. split.
  - intros ([b d] & -> & Hin). apply elem_of_lookup_imap in Hin as (i & x & [= -> ->] & Hi).
    exists i. split; [by eapply lookup_lt_Some|done].
  - intros (i & Hi & ->). destruct (lookup_lt_is_Some_2 datas i Hi) as [d Hd].
    exists (log_slot start i, d). split; [done|]. apply elem_of_lookup_imap. eauto.
Qed.

Lemma log_writes_nodup start datas : NoDup (log_writes start datas).*1.
Proof.
  unfold log_writes. rewrite fmap_imap. apply NoDup_alt. intros i j x Hi Hj.
  rewrite list_lookup_imap in Hi, Hj. destruct (datas !! i), (datas !! j); try done. cbn in *.
  unfold log_slot in *. simplify_eq. lia.
Qed.

Lemma log_writes_snoc start datas i d :
  datas !! i = Some d ->
  log_writes start (take (S i) datas) = log_writes start (take i datas) ++ [(log_slot start i, d)].
Proof.
  intros Hd. unfold log_writes. erewrite take_S_r by done. rewrite imap_app. cbn. do 4 f_equal.
  rewrite length_take. apply lookup_lt_Some in Hd. lia.
Qed.

(** ** write_log *)

Section Commit.
Context (start size : Z) (blocks : list Z) (datas : list (list Z)) (s0 : kernel).
Context (Harea : log_area start size (disk s0)) (Hhomes : homes start size blocks (disk s0)).
Context (Hlen : length datas = length blocks).
Context (Hdata : forall i bn d, blocks !! i = Some bn -> datas !! i = Some d -> content (bcache s0) (disk s0) bn = Some d).

(** After the writes [W], made on behalf of the transaction. *)
Record after (pins : nat -> Z) (W : list (Z * list Z)) (s : kernel) : Prop := {
  af_session : session p pid pins [] [] s;
  af_erase : erase_io s = erase_io s0;
  af_wrote : wrote W s0 s;
  af_content : forall bn, content (bcache s) (disk s) bn = overlay W (content (bcache s0) (disk s0)) bn;
}.

Lemma after_stored pins pins' W b d s s' :
  after pins W s -> stored pins' b d s s' -> after pins' (W ++ [(b, d)]) s'.
Proof using.
  intros [H1 H2 H3 H4] [S1 S2 S3 S4]. split; [done|by rewrite S2| |].
  - by eapply wrote_trans.
  - intros bn. by rewrite S4, H4, overlay_snoc.
Qed.

Lemma after_some pins W s bn : after pins W s -> is_Some (disk s0 !! bn) -> is_Some (disk s !! bn).
Proof using. intros [_ _ [_ Hd] _] Hs. rewrite Hd. by apply replay_some. Qed.

Lemma after_klog pins W s : after pins W s -> klog s = klog s0.
Proof using. intros [_ He _ _]. by apply erase_klog. Qed.

Lemma home_range bn : bn ∈ blocks -> 0 <= bn < 2 ^ 31 /\ is_Some (disk s0 !! bn).
Proof using Hhomes. intros Hb. by destruct (ho_block _ _ _ _ Hhomes bn Hb) as (? & _ & ?). Qed.

Lemma slot_range i : (i < length blocks)%nat -> 0 <= log_slot start i < 2 ^ 31 /\
  start < log_slot start i < start + size /\ is_Some (disk s0 !! log_slot start i).
Proof using Harea Hhomes Hlen.
  intros Hi. destruct (ho_fit _ _ _ _ Hhomes), (la_range _ _ _ Harea).
  assert (start < log_slot start i < start + size) by (unfold log_slot; lia).
  split; [lia|]. split; [done|]. apply (la_exists _ _ _ Harea). lia.
Qed.

Lemma home_not_slot bn i : bn ∈ blocks -> (i < length blocks)%nat -> bn <> log_slot start i.
Proof using Harea Hhomes Hlen.
  intros Hb Hi ->. destruct (ho_block _ _ _ _ Hhomes _ Hb) as (_ & Hn & _), (slot_range i Hi) as (_ & ? & _). lia.
Qed.

Lemma write_log_ok pins k e :
  logs start blocks (klog s0) -> session p pid pins [] [] s0 -> room pins [] ->
  (forall bn, bn ∈ blocks -> pinned pins (bcache s0) bn) -> serves (3 * length blocks + k) e ->
  exists e' s', write_log e s0 = Ret tt e' s' /\ serves k e' /\ after pins (log_writes start datas) s' /\
    forall bn, bn ∈ blocks -> pinned pins (bcache s') bn.
Proof using Harea Hhomes Hlen Hdata.
  intros Hlg Hse Hroom Hpin Hserv.
  destruct (for_lh_ok (fun i e s => serves (3 * (length blocks - i) + k) e /\
      after pins (log_writes start (take i datas)) s /\ forall bn, bn ∈ blocks -> pinned pins (bcache s) bn)
    (fun tail =>
      l <- gets klog;
      to <- bread (log_dev l) (u32 (log_start l + tail + 1));
      bn <- lh_at tail;
      from <- bread (log_dev l) (u32 bn);
      data <- bdata from;
      bdata_upd to (fun _ => data) ;;
      bwrite to ;;
      brelse from ;;
      brelse to) (length blocks) e s0) as (e' & s' & Hrun & Hs' & Ha' & Hp').
  - intros i e1 s1 Hi (Hs1 & Ha1 & Hp1).
    destruct (lookup_lt_is_Some_2 blocks i Hi) as [bn Hbn].
    destruct (lookup_lt_is_Some_2 datas i) as [d Hd]; [lia|].
    assert (Hbin : bn ∈ blocks) by (by eapply list_elem_of_lookup_2).
    destruct (home_range bn Hbin) as [Hr Hx], (slot_range i Hi) as (Hr' & _ & Hx').
    destruct (copy_log_ok pins bn (log_slot start i) d (3 * (length blocks - S i) + k) e1 s1) with (at_ := lh_at (Z.of_nat i))
      as (e2 & s2 & R2 & Hs2 & St & Hp2); try done.
    + replace (S (S (S (3 * (length blocks - S i) + k)))) with (3 * (length blocks - i) + k)%nat by lia. done.
    + apply Ha1.
    + by apply home_not_slot.
    + by eapply after_some.
    + by eapply after_some.
    + rewrite (af_content _ _ _ Ha1), overlay_other; [by eapply Hdata|].
      rewrite log_writes_elem. intros (j & Hj & E). rewrite length_take in Hj.
      apply (home_not_slot bn j); [done|lia|done].
    + intros e3 s3 He3. apply lh_at_run. rewrite (erase_klog _ _ He3), (after_klog _ _ _ Ha1). by apply Hlg.
    + by apply Hp1.
    + exists e2, s2. split; [|split; [done|split]].
      * rewrite step_gets, (after_klog _ _ _ Ha1), (lg_dev _ _ _ Hlg), (lg_start _ _ _ Hlg).
        rewrite (u32_small (start + Z.of_nat i + 1)) by (unfold log_slot in Hr'; lia). exact R2.
      * rewrite (log_writes_snoc _ _ _ d) by done. by eapply after_stored.
      * intros bn' Hb'. by apply Hp2, Hp1.
  - intros i e1 s1 (_ & Ha1 & _). rewrite (after_klog _ _ _ Ha1). apply Hlg.
  - apply Hhomes.
  - rewrite Nat.sub_0_r. split; [done|]. split; [|done]. split; try done. apply wrote_nil.
  - exists e', s'. rewrite Nat.sub_diag in Hs'. rewrite <- Hlen, firstn_all in Ha'. done.
Qed.

End Commit.
(** ** install_trans *)

Lemma zip_snoc {A B} (l : list A) (k : list B) i x y :
  l !! i = Some x -> k !! i = Some y ->
  zip (take (S i) l) (take (S i) k) = zip (take i l) (take i k) ++ [(x, y)].
Proof.
  intros Hx Hy. erewrite !take_S_r by done. apply (zip_with_app pair _ [x] _ [y]).
  rewrite !length_take. apply lookup_lt_Some in Hx, Hy. lia.
Qed.

Section Install.
Context (start size : Z) (blocks : list Z) (datas : list (list Z)) (s0 : kernel).
Context (Harea : log_area start size (disk s0)) (Hhomes : homes start size blocks (disk s0)).
Context (Hlen : length datas = length blocks).
Context (Hlogged : forall i d, datas !! i = Some d -> content (bcache s0) (disk s0) (log_slot start i) = Some d).

(** What is known before block [i] is installed. *)
Definition installing (recovering : bool) (pins : nat -> Z) (i : nat) (s : kernel) : Prop :=
  exists pins', after s0 pins' (zip (take i blocks) (take i datas)) s /\
    (forall b, pins b = 0 -> pins' b = 0) /\ (recovering = true -> pins' = pins) /\
    (recovering = false -> forall bn, bn ∈ drop i blocks -> pinned pins' (bcache s) bn).

Lemma install_step (recovering : bool) pins i k e s :
  logs start blocks (klog s0) -> room pins [] -> (recovering = true -> forall b, room pins [b]) ->
  (i < length blocks)%nat -> serves (S (S (S k))) e -> installing recovering pins i s ->
  exists e' s', (l <- gets klog;
      lbuf <- bread (log_dev l) (u32 (log_start l + Z.of_nat i + 1));
      bn <- lh_at (Z.of_nat i);
      dbuf <- bread (log_dev l) (u32 bn);
      data <- bdata lbuf;
      bdata_upd dbuf (fun _ => data) ;;
      bwrite dbuf ;;
      when (negb recovering) (bunpin dbuf) ;;
      brelse lbuf ;;
      brelse dbuf) e s = Ret tt e' s' /\ serves k e' /\ installing recovering pins (S i) s'.
Proof using Harea Hhomes Hlen Hlogged.
  intros Hlg [b0 (Hb0 & Hz0 & _)] Hr2 Hi Hs1 (pins1 & Ha1 & Hz1 & Heq1 & Hp1).
  destruct (lookup_lt_is_Some_2 blocks i Hi) as [bn Hbn].
  destruct (lookup_lt_is_Some_2 datas i) as [d Hd]; [lia|].
  assert (Hbin : bn ∈ blocks) by (by eapply list_elem_of_lookup_2).
  destruct (home_range start size blocks s0 Hhomes bn Hbin) as [Hr Hx].
  destruct (slot_range start size blocks datas s0 Harea Hhomes Hlen i Hi) as (Hr' & _ & Hx').
  pose proof (home_not_slot start size blocks datas s0 Harea Hhomes Hlen) as Hns.
  destruct (copy_home_ok pins1 (log_slot start i) bn d k e s) with (recovering := recovering) (at_ := lh_at (Z.of_nat i))
    as (e2 & s2 & pins2 & R2 & Hs2 & St & Heq2 & Hz2 & Hp2); try done.
  - apply Ha1.
  - apply not_eq_sym. by apply Hns.
  - by eapply after_some.
  - by eapply after_some.
  - rewrite (af_content _ _ _ _ Ha1), overlay_other; [by apply Hlogged|].
    intros Hin. apply list_elem_of_fmap in Hin as ([x y] & E & Hin). apply elem_of_zip_l in Hin. cbn in E. subst x.
    apply (Hns (log_slot start i) i); [|done|done]. by eapply elem_of_take in Hin as (j & Hj & _); eapply list_elem_of_lookup_2.
  - exists b0. split; [done|]. split; [by apply Hz1|]. apply not_elem_of_nil.
  - intros e3 s3 He3. apply lh_at_run. rewrite (erase_klog _ _ He3), (after_klog _ _ _ _ Ha1). by apply Hlg.
  - destruct recovering; [rewrite Heq1 by done; by apply Hr2|]. apply Hp1; [done|].
    by erewrite drop_S by done; left.
  - exists e2, s2. split; [|split; [done|exists pins2; split; [|split; [|split]]]].
    + rewrite step_gets, (after_klog _ _ _ _ Ha1), (lg_dev _ _ _ Hlg), (lg_start _ _ _ Hlg).
      rewrite (u32_small (start + Z.of_nat i + 1)) by (unfold log_slot in Hr'; lia). exact R2.
    + rewrite (zip_snoc _ _ _ bn d) by done. by eapply after_stored.
    + intros b Hz. by apply Hz2, Hz1.
    + intros Hrec. by rewrite Heq2, Heq1.
    + intros Hrec bn' Hb'. apply Hp2.
      * intros ->. pose proof (ho_nodup _ _ _ _ Hhomes) as Hnd. rewrite <- (take_drop_middle _ _ _ Hbn) in Hnd.
        apply NoDup_app in Hnd as (_ & _ & [Hn _]%NoDup_cons). done.
      * apply Hp1; [done|]. by erewrite drop_S by done; right.
Qed.

Lemma install_trans_ok (recovering : bool) pins k e :
  logs start blocks (klog s0) -> session p pid pins [] [] s0 -> room pins [] ->
  (if recovering then forall b, room pins [b] else forall bn, bn ∈ blocks -> pinned pins (bcache s0) bn) ->
  serves (3 * length blocks + k) e ->
  exists e' s' pins', install_trans recovering e s0 = Ret tt e' s' /\ serves k e' /\
    after s0 pins' (zip blocks datas) s' /\ (forall b, pins b = 0 -> pins' b = 0) /\ (recovering = true -> pins' = pins).
Proof using Harea Hhomes Hlen Hlogged.
  intros Hlg Hse Hroom Hrec Hserv.
  destruct (for_lh_ok (fun i e s => serves (3 * (length blocks - i) + k) e /\ installing recovering pins i s)
    (fun tail =>
      l <- gets klog;
      lbuf <- bread (log_dev l) (u32 (log_start l + tail + 1));
      bn <- lh_at tail;
      dbuf <- bread (log_dev l) (u32 bn);
      data <- bdata lbuf;
      bdata_upd dbuf (fun _ => data) ;;
      bwrite dbuf ;;
      when (negb recovering) (bunpin dbuf) ;;
      brelse lbuf ;;
      brelse dbuf) (length blocks) e s0) as (e' & s' & Hrun & Hs' & pins' & Ha' & Hz' & Heq' & _).
  - intros i e1 s1 Hi (Hs1 & Hin).
    apply (install_step recovering pins i (3 * (length blocks - S i) + k)); try done.
    + by intros ->.
    + by replace (S (S (S (3 * (length blocks - S i) + k)))) with (3 * (length blocks - i) + k)%nat by lia.
  - intros i e1 s1 (_ & pins1 & Ha1 & _). rewrite (after_klog _ _ _ _ Ha1). apply Hlg.
  - apply Hhomes.
  - rewrite Nat.sub_0_r. split; [done|]. exists pins. split; [|split; [done|split; [done|]]].
    + split; try done. apply wrote_nil.
    + intros ->. exact Hrec.
  - exists e', s', pins'. rewrite Nat.sub_diag in Hs'. rewrite <- Hlen, firstn_all, Hlen, firstn_all in Ha'. done.
Qed.

End Install.
(** ** write_head *)

Section Head.
Context (start : Z) (blocks : list Z) (h0 : list Z) (pins : nat -> Z) (s : kernel).
Context (Hlg : logs start blocks (klog s)) (Hn : (length blocks <= 30)%nat).

(** The header buffer [b], with the first [i] block numbers stored. *)
Definition head_part (i : nat) : list Z :=
  put_blocks 0 (take i blocks) (put32 0 (Z.of_nat (length blocks)) h0).

Record heading (b : nat) (dirty : list nat) (data : list Z) (s2 : kernel) : Prop := {
  hd_session : session p pid pins [b] dirty s2;
  hd_erase : erase_io s2 = erase_io s;
  hd_disk : disk s2 = disk s;
  hd_writes : dwrites s2 = dwrites s;
  hd_buf : (b < NBUF)%nat /\ exists bb, bcache s2 !! b = Some bb /\ b_dev bb = ROOTDEV /\ b_valid bb = true /\
           b_blockno bb = start /\ b_data bb = data;
  hd_content : forall bn, content (bcache s2) (disk s2) bn =
    if decide (bn = start) then Some data else content (bcache s) (disk s) bn;
  hd_pinned : forall bn, pinned pins (bcache s) bn -> pinned pins (bcache s2) bn;
}.

Lemma heading_upd b dirty data f e s2 :
  heading b dirty data s2 -> dirty = [] \/ dirty = [b] -> length (f data) = Z.to_nat BSIZE ->
  exists s3, bdata_upd b f e s2 = Ret tt e s3 /\ heading b [b] (f data) s3.
Proof using.
  intros [Hse Her Hdk Hdw (Hb & bb & Hbb & Hd & Hv & Hbn & Hda) Hco Hpi] Hdirty Hl.
  destruct (bdata_upd_ok p pid pins [b] dirty b bb f e s2) as (s3 & R & -> & Hse3 & Hc3); try done; [left|congruence|].
  eexists. split; [exact R|]. split; try done.
  - destruct Hse3 as [? ? Hc]. split; [done|done|]. eapply cache_perm; [done| |exact Hc].
    intros x. destruct Hdirty as [-> | ->]; rewrite ?elem_of_cons; clear; naive_solver.
  - split; [done|]. exists (bb <| b_data ::= f |>). cbn. rewrite list_lookup_insert_eq by (by eapply lookup_lt_Some).
    do 4 (split; [done|]). by rewrite Hda.
  - intros bn. rewrite Hc3, Hco, Hbn, Hda. by case_decide.
  - intros bn Hp%Hpi. cbn. by apply pinned_data.
Qed.

Lemma length_head_part i : length h0 = Z.to_nat BSIZE -> length (head_part i) = Z.to_nat BSIZE.
Proof using Hn.
  intros Hl. change (Z.to_nat BSIZE) with 1024%nat in *.
  unfold head_part. pose proof (length_take blocks i). rewrite length_put_blocks; rewrite length_put32; lia.
Qed.

(** The header is read, and the count and the block numbers are stored in it. *)
Lemma fill_head_ok k e :
  session p pid pins [] [] s -> room pins [] -> 0 <= start < 2 ^ 31 -> is_Some (disk s !! start) ->
  content (bcache s) (disk s) start = Some h0 -> serves (S (S k)) e ->
  exists b e1 s1 s2 s3, bread ROOTDEV start e s = Ret b e1 s1 /\ serves (S k) e1 /\
    bdata_upd b (put32 0 (Z.of_nat (length blocks))) e1 s1 = Ret tt e1 s2 /\
    for_lh (fun i => bn <- lh_at i; bdata_upd b (put32 (Z.to_nat (4 + 4 * i)) bn)) e1 s2 = Ret tt e1 s3 /\
    heading b [b] (head_bytes blocks h0) s3.
Proof using Hlg Hn.
  intros Hse Hroom Hst Hex Hco Hserv.
  destruct (bread_ok p pid pins [] [] (S k) start e s) as (b & bb & e1 & s1 & R1 & He1 & G); try done;
    [by intros; apply not_elem_of_nil|by left|].
  assert (Hda : b_data bb = h0) by (pose proof (gr_data _ _ _ _ _ _ _ _ _ _ G) as E; rewrite Hco in E; by injection E).
  assert (Hl0 : length h0 = Z.to_nat BSIZE).
  { rewrite <- Hda. destruct (gr_session _ _ _ _ _ _ _ _ _ _ G) as [_ _ Hc]. eapply bo_len, (ca_buf _ _ _ _ _ _ Hc); apply G. }
  assert (H1 : heading b [] h0 s1).
  { split; [apply G..| | |].
    - split; [apply G|]. exists bb. split; [apply G|]. split; [apply G|]. split; [apply G|]. split; [apply G|done].
    - intros bn. rewrite (gr_content _ _ _ _ _ _ _ _ _ _ G). case_decide as E; [by rewrite E|done].
    - intros bn Hp. by eapply pinned_granted. }
  destruct (heading_upd b [] h0 (put32 0 (Z.of_nat (length blocks))) e1 s1 H1) as (s2 & R2 & H2);
    [by left|rewrite length_put32; [done|rewrite Hl0; vm_compute; lia]|].
  destruct (for_lh_ok (fun i e s => e = e1 /\ heading b [b] (head_part i) s)
    (fun i => bn <- lh_at i; bdata_upd b (put32 (Z.to_nat (4 + 4 * i)) bn)) (length blocks) e1 s2)
    as (e3 & s3 & R3 & -> & H3); try done.
  { intros i e' s' Hi [-> H']. destruct (lookup_lt_is_Some_2 blocks i Hi) as [bn Hbn].
    pose proof (length_head_part (S i) Hl0) as Hp. unfold head_part in Hp. rewrite (put_blocks_snoc _ _ _ bn) in Hp by done.
    destruct (heading_upd b [b] (head_part i) (put32 (4 + 4 * i) bn) e1 s' H') as (s'' & R & H''); [by right|done|].
    exists e1, s''. split.
    - erewrite bind_run by (apply lh_at_run; rewrite (erase_klog _ _ (hd_erase _ _ _ _ H')); by apply Hlg).
      by replace (Z.to_nat (4 + 4 * Z.of_nat i)) with (4 + 4 * i)%nat by lia.
    - split; [done|]. unfold head_part. by rewrite (put_blocks_snoc _ _ _ bn). }
  { intros i e' s' [_ H']. rewrite (erase_klog _ _ (hd_erase _ _ _ _ H')). apply Hlg. }
  exists b, e1, s1, s2, s3. do 4 (split; [done|]). unfold head_part in H3. by rewrite firstn_all in H3.
Qed.

Lemma write_head_ok k e :
  session p pid pins [] [] s -> room pins [] -> 0 <= start < 2 ^ 31 -> is_Some (disk s !! start) ->
  content (bcache s) (disk s) start = Some h0 -> serves (S (S k)) e ->
  exists e' s', write_head e s = Ret tt e' s' /\ serves k e' /\ stored pins start (head_bytes blocks h0) s s' /\
    forall bn, pinned pins (bcache s) bn -> pinned pins (bcache s') bn.
Proof using Hlg Hn.
  intros Hse Hroom Hst Hex Hco Hserv.
  destruct (fill_head_ok k e) as (b & e1 & s1 & s2 & s3 & R1 & He1 & R2 & R3 & H3); try done.
  destruct H3 as [Hs3 Her3 Hdk3 Hdw3 (Hb & bb3 & Hbb3 & Hd3 & Hv3 & Hbn3 & Hda3) Hco3 Hpi3].
  destruct (bwrite_ok p pid pins [b] [b] [] k b bb3 e1 s3)
    as (e4 & s4 & R4 & He4 & Hse4 & Her4 & Hbc4 & Hdk4 & Hdw4 & Hc4); try done; [left|set_solver|].
  destruct (brelse_ok p pid pins [b] [] [] b bb3 e4 s4) as (s5 & R5 & Hse5 & Her5 & Hdk5 & Hdw5 & _ & Hv5); try done;
    [by rewrite Hbc4|left|set_solver|set_solver|].
  exists e4, s5. split; [|split; [done|split]].
  - unfold write_head. rewrite step_gets, (lg_dev _ _ _ Hlg), (lg_start _ _ _ Hlg), (lg_n _ _ _ Hlg).
    rewrite (u32_small start), (bind_run _ _ _ _ _ _ _ R1), (bind_run _ _ _ _ _ _ _ R2) by lia.
    rewrite (bind_run _ _ _ _ _ _ _ R3), (bind_run _ _ _ _ _ _ _ R4). exact R5.
  - split; [done| | |].
    + by rewrite Her5, Her4.
    + split; [rewrite Hdw5, Hdw4, Hdw3|rewrite Hdk5, Hdk4, Hdk3]; by rewrite Hbn3, Hda3.
    + intros bn. rewrite <- Hco3, <- Hc4, Hdk5. eapply content_view; [apply Hse4| |done]. rewrite <- Hdk5. apply Hse5.
  - intros bn Hp%Hpi3. eapply pinned_view; [exact Hv5|]. by rewrite Hbc4.
Qed.

End Head.
(** ** commit *)

(** The writes of commit(): the data to the log, the header, the data to their
    home blocks, the empty header. *)
Definition commit_writes (start : Z) (blocks : list Z) (datas : list (list Z)) (h0 : list Z) : list (Z * list Z) :=
  (log_writes start datas ++ [(start, head_bytes blocks h0)]) ++
  zip blocks datas ++ [(start, head_bytes [] (head_bytes blocks h0))].

(** A transaction that is ready to be committed. *)
Record transaction (start size : Z) (blocks : list Z) (datas : list (list Z)) (h0 : list Z) (pins : nat -> Z)
    (s : kernel) : Prop := {
  tr_area : log_area start size (disk s);
  tr_homes : homes start size blocks (disk s);
  tr_len : length datas = length blocks;
  tr_data : forall i bn d, blocks !! i = Some bn -> datas !! i = Some d -> content (bcache s) (disk s) bn = Some d;
  tr_logs : logs start blocks (klog s);
  tr_session : session p pid pins [] [] s;
  tr_room : room pins [];
  tr_pinned : forall bn, bn ∈ blocks -> pinned pins (bcache s) bn;
  tr_head : content (bcache s) (disk s) start = Some h0;
}.

Definition emptied (s : kernel) : kernel := s <| klog ::= fun l => l <| lh_n := 0 |> |>.

Lemma log_area_some start size dk dk' :
  (forall bn, is_Some (dk !! bn) -> is_Some (dk' !! bn)) -> log_area start size dk -> log_area start size dk'.
Proof. intros Hs [Hr He]. split; [done|]. auto. Qed.

Lemma homes_some start size blocks dk dk' :
  (forall bn, is_Some (dk !! bn) -> is_Some (dk' !! bn)) -> homes start size blocks dk -> homes start size blocks dk'.
Proof. intros Hs [Hn Hb Hf]. split; [done| |done]. intros bn Hbn. destruct (Hb bn Hbn) as (? & ? & ?). auto. Qed.

Lemma session_klog pins held dirty f s :
  session p pid pins held dirty s -> session p pid pins held dirty (s <| klog ::= f |>).
Proof. intros [H1 H2 H3]. by split. Qed.

Lemma emptied_logs start blocks l : logs start blocks l -> logs start [] (l <| lh_n := 0 |>).
Proof. intros [H1 H2 H3 H4]. by split. Qed.

Section CommitRun.
Context (start size : Z) (blocks : list Z) (datas : list (list Z)) (h0 : list Z) (pins : nat -> Z) (s0 : kernel).
Context (Ht : transaction start size blocks datas h0 pins s0).

(** Up to the point where the header is on disk. *)
Lemma commit_point k e :
  serves (3 * length blocks + (2 + k)) e ->
  exists e2 s2, (write_log ;; write_head) e s0 = Ret tt e2 s2 /\ serves k e2 /\
    after s0 pins (log_writes start datas ++ [(start, head_bytes blocks h0)]) s2 /\
    forall bn, bn ∈ blocks -> pinned pins (bcache s2) bn.
Proof using Ht.
  intros Hserv. destruct Ht as [Ha Hh Hl Hd Hlg Hse Hroom Hpin Hh0].
  destruct (write_log_ok start size blocks datas s0 Ha Hh Hl Hd pins (2 + k) e) as (e1 & s1 & R1 & He1 & A1 & P1); try done.
  destruct (write_head_ok start blocks h0 pins s1) with (k := k) (e := e1) as (e2 & s2 & R2 & He2 & St2 & P2); try done.
  - rewrite (after_klog _ _ _ _ A1). done.
  - apply Hh.
  - apply A1.
  - destruct Ha as [[? ?] _]. destruct (ho_fit _ _ _ _ Hh). lia.
  - eapply after_some; [done|]. apply Ha. destruct (ho_fit _ _ _ _ Hh). lia.
  - rewrite (af_content _ _ _ _ A1), overlay_other; [done|]. rewrite log_writes_elem.
    intros (i & _ & E). unfold log_slot in E. lia.
  - exists e2, s2. split; [by rewrite (bind_run _ _ _ _ _ _ _ R1)|]. split; [done|]. split; [by eapply after_stored|].
    intros bn Hbn. by apply P2, P1.
Qed.

(** What the log holds at that point. *)
Lemma committed_log s2 i d :
  after s0 pins (log_writes start datas ++ [(start, head_bytes blocks h0)]) s2 -> datas !! i = Some d ->
  content (bcache s2) (disk s2) (log_slot start i) = Some d.
Proof using.
  intros A2 Hd. rewrite (af_content _ _ _ _ A2), overlay_snoc, decide_False by (unfold log_slot; lia).
  apply overlay_in; [apply log_writes_nodup|]. apply elem_of_lookup_imap. eauto.
Qed.

Lemma commit_ok k e :
  blocks <> [] -> serves (3 * length blocks + (2 + (3 * length blocks + (2 + k)))) e ->
  exists e' s' pins', commit e s0 = Ret tt e' s' /\ serves k e' /\ session p pid pins' [] [] s' /\
    wrote (commit_writes start blocks datas h0) s0 s' /\ erase_io s' = erase_io (emptied s0).
Proof using Ht.
  intros Hne Hserv. destruct (commit_point _ e Hserv) as (e2 & s2 & R2 & He2 & A2 & P2).
  destruct Ht as [Ha Hh Hl Hd Hlg Hse Hroom Hpin Hh0].
  assert (Hsome : forall bn, is_Some (disk s0 !! bn) -> is_Some (disk s2 !! bn)) by (intros; by eapply after_some).
  destruct (install_trans_ok start size blocks datas s2 (log_area_some _ _ _ _ Hsome Ha) (homes_some _ _ _ _ _ Hsome Hh) Hl
    (fun i d => committed_log s2 i d A2) false pins (2 + k) e2) as (e3 & s3 & pins' & R3 & He3 & A3 & Z3 & _); try done.
  { rewrite (after_klog _ _ _ _ A2). done. } { apply A2. }
  set (s4 := emptied s3).
  destruct (write_head_ok start [] (head_bytes blocks h0) pins' s4) with (k := k) (e := e3) as (e5 & s5 & R5 & He5 & St5 & _); try done.
  { apply (emptied_logs start blocks). rewrite (after_klog _ _ _ _ A3), (after_klog _ _ _ _ A2). done. }
  { cbn. lia. } { apply session_klog, A3. }
  { destruct Hroom as (b & Hb & Hz & _). exists b. split; [done|]. split; [by apply Z3|]. apply not_elem_of_nil. }
  { destruct Ha as [[? ?] _], (ho_fit _ _ _ _ Hh). lia. }
  { change (disk s4) with (disk s3). eapply after_some; [exact A3|]. apply Hsome, Ha. destruct (ho_fit _ _ _ _ Hh). lia. }
  { change (content (bcache s4) (disk s4) start) with (content (bcache s3) (disk s3) start).
    rewrite (af_content _ _ _ _ A3), overlay_other.
    - by rewrite (af_content _ _ _ _ A2), overlay_snoc, decide_True.
    - intros ([x y] & E & Hin)%list_elem_of_fmap. cbn in E. subst x. apply elem_of_zip_l in Hin.
      destruct (ho_block _ _ _ _ Hh _ Hin) as (_ & Hn & _), (ho_fit _ _ _ _ Hh). lia. }
  exists e5, s5, pins'. split; [|split; [done|split; [apply St5|split]]].
  - unfold commit. rewrite step_gets, (lg_n _ _ _ Hlg).
    rewrite (proj2 (Z.ltb_lt 0 _)) by (destruct blocks; cbn; [done|lia]).
    change (when true ?m ?e ?s) with (m e s). rewrite <- bind_assoc, (bind_run _ _ _ _ _ _ _ R2).
    rewrite (bind_run _ _ _ _ _ _ _ R3). unfold log_upd. rewrite step_modify. exact R5.
  - unfold commit_writes. eapply wrote_trans; [apply A2|]. eapply wrote_trans; [apply A3|].
    exact (st_wrote _ _ _ _ _ St5).
  - rewrite (st_erase _ _ _ _ _ St5). unfold s4.
    assert (E : erase_io s3 = erase_io s0) by (rewrite (af_erase _ _ _ _ A3); apply A2).
    exact (f_equal emptied E).
Qed.

End CommitRun.
(** ** Recovery *)

(** The block numbers of a header. *)
Definition head_blocks (h : list Z) : list Z := head_block h <$> seq 0 (Z.to_nat (head_count h)).

Lemma head_blocks_lookup h i bn :
  head_blocks h !! i = Some bn -> bn = head_block h i /\ (i < Z.to_nat (head_count h))%nat.
Proof. unfold head_blocks. rewrite list_lookup_fmap. intros (j & [-> Hj]%lookup_seq & ->)%fmap_Some. done. Qed.

Lemma length_head_blocks h : length (head_blocks h) = Z.to_nat (head_count h).
Proof. unfold head_blocks. by rewrite length_fmap, length_seq. Qed.

Lemma lh_set_at i v e s :
  (i < length (lh_block (klog s)))%nat ->
  lh_set (Z.of_nat i) v e s = Ret tt e (s <| klog ::= fun l => l <| lh_block ::= <[i := v]> |> |>).
Proof. intros Hi. rewrite lh_set_run by (by rewrite Nat2Z.id). by rewrite Nat2Z.id. Qed.

(** The log while the header [h] is being read: the first [i] blocks are in. *)
Record reading (h : list Z) (i : nat) (l0 l : logstate) : Prop := {
  rd_start : log_start l = log_start l0;
  rd_dev : log_dev l = log_dev l0;
  rd_n : lh_n l = head_count h;
  rd_len : length (lh_block l) = 30%nat;
  rd_block : forall j, (j < i)%nat -> lh_block l !! j = Some (head_block h j);
}.

Lemma reading_step h i l0 l :
  reading h i l0 l -> (i < 30)%nat -> reading h (S i) l0 (l <| lh_block ::= <[i := head_block h i]> |>).
Proof.
  intros [H1 H2 H3 H4 H5] Hi. split; try done; cbn.
  - by rewrite length_insert.
  - intros j Hj. destruct (decide (i = j)) as [<-|Hne].
    + apply list_lookup_insert_eq. lia.
    + rewrite list_lookup_insert_ne by done. apply H5. lia.
Qed.

(** But for the cache and the disk, only the log has changed. *)
Definition only_klog (s s' : kernel) : Prop := exists l, erase_io s' = erase_io s <| klog := l |>.

Lemma only_klog_trans s s1 s2 : only_klog s s1 -> only_klog s1 s2 -> only_klog s s2.
Proof.
  intros [l1 E1] [l2 E2]. exists l2. rewrite E2, E1. generalize (erase_io s). by intros [].
Qed.

Lemma only_klog_erase s s' : erase_io s' = erase_io s -> only_klog s s'.
Proof. intros E. exists (klog s). rewrite E. reflexivity. Qed.

Lemma read_head_ok start h pins k e s :
  session p pid pins [] [] s -> room pins [] -> 0 <= start < 2 ^ 31 -> is_Some (disk s !! start) ->
  content (bcache s) (disk s) start = Some h -> 0 <= head_count h <= 30 ->
  log_start (klog s) = start -> log_dev (klog s) = ROOTDEV -> length (lh_block (klog s)) = 30%nat ->
  serves (S k) e ->
  exists e' s', read_head e s = Ret tt e' s' /\ serves k e' /\ session p pid pins [] [] s' /\ wrote [] s s' /\
    (forall bn, content (bcache s') (disk s') bn = content (bcache s) (disk s) bn) /\
    logs start (head_blocks h) (klog s') /\ only_klog s s'.
Proof.
  intros Hse Hroom Hst Hex Hco Hcnt Hls Hld Hll Hserv.
  destruct (bread_ok p pid pins [] [] k start e s) as (b & bb & e1 & s1 & R1 & He1 & G); try done;
    [by intros; apply not_elem_of_nil|by left|].
  assert (Hda : b_data bb = h) by (pose proof (gr_data _ _ _ _ _ _ _ _ _ _ G) as E; rewrite Hco in E; by injection E).
  assert (Hk1 : klog s1 = klog s) by (apply erase_klog, G).
  set (l1 := klog s1 <| lh_n := head_count h |>).
  destruct (for_lh_ok (fun i e s2 => e = e1 /\ exists l, s2 = s1 <| klog := l |> /\ reading h i (klog s) l)
    (fun i => lh_set i (s32 (get32 h (Z.to_nat (4 + 4 * i))))) (Z.to_nat (head_count h)) e1 (s1 <| klog := l1 |>))
    as (e2 & s2 & R2 & -> & l2 & -> & Hl2); try lia.
  { intros i e' s' Hi (-> & l & -> & Hl). exists e1. eexists. split.
    - apply lh_set_at. cbn. rewrite (rd_len _ _ _ _ Hl). lia.
    - split; [done|]. exists (l <| lh_block ::= <[i := head_block h i]> |>). split.
      + apply kernel_eq; st; try done. unfold head_block.
        by replace (Z.to_nat (4 + 4 * Z.of_nat i)) with (4 + 4 * i)%nat by lia.
      + apply reading_step; [done|lia]. }
  { intros i e' s' (_ & l & -> & Hl). cbn. rewrite (rd_n _ _ _ _ Hl). lia. }
  { split; [done|]. exists l1. split; [done|]. split; unfold l1; cbn; rewrite ?Hk1; try done. lia. }
  destruct (brelse_ok p pid pins [b] [] [] b bb e1 (s1 <| klog := l2 |>)) as (s3 & R3 & Hse3 & Her3 & Hdk3 & Hdw3 & _ & Hv3).
  { apply (session_klog _ _ _ (fun _ => l2)), G. } { apply G. } { apply G. } { left. } { set_solver. } { set_solver. }
  exists e1, s3. split; [|split; [done|split; [done|split; [|split]]]].
  - unfold read_head. rewrite step_gets, Hls, Hld, (u32_small start), (bind_run _ _ _ _ _ _ _ R1) by lia.
    unfold bdata at 1. rewrite bind_assoc, (bind_run _ _ _ _ _ _ _ (buf_at_run _ _ _ _ (gr_buf _ _ _ _ _ _ _ _ _ _ G))).
    rewrite step_ret, Hda. unfold log_upd. rewrite step_modify. rewrite (bind_run _ _ _ _ _ _ _ R2). exact R3.
  - apply wrote_same; [rewrite Hdk3|rewrite Hdw3]; apply G.
  - intros bn. rewrite <- (gr_content _ _ _ _ _ _ _ _ _ _ G), Hdk3.
    change (disk (s1 <| klog := l2 |>)) with (disk s1) in *. change (bcache (s1 <| klog := l2 |>)) with (bcache s1) in Hv3.
    eapply content_view; [apply G| |exact Hv3]. rewrite <- Hdk3. apply Hse3.
  - split.
    + rewrite (erase_klog _ _ Her3). cbn. destruct Hl2 as [H1 H2 H3 H4 H5]. split; [congruence|congruence| |].
      * rewrite length_head_blocks. lia.
      * intros i bn (-> & Hi)%head_blocks_lookup. by apply H5.
    + exists l2. rewrite Her3. change (erase_io (s1 <| klog := l2 |>)) with (erase_io s1 <| klog := l2 |>).
      by rewrite (gr_erase _ _ _ _ _ _ _ _ _ _ G).
Qed.

Definition recovery_writes (start : Z) (h : list Z) (datas : list (list Z)) : list (Z * list Z) :=
  zip (head_blocks h) datas ++ [(start, head_bytes [] h)].

Lemma recover_ok start size h datas pins k e s :
  log_area start size (disk s) -> homes start size (head_blocks h) (disk s) -> 0 <= head_count h ->
  length datas = length (head_blocks h) -> disk s !! start = Some h ->
  (forall i d, datas !! i = Some d -> disk s !! log_slot start i = Some d) ->
  (forall bn, content (bcache s) (disk s) bn = disk s !! bn) ->
  session p pid pins [] [] s -> room pins [] -> (forall b, room pins [b]) ->
  log_start (klog s) = start -> log_dev (klog s) = ROOTDEV -> length (lh_block (klog s)) = 30%nat ->
  serves (S (3 * length (head_blocks h) + (2 + k))) e ->
  exists e' s', recover_from_log e s = Ret tt e' s' /\ serves k e' /\ wrote (recovery_writes start h datas) s s' /\
    session p pid pins [] [] s' /\ only_klog s s'.
Proof.
  intros Ha Hh Hc0 Hl Hdh Hdl Hco Hse Hroom Hroom2 Hls Hld Hll Hserv.
  assert (Hst : 0 <= start < 2 ^ 31) by (destruct Ha as [[? ?] _], (ho_fit _ _ _ _ Hh); lia).
  assert (Hc30 : 0 <= head_count h <= 30).
  { destruct (ho_fit _ _ _ _ Hh) as [H30 _]. rewrite length_head_blocks in H30. lia. }
  destruct (read_head_ok start h pins (3 * length (head_blocks h) + (2 + k)) e s)
    as (e1 & s1 & R1 & He1 & Hse1 & [Hw1 Hd1] & Hco1 & Hlg1 & Hok1); try done; [by rewrite Hco|].
  cbn in Hd1. assert (Hco1' : forall bn, content (bcache s1) (disk s1) bn = disk s1 !! bn)
    by (intros bn; rewrite Hco1, Hco, Hd1; done).
  destruct (install_trans_ok start size (head_blocks h) datas s1) with (recovering := true) (pins := pins) (k := S (S k)) (e := e1)
    as (e2 & s2 & pins' & R2 & He2 & A2 & _ & Hpe); rewrite ?Hd1; try done.
  { intros i d Hi. rewrite <- Hd1, Hco1', Hd1. by apply Hdl. }
  rewrite Hpe in A2 by done. clear pins' Hpe.
  destruct (write_head_ok start [] h pins (emptied s2)) with (k := k) (e := e2) as (e3 & s3 & R3 & He3 & St3 & _); try done.
  { apply (emptied_logs start (head_blocks h)). by rewrite (after_klog _ _ _ _ A2). }
  { cbn. lia. } { apply session_klog, A2. }
  { change (disk (emptied s2)) with (disk s2). eapply after_some; [exact A2|]. rewrite Hd1, Hdh. eauto. }
  { change (content (bcache s2) (disk s2) start = Some h). rewrite (af_content _ _ _ _ A2), overlay_other.
    - by rewrite Hco1', Hd1.
    - intros ([x y] & E & Hin)%list_elem_of_fmap. cbn in E. subst x. apply elem_of_zip_l in Hin.
      destruct (ho_block _ _ _ _ Hh _ Hin) as (_ & Hn & _), (ho_fit _ _ _ _ Hh). lia. }
  exists e3, s3. split; [|split; [done|split; [|split; [apply St3|]]]].
  - unfold recover_from_log. rewrite (bind_run _ _ _ _ _ _ _ R1), (bind_run _ _ _ _ _ _ _ R2).
    unfold log_upd. rewrite step_modify. exact R3.
  - unfold recovery_writes. change (zip (head_blocks h) datas ++ ?x) with ([] ++ zip (head_blocks h) datas ++ x).
    eapply wrote_trans; [split; [exact Hw1|exact Hd1]|]. eapply wrote_trans; [apply A2|].
    exact (st_wrote _ _ _ _ _ St3).
  - eapply only_klog_trans; [exact Hok1|]. eapply only_klog_trans; [apply only_klog_erase, (af_erase _ _ _ _ A2)|].
    exists (klog (emptied s2)). rewrite (st_erase _ _ _ _ _ St3). reflexivity.
Qed.

(** A machine at boot, before initlog(): no buffer is pinned. *)
Record booted (s : kernel) : Prop := {
  bt_session : session p pid (fun _ => 0) [] [] s;
  bt_len : length (lh_block (klog s)) = 30%nat;
}.

(** With no buffer pinned the cache agrees with the disk. *)
Lemma content_clean s bn :
  session p pid (fun _ => 0) [] [] s -> content (bcache s) (disk s) bn = disk s !! bn.
Proof.
  intros [_ _ Hc]. destruct (content_cases (bcache s) bn) as [(b & bb & Hb & Hbb & Ht)|Hno]; [|by apply content_uncached].
  rewrite (content_cached _ _ _ _ _ _ _ _ _ Hc Hb Hbb Ht). apply caches_true in Ht as (Hv & _ & <-). symmetry.
  apply (bo_clean _ _ _ _ _ _ _ (ca_buf _ _ _ _ _ _ Hc b bb Hb Hbb)); [done|done|apply not_elem_of_nil].
Qed.

Definition init_log_lock (h : hart) : hart := h <| locks ::= <[LLog := mkspinlock false "log" None]> |>.

Lemma session_initlock pins held dirty s :
  session p pid pins held dirty s -> session p pid pins held dirty (s <| hw ::= init_log_lock |>).
Proof.
  intros [((Hok & Hq & Hpp) & H1 & H2 & H3) Hi Hc].
  assert (Hf : forall lk, lk <> LLog -> free lk (hw s) ->
    free lk (init_log_lock (hw s))).
  { intros lk Hne (nm & Hl). exists nm. cbn. by rewrite lookup_insert_ne. }
  split; [|done|done]. split; [split; [|split]|split; [|split]].
  - destruct Hok as (? & ? & Hlk). split; [done|]. split; [done|]. intros i Hi'. by apply Hf, Hlk.
  - destruct Hq as (? & ? & Hfr & ?). do 2 (split; [done|]). split; [by apply Hf|done].
  - done.
  - by apply Hf.
  - by apply Hf.
  - intros b Hb. by apply Hf, H3.
Qed.

Lemma room_booted held : (length held < NBUF)%nat -> room (fun _ => 0) held.
Proof.
  intros Hl. destruct (decide (Forall (fun b => b ∈ held) (seq 0 NBUF))) as [Hall|Hn].
  - exfalso. assert (seq 0 NBUF ⊆+ held) as Hsub.
    { apply NoDup_submseteq; [apply NoDup_seq|]. by apply Forall_forall. }
    apply submseteq_length in Hsub. rewrite length_seq in Hsub. lia.
  - apply not_Forall_Exists in Hn; [|apply _]. apply Exists_exists in Hn as (b & Hb%elem_of_seq & Hh).
    exists b. split; [lia|]. done.
Qed.

Lemma initlog_ok start size h datas sb k e s :
  booted s -> sb_logstart sb = start -> sb_nlog sb = size ->
  log_area start size (disk s) -> homes start size (head_blocks h) (disk s) -> 0 <= head_count h ->
  length datas = length (head_blocks h) -> disk s !! start = Some h ->
  (forall i d, datas !! i = Some d -> disk s !! log_slot start i = Some d) ->
  serves (S (3 * length (head_blocks h) + (2 + k))) e ->
  exists e' s', initlog ROOTDEV sb e s = Ret tt e' s' /\ serves k e' /\ wrote (recovery_writes start h datas) s s' /\
    session p pid (fun _ => 0) [] [] s' /\ only_klog (s <| hw ::= init_log_lock |>) s'.
Proof.
  intros [Hse Hll] Hst Hsz Ha Hh Hc0 Hl Hdh Hdl Hserv.
  unfold initlog. change (BSIZE <=? 4 + 4 * LOGSIZE) with false. cbv iota. unfold initlock, log_upd.
  rewrite !step_modify. set (s1 := _ <| klog ::= _ |>).
  assert (Hst' : 0 <= start < 2 ^ 31) by (destruct Ha as [[? ?] _], (ho_fit _ _ _ _ Hh); lia).
  destruct (recover_ok start size h datas (fun _ => 0) k e s1) as (e' & s' & R & He & Hw & Hs' & Hk); try done.
  - intros bn. exact (content_clean s bn Hse).
  - by apply session_klog, session_initlock.
  - apply room_booted. unfold NBUF. cbn. lia.
  - intros b. apply room_booted. unfold NBUF. cbn. lia.
  - cbn. rewrite Hst. apply s32_small. lia.
  - exists e', s'. split; [done|]. split; [done|]. split; [done|]. split; [done|].
    eapply only_klog_trans; [|exact Hk]. by exists (klog s1).
Qed.

End Transactions.
