(* ===== verification/Crash.v ===== *)
(** * Crash safety of the log

    A transaction is committed by the sequence of disk writes that commit()
    (log.c) makes: the data to the log, the header with the block numbers, the
    data to their home blocks, the header with the count 0.  A crash leaves the
    disk after some prefix of them, and recovery, initlog(), can crash in the
    same way.  However often that happens, the recovery that completes leaves
    every home block as it was before the transaction, or every one as the
    transaction wrote it. *)

From S2P Require Import Prelude State Machine Monad Spinlock Cstring Kalloc Vm Proc Sched Sleeplock Virtio Bio Bufcache Diskio Log Transact.

Section Disk.
Context (start size : Z).

Definition in_log (bn : Z) : Prop := start <= bn < start + size.

(** The disk agrees with [tgt] outside the log. *)
Definition agrees (tgt dk : gmap Z (list Z)) : Prop := forall bn, ~ in_log bn -> dk !! bn = tgt !! bn.

(** The blocks of the log with the data of a transaction. *)
Definition in_slots (datas : list (list Z)) (dk : gmap Z (list Z)) : Prop :=
  forall i d, datas !! i = Some d -> dk !! log_slot start i = Some d.

(** Recovery of the disk [dk], with the header [h] and the data [datas] in the
    log, leads to [tgt]: the log holds what the home blocks may lack. *)
Record leads_to (tgt dk : gmap Z (list Z)) (h : list Z) (datas : list (list Z)) : Prop := {
  le_head : dk !! start = Some h;
  le_count : 0 <= head_count h;
  le_length : length h = Z.to_nat BSIZE;
  le_homes : homes start size (head_blocks h) dk;
  le_datas : length datas = length (head_blocks h);
  le_slots : in_slots datas dk;
  le_new : forall i bn d, head_blocks h !! i = Some bn -> datas !! i = Some d -> tgt !! bn = Some d;
  le_old : forall bn, ~ in_log bn -> bn ∉ head_blocks h -> dk !! bn = tgt !! bn;
}.

Lemma empty_head h : length h = Z.to_nat BSIZE -> head_count (head_bytes [] h) = 0 /\ length (head_bytes [] h) = Z.to_nat BSIZE.
Proof.
  intros Hl. change (Z.to_nat BSIZE) with 1024%nat in *.
  rewrite head_count_bytes, length_head by (cbn [length]; lia). done.
Qed.

Lemma empty_blocks h : head_count h = 0 -> head_blocks h = [].
Proof. intros Hc. unfold head_blocks. by rewrite Hc. Qed.

Section Area.
Context (dk : gmap Z (list Z)) (Harea : log_area start size dk) (Hsize : 0 < size).

Lemma homes_nil : homes start size [] dk.
Proof using Hsize. split; [constructor|by intros bn ?%elem_of_nil|]. cbn. lia. Qed.

Lemma slot_in_log i : Z.of_nat i + 1 < size -> in_log (log_slot start i).
Proof using. unfold in_log, log_slot. lia. Qed.

Lemma start_in_log : in_log start.
Proof using Hsize. unfold in_log. lia. Qed.

(** Writing home blocks changes neither the header nor the log. *)
Lemma home_writes_log W bn blocks :
  homes start size blocks dk -> (forall x, x ∈ W.*1 -> x ∈ blocks) -> in_log bn -> replay W dk !! bn = dk !! bn.
Proof using.
  intros Hh HW Hin. apply replay_other. intros Hx%HW. by destruct (ho_block _ _ _ _ Hh _ Hx) as (_ & Hn & _).
Qed.

Lemma homes_replay W blocks : homes start size blocks dk -> homes start size blocks (replay W dk).
Proof using. apply homes_some. intros bn. apply replay_some. Qed.

End Area.

Lemma zip_take_fst {A B} (l : list A) (k : list B) j x : x ∈ (take j (zip l k)).*1 -> x ∈ l.
Proof.
  intros ([a b] & -> & Hin)%list_elem_of_fmap. apply elem_of_take in Hin as (i & Hi & _).
  apply list_elem_of_lookup_2, elem_of_zip_l in Hi. done.
Qed.

Lemma zip_fst_lookup {A B} (l : list A) (k : list B) : length k = length l -> (zip l k).*1 = l.
Proof. intros Hl. apply fst_zip. lia. Qed.

(** An empty header: the home blocks are those of [tgt]. *)
Lemma leads_empty tgt dk h :
  0 < size -> dk !! start = Some h -> head_count h = 0 -> length h = Z.to_nat BSIZE -> agrees tgt dk ->
  leads_to tgt dk h [].
Proof.
  intros Hs Hh Hc Hl Ha. split; rewrite ?(empty_blocks h Hc); try done; [lia|by apply homes_nil|].
  intros bn Hn _. by apply Ha.
Qed.

Section Recovery.
Context (tgt dk : gmap Z (list Z)) (h : list Z) (datas : list (list Z)).
Context (Hsize : 0 < size) (Hl : leads_to tgt dk h datas).

Notation W := (recovery_writes start h datas).

(** Installing some of the blocks again leads to the same disk. *)
Lemma leads_partial j : leads_to tgt (replay (take j (zip (head_blocks h) datas)) dk) h datas.
Proof using Hl Hsize.
  destruct Hl as [H1 H2 H3 H4 H5 H6 H7 H8].
  assert (Hkeep : forall bn, in_log bn -> replay (take j (zip (head_blocks h) datas)) dk !! bn = dk !! bn).
  { intros bn Hin. eapply home_writes_log; [exact H4| |done]. intros x. apply zip_take_fst. }
  split; try done.
  - rewrite Hkeep; [done|by apply start_in_log].
  - by apply homes_replay.
  - intros i d Hi. rewrite Hkeep; [by apply H6|]. apply slot_in_log.
    destruct (ho_fit _ _ _ _ H4). apply lookup_lt_Some in Hi. lia.
  - intros bn Hn Hb. rewrite replay_other; [by apply H8|]. by intros ?%zip_take_fst.
Qed.

(** Installing them all does it. *)
Lemma leads_installed : agrees tgt (replay (zip (head_blocks h) datas) dk).
Proof using Hl.
  destruct Hl as [H1 H2 H3 H4 H5 H6 H7 H8]. intros bn Hn.
  destruct (decide (bn ∈ head_blocks h)) as [Hin|Hnin].
  - apply list_elem_of_lookup in Hin as [i Hi]. destruct (lookup_lt_is_Some_2 datas i) as [d Hd].
    { rewrite H5. by eapply lookup_lt_Some. }
    rewrite (H7 i bn d) by done. apply replay_in.
    + rewrite fst_zip by lia. apply H4.
    + apply (list_elem_of_lookup_2 _ i). by rewrite lookup_zip_with, Hi, Hd.
  - rewrite replay_other; [by apply H8|]. rewrite fst_zip by lia. done.
Qed.

Lemma leads_finished : leads_to tgt (replay W dk) (head_bytes [] h) [] /\ agrees tgt (replay W dk).
Proof using Hl Hsize.
  unfold recovery_writes. rewrite replay_app. set (dk' := replay (zip _ _) dk).
  assert (Hag : agrees tgt (replay [(start, head_bytes [] h)] dk')).
  { intros bn Hn. cbn. unfold write_block. cbn. rewrite lookup_insert_ne by (intros <-; by apply Hn, start_in_log).
    by apply leads_installed. }
  destruct (empty_head h (le_length _ _ _ _ Hl)) as [Hc Hlen].
  split; [|done]. apply leads_empty; try done. apply lookup_insert_eq.
Qed.

(** A crash during recovery leaves a disk whose recovery leads to the same. *)
Lemma leads_crash j : exists h' datas', leads_to tgt (replay (take j W) dk) h' datas'.
Proof using Hl Hsize.
  destruct (decide (j <= length (zip (head_blocks h) datas))%nat) as [Hj|Hj].
  - exists h, datas. unfold recovery_writes. rewrite take_app_le by done. apply leads_partial.
  - exists (head_bytes [] h), []. rewrite take_ge; [apply leads_finished|].
    unfold recovery_writes. rewrite length_app. cbn [length]. lia.
Qed.

End Recovery.

(** *** Crashes of commit *)

Section CommitCrash.
Context (dk : gmap Z (list Z)) (blocks : list Z) (datas : list (list Z)) (h0 : list Z).
Context (Harea : log_area start size dk) (Hhomes : homes start size blocks dk) (Hlen : length datas = length blocks).
Context (Hh0 : dk !! start = Some h0) (Hl0 : length h0 = Z.to_nat BSIZE) (Hc0 : head_count h0 = 0).

Notation h1 := (head_bytes blocks h0).
Notation W1 := (log_writes start datas ++ [(start, h1)]).
Notation W := (commit_writes start blocks datas h0).

Lemma size_pos : 0 < size.
Proof using All. destruct (ho_fit _ _ _ _ Hhomes). lia. Qed.

Lemma head_room : (4 + 4 * length blocks <= length h0)%nat.
Proof using All. destruct (ho_fit _ _ _ _ Hhomes). rewrite Hl0. change (Z.to_nat BSIZE) with 1024%nat. lia. Qed.

Lemma head_blocks_bytes : head_blocks h1 = blocks.
Proof using All.
  pose proof head_room. destruct (ho_fit _ _ _ _ Hhomes).
  assert (Hc : head_count h1 = Z.of_nat (length blocks)) by (apply head_count_bytes; lia).
  apply list_eq_same_length with (n := length blocks); [done|rewrite length_head_blocks; lia|].
  intros i x y Hi (-> & _)%head_blocks_lookup Hy. apply head_block_bytes; [done|done|].
  by destruct (ho_block _ _ _ _ Hhomes y); [eapply list_elem_of_lookup_2|].
Qed.

Lemma log_writes_in_log x : x ∈ (log_writes start datas).*1 -> in_log x /\ x <> start.
Proof using All.
  intros (i & Hi & ->)%log_writes_elem. destruct (ho_fit _ _ _ _ Hhomes).
  split; [apply slot_in_log; lia|unfold log_slot; lia].
Qed.

(** Before the header is written nothing has happened. *)
Lemma crash_before j : leads_to dk (replay (take j (log_writes start datas)) dk) h0 [].
Proof using All.
  assert (Hin : forall x, x ∈ (take j (log_writes start datas)).*1 -> in_log x /\ x <> start).
  { intros x (w & -> & Hw)%list_elem_of_fmap. apply log_writes_in_log, list_elem_of_fmap_2.
    apply elem_of_take in Hw as (i & Hi & _). by eapply list_elem_of_lookup_2. }
  apply leads_empty; [apply size_pos| |done|done|].
  - rewrite replay_other; [done|]. by intros [_ ?]%Hin.
  - intros bn Hn. apply replay_other. by intros [? _]%Hin.
Qed.

Lemma commit_writes_split : W = W1 ++ recovery_writes start h1 datas.
Proof using All. unfold commit_writes, recovery_writes. by rewrite head_blocks_bytes. Qed.

Lemma replay_home bn : ~ in_log bn -> replay W1 dk !! bn = dk !! bn.
Proof using All.
  intros Hn. apply replay_other. rewrite fmap_app, elem_of_app. intros [[? _]%log_writes_in_log|Hx]; [done|].
  cbn in Hx. apply list_elem_of_singleton in Hx as ->. by apply Hn, start_in_log, size_pos.
Qed.

(** Once the header is written the transaction will happen. *)
Lemma commit_point_leads : leads_to (replay W dk) (replay W1 dk) h1 datas.
Proof using All.
  pose proof head_room. split; rewrite ?head_blocks_bytes; try done.
  - rewrite replay_app. apply lookup_insert_eq.
  - rewrite head_count_bytes; destruct (ho_fit _ _ _ _ Hhomes); lia.
  - by rewrite length_head.
  - by apply homes_replay.
  - intros i d Hi. rewrite replay_app. cbn. unfold write_block. cbn.
    rewrite lookup_insert_ne by (unfold log_slot; lia). apply replay_in; [apply log_writes_nodup|].
    apply elem_of_lookup_imap. eauto.
  - intros i bn d Hi Hd. assert (Hbin : bn ∈ blocks) by (by eapply list_elem_of_lookup_2).
    rewrite commit_writes_split, replay_app. unfold recovery_writes. rewrite head_blocks_bytes, replay_app. cbn.
    unfold write_block. cbn. rewrite lookup_insert_ne.
    + apply replay_in; [rewrite fst_zip by lia; apply Hhomes|].
      apply (list_elem_of_lookup_2 _ i). by rewrite lookup_zip_with, Hi, Hd.
    + intros <-. destruct (ho_block _ _ _ _ Hhomes _ Hbin) as (_ & Hn & _). by apply Hn, start_in_log, size_pos.
  - intros bn Hn Hb. rewrite commit_writes_split, (replay_app W1 (recovery_writes _ _ _)). symmetry. apply replay_other.
    unfold recovery_writes. rewrite fmap_app, head_blocks_bytes, fst_zip, elem_of_app by lia. intros [?|Hx]; [done|].
    cbn in Hx. apply list_elem_of_singleton in Hx as ->. by apply Hn, start_in_log, size_pos.
Qed.

Lemma commit_crash k :
  exists h d, leads_to (if (length blocks <? k)%nat then replay W dk else dk) (replay (take k W) dk) h d.
Proof using All.
  assert (Hll : length (log_writes start datas) = length blocks) by (unfold log_writes; by rewrite length_imap).
  destruct (Nat.ltb_spec (length blocks) k) as [Hk|Hk].
  - assert (E : take k W = W1 ++ take (k - length W1) (recovery_writes start h1 datas)).
    { rewrite commit_writes_split. apply take_app_ge. rewrite length_app. cbn [length]. lia. }
    rewrite E, (replay_app W1). apply (leads_crash _ _ _ _ size_pos commit_point_leads).
  - exists h0, []. unfold commit_writes. rewrite <- app_assoc, take_app_le by lia. apply crash_before.
Qed.

End CommitCrash.
End Disk.

(** ** Crashes of the kernel *)

Section Kernel.
Context `{HD : Disk, HO : !DiskOk} (p : nat) (pid : Z) (sb : superblock).

Notation start := (sb_logstart sb).
Notation size := (sb_nlog sb).

(** A recovery from the disk [dk] that a crash stops after some of its writes
    leaves [dk']. *)
Definition crashed_recovery (dk dk' : gmap Z (list Z)) : Prop :=
  exists e s e' s' W j, booted p pid s /\ disk s = dk /\ serves 93 e /\
    initlog ROOTDEV sb e s = Ret tt e' s' /\ dwrites s' = dwrites s ++ W /\ dk' = replay (take j W) dk.

Lemma serves_le n m e : (n <= m)%nat -> serves m e -> serves n e.
Proof. intros Hle. induction Hle; [done|]. intros Hs. by apply IHHle, serves_less. Qed.

(** A disk whose log leads to [tgt]. *)
Definition restores (tgt dk : gmap Z (list Z)) : Prop :=
  log_area start size dk /\ exists h datas, leads_to start size tgt dk h datas.

Lemma leads_size tgt dk h datas : leads_to start size tgt dk h datas -> 0 < size.
Proof. intros [_ _ _ Hh _ _ _ _]. destruct (ho_fit _ _ _ _ Hh). lia. Qed.

Lemma replay_area W dk : log_area start size dk -> log_area start size (replay W dk).
Proof. apply log_area_some. intros bn. apply replay_some. Qed.

Lemma restores_run tgt e s :
  booted p pid s -> restores tgt (disk s) -> serves 93 e ->
  exists e' s' h datas, leads_to start size tgt (disk s) h datas /\
    initlog ROOTDEV sb e s = Ret tt e' s' /\ wrote (recovery_writes start h datas) s s'.
Proof.
  intros Hb (Ha & h & datas & Hl) Hserv. pose proof Hl as [H1 H2 H3 H4 H5 H6 H7 H8].
  destruct (initlog_ok p pid start size h datas sb 0 e s) as (e' & s' & R & _ & Hw & _); try done.
  - eapply serves_le, Hserv. destruct (ho_fit _ _ _ _ H4). lia.
  - by exists e', s', h, datas.
Qed.

Lemma restores_crash tgt dk dk' : restores tgt dk -> crashed_recovery dk dk' -> restores tgt dk'.
Proof.
  intros Hr (e & s & e' & s' & W & j & Hb & <- & Hserv & R & Hw & ->).
  destruct (restores_run tgt e s Hb Hr Hserv) as (e1 & s1 & h & datas & Hl & R1 & [Hw1 _]).
  rewrite R in R1. injection R1 as <- <-. rewrite Hw in Hw1. apply app_inv_head in Hw1 as ->.
  split; [apply replay_area, Hr|]. eapply leads_crash; [by eapply leads_size|done].
Qed.

Lemma restores_done tgt e s :
  booted p pid s -> restores tgt (disk s) -> serves 93 e ->
  exists e' s', initlog ROOTDEV sb e s = Ret tt e' s' /\ agrees start size tgt (disk s').
Proof.
  intros Hb Hr Hserv. destruct (restores_run tgt e s Hb Hr Hserv) as (e' & s' & h & datas & Hl & R & [_ Hd]).
  exists e', s'. split; [done|]. rewrite Hd. eapply leads_finished; [by eapply leads_size|done].
Qed.

Lemma restores_crashes tgt dk dk' : rtc crashed_recovery dk dk' -> restores tgt dk -> restores tgt dk'.
Proof. induction 1; [done|]. intros Hr. by eapply IHrtc, restores_crash. Qed.

Section Committed.
Context (blocks : list Z) (datas : list (list Z)) (h0 : list Z) (pins : nat -> Z) (s : kernel).
Context (Ht : transaction p pid start size blocks datas h0 pins s).
Context (Hh0 : disk s !! start = Some h0) (Hc0 : head_count h0 = 0).

Lemma head_length : length h0 = Z.to_nat BSIZE.
Proof using Ht Hh0. destruct (se_cache _ _ _ _ _ _ (tr_session _ _ _ _ _ _ _ _ _ Ht)). eauto. Qed.

Lemma commit_restores k :
  restores (if (length blocks <? k)%nat then replay (commit_writes start blocks datas h0) (disk s) else disk s)
    (replay (take k (commit_writes start blocks datas h0)) (disk s)).
Proof using Ht Hh0 Hc0.
  pose proof head_length as Hl0. destruct Ht as [Ha Hh Hl _ _ _ _ _ _].
  split; [by apply replay_area|]. by apply commit_crash.
Qed.

Lemma commit_homes :
  (forall i bn d, blocks !! i = Some bn -> datas !! i = Some d ->
     replay (commit_writes start blocks datas h0) (disk s) !! bn = Some d) /\
  forall bn, ~ in_log start size bn -> bn ∉ blocks ->
     replay (commit_writes start blocks datas h0) (disk s) !! bn = disk s !! bn.
Proof using Ht Hh0 Hc0.
  pose proof head_length as Hl0. destruct Ht as [Ha Hh Hl _ _ _ _ _ _].
  destruct (commit_point_leads start size (disk s) blocks datas h0) as [_ _ _ _ _ _ Hnew Hold]; try done.
  rewrite (head_blocks_bytes start size (disk s) blocks datas h0) in Hnew, Hold by done. split; [exact Hnew|].
  intros bn Hn Hb. rewrite <- Hold by done. by apply (replay_home start size).
Qed.

End Committed.

(** C2: a transaction is atomic across crashes.  commit() returns, and leaves
    the home block of each logged buffer with the buffer's data and every other
    block outside the log as it was.  When the machine stops after any number
    [k] of commit's disk writes, and after that any number of recoveries are
    themselves stopped after any of their writes, the first initlog() that is
    not stopped returns and leaves every block outside the log as before the
    transaction, or, when the header has been written, as commit leaves it. *)
Theorem commit_crash_safe blocks datas h0 pins e s :
  transaction p pid start size blocks datas h0 pins s -> blocks <> [] ->
  disk s !! start = Some h0 -> head_count h0 = 0 -> serves 184 e ->
  exists e' s' W, commit e s = Ret tt e' s' /\ dwrites s' = dwrites s ++ W /\
    (forall i bn d, blocks !! i = Some bn -> datas !! i = Some d -> disk s' !! bn = Some d) /\
    (forall bn, ~ in_log start size bn -> bn ∉ blocks -> disk s' !! bn = disk s !! bn) /\
    forall k dk, rtc crashed_recovery (replay (take k W) (disk s)) dk ->
    forall e1 s1, booted p pid s1 -> disk s1 = dk -> serves 93 e1 ->
      exists e2 s2, initlog ROOTDEV sb e1 s1 = Ret tt e2 s2 /\
        agrees start size (if (length blocks <? k)%nat then disk s' else disk s) (disk s2).
Proof.
  intros Ht Hne Hh0 Hc0 Hserv.
  destruct (commit_ok p pid start size blocks datas h0 pins s Ht 0 e) as (e' & s' & pins' & R & _ & _ & [Hw Hd] & _); [done| |].
  { eapply serves_le, Hserv. destruct (ho_fit _ _ _ _ (tr_homes _ _ _ _ _ _ _ _ _ Ht)). lia. }
  destruct (commit_homes blocks datas h0 pins s Ht Hh0 Hc0) as [Hnew Hold].
  exists e', s', (commit_writes start blocks datas h0). split; [done|]. split; [done|]. rewrite Hd.
  split; [exact Hnew|]. split; [exact Hold|]. intros k dk Hcr e1 s1 Hb <- Hs1.
  apply (restores_done _ e1 s1); try done. eapply restores_crashes, commit_restores; done.
Qed.

End Kernel.

(** ** A machine with a transaction *)

#[local] Existing Instance platform0.

Definition zeros : list Z := replicate (Z.to_nat BSIZE) 0.
Definition letters : list Z := replicate (Z.to_nat BSIZE) 65.

(** The log in the blocks 2 to 31, and block 45. *)
Definition log_disk : gmap Z (list Z) := list_to_map ((fun bn => (bn, zeros)) <$> 45 :: seqZ 2 30).

Definition logged_buf : buf :=
  buf0 3 <| b_valid := true |> <| b_dev := ROOTDEV |> <| b_blockno := 45 |> <| b_refcnt := 1 |> <| b_data := letters |>.

(** Buffer 3 holds new data for block 45 and is pinned by the log. *)
Definition commit_machine : kernel :=
  machine [running 1] <| bcache ::= <[3%nat := logged_buf]> |> <| disk := log_disk |>
    <| klog := mklog 2 30 0 true 1 1 (45 :: replicate 29 0) |>.

Definition rebooted (dk : gmap Z (list Z)) : kernel := machine [running 1] <| disk := dk |>.

Lemma log_disk_lookup bn d : log_disk !! bn = Some d -> d = zeros.
Proof. intros (x & [= <- <-] & _)%elem_of_list_to_map_2%list_elem_of_fmap. done. Qed.

Lemma log_disk_some bn : bn = 45 \/ 2 <= bn < 32 -> log_disk !! bn = Some zeros.
Proof.
  intros Hbn. apply elem_of_list_to_map.
  - rewrite <- list_fmap_compose, list_fmap_id. apply NoDup_cons. split; [rewrite elem_of_seqZ; lia|apply NoDup_seqZ].
  - apply list_elem_of_fmap. exists bn. split; [done|]. rewrite elem_of_cons, elem_of_seqZ. lia.
Qed.

Definition pin3 (b : nat) : Z := if decide (b = 3%nat) then 1 else 0.

Lemma fresh_lookup b bb : bcache (machine [running 1]) !! b = Some bb -> bb = buf0 b.
Proof.
  change (bcache (machine [running 1])) with (buf0 <$> seq 0 (S NBUF)). rewrite list_lookup_fmap.
  by intros (x & [-> Hx]%lookup_seq & ->)%fmap_Some.
Qed.

Lemma fresh_ok pins dk b : pins b = 0 -> buf_ok 1 pins [] [] dk b (buf0 b).
Proof.
  intros Hz. split; cbn [b_disk b_refcnt b_lock b_dev b_valid b_blockno buf0]; rewrite ?Hz; try (done || lia).
  by intros ?%elem_of_nil.
Qed.

(** A machine whose cache is empty. *)
Lemma fresh_session pp s :
  hw s = hart0 -> procs s = procs (machine [pp]) -> p_state pp = RUNNING -> p_pid pp = 1 ->
  bcache s = bcache (machine [running 1]) -> vdisk s = virtq0 ->
  (forall bn d, disk s !! bn = Some d -> length d = Z.to_nat BSIZE) -> session 0 1 (fun _ => 0) [] [] s.
Proof.
  intros Hh Hp Hst Hpid Hbc Hvd Hd. split; [rewrite <- Hpid; by apply machine_ready_at|rewrite Hvd; apply virtq0_idle|].
  rewrite Hbc. split; [done| | | |done|by intros b ?%elem_of_nil].
  - exists (rev (seq 0 NBUF)). split; [by rewrite <- Permutation_rev|]. vm_compute. repeat split.
  - intros b bb _ ->%fresh_lookup. by apply fresh_ok.
  - intros b b' bb bb' _ _ ->%fresh_lookup. done.
Qed.

Lemma rebooted_ok dk :
  (forall bn d, dk !! bn = Some d -> length d = Z.to_nat BSIZE) -> booted 0 1 (rebooted dk).
Proof. intros Hd. split; [by apply (fresh_session (running 1))|done]. Qed.

Lemma rebooted_booted : booted 0 1 (rebooted log_disk).
Proof. apply rebooted_ok. intros bn d ->%log_disk_lookup. apply length_replicate. Qed.

Lemma logged_lookup b bb :
  bcache commit_machine !! b = Some bb -> b = 3%nat /\ bb = logged_buf \/ b <> 3%nat /\ bb = buf0 b.
Proof.
  change (bcache commit_machine) with (<[3%nat := logged_buf]> (bcache (machine [running 1]))).
  rewrite list_lookup_insert. case_decide as E; [destruct E as [<- _]; intros [= <-]; auto|].
  intros Hb. right. split; [|by apply fresh_lookup]. intros ->. apply E. split; [done|]. by eapply lookup_lt_Some.
Qed.

Lemma commit_cache : cache 1 pin3 [] [] (bcache commit_machine) log_disk.
Proof.
  split; [done| | | | |by intros b ?%elem_of_nil].
  - exists (rev (seq 0 NBUF)). split; [by rewrite <- Permutation_rev|]. vm_compute. repeat split.
  - intros b bb _ [[-> ->]|[Hne ->]]%logged_lookup.
    + split; try done. by intros ?%elem_of_nil.
    + apply fresh_ok. unfold pin3. by rewrite decide_False.
  - intros b b' bb bb' _ _ [[-> ->]|[_ ->]]%logged_lookup [[-> ->]|[_ ->]]%logged_lookup; done.
  - intros bn d ->%log_disk_lookup. apply length_replicate.
Qed.

Lemma commit_content bn : bn <> 45 -> content (bcache commit_machine) log_disk bn = log_disk !! bn.
Proof.
  intros Hn. apply content_uncached. intros b bb _ [[-> ->]|[_ ->]]%logged_lookup; [|done].
  unfold caches. cbn. apply andb_false_intro2, Z.eqb_neq. done.
Qed.

Lemma commit_transaction : transaction 0 1 2 30 [45] [letters] zeros pin3 commit_machine.
Proof.
  split.
  - split; [lia|]. intros bn Hbn. change (disk commit_machine) with log_disk. rewrite log_disk_some by lia. eauto.
  - split; [apply NoDup_singleton| |cbn; lia]. intros bn ->%list_elem_of_singleton. split; [lia|]. split; [lia|].
    change (disk commit_machine) with log_disk. rewrite log_disk_some by lia. eauto.
  - done.
  - intros [|i] bn d [= <-] [= <-]. by apply (content_cached _ _ _ _ _ _ 45 3%nat logged_buf commit_cache); [unfold NBUF; lia|..].
  - split; try done. by intros [|i] bn [= <-].
  - split; [by apply machine_ready|apply virtq0_idle|exact commit_cache].
  - exists 0%nat. split; [unfold NBUF; lia|]. split; [done|]. apply not_elem_of_nil.
  - intros bn ->%list_elem_of_singleton. exists 3%nat. split; [|done]. split; [unfold NBUF; lia|]. by exists logged_buf.
  - change (disk commit_machine) with log_disk. rewrite commit_content by lia. apply log_disk_some. lia.
Qed.

Lemma commit_crash_safe_witness :
  let e := replicate 184 (@answer platform0 device0) in
  exists e' s', commit e commit_machine = Ret tt e' s' /\ disk s' !! 45 = Some letters /\
    exists e2 s2, initlog ROOTDEV sb0 e (rebooted log_disk) = Ret tt e2 s2 /\ disk s2 !! 45 = Some zeros.
Proof.
  intros e.
  destruct (commit_crash_safe 0 1 sb0 [45] [letters] zeros pin3 e commit_machine commit_transaction)
    as (e' & s' & W & R & _ & Hnew & _ & Hcr).
  - done.
  - apply log_disk_some. cbn. lia.
  - reflexivity.
  - exists []. by rewrite app_nil_r.
  - exists e', s'. split; [exact R|]. split; [by apply (Hnew 0%nat)|].
    destruct (Hcr 0%nat log_disk ltac:(constructor) e (rebooted log_disk)) as (e2 & s2 & R2 & Ha).
    + apply rebooted_booted.
    + done.
    + exists (replicate 91 answer). by rewrite <- replicate_add.
    + exists e2, s2. split; [exact R2|]. rewrite Ha by (cbn; unfold in_log; lia). apply log_disk_some. lia.
Defined.
