(* ===== verification/Fs.v ===== *)
(** * The file system: fs.c

    Blocks, inodes, directories and path names.  A [struct inode*] is an index
    into [itable]; the on-disk inode is 64 bytes of its block's data, a
    directory entry 16 bytes.  [readi] also returns the bytes it delivered,
    for callers that read into a local variable. *)

From S2P Require Import Prelude State Monad Spinlock Cstring Kalloc Vm Proc Sleeplock Virtio Bio Log.

(** ** fs.h *)

Definition IPB : Z := BSIZE / 64.
Definition BPB : Z := BSIZE * 8.

Definition IBLOCK (i : Z) (sb : superblock) : Z := i / IPB +32 sb_inodestart sb.

Definition BBLOCK (b : Z) (sb : superblock) : Z := b / BPB +32 sb_bmapstart sb.

Record dinode := mkdinode {
  di_type : Z;
  di_major : Z;
  di_minor : Z;
  di_nlink : Z;
  di_size : Z;
  di_addrs : list Z
}.

Definition DINODE : nat := 64.

(** [(struct dinode* )data + k] *)
Definition dinode_get (data : list Z) (k : nat) : dinode :=
  let o := (DINODE * k)%nat in
  mkdinode (s16 (get16 data o)) (s16 (get16 data (o + 2))) (s16 (get16 data (o + 4)))
    (s16 (get16 data (o + 6))) (get32 data (o + 8))
    (map (fun i => get32 data (o + 12 + 4 * i)) (seq 0 (S NDIRECT))).

Definition dinode_bytes (d : dinode) : list Z :=
  le_bytes 2 (di_type d) ++ le_bytes 2 (di_major d) ++ le_bytes 2 (di_minor d) ++
  le_bytes 2 (di_nlink d) ++ le_bytes 4 (di_size d) ++ concat (map (le_bytes 4) (di_addrs d)).

Definition dinode_put (k : nat) (d : dinode) (data : list Z) : list Z :=
  splice (DINODE * k) (dinode_bytes d) data.

Definition inode_at (i : nat) : M inode :=
  o <- gets (fun s => itable s !! i); deref "inode" o.

Definition inode_upd (i : nat) (f : inode -> inode) : M unit :=
  modify (fun s => s <| itable ::= alter f i |>).

Definition sb_of (data : list Z) : superblock :=
  mksuperblock (get32 data 0) (get32 data 4) (get32 data 8) (get32 data 12) (get32 data 16)
    (get32 data 20) (get32 data 24) (get32 data 28).

Section Fs.
Context `{Disk}.

Definition readsb (dev : Z) : M unit :=
  bp <- bread dev 1;
  data <- bdata bp;
  modify (fun s => s <| sb := sb_of data |>) ;;
  brelse bp.

Definition fsinit (dev : Z) : M unit :=
  readsb dev ;;
  sbk <- gets sb;
  if negb (sb_magic sbk =? FSMAGIC) then panic "invalid file system" else
  initlog dev sbk.

Definition bzero (dev bno : Z) : M unit :=
  bp <- bread dev bno;
  bdata_upd bp (fun _ => replicate (Z.to_nat BSIZE) 0) ;;
  log_write bp ;;
  brelse bp.

(** ** Blocks *)

(** The byte [data[i]] of the buffer. *)
Definition byte_at (bp : nat) (i : Z) : M Z :=
  data <- bdata bp; deref "bp->data" (data !! Z.to_nat i).

(** The inner loop of balloc(): the first free bit of the bitmap block that
    covers blocks [b], [b+1], ... *)
Definition balloc_scan (bp : nat) (b size : Z) : M (option Z) :=
  loop (fun bi =>
    if (bi <? BPB) && (b + bi <? size) then
      let m := Z.shiftl 1 (bi mod 8) in
      x <- byte_at bp (bi / 8);
      if Z.land x m =? 0 then
        bdata_upd bp <[Z.to_nat (bi / 8) := u8 (Z.lor x m)]> ;;
        ret (inr (Some bi))
      else ret (inl (bi + 1))
    else ret (inr None)) 0.

Definition balloc (dev : Z) : M Z :=
  sbk <- gets sb;
  loop (fun b =>
    if b <? sb_size sbk then
      bp <- bread dev (BBLOCK b sbk);
      found <- balloc_scan bp b (sb_size sbk);
      match found with
      | Some bi =>
          log_write bp ;;
          brelse bp ;;
          bzero dev (b + bi) ;;
          ret (inr (b + bi))
      | None =>
          brelse bp ;;
          ret (inl (b + BPB))
      end
    else panic "balloc: out of blocks") 0.

Definition bfree (dev b : Z) : M unit :=
  sbk <- gets sb;
  bp <- bread dev (BBLOCK b sbk);
  let bi := b mod BPB in
  let m := Z.shiftl 1 (bi mod 8) in
  x <- byte_at bp (bi / 8);
  if Z.land x m =? 0 then panic "freeing free block" else
  bdata_upd bp <[Z.to_nat (bi / 8) := Z.land x (Z.lnot m)]> ;;
  log_write bp ;;
  brelse bp.

(** ** Inodes *)

Definition iinit : M unit :=
  initlock LItable "itable" ;;
  for_ (seq 0 NINODE) (fun i => initsleeplock (SInode i) "inode").

Definition iget (dev inum : Z) : M nat :=
  acquire LItable ;;
  ' (found, empty) <- for_fold (seq 0 NINODE) (fun '(found, empty) ip =>
    match found with
    | Some _ => ret (found, empty)
    | None =>
        n <- inode_at ip;
        if (0 <? i_ref n) && (i_dev n =? dev) && (i_inum n =? inum) then
          inode_upd ip (fun n => n <| i_ref ::= fun r => r + 1 |>) ;;
          ret (Some ip, empty)
        else
          ret (None, match empty with
                     | None => if i_ref n =? 0 then Some ip else None
                     | Some _ => empty
                     end)
    end) (None, None);
  match found, empty with
  | Some ip, _ => release LItable ;; ret ip
  | None, None => panic "iget: no inodes"
  | None, Some ip =>
      inode_upd ip (fun n => n <| i_dev := dev |> <| i_inum := inum |> <| i_ref := 1 |>
                               <| i_valid := false |>) ;;
      release LItable ;;
      ret ip
  end.

Definition ialloc (dev type : Z) : M nat :=
  sbk <- gets sb;
  loop (fun inum =>
    if inum <? sb_ninodes sbk then
      bp <- bread dev (IBLOCK inum sbk);
      data <- bdata bp;
      let k := Z.to_nat (inum mod IPB) in
      if di_type (dinode_get data k) =? 0 then
        bdata_upd bp (dinode_put k (mkdinode type 0 0 0 0 (replicate (S NDIRECT) 0))) ;;
        log_write bp ;;
        brelse bp ;;
        ip <- iget dev inum;
        ret (inr ip)
      else
        brelse bp ;; ret (inl (inum + 1))
    else panic "ialloc: no inodes") 1.

Definition iupdate (ip : nat) : M unit :=
  n <- inode_at ip;
  sbk <- gets sb;
  bp <- bread (i_dev n) (IBLOCK (i_inum n) sbk);
  bdata_upd bp (dinode_put (Z.to_nat (i_inum n mod IPB))
    (mkdinode (i_type n) (i_major n) (i_minor n) (i_nlink n) (i_size n) (i_addrs n))) ;;
  log_write bp ;;
  brelse bp.

Definition idup (ip : nat) : M nat :=
  acquire LItable ;;
  inode_upd ip (fun n => n <| i_ref ::= fun r => r + 1 |>) ;;
  release LItable ;;
  ret ip.

Definition ilock (ip : nat) : M unit :=
  n <- inode_at ip;
  if i_ref n <? 1 then panic "ilock" else
  acquiresleep (SInode ip) ;;
  n <- inode_at ip;
  when (negb (i_valid n))
    (sbk <- gets sb;
     bp <- bread (i_dev n) (IBLOCK (i_inum n) sbk);
     data <- bdata bp;
     let dip := dinode_get data (Z.to_nat (i_inum n mod IPB)) in
     inode_upd ip (fun n => n <| i_type := di_type dip |> <| i_major := di_major dip |>
                              <| i_minor := di_minor dip |> <| i_nlink := di_nlink dip |>
                              <| i_size := di_size dip |> <| i_addrs := di_addrs dip |>) ;;
     brelse bp ;;
     inode_upd ip (fun n => n <| i_valid := true |>) ;;
     when (di_type dip =? 0) (panic "ilock: no type")).

(** [ilock(ip)] on a pointer that may be null. *)
Definition ilock_ptr (ip : option nat) : M unit :=
  match ip with None => panic "ilock" | Some ip => ilock ip end.

Definition iunlock (ip : nat) : M unit :=
  h <- holdingsleep (SInode ip);
  n <- inode_at ip;
  if negb h || (i_ref n <? 1) then panic "iunlock" else
  releasesleep (SInode ip).

(** ** Inode content *)

(** [ip->addrs[i]] *)
Definition iaddr (ip : nat) (i : nat) : M Z :=
  n <- inode_at ip; deref "ip->addrs" (i_addrs n !! i).

Definition iaddr_set (ip : nat) (i : nat) (a : Z) : M unit :=
  inode_upd ip (fun n => n <| i_addrs ::= <[i := a]> |>).

Definition bmap (ip : nat) (bn : Z) : M Z :=
  n <- inode_at ip;
  if bn <? Z.of_nat NDIRECT then
    addr <- iaddr ip (Z.to_nat bn);
    if addr =? 0 then
      addr <- balloc (i_dev n);
      iaddr_set ip (Z.to_nat bn) addr ;;
      ret addr
    else ret addr
  else
  let bn := bn - Z.of_nat NDIRECT in
  if bn <? Z.of_nat NINDIRECT then
    addr <- iaddr ip NDIRECT;
    addr <- (if addr =? 0 then
               addr <- balloc (i_dev n);
               iaddr_set ip NDIRECT addr ;;
               ret addr
             else ret addr);
    bp <- bread (i_dev n) addr;
    a <- bdata bp;
    let o := Z.to_nat (4 * bn) in
    addr <- (if get32 a o =? 0 then
               addr <- balloc (i_dev n);
               bdata_upd bp (put32 o addr) ;;
               log_write bp ;;
               ret addr
             else ret (get32 a o));
    brelse bp ;;
    ret addr
  else panic "bmap: out of range".

Definition itrunc (ip : nat) : M unit :=
  n <- inode_at ip;
  let dev := i_dev n in
  for_ (seq 0 NDIRECT) (fun i =>
    a <- iaddr ip i;
    when (negb (a =? 0)) (bfree dev a ;; iaddr_set ip i 0)) ;;
  ind <- iaddr ip NDIRECT;
  when (negb (ind =? 0))
    (bp <- bread dev ind;
     for_ (seq 0 NINDIRECT) (fun j =>
       a <- bdata bp;
       when (negb (get32 a (4 * j) =? 0)) (bfree dev (get32 a (4 * j)))) ;;
     brelse bp ;;
     bfree dev ind ;;
     iaddr_set ip NDIRECT 0) ;;
  inode_upd ip (fun n => n <| i_size := 0 |>) ;;
  iupdate ip.

Definition iput (ip : nat) : M unit :=
  acquire LItable ;;
  n <- inode_at ip;
  when ((i_ref n =? 1) && i_valid n && (i_nlink n =? 0))
    (acquiresleep (SInode ip) ;;
     release LItable ;;
     itrunc ip ;;
     inode_upd ip (fun n => n <| i_type := 0 |>) ;;
     iupdate ip ;;
     inode_upd ip (fun n => n <| i_valid := false |>) ;;
     releasesleep (SInode ip) ;;
     acquire LItable) ;;
  inode_upd ip (fun n => n <| i_ref ::= fun r => r - 1 |>) ;;
  release LItable.

Definition iunlockput (ip : nat) : M unit := iunlock ip ;; iput ip.

(** The [struct stat] as the bytes copied to user space: dev, ino, type,
    nlink, size; the gap before size is padding. *)
Definition stati (n : inode) : list Z :=
  le_bytes 4 (i_dev n) ++ le_bytes 4 (i_inum n) ++ le_bytes 2 (i_type n) ++
  le_bytes 2 (i_nlink n) ++ replicate 4 0 ++ le_bytes 8 (i_size n).

Definition readi `{Platform} (ip : nat) (dst : dest) (off n : Z) : M (Z * list Z) :=
  nd <- inode_at ip;
  if (i_size nd <? off) || (off +32 n <? off) then ret (0, []) else
  let n := if i_size nd <? off +32 n then i_size nd -32 off else n in
  loop (fun '(tot, off, dst, got) =>
    if tot <? n then
      bn <- bmap ip (off / BSIZE);
      bp <- bread (i_dev nd) bn;
      let m := Z.min (n - tot) (BSIZE - off mod BSIZE) in
      data <- bdata bp;
      let bytes := sub_bytes data (Z.to_nat (off mod BSIZE)) (Z.to_nat m) in
      r <- either_copyout dst bytes;
      if r =? -1 then
        brelse bp ;; ret (inr (-1, got))
      else
        brelse bp ;;
        ret (inl (tot + m, off +32 m, dest_add dst m, got ++ bytes))
    else ret (inr (s32 tot, got))) (0, off, dst, []).

Definition writei `{Platform} (ip : nat) (src : source) (off n : Z) : M Z :=
  nd <- inode_at ip;
  if (i_size nd <? off) || (off +32 n <? off) then ret (-1) else
  if Z.of_nat MAXFILE * BSIZE <? off +32 n then ret (-1) else
  ' (tot, off) <- loop (fun '(tot, off, src) =>
    if tot <? n then
      bn <- bmap ip (off / BSIZE);
      bp <- bread (i_dev nd) bn;
      let m := Z.min (n - tot) (BSIZE - off mod BSIZE) in
      ' (r, bytes) <- either_copyin src m;
      bdata_upd bp (splice (Z.to_nat (off mod BSIZE)) bytes) ;;
      if r =? -1 then
        brelse bp ;; ret (inr (tot, off))
      else
        log_write bp ;;
        brelse bp ;;
        ret (inl (tot + m, off +32 m, source_add src m))
    else ret (inr (tot, off))) (0, off, src);
  nd <- inode_at ip;
  when (i_size nd <? off) (inode_upd ip (fun n => n <| i_size := off |>)) ;;
  iupdate ip ;;
  ret (s32 tot).

(** ** Directories *)

Definition DIRENT : Z := 16.

Definition de_inum (de : list Z) : Z := get16 de 0.

Definition de_name (de : list Z) : list Z := sub_bytes de 2 DIRSIZ.

Definition dirent_bytes (inum : Z) (name : list Z) : list Z :=
  le_bytes 2 inum ++ strncpy (replicate DIRSIZ 0) name DIRSIZ.

Definition namecmp (s t : list Z) : Z := strncmp s t DIRSIZ.

(** The inode and the offset of its entry. *)
Definition dirlookup `{Platform} (dp : nat) (name : list Z) : M (option (nat * Z)) :=
  nd <- inode_at dp;
  if negb (i_type nd =? T_DIR) then panic "dirlookup not DIR" else
  loop (fun off =>
    nd <- inode_at dp;
    if off <? i_size nd then
      ' (r, de) <- readi dp DLocal off DIRENT;
      if negb (r =? DIRENT) then panic "dirlookup read" else
      if de_inum de =? 0 then ret (inl (off +32 DIRENT)) else
      if namecmp name (de_name de) =? 0 then
        ip <- iget (i_dev nd) (de_inum de);
        ret (inr (Some (ip, off)))
      else ret (inl (off +32 DIRENT))
    else ret (inr None)) 0.

Definition dirlink `{Platform} (dp : nat) (name : list Z) (inum : Z) : M Z :=
  r <- dirlookup dp name;
  match r with
  | Some (ip, _) => iput ip ;; ret (-1)
  | None =>
      off <- loop (fun off =>
        nd <- inode_at dp;
        if off <? i_size nd then
          ' (r, de) <- readi dp DLocal off DIRENT;
          if negb (r =? DIRENT) then panic "dirlink read" else
          if de_inum de =? 0 then ret (inr off) else ret (inl (off + DIRENT))
        else ret (inr off)) 0;
      r <- writei dp (SLocal (dirent_bytes inum name)) off DIRENT;
      if negb (r =? DIRENT) then panic "dirlink" else ret 0
  end.

(** ** Paths *)

Definition slash : Z := 47.

Fixpoint skip_slashes (path : list Z) : list Z :=
  match path with
  | c :: rest => if c =? slash then skip_slashes rest else path
  | [] => []
  end.

(** The element at the start of the path and what follows it. *)
Fixpoint path_elem (path : list Z) : list Z * list Z :=
  match path with
  | c :: rest =>
      if (c =? slash) || (c =? 0) then ([], path)
      else let '(elem, rest) := path_elem rest in (c :: elem, rest)
  | [] => ([], [])
  end.

(** The rest of the path and the new contents of the buffer [name]. *)
Definition skipelem (path name : list Z) : option (list Z * list Z) :=
  let path := skip_slashes path in
  if hd 0 path =? 0 then None else
  let '(elem, rest) := path_elem path in
  let name :=
    if (DIRSIZ <=? length elem)%nat then splice 0 (take DIRSIZ elem) name
    else splice 0 (elem ++ [0]) name in
  Some (skip_slashes rest, name).

(** The inode and the buffer [name]; each element takes a character of the
    path. *)
Definition namex `{Platform} (path : list Z) (nameiparent : bool) (name : list Z)
    : M (option nat * list Z) :=
  ip <- (if hd 0 path =? slash then iget ROOTDEV ROOTINO
         else p <- curproc; pp <- proc_at p; cwd <- deref "cwd" (p_cwd pp); idup cwd);
  while (S (length path)) (fun '(ip, path, name) =>
    match skipelem path name with
    | None =>
        if nameiparent then iput ip ;; ret (inr (None, name))
        else ret (inr (Some ip, name))
    | Some (path, name) =>
        ilock ip ;;
        nd <- inode_at ip;
        if negb (i_type nd =? T_DIR) then
          iunlockput ip ;; ret (inr (None, name))
        else if nameiparent && (hd 0 path =? 0) then
          iunlock ip ;; ret (inr (Some ip, name))
        else
          next <- dirlookup ip name;
          match next with
          | None => iunlockput ip ;; ret (inr (None, name))
          | Some (next, _) =>
              iunlockput ip ;;
              ret (inl (next, path, name))
          end
    end) (ip, path, name).

Definition namei `{Platform} (path : list Z) : M (option nat) :=
  ' (ip, _) <- namex path false (replicate DIRSIZ 0); ret ip.

Definition nameiparent `{Platform} (path name : list Z) : M (option nat * list Z) :=
  namex path true name.

End Fs.

(** ** On-disk inodes *)

Definition short (x : Z) : Prop := - 2 ^ 15 <= x < 2 ^ 15.

Definition dinode_ok (d : dinode) : Prop :=
  short (di_type d) /\ short (di_major d) /\ short (di_minor d) /\ short (di_nlink d) /\
  0 <= di_size d < 2 ^ 32 /\ length (di_addrs d) = S NDIRECT /\
  Forall (fun a => 0 <= a < 2 ^ 32) (di_addrs d).

Lemma length_addr_bytes l : length (concat (map (le_bytes 4) l)) = (4 * length l)%nat.
Proof. induction l as [|a l IH]; [done|]. cbn [map concat length]. rewrite length_app, IH, length_le_bytes. lia. Qed.

Lemma length_dinode_bytes d : length (di_addrs d) = S NDIRECT -> length (dinode_bytes d) = DINODE.
Proof.
  intros Hl. unfold dinode_bytes. rewrite !length_app, !length_le_bytes, length_addr_bytes, Hl. done.
Qed.

Lemma s16_bytes x : short x -> s16 (le_value (le_bytes 2 x)) = x.
Proof. intros Hx. rewrite le_value_bytes. unfold short, s16, u16 in *. cbn in *. dlia. Qed.

Lemma le4_value x : 0 <= x < 2 ^ 32 -> le_value (le_bytes 4 x) = x.
Proof. intros. rewrite le_value_bytes. apply Z.mod_small. done. Qed.

Lemma addr_bytes_sub l i a :
  l !! i = Some a -> sub_bytes (concat (map (le_bytes 4) l)) (4 * i) 4 = le_bytes 4 a.
Proof.
  revert i. induction l as [|b l IH]; intros i Hi; [done|]. cbn [map concat].
  destruct i as [|i]; cbn in Hi.
  - injection Hi as ->. rewrite sub_bytes_app_l by (by rewrite length_le_bytes).
    apply sub_bytes_all, length_le_bytes.
  - rewrite sub_bytes_app_r by (rewrite length_le_bytes; lia). rewrite length_le_bytes.
    replace (4 * S i - 4)%nat with (4 * i)%nat by lia. by apply IH.
Qed.

(** The fields of [dinode_bytes d], by offset. *)
Lemma dinode_field d o n f :
  (exists a b, dinode_bytes d = a ++ f ++ b /\ length a = o) -> length f = n ->
  sub_bytes (dinode_bytes d) o n = f.
Proof.
  intros (a & b & -> & <-) <-. rewrite sub_bytes_app_r, Nat.sub_diag, sub_bytes_app_l by lia.
  by apply sub_bytes_all.
Qed.

Section Dinode.
Context (data : list Z) (k : nat) (d : dinode).
Context (Hok : dinode_ok d) (Hlen : (DINODE * k + DINODE <= length data)%nat).

Lemma dinode_put_field o n :
  (o + n <= DINODE)%nat ->
  sub_bytes (dinode_put k d data) (DINODE * k + o) n = sub_bytes (dinode_bytes d) o n.
Proof using Hok Hlen.
  intros Ho. assert (length (dinode_bytes d) = DINODE) as Hd by (apply length_dinode_bytes, Hok).
  unfold dinode_put. apply sub_bytes_splice; rewrite Hd; lia.
Qed.

(** The bytes before the block addresses. *)
Definition dinode_head : list Z :=
  le_bytes 2 (di_type d) ++ le_bytes 2 (di_major d) ++ le_bytes 2 (di_minor d) ++
  le_bytes 2 (di_nlink d) ++ le_bytes 4 (di_size d).

Lemma dinode_bytes_head :
  dinode_bytes d = dinode_head ++ concat (map (le_bytes 4) (di_addrs d)).
Proof. unfold dinode_bytes, dinode_head. by rewrite <- !app_assoc. Qed.

Lemma dinode_put_addrs :
  map (fun i => get32 (dinode_put k d data) (DINODE * k + 12 + 4 * i)) (seq 0 (S NDIRECT)) = di_addrs d.
Proof using Hok Hlen.
  destruct Hok as (_ & _ & _ & _ & _ & Hal & Ha). apply list_eq. intros i. rewrite <- Hal.
  change (map ?f ?l) with (f <$> l). rewrite list_lookup_fmap.
  destruct (di_addrs d !! i) as [a|] eqn:Hi.
  - assert (i < S NDIRECT)%nat by (rewrite <- Hal; by eapply lookup_lt_Some).
    rewrite lookup_seq_lt by lia. cbn [fmap option_fmap option_map Nat.add]. f_equal.
    unfold get32. rewrite <- Nat.add_assoc, dinode_put_field by (unfold DINODE, NDIRECT in *; lia).
    rewrite dinode_bytes_head, sub_bytes_app_r by (cbn; lia).
    replace (12 + 4 * i - length dinode_head)%nat with (4 * i)%nat by (change (length dinode_head) with 12%nat; lia).
    rewrite (addr_bytes_sub _ _ a) by done. apply le4_value. by apply (Forall_lookup_1 _ _ i a Ha).
  - apply lookup_ge_None in Hi. by rewrite lookup_seq_ge by lia.
Qed.

Lemma dinode_get_put : dinode_get (dinode_put k d data) k = d.
Proof using Hok Hlen.
  unfold dinode_get, get16, get32. rewrite <- (Nat.add_0_r (DINODE * k)) at 1.
  rewrite !dinode_put_field by (unfold DINODE; lia).
  destruct Hok as (Ht & Hma & Hmi & Hn & Hs & Hal & Ha).
  rewrite (dinode_field d 0 2 (le_bytes 2 (di_type d))) by (done || by eexists [], _).
  rewrite (dinode_field d 2 2 (le_bytes 2 (di_major d)))
    by (done || by exists (le_bytes 2 (di_type d)); eexists).
  rewrite (dinode_field d 4 2 (le_bytes 2 (di_minor d)))
    by (done || by exists (le_bytes 2 (di_type d) ++ le_bytes 2 (di_major d)); eexists).
  rewrite (dinode_field d 6 2 (le_bytes 2 (di_nlink d)))
    by (done || by exists (le_bytes 2 (di_type d) ++ le_bytes 2 (di_major d) ++ le_bytes 2 (di_minor d)); eexists).
  rewrite (dinode_field d 8 4 (le_bytes 4 (di_size d)))
    by (done || by exists (le_bytes 2 (di_type d) ++ le_bytes 2 (di_major d) ++ le_bytes 2 (di_minor d) ++
                             le_bytes 2 (di_nlink d)); eexists).
  rewrite !s16_bytes, le4_value by done. pose proof dinode_put_addrs as Haddrs.
  unfold get32 in Haddrs. rewrite Haddrs. by destruct d.
Qed.

Lemma dinode_get_put_ne j : j <> k -> dinode_get (dinode_put k d data) j = dinode_get data j.
Proof using Hok Hlen.
  intros Hne. assert (length (dinode_bytes d) = DINODE) as Hd by (apply length_dinode_bytes, Hok).
  assert (Hf : forall o n, (o + n <= DINODE)%nat ->
    sub_bytes (dinode_put k d data) (DINODE * j + o) n = sub_bytes data (DINODE * j + o) n).
  { intros o n Ho. unfold dinode_put. apply sub_bytes_splice_ne; rewrite Hd; [lia|]. unfold DINODE in *. nia. }
  unfold dinode_get, get16, get32. rewrite <- (Nat.add_0_r (DINODE * j)) at 1.
  rewrite !Hf by (unfold DINODE; lia). rewrite Nat.add_0_r. f_equal. apply map_ext_in. intros i Hi%in_seq.
  rewrite <- !Nat.add_assoc, Hf by (unfold DINODE, NDIRECT in *; lia). done.
Qed.

End Dinode.

(** ** Theorems *)

(** An inode written to its block is the one read back, and the other
    inodes of the block are unchanged. *)
Theorem dinode_round_trip data k d :
  dinode_ok d -> length data = Z.to_nat BSIZE -> (k < Z.to_nat IPB)%nat ->
  dinode_get (dinode_put k d data) k = d /\
  (forall j, j <> k -> dinode_get (dinode_put k d data) j = dinode_get data j) /\
  length (dinode_put k d data) = length data.
Proof.
  intros Hok Hl Hk. change (Z.to_nat IPB) with 16%nat in Hk. change (Z.to_nat BSIZE) with 1024%nat in Hl.
  assert (Hlen : (DINODE * k + DINODE <= length data)%nat) by (unfold DINODE; lia).
  split; [by apply dinode_get_put|]. split; [by apply dinode_get_put_ne|].
  apply length_splice. rewrite length_dinode_bytes by apply Hok. lia.
Qed.

(** ** Path elements *)

(** The characters of a path element. *)
Definition elem_char (c : Z) : Prop := c <> slash /\ c <> 0.

Lemma skip_slashes_spec path :
  exists n, path = replicate n slash ++ skip_slashes path /\ hd 0 (skip_slashes path) <> slash.
Proof.
  induction path as [|c path IH]; [by exists 0%nat|]. cbn [skip_slashes].
  destruct (Z.eqb_spec c slash) as [->|Hne].
  - destruct IH as (n & Hp & Hh). exists (S n). cbn [replicate app]. by rewrite <- Hp.
  - by exists 0%nat.
Qed.

Lemma path_elem_spec path :
  path = (path_elem path).1 ++ (path_elem path).2 /\ Forall elem_char (path_elem path).1 /\
  (hd 0 (path_elem path).2 = slash \/ hd 0 (path_elem path).2 = 0).
Proof.
  induction path as [|c path IH]; cbn [path_elem]; [cbn; auto|].
  destruct ((c =? slash) || (c =? 0)) eqn:E.
  - cbn. split; [done|]. split; [constructor|]. apply orb_true_iff in E as [E|E]; apply Z.eqb_eq in E; auto.
  - destruct_bool. destruct (path_elem path) as [elem rest]. cbn in *. destruct IH as (-> & Hf & Hh).
    split; [done|]. split; [|done]. constructor; [|done].
    by split.
Qed.

Lemma cstr_elem l r : Forall elem_char l -> cstr (l ++ 0 :: r) = l.
Proof.
  induction 1 as [|c l [_ Hc] _ IH]; [done|]. cbn. rewrite (proj2 (Z.eqb_neq c 0) Hc). by rewrite IH.
Qed.

Lemma cstr_no_nul l : Forall elem_char l -> cstr l = l.
Proof.
  induction 1 as [|c l [_ Hc] _ IH]; [done|]. cbn. rewrite (proj2 (Z.eqb_neq c 0) Hc). by rewrite IH.
Qed.

(** skipelem() on the 14-byte buffer [name] either finds nothing but
    slashes, or splits off the next path element: the path is slashes, the
    element, and a rest that begins with a slash or ends; the buffer then holds
    the element, cut at 14 characters, and what is returned is the rest without
    its leading slashes, shorter than the path. *)
Lemma skipelem_splits path name :
  length name = DIRSIZ ->
  match skipelem path name with
  | None => exists n rest, path = replicate n slash ++ rest /\ hd 0 rest = 0
  | Some (rest, name') =>
      exists n elem tail, path = replicate n slash ++ elem ++ tail /\
        elem <> [] /\ Forall elem_char elem /\ (hd 0 tail = slash \/ hd 0 tail = 0) /\
        cstr name' = take DIRSIZ elem /\ length name' = DIRSIZ /\
        rest = skip_slashes tail /\ (length rest < length path)%nat
  end.
Proof.
  intros Hname. destruct (skip_slashes_spec path) as (n & Hpath & Hns). unfold skipelem.
  set (p := skip_slashes path) in *. destruct (Z.eqb_spec (hd 0 p) 0) as [Hz|Hnz].
  { exists n, p. done. }
  destruct (path_elem_spec p) as (Hp & Hf & Hh). destruct (path_elem p) as [elem tail]. cbn in Hp, Hf, Hh.
  exists n, elem, tail. rewrite Hpath at 1. rewrite Hp. split; [done|].
  assert (elem <> []) as Hne by (intros ->; rewrite Hp in Hns, Hnz; cbn in *; destruct Hh; congruence).
  split; [done|]. split; [done|]. split; [done|].
  assert (Hlen : forall bs, (length bs <= DIRSIZ)%nat -> length (splice 0 bs name) = DIRSIZ)
    by (intros; rewrite length_splice; lia).
  assert (Hrest : (length (skip_slashes tail) < length path)%nat).
  { destruct (skip_slashes_spec tail) as (k & Ht & _). apply (f_equal length) in Ht.
    rewrite length_app in Ht. rewrite Hpath, Hp, !length_app. destruct elem; [done|cbn; lia]. }
  destruct (Nat.leb_spec DIRSIZ (length elem)) as [Hle|Hlt].
  - assert (Ht : length (take DIRSIZ elem) = DIRSIZ) by (by apply length_take_le).
    split; [|split; [apply Hlen; lia|done]]. unfold splice. rewrite take_0, drop_ge by lia.
    cbn [app]. rewrite app_nil_r. apply cstr_no_nul. by apply Forall_take.
  - split; [|split; [apply Hlen; rewrite length_app; cbn; lia|done]]. unfold splice. rewrite take_0. cbn [app].
    rewrite <- app_assoc. cbn [app]. rewrite cstr_elem by done. symmetry. apply take_ge. lia.
Qed.
