(* ===== verification/Console.v ===== *)
(** * Console, UART and kernel printf: uart.c, console.c, printf.c, procdump()

    Characters leave through the UART's transmit register, a write to [mmio];
    polling the line status register is bounded by [spin_fuel].  A format
    string is a list of bytes, and printf's variable arguments are a list of
    tagged values.  procdump() (proc.c), which consoleintr() calls, is here as
    well. *)

From S2P Require Import Prelude State Machine Monad Spinlock Cstring Kalloc Vm Proc Virtio.

(** ** UART registers *)

Definition RHR : Z := 0.
Definition THR : Z := 0.
Definition IER : Z := 1.
Definition FCR : Z := 2.
Definition LCR : Z := 3.
Definition LSR : Z := 5.
Definition LSR_TX_IDLE : Z := Z.shiftl 1 5.

(** [for(;;) ;] after another CPU panicked. *)
Definition frozen {A} : M A := spin LPr.

Definition uart_upd (f : uart -> uart) : M unit := modify (fun s => s <| uart_tx ::= f |>).

Section Uart.
Context `{Platform}.

(** A register holds an [unsigned char]. *)
Definition ReadReg (reg : Z) : M Z := x <- mmio_read (UART0 + reg); ret (u8 x).

Definition WriteReg (reg v : Z) : M unit := mmio_write (UART0 + reg) (u8 v).

Definition uartinit : M unit :=
  WriteReg IER 0x00 ;;
  WriteReg LCR (Z.shiftl 1 7) ;;
  WriteReg 0 0x03 ;;
  WriteReg 1 0x00 ;;
  WriteReg LCR (Z.shiftl 3 0) ;;
  WriteReg FCR (Z.lor (Z.shiftl 1 0) (Z.shiftl 3 1)) ;;
  WriteReg IER (Z.lor (Z.shiftl 1 1) (Z.shiftl 1 0)) ;;
  initlock LUart "uart".

(** At most UART_TX_BUF_SIZE characters are waiting, one per round. *)
Definition uartstart : M unit :=
  while (S (Z.to_nat UART_TX_BUF_SIZE)) (fun _ =>
    u <- gets uart_tx;
    if uart_tx_w u =? uart_tx_r u then ret (inr tt) else
    lsr <- ReadReg LSR;
    if Z.land lsr LSR_TX_IDLE =? 0 then ret (inr tt) else
    c <- deref "uart_tx_buf" (uart_tx_buf u !! Z.to_nat (uart_tx_r u mod UART_TX_BUF_SIZE));
    uart_upd (fun u => u <| uart_tx_r ::= fun r => r +64 1 |>) ;;
    wakeup ChUart ;;
    WriteReg THR c ;;
    ret (inl tt)) tt.

Definition uartputc (c : Z) : M unit :=
  acquire LUart ;;
  pk <- gets panicked;
  if (pk : bool) then frozen else
  sleep_loop 0 (fun _ =>
    u <- gets uart_tx;
    if uart_tx_w u =? uart_tx_r u +64 UART_TX_BUF_SIZE then
      sleep ChUart LUart ;; ret (inl tt)
    else
      uart_upd (fun u => u <| uart_tx_buf ::= <[Z.to_nat (uart_tx_w u mod UART_TX_BUF_SIZE) := u8 c]> |>
                           <| uart_tx_w ::= fun w => w +64 1 |>) ;;
      uartstart ;;
      release LUart ;;
      ret (inr tt)) tt.

Definition uartputc_sync (c : Z) : M unit :=
  push_off ;;
  pk <- gets panicked;
  if (pk : bool) then frozen else
  while spin_fuel (fun _ =>
    lsr <- ReadReg LSR;
    if Z.land lsr LSR_TX_IDLE =? 0 then ret (inl tt) else ret (inr tt)) tt ;;
  WriteReg THR c ;;
  pop_off.

Definition uartgetc : M Z :=
  lsr <- ReadReg LSR;
  if negb (Z.land lsr 0x01 =? 0) then ReadReg RHR else ret (-1).

(** ** Characters to the console *)

Definition BACKSPACE : Z := 0x100.

Definition consputc (c : Z) : M unit :=
  if c =? BACKSPACE then
    uartputc_sync 8 ;; uartputc_sync 32 ;; uartputc_sync 8
  else uartputc_sync c.

(** ** printf.c *)

Definition digits : list Z := bytes_of "0123456789abcdef".

Definition digit (d : Z) : Z := nth (Z.to_nat d) digits 0.

(** The do-while loop of printint(): the digits, least significant first;
    the buffer has 16 places. *)
Fixpoint digits_of (places : nat) (x base : Z) : list Z :=
  match places with
  | O => []
  | S places =>
      digit (x mod base) ::
      (if x / base =? 0 then [] else digits_of places (x / base) base)
  end.

(** What printint() prints, in order. *)
Definition int_text (xx base : Z) (sign : bool) : list Z :=
  let neg := sign && (xx <? 0) in
  let x := u32 (if neg then - xx else xx) in
  let buf := digits_of 16 x base in
  rev (if neg then buf ++ [45] else buf).

Definition printint (xx base : Z) (sign : bool) : M unit := for_ (int_text xx base sign) consputc.

(** The 16 digits printptr() prints after 0x: the top four bits of [x << 4*i]. *)
Fixpoint ptr_digits (n : nat) (x : Z) : list Z :=
  match n with
  | O => []
  | S n => digit (Z.shiftr x 60) :: ptr_digits n (u64 (Z.shiftl x 4))
  end.

Definition printptr (x : Z) : M unit :=
  consputc 48 ;; consputc 120 ;; for_ (ptr_digits 16 x) consputc.

Inductive parg := AInt (n : Z) | APtr (p : Z) | AStr (str : option (list Z)).

(** The loop of printf() over the format. *)
Fixpoint vprintf (fmt : list Z) (ap : list parg) : M unit :=
  match fmt with
  | [] => ret tt
  | c :: fmt =>
      if c =? 0 then ret tt else
      if negb (c =? 37) then consputc c ;; vprintf fmt ap else
      match fmt with
      | [] => ret tt
      | c :: fmt =>
          if c =? 0 then ret tt else
          if c =? 100 then
            match ap with AInt n :: ap => printint n 10 true ;; vprintf fmt ap | _ => undef "va_arg" end
          else if c =? 120 then
            match ap with AInt n :: ap => printint n 16 true ;; vprintf fmt ap | _ => undef "va_arg" end
          else if c =? 112 then
            match ap with APtr p :: ap => printptr p ;; vprintf fmt ap | _ => undef "va_arg" end
          else if c =? 115 then
            match ap with
            | AStr str :: ap =>
                for_ (cstr (default (bytes_of "(null)") str)) consputc ;; vprintf fmt ap
            | _ => undef "va_arg"
            end
          else if c =? 37 then consputc 37 ;; vprintf fmt ap
          else consputc 37 ;; consputc c ;; vprintf fmt ap
      end
  end.

Definition printf (fmt : list Z) (ap : list parg) : M unit :=
  locking <- gets pr_locking;
  when locking (acquire LPr) ;;
  vprintf fmt ap ;;
  when locking (release LPr).

Definition printfinit : M unit :=
  initlock LPr "pr" ;;
  modify (fun s => s <| pr_locking := true |>).

(** ** procdump() *)

Definition nl : list Z := [10].

(** Strings separated by tabs. *)
Fixpoint tabbed (l : list string) : list Z :=
  match l with
  | [] => []
  | [w] => bytes_of w
  | w :: l => bytes_of w ++ 9 :: tabbed l
  end.

(** [states[p->state]], "???" where the table has no entry. *)
Definition state_name (st : procstate) : string :=
  match st with
  | UNUSED => "unused  "
  | USED => "???"
  | SLEEPING => "sleep"
  | RUNNABLE => "runble"
  | RUNNING => "run "
  | ZOMBIE => "zombie  "
  end%string.

Definition wait_time (now : Z) (p : proc) : Z :=
  if p_etime p =? u32 (-1) then s32 (u32 (now - p_stime p - p_rtime p))
  else s32 (u32 (p_etime p - p_stime p - p_rtime p)).

Definition astr (w : string) : parg := AStr (Some (bytes_of w)).

(** The heading, and the format and arguments of a process's line. *)
Definition dump_heading (pol : policy) : list string :=
  match pol with
  | MLFQ => ["PID"; "Prio"; "State"; "rtime"; "wtime"; "nrun"; "q0"; "q1"; "q2"; "q3"; "q4"]
  | PBS => ["PID"; "Prio"; "State"; "rtime"; "wtime"; "nrun"]
  | RR | FCFS => ["PID"; "State"; "rtime"; "wtime"; "nrun"]
  end%string.

Definition dump_format (pol : policy) : list string :=
  match pol with
  | MLFQ => ["%d"; "%d"; "%s"; "%d"; "%d"; "%d"; "%d"; "%d"; "%d"; "%d"; "%d"]
  | PBS => ["%d"; "%d"; "%s"; "%d"; "%d"; "%d"]
  | RR | FCFS => ["%d"; "%s"; "%d"; "%d"; "%d"]
  end%string.

Definition dump_args (pol : policy) (now : Z) (p : proc) : list parg :=
  let q i := AInt (nth i (p_qticks p) 0) in
  let rest := [astr (state_name (p_state p)); AInt (s32 (p_rtime p)); AInt (wait_time now p);
               AInt (s32 (p_ntime p))] in
  match pol with
  | MLFQ => AInt (p_pid p) :: AInt (p_queue p) :: rest ++ [q 0%nat; q 1%nat; q 2%nat; q 3%nat; q 4%nat]
  | PBS => AInt (p_pid p) :: AInt (dynamic_priority p) :: rest
  | RR | FCFS => AInt (p_pid p) :: rest
  end.

Definition procdump `{Config} : M unit :=
  printf nl [] ;;
  printf (tabbed (map (fun _ => "%s"%string) (dump_heading sched_policy)) ++ nl)
    (map astr (dump_heading sched_policy)) ;;
  for_ (seq 0 NPROC) (fun p =>
    pp <- proc_at p;
    now <- gets ticks;
    when (negb (bool_decide (p_state pp = UNUSED)))
      (printf (tabbed (dump_format sched_policy)) (dump_args sched_policy now pp) ;;
       printf nl [])).

(** ** console.c *)

Definition ctrl_P : Z := 16.
Definition ctrl_U : Z := 21.
Definition ctrl_H : Z := 8.
Definition ctrl_D : Z := 4.

Definition cons_upd (f : console -> console) : M unit := modify (fun s => s <| cons ::= f |>).

(** [cons.buf[i % INPUT_BUF]] *)
Definition cons_at (c : console) (i : Z) : Z := nth (Z.to_nat (i mod INPUT_BUF)) (cons_buf c) 0.

Definition consolewrite (src : source) (n : Z) : M Z :=
  loop (fun i =>
    if i <? n then
      ' (r, bytes) <- either_copyin (source_add src i) 1;
      if r =? -1 then ret (inr i) else
      uartputc (hd 0 bytes) ;;
      ret (inl (i + 1))
    else ret (inr i)) 0.

(** The inner loop: wait for input; true when killed. *)
Definition cons_wait : M bool :=
  sleep_loop 0 (fun _ =>
    c <- gets cons;
    if cons_r c =? cons_w c then
      p <- curproc; pp <- proc_at p;
      if negb (p_killed pp =? 0) then release LCons ;; ret (inr true)
      else sleep ChCons LCons ;; ret (inl tt)
    else ret (inr false)) tt.

Definition consoleread (dst : dest) (n : Z) : M Z :=
  let target := n in
  acquire LCons ;;
  r <- loop (fun '(dst, n) =>
    if 0 <? n then
      killed <- cons_wait;
      if (killed : bool) then ret (inr None) else
      c <- gets (fun s => cons_at (cons s) (cons_r (cons s)));
      cons_upd (fun c => c <| cons_r ::= fun r => r +32 1 |>) ;;
      if c =? ctrl_D then
        when (u32 n <? u32 target) (cons_upd (fun c => c <| cons_r ::= fun r => r -32 1 |>)) ;;
        ret (inr (Some n))
      else
      r <- either_copyout dst [c];
      if r =? -1 then ret (inr (Some n)) else
      if c =? 10 then ret (inr (Some (n - 1)))
      else ret (inl (dest_add dst 1, n - 1))
    else ret (inr (Some n))) (dst, n);
  match r with
  | None => ret (-1)
  | Some n => release LCons ;; ret (s32 (u32 (target - n)))
  end.

Definition consoleintr `{Config} (c : Z) : M unit :=
  acquire LCons ;;
  (if c =? ctrl_P then procdump
   else if c =? ctrl_U then
     loop (fun _ =>
       k <- gets cons;
       if negb (cons_e k =? cons_w k) && negb (cons_at k (cons_e k -32 1) =? 10) then
         cons_upd (fun c => c <| cons_e ::= fun e => e -32 1 |>) ;;
         consputc BACKSPACE ;;
         ret (inl tt)
       else ret (inr tt)) tt
   else if (c =? ctrl_H) || (c =? 127) then
     k <- gets cons;
     when (negb (cons_e k =? cons_w k))
       (cons_upd (fun c => c <| cons_e ::= fun e => e -32 1 |>) ;;
        consputc BACKSPACE)
   else
     k <- gets cons;
     when (negb (c =? 0) && (cons_e k -32 cons_r k <? INPUT_BUF))
       (let c := if c =? 13 then 10 else c in
        consputc c ;;
        cons_upd (fun k => k <| cons_buf ::= <[Z.to_nat (cons_e k mod INPUT_BUF) := u8 c]> |>
                             <| cons_e ::= fun e => e +32 1 |>) ;;
        k <- gets cons;
        when ((c =? 10) || (c =? ctrl_D) || (cons_e k =? cons_r k +32 INPUT_BUF))
          (cons_upd (fun k => k <| cons_w := cons_e k |>) ;;
           wakeup ChCons))) ;;
  release LCons.

(** As many characters as the receive register delivers, at most [spin_fuel]
    at a time. *)
Definition uartintr `{Config} : M unit :=
  while spin_fuel (fun _ =>
    c <- uartgetc;
    if c =? -1 then ret (inr tt) else consoleintr c ;; ret (inl tt)) tt ;;
  acquire LUart ;;
  uartstart ;;
  release LUart.

Definition consoleinit : M unit :=
  initlock LCons "cons" ;;
  uartinit ;;
  modify (fun s => s <| devsw_console := true |>).

End Uart.

(** ** The input ring

    The indices are 32-bit and never reduced: [r] (next to read), [w] (end of
    the completed lines) and [e] (end of what was typed) follow each other, at
    most INPUT_BUF apart. *)

Definition ring_ok (k : console) : Prop :=
  length (cons_buf k) = Z.to_nat INPUT_BUF /\
  0 <= cons_r k < 2 ^ 32 /\ 0 <= cons_w k < 2 ^ 32 /\ 0 <= cons_e k < 2 ^ 32 /\
  cons_w k -32 cons_r k <= cons_e k -32 cons_r k <= INPUT_BUF.

Section Ring.
Context `{Platform} `{Config}.

#[export] Instance mmio_read_keeps_cons a : Keeps cons (mmio_read a).
Proof. unfold mmio_read. solve_keeps. Qed.

#[export] Instance mmio_write_keeps_cons a v : Keeps cons (mmio_write a v).
Proof. unfold mmio_write. solve_keeps. Qed.

#[export] Instance consputc_keeps_cons c : Keeps cons (consputc c).
Proof. unfold consputc, uartputc_sync, ReadReg, WriteReg, frozen. solve_keeps. Qed.

#[export] Instance vprintf_keeps_cons fmt ap : Keeps cons (vprintf fmt ap).
Proof.
  revert ap. cut (forall n fmt ap, (length fmt <= n)%nat -> Keeps cons (vprintf fmt ap)).
  { intros Hc ap. by apply (Hc (length fmt)). }
  clear fmt. induction n as [|n IH]; intros [|c [|c' fmt]] ap Hl; cbn [length] in Hl; try lia;
    cbn [vprintf]; unfold printint, printptr; solve_keeps; apply IH; cbn in *; lia.
Qed.

#[export] Instance printf_keeps_cons fmt ap : Keeps cons (printf fmt ap).
Proof. unfold printf. solve_keeps. Qed.

#[export] Instance procdump_keeps_cons : Keeps cons procdump.
Proof. unfold procdump, proc_at. solve_keeps. Qed.

#[export] Instance wakeup_keeps_cons ch : Keeps cons (wakeup ch).
Proof. unfold wakeup, myproc, mycpu, cpuid, r_tp, cpu_at, proc_at, proc_upd. solve_keeps. Qed.

(** The edits consoleintr() makes. *)
Lemma ring_erase k :
  ring_ok k -> cons_e k <> cons_w k -> ring_ok (k <| cons_e ::= fun e => e -32 1 |>).
Proof.
  intros (Hl & Hr & Hw & He & Hle1 & Hle2) Hne. unfold ring_ok, u32, INPUT_BUF in *. cbn in *.
  split; [done|]. dlia.
Qed.

Lemma ring_append k c :
  ring_ok k -> cons_e k -32 cons_r k < INPUT_BUF ->
  ring_ok (k <| cons_buf ::= <[Z.to_nat (cons_e k mod INPUT_BUF) := u8 c]> |>
             <| cons_e ::= fun e => e +32 1 |>).
Proof.
  intros (Hl & Hr & Hw & He & Hle1 & Hle2) Hlt. unfold ring_ok, u32, INPUT_BUF in *. cbn in *.
  rewrite length_insert. split; [done|]. dlia.
Qed.

Lemma ring_complete k : ring_ok k -> ring_ok (k <| cons_w := cons_e k |>).
Proof. intros (Hl & Hr & Hw & He & Hle). unfold ring_ok in *. cbn. lia. Qed.

Lemma good_cons_upd (g : console -> console) (e : env) s :
  env_keeps cons e -> ring_ok (g (cons s)) -> good cons ring_ok (cons_upd g e s).
Proof. intros He Hg. split; done. Qed.

(** Erasing one character, as control-U and backspace do. *)
Lemma erase_maintains {A} (r : A) e s :
  env_keeps cons e -> ring_ok (cons s) -> cons_e (cons s) <> cons_w (cons s) ->
  good cons ring_ok ((cons_upd (fun c => c <| cons_e ::= fun e => e -32 1 |>) ;;
                      consputc BACKSPACE ;; ret r) e s).
Proof.
  intros He Hok Hne. apply good_bind; [by apply good_cons_upd, ring_erase|].
  intros _ e' s' Hok' He'. apply good_bind_keeps; [exact _|done|done|].
  intros _ e2 s2 Heq He2. split; [by rewrite Heq|done].
Qed.

(** Whatever character arrives, consoleintr() keeps the input ring
    consistent: the indices stay in order and at most INPUT_BUF apart, also
    where they wrap around, so no unread character is overwritten. *)
Lemma consoleintr_keeps_ring c s :
  ring_ok (cons s) -> good cons ring_ok (consoleintr c [] s).
Proof.
  cut (Maintains cons ring_ok (consoleintr c)); [intros Hm; by apply Hm; constructor|].
  unfold consoleintr. apply maintains_bind; [exact _|]. intros _.
  apply maintains_bind; [|intros _; exact _].
  destruct (c =? ctrl_P); [exact _|]. destruct (c =? ctrl_U).
  { apply maintains_loop. intros _ e s' He Hok. rewrite step_gets.
    destruct (Z.eqb_spec (cons_e (cons s')) (cons_w (cons s'))) as [|Hne]; cbn [negb andb]; [by split|].
    destruct (negb _); [by apply erase_maintains|by split]. }
  destruct (_ || _).
  { intros e s' He Hok. rewrite step_gets.
    destruct (Z.eqb_spec (cons_e (cons s')) (cons_w (cons s'))) as [|Hne]; cbn [negb when]; [by split|].
    apply good_bind; [by apply good_cons_upd, ring_erase|]. intros; apply keeps_maintains; [exact _|done|done]. }
  intros e s' He Hok. rewrite step_gets. destruct (negb (c =? 0)); cbn [andb when]; [|by split].
  destruct (Z.ltb_spec (cons_e (cons s') -32 cons_r (cons s')) INPUT_BUF) as [Hlt|]; cbn [when]; [|by split].
  apply good_bind_keeps; [exact _|done|done|]. intros _ e1 s1 Heq He1. rewrite <- Heq in Hok, Hlt.
  apply good_bind; [by apply good_cons_upd, ring_append|]. intros _ e2 s2 Hok2 He2. rewrite step_gets.
  destruct (_ || _); cbn [when]; [|by split].
  apply good_bind; [by apply good_cons_upd, ring_complete|]. intros; apply keeps_maintains; [exact _|done|done].
Qed.

End Ring.

Lemma consoleintr_keeps_ring_witness :
  good cons ring_ok (@consoleintr platform0 RR 97 [] (machine [running 1])).
Proof. apply consoleintr_keeps_ring. vm_compute. repeat split; congruence. Defined.

(** ** Printing numbers *)

(** The digit a character stands for, and the number a text stands for, least
    significant digit first. *)
Definition undigit (c : Z) : Z := if c <? 58 then c - 48 else c - 87.

Fixpoint text_value (base : Z) (l : list Z) : Z :=
  match l with
  | [] => 0
  | c :: l => undigit c + base * text_value base l
  end.

(** The number printed: a leading minus sign and digits. *)
Definition parse_int (base : Z) (l : list Z) : Z :=
  match l with
  | c :: l' => if c =? 45 then - text_value base (rev l') else text_value base (rev l)
  | [] => 0
  end.

Lemma undigit_digit d : 0 <= d < 16 -> undigit (digit d) = d /\ digit d <> 45.
Proof.
  intros Hd. assert (Hall : Forall (fun d => undigit (digit (Z.of_nat d)) = Z.of_nat d /\
    digit (Z.of_nat d) <> 45) (seq 0 16)) by (repeat constructor; done).
  rewrite <- (Z2Nat.id d) by lia. apply (Forall_elem _ _ (Z.to_nat d) Hall), elem_of_seq. lia.
Qed.

Lemma digits_of_value places x base :
  2 <= base <= 16 -> 0 <= x < base ^ Z.of_nat places ->
  text_value base (digits_of places x base) = x.
Proof.
  intros Hb. revert x. induction places as [|n IH]; intros x Hx; [cbn in *; lia|].
  rewrite Nat2Z.inj_succ, Z.pow_succ_r in Hx by lia. cbn [digits_of text_value].
  pose proof (Z.mod_pos_bound x base ltac:(lia)). pose proof (Z.div_mod x base ltac:(lia)).
  destruct (undigit_digit (x mod base)) as [-> _]; [lia|].
  destruct (Z.eqb_spec (x / base) 0) as [E|E]; cbn [text_value]; [lia|].
  rewrite IH; [lia|]. split; [apply Z.div_pos; lia|]. apply Z.div_lt_upper_bound; lia.
Qed.

Lemma digits_of_length places x base n :
  2 <= base -> 0 <= x < base ^ Z.of_nat (S n) -> (length (digits_of places x base) <= S n)%nat.
Proof.
  intros Hb. revert x n. induction places as [|m IH]; intros x n Hx; [cbn; lia|]. cbn [digits_of length].
  destruct (Z.eqb_spec (x / base) 0) as [E|E]; cbn [length]; [lia|].
  destruct n as [|n].
  - exfalso. apply E. apply Z.div_small. change (base ^ Z.of_nat 1) with (base ^ 1) in Hx.
    rewrite Z.pow_1_r in Hx. lia.
  - apply le_n_S, IH. rewrite (Nat2Z.inj_succ (S n)), Z.pow_succ_r in Hx by lia.
    split; [apply Z.div_pos; lia|]. apply Z.div_lt_upper_bound; lia.
Qed.

Lemma digits_of_last places x base :
  2 <= base <= 16 -> (0 < places)%nat -> Forall (fun c => c <> 45) (digits_of places x base).
Proof.
  intros Hb _. revert x. induction places as [|m IH]; intros x; constructor.
  - apply undigit_digit. pose proof (Z.mod_pos_bound x base ltac:(lia)). lia.
  - destruct (_ =? _); [constructor|apply IH].
Qed.

(** printint() prints the number it is given: the text, read back, is the
    argument, for every int in base 10 and 16, the most negative one included,
    and at most 11 characters, so the 16-byte buffer does not overflow. *)
Lemma printint_round_trip xx base :
  - 2 ^ 31 <= xx < 2 ^ 31 -> base = 10 \/ base = 16 ->
  parse_int base (int_text xx base true) = xx /\ (length (int_text xx base true) <= 11)%nat.
Proof.
  intros Hx Hb. assert (2 <= base <= 16) as Hb2 by lia. unfold int_text. cbn [andb].
  set (x := u32 _).
  assert (x = Z.abs xx) as Hxa by (unfold x; destruct (Z.ltb_spec xx 0); rewrite u32_small; lia).
  assert (0 <= x < base ^ Z.of_nat 10) as Hrange
    by (rewrite Hxa; destruct Hb as [-> | ->]; cbn; lia).
  pose proof (digits_of_length 16 x base 9 ltac:(lia) Hrange) as Hlen.
  assert (Hval : text_value base (digits_of 16 x base) = x).
  { apply digits_of_value; [done|]. pose proof (Z.pow_le_mono_r base (Z.of_nat 10) (Z.of_nat 16)). lia. }
  pose proof (digits_of_last 16 x base Hb2 ltac:(lia)) as Hneg.
  destruct (Z.ltb_spec xx 0) as [Hlt|Hge].
  - rewrite rev_app_distr, length_app, length_rev. cbn [rev app parse_int length].
    rewrite rev_involutive, Hval. change (45 =? 45) with true. cbv iota. rewrite length_rev. split; lia.
  - rewrite length_rev. split; [|lia]. unfold parse_int.
    destruct (rev (digits_of 16 x base)) as [|c l] eqn:E.
    { apply (f_equal (@rev Z)) in E. rewrite rev_involutive in E. discriminate E. }
    assert (c <> 45) as Hc.
    { apply (Forall_elem _ _ c Hneg). apply list_elem_of_In, in_rev. rewrite E. by left. }
    rewrite (proj2 (Z.eqb_neq c 45) Hc), <- E, rev_involutive, Hval. lia.
Qed.
