(* ===== verification/Tty.v ===== *)
(** * Line editing: consoleintr() of console.c

    The console holds the lines that were completed and the line that is being
    typed.  Each character edits them ([edit]) and is echoed; the theorem runs
    consoleintr() against this, on a UART that is ready to transmit. *)

From S2P Require Import Prelude State Machine Monad Spinlock Cstring Proc Virtio Console.

(** The UART is always ready for the next character. *)
Class TxReady `{Platform} := {
  tx_idle : forall n, Z.land (u8 (dev_read (UART0 + LSR) n)) LSR_TX_IDLE =? 0 = false;
  tx_spin : (0 < spin_fuel)%nat
}.

(** ** The two parts of the ring *)

Definition ring_list (k : console) (a : Z) (n : nat) : list Z :=
  (fun i : nat => cons_at k (a + Z.of_nat i)) <$> seq 0 n.

Definition ready (k : console) : list Z := ring_list k (cons_r k) (Z.to_nat (cons_w k -32 cons_r k)).

Definition line (k : console) : list Z := ring_list k (cons_w k) (Z.to_nat (cons_e k -32 cons_w k)).

Definition cons_ok (k : console) : Prop := ring_ok k /\ 10 ∉ line k.

(** The completed characters, the line, the echo and whether readers wake. *)
Definition edit (c : Z) (rd ln : list Z) : list Z * list Z * list Z * bool :=
  if c =? ctrl_U then (rd, [], concat (replicate (length ln) [8; 32; 8]), false)
  else if (c =? ctrl_H) || (c =? 127) then
    (rd, removelast ln, if bool_decide (ln = []) then [] else [8; 32; 8], false)
  else if (c =? 0) || (INPUT_BUF <=? Z.of_nat (length (rd ++ ln))) then (rd, ln, [], false)
  else
    let c := if c =? 13 then 10 else c in
    if (c =? 10) || (c =? ctrl_D) || (Z.of_nat (length (rd ++ ln)) + 1 =? INPUT_BUF)
    then (rd ++ ln ++ [c], [], [c], true)
    else (rd, ln ++ [c], [c], false).

Lemma line_ring_length k a n : length (ring_list k a n) = n.
Proof. unfold ring_list. by rewrite length_fmap, length_seq. Qed.

Lemma ring_app k a n m : ring_list k a (n + m) = ring_list k a n ++ ring_list k (a + Z.of_nat n) m.
Proof.
  unfold ring_list. rewrite seq_app, fmap_app. f_equal. cbn [Nat.add]. apply list_eq. intros i. rewrite !list_lookup_fmap.
  destruct (decide (i < m)%nat); [|by rewrite !lookup_seq_ge by lia].
  rewrite !lookup_seq_lt by lia. cbn. do 2 f_equal. lia.
Qed.

Lemma ring_mod k a b n : a mod INPUT_BUF = b mod INPUT_BUF -> ring_list k a n = ring_list k b n.
Proof.
  intros E. unfold ring_list, cons_at. apply list_fmap_ext. intros i j [-> _]%lookup_seq. cbn [Nat.add].
  by rewrite <- (Z.add_mod_idemp_l a), E, Z.add_mod_idemp_l by done.
Qed.

Lemma ring_lengths k : ring_ok k ->
  Z.of_nat (length (ready k)) = cons_w k -32 cons_r k /\ Z.of_nat (length (line k)) = cons_e k -32 cons_w k /\
  cons_e k -32 cons_r k = Z.of_nat (length (ready k ++ line k)).
Proof.
  intros (_ & Hr & Hw & He & Hle). unfold ready, line. rewrite length_app, !line_ring_length.
  unfold INPUT_BUF, u32 in *. dlia.
Qed.

Lemma line_erased k : ring_ok k -> cons_e k <> cons_w k ->
  let k' := k <| cons_e ::= fun e => e -32 1 |> in
  ready k' = ready k /\ line k = line k' ++ [cons_at k (cons_e k -32 1)].
Proof.
  intros Hok Hne. destruct (ring_lengths k Hok) as (_ & Hl & _). destruct Hok as (_ & Hr & Hw & He & Hle). cbn zeta.
  split; [done|]. unfold line in *. rewrite line_ring_length in Hl. cbn [cons_w cons_e].
  set (k' := k <| cons_e ::= fun e => e -32 1 |>).
  change (cons_w k') with (cons_w k). change (cons_e k') with (cons_e k -32 1).
  replace (Z.to_nat (cons_e k -32 cons_w k)) with (Z.to_nat ((cons_e k -32 1) -32 cons_w k) + 1)%nat
    by (unfold INPUT_BUF, u32 in *; dlia).
  rewrite ring_app. f_equal. unfold ring_list. cbn [seq fmap list_fmap]. f_equal. unfold cons_at. do 2 f_equal.
  unfold INPUT_BUF, u32 in *. dlia.
Qed.

Lemma line_completed k : ring_ok k ->
  let k' := k <| cons_w := cons_e k |> in ready k' = ready k ++ line k /\ line k' = [].
Proof.
  intros Hok. destruct Hok as (_ & Hr & Hw & He & Hle). cbn zeta. unfold ready, line.
  set (k' := k <| cons_w := cons_e k |>). change (cons_w k') with (cons_e k). change (cons_r k') with (cons_r k).
  change (cons_e k') with (cons_e k). rewrite Z.sub_diag. split; [|done].
  rewrite (ring_mod k (cons_w k) (cons_r k + Z.of_nat (Z.to_nat (cons_w k -32 cons_r k)))).
  2: { rewrite Z2Nat.id by apply u32_range. unfold INPUT_BUF, u32 in *. dlia. }
  rewrite <- ring_app. change (ring_list k' (cons_r k)) with (ring_list k (cons_r k)). f_equal.
  unfold INPUT_BUF, u32 in *. dlia.
Qed.

(** Storing at [e] leaves the characters before it alone. *)
Lemma ring_store k c a n : length (cons_buf k) = Z.to_nat INPUT_BUF ->
  (a + Z.of_nat n) mod INPUT_BUF = cons_e k mod INPUT_BUF -> (n < Z.to_nat INPUT_BUF)%nat ->
  let k' := k <| cons_buf ::= <[Z.to_nat (cons_e k mod INPUT_BUF) := c]> |> <| cons_e ::= fun e => e +32 1 |> in
  (forall m b, (b + Z.of_nat m <= a + Z.of_nat n) -> a <= b -> ring_list k' b m = ring_list k b m) /\
  ring_list k' a (n + 1) = ring_list k a n ++ [c].
Proof.
  intros Hl He Hn k'. unfold INPUT_BUF in *.
  assert (forall i, a <= i < a + Z.of_nat n -> cons_at k' i = cons_at k i) as Hi.
  { intros i Hi. unfold cons_at, k', INPUT_BUF. cbn [cons_buf]. rewrite !nth_lookup. f_equal. apply list_lookup_insert_ne. dlia. }
  assert (forall m b, (b + Z.of_nat m <= a + Z.of_nat n) -> a <= b -> ring_list k' b m = ring_list k b m) as Hr.
  { intros m b Hm Hb. unfold ring_list. apply list_fmap_ext. intros i j [-> Hj]%lookup_seq. cbn [Nat.add]. apply Hi. lia. }
  split; [done|]. rewrite ring_app, Hr by lia. f_equal. unfold ring_list. cbn [seq fmap list_fmap]. f_equal.
  unfold cons_at, INPUT_BUF. change (cons_buf k') with (<[Z.to_nat (cons_e k mod 128) := c]> (cons_buf k)).
  rewrite Z.add_0_r, He, nth_lookup, list_lookup_insert_eq; [done|]. rewrite Hl. dlia.
Qed.

Lemma line_appended k c : ring_ok k -> cons_e k -32 cons_r k < INPUT_BUF ->
  let k' := k <| cons_buf ::= <[Z.to_nat (cons_e k mod INPUT_BUF) := c]> |> <| cons_e ::= fun e => e +32 1 |> in
  ready k' = ready k /\ line k' = line k ++ [c].
Proof.
  intros Hok Hlt k'. destruct (ring_lengths k Hok) as (L1 & L2 & L3). unfold ready, line in *. rewrite length_app, !line_ring_length in *.
  pose proof Hok as (Hl & Hr & Hw & He & Hle).
  change (cons_w k') with (cons_w k). change (cons_r k') with (cons_r k). change (cons_e k') with (cons_e k +32 1).
  set (n := Z.to_nat (cons_w k -32 cons_r k)) in *. set (m := Z.to_nat (cons_e k -32 cons_w k)) in *.
  assert (Z.to_nat ((cons_e k +32 1) -32 cons_w k) = m + 1)%nat as -> by (unfold INPUT_BUF, u32 in *; dlia).
  destruct (ring_store k c (cons_r k) (n + m) Hl) as [Hb _]; [unfold INPUT_BUF, u32 in *; dlia|unfold INPUT_BUF in *; lia|].
  destruct (ring_store k c (cons_w k) m Hl) as [_ Ha]; [unfold INPUT_BUF, u32 in *; dlia|unfold INPUT_BUF in *; lia|].
  split; [apply Hb; lia|exact Ha].
Qed.

(** ** Running consoleintr() *)

Section Run.
Context `{Platform} `{Config} `{!TxReady}.

(** Characters sent to the UART, one poll of the status register each. *)
Definition sent (cs : list Z) (s : kernel) : kernel :=
  s <| mmio_reads ::= fun n => (length cs + n)%nat |>
    <| mmio ::= fun t => t ++ ((fun c => (UART0 + THR, u8 c)) <$> cs) |>.

Lemma sent_app cs ds s : sent ds (sent cs s) = sent (cs ++ ds) s.
Proof. unfold sent. state_eq. - by rewrite fmap_app, app_assoc. - rewrite length_app. lia. Qed.

Lemma uartputc_sync_run c e s : settled (hw s) -> panicked s = false ->
  uartputc_sync c e s = Ret tt e (sent [c] s).
Proof.
  intros Hs Hp. unfold uartputc_sync. mrun push_off_run. mstep. rewrite Hp.
  erewrite (bind_run _ _ e _ tt e).
  2: { apply while_run with 1%nat; [|pose proof tx_spin; lia]. cbn [unroll]. unfold ReadReg, mmio_read. msteps.
       rewrite tx_idle. reflexivity. }
  unfold WriteReg, mmio_write. msteps. rewrite pop_off_run; st; eauto with kernel.
  apply ret_state. unfold sent. state_eq. by rewrite pop_push.
Qed.

Definition echo (c : Z) : list Z := if c =? BACKSPACE then [8; 32; 8] else [c].

Lemma consputc_run c e s : settled (hw s) -> panicked s = false -> consputc c e s = Ret tt e (sent (echo c) s).
Proof.
  intros Hs Hp. unfold consputc, echo. destruct (c =? BACKSPACE); [|by apply uartputc_sync_run].
  rewrite (bind_run _ _ _ _ _ _ _ (uartputc_sync_run 8 e s Hs Hp)).
  rewrite (bind_run _ _ _ _ _ _ _ (uartputc_sync_run 32 e (sent [8] s) Hs Hp)).
  rewrite (uartputc_sync_run 8 e (sent [32] (sent [8] s)) Hs Hp), !sent_app. done.
Qed.

(** What an edit does to the state: characters sent, a new ring. *)
Definition edited (cs : list Z) (k : console) (s : kernel) : kernel := sent cs (s <| cons := k |>).

Lemma edited_edited cs k ds k' s : edited ds k' (edited cs k s) = edited (cs ++ ds) k' s.
Proof. unfold edited. rewrite <- sent_app. unfold sent. by state_eq. Qed.

Lemma cons_id s : edited [] (cons s) s = s.
Proof. unfold edited, sent. state_eq. by rewrite app_nil_r. Qed.

(** Erasing one character. *)
Lemma erase_run e s : settled (hw s) -> panicked s = false ->
  (cons_upd (fun c => c <| cons_e ::= fun e => e -32 1 |>) ;; consputc BACKSPACE) e s =
  Ret tt e (edited [8; 32; 8] (cons s <| cons_e ::= fun e => e -32 1 |>) s).
Proof. intros Hs Hp. unfold cons_upd. rewrite step_modify. by rewrite consputc_run. Qed.

Lemma erase_ret {A} (r : A) e s : settled (hw s) -> panicked s = false ->
  (cons_upd (fun c => c <| cons_e ::= fun e => e -32 1 |>) ;; consputc BACKSPACE ;; ret r) e s =
  Ret r e (edited [8; 32; 8] (cons s <| cons_e ::= fun e => e -32 1 |>) s).
Proof. intros Hs Hp. rewrite <- bind_assoc. by rewrite (bind_run _ _ _ _ _ _ _ (erase_run e s Hs Hp)). Qed.

Lemma line_ok_erased k : cons_ok k -> cons_e k <> cons_w k ->
  let k' := k <| cons_e ::= fun e => e -32 1 |> in
  cons_ok k' /\ ready k' = ready k /\ line k' = removelast (line k) /\ length (line k) = S (length (line k')) /\
  cons_at k (cons_e k -32 1) <> 10.
Proof.
  intros [Hok Hnl] Hne k'. destruct (line_erased k Hok Hne) as [Hr Hl]. fold k' in Hr, Hl. rewrite Hl in Hnl.
  rewrite not_elem_of_app, not_elem_of_cons in Hnl. destruct Hnl as (Hnl & Hc & _).
  split; [split; [by apply ring_erase|done]|]. rewrite Hl. split_and!; auto.
  - by rewrite removelast_last.
  - rewrite length_app. cbn. lia.
Qed.

Definition kill_body : unit -> M (unit + unit) := fun _ =>
  k <- gets cons;
  if negb (cons_e k =? cons_w k) && negb (cons_at k (cons_e k -32 1) =? 10) then
    cons_upd (fun c => c <| cons_e ::= fun e => e -32 1 |>) ;;
    consputc BACKSPACE ;;
    ret (inl tt)
  else ret (inr tt).

(** Control-U erases the line, a character at a time. *)
Lemma kill_unroll e n : forall s, n = length (line (cons s)) -> cons_ok (cons s) -> settled (hw s) -> panicked s = false ->
  exists k, unroll (S n) kill_body tt e s = Ret (inr tt) e (edited (concat (replicate n [8; 32; 8])) k s) /\
    cons_ok k /\ ready k = ready (cons s) /\ line k = [].
Proof.
  induction n as [|n IH]; intros s Hn Hok Hs Hp; rewrite unroll_S; unfold kill_body at 1; rewrite bind_assoc, step_gets.
  - destruct (Z.eqb_spec (cons_e (cons s)) (cons_w (cons s))) as [E|Hne].
    2: { by destruct (line_ok_erased _ Hok Hne) as (_ & _ & _ & Hl & _); rewrite Hl in Hn. }
    exists (cons s). cbn [negb andb replicate concat]. rewrite cons_id. split_and!; auto. by destruct (line (cons s)).
  - destruct (Z.eqb_spec (cons_e (cons s)) (cons_w (cons s))) as [E|Hne].
    { exfalso. unfold line in Hn. rewrite line_ring_length, E, Z.sub_diag in Hn. done. }
    destruct (line_ok_erased _ Hok Hne) as (Hok' & Hr & _ & Hl & H10). set (k1 := cons s <| cons_e ::= _ |>) in *.
    destruct (Z.eqb_spec (cons_at (cons s) (cons_e (cons s) -32 1)) 10); [done|]. cbn [negb andb].
    destruct (IH (edited [8; 32; 8] k1 s)) as (k & Hrun & Hk & Hkr & Hkl); [cbn; lia|done..|].
    exists k. split_and!; auto. rewrite (bind_run _ _ _ _ _ _ _ (erase_ret (inl tt) e s Hs Hp)).
    etransitivity; [exact Hrun|]. by rewrite edited_edited.
Qed.

(** The branches of consoleintr() between taking and releasing the lock. *)
Definition middle (c : Z) : M unit :=
  if c =? ctrl_U then loop kill_body tt
  else if (c =? ctrl_H) || (c =? 127) then
    k <- gets cons;
    when (negb (cons_e k =? cons_w k))
      (cons_upd (fun c => c <| cons_e ::= fun e => e -32 1 |>) ;;
       consputc BACKSPACE)
  else
    k <- gets cons;
    when (negb (c =? 0) && (cons_e k -32 cons_r k <? INPUT_BUF))
      (let c := if c =? 13 then 10 else c in
       consputc c ;;
       cons_upd (fun k => k <| cons_buf ::= <[Z.to_nat (cons_e k mod INPUT_BUF) := u8 c]> |>
                            <| cons_e ::= fun e => e +32 1 |>) ;;
       k <- gets cons;
       when ((c =? 10) || (c =? ctrl_D) || (cons_e k =? cons_r k +32 INPUT_BUF))
         (cons_upd (fun k => k <| cons_w := cons_e k |>) ;;
          wakeup ChCons)).

Lemma consoleintr_middle c : c <> ctrl_P -> consoleintr c = (acquire LCons ;; middle c ;; release LCons).
Proof. intros Hc. unfold consoleintr, middle, kill_body. by rewrite (proj2 (Z.eqb_neq _ _) Hc). Qed.

Definition woken_if (b : bool) (s t : kernel) : kernel := if b then t <| procs := wake_all ChCons s |> else t.

Definition typed (c : Z) (k : console) : console :=
  k <| cons_buf ::= <[Z.to_nat (cons_e k mod INPUT_BUF) := u8 c]> |> <| cons_e ::= fun e => e +32 1 |>.

(** A character is stored, and the line completed where it ends. *)
Lemma append_run c e s : procs_ok s -> panicked s = false -> cons_ok (cons s) -> 0 <= c < 256 ->
  let rd := ready (cons s) in let ln := line (cons s) in
  Z.of_nat (length (rd ++ ln)) < INPUT_BUF ->
  let wake := (c =? 10) || (c =? ctrl_D) || (Z.of_nat (length (rd ++ ln)) + 1 =? INPUT_BUF) in
  exists k,
    (consputc c ;;
     cons_upd (typed c) ;;
     k <- gets cons;
     when ((c =? 10) || (c =? ctrl_D) || (cons_e k =? cons_r k +32 INPUT_BUF))
       (cons_upd (fun k => k <| cons_w := cons_e k |>) ;; wakeup ChCons)) e s =
    Ret tt e (woken_if wake s (edited [c] k s)) /\
    cons_ok k /\ (ready k, line k) = if wake then (rd ++ ln ++ [c], []) else (rd, ln ++ [c]).
Proof.
  intros Hps Hp [Hok Hnl] Hc rd ln Hlt wake. pose proof (procs_ok_settled _ Hps) as Hs.
  destruct (ring_lengths _ Hok) as (L1 & L2 & L3). fold rd ln in L1, L2, L3. rewrite <- L3 in Hlt. assert (u8 c = c) as Hu by (by apply u8_small).
  destruct (line_appended (cons s) (u8 c) Hok Hlt) as [Hr Hl]. pose proof (ring_append _ c Hok Hlt) as Hok1. fold (typed c (cons s)) in Hr, Hl, Hok1.
  fold rd ln in Hr, Hl. rewrite Hu in Hl. set (k1 := typed c (cons s)) in *.
  assert ((cons_e k1 =? cons_r k1 +32 INPUT_BUF) = (Z.of_nat (length (rd ++ ln)) + 1 =? INPUT_BUF)) as Hfull.
  { rewrite <- L3. change (cons_e k1) with (cons_e (cons s) +32 1). change (cons_r k1) with (cons_r (cons s)).
    destruct Hok as (_ & ? & _ & ? & _). unfold INPUT_BUF, u32 in *.
    destruct (Z.eqb_spec ((cons_e (cons s) + 1) mod 2 ^ 32) ((cons_r (cons s) + 128) mod 2 ^ 32)),
      (Z.eqb_spec ((cons_e (cons s) - cons_r (cons s)) mod 2 ^ 32 + 1) 128); dlia. }
  rewrite (bind_run _ _ _ _ _ _ _ (consputc_run c e s Hs Hp)). assert (echo c = [c]) as ->.
  { unfold echo. destruct (Z.eqb_spec c BACKSPACE); [unfold BACKSPACE in *; lia|done]. }
  unfold cons_upd. rewrite step_modify, step_gets. change (cons (upd cons (typed c) (sent [c] s))) with k1. rewrite Hfull. fold wake.
  destruct wake eqn:Ew; cbn [when woken_if].
  - destruct (line_completed k1 Hok1) as [Hr2 Hl2]. exists (k1 <| cons_w := cons_e k1 |>). split_and!.
    + rewrite step_modify. rewrite wakeup_run by exact Hps. apply ret_state. unfold edited, sent. by state_eq.
    + split; [by apply ring_complete|]. rewrite Hl2. apply not_elem_of_nil.
    + by rewrite Hl2, Hr2, Hr, Hl.
  - exists k1. split_and!; [done| |by rewrite Hr, Hl]. split; [done|]. rewrite Hl, not_elem_of_app. split; [done|].
    unfold wake in Ew. destruct (Z.eqb_spec c 10); [done|]. set_solver.
Qed.

Lemma middle_run c e s : procs_ok s -> panicked s = false -> cons_ok (cons s) -> 0 <= c < 256 ->
  let '(rd, ln, cs, wake) := edit c (ready (cons s)) (line (cons s)) in
  exists k, middle c e s = Ret tt e (woken_if wake s (edited cs k s)) /\ cons_ok k /\ ready k = rd /\ line k = ln.
Proof.
  intros Hps Hp Hok Hc. pose proof (procs_ok_settled _ Hps) as Hs. destruct (ring_lengths _ (proj1 Hok)) as (_ & L2 & L3).
  unfold edit, middle. destruct (c =? ctrl_U).
  { destruct (kill_unroll e _ s eq_refl Hok Hs Hp) as (k & Hr & Hk). exists k. split; [|done].
    eapply loop_run; [exact Hr|]. destruct Hok as [(_ & _ & _ & _ & Hle) _]. rewrite length_app in L3. unfold INPUT_BUF in Hle. lia. }
  destruct (_ || _).
  { rewrite step_gets. destruct (Z.eqb_spec (cons_e (cons s)) (cons_w (cons s))) as [E|Hne]; cbn [negb].
    - assert (line (cons s) = []) as ->.
      { unfold line. by rewrite E, Z.sub_diag. }
      rewrite bool_decide_true by done. exists (cons s). cbn [woken_if when removelast]. rewrite cons_id.
      split_and!; auto. unfold line. by rewrite E, Z.sub_diag.
    - destruct (line_ok_erased _ Hok Hne) as (Hok' & Hr & Hl & Hlen & _). rewrite bool_decide_false by (intros Hn; by rewrite Hn in Hlen).
      eexists. split; [by apply erase_run|done]. }
  rewrite step_gets, L3. destruct (Z.eqb_spec c 0) as [->|Hc0]; cbn [negb andb orb].
  { exists (cons s). cbn [woken_if when]. by rewrite cons_id. }
  destruct (Z.ltb_spec (Z.of_nat (length (ready (cons s) ++ line (cons s)))) INPUT_BUF) as [Hlt|Hge].
  - rewrite (proj2 (Z.leb_gt _ _)) by done. cbn [when]. set (d := if c =? 13 then 10 else c).
    assert (0 <= d < 256) as Hd by (unfold d; destruct (c =? 13); lia).
    destruct (append_run d e s Hps Hp Hok Hd Hlt) as (k & Hr & Hk & E).
    revert Hr E. cbv zeta. fold d. destruct ((d =? 10) || (d =? ctrl_D) || _); intros Hr [= E1 E2]; exists k; (split; [exact Hr|done]).
  - rewrite (proj2 (Z.leb_le _ _)) by done. exists (cons s). cbn [woken_if when]. by rewrite cons_id.
Qed.

(** C18: the console edits the line as the user types.  Whatever character but
    control-P arrives, consoleintr() returns with the lock released; the
    completed input and the line being typed are edited as [edit] says, an
    erasure never reaches back into a completed line, nothing is stored when the
    buffer is full, a line is handed to the readers when it ends or the buffer
    is full, and the echo goes to the UART. *)
Theorem consoleintr_edits_line c e s :
  procs_ok s -> free LCons (hw s) -> panicked s = false -> cons_ok (cons s) -> 0 <= c < 256 -> c <> ctrl_P ->
  let '(rd, ln, cs, wake) := edit c (ready (cons s)) (line (cons s)) in
  exists k, consoleintr c e s = Ret tt e (woken_if wake s (edited cs k s)) /\ cons_ok k /\ ready k = rd /\ line k = ln.
Proof.
  intros Hps Hf Hp Hok Hc Hcp. pose proof (procs_ok_settled _ Hps) as Hs. rewrite (consoleintr_middle c Hcp).
  pose proof (middle_run c e (s <| hw ::= lock_h LCons |>) (procs_ok_lock s LCons Hps ltac:(done)) Hp Hok Hc) as Hm.
  change (cons (s <| hw ::= lock_h LCons |>)) with (cons s) in Hm.
  destruct (edit c (ready (cons s)) (line (cons s))) as [[[rd ln] cs] wake]. destruct Hm as (k & Hm & Hk & Hr & Hl).
  exists k. split; [|done]. rewrite (bind_run _ _ _ _ _ _ _ (acquire_run LCons e s Hs Hf)).
  rewrite (bind_run _ _ _ _ _ _ _ Hm). rewrite release_run.
  2-4: destruct wake; cbn; eauto with kernel.
  apply ret_state. destruct wake; unfold woken_if, edited, sent; state_eq; try (by rewrite unlock_lock).
  unfold wake_all. st. by rewrite cur_lock.
Qed.

End Run.

Instance platform0_ready : @TxReady platform0.
Proof. split; [done|]. cbn. lia. Qed.

(** A machine on which "ab" has been typed. *)
Definition tty_machine : kernel := machine [running 1] <| cons := mkconsole (97 :: 98 :: replicate 126 0) 0 0 2 |>.

Lemma consoleintr_edits_line_witness : exists k,
  @consoleintr platform0 RR 8 [] tty_machine = Ret tt [] (edited [8; 32; 8] k tty_machine) /\ line k = [97].
Proof.
  destruct (@consoleintr_edits_line platform0 RR platform0_ready 8 [] tty_machine) as (k & Hr & _ & _ & Hl).
  - apply (machine_procs_ok [running 1]). apply Nat.leb_le. reflexivity.
  - exists "lock"%string. reflexivity.
  - reflexivity.
  - split; [vm_compute; repeat split; congruence|]. vm_compute. intros H. repeat (apply elem_of_cons in H as [H|H]; [congruence|]). by apply elem_of_nil in H.
  - lia.
  - done.
  - exists k. split; [exact Hr|exact Hl].
Defined.
