(* ===== verification/Pipe.v ===== *)
(** * Pipes: pipe.c

    A pipe lives in a page of its own and is kept by the page's address; a
    [struct pipe*] is that address.  pipealloc() is in File.v. *)

From S2P Require Import Prelude State Machine Monad Spinlock Cstring Kalloc Vm Pagetable Proc.

Definition pipe_at (pi : Z) : M pipe :=
  o <- gets (fun s => pipes s !! pi); deref "pipe" o.

Definition pipe_upd (pi : Z) (f : pipe -> pipe) : M unit :=
  p <- pipe_at pi; modify (fun s => s <| pipes ::= <[pi := f p]> |>).

Definition killed (p : nat) : M bool := pp <- proc_at p; ret (negb (p_killed pp =? 0)).

(** [pi->data[pi->nwrite++ % PIPESIZE] = ch] *)
Definition pipe_put (ch : Z) (p : pipe) : pipe :=
  p <| pi_data ::= <[Z.to_nat (pi_nwrite p mod PIPESIZE) := ch]> |>
    <| pi_nwrite ::= fun n => n +32 1 |>.

(** [pi->data[pi->nread % PIPESIZE]] *)
Definition pipe_next (p : pipe) : Z := nth (Z.to_nat (pi_nread p mod PIPESIZE)) (pi_data p) 0.

Section Pipe.
Context `{Platform}.

Definition pipeclose (pi : Z) (writable : bool) : M unit :=
  acquire (LPipe pi) ;;
  (if writable
   then pipe_upd pi (fun p => p <| pi_writeopen := false |>) ;; wakeup (ChPipeRead pi)
   else pipe_upd pi (fun p => p <| pi_readopen := false |>) ;; wakeup (ChPipeWrite pi)) ;;
  p <- pipe_at pi;
  if negb (pi_readopen p) && negb (pi_writeopen p)
  then release (LPipe pi) ;; kfree pi
  else release (LPipe pi).

(** A round of the loop of pipewrite(): it writes byte [i] or sleeps. *)
Definition pipewrite_body (pr : nat) (pi addr n : Z) (i : Z) : M (Z + option Z) :=
  if i <? n then
    p <- pipe_at pi;
    k <- killed pr;
    if negb (pi_readopen p) || k then
      release (LPipe pi) ;; ret (inr None)
    else if pi_nwrite p =? pi_nread p +32 PIPESIZE then
      wakeup (ChPipeRead pi) ;;
      sleep (ChPipeWrite pi) (LPipe pi) ;;
      ret (inl i)
    else
      pp <- proc_at pr;
      ' (r, ch) <- copyin (p_pagetable pp) (addr +64 i) 1;
      if r =? -1 then ret (inr (Some i)) else
      pipe_upd pi (pipe_put (hd 0 ch)) ;;
      ret (inl (i + 1))
  else ret (inr (Some i)).

Definition pipewrite (pi addr n : Z) : M Z :=
  pr <- curproc;
  acquire (LPipe pi) ;;
  r <- sleep_loop (Z.to_nat n) (pipewrite_body pr pi addr n) 0;
  match r with
  | None => ret (-1)
  | Some i => wakeup (ChPipeRead pi) ;; release (LPipe pi) ;; ret i
  end.

(** A round of the loop of piperead() that copies byte [i]. *)
Definition piperead_body (pr : nat) (pi addr n : Z) (i : Z) : M (Z + Z) :=
  if i <? n then
    p <- pipe_at pi;
    if pi_nread p =? pi_nwrite p then ret (inr i) else
    let ch := pipe_next p in
    pipe_upd pi (fun p => p <| pi_nread ::= fun r => r +32 1 |>) ;;
    pp <- proc_at pr;
    r <- copyout (p_pagetable pp) (addr +64 i) [ch];
    if r =? -1 then ret (inr i) else ret (inl (i + 1))
  else ret (inr i).

Definition piperead (pi addr n : Z) : M Z :=
  pr <- curproc;
  acquire (LPipe pi) ;;
  dead <- sleep_loop 0 (fun _ =>
    p <- pipe_at pi;
    if (pi_nread p =? pi_nwrite p) && pi_writeopen p then
      k <- killed pr;
      if (k : bool) then release (LPipe pi) ;; ret (inr true)
      else sleep (ChPipeRead pi) (LPipe pi) ;; ret (inl tt)
    else ret (inr false)) tt;
  if (dead : bool) then ret (-1) else
  i <- loop (piperead_body pr pi addr n) 0;
  wakeup (ChPipeWrite pi) ;;
  release (LPipe pi) ;;
  ret i.

End Pipe.

(** ** The bytes in a pipe *)

(** The counters are 32-bit and never reduced; PIPESIZE divides 2^32, so the
    ring stays consistent when they wrap. *)
Definition pipe_len (p : pipe) : Z := pi_nwrite p -32 pi_nread p.

Definition pipe_ok (p : pipe) : Prop :=
  length (pi_data p) = Z.to_nat PIPESIZE /\ 0 <= pi_nread p < 2 ^ 32 /\ 0 <= pi_nwrite p < 2 ^ 32 /\
  pipe_len p <= PIPESIZE.

Definition content (p : pipe) : list Z :=
  (fun k => nth (Z.to_nat ((pi_nread p + Z.of_nat k) mod PIPESIZE)) (pi_data p) 0) <$>
    seq 0 (Z.to_nat (pipe_len p)).

Definition pipe_get (p : pipe) : pipe := p <| pi_nread ::= fun r => r +32 1 |>.

Lemma pipe_len_range p : 0 <= pipe_len p < 2 ^ 32.
Proof. apply Z.mod_pos_bound. lia. Qed.

Lemma length_content p : length (content p) = Z.to_nat (pipe_len p).
Proof. unfold content. by rewrite length_fmap, length_seq. Qed.

Lemma pipe_len_put ch p : pipe_ok p -> pipe_len p < PIPESIZE -> pipe_len (pipe_put ch p) = pipe_len p + 1.
Proof.
  intros (_ & Hr & Hw & _) Hl. unfold pipe_len, pipe_put, PIPESIZE, u32 in *. cbn in *. dlia.
Qed.

Lemma pipe_len_get p : pipe_ok p -> 0 < pipe_len p -> pipe_len (pipe_get p) = pipe_len p - 1.
Proof. intros (_ & Hr & Hw & _) Hl. unfold pipe_len, pipe_get, u32 in *. cbn in *. dlia. Qed.

Lemma pipe_put_ok ch p : pipe_ok p -> pipe_len p < PIPESIZE -> pipe_ok (pipe_put ch p).
Proof.
  intros Hok Hl. pose proof (pipe_len_put ch p Hok Hl). destruct Hok as (Hd & Hr & Hw & _).
  split; [cbn; by rewrite length_insert|]. split; [done|]. split; [apply Z.mod_pos_bound; lia|lia].
Qed.

Lemma pipe_get_ok p : pipe_ok p -> 0 < pipe_len p -> pipe_ok (pipe_get p).
Proof.
  intros Hok Hl. pose proof (pipe_len_get p Hok Hl). destruct Hok as (Hd & Hr & Hw & ?).
  split; [done|]. split; [apply Z.mod_pos_bound; lia|]. split; [done|lia].
Qed.

Lemma content_put ch p :
  pipe_ok p -> pipe_len p < PIPESIZE -> content (pipe_put ch p) = content p ++ [ch].
Proof.
  intros Hok Hl. unfold content. rewrite (pipe_len_put ch p Hok Hl).
  pose proof (pipe_len_range p) as Hlen. destruct Hok as (Hd & Hr & Hw & _).
  rewrite Z2Nat.inj_add, Nat.add_1_r, seq_S, fmap_app by lia. cbn [fmap list_fmap Nat.add].
  rewrite Z2Nat.id by lia.
  assert (Hw' : pi_nwrite p mod PIPESIZE = (pi_nread p + pipe_len p) mod PIPESIZE)
    by (unfold pipe_len, PIPESIZE, u32 in *; dlia).
  assert (Hi : forall k, 0 <= k mod PIPESIZE < PIPESIZE) by (intros; by apply Z.mod_pos_bound).
  f_equal.
  - apply list_fmap_ext. intros j k [-> Hk]%lookup_seq. cbn. rewrite Hw', !nth_lookup.
    rewrite list_lookup_insert_ne; [done|]. intros Heq.
    apply Z2Nat.inj in Heq; [|apply Hi..]. unfold PIPESIZE in *. dlia.
  - cbn. rewrite <- Hw', nth_lookup, list_lookup_insert_eq; [done|].
    rewrite Hd. apply Z2Nat.inj_lt; [apply Hi|done|apply Hi].
Qed.

Lemma content_get p :
  pipe_ok p -> 0 < pipe_len p -> content p = pipe_next p :: content (pipe_get p).
Proof.
  intros Hok Hl. unfold content. rewrite (pipe_len_get p Hok Hl).
  replace (Z.to_nat (pipe_len p)) with (S (Z.to_nat (pipe_len p - 1))) by lia.
  cbn [seq fmap list_fmap]. f_equal.
  - by rewrite Z.add_0_r.
  - rewrite <- fmap_S_seq, <- list_fmap_compose. apply list_fmap_ext. intros j k _. cbn.
    do 2 f_equal. unfold u32, PIPESIZE. dlia.
Qed.

(** ** Whole calls *)

Section Calls.
Context `{Platform} `{!PlatformOk}.

(** The calling process and its mapped buffer. *)
Context (pr : nat) (pp : proc) (pi addr n : Z) (lvl : gmap Z nat) (f : Z -> Z).

(** [s] is a state inside the call: the process [pr], not killed, with a page
    table that maps the buffer, and the pipe [p]. *)
Record in_pipe (s : kernel) (p : pipe) : Prop := {
  in_proc : procs s !! pr = Some pp;
  in_alive : p_killed pp = 0;
  in_pipes : pipes s !! pi = Some p;
  in_ok : pipe_ok p;
  in_shape : shape (mem s) lvl;
  in_root : lvl !! p_pagetable pp = Some 2%nat;
  in_addr : 0 <= addr /\ addr + n <= MAXVA;
  in_range : user_range (mem s) lvl (p_pagetable pp) addr n f;
}.

Lemma pipe_at_run s p e : pipes s !! pi = Some p -> pipe_at pi e s = Ret p e s.
Proof. intros Hp. unfold pipe_at. rewrite step_gets, Hp. done. Qed.

Lemma pipe_upd_run s p g e :
  pipes s !! pi = Some p -> pipe_upd pi g e s = Ret tt e (s <| pipes ::= <[pi := g p]> |>).
Proof. intros Hp. unfold pipe_upd. by rewrite (bind_run _ _ _ _ _ _ _ (pipe_at_run s p e Hp)). Qed.

Lemma killed_run s e : procs s !! pr = Some pp -> p_killed pp = 0 -> killed pr e s = Ret false e s.
Proof. intros Hp Hk. unfold killed. mrun proc_at_run. by rewrite Hk. Qed.

Lemma in_pipe_upd s p g :
  in_pipe s p -> pipe_ok (g p) -> in_pipe (s <| pipes ::= <[pi := g p]> |>) (g p).
Proof. intros [? ? ? ? ? ? ? ?] Hok. split; st; try done. by rewrite lookup_insert_eq. Qed.

(** A round that finds room. *)
Lemma pipewrite_round s p i e :
  in_pipe s p -> pi_readopen p = true -> 0 <= i < n -> pipe_len p < PIPESIZE ->
  pipewrite_body pr pi addr n i e s =
    Ret (inl (i + 1)) e (s <| pipes ::= <[pi := pipe_put (ld8 (mem s) (f (addr + i))) p]> |>).
Proof.
  intros Hin Hopen Hi Hroom. destruct Hin as [Hp Ha Hpi Hok Hsh Hroot [Had1 Had2] Hu].
  unfold pipewrite_body. rewrite (proj2 (Z.ltb_lt i n)) by lia.
  rewrite (bind_run _ _ _ _ _ _ _ (pipe_at_run s p e Hpi)).
  rewrite (bind_run _ _ _ _ _ _ _ (killed_run s e Hp Ha)). rewrite Hopen. cbn [negb orb].
  assert (pi_nwrite p =? pi_nread p +32 PIPESIZE = false) as ->.
  { apply Z.eqb_neq. destruct Hok as (_ & Hr & Hw & _). unfold pipe_len, PIPESIZE, u32 in *. dlia. }
  mrun proc_at_run. change MAXVA with (2 ^ 38) in *. rewrite u64_small by lia.
  rewrite (bind_run _ _ _ _ (0, [ld8 (mem s) (f (addr + i))]) e s).
  2:{ rewrite (copyin_run _ _ _ lvl f); [done|done|done|lia|lia|change MAXVA with (2 ^ 38); lia|].
      intros k Hk. rewrite <- Z.add_assoc. apply Hu. lia. }
  cbv iota beta. change (0 =? -1) with false. cbv iota.
  by rewrite (bind_run _ _ _ _ _ _ _ (pipe_upd_run s p _ e Hpi)).
Qed.

Lemma pipewrite_unroll k s p i e :
  in_pipe s p -> pi_readopen p = true -> 0 <= i -> i + Z.of_nat k = n ->
  pipe_len p + Z.of_nat k <= PIPESIZE ->
  exists p', unroll (S k) (pipewrite_body pr pi addr n) i e s =
      Ret (inr (Some n)) e (s <| pipes ::= <[pi := p']> |>) /\ pipe_ok p' /\
    content p' = content p ++ uload f (mem s) (addr + i) k.
Proof.
  revert s p i. induction k as [|k IH]; intros s p i Hin Hopen Hi Hk Hroom; rewrite unroll_S.
  - exists p. unfold pipewrite_body. rewrite (proj2 (Z.ltb_ge i n)) by lia. rewrite step_ret.
    split; [|split; [apply Hin|by rewrite app_nil_r]]. replace i with n by lia.
    apply ret_state. state_eq. symmetry. apply insert_id. apply Hin.
  - set (ch := ld8 (mem s) (f (addr + i))).
    rewrite (bind_run _ _ _ _ _ _ _ (pipewrite_round s p i e Hin Hopen ltac:(lia) ltac:(lia))).
    fold ch. cbv iota. pose proof (in_ok _ _ Hin) as Hok.
    destruct (IH (s <| pipes ::= <[pi := pipe_put ch p]> |>) (pipe_put ch p) (i + 1))
      as (p' & Hr & Hok' & Hc).
    + apply in_pipe_upd; [done|]. apply pipe_put_ok; [done|lia].
    + done.
    + lia.
    + lia.
    + rewrite pipe_len_put by (done || lia). lia.
    + exists p'. split; [|split; [done|]].
      * rewrite Hr. apply ret_state. state_eq. by rewrite insert_insert_eq.
      * rewrite Hc, content_put by (done || lia). st. cbn [uload]. fold ch.
        rewrite <- app_assoc, Z.add_assoc. done.
Qed.

Lemma in_pipe_get s p i ch :
  in_pipe s p -> pipe_ok (pipe_get p) -> 0 <= i < n ->
  in_pipe (s <| pipes ::= <[pi := pipe_get p]> |> <| mem ::= st8 (f (addr + i)) ch |>) (pipe_get p).
Proof.
  intros [? ? ? ? Hsh Hroot ? Hu] Hok Hi. split; st; try done.
  1: by rewrite lookup_insert_eq.
  all: assert (Hsame : same_tables lvl (mem s) (st8 (f (addr + i)) ch (mem s)))
    by (intros q a Hq Ha; apply ld8_st8_ne; destruct (Hu i Hi) as (_ & _ & Hout);
        intros <-; by apply (Hout q Hq)).
  - by eapply shape_same_tables.
  - by eapply user_range_same.
Qed.

Lemma piperead_round s p i e :
  in_pipe s p -> 0 <= i < n -> 0 < pipe_len p ->
  piperead_body pr pi addr n i e s =
    Ret (inl (i + 1)) e (s <| pipes ::= <[pi := pipe_get p]> |>
                           <| mem ::= st8 (f (addr + i)) (pipe_next p) |>).
Proof.
  intros Hin Hi Hpos. pose proof Hin as [Hp Ha Hpi Hok Hsh Hroot [Had1 Had2] Hu].
  unfold piperead_body. rewrite (proj2 (Z.ltb_lt i n)) by lia.
  rewrite (bind_run _ _ _ _ _ _ _ (pipe_at_run s p e Hpi)).
  assert (pi_nread p =? pi_nwrite p = false) as ->.
  { apply Z.eqb_neq. intros Heq. unfold pipe_len in Hpos. rewrite Heq, Z.sub_diag in Hpos. done. }
  cbv zeta. rewrite (bind_run _ _ _ _ _ _ _ (pipe_upd_run s p _ e Hpi)). fold (pipe_get p).
  mrun proc_at_run. change MAXVA with (2 ^ 38) in *. rewrite u64_small by lia.
  erewrite bind_run.
  2:{ eapply (copyout_run _ _ _ lvl f); [exact Hsh|exact Hroot|lia|cbn; change MAXVA with (2 ^ 38); lia|].
      intros k Hk. rewrite <- Z.add_assoc. apply Hu. cbn in Hk. lia. }
  done.
Qed.

Lemma piperead_unroll k s p i e :
  in_pipe s p -> 0 <= i -> i + Z.of_nat k <= n -> Z.of_nat k <= pipe_len p ->
  (i + Z.of_nat k = n \/ Z.of_nat k = pipe_len p) ->
  exists p', unroll (S k) (piperead_body pr pi addr n) i e s =
      Ret (inr (i + Z.of_nat k)) e
        (s <| pipes ::= <[pi := p']> |> <| mem ::= ustore f (addr + i) (take k (content p)) |>) /\
    pipe_ok p' /\ content p' = drop k (content p).
Proof.
  revert s p i. induction k as [|k IH]; intros s p i Hin Hi Hk Hlen Hend; rewrite unroll_S.
  - exists p. split; [|split; [apply Hin|done]]. rewrite Z.add_0_r.
    rewrite (bind_run _ _ _ _ (inr i) e s).
    + apply ret_state. state_eq. symmetry. apply insert_id. apply Hin.
    + unfold piperead_body. destruct (Z.ltb_spec i n) as [Hlt|]; [|done].
      rewrite (bind_run _ _ _ _ _ _ _ (pipe_at_run s p e (in_pipes _ _ Hin))).
      assert (pi_nread p = pi_nwrite p) as ->; [|by rewrite Z.eqb_refl].
      destruct (in_ok _ _ Hin) as (_ & Hr & Hw & _). destruct Hend as [|Hz]; [lia|].
      unfold pipe_len, u32 in Hz. dlia.
  - pose proof (in_ok _ _ Hin) as Hok. assert (Hpos : 0 < pipe_len p) by lia.
    rewrite (bind_run _ _ _ _ _ _ _ (piperead_round s p i e Hin ltac:(lia) Hpos)). cbv iota.
    destruct (IH _ _ (i + 1) (in_pipe_get s p i (pipe_next p) Hin (pipe_get_ok p Hok Hpos) ltac:(lia)))
      as (p' & Hr & Hok' & Hc).
    + lia.
    + lia.
    + rewrite pipe_len_get by done. lia.
    + rewrite pipe_len_get by done. lia.
    + rewrite (content_get p) by done. exists p'. split; [|split; [done|exact Hc]].
      rewrite Hr. replace (i + 1 + Z.of_nat k) with (i + Z.of_nat (S k)) by lia.
      apply ret_state. state_eq.
      * cbn [take ustore]. by rewrite Z.add_assoc.
      * by rewrite insert_insert_eq.
Qed.

Lemma in_pipe_hw s p h : in_pipe s p -> in_pipe (s <| hw := h |>) p.
Proof. by intros [? ? ? ? ? ? ? ?]. Qed.

(** The lock discipline of a call: nothing is held. *)
Definition can_call (s : kernel) : Prop :=
  quiet pr (hw s) /\ procs_ok s /\ free (LPipe pi) (hw s).

Lemma can_call_lock s : can_call s -> procs_ok (s <| hw ::= lock_h (LPipe pi) |>).
Proof. intros (_ & Hok & _). by apply procs_ok_lock. Qed.

(** Wake the other side and release the lock. *)
Lemma pipe_done {A} s ch (r : A) e (t : kernel) :
  can_call s -> procs t = procs s -> hw t = lock_h (LPipe pi) (hw s) -> ticks t = ticks s ->
  (wakeup ch ;; release (LPipe pi) ;; ret r) e t =
    Ret r e (t <| procs := wake_all ch s |> <| hw := hw s |>).
Proof.
  intros Hc Hps Hhw Ht. pose proof (can_call_lock s Hc) as Hok. destruct Hc as ((Hs & _) & _ & Hf).
  erewrite bind_run.
  2:{ apply wakeup_run. destruct Hok as (Hl & Hs' & Hf'). split; [by rewrite Hps|].
      rewrite Hhw. split; [exact Hs'|exact Hf']. }
  erewrite bind_run by (apply release_run; st; rewrite Hhw; eauto with kernel).
  apply ret_state. state_eq.
  - by rewrite Hhw, unlock_lock.
  - unfold wake_all. by rewrite Hps, Hhw, cur_lock, Ht.
Qed.

End Calls.

(** ** Theorems *)

Section Theorems.
Context `{Platform} `{!PlatformOk}.

(** C35: pipewrite() of [n] bytes that fit into the pipe appends exactly the
    [n] bytes of the user buffer, also where the 32-bit counters wrap, wakes
    the readers and returns [n] without sleeping. *)
Theorem pipewrite_appends pr pp pi addr n lvl f p e s :
  can_call pr pi s -> in_pipe pr pp pi addr n lvl f s p -> pi_readopen p = true ->
  0 <= n -> pipe_len p + n <= PIPESIZE ->
  exists p', pipewrite pi addr n e s =
      Ret n e (s <| pipes ::= <[pi := p']> |> <| procs := wake_all (ChPipeRead pi) s |>) /\
    pipe_ok p' /\ content p' = content p ++ uload f (mem s) addr (Z.to_nat n).
Proof.
  intros Hc Hin Hopen Hn Hroom. pose proof Hc as ((Hs & Hcur & _) & Hok & Hf).
  set (s1 := s <| hw := lock_h (LPipe pi) (hw s) |>).
  destruct (pipewrite_unroll pr pp pi addr n lvl f (Z.to_nat n) s1 p 0 e) as (p' & Hr & Hok' & Hct).
  { by apply in_pipe_hw. } { done. } { lia. } { lia. } { lia. }
  exists p'. rewrite Z.add_0_r in Hct. split; [|done]. unfold pipewrite. mrun curproc_run.
  rewrite (bind_run _ _ _ _ tt e s1) by (rewrite acquire_run by done; by apply ret_state; state_eq).
  erewrite bind_run by (unfold sleep_loop; eapply while_run; [exact Hr|lia]). cbv iota.
  rewrite (pipe_done pr pi s) by done. apply ret_state. unfold s1. by state_eq.
Qed.

(** C36: piperead() of [n] bytes from a non-empty pipe takes the first
    [min n (length)] bytes written, in order, stores them in the user buffer,
    leaves the rest in the pipe, wakes the writers and returns the count. *)
Theorem piperead_takes_first pr pp pi addr n lvl f p e s :
  can_call pr pi s -> in_pipe pr pp pi addr n lvl f s p -> 0 <= n -> 0 < pipe_len p ->
  let k := Z.to_nat (Z.min n (pipe_len p)) in
  exists p', piperead pi addr n e s =
      Ret (Z.of_nat k) e (s <| pipes ::= <[pi := p']> |> <| procs := wake_all (ChPipeWrite pi) s |>
                            <| mem ::= ustore f addr (take k (content p)) |>) /\
    pipe_ok p' /\ content p' = drop k (content p).
Proof.
  intros Hc Hin Hn Hpos k. pose proof Hc as ((Hs & Hcur & _) & Hok & Hf).
  set (s1 := s <| hw := lock_h (LPipe pi) (hw s) |>).
  destruct (piperead_unroll pr pp pi addr n lvl f k s1 p 0 e) as (p' & Hr & Hok' & Hct).
  { by apply in_pipe_hw. } { lia. } { lia. } { lia. } { lia. }
  exists p'. rewrite Z.add_0_r in Hr. split; [|done]. unfold piperead. mrun curproc_run.
  rewrite (bind_run _ _ _ _ tt e s1) by (rewrite acquire_run by done; by apply ret_state; state_eq).
  rewrite (bind_run _ _ _ _ false e s1).
  2:{ unfold sleep_loop. apply while_run with 1%nat; [|lia]. cbn [unroll].
      rewrite bind_assoc. rewrite (bind_run _ _ _ _ _ _ _ (pipe_at_run pi s1 p e (in_pipes _ _ _ _ _ _ _ _ _ Hin))).
      assert (pi_nread p =? pi_nwrite p = false) as ->; [|done].
      apply Z.eqb_neq. intros Heq. unfold pipe_len in Hpos. rewrite Heq, Z.sub_diag in Hpos. done. }
  erewrite bind_run by (eapply loop_run; [exact Hr|]; unfold k, PIPESIZE in *;
    destruct (in_ok _ _ _ _ _ _ _ _ _ Hin) as (_ & _ & _ & Hlen); unfold PIPESIZE in Hlen; lia).
  rewrite (pipe_done pr pi s) by done. apply ret_state. unfold s1. state_eq.
Qed.

End Theorems.

(** A process with a mapped buffer and a pipe whose counters are about to wrap. *)
Definition pipe0 (nread nwrite : Z) : pipe := mkpipe (replicate (Z.to_nat PIPESIZE) 7) nread nwrite true true.

Definition pipe_machine (m : gmap Z Z) (p : pipe) : kernel :=
  machine [running 1 <| p_pagetable := root0 |>] <| mem := m |> <| pipes := {[0x80400000 := p]} |>
    <| hw ::= fun h => h <| locks ::= <[LPipe 0x80400000 := unlocked "pipe"]> |> |>.

Lemma pipe_machine_call m p : can_call 0 0x80400000 (pipe_machine m p).
Proof.
  assert (procs_ok (machine [running 1])) as (Hl & Hs & Hf) by (apply machine_procs_ok; vm_compute; lia).
  assert (Hf' : forall i, (i < NPROC)%nat -> free (LProc i) (hw (pipe_machine m p))).
  { intros i Hi. destruct (Hf i Hi) as [name Hn]. exists name. cbn.
    rewrite lookup_insert_ne by discriminate. exact Hn. }
  assert (settled (hw (pipe_machine m p))) by (exists cpu0; repeat split; done).
  split; [|split].
  - split; [done|]. split; [reflexivity|]. split; [apply Hf'; vm_compute; lia|reflexivity].
  - split; [exact Hl|]. split; [done|exact Hf'].
  - exists "pipe"%string. cbn. apply lookup_insert_eq.
Qed.

Lemma pipe_machine_in m lvl p n :
  @shape platform0 m lvl -> lvl !! root0 = Some 2%nat -> pipe_ok p -> 0 <= n <= 4096 ->
  user_range m lvl root0 0x1000 n user0 ->
  @in_pipe platform0 0 (running 1 <| p_pagetable := root0 |>) 0x80400000 0x1000 n lvl user0
    (pipe_machine m p) p.
Proof.
  intros Hs Hr Hp Hn Hu. split; [reflexivity|reflexivity|apply lookup_singleton_eq|exact Hp|exact Hs|exact Hr| |exact Hu].
  change MAXVA with (2 ^ 38). lia.
Qed.

Lemma pipewrite_appends_witness :
  exists s p' bytes, pipewrite 0x80400000 0x1000 5 [] s = Ret 5 []
      (s <| pipes ::= <[0x80400000 := p']> |> <| procs := wake_all (ChPipeRead 0x80400000) s |>) /\
    length bytes = 5%nat /\ content p' = bytes.
Proof.
  destruct user0_memory as (m & lvl & Hs & Hr & Hu).
  assert (Hok : pipe_ok (pipe0 (2 ^ 32 - 2) (2 ^ 32 - 2))) by (vm_compute; repeat split; congruence).
  destruct (@pipewrite_appends platform0 platform0_ok 0 _ _ _ 5 lvl user0 _ [] _
    (pipe_machine_call m (pipe0 (2 ^ 32 - 2) (2 ^ 32 - 2)))
    (pipe_machine_in m lvl _ 5 Hs Hr Hok ltac:(lia) (Hu 0x1000 5 ltac:(lia) ltac:(lia))))
    as (p' & Hrun & _ & Hc); [reflexivity|lia|vm_compute; congruence|].
  eexists _, p', _. split; [exact Hrun|]. split; [|exact Hc]. reflexivity.
Defined.

Lemma piperead_takes_first_witness :
  exists s s' p', piperead 0x80400000 0x1000 10 [] s = Ret 3 [] s' /\ content p' = [].
Proof.
  destruct user0_memory as (m & lvl & Hs & Hr & Hu).
  assert (Hok : pipe_ok (pipe0 (2 ^ 32 - 2) 1)) by (vm_compute; repeat split; congruence).
  destruct (@piperead_takes_first platform0 platform0_ok 0 _ _ _ 10 lvl user0 _ [] _
    (pipe_machine_call m (pipe0 (2 ^ 32 - 2) 1))
    (pipe_machine_in m lvl _ 10 Hs Hr Hok ltac:(lia) (Hu 0x1000 10 ltac:(lia) ltac:(lia))))
    as (p' & Hrun & _ & Hc); [lia|reflexivity|].
  eexists _, _, p'. split; [exact Hrun|]. rewrite Hc. reflexivity.
Defined.
