(* ===== verification/File.v ===== *)
(** * Open files: file.c, and pipealloc() of pipe.c

    A [struct file*] is an index into [ftable]. *)

From S2P Require Import Prelude State Monad Spinlock Cstring Kalloc Vm Proc Sleeplock Virtio.
From S2P Require Import Bio Log Fs Console Pipe.

Definition file_at (f : nat) : M file :=
  o <- gets (fun s => ftable s !! f); deref "file" o.

Definition file_upd (f : nat) (g : file -> file) : M unit :=
  modify (fun s => s <| ftable ::= alter g f |>).

Definition fileinit : M unit := initlock LFtable "ftable".

Definition filealloc : M (option nat) :=
  acquire LFtable ;;
  r <- for_find (seq 0 NFILE) (fun f =>
    ff <- file_at f;
    if f_ref ff =? 0 then file_upd f (fun f => f <| f_ref := 1 |>) ;; ret (Some f)
    else ret None);
  release LFtable ;;
  ret r.

Definition filedup (f : nat) : M nat :=
  acquire LFtable ;;
  ff <- file_at f;
  if f_ref ff <? 1 then panic "filedup" else
  file_upd f (fun f => f <| f_ref ::= fun r => r + 1 |>) ;;
  release LFtable ;;
  ret f.

(** Is there a device behind the major number?  consoleinit() enters the only
    one. *)
Definition devsw_ok (major : Z) : M bool :=
  c <- gets devsw_console;
  ret (negb ((major <? 0) || (NDEV <=? major)) && (c && (major =? CONSOLE))).

Section File.
Context `{Platform} `{Disk}.

Definition fileclose (f : nat) : M unit :=
  acquire LFtable ;;
  ff <- file_at f;
  if f_ref ff <? 1 then panic "fileclose" else
  file_upd f (fun f => f <| f_ref ::= fun r => r - 1 |>) ;;
  if 0 <? f_ref ff - 1 then release LFtable else
  file_upd f (fun f => f <| f_ref := 0 |> <| f_type := FD_NONE |>) ;;
  release LFtable ;;
  match f_type ff with
  | FD_PIPE => pipeclose (f_pipe ff) (f_writable ff)
  | FD_INODE | FD_DEVICE =>
      begin_op ;;
      ip <- deref "ff.ip" (f_ip ff);
      iput ip ;;
      end_op
  | FD_NONE => ret tt
  end.

Definition filestat (f : nat) (addr : Z) : M Z :=
  p <- curproc;
  ff <- file_at f;
  match f_type ff with
  | FD_INODE | FD_DEVICE =>
      ilock_ptr (f_ip ff) ;;
      ip <- deref "f->ip" (f_ip ff);
      n <- inode_at ip;
      iunlock ip ;;
      pp <- proc_at p;
      r <- copyout (p_pagetable pp) addr (stati n);
      if r <? 0 then ret (-1) else ret 0
  | _ => ret (-1)
  end.

Definition fileread (f : nat) (addr n : Z) : M Z :=
  ff <- file_at f;
  if negb (f_readable ff) then ret (-1) else
  match f_type ff with
  | FD_PIPE => piperead (f_pipe ff) addr n
  | FD_DEVICE =>
      ok <- devsw_ok (f_major ff);
      if negb ok then ret (-1) else consoleread (DUser addr) n
  | FD_INODE =>
      ilock_ptr (f_ip ff) ;;
      ip <- deref "f->ip" (f_ip ff);
      ff <- file_at f;
      ' (r, _) <- readi ip (DUser addr) (f_off ff) (u32 n);
      when (0 <? r) (file_upd f (fun f => f <| f_off ::= fun o => o +32 r |>)) ;;
      iunlock ip ;;
      ret r
  | FD_NONE => panic "fileread"
  end.

(** The bytes of a write that fit into one transaction. *)
Definition write_max : Z := ((MAXOPBLOCKS - 1 - 1 - 2) / 2) * BSIZE.

Definition filewrite (f : nat) (addr n : Z) : M Z :=
  ff <- file_at f;
  if negb (f_writable ff) then ret (-1) else
  match f_type ff with
  | FD_PIPE => pipewrite (f_pipe ff) addr n
  | FD_DEVICE =>
      ok <- devsw_ok (f_major ff);
      if negb ok then ret (-1) else consolewrite (SUser addr) n
  | FD_INODE =>
      i <- loop (fun i =>
        if i <? n then
          let n1 := Z.min (n - i) write_max in
          begin_op ;;
          ilock_ptr (f_ip ff) ;;
          ip <- deref "f->ip" (f_ip ff);
          ff <- file_at f;
          r <- writei ip (SUser (addr +64 i)) (f_off ff) n1;
          when (0 <? r) (file_upd f (fun f => f <| f_off ::= fun o => o +32 r |>)) ;;
          iunlock ip ;;
          end_op ;;
          if negb (r =? n1) then ret (inr i) else ret (inl (i + r))
        else ret (inr i)) 0;
      ret (if i =? n then n else -1)
  | FD_NONE => panic "filewrite"
  end.

(** The pipe in a page kalloc() has filled with 5s. *)
Definition pipe_new : pipe := mkpipe (replicate (Z.to_nat PIPESIZE) 5) 0 0 true true.

(** The two files, [None] on failure. *)
Definition pipealloc : M (option (nat * nat)) :=
  let bad f0 f1 :=
    match f0 with Some f => fileclose f | None => ret tt end ;;
    match f1 with Some f => fileclose f | None => ret tt end ;;
    ret None in
  o0 <- filealloc;
  match o0 with
  | None => bad None None
  | Some f0 =>
      o1 <- filealloc;
      match o1 with
      | None => bad (Some f0) None
      | Some f1 =>
          pi <- kalloc;
          if pi =? 0 then bad (Some f0) (Some f1) else
          modify (fun s => s <| pipes ::= <[pi := pipe_new]> |>) ;;
          initlock (LPipe pi) "pipe" ;;
          file_upd f0 (fun f => f <| f_type := FD_PIPE |> <| f_readable := true |>
                                  <| f_writable := false |> <| f_pipe := pi |>) ;;
          file_upd f1 (fun f => f <| f_type := FD_PIPE |> <| f_readable := false |>
                                  <| f_writable := true |> <| f_pipe := pi |>) ;;
          ret (Some (f0, f1))
      end
  end.

End File.
