(* ===== verification/Procsys.v ===== *)
(** * Creating, ending and waiting for processes: proc.c

    userinit(), growproc(), fork(), exit(), wait() and waitx().  exit() does
    not return: a run of it that does not panic ends switched out ([Away]). *)

From S2P Require Import Prelude State Monad Spinlock Cstring Kalloc Vm Proc Sleeplock Virtio.
From S2P Require Import Bio Log Fs Console Pipe File.

(** The program of the first process: it calls exec("/init"). *)
Definition initcode : list Z :=
  [0x17; 0x05; 0x00; 0x00; 0x13; 0x05; 0x45; 0x02;
   0x97; 0x05; 0x00; 0x00; 0x93; 0x85; 0x35; 0x02;
   0x93; 0x08; 0x70; 0x00; 0x73; 0x00; 0x00; 0x00;
   0x93; 0x08; 0x20; 0x00; 0x73; 0x00; 0x00; 0x00;
   0xef; 0xf0; 0x9f; 0xff; 0x2f; 0x69; 0x6e; 0x69;
   0x74; 0x00; 0x00; 0x24; 0x00; 0x00; 0x00; 0x00;
   0x00; 0x00; 0x00; 0x00].

Section Procsys.
Context `{Platform} `{Disk}.

Definition userinit : M unit :=
  o <- allocproc;
  modify (fun s => s <| initproc := o |>) ;;
  p <- deref "allocproc" o;
  pp <- proc_at p;
  uvminit (p_pagetable pp) initcode (Z.of_nat (length initcode)) ;;
  proc_upd p (fun p => p <| p_sz := PGSIZE |>) ;;
  tf_upd (p_trapframe pp) (fun tf => tf <| tf_epc := 0 |> <| tf_sp := PGSIZE |>) ;;
  proc_upd p (fun p => p <| p_name ::= fun nm => safestrcpy nm (bytes_of "initcode") 16 |>) ;;
  cwd <- namei (bytes_of "/");
  proc_upd p (fun p => p <| p_cwd := cwd |> <| p_state := RUNNABLE |>) ;;
  release (LProc p).

(** The size is a [uint] here, although [p->sz] has 64 bits. *)
Definition growproc (n : Z) : M Z :=
  p <- curproc;
  pp <- proc_at p;
  let sz := u32 (p_sz pp) in
  if 0 <? n then
    r <- uvmalloc (p_pagetable pp) sz (sz +32 n);
    if u32 r =? 0 then ret (-1)
    else proc_upd p (fun p => p <| p_sz := u32 r |>) ;; ret 0
  else if n <? 0 then
    r <- uvmdealloc (p_pagetable pp) sz (sz +32 n);
    proc_upd p (fun p => p <| p_sz := u32 r |>) ;; ret 0
  else
    proc_upd p (fun p => p <| p_sz := sz |>) ;; ret 0.

(** ** fork() *)

Definition fork : M Z :=
  p <- curproc;
  o <- allocproc;
  match o with
  | None => ret (-1)
  | Some np =>
      pp <- proc_at p;
      npp <- proc_at np;
      r <- uvmcopy (p_pagetable pp) (p_pagetable npp) (p_sz pp);
      if r <? 0 then
        freeproc np ;; release (LProc np) ;; ret (-1)
      else
      proc_upd np (fun c => c <| p_sz := p_sz pp |>) ;;
      tf <- tf_at (p_trapframe pp);
      tf_upd (p_trapframe npp) (fun _ => tf) ;;
      tf_upd (p_trapframe npp) (fun tf => tf <| tf_a0 := 0 |>) ;;
      for_ (seq 0 NOFILE) (fun i =>
        pp <- proc_at p;
        fo <- deref "p->ofile" (p_ofile pp !! i);
        match fo with
        | Some f => f <- filedup f; proc_upd np (fun c => c <| p_ofile ::= <[i := Some f]> |>)
        | None => ret tt
        end) ;;
      cwd <- deref "p->cwd" (p_cwd pp);
      cwd <- idup cwd;
      proc_upd np (fun c => c <| p_cwd := Some cwd |>) ;;
      proc_upd np (fun c => c <| p_name ::= fun nm => safestrcpy nm (p_name pp) 16 |>) ;;
      let pid := p_pid npp in
      release (LProc np) ;;
      acquire LWait ;;
      proc_upd np (fun c => c <| p_parent := Some p |> <| p_mask := p_mask pp |>
                              <| p_queue := p_queue pp |>) ;;
      release LWait ;;
      acquire (LProc np) ;;
      proc_upd np (fun c => c <| p_state := RUNNABLE |>) ;;
      release (LProc np) ;;
      ret pid
  end.

(** ** exit() *)

(** The channel [wakeup(p)] of a [struct proc*] that may be null. *)
Definition chan_of (p : option nat) : chan :=
  match p with Some p => ChProc p | None => ChNull end.

Definition reparent (p : nat) : M unit :=
  for_ (seq 0 NPROC) (fun pp =>
    q <- proc_at pp;
    when (bool_decide (p_parent q = Some p))
      (ip <- gets initproc;
       proc_upd pp (fun q => q <| p_parent := ip |>) ;;
       wakeup (chan_of ip))).

Definition exit {A} (status : Z) : M A :=
  p <- curproc;
  ip <- gets initproc;
  if bool_decide (Some p = ip) then panic "init exiting" else
  for_ (seq 0 NOFILE) (fun fd =>
    pp <- proc_at p;
    fo <- deref "p->ofile" (p_ofile pp !! fd);
    match fo with
    | Some f => fileclose f ;; proc_upd p (fun p => p <| p_ofile ::= <[fd := None]> |>)
    | None => ret tt
    end) ;;
  begin_op ;;
  pp <- proc_at p;
  cwd <- deref "p->cwd" (p_cwd pp);
  iput cwd ;;
  end_op ;;
  proc_upd p (fun p => p <| p_cwd := None |>) ;;
  acquire LWait ;;
  reparent p ;;
  pp <- proc_at p;
  wakeup (chan_of (p_parent pp)) ;;
  acquire (LProc p) ;;
  now <- gets ticks;
  proc_upd p (fun p => p <| p_xstate := status |> <| p_state := ZOMBIE |> <| p_etime := now |>) ;;
  release LWait ;;
  sched ;;
  panic "zombie exit".

(** ** wait() and waitx()

    The two functions have the same body, but that waitx() also records the
    times of the zombie it found; [times] is what is recorded. *)

Section Wait.
Context {T : Type} (times : proc -> T).

(** The scan of the table: have we children, and the value to return, if any,
    with the recorded times. *)
Definition wait_scan (p : nat) (addr : Z) : M (bool * option (Z * T)) :=
  for_fold (seq 0 NPROC) (fun '(havekids, r) np =>
    match r with
    | Some _ => ret (havekids, r)
    | None =>
        npp <- proc_at np;
        if bool_decide (p_parent npp = Some p) then
          acquire (LProc np) ;;
          npp <- proc_at np;
          if bool_decide (p_state npp = ZOMBIE) then
            let pid := p_pid npp in
            pp <- proc_at p;
            bad <- (if negb (addr =? 0)
                    then r <- copyout (p_pagetable pp) addr (le_bytes 4 (p_xstate npp)); ret (r <? 0)
                    else ret false);
            if (bad : bool) then
              release (LProc np) ;; release LWait ;; ret (true, Some (-1, times npp))
            else
              freeproc np ;; release (LProc np) ;; release LWait ;;
              ret (true, Some (pid, times npp))
          else
            release (LProc np) ;; ret (true, None)
        else ret (havekids, None)
    end) (false, None).

Definition wait_loop (addr : Z) : M (Z * option T) :=
  p <- curproc;
  acquire LWait ;;
  sleep_loop 0 (fun _ =>
    ' (havekids, r) <- wait_scan p addr;
    match r with
    | Some (pid, t) => ret (inr (pid, Some t))
    | None =>
        pp <- proc_at p;
        if negb havekids || negb (p_killed pp =? 0) then
          release LWait ;; ret (inr (-1, None))
        else
          sleep (ChProc p) LWait ;; ret (inl tt)
    end) tt.

End Wait.

Definition wait (addr : Z) : M Z :=
  ' (pid, _) <- wait_loop (fun _ => tt) addr; ret pid.

(** The result, and what is stored through [rtime] and [wtime], in this order;
    nothing is stored when no zombie is found. *)
Definition waitx (addr : Z) : M (Z * option (Z * Z)) :=
  wait_loop (fun np => (p_rtime np, u32 (p_etime np - p_ctime np - p_rtime np))) addr.

End Procsys.
