(* ===== verification/Exec.v ===== *)
(** * exec(): exec.c

    [argv] is the list of the kernel pages holding the argument strings. *)

From S2P Require Import Prelude State Monad Spinlock Cstring Kalloc Vm Proc Sleeplock Virtio.
From S2P Require Import Bio Log Fs Console Pipe File.

(** ** elf.h *)

Definition ELF_MAGIC : Z := 0x464C457F.
Definition ELF_PROG_LOAD : Z := 1.

Definition elf_magic (elf : list Z) : Z := get32 elf 0.
Definition elf_entry (elf : list Z) : Z := get64 elf 24.
Definition elf_phoff (elf : list Z) : Z := get64 elf 32.
Definition elf_phnum (elf : list Z) : Z := get16 elf 56.
Definition ELFHDR : Z := 64.

Definition ph_type (ph : list Z) : Z := get32 ph 0.
Definition ph_off (ph : list Z) : Z := get64 ph 8.
Definition ph_vaddr (ph : list Z) : Z := get64 ph 16.
Definition ph_filesz (ph : list Z) : Z := get64 ph 32.
Definition ph_memsz (ph : list Z) : Z := get64 ph 40.
Definition PROGHDR : Z := 56.

(** The string at the start of a page. *)
Definition page_str (pa : Z) : M (list Z) := gets (fun s => cstr (bytes_at (mem s) pa PGBYTES)).

(** [for(last=s=path; *s; s++) if( *s == '/') last = s+1;] *)
Fixpoint basename (path last : list Z) : list Z :=
  match path with
  | [] => last
  | c :: path =>
      if c =? 0 then last
      else if c =? slash then basename path path else basename path last
  end.

Section Exec.
Context `{Platform} `{Disk}.

Definition loadseg (pagetable va : Z) (ip : nat) (offset sz : Z) : M Z :=
  loop (fun i =>
    if i <? sz then
      pa <- walkaddr pagetable (va +64 i);
      if pa =? 0 then panic "loadseg: address should exist" else
      let n := if sz - i <? PGSIZE then sz - i else PGSIZE in
      ' (r, _) <- readi ip (DPhys pa) (offset +32 i) n;
      if negb (u32 r =? n) then ret (inr (-1)) else ret (inl (i +32 PGSIZE))
    else ret (inr 0)) 0.

(** The loop over the program headers: [inl sz] goes to [bad] with the size
    reached, [inr sz] is the size of the loaded image. *)
Definition load_segments (pagetable : Z) (ip : nat) (elf : list Z) : M (Z + Z) :=
  loop (fun '(i, off, sz) =>
    if i <? elf_phnum elf then
      ' (r, ph) <- readi ip DLocal (u32 off) PROGHDR;
      if negb (r =? PROGHDR) then ret (inr (inl sz)) else
      if negb (ph_type ph =? ELF_PROG_LOAD) then ret (inl (i + 1, s32 (off + PROGHDR), sz)) else
      if ph_memsz ph <? ph_filesz ph then ret (inr (inl sz)) else
      if ph_vaddr ph +64 ph_memsz ph <? ph_vaddr ph then ret (inr (inl sz)) else
      sz1 <- uvmalloc pagetable sz (ph_vaddr ph +64 ph_memsz ph);
      if sz1 =? 0 then ret (inr (inl sz)) else
      if negb (ph_vaddr ph mod PGSIZE =? 0) then ret (inr (inl sz1)) else
      r <- loadseg pagetable (ph_vaddr ph) ip (u32 (ph_off ph)) (u32 (ph_filesz ph));
      if r <? 0 then ret (inr (inl sz1))
      else ret (inl (i + 1, s32 (off + PROGHDR), sz1))
    else ret (inr (inr sz))) (0, s32 (elf_phoff elf), 0).

(** Push the argument strings: [None] goes to [bad], else the stack pointer
    and the addresses of the strings. *)
Fixpoint push_args (pagetable stackbase sp argc : Z) (argv : list Z) (ustack : list Z)
    : M (option (Z * list Z)) :=
  match argv with
  | [] => ret (Some (sp, ustack))
  | pa :: argv =>
      if Z.of_nat MAXARG <=? argc then ret None else
      str <- page_str pa;
      let sp := u64 (sp - (strlen str + 1)) in
      let sp := sp - sp mod 16 in
      if sp <? stackbase then ret None else
      r <- copyout pagetable sp (str ++ [0]);
      if r <? 0 then ret None
      else push_args pagetable stackbase sp (argc + 1) argv (ustack ++ [sp])
  end.

(** The label [bad:]. *)
Definition exec_bad (pagetable sz : Z) (ip : option nat) : M Z :=
  when (negb (pagetable =? 0)) (proc_freepagetable pagetable sz) ;;
  match ip with
  | Some ip => iunlockput ip ;; end_op
  | None => ret tt
  end ;;
  ret (-1).

(** From "Allocate two pages at the next page boundary" on. *)
Definition exec_image (path : list Z) (argv : list Z) (elf : list Z) (pagetable sz : Z) : M Z :=
  p <- curproc;
  pp <- proc_at p;
  let oldsz := p_sz pp in
  let sz := PGROUNDUP sz in
  sz1 <- uvmalloc pagetable sz (sz +64 2 * PGSIZE);
  if sz1 =? 0 then exec_bad pagetable sz None else
  let sz := sz1 in
  uvmclear pagetable (u64 (sz - 2 * PGSIZE)) ;;
  let stackbase := u64 (sz - PGSIZE) in
  r <- push_args pagetable stackbase sz 0 argv [];
  match r with
  | None => exec_bad pagetable sz None
  | Some (sp, ustack) =>
      let argc := Z.of_nat (length argv) in
      let sp := u64 (sp - (argc + 1) * 8) in
      let sp := sp - sp mod 16 in
      if sp <? stackbase then exec_bad pagetable sz None else
      r <- copyout pagetable sp (concat (map (le_bytes 8) (ustack ++ [0])));
      if r <? 0 then exec_bad pagetable sz None else
      tf_upd (p_trapframe pp) (fun tf => tf <| tf_a1 := sp |>) ;;
      proc_upd p (fun p => p <| p_name ::= fun nm => safestrcpy nm (basename path path) 16 |>) ;;
      let oldpagetable := p_pagetable pp in
      proc_upd p (fun p => p <| p_pagetable := pagetable |> <| p_sz := sz |>) ;;
      tf_upd (p_trapframe pp) (fun tf => tf <| tf_epc := elf_entry elf |> <| tf_sp := sp |>) ;;
      proc_freepagetable oldpagetable oldsz ;;
      ret argc
  end.

Definition exec (path : list Z) (argv : list Z) : M Z :=
  p <- curproc;
  begin_op ;;
  o <- namei path;
  match o with
  | None => end_op ;; ret (-1)
  | Some ip =>
      ilock ip ;;
      ' (r, elf) <- readi ip DLocal 0 ELFHDR;
      if negb (r =? ELFHDR) then exec_bad 0 0 (Some ip) else
      if negb (elf_magic elf =? ELF_MAGIC) then exec_bad 0 0 (Some ip) else
      pagetable <- proc_pagetable p;
      if pagetable =? 0 then exec_bad 0 0 (Some ip) else
      r <- load_segments pagetable ip elf;
      match r with
      | inl sz => exec_bad pagetable sz (Some ip)
      | inr sz =>
          iunlockput ip ;;
          end_op ;;
          exec_image path argv elf pagetable sz
      end
  end.

End Exec.
