(* ===== verification/Syscall.v ===== *)
(** * System call arguments (syscall.c) and the file system calls (sysfile.c)

    A system call returns the [int] its C function returns; the dispatcher
    (Trap.v) stores it into the trapframe as a 64-bit word.  A string argument
    is the contents of the kernel buffer it was copied into. *)

From S2P Require Import Prelude State Monad Spinlock Cstring Kalloc Vm Proc Sleeplock Virtio.
From S2P Require Import Bio Log Fs Console Pipe File Procsys Exec.

Definition O_RDONLY : Z := 0x000.
Definition O_WRONLY : Z := 0x001.
Definition O_RDWR : Z := 0x002.
Definition O_CREATE : Z := 0x200.
Definition O_TRUNC : Z := 0x400.

(** ** Fetching arguments *)

(** The word at [addr]; [None] is the result -1. *)
Definition fetchaddr (addr : Z) : M (option Z) :=
  p <- curproc;
  pp <- proc_at p;
  if (p_sz pp <=? addr) || (p_sz pp <? addr +64 8) then ret None else
  ' (r, bytes) <- copyin (p_pagetable pp) addr 8;
  if negb (r =? 0) then ret None else ret (Some (le_value bytes)).

(** The length or -1, and what was stored into the buffer. *)
Definition fetchstr (addr max : Z) : M (Z * list Z) :=
  p <- curproc;
  pp <- proc_at p;
  ' (err, buf) <- copyinstr (p_pagetable pp) addr max;
  if err <? 0 then ret (err, buf) else ret (strlen buf, buf).

Definition argraw (n : nat) : M Z :=
  p <- curproc;
  pp <- proc_at p;
  tf <- tf_at (p_trapframe pp);
  match n with
  | 0%nat => ret (tf_a0 tf)
  | 1%nat => ret (tf_a1 tf)
  | 2%nat => ret (tf_a2 tf)
  | 3%nat => ret (tf_a3 tf)
  | 4%nat => ret (tf_a4 tf)
  | 5%nat => ret (tf_a5 tf)
  | _ => panic "argraw"
  end.

(** The conversion of the 64-bit register to [int]. *)
Definition argint (n : nat) : M Z := x <- argraw n; ret (s32 x).

Definition argaddr (n : nat) : M Z := argraw n.

Definition argstr (n : nat) (max : Z) : M (Z * list Z) :=
  addr <- argaddr n; fetchstr addr max.

(** The descriptor and the file, [None] for the result -1. *)
Definition argfd (n : nat) : M (option (Z * nat)) :=
  fd <- argint n;
  if (fd <? 0) || (Z.of_nat NOFILE <=? fd) then ret None else
  p <- curproc;
  pp <- proc_at p;
  f <- deref "ofile" (p_ofile pp !! Z.to_nat fd);
  match f with
  | None => ret None
  | Some f => ret (Some (fd, f))
  end.

Definition ofile_set (p : nat) (fd : Z) (f : option nat) : M unit :=
  proc_upd p (fun p => p <| p_ofile ::= <[Z.to_nat fd := f]> |>).

Definition fdalloc (f : nat) : M Z :=
  p <- curproc;
  r <- for_find (seq 0 NOFILE) (fun fd =>
    pp <- proc_at p;
    o <- deref "ofile" (p_ofile pp !! fd);
    match o with
    | None => ofile_set p (Z.of_nat fd) (Some f) ;; ret (Some (Z.of_nat fd))
    | Some _ => ret None
    end);
  ret (default (-1) r).

Section Sysfile.
Context `{Platform} `{Disk}.

(** ** File descriptors *)

Definition sys_dup : M Z :=
  a <- argfd 0;
  match a with
  | None => ret (-1)
  | Some (_, f) =>
      fd <- fdalloc f;
      if fd <? 0 then ret (-1) else
      filedup f ;;
      ret fd
  end.

Definition sys_read : M Z :=
  a <- argfd 0;
  match a with
  | None => ret (-1)
  | Some (_, f) => n <- argint 2; p <- argaddr 1; fileread f p n
  end.

Definition sys_write : M Z :=
  a <- argfd 0;
  match a with
  | None => ret (-1)
  | Some (_, f) => n <- argint 2; p <- argaddr 1; filewrite f p n
  end.

Definition sys_close : M Z :=
  a <- argfd 0;
  match a with
  | None => ret (-1)
  | Some (fd, f) =>
      p <- curproc;
      ofile_set p fd None ;;
      fileclose f ;;
      ret 0
  end.

Definition sys_fstat : M Z :=
  a <- argfd 0;
  match a with
  | None => ret (-1)
  | Some (_, f) => st <- argaddr 1; filestat f st
  end.

(** ** Directory entries *)

Definition nlink_add (ip : nat) (d : Z) : M unit :=
  inode_upd ip (fun n => n <| i_nlink ::= fun l => s16 (l + d) |>).

Definition sys_link : M Z :=
  ' (r0, old) <- argstr 0 MAXPATH;
  if r0 <? 0 then ret (-1) else
  ' (r1, new) <- argstr 1 MAXPATH;
  if r1 <? 0 then ret (-1) else
  begin_op ;;
  o <- namei old;
  match o with
  | None => end_op ;; ret (-1)
  | Some ip =>
      ilock ip ;;
      n <- inode_at ip;
      if i_type n =? T_DIR then iunlockput ip ;; end_op ;; ret (-1) else
      nlink_add ip 1 ;;
      iupdate ip ;;
      iunlock ip ;;
      let bad :=
        ilock ip ;; nlink_add ip (-1) ;; iupdate ip ;; iunlockput ip ;; end_op ;; ret (-1) in
      ' (o, name) <- nameiparent new (replicate DIRSIZ 0);
      match o with
      | None => bad
      | Some dp =>
          ilock dp ;;
          d <- inode_at dp;
          n <- inode_at ip;
          r <- (if negb (i_dev d =? i_dev n) then ret (-1) else dirlink dp name (i_inum n));
          if r <? 0 then iunlockput dp ;; bad else
          iunlockput dp ;;
          iput ip ;;
          end_op ;;
          ret 0
      end
  end.

Definition isdirempty (dp : nat) : M bool :=
  loop (fun off =>
    d <- inode_at dp;
    if off <? i_size d then
      ' (r, de) <- readi dp DLocal off DIRENT;
      if negb (r =? DIRENT) then panic "isdirempty: readi" else
      if negb (de_inum de =? 0) then ret (inr false) else ret (inl (off + DIRENT))
    else ret (inr true)) (2 * DIRENT).

Definition sys_unlink : M Z :=
  ' (r, path) <- argstr 0 MAXPATH;
  if r <? 0 then ret (-1) else
  begin_op ;;
  ' (o, name) <- nameiparent path (replicate DIRSIZ 0);
  match o with
  | None => end_op ;; ret (-1)
  | Some dp =>
      ilock dp ;;
      let bad := iunlockput dp ;; end_op ;; ret (-1) in
      if (namecmp name (bytes_of ".") =? 0) || (namecmp name (bytes_of "..") =? 0) then bad else
      o <- dirlookup dp name;
      match o with
      | None => bad
      | Some (ip, off) =>
          ilock ip ;;
          n <- inode_at ip;
          if i_nlink n <? 1 then panic "unlink: nlink < 1" else
          full <- (if i_type n =? T_DIR then em <- isdirempty ip; ret (negb em) else ret false);
          if (full : bool) then iunlockput ip ;; bad else
          r <- writei dp (SLocal (replicate (Z.to_nat DIRENT) 0)) off DIRENT;
          if negb (r =? DIRENT) then panic "unlink: writei" else
          when (i_type n =? T_DIR) (nlink_add dp (-1) ;; iupdate dp) ;;
          iunlockput dp ;;
          nlink_add ip (-1) ;;
          iupdate ip ;;
          iunlockput ip ;;
          end_op ;;
          ret 0
      end
  end.

(** ** Creating and opening *)

(** The inode is returned locked. *)
Definition create (path : list Z) (type major minor : Z) : M (option nat) :=
  ' (o, name) <- nameiparent path (replicate DIRSIZ 0);
  match o with
  | None => ret None
  | Some dp =>
      ilock dp ;;
      o <- dirlookup dp name;
      match o with
      | Some (ip, _) =>
          iunlockput dp ;;
          ilock ip ;;
          n <- inode_at ip;
          if (type =? T_FILE) && ((i_type n =? T_FILE) || (i_type n =? T_DEVICE))
          then ret (Some ip)
          else iunlockput ip ;; ret None
      | None =>
          d <- inode_at dp;
          ip <- ialloc (i_dev d) type;
          ilock ip ;;
          inode_upd ip (fun n => n <| i_major := major |> <| i_minor := minor |>
                                   <| i_nlink := 1 |>) ;;
          iupdate ip ;;
          n <- inode_at ip;
          when (type =? T_DIR)
            (nlink_add dp 1 ;;
             iupdate dp ;;
             r <- dirlink ip (bytes_of ".") (i_inum n);
             r <- (if r <? 0 then ret r else dirlink ip (bytes_of "..") (i_inum d));
             when (r <? 0) (panic "create dots")) ;;
          r <- dirlink dp name (i_inum n);
          if r <? 0 then panic "create: dirlink" else
          iunlockput dp ;;
          ret (Some ip)
      end
  end.

(** From "if(ip->type == T_DEVICE" on, [ip] being locked. *)
Definition open_inode (ip : nat) (omode : Z) : M Z :=
  n <- inode_at ip;
  if (i_type n =? T_DEVICE) && ((i_major n <? 0) || (NDEV <=? i_major n)) then
    iunlockput ip ;; end_op ;; ret (-1)
  else
  o <- filealloc;
  match o with
  | None => iunlockput ip ;; end_op ;; ret (-1)
  | Some f =>
      fd <- fdalloc f;
      if fd <? 0 then fileclose f ;; iunlockput ip ;; end_op ;; ret (-1) else
      (if i_type n =? T_DEVICE
       then file_upd f (fun f => f <| f_type := FD_DEVICE |> <| f_major := i_major n |>)
       else file_upd f (fun f => f <| f_type := FD_INODE |> <| f_off := 0 |>)) ;;
      file_upd f (fun f => f <| f_ip := Some ip |> <| f_readable := negb (bit omode O_WRONLY) |>
                             <| f_writable := bit omode O_WRONLY || bit omode O_RDWR |>) ;;
      when (bit omode O_TRUNC && (i_type n =? T_FILE)) (itrunc ip) ;;
      iunlock ip ;;
      end_op ;;
      ret fd
  end.

Definition sys_open : M Z :=
  ' (n, path) <- argstr 0 MAXPATH;
  if n <? 0 then ret (-1) else
  omode <- argint 1;
  begin_op ;;
  if bit omode O_CREATE then
    o <- create path T_FILE 0 0;
    match o with
    | None => end_op ;; ret (-1)
    | Some ip => open_inode ip omode
    end
  else
    o <- namei path;
    match o with
    | None => end_op ;; ret (-1)
    | Some ip =>
        ilock ip ;;
        n <- inode_at ip;
        if (i_type n =? T_DIR) && negb (omode =? O_RDONLY) then
          iunlockput ip ;; end_op ;; ret (-1)
        else open_inode ip omode
    end.

Definition sys_mkdir : M Z :=
  begin_op ;;
  ' (r, path) <- argstr 0 MAXPATH;
  if r <? 0 then end_op ;; ret (-1) else
  o <- create path T_DIR 0 0;
  match o with
  | None => end_op ;; ret (-1)
  | Some ip => iunlockput ip ;; end_op ;; ret 0
  end.

(** [major] and [minor] become [short]s. *)
Definition sys_mknod : M Z :=
  begin_op ;;
  ' (r, path) <- argstr 0 MAXPATH;
  if r <? 0 then end_op ;; ret (-1) else
  major <- argint 1;
  minor <- argint 2;
  o <- create path T_DEVICE (s16 major) (s16 minor);
  match o with
  | None => end_op ;; ret (-1)
  | Some ip => iunlockput ip ;; end_op ;; ret 0
  end.

Definition sys_chdir : M Z :=
  p <- curproc;
  begin_op ;;
  ' (r, path) <- argstr 0 MAXPATH;
  if r <? 0 then end_op ;; ret (-1) else
  o <- namei path;
  match o with
  | None => end_op ;; ret (-1)
  | Some ip =>
      ilock ip ;;
      n <- inode_at ip;
      if negb (i_type n =? T_DIR) then iunlockput ip ;; end_op ;; ret (-1) else
      iunlock ip ;;
      pp <- proc_at p;
      cwd <- deref "p->cwd" (p_cwd pp);
      iput cwd ;;
      end_op ;;
      proc_upd p (fun p => p <| p_cwd := Some ip |>) ;;
      ret 0
  end.

(** ** exec and pipe *)

(** The loop that fetches the arguments into fresh pages: the pages, and
    whether the end of the vector was reached. *)
Fixpoint fetch_args (n : nat) (uargv : Z) (argv : list Z) : M (list Z * bool) :=
  match n with
  | O => ret (argv, false)
  | S n =>
      o <- fetchaddr uargv;
      match o with
      | None => ret (argv, false)
      | Some uarg =>
          if uarg =? 0 then ret (argv, true) else
          pa <- kalloc;
          if pa =? 0 then ret (argv, false) else
          ' (r, buf) <- fetchstr uarg PGSIZE;
          mem_upd (put_bytes pa buf) ;;
          if r <? 0 then ret (argv ++ [pa], false)
          else fetch_args n (uargv +64 8) (argv ++ [pa])
      end
  end.

Definition sys_exec : M Z :=
  ' (r, path) <- argstr 0 MAXPATH;
  if r <? 0 then ret (-1) else
  uargv <- argaddr 1;
  ' (argv, ok) <- fetch_args MAXARG uargv [];
  r <- (if (ok : bool) then exec path argv else ret (-1));
  for_ argv kfree ;;
  ret r.

Definition sys_pipe : M Z :=
  p <- curproc;
  fdarray <- argaddr 0;
  o <- pipealloc;
  match o with
  | None => ret (-1)
  | Some (rf, wf) =>
      fd0 <- fdalloc rf;
      fd1 <- (if fd0 <? 0 then ret (-1) else fdalloc wf);
      if (fd0 <? 0) || (fd1 <? 0) then
        when (0 <=? fd0) (ofile_set p fd0 None) ;;
        fileclose rf ;;
        fileclose wf ;;
        ret (-1)
      else
      pp <- proc_at p;
      r <- copyout (p_pagetable pp) fdarray (le_bytes 4 fd0);
      r <- (if r <? 0 then ret r else copyout (p_pagetable pp) (fdarray +64 4) (le_bytes 4 fd1));
      if r <? 0 then
        ofile_set p fd0 None ;;
        ofile_set p fd1 None ;;
        fileclose rf ;;
        fileclose wf ;;
        ret (-1)
      else ret 0
  end.

End Sysfile.
