(* ===== verification/Trap.v ===== *)
(** * Traps and the system call dispatcher: sysproc.c, syscall(), trap.c, plic.c

    A return to user space ([usertrapret]) is the state in which the code
    jumps to the trampoline. *)

From S2P Require Import Prelude State Machine Monad Spinlock Cstring Kalloc Vm Proc Sleeplock Virtio.
From S2P Require Import Bio Log Fs Console Pipe File Procsys Exec Syscall.

Section Trap.
Context `{Platform} `{Disk} `{Config}.

(** ** sysproc.c *)

Definition sys_exit : M Z := n <- argint 0; exit n.

Definition sys_getpid : M Z := p <- curproc; pp <- proc_at p; ret (p_pid pp).

Definition sys_fork : M Z := fork.

Definition sys_wait : M Z := p <- argaddr 0; wait p.

(** The call is waitx(addr, &wtime, &rtime), whose parameters are (addr,
    rtime, wtime). *)
Definition sys_waitx : M Z :=
  addr <- argaddr 0;
  addr1 <- argaddr 1;
  addr2 <- argaddr 2;
  ' (r, out) <- waitx addr;
  let '(wtime, rtime) := default (uninit, uninit) out in
  p <- curproc;
  pp <- proc_at p;
  c <- copyout (p_pagetable pp) addr1 (le_bytes 4 wtime);
  if c <? 0 then ret (-1) else
  c <- copyout (p_pagetable pp) addr2 (le_bytes 4 rtime);
  if c <? 0 then ret (-1) else ret r.

Definition sys_sbrk : M Z :=
  n <- argint 0;
  p <- curproc;
  pp <- proc_at p;
  let addr := s32 (p_sz pp) in
  r <- growproc n;
  if r <? 0 then ret (-1) else ret addr.

(** The comparison is between [uint]s. *)
Definition sys_sleep : M Z :=
  n <- argint 0;
  acquire LTicks ;;
  ticks0 <- gets ticks;
  sleep_loop 0 (fun _ =>
    now <- gets ticks;
    if now -32 ticks0 <? u32 n then
      p <- curproc;
      pp <- proc_at p;
      if negb (p_killed pp =? 0) then release LTicks ;; ret (inr (-1))
      else sleep ChTicks LTicks ;; ret (inl tt)
    else release LTicks ;; ret (inr 0)) tt.

Definition sys_kill : M Z := pid <- argint 0; kill pid.

Definition sys_uptime : M Z :=
  acquire LTicks ;;
  xticks <- gets ticks;
  release LTicks ;;
  ret xticks.

Definition sys_trace : M Z :=
  mask <- argint 0;
  p <- curproc;
  proc_upd p (fun p => p <| p_mask := u32 mask |>) ;;
  ret 0.

Definition sys_setpriority : M Z :=
  priority <- argint 0;
  pid <- argint 1;
  setpriority priority pid.

(** ** syscall() *)

(** The table syscalls[], with the names of sysCallName[] and the argument
    counts of numOfArgs[]; entry 0 is empty. *)
Definition syscalls : list (option (M Z) * string * nat) :=
  [(None, "", 0%nat);
   (Some sys_fork, "fork", 0%nat);
   (Some sys_exit, "exit", 1%nat);
   (Some sys_wait, "wait", 1%nat);
   (Some sys_pipe, "pipe", 1%nat);
   (Some sys_read, "read", 3%nat);
   (Some sys_kill, "kill", 1%nat);
   (Some sys_exec, "exec", 2%nat);
   (Some sys_fstat, "fstat", 2%nat);
   (Some sys_chdir, "chdir", 1%nat);
   (Some sys_dup, "dup", 1%nat);
   (Some sys_getpid, "getpid", 0%nat);
   (Some sys_sbrk, "sbrk", 1%nat);
   (Some sys_sleep, "sleep", 1%nat);
   (Some sys_uptime, "uptime", 0%nat);
   (Some sys_open, "open", 2%nat);
   (Some sys_write, "write", 3%nat);
   (Some sys_mknod, "mknod", 2%nat);
   (Some sys_unlink, "unlink", 1%nat);
   (Some sys_link, "link", 2%nat);
   (Some sys_mkdir, "mkdir", 1%nat);
   (Some sys_close, "close", 1%nat);
   (Some sys_waitx, "waitx", 3%nat);
   (Some sys_trace, "trace", 1%nat);
   (Some sys_setpriority, "setpriority", 2%nat)]%string.

(** The trapframe of process [p]. *)
Definition trapframe_of (p : nat) : M trapframe := pp <- proc_at p; tf_at (p_trapframe pp).

(** The line the trace prints after a traced call. *)
Definition print_trace (p : nat) (name : string) (nargs : nat) (a0_cpy : Z) : M unit :=
  pp <- proc_at p;
  printf (bytes_of "%d: syscall %s ") [AInt (p_pid pp); astr name] ;;
  when (0 <? Z.of_nat nargs)
    (printf (bytes_of "(") [] ;;
     for_ (seq 0 nargs) (fun i =>
       when (0 <? Z.of_nat i) (printf (bytes_of ", ") []) ;;
       tf <- trapframe_of p;
       match i with
       | 0%nat => printf (bytes_of "%d") [AInt a0_cpy]
       | 1%nat => printf (bytes_of "%d") [AInt (s32 (tf_a1 tf))]
       | 2%nat => printf (bytes_of "%d") [AInt (s32 (tf_a2 tf))]
       | _ => ret tt
       end) ;;
     printf (bytes_of ")") []) ;;
  tf <- trapframe_of p;
  printf (bytes_of " -> %d" ++ nl) [AInt (s32 (tf_a0 tf))].

Definition syscall : M unit :=
  p <- curproc;
  tf <- trapframe_of p;
  pp <- proc_at p;
  let num := s32 (tf_a7 tf) in
  match (if (0 <? num) && (num <? Z.of_nat (length syscalls))
         then syscalls !! Z.to_nat num else None) with
  | Some (Some f, name, nargs) =>
      let a0_cpy := s32 (tf_a0 tf) in
      r <- f;
      pp <- proc_at p;
      tf_upd (p_trapframe pp) (fun tf => tf <| tf_a0 := u64 r |>) ;;
      when (bit (Z.shiftr (s32 (p_mask pp)) num) 1) (print_trace p name nargs a0_cpy)
  | _ =>
      printf (bytes_of "%d %s: unknown sys call %d" ++ nl)
        [AInt (p_pid pp); AStr (Some (p_name pp)); AInt num] ;;
      tf_upd (p_trapframe pp) (fun tf => tf <| tf_a0 := u64 (-1) |>)
  end.

(** ** plic.c *)

Definition PLIC_SENABLE (hart : nat) : Z := PLIC + 0x2080 + Z.of_nat hart * 0x100.
Definition PLIC_SPRIORITY (hart : nat) : Z := PLIC + 0x201000 + Z.of_nat hart * 0x2000.
Definition PLIC_SCLAIM (hart : nat) : Z := PLIC + 0x201004 + Z.of_nat hart * 0x2000.

Definition plicinit : M unit :=
  mmio_write (PLIC + UART0_IRQ * 4) 1 ;;
  mmio_write (PLIC + VIRTIO0_IRQ * 4) 1.

Definition plicinithart : M unit :=
  hart <- cpuid;
  mmio_write (PLIC_SENABLE hart) (Z.lor (Z.shiftl 1 UART0_IRQ) (Z.shiftl 1 VIRTIO0_IRQ)) ;;
  mmio_write (PLIC_SPRIORITY hart) 0.

Definition plic_claim : M Z :=
  hart <- cpuid;
  irq <- mmio_read (PLIC_SCLAIM hart);
  ret (s32 (u32 irq)).

Definition plic_complete (irq : Z) : M unit :=
  hart <- cpuid;
  mmio_write (PLIC_SCLAIM hart) (u32 irq).

(** ** trap.c *)

Definition hart_upd (f : hart -> hart) : M unit := modify (fun s => s <| hw ::= f |>).

Definition trapinit : M unit := initlock LTicks "time".

Definition trapinithart : M unit := hart_upd (fun h => h <| stvec := sym_kernelvec |>).

Definition clockintr : M unit :=
  acquire LTicks ;;
  modify (fun s => s <| ticks ::= fun t => t +32 1 |>) ;;
  update_time ;;
  wakeup ChTicks ;;
  release LTicks.

Definition devintr : M Z :=
  scause <- gets (fun s => scause (hw s));
  if bit scause 0x8000000000000000 && (Z.land scause 0xff =? 9) then
    irq <- plic_claim;
    (if irq =? UART0_IRQ then uartintr
     else if irq =? VIRTIO0_IRQ then virtio_disk_intr
     else when (negb (irq =? 0))
            (printf (bytes_of "unexpected interrupt irq=%d" ++ nl) [AInt irq])) ;;
    when (negb (irq =? 0)) (plic_complete irq) ;;
    ret 1
  else if scause =? 0x8000000000000001 then
    id <- cpuid;
    when (id =? 0)%nat clockintr ;;
    hart_upd (fun h => h <| sip ::= fun x => Z.land x (Z.lnot 2) |>) ;;
    ret 2
  else ret 0.

(** A timer interrupt gives up the CPU under RR at every tick and under MLFQ
    when the time slice of the process's queue is used up; FCFS and PBS do not
    preempt. *)
Definition preempt (p : nat) : M unit :=
  match sched_policy with
  | RR => yield
  | MLFQ =>
      now <- gets ticks;
      pp <- proc_at p;
      when (u32 (Z.shiftl 1 (p_queue pp)) <=? now -32 p_last_qtime pp)
        (when (p_queue pp <? 4) (proc_upd p (fun p => p <| p_queue ::= fun q => q + 1 |>)) ;;
         proc_upd p (fun p => p <| p_last_qtime := s32 now |>) ;;
         yield)
  | FCFS | PBS => ret tt
  end.

Definition usertrapret : M unit :=
  p <- curproc;
  pp <- proc_at p;
  intr_off ;;
  hart_upd (fun h => h <| stvec := TRAMPOLINE + (sym_uservec - sym_trampoline) |>) ;;
  h <- gets hw;
  tf_upd (p_trapframe pp) (fun tf =>
    tf <| tf_kernel_satp := satp h |>
       <| tf_kernel_sp := u64 (p_kstack pp + PGSIZE) |>
       <| tf_kernel_trap := sym_usertrap |>
       <| tf_kernel_hartid := Z.of_nat (tp h) |>) ;;
  x <- r_sstatus;
  w_sstatus (Z.lor (Z.land x (Z.lnot SSTATUS_SPP)) SSTATUS_SPIE) ;;
  tf <- tf_at (p_trapframe pp);
  hart_upd (fun h => h <| sepc := tf_epc tf |>).

Definition usertrap : M unit :=
  x <- r_sstatus;
  if bit x SSTATUS_SPP then panic "usertrap: not from user mode" else
  hart_upd (fun h => h <| stvec := sym_kernelvec |>) ;;
  p <- curproc;
  pp <- proc_at p;
  h <- gets hw;
  tf_upd (p_trapframe pp) (fun tf => tf <| tf_epc := sepc h |>) ;;
  which_dev <-
    (if scause h =? 8 then
       when (negb (p_killed pp =? 0)) (exit (-1)) ;;
       tf_upd (p_trapframe pp) (fun tf => tf <| tf_epc ::= fun x => x +64 4 |>) ;;
       intr_on ;;
       syscall ;;
       ret 0
     else
       d <- devintr;
       if negb (d =? 0) then ret d else
       h <- gets hw;
       pp <- proc_at p;
       printf (bytes_of "usertrap(): unexpected scause %p pid=%d" ++ nl)
         [APtr (scause h); AInt (p_pid pp)] ;;
       printf (bytes_of "            sepc=%p stval=%p" ++ nl) [APtr (sepc h); APtr (stval h)] ;;
       proc_upd p (fun p => p <| p_killed := 1 |>) ;;
       ret 0);
  pp <- proc_at p;
  when (negb (p_killed pp =? 0)) (exit (-1)) ;;
  when (which_dev =? 2) (preempt p) ;;
  usertrapret.

(** The test in kerneltrap(), which is compiled under RR and MLFQ only. *)
Definition kernel_preempt : M unit :=
  match sched_policy with
  | FCFS | PBS => ret tt
  | RR | MLFQ =>
      o <- myproc;
      match o with
      | None => ret tt
      | Some p =>
          pp <- proc_at p;
          when (bool_decide (p_state pp = RUNNING)) (preempt p)
      end
  end.

Definition kerneltrap : M unit :=
  h <- gets hw;
  let sepc := sepc h in
  let sstatus := sstatus h in
  let scause := scause h in
  if negb (bit sstatus SSTATUS_SPP) then panic "kerneltrap: not from supervisor mode" else
  i <- intr_get;
  if i then panic "kerneltrap: interrupts enabled" else
  which_dev <- devintr;
  if which_dev =? 0 then
    h <- gets hw;
    printf (bytes_of "scause %p" ++ nl) [APtr scause] ;;
    printf (bytes_of "sepc=%p stval=%p" ++ nl) [APtr (State.sepc h); APtr (stval h)] ;;
    panic "kerneltrap"
  else
  when (which_dev =? 2) kernel_preempt ;;
  hart_upd (fun h => h <| State.sepc := sepc |> <| State.sstatus := sstatus |>).

(** proc.c: where a new process starts. *)
Definition forkret : M unit :=
  p <- curproc;
  release (LProc p) ;;
  first <- gets forkret_first;
  when first
    (modify (fun s => s <| forkret_first := false |>) ;;
     fsinit ROOTDEV) ;;
  usertrapret.

(** ** The clock *)

(** What a tick does to a process: a running one is charged, one that sleeps on
    [&ticks] wakes. *)
Definition tick_proc (now : Z) (me : option nat) (i : nat) (p : proc) : proc :=
  if decide (Some i = me) then ran p else woken ChTicks now (ran p).

Definition ticked (s : kernel) : kernel :=
  let now := ticks s +32 1 in
  s <| ticks := now |> <| procs := imap (tick_proc now (cur (hw s))) (procs s) |>
    <| hw ::= norm_h |>.

(** No process lock and not the clock's is held. *)
Definition clock_ok (s : kernel) : Prop :=
  orderly (hw s) /\ length (procs s) = NPROC /\ free LTicks (hw s) /\
  forall i, (i < NPROC)%nat -> free (LProc i) (hw s).

Lemma clock_procs_ok s : clock_ok s -> procs_ok (s <| hw ::= norm_h |>).
Proof. intros (Ho & Hl & _ & Hf). split; [done|]. split; [by apply settled_norm|done]. Qed.

Lemma clockintr_run e s : clock_ok s -> clockintr e s = Ret tt e (ticked s).
Proof.
  intros Hok. pose proof (clock_procs_ok s Hok) as Hp. destruct Hok as (Ho & Hl & Ht & Hf).
  unfold clockintr, bind at 1. rewrite acquire_norm, acquire_run by (done || apply Hp).
  set (s1 := s <| hw ::= norm_h |> <| hw ::= lock_h LTicks |>).
  assert (Hp1 : procs_ok s1) by (by apply procs_ok_lock).
  rewrite step_modify. set (s2 := s1 <| ticks ::= _ |>). assert (procs_ok s2) by exact Hp1.
  mrun update_time_run. mrun wakeup_run.
  pose proof (settled_norm _ Ho) as Hs. pose proof (free_norm _ _ Ht) as Ht'.
  rewrite release_run by (unfold s2, s1; st; eauto with kernel).
  apply ret_state. unfold ticked, s2, s1. state_eq.
  - by rewrite unlock_lock.
  - unfold wake_all, tick_proc. st. apply list_eq. intros i.
    rewrite !list_lookup_imap. destruct (procs s !! i) as [p|]; [|done]. cbn. by rewrite cur_lock, cur_norm.
Qed.

Lemma devintr_timer_run e s :
  clock_ok s -> tp (hw s) = 0%nat -> scause (hw s) = 0x8000000000000001 ->
  devintr e s = Ret 2 e (ticked s <| hw ::= fun h => h <| sip ::= fun x => Z.land x (Z.lnot 2) |> |>).
Proof.
  intros Hok Htp Hsc. unfold devintr. rewrite step_gets, Hsc.
  change (bit 0x8000000000000001 0x8000000000000000 && (Z.land 0x8000000000000001 0xff =? 9)) with false.
  change (0x8000000000000001 =? 0x8000000000000001) with true. cbv iota.
  unfold cpuid, r_tp. rewrite bind_assoc, step_gets, step_ret, Htp. cbn [Nat.eqb when].
  rewrite (bind_run _ _ _ _ _ _ _ (clockintr_run e s Hok)). done.
Qed.

(** ** Preemption *)

(** The MLFQ demotion of a process whose time slice is over. *)
Definition demoted (now : Z) (p : proc) : proc :=
  p <| p_queue ::= fun q => if q <? 4 then q + 1 else q |> <| p_last_qtime := s32 now |>
    <| p_state := RUNNABLE |>.

Lemma preempt_run p pp s :
  quiet p (hw s) -> procs s !! p = Some pp ->
  preempt p [] s =
    match sched_policy with
    | FCFS | PBS => Ret tt [] s
    | RR => Away (s <| hw ::= lock_h (LProc p) |>
                    <| procs ::= <[p := pp <| p_state := RUNNABLE |>]> |>)
    | MLFQ =>
        if u32 (Z.shiftl 1 (p_queue pp)) <=? ticks s -32 p_last_qtime pp
        then Away (s <| hw ::= lock_h (LProc p) |> <| procs ::= <[p := demoted (ticks s) pp]> |>)
        else Ret tt [] s
    end.
Proof.
  intros (Hs & Hc & Hf & Hn) Hp. unfold preempt. destruct sched_policy; [|done|done|].
  - rewrite (yield_away p pp) by done. f_equal. state_eq.
    rewrite (list_insert_alter_const _ _ _ _ Hp). by eapply alter_at.
  - rewrite step_gets. mrun proc_at_run. unfold proc_upd.
    destruct (_ <=? _); [|done]. cbn [when].
    assert (Hy : forall f, yield [] (s <| procs ::= alter f p |>) =
      Away (s <| hw ::= lock_h (LProc p) |> <| procs ::= <[p := f pp <| p_state := RUNNABLE |>]> |>)).
    { intros f. rewrite (yield_away p (f pp)); [|done..|st; by rewrite list_lookup_alter, decide_True, Hp].
      f_equal. state_eq. rewrite list_alter_alter_eq, (list_insert_alter_const _ _ _ _ Hp).
      by eapply alter_at. }
    destruct (p_queue pp <? 4) eqn:E; cbn [when].
    + rewrite !step_modify.
      transitivity (yield [] (s <| procs ::= alter (fun p => p <| p_queue := p_queue pp + 1 |>
        <| p_last_qtime := s32 (ticks s) |>) p |>)).
      { f_equal. state_eq. rewrite list_alter_alter_eq. by eapply alter_at. }
      rewrite Hy. unfold demoted. f_equal. state_eq. f_equal. apply proc_eq; cbn; try done. by rewrite E.
    + rewrite step_ret, step_modify, Hy. unfold demoted. f_equal. state_eq. f_equal.
      apply proc_eq; cbn; try done. by rewrite E.
Qed.

Lemma kernel_preempt_run p pp s :
  quiet p (hw s) -> procs s !! p = Some pp -> p_state pp = RUNNING ->
  kernel_preempt [] s = preempt p [] s.
Proof.
  intros (Hs & Hc & _) Hp Hr. unfold kernel_preempt.
  assert (Hrun : (o <- myproc; match o with None => ret tt | Some p => pp <- proc_at p;
    when (bool_decide (p_state pp = RUNNING)) (preempt p) end) [] s = preempt p [] s).
  { mrun myproc_run. rewrite Hc. mrun proc_at_run. by rewrite Hr. }
  destruct sched_policy eqn:E; [exact Hrun|..|exact Hrun]; unfold preempt; by rewrite E.
Qed.

(** The state after the interrupt handler of a timer tick. *)
Definition after_tick (s : kernel) : kernel :=
  ticked s <| hw ::= fun h => h <| sip ::= fun x => Z.land x (Z.lnot 2) |> |>.

Lemma after_tick_quiet p s :
  clock_ok s -> (p < NPROC)%nat -> cur (hw s) = Some p -> noff (hw s) = 0 ->
  quiet p (hw (after_tick s)).
Proof.
  intros (Ho & Hl & _ & Hf) Hp Hc Hn. unfold after_tick, ticked. st.
  destruct (settled_norm _ Ho) as (c & Hcc & Hrest). split; [by exists c|]. split.
  - transitivity (cur (norm_h (hw s))); [done|]. by rewrite cur_norm.
  - split; [by apply (Hf p)|]. destruct Ho as (c' & Hc' & _). unfold noff in *. rewrite Hc' in Hn. cbn.
    by rewrite list_lookup_alter, decide_True, Hc' by done.
Qed.

Lemma after_tick_cur p pp s :
  cur (hw s) = Some p -> procs s !! p = Some pp -> p_state pp = RUNNING ->
  procs (after_tick s) !! p = Some (pp <| p_rtime ::= fun t => t +32 1 |>).
Proof.
  intros Hc Hp Hr. unfold after_tick, ticked. st. rewrite list_lookup_imap, Hp. cbn.
  unfold tick_proc, ran. rewrite decide_True by done. by rewrite bool_decide_true.
Qed.

(** ** Theorems *)

(** A clock tick advances the tick counter, charges one tick of running
    time to each running process, wakes exactly the other processes that sleep
    on the clock, recording how long they slept, and leaves every other
    process, every lock and the interrupt state as they were. *)
Theorem clock_tick e s :
  clock_ok s ->
  exists s', clockintr e s = Ret tt e s' /\ ticks s' = ticks s +32 1 /\
    locks (hw s') = locks (hw s) /\ sstatus (hw s') = sstatus (hw s) /\
    forall i p, procs s !! i = Some p -> procs s' !! i = Some
      match p_state p with
      | RUNNING => p <| p_rtime := p_rtime p +32 1 |>
      | SLEEPING =>
          if bool_decide (p_chan p = ChTicks) && bool_decide (Some i <> cur (hw s))
          then p <| p_state := RUNNABLE |> <| p_stime := (ticks s +32 1) -32 p_stime p |>
          else p
      | _ => p
      end.
Proof.
  intros Hok. exists (ticked s). split; [by apply clockintr_run|]. split; [done|]. split; [done|].
  split; [done|]. intros i p Hp. unfold ticked. st. rewrite list_lookup_imap, Hp.
  cbn [fmap option_fmap option_map]. f_equal. unfold tick_proc, ran, woken.
  destruct (decide (Some i = cur (hw s))) as [Hc|Hc].
  - rewrite (bool_decide_false (Some i <> _)) by (by intros []). rewrite andb_false_r.
    by destruct (p_state p).
  - rewrite (bool_decide_true (Some i <> _)) by done. rewrite andb_true_r.
    destruct (p_state p) eqn:E;
      rewrite ?(bool_decide_true (RUNNING = RUNNING)) by done;
      rewrite ?(bool_decide_false (_ = RUNNING)) by discriminate; cbn; rewrite ?E;
      rewrite ?(bool_decide_true (SLEEPING = SLEEPING)) by done;
      rewrite ?(bool_decide_false (_ = SLEEPING)) by discriminate; done.
Qed.


End Trap.

(** The sample machine at a timer interrupt in kernel mode. *)
Definition clock_machine : kernel :=
  machine [running 1; sleeper 2 ChTicks 3] <| ticks := 9 |>
    <| hw ::= fun h => h <| sstatus := SSTATUS_SPP |> <| scause := 0x8000000000000001 |> |>.

Lemma clock_machine_ok : clock_ok clock_machine.
Proof.
  assert (procs_ok (machine [running 1; sleeper 2 ChTicks 3])) as (Hl & _ & Hf)
    by (apply machine_procs_ok; vm_compute; lia).
  split; [|split; [exact Hl|split; [exists "lock"%string; reflexivity|exact Hf]]].
  exists cpu0. split; [reflexivity|]. split; [vm_compute; congruence|]. vm_compute. congruence.
Qed.

