(* ===== verification/Main.v ===== *)
(** * Booting: main.c *)

From S2P Require Import Prelude State Monad Spinlock Cstring Kalloc Vm Proc Sleeplock Virtio.
From S2P Require Import Bio Log Fs Console Pipe File Procsys Exec Syscall Trap Sched.

Section Main.
Context `{Platform} `{Disk} `{Config}.

(** main() up to the call of scheduler(), which does not return. *)
Definition main : M unit :=
  id <- cpuid;
  if (id =? 0)%nat then
    consoleinit ;;
    printfinit ;;
    printf nl [] ;;
    printf (bytes_of "xv6 kernel is booting" ++ nl) [] ;;
    printf nl [] ;;
    kinit ;;
    kvminit ;;
    kvminithart ;;
    procinit ;;
    trapinit ;;
    trapinithart ;;
    plicinit ;;
    plicinithart ;;
    binit ;;
    iinit ;;
    fileinit ;;
    virtio_disk_init ;;
    userinit ;;
    modify (fun s => s <| started := true |>)
  else
    while spin_fuel (fun _ =>
      st <- gets started;
      if (st : bool) then ret (inr tt) else ret (inl tt)) tt ;;
    id <- cpuid;
    printf (bytes_of "hart %d starting" ++ nl) [AInt (Z.of_nat id)] ;;
    kvminithart ;;
    trapinithart ;;
    plicinithart.

End Main.
