(* ===== verification/Ulib.v ===== *)
(** * The user library: user/ulib.c and user/printf.c

    A pointer into a character array is the suffix of the array it points to, a
    C string ending at its first NUL.  The routines that copy within one array
    run on memory, as those of the kernel in [Cstring].  What printf() writes to
    its file descriptor is the list of its one-byte writes. *)

From S2P Require Import Prelude State Cstring.

(** ** ulib.c: strings *)

(** The array at [s] after the copy, [None] when it is too short. *)
Fixpoint strcpy (s t : list Z) : option (list Z) :=
  match s with
  | [] => None
  | _ :: s =>
      if hd 0 t =? 0 then Some (0 :: s)
      else r ← strcpy s (tl t); Some (hd 0 t :: r)
  end.

Fixpoint strcmp (p q : list Z) : Z :=
  match p with
  | [] => 0 - u8 (hd 0 q)
  | c :: p =>
      if negb (c =? 0) && (c =? hd 0 q) then strcmp p (tl q)
      else u8 c - u8 (hd 0 q)
  end.

(** The suffix that starts with [c], [None] for the null pointer. *)
Fixpoint strchr (s : list Z) (c : Z) : option (list Z) :=
  match s with
  | [] => None
  | x :: rest => if x =? 0 then None else if x =? c then Some s else strchr rest c
  end.

(** The digits from [s] on, with [n] read so far. *)
Fixpoint atoi_loop (n : Z) (s : list Z) : Z :=
  match s with
  | [] => n
  | c :: s => if (48 <=? c) && (c <=? 57) then atoi_loop (s32 (n * 10 + c - 48)) s else n
  end.

Definition atoi (s : list Z) : Z := atoi_loop 0 s.

(** The bytes gets() takes from standard input, at most [room] of them, and
    what is left of the input. *)
Fixpoint gets_loop (room : nat) (input : list Z) : list Z * list Z :=
  match room, input with
  | S room, c :: input =>
      if (c =? 10) || (c =? 13) then ([c], input)
      else let '(l, rest) := gets_loop room input in (c :: l, rest)
  | _, _ => ([], input)
  end.

(** The buffer after gets(buf, max), and the rest of the input. *)
Definition gets (buf : list Z) (max : nat) (input : list Z) : list Z * list Z :=
  let '(l, rest) := gets_loop (max - 1) input in (splice 0 (l ++ [0]) buf, rest).

(** ** ulib.c: memory *)

Definition memset (dst c : Z) (n : nat) (m : gmap Z Z) : gmap Z Z :=
  fold_left (fun m i => st8 (dst + Z.of_nat i) c m) (seq 0 n) m.

Definition memmove (dst src : Z) (n : nat) (m : gmap Z Z) : gmap Z Z :=
  if dst <? src then copy_up dst src n m
  else copy_down (dst + Z.of_nat n) (src + Z.of_nat n) n m.

Fixpoint memcmp (p1 p2 : Z) (n : nat) (m : gmap Z Z) : Z :=
  match n with
  | O => 0
  | S n => if ld8 m p1 =? ld8 m p2 then memcmp (p1 + 1) (p2 + 1) n m else ld8 m p1 - ld8 m p2
  end.

Definition memcpy (dst src : Z) (n : nat) (m : gmap Z Z) : gmap Z Z := memmove dst src n m.

(** ** printf.c *)

Definition digits : list Z := bytes_of "0123456789ABCDEF".

Definition digit (d : Z) : Z := nth (Z.to_nat d) digits 0.

(** The do-while loop of printint(): the digits, least significant first; the
    buffer has 16 places. *)
Fixpoint digits_of (places : nat) (x base : Z) : list Z :=
  match places with
  | O => []
  | S places =>
      digit (x mod base) ::
      (if x / base =? 0 then [] else digits_of places (x / base) base)
  end.

Definition printint (xx base : Z) (sgn : bool) : list Z :=
  let neg := sgn && (xx <? 0) in
  let x := u32 (if neg then - xx else xx) in
  let buf := digits_of 16 x base in
  rev (if neg then buf ++ [45] else buf).

(** The top four bits of [x << 4*i], 16 times. *)
Fixpoint ptr_digits (n : nat) (x : Z) : list Z :=
  match n with
  | O => []
  | S n => digit (Z.shiftr x 60) :: ptr_digits n (u64 (Z.shiftl x 4))
  end.

Definition printptr (x : Z) : list Z := 48 :: 120 :: ptr_digits 16 x.

(** An argument: a number or a string, possibly the null pointer. *)
Inductive arg := Num (n : Z) | Str (s : option (list Z)).

(** The loop of vprintf() over the format with [state]; [None] when an argument
    is missing or of the wrong type. *)
Fixpoint vprintf (percent : bool) (fmt : list Z) (ap : list arg) : option (list Z) :=
  match fmt with
  | [] => Some []
  | c :: fmt =>
      if c =? 0 then Some [] else
      if negb percent then
        if c =? 37 then vprintf true fmt ap
        else out ← vprintf false fmt ap; Some (c :: out)
      else if c =? 100 then
        match ap with
        | Num n :: ap => out ← vprintf false fmt ap; Some (printint (s32 n) 10 true ++ out)
        | _ => None
        end
      else if c =? 108 then
        match ap with
        | Num n :: ap => out ← vprintf false fmt ap; Some (printint (s32 n) 10 false ++ out)
        | _ => None
        end
      else if c =? 120 then
        match ap with
        | Num n :: ap => out ← vprintf false fmt ap; Some (printint (s32 n) 16 false ++ out)
        | _ => None
        end
      else if c =? 112 then
        match ap with
        | Num n :: ap => out ← vprintf false fmt ap; Some (printptr (u64 n) ++ out)
        | _ => None
        end
      else if c =? 115 then
        match ap with
        | Str s :: ap =>
            out ← vprintf false fmt ap; Some (cstr (default (bytes_of "(null)") s) ++ out)
        | _ => None
        end
      else if c =? 99 then
        match ap with
        | Num n :: ap => out ← vprintf false fmt ap; Some (u8 n :: out)
        | _ => None
        end
      else if c =? 37 then out ← vprintf false fmt ap; Some (c :: out)
      else out ← vprintf false fmt ap; Some (37 :: c :: out)
  end.

Definition printf (fmt : string) (ap : list arg) : option (list Z) := vprintf false (bytes_of fmt) ap.

(** ** Reading back what was printed *)

Lemma digit_char d : 0 <= d < 10 -> digit d = 48 + d.
Proof.
  intros Hd. assert (Forall (fun d => digit (Z.of_nat d) = 48 + Z.of_nat d) (seq 0 10)) as Hall by (repeat constructor).
  rewrite <- (Z2Nat.id d) by lia. apply (Forall_elem _ _ (Z.to_nat d) Hall). apply elem_of_seq. lia.
Qed.

Lemma atoi_digits k x rest :
  (0 < k)%nat -> 0 <= x < 10 ^ Z.of_nat k -> x < 2 ^ 31 ->
  atoi_loop 0 (rev (digits_of k x 10) ++ rest) = atoi_loop x rest.
Proof.
  revert x rest. induction k as [|k IH]; intros x rest Hk Hx Hs; [lia|]. cbn [digits_of rev].
  assert (Hd : 0 <= x mod 10 < 10) by dlia.
  assert (Hlast : forall q, q = x / 10 -> atoi_loop q (digit (x mod 10) :: rest) = atoi_loop x rest).
  { intros q ->. rewrite digit_char by done. cbn [atoi_loop].
    rewrite (proj2 (Z.leb_le 48 _)), (proj2 (Z.leb_le _ 57)) by lia. cbn [andb].
    f_equal. rewrite s32_small by dlia. dlia. }
  destruct (Z.eqb_spec (x / 10) 0) as [E|E].
  - cbn [rev app]. by apply Hlast.
  - rewrite <- app_assoc. cbn [app]. rewrite IH.
    + by apply Hlast.
    + destruct k; [|lia]. cbn in Hx. dlia.
    + rewrite Nat2Z.inj_succ, Z.pow_succ_r in Hx by lia. dlia.
    + dlia.
Qed.

(** Printing and reading back.  What printf("%d") writes for a
    non-negative int, followed by anything but a digit, is read back as the same
    number by atoi(). *)
Theorem printf_atoi n fmt ap out :
  0 <= n < 2 ^ 31 -> vprintf false fmt ap = Some out -> negb ((48 <=? hd 0 out) && (hd 0 out <=? 57)) = true ->
  exists text, vprintf false (37 :: 100 :: fmt) (Num n :: ap) = Some text /\ atoi text = n.
Proof.
  intros Hn Hout Hhd. exists (printint n 10 true ++ out). split.
  - cbn. rewrite Hout. cbn. by rewrite s32_small by lia.
  - unfold printint. rewrite (proj2 (Z.ltb_ge n 0)) by lia. cbn [andb]. unfold atoi.
    rewrite u32_small, atoi_digits by (cbn; lia). destruct out as [|c out]; [done|]. cbn [hd] in Hhd. cbn [atoi_loop].
    by destruct (_ && _).
Qed.

