(* ===== verification/Unix.v ===== *)
(** * Programs that make system calls: user/user.h

    A user program is a tree of system calls ([prog]), with the loops of the
    source as nodes of their own, so that no bound is put on them.  [answer] is what
    one process sees of the kernel: its descriptors and open files, the named files,
    its children, and a log of what it wrote and asked for.  What the process cannot
    know - how much a pipe or the console has ready, whether there is memory for a
    child, which child ends first, which side of fork() it is on - is a [choice].
    [run] executes a program, [always] says that it ends, with every choice, as its
    postconditions say, and [safe] that it does nothing wrong in any number of
    steps. *)

From Stdlib Require Import FunctionalExtensionality.
From S2P Require Import Prelude Cstring Ulib.

(** A newline, for the messages. *)
Definition nl : list Z := [10].

(** ** System calls *)

(** struct stat. *)
Record stat := Stat { st_dev : Z; st_ino : Z; st_type : Z; st_nlink : Z; st_size : Z }.

(** The calls of user.h the programs make, with the type of what they return; the
    buffers they fill are part of it. *)
Inductive call : Type -> Type :=
| Open (path : list Z) (mode : Z) : call Z
| Close (fd : Z) : call Z
| Read (fd : Z) (n : nat) : call (Z * list Z)
| Write (fd : Z) (bytes : list Z) : call Z
| Fstat (fd : Z) : call (Z * stat)
| Dup (fd : Z) : call Z
| Pipe : call (Z * (Z * Z))
| Link (old new : list Z) : call Z
| Unlink (path : list Z) : call Z
| Mkdir (path : list Z) : call Z
| Mknod (path : list Z) (major minor : Z) : call Z
| Chdir (path : list Z) : call Z
| Fork : call Z
| Wait : call (Z * Z)
| Waitx : call (Z * (Z * Z))
| Kill (pid : Z) : call Z
| Sleep (n : Z) : call Z
| Sbrk (n : Z) : call Z
| Getpid : call Z
| Trace (mask : Z) : call Z
| Setpriority (priority pid : Z) : call Z.

(** ** Programs *)

(** A loop runs its body until it returns [inr]; exec() goes on only when it fails. *)
Inductive prog : Type -> Type :=
| Ret {A} (a : A) : prog A
| Call {A X} (c : call X) (k : X -> prog A) : prog A
| Loop {A S X} (body : S -> prog (S + X)) (s : S) (k : X -> prog A) : prog A
| Exec {A} (path : list Z) (argv : list (list Z)) (k : Z -> prog A) : prog A
| Exit {A} (status : Z) : prog A
| Stuck {A} : prog A.

Fixpoint bind {A B} (p : prog A) : (A -> prog B) -> prog B :=
  match p with
  | Ret a => fun f => f a
  | Call c k => fun f => Call c (fun x => bind (k x) f)
  | Loop body s k => fun f => Loop body s (fun x => bind (k x) f)
  | Exec path argv k => fun f => Exec path argv (fun x => bind (k x) f)
  | Exit status => fun _ => Exit status
  | Stuck => fun _ => Stuck
  end.

Declare Scope prog_scope.
Delimit Scope prog_scope with prog.
Bind Scope prog_scope with prog.

Notation "x <- m ; k" := (bind m (fun x => k))
  (at level 20, m at level 100, k at level 200) : prog_scope.
Notation "' p <- m ; k" := (bind m (fun x => match x with p => k end))
  (at level 20, p pattern, m at level 100, k at level 200) : prog_scope.
Notation "m ;; k" := (bind m (fun _ => k))
  (at level 100, k at level 200, right associativity) : prog_scope.

#[local] Open Scope prog_scope.

Definition sys {X} (c : call X) : prog X := Call c Ret.

Definition loop {S X} (body : S -> prog (S + X)) (s : S) : prog X := Loop body s Ret.

(** [for(x in l) f(x);] *)
Fixpoint each {X} (l : list X) (f : X -> prog unit) : prog unit :=
  match l with
  | [] => Ret tt
  | x :: l => f x ;; each l f
  end.

(** The one-byte writes of putc(). *)
Definition puts (fd : Z) (out : list Z) : prog unit := each out (fun c => sys (Write fd [c]) ;; Ret tt).

Definition fprintf (fd : Z) (fmt : list Z) (ap : list arg) : prog unit :=
  match vprintf false fmt ap with Some out => puts fd out | None => Stuck end.

Definition printf (fmt : list Z) (ap : list arg) : prog unit := fprintf 1 fmt ap.

(** ulib.c: stat(). *)
Definition stat_ (n : list Z) : prog (Z * stat) :=
  fd <- sys (Open n 0);
  if fd <? 0 then Ret (-1, Stat 0 0 0 0 0) else
  ' (r, st) <- sys (Fstat fd);
  sys (Close fd) ;;
  Ret (r, st).

(** ** What a process sees *)

Record node := Node { n_type : Z; n_nlink : Z; n_data : list Z }.

(** An open file: an inode with its offset, the console, the read end of a pipe with what
    will come through it, the write end of a pipe that is read to the end, of one that may
    lose its readers, and of one nobody reads. *)
Inductive handle :=
| Hfile (ino : nat) (off : nat) (readable writable : bool)
| Htty (ino : nat)
| Hin (rest : list Z)
| Hout
| Hpipe
| Hbroken.

Inductive event :=
| Said (fd c : Z)
| Did {X} (c : call X) (x : X).

(** [names] resolves the paths, relative to the current directory; [tty] is what is
    typed on the console; [room] is how many processes there is space for; [orphans]
    says that the process is init, which inherits children, and [is_child] that it was
    forked since the start. *)
Record world := World {
  names : gmap (list Z) nat;
  nodes : gmap nat node;
  fds : gmap Z nat;
  ftab : list handle;
  tty : list Z;
  children : list Z;
  room : nat;
  nextpid : Z;
  orphans : bool;
  is_child : bool;
  log : list event
}.

Definition set_fds (f : gmap Z nat) (w : world) : world :=
  World (names w) (nodes w) f (ftab w) (tty w) (children w) (room w) (nextpid w) (orphans w) (is_child w) (log w).
Definition set_ftab (t : list handle) (w : world) : world :=
  World (names w) (nodes w) (fds w) t (tty w) (children w) (room w) (nextpid w) (orphans w) (is_child w) (log w).
Definition set_names (m : gmap (list Z) nat) (w : world) : world :=
  World m (nodes w) (fds w) (ftab w) (tty w) (children w) (room w) (nextpid w) (orphans w) (is_child w) (log w).
Definition set_nodes (m : gmap nat node) (w : world) : world :=
  World (names w) m (fds w) (ftab w) (tty w) (children w) (room w) (nextpid w) (orphans w) (is_child w) (log w).
Definition set_tty (t : list Z) (w : world) : world :=
  World (names w) (nodes w) (fds w) (ftab w) t (children w) (room w) (nextpid w) (orphans w) (is_child w) (log w).
Definition set_children (c : list Z) (w : world) : world :=
  World (names w) (nodes w) (fds w) (ftab w) (tty w) c (room w) (nextpid w) (orphans w) (is_child w) (log w).
Definition set_room (n : nat) (w : world) : world :=
  World (names w) (nodes w) (fds w) (ftab w) (tty w) (children w) n (nextpid w) (orphans w) (is_child w) (log w).
Definition set_nextpid (n : Z) (w : world) : world :=
  World (names w) (nodes w) (fds w) (ftab w) (tty w) (children w) (room w) n (orphans w) (is_child w) (log w).
(** The child of fork(), before it has children. *)
Definition as_child (w : world) : world :=
  World (names w) (nodes w) (fds w) (ftab w) (tty w) [] (room w) (nextpid w) false true (log w).
Definition logged (l : list event) (w : world) : world :=
  World (names w) (nodes w) (fds w) (ftab w) (tty w) (children w) (room w) (nextpid w) (orphans w) (is_child w) (log w ++ l).

(** The world after writing [bs] to [fd]. *)
Definition say (fd : Z) (bs : list Z) (w : world) : world := logged (Said fd <$> bs) w.

(** What has been written to [fd]. *)
Definition out (fd : Z) (w : world) : list Z :=
  omap (fun e => match e with Said fd' c => if fd' =? fd then Some c else None | Did _ _ => None end) (log w).

Definition NOFILE : nat := 16.

Definition lowest (t : gmap Z nat) : option Z :=
  Z.of_nat ∘ fst <$> list_find (fun i => t !! Z.of_nat i = None) (seq 0 NOFILE).

Definition opened (fd : Z) (w : world) : option handle := f ← fds w !! fd; ftab w !! f.

(** A new open file at the lowest free descriptor. *)
Definition open_file (h : handle) (w : world) : Z * world :=
  match lowest (fds w) with
  | Some fd => (fd, set_fds (<[fd := length (ftab w)]> (fds w)) (set_ftab (ftab w ++ [h]) w))
  | None => (-1, w)
  end.

(** [view] is what the paths name after a change of directory, [text] what comes through a
    new pipe. *)
Record choice := Choice { pick : nat; val1 : Z; val2 : Z; text : list Z; view : gmap (list Z) nat }.

(** What a pipe or the console gives of [data]: at least one byte if there is any. *)
Definition chunk (n k : nat) (data : list Z) : nat := Nat.min (S k) (Nat.min n (length data)).

Definition set_handle (fd : Z) (h : handle) (w : world) : world :=
  match fds w !! fd with Some f => set_ftab (<[f := h]> (ftab w)) w | None => w end.

Definition T_DIR : Z := 1.
Definition T_FILE : Z := 2.
Definition T_DEVICE : Z := 3.
Definition O_RDONLY : Z := 0.
Definition O_WRONLY : Z := 1.
Definition O_RDWR : Z := 2.
Definition O_CREATE : Z := 0x200.
Definition O_TRUNC : Z := 0x400.

Definition has (mode flag : Z) : bool := negb (Z.land mode flag =? 0).

(** A new file name; [n] is 0 when the kernel cannot make it. *)
Definition create (n : nat) (path : list Z) (nd : node) (w : world) : option (nat * world) :=
  if (n =? 0)%nat then None else
  let i := fresh (dom (nodes w)) in
  Some (i, set_names (<[path := i]> (names w)) (set_nodes (<[i := nd]> (nodes w)) w)).

(** The call and its result go to the log. *)
Definition did {X} (c : call X) (x : X) (w : world) : X * world := (x, logged [Did c x] w).

(** The open file for an inode. *)
Definition open_node (mode : Z) (i : nat) (nd : node) (w : world) : Z * world :=
  if (n_type nd =? T_DIR) && negb (mode =? O_RDONLY) then (-1, w) else
  if n_type nd =? T_DEVICE then open_file (Htty i) w else
  let '(fd, w) := open_file (Hfile i 0 (negb (has mode O_WRONLY)) (has mode O_WRONLY || has mode O_RDWR)) w in
  if (0 <=? fd) && has mode O_TRUNC && (n_type nd =? T_FILE)
  then (fd, set_nodes (<[i := Node (n_type nd) (n_nlink nd) []]> (nodes w)) w) else (fd, w).

(** The largest file, MAXFILE * BSIZE. *)
Definition MAXBYTES : Z := (12 + 256) * 1024.

(** A write beyond the end of the file fails.  One for which there is no space, because the
    disk is full, [pick] being 0, or the file would get too large, has written some of the
    bytes. *)
Definition write_node (n : choice) (fd : Z) (bs : list Z) (i off : nat) (rd : bool) (nd : node) (w : world) : Z * world :=
  if (length (n_data nd) <? off)%nat && negb (length bs =? 0)%nat then (-1, w) else
  let fails := (pick n =? 0)%nat && negb (length bs =? 0)%nat || (MAXBYTES <? Z.of_nat (off + length bs)) in
  let done := if fails then take (Nat.min (Z.to_nat (val1 n)) (length bs - 1)) bs else bs in
  let w := set_nodes (<[i := Node (n_type nd) (n_nlink nd) (splice off done (n_data nd))]> (nodes w)) w in
  (if fails then -1 else Z.of_nat (length bs),
   say fd done (set_handle fd (Hfile i (off + length done) rd true) w)).

(** A link to [i] more or less. *)
Definition add_nlink (i : nat) (d : Z) (w : world) : world :=
  set_nodes (alter (fun nd => Node (n_type nd) (s16 (n_nlink nd + d)) (n_data nd)) i (nodes w)) w.

Definition is_dir (i : nat) (w : world) : bool :=
  match nodes w !! i with Some nd => n_type nd =? T_DIR | None => false end.

(** The child [pick] selects ends. *)
Definition reap (n : choice) (w : world) : Z * world :=
  match children w with
  | [] => (-1, w)
  | c :: cs =>
      let j := (pick n mod length (c :: cs))%nat in
      (nth j (c :: cs) 0, set_room (S (room w)) (set_children (delete j (c :: cs)) w))
  end.

Definition contents (path : list Z) (w : world) : option node := i ← names w !! path; nodes w !! i.

Definition exec_ok (path : list Z) (w : world) : bool :=
  match contents path w with Some nd => n_type nd =? T_FILE | None => false end.

Definition answer (n : choice) (w : world) {X} (c : call X) : X * world :=
  match c with
  | Open path mode =>
      match i ← names w !! path; nd ← nodes w !! i; Some (i, nd) with
      | Some (i, nd) => open_node mode i nd w
      | None =>
          if has mode O_CREATE then
            match create (pick n) path (Node T_FILE 1 []) w with
            | Some (i, w) => open_node mode i (Node T_FILE 1 []) w
            | None => (-1, w)
            end
          else (-1, w)
      end
  | Close fd => match fds w !! fd with Some _ => (0, set_fds (delete fd (fds w)) w) | None => (-1, w) end
  | Read fd k =>
      match opened fd w with
      | Some (Hfile i off true wr) =>
          let bs := take k (drop off (from_option n_data [] (nodes w !! i))) in
          ((Z.of_nat (length bs), bs), set_handle fd (Hfile i (off + length bs) true wr) w)
      | Some (Htty _) =>
          let m := chunk k (pick n) (tty w) in
          ((Z.of_nat m, take m (tty w)), set_tty (drop m (tty w)) w)
      | Some (Hin rest) =>
          let m := chunk k (pick n) rest in
          ((Z.of_nat m, take m rest), set_handle fd (Hin (drop m rest)) w)
      | _ => ((-1, []), w)
      end
  | Write fd bs =>
      match opened fd w with
      | Some (Hfile i off rd true) =>
          match nodes w !! i with Some nd => write_node n fd bs i off rd nd w | None => (-1, w) end
      | Some (Htty _ | Hout) => (Z.of_nat (length bs), say fd bs w)
      | Some Hpipe => if (pick n =? 0)%nat then (-1, w) else (Z.of_nat (length bs), say fd bs w)
      | _ => (-1, w)
      end
  | Fstat fd =>
      match opened fd w with
      | Some (Hfile i _ _ _ | Htty i) =>
          match nodes w !! i with
          | Some nd => ((0, Stat 1 (Z.of_nat i) (n_type nd) (n_nlink nd) (Z.of_nat (length (n_data nd)))), w)
          | None => ((-1, Stat 0 0 0 0 0), w)
          end
      | _ => ((-1, Stat 0 0 0 0 0), w)
      end
  | Dup fd =>
      match fds w !! fd, lowest (fds w) with
      | Some f, Some fd' => (fd', set_fds (<[fd' := f]> (fds w)) w)
      | _, _ => (-1, w)
      end
  | Pipe =>
      match open_file (Hin (text n)) w with
      | (fd0, w') =>
          if fd0 <? 0 then ((-1, (0, 0)), w) else
          let '(fd1, w'') := open_file Hpipe w' in
          if fd1 <? 0 then ((-1, (0, 0)), w) else ((0, (fd0, fd1)), w'')
      end
  | Link old new as c =>
      match names w !! old, names w !! new with
      | Some i, None =>
          if is_dir i w || (pick n =? 0)%nat then did c (-1) w
          else did c 0 (add_nlink i 1 (set_names (<[new := i]> (names w)) w))
      | _, _ => did c (-1) w
      end
  | Unlink path as c =>
      match names w !! path with
      | Some i => if (pick n =? 0)%nat then did c (-1) w else did c 0 (add_nlink i (-1) (set_names (delete path (names w)) w))
      | None => did c (-1) w
      end
  | Mkdir path as c =>
      match names w !! path, create (pick n) path (Node T_DIR 1 []) w with
      | None, Some (_, w) => did c 0 w
      | _, _ => did c (-1) w
      end
  | Mknod path major minor as c =>
      match names w !! path, create (pick n) path (Node T_DEVICE 1 []) w with
      | None, Some (_, w) => did c 0 w
      | _, _ => did c (-1) w
      end
  | Chdir _ as c => if (pick n =? 0)%nat then did c (-1) w else did c 0 (set_names (view n) w)
  | Fork =>
      match room w, pick n with
      | S room, 0%nat => (0, as_child (set_room room w))
      | S room, S (S k) =>
          let pid := nextpid w + Z.of_nat k in
          (pid, set_nextpid (pid + 1) (set_room room (set_children (children w ++ [pid]) w)))
      | _, _ => (-1, w)
      end
  | Wait =>
      if orphans w && (0 <? val1 n) && negb (bool_decide (val1 n ∈ children w))
      then ((val1 n, val2 n), w)
      else let '(pid, w) := reap n w in ((pid, val2 n), w)
  | Waitx => let '(pid, w) := reap n w in ((pid, (s32 (val1 n), s32 (val2 n))), w)
  | Kill pid as c => did c (if (pick n =? 0)%nat then -1 else 0) w
  | Sleep _ as c => did c 0 w
  | Sbrk _ => (val1 n, w)
  | Getpid => (Z.max 1 (val1 n), w)
  | Trace _ as c => did c 0 w
  | Setpriority _ _ as c => did c (Z.max (-1) (s32 (val1 n))) w
  end.

(** ** Runs *)

(** How a process ends. *)
Inductive ending := Exited (status : Z) | Became (path : list Z) (argv : list (list Z)).

Inductive outcome (A : Type) := Done (a : A) (w : world) | Ended (e : ending) (w : world) | Crashed | NoFuel.
Arguments Done {A}. Arguments Ended {A}. Arguments Crashed {A}. Arguments NoFuel {A}.

(** One more round of a loop. *)
Definition unroll {A S X} (body : S -> prog (S + X)) (s : S) (k : X -> prog A) : prog A :=
  bind (body s) (fun r => match r with inl s => Loop body s k | inr x => k x end).

Definition choice0 : choice := Choice 2 0 0 [] ∅.

(** The run with choices [o]; each step takes one unit of fuel. *)
Fixpoint run (fuel : nat) (o : list choice) {A} (p : prog A) (w : world) : outcome A :=
  match fuel with
  | O => NoFuel
  | S fuel =>
      match p with
      | Ret a => fun w => Done a w
      | Call c k => fun w => let r := answer (hd choice0 o) w c in run fuel (tl o) (k r.1) r.2
      | Loop body s k => fun w => run fuel o (unroll body s k) w
      | Exec path argv k => fun w =>
          if exec_ok path w && negb (pick (hd choice0 o) =? 0)%nat then Ended (Became path argv) w
          else run fuel (tl o) (k (-1)) w
      | Exit status => fun w => Ended (Exited status) w
      | Stuck => fun _ => Crashed
      end w
  end.

(** Whatever the choices, the program ends, returning a value as [Q] says or ending the
    process as [E] says. *)
Inductive always : forall {A}, prog A -> world -> (A -> world -> Prop) -> (ending -> world -> Prop) -> Prop :=
| al_ret {A} (a : A) w (Q : A -> world -> Prop) E : Q a w -> always (Ret a) w Q E
| al_call {A X} (c : call X) (k : X -> prog A) w Q E :
    (forall n, always (k (answer n w c).1) (answer n w c).2 Q E) -> always (Call c k) w Q E
| al_loop {A S X} (body : S -> prog (S + X)) s (k : X -> prog A) w Q E :
    always (unroll body s k) w Q E -> always (Loop body s k) w Q E
| al_exec {A} path argv (k : Z -> prog A) w Q (E : ending -> world -> Prop) :
    (exec_ok path w = true -> E (Became path argv) w) -> always (k (-1)) w Q E -> always (Exec path argv k) w Q E
| al_exit {A} status w (Q : A -> world -> Prop) (E : ending -> world -> Prop) :
    E (Exited status) w -> always (Exit status) w Q E.

(** In the first [n] steps, every call is one that [I] allows, and the program returns
    and the process ends only as [Q] and [E] say. *)
Fixpoint safe (n : nat) {A} (p : prog A) (w : world) (I : forall X, call X -> world -> Prop)
    (Q : A -> world -> Prop) (E : ending -> world -> Prop) : Prop :=
  match n with
  | O => True
  | S n =>
      match p in prog A return (A -> world -> Prop) -> Prop with
      | Ret a => fun Q => Q a w
      | Call c k => fun Q => I _ c w /\ forall ch, safe n (k (answer ch w c).1) (answer ch w c).2 I Q E
      | Loop body s k => fun Q => safe n (unroll body s k) w I Q E
      | Exec path argv k => fun Q => (exec_ok path w = true -> E (Became path argv) w) /\ safe n (k (-1)) w I Q E
      | Exit status => fun _ => E (Exited status) w
      | Stuck => fun _ => False
      end Q
  end.

(** [always] is about [run]: with enough fuel, the run with any choices ends well. *)
Lemma always_run {A} (p : prog A) w Q E : always p w Q E ->
  forall o, exists fuel,
    match run fuel o p w with Done a w' => Q a w' | Ended e w' => E e w' | Crashed | NoFuel => False end.
Proof.
  induction 1 as [A a w Q E HQ|A X c k w Q E _ IH|A S X body s k w Q E _ IH|A path argv k w Q E Hb _ IH|A st w Q E HE]; intros o.
  - by exists 1%nat.
  - destruct (IH (hd choice0 o) (tl o)) as [f Hf]. by exists (Datatypes.S f).
  - destruct (IH o) as [f Hf]. by exists (Datatypes.S f).
  - destruct (IH (tl o)) as [f Hf]. exists (Datatypes.S f). cbn. destruct (exec_ok path w); cbn; [|done].
    destruct (pick _ =? 0)%nat; cbn; [done|by apply Hb].
  - by exists 1%nat.
Qed.

(** ** Rules *)

Lemma always_mono {A} (p : prog A) w Q E (Q' : A -> world -> Prop) (E' : ending -> world -> Prop) : always p w Q E ->
  (forall a w', Q a w' -> Q' a w') -> (forall e w', E e w' -> E' e w') -> always p w Q' E'.
Proof. intros H. revert Q' E'. induction H; intros Q' E' HQ HE; constructor; eauto. Qed.

Lemma prog_bind_assoc {A B C} (p : prog A) (f : A -> prog B) (g : B -> prog C) : bind (bind p f) g = bind p (fun a => bind (f a) g).
Proof.
  revert B C f g. induction p as [A a|A X c k IH|A S X body _ s k IH|A path argv k IH|A st|A]; intros B C f g; cbn;
    [done| | | |done|done]; f_equal; apply functional_extensionality; intros x; apply IH.
Qed.

Lemma bind_ret {A} (p : prog A) : bind p Ret = p.
Proof. induction p as [A a|A X c k IH|A S X body _ s k IH|A path argv k IH|A st|A]; cbn; try done; f_equal; apply functional_extensionality; intros x; apply IH. Qed.

Lemma unroll_bind {A B S X} (body : S -> prog (S + X)) s (k : X -> prog A) (f : A -> prog B) :
  bind (unroll body s k) f = unroll body s (fun x => bind (k x) f).
Proof. unfold unroll. rewrite prog_bind_assoc. f_equal. apply functional_extensionality. by intros [s'|x]. Qed.

Lemma always_bind {A B} (p : prog A) (f : A -> prog B) w (Q : B -> world -> Prop) E :
  always p w (fun a w' => always (f a) w' Q E) E -> always (bind p f) w Q E.
Proof.
  remember (fun a w' => always (f a) w' Q E) as Q' eqn:HQ. intros H.
  induction H as [A a w Q' E H|A X c k w Q' E H IH|A S X body s k w Q' E H IH|A path argv k w Q' E Hb H IH|A st w Q' E H]; subst; cbn [bind].
  - done.
  - constructor. intros n. by apply IH.
  - constructor. rewrite <- unroll_bind. by apply IH.
  - constructor; [done|]. by apply IH.
  - by constructor.
Qed.

Lemma always_sys {X} (c : call X) w (Q : X -> world -> Prop) E :
  (forall n, Q (answer n w c).1 (answer n w c).2) -> always (sys c) w Q E.
Proof. intros H. constructor. intros n. by constructor. Qed.

(** A loop with an invariant and a measure that goes down. *)
Lemma always_loop {S X} (body : S -> prog (S + X)) (I : S -> world -> Prop) (m : S -> world -> nat) (Q : X -> world -> Prop) E :
  (forall s w, I s w -> always (body s) w (fun r w' =>
     match r with inl s' => I s' w' /\ (m s' w' < m s w)%nat | inr x => Q x w' end) E) ->
  forall s w, I s w -> always (loop body s) w Q E.
Proof.
  intros Hbody s w. remember (m s w) as n eqn:Hn. revert s w Hn. induction n as [n IH] using lt_wf_ind. intros s w -> HI.
  constructor. apply always_bind. eapply always_mono; [by apply Hbody| |done].
  intros [s'|x] w'; cbn beta iota; [|by constructor]. intros [HI' Hm]. by eapply IH.
Qed.

(** A loop over a list, the elements done so far first. *)
Lemma always_each {X} (l : list X) (f : X -> prog unit) (I : list X -> world -> Prop) E :
  (forall pre x post w, l = pre ++ x :: post -> I pre w -> always (f x) w (fun _ => I (pre ++ [x])) E) ->
  forall w, I [] w -> always (each l f) w (fun _ => I l) E.
Proof.
  intros Hf w HI. assert (Hgen : forall pre post w, l = pre ++ post -> I pre w -> always (each post f) w (fun _ => I l) E); [|by apply (Hgen [])].
  clear w HI. intros pre post. revert pre. induction post as [|x post IH]; intros pre w Hl HI; cbn [each].
  - constructor. by rewrite Hl, app_nil_r.
  - apply always_bind. eapply always_mono; [by apply (Hf pre x post)| |done].
    intros [] w' HI'. apply (IH (pre ++ [x])); [|done]. by rewrite <- app_assoc.
Qed.

(** ** Writing to the console or to a pipe *)

Definition writable (fd : Z) (w : world) : Prop := match opened fd w with Some (Htty _ | Hout) => True | _ => False end.

Lemma say_nil fd w : say fd [] w = w.
Proof. destruct w. unfold say, logged. cbn. by rewrite app_nil_r. Qed.

Lemma say_app fd a b w : say fd b (say fd a w) = say fd (a ++ b) w.
Proof. unfold say, logged. cbn. by rewrite fmap_app, app_assoc. Qed.

Lemma out_say fd fd' bs w : out fd (say fd' bs w) = out fd w ++ (if fd' =? fd then bs else []).
Proof.
  unfold out, say, logged. cbn [log]. rewrite omap_app. f_equal. induction bs as [|b bs IH]; cbn; [by destruct (_ =? _)|].
  rewrite IH. by destruct (fd' =? fd).
Qed.

Lemma write_said fd bs w n : writable fd w -> answer n w (Write fd bs) = (Z.of_nat (length bs), say fd bs w).
Proof. unfold writable. cbn. by destruct (opened fd w) as [[]|]. Qed.

Lemma writable_say fd fd' bs w : writable fd (say fd' bs w) <-> writable fd w.
Proof. done. Qed.

Lemma always_write fd bs w (Q : Z -> world -> Prop) E :
  writable fd w -> Q (Z.of_nat (length bs)) (say fd bs w) -> always (sys (Write fd bs)) w Q E.
Proof. intros Hw HQ. apply always_sys. intros n. by rewrite write_said. Qed.

Lemma always_puts fd bs w (Q : unit -> world -> Prop) E :
  writable fd w -> Q tt (say fd bs w) -> always (puts fd bs) w Q E.
Proof.
  intros Hw HQ. eapply always_mono; [apply (always_each bs _ (fun pre w' => w' = say fd pre w))| |done]; cbn beta.
  - intros pre x post w' _ ->. apply always_bind, always_write; [done|]. constructor. by rewrite say_app.
  - by rewrite say_nil.
  - by intros [] ? ->.
Qed.

Lemma always_fprintf fd fmt ap text w (Q : unit -> world -> Prop) E :
  vprintf false fmt ap = Some text -> writable fd w -> Q tt (say fd text w) -> always (fprintf fd fmt ap) w Q E.
Proof. intros Ht. unfold fprintf. rewrite Ht. apply always_puts. Qed.

(** ** Reading to the end *)

(** What reading [fd] to the end of file gives. *)
Definition source (fd : Z) (w : world) (d : list Z) : Prop :=
  match opened fd w with
  | Some (Hfile i off true _) => d = drop off (from_option n_data [] (nodes w !! i))
  | Some (Htty _) => d = tty w
  | Some (Hin rest) => d = rest
  | _ => False
  end.

(** Reading changes the offset of the file, or the rest of the stream, only. *)
Record kept (w w' : world) : Prop := {
  kp_names : names w' = names w;
  kp_nodes : nodes w' = nodes w;
  kp_fds : fds w' = fds w;
  kp_writable fd : writable fd w -> writable fd w'
}.

Lemma kept_refl w : kept w w.
Proof. by split. Qed.

Lemma kept_trans w1 w2 w3 : kept w1 w2 -> kept w2 w3 -> kept w1 w3.
Proof. intros [A1 B1 C1 D1] [A2 B2 C2 D2]. split; [congruence..|]. auto. Qed.

Lemma kept_say w fd bs : kept w (say fd bs w).
Proof. by split. Qed.

Lemma opened_set_handle fd h w : is_Some (opened fd w) -> opened fd (set_handle fd h w) = Some h.
Proof.
  unfold opened, set_handle. destruct (fds w !! fd) as [f|] eqn:Ef; cbn; [|by intros [? ?]]. intros Hf%lookup_lt_is_Some.
  rewrite Ef. cbn. by apply list_lookup_insert_eq.
Qed.

Lemma kept_set_handle fd h w : ~ writable fd w -> kept w (set_handle fd h w).
Proof.
  intros Hn. unfold set_handle. destruct (fds w !! fd) as [f|] eqn:Ef; [|apply kept_refl]. split; [done..|]. intros fd'.
  unfold writable, opened in *. cbn. destruct (fds w !! fd') as [f'|]; cbn; [|done]. rewrite Ef in Hn. cbn in Hn.
  destruct (decide (f = f')) as [->|Hne]; [done|]. by rewrite list_lookup_insert_ne.
Qed.

Lemma chunk_spec n k (d : list Z) : (0 < n)%nat -> (chunk n k d <= n)%nat /\ (chunk n k d <= length d)%nat /\ (chunk n k d = 0%nat <-> d = []).
Proof. intros. unfold chunk. split; [lia|]. split; [lia|]. destruct d; cbn [length]; split; (done || (intros; lia)). Qed.

(** One read() from a source. *)
Lemma read_source fd w d k n : source fd w d -> (0 < k)%nat ->
  exists m w', answer n w (Read fd k) = ((Z.of_nat m, take m d), w') /\ (m <= k)%nat /\ (m <= length d)%nat /\ (m = 0%nat <-> d = []) /\
    source fd w' (drop m d) /\ kept w w' /\ log w' = log w.
Proof.
  intros Hs Hk. unfold source in Hs. destruct (opened fd w) as [[i off [] wr|it|rest| | |]|] eqn:Ho; try done; cbn; rewrite Ho; subst d.
  - set (data := from_option n_data [] (nodes w !! i)). set (bs := take k (drop off data)).
    assert (Hlen : length bs = Nat.min k (length (drop off data))) by apply length_take.
    exists (length bs), (set_handle fd (Hfile i (off + length bs) true wr) w). split; [|split; [lia|split; [lia|split; [|split; [|split]]]]].
    + rewrite Hlen. unfold bs. do 2 f_equal. destruct (decide (k <= length (drop off data))%nat).
      * by rewrite Nat.min_l.
      * by rewrite Nat.min_r, !take_ge by lia.
    + rewrite Hlen, <- length_zero_iff_nil. lia.
    + unfold source. rewrite opened_set_handle by (by eexists). rewrite drop_drop. unfold data, set_handle. by destruct (fds w !! fd).
    + apply kept_set_handle. unfold writable. rewrite Ho. by intros [].
    + unfold set_handle. by destruct (fds w !! fd).
  - destruct (chunk_spec k (pick n) (tty w) Hk) as (A & B & C). eexists _, _. split; [reflexivity|]. split_and!; try done; try apply C.
    unfold source. unfold opened in *. cbn. by rewrite Ho.
  - destruct (chunk_spec k (pick n) rest Hk) as (A & B & C). eexists _, _. split; [reflexivity|]. split_and!; try done; try apply C.
    + unfold source. by rewrite opened_set_handle by (by eexists).
    + apply kept_set_handle. unfold writable. rewrite Ho. by intros [].
    + unfold set_handle. by destruct (fds w !! fd).
Qed.

(** [while((n = read(fd, buf, k)) > 0)] with what is done with each piece, and at the end;
    the size [k] of the buffer left may depend on the state. *)
Definition read_loop {S X} (fd : Z) (k : S -> nat) (piece : S -> list Z -> prog S) (s : S) (last : S -> Z -> prog X) : prog X :=
  ' (s, n) <- loop (fun s =>
      ' (n, buf) <- sys (Read fd (k s));
      if 0 <? n then s <- piece s (take (Z.to_nat n) buf); Ret (inl s) else Ret (inr (s, n))) s;
  last s n.

(** [I d s w] says what holds when [d] has been read. *)
Lemma always_read_loop {S X} fd k (piece : S -> list Z -> prog S) (last : S -> Z -> prog X)
    (I : list Z -> S -> world -> Prop) (Q : X -> world -> Prop) E d s w :
  (forall pre post s w, d = pre ++ post -> I pre s w -> (0 < k s)%nat) ->
  (forall d s w w', I d s w -> kept w w' -> log w' = log w -> I d s w') ->
  (forall pre bs post s w, d = pre ++ bs ++ post -> (0 < length bs <= k s)%nat -> I pre s w -> source fd w post ->
     always (piece s bs) w (fun s' w' => I (pre ++ bs) s' w' /\ source fd w' post) E) ->
  (forall s w, I d s w -> always (last s 0) w Q E) ->
  source fd w d -> I [] s w -> always (read_loop fd k piece s last) w Q E.
Proof.
  intros Hk Hstable Hpiece Hlast Hsrc HI. apply always_bind.
  assert (Hgen : forall post pre s w, d = pre ++ post -> source fd w post -> I pre s w ->
    always (loop (fun s => ' (n, buf) <- sys (Read fd (k s)); if 0 <? n then s <- piece s (take (Z.to_nat n) buf); Ret (inl s) else Ret (inr (s, n))) s) w
      (fun r w' => always (let '(s, n) := r in last s n) w' Q E) E); [|by apply (Hgen d [])].
  clear s w HI Hsrc. intros post. remember (length post) as l eqn:Hl. revert post Hl. induction l as [l IH] using lt_wf_ind.
  intros post -> pre s w Hd Hsrc HI. constructor. apply always_bind, always_bind, always_sys. intros n.
  destruct (read_source fd w post (k s) n Hsrc (Hk _ _ _ _ Hd HI)) as (m & w' & -> & Hmk & Hm & Hz & Hsrc' & Hkp & Hlog). cbn [fst snd].
  pose proof (Hstable _ _ _ _ HI Hkp Hlog) as HI'. destruct (Z.ltb_spec 0 (Z.of_nat m)) as [Hpos|Hneg].
  - rewrite Nat2Z.id, take_take, Nat.min_id. apply always_bind.
    eapply always_mono; [apply (Hpiece pre (take m post) (drop m post)); [by rewrite take_drop|rewrite length_take_le by lia; lia|done..]| |done].
    intros s' w2 [HI2 Hsrc2]. constructor. eapply (IH (length (drop m post))); [rewrite length_drop; lia|done| |done|done].
    by rewrite <- app_assoc, take_drop.
  - assert (m = 0%nat) as -> by lia. assert (post = []) as -> by (by apply Hz). rewrite app_nil_r in Hd. subst pre. do 2 constructor. by apply Hlast.
Qed.

(** ** Opening a file to read it *)

(** The open file for inode [i]. *)
Definition read_handle (i : nat) (nd : node) : handle := if n_type nd =? T_DEVICE then Htty i else Hfile i 0 true false.

(** The world in which it has just been opened at [fd]. *)
Definition open_read (fd : Z) (i : nat) (nd : node) (w : world) : world :=
  set_fds (<[fd := length (ftab w)]> (fds w)) (set_ftab (ftab w ++ [read_handle i nd]) w).

Definition stat_of (i : nat) (nd : node) : stat := Stat 1 (Z.of_nat i) (n_type nd) (n_nlink nd) (Z.of_nat (length (n_data nd))).

Lemma lowest_free t fd : lowest t = Some fd -> 0 <= fd /\ t !! fd = None.
Proof.
  unfold lowest. rewrite fmap_Some. intros ([j x] & Hj & ->). apply list_find_Some in Hj as (Hx & Hn & _).
  apply lookup_seq in Hx as [-> _]. cbn. split; [lia|done].
Qed.

Lemma open_read_run path i nd fd w n :
  names w !! path = Some i -> nodes w !! i = Some nd -> lowest (fds w) = Some fd ->
  answer n w (Open path 0) = (fd, open_read fd i nd w).
Proof.
  intros Hi Hnd Hfd. cbn. rewrite Hi. cbn. rewrite Hnd. cbn. unfold open_node. change (0 =? O_RDONLY) with true. rewrite andb_false_r.
  unfold open_file, open_read, read_handle. rewrite Hfd. change (has 0 O_TRUNC) with false. rewrite andb_false_r. by destruct (_ =? _).
Qed.

Lemma open_read_opened fd i nd w : opened fd (open_read fd i nd w) = Some (read_handle i nd).
Proof. unfold opened, open_read. cbn. rewrite lookup_insert_eq. cbn. by rewrite lookup_app_r, Nat.sub_diag by lia. Qed.

Lemma open_read_source fd i nd w :
  nodes w !! i = Some nd -> n_type nd <> T_DEVICE -> source fd (open_read fd i nd w) (n_data nd).
Proof.
  intros Hnd Ht. unfold source. rewrite open_read_opened. unfold read_handle. rewrite (proj2 (Z.eqb_neq _ _) Ht).
  change (nodes (open_read fd i nd w)) with (nodes w). by rewrite Hnd.
Qed.

Lemma open_read_writable fd i nd w fd' : fds w !! fd = None -> writable fd' w -> writable fd' (open_read fd i nd w).
Proof.
  intros Hfd. unfold writable, opened, open_read. cbn. destruct (decide (fd = fd')) as [->|Hne]; [by rewrite Hfd|].
  rewrite lookup_insert_ne by done. destruct (fds w !! fd') as [f|]; cbn; [|done].
  destruct (ftab w !! f) as [h|] eqn:Hf; [|done]. by rewrite (lookup_app_l_Some _ _ _ _ Hf).
Qed.

Lemma fstat_run fd i nd w n : nodes w !! i = Some nd -> answer n (open_read fd i nd w) (Fstat fd) = ((0, stat_of i nd), open_read fd i nd w).
Proof.
  intros Hnd. unfold answer. rewrite open_read_opened. unfold read_handle.
  destruct (n_type nd =? T_DEVICE) eqn:Et; change (nodes (open_read fd i nd w)) with (nodes w); by rewrite Hnd.
Qed.

Lemma always_open path i nd w (Q : Z -> world -> Prop) E :
  names w !! path = Some i -> nodes w !! i = Some nd -> is_Some (lowest (fds w)) ->
  (forall fd, 0 <= fd -> fds w !! fd = None -> Q fd (open_read fd i nd w)) -> always (sys (Open path 0)) w Q E.
Proof.
  intros Hi Hnd [fd Hfd] HQ. apply always_sys. intros n. rewrite (open_read_run path i nd fd) by done.
  destruct (lowest_free _ _ Hfd). by apply HQ.
Qed.

Lemma always_open_none path w (Q : Z -> world -> Prop) E :
  contents path w = None -> Q (-1) w -> always (sys (Open path 0)) w Q E.
Proof.
  intros Hc HQ. apply always_sys. intros n. cbn. unfold contents in Hc. destruct (names w !! path) as [i|]; cbn in *; [|done]. by rewrite Hc.
Qed.

(** Closing a descriptor opened since [w]. *)
Lemma close_run fd i nd w w1 n : fds w !! fd = None -> kept (open_read fd i nd w) w1 ->
  exists w2, answer n w1 (Close fd) = (0, w2) /\ kept w w2 /\ log w2 = log w1.
Proof.
  intros Hfd [A B C D]. cbn. rewrite C. cbn. rewrite lookup_insert_eq. eexists. split; [reflexivity|]. split; [|done].
  split; cbn; [done|done|by rewrite delete_insert_id|]. intros fd' Hw. pose proof (D fd' (open_read_writable _ i nd _ _ Hfd Hw)) as Hw1.
  assert (Hne : fd <> fd') by (intros ->; unfold writable, opened in Hw; by rewrite Hfd in Hw).
  unfold writable, opened in *. cbn. rewrite C in Hw1. cbn in Hw1. rewrite lookup_insert_ne in Hw1 by done.
  by rewrite lookup_delete_ne, lookup_insert_ne by done.
Qed.

(** [fd = open(path, 0); body(fd); close(fd);] *)
Lemma always_with_file path i nd w (fail : prog unit) (body : Z -> prog unit) (Q : unit -> world -> Prop) E :
  names w !! path = Some i -> nodes w !! i = Some nd -> is_Some (lowest (fds w)) ->
  (forall fd, fds w !! fd = None ->
     always (body fd) (open_read fd i nd w) (fun _ w1 => kept (open_read fd i nd w) w1 /\ forall w2, kept w w2 -> log w2 = log w1 -> Q tt w2) E) ->
  always (fd <- sys (Open path 0); if fd <? 0 then fail else (body fd ;; sys (Close fd) ;; Ret tt)) w Q E.
Proof.
  intros Hi Hnd Hl Hbody. apply always_bind, (always_open path i nd); [done..|]. intros fd Hpos Hfd.
  rewrite (proj2 (Z.ltb_ge fd 0)) by done. apply always_bind. eapply always_mono; [by apply Hbody| |done].
  intros [] w1 [Hk HQ]. apply always_bind, always_sys. intros n.
  destruct (close_run fd i nd w w1 n Hfd Hk) as (w2 & -> & Hk2 & Hl2). constructor. by apply HQ.
Qed.

(** A new entry of the table of open files changes nothing for the descriptors. *)
Lemma opened_ftab fd h h' w : opened fd w = Some h -> opened fd (set_ftab (ftab w ++ [h']) w) = Some h.
Proof. unfold opened. cbn. destruct (fds w !! fd) as [f|]; cbn; [|done]. apply lookup_app_l_Some. Qed.

Lemma kept_ftab w h : kept w (set_ftab (ftab w ++ [h]) w).
Proof.
  split; [done..|]. intros fd. unfold writable. destruct (opened fd w) as [h'|] eqn:Ho; [|done]. by rewrite (opened_ftab fd h').
Qed.

(** stat() of a path; the file it opened stays in the table, unused. *)
Lemma always_stat path i nd w (Q : Z * stat -> world -> Prop) E :
  names w !! path = Some i -> nodes w !! i = Some nd -> is_Some (lowest (fds w)) ->
  Q (0, stat_of i nd) (set_ftab (ftab w ++ [read_handle i nd]) w) -> always (stat_ path) w Q E.
Proof.
  intros Hi Hnd Hl HQ. apply always_bind, (always_open path i nd); [done..|]. intros fd Hpos Hfd.
  rewrite (proj2 (Z.ltb_ge fd 0)) by done. apply always_bind, always_sys. intros n. rewrite fstat_run by done. cbn [fst snd].
  apply always_bind, always_sys. intros n'. cbn. rewrite lookup_insert_eq. cbn. constructor.
  unfold open_read, set_fds, set_ftab in *. cbn in *. by rewrite delete_insert_id.
Qed.

Lemma always_stat_none path w (Q : Z * stat -> world -> Prop) E :
  contents path w = None -> Q (-1, Stat 0 0 0 0 0) w -> always (stat_ path) w Q E.
Proof. intros Hc HQ. apply always_bind, always_open_none; [done|]. by constructor. Qed.

(** ** Rules for programs that go on for ever *)

Section Safe.
Context (I : forall X, call X -> world -> Prop) (E : ending -> world -> Prop).

Lemma safe_le n m {A} (p : prog A) w Q : (m <= n)%nat -> safe n p w I Q E -> safe m p w I Q E.
Proof using.
  revert m A p w Q. induction n as [|n IH]; intros [|m] A p w Q Hm; try done; [lia|]. destruct p; cbn; try done.
  - intros [H1 H2]. split; [done|]. intros c0. apply IH; [lia|apply H2].
  - apply IH. lia.
  - intros [H1 H2]. split; [done|]. by apply IH; [lia|].
Qed.

Lemma safe_bind n {A B} (p : prog A) (f : A -> prog B) w Q' Q : safe n p w I Q' E ->
  (forall m a w', (m <= n)%nat -> Q' a w' -> safe m (f a) w' I Q E) -> safe n (bind p f) w I Q E.
Proof using.
  revert A p w Q' f. induction n as [|n IH]; intros A p w Q' f; [done|]. destruct p as [A a|A X c k|A S X body s k|A path argv k|A st|A]; cbn; try done.
  - intros HQ Hf. by apply (Hf (S n)).
  - intros [H1 H2] Hf. split; [done|]. intros c0. eapply IH; [apply H2|]. intros m x w' Hm. apply Hf. lia.
  - intros H Hf. rewrite <- unroll_bind. eapply IH; [exact H|]. intros m x w' Hm. apply Hf. lia.
  - intros [H1 H2] Hf. split; [done|]. eapply IH; [exact H2|]. intros m x w' Hm. apply Hf. lia.
Qed.

Lemma safe_sys n {X} (c : call X) w (Q : X -> world -> Prop) :
  I X c w -> (forall ch, Q (answer ch w c).1 (answer ch w c).2) -> safe n (sys c) w I Q E.
Proof using. intros Hc HQ. destruct n as [|[|n]]; cbn; auto. Qed.

Lemma safe_loop n {S X} (body : S -> prog (S + X)) (J : S -> world -> Prop) (Q : X -> world -> Prop) :
  (forall m s w, J s w -> safe m (body s) w I (fun r w' => match r with inl s' => J s' w' | inr x => Q x w' end) E) ->
  forall s w, J s w -> safe n (loop body s) w I Q E.
Proof using.
  intros Hbody. induction n as [n IH] using lt_wf_ind. intros s w HJ. destruct n as [|n]; [done|]. cbn.
  eapply safe_bind; [by apply Hbody|]. intros m [s'|x] w' Hm H; cbn beta iota in H; [by apply IH; [lia|]|]. by destruct m.
Qed.

(** Printing, on the console or, without effect, on a descriptor that is not open. *)
Lemma safe_puts n fd bs w (Q : unit -> world -> Prop) :
  (forall bs w, I Z (Write fd bs) w) -> writable fd w \/ opened fd w = None ->
  (writable fd w -> Q tt (say fd bs w)) -> (opened fd w = None -> Q tt w) -> safe n (puts fd bs) w I Q E.
Proof using.
  intros HI. revert n w. induction bs as [|b bs IH]; intros n w Hfd Hsay Hno; unfold puts; cbn [each].
  - destruct n as [|n]; [done|]. cbn. rewrite say_nil in Hsay. destruct Hfd; auto.
  - eapply (safe_bind n _ _ _ (fun _ w1 => (writable fd w /\ w1 = say fd [b] w) \/ (opened fd w = None /\ w1 = w))).
    + eapply (safe_bind n _ _ _ (fun _ w1 => (writable fd w /\ w1 = say fd [b] w) \/ (opened fd w = None /\ w1 = w))).
      * apply safe_sys; [done|]. intros ch. destruct Hfd as [Hw|Hw]; [left; by rewrite write_said|right]. cbn. by rewrite Hw.
      * intros m x w1 _ H1. by destruct m.
    + intros m [] w1 _ [[Hw ->]|[Hw ->]]; apply IH; auto.
      * intros _. rewrite say_app. auto.
      * intros Hn. unfold writable in Hw. change (opened fd (say fd [b] w)) with (opened fd w) in Hn. by rewrite Hn in Hw.
      * intros Hn. unfold writable in Hn. by rewrite Hw in Hn.
Qed.
End Safe.
