(* ===== verification/Utils.v ===== *)
(** * The utilities: cat.c, wc.c, echo.c, kill.c, ln.c, mkdir.c, rm.c, ls.c

    Each main() takes its argument vector, argv[0] first.  cat and wc are proved to
    copy and to count the named files whatever sizes the kernel's reads have, ls to
    print one line for each entry of a directory, and the programs that make one
    system call for each argument to make exactly these calls, up to the first that
    fails. *)

From S2P Require Import Prelude State Cstring Ulib Fs Unix.

#[local] Open Scope prog_scope.

(** ** Programs *)

(** *** cat.c *)

Definition cat (fd : Z) : prog unit :=
  read_loop fd (fun _ => 512%nat)
    (fun _ buf =>
       n <- sys (Write 1 buf);
       if n =? Z.of_nat (length buf) then Ret tt
       else (fprintf 2 (bytes_of "cat: write error" ++ nl) [] ;; Exit 1))
    tt
    (fun _ n => if n <? 0 then (fprintf 2 (bytes_of "cat: read error" ++ nl) [] ;; Exit 1) else Ret tt).

Definition cat_main (argv : list (list Z)) : prog unit :=
  if (length argv <=? 1)%nat then cat 0 ;; Exit 0 else
  each (tail argv) (fun a =>
    fd <- sys (Open a 0);
    if fd <? 0 then fprintf 2 (bytes_of "cat: cannot open %s" ++ nl) [Str (Some a)] ;; Exit 1
    else (cat fd ;; sys (Close fd) ;; Ret tt)) ;;
  Exit 0.

(** *** wc.c *)

(** The counters of wc(). *)
Record counts := Counts { lc : Z; wd : Z; ch : Z; inword : bool }.

(** The blanks of wc(): space, CR, tab, newline, vertical tab. *)
Definition blanks : list Z := [32; 13; 9; 10; 11].

Definition wc_char (s : counts) (c : Z) : counts :=
  let ch' := s32 (ch s + 1) in
  let lc' := if c =? 10 then s32 (lc s + 1) else lc s in
  if strchr blanks c then Counts lc' (wd s) ch' false
  else if inword s then Counts lc' (wd s) ch' true
  else Counts lc' (s32 (wd s + 1)) ch' true.

Definition wc (fd : Z) (name : list Z) : prog unit :=
  read_loop fd (fun _ => 512%nat)
    (fun s buf => Ret (fold_left wc_char buf s))
    (Counts 0 0 0 false)
    (fun s n =>
       if n <? 0 then (printf (bytes_of "wc: read error" ++ nl) [] ;; Exit 1)
       else printf (bytes_of "%d %d %d %s" ++ nl) [Num (lc s); Num (wd s); Num (ch s); Str (Some name)]).

Definition wc_main (argv : list (list Z)) : prog unit :=
  if (length argv <=? 1)%nat then wc 0 [] ;; Exit 0 else
  each (tail argv) (fun a =>
    fd <- sys (Open a 0);
    if fd <? 0 then printf (bytes_of "wc: cannot open %s" ++ nl) [Str (Some a)] ;; Exit 1
    else (wc fd a ;; sys (Close fd) ;; Ret tt)) ;;
  Exit 0.

(** *** echo.c *)

Fixpoint echo_args (args : list (list Z)) : prog unit :=
  match args with
  | [] => Ret tt
  | a :: args =>
      sys (Write 1 (cstr a)) ;;
      sys (Write 1 (if args then nl else [32])) ;;
      echo_args args
  end.

Definition echo_main (argv : list (list Z)) : prog unit := echo_args (tail argv) ;; Exit 0.

(** *** kill.c, ln.c, mkdir.c, rm.c *)

Definition kill_main (argv : list (list Z)) : prog unit :=
  if (length argv <? 2)%nat then fprintf 2 (bytes_of "usage: kill pid..." ++ nl) [] ;; Exit 1 else
  each (tail argv) (fun a => sys (Kill (atoi a)) ;; Ret tt) ;;
  Exit 0.

Definition ln_main (argv : list (list Z)) : prog unit :=
  match argv with
  | [_; old; new] =>
      r <- sys (Link old new);
      (if r <? 0 then fprintf 2 (bytes_of "link %s %s: failed" ++ nl) [Str (Some old); Str (Some new)] else Ret tt) ;;
      Exit 0
  | _ => fprintf 2 (bytes_of "Usage: ln old new" ++ nl) [] ;; Exit 1
  end.

(** The loop of mkdir.c and rm.c, which stops at the first failure. *)
Fixpoint until_failure (f : list Z -> call Z) (msg : list Z) (args : list (list Z)) : prog unit :=
  match args with
  | [] => Ret tt
  | a :: args =>
      r <- sys (f a);
      if r <? 0 then fprintf 2 msg [Str (Some a)] else until_failure f msg args
  end.

Definition mkdir_main (argv : list (list Z)) : prog unit :=
  if (length argv <? 2)%nat then fprintf 2 (bytes_of "Usage: mkdir files..." ++ nl) [] ;; Exit 1 else
  until_failure Mkdir (bytes_of "mkdir: %s failed to create" ++ nl) (tail argv) ;;
  Exit 0.

Definition rm_main (argv : list (list Z)) : prog unit :=
  if (length argv <? 2)%nat then fprintf 2 (bytes_of "Usage: rm files..." ++ nl) [] ;; Exit 1 else
  until_failure Unlink (bytes_of "rm: %s failed to delete" ++ nl) (tail argv) ;;
  Exit 0.

(** *** ls.c *)

(** The scan of fmtname() back from the end: [rp] is what is before [p], backwards. *)
Fixpoint after_slash (rp p : list Z) : list Z :=
  match rp with
  | [] => p
  | c :: rp => if c =? 47 then p else after_slash rp (c :: p)
  end.

Definition fmtname (path : list Z) : list Z :=
  let p := after_slash (reverse path) [] in
  if (DIRSIZ <=? length p)%nat then p else p ++ replicate (DIRSIZ - length p) 32.

(** One entry of the directory [path]. *)
Definition ls_entry (path de : list Z) : prog unit :=
  if de_inum de =? 0 then Ret tt else
  let buf := cstr (path ++ [47] ++ de_name de ++ [0]) in
  ' (r, st) <- stat_ buf;
  if r <? 0 then printf (bytes_of "ls: cannot stat %s" ++ nl) [Str (Some buf)]
  else printf (bytes_of "%s %d %d %d" ++ nl) [Str (Some (fmtname buf)); Num (st_type st); Num (st_ino st); Num (st_size st)].

Definition ls (path : list Z) : prog unit :=
  fd <- sys (Open path 0);
  if fd <? 0 then fprintf 2 (bytes_of "ls: cannot open %s" ++ nl) [Str (Some path)] else
  ' (r, st) <- sys (Fstat fd);
  if r <? 0 then (fprintf 2 (bytes_of "ls: cannot stat %s" ++ nl) [Str (Some path)] ;; sys (Close fd) ;; Ret tt) else
  (if st_type st =? T_FILE then
     printf (bytes_of "%s %d %d %l" ++ nl) [Str (Some (fmtname path)); Num (st_type st); Num (st_ino st); Num (st_size st)]
   else if st_type st =? T_DIR then
     if 512 <? strlen path + 1 + Z.of_nat DIRSIZ + 1 then printf (bytes_of "ls: path too long" ++ nl) []
     else loop (fun _ =>
       ' (n, de) <- sys (Read fd 16);
       if n =? 16 then ls_entry path de ;; Ret (inl tt) else Ret (inr tt)) tt
   else Ret tt) ;;
  sys (Close fd) ;;
  Ret tt.

Definition ls_main (argv : list (list Z)) : prog unit :=
  if (length argv <? 2)%nat then ls (bytes_of ".") ;; Exit 0 else
  each (tail argv) ls ;;
  Exit 0.

(** ** A program that treats its files one after another *)

Section Files.
Context (w0 : world) (ok : node -> Prop) (f : list Z -> prog unit).
Context (good : list Z -> node -> list event) (bad : list Z -> list event).

(** What it writes, and its exit status: it stops at a file it cannot open. *)
Fixpoint expect (files : list (list Z)) : list event * Z :=
  match files with
  | [] => ([], 0)
  | a :: files =>
      match contents a w0 with
      | Some nd => let '(l, st) := expect files in (good a nd ++ l, st)
      | None => (bad a, 1)
      end
  end.

Hypothesis Hgood : forall a i nd w, kept w0 w -> names w !! a = Some i -> nodes w !! i = Some nd -> ok nd ->
  always (f a) w (fun _ w' => kept w w' /\ log w' = log w ++ good a nd) (fun _ _ => False).
Hypothesis Hbad : forall a w, kept w0 w -> contents a w = None ->
  always (f a) w (fun _ _ => False) (fun e w' => e = Exited 1 /\ log w' = log w ++ bad a).

(** The files that exist are as [ok] says. *)
Definition all_files (files : list (list Z)) : Prop := Forall (fun a => forall nd, contents a w0 = Some nd -> ok nd) files.

Lemma always_files files w : kept w0 w -> all_files files ->
  always (A := unit) (each files f ;; Exit 0) w (fun _ _ => False)
    (fun e w' => e = Exited (expect files).2 /\ log w' = log w ++ (expect files).1).
Proof using Hgood Hbad.
  revert w. induction files as [|a files IH]; intros w Hk Hnd; cbn [each expect].
  - constructor. by rewrite app_nil_r.
  - apply Forall_cons in Hnd as [Ha Hnd]. rewrite prog_bind_assoc. apply always_bind.
    assert (Hc : contents a w = contents a w0) by (unfold contents; by rewrite (kp_names _ _ Hk), (kp_nodes _ _ Hk)).
    rewrite <- Hc in *. destruct (contents a w) as [nd|] eqn:Hcw.
    + unfold contents in Hcw. destruct (names w !! a) as [i|] eqn:Hi; [|done]. cbn in Hcw.
      eapply always_mono; [apply (Hgood a i nd w Hk Hi Hcw); by apply Ha| |done].
      intros [] w1 [Hk1 Hl1]. eapply always_mono; [apply IH; [by eapply kept_trans|done]|done|].
      intros e w2 [-> Hl2]. destruct (expect files) as [l st]. cbn [fst snd] in *. split; [done|]. by rewrite Hl2, Hl1, <- app_assoc.
    + eapply always_mono; [by apply Hbad|done|]. by intros e w1 [-> ?].
Qed.
End Files.

(** ** cat *)

Lemma cat_run fd d w : source fd w d -> writable 1 w ->
  always (cat fd) w (fun _ w' => kept w w' /\ log w' = log w ++ (Said 1 <$> d)) (fun _ _ => False).
Proof.
  intros Hs Hw. apply (always_read_loop _ _ _ _ (fun d _ w' => kept w w' /\ log w' = log w ++ (Said 1 <$> d)) _ _ d); [intros; lia| | | |done|].
  - intros d' _ w1 w2 [Hk Hl] Hk2 Hl2. split; [by eapply kept_trans|congruence].
  - intros pre bs post [] w1 _ _ [Hk Hl] Hs1. apply always_bind, always_write; [by apply Hk|]. rewrite Z.eqb_refl.
    constructor. split; [|exact Hs1]. split; [by eapply kept_trans; [|apply kept_say]|]. cbn. by rewrite Hl, fmap_app, app_assoc.
  - intros [] w1 HI. by constructor.
  - split; [apply kept_refl|]. by rewrite app_nil_r.
Qed.

Definition cannot_open (fd : Z) (prog a : list Z) : list event :=
  Said fd <$> prog ++ bytes_of ": cannot open " ++ cstr a ++ nl.

(** cat f1 ... fn writes the contents of the files to standard output one after the other,
    whatever the sizes of the pieces read() returns, and exits with status 0; at the first file
    that does not exist it writes a message to standard error and exits with status 1. *)
Theorem cat_copies a0 files w :
  files <> [] -> writable 1 w -> writable 2 w -> is_Some (lowest (fds w)) -> all_files w (fun nd => n_type nd <> T_DEVICE) files ->
  always (cat_main (a0 :: files)) w (fun _ _ => False) (fun e w' =>
    let '(text, status) := expect w (fun _ nd => Said 1 <$> n_data nd) (cannot_open 2 (bytes_of "cat")) files in
    e = Exited status /\ log w' = log w ++ text).
Proof.
  intros Hne H1 H2 Hfree Hdev. unfold cat_main. rewrite (proj2 (Nat.leb_gt _ _)) by (destruct files; cbn; [done|lia]). cbn [tail].
  eapply always_mono; [apply (always_files w (fun nd => n_type nd <> T_DEVICE) _ (fun _ nd => Said 1 <$> n_data nd) (cannot_open 2 (bytes_of "cat"))); [| |apply kept_refl|done]|done|].
  - intros a i nd w1 Hk Hi Hnd Ht. apply (always_with_file a i nd); [done..|by rewrite (kp_fds _ _ Hk)|]. intros fd Hfd.
    eapply always_mono; [apply (cat_run fd (n_data nd))| |done].
    + by apply open_read_source.
    + by apply open_read_writable, Hk.
    + intros [] w2 [Hk2 Hl2]. split; [done|]. intros w3 Hk3 Hl3. split; [done|]. by rewrite Hl3, Hl2.
  - intros a w1 Hk Hc. apply always_bind, always_open_none; [done|]. change (-1 <? 0) with true. cbv iota. apply always_bind.
    eapply always_fprintf; [reflexivity|by apply Hk|]. by constructor.
  - intros e w1 He. by destruct (expect _ _ _ files).
Qed.

(** *** A directory with two files, and a shell's descriptors *)

Definition sample_files : world := {|
  names := {[bytes_of "a" := 1%nat; bytes_of "b" := 2%nat; bytes_of "." := 3%nat; bytes_of "./a" := 1%nat; bytes_of "./b" := 2%nat]};
  nodes := {[1%nat := Node T_FILE 1 (bytes_of "one two" ++ nl); 2%nat := Node T_FILE 1 (bytes_of "three");
             3%nat := Node T_DIR 1 (dirent_bytes 1 (bytes_of "a") ++ dirent_bytes 0 (bytes_of "old") ++ dirent_bytes 2 (bytes_of "b"))]};
  fds := {[0 := 0%nat; 1 := 0%nat; 2 := 0%nat]};
  ftab := [Htty 0]; tty := []; children := []; room := 3; nextpid := 5; orphans := false; is_child := false; log := [] |}.

(** ** wc *)

(** The fields of a text between blanks; its words are the non-empty ones. *)
Fixpoint fields (d : list Z) : list (list Z) :=
  match d with
  | [] => [[]]
  | c :: d =>
      if bool_decide (c ∈ blanks) then [] :: fields d
      else match fields d with f :: fs => (c :: f) :: fs | [] => [[c]] end
  end.

Definition count_words (l : list (list Z)) : Z := Z.of_nat (length (filter (fun f => f <> []) l)).

Definition words (d : list Z) : Z := count_words (fields d).

Definition newlines (d : list Z) : Z := Z.of_nat (length (filter (fun c => c = 10) d)).

Definition dec (n : Z) : list Z := printint n 10 true.

(** The line wc prints for a file. *)
Definition wc_text (name d : list Z) : list Z :=
  dec (newlines d) ++ [32] ++ dec (words d) ++ [32] ++ dec (Z.of_nat (length d)) ++ [32] ++ cstr name ++ nl.

Lemma strchr_blanks c : (if strchr blanks c then true else false) = bool_decide (c ∈ blanks).
Proof.
  unfold blanks. cbn [strchr]. rewrite !(proj2 (Z.eqb_neq _ 0)) by lia.
  symmetry. repeat match goal with |- context [?a =? c] => destruct (Z.eqb_spec a c) as [<-|] end; [reflexivity..|].
  apply bool_decide_eq_false. set_solver.
Qed.

Lemma fields_cons d : exists f fs, fields d = f :: fs.
Proof. destruct d as [|c d]; cbn; [by eexists _, _|]. destruct (bool_decide _); [by eexists _, _|]. destruct (fields d); by eexists _, _. Qed.

(** The words of [d] that start in it, [b] saying that a word is under way. *)
Definition new_words (b : bool) (d : list Z) : Z := if b then count_words (tail (fields d)) else words d.

Lemma count_words_cons f fs : count_words (f :: fs) = (if bool_decide (f = []) then 0 else 1) + count_words fs.
Proof. unfold count_words. rewrite filter_cons. case_decide; case_bool_decide; try done; cbn [length]; lia. Qed.

Lemma new_words_cons b c d :
  new_words b (c :: d) = if bool_decide (c ∈ blanks) then new_words false d else (if b then 0 else 1) + new_words true d.
Proof.
  unfold new_words, words. cbn [fields]. destruct (fields_cons d) as (f & fs & Hf). rewrite Hf.
  destruct (bool_decide (c ∈ blanks)); destruct b; cbn [tail]; rewrite ?count_words_cons; try done; cbn; lia.
Qed.

Lemma new_words_bounds b d : 0 <= new_words b d <= Z.of_nat (length d).
Proof.
  revert b. induction d as [|c d IH]; intros b; [by destruct b; cbn|]. rewrite new_words_cons. cbn [length].
  pose proof (IH false). pose proof (IH true). destruct (bool_decide _), b; lia.
Qed.

Lemma newlines_cons c d : newlines (c :: d) = (if c =? 10 then 1 else 0) + newlines d.
Proof. unfold newlines. rewrite filter_cons. destruct (Z.eqb_spec c 10); case_decide; try done; cbn [length]; lia. Qed.

Lemma newlines_bounds d : 0 <= newlines d <= Z.of_nat (length d).
Proof. unfold newlines. pose proof (length_filter (fun c => c = 10) d). lia. Qed.

Lemma wc_fold d s : 0 <= lc s -> 0 <= wd s -> 0 <= ch s ->
  lc s + Z.of_nat (length d) < 2 ^ 31 -> wd s + Z.of_nat (length d) < 2 ^ 31 -> ch s + Z.of_nat (length d) < 2 ^ 31 ->
  exists b, fold_left wc_char d s = Counts (lc s + newlines d) (wd s + new_words (inword s) d) (ch s + Z.of_nat (length d)) b.
Proof.
  revert s. induction d as [|c d IH]; intros s Hl Hw Hc Bl Bw Bc; cbn [fold_left].
  - exists (inword s). destruct s as [l w c b]. cbn [lc wd ch inword].
    replace (new_words b []) with 0 by (by destruct b). change (newlines []) with 0. cbn [length]. f_equal; lia.
  - cbn [length] in *. rewrite newlines_cons, new_words_cons.
    assert (Hs : wc_char s c = Counts (lc s + (if c =? 10 then 1 else 0))
      (wd s + (if bool_decide (c ∈ blanks) then 0 else if inword s then 0 else 1)) (ch s + 1) (negb (bool_decide (c ∈ blanks)))).
    { unfold wc_char. rewrite <- strchr_blanks. rewrite !s32_small by lia.
      destruct (strchr blanks c), (inword s), (c =? 10); cbn; f_equal; lia. }
    rewrite Hs. destruct (IH (wc_char s c)) as [b Hb]; rewrite Hs in *; cbn [lc wd ch inword] in *; [destruct (c =? 10); lia|repeat case_match; lia|lia|destruct (c =? 10); lia|repeat case_match; lia|lia|].
    exists b. rewrite Hb. f_equal; [destruct (c =? 10); lia| |lia]. destruct (bool_decide _), (inword s); cbn [negb]; lia.
Qed.

Lemma wc_run fd name d w : source fd w d -> writable 1 w -> Z.of_nat (length d) < 2 ^ 31 ->
  always (wc fd name) w (fun _ w' => kept w w' /\ log w' = log w ++ (Said 1 <$> wc_text name d)) (fun _ _ => False).
Proof.
  intros Hs Hw Hd. apply (always_read_loop _ _ _ _ (fun d s w' => kept w w' /\ log w' = log w /\ s = fold_left wc_char d (Counts 0 0 0 false)) _ _ d); [intros; lia| | | |done|].
  - intros d' s w1 w2 (Hk & Hl & ->) Hk2 Hl2. split_and!; [by eapply kept_trans|congruence|done].
  - intros pre bs post s w1 _ _ (Hk & Hl & ->) Hs1. constructor. split; [|done]. split_and!; [done..|]. by rewrite fold_left_app.
  - intros s w1 (Hk & Hl & ->). cbn beta. change (0 <? 0) with false. cbv iota.
    destruct (wc_fold d (Counts 0 0 0 false)) as [b ->]; [cbn; lia..|]. cbn [lc wd ch inword].
    pose proof (newlines_bounds d). pose proof (new_words_bounds false d). unfold new_words in *.
    eapply always_fprintf; [reflexivity|by apply Hk|]. split; [by eapply kept_trans; [|apply kept_say]|].
    rewrite !s32_small by lia. cbn. by rewrite Hl.
  - split_and!; [apply kept_refl|done..].
Qed.

Definition countable_file (nd : node) : Prop := n_type nd <> T_DEVICE /\ Z.of_nat (length (n_data nd)) < 2 ^ 31.

(** C21: wc f1 ... fn prints, for each file, the number of its newlines, of its words - the
    non-empty fields between blanks - and of its bytes, whatever the sizes of the pieces read()
    returns: a word that two pieces share is counted once.  It stops with a message and status 1
    at the first file that does not exist. *)
Theorem wc_counts a0 files w :
  files <> [] -> writable 1 w -> is_Some (lowest (fds w)) -> all_files w countable_file files ->
  always (wc_main (a0 :: files)) w (fun _ _ => False) (fun e w' =>
    let '(text, status) := expect w (fun a nd => Said 1 <$> wc_text a (n_data nd)) (cannot_open 1 (bytes_of "wc")) files in
    e = Exited status /\ log w' = log w ++ text).
Proof.
  intros Hne H1 Hfree Hdev. unfold wc_main. rewrite (proj2 (Nat.leb_gt _ _)) by (destruct files; cbn; [done|lia]). cbn [tail].
  eapply always_mono; [apply (always_files w countable_file _ (fun a nd => Said 1 <$> wc_text a (n_data nd)) (cannot_open 1 (bytes_of "wc"))); [| |apply kept_refl|done]|done|].
  - intros a i nd w1 Hk Hi Hnd [Ht Hs]. apply (always_with_file a i nd); [done..|by rewrite (kp_fds _ _ Hk)|]. intros fd Hfd.
    eapply always_mono; [apply (wc_run fd a (n_data nd))| |done].
    + by apply open_read_source.
    + by apply open_read_writable, Hk.
    + done.
    + intros [] w2 [Hk2 Hl2]. split; [done|]. intros w3 Hk3 Hl3. split; [done|]. by rewrite Hl3, Hl2.
  - intros a w1 Hk Hc. apply always_bind, always_open_none; [done|]. change (-1 <? 0) with true. cbv iota. apply always_bind.
    eapply always_fprintf; [reflexivity|by apply Hk|]. by constructor.
  - intros e w1 He. by destruct (expect _ _ _ files).
Qed.

Lemma wc_counts_witness :
  always (wc_main [bytes_of "wc"; bytes_of "a"; bytes_of "c"]) sample_files (fun _ _ => False)
    (fun e w' => e = Exited 1 /\ out 1 w' = bytes_of "1 2 8 a" ++ nl ++ bytes_of "wc: cannot open c" ++ nl).
Proof.
  eapply always_mono; [apply (wc_counts (bytes_of "wc") [bytes_of "a"; bytes_of "c"] sample_files)|done|].
  - done.
  - exact I.
  - by eexists.
  - apply Forall_cons_2; [intros nd [= <-]; split; [discriminate|vm_compute; reflexivity]|].
    apply Forall_cons_2; [intros nd [=]|]. apply Forall_nil_2.
  - intros e w' [-> Hl]. split; [reflexivity|]. unfold out. rewrite Hl. vm_compute. reflexivity.
Defined.

(** ** ls *)

Definition pad (name : list Z) : list Z := name ++ replicate (DIRSIZ - length name) 32.

(** The line for an entry of the directory [path]. *)
Definition ls_line (w : world) (path de : list Z) : list Z :=
  if de_inum de =? 0 then [] else
  let name := cstr (de_name de) in
  match i ← names w !! (path ++ 47 :: name); nd ← nodes w !! i; Some (i, nd) with
  | Some (i, nd) =>
      pad name ++ [32] ++ dec (s32 (n_type nd)) ++ [32] ++ dec (s32 (Z.of_nat i)) ++ [32] ++
      dec (s32 (Z.of_nat (length (n_data nd)))) ++ nl
  | None => bytes_of "ls: cannot stat " ++ path ++ 47 :: name ++ nl
  end.

Lemma after_slash_app rname rdir p : 47 ∉ rname -> after_slash (rname ++ 47 :: rdir) p = reverse rname ++ p.
Proof.
  revert p. induction rname as [|c rname IH]; intros p Hn; cbn [after_slash app]; [done|].
  rewrite (proj2 (Z.eqb_neq c 47)) by set_solver. rewrite IH by set_solver. by rewrite reverse_cons, <- app_assoc.
Qed.

Lemma fmtname_base dir name : 47 ∉ name -> fmtname (dir ++ 47 :: name) = pad name.
Proof.
  intros Hn. unfold fmtname, pad. rewrite reverse_app, reverse_cons, <- app_assoc. cbn [app].
  rewrite after_slash_app by (by rewrite elem_of_reverse). rewrite reverse_involutive, app_nil_r.
  destruct (Nat.leb_spec DIRSIZ (length name)); [|done]. by replace (DIRSIZ - length name)%nat with 0%nat by lia; rewrite app_nil_r.
Qed.

Lemma cstr_plain l rest : Forall (fun c => c <> 0) l -> cstr (l ++ rest) = l ++ cstr rest.
Proof. induction 1 as [|c l Hc Hl IH]; [done|]. cbn. rewrite (proj2 (Z.eqb_neq c 0)) by done. by rewrite IH. Qed.

Lemma cstr_is_plain l : Forall (fun c => c <> 0) (cstr l).
Proof. induction l as [|c l IH]; cbn; [done|]. destruct (Z.eqb_spec c 0); [done|]. by constructor. Qed.

(** The name ls makes for an entry, and its line. *)
Lemma entry_name path de : Forall (fun c => c <> 0) path -> cstr (path ++ [47] ++ de_name de ++ [0]) = path ++ 47 :: cstr (de_name de).
Proof.
  intros Hp. rewrite cstr_plain by done. cbn [app cstr]. change (47 =? 0) with false. cbv iota. do 2 f_equal.
  induction (de_name de) as [|c l IH]; [reflexivity|]. cbn. by rewrite IH.
Qed.

Lemma ls_format name a b c :
  vprintf false (bytes_of "%s %d %d %d" ++ nl) [Str (Some name); Num a; Num b; Num c] =
  Some (cstr name ++ [32] ++ dec (s32 a) ++ [32] ++ dec (s32 b) ++ [32] ++ dec (s32 c) ++ nl).
Proof. reflexivity. Qed.

Lemma ls_format_none path : vprintf false (bytes_of "ls: cannot stat %s" ++ nl) [Str (Some path)] = Some (bytes_of "ls: cannot stat " ++ cstr path ++ nl).
Proof. reflexivity. Qed.

Lemma cstr_id l : Forall (fun c => c <> 0) l -> cstr l = l.
Proof. intros Hl. rewrite <- (app_nil_r l) at 1. rewrite cstr_plain by done. apply app_nil_r. Qed.

Lemma always_ls_entry w path de : Forall (fun c => c <> 0) path -> 47 ∉ cstr (de_name de) -> writable 1 w -> is_Some (lowest (fds w)) ->
  always (ls_entry path de) w (fun _ w' => kept w w' /\ (forall fd h, opened fd w = Some h -> opened fd w' = Some h) /\
    log w' = log w ++ (Said 1 <$> ls_line w path de)) (fun _ _ => False).
Proof.
  intros Hp Hs Hw Hl. unfold ls_entry, ls_line. destruct (de_inum de =? 0).
  { constructor. rewrite app_nil_r. split; [apply kept_refl|done]. }
  rewrite entry_name by done. cbv zeta. set (name := cstr (de_name de)) in *.
  assert (Hpath : cstr (path ++ 47 :: name) = path ++ 47 :: name).
  { apply cstr_id, Forall_app. split; [done|]. constructor; [done|]. apply cstr_is_plain. }
  assert (Hpad : cstr (pad name) = pad name).
  { apply cstr_id, Forall_app. split; [apply cstr_is_plain|]. by apply Forall_replicate. }
  assert (Hnone : contents (path ++ 47 :: name) w = None -> always (' (r, st) <- stat_ (path ++ 47 :: name);
      if r <? 0 then printf (bytes_of "ls: cannot stat %s" ++ nl) [Str (Some (path ++ 47 :: name))]
      else printf (bytes_of "%s %d %d %d" ++ nl) [Str (Some (fmtname (path ++ 47 :: name))); Num (st_type st); Num (st_ino st); Num (st_size st)]) w
    (fun _ w' => kept w w' /\ (forall fd h, opened fd w = Some h -> opened fd w' = Some h) /\
       log w' = log w ++ (Said 1 <$> bytes_of "ls: cannot stat " ++ path ++ 47 :: name ++ nl)) (fun _ _ => False)).
  { intros Hc. apply always_bind, always_stat_none; [done|]. change (-1 <? 0) with true. cbv iota.
    eapply always_fprintf; [apply ls_format_none|done|]. rewrite Hpath, <- (app_assoc path). split_and!; [apply kept_say|done|done]. }
  unfold contents in Hnone. destruct (names w !! (path ++ 47 :: name)) as [i|] eqn:Hi; cbn [mbind option_bind] in *; [|by apply Hnone].
  destruct (nodes w !! i) as [nd|] eqn:Hnd; cbn [mbind option_bind] in *; [|by apply Hnone].
  apply always_bind, (always_stat _ i nd); [done..|]. change (0 <? 0) with false. cbv iota. rewrite fmtname_base by done.
  eapply always_fprintf; [apply ls_format|by apply kept_ftab|]. rewrite Hpad. split_and!.
  - eapply kept_trans; [apply kept_ftab|apply kept_say].
  - intros fd h Ho. by apply opened_ftab.
  - done.
Qed.

(** The loop over the entries of the directory, [off] bytes of which have been read. *)
Lemma always_ls_entries path i nd fd des : Forall (fun c => c <> 0) path -> Forall (fun de => length de = 16%nat /\ 47 ∉ cstr (de_name de)) des ->
  forall off w, nodes w !! i = Some nd -> drop off (n_data nd) = concat des -> opened fd w = Some (Hfile i off true false) ->
  writable 1 w -> is_Some (lowest (fds w)) ->
  always (loop (fun _ => ' (n, de) <- sys (Read fd 16); if n =? 16 then ls_entry path de ;; Ret (inl tt) else Ret (inr tt)) tt) w
    (fun _ w' => kept w w' /\ log w' = log w ++ (Said 1 <$> concat (ls_line w path <$> des))) (fun _ _ => False).
Proof.
  intros Hp. induction 1 as [|de des [Hde Hsl] Hdes IH]; intros off w Hnd Hoff Ho Hw Hl; constructor; apply always_bind, always_bind, always_sys; intros n;
    cbn; rewrite Ho; cbn; rewrite Hnd; cbn; rewrite Hoff; cbn [concat fst snd].
  - change (Z.of_nat (length (take 16 [])) =? 16) with false. do 2 constructor. rewrite app_nil_r.
    split; [|by unfold set_handle; destruct (fds w !! fd)]. apply kept_set_handle. unfold writable. rewrite Ho. by intros [].
  - rewrite take_app_length' by done. rewrite Hde. change (Z.of_nat 16 =? 16) with true. cbv iota.
    set (w1 := set_handle fd (Hfile i (off + 16) true false) w).
    assert (K : kept w w1) by (apply kept_set_handle; unfold writable; rewrite Ho; by intros []).
    assert (L : log w1 = log w) by (unfold w1, set_handle; by destruct (fds w !! fd)).
    apply always_bind. eapply always_mono; [apply (always_ls_entry w1 path de)| |done]; [done..|by apply K|by rewrite (kp_fds _ _ K)|].
    intros [] w2 (K2 & Ho2 & L2). constructor. eapply always_mono; [apply (IH (off + 16)%nat w2)| |done].
    + by rewrite (kp_nodes _ _ K2), (kp_nodes _ _ K).
    + rewrite <- drop_drop, Hoff. cbn [concat]. by apply drop_app_length'.
    + apply Ho2, opened_set_handle. by eexists.
    + by apply K2, K.
    + by rewrite (kp_fds _ _ K2), (kp_fds _ _ K).
    + intros [] w3 (K3 & L3). pose proof (kept_trans _ _ _ K K2) as K12. split; [by eapply kept_trans|].
      assert (Hline : forall w', kept w w' -> ls_line w' path = ls_line w path) by (intros w' [En Eo _ _]; unfold ls_line; by rewrite En, Eo).
      rewrite L3, L2, L, (Hline w1 K), (Hline w2 K12). cbn. by rewrite fmap_app, <- app_assoc.
Qed.

(** C22: ls of a directory prints one line for each entry in use - its name padded to 14 columns,
    and the type, inode number and size of the file of that name - in the order of the directory,
    and a message for an entry whose file cannot be opened. *)
Theorem ls_lists path i nd des w :
  names w !! path = Some i -> nodes w !! i = Some nd -> n_type nd = T_DIR -> n_data nd = concat des ->
  Forall (fun c => c <> 0) path -> strlen path + 16 <= 512 -> Forall (fun de => length de = 16%nat /\ 47 ∉ cstr (de_name de)) des ->
  writable 1 w -> (exists fd, lowest (fds w) = Some fd /\ is_Some (lowest (<[fd := length (ftab w)]> (fds w)))) ->
  always (ls path) w (fun _ w' => kept w w' /\ log w' = log w ++ (Said 1 <$> concat (ls_line w path <$> des))) (fun _ _ => False).
Proof.
  intros Hi Hnd Ht Hd Hp Hlen Hdes Hw (fd & Hfd & Hfd2). destruct (lowest_free _ _ Hfd) as [Hpos Hfree].
  apply always_bind, always_sys. intros n. rewrite (open_read_run path i nd fd) by done. cbn [fst snd].
  rewrite (proj2 (Z.ltb_ge fd 0)) by done. apply always_bind, always_sys. intros n2. rewrite fstat_run by done. cbn [fst snd].
  change (0 <? 0) with false. cbv iota. cbn [st_type stat_of]. rewrite Ht. change (T_DIR =? T_FILE) with false. change (T_DIR =? T_DIR) with true. cbv iota.
  rewrite (proj2 (Z.ltb_ge 512 _)) by (change (Z.of_nat DIRSIZ) with 14; lia). apply always_bind.
  eapply always_mono; [apply (always_ls_entries path i nd fd des Hp Hdes 0)| |done].
  - done.
  - done.
  - rewrite open_read_opened. unfold read_handle. by rewrite Ht.
  - by apply open_read_writable.
  - done.
  - intros [] w1 (K & L). apply always_bind, always_sys. intros n3.
    destruct (close_run fd i nd w w1 n3 Hfree K) as (w2 & -> & K2 & L2). cbn [fst snd]. constructor. split; [done|]. by rewrite L2, L.
Qed.

Lemma ls_lists_witness :
  always (ls (bytes_of ".")) sample_files (fun _ w' =>
    out 1 w' = bytes_of "a              2 1 8" ++ nl ++ bytes_of "b              2 2 5" ++ nl) (fun _ _ => False).
Proof.
  eapply always_mono; [apply (ls_lists (bytes_of ".") 3 (Node T_DIR 1 (dirent_bytes 1 (bytes_of "a") ++ dirent_bytes 0 (bytes_of "old") ++ dirent_bytes 2 (bytes_of "b")))
    [dirent_bytes 1 (bytes_of "a"); dirent_bytes 0 (bytes_of "old"); dirent_bytes 2 (bytes_of "b")] sample_files)| |done].
  - reflexivity.
  - reflexivity.
  - reflexivity.
  - reflexivity.
  - by repeat constructor.
  - vm_compute. congruence.
  - repeat (constructor; [split; [reflexivity|vm_compute; set_solver]|]). apply Forall_nil_2.
  - exact I.
  - exists 3. split; [reflexivity|by eexists].
  - intros [] w' [_ L]. unfold out. rewrite L. vm_compute. reflexivity.
Defined.

(** ** echo *)

Definition echo_text (args : list (list Z)) : list Z :=
  match args with [] => [] | a :: args => a ++ concat ((fun b => 32 :: b) <$> args) ++ nl end.

Lemma echo_args_text a args w : Forall (Forall (fun c => c <> 0)) (a :: args) -> writable 1 w ->
  always (echo_args (a :: args)) w (fun _ w' => w' = say 1 (echo_text (a :: args)) w) (fun _ _ => False).
Proof.
  revert a w. induction args as [|b args IH]; intros a w [Ha Hargs]%Forall_cons Hw; cbn [echo_args];
    (apply always_bind, always_write; [done|]); rewrite (cstr_id a) by done; (apply always_bind, always_write; [done|]).
  - constructor. by rewrite say_app.
  - eapply always_mono; [by apply IH| |done]. intros [] w' ->. rewrite !say_app. f_equal. cbn. by rewrite <- !app_assoc.
Qed.

(** echo writes its arguments with one space between them and a newline. *)
Lemma echo_joins a0 args w : Forall (Forall (fun c => c <> 0)) args -> writable 1 w ->
  always (echo_main (a0 :: args)) w (fun _ _ => False) (fun e w' => e = Exited 0 /\ w' = say 1 (echo_text args) w).
Proof.
  intros Ha Hw. apply always_bind. cbn [tail]. destruct args as [|a args].
  - do 2 constructor. by rewrite say_nil.
  - eapply always_mono; [by apply echo_args_text| |done]. intros [] w' ->. by constructor.
Qed.

(** ** rm and mkdir *)

(** A call that succeeds or fails, is logged, and leaves standard error open. *)
Definition plain_call (c : call Z) : Prop := forall n w, exists r w', answer n w c = (r, w') /\ (r = 0 \/ r = -1) /\
  log w' = log w ++ [Did c r] /\ (writable 2 w -> writable 2 w').

Lemma plain_unlink path : plain_call (Unlink path).
Proof. intros n w. cbn. destruct (names w !! path); [destruct (pick n =? 0)%nat|]; eexists _, _; (split; [reflexivity|]); split_and!; auto. Qed.

Lemma plain_mkdir path : plain_call (Mkdir path).
Proof.
  intros n w. cbn. unfold create. destruct (names w !! path); destruct (pick n =? 0)%nat; eexists _, _; (split; [reflexivity|]); split_and!; auto.
Qed.

Lemma until_failure_calls (f : list Z -> call Z) fmt text args : (forall a, plain_call (f a)) ->
  (forall a, vprintf false fmt [Str (Some a)] = Some (text a)) -> forall w, writable 2 w ->
  always (until_failure f fmt args) w (fun _ w' => exists done todo, args = done ++ todo /\
    log w' = log w ++ ((fun a => Did (f a) 0) <$> done) ++
      match todo with [] => [] | a :: _ => Did (f a) (-1) :: (Said 2 <$> text a) end) (fun _ _ => False).
Proof.
  intros Hf Ht. induction args as [|a args IH]; intros w Hw; cbn [until_failure].
  - constructor. exists [], []. split; [done|]. by rewrite app_nil_r.
  - apply always_bind, always_sys. intros n. destruct (Hf a n w) as (r & w1 & -> & [-> | ->] & L & Hw1); cbn [fst snd].
    + change (0 <? 0) with false. cbv iota. eapply always_mono; [by apply IH, Hw1| |done].
      intros [] w2 (d & t & -> & L2). exists (a :: d), t. split; [done|]. by rewrite L2, L, <- app_assoc.
    + change (-1 <? 0) with true. cbv iota. eapply always_fprintf; [apply Ht|by apply Hw1|]. exists [], (a :: args). split; [done|].
      cbn. by rewrite L, <- app_assoc.
Qed.

(** rm removes its arguments in order and stops, with a message, at the first it cannot. *)
Lemma rm_removes a0 args w : args <> [] -> writable 2 w ->
  always (rm_main (a0 :: args)) w (fun _ _ => False) (fun e w' => e = Exited 0 /\ exists done todo, args = done ++ todo /\
    log w' = log w ++ ((fun a => Did (Unlink a) 0) <$> done) ++
      match todo with [] => [] | a :: _ => Did (Unlink a) (-1) :: (Said 2 <$> bytes_of "rm: " ++ cstr a ++ bytes_of " failed to delete" ++ nl) end).
Proof.
  intros Hne Hw. unfold rm_main. rewrite (proj2 (Nat.ltb_ge _ _)) by (destruct args; cbn; [done|lia]). apply always_bind.
  eapply always_mono; [apply (until_failure_calls Unlink _ (fun a => bytes_of "rm: " ++ cstr a ++ bytes_of " failed to delete" ++ nl));
    [apply plain_unlink|reflexivity|done]| |done].
  intros [] w' H. by constructor.
Qed.
