(* ===== verification/Grep.v ===== *)
(** * grep: user/grep.c

    The matcher of Kernighan and Pike on C strings, given here as their bytes
    without the final NUL, and the loop that reads a file through a buffer of
    1024 bytes and prints the matching lines.  The matcher is equivalent to a
    definition of regular expressions by their language ([finds]), and the program
    to the filter of its files' lines, however read() splits them. *)

From S2P Require Import Prelude State Cstring Ulib Unix Utils.

#[local] Open Scope prog_scope.

Definition Caret : Z := 94.
Definition Dot : Z := 46.
Definition Star : Z := 42.
Definition Dollar : Z := 36.
Definition Newline : Z := 10.

(** ** The matcher *)

(** [*text == c || c == '.'] *)
Definition same (c t : Z) : bool := (t =? c) || (c =? Dot).

(** matchstar(c, re, text), with matchhere(re, _) given. *)
Fixpoint matchstar (here : list Z -> bool) (c : Z) (text : list Z) : bool :=
  here text ||
  match text with
  | [] => false
  | t :: rest => same c t && matchstar here c rest
  end.

Fixpoint matchhere (re text : list Z) : bool :=
  match re with
  | [] => true
  | c :: re1 =>
      let one :=
        match text with
        | [] => false
        | t :: rest => same c t && matchhere re1 rest
        end in
      match re1 with
      | [] => if c =? Dollar then bool_decide (text = []) else one
      | d :: re2 => if d =? Star then matchstar (matchhere re2) c text else one
      end
  end.

(** The search of match() for a place where matchhere() succeeds. *)
Fixpoint search (here : list Z -> bool) (text : list Z) : bool :=
  here text ||
  match text with
  | [] => false
  | _ :: rest => search here rest
  end.

Definition match_ (re text : list Z) : bool :=
  match re with
  | c :: re1 => if c =? Caret then matchhere re1 text else search (matchhere re) text
  | [] => search (matchhere re) text
  end.

(** ** The loop over the file *)

(** The inner loop: each line of the buffer from [p] on, with its newline
    overwritten by NUL, is given to match() and written when it matches.  The
    result is the last [p]. *)
Definition grep_buf (pattern p : list Z) : prog (list Z) :=
  loop (fun p =>
    match strchr p Newline with
    | None => Ret (inr p)
    | Some q =>
        let line := take (length p - length q) p in
        (if match_ pattern line then sys (Write 1 (line ++ [Newline])) ;; Ret tt else Ret tt) ;;
        Ret (inl (tl q))
    end) p.

(** grep(): the [m] bytes held in the buffer are the state. *)
Definition grep (pattern : list Z) (fd : Z) : prog unit :=
  read_loop fd (fun held => 1024 - length held - 1)%nat (fun held got => grep_buf pattern (held ++ got)) [] (fun _ _ => Ret tt).

Definition grep_main (argv : list (list Z)) : prog unit :=
  match argv with
  | [] | [_] => fprintf 2 (bytes_of "usage: grep pattern [file ...]" ++ nl) [] ;; Exit 1
  | [_; pattern] => grep pattern 0 ;; Exit 0
  | _ :: pattern :: files =>
      each files (fun a =>
        fd <- sys (Open a 0);
        if fd <? 0 then printf (bytes_of "grep: cannot open %s" ++ nl) [Str (Some a)] ;; Exit 1
        else (grep pattern fd ;; sys (Close fd) ;; Ret tt)) ;;
      Exit 0
  end.

(** ** Regular expressions *)

(** The items of a pattern: a character, or a character repeated. *)
Inductive item := One (c : Z) | Many (c : Z).

(** A pattern read as items, and whether it ends in '$'. *)
Fixpoint items (re : list Z) : list item * bool :=
  match re with
  | [] => ([], false)
  | c :: re1 =>
      match re1 with
      | [] => if c =? Dollar then ([], true) else ([One c], false)
      | d :: re2 =>
          if d =? Star then let '(l, e) := items re2 in (Many c :: l, e)
          else let '(l, e) := items re1 in (One c :: l, e)
      end
  end.

(** The strings an item, and a sequence of items, stand for. *)
Definition item_lang (i : item) (w : list Z) : Prop :=
  match i with
  | One c => exists t, w = [t] /\ same c t = true
  | Many c => Forall (fun t => same c t = true) w
  end.

Fixpoint lang (l : list item) (w : list Z) : Prop :=
  match l with
  | [] => w = []
  | i :: l => exists u v, w = u ++ v /\ item_lang i u /\ lang l v
  end.

(** A pattern is found in a text: the text has a part in the language of the
    pattern, at the start for '^' and at the end for '$'. *)
Definition finds (re text : list Z) : Prop :=
  let anchored := bool_decide (head re = Some Caret) in
  let '(l, at_end) := items (if anchored then tail re else re) in
  exists pre mid post, text = pre ++ mid ++ post /\ lang l mid /\
    (anchored = true -> pre = []) /\ (at_end = true -> post = []).

Lemma matchstar_spec (here : list Z -> bool) c text :
  matchstar here c text = true <->
  exists u v, text = u ++ v /\ Forall (fun t => same c t = true) u /\ here v = true.
Proof.
  induction text as [|t text IH]; cbn [matchstar]; rewrite orb_true_iff.
  - split.
    + intros [Hh|]; [|done]. by exists [], [].
    + intros (u & v & E & _ & Hh). symmetry in E. apply app_eq_nil in E as [-> ->]. by left.
  - rewrite andb_true_iff, IH. split.
    + intros [Hh|(Ht & u & v & -> & Hu & Hh)]; [by exists [], (t :: text)|].
      exists (t :: u), v. split; [done|]. by split; [constructor|].
    + intros ([|t' u] & v & E & Hu & Hh); cbn in E; [subst; by left|]. injection E as <- ->.
      apply Forall_cons in Hu as [Ht Hu]. right. split; [done|]. by exists u, v.
Qed.

(** The text starts with a string of the items, and ends there when [at_end]. *)
Definition starts (l : list item) (at_end : bool) (text : list Z) : Prop :=
  exists mid post, text = mid ++ post /\ lang l mid /\ (at_end = true -> post = []).

Lemma starts_one c l e text :
  starts (One c :: l) e text <-> exists t rest, text = t :: rest /\ same c t = true /\ starts l e rest.
Proof.
  split.
  - intros (mid & post & -> & (u & v & -> & (t & -> & Ht) & Hv) & He). exists t, (v ++ post).
    split; [done|]. split; [done|]. by exists v, post.
  - intros (t & rest & -> & Ht & v & post & -> & Hv & He). exists (t :: v), post. split; [done|]. split; [|done].
    exists [t], v. split; [done|]. split; [by exists t|done].
Qed.

Lemma starts_many c l e text :
  starts (Many c :: l) e text <->
  exists u v, text = u ++ v /\ Forall (fun t => same c t = true) u /\ starts l e v.
Proof.
  split.
  - intros (mid & post & -> & (u & v & -> & Hu & Hv) & He). exists u, (v ++ post).
    split; [by rewrite app_assoc|]. split; [done|]. by exists v, post.
  - intros (u & w & -> & Hu & v & post & -> & Hv & He). exists (u ++ v), post. split; [by rewrite app_assoc|].
    split; [|done]. by exists u, v.
Qed.

Lemma starts_nil (e : bool) text : starts [] e text <-> (e = true -> text = []).
Proof.
  split; [by intros (mid & post & -> & -> & He)|]. intros He. by exists [], text.
Qed.

(** The character case of matchhere(). *)
Lemma one_spec c l e text (here : list Z -> bool) :
  (forall rest, here rest = true <-> starts l e rest) ->
  match text with [] => false | t :: rest => same c t && here rest end = true <-> starts (One c :: l) e text.
Proof.
  intros Hh. rewrite starts_one. destruct text as [|t rest].
  - split; [done|]. by intros (? & ? & ? & _).
  - rewrite andb_true_iff, Hh. split; [by intros [? ?]; exists t, rest|].
    by intros (? & ? & [= <- <-] & ? & ?).
Qed.

Lemma matchhere_two c d re text :
  matchhere (c :: d :: re) text = if d =? Star then matchstar (matchhere re) c text else
    match text with [] => false | t :: rest => same c t && matchhere (d :: re) rest end.
Proof. reflexivity. Qed.

Lemma items_two c d re :
  items (c :: d :: re) = if d =? Star then (Many c :: (items re).1, (items re).2)
    else (One c :: (items (d :: re)).1, (items (d :: re)).2).
Proof.
  change (items (c :: d :: re)) with (if d =? Star then let '(l, e) := items re in (Many c :: l, e)
    else let '(l, e) := items (d :: re) in (One c :: l, e)).
  by destruct (items re), (items (d :: re)).
Qed.

(** matchhere() decides whether the text starts with a string of the pattern. *)
Lemma matchhere_spec re text : matchhere re text = true <-> starts (items re).1 (items re).2 text.
Proof.
  revert text. induction re as [re IH] using (induction_ltof1 _ length). unfold ltof in IH. intros text.
  destruct re as [|c [|d re2]].
  - cbn. by rewrite starts_nil.
  - cbn [matchhere items]. destruct (c =? Dollar).
    + cbn. rewrite bool_decide_eq_true, starts_nil. naive_solver.
    + apply (one_spec c [] false text (matchhere [])). intros rest. by rewrite starts_nil.
  - rewrite matchhere_two, items_two. destruct (d =? Star); cbn [fst snd].
    + rewrite matchstar_spec, starts_many. setoid_rewrite IH; [done|cbn; lia].
    + apply one_spec. intros rest. apply IH. cbn. lia.
Qed.

Lemma search_spec (here : list Z -> bool) text :
  search here text = true <-> exists pre rest, text = pre ++ rest /\ here rest = true.
Proof.
  induction text as [|t text IH]; cbn [search]; rewrite orb_true_iff.
  - split; [intros [Hh|]; [by exists [], []|done]|].
    intros (pre & rest & E & Hh). symmetry in E. apply app_eq_nil in E as [-> ->]. by left.
  - rewrite IH. split.
    + intros [Hh|(pre & rest & -> & Hh)]; [by exists [], (t :: text)|by exists (t :: pre), rest].
    + intros ([|t' pre] & rest & E & Hh); cbn in E; [subst; by left|]. injection E as <- ->. right. by exists pre, rest.
Qed.

(** C19: grep's matcher is correct.  match() succeeds on a pattern and a text
    exactly when some part of the text is in the language of the pattern, where
    'c*' stands for any number of 'c', '.' for any character, and a '^' at the
    start or a '$' at the end of the pattern for the ends of the text. *)
Theorem match_correct re text : match_ re text = true <-> finds re text.
Proof.
  assert (Hs : search (matchhere re) text = true <-> exists pre mid post, text = pre ++ mid ++ post /\
    lang (items re).1 mid /\ (false = true -> pre = []) /\ ((items re).2 = true -> post = [])).
  { rewrite search_spec. setoid_rewrite matchhere_spec. split.
    - intros (pre & ? & -> & mid & post & -> & ? & ?). by exists pre, mid, post.
    - intros (pre & mid & post & -> & ? & _ & ?). exists pre, (mid ++ post). split; [done|]. by exists mid, post. }
  unfold match_, finds. destruct re as [|c re1]; [exact Hs|]. cbn [head tail].
  destruct (Z.eqb_spec c Caret) as [->|Hc].
  - rewrite bool_decide_true by done. destruct (items re1) as [l e] eqn:E.
    rewrite matchhere_spec, E. cbn [fst snd]. split.
    + intros (mid & post & -> & ? & ?). by exists [], mid, post.
    + intros (pre & mid & post & -> & ? & -> & ?); [|done]. by exists mid, post.
  - rewrite bool_decide_false by congruence. rewrite Hs. by destruct (items (c :: re1)).
Qed.

(** ** The lines of a file *)

(** The complete lines, without their newlines, and the bytes after the last
    newline. *)
Fixpoint lines (data : list Z) : list (list Z) * list Z :=
  match data with
  | [] => ([], [])
  | c :: data =>
      let '(ls, r) := lines data in
      if c =? Newline then ([] :: ls, r)
      else match ls with
           | [] => ([], c :: r)
           | l :: ls => ((c :: l) :: ls, r)
           end
  end.

Definition printed (pattern : list Z) (ls : list (list Z)) : list Z :=
  concat ((fun l => l ++ [Newline]) <$> filter (fun l => match_ pattern l) ls).

Definition plain (l : list Z) : Prop := Forall (fun c => c <> 0) l.

Lemma lines_cons_ne c data : c <> Newline ->
  lines (c :: data) = match (lines data).1 with [] => ([], c :: (lines data).2) | l :: ls => ((c :: l) :: ls, (lines data).2) end.
Proof. intros Hc. cbn [lines]. rewrite (proj2 (Z.eqb_neq c Newline)) by done. by destruct (lines data) as [[|] ?]. Qed.

Lemma lines_nl data : lines (Newline :: data) = ([] :: (lines data).1, (lines data).2).
Proof. cbn. by destruct (lines data). Qed.

Lemma lines_none l : Newline ∉ l -> lines l = ([], l).
Proof.
  induction l as [|c l IH]; [done|]. rewrite not_elem_of_cons. intros [Hc Hl].
  by rewrite lines_cons_ne, IH by congruence.
Qed.

Lemma lines_line l data : Newline ∉ l -> lines (l ++ Newline :: data) = (l :: (lines data).1, (lines data).2).
Proof.
  induction l as [|c l IH]; [intros _; apply lines_nl|]. rewrite not_elem_of_cons. intros [Hc Hl].
  cbn [app]. by rewrite lines_cons_ne, IH by congruence.
Qed.

(** The next line of the buffer. *)
Lemma next_line p : plain p ->
  (Newline ∉ p /\ strchr p Newline = None) \/
  exists l rest, p = l ++ Newline :: rest /\ Newline ∉ l /\ strchr p Newline = Some (Newline :: rest).
Proof.
  induction p as [|c p IH]; intros Hp; [left; split; [apply not_elem_of_nil|done]|].
  apply Forall_cons in Hp as [Hc Hp]. cbn [strchr]. rewrite (proj2 (Z.eqb_neq c 0)) by done.
  destruct (Z.eqb_spec c Newline) as [->|Hn].
  - right. exists [], p. split; [done|]. split; [apply not_elem_of_nil|done].
  - destruct (IH Hp) as [[Hno ->]|(l & rest & -> & Hl & ->)].
    + left. split; [|done]. rewrite not_elem_of_cons. by split; [congruence|].
    + right. exists (c :: l), rest. split; [done|]. split; [|done]. rewrite not_elem_of_cons. by split; [congruence|].
Qed.

Lemma printed_cons pattern l ls :
  printed pattern (l :: ls) = (if match_ pattern l then l ++ [Newline] else []) ++ printed pattern ls.
Proof. unfold printed. rewrite filter_cons. destruct (match_ pattern l); cbn; done. Qed.

Lemma grep_buf_run pattern p w : plain p -> writable 1 w ->
  always (grep_buf pattern p) w (fun r w' => r = (lines p).2 /\ w' = say 1 (printed pattern (lines p).1) w) (fun _ _ => False).
Proof.
  intros Hp Hw. remember (length p) as n eqn:Hn. revert p w Hn Hp Hw. induction n as [n IH] using lt_wf_ind. intros p w -> Hp Hw.
  constructor. unfold unroll. destruct (next_line p Hp) as [[Hno ->]|(l & rest & -> & Hl & ->)].
  - rewrite lines_none by done. do 2 constructor; [done|]. by rewrite say_nil.
  - rewrite length_app, Nat.add_sub, take_app_length, lines_line by done. cbn [fst snd tl length] in *. apply always_bind, always_bind.
    assert (Hnext : always (grep_buf pattern rest) (say 1 (if match_ pattern l then l ++ [Newline] else []) w)
      (fun r w' => r = (lines rest).2 /\ w' = say 1 (printed pattern (l :: (lines rest).1)) w) (fun _ _ => False)).
    { eapply always_mono; [apply (IH (length rest)); [rewrite length_app; cbn; lia|done|by apply Forall_app in Hp as [_ [_ ?]%Forall_cons]|done]| |done].
      intros r w' [-> ->]. by rewrite say_app, printed_cons. }
    destruct (match_ pattern l); [apply always_bind, always_write; [done|]; do 2 constructor; exact Hnext|].
    rewrite say_nil in Hnext. do 2 constructor. exact Hnext.
Qed.

Lemma lines_prefix h data : Newline ∉ h ->
  lines (h ++ data) = match (lines data).1 with
                      | [] => ([], h ++ (lines data).2)
                      | l :: ls => ((h ++ l) :: ls, (lines data).2)
                      end.
Proof.
  induction h as [|c h IH]; [intros _; cbn; by destruct (lines data) as [[|] ?]|]. rewrite not_elem_of_cons.
  intros [Hc Hh]. cbn [app]. rewrite lines_cons_ne, IH by congruence. by destruct (lines data).1.
Qed.

Lemma lines_app a b :
  lines (a ++ b) = ((lines a).1 ++ (lines ((lines a).2 ++ b)).1, (lines ((lines a).2 ++ b)).2).
Proof.
  induction a as [|c a IH]; [cbn; by destruct (lines b)|]. cbn [app]. destruct (decide (c = Newline)) as [->|Hc].
  - by rewrite !lines_nl, IH.
  - rewrite !(lines_cons_ne c) by done. rewrite IH. cbn [fst snd].
    destruct (lines a).1 as [|l ls]; cbn [app fst snd]; [|done].
    rewrite lines_cons_ne by done. by destruct (lines (_ ++ b)).1.
Qed.

Lemma lines_rest data : Newline ∉ (lines data).2.
Proof.
  induction data as [|c data IH]; [apply not_elem_of_nil|]. destruct (decide (c = Newline)) as [->|Hc].
  - by rewrite lines_nl.
  - rewrite lines_cons_ne by done. destruct (lines data).1; cbn; [|done]. rewrite not_elem_of_cons. by split; [congruence|].
Qed.

Lemma lines_plain data : plain data -> plain (lines data).2.
Proof.
  induction data as [|c data IH]; [done|]. intros [Hc Hd]%Forall_cons. destruct (decide (c = Newline)) as [->|Hn].
  - rewrite lines_nl. by apply IH.
  - rewrite lines_cons_ne by done. destruct (lines data).1; cbn; [|by apply IH]. constructor; [done|by apply IH].
Qed.

(** Every line fits in the buffer. *)
Definition fits (data : list Z) : Prop :=
  Forall (fun l => (length l <= 1022)%nat) (lines data).1 /\ (length (lines data).2 <= 1022)%nat.

Lemma fits_held h data : Newline ∉ h -> fits (h ++ data) -> (length h <= 1022)%nat.
Proof.
  intros Hh [Hl Hr]. rewrite lines_prefix in Hl, Hr by done. destruct (lines data).1; cbn in *.
  - rewrite length_app in Hr. lia.
  - apply Forall_cons in Hl as [Hl _]. rewrite length_app in Hl. lia.
Qed.

Lemma printed_app pattern l1 l2 : printed pattern (l1 ++ l2) = printed pattern l1 ++ printed pattern l2.
Proof. unfold printed. by rewrite filter_app, fmap_app, concat_app. Qed.

(** What is held after reading [pre] leaves room in the buffer. *)
Lemma held_fits pre post : fits (pre ++ post) -> (length (lines pre).2 <= 1022)%nat.
Proof.
  intros [Hl Hr]. rewrite lines_app in Hl, Hr. cbn [fst snd] in *. apply Forall_app in Hl as [_ Hl].
  apply (fits_held _ post); [apply lines_rest|by split].
Qed.

Lemma grep_run pattern fd data w : plain data -> fits data -> source fd w data -> writable 1 w ->
  always (grep pattern fd) w (fun _ w' => kept w w' /\ log w' = log w ++ (Said 1 <$> printed pattern (lines data).1)) (fun _ _ => False).
Proof.
  intros Hp Hf Hs Hw. apply (always_read_loop _ _ _ _ (fun d held w' => held = (lines d).2 /\ kept w w' /\ log w' = log w ++ (Said 1 <$> printed pattern (lines d).1)) _ _ data);
    [| | | |done|].
  - intros pre post s w1 -> (-> & _). pose proof (held_fits _ _ Hf). lia.
  - intros d s w1 w2 (-> & Hk & Hl) Hk2 Hl2. split_and!; [done|by eapply kept_trans|congruence].
  - intros pre bs post s w1 -> _ (-> & Hk & Hl) Hs1. apply Forall_app in Hp as [Hpre [Hbs _]%Forall_app].
    eapply always_mono; [apply grep_buf_run; [apply Forall_app; split; [by apply lines_plain|done]|by apply Hk]| |done].
    intros r w2 [-> ->]. split; [|exact Hs1]. rewrite (lines_app pre bs). cbn [fst snd]. split_and!; [done|by eapply kept_trans; [|apply kept_say]|].
    cbn. by rewrite Hl, printed_app, fmap_app, app_assoc.
  - intros s w1 (-> & Hk & Hl). by constructor.
  - split_and!; [done|apply kept_refl|by rewrite app_nil_r].
Qed.

(** A text file that grep can hold line by line. *)
Definition text_file (nd : node) : Prop := n_type nd <> T_DEVICE /\ plain (n_data nd) /\ fits (n_data nd).

(** C20: grep pattern f1 ... fn prints the matching lines.  However read() splits the files, it
    ends and writes exactly the lines that match() accepts, in order and each with its newline,
    when the files have no NUL byte and no line longer than 1022 bytes; what follows the last
    newline of a file is not printed, and a file that does not exist ends the program with
    status 1. *)
Theorem grep_filters a0 pattern files w :
  files <> [] -> writable 1 w -> is_Some (lowest (fds w)) -> all_files w text_file files ->
  always (grep_main (a0 :: pattern :: files)) w (fun _ _ => False) (fun e w' =>
    let '(text, status) := expect w (fun _ nd => Said 1 <$> printed pattern (lines (n_data nd)).1) (cannot_open 1 (bytes_of "grep")) files in
    e = Exited status /\ log w' = log w ++ text).
Proof.
  intros Hne H1 Hfree Hall. unfold grep_main. destruct files as [|f files]; [done|]. set (l := f :: files) in *.
  eapply always_mono; [apply (always_files w text_file _ (fun _ nd => Said 1 <$> printed pattern (lines (n_data nd)).1) (cannot_open 1 (bytes_of "grep"))); [| |apply kept_refl|done]|done|].
  - intros a i nd w1 Hk Hi Hnd (Ht & Hp & Hf). apply (always_with_file a i nd); [done..|by rewrite (kp_fds _ _ Hk)|]. intros fd Hfd.
    eapply always_mono; [apply (grep_run pattern fd (n_data nd))| |done]; [done..|by apply open_read_source|by apply open_read_writable, Hk|].
    intros [] w2 [Hk2 Hl2]. split; [done|]. intros w3 Hk3 Hl3. split; [done|]. by rewrite Hl3, Hl2.
  - intros a w1 Hk Hc. apply always_bind, always_open_none; [done|]. change (-1 <? 0) with true. cbv iota. apply always_bind.
    eapply always_fprintf; [reflexivity|by apply Hk|]. by constructor.
  - intros e w1 He. by destruct (expect _ _ _ l).
Qed.

Lemma grep_filters_witness :
  always (grep_main [bytes_of "grep"; bytes_of "^o.*o$"; bytes_of "a"; bytes_of "b"]) sample_files (fun _ _ => False)
    (fun e w' => e = Exited 0 /\ out 1 w' = bytes_of "one two" ++ nl).
Proof.
  eapply always_mono; [apply (grep_filters (bytes_of "grep") (bytes_of "^o.*o$") [bytes_of "a"; bytes_of "b"] sample_files)|done|].
  - done.
  - exact I.
  - by eexists.
  - assert (Hfits : forall d, bool_decide (fits d) = true -> fits d) by (intros d; apply bool_decide_eq_true_1).
    do 2 (apply Forall_cons_2; [intros nd [= <-]; split_and!; [discriminate|repeat constructor; discriminate|apply Hfits; reflexivity]|]). apply Forall_nil_2.
  - intros e w' [-> Hl]. split; [reflexivity|]. unfold out. rewrite Hl. vm_compute. reflexivity.
Defined.
