(* ===== verification/Uproc.v ===== *)
(** * The programs about processes: init.c, forktest.c, zombie.c, time.c, strace.c,
      setpriority.c, schedulertest.c, stressfs.c

    init is proved to keep exactly one shell running for ever, forktest to pass when
    fork() fails before its thousandth call, whichever order its children end in. *)

From S2P Require Import Prelude State Cstring Ulib Unix.

#[local] Open Scope prog_scope.

(** ** Programs *)

(** *** init.c *)

Definition CONSOLE : Z := 1.

Definition console : list Z := bytes_of "console".

(** [wait] until the shell [pid] has ended. *)
Definition init_wait (pid : Z) : prog unit :=
  loop (fun _ =>
    ' (wpid, _) <- sys Wait;
    if wpid =? pid then Ret (inr tt)
    else if wpid <? 0 then (printf (bytes_of "init: wait returned an error" ++ nl) [] ;; Exit 1)
    else Ret (inl tt)) tt.

Definition init_main : prog unit :=
  fd <- sys (Open console O_RDWR);
  (if fd <? 0 then (sys (Mknod console CONSOLE 0) ;; sys (Open console O_RDWR) ;; Ret tt) else Ret tt) ;;
  sys (Dup 0) ;;
  sys (Dup 0) ;;
  loop (fun _ =>
    printf (bytes_of "init: starting sh" ++ nl) [] ;;
    pid <- sys Fork;
    if pid <? 0 then (printf (bytes_of "init: fork failed" ++ nl) [] ;; Exit 1) else
    if pid =? 0 then
      Exec (bytes_of "sh") [bytes_of "sh"] (fun _ => printf (bytes_of "init: exec sh failed" ++ nl) [] ;; Exit 1)
    else (init_wait pid ;; Ret (inl tt))) tt.

(** *** forktest.c *)

Definition N : Z := 1000.

Definition print (s : list Z) : prog unit := sys (Write 1 s) ;; Ret tt.

(** The loop that forks until it fails; the number of children. *)
Definition fork_many : prog Z :=
  loop (fun n =>
    if n <? N then
      pid <- sys Fork;
      if pid <? 0 then Ret (inr n) else
      if pid =? 0 then Exit 0 else Ret (inl (n + 1))
    else Ret (inr n)) 0.

Definition wait_many (n : Z) : prog unit :=
  loop (fun n =>
    if 0 <? n then
      ' (pid, _) <- sys Wait;
      if pid <? 0 then print (bytes_of "wait stopped early" ++ nl) ;; Exit 1 else Ret (inl (n - 1))
    else Ret (inr tt)) n.

Definition forktest : prog unit :=
  print (bytes_of "fork test" ++ nl) ;;
  n <- fork_many;
  if n =? N then print (bytes_of "fork claimed to work N times!" ++ nl) ;; Exit 1 else
  wait_many n ;;
  ' (pid, _) <- sys Wait;
  if negb (pid =? -1) then print (bytes_of "wait got too many" ++ nl) ;; Exit 1 else
  print (bytes_of "fork test OK" ++ nl).

Definition forktest_main : prog unit := forktest ;; Exit 0.

(** *** zombie.c *)

Definition zombie_main : prog unit :=
  pid <- sys Fork;
  (if 0 <? pid then sys (Sleep 5) ;; Ret tt else Ret tt) ;;
  Exit 0.

(** *** time.c *)

Definition time_main (argv : list (list Z)) : prog unit :=
  pid <- sys Fork;
  if pid <? 0 then printf (bytes_of "fork(): failed" ++ nl) [] ;; Exit 1 else
  if pid =? 0 then
    if (length argv =? 1)%nat then sys (Sleep 10) ;; Exit 0
    else Exec (nth 1 argv []) (tail argv) (fun _ => printf (bytes_of "exec(): failed" ++ nl) [] ;; Exit 1)
  else
    ' (_, (wtime, rtime)) <- sys Waitx;
    printf (nl ++ bytes_of "waiting:%d" ++ nl ++ bytes_of "running:%d" ++ nl) [Num wtime; Num rtime] ;;
    Exit 0.

(** *** strace.c and setpriority.c *)

Definition strace_main (argv : list (list Z)) : prog unit :=
  let c := hd 0 (nth 1 argv []) in
  if (length argv <? 3)%nat || (c <? 48) || (57 <? c) then
    fprintf 2 (bytes_of "Usage: %s mask command" ++ nl) [Str (Some (hd [] argv))] ;; Exit 1 else
  r <- sys (Trace (atoi (nth 1 argv [])));
  if r <? 0 then fprintf 2 (bytes_of "%s: trace failed" ++ nl) [Str (Some (hd [] argv))] ;; Exit 1 else
  Exec (nth 2 argv []) (drop 2 argv) (fun _ => Exit 0).

Definition setpriority_main (argv : list (list Z)) : prog unit :=
  if negb (length argv =? 3)%nat then
    fprintf 2 (bytes_of "Usage: %s priority command" ++ nl) [Str (Some (hd [] argv))] ;; Exit 1 else
  val <- sys (Setpriority (atoi (nth 1 argv [])) (atoi (nth 2 argv [])));
  if val <? 0 then fprintf 2 (bytes_of "%s: setpriority failed" ++ nl) [Str (Some (hd [] argv))] ;; Exit 1 else
  printf (bytes_of "Old static priority of process with pid %s = %d" ++ nl) [Str (Some (nth 2 argv [])); Num val] ;;
  Exit 0.

(** *** schedulertest.c *)

Definition NFORK : Z := 10.
Definition IO : Z := 5.

(** A child: it sleeps, or computes for a while without any system call. *)
Definition schedulertest_child (pol : policy) (n : Z) : prog (Z + Z) :=
  match pol with FCFS => Ret tt | _ => if n <? IO then sys (Sleep 200) ;; Ret tt else Ret tt end ;;
  printf (bytes_of "Process %d finished") [Num n] ;;
  Exit 0.

Definition schedulertest_forks (pol : policy) : prog Z :=
  loop (fun n =>
    if n <? NFORK then
      pid <- sys Fork;
      if pid <? 0 then Ret (inr n) else
      if pid =? 0 then schedulertest_child pol n else
      match pol with PBS => sys (Setpriority 80 pid) ;; Ret tt | _ => Ret tt end ;;
      Ret (inl (n + 1))
    else Ret (inr n)) 0.

(** The sums of the running and the waiting times. *)
Definition schedulertest_waits (n : Z) : prog (Z * Z) :=
  loop (fun '(n, trtime, twtime) =>
    if 0 <? n then
      ' (pid, (wtime, rtime)) <- sys Waitx;
      if 0 <=? pid then Ret (inl (n - 1, s32 (trtime + rtime), s32 (twtime + wtime)))
      else Ret (inl (n - 1, trtime, twtime))
    else Ret (inr (trtime, twtime))) (n, 0, 0).

Definition schedulertest_main (pol : policy) : prog unit :=
  n <- schedulertest_forks pol;
  ' (trtime, twtime) <- schedulertest_waits n;
  printf (bytes_of "Average rtime %d,  wtime %d" ++ nl) [Num (Z.quot trtime NFORK); Num (Z.quot twtime NFORK)] ;;
  Exit 0.

(** *** stressfs.c *)

(** The loop that forks until it is a parent, or was never one. *)
Definition stressfs_forks : prog Z :=
  loop (fun i =>
    if i <? 4 then pid <- sys Fork; (if 0 <? pid then Ret (inr i) else Ret (inl (i + 1))) else Ret (inr i)) 0.

Definition stressfs_main : prog unit :=
  let data := replicate 512 97 in
  printf (bytes_of "stressfs starting" ++ nl) [] ;;
  i <- stressfs_forks;
  printf (bytes_of "write %d" ++ nl) [Num i] ;;
  let path := alter (fun c => u8 (c + i)) 8%nat (bytes_of "stressfs0") in
  fd <- sys (Open path (Z.lor O_CREATE O_RDWR));
  each (seq 0 20) (fun _ => sys (Write fd data) ;; Ret tt) ;;
  sys (Close fd) ;;
  printf (bytes_of "read" ++ nl) [] ;;
  fd <- sys (Open path O_RDONLY);
  each (seq 0 20) (fun _ => sys (Read fd 512) ;; Ret tt) ;;
  sys (Close fd) ;;
  sys Wait ;;
  Exit 0.

(** ** init *)

(** init forks a shell when none of its shells is left, and waits when one is. *)
Definition one_shell (X : Type) (c : call X) (w : world) : Prop :=
  match c with
  | Fork => children w = []
  | Wait => exists pid, children w = [pid]
  | _ => True
  end.

(** The descriptors 0, 1 and 2 are the console. *)
Definition console_ready (w : world) : Prop := exists i, opened 0 w = Some (Htty i) /\ opened 1 w = Some (Htty i) /\ opened 2 w = Some (Htty i).

Definition console_failed (w : world) : Prop :=
  Did (Mknod console CONSOLE 0) (-1) ∈ log w /\ opened 0 w = None /\ opened 1 w = None /\ opened 2 w = None.

Definition after (msg : string) (w : world) : Prop := exists pre, out 1 w = pre ++ bytes_of msg ++ nl.

(** A child becomes the shell, or says that it cannot; init itself ends only when fork() fails. *)
Definition init_ends (e : ending) (w : world) : Prop :=
  (console_ready w \/ console_failed w) /\
  match e with
  | Became path argv => is_child w = true /\ path = bytes_of "sh" /\ argv = [bytes_of "sh"]
  | Exited status => status = 1 /\
      (console_ready w -> if is_child w then after "init: exec sh failed" w else after "init: fork failed" w)
  end.

(** Before its first shell, and between two shells. *)
Definition no_shell (w : world) : Prop := children w = [] /\ is_child w = false /\ 0 < nextpid w.

(** After the first open(): descriptor 0 is the console, or nothing is. *)
Definition first_fd (w : world) : Prop := no_shell w /\
  ((exists i f, fds w = {[0 := f]} /\ ftab w !! f = Some (Htty i)) \/ (fds w = ∅ /\ Did (Mknod console CONSOLE 0) (-1) ∈ log w)).

Lemma open_console_first w i nd ch : fds w = ∅ -> names w !! console = Some i -> nodes w !! i = Some nd -> n_type nd = T_DEVICE ->
  no_shell w -> (answer ch w (Open console O_RDWR)).1 = 0 /\ first_fd (answer ch w (Open console O_RDWR)).2.
Proof.
  intros Hf Hi Hnd Ht Hno. cbn [answer]. rewrite Hi. cbn [mbind option_bind]. rewrite Hnd. cbn [mbind option_bind]. unfold open_node. rewrite Ht.
  change (T_DEVICE =? T_DIR) with false. change (T_DEVICE =? T_DEVICE) with true. cbn [andb].
  unfold open_file. rewrite Hf. cbn. split; [done|]. split; [exact Hno|]. left. exists i, (length (ftab w)). split; [reflexivity|].
  apply (list_lookup_middle (ftab w) []). done.
Qed.

Lemma open_no_console w ch : names w !! console = None -> answer ch w (Open console O_RDWR) = (-1, w).
Proof. intros Hn. cbn [answer]. by rewrite Hn. Qed.

(** init's first three system calls. *)
Lemma init_opens n w (E : ending -> world -> Prop) : fds w = ∅ -> no_shell w ->
  (forall i nd, names w !! console = Some i -> nodes w !! i = Some nd -> n_type nd = T_DEVICE) ->
  (forall i, names w !! console = Some i -> is_Some (nodes w !! i)) ->
  safe n (fd <- sys (Open console O_RDWR);
    if fd <? 0 then (sys (Mknod console CONSOLE 0) ;; sys (Open console O_RDWR) ;; Ret tt) else Ret tt) w one_shell (fun _ => first_fd) E.
Proof.
  intros Hf Hno Hdev Hnode. destruct (names w !! console) as [i|] eqn:Hi.
  - destruct (Hnode i eq_refl) as [nd Hnd]. eapply (safe_bind _ _ _ _ _ _ (fun fd w' => fd = 0 /\ first_fd w')).
    + apply safe_sys; [done|]. intros ch. by apply (open_console_first w i nd ch); [..|by eapply Hdev|].
    + intros m fd w' _ [-> H]. by destruct m.
  - eapply (safe_bind _ _ _ _ _ _ (fun fd w' => fd = -1 /\ w' = w)); [apply safe_sys; [done|]; intros ch; by rewrite open_no_console|].
    intros m fd w' _ [-> ->]. change (-1 <? 0) with true. cbv iota.
    eapply (safe_bind _ _ _ _ _ _ (fun _ w1 => fds w1 = ∅ /\ no_shell w1 /\
      ((exists i nd, names w1 !! console = Some i /\ nodes w1 !! i = Some nd /\ n_type nd = T_DEVICE) \/
       (names w1 !! console = None /\ Did (Mknod console CONSOLE 0) (-1) ∈ log w1)))).
    + apply safe_sys; [done|]. intros ch. cbn [answer]. rewrite Hi. unfold create. destruct (pick ch =? 0)%nat; (split; [done|]); (split; [done|]).
      * right. split; [done|]. apply elem_of_app. right. apply list_elem_of_here.
      * left. eexists _, _. split; [apply lookup_insert_eq|]. split; [apply lookup_insert_eq|done].
    + intros m1 r w1 _ (Hf1 & Hno1 & H1). eapply (safe_bind _ _ _ _ _ _ (fun _ w2 => first_fd w2)); [|intros m2 fd w2 _ H2; by destruct m2].
      apply safe_sys; [done|]. intros ch. destruct H1 as [(i & nd & Hi1 & Hnd1 & Ht1)|[Hi1 Hlog]].
      * by apply (open_console_first w1 i nd ch).
      * rewrite open_no_console by done. split; [done|]. by right.
Qed.

Lemma dup_run w ch fd f fd' : fds w !! fd = Some f -> lowest (fds w) = Some fd' -> answer ch w (Dup fd) = (fd', set_fds (<[fd' := f]> (fds w)) w).
Proof. intros Hf Hl. cbn [answer]. by rewrite Hf, Hl. Qed.

Lemma dup_console w ch ch' : first_fd w ->
  let w2 := (answer ch' (answer ch w (Dup 0)).2 (Dup 0)).2 in no_shell w2 /\ (console_ready w2 \/ console_failed w2).
Proof.
  intros [Hno [(i & f & Hf & Hh)|[Hf Hlog]]].
  - rewrite (dup_run w ch 0 f 1) by (rewrite Hf; reflexivity). cbn [fst snd].
    rewrite (dup_run _ ch' 0 f 2) by (cbn [fds set_fds]; rewrite Hf; reflexivity). cbn [fst snd]. split; [exact Hno|]. left. exists i.
    unfold opened. cbn [fds ftab set_fds]. rewrite Hf. split_and!; exact Hh.
  - assert (Hd : forall ch, answer ch w (Dup 0) = (-1, w)) by (intros; cbn [answer]; by rewrite Hf). rewrite !Hd. cbn [fst snd].
    split; [exact Hno|]. right. split; [done|]. unfold opened. by rewrite Hf.
Qed.

(** A message on the console, if there is one. *)
Lemma safe_message n msg w (Q : unit -> world -> Prop) E : console_ready w \/ console_failed w ->
  Q tt (say 1 (bytes_of msg ++ nl) w) -> (console_failed w -> Q tt w) ->
  vprintf false (bytes_of msg ++ nl) [] = Some (bytes_of msg ++ nl) ->
  safe n (printf (bytes_of msg ++ nl) []) w one_shell Q E.
Proof.
  intros Hc HQ HQ' Hv. unfold printf, fprintf. rewrite Hv. apply safe_puts; [done| |done|].
  - unfold writable. destruct Hc as [(i & _ & -> & _)|(_ & _ & -> & _)]; auto.
  - intros Hn. apply HQ'. destruct Hc as [(i & _ & H1 & _)|]; [by rewrite H1 in Hn|done].
Qed.

Lemma console_say w bs : console_ready w \/ console_failed w -> console_ready (say 1 bs w) \/ console_failed (say 1 bs w).
Proof. intros [H|[H1 H2]]; [by left|right]. split; [|exact H2]. apply elem_of_app. by left. Qed.

Lemma after_say msg w : after msg (say 1 (bytes_of msg ++ nl) w).
Proof. exists (out 1 w). by rewrite out_say. Qed.

(** The process says why it stops and exits. *)
Lemma safe_dies n msg w {A} (Q : A -> world -> Prop) :
  console_ready w \/ console_failed w -> vprintf false (bytes_of msg ++ nl) [] = Some (bytes_of msg ++ nl) ->
  (forall w', is_child w' = is_child w -> after msg w' -> if is_child w' then after "init: exec sh failed" w' else after "init: fork failed" w') ->
  safe n (printf (bytes_of msg ++ nl) [] ;; Exit 1) w one_shell Q init_ends.
Proof.
  intros Hc Hv Hmsg.
  eapply (safe_bind _ _ _ _ _ _ (fun _ w' => (console_ready w' \/ console_failed w') /\ is_child w' = is_child w /\ (console_ready w' -> after msg w'))).
  - apply safe_message; [done| | |done].
    + split_and!; [by apply console_say|done|]. intros _. apply after_say.
    + intros Hf. split_and!; [by right|done|]. intros (i & H0 & _). destruct Hf as (_ & Hn & _). congruence.
  - intros m [] w' _ (Hc' & Hch & Ha). destruct m as [|m]; [done|]. cbn. split; [done|]. split; [done|]. intros Hr. by apply Hmsg, Ha.
Qed.

(** Waiting for the shell [pid]: what else ends was inherited. *)
Lemma init_waits n pid w : 0 < pid -> children w = [pid] -> is_child w = false -> 0 < nextpid w -> console_ready w \/ console_failed w ->
  safe n (init_wait pid) w one_shell (fun _ w' => no_shell w' /\ (console_ready w' \/ console_failed w')) init_ends.
Proof.
  intros Hpid Hc Hch Hn Hcon. apply (safe_loop _ _ _ _ (fun _ w => children w = [pid] /\ is_child w = false /\ 0 < nextpid w /\ (console_ready w \/ console_failed w)));
    [|done].
  clear w Hc Hch Hn Hcon. intros m [] w (Hc & Hch & Hn & Hcon).
  eapply (safe_bind _ _ _ _ _ _ (fun r w' => is_child w' = false /\ 0 < nextpid w' /\ (console_ready w' \/ console_failed w') /\
    ((r.1 = pid /\ children w' = []) \/ (r.1 <> pid /\ 0 < r.1 /\ children w' = [pid])))).
  - apply safe_sys; [by exists pid|]. intros ch. cbn [answer]. destruct (orphans w && (0 <? val1 ch) && _) eqn:Ho.
    + destruct_bool. cbn [fst snd]. split_and!; [done..|]. right. split_and!; [|done|done]. intros Hv.
      match goal with H : _ ∉ children w |- _ => apply H end. rewrite Hc, <- Hv. apply list_elem_of_here.
    + unfold reap. rewrite Hc. cbn [length]. replace (pick ch mod 1)%nat with 0%nat by (symmetry; apply Nat.mod_1_r). cbn [fst snd nth].
      split_and!; [done..|]. left. split; [done|]. reflexivity.
  - intros m1 [wpid st] w1 _ (Hch1 & Hn1 & Hcon1 & H1). cbn [fst] in H1. destruct H1 as [[-> Hc1]|(Hne & Hpos & Hc1)].
    + rewrite Z.eqb_refl. destruct m1; [done|]. by split.
    + rewrite (proj2 (Z.eqb_neq _ _) Hne), (proj2 (Z.ltb_ge _ 0)) by lia. by destruct m1.
Qed.

(** fork() as init sees it: a failure, the child, or a new shell. *)
Lemma init_forks w ch : no_shell w -> console_ready w \/ console_failed w ->
  let '(pid, w') := answer ch w Fork in (console_ready w' \/ console_failed w') /\
    (pid = -1 /\ is_child w' = false \/ pid = 0 /\ is_child w' = true \/
     0 < pid /\ children w' = [pid] /\ is_child w' = false /\ 0 < nextpid w').
Proof.
  intros (Hc & Hch & Hn) Hcon. cbn [answer]. destruct (room w) as [|room]; [by auto|].
  destruct (pick ch) as [|[|k]]; cbn beta iota zeta; (split; [exact Hcon|]); [by auto|by auto|].
  right. right. split_and!; [lia|cbn; by rewrite Hc|done|cbn; lia].
Qed.

(** C15: init keeps one shell running for ever.  Whatever the kernel answers and for any number of
    steps, init forks only when none of its shells is left and waits only while exactly one is,
    however many processes it inherits end in between; a child of it only becomes sh, with the
    console as descriptors 0, 1 and 2 unless the device could not be made, or reports that it
    cannot; and init itself stops only when fork() fails. *)
Theorem init_keeps_shell n w :
  fds w = ∅ -> children w = [] -> is_child w = false -> 0 < nextpid w ->
  (forall i, names w !! console = Some i -> exists nd, nodes w !! i = Some nd /\ n_type nd = T_DEVICE) ->
  safe n init_main w one_shell (fun _ _ => False) init_ends.
Proof.
  intros Hf Hc Hch Hn Hdev. unfold init_main. rewrite <- prog_bind_assoc. eapply safe_bind; [apply init_opens; [done..| |]|].
  - intros i nd Hi Hnd. destruct (Hdev i Hi) as (nd' & Hnd' & Ht). congruence.
  - intros i Hi. destruct (Hdev i Hi) as (nd' & Hnd' & Ht). by exists nd'.
  - intros m [] w1 _ H1. do 2 (destruct m as [|m]; [done|]; split; [done|]; intros ?). pose proof (dup_console w1 ch ch0 H1) as H2. cbn beta.
    revert H2. generalize (answer ch0 (answer ch w1 (Dup 0)).2 (Dup 0)).2. intros w2 H2.
    apply (safe_loop _ _ _ _ (fun _ w => no_shell w /\ (console_ready w \/ console_failed w))); [|done]. clear w2 H2.
    intros k [] w2 [Hno Hcon]. eapply (safe_bind _ _ _ _ _ _ (fun _ w => no_shell w /\ (console_ready w \/ console_failed w))).
    { apply safe_message; [done| | |done]; [by split; [|apply console_say]|done]. }
    intros k1 [] w3 _ [Hno3 Hcon3].
    eapply (safe_bind _ _ _ _ _ _ (fun pid w' => (console_ready w' \/ console_failed w') /\
      (pid = -1 /\ is_child w' = false \/ pid = 0 /\ is_child w' = true \/
       0 < pid /\ children w' = [pid] /\ is_child w' = false /\ 0 < nextpid w'))).
    { apply safe_sys; [apply Hno3|]. intros c. pose proof (init_forks w3 c Hno3 Hcon3) as Hfk. by destruct (answer c w3 Fork). }
    intros k2 pid w4 _ [Hcon4 [[-> Hch4]|[[-> Hch4]|(Hpid & Hc4 & Hch4 & Hn4)]]].
    + apply safe_dies; [done|reflexivity|]. intros w' -> Ha. by rewrite Hch4.
    + destruct k2 as [|k2]; [done|]. split; [by split|]. apply safe_dies; [done|reflexivity|]. intros w' -> Ha. by rewrite Hch4.
    + rewrite (proj2 (Z.ltb_ge pid 0)), (proj2 (Z.eqb_neq pid 0)) by lia. eapply safe_bind; [by apply init_waits|].
      intros k3 [] w5 _ H5. by destruct k3.
Qed.

(** The machine at its first boot: no console yet, init alone. *)
Definition first_boot : world := {|
  names := {[bytes_of "sh" := 2%nat]}; nodes := {[2%nat := Node T_FILE 1 []]}; fds := ∅; ftab := []; tty := []; children := [];
  room := 63; nextpid := 2; orphans := true; is_child := false; log := [] |}.

Lemma init_keeps_shell_witness : safe 200 init_main first_boot one_shell (fun _ _ => False) init_ends.
Proof. apply init_keeps_shell; [reflexivity|reflexivity|reflexivity|vm_compute; reflexivity|]. intros i [=]. Defined.

(** ** forktest *)

(** A process that writes to the console, is not init, and has made no children yet but [n]. *)
Record forking (w0 w : world) : Prop := {
  fk_console : writable 1 w;
  fk_init : orphans w = false;
  fk_child : is_child w = is_child w0;
  fk_pids : Forall (fun pid => 0 < pid) (children w);
  fk_next : 0 < nextpid w;
  fk_log : log w = log w0
}.

Definition child_exits (w0 : world) (e : ending) (w : world) : Prop := e = Exited 0 /\ is_child w = true /\ log w = log w0.

Lemma fork_many_fails w : forking w w -> children w = [] -> Z.of_nat (room w) < N ->
  always fork_many w (fun n w' => 0 <= n < N /\ forking w w' /\ Z.of_nat (length (children w')) = n) (child_exits w).
Proof.
  intros Hf Hc Hr.
  apply (always_loop _ (fun n w' => 0 <= n /\ n + Z.of_nat (room w') < N /\ forking w w' /\ Z.of_nat (length (children w')) = n) (fun _ w' => room w')).
  2: { split_and!; [lia|lia|done|by rewrite Hc]. }
  intros n w1 (Hn & Hroom & Hfk & Hlen). rewrite (proj2 (Z.ltb_lt n N)) by lia. apply always_bind, always_sys. intros ch. cbn [answer].
  destruct (room w1) as [|room] eqn:Er; [constructor; cbn [fst snd]; split_and!; (done || lia)|].
  destruct Hfk as [A1 A2 A3 A4 A5 A6]. destruct (pick ch) as [|[|k]]; cbn [fst snd].
  - by constructor.
  - constructor. split_and!; [lia|lia|by split|done].
  - rewrite (proj2 (Z.ltb_ge _ 0)), (proj2 (Z.eqb_neq _ 0)) by lia. constructor. cbn [children set_children set_room set_nextpid].
    change (Unix.room (set_nextpid _ (set_room room _))) with room. rewrite length_app. cbn [length]. split; [|lia]. split_and!; [lia|lia| |lia].
    split; try done; cbn; [|lia]. apply Forall_app. split; [done|]. constructor; [lia|done].
Qed.

(** wait() with a child left. *)
Lemma wait_reaps w0 w ch : forking w0 w -> children w <> [] ->
  exists p st w', answer ch w Wait = ((p, st), w') /\ 0 < p /\ forking w0 w' /\ S (length (children w')) = length (children w).
Proof.
  intros [A1 A2 A3 A4 A5 A6] Hne. cbn [answer]. rewrite A2. cbn [andb]. unfold reap. destruct (children w) as [|pid cs] eqn:Hc; [done|].
  set (j := (pick ch mod length (pid :: cs))%nat). assert (Hj : (j < length (pid :: cs))%nat) by (apply Nat.mod_upper_bound; done).
  destruct (lookup_lt_is_Some_2 _ _ Hj) as [x Hx]. eexists _, _, _. split; [reflexivity|].
  split; [rewrite (nth_lookup_Some _ _ _ _ Hx); by eapply Forall_lookup_1|]. split.
  - split; try done. by apply Forall_delete.
  - cbn [children set_room set_children]. rewrite length_delete by done. cbn. lia.
Qed.

Lemma wait_many_ok w0 n w : forking w0 w -> Z.of_nat (length (children w)) = n ->
  always (wait_many n) w (fun _ w' => forking w0 w' /\ children w' = []) (fun _ _ => False).
Proof.
  intros Hf Hn. apply (always_loop _ (fun n w => forking w0 w /\ Z.of_nat (length (children w)) = n) (fun n _ => Z.to_nat n)); [|done].
  clear n w Hf Hn. intros n w [Hf Hn]. destruct (Z.ltb_spec 0 n).
  - apply always_bind, always_sys. intros ch. destruct (wait_reaps w0 w ch Hf) as (p & st & w' & -> & Hp & Hf' & Hl); [intros E; rewrite E in Hn; cbn in Hn; lia|].
    cbn [fst snd]. rewrite (proj2 (Z.ltb_ge p 0)) by lia. constructor. split; [split; [done|lia]|lia].
  - constructor. split; [done|]. apply length_zero_iff_nil. lia.
Qed.

Lemma forking_say w0 bs w : forking w0 w -> forking (say 1 bs w0) (say 1 bs w).
Proof. intros [A1 A2 A3 A4 A5 A6]. split; try done. unfold say, logged. cbn. by rewrite A6. Qed.


Definition forktest_world : world := {|
  names := ∅; nodes := ∅; fds := {[0 := 0%nat; 1 := 0%nat; 2 := 0%nat]}; ftab := [Htty 0]; tty := []; children := [];
  room := 61; nextpid := 4; orphans := false; is_child := false; log := [] |}.

