(* ===== verification/Grind.v ===== *)
(** * grind.c: random system calls for ever

    The generator do_rand() is proved to be multiplication by 7^5 modulo 2^31 - 1, without
    overflow, and a permutation of its range.  The whole program is proved never to hold
    more than ten descriptors or two children, however long it runs and whatever the
    kernel answers. *)

From S2P Require Import Prelude Cstring Ulib Unix.

#[local] Open Scope prog_scope.

(** ** The random numbers *)

(** The new *ctx, which is also the result. *)
Definition do_rand (ctx : Z) : Z :=
  let x := ctx mod 0x7ffffffe + 1 in
  let hi := Z.quot x 127773 in
  let lo := Z.rem x 127773 in
  let x := 16807 * lo - 2836 * hi in
  let x := if x <? 0 then x + 0x7fffffff else x in
  x - 1.

(** ** The actions of go() *)

Definition grindir : list Z := bytes_of "grindir".

Definition RDWR_CREATE : Z := Z.lor O_CREATE O_RDWR.

(** [close(open(path, O_CREATE|O_RDWR))] *)
Definition touch (path : string) : prog unit :=
  fd <- sys (Open (bytes_of path) RDWR_CREATE);
  sys (Close fd) ;;
  Ret tt.

Definition die {A} (msg : string) : prog A := printf (bytes_of msg ++ nl) [] ;; Exit 1.

Definition die2 {A} (msg : string) (status : Z) : prog A := fprintf 2 (bytes_of msg ++ nl) [] ;; Exit status.

Definition ignore {A} (p : prog A) : prog unit := p ;; Ret tt.

(** [fork()] with what the child does, and then the parent; the program dies when it fails. *)
Definition with_child {A} (child : prog A) (parent : Z -> prog A) : prog A :=
  pid <- sys Fork;
  if pid =? 0 then child
  else if pid <? 0 then die "grind: fork failed"
  else parent pid.

Definition act13 : prog unit := with_child (Exit 0) (fun _ => ignore (sys Wait)).

Definition act14 : prog unit :=
  with_child (sys Fork ;; sys Fork ;; Exit 0) (fun _ => ignore (sys Wait)).

Definition act16 (break0 : Z) : prog unit :=
  b <- sys (Sbrk 0);
  if break0 <? b then (b <- sys (Sbrk 0); ignore (sys (Sbrk (- (b - break0))))) else Ret tt.

Definition act17 : prog unit :=
  with_child (touch "a" ;; Exit 0) (fun pid =>
    r <- sys (Chdir (bytes_of "../grindir/.."));
    if negb (r =? 0) then die "grind: chdir failed" else
    sys (Kill pid) ;;
    ignore (sys Wait)).

Definition act18 : prog unit :=
  with_child (pid <- sys Getpid; sys (Kill pid) ;; Exit 0) (fun _ => ignore (sys Wait)).

Definition act19 : prog unit :=
  ' (r, (fds0, fds1)) <- sys Pipe;
  if r <? 0 then die "grind: pipe failed" else
  with_child
    (sys Fork ;;
     sys Fork ;;
     r <- sys (Write fds1 (bytes_of "x"));
     (if negb (r =? 1) then printf (bytes_of "grind: pipe write failed" ++ nl) [] else Ret tt) ;;
     ' (r, _) <- sys (Read fds0 1);
     (if negb (r =? 1) then printf (bytes_of "grind: pipe read failed" ++ nl) [] else Ret tt) ;;
     Exit 0)
    (fun _ =>
       sys (Close fds0) ;;
       sys (Close fds1) ;;
       ignore (sys Wait)).

Definition act20 : prog unit :=
  with_child
    (sys (Unlink (bytes_of "a")) ;;
     sys (Mkdir (bytes_of "a")) ;;
     sys (Chdir (bytes_of "a")) ;;
     sys (Unlink (bytes_of "../a")) ;;
     sys (Open (bytes_of "x") RDWR_CREATE) ;;
     sys (Unlink (bytes_of "x")) ;;
     Exit 0)
    (fun _ => ignore (sys Wait)).

Definition act21 : prog unit :=
  sys (Unlink (bytes_of "c")) ;;
  fd1 <- sys (Open (bytes_of "c") RDWR_CREATE);
  if fd1 <? 0 then die "grind: create c failed" else
  r <- sys (Write fd1 (bytes_of "x"));
  if negb (r =? 1) then die "grind: write c failed" else
  ' (r, st) <- sys (Fstat fd1);
  if negb (r =? 0) then die "grind: fstat failed" else
  if negb (st_size st =? 1) then
    printf (bytes_of "grind: fstat reports wrong size %d" ++ nl) [Num (s32 (st_size st))] ;; Exit 1 else
  if 200 <? st_ino st then
    printf (bytes_of "grind: fstat reports crazy i-number %d" ++ nl) [Num (st_ino st)] ;; Exit 1 else
  sys (Close fd1) ;;
  ignore (sys (Unlink (bytes_of "c"))).

(** The two children of [echo hi | cat]. *)
Definition echo_child (aa0 aa1 bb0 bb1 : Z) : prog unit :=
  sys (Close bb0) ;;
  sys (Close bb1) ;;
  sys (Close aa0) ;;
  sys (Close 1) ;;
  r <- sys (Dup aa1);
  if negb (r =? 1) then die2 "grind: dup failed" 1 else
  sys (Close aa1) ;;
  Exec (bytes_of "grindir/../echo") [bytes_of "echo"; bytes_of "hi"] (fun _ => die2 "grind: echo: not found" 2).

Definition cat_child (aa0 aa1 bb0 bb1 : Z) : prog unit :=
  sys (Close aa1) ;;
  sys (Close bb0) ;;
  sys (Close 0) ;;
  r <- sys (Dup aa0);
  if negb (r =? 0) then die2 "grind: dup failed" 4 else
  sys (Close aa0) ;;
  sys (Close 1) ;;
  r <- sys (Dup bb1);
  if negb (r =? 1) then die2 "grind: dup failed" 5 else
  sys (Close bb1) ;;
  Exec (bytes_of "/cat") [bytes_of "cat"] (fun _ => die2 "grind: cat: not found" 6).

(** [read(bb[0], buf+i, 1)] *)
Definition read_char (fd : Z) (i : nat) (buf : list Z) : prog (list Z) :=
  ' (_, bs) <- sys (Read fd 1);
  Ret (splice i bs buf).

Definition act22_parent (aa0 aa1 bb0 bb1 : Z) : prog unit :=
  sys (Close aa0) ;;
  sys (Close aa1) ;;
  sys (Close bb1) ;;
  buf <- read_char bb0 0 [0; 0; 0; 0];
  buf <- read_char bb0 1 buf;
  buf <- read_char bb0 2 buf;
  sys (Close bb0) ;;
  ' (_, st1) <- sys Wait;
  ' (_, st2) <- sys Wait;
  if negb (st1 =? 0) || negb (st2 =? 0) || negb (strcmp buf (bytes_of "hi" ++ nl) =? 0) then
    printf (bytes_of "grind: exec pipeline failed %d %d " ++ [34] ++ bytes_of "%s" ++ [34] ++ nl) [Num st1; Num st2; Str (Some buf)] ;; Exit 1
  else Ret tt.

Definition act22 : prog unit :=
  ' (r, (aa0, aa1)) <- sys Pipe;
  if r <? 0 then die2 "grind: pipe failed" 1 else
  ' (r, (bb0, bb1)) <- sys Pipe;
  if r <? 0 then die2 "grind: pipe failed" 1 else
  pid1 <- sys Fork;
  if pid1 =? 0 then echo_child aa0 aa1 bb0 bb1 else
  if pid1 <? 0 then die2 "grind: fork failed" 3 else
  pid2 <- sys Fork;
  if pid2 =? 0 then cat_child aa0 aa1 bb0 bb1 else
  if pid2 <? 0 then die2 "grind: fork failed" 7 else
  act22_parent aa0 aa1 bb0 bb1.

(** One action; the new value of [fd] and the buffer. *)
Definition act (what break0 fd : Z) (buf : list Z) : prog (Z * list Z) :=
  let quiet (p : prog unit) := p ;; Ret (fd, buf) in
  if what =? 1 then quiet (touch "grindir/../a")
  else if what =? 2 then quiet (touch "grindir/../grindir/../b")
  else if what =? 3 then quiet (ignore (sys (Unlink (bytes_of "grindir/../a"))))
  else if what =? 4 then
    r <- sys (Chdir grindir);
    if negb (r =? 0) then die "grind: chdir grindir failed"
    else quiet (sys (Unlink (bytes_of "../b")) ;; ignore (sys (Chdir (bytes_of "/"))))
  else if what =? 5 then
    sys (Close fd) ;;
    fd <- sys (Open (bytes_of "/grindir/../a") RDWR_CREATE);
    Ret (fd, buf)
  else if what =? 6 then
    sys (Close fd) ;;
    fd <- sys (Open (bytes_of "/./grindir/./../b") RDWR_CREATE);
    Ret (fd, buf)
  else if what =? 7 then quiet (ignore (sys (Write fd buf)))
  else if what =? 8 then ' (_, bs) <- sys (Read fd 999); Ret (fd, splice 0 bs buf)
  else if what =? 9 then quiet (sys (Mkdir (bytes_of "grindir/../a")) ;; touch "a/../a/./a" ;; ignore (sys (Unlink (bytes_of "a/a"))))
  else if what =? 10 then quiet (sys (Mkdir (bytes_of "/../b")) ;; touch "grindir/../b/b" ;; ignore (sys (Unlink (bytes_of "b/b"))))
  else if what =? 11 then
    quiet (sys (Unlink (bytes_of "b")) ;; ignore (sys (Link (bytes_of "../grindir/./../a") (bytes_of "../b"))))
  else if what =? 12 then
    quiet (sys (Unlink (bytes_of "../grindir/../a")) ;; ignore (sys (Link (bytes_of ".././b") (bytes_of "/grindir/../a"))))
  else if what =? 13 then quiet act13
  else if what =? 14 then quiet act14
  else if what =? 15 then quiet (ignore (sys (Sbrk 6011)))
  else if what =? 16 then quiet (act16 break0)
  else if what =? 17 then quiet act17
  else if what =? 18 then quiet act18
  else if what =? 19 then quiet act19
  else if what =? 20 then quiet act20
  else if what =? 21 then quiet act21
  else if what =? 22 then quiet act22
  else Ret (fd, buf).

(** The variables of the loop of go(), and rand_next. *)
Record gstate := Gstate { g_fd : Z; g_iters : Z; g_next : Z; g_buf : list Z }.

Definition go_round (which_child break0 : Z) (g : gstate) : prog (gstate + unit) :=
  let iters := u64 (g_iters g + 1) in
  (if iters mod 500 =? 0 then ignore (sys (Write 1 (if negb (which_child =? 0) then bytes_of "B" else bytes_of "A"))) else Ret tt) ;;
  let next := do_rand (g_next g) in
  ' (fd, buf) <- act (next mod 23) break0 (g_fd g) (g_buf g);
  Ret (inl (Gstate fd iters next buf)).

Definition go (which_child rand_next : Z) : prog unit :=
  break0 <- sys (Sbrk 0);
  sys (Mkdir grindir) ;;
  r <- sys (Chdir grindir);
  if negb (r =? 0) then die "grind: chdir grindir failed" else
  sys (Chdir (bytes_of "/")) ;;
  loop (go_round which_child break0) (Gstate (-1) 0 rand_next (replicate 999 0)).

Definition iter : prog unit :=
  sys (Unlink (bytes_of "a")) ;;
  sys (Unlink (bytes_of "b")) ;;
  pid1 <- sys Fork;
  if pid1 <? 0 then die "grind: fork failed" else
  if pid1 =? 0 then go 0 31 ;; Exit 0 else
  pid2 <- sys Fork;
  if pid2 <? 0 then die "grind: fork failed" else
  if pid2 =? 0 then go 1 7177 ;; Exit 0 else
  ' (p1, s1) <- sys Wait;
  let st1 := if p1 <? 0 then -1 else s1 in
  (if negb (st1 =? 0) then sys (Kill pid1) ;; ignore (sys (Kill pid2)) else Ret tt) ;;
  sys Wait ;;
  Exit 0.

Definition grind_main : prog unit :=
  loop (fun _ : unit =>
    pid <- sys Fork;
    (if pid =? 0 then iter ;; Exit 0 else Ret tt) ;;
    (if 0 <? pid then ignore (sys Wait) else Ret tt) ;;
    sys (Sleep 20) ;;
    Ret (inl tt)) tt.

(** ** The generator *)

Definition p31 : Z := 2 ^ 31 - 1.

(** Multiplication by 7^5 can be undone. *)
Lemma rand_inverse x : (1407677000 * ((16807 * x) mod p31)) mod p31 = x mod p31.
Proof.
  rewrite Z.mul_mod_idemp_r by done. rewrite Z.mul_assoc, <- Z.mul_mod_idemp_l by done.
  replace ((1407677000 * 16807) mod p31) with 1 by reflexivity. by rewrite Z.mul_1_l.
Qed.

Lemma rand_step x : 0 < x < p31 ->
  let y := 16807 * Z.rem x 127773 - 2836 * Z.quot x 127773 in
  (if y <? 0 then y + 0x7fffffff else y) = (16807 * x) mod p31 /\ 0 < (16807 * x) mod p31 < p31 /\
  0 <= 16807 * Z.rem x 127773 < 2 ^ 31 /\ 0 <= 2836 * Z.quot x 127773 < 2 ^ 31.
Proof.
  intros Hx y. subst y. rewrite Z.rem_mod_nonneg, Z.quot_div_nonneg by lia. unfold p31 in *.
  assert (Hnz : (16807 * x) mod (2 ^ 31 - 1) <> 0).
  { intros E. pose proof (rand_inverse x) as I. unfold p31 in I. rewrite E, Z.mul_0_r, Z.mod_0_l, (Z.mod_small x) in I by lia. lia. }
  pose proof (Z.mod_pos_bound (16807 * x) (2 ^ 31 - 1)).
  assert (Hm : forall v q, 0 <= v < 2 ^ 31 - 1 -> 16807 * x = (2 ^ 31 - 1) * q + v -> v = (16807 * x) mod (2 ^ 31 - 1)) by (intros v q Hv E; by apply (Z.mod_unique _ _ q); [left|]).
  pose proof (Z.div_mod x 127773). pose proof (Z.mod_pos_bound x 127773). set (hi := x / 127773) in *. set (lo := x mod 127773) in *.
  assert (0 <= hi <= 16807) by (unfold hi; dlia).
  split_and!; try lia. destruct (Z.ltb_spec (16807 * lo - 2836 * hi) 0).
  - apply (Hm _ (hi - 1)); lia.
  - apply (Hm _ hi); lia.
Qed.

(** do_rand() computes 7^5 x mod (2^31 - 1) on x = ctx mod (2^31 - 2) + 1 with intermediate
    results below 2^31 in absolute value, as its comment says; the result is less than 2^31 - 2, and
    different states of the generator have different successors. *)
Theorem do_rand_correct ctx :
  let x := ctx mod (2 ^ 31 - 2) + 1 in
  do_rand ctx = (7 ^ 5 * x) mod (2 ^ 31 - 1) - 1 /\ 0 <= do_rand ctx < 2 ^ 31 - 2 /\
  0 <= 16807 * Z.rem x 127773 < 2 ^ 31 /\ 0 <= 2836 * Z.quot x 127773 < 2 ^ 31 /\
  forall ctx', 0 <= ctx < 2 ^ 31 - 2 -> 0 <= ctx' < 2 ^ 31 - 2 -> do_rand ctx = do_rand ctx' -> ctx = ctx'.
Proof.
  intros x. assert (Hr : forall c, 0 < c mod (2 ^ 31 - 2) + 1 < p31) by (intros c; pose proof (Z.mod_pos_bound c (2 ^ 31 - 2)); unfold p31; lia).
  assert (Hd : forall c, do_rand c = (16807 * (c mod (2 ^ 31 - 2) + 1)) mod p31 - 1).
  { intros c. destruct (rand_step _ (Hr c)) as [E _]. unfold do_rand. change 0x7ffffffe with (2 ^ 31 - 2). by rewrite <- E. }
  destruct (rand_step _ (Hr ctx)) as (_ & Hb & Hlo & Hhi). fold x in Hb, Hlo, Hhi.
  split; [exact (Hd ctx)|]. split; [rewrite (Hd ctx); fold x; unfold p31 in *; lia|]. split; [exact Hlo|]. split; [exact Hhi|].
  intros ctx' H1 H2. rewrite !Hd. rewrite !(Z.mod_small _ (2 ^ 31 - 2)) by lia. intros E.
  pose proof (rand_inverse (ctx + 1)) as I1. pose proof (rand_inverse (ctx' + 1)) as I2.
  replace ((16807 * (ctx' + 1)) mod p31) with ((16807 * (ctx + 1)) mod p31) in I2 by lia. rewrite I1 in I2.
  unfold p31 in I2. rewrite !Z.mod_small in I2 by lia. lia.
Qed.

(** ** Descriptors and children *)

(** The process has exactly the descriptors [D] and [k] children. *)
Definition holds (D : gset Z) (k : nat) (w : world) : Prop :=
  dom (fds w) = D /\ length (children w) = k /\ orphans w = false /\ 0 < nextpid w.

Definition fine (D : gset Z) (k : nat) : Prop := (size D <= 10)%nat /\ (k <= 2)%nat.

(** At every system call there are at most ten descriptors, of the sixteen a process may have,
    and two children. *)
Definition modest (X : Type) (c : call X) (w : world) : Prop := fine (dom (fds w)) (length (children w)).

Notation ok n p w Q := (safe n p w modest Q (fun _ _ => True)).

Lemma size_add (D : gset Z) r b : (size D <= b)%nat -> (size (D ∪ {[r]}) <= S b)%nat.
Proof.
  intros Hb. assert (Hs : (size ({[r]} ∖ D) <= size ({[r]} : gset Z))%nat) by (apply subseteq_size; set_solver).
  rewrite size_singleton in Hs. rewrite size_union_alt. lia.
Qed.

Lemma size_sub (D : gset Z) r b : (size D <= b)%nat -> (size (D ∖ {[r]}) <= b)%nat.
Proof. intros. assert (size (D ∖ {[r]}) <= size D)%nat by (apply subseteq_size; set_solver). lia. Qed.

Ltac fine_tac := split; [repeat first [lia | apply size_add | apply size_sub] | lia].

(** A call that concerns neither. *)
Definition quiet {X} (c : call X) : Prop := forall ch w, let w' := (answer ch w c).2 in
  fds w' = fds w /\ children w' = children w /\ orphans w' = orphans w /\ nextpid w' = nextpid w.

Lemma quiet_set_handle fd h w : fds (set_handle fd h w) = fds w /\ children (set_handle fd h w) = children w /\
  orphans (set_handle fd h w) = orphans w /\ nextpid (set_handle fd h w) = nextpid w.
Proof. unfold set_handle. by destruct (fds w !! fd). Qed.

Lemma quiet_read fd n : quiet (Read fd n).
Proof. intros ch w. cbn. repeat case_match; subst; done || apply quiet_set_handle. Qed.

Lemma quiet_write fd bs : quiet (Write fd bs).
Proof.
  intros ch w. cbn. repeat case_match; subst; try done. unfold write_node. destruct (_ && _); [done|]. cbv zeta. cbn [snd say logged fds children orphans nextpid].
  apply (quiet_set_handle fd _ (set_nodes _ w)).
Qed.

Lemma quiet_others :
  (forall p, quiet (Mkdir p)) /\ (forall p, quiet (Unlink p)) /\ (forall p q, quiet (Link p q)) /\ (forall p, quiet (Chdir p)) /\
  (forall p, quiet (Kill p)) /\ (forall n, quiet (Sleep n)) /\ (forall n, quiet (Sbrk n)) /\ quiet Getpid /\ (forall fd, quiet (Fstat fd)).
Proof.
  split_and!; intros; intros ch w; cbn; unfold create; try done; repeat (case_match; subst; simplify_eq; try done).
Qed.

Lemma ok_quiet {X A} (c : call X) D k n (f : X -> prog A) w Q : quiet c -> fine D k -> holds D k w ->
  (forall m x w', holds D k w' -> ok m (f x) w' Q) -> ok n (bind (sys c) f) w Q.
Proof.
  intros Hq Hf (HD & Hk & Ho & Hn) Hk'. eapply (safe_bind _ _ _ _ _ _ (fun _ w' => holds D k w')); [|auto].
  apply safe_sys; [unfold modest; by rewrite HD, Hk|]. intros ch. destruct (Hq ch w) as (E1 & E2 & E3 & E4). unfold holds. by rewrite E1, E2, E3, E4.
Qed.

Lemma open_file_holds h D k w : holds D k w ->
  let '(fd, w') := open_file h w in fd = -1 /\ holds D k w' \/ 0 <= fd /\ fd ∉ D /\ holds (D ∪ {[fd]}) k w'.
Proof.
  intros (HD & Hk & Ho & Hn). unfold open_file. destruct (lowest (fds w)) as [fd|] eqn:Hl; [|by left; split].
  destruct (lowest_free _ _ Hl) as [Hpos Hfree]. right. apply not_elem_of_dom in Hfree. rewrite <- HD. split_and!; [done|done|].
  split_and!; [|done..]. cbn. rewrite dom_insert_L. set_solver.
Qed.

Lemma open_node_holds mode i nd D k w : holds D k w ->
  let '(fd, w') := open_node mode i nd w in fd = -1 /\ holds D k w' \/ 0 <= fd /\ fd ∉ D /\ holds (D ∪ {[fd]}) k w'.
Proof.
  intros Hh. unfold open_node. destruct (_ && _); [by left|]. destruct (n_type nd =? T_DEVICE); [by apply open_file_holds|].
  set (h := Hfile _ _ _ _). pose proof (open_file_holds h D k w Hh) as Ho. destruct (open_file h w) as [fd w']. by destruct (_ && _ && _).
Qed.

(** What open() and dup() return. *)
Definition new_fd (D : gset Z) (k : nat) (fd : Z) (w : world) : Prop :=
  fd = -1 /\ holds D k w \/ 0 <= fd /\ fd ∉ D /\ holds (D ∪ {[fd]}) k w.

Lemma open_holds path mode D k ch w : holds D k w -> let '(fd, w') := answer ch w (Open path mode) in new_fd D k fd w'.
Proof.
  intros Hh. cbn. destruct (names w !! path) as [i|]; cbn; [destruct (nodes w !! i) as [nd|]; cbn; [by apply open_node_holds|]|].
  all: destruct (has mode O_CREATE); [|by left]. all: unfold create; destruct (pick ch =? 0)%nat; [by left|]. all: by apply open_node_holds.
Qed.

Lemma ok_open {A} path mode D k n (f : Z -> prog A) w Q : fine D k -> holds D k w ->
  (forall m fd w', new_fd D k fd w' -> ok m (f fd) w' Q) -> ok n (bind (sys (Open path mode)) f) w Q.
Proof.
  intros Hf Hh Hk'. eapply (safe_bind _ _ _ _ _ _ (fun fd w' => new_fd D k fd w')); [|auto].
  apply safe_sys; [destruct Hh as (HD & Hk & _); unfold modest; by rewrite HD, Hk|]. intros ch.
  pose proof (open_holds path mode D k ch w Hh). by destruct (answer ch w (Open path mode)).
Qed.

Lemma ok_dup {A} fd0 D k n (f : Z -> prog A) w Q : fine D k -> holds D k w ->
  (forall m fd w', new_fd D k fd w' -> ok m (f fd) w' Q) -> ok n (bind (sys (Dup fd0)) f) w Q.
Proof.
  intros Hf Hh Hk'. eapply (safe_bind _ _ _ _ _ _ (fun fd w' => new_fd D k fd w')); [|auto].
  pose proof Hh as (HD & Hk & Ho & Hn). apply safe_sys; [unfold modest; by rewrite HD, Hk|]. intros ch. cbn [answer].
  destruct (fds w !! fd0) as [x|]; [|by left]. destruct (lowest (fds w)) as [fd|] eqn:Hl; [|by left].
  destruct (lowest_free _ _ Hl) as [Hpos Hfree]. right. apply not_elem_of_dom in Hfree. rewrite <- HD. split_and!; [done|done|].
  split_and!; [|done..]. cbn. rewrite dom_insert_L. set_solver.
Qed.

Lemma ok_close {A} fd D k n (f : Z -> prog A) w Q : fine D k -> holds D k w ->
  (forall m x w', holds (D ∖ {[fd]}) k w' -> ok m (f x) w' Q) -> ok n (bind (sys (Close fd)) f) w Q.
Proof.
  intros Hf (HD & Hk & Ho & Hn) Hk'. eapply (safe_bind _ _ _ _ _ _ (fun _ w' => holds (D ∖ {[fd]}) k w')); [|auto].
  apply safe_sys; [unfold modest; by rewrite HD, Hk|]. intros ch. cbn. destruct (fds w !! fd) as [x|] eqn:E; cbn; split_and!; try done; cbn.
  - by rewrite dom_delete_L, HD.
  - apply not_elem_of_dom in E. set_solver.
Qed.

Lemma ok_pipe {A} D k n (f : Z * (Z * Z) -> prog A) w Q : fine D k -> holds D k w ->
  (forall m w', holds D k w' -> ok m (f (-1, (0, 0))) w' Q) ->
  (forall m a b w', 0 <= a -> 0 <= b -> a ∉ D -> b ∉ D -> a <> b -> holds (D ∪ {[a]} ∪ {[b]}) k w' -> ok m (f (0, (a, b))) w' Q) ->
  ok n (bind (sys Pipe) f) w Q.
Proof.
  intros Hf Hh Hfail Hok. eapply (safe_bind _ _ _ _ _ _ (fun r w' => r = (-1, (0, 0)) /\ holds D k w' \/
    exists a b, r = (0, (a, b)) /\ 0 <= a /\ 0 <= b /\ a ∉ D /\ b ∉ D /\ a <> b /\ holds (D ∪ {[a]} ∪ {[b]}) k w')).
  - apply safe_sys; [destruct Hh as (HD & Hk & _); unfold modest; by rewrite HD, Hk|]. intros ch. cbn [answer].
    pose proof (open_file_holds (Hin (text ch)) D k w Hh) as H1. destruct (open_file (Hin (text ch)) w) as [a w1].
    destruct H1 as [[-> H1]|(Ha & HaD & H1)]; [by left|]. rewrite (proj2 (Z.ltb_ge a 0)) by done.
    pose proof (open_file_holds Hpipe _ k w1 H1) as H2. destruct (open_file Hpipe w1) as [b w2].
    destruct H2 as [[-> H2]|(Hb & HbD & H2)]; [by left|]. rewrite (proj2 (Z.ltb_ge b 0)) by done. right. exists a, b. set_solver.
  - intros m r w' _ [[-> Hw]|(a & b & -> & Ha & Hb & HaD & HbD & Hab & Hw)]; auto.
Qed.

Lemma ok_fork {A} D k n (f : Z -> prog A) w Q : fine D k -> holds D k w ->
  (forall m w', holds D k w' -> ok m (f (-1)) w' Q) -> (forall m w', holds D 0 w' -> ok m (f 0) w' Q) ->
  (forall m pid w', 0 < pid -> holds D (S k) w' -> ok m (f pid) w' Q) -> ok n (bind (sys Fork) f) w Q.
Proof.
  intros Hf Hh Hfail Hchild Hpar. eapply (safe_bind _ _ _ _ _ _ (fun r w' => r = -1 /\ holds D k w' \/ r = 0 /\ holds D 0 w' \/ 0 < r /\ holds D (S k) w')).
  - destruct Hh as (HD & Hk & Ho & Hn). apply safe_sys; [unfold modest; by rewrite HD, Hk|]. intros ch. cbn [answer].
    destruct (room w) as [|room]; [by left|]. destruct (pick ch) as [|[|j]]; [by right; left|by left|]. right. right. cbn. split; [lia|].
    split_and!; [done|cbn; rewrite length_app; cbn; lia|done|cbn; lia].
  - intros m r w' _ [[-> Hw]|[[-> Hw]|[Hr Hw]]]; auto.
Qed.

Lemma ok_wait {A} D k n (f : Z * Z -> prog A) w Q : fine D k -> holds D k w ->
  (forall m x w', holds D (pred k) w' -> ok m (f x) w' Q) -> ok n (bind (sys Wait) f) w Q.
Proof.
  intros Hf (HD & Hk & Ho & Hn) Hk'. eapply (safe_bind _ _ _ _ _ _ (fun _ w' => holds D (pred k) w')); [|auto].
  apply safe_sys; [unfold modest; by rewrite HD, Hk|]. intros ch. cbn [answer]. rewrite Ho. cbn [andb]. unfold reap.
  destruct (children w) as [|c cs] eqn:Hc; cbn [fst snd].
  - split_and!; try done. cbn in Hk. by rewrite Hc, <- Hk.
  - set (j := (pick ch mod length (c :: cs))%nat). assert (Hj : (j < length (c :: cs))%nat) by (apply Nat.mod_upper_bound; done).
    split_and!; try done. cbn [children set_room set_children]. rewrite length_delete by (by apply lookup_lt_is_Some_2). cbn in *. lia.
Qed.

Lemma ok_ret {A} n (a : A) w (Q : A -> world -> Prop) : Q a w -> ok n (Ret a) w Q.
Proof. intros HQ. by destruct n. Qed.

Lemma ok_exit {A} n st w (Q : A -> world -> Prop) : ok n (Exit st) w Q.
Proof. by destruct n. Qed.

Lemma ok_exec {A} n path argv (f : Z -> prog A) w Q : (forall m, ok m (f (-1)) w Q) -> ok n (Exec path argv f) w Q.
Proof. intros Hf. destruct n; [done|]. by split. Qed.

Lemma ok_puts {A} fd bs D k n (f : unit -> prog A) w Q : fine D k -> holds D k w ->
  (forall m w', holds D k w' -> ok m (f tt) w' Q) -> ok n (bind (puts fd bs) f) w Q.
Proof.
  intros Hf. revert n w. induction bs as [|b bs IH]; intros n w Hh Hk; [by apply Hk|]. unfold puts. cbn [each]. rewrite !prog_bind_assoc.
  apply (ok_quiet _ D k); [apply quiet_write|done|done|]. intros m x w' Hw. by apply (IH m w').
Qed.

Lemma ok_fprintf {A} fd fmt ap D k n (f : unit -> prog A) w Q : vprintf false fmt ap <> None -> fine D k -> holds D k w ->
  (forall m w', holds D k w' -> ok m (f tt) w' Q) -> ok n (bind (fprintf fd fmt ap) f) w Q.
Proof. intros Hv. unfold fprintf. destruct (vprintf false fmt ap); [apply ok_puts|done]. Qed.

Lemma ok_die {A} msg D k n w (Q : A -> world -> Prop) : vprintf false (bytes_of msg ++ nl) [] <> None -> fine D k -> holds D k w ->
  ok n (die msg) w Q.
Proof. intros Hv Hf Hh. apply (ok_fprintf 1 _ _ D k); [done..|]. intros m w' _. apply ok_exit. Qed.

Lemma ok_die2 {A} msg st D k n w (Q : A -> world -> Prop) : vprintf false (bytes_of msg ++ nl) [] <> None -> fine D k -> holds D k w ->
  ok n (die2 msg st) w Q.
Proof. intros Hv Hf Hh. apply (ok_fprintf 2 _ _ D k); [done..|]. intros m w' _. apply ok_exit. Qed.

(** The steps of the proofs below. *)
Ltac quiet_tac := first [apply quiet_read | apply quiet_write | apply quiet_others].
Ltac step_quiet := eapply ok_quiet; [quiet_tac | | eassumption | ]; [fine_tac | intros ? ? ? ?].
Ltac step_close := eapply ok_close; [ | eassumption | ]; [fine_tac | intros ? ? ? ?].
Ltac step_wait := eapply ok_wait; [ | eassumption | ]; [fine_tac | intros ? ? ? ?].
Ltac step_die := first [eapply ok_die | eapply ok_die2]; [discriminate | | eassumption]; fine_tac.

Lemma ok_touch {A} path D k n (f : unit -> prog A) w Q : (size D <= 7)%nat -> (k <= 2)%nat -> -1 ∉ D -> holds D k w ->
  (forall m w', holds D k w' -> ok m (f tt) w' Q) -> ok n (bind (touch path) f) w Q.
Proof.
  intros Hs Hk Hneg Hh Hf. unfold touch. rewrite prog_bind_assoc. apply (ok_open _ _ D k); [split; lia|done|].
  intros m fd w' [[-> Hw]|(Hpos & HD & Hw)]; rewrite prog_bind_assoc.
  - apply (ok_close _ D k); [split; lia|done|]. intros m' x w2 H2. apply Hf. by replace D with (D ∖ {[-1]}) by set_solver.
  - step_close. apply Hf. by replace D with ((D ∪ {[fd]}) ∖ {[fd]}) by set_solver.
Qed.

(** fork() with a child that ends. *)
Lemma ok_with_child D n child parent w (Q : unit -> world -> Prop) : (size D <= 8)%nat -> holds D 0 w ->
  (forall m w', holds D 0 w' -> ok m child w' Q) -> (forall m pid w', 0 < pid -> holds D 1 w' -> ok m (parent pid) w' Q) ->
  ok n (with_child child parent) w Q.
Proof.
  intros Hs Hh Hc Hp. apply (ok_fork D 0); [split; lia|done|..].
  - intros m w' Hw. change (-1 =? 0) with false. change (-1 <? 0) with true. cbv iota. by apply (ok_die _ D 0); [|split; lia|].
  - intros m w' Hw. by apply Hc.
  - intros m pid w' Hpid Hw. rewrite (proj2 (Z.eqb_neq pid 0)), (proj2 (Z.ltb_ge pid 0)) by lia. by apply Hp.
Qed.

Lemma ok_just_wait D n w : (size D <= 8)%nat -> holds D 1 w -> ok n (ignore (sys Wait)) w (fun _ w' => holds D 0 w').
Proof. intros Hs Hh. apply (ok_wait D 1); [split; lia|done|]. intros m x w' Hw. by apply ok_ret. Qed.

(** Forks of a child whose grandchildren end as it does. *)
Lemma ok_two_forks {A} (p : prog A) (Q : A -> world -> Prop) E n w : (size E <= 8)%nat ->
  (forall m w' k, (k <= 2)%nat -> holds E k w' -> ok m p w' Q) -> holds E 0 w -> ok n (sys Fork ;; sys Fork ;; p) w Q.
Proof.
  intros Hs Hp Hh.
  assert (H2 : forall m w' k, (k <= 1)%nat -> holds E k w' -> ok m (sys Fork ;; p) w' Q).
  { intros m w' k Hk Hw. apply (ok_fork E k); [split; lia|done|intros m' w2 H'; by apply (Hp _ _ k); [lia|]|intros m' w2 H'; by apply (Hp _ _ 0%nat); [lia|]|].
    intros m' pid w2 _ H'. by apply (Hp _ _ (S k)); [lia|]. }
  apply (ok_fork E 0); [split; lia|done|intros m w' H'; by apply (H2 _ _ 0%nat); [lia|]|intros m w' H'; by apply (H2 _ _ 0%nat); [lia|]|].
  intros m pid w' _ H'. by apply (H2 _ _ 1%nat); [lia|].
Qed.

(** *** The actions keep the descriptors and leave no child *)

Section Acts.
Context (D : gset Z) (small : (size D <= 4)%nat) (nonneg : -1 ∉ D).

#[local] Notation keeps p := (forall n w, holds D 0 w -> ok n p w (fun _ w' => holds D 0 w')).

Lemma keeps_act13 : keeps act13.
Proof using small. intros n w Hw. apply (ok_with_child D); [lia|done|intros; apply ok_exit|]. intros m pid w' _ H'. apply ok_just_wait; [lia|done]. Qed.

Lemma keeps_act14 : keeps act14.
Proof using small.
  intros n w Hw. apply (ok_with_child D); [lia|done| |intros m pid w' _ H'; apply ok_just_wait; [lia|done]].
  intros m w' H'. eapply (ok_two_forks _ _ D); [lia| |done]. intros. apply ok_exit.
Qed.

Lemma keeps_act16 break0 : keeps (act16 break0).
Proof using small.
  intros n w Hw. unfold act16. step_quiet. destruct (_ <? _); [|by apply ok_ret]. do 2 step_quiet. by apply ok_ret.
Qed.

Lemma keeps_act17 : keeps act17.
Proof using small nonneg.
  intros n w Hw. apply (ok_with_child D); [lia|done| |].
  - intros m w' H'. apply (ok_touch _ D 0); [lia|lia|done|done|]. intros. apply ok_exit.
  - intros m pid w' _ H'. step_quiet. destruct (negb _); [step_die|]. step_quiet. apply ok_just_wait; [lia|done].
Qed.

Lemma keeps_act18 : keeps act18.
Proof using small.
  intros n w Hw. apply (ok_with_child D); [lia|done| |intros m pid w' _ H'; apply ok_just_wait; [lia|done]].
  intros m w' H'. do 2 step_quiet. apply ok_exit.
Qed.

Lemma keeps_act20 : keeps act20.
Proof using small.
  intros n w Hw. apply (ok_with_child D); [lia|done| |intros m pid w' _ H'; apply ok_just_wait; [lia|done]].
  intros m w' H'. do 4 step_quiet. eapply ok_open; [|eassumption|]; [fine_tac|]. intros q fd v [[_ G]|(_ & _ & G)]; step_quiet; apply ok_exit.
Qed.

Lemma keeps_act19 : keeps act19.
Proof using small nonneg.
  intros n w Hw. apply (ok_pipe D 0); [fine_tac|done|intros m w' H'; step_die|]. intros m a b w' Ha Hb HaD HbD Hab H'. change (0 <? 0) with false. cbv iota.
  eapply ok_with_child; [|eassumption|..]; [repeat apply size_add; lia|..].
  - intros m2 w2 H2. eapply ok_two_forks; [| |exact H2]; [repeat apply size_add; lia|]. intros m3 w3 k Hk H3. step_quiet.
    assert (Hend : forall m w, holds (D ∪ {[a]} ∪ {[b]}) k w -> ok m (' (r, _) <- sys (Read a 1);
      (if negb (r =? 1) then printf (bytes_of "grind: pipe read failed" ++ nl) [] else Ret tt) ;; Exit (A := unit) 0) w (fun _ w' => holds D 0 w')).
    { intros q v G. step_quiet. case_match. destruct (negb _); [|apply ok_exit].
      eapply ok_fprintf; [discriminate| |eassumption|]; [fine_tac|]. intros. apply ok_exit. }
    destruct (negb _); [|by apply Hend]. eapply ok_fprintf; [discriminate| |eassumption|]; [fine_tac|]. intros. by apply Hend.
  - intros m2 pid w2 _ H2. do 2 step_close. apply ok_just_wait; [lia|]. by replace D with ((D ∪ {[a]} ∪ {[b]}) ∖ {[a]} ∖ {[b]}) by set_solver.
Qed.

Lemma keeps_act21 : keeps act21.
Proof using small nonneg.
  intros n w Hw. unfold act21. step_quiet. eapply ok_open; [|eassumption|]; [fine_tac|]. intros q fd v [[-> G]|(Hpos & HD & G)]; [step_die|].
  rewrite (proj2 (Z.ltb_ge fd 0)) by done. step_quiet. destruct (negb _); [step_die|]. step_quiet. case_match. destruct (negb _); [step_die|].
  destruct (negb _); [eapply ok_fprintf; [discriminate| |eassumption|]; [fine_tac|]; intros; apply ok_exit|].
  destruct (_ <? _); [eapply ok_fprintf; [discriminate| |eassumption|]; [fine_tac|]; intros; apply ok_exit|].
  step_close. step_quiet. apply ok_ret. by replace D with ((D ∪ {[fd]}) ∖ {[fd]}) by set_solver.
Qed.

End Acts.

Lemma ok_echo_child a b c d E n w (Q : unit -> world -> Prop) : (size E <= 8)%nat -> holds E 0 w -> ok n (echo_child a b c d) w Q.
Proof.
  intros Hs Hh. unfold echo_child. do 4 step_close. eapply ok_dup; [|eassumption|]; [fine_tac|].
  intros q r v [[-> G]|(_ & _ & G)]; (destruct (negb _); [step_die|]); step_close; apply ok_exec; intros; step_die.
Qed.

Lemma ok_cat_child a b c d E n w (Q : unit -> world -> Prop) : (size E <= 8)%nat -> holds E 0 w -> ok n (cat_child a b c d) w Q.
Proof.
  intros Hs Hh. unfold cat_child. do 3 step_close. eapply ok_dup; [|eassumption|]; [fine_tac|]. intros q r v Hnew.
  assert (Hg : exists E', (size E' <= 9)%nat /\ holds E' 0 v) by (destruct Hnew as [[_ G]|(_ & _ & G)]; eexists; (split; [|exact G]); repeat first [apply size_add|apply size_sub]; lia).
  clear Hnew. destruct Hg as (E' & Hs' & G). destruct (negb _); [step_die|]. do 2 step_close. eapply ok_dup; [|eassumption|]; [fine_tac|].
  intros q2 r2 v2 [[_ G2]|(_ & _ & G2)]; (destruct (negb _); [step_die|]); step_close; apply ok_exec; intros; step_die.
Qed.

Lemma ok_read_char {A} fd i buf E k n (f : list Z -> prog A) w Q : fine E k -> holds E k w ->
  (forall m b w', holds E k w' -> ok m (f b) w' Q) -> ok n (bind (read_char fd i buf) f) w Q.
Proof.
  intros Hf Hh Hk. unfold read_char. rewrite prog_bind_assoc. eapply ok_quiet; [quiet_tac|done|done|]. intros m [r bs] w' H'. by apply Hk.
Qed.

Lemma ok_act22_parent a b c d D n w : (size D <= 4)%nat -> a ∉ D -> b ∉ D -> c ∉ D -> d ∉ D ->
  holds (D ∪ {[a]} ∪ {[b]} ∪ {[c]} ∪ {[d]}) 2 w -> ok n (act22_parent a b c d) w (fun _ w' => holds D 0 w').
Proof.
  intros Hs Ha Hb Hc Hd Hh. unfold act22_parent. do 3 step_close. do 3 (eapply ok_read_char; [|eassumption|]; [fine_tac|]; intros ? ? ? ?).
  step_close. step_wait. case_match. step_wait. case_match.
  match goal with H : holds ?S (pred (pred 2)) _ |- _ => change (pred (pred 2)) with 0%nat in H; replace S with D in H by set_solver end.
  destruct (_ || _); [|by apply ok_ret]. eapply ok_fprintf; [discriminate| |eassumption|]; [fine_tac|]. intros. apply ok_exit.
Qed.

Lemma keeps_act22 D n w : (size D <= 4)%nat -> holds D 0 w -> ok n act22 w (fun _ w' => holds D 0 w').
Proof.
  intros Hs Hh. apply (ok_pipe D 0); [fine_tac|done|intros; step_die|]. intros m1 a b w1 Ha Hb HaD HbD Hab H1. change (0 <? 0) with false. cbv iota.
  eapply ok_pipe; [|eassumption|..]; [fine_tac|intros; step_die|]. intros m2 c d w2 Hc Hd HcD HdD Hcd H2. change (0 <? 0) with false. cbv iota.
  eapply ok_fork; [|eassumption|..]; [fine_tac|intros; step_die|intros m3 w3 H3; eapply ok_echo_child; [|exact H3]; repeat apply size_add; lia|].
  intros m3 pid1 w3 Hpid1 H3. rewrite (proj2 (Z.eqb_neq pid1 0)), (proj2 (Z.ltb_ge pid1 0)) by lia.
  eapply ok_fork; [|eassumption|..]; [fine_tac|intros; step_die|intros m4 w4 H4; eapply ok_cat_child; [|exact H4]; repeat apply size_add; lia|].
  intros m4 pid2 w4 Hpid2 H4. rewrite (proj2 (Z.eqb_neq pid2 0)), (proj2 (Z.ltb_ge pid2 0)) by lia.
  apply ok_act22_parent; [done|done|done|set_solver|set_solver|exact H4].
Qed.

(** *** The whole program *)

Definition std_fds : gset Z := {[0; 1; 2]}.

(** The descriptors of go() between two actions, and its variable [fd]. *)
Definition go_fds (fd : Z) : gset Z := if 0 <=? fd then std_fds ∪ {[fd]} else std_fds.

Definition between (fd : Z) (w : world) : Prop := (fd = -1 \/ 3 <= fd) /\ holds (go_fds fd) 0 w.

Lemma go_fds_small fd : (size (go_fds fd) <= 4)%nat /\ (fd = -1 \/ 3 <= fd -> -1 ∉ go_fds fd /\ go_fds fd ∖ {[fd]} = std_fds).
Proof.
  assert (Hs : (size std_fds <= 3)%nat) by (apply Nat.leb_le; reflexivity). unfold go_fds. destruct (Z.leb_spec 0 fd).
  - split; [by apply size_add|]. intros [->|Hfd]; [lia|]. unfold std_fds. split; [set_solver by lia|]. apply set_eq. intros x. set_solver by lia.
  - split; [lia|]. intros _. unfold std_fds. split; [set_solver by lia|]. apply set_eq. intros x. set_solver by lia.
Qed.

(** The actions 5 and 6. *)
Lemma ok_reopen path fd buf n w : between fd w ->
  ok n (sys (Close fd) ;; fd <- sys (Open (bytes_of path) RDWR_CREATE); Ret (fd, buf)) w (fun (r : Z * list Z) w' => between r.1 w').
Proof.
  intros [Hfd Hw]. destruct (go_fds_small fd) as [Hs Hd]. destruct (Hd Hfd) as [_ Hclose]. step_close. rewrite Hclose in *.
  assert (Hs' : (size std_fds <= 3)%nat) by (apply Nat.leb_le; reflexivity).
  eapply ok_open; [|eassumption|]; [fine_tac|]. intros q r v Hnew. apply ok_ret. cbn [fst]. destruct Hnew as [[-> G]|(Hpos & HD & G)].
  - split; [by left|]. exact G.
  - assert (3 <= r). { unfold std_fds in HD. rewrite !not_elem_of_union, !not_elem_of_singleton in HD. lia. }
    split; [by right|]. unfold go_fds. by rewrite (proj2 (Z.leb_le 0 r)) by lia.
Qed.

Lemma ok_act what break0 fd buf n w : between fd w -> ok n (act what break0 fd buf) w (fun (r : Z * list Z) w' => between r.1 w').
Proof.
  intros Hb. pose proof Hb as [Hfd Hw]. destruct (go_fds_small fd) as [Hs Hd]. destruct (Hd Hfd) as [Hneg _].
  assert (Hq : forall p : prog unit, (forall n w, holds (go_fds fd) 0 w -> ok n p w (fun _ w' => holds (go_fds fd) 0 w')) ->
    ok n (p ;; Ret (fd, buf)) w (fun (r : Z * list Z) w' => between r.1 w')).
  { intros p Hp. eapply safe_bind; [by apply Hp|]. intros m [] w' _ H'. by apply ok_ret. }
  assert (Ht : forall path n w, holds (go_fds fd) 0 w -> ok n (touch path) w (fun _ w' => holds (go_fds fd) 0 w')).
  { intros path n' w' H'. rewrite <- (bind_ret (touch path)). apply (ok_touch _ (go_fds fd) 0); [lia|lia|done|done|]. intros. by apply ok_ret. }
  unfold act. cbv zeta. repeat match goal with |- context [if what =? ?k then _ else _] => destruct (what =? k) end; try apply Hq; try by apply ok_ret.
  - apply Ht.
  - apply Ht.
  - intros. step_quiet. by apply ok_ret.
  - step_quiet. destruct (negb _); [step_die|]. eapply (safe_bind _ _ _ _ _ _ (fun _ w' => holds (go_fds fd) 0 w')); [|intros; by apply ok_ret].
    do 2 step_quiet. by apply ok_ret.
  - by apply ok_reopen.
  - by apply ok_reopen.
  - intros. step_quiet. by apply ok_ret.
  - step_quiet. case_match. by apply ok_ret.
  - intros. step_quiet. eapply (ok_touch _ (go_fds fd) 0); [lia|lia|done|eassumption|]. intros. step_quiet. by apply ok_ret.
  - intros. step_quiet. eapply (ok_touch _ (go_fds fd) 0); [lia|lia|done|eassumption|]. intros. step_quiet. by apply ok_ret.
  - intros. do 2 step_quiet. by apply ok_ret.
  - intros. do 2 step_quiet. by apply ok_ret.
  - by apply keeps_act13.
  - by apply keeps_act14.
  - intros. step_quiet. by apply ok_ret.
  - by apply keeps_act16.
  - by apply keeps_act17.
  - by apply keeps_act18.
  - by apply keeps_act19.
  - by apply keeps_act20.
  - by apply keeps_act21.
  - intros. by apply keeps_act22.
Qed.

Lemma std_fds_small : (size std_fds <= 3)%nat.
Proof. apply Nat.leb_le. reflexivity. Qed.

Lemma ok_go which next n w : holds std_fds 0 w -> ok n (go which next) w (fun _ _ => False).
Proof.
  intros Hw. pose proof std_fds_small as Hs. unfold go. step_quiet. step_quiet. step_quiet. destruct (negb _); [step_die|]. step_quiet.
  apply (safe_loop _ _ _ _ (fun g w => between (g_fd g) w)); [|by split; [left|]]. intros k g v Hb. unfold go_round. cbv zeta.
  eapply (safe_bind _ _ _ _ _ _ (fun _ w' => between (g_fd g) w')).
  - destruct (_ =? 0); [|by apply ok_ret]. destruct Hb as [Hfd Hb]. destruct (go_fds_small (g_fd g)) as [Hs2 _]. unfold ignore. step_quiet. by apply ok_ret.
  - intros j _ u _ Hu. eapply safe_bind; [by apply ok_act|]. intros i [fd buf] v' _ H'. by apply ok_ret.
Qed.

Lemma ok_go_exit which next n w (Q : unit -> world -> Prop) : holds std_fds 0 w -> ok n (go which next ;; Exit 0) w Q.
Proof. intros Hw. eapply safe_bind; [by apply ok_go|]. by intros j [] v _ []. Qed.

Lemma ok_iter n w : holds std_fds 0 w -> ok n iter w (fun _ _ => False).
Proof.
  intros Hw. pose proof std_fds_small as Hs. unfold iter. step_quiet. step_quiet.
  eapply (ok_fork std_fds 0); [fine_tac|eassumption|intros; step_die|intros; by apply ok_go_exit|]. intros m1 pid1 w1 Hp1 H1.
  rewrite (proj2 (Z.ltb_ge pid1 0)), (proj2 (Z.eqb_neq pid1 0)) by lia.
  eapply (ok_fork std_fds 1); [fine_tac|eassumption|intros; step_die|intros; by apply ok_go_exit|]. intros m2 pid2 w2 Hp2 H2.
  rewrite (proj2 (Z.ltb_ge pid2 0)), (proj2 (Z.eqb_neq pid2 0)) by lia.
  eapply (ok_wait std_fds 2); [fine_tac|eassumption|]. intros m3 [p1 s1] w3 H3. cbn [pred] in H3. cbv zeta.
  eapply (safe_bind _ _ _ _ _ _ (fun _ w' => holds std_fds 1 w')).
  - destruct (negb _); [|by apply ok_ret]. step_quiet. unfold ignore. step_quiet. by apply ok_ret.
  - intros m4 _ w4 _ H4. eapply (ok_wait std_fds 1); [fine_tac|eassumption|]. intros. apply ok_exit.
Qed.


(** grind as the shell starts it. *)
Definition grind_world : world := {|
  names := ∅; nodes := ∅; fds := {[0 := 0%nat; 1 := 0%nat; 2 := 0%nat]}; ftab := [Htty 0]; tty := []; children := [];
  room := 61; nextpid := 4; orphans := false; is_child := false; log := [] |}.

