(* ===== verification/Usertests.v ===== *)
(** * The tests of files: usertests.c

    The tests of usertests.c in which one process works on files, as programs over the
    system calls.  They are run against the specification of the calls that the proofs about
    user programs rely on ([Unix.answer]), with every answer the kernel may give while it has
    the memory, inodes and blocks it needs, and from every state in which their files do not
    exist yet.  This takes one evaluation for each test: what a program does to its own files
    does not depend on the others ([run_frame]), so that a small file system is enough. *)

From S2P Require Import Prelude State Cstring Ulib Unix.

#[local] Open Scope prog_scope.

(** ** The tests *)

Definition msg (m : string) : list Z := bytes_of m ++ nl.

(** A message and exit(1). *)
Definition fail {A} (fmt : list Z) (ap : list arg) : prog A := printf fmt ap ;; Exit 1.

Definition BUFSZ : nat := 12 * 1024.

(** buf[] when a test starts: nothing has been stored in it. *)
Definition buf0 : list Z := replicate BUFSZ 0.

Definition truncfile : list Z := bytes_of "truncfile".

Definition truncate1 (s : list Z) : prog unit :=
  sys (Unlink truncfile) ;;
  fd1 <- sys (Open truncfile (Z.lor O_CREATE (Z.lor O_WRONLY O_TRUNC)));
  sys (Write fd1 (bytes_of "abcd")) ;;
  sys (Close fd1) ;;
  fd2 <- sys (Open truncfile O_RDONLY);
  ' (n, _) <- sys (Read fd2 32);
  if negb (n =? 4) then fail (msg "%s: read %d bytes, wanted 4") [Str (Some s); Num n] else
  fd1 <- sys (Open truncfile (Z.lor O_WRONLY O_TRUNC));
  fd3 <- sys (Open truncfile O_RDONLY);
  ' (n, _) <- sys (Read fd3 32);
  if negb (n =? 0) then
    printf (msg "aaa fd3=%d") [Num fd3] ;;
    fail (msg "%s: read %d bytes, wanted 0") [Str (Some s); Num n]
  else
  ' (n, _) <- sys (Read fd2 32);
  if negb (n =? 0) then
    printf (msg "bbb fd2=%d") [Num fd2] ;;
    fail (msg "%s: read %d bytes, wanted 0") [Str (Some s); Num n]
  else
  sys (Write fd1 (bytes_of "abcdef")) ;;
  ' (n, _) <- sys (Read fd3 32);
  if negb (n =? 6) then fail (msg "%s: read %d bytes, wanted 6") [Str (Some s); Num n] else
  ' (n, _) <- sys (Read fd2 32);
  if negb (n =? 2) then fail (msg "%s: read %d bytes, wanted 2") [Str (Some s); Num n] else
  sys (Unlink truncfile) ;;
  sys (Close fd1) ;;
  sys (Close fd2) ;;
  sys (Close fd3) ;;
  Ret tt.

Definition truncate2 (s : list Z) : prog unit :=
  sys (Unlink truncfile) ;;
  fd1 <- sys (Open truncfile (Z.lor O_CREATE (Z.lor O_TRUNC O_WRONLY)));
  sys (Write fd1 (bytes_of "abcd")) ;;
  fd2 <- sys (Open truncfile (Z.lor O_TRUNC O_WRONLY));
  n <- sys (Write fd1 (bytes_of "x"));
  if negb (n =? -1) then fail (msg "%s: write returned %d, expected -1") [Str (Some s); Num n] else
  sys (Unlink truncfile) ;;
  sys (Close fd1) ;;
  sys (Close fd2) ;;
  Ret tt.

Definition opentest (s : list Z) : prog unit :=
  fd <- sys (Open (bytes_of "echo") 0);
  if fd <? 0 then fail (msg "%s: open echo failed!") [Str (Some s)] else
  sys (Close fd) ;;
  fd <- sys (Open (bytes_of "doesnotexist") 0);
  if 0 <=? fd then fail (msg "%s: open doesnotexist succeeded!") [Str (Some s)] else
  Ret tt.

Definition writetest (s : list Z) : prog unit :=
  let small := bytes_of "small" in
  fd <- sys (Open small (Z.lor O_CREATE O_RDWR));
  if fd <? 0 then fail (msg "%s: error: creat small failed!") [Str (Some s)] else
  each (seqZ 0 100) (fun i =>
    r <- sys (Write fd (bytes_of "aaaaaaaaaa"));
    if negb (r =? 10) then fail (msg "%s: error: write aa %d new file failed") [Str (Some s); Num i] else
    r <- sys (Write fd (bytes_of "bbbbbbbbbb"));
    if negb (r =? 10) then fail (msg "%s: error: write bb %d new file failed") [Str (Some s); Num i] else
    Ret tt) ;;
  sys (Close fd) ;;
  fd <- sys (Open small O_RDONLY);
  if fd <? 0 then fail (msg "%s: error: open small failed!") [Str (Some s)] else
  ' (i, _) <- sys (Read fd 2000);
  if negb (i =? 2000) then fail (msg "%s: read failed") [Str (Some s)] else
  sys (Close fd) ;;
  r <- sys (Unlink small);
  if r <? 0 then fail (msg "%s: unlink small failed") [Str (Some s)] else
  Ret tt.

(** The names a0, a1, ... of createtest(). *)
Definition create_name (i : Z) : list Z := [97; u8 (48 + i)].

Definition createtest (s : list Z) : prog unit :=
  each (seqZ 0 52) (fun i =>
    fd <- sys (Open (create_name i) (Z.lor O_CREATE O_RDWR));
    sys (Close fd) ;;
    Ret tt) ;;
  each (seqZ 0 52) (fun i => sys (Unlink (create_name i)) ;; Ret tt).

Definition unlinkread (s : list Z) : prog unit :=
  let name := bytes_of "unlinkread" in
  fd <- sys (Open name (Z.lor O_CREATE O_RDWR));
  if fd <? 0 then fail (msg "%s: create unlinkread failed") [Str (Some s)] else
  sys (Write fd (bytes_of "hello")) ;;
  sys (Close fd) ;;
  fd <- sys (Open name O_RDWR);
  if fd <? 0 then fail (msg "%s: open unlinkread failed") [Str (Some s)] else
  r <- sys (Unlink name);
  if negb (r =? 0) then fail (msg "%s: unlink unlinkread failed") [Str (Some s)] else
  fd1 <- sys (Open name (Z.lor O_CREATE O_RDWR));
  sys (Write fd1 (bytes_of "yyy")) ;;
  sys (Close fd1) ;;
  ' (n, got) <- sys (Read fd BUFSZ);
  let buf := splice 0 got buf0 in
  if negb (n =? 5) then fail (bytes_of "%s: unlinkread read failed") [Str (Some s)] else
  if negb (nth 0 buf 0 =? 104) then fail (msg "%s: unlinkread wrong data") [Str (Some s)] else
  n <- sys (Write fd (take 10 buf));
  if negb (n =? 10) then fail (msg "%s: unlinkread write failed") [Str (Some s)] else
  sys (Close fd) ;;
  sys (Unlink name) ;;
  Ret tt.

Definition linktest (s : list Z) : prog unit :=
  let lf1 := bytes_of "lf1" in
  let lf2 := bytes_of "lf2" in
  sys (Unlink lf1) ;;
  sys (Unlink lf2) ;;
  fd <- sys (Open lf1 (Z.lor O_CREATE O_RDWR));
  if fd <? 0 then fail (msg "%s: create lf1 failed") [Str (Some s)] else
  n <- sys (Write fd (bytes_of "hello"));
  if negb (n =? 5) then fail (msg "%s: write lf1 failed") [Str (Some s)] else
  sys (Close fd) ;;
  r <- sys (Link lf1 lf2);
  if r <? 0 then fail (msg "%s: link lf1 lf2 failed") [Str (Some s)] else
  sys (Unlink lf1) ;;
  r <- sys (Open lf1 0);
  if 0 <=? r then fail (msg "%s: unlinked lf1 but it is still there!") [Str (Some s)] else
  fd <- sys (Open lf2 0);
  if fd <? 0 then fail (msg "%s: open lf2 failed") [Str (Some s)] else
  ' (n, _) <- sys (Read fd BUFSZ);
  if negb (n =? 5) then fail (msg "%s: read lf2 failed") [Str (Some s)] else
  sys (Close fd) ;;
  r <- sys (Link lf2 lf2);
  if 0 <=? r then fail (msg "%s: link lf2 lf2 succeeded! oops") [Str (Some s)] else
  sys (Unlink lf2) ;;
  r <- sys (Link lf2 lf1);
  if 0 <=? r then fail (msg "%s: link non-existent succeeded! oops") [Str (Some s)] else
  r <- sys (Link (bytes_of ".") lf1);
  if 0 <=? r then fail (msg "%s: link . lf1 succeeded! oops") [Str (Some s)] else
  Ret tt.

(** The names of bigdir(). *)
Definition bigdir_name (i : Z) : list Z := [120; u8 (48 + i / 64); u8 (48 + i mod 64)].

Definition bigdir (s : list Z) : prog unit :=
  let bd := bytes_of "bd" in
  sys (Unlink bd) ;;
  fd <- sys (Open bd O_CREATE);
  if fd <? 0 then fail (msg "%s: bigdir create failed") [Str (Some s)] else
  sys (Close fd) ;;
  each (seqZ 0 500) (fun i =>
    r <- sys (Link bd (bigdir_name i));
    if negb (r =? 0) then fail (msg "%s: bigdir link(bd, %s) failed") [Str (Some s); Str (Some (bigdir_name i))] else
    Ret tt) ;;
  sys (Unlink bd) ;;
  each (seqZ 0 500) (fun i =>
    r <- sys (Unlink (bigdir_name i));
    if negb (r =? 0) then fail (bytes_of "%s: bigdir unlink failed") [Str (Some s)] else
    Ret tt).

Definition bigwrite (s : list Z) : prog unit :=
  let name := bytes_of "bigwrite" in
  sys (Unlink name) ;;
  loop (fun sz : Z =>
    if Z.of_nat BUFSZ <=? sz then Ret (inr tt) else
    fd <- sys (Open name (Z.lor O_CREATE O_RDWR));
    if fd <? 0 then fail (msg "%s: cannot create bigwrite") [Str (Some s)] else
    each (seqZ 0 2) (fun _ =>
      cc <- sys (Write fd (take (Z.to_nat sz) buf0));
      if negb (cc =? sz) then fail (msg "%s: write(%d) ret %d") [Str (Some s); Num sz; Num cc] else
      Ret tt) ;;
    sys (Close fd) ;;
    sys (Unlink name) ;;
    Ret (inl (sz + 471))) 499.

(** The two loops of bigfile(): what is in buf[] goes from one round to the next. *)
Definition bigfile_writes (s : list Z) (fd : Z) (buf : list Z) : prog (list Z) :=
  loop (fun st : Z * list Z =>
    let '(i, buf) := st in
    if 20 <=? i then Ret (inr buf) else
    let buf := splice 0 (replicate 600 (u8 i)) buf in
    n <- sys (Write fd (take 600 buf));
    if negb (n =? 600) then fail (msg "%s: write bigfile failed") [Str (Some s)] else
    Ret (inl (i + 1, buf))) (0, buf).

Definition bigfile_reads (s : list Z) (fd : Z) (buf : list Z) : prog Z :=
  loop (fun st : Z * Z * list Z =>
    let '(i, total, buf) := st in
    ' (cc, got) <- sys (Read fd 300);
    let buf := splice 0 got buf in
    if cc <? 0 then fail (msg "%s: read bigfile failed") [Str (Some s)] else
    if cc =? 0 then Ret (inr total) else
    if negb (cc =? 300) then fail (msg "%s: short read bigfile") [Str (Some s)] else
    if negb (nth 0 buf 0 =? Z.quot i 2) || negb (nth 299 buf 0 =? Z.quot i 2) then
      fail (msg "%s: read bigfile wrong data") [Str (Some s)]
    else Ret (inl (i + 1, total + cc, buf))) (0, 0, buf).

Definition bigfile (s : list Z) : prog unit :=
  let name := bytes_of "bigfile.dat" in
  sys (Unlink name) ;;
  fd <- sys (Open name (Z.lor O_CREATE O_RDWR));
  if fd <? 0 then fail (bytes_of "%s: cannot create bigfile") [Str (Some s)] else
  buf <- bigfile_writes s fd buf0;
  sys (Close fd) ;;
  fd <- sys (Open name 0);
  if fd <? 0 then fail (msg "%s: cannot open bigfile") [Str (Some s)] else
  total <- bigfile_reads s fd buf;
  sys (Close fd) ;;
  if negb (total =? 12000) then fail (msg "%s: read bigfile wrong total") [Str (Some s)] else
  sys (Unlink name) ;;
  Ret tt.

(** The rounds of the two loops of writebig(). *)
Definition writes_round (s : list Z) (fd : Z) (st : Z * list Z) : prog (Z * list Z + list Z) :=
  let '(i, buf) := st in
  if 268 <=? i then Ret (inr buf) else
  let buf := put32 0 i buf in
  n <- sys (Write fd (take 1024 buf));
  if negb (n =? 1024) then fail (msg "%s: error: write big file failed") [Str (Some s); Num i] else
  Ret (inl (i + 1, buf)).

Definition reads_round (s : list Z) (fd : Z) (st : Z * list Z) : prog (Z * list Z + unit) :=
  let '(n, buf) := st in
  ' (i, got) <- sys (Read fd 1024);
  let buf := splice 0 got buf in
  if i =? 0 then
    if n =? 268 - 1 then fail (bytes_of "%s: read only %d blocks from big") [Str (Some s); Num n] else Ret (inr tt)
  else if negb (i =? 1024) then fail (msg "%s: read failed %d") [Str (Some s); Num i] else
  if negb (s32 (get32 buf 0) =? n) then
    fail (msg "%s: read content of block %d is %d") [Str (Some s); Num n; Num (s32 (get32 buf 0))]
  else Ret (inl (n + 1, buf)).

Definition writebig (s : list Z) : prog unit :=
  let big := bytes_of "big" in
  fd <- sys (Open big (Z.lor O_CREATE O_RDWR));
  if fd <? 0 then fail (msg "%s: error: creat big failed!") [Str (Some s)] else
  buf <- loop (writes_round s fd) (0, buf0);
  sys (Close fd) ;;
  fd <- sys (Open big O_RDONLY);
  if fd <? 0 then fail (msg "%s: error: open big failed!") [Str (Some s)] else
  loop (reads_round s fd) (0, buf) ;;
  sys (Close fd) ;;
  r <- sys (Unlink big);
  if r <? 0 then fail (msg "%s: unlink big failed") [Str (Some s)] else
  Ret tt.

(** ** The file system of one process inside a larger one *)

(** A choice with which no call runs out of memory, inodes or blocks. *)
Definition plenty (n : choice) : Prop := pick n <> 0%nat.

(** The same open file; the console and a pipe are written alike. *)
Inductive like (σ : nat -> nat) : handle -> handle -> Prop :=
| like_file i off rd wr : like σ (Hfile i off rd wr) (Hfile (σ i) off rd wr)
| like_tty i j : like σ (Htty i) (Htty j)
| like_out i : like σ (Htty i) Hout.

(** The paths [P], and what is open, are in [w] as in [v], with inodes and open files
    renamed; what has happened since is the same. *)
Record framed (P : list Z -> bool) (l0 : list event) (σ τ : nat -> nat) (v w : world) : Prop := {
  fr_names p : P p = true -> names w !! p = σ <$> names v !! p;
  fr_ref p i : P p = true -> names v !! p = Some i -> is_Some (nodes v !! i);
  fr_nodes i nd : nodes v !! i = Some nd -> nodes w !! σ i = Some nd;
  fr_inj i j : is_Some (nodes v !! i) -> is_Some (nodes v !! j) -> σ i = σ j -> i = j;
  fr_fds fd : fds w !! fd = τ <$> fds v !! fd;
  fr_open fd f : fds v !! fd = Some f -> is_Some (ftab v !! f);
  fr_ftab f h : ftab v !! f = Some h -> exists h', ftab w !! τ f = Some h' /\ like σ h h';
  fr_file f i off rd wr : ftab v !! f = Some (Hfile i off rd wr) -> is_Some (nodes v !! i);
  fr_tinj f g : is_Some (ftab v !! f) -> is_Some (ftab v !! g) -> τ f = τ g -> f = g;
  fr_log : log w = l0 ++ log v
}.

Definition frame (P : list Z -> bool) (l0 : list event) (v w : world) : Prop := exists σ τ, framed P l0 σ τ v w.

(** The calls whose answer depends on these files alone. *)
Definition allowed (P : list Z -> bool) (v : world) {X} (c : call X) : bool :=
  match c with
  | Open path _ | Unlink path => P path
  | Link old new => P old && P new
  | Close _ => true
  | Read fd _ => match opened fd v with Some (Htty _ | Hin _) => false | _ => true end
  | Write fd bs =>
      match opened fd v with
      | Some (Hfile _ off _ _) => Z.of_nat (off + length bs) <=? MAXBYTES
      | Some (Htty _) | None => true
      | _ => false
      end
  | _ => false
  end.

(** The run of a program that makes only such calls. *)
Fixpoint run_in (P : list Z -> bool) (fuel : nat) {A} (p : prog A) (v : world) : outcome A :=
  match fuel with
  | O => NoFuel
  | S fuel =>
      match p with
      | Ret a => fun v => Done a v
      | Call c k => fun v => if allowed P v c then let r := answer choice0 v c in run_in P fuel (k r.1) r.2 else Crashed
      | Loop body s k => fun v => run_in P fuel (unroll body s k) v
      | Exit status => fun v => Ended (Exited status) v
      | Exec _ _ _ | Stuck => fun _ => Crashed
      end v
  end.

Section Frame.
Context (P : list Z -> bool) (l0 : list event).

Lemma lowest_frame σ τ v w : framed P l0 σ τ v w -> lowest (fds w) = lowest (fds v).
Proof.
  intros F. unfold lowest. f_equal. induction (seq 0 NOFILE) as [|i l IH]; [done|]. cbn. rewrite IH.
  pose proof (fr_fds _ _ _ _ _ _ F (Z.of_nat i)) as E. destruct (fds v !! Z.of_nat i); cbn in E.
  - by rewrite !decide_False by congruence.
  - by rewrite !decide_True by congruence.
Qed.

(** Changing a node that both have. *)
Lemma framed_nodes σ τ i nd v w : framed P l0 σ τ v w -> is_Some (nodes v !! i) ->
  framed P l0 σ τ (set_nodes (<[i := nd]> (nodes v)) v) (set_nodes (<[σ i := nd]> (nodes w)) w).
Proof.
  intros [? Href Hnodes Hinj ? ? ? Hfl ? ?] Hi.
  assert (Hdom : forall j, is_Some (<[i := nd]> (nodes v) !! j) -> is_Some (nodes v !! j)).
  { intros j. destruct (decide (j = i)) as [->|Hne]; [done|]. by rewrite lookup_insert_ne. }
  assert (Hup : forall j, is_Some (nodes v !! j) -> is_Some (<[i := nd]> (nodes v) !! j)).
  { intros j. destruct (decide (j = i)) as [->|Hne]; [by rewrite lookup_insert_eq|by rewrite lookup_insert_ne]. }
  split; cbn; try done.
  - eauto.
  - intros j nd' Hj. destruct (decide (j = i)) as [->|Hne]; [rewrite lookup_insert_eq in *; congruence|].
    rewrite lookup_insert_ne in Hj by done. rewrite lookup_insert_ne; [by apply Hnodes|]. intros E. apply Hne. apply Hinj; eauto.
  - intros j k Hj Hk. apply Hinj; auto.
  - eauto.
Qed.

Lemma framed_add_nlink σ τ i d v w : framed P l0 σ τ v w -> is_Some (nodes v !! i) ->
  framed P l0 σ τ (add_nlink i d v) (add_nlink (σ i) d w).
Proof.
  intros F [nd Hi]. pose proof (fr_nodes _ _ _ _ _ _ F i nd Hi) as Hw. unfold add_nlink.
  rewrite (alter_alt_Some _ _ _ _ Hi), (alter_alt_Some _ _ _ _ Hw). by apply framed_nodes.
Qed.

(** A new open file. *)
Lemma framed_open_file σ τ h h' v w : framed P l0 σ τ v w -> like σ h h' ->
  (forall i off rd wr, h = Hfile i off rd wr -> is_Some (nodes v !! i)) ->
  exists τ', (open_file h v).1 = (open_file h' w).1 /\ framed P l0 σ τ' (open_file h v).2 (open_file h' w).2.
Proof.
  intros F Hl Hi. unfold open_file. rewrite (lowest_frame _ _ _ _ F). destruct (lowest (fds v)) as [fd|]; [|by exists τ].
  destruct F as [? Href Hnodes Hinj Hfds Hopen Hftab Hfl Htinj Hlog].
  set (n := length (ftab v)). set (τ' := fun f => if decide (f = n) then length (ftab w) else τ f). exists τ'. split; [done|].
  assert (Hn : forall f, is_Some (ftab v !! f) -> f <> n) by (intros f Hf; apply lookup_lt_is_Some in Hf; lia).
  assert (Hold : forall f, is_Some (ftab v !! f) -> τ' f = τ f) by (intros f Hf; unfold τ'; by rewrite decide_False by eauto).
  assert (Hnew : τ' n = length (ftab w)) by (unfold τ'; by rewrite decide_True).
  assert (Hget : forall f g, (ftab v ++ [h]) !! f = Some g -> ftab v !! f = Some g \/ f = n /\ g = h).
  { intros f g. rewrite lookup_app. destruct (ftab v !! f) eqn:E; [left; congruence|]. intros Hg. right.
    apply lookup_ge_None in E. apply list_lookup_singleton_Some in Hg as [Hz ->]. split; [unfold n; lia|done]. }
  assert (Hlt : forall f, is_Some (ftab v !! f) -> (τ f < length (ftab w))%nat).
  { intros f [g Hg]. destruct (Hftab f g Hg) as (g' & Hg' & _). by apply lookup_lt_Some in Hg'. }
  split; cbn; try done.
  - intros fd'. destruct (decide (fd' = fd)) as [->|Hne]; [rewrite !lookup_insert_eq; cbn; by rewrite Hnew|].
    rewrite !lookup_insert_ne, Hfds by done. destruct (fds v !! fd') as [f|] eqn:E; cbn; [|done]. by rewrite Hold by eauto.
  - intros fd' f. destruct (decide (fd' = fd)) as [->|Hne].
    + rewrite lookup_insert_eq. intros [= <-]. apply lookup_lt_is_Some. rewrite length_app. cbn. lia.
    + rewrite lookup_insert_ne by done. intros Hf. apply lookup_lt_is_Some. rewrite length_app.
      pose proof (Hopen _ _ Hf) as Hs. apply lookup_lt_is_Some in Hs. lia.
  - intros f g [Hg|[-> ->]]%Hget.
    + rewrite Hold by eauto. destruct (Hftab f g Hg) as (g' & Hg' & Hl'). exists g'. split; [by apply lookup_app_l_Some|done].
    + rewrite Hnew. exists h'. split; [by rewrite lookup_app_r, Nat.sub_diag by lia|done].
  - intros f i off rd wr [Hg|[_ Hg]]%Hget; eauto.
  - intros f g [x Hf] [y Hg]. destruct (Hget _ _ Hf) as [Hf'|[-> _]], (Hget _ _ Hg) as [Hg'|[-> _]]; [..|done].
    + rewrite !Hold by eauto. by apply Htinj.
    + rewrite (Hold f), Hnew by eauto. pose proof (Hlt f (mk_is_Some _ _ Hf')). lia.
    + rewrite (Hold g), Hnew by eauto. pose proof (Hlt g (mk_is_Some _ _ Hg')). lia.
Qed.

(** Moving the offset of an open file. *)
Lemma framed_set_handle σ τ fd i off rd wr off' v w : framed P l0 σ τ v w -> opened fd v = Some (Hfile i off rd wr) ->
  framed P l0 σ τ (set_handle fd (Hfile i off' rd wr) v) (set_handle fd (Hfile (σ i) off' rd wr) w).
Proof.
  intros F Ho. pose proof (fr_fds _ _ _ _ _ _ F fd) as Hfd. unfold opened in Ho. unfold set_handle.
  destruct (fds v !! fd) as [f|] eqn:Ef; cbn in Ho, Hfd; [|done]. rewrite Hfd. clear Hfd.
  destruct F as [? Href Hnodes Hinj Hfds Hopen Hftab Hfl Htinj Hlog].
  assert (Hlen : (f < length (ftab v))%nat) by (by apply lookup_lt_Some in Ho).
  assert (Hs : forall g, is_Some (<[f := Hfile i off' rd wr]> (ftab v) !! g) <-> is_Some (ftab v !! g))
    by (intros g; rewrite !lookup_lt_is_Some, length_insert; done).
  split; cbn; try done.
  - intros fd' g Hg. apply Hs. eauto.
  - intros g h. destruct (decide (g = f)) as [->|Hne].
    + rewrite list_lookup_insert_eq by done. intros [= <-]. exists (Hfile (σ i) off' rd wr). split; [|constructor].
      destruct (Hftab _ _ Ho) as (h' & Hh' & _). apply list_lookup_insert_eq. by apply lookup_lt_Some in Hh'.
    + rewrite list_lookup_insert_ne by done. intros Hg. destruct (Hftab _ _ Hg) as (h' & Hh' & Hl). exists h'. split; [|done].
      rewrite list_lookup_insert_ne; [done|]. intros E. apply Hne. symmetry. apply Htinj; eauto.
  - intros g j o r r'. destruct (decide (g = f)) as [->|Hne].
    + rewrite list_lookup_insert_eq by done. intros [= <- _ _ _]. eauto.
    + rewrite list_lookup_insert_ne by done. eauto.
  - intros g g' Hg Hg'. apply Htinj; by apply Hs.
Qed.

Lemma framed_logged σ τ l v w : framed P l0 σ τ v w -> framed P l0 σ τ (logged l v) (logged l w).
Proof. intros []. split; cbn; try done. rewrite app_assoc. congruence. Qed.

(** Naming a file that both have, and taking a name away. *)
Lemma framed_names σ τ p (o : option nat) v w : framed P l0 σ τ v w -> (forall i, o = Some i -> is_Some (nodes v !! i)) ->
  framed P l0 σ τ (set_names (partial_alter (fun _ => o) p (names v)) v) (set_names (partial_alter (fun _ => σ <$> o) p (names w)) w).
Proof.
  intros [Hn Href ? ? ? ? ? ? ? ?] Ho. split; cbn; try done.
  - intros q Hq. destruct (decide (q = p)) as [->|Hne]; [by rewrite !lookup_partial_alter_eq|]. rewrite !lookup_partial_alter_ne by done. auto.
  - intros q i Hq. destruct (decide (q = p)) as [->|Hne]; [rewrite lookup_partial_alter_eq; auto|]. rewrite lookup_partial_alter_ne by done. eauto.
Qed.

(** A new inode. *)
Lemma framed_create σ τ n n' p nd v w : framed P l0 σ τ v w -> n <> 0%nat -> n' <> 0%nat ->
  exists σ' i v' w', create n p nd v = Some (i, v') /\ create n' p nd w = Some (σ' i, w') /\ nodes v' !! i = Some nd /\ framed P l0 σ' τ v' w'.
Proof.
  intros F Hn Hn'. unfold create. rewrite (proj2 (Nat.eqb_neq _ _) Hn), (proj2 (Nat.eqb_neq _ _) Hn').
  set (i := fresh (dom (nodes v))). set (j := fresh (dom (nodes w))).
  assert (Hi : nodes v !! i = None) by (apply not_elem_of_dom, is_fresh). assert (Hj : nodes w !! j = None) by (apply not_elem_of_dom, is_fresh).
  set (σ' := fun k => if decide (k = i) then j else σ k). assert (Hσi : σ' i = j) by (unfold σ'; by rewrite decide_True).
  assert (Hσ : forall k, k <> i -> σ' k = σ k) by (intros; unfold σ'; by rewrite decide_False).
  exists σ', i. do 2 eexists. rewrite Hσi. split; [reflexivity|]. split; [reflexivity|]. split; [cbn; by rewrite lookup_insert_eq|].
  assert (F' : framed P l0 σ' τ (set_nodes (<[i := nd]> (nodes v)) v) (set_nodes (<[j := nd]> (nodes w)) w)).
  { destruct F as [Hnm Href Hnodes Hinj Hfds Hopen Hftab Hfl Htinj Hlog].
    assert (Hne : forall k, is_Some (nodes v !! k) -> k <> i) by (intros k [x Hk] ->; congruence).
    assert (Hup : forall k, is_Some (nodes v !! k) -> is_Some (<[i := nd]> (nodes v) !! k)).
    { intros k Hk. rewrite lookup_insert_ne; [done|]. intros <-. by apply (Hne i). }
    assert (Hin : forall k, is_Some (<[i := nd]> (nodes v) !! k) -> k = i \/ is_Some (nodes v !! k) /\ k <> i /\ σ k <> j).
    { intros k. destruct (decide (k = i)) as [->|Hk]; [by left|]. rewrite lookup_insert_ne by done. intros [x Hx]. right.
      split; [eauto|]. split; [done|]. intros E. apply Hnodes in Hx. congruence. }
    split; cbn; try done.
    - intros q Hq. rewrite Hnm by done. destruct (names v !! q) as [k|] eqn:E; cbn; [|done]. rewrite Hσ; [done|]. eauto.
    - eauto.
    - intros k nd'. destruct (decide (k = i)) as [->|Hk]; [by rewrite lookup_insert_eq, Hσi, lookup_insert_eq|].
      rewrite lookup_insert_ne, Hσ by done. intros Hx. apply Hnodes in Hx. rewrite lookup_insert_ne; [done|]. congruence.
    - intros k k' [->|(Hk & Hk1 & Hk2)]%Hin [->|(Hk' & Hk1' & Hk2')]%Hin; rewrite ?Hσi, ?Hσ by done; try done; by apply Hinj.
    - intros f h Hf. destruct (Hftab f h Hf) as (h' & Hh' & Hl). exists h'. split; [done|]. destruct Hl as [k off rd wr|k k'|k]; [|constructor..].
      rewrite <- (Hσ k) by eauto. constructor.
    - eauto. }
  pose proof (framed_names _ _ p (Some i) _ _ F') as G. cbn [fmap option_fmap option_map] in G. rewrite Hσi in G. apply G.
  intros k [= <-]. cbn. by rewrite lookup_insert_eq.
Qed.

Lemma framed_open_node σ τ mode i nd v w : framed P l0 σ τ v w -> nodes v !! i = Some nd ->
  exists τ', (open_node mode i nd v).1 = (open_node mode (σ i) nd w).1 /\ framed P l0 σ τ' (open_node mode i nd v).2 (open_node mode (σ i) nd w).2.
Proof.
  intros F Hi. unfold open_node. destruct (_ && _); [by exists τ|]. destruct (n_type nd =? T_DEVICE).
  { apply (framed_open_file σ τ); [done|constructor|done]. }
  set (r := negb (has mode O_WRONLY)). set (wr := has mode O_WRONLY || has mode O_RDWR).
  destruct (framed_open_file σ τ (Hfile i 0 r wr) (Hfile (σ i) 0 r wr) v w F) as (τ' & E & F'); [constructor|intros ? ? ? ? [= <- _ _ _]; eauto|].
  assert (Hv : nodes (open_file (Hfile i 0 r wr) v).2 = nodes v) by (unfold open_file; by destruct (lowest (fds v))).
  assert (Hw : nodes (open_file (Hfile (σ i) 0 r wr) w).2 = nodes w) by (unfold open_file; by destruct (lowest (fds w))).
  destruct (open_file (Hfile i 0 r wr) v) as [fd v1], (open_file (Hfile (σ i) 0 r wr) w) as [fd' w1]. cbn in E, F', Hv, Hw. subst fd'. exists τ'.
  destruct (_ && _ && _); [|done]. split; [done|]. cbn [snd]. apply framed_nodes; [done|]. rewrite Hv. eauto.
Qed.

(** An open descriptor. *)
Lemma framed_opened σ τ fd v w : framed P l0 σ τ v w ->
  match opened fd v with Some h => exists h', opened fd w = Some h' /\ like σ h h' | None => opened fd w = None end.
Proof.
  intros F. unfold opened. rewrite (fr_fds _ _ _ _ _ _ F fd). destruct (fds v !! fd) as [f|] eqn:Ef; cbn; [|done].
  destruct (fr_open _ _ _ _ _ _ F _ _ Ef) as [h Hh]. rewrite Hh. exact (fr_ftab _ _ _ _ _ _ F _ _ Hh).
Qed.

Lemma framed_file σ τ fd i off rd wr v w : framed P l0 σ τ v w -> opened fd v = Some (Hfile i off rd wr) ->
  opened fd w = Some (Hfile (σ i) off rd wr) /\ exists nd, nodes v !! i = Some nd /\ nodes w !! σ i = Some nd.
Proof.
  intros F Ho. pose proof (framed_opened σ τ fd v w F) as H. rewrite Ho in H. destruct H as (h' & -> & Hl). inversion Hl; subst.
  split; [done|]. unfold opened in Ho. destruct (fds v !! fd) as [f|]; [|done]. cbn in Ho. destruct (fr_file _ _ _ _ _ _ F _ _ _ _ _ Ho) as [nd Hnd].
  exists nd. split; [done|]. by apply (fr_nodes _ _ _ _ _ _ F).
Qed.

(** The answers of the two file systems are the same. *)
Definition same {X} (a b : X * world) : Prop := a.1 = b.1 /\ frame P l0 a.2 b.2.

Lemma same_intro {X} (x : X) v w σ τ : framed P l0 σ τ v w -> same (x, v) (x, w).
Proof. intros F. split; [done|]. by exists σ, τ. Qed.

Lemma same_did {X} (c : call X) x v w σ τ : framed P l0 σ τ v w -> same (did c x v) (did c x w).
Proof. intros F. apply (same_intro _ _ _ σ τ). by apply framed_logged. Qed.

Lemma open_frame σ τ path mode n v w : framed P l0 σ τ v w -> plenty n -> P path = true ->
  same (answer choice0 v (Open path mode)) (answer n w (Open path mode)).
Proof.
  intros F Hn Hp. cbn [answer]. rewrite (fr_names _ _ _ _ _ _ F) by done. destruct (names v !! path) as [i|] eqn:Ei; cbn [fmap option_fmap option_map mbind option_bind].
  - destruct (fr_ref _ _ _ _ _ _ F _ _ Hp Ei) as [nd Hnd]. rewrite Hnd, (fr_nodes _ _ _ _ _ _ F _ _ Hnd). cbn.
    destruct (framed_open_node σ τ mode i nd v w F Hnd) as (τ' & E & F'). split; [done|]. by exists σ, τ'.
  - destruct (has mode O_CREATE); [|by apply (same_intro _ _ _ σ τ)].
    destruct (framed_create σ τ (pick choice0) (pick n) path (Node T_FILE 1 []) v w F) as (σ' & i & v' & w' & -> & -> & Hi & F'); [done..|].
    destruct (framed_open_node σ' τ mode i _ v' w' F' Hi) as (τ' & E & F''). split; [done|]. by exists σ', τ'.
Qed.

Lemma read_frame σ τ fd k n v w : framed P l0 σ τ v w -> allowed P v (Read fd k) = true ->
  same (answer choice0 v (Read fd k)) (answer n w (Read fd k)).
Proof.
  intros F Ha. cbn [answer allowed] in *. pose proof (framed_opened σ τ fd v w F) as Ho. destruct (opened fd v) as [h|] eqn:E.
  2: rewrite Ho; by apply (same_intro _ _ _ σ τ). destruct Ho as (h' & Eh & Hl). rewrite Eh. destruct Hl as [i off rd wr| |]; [|done..].
  destruct rd; [|by apply (same_intro _ _ _ σ τ)]. destruct (framed_file _ _ _ _ _ _ _ _ _ F E) as (_ & nd & -> & ->). cbn.
  apply (same_intro _ _ _ σ τ). by eapply framed_set_handle.
Qed.

Lemma write_frame σ τ fd bs n v w : framed P l0 σ τ v w -> plenty n -> allowed P v (Write fd bs) = true ->
  same (answer choice0 v (Write fd bs)) (answer n w (Write fd bs)).
Proof.
  intros F Hn Ha. cbn [answer allowed] in *. pose proof (framed_opened σ τ fd v w F) as Ho. destruct (opened fd v) as [h|] eqn:E.
  2: rewrite Ho; by apply (same_intro _ _ _ σ τ). destruct Ho as (h' & Eh & Hl). rewrite Eh.
  destruct Hl as [i off rd wr| |]; [|apply (same_intro _ _ _ σ τ); by apply framed_logged..].
  destruct wr; [|by apply (same_intro _ _ _ σ τ)]. destruct (framed_file _ _ _ _ _ _ _ _ _ F E) as (_ & nd & Hv & Hw). rewrite Hv, Hw. unfold write_node.
  destruct (_ && _); [by apply (same_intro _ _ _ σ τ)|]. rewrite (proj2 (Nat.eqb_neq _ _) Hn).
  apply Z.leb_le in Ha. rewrite (proj2 (Z.ltb_ge _ _)) by done. cbn [choice0 pick Nat.eqb andb orb].
  apply (same_intro _ _ _ σ τ). apply framed_logged. eapply framed_set_handle; [apply framed_nodes; eauto|exact E].
Qed.

Lemma link_frame σ τ old new n v w : framed P l0 σ τ v w -> plenty n -> P old = true -> P new = true ->
  same (answer choice0 v (Link old new)) (answer n w (Link old new)).
Proof.
  intros F Hn Ho Hw. cbn [answer]. rewrite !(fr_names _ _ _ _ _ _ F) by done. destruct (names v !! old) as [i|] eqn:Ei; cbn [fmap option_fmap option_map]; [|by eapply same_did].
  destruct (names v !! new); cbn; [by eapply same_did|]. destruct (fr_ref _ _ _ _ _ _ F _ _ Ho Ei) as [nd Hnd].
  unfold is_dir. rewrite Hnd, (fr_nodes _ _ _ _ _ _ F _ _ Hnd), (proj2 (Nat.eqb_neq _ _) Hn). cbn [choice0 pick Nat.eqb]. rewrite !orb_false_r.
  destruct (n_type nd =? T_DIR); [by eapply same_did|]. eapply same_did. apply framed_add_nlink; [|eauto].
  apply (framed_names _ _ new (Some i) _ _ F). intros ? [= <-]. eauto.
Qed.

Lemma unlink_frame σ τ path n v w : framed P l0 σ τ v w -> plenty n -> P path = true ->
  same (answer choice0 v (Unlink path)) (answer n w (Unlink path)).
Proof.
  intros F Hn Hp. cbn [answer]. rewrite (fr_names _ _ _ _ _ _ F) by done. destruct (names v !! path) as [i|] eqn:Ei; cbn; [|by eapply same_did].
  destruct (fr_ref _ _ _ _ _ _ F _ _ Hp Ei) as [nd Hnd]. rewrite (proj2 (Nat.eqb_neq _ _) Hn).
  eapply same_did. apply framed_add_nlink; [|eauto]. by apply (framed_names _ _ path None _ _ F).
Qed.

Lemma close_frame σ τ fd n v w : framed P l0 σ τ v w -> same (answer choice0 v (Close fd)) (answer n w (Close fd)).
Proof.
  intros F. cbn [answer]. rewrite (fr_fds _ _ _ _ _ _ F fd). destruct (fds v !! fd); cbn; apply (same_intro _ _ _ σ τ); [|done].
  destruct F as [? Href Hnodes Hinj Hfds Hopen Hftab Hfl Htinj Hlog]. split; cbn; try done.
  - intros fd'. destruct (decide (fd' = fd)) as [->|Hne]; [by rewrite !lookup_delete_eq|]. by rewrite !lookup_delete_ne, Hfds by done.
  - intros fd' f. destruct (decide (fd' = fd)) as [->|Hne]; [by rewrite lookup_delete_eq|]. rewrite lookup_delete_ne by done. eauto.
Qed.

Lemma answer_frame {X} (c : call X) n v w : frame P l0 v w -> plenty n -> allowed P v c = true ->
  same (answer choice0 v c) (answer n w c).
Proof.
  intros (σ & τ & F) Hn Ha. destruct c; try done; cbn [allowed] in Ha; rewrite ?andb_true_iff in Ha; destruct_and?.
  - by eapply open_frame.
  - by eapply close_frame.
  - by eapply read_frame.
  - by eapply write_frame.
  - by eapply link_frame.
  - by eapply unlink_frame.
Qed.

(** What a program does to its own files does not depend on what else there is. *)
Lemma run_frame fuel {A} (p : prog A) o v w : frame P l0 v w -> Forall plenty o ->
  match run_in P fuel p v with
  | Done a v' => exists w', run fuel o p w = Done a w' /\ frame P l0 v' w'
  | Ended e v' => exists w', run fuel o p w = Ended e w' /\ frame P l0 v' w'
  | _ => True
  end.
Proof.
  revert A p o v w. induction fuel as [|fuel IH]; intros A p o v w F Ho; [done|]. destruct p as [A a|A X c k|A S X body s k|A path argv k|A st|A]; cbn; try done; [eauto| |by apply IH|eauto].
  destruct (allowed P v c) eqn:Ha; [|done]. assert (Hn : plenty (hd choice0 o)) by (by destruct Ho).
  destruct (answer_frame c (hd choice0 o) v w F Hn Ha) as [E F']. rewrite <- E. apply IH; [done|]. by destruct Ho.
Qed.
End Frame.

(** ** The tests pass *)

(** The files the tests make, or expect not to be there. *)
Definition test_file (p : list Z) : bool :=
  bool_decide (p ∈ [truncfile; bytes_of "doesnotexist"; bytes_of "small"; bytes_of "unlinkread"; bytes_of "lf1"; bytes_of "lf2";
                    bytes_of "bd"; bytes_of "bigwrite"; bytes_of "bigfile.dat"; bytes_of "big"]) ||
  match p with
  | [a; b] => a =? 97
  | [x; _; _] => x =? 120
  | _ => false
  end.

Definition test_path (p : list Z) : bool := test_file p || bool_decide (p = bytes_of "echo") || bool_decide (p = bytes_of ".").

Definition file_tests (s : list Z) : list (prog unit) :=
  [writebig s; truncate1 s; truncate2 s; opentest s; writetest s; createtest s; unlinkread s; linktest s; bigdir s; bigwrite s; bigfile s].

(** A small file system with echo and a directory. *)
Definition small_world (nl1 : Z) (d1 : list Z) (nl2 : Z) (d2 : list Z) : world := {|
  names := {[ bytes_of "echo" := 1%nat; bytes_of "." := 2%nat ]};
  nodes := {[ 1%nat := Node T_FILE nl1 d1; 2%nat := Node T_DIR nl2 d2 ]};
  fds := {[ 0 := 0%nat; 1 := 0%nat; 2 := 0%nat ]}; ftab := [Htty 0]; tty := []; children := [];
  room := 0; nextpid := 0; orphans := false; is_child := false; log := [] |}.

(** The test has returned, without a message, and left no file and no open descriptor. *)
Definition clean (o : outcome unit) : bool :=
  match o with
  | Done _ v => bool_decide (fds v = {[ 0 := 0%nat; 1 := 0%nat; 2 := 0%nat ]}) && bool_decide (out 1 v = []) &&
      bool_decide (names v = {[ bytes_of "echo" := 1%nat; bytes_of "." := 2%nat ]})
  | _ => false
  end.

Lemma small_tests s nl1 d1 nl2 d2 : Forall (fun t => clean (run_in test_path 1100 t (small_world nl1 d1 nl2 d2)) = true) (tail (file_tests s)).
Proof. repeat (apply List.Forall_cons; [vm_compute; reflexivity|]). apply List.Forall_nil. Qed.

(** *** writebig *)

Section Writebig.
Context (nl1 : Z) (d1 : list Z) (nl2 : Z) (d2 : list Z).

(** The block writebig() writes in round [i], and what it has written before. *)
Definition block (i : nat) : list Z := le_bytes 4 (Z.of_nat i) ++ replicate 1020 0.

Definition blocks (i : nat) : list Z := concat (block <$> seq 0 i).

Lemma length_block i : length (block i) = 1024%nat.
Proof. unfold block. rewrite length_app, length_replicate. reflexivity. Qed.

Lemma blocks_S i : blocks (S i) = blocks i ++ block i.
Proof. unfold blocks. rewrite seq_S, fmap_app, concat_app. cbn [fmap list_fmap concat Nat.add]. by rewrite app_nil_r. Qed.

Lemma length_blocks i : length (blocks i) = (1024 * i)%nat.
Proof. induction i as [|i IH]; [by rewrite Nat.mul_0_r|]. rewrite blocks_S, length_app, IH, length_block. lia. Qed.

Lemma blocks_at i n : (i < n)%nat -> take 1024 (drop (1024 * i) (blocks n)) = block i.
Proof.
  intros Hi. replace n with (i + S (n - S i))%nat by lia. generalize (n - S i)%nat as m. intros m. induction m as [|m IH].
  - rewrite Nat.add_1_r, blocks_S. rewrite drop_app_length' by (by rewrite length_blocks). apply take_ge. by rewrite length_block.
  - rewrite Nat.add_succ_r, blocks_S. rewrite drop_app_le by (rewrite length_blocks; lia). rewrite take_app_le; [exact IH|].
    rewrite length_drop, length_blocks. lia.
Qed.

(** The small file system with the file big, of contents [data]. *)
Definition big_world (data : list Z) (tab : list handle) (t : gmap Z nat) (l : list event) : world := {|
  names := <[bytes_of "big" := 3%nat]> (names (small_world nl1 d1 nl2 d2));
  nodes := <[3%nat := Node T_FILE 1 data]> (nodes (small_world nl1 d1 nl2 d2));
  fds := t; ftab := tab; tty := []; children := []; room := 0; nextpid := 0; orphans := false; is_child := false; log := l |}.

Definition std3 : gmap Z nat := {[ 0 := 0%nat; 1 := 0%nat; 2 := 0%nat ]}.

Lemma open_big : answer choice0 (small_world nl1 d1 nl2 d2) (Open (bytes_of "big") (Z.lor O_CREATE O_RDWR)) =
  (3, big_world [] [Htty 0; Hfile 3 0 true true] (<[3 := 1%nat]> std3) []).
Proof. vm_compute. reflexivity. Qed.

Lemma opened_big d tab k l h : tab !! k = Some h -> opened 3 (big_world d tab (<[3 := k]> std3) l) = Some h.
Proof. intros H. unfold opened. cbn [fds ftab big_world]. by rewrite lookup_insert_eq. Qed.

Lemma nodes_big d tab t l : nodes (big_world d tab t l) !! 3%nat = Some (Node T_FILE 1 d).
Proof. apply lookup_insert_eq. Qed.

Lemma handle_big d tab k h l : set_handle 3 h (big_world d tab (<[3 := k]> std3) l) = big_world d (<[k := h]> tab) (<[3 := k]> std3) l.
Proof. unfold set_handle. cbn [fds ftab big_world]. by rewrite lookup_insert_eq. Qed.

Lemma splice_end off bs l : off = length l -> splice off bs l = l ++ bs.
Proof. intros ->. unfold splice. by rewrite take_ge, drop_ge, app_nil_r by lia. Qed.

Lemma write_big i l : (i < 268)%nat ->
  answer choice0 (big_world (blocks i) [Htty 0; Hfile 3 (1024 * i) true true] (<[3 := 1%nat]> std3) l) (Write 3 (block i)) =
  (1024, big_world (blocks (S i)) [Htty 0; Hfile 3 (1024 * S i) true true] (<[3 := 1%nat]> std3) (l ++ (Said 3 <$> block i))).
Proof.
  intros Hi. cbn [answer]. rewrite (opened_big _ _ 1 _ (Hfile 3 (1024 * i) true true)), nodes_big by done. unfold write_node. cbn [n_data n_type n_nlink choice0 pick].
  rewrite length_blocks, length_block, Nat.ltb_irrefl. cbn [andb Nat.eqb]. rewrite (proj2 (Z.ltb_ge _ _)) by (unfold MAXBYTES; lia). cbn [orb].
  rewrite length_block. f_equal. unfold set_nodes at 1. cbn [names nodes fds ftab tty children room nextpid orphans is_child log big_world].
  rewrite insert_insert_eq, splice_end by (by rewrite length_blocks). rewrite <- blocks_S.
  fold (big_world (blocks (S i)) [Htty 0; Hfile 3 (1024 * i) true true] (<[3 := 1%nat]> std3) l). rewrite handle_big.
  by replace (1024 * i + 1024)%nat with (1024 * S i)%nat by lia.
Qed.

(** Reading through the second open file. *)
Definition reading (h : handle) (off : nat) (l : list event) : world :=
  big_world (blocks 268) [Htty 0; h; Hfile 3 off true false] (<[3 := 2%nat]> std3) l.

Lemma read_big i h l : (i < 268)%nat ->
  answer choice0 (reading h (1024 * i) l) (Read 3 1024) = ((1024, block i), reading h (1024 * S i) l).
Proof.
  intros Hi. cbn [answer]. unfold reading. rewrite (opened_big _ _ 2 _ (Hfile 3 (1024 * i) true false)), nodes_big by done. cbn [from_option n_data].
  rewrite blocks_at, length_block, handle_big by done. by replace (1024 * i + 1024)%nat with (1024 * S i)%nat by lia.
Qed.

Lemma read_big_end h l : answer choice0 (reading h (1024 * 268) l) (Read 3 1024) = ((0, []), reading h (1024 * 268) l).
Proof.
  cbn [answer]. unfold reading. rewrite (opened_big _ _ 2 _ (Hfile 3 (1024 * 268) true false)), nodes_big by done. cbn [from_option n_data].
  rewrite drop_ge by (by rewrite length_blocks). rewrite take_nil, handle_big. cbn [length]. by rewrite Nat.add_0_r.
Qed.

(** The loops. *)
Lemma run_in_call P f {A X} (c : call X) (k : X -> prog A) v x v' : answer choice0 v c = (x, v') -> allowed P v c = true ->
  run_in P (S f) (bind (sys c) k) v = run_in P f (k x) v'.
Proof. intros E Ha. cbn [bind sys run_in]. by rewrite Ha, E. Qed.

Lemma run_in_loop P f {A St X} (body : St -> prog (St + X)) st (k : X -> prog A) v : 
  run_in P (S f) (Loop body st k) v = run_in P f (unroll body st k) v.
Proof. done. Qed.

Lemma put_block i buf : length buf = BUFSZ -> drop 4 buf = drop 4 buf0 ->
  take 1024 (put32 0 (Z.of_nat i) buf) = block i /\ length (put32 0 (Z.of_nat i) buf) = BUFSZ /\ drop 4 (put32 0 (Z.of_nat i) buf) = drop 4 buf0.
Proof.
  intros Hl Hd. unfold put32, splice, block. assert (Hx : length (le_bytes 4 (Z.of_nat i)) = 4%nat) by reflexivity.
  generalize dependent (le_bytes 4 (Z.of_nat i)). intros x Hx. rewrite take_0, Hx, Nat.add_0_l, Hd. unfold buf0. rewrite drop_replicate, app_nil_l. split_and!.
  - rewrite take_app, Hx, take_ge by lia. by rewrite take_replicate.
  - rewrite length_app, length_replicate, Hx. reflexivity.
  - by rewrite drop_app_length'.
Qed.

Definition writing (i : nat) (l : list event) : world :=
  big_world (blocks i) [Htty 0; Hfile 3 (1024 * i) true true] (<[3 := 1%nat]> std3) l.

Lemma big_writes s P f (k : list Z -> prog unit) j : forall i buf l, (i + j = 268)%nat -> length buf = BUFSZ -> drop 4 buf = drop 4 buf0 ->
  exists l' buf', Forall (fun e => exists c, e = Said 3 c) l' /\
    run_in P (S (2 * j + f)) (Loop (writes_round s 3) (Z.of_nat i, buf) k) (writing i l) = run_in P f (k buf') (writing 268 (l ++ l')).
Proof.
  induction j as [|j IH]; intros i buf l Hij Hl Hd.
  - assert (i = 268%nat) as -> by lia. exists [], buf. split; [done|]. by rewrite app_nil_r.
  - destruct (put_block i buf Hl Hd) as (Hb & Hl' & Hd').
    destruct (IH (S i) (put32 0 (Z.of_nat i) buf) (l ++ (Said 3 <$> block i))) as (l' & buf' & Hf & Hr); [lia|done|done|].
    exists ((Said 3 <$> block i) ++ l'), buf'. split; [apply Forall_app; split; [apply Forall_fmap, Forall_true; by eexists|done]|].
    replace (S (2 * S j + f)) with (S (S (S (2 * j + f)))) by lia. rewrite run_in_loop. unfold unroll, writes_round at 1.
    rewrite (proj2 (Z.leb_gt _ _)) by lia. cbv zeta. rewrite prog_bind_assoc, Hb.
    erewrite run_in_call; [|apply write_big; lia|].
    + rewrite app_assoc, <- Hr. by replace (Z.of_nat i + 1) with (Z.of_nat (S i)) by lia.
    + cbn [allowed]. unfold writing. rewrite (opened_big _ _ 1 _ (Hfile 3 (1024 * i) true true)) by done.
      apply Z.leb_le. rewrite length_block. unfold MAXBYTES. lia.
Qed.

Lemma get_block i buf : (i < 268)%nat -> s32 (get32 (splice 0 (block i) buf) 0) = Z.of_nat i.
Proof.
  intros Hi. unfold get32, sub_bytes, splice, block. rewrite take_0, drop_0, app_nil_l, <- !app_assoc.
  rewrite take_app_length' by done. rewrite le_value_bytes. rewrite Z.mod_small by lia. apply s32_small. lia.
Qed.

Lemma big_reads s P f (k : unit -> prog unit) h l j : forall i buf, (i + j = 268)%nat ->
  run_in P (S (S (2 * j + f))) (Loop (reads_round s 3) (Z.of_nat i, buf) k) (reading h (1024 * i) l) = run_in P f (k tt) (reading h (1024 * 268) l).
Proof.
  assert (Ha : forall off, allowed P (reading h off l) (Read 3 1024) = true).
  { intros off. cbn [allowed]. unfold reading. by rewrite (opened_big _ _ 2 _ (Hfile 3 off true false)). }
  induction j as [|j IH]; intros i buf Hij; rewrite run_in_loop; unfold unroll, reads_round at 1; rewrite prog_bind_assoc.
  - assert (i = 268%nat) as -> by lia. by rewrite (run_in_call _ _ _ _ _ _ _ (read_big_end h l) (Ha _)).
  - rewrite (run_in_call _ _ _ _ _ _ _ (read_big i h l ltac:(lia)) (Ha _)). cbv zeta iota beta. change (1024 =? 0) with false. change (negb (1024 =? 1024)) with false.
    cbv iota. rewrite get_block, Z.eqb_refl by lia. cbn [negb bind].
    replace (2 * S j + f)%nat with (S (S (2 * j + f))) by lia. replace (Z.of_nat i + 1) with (Z.of_nat (S i)) by lia. apply IH. lia.
Qed.

Lemma close_big d tab k l : answer choice0 (big_world d tab (<[3 := k]> std3) l) (Close 3) = (0, big_world d tab std3 l).
Proof.
  cbn [answer]. cbn [fds big_world]. rewrite lookup_insert_eq. unfold set_fds, big_world. cbn [names nodes fds ftab tty children room nextpid orphans is_child log].
  by rewrite delete_insert_id.
Qed.

Lemma reopen_big d a b l : answer choice0 (big_world d [a; b] std3 l) (Open (bytes_of "big") O_RDONLY) =
  (3, big_world d [a; b; Hfile 3 0 true false] (<[3 := 2%nat]> std3) l).
Proof.
  change O_RDONLY with 0. rewrite (open_read_run _ 3 (Node T_FILE 1 d) 3); [done|apply lookup_insert_eq|apply nodes_big|reflexivity].
Qed.

Lemma unlink_big d tab t l : exists nd, answer choice0 (big_world d tab t l) (Unlink (bytes_of "big")) =
  (0, World (names (small_world nl1 d1 nl2 d2)) nd t tab [] [] 0 0 false false (l ++ [Did (Unlink (bytes_of "big")) 0])).
Proof.
  cbn [answer]. cbn [names big_world]. rewrite lookup_insert_eq. cbn [choice0 pick Nat.eqb]. unfold did, add_nlink, set_nodes, set_names, logged.
  cbn [names nodes fds ftab tty children room nextpid orphans is_child log big_world]. rewrite delete_insert_id by reflexivity. by eexists.
Qed.

Lemma big_clean s : clean (run_in test_path 1100 (writebig s) (small_world nl1 d1 nl2 d2)) = true.
Proof.
  assert (Hp : test_path (bytes_of "big") = true) by (vm_compute; reflexivity). generalize dependent test_path. intros P Hp.
  unfold writebig. cbv zeta. rewrite (run_in_call P 1099 _ _ _ _ _ open_big Hp). change (3 <? 0) with false. cbv iota.
  match goal with |- context [bind (loop _ _) ?k] => destruct (big_writes s P 562 (fun x => bind (Ret x) k) 268 0 buf0 []) as (l' & buf' & Hl & Hr); [done..|] end.
  etransitivity; [apply (f_equal clean); exact Hr|]. clear Hr. cbn [bind app]. unfold writing.
  rewrite (run_in_call P 561 _ _ _ _ _ (close_big _ _ _ _) eq_refl), (run_in_call P 560 _ _ _ _ _ (reopen_big _ _ _ _) Hp).
  change (3 <? 0) with false. cbv iota.
  match goal with |- context [bind (loop _ _) ?k] => pose proof (big_reads s P 22 (fun x => bind (Ret x) k) (Hfile 3 (1024 * 268) true true) l' 268 0 buf' eq_refl) as Hr end.
  etransitivity; [apply (f_equal clean); exact Hr|]. clear Hr. cbn [bind]. unfold reading. rewrite (run_in_call P 21 _ _ _ _ _ (close_big _ _ _ _) eq_refl).
  destruct (unlink_big (blocks 268) [Htty 0; Hfile 3 (1024 * 268) true true; Hfile 3 (1024 * 268) true false] std3 l') as [nd Hu].
  rewrite (run_in_call P 20 _ _ _ _ _ Hu Hp). change (0 <? 0) with false. cbv iota. cbn [run_in clean fds names].
  rewrite !bool_decide_eq_true_2; [done|done| |done]. unfold out. cbn [log]. rewrite omap_app. cbn. rewrite app_nil_r.
  clear Hu. induction Hl as [|e l'' [c ->] _ IH]; [done|]. cbn. exact IH.
Qed.
End Writebig.

(** *** Every file system *)

Section Pass.
Context (w : world) (f i i1 i2 : nat) (nl1 nl2 : Z) (d1 d2 : list Z).
Context (Hfds : fds w = {[ 0 := f; 1 := f; 2 := f ]}) (Hcons : ftab w !! f = Some (Htty i)).
Context (Hecho : names w !! bytes_of "echo" = Some i1) (Hprog : nodes w !! i1 = Some (Node T_FILE nl1 d1)).
Context (Hdot : names w !! bytes_of "." = Some i2) (Hdir : nodes w !! i2 = Some (Node T_DIR nl2 d2)).
Context (Hnone : forall p, test_file p = true -> names w !! p = None).

Lemma test_file_new p : test_file p = true -> names (small_world nl1 d1 nl2 d2) !! p = None.
Proof using.
  intros Hp. cbn [names small_world]. rewrite lookup_insert_None, lookup_singleton_None. split; intros <-; vm_compute in Hp; discriminate Hp.
Qed.

Lemma small_framed : frame test_path (log w) (small_world nl1 d1 nl2 d2) w.
Proof using Hfds Hcons Hecho Hprog Hdot Hdir Hnone.
  exists (fun k => match k with 1%nat => i1 | _ => i2 end), (fun _ => f).
  assert (Hn : forall k, is_Some (nodes (small_world nl1 d1 nl2 d2) !! k) -> k = 1%nat \/ k = 2%nat).
  { intros k [x Hx]. cbn [nodes small_world] in Hx. apply lookup_insert_Some in Hx as [[<- _]|[_ Hx]]; [by left|]. apply lookup_singleton_Some in Hx as [<- _]. by right. }
  assert (Hne : i1 <> i2) by (unfold T_FILE, T_DIR in *; congruence).
  split.
  - intros p Hp. unfold test_path in Hp. rewrite !orb_true_iff, !bool_decide_eq_true in Hp. destruct Hp as [[Hp| ->]| ->].
    + by rewrite Hnone, test_file_new.
    + rewrite Hecho. reflexivity.
    + rewrite Hdot. reflexivity.
  - intros p k _. cbn [names nodes small_world]. intros [[_ <-]|[_ [_ <-]%lookup_singleton_Some]]%lookup_insert_Some; [|rewrite lookup_insert_ne by done]; by eexists.
  - intros k nd Hk. destruct (Hn k (mk_is_Some _ _ Hk)) as [-> | ->]; cbn [nodes small_world] in Hk.
    + rewrite lookup_insert_eq in Hk. by injection Hk as <-.
    + rewrite lookup_insert_ne, lookup_singleton_eq in Hk by done. by injection Hk as <-.
  - intros k k' [-> | ->]%Hn [-> | ->]%Hn E; [done|by destruct Hne|by destruct Hne|done].
  - intros fd. rewrite Hfds. cbn [fds small_world]. destruct (decide (fd = 0)) as [->|H0]; [done|]. rewrite !(lookup_insert_ne _ 0) by done.
    destruct (decide (fd = 1)) as [->|H1]; [done|]. rewrite !(lookup_insert_ne _ 1) by done.
    destruct (decide (fd = 2)) as [->|H2]; [done|]. by rewrite !lookup_singleton_ne by done.
  - intros fd k. cbn [fds ftab small_world]. intros Hk. assert (k = 0%nat) as ->; [|by eexists].
    apply lookup_insert_Some in Hk as [[_ <-]|[_ [[_ <-]|[_ [_ <-]%lookup_singleton_Some]]%lookup_insert_Some]]; done.
  - intros k h Hk. cbn [ftab small_world] in Hk. apply list_lookup_singleton_Some in Hk as [-> <-]. exists (Htty i). split; [done|constructor].
  - intros k j off rd wr Hk. cbn [ftab small_world] in Hk. by apply list_lookup_singleton_Some in Hk as [_ ?].
  - intros k k' [x Hx] [y Hy] _. cbn [ftab small_world] in Hx, Hy. apply list_lookup_singleton_Some in Hx as [-> _], Hy as [-> _]. done.
  - by rewrite app_nil_r.
Qed.

Lemma passes t o : clean (run_in test_path 1100 t (small_world nl1 d1 nl2 d2)) = true -> Forall plenty o ->
  exists w', run 1100 o t w = Done tt w' /\ dom (fds w') = dom (fds w) /\ out 1 w' = out 1 w /\ forall p, test_file p = true -> names w' !! p = None.
Proof using Hfds Hcons Hecho Hprog Hdot Hdir Hnone.
  intros Hc Ho. pose proof (run_frame test_path (log w) 1100 t o _ _ small_framed Ho) as Hr.
  destruct (run_in test_path 1100 t _) as [[] v| | |]; try done. destruct Hr as (w' & Hr & σ & τ & F). unfold clean in Hc.
  rewrite !andb_true_iff, !bool_decide_eq_true in Hc. destruct Hc as [[Hv Hout] Hnm]. exists w'. split; [done|]. split_and!.
  - apply set_eq. intros fd. rewrite !elem_of_dom, (fr_fds _ _ _ _ _ _ F), fmap_is_Some, <- !elem_of_dom, Hv, Hfds. by rewrite !dom_insert_L, !dom_singleton_L.
  - unfold out in *. by rewrite (fr_log _ _ _ _ _ _ F), omap_app, Hout, app_nil_r.
  - intros p Hp. rewrite (fr_names _ _ _ _ _ _ F) by (unfold test_path; by rewrite Hp). rewrite Hnm. pose proof (test_file_new p Hp) as H. cbn [names small_world] in H. by rewrite H.
Qed.
End Pass.


(** The root directory of a new disk, and two choices of the kernel. *)
Definition new_disk : world := {|
  names := {[ bytes_of "echo" := 7%nat; bytes_of "." := 1%nat; bytes_of "README" := 2%nat ]};
  nodes := {[ 7%nat := Node T_FILE 1 [127; 69]; 1%nat := Node T_DIR 1 []; 2%nat := Node T_FILE 1 [120] ]};
  fds := {[ 0 := 4%nat; 1 := 4%nat; 2 := 4%nat ]}; ftab := replicate 5 (Htty 3); tty := []; children := [];
  room := 60; nextpid := 5; orphans := false; is_child := true; log := [] |}.

