(* ===== verification/Sh.v ===== *)
(** * The shell's parser: user/sh.c

    While the command line is being parsed it does not change, so a pointer into
    it is the suffix it points to, which ends at [es].  A string of a parsed
    command is the pair of pointers that the code stores, [argv] and [eargv];
    nulterminate() then writes the NULs into the buffer.  The parser is proved to
    accept every way of spelling a command of the grammar, and the strings of the
    result, read from the buffer after nulterminate(), to be its words. *)

From S2P Require Import Prelude Cstring.

Definition MAXARGS : nat := 10.

(** ** Commands *)

(** The five kinds of struct cmd, with strings of type [W]. *)
Inductive cmd (W : Type) :=
| EXEC (argv : list W)
| REDIR (c : cmd W) (file : W) (mode fd : Z)
| PIPE (left right : cmd W)
| LIST (left right : cmd W)
| BACK (c : cmd W).
Arguments EXEC {W} argv.
Arguments REDIR {W} c file mode fd.
Arguments PIPE {W} left right.
Arguments LIST {W} left right.
Arguments BACK {W} c.

Fixpoint cmd_map {V W} (f : V -> W) (c : cmd V) : cmd W :=
  match c with
  | EXEC argv => EXEC (f <$> argv)
  | REDIR c file mode fd => REDIR (cmd_map f c) (f file) mode fd
  | PIPE l r => PIPE (cmd_map f l) (cmd_map f r)
  | LIST l r => LIST (cmd_map f l) (cmd_map f r)
  | BACK c => BACK (cmd_map f c)
  end.

Fixpoint cmd_words {W} (c : cmd W) : list W :=
  match c with
  | EXEC argv => argv
  | REDIR c file _ _ => cmd_words c ++ [file]
  | PIPE l r | LIST l r => cmd_words l ++ cmd_words r
  | BACK c => cmd_words c
  end.

Definition O_RDONLY : Z := 0x000.
Definition O_WRONLY : Z := 0x001.
Definition O_CREATE : Z := 0x200.
Definition O_TRUNC : Z := 0x400.

(** ** Tokens *)

Definition whitespace : list Z := [32; 9; 13; 10; 11].
Definition symbols : list Z := bytes_of "<|>&;()".

Definition is_in (set : list Z) (c : Z) : bool := bool_decide (c ∈ set).
Definition is_ws : Z -> bool := is_in whitespace.
Definition is_word (c : Z) : bool := negb (is_ws c) && negb (is_in symbols c).

Fixpoint skip (f : Z -> bool) (s : list Z) : list Z :=
  match s with
  | [] => []
  | c :: rest => if f c then skip f rest else s
  end.

(** The token, its start and end, and the place after the white space that
    follows. *)
Definition gettoken (s : list Z) : Z * list Z * list Z * list Z :=
  let q := skip is_ws s in
  match q with
  | [] => (0, q, q, q)
  | c :: s1 =>
      if is_in (bytes_of "|();&<") c then (c, q, s1, skip is_ws s1)
      else if c =? 62 then
        match s1 with
        | d :: s2 => if d =? 62 then (43, q, s2, skip is_ws s2) else (c, q, s1, skip is_ws s1)
        | [] => (c, q, s1, s1)
        end
      else let e := skip is_word q in (97, q, e, skip is_ws e)
  end.

(** The place after white space, and whether one of [toks] is there. *)
Definition peek (s : list Z) (toks : string) : list Z * bool :=
  let s := skip is_ws s in
  (s, match s with [] => false | c :: _ => is_in (bytes_of toks) c end).

(** ** The parser *)

(** panic() prints the message and exits, and so does parsecmd() when part of
    the line is left over; [NoFuel] is not an outcome of the code. *)
Inductive res (A : Type) := Ok (a : A) | Panic (msg : string) | Leftovers (s : list Z) | NoFuel.
Arguments Ok {A} a.
Arguments Panic {A} msg.
Arguments Leftovers {A} s.
Arguments NoFuel {A}.

Definition res_bind {A B} (m : res A) (k : A -> res B) : res B :=
  match m with Ok a => k a | Panic msg => Panic msg | Leftovers s => Leftovers s | NoFuel => NoFuel end.

Declare Scope sh_scope.
Notation "' p <-- m ; k" := (res_bind m (fun x => match x with p => k end))
  (at level 20, p pattern, m at level 100, k at level 200) : sh_scope.
Open Scope sh_scope.

(** A string of the command line: where it starts and where it ends. *)
Definition span : Type := list Z * list Z.

Definition redir_mode (tok : Z) : Z * Z :=
  if tok =? 60 then (O_RDONLY, 0)
  else if tok =? 62 then (Z.lor (Z.lor O_WRONLY O_CREATE) O_TRUNC, 1)
  else (Z.lor O_WRONLY O_CREATE, 1).

(** The redirections at [s], in the order in which they wrap the command. *)
Fixpoint parseredirs (fuel : nat) (s : list Z) : res (list (span * Z * Z) * list Z) :=
  match fuel with
  | O => NoFuel
  | S fuel =>
      let '(s, b) := peek s "<>" in
      if b then
        let '(tok, _, _, s) := gettoken s in
        let '(t2, q, eq, s) := gettoken s in
        if negb (t2 =? 97) then Panic "missing file for redirection" else
        let '(mode, fd) := redir_mode tok in
        '(rs, s) <-- parseredirs fuel s;
        Ok (((q, eq), mode, fd) :: rs, s)
      else Ok ([], s)
  end.

Definition wrap {W} (c : cmd W) (rs : list (W * Z * Z)) : cmd W :=
  fold_left (fun c r => REDIR c r.1.1 r.1.2 r.2) rs c.

(** The loop of parseexec() over the arguments: the arguments stored in the
    command, the redirections around it. *)
Fixpoint parseargs (fuel : nat) (args : list span) (rs : list (span * Z * Z)) (s : list Z) :
    res (list span * list (span * Z * Z) * list Z) :=
  match fuel with
  | O => NoFuel
  | S fuel =>
      let '(s, b) := peek s "|)&;" in
      if b then Ok (args, rs, s) else
      let '(tok, q, eq, s) := gettoken s in
      if tok =? 0 then Ok (args, rs, s) else
      if negb (tok =? 97) then Panic "syntax" else
      let args := args ++ [(q, eq)] in
      if (MAXARGS <=? length args)%nat then Panic "too many args" else
      '(rs', s) <-- parseredirs (S (length s)) s;
      parseargs fuel args (rs ++ rs') s
  end.

(** [while(peek(ps, es, "&")) cmd = backcmd(cmd)] *)
Fixpoint parseback (fuel : nat) (c : cmd span) (s : list Z) : res (cmd span * list Z) :=
  match fuel with
  | O => NoFuel
  | S fuel =>
      let '(s, b) := peek s "&" in
      if b then let '(_, _, _, s) := gettoken s in parseback fuel (BACK c) s
      else Ok (c, s)
  end.

Fixpoint parseline (fuel : nat) (s : list Z) : res (cmd span * list Z) :=
  match fuel with
  | O => NoFuel
  | S fuel =>
      '(c, s) <-- parsepipe fuel s;
      '(c, s) <-- parseback (S (length s)) c s;
      let '(s, b) := peek s ";" in
      if b then
        let '(_, _, _, s) := gettoken s in
        '(r, s) <-- parseline fuel s;
        Ok (LIST c r, s)
      else Ok (c, s)
  end
with parsepipe (fuel : nat) (s : list Z) : res (cmd span * list Z) :=
  match fuel with
  | O => NoFuel
  | S fuel =>
      '(c, s) <-- parseexec fuel s;
      let '(s, b) := peek s "|" in
      if b then
        let '(_, _, _, s) := gettoken s in
        '(r, s) <-- parsepipe fuel s;
        Ok (PIPE c r, s)
      else Ok (c, s)
  end
with parseexec (fuel : nat) (s : list Z) : res (cmd span * list Z) :=
  match fuel with
  | O => NoFuel
  | S fuel =>
      let '(s, b) := peek s "(" in
      if b then parseblock fuel s else
      '(rs, s) <-- parseredirs (S (length s)) s;
      '(args, rs, s) <-- parseargs (S (length s)) [] rs s;
      Ok (wrap (EXEC args) rs, s)
  end
with parseblock (fuel : nat) (s : list Z) : res (cmd span * list Z) :=
  match fuel with
  | O => NoFuel
  | S fuel =>
      let '(s, b) := peek s "(" in
      if negb b then Panic "parseblock" else
      let '(_, _, _, s) := gettoken s in
      '(c, s) <-- parseline fuel s;
      let '(s, b) := peek s ")" in
      if negb b then Panic "syntax - missing )" else
      let '(_, _, _, s) := gettoken s in
      '(rs, s) <-- parseredirs (S (length s)) s;
      Ok (wrap c rs, s)
  end.

(** The bytes of the buffer overwritten by nulterminate(): the ends of the
    strings of the command, in the order of its traversal. *)
Definition terminate (n : nat) (buf : list Z) (w : span) : list Z := <[(n - length w.2)%nat := 0]> buf.

Fixpoint nulterminate (n : nat) (c : cmd span) (buf : list Z) : list Z :=
  match c with
  | EXEC argv => fold_left (terminate n) argv buf
  | REDIR c file _ _ => terminate n (nulterminate n c buf) file
  | PIPE l r | LIST l r => nulterminate n r (nulterminate n l buf)
  | BACK c => nulterminate n c buf
  end.

(** parsecmd(buf): the command, and the buffer after nulterminate(). *)
Definition parsecmd (buf : list Z) : res (cmd span * list Z) :=
  let s := cstr buf in
  '(c, s') <-- parseline (4 * length s + 4) s;
  let '(s', _) := peek s' "" in
  match s' with
  | [] => Ok (c, nulterminate (length s) c buf)
  | _ :: _ => Leftovers s'
  end.

(** The string of a command as the program reads it: from where it starts in
    the buffer to the first NUL. *)
Definition read_word (n : nat) (buf : list Z) (w : span) : list Z := cstr (drop (n - length w.1) buf).

(** ** The grammar *)

Inductive tok := Word (w : list Z) | Sym (c : Z) | App.

Inductive rkind := In | Out | Append.

Inductive item := Arg (w : list Z) | Rdr (k : rkind) (w : list Z).

(** A command line: pipelines, each followed by some '&', separated by ';'. *)
Inductive line :=
| Last (p : pipeline) (n : nat)
| Seq (p : pipeline) (n : nat) (l : line)
with pipeline :=
| Stage (e : stage)
| Piped (e : stage) (p : pipeline)
with stage :=
| Simple (items : list item)
| Block (l : line) (rs : list (rkind * list Z)).

Scheme line_rect2 := Induction for line Sort Prop
with pipeline_rect2 := Induction for pipeline Sort Prop
with stage_rect2 := Induction for stage Sort Prop.
Combined Scheme line_mutind from line_rect2, pipeline_rect2, stage_rect2.

(** What a command line means. *)
Definition redir_of (r : rkind * list Z) : list Z * Z * Z :=
  match r.1 with
  | In => (r.2, O_RDONLY, 0)
  | Out => (r.2, Z.lor (Z.lor O_WRONLY O_CREATE) O_TRUNC, 1)
  | Append => (r.2, Z.lor O_WRONLY O_CREATE, 1)
  end.

Definition args_of (its : list item) : list (list Z) :=
  omap (fun i => match i with Arg w => Some w | Rdr _ _ => None end) its.

Definition redirs_of (its : list item) : list (rkind * list Z) :=
  omap (fun i => match i with Arg _ => None | Rdr k w => Some (k, w) end) its.

Fixpoint line_cmd (l : line) : cmd (list Z) :=
  match l with
  | Last p n => Nat.iter n BACK (pipe_cmd p)
  | Seq p n l => LIST (Nat.iter n BACK (pipe_cmd p)) (line_cmd l)
  end
with pipe_cmd (p : pipeline) : cmd (list Z) :=
  match p with
  | Stage e => stage_cmd e
  | Piped e p => PIPE (stage_cmd e) (pipe_cmd p)
  end
with stage_cmd (e : stage) : cmd (list Z) :=
  match e with
  | Simple its => wrap (EXEC (args_of its)) (redir_of <$> redirs_of its)
  | Block l rs => wrap (line_cmd l) (redir_of <$> rs)
  end.

(** How it is written. *)
Definition redir_toks (r : rkind * list Z) : list tok :=
  [match r.1 with In => Sym 60 | Out => Sym 62 | Append => App end; Word r.2].

Definition item_toks (i : item) : list tok :=
  match i with Arg w => [Word w] | Rdr k w => redir_toks (k, w) end.

Fixpoint items_toks (its : list item) : list tok :=
  match its with [] => [] | i :: its => item_toks i ++ items_toks its end.

Fixpoint redirs_toks (rs : list (rkind * list Z)) : list tok :=
  match rs with [] => [] | r :: rs => redir_toks r ++ redirs_toks rs end.

Fixpoint line_toks (l : line) : list tok :=
  match l with
  | Last p n => pipe_toks p ++ replicate n (Sym 38)
  | Seq p n l => pipe_toks p ++ replicate n (Sym 38) ++ Sym 59 :: line_toks l
  end
with pipe_toks (p : pipeline) : list tok :=
  match p with
  | Stage e => stage_toks e
  | Piped e p => stage_toks e ++ Sym 124 :: pipe_toks p
  end
with stage_toks (e : stage) : list tok :=
  match e with
  | Simple its => items_toks its
  | Block l rs => Sym 40 :: line_toks l ++ Sym 41 :: redirs_toks rs
  end.

(** At most nine arguments each. *)
Fixpoint line_ok (l : line) : Prop :=
  match l with
  | Last p _ => pipe_ok p
  | Seq p _ l => pipe_ok p /\ line_ok l
  end
with pipe_ok (p : pipeline) : Prop :=
  match p with
  | Stage e => stage_ok e
  | Piped e p => stage_ok e /\ pipe_ok p
  end
with stage_ok (e : stage) : Prop :=
  match e with
  | Simple its => (length (args_of its) < MAXARGS)%nat
  | Block l _ => line_ok l
  end.

Definition tok_bytes (t : tok) : list Z :=
  match t with Word w => w | Sym c => [c] | App => [62; 62] end.

Definition starts_with (f : Z -> bool) (s : list Z) : bool :=
  match s with [] => false | c :: _ => f c end.

(** A token may be followed directly by [rest]. *)
Definition tok_ok (t : tok) (rest : list Z) : Prop :=
  match t with
  | Word w => w <> [] /\ Forall (fun c => is_word c = true) w /\ starts_with is_word rest = false
  | Sym c => is_in symbols c = true /\ (c = 62 -> starts_with (fun d => d =? 62) rest = false)
  | App => True
  end.

(** [s] spells the tokens, with white space around them. *)
Inductive spells : list tok -> list Z -> Prop :=
| spells_end w : Forall (fun c => is_ws c = true) w -> spells [] w
| spells_tok w t ts rest :
    Forall (fun c => is_ws c = true) w -> tok_ok t rest -> spells ts rest ->
    spells (t :: ts) (w ++ tok_bytes t ++ rest).

(** ** Tokens are read as they are spelled *)

Lemma skip_all f w rest :
  Forall (fun c => f c = true) w -> starts_with f rest = false -> skip f (w ++ rest) = rest.
Proof.
  intros Hw Hr. induction Hw as [|c w Hc Hw IH]; cbn.
  - destruct rest as [|c rest]; [done|]. cbn in *. by rewrite Hr.
  - by rewrite Hc.
Qed.

Lemma ws_symbol c : is_in symbols c = true -> is_ws c = false /\ is_word c = false.
Proof.
  unfold is_word. intros Hc. rewrite Hc. split; [|by rewrite andb_false_r].
  unfold is_in in Hc. apply bool_decide_eq_true in Hc.
  assert (Forall (fun c => is_ws c = false) symbols) as Hall by (repeat constructor).
  rewrite Forall_forall in Hall. by apply (Hall c Hc).
Qed.

Lemma word_ws c : is_word c = true -> is_ws c = false /\ is_in symbols c = false.
Proof. unfold is_word. rewrite andb_true_iff, !negb_true_iff. done. Qed.

(** The first byte of a token. *)
Lemma tok_head t rest : tok_ok t rest ->
  exists c l, tok_bytes t = c :: l /\ is_ws c = false /\
    match t with Word _ => is_word c = true | Sym d => c = d | App => c = 62 end.
Proof.
  destruct t as [w|c|]; cbn.
  - intros (Hne & Hw & _). destruct w as [|c w]; [done|]. apply Forall_cons in Hw as [Hc _].
    exists c, w. split; [done|]. split; [by apply word_ws|done].
  - intros [Hc _]. exists c, []. split; [done|]. by split; [apply ws_symbol|].
  - intros _. by exists 62, [62].
Qed.

Lemma skip_token w t rest :
  Forall (fun c => is_ws c = true) w -> tok_ok t rest -> skip is_ws (w ++ tok_bytes t ++ rest) = tok_bytes t ++ rest.
Proof.
  intros Hw Ht. apply skip_all; [done|]. destruct (tok_head t rest Ht) as (c & l & -> & Hc & _). done.
Qed.

Lemma skip_end w : Forall (fun c => is_ws c = true) w -> skip is_ws w = [].
Proof. intros Hw. rewrite <- (app_nil_r w). by apply skip_all. Qed.

Lemma spells_skip ts s : spells ts s -> spells ts (skip is_ws s).
Proof.
  intros [w Hw|w t ts' rest Hw Ht Hs].
  - rewrite skip_end by done. by constructor.
  - rewrite skip_token by done. by apply (spells_tok []).
Qed.

(** The text of a span. *)
Definition text (w : span) : list Z := take (length w.1 - length w.2) w.1.

Definition code (t : tok) : Z := match t with Word _ => 97 | Sym c => c | App => 43 end.

(** The outcome of gettoken() at a spelled token. *)
Record token_at (t : tok) (ts : list tok) (s q eq s' : list Z) : Prop := {
  ta_run : gettoken s = (code t, q, eq, s');
  ta_rest : spells ts s';
  ta_short : (length s' < length s)%nat;
  ta_suffix : s' `suffix_of` s;
  ta_start : q `suffix_of` s;
  ta_bytes : q = tok_bytes t ++ eq;
  ta_ok : tok_ok t eq;
}.

Lemma skip_suffix f s : skip f s `suffix_of` s /\ (length (skip f s) <= length s)%nat.
Proof.
  induction s as [|c s [IH1 IH2]]; cbn; [done|]. destruct (f c); [|done]. split; [|lia]. by apply suffix_cons_r.
Qed.

Lemma symbol_cases c : is_in symbols c = true -> c = 62 \/ is_in (bytes_of "|();&<") c = true /\ c <> 62.
Proof.
  unfold is_in. rewrite !bool_decide_eq_true. unfold symbols. cbn. rewrite !elem_of_cons.
  intros Hc. destruct (decide (c = 62)) as [|Hn]; [by left|]. right. split; [tauto|done].
Qed.

Lemma word_symbols c toks : is_word c = true -> Forall (fun x => is_in symbols x = true) (bytes_of toks) ->
  is_in (bytes_of toks) c = false.
Proof.
  intros [_ Hc]%word_ws Hall. unfold is_in in *. apply bool_decide_eq_false. intros Hin.
  rewrite Forall_forall in Hall. specialize (Hall c Hin). congruence.
Qed.

Lemma gettoken_spells t ts s : spells (t :: ts) s -> exists q eq s', token_at t ts s q eq s'.
Proof.
  inversion 1 as [|w t' ts' rest Hw Ht Hs]; subst.
  exists (tok_bytes t ++ rest), rest, (skip is_ws rest).
  assert (Hr : gettoken (w ++ tok_bytes t ++ rest) = (code t, tok_bytes t ++ rest, rest, skip is_ws rest)).
  { unfold gettoken. rewrite skip_token by done. destruct t as [x|c|]; cbn [tok_bytes code] in *.
    - destruct Ht as (Hne & Hx & Hr). destruct x as [|c x]; [done|]. cbn [app].
      pose proof Hx as [Hc _]%Forall_cons. rewrite word_symbols by first [done | by repeat constructor].
      rewrite (proj2 (Z.eqb_neq c 62)) by (intros ->; done). change (c :: x ++ rest) with ((c :: x) ++ rest).
      by rewrite skip_all.
    - destruct Ht as [Hc H62]. cbn [app]. destruct (symbol_cases c Hc) as [->|[Hin Hn]]; [|by rewrite Hin].
      destruct rest as [|d rest]; [done|]. specialize (H62 eq_refl). cbn in H62. cbn. by rewrite H62.
    - done. }
  destruct (skip_suffix is_ws rest) as [Hs1 Hs2]. split; try done.
  - by apply spells_skip.
  - destruct (tok_head t rest Ht) as (c & l & -> & _). rewrite !length_app. cbn. lia.
  - apply suffix_app_r. by apply suffix_app_r.
  - by apply suffix_app_r.
Qed.

Lemma peek_spells_end s toks : spells [] s -> peek s toks = (skip is_ws s, false).
Proof. inversion 1; subst. unfold peek. by rewrite skip_end. Qed.

Lemma peek_spells t ts s toks : spells (t :: ts) s ->
  Forall (fun x => is_in symbols x = true) (bytes_of toks) ->
  peek s toks = (skip is_ws s, match t with Word _ => false | Sym c => is_in (bytes_of toks) c | App => is_in (bytes_of toks) 62 end).
Proof.
  inversion 1 as [|w t' ts' rest Hw Ht Hs]; subst. intros Hall. unfold peek. rewrite skip_token by done.
  destruct (tok_head t rest Ht) as (c & l & -> & _ & Hc). cbn [app]. destruct t; subst; try done.
  by rewrite word_symbols.
Qed.

(** ** The parser on spelled commands *)

(** A span that can be terminated: a word, with no word byte after it. *)
Definition span_ok (s0 : list Z) (w : span) : Prop :=
  w.1 `suffix_of` s0 /\
  exists b, w.1 = b ++ w.2 /\ Forall (fun c => is_word c = true) b /\ starts_with is_word w.2 = false.

Lemma token_span s0 s w ts q eq s' :
  token_at (Word w) ts s q eq s' -> s `suffix_of` s0 -> span_ok s0 (q, eq) /\ text (q, eq) = w.
Proof.
  intros [_ _ _ _ Hq -> (Hne & Hw & Hr)] Hs. split.
  - split; [by etransitivity|]. by exists w.
  - unfold text. cbn. rewrite length_app, Nat.add_sub. apply take_app_length.
Qed.

Section Parse.
Context (s0 : list Z).

(** What is left of the command line. *)
Definition left_at (s s' : list Z) (ts : list tok) : Prop :=
  spells ts s' /\ s' `suffix_of` s0 /\ (length s' <= length s)%nat.

Lemma left_peek s ts : spells ts s -> s `suffix_of` s0 -> left_at s (skip is_ws s) ts.
Proof.
  intros Hs Hsuf. destruct (skip_suffix is_ws s). split; [by apply spells_skip|]. split; [by etransitivity|done].
Qed.

Lemma left_trans s s1 s2 ts1 ts2 : left_at s s1 ts1 -> left_at s1 s2 ts2 -> left_at s s2 ts2.
Proof. intros (_ & _ & ?) (? & ? & ?). split; [done|]. split; [done|lia]. Qed.

Definition no_redir (ts : list tok) : Prop :=
  match ts with Sym c :: _ => c <> 60 /\ c <> 62 | App :: _ => False | _ => True end.

Definition redir_text (r : span * Z * Z) : list Z * Z * Z := (text r.1.1, r.1.2, r.2).

Lemma parseredirs_spells rs : forall fuel s ts,
  spells (redirs_toks rs ++ ts) s -> s `suffix_of` s0 -> no_redir ts -> (length rs < fuel)%nat ->
  exists rs' s', parseredirs fuel s = Ok (rs', s') /\ redir_text <$> rs' = redir_of <$> rs /\
    Forall (fun r => span_ok s0 r.1.1) rs' /\ left_at s s' ts.
Proof.
  induction rs as [|[k w] rs IH]; intros fuel s ts Hs Hsuf Hno Hf; destruct fuel as [|fuel]; try (cbn in Hf; lia); cbn [parseredirs].
  - exists [], (skip is_ws s). cbn in Hs. split; [|split; [done|split; [constructor|by apply left_peek]]].
    destruct ts as [|t ts]; [by rewrite peek_spells_end|].
    rewrite (peek_spells _ _ _ _ Hs) by (repeat constructor).
    destruct t as [w|c|]; [done| |done]. destruct Hno. replace (is_in (bytes_of "<>") c) with false; [done|].
    symmetry. unfold is_in. apply bool_decide_eq_false. cbn. rewrite !elem_of_cons, elem_of_nil. tauto.
  - cbn in Hs. set (t1 := match k with In => Sym 60 | Out => Sym 62 | Append => App end) in *.
    rewrite (peek_spells _ _ _ _ Hs) by (repeat constructor).
    apply spells_skip in Hs as Hs1. destruct (left_peek s _ Hs Hsuf) as (_ & Hsuf1 & Hl1).
    destruct (gettoken_spells _ _ _ Hs1) as (q1 & eq1 & s1 & T1). pose proof (ta_rest _ _ _ _ _ _ T1) as Hs2.
    destruct (gettoken_spells _ _ _ Hs2) as (q2 & eq2 & s2 & T2).
    assert (Hsuf2 : s1 `suffix_of` s0) by (etransitivity; [apply (ta_suffix _ _ _ _ _ _ T1)|done]).
    destruct (token_span _ _ _ _ _ _ _ T2 Hsuf2) as [Hok Htext].
    destruct (IH fuel s2 ts) as (rs' & s' & Hrun & Hrs & Hall & Hleft); [apply T2| |done|cbn in Hf; lia|].
    { etransitivity; [apply (ta_suffix _ _ _ _ _ _ T2)|done]. }
    exists ((q2, eq2, (redir_mode (code t1)).1, (redir_mode (code t1)).2) :: rs'), s'.
    split; [|split; [|split]].
    + replace (match t1 with Word _ => false | Sym c => is_in (bytes_of "<>") c | App => is_in (bytes_of "<>") 62 end)
        with true by (by destruct k).
      rewrite (ta_run _ _ _ _ _ _ T1), (ta_run _ _ _ _ _ _ T2). cbn [code]. change (negb (97 =? 97)) with false. cbv iota.
      rewrite Hrun. by destruct (redir_mode (code t1)).
    + cbn. rewrite Hrs. unfold redir_text. cbn [fst snd]. rewrite Htext. by destruct k.
    + by constructor.
    + pose proof (ta_short _ _ _ _ _ _ T1). pose proof (ta_short _ _ _ _ _ _ T2). destruct Hleft as (? & ? & ?).
      split; [done|]. split; [done|]. lia.
Qed.
Lemma spells_length ts s : spells ts s -> (length ts <= length s)%nat.
Proof.
  induction 1 as [|w t ts rest Hw Ht Hs IH]; cbn; [lia|]. destruct (tok_head t rest Ht) as (c & l & -> & _).
  rewrite !length_app. cbn. lia.
Qed.

Lemma redir_toks_length rs : (length rs <= length (redirs_toks rs))%nat.
Proof. induction rs as [|r rs IH]; cbn in *; lia. Qed.

(** The redirections at the start of a list of items. *)
Fixpoint lead (its : list item) : list (rkind * list Z) * list item :=
  match its with
  | Rdr k w :: its => ((k, w) :: (lead its).1, (lead its).2)
  | _ => ([], its)
  end.

Definition starts_arg (its : list item) : Prop := match its with Rdr _ _ :: _ => False | _ => True end.

Lemma lead_spec its :
  items_toks its = redirs_toks (lead its).1 ++ items_toks (lead its).2 /\
  args_of its = args_of (lead its).2 /\ redirs_of its = (lead its).1 ++ redirs_of (lead its).2 /\
  starts_arg (lead its).2 /\ (length (lead its).2 <= length its)%nat.
Proof.
  induction its as [|[w|k w] its (H1 & H2 & H3 & H4 & H5)]; [done|done|].
  cbn [lead fst snd length]. split; [cbn; by rewrite H1|]. split; [exact H2|].
  split; [exact (f_equal (cons (k, w)) H3)|]. split; [done|lia].
Qed.

(** What may follow a simple command. *)
Definition follow (set : string) (ts : list tok) : Prop :=
  match ts with [] => True | Sym c :: _ => is_in (bytes_of set) c = true | _ => False end.

Lemma follow_no_redir its ts :
  starts_arg its -> follow "|)&;" ts -> no_redir (items_toks its ++ ts).
Proof.
  destruct its as [|[w|k w] its]; [intros _|done..]. destruct ts as [|[w|c|] ts]; [done|done| |done].
  unfold follow, is_in. rewrite bool_decide_eq_true. intros Hc. cbn. split; intros ->; cbn in Hc; revert Hc;
    rewrite !elem_of_cons, elem_of_nil; cbn; lia.
Qed.

Lemma gettoken_end s : spells [] s -> gettoken s = (0, [], [], []).
Proof. inversion 1; subst. unfold gettoken. by rewrite skip_end. Qed.

Lemma parseargs_end fuel args rs s ts :
  spells ts s -> s `suffix_of` s0 -> follow "|)&;" ts -> (0 < fuel)%nat ->
  exists s', parseargs fuel args rs s = Ok (args, rs, s') /\ left_at s s' ts.
Proof.
  intros Hs Hsuf Hf Hfuel. destruct fuel as [|fuel]; [lia|]. cbn [parseargs].
  pose proof (left_peek s ts Hs Hsuf) as Hl. destruct ts as [|t ts].
  - rewrite peek_spells_end, gettoken_end by (done || apply spells_skip; done). cbn.
    exists []. split; [done|]. destruct Hl as (? & ? & ?). split; [by apply (spells_end [])|]. split; [apply suffix_nil|cbn; lia].
  - destruct t as [w|c|]; [done| |done]. rewrite (peek_spells _ _ _ _ Hs) by (repeat constructor).
    unfold follow in Hf. rewrite Hf. by exists (skip is_ws s).
Qed.

Lemma parseargs_spells fuel : forall its args rs s ts,
  spells (items_toks its ++ ts) s -> s `suffix_of` s0 -> starts_arg its -> follow "|)&;" ts ->
  (length args + length (args_of its) < MAXARGS)%nat -> (length its < fuel)%nat ->
  Forall (span_ok s0) args -> Forall (fun r => span_ok s0 r.1.1) rs ->
  exists args' rs' s', parseargs fuel args rs s = Ok (args', rs', s') /\
    text <$> args' = (text <$> args) ++ args_of its /\
    redir_text <$> rs' = (redir_text <$> rs) ++ (redir_of <$> redirs_of its) /\
    Forall (span_ok s0) args' /\ Forall (fun r => span_ok s0 r.1.1) rs' /\ left_at s s' ts.
Proof.
  induction fuel as [|fuel IH]; intros its args rs s ts Hs Hsuf Hst Hfol Hmax Hfuel Ha Hr; [lia|].
  destruct its as [|[w|k w] its]; [|clear Hst|done].
  { destruct (parseargs_end (S fuel) args rs s ts Hs Hsuf Hfol) as (s' & Hrun & Hl); [lia|].
    exists args, rs, s'. by rewrite !app_nil_r. }
  cbn in Hs. cbn [parseargs]. rewrite (peek_spells _ _ _ _ Hs) by (repeat constructor). cbv iota beta.
  destruct (left_peek s _ Hs Hsuf) as (Hs1 & Hsuf1 & Hl1).
  destruct (gettoken_spells _ _ _ Hs1) as (q & eq & s1 & T). pose proof (ta_short _ _ _ _ _ _ T) as Hshort.
  destruct (token_span _ _ _ _ _ _ _ T Hsuf1) as [Hok Htext].
  assert (Hsuf2 : s1 `suffix_of` s0) by (etransitivity; [apply (ta_suffix _ _ _ _ _ _ T)|done]).
  rewrite (ta_run _ _ _ _ _ _ T). cbn [code]. change (97 =? 0) with false. change (negb (97 =? 97)) with false. cbv iota zeta beta.
  destruct (lead_spec its) as (E1 & E2 & E3 & E4 & E5). pose proof (ta_rest _ _ _ _ _ _ T) as Hs2.
  rewrite E1, <- app_assoc in Hs2. change (args_of (Arg w :: its)) with (w :: args_of its) in *. cbn [length] in Hmax, Hfuel.
  rewrite length_app, (proj2 (Nat.leb_gt _ _)) by (cbn; lia).
  destruct (parseredirs_spells (lead its).1 (S (length s1)) s1 _ Hs2 Hsuf2) as (rs1 & s2 & Hrun1 & Ht1 & Ho1 & Hl2).
  { by apply follow_no_redir. }
  { pose proof (spells_length _ _ Hs2) as Hlen. rewrite length_app in Hlen. pose proof (redir_toks_length (lead its).1). lia. }
  destruct Hl2 as (Hs3 & Hsuf3 & Hl3).
  destruct (IH (lead its).2 (args ++ [(q, eq)]) (rs ++ rs1) s2 ts) as (args' & rs' & s' & Hrun & Ht & Htr & Hoa & Hor & Hl);
    try done; [rewrite length_app; cbn [length]; rewrite <- E2; lia|lia|by apply Forall_app; split; [|constructor]|by apply Forall_app|].
  exists args', rs', s'. rewrite Hrun1. cbn [res_bind]. split; [exact Hrun|]. split; [|split; [|split; [done|split; [done|]]]].
  - rewrite Ht, fmap_app, <- E2, <- app_assoc, <- Htext. done.
  - rewrite Htr, fmap_app, Ht1, <- app_assoc, <- fmap_app, <- E3. done.
  - destruct Hl as (? & ? & ?). split; [done|]. split; [done|lia].
Qed.
(** *** Following tokens *)

Lemma peek_other t ts s toks :
  spells (t :: ts) s -> Forall (fun x => is_in symbols x = true) (bytes_of toks) ->
  match t with Word _ => True | Sym c => is_in (bytes_of toks) c = false | App => is_in (bytes_of toks) 62 = false end ->
  peek s toks = (skip is_ws s, false).
Proof. intros Hs Ht Hc. rewrite (peek_spells _ _ _ _ Hs Ht). destruct t; [done|by rewrite Hc..]. Qed.

Lemma follow_out set toks c :
  Forall (fun x => is_in (bytes_of toks) x = false) (bytes_of set) -> is_in (bytes_of set) c = true ->
  is_in (bytes_of toks) c = false.
Proof. unfold is_in at 2. rewrite bool_decide_eq_true, Forall_forall. auto. Qed.

Lemma follow_in set set' c :
  Forall (fun x => is_in (bytes_of set') x = true) (bytes_of set) -> is_in (bytes_of set) c = true ->
  is_in (bytes_of set') c = true.
Proof. unfold is_in at 2. rewrite bool_decide_eq_true, Forall_forall. auto. Qed.

Lemma follow_weaken set set' ts :
  Forall (fun x => is_in (bytes_of set') x = true) (bytes_of set) -> follow set ts -> follow set' ts.
Proof. intros Hall. destruct ts as [|[w|c|] ts]; try done. by apply follow_in. Qed.

Lemma peek_follow set toks ts s :
  spells ts s -> follow set ts -> Forall (fun x => is_in symbols x = true) (bytes_of toks) ->
  Forall (fun x => is_in (bytes_of toks) x = false) (bytes_of set) -> peek s toks = (skip is_ws s, false).
Proof.
  intros Hs Hf Ht Hset. destruct ts as [|[w|c|] ts]; [by apply peek_spells_end|done| |done].
  eapply peek_other; [done|done|]. by eapply follow_out.
Qed.

(** The text of a redirected command. *)
Lemma wrap_text c rs : cmd_map text (wrap c rs) = wrap (cmd_map text c) (redir_text <$> rs).
Proof. revert c. induction rs as [|r rs IH]; intros c; [done|]. cbn. apply IH. Qed.

Lemma wrap_words c rs :
  Forall (span_ok s0) (cmd_words c) -> Forall (fun r => span_ok s0 r.1.1) rs -> Forall (span_ok s0) (cmd_words (wrap c rs)).
Proof.
  intros Hc Hr. revert c Hc. induction Hr as [|r rs Hr _ IH]; intros c Hc; [done|]. apply IH. cbn.
  apply Forall_app. by split; [|constructor].
Qed.

Definition yields (s : list Z) (ts : list tok) (c : cmd (list Z)) (r : res (cmd span * list Z)) : Prop :=
  exists c' s', r = Ok (c', s') /\ cmd_map text c' = c /\ Forall (span_ok s0) (cmd_words c') /\ left_at s s' ts.

Lemma parseback_spells n : forall fuel c s ts,
  spells (replicate n (Sym 38) ++ ts) s -> s `suffix_of` s0 -> follow ");" ts -> (n < fuel)%nat ->
  Forall (span_ok s0) (cmd_words c) -> yields s ts (Nat.iter n BACK (cmd_map text c)) (parseback fuel c s).
Proof.
  induction n as [|n IH]; intros fuel c s ts Hs Hsuf Hf Hn Hc; destruct fuel as [|fuel]; try lia; cbn [parseback].
  - rewrite (peek_follow ");" "&" ts s) by (done || by repeat constructor). exists c, (skip is_ws s).
    split; [done|]. split; [done|]. split; [done|]. by apply left_peek.
  - cbn in Hs. rewrite (peek_spells _ _ _ _ Hs) by (repeat constructor). destruct (left_peek _ _ Hs Hsuf) as (Hs1 & Hsuf1 & Hl1).
    destruct (gettoken_spells _ _ _ Hs1) as (q & eq & s1 & T). pose proof (ta_short _ _ _ _ _ _ T).
    replace (is_in (bytes_of "&") 38) with true by done. rewrite (ta_run _ _ _ _ _ _ T).
    destruct (IH fuel (BACK c) s1 ts) as (c' & s' & Hrun & Hmap & Hw & ? & ? & ?); [apply T| |done|lia|done|].
    { etransitivity; [apply (ta_suffix _ _ _ _ _ _ T)|done]. }
    exists c', s'. split; [exact Hrun|]. split; [|split; [done|split; [done|split; [done|lia]]]].
    rewrite Hmap. cbn [cmd_map]. by rewrite Nat.iter_succ_r.
Qed.
(** *** Lines, pipelines and stages *)

(** A symbol that has been peeked at is read. *)
Lemma take_symbol c ts s :
  spells (Sym c :: ts) s -> s `suffix_of` s0 ->
  exists q eq s', gettoken (skip is_ws s) = (c, q, eq, s') /\ spells ts s' /\ s' `suffix_of` s0 /\ (length s' < length s)%nat.
Proof.
  intros Hs Hsuf. destruct (left_peek _ _ Hs Hsuf) as (Hs1 & Hsuf1 & Hl1).
  destruct (gettoken_spells _ _ _ Hs1) as (q & eq & s1 & [R S1 L Su _ _ _]). exists q, eq, s1.
  split; [done|]. split; [done|]. split; [by etransitivity|lia].
Qed.

Definition line_parses (l : line) : Prop := forall fuel s ts,
  line_ok l -> spells (line_toks l ++ ts) s -> s `suffix_of` s0 -> follow ")" ts -> (4 * length s + 4 <= fuel)%nat ->
  yields s ts (line_cmd l) (parseline fuel s).

Definition pipe_parses (p : pipeline) : Prop := forall fuel s ts,
  pipe_ok p -> spells (pipe_toks p ++ ts) s -> s `suffix_of` s0 -> follow ")&;" ts -> (4 * length s + 3 <= fuel)%nat ->
  yields s ts (pipe_cmd p) (parsepipe fuel s).

Definition stage_parses (e : stage) : Prop := forall fuel s ts,
  stage_ok e -> spells (stage_toks e ++ ts) s -> s `suffix_of` s0 -> follow "|)&;" ts -> (4 * length s + 2 <= fuel)%nat ->
  yields s ts (stage_cmd e) (parseexec fuel s).

Lemma simple_parses its : stage_parses (Simple its).
Proof.
  intros fuel s ts Hok Hs Hsuf Hf Hfuel. destruct fuel as [|fuel]; [lia|]. cbn [parseexec stage_toks stage_cmd] in *.
  assert (Hpeek : peek s "(" = (skip is_ws s, false)).
  { destruct its as [|[w|[] w] its]; cbn in Hs; [|by eapply peek_other; [exact Hs|repeat constructor|]..].
    eapply (peek_follow "|)&;"); [exact Hs|done|repeat constructor..]. }
  rewrite Hpeek. destruct (left_peek _ _ Hs Hsuf) as (Hs1 & Hsuf1 & Hl1).
  destruct (lead_spec its) as (E1 & E2 & E3 & E4 & E5). rewrite E1, <- app_assoc in Hs1.
  destruct (parseredirs_spells (lead its).1 (S (length (skip is_ws s))) _ _ Hs1 Hsuf1) as (rs1 & s2 & R1 & T1 & O1 & Hs2 & Hsuf2 & Hl2).
  { by apply follow_no_redir. }
  { pose proof (spells_length _ _ Hs1) as Hlen. rewrite length_app in Hlen. pose proof (redir_toks_length (lead its).1). lia. }
  destruct (parseargs_spells (S (length s2)) (lead its).2 [] rs1 s2 ts) as (args & rs & s' & R2 & T2 & T3 & O2 & O3 & ? & ? & ?); try done.
  { rewrite <- E2. exact Hok. }
  { pose proof (spells_length _ _ Hs2) as Hlen. rewrite length_app in Hlen.
    assert (forall l, (length l <= length (items_toks l))%nat) as Hit.
    { intros l. induction l as [|[w|k w] l IH]; cbn in *; lia. }
    specialize (Hit (lead its).2). lia. }
  exists (wrap (EXEC args) rs), s'. rewrite R1. cbn [res_bind]. rewrite R2. cbn [res_bind].
  split; [done|]. split; [|split; [by apply wrap_words|split; [done|split; [done|lia]]]].
  rewrite wrap_text. cbn [cmd_map]. rewrite T2, T3, T1, E2, E3, fmap_app. done.
Qed.

Lemma block_parses l rs : line_parses l -> stage_parses (Block l rs).
Proof.
  intros IH fuel s ts Hok Hs Hsuf Hf Hfuel. destruct fuel as [|[|fuel]]; [lia|lia|]. cbn [stage_toks stage_cmd] in *.
  cbn [app] in Hs. rewrite <- app_assoc in Hs. cbn [app] in Hs.
  assert (Hpeek : forall s, spells (Sym 40 :: line_toks l ++ Sym 41 :: redirs_toks rs ++ ts) s -> peek s "(" = (skip is_ws s, true)).
  { intros x Hx. by rewrite (peek_spells _ _ _ _ Hx) by (repeat constructor). }
  cbn [parseexec parseblock]. rewrite (Hpeek s Hs). destruct (left_peek _ _ Hs Hsuf) as (Hs1 & Hsuf1 & Hl1).
  rewrite (Hpeek _ Hs1). cbn [negb].
  destruct (take_symbol _ _ _ Hs1 Hsuf1) as (q & eq & s1 & -> & Hs2 & Hsuf2 & Hl2).
  destruct (IH fuel s1 _ Hok Hs2 Hsuf2) as (c & s2 & -> & Hmap & Hw & Hs3 & Hsuf3 & Hl3); [done|lia|]. cbn [res_bind].
  rewrite (peek_spells _ _ _ _ Hs3) by (repeat constructor). cbn [negb]. change (is_in (bytes_of ")") 41) with true. cbv iota.
  destruct (take_symbol _ _ _ Hs3 Hsuf3) as (q' & eq' & s3 & -> & Hs4 & Hsuf4 & Hl4).
  destruct (parseredirs_spells rs (S (length s3)) s3 ts Hs4 Hsuf4) as (rs' & s' & -> & T & O & ? & ? & ?).
  { by apply (follow_no_redir []). }
  { pose proof (spells_length _ _ Hs4) as Hlen. rewrite length_app in Hlen. pose proof (redir_toks_length rs). lia. }
  exists (wrap c rs'), s'. split; [done|]. split; [|split; [by apply wrap_words|split; [done|split; [done|lia]]]].
  by rewrite wrap_text, Hmap, T.
Qed.
Lemma stage_pipe_parses e : stage_parses e -> pipe_parses (Stage e).
Proof.
  intros IH fuel s ts Hok Hs Hsuf Hf Hfuel. destruct fuel as [|fuel]; [lia|]. cbn [parsepipe].
  destruct (IH fuel s ts Hok Hs Hsuf) as (c & s1 & -> & Hmap & Hw & Hs1 & Hsuf1 & Hl1).
  { eapply follow_weaken, Hf. by repeat constructor. }
  { lia. }
  cbn [res_bind]. rewrite (peek_follow ")&;" "|" ts s1) by (done || by repeat constructor).
  exists c, (skip is_ws s1). split; [done|]. split; [done|]. split; [done|].
  destruct (left_peek _ _ Hs1 Hsuf1) as (? & ? & ?). split; [done|]. split; [done|lia].
Qed.

Lemma piped_parses e p : stage_parses e -> pipe_parses p -> pipe_parses (Piped e p).
Proof.
  intros IHe IHp fuel s ts [Hoe Hop] Hs Hsuf Hf Hfuel. destruct fuel as [|fuel]; [lia|]. cbn [parsepipe pipe_toks pipe_cmd] in *.
  rewrite <- app_assoc in Hs. cbn [app] in Hs.
  destruct (IHe fuel s _ Hoe Hs Hsuf) as (c & s1 & -> & Hmap & Hw & Hs1 & Hsuf1 & Hl1); [done|lia|]. cbn [res_bind].
  rewrite (peek_spells _ _ _ _ Hs1) by (repeat constructor). change (is_in (bytes_of "|") 124) with true. cbv iota.
  destruct (take_symbol _ _ _ Hs1 Hsuf1) as (q & eq & s2 & -> & Hs2 & Hsuf2 & Hl2).
  destruct (IHp fuel s2 ts Hop Hs2 Hsuf2 Hf) as (c' & s' & -> & Hmap' & Hw' & ? & ? & ?); [lia|].
  exists (PIPE c c'), s'. split; [done|]. split; [cbn; by rewrite Hmap, Hmap'|]. split; [by apply Forall_app|].
  split; [done|]. split; [done|lia].
Qed.

(** A pipeline and the '&' after it. *)
Lemma pipe_back_parses p n fuel s ts :
  pipe_parses p -> pipe_ok p -> spells (pipe_toks p ++ replicate n (Sym 38) ++ ts) s -> s `suffix_of` s0 ->
  follow ");" ts -> (4 * length s + 3 <= fuel)%nat ->
  exists c s1, parsepipe fuel s = Ok (c, s1) /\ yields s ts (Nat.iter n BACK (pipe_cmd p)) (parseback (S (length s1)) c s1).
Proof.
  intros IH Hok Hs Hsuf Hf Hfuel.
  destruct (IH fuel s _ Hok Hs Hsuf) as (c & s1 & Hrun & Hmap & Hw & Hs1 & Hsuf1 & Hl1); [|done|].
  { destruct n; [|done]. eapply follow_weaken, Hf. by repeat constructor. }
  exists c, s1. split; [done|].
  destruct (parseback_spells n (S (length s1)) c s1 ts Hs1 Hsuf1 Hf) as (c' & s' & Hrun' & Hmap' & Hw' & ? & ? & ?); [|done|].
  { pose proof (spells_length _ _ Hs1) as Hlen. rewrite length_app, length_replicate in Hlen. lia. }
  exists c', s'. split; [done|]. split; [by rewrite Hmap', Hmap|]. split; [done|]. split; [done|]. split; [done|lia].
Qed.

Lemma last_parses p n : pipe_parses p -> line_parses (Last p n).
Proof.
  intros IH fuel s ts Hok Hs Hsuf Hf Hfuel. destruct fuel as [|fuel]; [lia|]. cbn [parseline line_toks line_cmd] in *.
  rewrite <- app_assoc in Hs.
  destruct (pipe_back_parses p n fuel s ts IH Hok Hs Hsuf) as (c & s1 & -> & c' & s2 & E & Hmap & Hw & Hs2 & Hsuf2 & Hl2).
  { eapply follow_weaken, Hf. by repeat constructor. }
  { lia. }
  cbn [res_bind]. rewrite E. cbn [res_bind]. rewrite (peek_follow ")" ";" ts s2) by (done || by repeat constructor).
  exists c', (skip is_ws s2). split; [done|]. split; [done|]. split; [done|].
  destruct (left_peek _ _ Hs2 Hsuf2) as (? & ? & ?). split; [done|]. split; [done|lia].
Qed.

Lemma seq_parses p n l : pipe_parses p -> line_parses l -> line_parses (Seq p n l).
Proof.
  intros IHp IHl fuel s ts [Hop Hol] Hs Hsuf Hf Hfuel. destruct fuel as [|fuel]; [lia|]. cbn [parseline line_toks line_cmd] in *.
  rewrite <- !app_assoc in Hs. cbn [app] in Hs.
  destruct (pipe_back_parses p n fuel s (Sym 59 :: line_toks l ++ ts) IHp Hop Hs Hsuf)
    as (c & s1 & -> & c' & s2 & E & Hmap & Hw & Hs2 & Hsuf2 & Hl2); [done|lia|].
  cbn [res_bind]. rewrite E. cbn [res_bind]. rewrite (peek_spells _ _ _ _ Hs2) by (repeat constructor).
  change (is_in (bytes_of ";") 59) with true. cbv iota.
  destruct (take_symbol _ _ _ Hs2 Hsuf2) as (q & eq & s3 & -> & Hs3 & Hsuf3 & Hl3).
  destruct (IHl fuel s3 ts Hol Hs3 Hsuf3 Hf) as (r & s' & -> & Hmap' & Hw' & ? & ? & ?); [lia|].
  exists (LIST c' r), s'. split; [done|]. split; [cbn; by rewrite Hmap, Hmap'|]. split; [by apply Forall_app|].
  split; [done|]. split; [done|lia].
Qed.

Lemma all_parse : (forall l, line_parses l) /\ (forall p, pipe_parses p) /\ (forall e, stage_parses e).
Proof.
  apply line_mutind; intros; [by apply last_parses|by apply seq_parses|by apply stage_pipe_parses|by apply piped_parses|
    apply simple_parses|by apply block_parses].
Qed.

End Parse.

(** ** nulterminate() *)

Lemma nulterminate_words n c buf : nulterminate n c buf = fold_left (terminate n) (cmd_words c) buf.
Proof.
  revert buf. induction c as [argv|c IH file mode fd|l IHl r IHr|l IHl r IHr|c IH]; intros buf; cbn.
  - done.
  - by rewrite fold_left_app, IH.
  - by rewrite fold_left_app, IHl, IHr.
  - by rewrite fold_left_app, IHl, IHr.
  - apply IH.
Qed.

(** The places it overwrites are the ends of the strings. *)
Lemma terminate_all_lookup n (ws : list span) buf i :
  (i < length buf)%nat ->
  fold_left (terminate n) ws buf !! i =
    if decide (i ∈ (fun w : span => n - length w.2)%nat <$> ws) then Some 0 else buf !! i.
Proof.
  revert buf. induction ws as [|w ws IH]; intros buf Hi; cbn [fold_left fmap list_fmap].
  - rewrite decide_False; [done|apply not_elem_of_nil].
  - unfold terminate at 2. rewrite IH by (by rewrite length_insert).
    destruct (decide (i ∈ _ <$> ws)) as [Hin|Hin].
    + rewrite decide_True; [done|]. by right.
    + destruct (decide (i = n - length w.2)%nat) as [->|Hne].
      * rewrite decide_True by left. by apply list_lookup_insert_eq.
      * rewrite decide_False by (rewrite not_elem_of_cons; done). by apply list_lookup_insert_ne.
Qed.

Lemma cstr_prefix b l :
  Forall (fun c => c <> 0) b -> (forall i, (i < length b)%nat -> l !! i = b !! i) -> l !! length b = Some 0 -> cstr l = b.
Proof.
  intros Hb. revert l. induction Hb as [|c b Hc Hb IH]; intros l Hl H0; destruct l as [|d l]; try done.
  - injection H0 as ->. done.
  - specialize (Hl 0%nat) as Hd. injection Hd as ->; [|cbn; lia]. cbn [cstr]. rewrite (proj2 (Z.eqb_neq c 0)) by done.
    f_equal. apply IH; [|done]. intros i Hi. apply (Hl (S i)). cbn. lia.
Qed.

Lemma suffix_lookup {A} (q s : list A) i : q `suffix_of` s -> s !! (length s - length q + i)%nat = q !! i.
Proof. intros [k ->]. rewrite length_app, Nat.add_sub, lookup_app_r by lia. f_equal. lia. Qed.

Section Terminate.
Context (s junk : list Z) (ws : list span).
Context (Hs : Forall (fun c => c <> 0) s) (Hws : Forall (span_ok s) ws).

Notation n := (length s).
Notation buf := (s ++ 0 :: junk).

(** A byte of a word is not the end of another. *)
Lemma word_not_end i c :
  s !! i = Some c -> is_word c = true -> i ∉ (fun w : span => n - length w.2)%nat <$> ws.
Proof using Hws.
  intros Hi Hc (w & -> & Hw)%list_elem_of_fmap. rewrite Forall_forall in Hws.
  destruct (Hws w Hw) as (Hq & b & Hb & _ & Hr).
  assert (Hsuf : w.2 `suffix_of` s) by (etransitivity; [by exists b|done]).
  rewrite <- (Nat.add_0_r (n - length w.2)), suffix_lookup in Hi by done.
  destruct w.2 as [|d eq]; [done|]. injection Hi as ->. cbn in Hr. congruence.
Qed.

Lemma read_terminated w : w ∈ ws -> read_word n (fold_left (terminate n) ws buf) w = text w.
Proof using Hs Hws.
  intros Hw. pose proof Hws as Hall. rewrite Forall_forall in Hall. destruct (Hall w Hw) as (Hq & b & Hb & Hwb & _).
  assert (Htext : text w = b) by (unfold text; rewrite Hb, length_app, Nat.add_sub; apply take_app_length).
  rewrite Htext. unfold read_word. pose proof (suffix_length _ _ Hq) as Hlq.
  assert (Hl2 : (length w.1 = length b + length w.2)%nat) by (by rewrite Hb, length_app).
  assert (Hsb : forall i, (i < length b)%nat -> s !! (n - length w.1 + i)%nat = b !! i).
  { intros i Hi. rewrite suffix_lookup by done. rewrite Hb. by apply lookup_app_l. }
  apply cstr_prefix.
  - apply Forall_forall. intros c (i & Hi)%list_elem_of_lookup. rewrite Forall_forall in Hs. apply Hs.
    rewrite <- Hsb in Hi by (by eapply lookup_lt_Some). by eapply list_elem_of_lookup_2.
  - intros i Hi. rewrite lookup_drop, terminate_all_lookup by (rewrite length_app; cbn; lia).
    destruct (lookup_lt_is_Some_2 b i Hi) as [c Hc]. rewrite Forall_forall in Hwb.
    rewrite decide_False.
    + rewrite lookup_app_l by lia. rewrite Hsb, Hc by done. done.
    + apply (word_not_end _ c); [by rewrite Hsb|]. apply Hwb. by eapply list_elem_of_lookup_2.
  - rewrite lookup_drop, terminate_all_lookup by (rewrite length_app; cbn; lia). apply decide_True.
    apply list_elem_of_fmap. exists w. split; [lia|done].
Qed.

End Terminate.

Lemma cmd_map_ext {V W} (f g : V -> W) c : (forall w, w ∈ cmd_words c -> f w = g w) -> cmd_map f c = cmd_map g c.
Proof.
  induction c as [argv|c IH file mode fd|l IHl r IHr|l IHl r IHr|c IH]; cbn; intros Hw.
  - f_equal. apply list_fmap_ext. intros i x Hx. by eapply Hw, list_elem_of_lookup_2.
  - rewrite IH, (Hw file) by set_solver. done.
  - rewrite IHl, IHr by set_solver. done.
  - rewrite IHl, IHr by set_solver. done.
  - by rewrite IH.
Qed.

(** ** parsecmd *)

Lemma cstr_full s junk : Forall (fun c => c <> 0) s -> cstr (s ++ 0 :: junk) = s.
Proof. induction 1 as [|c s Hc _ IH]; cbn; [done|]. by rewrite (proj2 (Z.eqb_neq c 0)), IH. Qed.

(** Every spelling of a command of the grammar is parsed, and the strings of the
    result, read from the buffer that nulterminate() leaves, are its words. *)
Lemma parses l s junk :
  line_ok l -> spells (line_toks l) s -> Forall (fun c => c <> 0) s ->
  exists c buf', parsecmd (s ++ 0 :: junk) = Ok (c, buf') /\ cmd_map (read_word (length s) buf') c = line_cmd l.
Proof.
  intros Hok Hsp Hs. destruct (all_parse s) as (Hl & _).
  destruct (Hl l (4 * length s + 4)%nat s []) as (c & s' & Hrun & Hmap & Hw & Hs' & _); [done|by rewrite app_nil_r|done|done|done|].
  exists c, (nulterminate (length s) c (s ++ 0 :: junk)). split.
  - unfold parsecmd. rewrite cstr_full by done. cbv zeta. rewrite Hrun. cbn [res_bind].
    rewrite peek_spells_end by done. inversion Hs' as [w Hws|]; subst. by rewrite skip_end.
  - rewrite <- Hmap, nulterminate_words. apply cmd_map_ext. intros w Hin. by apply read_terminated.
Qed.

(** One way of spelling: each token followed by a space. *)
Fixpoint spaced (ts : list tok) : list Z :=
  match ts with [] => [] | t :: ts => tok_bytes t ++ 32 :: spaced ts end.

Lemma spells_space ts s : spells ts s -> spells ts (32 :: s).
Proof.
  intros [w Hw|w t ts' rest Hw Ht Hs]; [constructor; by constructor|].
  apply (spells_tok (32 :: w)); [by constructor|done|done].
Qed.

Lemma spells_spaced ts : Forall (fun t => tok_ok t [32]) ts -> spells ts (spaced ts).
Proof.
  induction 1 as [|t ts Ht _ IH]; [by constructor|]. cbn.
  apply (spells_tok []); [done| |by apply spells_space]. by destruct t.
Qed.

(** ** Termination *)

Lemma gettoken_shorter s :
  (length (gettoken s).2 <= length s)%nat /\ (skip is_ws s <> [] -> (length (gettoken s).2 < length s)%nat).
Proof.
  destruct (skip_suffix is_ws s) as [_ Hl]. unfold gettoken.
  destruct (skip is_ws s) as [|c q] eqn:E; [split; [cbn; lia|done]|].
  assert (Hsk : forall f l, (length (skip f l) <= length l)%nat) by (intros; apply skip_suffix).
  assert (Hws : is_ws c = false).
  { destruct (is_ws c) eqn:Hc; [|done]. exfalso. clear Hl. induction s as [|d s IH]; cbn in E; [done|].
    destruct (is_ws d) eqn:Hd; [by apply IH|]. injection E as -> ->. congruence. }
  cbn [length] in Hl. pose proof (Hsk is_ws q) as Hq.
  enough (forall r : Z * list Z * list Z * list Z, (length r.2 <= length q)%nat ->
    (length r.2 <= length s)%nat /\ (c :: q <> [] -> (length r.2 < length s)%nat)) as Hr.
  { destruct (is_in _ c) eqn:Hin; [by apply Hr|]. destruct (c =? 62) eqn:H62.
    - destruct q as [|d q]; [apply Hr; cbn; lia|]. cbn [length] in *. pose proof (Hsk is_ws q).
      destruct (d =? 62); apply Hr; cbn [snd length]; lia.
    - apply Hr. cbn [snd]. etransitivity; [apply Hsk|]. cbn [skip].
      assert (is_word c = true) as ->; [|apply Hsk]. unfold is_word. rewrite Hws. cbn [negb andb].
      apply negb_true_iff. destruct (is_in symbols c) eqn:Hsy; [|done].
      apply Z.eqb_neq in H62. destruct (symbol_cases c Hsy) as [|[? _]]; [done|congruence]. }
  intros r Hlen. split; [lia|]. intros _. lia.
Qed.

Lemma peek_shorter s toks :
  (length (peek s toks).1 <= length s)%nat /\
  ((peek s toks).2 = true -> (length (gettoken (peek s toks).1).2 < length s)%nat).
Proof.
  destruct (skip_suffix is_ws s) as [_ Hl]. unfold peek. cbn [fst snd]. split; [done|].
  intros Hb. destruct (gettoken_shorter (skip is_ws s)) as [_ Hg].
  destruct (skip is_ws s) as [|c q] eqn:E; [done|].
  assert (skip is_ws (c :: q) <> []) as Hne.
  { rewrite <- E. clear -E. induction s as [|d s IH]; cbn in E |- *; [done|]. destruct (is_ws d) eqn:Hd; [by apply IH|].
    cbn. by rewrite Hd. }
  specialize (Hg Hne). lia.
Qed.

(** The parser stops, with no more of the line left than there was. *)
Definition stops {A} (s : list Z) (rest : A -> list Z) (r : res A) : Prop :=
  match r with Ok a => (length (rest a) <= length s)%nat | Panic _ | Leftovers _ => True | NoFuel => False end.

Lemma parseredirs_stops fuel s : (length s < fuel)%nat -> stops s snd (parseredirs fuel s).
Proof.
  revert s. induction fuel as [|fuel IH]; intros s Hf; [lia|]. cbn [parseredirs].
  destruct (peek_shorter s "<>") as [Hp Hg]. destruct (peek s "<>") as [s1 b]. cbn [fst snd] in *.
  destruct b; [|done]. specialize (Hg eq_refl). destruct (gettoken s1) as [[[tok q] eq] s2]. cbn [snd] in Hg.
  destruct (gettoken_shorter s2) as [Hg2 _]. destruct (gettoken s2) as [[[t2 q2] eq2] s3]. cbn [snd] in Hg2.
  destruct (negb (t2 =? 97)); [done|]. destruct (redir_mode tok) as [mode fd].
  specialize (IH s3 ltac:(lia)). destruct (parseredirs fuel s3) as [[rs s4]|msg|r|]; cbn in *; [lia|done|done|done].
Qed.

Lemma parseargs_stops fuel args rs s : (length s < fuel)%nat -> stops s snd (parseargs fuel args rs s).
Proof.
  revert args rs s. induction fuel as [|fuel IH]; intros args rs s Hf; [lia|]. cbn [parseargs].
  destruct (peek_shorter s "|)&;") as [Hp _]. destruct (peek s "|)&;") as [s1 b]. cbn [fst] in Hp. destruct b; [done|].
  destruct (gettoken_shorter s1) as [Hg Hg']. assert (Hz : skip is_ws s1 = [] -> (gettoken s1).1.1.1 = 0) by (intros E; unfold gettoken; by rewrite E).
  destruct (gettoken s1) as [[[tok q] eq] s2]. cbn [fst snd] in *.
  destruct (Z.eqb_spec tok 0) as [->|Ht]; [cbn; lia|]. destruct (negb (tok =? 97)); [done|].
  destruct (_ <=? _)%nat; [done|]. assert (length s2 < length s1)%nat by (apply Hg'; intros E; by apply Ht, Hz).
  pose proof (parseredirs_stops (S (length s2)) s2 ltac:(lia)) as Hr.
  destruct (parseredirs _ s2) as [[rs' s3]|msg|r|]; cbn in Hr |- *; [|done|done|done].
  specialize (IH (args ++ [(q, eq)]) (rs ++ rs') s3 ltac:(lia)).
  destruct (parseargs fuel _ _ s3) as [[[a r] s4]|msg|r|]; cbn in *; [lia|done|done|done].
Qed.

Lemma parseback_stops fuel c s : (length s < fuel)%nat -> stops s snd (parseback fuel c s).
Proof.
  revert c s. induction fuel as [|fuel IH]; intros c s Hf; [lia|]. cbn [parseback].
  destruct (peek_shorter s "&") as [Hp Hg]. destruct (peek s "&") as [s1 b]. cbn [fst snd] in *. destruct b; [|done].
  specialize (Hg eq_refl). destruct (gettoken s1) as [[[tok q] eq] s2]. cbn [snd] in Hg.
  specialize (IH (BACK c) s2 ltac:(lia)). destruct (parseback fuel _ s2) as [[c' s3]|msg|r|]; cbn in *; [lia|done|done|done].
Qed.

Lemma stops_bind {A B} s s1 (ra : A -> list Z) (rb : B -> list Z) (m : res A) (k : A -> res B) :
  stops s1 ra m -> (length s1 <= length s)%nat ->
  (forall a, (length (ra a) <= length s1)%nat -> stops s rb (k a)) -> stops s rb (res_bind m k).
Proof. destruct m; cbn; auto. Qed.

Lemma parse_stops fuel :
  (forall s, (4 * length s + 4 <= fuel)%nat -> stops s snd (parseline fuel s)) /\
  (forall s, (4 * length s + 3 <= fuel)%nat -> stops s snd (parsepipe fuel s)) /\
  (forall s, (4 * length s + 2 <= fuel)%nat -> stops s snd (parseexec fuel s)) /\
  (forall s, (4 * length s + 1 <= fuel)%nat -> stops s snd (parseblock fuel s)).
Proof.
  induction fuel as [|fuel (IHl & IHp & IHe & IHb)]; [split; [|split; [|split]]; intros s Hf; lia|].
  split; [|split; [|split]]; intros s Hf; cbn [parseline parsepipe parseexec parseblock].
  - eapply stops_bind; [apply IHp; lia|done|]. intros [c s1] Hs1. cbn [snd] in Hs1.
    eapply stops_bind; [apply (parseback_stops _ c s1); lia|done|]. intros [c2 s2] Hs2. cbn [snd] in Hs2.
    destruct (peek_shorter s2 ";") as [Hp Hg]. destruct (peek s2 ";") as [s3 b]. cbn [fst snd] in *.
    destruct b; [|cbn; lia]. specialize (Hg eq_refl). destruct (gettoken s3) as [[[tok q] eq] s4]. cbn [snd] in Hg.
    eapply stops_bind; [apply (IHl s4); lia|lia|]. intros [r s5] Hs5. cbn in *. lia.
  - eapply stops_bind; [apply IHe; lia|done|]. intros [c s1] Hs1. cbn [snd] in Hs1.
    destruct (peek_shorter s1 "|") as [Hp Hg]. destruct (peek s1 "|") as [s3 b]. cbn [fst snd] in *.
    destruct b; [|cbn; lia]. specialize (Hg eq_refl). destruct (gettoken s3) as [[[tok q] eq] s4]. cbn [snd] in Hg.
    eapply stops_bind; [apply (IHp s4); lia|lia|]. intros [r s5] Hs5. cbn in *. lia.
  - destruct (peek_shorter s "(") as [Hp _]. destruct (peek s "(") as [s1 b]. cbn [fst] in Hp. destruct b.
    + specialize (IHb s1 ltac:(lia)). destruct (parseblock fuel s1) as [[c s2]|msg|r|]; cbn in *; [lia|done|done|done].
    + eapply stops_bind; [apply (parseredirs_stops _ s1); lia|lia|]. intros [rs s2] Hs2. cbn [snd] in Hs2.
      eapply stops_bind; [apply (parseargs_stops _ [] rs s2); lia|lia|]. intros [[args rs'] s3] Hs3. cbn in *. lia.
  - destruct (peek_shorter s "(") as [Hp Hg]. destruct (peek s "(") as [s1 b]. cbn [fst snd] in *. destruct b; [|done].
    cbn [negb]. specialize (Hg eq_refl). destruct (gettoken s1) as [[[tok q] eq] s2]. cbn [snd] in Hg.
    eapply stops_bind; [apply (IHl s2); lia|lia|]. intros [c s3] Hs3. cbn [snd] in Hs3.
    destruct (peek_shorter s3 ")") as [Hp3 Hg3]. destruct (peek s3 ")") as [s4 b]. cbn [fst snd] in *. destruct b; [|done].
    cbn [negb]. specialize (Hg3 eq_refl). destruct (gettoken s4) as [[[tok' q'] eq'] s5]. cbn [snd] in Hg3.
    eapply stops_bind; [apply (parseredirs_stops _ s5); lia|lia|]. intros [rs s6] Hs6. cbn in *. lia.
Qed.

(** C25: the shell's parser ends on every line: parsecmd() returns a command or
    reports an error, whatever bytes the line holds. *)
Theorem parsecmd_ends buf : parsecmd buf <> NoFuel.
Proof.
  unfold parsecmd. destruct (parse_stops (4 * length (cstr buf) + 4)) as (Hl & _). specialize (Hl (cstr buf) ltac:(lia)).
  destruct (parseline _ _) as [[c s]|msg|r|]; cbn in *; [|done|done|done]. by destruct (skip is_ws s).
Qed.
