(* ===== verification/Shrun.v ===== *)
(** * The shell's command execution: user/sh.c

    runcmd() and main() are programs that make system calls ([prog]); a program
    that forks has the child's program as a subtree.  [run] gives the system
    calls their meaning on a table of file descriptors, with the lowest free
    descriptor allocated as the kernel does, and returns what the process does:
    the programs it executes with the descriptors they get, the children it
    forks, the waits.  runcmd() is proved to plumb redirections and pipes as the
    command says ([meaning]). *)

From S2P Require Import Prelude Cstring Ulib Sh.

(** ** Programs *)

Inductive prog :=
| Exit (status : Z)
| Exec (path : list Z) (argv : list (list Z)) (fail : prog)
| Close (fd : Z) (k : prog)
| Open (file : list Z) (mode : Z) (k : Z -> prog)
| Dup (fd : Z) (k : Z -> prog)
| Pipe (k : option (Z * Z) -> prog)
| Fork (child : prog) (k : Z -> prog)
| Wait (k : prog)
| Chdir (path : list Z) (k : Z -> prog)
| Write (fd : Z) (bytes : list Z) (k : prog)
| Stuck.

(** fprintf(fd, fmt, ...) *)
Definition fprintf (fd : Z) (fmt : list Z) (ap : list arg) (k : prog) : prog :=
  match vprintf false fmt ap with Some out => Write fd out k | None => Stuck end.

Definition panic (s : list Z) : prog := fprintf 2 (bytes_of "%s" ++ [10]) [Str (Some s)] (Exit 1).

(** fork1() with what the child and the parent do. *)
Definition fork1 (child parent : prog) : prog :=
  Fork child (fun pid => if pid =? -1 then panic (bytes_of "fork") else parent).

Fixpoint runcmd (c : cmd (list Z)) : prog :=
  match c with
  | EXEC [] => Exit 1
  | EXEC (a :: argv) =>
      Exec a (a :: argv) (fprintf 2 (bytes_of "exec %s failed" ++ [10]) [Str (Some a)] (Exit 0))
  | REDIR c file mode fd =>
      Close fd
        (Open file mode (fun r =>
           if r <? 0 then fprintf 2 (bytes_of "open %s failed" ++ [10]) [Str (Some file)] (Exit 1)
           else runcmd c))
  | LIST l r => fork1 (runcmd l) (Wait (runcmd r))
  | PIPE l r =>
      Pipe (fun p =>
        match p with
        | None => panic (bytes_of "pipe")
        | Some (p0, p1) =>
            fork1 (Close 1 (Dup p1 (fun _ => Close p0 (Close p1 (runcmd l)))))
              (fork1 (Close 0 (Dup p0 (fun _ => Close p0 (Close p1 (runcmd r)))))
                 (Close p0 (Close p1 (Wait (Wait (Exit 0))))))
        end)
  | BACK c => fork1 (runcmd c) (Exit 0)
  end.

(** The command of a line, or the error message. *)
Definition runline (buf : list Z) : prog :=
  match parsecmd buf with
  | Ok (c, buf') => runcmd (cmd_map (read_word (length (cstr buf)) buf') c)
  | Sh.Panic msg => panic (bytes_of msg)
  | Leftovers s => fprintf 2 (bytes_of "leftovers: %s" ++ [10]) [Str (Some s)] (panic (bytes_of "syntax"))
  | NoFuel => Stuck
  end.

(** The loop of main() with standard input [input]; every round reads at least
    one byte. *)
Fixpoint shell (fuel : nat) (input : list Z) : prog :=
  match fuel with
  | O => Stuck
  | S fuel =>
      let '(buf, rest) := gets (replicate 100 0) 100 input in
      Write 2 (bytes_of "$ ")
        (if hd 0 buf =? 0 then Exit 0
         else if bool_decide (take 3 buf = bytes_of "cd ") then
           let path := drop 3 (cstr (<[(Z.to_nat (strlen buf) - 1)%nat := 0]> buf)) in
           Chdir path (fun r =>
             if r <? 0 then fprintf 2 (bytes_of "cannot cd %s" ++ [10]) [Str (Some path)] (shell fuel rest)
             else shell fuel rest)
         else fork1 (runline buf) (Wait (shell fuel rest)))
  end.

(** [while((fd = open("console", O_RDWR)) >= 0) if(fd >= 3){ close(fd); break; }] *)
Fixpoint open_console (fuel : nat) (k : prog) : prog :=
  match fuel with
  | O => Stuck
  | S fuel =>
      Open (bytes_of "console") 2 (fun fd =>
        if fd <? 0 then k else if 3 <=? fd then Close fd k else open_console fuel k)
  end.

(** Each round that goes on has opened one of the descriptors 0 to 2. *)
Definition main (input : list Z) : prog := open_console 4 (shell (S (length input)) input).

(** ** What programs do *)

Inductive obj := Tty | File (name : list Z) (mode : Z) | PipeR (n : nat) | PipeW (n : nat).

Notation fds := (gmap Z obj).

Definition NOFILE : nat := 16.

(** The lowest free descriptor. *)
Definition lowest (t : fds) : option Z :=
  Z.of_nat ∘ fst <$> list_find (fun i => t !! Z.of_nat i = None) (seq 0 NOFILE).

Inductive event :=
| Ran (argv : list (list Z)) (t : fds)
| Spawned (child : list event)
| Waited
| Exited (status : Z)
| Said (fd : Z) (bytes : list Z).

Section Run.
Context (can_open : list Z -> Z -> bool) (can_exec : list Z -> bool).

(** What the process does, with descriptors [t]; [n] pipes have been made. *)
Fixpoint run (p : prog) (t : fds) (n : nat) : list event * nat :=
  match p with
  | Exit status => ([Exited status], n)
  | Exec path argv fail => if can_exec path then ([Ran argv t], n) else run fail t n
  | Close fd k => run k (delete fd t) n
  | Open file mode k =>
      match lowest t with
      | Some fd => if can_open file mode then run (k fd) (<[fd := File file mode]> t) n else run (k (-1)) t n
      | None => run (k (-1)) t n
      end
  | Dup fd k =>
      match t !! fd, lowest t with
      | Some o, Some fd' => run (k fd') (<[fd' := o]> t) n
      | _, _ => run (k (-1)) t n
      end
  | Pipe k =>
      match lowest t with
      | Some a =>
          match lowest (<[a := PipeR n]> t) with
          | Some b => run (k (Some (a, b))) (<[b := PipeW n]> (<[a := PipeR n]> t)) (S n)
          | None => run (k None) t n
          end
      | None => run (k None) t n
      end
  | Fork child k =>
      let '(ec, n) := run child t n in
      let '(ep, n) := run (k 1) t n in (Spawned ec :: ep, n)
  | Wait k => let '(e, n) := run k t n in (Waited :: e, n)
  | Chdir _ k => run (k 0) t n
  | Write fd bytes k => let '(e, n) := run k t n in (Said fd bytes :: e, n)
  | Stuck => ([], n)
  end.

(** What a command means: the descriptors of each program it runs. *)
Definition message (fmt : string) (w : list Z) : list Z :=
  default [] (vprintf false (bytes_of fmt ++ [10]) [Str (Some w)]).

Fixpoint meaning (c : cmd (list Z)) (t : fds) (n : nat) : list event * nat :=
  match c with
  | EXEC [] => ([Exited 1], n)
  | EXEC (a :: argv) =>
      if can_exec a then ([Ran (a :: argv) t], n) else ([Said 2 (message "exec %s failed" a); Exited 0], n)
  | REDIR c file mode fd =>
      if can_open file mode then meaning c (<[fd := File file mode]> t) n
      else ([Said 2 (message "open %s failed" file); Exited 1], n)
  | LIST l r =>
      let '(el, n) := meaning l t n in
      let '(er, n) := meaning r t n in (Spawned el :: Waited :: er, n)
  | PIPE l r =>
      let '(el, n1) := meaning l (<[1 := PipeW n]> t) (S n) in
      let '(er, n2) := meaning r (<[0 := PipeR n]> t) n1 in
      ([Spawned el; Spawned er; Waited; Waited; Exited 0], n2)
  | BACK c => let '(e, n) := meaning c t n in ([Spawned e; Exited 0], n)
  end.

(** The parser's redirections are of standard input or output. *)
Fixpoint redirs_ok (c : cmd (list Z)) : Prop :=
  match c with
  | EXEC _ => True
  | REDIR c _ _ fd => (fd = 0 \/ fd = 1) /\ redirs_ok c
  | PIPE l r | LIST l r => redirs_ok l /\ redirs_ok r
  | BACK c => redirs_ok c
  end.

(** Standard input, output and error are open, and there is room for a pipe. *)
Definition table_ok (t : fds) : Prop :=
  (forall i, 0 <= i <= 2 -> is_Some (t !! i)) /\ t !! 14 = None /\ t !! 15 = None.

Lemma lowest_spec t a :
  lowest t = Some a <-> 0 <= a < 16 /\ t !! a = None /\ forall j, 0 <= j < a -> is_Some (t !! j).
Proof.
  unfold lowest. rewrite fmap_Some. split.
  - intros ([i x] & (Hx & Hn & Hlt)%list_find_Some & ->). apply lookup_seq in Hx as [-> Hi]. unfold NOFILE in *. cbn in *.
    split; [lia|]. split; [done|]. intros j Hj.
    specialize (Hlt (Z.to_nat j) (Z.to_nat j)). rewrite Z2Nat.id in Hlt by lia.
    destruct (t !! j) eqn:E; [eauto|]. exfalso. apply Hlt; [|lia|done]. apply (lookup_seq 0 16). lia.
  - intros (Ha & Hn & Hlt). exists (Z.to_nat a, Z.to_nat a). split; [|cbn; lia]. apply list_find_Some.
    split; [apply lookup_seq; unfold NOFILE; lia|]. rewrite Z2Nat.id by lia. split; [done|].
    intros j y [-> Hj]%lookup_seq Hlt' Hy. destruct (Hlt (Z.of_nat j) ltac:(lia)) as [o Ho]. cbn in Hy. congruence.
Qed.

Lemma lowest_delete t fd :
  table_ok t -> fd = 0 \/ fd = 1 -> lowest (delete fd t) = Some fd.
Proof.
  intros (Ho & _) Hfd. apply lowest_spec. split; [lia|]. split; [apply lookup_delete_eq|].
  intros j Hj. rewrite lookup_delete_ne by lia. apply Ho. lia.
Qed.

Lemma table_ok_insert t fd o : table_ok t -> fd = 0 \/ fd = 1 -> table_ok (<[fd := o]> t).
Proof.
  intros (Ho & H1 & H2) Hfd. split; [|by rewrite !lookup_insert_ne by lia].
  intros i Hi. destruct (decide (fd = i)) as [->|Hne]; [rewrite lookup_insert_eq; eauto|]. rewrite lookup_insert_ne by done. auto.
Qed.

(** A pipe gets two descriptors above the standard ones. *)
Lemma pipe_fds t o : table_ok t ->
  exists a b, lowest t = Some a /\ lowest (<[a := o]> t) = Some b /\ 3 <= a /\ 3 <= b /\ a <> b /\ t !! a = None /\ t !! b = None.
Proof.
  intros (Ho & H14 & H15).
  assert (Hex : forall t' : fds, t' !! 14 = None \/ t' !! 15 = None -> exists a, lowest t' = Some a).
  { intros t' Hf. unfold lowest. destruct (list_find _ _) as [[i x]|] eqn:E; [by eexists|]. exfalso.
    apply list_find_None in E. rewrite Forall_forall in E.
    destruct Hf as [Hf|Hf]; [apply (E 14%nat)|apply (E 15%nat)]; try done; apply elem_of_seq; unfold NOFILE; lia. }
  assert (H3 : forall a, t !! a = None -> 0 <= a -> 3 <= a).
  { intros a Ha Hp. destruct (decide (a <= 2)) as [Hle|]; [|lia]. destruct (Ho a ltac:(lia)) as [x Hx]. congruence. }
  destruct (Hex t) as [a Ha]; [by left|]. pose proof Ha as (Hr & Hn & _)%lowest_spec.
  destruct (Hex (<[a := o]> t)) as [b Hb].
  { destruct (decide (a = 14)) as [->|]; [right|left]; by rewrite lookup_insert_ne. }
  pose proof Hb as (Hr' & Hn' & _)%lowest_spec. destruct (decide (a = b)) as [<-|Hne].
  { by rewrite lookup_insert_eq in Hn'. }
  rewrite lookup_insert_ne in Hn' by done. exists a, b. split; [done|]. split; [done|].
  split; [apply H3; [done|lia]|]. split; [apply H3; [done|lia]|]. done.
Qed.

(** A child's end of the pipe in place of its standard descriptor [fd]. *)
Lemma plumbed t a b fd x oa ob o k n :
  table_ok t -> fd = 0 \/ fd = 1 -> 3 <= a -> 3 <= b -> a <> b -> t !! a = None -> t !! b = None ->
  x = a /\ o = oa \/ x = b /\ o = ob ->
  run (Close fd (Dup x (fun _ => Close a (Close b k)))) (<[b := ob]> (<[a := oa]> t)) n = run k (<[fd := o]> t) n.
Proof.
  intros Ht Hfd Ha Hb Hab Hna Hnb Hx. cbn [run]. set (t2 := <[b := ob]> (<[a := oa]> t)).
  assert (Hl : lowest (delete fd t2) = Some fd).
  { destruct Ht as (Ho & _). apply lowest_spec. split; [lia|]. split; [apply lookup_delete_eq|].
    intros j Hj. rewrite lookup_delete_ne by lia. unfold t2. rewrite !lookup_insert_ne by lia. apply Ho. lia. }
  assert (Hxo : delete fd t2 !! x = Some o).
  { rewrite lookup_delete_ne by lia. unfold t2. destruct Hx as [[-> ->]|[-> ->]]; [rewrite lookup_insert_ne by done|];
      apply lookup_insert_eq. }
  rewrite Hxo, Hl. f_equal. apply map_eq. intros i. unfold t2.
  destruct (decide (i = a)) as [->|]; [|destruct (decide (i = b)) as [->|]; [|destruct (decide (i = fd)) as [->|]]].
  - rewrite lookup_delete_ne, lookup_delete_eq, lookup_insert_ne by lia. done.
  - rewrite lookup_delete_eq, lookup_insert_ne by lia. done.
  - rewrite !lookup_delete_ne, !lookup_insert_eq by lia. done.
  - rewrite !lookup_delete_ne, lookup_insert_ne, lookup_delete_ne, !lookup_insert_ne by lia. done.
Qed.

Lemma says fmt w k t n :
  vprintf false (bytes_of fmt ++ [10]) [Str (Some w)] <> None ->
  run (fprintf 2 (bytes_of fmt ++ [10]) [Str (Some w)] k) t n =
    (Said 2 (message fmt w) :: (run k t n).1, (run k t n).2).
Proof.
  intros Hv. unfold fprintf, message. destruct (vprintf _ _ _) as [out|]; [|done]. cbn [run default].
  by destruct (run k t n).
Qed.

Lemma fork1_run child parent t n :
  run (fork1 child parent) t n =
    (Spawned (run child t n).1 :: (run parent t (run child t n).2).1, (run parent t (run child t n).2).2).
Proof.
  unfold fork1. cbn [run]. destruct (run child t n) as [ec n1]. change (1 =? -1) with false. cbv iota. cbn [fst snd].
  by destruct (run parent t n1).
Qed.

(** runcmd() does what the command means. *)
Lemma runcmd_meaning c t n :
  redirs_ok c -> table_ok t -> run (runcmd c) t n = meaning c t n.
Proof.
  revert t n. induction c as [[|a argv]|c IH file mode fd|l IHl r IHr|l IHl r IHr|c IH]; intros t n Hc Ht.
  - done.
  - cbn [runcmd run meaning]. destruct (can_exec a); [done|]. by rewrite says.
  - destruct Hc as [Hfd Hc]. cbn [runcmd run meaning]. rewrite lowest_delete by done.
    destruct (can_open file mode); [|change (-1 <? 0) with true; cbv iota; by rewrite says]. rewrite (proj2 (Z.ltb_ge fd 0)), insert_delete_eq by lia.
    apply IH; [done|by apply table_ok_insert].
  - destruct Hc as [Hl Hr]. cbn [runcmd meaning].
    destruct (pipe_fds t (PipeR n) Ht) as (a & b & Ea & Eb & Ha & Hb & Hab & Hna & Hnb).
    set (k := fun p => _). cbn [run]. rewrite Ea, Eb. unfold k. rewrite !fork1_run.
    rewrite (plumbed t a b 1 b (PipeR n) (PipeW n) (PipeW n)), (plumbed t a b 0 a (PipeR n) (PipeW n) (PipeR n)) by auto.
    rewrite IHl by (done || by apply table_ok_insert; auto). destruct (meaning l _ _) as [el n1]. cbn [fst snd].
    rewrite IHr by (done || by apply table_ok_insert; auto). destruct (meaning r _ _) as [er n2]. done.
  - destruct Hc as [Hl Hr]. cbn [runcmd meaning]. rewrite fork1_run, IHl by done.
    destruct (meaning l t n) as [el n1]. cbn [fst snd run]. rewrite IHr by done. by destruct (meaning r t n1).
  - cbn [runcmd meaning]. rewrite fork1_run, IH by done. by destruct (meaning c t n).
Qed.

Lemma wrap_redirs_ok c rs : redirs_ok c -> redirs_ok (wrap c (redir_of <$> rs)).
Proof.
  intros Hc. revert c Hc. induction rs as [|[k w] rs IH]; intros c Hc; [done|]. apply IH. split; [|done].
  destruct k; cbn; auto.
Qed.

Lemma iter_redirs_ok n c : redirs_ok c -> redirs_ok (Nat.iter n BACK c).
Proof. intros Hc. by induction n. Qed.

(** The grammar only redirects standard input and output. *)
Lemma line_redirs_ok :
  (forall l, redirs_ok (line_cmd l)) /\ (forall p, redirs_ok (pipe_cmd p)) /\ (forall e, redirs_ok (stage_cmd e)).
Proof.
  apply line_mutind; intros; cbn [line_cmd pipe_cmd stage_cmd];
    [by apply iter_redirs_ok|split; [by apply iter_redirs_ok|done]|done|by split|by apply wrap_redirs_ok..].
Qed.


End Run.

Definition tty_fds : fds := {[0 := Tty; 1 := Tty; 2 := Tty]}.

