(* ===== verification/Umalloc.v ===== *)
(** * The user allocator: user/umalloc.c

    Pointers count in units of sizeof(Header), 16 bytes; [cells] holds the
    headers.  The free blocks form a ring through the static header [base],
    sorted by address and with no two of them adjacent; the roving pointer
    [freep] is somewhere on it.  [Inv] says so, and that the allocated blocks lie
    in the heap, disjoint from each other and from the free ones; malloc() and
    free() preserve it. *)

From Stdlib Require Import Sorted.
From S2P Require Import Prelude.

Record header := Header { ptr : Z; size : Z }.

Record heap := mkheap { cells : gmap Z header; freep : Z; brk : Z }.

(** Decides a comparison and gives it to [lia]. *)
Ltac cmp b := let E := fresh "E" in destruct b eqn:E; destruct_bool.

Section Malloc.
Context (base : Z) (sbrk_grants : Z -> Z -> bool).

(** The loop of free() that finds the place of [bp] in the ring. *)
Fixpoint find_place (fuel : nat) (m : gmap Z header) (bp p : Z) : option Z :=
  match fuel with
  | O => None
  | S fuel =>
      h ← m !! p;
      if (p <? bp) && (bp <? ptr h) then Some p
      else if (ptr h <=? p) && ((p <? bp) || (bp <? ptr h)) then Some p
      else find_place fuel m bp (ptr h)
  end.

(** A walk around the ring visits each header once. *)
Definition ring_fuel (m : gmap Z header) : nat := S (base.size m).

Definition free (ap : Z) (st : heap) : option heap :=
  let bp := ap - 1 in
  p ← find_place (ring_fuel (cells st)) (cells st) bp (freep st);
  hb ← cells st !! bp;
  hp ← cells st !! p;
  hb ← (if bp + size hb =? ptr hp
        then hn ← cells st !! ptr hp; Some (Header (ptr hn) (u32 (size hb + size hn)))
        else Some (Header (ptr hp) (size hb)));
  let hp := if p + size hp =? bp then Header (ptr hb) (u32 (size hp + size hb)) else Header bp (size hp) in
  Some (mkheap (<[p := hp]> (<[bp := hb]> (cells st))) p (brk st)).

(** sbrk(n): the old break, moved by [n] bytes.  The kernel ignores a shrink
    below address 0. *)
Definition sbrk (n : Z) (st : heap) : option Z * heap :=
  if sbrk_grants (brk st) n
  then (Some (brk st), mkheap (cells st) (freep st) (if 0 <=? brk st + n / 16 then brk st + n / 16 else brk st))
  else (None, st).

(** [None] inside is the null pointer. *)
Definition morecore (nu : Z) (st : heap) : option (option Z * heap) :=
  let nu := if nu <? 4096 then 4096 else nu in
  match sbrk (s32 (nu * 16)) st with
  | (None, st) => Some (None, st)
  | (Some hp, st) =>
      let h := Header (default 0 (ptr <$> cells st !! hp)) nu in
      st ← free (hp + 1) (mkheap (<[hp := h]> (cells st)) (freep st) (brk st));
      Some (Some (freep st), st)
  end.

(** The loop of malloc(). *)
Fixpoint search (fuel : nat) (nunits prevp p : Z) (st : heap) : option (option Z * heap) :=
  match fuel with
  | O => None
  | S fuel =>
      h ← cells st !! p;
      if nunits <=? size h then
        if size h =? nunits then
          hprev ← cells st !! prevp;
          Some (Some (p + 1), mkheap (<[prevp := Header (ptr h) (size hprev)]> (cells st)) prevp (brk st))
        else
          let m := <[p := Header (ptr h) (size h - nunits)]> (cells st) in
          let q := p + (size h - nunits) in
          let hq := Header (default 0 (ptr <$> m !! q)) nunits in
          Some (Some (q + 1), mkheap (<[q := hq]> m) prevp (brk st))
      else if p =? freep st then
        r ← morecore nunits st;
        match r with
        | (None, st) => Some (None, st)
        | (Some p, st) => h ← cells st !! p; search fuel nunits p (ptr h) st
        end
      else search fuel nunits p (ptr h) st
  end.

Definition units (nbytes : Z) : Z := u32 ((nbytes + 16 - 1) / 16 + 1).

(** The first call makes a ring of [base] alone. *)
Definition opened (st : heap) : heap :=
  if freep st =? 0 then mkheap (<[base := Header base 0]> (cells st)) base (brk st) else st.

(** One walk before and one after the heap has grown. *)
Definition malloc (nbytes : Z) (st : heap) : option (option Z * heap) :=
  let nunits := units nbytes in
  let st := opened st in
  let prevp := freep st in
  h ← cells st !! prevp;
  search (ring_fuel (cells st) + S (ring_fuel (cells st))) nunits prevp (ptr h) st.

(** ** The ring of free blocks *)

Notation blocks := (list (Z * Z)).

Definition head (l : blocks) (z : Z) : Z := match l with [] => z | (a, _) :: _ => a end.

(** [l] is linked in memory, its last block to [z]. *)
Fixpoint linked (m : gmap Z header) (l : blocks) (z : Z) : Prop :=
  match l with
  | [] => True
  | (a, s) :: l' => m !! a = Some (Header (head l' z) s) /\ linked m l' z
  end.

(** Sorted, each block after a gap that follows [e]. *)
Fixpoint apart (e : Z) (l : blocks) : Prop :=
  match l with
  | [] => True
  | (a, s) :: l' => e < a /\ 0 < s /\ apart (a + s) l'
  end.

Definition disjoint_blocks (b c : Z * Z) : Prop := b.1 + b.2 <= c.1 \/ c.1 + c.2 <= b.1.

Context (lo : Z).

Definition inside (hi : Z) (b : Z * Z) : Prop := lo <= b.1 /\ 0 < b.2 /\ b.1 + b.2 <= hi.

(** The allocated blocks, header address to size in units. *)
Record allocated (m : gmap Z header) (hi : Z) (R : blocks) (A : gmap Z Z) : Prop := {
  alloc_header : forall a s, A !! a = Some s -> exists q, m !! a = Some (Header q s);
  alloc_inside : forall a s, A !! a = Some s -> inside hi (a, s);
  alloc_free : forall a s b, A !! a = Some s -> b ∈ R -> disjoint_blocks (a, s) b;
  alloc_alloc : forall a s a' s', A !! a = Some s -> A !! a' = Some s' -> a <> a' ->
    disjoint_blocks (a, s) (a', s')
}.

Definition free_units (R : blocks) : Z := foldr (fun b t => b.2 + t) 0 R.

Definition used_units (A : gmap Z Z) : Z := map_fold (fun _ s t => s + t) 0 A.

(** Every unit of the heap is in a free or in an allocated block. *)
Record Inv (st : heap) (R : blocks) (A : gmap Z Z) : Prop := {
  inv_low : 0 < base < lo;
  inv_brk : lo <= brk st < 2 ^ 28;
  inv_freep : freep st ∈ (base :: R.*1);
  inv_linked : linked (cells st) ((base, 0) :: R) base;
  inv_apart : apart base R;
  inv_inside : Forall (inside (brk st)) R;
  inv_alloc : allocated (cells st) (brk st) R A;
  inv_tiles : free_units R + used_units A = brk st - lo
}.

Lemma head_app l1 l2 z : head (l1 ++ l2) z = head l1 (head l2 z).
Proof. by destruct l1 as [|[]]. Qed.

Lemma linked_app m l1 l2 z : linked m (l1 ++ l2) z <-> linked m l1 (head l2 z) /\ linked m l2 z.
Proof. induction l1 as [|[a s] l1 IH]; cbn; [tauto|]. rewrite head_app, IH. tauto. Qed.

Lemma linked_insert m l z a h : a ∉ l.*1 -> linked (<[a := h]> m) l z <-> linked m l z.
Proof.
  induction l as [|[b s] l IH]; cbn; [done|]. intros [H1 H2]%not_elem_of_cons.
  rewrite lookup_insert_ne by done. by rewrite IH.
Qed.

Lemma apart_weaken e e' l : e' <= e -> apart e l -> apart e' l.
Proof. destruct l as [|[a s] l]; cbn; [done|]. intros ? (? & ? & ?). repeat split; [lia|done..]. Qed.

Lemma apart_app e l1 a s l2 :
  apart e (l1 ++ (a, s) :: l2) <-> apart e l1 /\ apart e [(a, s)] /\ Forall (fun b => b.1 + b.2 < a) l1 /\ apart (a + s) l2.
Proof.
  revert e. induction l1 as [|[b t] l1 IH]; intros e; cbn; [naive_solver|].
  rewrite IH. cbn. rewrite Forall_cons. cbn. intuition lia.
Qed.

Lemma apart_above e l b : apart e l -> b ∈ l -> e < b.1 /\ 0 < b.2.
Proof.
  revert e. induction l as [|[a s] l IH]; cbn; intros e H Hb; [by apply elem_of_nil in Hb|].
  destruct H as (H1 & H2 & H3). apply elem_of_cons in Hb as [->|Hb]; [done|].
  destruct (IH _ H3 Hb). lia.
Qed.

Notation ascending := (StronglySorted (fun b c : Z * Z => b.1 < c.1)).

Lemma apart_ascending e l : apart e l -> ascending l.
Proof.
  revert e. induction l as [|[a s] l IH]; cbn; intros e H; [constructor|].
  destruct H as (H1 & H2 & H3). constructor; [by eapply IH|].
  apply Forall_forall. intros b Hb. cbn. destruct (apart_above _ _ _ H3 Hb). lia.
Qed.

Lemma ring_ascending R : apart base R -> ascending ((base, 0) :: R).
Proof.
  intros H. constructor; [by eapply apart_ascending|].
  apply Forall_forall. intros b Hb. by destruct (apart_above _ _ _ H Hb).
Qed.

Lemma ascending_app l1 l2 : ascending (l1 ++ l2) -> ascending l1 /\ ascending l2 /\
  forall b c, b ∈ l1 -> c ∈ l2 -> b.1 < c.1.
Proof.
  induction l1 as [|b l1 IH]; cbn.
  - intros H. repeat split; [constructor|done|]. intros ? ? H1%elem_of_nil. done.
  - intros H. apply StronglySorted_inv in H as [H1 H2]. destruct (IH H1) as (H3 & H4 & H5).
    rewrite Forall_app, !Forall_forall in H2. destruct H2 as [H2 H6]. repeat split; [|done|].
    + constructor; [done|by apply Forall_forall].
    + intros x c [->|Hx]%elem_of_cons Hc; eauto.
Qed.

Lemma ascending_nodup l : ascending l -> NoDup l.*1.
Proof.
  induction 1 as [|b l Hl IH Hb]; cbn; constructor; [|done].
  intros (c & Hc & Hin)%list_elem_of_fmap. rewrite Forall_forall in Hb. specialize (Hb _ Hin). cbn in Hb. lia.
Qed.

Lemma linked_length m l z : NoDup l.*1 -> linked m l z -> (length l <= base.size m)%nat.
Proof.
  intros Hn Hl. assert (list_to_set l.*1 ⊆ dom m) as Hs.
  { clear Hn. induction l as [|[a s] l IH]; cbn in *; [set_solver|].
    destruct Hl as [Ha Hl]. apply elem_of_dom_2 in Ha. set_solver. }
  apply subseteq_size in Hs. rewrite size_list_to_set, length_fmap in Hs by done.
  by rewrite size_dom in Hs.
Qed.

(** From a block before the place. *)
Lemma place_before m bp p sp R P : forall fuel,
  linked m (P ++ (p, sp) :: R) base -> ascending (P ++ [(p, sp)]) -> base <= p < bp ->
  Forall (fun b => bp < b.1) R -> (length P < fuel)%nat ->
  find_place fuel m bp (head (P ++ [(p, sp)]) base) = Some p.
Proof.
  induction P as [|[q t] P IH]; intros [|fuel]; cbn; try lia; intros [H1 H2] Hs Hp HR Hf; rewrite H1; cbn.
  - destruct R as [|[r u] R]; cbn.
    + cmp (bp <? base); [lia|]. rewrite andb_false_r.
      cmp (base <=? p); [|lia]. by cmp (p <? bp); [|lia].
    + apply Forall_cons in HR as [HR _]. cbn in HR.
      cmp (p <? bp); [|lia]. by cmp (bp <? r); [|lia].
  - apply StronglySorted_inv in Hs as [Hs Hq].
    assert (head (P ++ (p, sp) :: R) base = head (P ++ [(p, sp)]) base) as -> by by destruct P as [|[]].
    assert (q < head (P ++ [(p, sp)]) base <= p) as Hh.
    { destruct P as [|[q' t'] P]; cbn in *; [rewrite Forall_cons in Hq; cbn in Hq; lia|].
      rewrite Forall_cons in Hq. cbn in Hq. apply StronglySorted_inv in Hs as [_ Hs].
      rewrite Forall_app, Forall_cons in Hs. cbn in Hs. lia. }
    cmp (bp <? head (P ++ [(p, sp)]) base); [lia|]. rewrite andb_false_r.
    cmp (head (P ++ [(p, sp)]) base <=? q); [lia|]. cbn. apply IH; auto with lia.
Qed.

(** From a block after it. *)
Lemma place_after m bp S : forall fuel,
  linked m S base -> ascending S -> Forall (fun b => bp < b.1) S -> base < bp ->
  find_place (length S + fuel) m bp (head S base) = find_place fuel m bp base.
Proof.
  induction S as [|[q t] S IH]; intros fuel; cbn; [done|]. intros [H1 H2] Hs HS Hb. rewrite H1. cbn.
  apply Forall_cons in HS as [Hq HS]. cbn in Hq. cmp (q <? bp); [lia|]. cbn.
  apply StronglySorted_inv in Hs as [Hs Hs']. destruct S as [|[r u] S].
  - cbn. cmp (bp <? base); [lia|]. by rewrite andb_false_r.
  - apply Forall_cons in Hs' as [Hr _]. cbn in Hr. cbn [head]. cmp (r <=? q); [lia|]. cbn [andb].
    by apply IH.
Qed.

Lemma in_blocks a (l : blocks) : a ∈ l.*1 -> exists s l1 l2, l = l1 ++ (a, s) :: l2.
Proof.
  intros ([b s] & -> & H)%list_elem_of_fmap. apply list_elem_of_split in H as (l1 & l2 & ->). by eauto.
Qed.

(** From any block of the ring, the walk finds the block before [bp]. *)
Lemma find_place_ok m bp P p sp R f :
  linked m (P ++ (p, sp) :: R) base -> ascending (P ++ (p, sp) :: R) -> head (P ++ [(p, sp)]) base = base ->
  base <= p < bp -> Forall (fun b => bp < b.1) R -> f ∈ (P ++ (p, sp) :: R).*1 ->
  find_place (ring_fuel m) m bp f = Some p.
Proof.
  intros Hl Hs Hb Hp HR Hf. pose proof (linked_length _ _ _ (ascending_nodup _ Hs) Hl) as Hlen.
  rewrite length_app in Hlen. cbn in Hlen. unfold ring_fuel.
  change (P ++ (p, sp) :: R) with (P ++ [(p, sp)] ++ R) in Hs, Hf. rewrite app_assoc in Hs, Hf.
  destruct (ascending_app _ _ Hs) as (Hs1 & Hs2 & _). rewrite fmap_app in Hf. apply elem_of_app in Hf as [Hf|Hf].
  - apply in_blocks in Hf as (t & X & Y & E).
    destruct (decide (Y = [])) as [->|HY].
    + apply app_inj_tail in E as [-> [= -> ->]]. apply linked_app in Hl as [_ Hl].
      apply (place_before m bp f t R []); cbn; auto with lia. repeat constructor.
    + apply exists_last in HY as (Y' & b & ->). rewrite app_comm_cons, app_assoc in E. apply app_inj_tail in E as [-> <-].
      rewrite <- app_assoc in Hl, Hs1. apply linked_app in Hl as [_ Hl]. apply ascending_app in Hs1 as (_ & Hs1 & _).
      rewrite length_app in Hlen. apply (place_before m bp p sp R ((f, t) :: Y')); auto. cbn in *. lia.
  - apply in_blocks in Hf as (t & X & Y & ->).
    change (P ++ (p, sp) :: X ++ (f, t) :: Y) with (P ++ ((p, sp) :: X) ++ (f, t) :: Y) in Hl.
    pose proof Hl as Hl2. rewrite !linked_app in Hl2. destruct Hl2 as (_ & _ & Hl2).
    apply ascending_app in Hs2 as (_ & Hs2 & _). pose proof HR as HR2. apply Forall_app in HR2 as [_ HR2].
    rewrite length_app in Hlen. cbn in Hlen.
    replace (S (base.size m)) with (length ((f, t) :: Y) + (S (base.size m) - length ((f, t) :: Y)))%nat by (cbn; lia).
    change f with (head ((f, t) :: Y) base) at 1. rewrite place_after; auto with lia.
    rewrite <- Hb at 1. eapply place_before; eauto. cbn. lia.
Qed.

(** ** Moving blocks around *)

(** [Y] has the units of [X], in coarser blocks. *)
Record refits (X Y : blocks) : Prop := {
  refit_length : (length Y <= length X)%nat;
  refit_units : free_units Y = free_units X;
  refit_disjoint : forall x, 0 < x.2 -> Forall (disjoint_blocks x) X -> Forall (disjoint_blocks x) Y;
  refit_covers : forall b, b ∈ X -> exists c, c ∈ Y /\ c.1 <= b.1 /\ b.1 + b.2 <= c.1 + c.2;
  refit_inside : forall hi, Forall (inside hi) X -> Forall (inside hi) Y
}.

Lemma free_units_app X Y : free_units (X ++ Y) = free_units X + free_units Y.
Proof. unfold free_units. induction X as [|b X IH]; cbn; [done|]. rewrite IH. lia. Qed.

Lemma free_units_cons b X : free_units (b :: X) = b.2 + free_units X.
Proof. done. Qed.

#[local] Instance refits_refl : Reflexive refits.
Proof. intros X. split; auto. intros b Hb. exists b. auto with lia. Qed.

#[local] Instance refits_trans : Transitive refits.
Proof.
  intros X Y Z [a0 a1 a2 a3 a4] [b0 b1 b2 b3 b4]. split; auto; [lia|congruence|].
  intros b Hb. destruct (a3 b Hb) as (c & Hc & ? & ?). destruct (b3 c Hc) as (d & ? & ? & ?). exists d. auto with lia.
Qed.

Lemma refits_app X Y V W : refits X Y -> refits V W -> refits (X ++ V) (Y ++ W).
Proof.
  intros [a0 a1 a2 a3 a4] [b0 b1 b2 b3 b4]. split.
  - rewrite !length_app. lia.
  - rewrite !free_units_app. lia.
  - intros x Hx. rewrite !Forall_app. naive_solver.
  - intros b [Hb|Hb]%elem_of_app; [destruct (a3 b Hb) as (c & ? & ?)|destruct (b3 b Hb) as (c & ? & ?)];
      exists c; rewrite elem_of_app; auto.
  - intros hi. rewrite !Forall_app. naive_solver.
Qed.

Lemma refits_merge a s t : 0 < s -> 0 < t -> refits [(a, s); (a + s, t)] [(a, s + t)].
Proof.
  intros Hs Ht. split.
  - cbn. lia.
  - cbn. lia.
  - intros [x u] Hu. rewrite !Forall_cons. unfold disjoint_blocks. cbn in *. intuition lia.
  - intros b Hb. exists (a, s + t). split; [by left|]. set_unfold in Hb. destruct Hb as [->|[->|[]]]; cbn; lia.
  - intros hi. rewrite !Forall_cons. unfold inside. cbn. intuition lia.
Qed.

Lemma linked_set m P p s R z : NoDup (P ++ (p, s) :: R).*1 -> linked m P p -> linked m R z ->
  linked (<[p := Header (head R z) s]> m) (P ++ (p, s) :: R) z.
Proof.
  rewrite fmap_app. intros (H1 & H2 & H3)%NoDup_app HP HR. apply NoDup_cons in H3 as [H3 H4]. apply linked_app. split.
  - cbn. apply linked_insert; [|done]. intros H. eapply H2; [exact H|by left].
  - cbn. rewrite lookup_insert_eq. split; [done|]. by apply linked_insert.
Qed.

(** The blocks before and after a block that is not free. *)
Lemma split_at e R bp n : 0 < n -> apart e R -> Forall (disjoint_blocks (bp, n)) R ->
  exists R1 R2, R = R1 ++ R2 /\ Forall (fun b => b.1 + b.2 <= bp) R1 /\ Forall (fun b => bp + n <= b.1) R2.
Proof.
  intros Hn. revert e. induction R as [|[a s] R IH]; cbn; intros e; [by exists [], []|].
  intros (H1 & H2 & H3) [[H|H]%or_comm HR]%Forall_cons; cbn in H.
  - destruct (IH _ H3 HR) as (R1 & R2 & -> & ? & ?). exists ((a, s) :: R1), R2.
    repeat split; [|done]. constructor; [cbn; lia|done].
  - exists [], ((a, s) :: R). repeat split; [constructor|]. constructor; [cbn; lia|].
    apply Forall_forall. intros b Hb. destruct (apart_above _ _ _ H3 Hb). lia.
Qed.

(** Joining [bp] to the block after it. *)
Lemma join_next m bp n R2 e hi : 0 < n -> lo <= bp -> 0 < lo -> hi < 2 ^ 28 -> base < bp -> linked m R2 base -> apart e R2 ->
  Forall (fun b => bp + n <= b.1) R2 -> Forall (inside hi) R2 ->
  exists n' R2',
    (if bp + n =? head R2 base
     then hn ← m !! head R2 base; Some (Header (ptr hn) (u32 (n + size hn)))
     else Some (Header (head R2 base) n)) = Some (Header (head R2' base) n') /\
    linked m R2' base /\ apart (bp + n') R2' /\ 0 < n' /\ refits ((bp, n) :: R2) ((bp, n') :: R2').
Proof.
  intros Hn Hlo Hlo0 Hhi Hb Hl Ha HR Hi. destruct R2 as [|[a s] R2]; cbn.
  - cmp (bp + n =? base); [lia|]. exists n, []. cbn. split_and!; done || reflexivity.
  - destruct Hl as [Hm Hl]. destruct Ha as (Ha & Hs & Ha'). apply Forall_cons in HR as [HR _].
    apply Forall_cons in Hi as [(Hi1 & _ & Hi2) _]. cbn in *. cmp (bp + n =? a).
    + subst a. rewrite Hm. cbn. exists (n + s), R2. rewrite u32_small by lia. replace (bp + (n + s)) with (bp + n + s) by lia.
      split_and!; auto with lia. apply (refits_app [_; _] [_] R2 R2); [by apply refits_merge|reflexivity].
    + exists n, ((a, s) :: R2). cbn. split_and!; auto with lia. reflexivity.
Qed.

(** Joining it to the block before it. *)
Lemma join_prev R1 P p sp bp n' R2' : (base, 0) :: R1 = P ++ [(p, sp)] -> base < bp -> apart base R1 ->
  Forall (fun b => b.1 + b.2 <= bp) R1 -> 0 < n' -> apart (bp + n') R2' ->
  exists R', (base, 0) :: R' = P ++ (if p + sp =? bp then [(p, sp + n')] else [(p, sp); (bp, n')]) ++ R2' /\
    apart base R' /\ refits (R1 ++ (bp, n') :: R2') R'.
Proof.
  intros E Hb Ha HR Hn Ha2. destruct P as [|b P]; simplify_eq/=.
  - rewrite Z.add_0_r. cmp (p =? bp); [lia|]. exists ((bp, n') :: R2'). split_and!; done || reflexivity.
  - apply apart_app in Ha as (Ha & (Hp & Hsp & _) & HP & _).
    apply Forall_app in HR as [_ HR]. apply Forall_cons in HR as [HR _]. cbn in HR.
    rewrite <- (app_assoc P). cmp (p + sp =? bp); cbn; eexists; (split; [done|]); rewrite apart_app; cbn.
    + subst bp. rewrite Z.add_assoc. split_and!; auto with lia. apply refits_app; [reflexivity|].
      apply (refits_app [_; _] [_] R2' R2'); [by apply refits_merge|reflexivity].
    + split_and!; auto with lia. reflexivity.
Qed.

Lemma used_units_delete A bp n : A !! bp = Some n -> used_units (delete bp A) = used_units A - n.
Proof.
  intros H. unfold used_units. rewrite (map_fold_delete_L _ _ bp n A); [lia| |done]. intros. lia.
Qed.

Lemma used_units_insert A bp n : A !! bp = None -> used_units (<[bp := n]> A) = used_units A + n.
Proof.
  intros H. unfold used_units. rewrite map_fold_insert_L; [lia| |done]. intros. lia.
Qed.

(** The free blocks may be refitted, and headers outside the allocated blocks change. *)
Lemma allocated_refit m m' hi R R' A : allocated m hi R A -> refits R R' ->
  (forall a s, A !! a = Some s -> m' !! a = m !! a) -> allocated m' hi R' A.
Proof.
  intros [h1 h2 h3 h4] HR Hm. split; auto.
  - intros a s H. rewrite (Hm _ _ H). eauto.
  - intros a s b H Hb. pose proof (refit_disjoint _ _ HR (a, s)) as Hd. destruct (h2 _ _ H) as (_ & H2 & _).
    rewrite !Forall_forall in Hd. apply (Hd H2); [|done]. eauto.
Qed.

Lemma allocated_release m hi R1 R2 A bp n : allocated m hi (R1 ++ R2) A -> A !! bp = Some n ->
  allocated m hi (R1 ++ (bp, n) :: R2) (delete bp A).
Proof.
  intros [h1 h2 h3 h4] Hb. split.
  - intros a s [_ H]%lookup_delete_Some. eauto.
  - intros a s [_ H]%lookup_delete_Some. eauto.
  - intros a s b [Hne H]%lookup_delete_Some. rewrite elem_of_app, elem_of_cons. intros [?|[->|?]]; [|by eauto|];
      apply (h3 a s b H); rewrite elem_of_app; auto.
  - intros a s a' s' [_ H]%lookup_delete_Some [_ H']%lookup_delete_Some. eauto.
Qed.

(** The ring split at an allocated block. *)
Lemma ring_at st R A bp n : Inv st R A -> A !! bp = Some n ->
  exists R1 R2 P p sp, R = R1 ++ R2 /\ (base, 0) :: R1 = P ++ [(p, sp)] /\
    Forall (fun b => b.1 + b.2 <= bp) R1 /\ Forall (fun b => bp + n <= b.1) R2 /\
    base <= p < bp /\ linked (cells st) (P ++ (p, sp) :: R2) base /\ ascending (P ++ (p, sp) :: R2).
Proof.
  intros HI HA. destruct (alloc_inside _ _ _ _ (inv_alloc _ _ _ HI) _ _ HA) as (Hb & Hn & _). cbn in Hb, Hn.
  pose proof (inv_low _ _ _ HI). pose proof (inv_linked _ _ _ HI) as Hl. pose proof (ring_ascending _ (inv_apart _ _ _ HI)) as Hs.
  destruct (split_at base R bp n Hn (inv_apart _ _ _ HI)) as (R1 & R2 & -> & H1 & H2).
  { apply Forall_forall. intros b. by apply (alloc_free _ _ _ _ (inv_alloc _ _ _ HI)). }
  destruct (@exists_last _ ((base, 0) :: R1)) as (P & [p sp] & E); [done|].
  assert ((base, 0) :: R1 ++ R2 = P ++ (p, sp) :: R2) as E2 by (rewrite app_comm_cons, E; by rewrite <- app_assoc).
  rewrite E2 in Hl, Hs. exists R1, R2, P, p, sp. split_and!; auto.
  - destruct P as [|b P]; simplify_eq/=; [lia|]. destruct (apart_above _ _ (p, sp) (inv_apart _ _ _ HI)); [set_solver|]. cbn in *. lia.
  - destruct P as [|b P]; simplify_eq/=; [lia|]. apply Forall_app in H1 as [_ H1]. apply Forall_cons in H1 as [H1 _].
    destruct (apart_above _ _ (p, sp) (inv_apart _ _ _ HI)); [set_solver|]. cbn in *. lia.
Qed.

(** What free() leaves of the ring. *)
Lemma relink m P p sp R2 bp q n' R2' R' :
  linked m (P ++ (p, sp) :: R2) base -> linked m R2' base -> apart base R' ->
  (base, 0) :: R' = P ++ (if p + sp =? bp then [(p, sp + n')] else [(p, sp); (bp, n')]) ++ R2' -> p <> bp ->
  q = head R2' base ->
  bp ∉ P.*1 -> bp ∉ R2'.*1 ->
  linked (<[p := if p + sp =? bp then Header q (sp + n') else Header bp sp]> (<[bp := Header q n']> m)) ((base, 0) :: R') base.
Proof.
  intros Hl Hl' Ha E Hne -> HP HR. pose proof (ascending_nodup _ (ring_ascending _ Ha)) as Hn. rewrite E in Hn |- *.
  apply linked_app in Hl as [Hl _]. cbn in Hl. cmp (p + sp =? bp); cbn in *.
  - apply linked_set; [done|by apply linked_insert..].
  - apply (linked_set _ P p sp ((bp, n') :: R2') base); [done|by apply linked_insert|].
    apply (linked_set _ [] bp n' R2' base); [|done..]. rewrite fmap_app in Hn. by apply NoDup_app in Hn as (_ & _ & [_ Hn]%NoDup_cons).
Qed.

Lemma apart_split e l1 l2 : apart e (l1 ++ l2) -> apart e l1 /\ apart e l2.
Proof.
  revert e. induction l1 as [|[a s] l1 IH]; cbn; intros e H; [done|]. destruct H as (H1 & H2 & H3).
  destruct (IH _ H3) as [H4 H5]. split_and!; auto. eapply apart_weaken; [|exact H5]. lia.
Qed.

Lemma not_in_blocks (l : blocks) (a : Z) : Forall (fun b => b.1 <> a) l -> a ∉ l.*1.
Proof. rewrite Forall_forall. intros H (b & -> & Hb)%list_elem_of_fmap. by apply (H b). Qed.

(** An allocated header is not on the ring. *)
Lemma ring_not_allocated st R A a s : Inv st R A -> A !! a = Some s -> a ∉ ((base, 0) :: R).*1.
Proof.
  intros HI HA. destruct (alloc_inside _ _ _ _ (inv_alloc _ _ _ HI) _ _ HA) as (Hb & Hn & _). cbn in *.
  pose proof (inv_low _ _ _ HI). apply not_elem_of_cons. split; [lia|]. apply not_in_blocks, Forall_forall. intros b Hin E.
  pose proof (alloc_free _ _ _ _ (inv_alloc _ _ _ HI) _ _ _ HA Hin) as Hd. unfold disjoint_blocks in Hd. cbn in Hd.
  destruct (apart_above _ _ _ (inv_apart _ _ _ HI) Hin). lia.
Qed.

(** The invariant, when the ring is refitted around a released block. *)
Lemma inv_refit st m p R1 R2 R' A bp n : Inv st (R1 ++ R2) A -> A !! bp = Some n ->
  refits (R1 ++ (bp, n) :: R2) R' -> apart base R' -> linked m ((base, 0) :: R') base -> p ∈ (base :: R'.*1) ->
  (forall a s, A !! a = Some s -> a <> bp -> m !! a = cells st !! a) ->
  Inv (mkheap m p (brk st)) R' (delete bp A).
Proof.
  intros [] HA HR Ha Hl Hp Hm. split; cbn; auto.
  - apply (refit_inside _ _ HR). rewrite Forall_app, Forall_cons. apply Forall_app in inv_inside0 as [].
    split_and!; auto. by apply (alloc_inside _ _ _ _ inv_alloc0).
  - eapply allocated_refit; [by apply allocated_release|done|].
    intros a s [? ?]%lookup_delete_Some. eauto.
  - rewrite (used_units_delete _ _ n) by done. rewrite (refit_units _ _ HR), free_units_app in *. cbn.
    rewrite <- inv_tiles0. unfold free_units. cbn. lia.
Qed.

(** Sizes stay below the heap's, so they do not wrap. *)
Lemma merged_size p sp bp n' P R' R2' hi h : 0 < lo -> hi < 2 ^ 28 -> Forall (inside hi) R' ->
  (base, 0) :: R' = P ++ (if p + sp =? bp then [(p, sp + n')] else [(p, sp); (bp, n')]) ++ R2' ->
  (if p + sp =? bp then Header h (u32 (sp + n')) else Header bp sp) =
  (if p + sp =? bp then Header h (sp + n') else Header bp sp).
Proof.
  intros Hlo Hhi Hin E. destruct (p + sp =? bp); [|done]. f_equal.
  assert ((p, sp + n') ∈ (base, 0) :: R') as [[= _ E']|H]%elem_of_cons by (rewrite E; set_solver).
  - by rewrite E'.
  - rewrite Forall_forall in Hin. destruct (Hin _ H) as (? & ? & ?). cbn in *. rewrite u32_small; lia.
Qed.

Lemma free_ok st R A bp n : Inv st R A -> A !! bp = Some n ->
  exists st' R', free (bp + 1) st = Some st' /\ Inv st' R' (delete bp A) /\ brk st' = brk st /\
    (length R' <= S (length R))%nat /\ exists c, c ∈ R' /\ n <= c.2.
Proof.
  intros HI HA. destruct (ring_at _ _ _ _ _ HI HA) as (R1 & R2 & P & p & sp & -> & E & H1 & H2 & Hp & Hl & Hs).
  pose proof (inv_alloc _ _ _ HI) as Hal. pose proof (alloc_inside _ _ _ _ Hal _ _ HA) as (Hb & Hn & Hhi). cbn in Hb, Hn, Hhi.
  pose proof (inv_low _ _ _ HI). pose proof (inv_brk _ _ _ HI) as Hbrk.
  destruct (alloc_header _ _ _ _ Hal _ _ HA) as [q Hq].
  pose proof (inv_inside _ _ _ HI) as Hin. apply Forall_app in Hin as [Hin1 Hin2].
  pose proof (inv_apart _ _ _ HI) as Hap. apply apart_split in Hap as [Ha1 Ha2].
  unfold free. replace (bp + 1 - 1) with bp by lia.
  rewrite (find_place_ok _ bp P p sp R2); auto with lia.
  2: { rewrite <- E. done. }
  2: { eapply Forall_impl; [exact H2|]. cbn. lia. }
  2: { pose proof (inv_freep _ _ _ HI) as Hf. revert Hf. change (base :: (R1 ++ R2).*1) with ((base, 0) :: R1 ++ R2).*1.
       rewrite app_comm_cons, E, <- app_assoc. done. }
  destruct (join_next (cells st) bp n R2 base (brk st)) as (n' & R2' & En & Hl' & Ha' & Hn' & Hr); auto with lia.
  { apply linked_app in Hl. apply Hl. }
  destruct (join_prev R1 P p sp bp n' R2') as (R' & E' & HaR & Hr2); auto with lia.
  assert (refits (R1 ++ (bp, n) :: R2) R') as HR.
  { etrans; [apply refits_app; [reflexivity|exact Hr]|exact Hr2]. }
  assert (cells st !! p = Some (Header (head R2 base) sp)) as Hmp by (apply linked_app in Hl; apply Hl).
  cbn. rewrite Hq. cbn. rewrite Hmp. cbn. rewrite En. cbn. eexists _, R'. split; [done|].
  assert (p ∈ (base :: R'.*1)) as HpR.
  { change (p ∈ ((base, 0) :: R').*1). rewrite E'. rewrite !fmap_app, !elem_of_app. right. left. case_match; left. }
  pose proof (ring_not_allocated _ _ _ _ _ HI HA) as Hnb.
  rewrite app_comm_cons, E, <- app_assoc, fmap_app, not_elem_of_app in Hnb. destruct Hnb as [Hnb _].
  split_and!; [|done|..].
  - rewrite (merged_size p sp bp n' P R' R2' (brk st)); auto with lia.
    2: { apply (refit_inside _ _ HR), Forall_app; auto. by rewrite Forall_cons. }
    eapply inv_refit; eauto.
    + eapply relink; eauto with lia. apply not_in_blocks, Forall_forall. intros b Hb'.
      destruct (apart_above _ _ _ Ha' Hb'). lia.
    + intros a s Ha Hne. rewrite !lookup_insert_ne; auto. intros ->.
      apply (ring_not_allocated _ _ _ _ _ HI Ha). rewrite app_comm_cons, E, <- app_assoc, fmap_app, elem_of_app. right. left.
  - pose proof (refit_length _ _ HR) as Hlen. rewrite !length_app in *. cbn in Hlen. lia.
  - destruct (refit_covers _ _ HR (bp, n)) as (c & Hc & H3 & H4); [set_solver|]. exists c. cbn in *.
    split; [done|]. lia.
Qed.

(** ** Taking a block from the ring *)

Definition within (b c : Z * Z) : Prop := c.1 <= b.1 /\ b.1 + b.2 <= c.1 + c.2.

Lemma allocated_take m m' hi R R' A a n q c : allocated m hi R A -> Forall (inside hi) R -> 0 < n ->
  c ∈ R -> within (a, n) c ->
  (forall b, b ∈ R' -> disjoint_blocks (a, n) b /\ exists c, c ∈ R /\ within b c) ->
  m' !! a = Some (Header q n) -> (forall a' s, A !! a' = Some s -> m' !! a' = m !! a') ->
  allocated m' hi R' (<[a := n]> A).
Proof.
  unfold within, disjoint_blocks. intros [h1 h2 h3 h4] Hin Hn Hc Hw HR Ha Hm. rewrite Forall_forall in Hin.
  pose proof (Hin _ Hc) as Hic. unfold inside in *. cbn in *.
  assert (forall a' s', A !! a' = Some s' -> disjoint_blocks (a', s') (a, n)) as Hd.
  { intros a' s' H. specialize (h3 _ _ _ H Hc). unfold disjoint_blocks in *. cbn in *. lia. }
  unfold disjoint_blocks in *. cbn in *. split.
  - intros x s [[<- <-]|[_ H]]%lookup_insert_Some; [eauto|]. rewrite (Hm _ _ H). eauto.
  - intros x s [[<- <-]|[_ H]]%lookup_insert_Some; unfold inside; [cbn; lia|by apply (h2 _ _ H)].
  - intros x s b [[<- <-]|[_ H]]%lookup_insert_Some Hb; [by apply HR|].
    destruct (HR _ Hb) as (_ & d & Hd' & ? & ?). specialize (h3 _ _ _ H Hd'). unfold disjoint_blocks in *. cbn in *. lia.
  - intros x s x' s' [[<- <-]|[_ H]]%lookup_insert_Some [[<- <-]|[_ H']]%lookup_insert_Some Hne; unfold disjoint_blocks; cbn;
      [done|specialize (Hd _ _ H'); lia|specialize (Hd _ _ H); lia|by apply (h4 _ _ _ _ H H')].
Qed.

(** What is left of a block of [sp] units when its last [n] are taken. *)
Definition keep (p sp n : Z) : blocks := if sp =? n then [] else [(p, sp - n)].

Lemma apart_keep R1 p sp T n : 0 < n <= sp -> apart base (R1 ++ (p, sp) :: T) ->
  apart base (R1 ++ keep p sp n ++ T).
Proof.
  intros Hn H. apply apart_app in H as (H1 & (H2 & H3 & _) & H4 & H5). unfold keep. cmp (sp =? n); cbn.
  - subst sp. destruct T as [|[a s] T]; [by rewrite app_nil_r|]. destruct H5 as (? & ? & ?). apply apart_app. cbn.
    split_and!; auto with lia. eapply Forall_impl; [exact H4|]. cbn. lia.
  - apply apart_app. cbn. split_and!; auto with lia. eapply apart_weaken; [|done]. lia.
Qed.

Lemma tail_unused st R1 p sp T A n : Inv st (R1 ++ (p, sp) :: T) A -> 0 < n <= sp -> A !! (p + (sp - n)) = None.
Proof.
  intros [] Hn. destruct (A !! (p + (sp - n))) as [s|] eqn:HA; [|done]. exfalso.
  assert ((p, sp) ∈ R1 ++ (p, sp) :: T) as Hc by set_solver.
  pose proof (alloc_free _ _ _ _ inv_alloc0 _ _ _ HA Hc) as Hd.
  destruct (alloc_inside _ _ _ _ inv_alloc0 _ _ HA) as (_ & Hs & _). unfold disjoint_blocks in Hd. cbn in *. lia.
Qed.

Lemma carve_inv st R1 p sp T A n m f q : Inv st (R1 ++ (p, sp) :: T) A -> 0 < n <= sp ->
  linked m ((base, 0) :: R1 ++ keep p sp n ++ T) base -> f ∈ (base :: (R1 ++ keep p sp n ++ T).*1) ->
  m !! (p + (sp - n)) = Some (Header q n) -> (forall a s, A !! a = Some s -> m !! a = cells st !! a) ->
  Inv (mkheap m f (brk st)) (R1 ++ keep p sp n ++ T) (<[p + (sp - n) := n]> A).
Proof.
  intros HI Hn Hl Hf Ha Hm. assert ((p, sp) ∈ R1 ++ (p, sp) :: T) as Hc by set_solver.
  pose proof (tail_unused _ _ _ _ _ _ _ HI Hn) as HA. destruct HI.
  pose proof inv_apart0 as Hap. apply apart_app in Hap as (_ & _ & HR1 & HT). split; cbn; auto.
  - by apply apart_keep.
  - rewrite !Forall_app, Forall_cons in *. destruct inv_inside0 as (? & (? & ? & ?) & ?). split_and!; auto.
    unfold keep. cmp (sp =? n); constructor; [|done]. unfold inside. cbn in *. lia.
  - eapply (allocated_take _ _ _ _ _ _ _ _ _ (p, sp)); eauto with lia; [unfold within; cbn; lia|].
    intros b. rewrite !elem_of_app. unfold disjoint_blocks, within. rewrite Forall_forall in HR1. intros [Hb|[Hb|Hb]].
    + specialize (HR1 _ Hb). cbn in *. split; [lia|]. exists b. split; [rewrite elem_of_app; auto|lia].
    + unfold keep in Hb. revert Hb. cmp (sp =? n); [intros []%elem_of_nil|]. intros ->%list_elem_of_singleton. cbn.
      split; [lia|]. exists (p, sp). cbn. auto with lia.
    + destruct (apart_above _ _ _ HT Hb). cbn in *. split; [lia|]. exists b. split; [rewrite elem_of_app, elem_of_cons; auto|lia].
  - rewrite used_units_insert by done. rewrite !free_units_app, ?free_units_cons in *.
    unfold keep. cmp (sp =? n); rewrite ?free_units_cons; cbn in *; lia.
Qed.

(** ** The search *)

Lemma ring_cells st R A P a s T : Inv st R A -> (base, 0) :: R = P ++ (a, s) :: T ->
  cells st !! a = Some (Header (head T base) s).
Proof. intros [] E. rewrite E in inv_linked0. apply linked_app in inv_linked0. apply inv_linked0. Qed.

Lemma blocks_nodup st R A : Inv st R A -> NoDup ((base, 0) :: R).*1.
Proof. intros []. by apply ascending_nodup, ring_ascending. Qed.

Lemma tail_off_ring st R1 p sp T A n : Inv st (R1 ++ (p, sp) :: T) A -> 0 < n < sp ->
  p + (sp - n) ∉ ((base, 0) :: R1 ++ (p, sp - n) :: T).*1.
Proof.
  intros [] Hn. apply apart_app in inv_apart0 as (H1 & (H2 & _) & H3 & H4). rewrite Forall_forall in H3.
  apply not_in_blocks. apply Forall_cons. split; [cbn; lia|]. apply Forall_app. split.
  - apply Forall_forall. intros b Hb. specialize (H3 _ Hb). destruct (apart_above _ _ _ H1 Hb). lia.
  - apply Forall_cons. split; [cbn; lia|]. apply Forall_forall. intros b Hb. destruct (apart_above _ _ _ H4 Hb). lia.
Qed.

(** The block found is taken. *)
Lemma take_ok fuel st R A n P q sq p sp T : Inv st R A -> (base, 0) :: R = P ++ (q, sq) :: (p, sp) :: T ->
  0 < n <= sp -> exists a st' R', search (S fuel) n q p st = Some (Some (a + 1), st') /\
    A !! a = None /\ Inv st' R' (<[a := n]> A) /\ brk st' = brk st.
Proof.
  intros HI E Hn. pose proof (ring_cells _ _ _ (P ++ [(q, sq)]) p sp T HI) as Hp.
  rewrite <- app_assoc in Hp. specialize (Hp E). pose proof (ring_cells _ _ _ _ _ _ _ HI E) as Hq.
  assert (exists R1, (base, 0) :: R1 = P ++ [(q, sq)] /\ R = R1 ++ (p, sp) :: T) as (R1 & E1 & ->).
  { destruct P as [|b P]; simplify_eq/=; [by exists []|]. exists (P ++ [(q, sq)]). by rewrite <- app_assoc. }
  pose proof (blocks_nodup _ _ _ HI) as Hnd. pose proof (inv_linked _ _ _ HI) as Hl.
  pose proof (ring_ascending _ (apart_keep _ _ _ _ n Hn (inv_apart _ _ _ HI))) as Hk. apply ascending_nodup in Hk.
  assert (forall a s, A !! a = Some s -> a <> q /\ a <> p) as HA.
  { intros a s Ha. pose proof (ring_not_allocated _ _ _ _ _ HI Ha) as Hr. rewrite E, fmap_app in Hr. set_solver. }
  rewrite app_comm_cons, E1 in Hl, Hk, Hnd. pose proof Hl as Hl2. apply linked_app in Hl2 as [HlP [_ HlT]].
  cbn. rewrite Hp. cbn. cmp (n <=? sp); [|lia].
  assert (q ∈ (base :: (R1 ++ keep p sp n ++ T).*1)) as Hf.
  { change (q ∈ ((base, 0) :: R1 ++ keep p sp n ++ T).*1). rewrite app_comm_cons, E1. rewrite !fmap_app, !elem_of_app. left. right. by left. }
  pose proof (tail_unused _ _ _ _ _ _ _ HI Hn) as Hun.
  cmp (sp =? n); cbn; rewrite ?Hq; cbn; eexists _, _, (R1 ++ keep p sp n ++ T); (split; [done|]).
  - assert (p + (sp - n) = p) as Ep by lia. rewrite Ep in Hun. split_and!; [done| |done].
    replace (<[p := n]> A) with (<[p + (sp - n) := n]> A) by by rewrite Ep. eapply carve_inv; eauto.
    + unfold keep in *. revert Hk. cmp (sp =? n); [|lia]. cbn [app]. rewrite app_comm_cons, E1, <- !app_assoc. intros Hk.
      apply linked_set; [done|by apply linked_app in HlP as [HlP _]|done].
    + rewrite Ep, lookup_insert_ne; [by subst|]. rewrite <- app_assoc, fmap_app in Hnd.
      apply NoDup_app in Hnd as (_ & _ & [Hnd _]%NoDup_cons). intros ->. apply Hnd. by left.
    + intros a s Ha. destruct (HA _ _ Ha). by rewrite lookup_insert_ne.
  - split_and!; [done| |done]. eapply carve_inv; eauto.
    + pose proof (tail_off_ring st R1 p sp T A n HI ltac:(lia)) as Ho.
      unfold keep in *. revert Hk Ho. cmp (sp =? n); [lia|]. cbn [app]. rewrite app_comm_cons, E1. intros Hk Ho.
      apply linked_insert; [done|]. by apply linked_set.
    + by rewrite lookup_insert_eq.
    + intros a s Ha. destruct (HA _ _ Ha). rewrite !lookup_insert_ne; [done..|]. intros <-. by rewrite Hun in Ha.
Qed.

(** Blocks that are too small are passed over. *)
Lemma scan_ok n st W : forall P q sq T fuel, linked (cells st) (P ++ (q, sq) :: W ++ T) base ->
  Forall (fun b => b.2 < n /\ b.1 <> freep st) W -> exists P' q' sq', P ++ (q, sq) :: W = P' ++ [(q', sq')] /\
    search (length W + fuel) n q (head (W ++ T) base) st = search fuel n q' (head T base) st.
Proof.
  induction W as [|[p sp] W IH]; intros P q sq T fuel Hl HW; [by exists P, q, sq|].
  apply Forall_cons in HW as [[Hs Hf] HW]. cbn in Hs, Hf.
  destruct (IH (P ++ [(q, sq)]) p sp T fuel) as (P' & q' & sq' & E & IH'); [by rewrite <- app_assoc|done|].
  exists P', q', sq'. rewrite <- app_assoc in E. split; [done|]. rewrite <- IH'.
  apply linked_app in Hl as (_ & _ & Hp & _). cbn. rewrite Hp. cbn. cmp (n <=? sp); [lia|]. by cmp (p =? freep st).
Qed.

Lemma first_fit n (Y : blocks) : Forall (fun b => b.2 < n) Y \/
  exists W b T, Y = W ++ b :: T /\ Forall (fun b => b.2 < n) W /\ n <= b.2.
Proof.
  induction Y as [|b Y IH]; [by left|]. destruct (decide (n <= b.2)) as [Hb|Hb]; [right; by exists [], b, Y|].
  destruct IH as [IH|(W & c & T & -> & HW & Hc)]; [left|right]; [|exists (b :: W), c, T; split_and!; auto];
    (constructor; [lia|done]).
Qed.

(** Where [freep] is on the ring. *)
Lemma ring_freep st R A : Inv st R A -> exists X sf Y, (base, 0) :: R = X ++ (freep st, sf) :: Y /\
  Forall (fun b => b.1 <> freep st) X /\ Forall (fun b => b.1 <> freep st) Y.
Proof.
  intros HI. destruct (in_blocks (freep st) ((base, 0) :: R)) as (sf & X & Y & E); [apply (inv_freep _ _ _ HI)|].
  exists X, sf, Y. split; [done|]. pose proof (blocks_nodup _ _ _ HI) as Hn. rewrite E, fmap_app in Hn.
  apply NoDup_app in Hn as (_ & H1 & [H2 _]%NoDup_cons). rewrite !Forall_forall. split; intros b Hb Heq.
  - apply (H1 b.1); [by apply (list_elem_of_fmap_2 fst)|]. rewrite Heq. by left.
  - apply H2. cbn. rewrite <- Heq. exact (list_elem_of_fmap_2 fst _ _ Hb).
Qed.

Lemma small_others n f (W : blocks) : Forall (fun b => b.2 < n) W -> Forall (fun b => b.1 <> f) W ->
  Forall (fun b => b.2 < n /\ b.1 <> f) W.
Proof. rewrite !Forall_forall. auto. Qed.

(** Past [base], to the first block of the ring. *)
Lemma scan_base n st R A q fuel : Inv st R A -> 0 < n -> freep st <> base ->
  search (S fuel) n q base st = search fuel n base (head R base) st.
Proof.
  intros HI Hn Hf. cbn [search]. rewrite (ring_cells _ _ _ [] base 0 R HI) by done. cbn.
  cmp (n <=? 0); [lia|]. by cmp (base =? freep st).
Qed.

(** The outcome of a search that finds a block. *)
Definition taken (r : option (option Z * heap)) (st : heap) (A : gmap Z Z) (n : Z) : Prop :=
  exists a st' R', r = Some (Some (a + 1), st') /\ A !! a = None /\ Inv st' R' (<[a := n]> A) /\ brk st' = brk st.

Lemma scan_take st R A n P q sq W p sp T fuel : Inv st R A -> (base, 0) :: R = P ++ (q, sq) :: W ++ (p, sp) :: T ->
  Forall (fun b => b.2 < n) W -> Forall (fun b => b.1 <> freep st) W -> 0 < n <= sp -> (length W < fuel)%nat ->
  taken (search fuel n q (head (W ++ (p, sp) :: T) base) st) st A n.
Proof.
  intros HI E HW HW' Hn Hfuel. pose proof (inv_linked _ _ _ HI) as Hl. rewrite E in Hl.
  destruct (scan_ok n st W P q sq ((p, sp) :: T) (fuel - length W)) as (P' & q' & sq' & E' & Hrun);
    [done|by apply small_others|].
  replace (length W + (fuel - length W))%nat with fuel in Hrun by lia. rewrite Hrun.
  destruct (fuel - length W)%nat as [|k] eqn:Ek; [lia|]. cbn [head]. eapply take_ok; eauto.
  rewrite E. change (P ++ (q, sq) :: W ++ (p, sp) :: T) with (P ++ ((q, sq) :: W) ++ (p, sp) :: T).
  by rewrite app_assoc, E', <- app_assoc.
Qed.

(** With a block that is large enough, the search takes one. *)
Lemma search_fit st R A n fuel : Inv st R A -> 0 < n -> (exists c, c ∈ R /\ n <= c.2) -> (length R < fuel)%nat ->
  exists h, cells st !! freep st = Some h /\ taken (search fuel n (freep st) (ptr h) st) st A n.
Proof.
  intros HI Hn (c & Hc & Hcn) Hfuel. destruct (ring_freep _ _ _ HI) as (X & sf & Y & E & HX & HY).
  exists (Header (head Y base) sf). split; [by eapply ring_cells|]. cbn [ptr].
  pose proof (inv_linked _ _ _ HI) as Hl. pose proof (f_equal length E) as Elen. rewrite length_app in Elen. cbn in Elen.
  destruct (first_fit n Y) as [HYn|(W & [p sp] & T & -> & HW & Hp)].
  2: { apply Forall_app in HY as [HY _]. rewrite length_app in Elen. cbn in Elen. eapply scan_take; eauto with lia. }
  destruct (scan_ok n st Y X (freep st) sf [] (fuel - length Y)) as (P' & q' & sq' & E' & Hrun);
    [by rewrite app_nil_r, <- E|by apply small_others|].
  rewrite app_nil_r in Hrun. replace (length Y + (fuel - length Y))%nat with fuel in Hrun by lia. rewrite Hrun. cbn [head].
  destruct (fuel - length Y)%nat as [|k] eqn:Ek; [lia|].
  destruct X as [|b X]; cbn [app] in E; simplify_eq; cbn [length] in *.
  { rewrite Forall_forall in HYn. specialize (HYn _ Hc). lia. }
  apply Forall_cons in HX as [HX0 HX]. cbn in HX0. rewrite (scan_base n st (X ++ (freep st, sf) :: Y) A) by (done || congruence).
  destruct (first_fit n X) as [HXn|(W & [p sp] & T & -> & HW & Hp)].
  - rewrite elem_of_app, elem_of_cons in Hc. rewrite !Forall_forall in HYn, HXn.
    destruct Hc as [Hc|[->|Hc]]; [specialize (HXn _ Hc); lia| |specialize (HYn _ Hc); lia].
    rewrite length_app in *. cbn in Hcn, Hfuel. eapply (scan_take st _ A n [] base 0 X (freep st) sf Y k); eauto with lia. by apply Forall_forall.
  - apply Forall_app in HX as [HX _]. rewrite <- app_assoc. cbn [app].
    eapply (scan_take st _ A n [] base 0 W p sp (T ++ (freep st, sf) :: Y) k); eauto with lia.
    + by rewrite <- app_assoc.
    + rewrite !length_app in *. cbn in *. lia.
Qed.

(** Without one, it goes around the ring and asks for more memory. *)
Lemma search_nofit st R A n fuel : Inv st R A -> 0 < n -> Forall (fun b => b.2 < n) R ->
  exists h, cells st !! freep st = Some h /\
    search (length R + S fuel) n (freep st) (ptr h) st =
    (r ← morecore n st;
     match r with
     | (None, st) => Some (None, st)
     | (Some p, st) => h ← cells st !! p; search fuel n p (ptr h) st
     end).
Proof.
  intros HI Hn HR. destruct (ring_freep _ _ _ HI) as (X & sf & Y & E & HX & HY).
  exists (Header (head Y base) sf). split; [by eapply ring_cells|]. cbn [ptr].
  assert (sf < n) as Hsf.
  { destruct X; simplify_eq/=; [done|]. by apply Forall_app in HR as [_ [HR _]%Forall_cons]. }
  pose proof (ring_cells _ _ _ _ _ _ _ HI E) as Hf. pose proof (inv_linked _ _ _ HI) as Hl.
  assert (forall q, search (S fuel) n q (freep st) st = (r ← morecore n st;
     match r with
     | (None, st) => Some (None, st)
     | (Some p, st) => h ← cells st !! p; search fuel n p (ptr h) st
     end)) as Hlast.
  { intros q. cbn [search]. rewrite Hf. cbn. cmp (n <=? sf); [lia|]. by rewrite Z.eqb_refl. }
  assert (forall k, exists q, search (length Y + k) n (freep st) (head Y base) st = search k n q base st) as HscanY.
  { intros k. destruct (scan_ok n st Y X (freep st) sf [] k) as (P' & q' & sq' & _ & Hrun); [by rewrite app_nil_r, <- E| |].
    - apply small_others; [|done]. destruct X; simplify_eq/=; [done|]. by apply Forall_app in HR as [_ [_ HR]%Forall_cons].
    - rewrite app_nil_r in Hrun. eauto. }
  destruct X as [|b X]; cbn [app] in E; simplify_eq.
  - destruct (HscanY (S fuel)) as [q ->]. rewrite <- (Hlast q). by f_equal.
  - apply Forall_cons in HX as [HX0 HX]. cbn in HX0. apply Forall_app in HR as [HR _]. rewrite length_app. cbn [length].
    replace (length X + S (length Y) + S fuel)%nat with (length Y + S (length X + S fuel))%nat by lia.
    destruct (HscanY (S (length X + S fuel))) as [q ->]. rewrite (scan_base n st (X ++ (freep st, sf) :: Y) A) by (done || congruence).
    destruct (scan_ok n st X [] base 0 ((freep st, sf) :: Y) (S fuel)) as (P' & q' & sq' & _ & Hrun);
      [done|by apply small_others|]. rewrite Hrun. apply Hlast.
Qed.

(** ** malloc() *)

(** The kernel keeps the size of a process in a uint. *)
Context (sbrk_limit : forall b n, sbrk_grants b n = true -> b + n / 16 < 2 ^ 28).

Lemma grow_inv st R A nu q : Inv st R A -> 0 < nu -> brk st + nu < 2 ^ 28 ->
  Inv (mkheap (<[brk st := Header q nu]> (cells st)) (freep st) (brk st + nu)) R (<[brk st := nu]> A) /\ A !! brk st = None.
Proof.
  intros [] Hnu Hb. destruct inv_alloc0 as [h1 h2 h3 h4].
  assert (A !! brk st = None) as HA.
  { destruct (A !! brk st) as [s|] eqn:HA; [|done]. destruct (h2 _ _ HA) as (? & ? & ?). cbn in *. lia. }
  assert (brk st ∉ ((base, 0) :: R).*1) as Hn.
  { apply not_in_blocks, Forall_cons. split; [cbn; lia|]. eapply Forall_impl; [exact inv_inside0|].
    intros b (? & ? & ?). cbn in *. lia. }
  split; [|done]. rewrite Forall_forall in inv_inside0. unfold inside, disjoint_blocks in *. split; cbn [brk cells freep]; auto.
  - lia.
  - by apply linked_insert.
  - apply Forall_forall. intros b Hb'. specialize (inv_inside0 _ Hb'). unfold inside. lia.
  - split; unfold inside, disjoint_blocks.
    + intros a s [[<- <-]|[Hne H]]%lookup_insert_Some; [rewrite lookup_insert_eq|rewrite lookup_insert_ne by done]; eauto.
    + intros a s [[<- <-]|[Hne H]]%lookup_insert_Some; [cbn; lia|]. specialize (h2 _ _ H). lia.
    + intros a s b [[<- <-]|[Hne H]]%lookup_insert_Some Hb'; [|eauto]. specialize (inv_inside0 _ Hb'). cbn in *. lia.
    + intros a s a' s' [[<- <-]|[Hne H]]%lookup_insert_Some [[<- <-]|[Hne' H']]%lookup_insert_Some Hd; [done| | |eauto];
        [specialize (h2 _ _ H')|specialize (h2 _ _ H)]; cbn in *; lia.
  - rewrite used_units_insert by done. lia.
Qed.

Lemma morecore_ok st R A n : Inv st R A -> 0 < n < 2 ^ 27 ->
  (morecore n st = Some (None, st) /\ sbrk_grants (brk st) (Z.max 4096 n * 16) = false) \/
  exists st' R', morecore n st = Some (Some (freep st'), st') /\ Inv st' R' A /\
    (length R' <= S (length R))%nat /\ exists c, c ∈ R' /\ n <= c.2.
Proof using All.
  intros HI Hn. unfold morecore, sbrk.
  replace (if n <? 4096 then 4096 else n) with (Z.max 4096 n) by (cmp (n <? 4096); lia).
  rewrite s32_small by lia. destruct (sbrk_grants (brk st) (Z.max 4096 n * 16)) eqn:Eg; [right|by left].
  pose proof (sbrk_limit _ _ Eg) as Hlim. rewrite Z.div_mul in Hlim |- * by done.
  pose proof (inv_brk _ _ _ HI). pose proof (inv_low _ _ _ HI). cmp (0 <=? brk st + Z.max 4096 n); [|lia].
  cbn [cells freep brk]. set (q := default 0 _).
  destruct (grow_inv st R A (Z.max 4096 n) q HI) as [HI' HA]; [lia..|].
  destruct (free_ok _ _ _ (brk st) (Z.max 4096 n) HI') as (st' & R' & Hf & HI2 & _ & Hlen & c & Hc & Hcn); [by rewrite lookup_insert_eq|].
  rewrite Hf. rewrite delete_insert_id in HI2 by done. exists st', R'. split_and!; auto. exists c. auto with lia.
Qed.

Lemma units_ok n : 0 <= n < 2 ^ 31 - 64 -> 0 < units n < 2 ^ 27 /\ n <= 16 * (units n - 1).
Proof.
  intros Hn. unfold units. pose proof (Z.div_mod (n + 16 - 1) 16 ltac:(done)).
  pose proof (Z.mod_pos_bound (n + 16 - 1) 16 ltac:(done)). rewrite u32_small; lia.
Qed.

Lemma ring_length st R A : Inv st R A -> (S (length R) <= base.size (cells st))%nat.
Proof. intros HI. exact (linked_length _ _ _ (blocks_nodup _ _ _ HI) (inv_linked _ _ _ HI)). Qed.

(** A block that fits is taken; else the heap grows, unless the kernel refuses. *)
Lemma malloc_fit st R A n : Inv (opened st) R A -> 0 <= n < 2 ^ 31 - 64 -> (exists c, c ∈ R /\ units n <= c.2) ->
  taken (malloc n st) (opened st) A (units n).
Proof.
  intros HI Hn Hc. destruct (units_ok n Hn) as [Hu _]. pose proof (ring_length _ _ _ HI).
  unfold malloc. set (fuel := (_ + _)%nat).
  destruct (search_fit _ _ _ (units n) fuel HI) as (h & Hh & Ht); [lia|done|unfold fuel, ring_fuel; lia|].
  rewrite Hh. exact Ht.
Qed.

Lemma malloc_ok st R A n : Inv (opened st) R A -> 0 <= n < 2 ^ 31 - 64 ->
  (malloc n st = Some (None, opened st) /\ Forall (fun b => b.2 < units n) R /\
   sbrk_grants (brk (opened st)) (Z.max 4096 (units n) * 16) = false) \/
  exists a st' R', malloc n st = Some (Some (a + 1), st') /\ A !! a = None /\ Inv st' R' (<[a := units n]> A).
Proof using All.
  intros HI Hn. destruct (units_ok n Hn) as [Hu _]. destruct (first_fit (units n) R) as [HR|(W & b & T & -> & _ & Hb)].
  2: { right. destruct (malloc_fit st _ A n HI Hn) as (a & st' & R' & ? & ? & ? & _); [exists b; set_solver|]. eauto 6. }
  pose proof (ring_length _ _ _ HI) as Hlen. unfold malloc.
  set (fuel := (ring_fuel (cells (opened st)) + S (ring_fuel (cells (opened st))))%nat).
  assert (exists k, fuel = length R + S k /\ S (length R) < k)%nat as (k & -> & Hk).
  { exists (fuel - S (length R))%nat. unfold fuel, ring_fuel. lia. }
  destruct (search_nofit _ _ _ (units n) k HI) as (h & Hh & Hrun); [lia|done|]. rewrite Hh. cbn [mbind option_bind]. rewrite Hrun.
  destruct (morecore_ok _ _ _ _ HI Hu) as [[-> Hg]|(st' & R' & -> & HI' & HR' & Hc)]; [by left|right]. cbn.
  destruct (search_fit _ _ _ (units n) k HI') as (h' & Hh' & a & st2 & R2 & Hs & ? & ? & _); [lia|done|lia|].
  rewrite Hh'. cbn. rewrite Hs. by exists a, st2, R2.
Qed.

(** ** A client *)

Inductive call := Malloc (nbytes : Z) | Free (p : Z).

(** The live blocks, address to bytes asked for; a client frees only those. *)
Definition serve (c : call) (s : heap * gmap Z Z) : option (heap * gmap Z Z) :=
  let '(st, live) := s in
  match c with
  | Malloc n =>
      r ← malloc n st;
      match r with
      | (Some p, st) => Some (st, <[p := n]> live)
      | (None, st) => Some (st, live)
      end
  | Free p =>
      match live !! p with
      | Some _ => st ← free p st; Some (st, delete p live)
      | None => Some (st, live)
      end
  end.

Fixpoint serve_all (cs : list call) (s : heap * gmap Z Z) : option (heap * gmap Z Z) :=
  match cs with
  | [] => Some s
  | c :: cs => s ← serve c s; serve_all cs s
  end.

(** The live blocks are the allocated ones. *)
Definition serving (s : heap * gmap Z Z) : Prop :=
  exists R A, Inv (opened s.1) R A /\ (freep s.1 = 0 -> A = ∅) /\
    (forall p, s.2 !! p = None <-> A !! (p - 1) = None) /\
    forall p n, s.2 !! p = Some n -> A !! (p - 1) = Some (units n) /\ 0 <= n < 2 ^ 31 - 64.

Lemma inv_open st R A : Inv st R A -> freep st <> 0.
Proof.
  intros HI E. pose proof (inv_low _ _ _ HI).
  pose proof (inv_freep _ _ _ HI) as Hf. rewrite E in Hf. apply elem_of_cons in Hf as [Hf|Hf]; [lia|].
  apply list_elem_of_fmap in Hf as (b & Eb & Hf). destruct (apart_above _ _ _ (inv_apart _ _ _ HI) Hf). lia.
Qed.

Lemma opened_id st : freep st <> 0 -> opened st = st.
Proof. intros H. unfold opened. by cmp (freep st =? 0). Qed.

Lemma serving_inv st R A live : Inv st R A -> (forall p, live !! p = None <-> A !! (p - 1) = None) ->
  (forall p n, live !! p = Some n -> A !! (p - 1) = Some (units n) /\ 0 <= n < 2 ^ 31 - 64) -> serving (st, live).
Proof.
  intros HI HN HS. pose proof (inv_open _ _ _ HI) as Hf. exists R, A. cbn [fst snd]. rewrite opened_id by done. by split_and!.
Qed.

Lemma serve_ok c s : serving s -> match c with Malloc n => 0 <= n < 2 ^ 31 - 64 | Free _ => True end ->
  exists s', serve c s = Some s' /\ serving s'.
Proof using All.
  destruct s as [st live]. intros Hserving Hc. pose proof Hserving as (R & A & HI & H0 & HN & HS).
  cbn [fst snd serve] in *. destruct c as [n|p].
  - destruct (malloc_ok _ _ _ _ HI Hc) as [(-> & _ & _)|(a & st' & R' & -> & HA & HI')]; (eexists; split; [done|]).
    + by eapply serving_inv.
    + eapply serving_inv; [exact HI'|..].
      * intros p. rewrite !lookup_insert_None, HN. intuition lia.
      * intros p m [[<- <-]|[Hne H]]%lookup_insert_Some.
        -- replace (a + 1 - 1) with a by lia. by rewrite lookup_insert_eq.
        -- rewrite lookup_insert_ne by lia. eauto.
  - destruct (live !! p) as [n|] eqn:Hp; [|by eauto].
    destruct (HS _ _ Hp) as [HA _]. assert (freep st <> 0) as Hf by (intros E; by rewrite (H0 E) in HA).
    rewrite opened_id in HI by done.
    destruct (free_ok _ _ _ _ _ HI HA) as (st' & R' & Hr & HI' & _). replace (p - 1 + 1) with p in Hr by lia.
    rewrite Hr. eexists. split; [done|]. eapply serving_inv; [exact HI'|..].
    + intros x. rewrite !lookup_delete_None, HN. intuition lia.
    + intros x m [Hne H]%lookup_delete_Some. rewrite lookup_delete_ne by lia. eauto.
Qed.

(** Blocks with gaps between them leave units out. *)
Lemma units_room e R hi : apart e R -> Forall (inside hi) R -> R <> [] -> free_units R < hi - e.
Proof.
  revert e. induction R as [|[a s] R IH]; [done|]. intros e (H1 & H2 & H3) [(Hi1 & Hi2 & Hi3) HR]%Forall_cons _.
  rewrite free_units_cons. cbn [fst snd] in *. destruct R as [|b R]; [unfold free_units; cbn; lia|].
  specialize (IH _ H3 HR ltac:(done)). lia.
Qed.

(** With nothing allocated, the heap is one free block. *)
Lemma all_free st R n : Inv st R ∅ -> 0 < n <= brk st - lo -> exists c, c ∈ R /\ n <= c.2.
Proof.
  intros [] Hn. rewrite (map_fold_empty _ _ : used_units ∅ = 0) in inv_tiles0.
  destruct R as [|[a s] R]; [unfold free_units in inv_tiles0; cbn in inv_tiles0; lia|]. rewrite free_units_cons in inv_tiles0.
  destruct inv_apart0 as (H1 & H2 & H3). apply Forall_cons in inv_inside0 as [(Hi & _) HR]. cbn [fst snd] in *.
  exists (a, s). split; [by left|]. cbn [snd]. destruct R as [|b R]; [unfold free_units in inv_tiles0; cbn in inv_tiles0; lia|].
  pose proof (units_room _ _ _ H3 HR ltac:(done)). lia.
Qed.

(** The heap of a process that has not called malloc() yet. *)
Definition untouched (m : gmap Z header) : heap := mkheap m 0 lo.

Lemma serving_untouched m : 0 < base < lo -> lo < 2 ^ 28 -> serving (untouched m, ∅).
Proof.
  intros Hb Hlo. exists [], ∅. cbn [fst snd]. split_and!; [|done|done|intros p n H; by rewrite lookup_empty in H].
  change (opened (untouched m)) with (mkheap (<[base := Header base 0]> m) base lo). split; cbn; auto with lia.
  - by left.
  - rewrite lookup_insert_eq. done.
  - split; intros *; rewrite lookup_empty; done.
  - unfold used_units, free_units. rewrite map_fold_empty. cbn. lia.
Qed.

Lemma serve_all_ok cs : forall s, serving s ->
  Forall (fun c => match c with Malloc n => 0 <= n < 2 ^ 31 - 64 | Free _ => True end) cs ->
  exists s', serve_all cs s = Some s' /\ serving s'.
Proof using All.
  induction cs as [|c cs IH]; intros s Hs Hcs; [by exists s|]. apply Forall_cons in Hcs as [Hc Hcs].
  destruct (serve_ok c s Hs Hc) as (s' & E & Hs'). cbn [serve_all]. rewrite E. by apply IH.
Qed.

(** C10: the allocator is safe and does not leak.  Whatever sequence of malloc()
    and free() calls a program makes, freeing only what it has got, every call
    returns; the live blocks have the bytes asked for inside the heap and do not
    overlap; and when all of them have been freed the heap is one free block
    again, so that any request it has room for succeeds without growing it. *)
Theorem malloc_safe m cs : 0 < base < lo -> lo < 2 ^ 28 ->
  Forall (fun c => match c with Malloc n => 0 <= n < 2 ^ 31 - 64 | Free _ => True end) cs ->
  exists st live, serve_all cs (untouched m, ∅) = Some (st, live) /\
    (forall p n, live !! p = Some n -> 16 * lo < 16 * p /\ 16 * p + n <= 16 * brk st) /\
    (forall p n p' n', live !! p = Some n -> live !! p' = Some n' -> p <> p' ->
       16 * p + n <= 16 * p' \/ 16 * p' + n' <= 16 * p) /\
    (live = ∅ -> forall n, 0 <= n < 2 ^ 31 - 64 -> units n <= brk st - lo ->
       exists p st', malloc n st = Some (Some p, st') /\ brk st' = brk st).
Proof using All.
  intros Hb Hlo Hcs. destruct (serve_all_ok cs _ (serving_untouched m Hb Hlo) Hcs) as ([st live] & E & R & A & HI & _ & HN & HS).
  exists st, live. cbn [fst snd] in *. split; [done|].
  assert (brk (opened st) = brk st) as Hbrk by (unfold opened; by case_match). pose proof (inv_alloc _ _ _ HI) as Hal.
  split_and!.
  - intros p n H. destruct (HS _ _ H) as [HA Hn]. destruct (alloc_inside _ _ _ _ Hal _ _ HA) as (? & ? & ?).
    destruct (units_ok n Hn). cbn in *. lia.
  - intros p n p' n' H H' Hne. destruct (HS _ _ H) as [HA Hn]. destruct (HS _ _ H') as [HA' Hn'].
    destruct (units_ok n Hn). destruct (units_ok n' Hn').
    assert (p - 1 <> p' - 1) as Hne' by lia. destruct (alloc_alloc _ _ _ _ Hal _ _ _ _ HA HA' Hne'); cbn in *; lia.
  - intros -> n Hn Hu. assert (A = ∅) as ->.
    { apply map_empty. intros a. specialize (HN (a + 1)). replace (a + 1 - 1) with a in HN by lia. by apply HN. }
    destruct (units_ok n Hn). rewrite <- Hbrk in Hu.
    destruct (malloc_fit st R ∅ n HI Hn) as (a & st' & R' & -> & _ & _ & Hk); [eapply all_free; eauto with lia|].
    exists (a + 1), st'. by rewrite Hk.
Qed.

End Malloc.

(** ** A run *)

(** The heap may grow to 2^28 units. *)
Definition grants (b n : Z) : bool := b + n / 16 <? 2 ^ 28.

Definition some_calls : list call := [Malloc 100; Malloc 40; Free 4189; Malloc 20; Malloc 70000].

Lemma malloc_safe_witness : exists st live,
  serve_all 1 grants some_calls (untouched 100 ∅, ∅) = Some (st, live) /\
  live !! 4185 = Some 40 /\ live !! 4194 = Some 20 /\
  (16 * 4185 + 40 <= 16 * 4194 \/ 16 * 4194 + 20 <= 16 * 4185).
Proof.
  assert ((s ← serve_all 1 grants some_calls (untouched 100 ∅, ∅); Some (s.2 !! 4185, s.2 !! 4194)) =
    Some (Some 40, Some 20)) as H by (vm_compute; reflexivity).
  destruct (malloc_safe 1 grants 100 ltac:(intros b n Hg; apply Z.ltb_lt in Hg; exact Hg) ∅ some_calls
    ltac:(lia) ltac:(lia) ltac:(repeat constructor; lia)) as (st & live & E & _ & D & _).
  rewrite E in H. cbn in H. injection H as H1 H2. exists st, live. split_and!; [done..|].
  apply (D 4185 40 4194 20 H1 H2). lia.
Defined.
