(* ===== verification/Mkfs.v ===== *)
(** * The image builder: mkfs/mkfs.c

    mkfs is a host program: the image file is a map from block numbers to
    blocks, a failed assert() or die() is [None], and the host is little-endian.
    The theorem says that the files can be read back from the image by the
    layout the kernel uses, and that the bitmap marks the blocks in use. *)

From S2P Require Import Prelude State Machine Cstring Fs Transact.

Definition NINODES : Z := 200.

Definition nbitmap : Z := FSSIZE / (BSIZE * 8) + 1.
Definition ninodeblocks : Z := NINODES / IPB + 1.
Definition nlog : Z := LOGSIZE.
Definition nmeta : Z := 2 + nlog + ninodeblocks + nbitmap.
Definition nblocks : Z := FSSIZE - nmeta.

Definition zeroes : list Z := replicate (Z.to_nat BSIZE) 0.

Definition xshort (x : Z) : Z := le_value [u8 x; u8 (Z.shiftr x 8)].

Definition xint (x : Z) : Z := le_value [u8 x; u8 (Z.shiftr x 8); u8 (Z.shiftr x 16); u8 (Z.shiftr x 24)].

Definition mkfs_sb : superblock :=
  mksuperblock FSMAGIC (xint FSSIZE) (xint nblocks) (xint NINODES) (xint nlog) (xint 2) (xint (2 + nlog))
    (xint (2 + nlog + ninodeblocks)).

(** The bytes of [struct superblock]. *)
Definition sb_bytes (s : superblock) : list Z :=
  le_bytes 4 (sb_magic s) ++ le_bytes 4 (sb_size s) ++ le_bytes 4 (sb_nblocks s) ++ le_bytes 4 (sb_ninodes s) ++
  le_bytes 4 (sb_nlog s) ++ le_bytes 4 (sb_logstart s) ++ le_bytes 4 (sb_inodestart s) ++ le_bytes 4 (sb_bmapstart s).

Record image := mkimage { img : gmap Z (list Z); freeinode : Z; freeblock : Z }.

(** read() fails beyond the end of the file. *)
Definition rsect (sec : Z) (st : image) : option (list Z) := img st !! sec.

Definition wsect (sec : Z) (buf : list Z) (st : image) : image :=
  mkimage (<[sec := buf]> (img st)) (freeinode st) (freeblock st).

Definition rinode (inum : Z) (st : image) : option dinode :=
  buf ← rsect (IBLOCK inum mkfs_sb) st;
  Some (dinode_get buf (Z.to_nat (inum mod IPB))).

Definition winode (inum : Z) (ip : dinode) (st : image) : option image :=
  let bn := IBLOCK inum mkfs_sb in
  buf ← rsect bn st;
  Some (wsect bn (dinode_put (Z.to_nat (inum mod IPB)) ip buf) st).

Definition ialloc (type : Z) (st : image) : option (Z * image) :=
  let inum := freeinode st in
  let st := mkimage (img st) (u32 (freeinode st + 1)) (freeblock st) in
  st ← winode inum (mkdinode (s16 (xshort type)) 0 0 (s16 (xshort 1)) (xint 0) (replicate (S NDIRECT) 0)) st;
  Some (inum, st).

(** [freeblock++] *)
Definition take_block (st : image) : Z * image :=
  (freeblock st, mkimage (img st) (freeinode st) (u32 (freeblock st + 1))).

(** Its block number from the indirect block, which is there. *)
Definition indirect_for (fbn : nat) (din : dinode) (st : image) : option (Z * dinode * image) :=
  let ib := xint (nth NDIRECT (di_addrs din) 0) in
  let o := (4 * (fbn - NDIRECT))%nat in
  indirect ← rsect ib st;
  let '(indirect, st) :=
    if get32 indirect o =? 0 then
      let '(b, st) := take_block st in
      let indirect := put32 o (xint b) indirect in
      (indirect, wsect ib indirect st)
    else (indirect, st) in
  Some (xint (get32 indirect o), din, st).

(** The block number of block [fbn] of the file. *)
Definition block_for (fbn : nat) (din : dinode) (st : image) : option (Z * dinode * image) :=
  let addr i := nth i (di_addrs din) 0 in
  let set_addr i a := mkdinode (di_type din) (di_major din) (di_minor din) (di_nlink din) (di_size din)
                        (<[i := xint a]> (di_addrs din)) in
  if (fbn <? NDIRECT)%nat then
    let '(din, st) := if xint (addr fbn) =? 0 then let '(b, st) := take_block st in (set_addr fbn b, st) else (din, st) in
    Some (xint (nth fbn (di_addrs din) 0), din, st)
  else
    let '(din, st) := if xint (addr NDIRECT) =? 0 then let '(b, st) := take_block st in (set_addr NDIRECT b, st) else (din, st) in
    indirect_for fbn din st.

(** The loop of iappend(); every round takes at least one byte of [p]. *)
Fixpoint iappend_loop (fuel : nat) (p : list Z) (off : Z) (din : dinode) (st : image) : option (Z * dinode * image) :=
  match p with
  | [] => Some (off, din, st)
  | _ =>
      match fuel with
      | O => None
      | S fuel =>
          let fbn := off / BSIZE in
          if negb (fbn <? Z.of_nat MAXFILE) then None else
          r ← block_for (Z.to_nat fbn) din st;
          let '(x, din, st) := r in
          let n1 := Z.to_nat (Z.min (Z.of_nat (length p)) ((fbn + 1) * BSIZE - off)) in
          buf ← rsect x st;
          let st := wsect x (splice (Z.to_nat (off - fbn * BSIZE)) (take n1 p) buf) st in
          iappend_loop fuel (drop n1 p) (off + Z.of_nat n1) din st
      end
  end.

Definition iappend (inum : Z) (p : list Z) (st : image) : option image :=
  din ← rinode inum st;
  r ← iappend_loop (length p) p (xint (di_size din)) din st;
  let '(off, din, st) := r in
  winode inum (mkdinode (di_type din) (di_major din) (di_minor din) (di_nlink din) (xint off) (di_addrs din)) st.

(** The bits of the first [used] blocks. *)
Fixpoint bitmap_loop (used : nat) (buf : list Z) : list Z :=
  match used with
  | O => buf
  | S i =>
      let buf := bitmap_loop i buf in
      <[(i / 8)%nat := Z.lor (nth (i / 8) buf 0) (Z.shiftl 1 (Z.of_nat (i mod 8)))]> buf
  end.

Definition balloc (used : Z) (st : image) : option image :=
  if used <? BSIZE * 8 then
    Some (wsect (sb_bmapstart mkfs_sb) (bitmap_loop (Z.to_nat used) zeroes) st)
  else None.

(** "user/_cat" becomes "cat"; the assert() that no '/' is left. *)
Definition shortname (arg : list Z) : option (list Z) :=
  let s := if strncmp arg (bytes_of "user/") 5 =? 0 then drop 5 arg else arg in
  if bool_decide (47 ∈ s) then None
  else Some (if hd 0 s =? 95 then drop 1 s else s).

Definition append_dirent (rootino inum : Z) (name : list Z) (st : image) : option image :=
  iappend rootino (dirent_bytes (xshort inum) name) st.

(** [while((cc = read(fd, buf, sizeof(buf))) > 0) iappend(inum, buf, cc);] *)
Fixpoint append_chunks (inum : Z) (chunks : list (list Z)) (st : image) : option image :=
  match chunks with
  | [] => Some st
  | buf :: chunks => st ← iappend inum buf st; append_chunks inum chunks st
  end.

(** A file on the command line: its name, and what the calls of read() return
    if it can be opened. *)
Definition input : Type := list Z * option (list (list Z)).

Definition add_file (rootino : Z) (f : input) (st : image) : option image :=
  name ← shortname f.1;
  chunks ← f.2;
  r ← ialloc T_FILE st;
  let '(inum, st) := r in
  st ← append_dirent rootino inum name st;
  append_chunks inum chunks st.

Fixpoint add_files (rootino : Z) (fs : list input) (st : image) : option image :=
  match fs with
  | [] => Some st
  | f :: fs => st ← add_file rootino f st; add_files rootino fs st
  end.

(** The image after the loop that clears it. *)
Fixpoint cleared (n : nat) : gmap Z (list Z) :=
  match n with O => ∅ | S i => <[Z.of_nat i := zeroes]> (cleared i) end.

(** The end of main(): the size of the root directory and the bitmap. *)
Definition finish (rootino : Z) (st : image) : option image :=
  din ← rinode rootino st;
  let off := (xint (di_size din) / BSIZE + 1) * BSIZE in
  st ← winode rootino (mkdinode (di_type din) (di_major din) (di_minor din) (di_nlink din) (xint off) (di_addrs din)) st;
  balloc (freeblock st) st.

Definition main (fs : list input) : option image :=
  let st := mkimage (cleared (Z.to_nat FSSIZE)) 1 nmeta in
  let st := wsect 1 (splice 0 (sb_bytes mkfs_sb) zeroes) st in
  r ← ialloc T_DIR st;
  let '(rootino, st) := r in
  if negb (rootino =? ROOTINO) then None else
  st ← append_dirent rootino rootino [46] st;
  st ← append_dirent rootino rootino [46; 46] st;
  st ← add_files rootino fs st;
  finish rootino st.

(** ** Reading the image *)

(** The block of the image that holds block [k] of a file. *)
Definition file_addr (im : gmap Z (list Z)) (din : dinode) (k : nat) : option Z :=
  if (k <? NDIRECT)%nat then di_addrs din !! k
  else ib ← di_addrs din !! NDIRECT; ind ← im !! ib; Some (get32 ind (4 * (k - NDIRECT))).

Definition file_block (im : gmap Z (list Z)) (din : dinode) (k : nat) : option (list Z) :=
  a ← file_addr im din k; im !! a.

Definition blocks_of (n : nat) : nat := (n + 1023) / 1024.

Definition file_bytes (im : gmap Z (list Z)) (din : dinode) (n : nat) : option (list Z) :=
  blks ← mapM (file_block im din) (seq 0 (blocks_of n));
  Some (take n (concat blks)).

(** ** Files in the making *)

Definition addrs_of (bs : list Z) (ib : Z) : list Z := take NDIRECT (bs ++ replicate NDIRECT 0) ++ [ib].

(** The blocks of a file: its data blocks and its indirect block. *)
Definition owned (bs : list Z) (ib : Z) : list Z := bs ++ (if (NDIRECT <? length bs)%nat then [ib] else []).

Definition entries (ind : list Z) (bs : list Z) : Prop :=
  length ind = 1024%nat /\ forall j, (j < NINDIRECT)%nat -> get32 ind (4 * j) = nth (NDIRECT + j) bs 0.

(** The data is in the blocks, with zeroes after it. *)
Record file_ok (im : gmap Z (list Z)) (din : dinode) (data bs : list Z) (ib : Z) : Prop := {
  file_addrs : di_addrs din = addrs_of bs ib;
  file_max : (length bs <= MAXFILE)%nat;
  file_direct : (length bs <= NDIRECT)%nat -> ib = 0;
  file_indirect : (NDIRECT < length bs)%nat -> exists ind, im !! ib = Some ind /\ entries ind bs;
  file_data : exists blks, Forall2 (fun b blk => im !! b = Some blk /\ length blk = 1024%nat) bs blks /\
    concat blks = data ++ replicate (1024 * length bs - length data) 0
}.

Record disk_ok (st : image) : Prop := {
  disk_block : forall b, 0 <= b < FSSIZE -> exists blk, img st !! b = Some blk /\ length blk = 1024%nat;
  disk_fresh : forall b, freeblock st <= b < FSSIZE -> img st !! b = Some zeroes;
  disk_len : forall b blk, img st !! b = Some blk -> length blk = 1024%nat
}.

Lemma xint_id x : 0 <= x < 2 ^ 32 -> xint x = x.
Proof.
  intros H. unfold xint. cbn [le_value]. unfold u8. rewrite !Z.shiftr_div_pow2 by lia.
  Z.to_euclidean_division_equations. lia.
Qed.

Lemma length_addrs_of bs ib : length (addrs_of bs ib) = S NDIRECT.
Proof. unfold addrs_of. rewrite length_app, length_take, length_app, length_replicate. cbn [length]. lia. Qed.

Lemma addrs_direct bs ib i : (i < NDIRECT)%nat -> nth i (addrs_of bs ib) 0 = nth i bs 0.
Proof.
  intros Hi. unfold addrs_of. rewrite app_nth1 by (rewrite length_take, length_app, length_replicate; lia).
  rewrite !nth_lookup, lookup_take_lt by done.
  destruct (decide (i < length bs)%nat).
  - by rewrite lookup_app_l.
  - rewrite lookup_app_r, lookup_replicate_2, (lookup_ge_None_2 bs) by lia. done.
Qed.

Lemma addrs_indirect bs ib : nth NDIRECT (addrs_of bs ib) 0 = ib.
Proof.
  unfold addrs_of. rewrite app_nth2; rewrite length_take, length_app, length_replicate; [|lia].
  by replace (NDIRECT - _)%nat with 0%nat by lia.
Qed.

Lemma addrs_snoc bs ib x : (length bs < NDIRECT)%nat -> <[length bs := x]> (addrs_of bs ib) = addrs_of (bs ++ [x]) ib.
Proof.
  intros Hl. unfold addrs_of. rewrite insert_app_l by (rewrite length_take, length_app, length_replicate; lia). f_equal.
  rewrite <- (app_assoc bs), !take_app_ge by lia. destruct (NDIRECT - length bs)%nat as [|k] eqn:Ek; [lia|].
  rewrite insert_app_r_alt, Nat.sub_diag by lia. change (replicate NDIRECT 0) with (0 :: replicate 11 0) at 1.
  cbn [take app insert list_insert]. do 2 f_equal. unfold NDIRECT in *. rewrite !take_replicate. f_equal. lia.
Qed.

Lemma addrs_more bs ib x : (NDIRECT <= length bs)%nat -> addrs_of (bs ++ [x]) ib = addrs_of bs ib.
Proof. intros Hl. unfold addrs_of. by rewrite <- app_assoc, !take_app_le. Qed.

Lemma addrs_set_indirect bs ib x : <[NDIRECT := x]> (addrs_of bs ib) = addrs_of bs x.
Proof.
  unfold addrs_of. rewrite insert_app_r_alt; rewrite length_take, length_app, length_replicate; [|lia].
  by replace (NDIRECT - _)%nat with 0%nat by lia.
Qed.

(** The blocks of the files are those handed out so far. *)
Definition shared (st : image) (others bs : list Z) (ib : Z) : Prop :=
  nmeta <= freeblock st <= FSSIZE /\ others ++ owned bs ib ≡ₚ seqZ nmeta (freeblock st - nmeta).

Lemma shared_range st others bs ib b : shared st others bs ib -> b ∈ others ++ owned bs ib -> nmeta <= b < freeblock st.
Proof. intros [H1 H2]. rewrite H2, elem_of_seqZ. lia. Qed.

Lemma shared_nodup st others bs ib : shared st others bs ib -> NoDup (others ++ owned bs ib).
Proof. intros [H1 H2]. rewrite H2. apply NoDup_seqZ. Qed.

Lemma owned_data bs ib i b : bs !! i = Some b -> b ∈ owned bs ib.
Proof. intros H. apply elem_of_app. left. by eapply list_elem_of_lookup_2. Qed.

Lemma owned_indirect bs ib : (NDIRECT < length bs)%nat -> ib ∈ owned bs ib.
Proof. intros H. apply elem_of_app. right. rewrite (proj2 (Nat.ltb_lt _ _) H). by left. Qed.

(** Only a file's own blocks matter to it. *)
Lemma file_ok_ext im im' din data bs ib : file_ok im din data bs ib ->
  (forall b, b ∈ owned bs ib -> im' !! b = im !! b) -> file_ok im' din data bs ib.
Proof.
  intros [] Hext. split; auto.
  - intros H. destruct (file_indirect0 H) as (ind & Hi & He). exists ind. rewrite Hext by by apply owned_indirect. done.
  - destruct file_data0 as (blks & HF & Hd). exists blks. split; [|done]. rewrite Forall2_lookup in *. intros i.
    specialize (HF i). inversion HF as [b blk [Hb Hl] E1 E2|E1 E2]; [|constructor].
    constructor. rewrite Hext; [done|]. by eapply owned_data.
Qed.

(** A file in use of blocks with valid numbers. *)
Lemma shared_number st others bs ib b : shared st others bs ib -> b ∈ owned bs ib -> 0 < b < 2 ^ 32.
Proof.
  intros Hs Hb. destruct (shared_range _ _ _ _ b Hs); [apply elem_of_app; auto|]. destruct Hs as [Hf _].
  unfold FSSIZE in Hf. assert (nmeta = 46) by done. lia.
Qed.

(** A block the file has already. *)
Lemma block_for_old st others din data bs ib fbn b : file_ok (img st) din data bs ib -> shared st others bs ib ->
  bs !! fbn = Some b -> block_for fbn din st = Some (b, din, st).
Proof.
  intros Hf Hs Hb. pose proof (shared_number _ _ _ _ _ Hs (owned_data _ ib _ _ Hb)) as Hn.
  pose proof (lookup_lt_Some _ _ _ Hb) as Hlt. pose proof (file_max _ _ _ _ _ Hf) as Hmax.
  assert (nth fbn bs 0 = b) as Hnth by (rewrite nth_lookup, Hb; done).
  unfold block_for, indirect_for. rewrite (file_addrs _ _ _ _ _ Hf). destruct (Nat.ltb_spec fbn NDIRECT) as [Hd|Hd].
  - rewrite addrs_direct, Hnth, xint_id by (done || lia). destruct (Z.eqb_spec b 0); [lia|].
    rewrite (file_addrs _ _ _ _ _ Hf), addrs_direct, Hnth, xint_id by (done || lia). done.
  - pose proof (shared_number _ _ _ _ _ Hs (owned_indirect bs ib ltac:(lia))) as Hi.
    destruct (file_indirect _ _ _ _ _ Hf ltac:(lia)) as (ind & Hind & Hl & He).
    rewrite addrs_indirect, xint_id by lia. destruct (Z.eqb_spec ib 0); [lia|].
    rewrite (file_addrs _ _ _ _ _ Hf), addrs_indirect, xint_id by lia. unfold rsect. rewrite Hind. cbn [mbind option_bind].
    rewrite He by (unfold MAXFILE in *; lia). replace (NDIRECT + (fbn - NDIRECT))%nat with fbn by lia.
    rewrite Hnth. destruct (Z.eqb_spec b 0); [lia|]. rewrite He by (unfold MAXFILE in *; lia).
    replace (NDIRECT + (fbn - NDIRECT))%nat with fbn by lia. by rewrite Hnth, xint_id by lia.
Qed.

Notation placed im := (Forall2 (fun b blk => im !! b = Some blk /\ length blk = 1024%nat)).

Lemma placed_length (im : gmap Z (list Z)) bs blks : placed im bs blks -> length (concat blks) = (1024 * length bs)%nat.
Proof. induction 1 as [|b blk bs blks [_ H] _ IH]; [done|]. cbn [concat length]. rewrite length_app, IH, H. lia. Qed.

Lemma placed_ext (im im' : gmap Z (list Z)) bs blks : placed im bs blks -> (forall b, b ∈ bs -> im' !! b = im !! b) -> placed im' bs blks.
Proof.
  intros H Hext. rewrite Forall2_lookup in *. intros i. specialize (H i).
  inversion H as [b blk [Hb Hl] E1 E2|E1 E2]; [|constructor].
  constructor. rewrite Hext; [done|]. by eapply list_elem_of_lookup_2.
Qed.

(** A block of zeroes at the end of a file. *)
Lemma placed_snoc (im im' : gmap Z (list Z)) bs x (data : list Z) :
  (exists blks, placed im bs blks /\ concat blks = data ++ replicate (1024 * length bs - length data) 0) ->
  (forall b, b ∈ bs -> im' !! b = im !! b) -> im' !! x = Some zeroes ->
  exists blks, placed im' (bs ++ [x]) blks /\ concat blks = data ++ replicate (1024 * length (bs ++ [x]) - length data) 0.
Proof.
  intros (blks & HF & Hd) Hext Hx. exists (blks ++ [zeroes]). split.
  - apply Forall2_app; [by eapply placed_ext|]. by repeat constructor.
  - pose proof (placed_length _ _ _ HF) as Hlen. rewrite Hd, !length_app, length_replicate in Hlen.
    rewrite concat_app, Hd, length_app. cbn [concat length]. rewrite app_nil_r, <- app_assoc. f_equal.
    change zeroes with (replicate 1024 0 : list Z). rewrite <- replicate_add. f_equal. lia.
Qed.

Lemma shared_take (others L L' : list Z) f : nmeta <= f -> others ++ L ≡ₚ seqZ nmeta (f - nmeta) -> L' ≡ₚ L ++ [f] ->
  others ++ L' ≡ₚ seqZ nmeta (f + 1 - nmeta).
Proof.
  intros Hf H ->. replace (f + 1 - nmeta) with (f - nmeta + 1) by lia. rewrite seqZ_app by lia.
  rewrite app_assoc, H. cbn. by replace (nmeta + (f - nmeta)) with f by lia.
Qed.

Lemma take_block_ok st : nmeta <= freeblock st < FSSIZE ->
  take_block st = (freeblock st, mkimage (img st) (freeinode st) (freeblock st + 1)).
Proof. intros H. unfold take_block. rewrite u32_small; [done|]. unfold FSSIZE in H. assert (nmeta = 46) by done. lia. Qed.

Lemma disk_ok_take st : disk_ok st -> disk_ok (mkimage (img st) (freeinode st) (freeblock st + 1)).
Proof. intros [H1 H2 H3]. split; cbn; [done| |done]. intros b Hb. apply H2. lia. Qed.

Lemma disk_ok_wsect st sec buf : disk_ok st -> sec < freeblock st -> length buf = 1024%nat -> disk_ok (wsect sec buf st).
Proof.
  intros [H1 H2 H3] Hs Hl. split; cbn.
  - intros b Hb. destruct (decide (b = sec)) as [->|Hne]; [rewrite lookup_insert_eq|rewrite lookup_insert_ne by done]; eauto.
  - intros b Hb. rewrite lookup_insert_ne by lia. by apply H2.
  - intros b blk [[_ <-]|[_ Hb]]%lookup_insert_Some; eauto.
Qed.

Lemma entries_zero bs : (length bs <= NDIRECT)%nat -> entries zeroes bs.
Proof.
  intros Hl. split; [done|]. intros j Hj. rewrite nth_overflow by lia. unfold get32, sub_bytes, zeroes.
  rewrite drop_replicate, take_replicate. change (Z.to_nat BSIZE) with 1024%nat. unfold NINDIRECT in Hj.
  by replace (4 `min` (1024 - 4 * j))%nat with 4%nat by lia.
Qed.

Lemma entries_snoc ind bs x : entries ind bs -> (NDIRECT <= length bs < MAXFILE)%nat -> 0 <= x < 2 ^ 32 ->
  entries (put32 (4 * (length bs - NDIRECT)) x ind) (bs ++ [x]).
Proof.
  intros [Hl He] Hb Hx. unfold MAXFILE, NINDIRECT, NDIRECT in *. split; [rewrite length_put32; lia|]. unfold NINDIRECT, NDIRECT. intros j Hj.
  destruct (decide (j = length bs - 12)%nat) as [->|Hne].
  - rewrite get32_put32, u32_small by lia. rewrite app_nth2 by lia. by replace (_ - length bs)%nat with 0%nat by lia.
  - rewrite get32_put32_ne by lia. rewrite He by done. destruct (decide (12 + j < length bs)%nat).
    + by rewrite app_nth1.
    + rewrite !nth_overflow; [done|rewrite length_app; cbn|]; lia.
Qed.

(** What is as before for a file that gets a block. *)
Record grown (st st' : image) (others : list Z) (din din' : dinode) : Prop := {
  grown_inode : freeinode st' = freeinode st;
  grown_other : forall b, b < nmeta \/ b ∈ others -> img st' !! b = img st !! b;
  grown_fields : di_type din' = di_type din /\ di_major din' = di_major din /\ di_minor din' = di_minor din /\
    di_nlink din' = di_nlink din /\ di_size din' = di_size din
}.

(** The new block's number goes into the indirect block. *)
Lemma indirect_new st others din data bs ib ind : disk_ok st -> nmeta <= freeblock st < FSSIZE ->
  (NDIRECT <= length bs < MAXFILE)%nat -> di_addrs din = addrs_of bs ib -> img st !! ib = Some ind -> entries ind bs ->
  others ++ bs ++ [ib] ≡ₚ seqZ nmeta (freeblock st - nmeta) ->
  (exists blks, placed (img st) bs blks /\ concat blks = data ++ replicate (1024 * length bs - length data) 0) ->
  exists x st', indirect_for (length bs) din st = Some (x, din, st') /\ file_ok (img st') din data (bs ++ [x]) ib /\
    disk_ok st' /\ shared st' others (bs ++ [x]) ib /\ grown st st' others din din.
Proof.
  intros Hd Hfb Hb Ha Hi He Hs Hp. assert (nmeta = 46) as Hm by done.
  assert (forall b, b ∈ others ++ bs ++ [ib] -> nmeta <= b < freeblock st) as Hr.
  { intros b. rewrite Hs, elem_of_seqZ. lia. }
  assert (NoDup (others ++ bs ++ [ib])) as Hnd by (rewrite Hs; apply NoDup_seqZ).
  assert (nmeta <= ib < freeblock st) as Hib by (apply Hr; rewrite !elem_of_app; right; right; by left).
  unfold FSSIZE in *. unfold indirect_for. rewrite Ha, addrs_indirect, xint_id by lia. unfold rsect. rewrite Hi. cbn [mbind option_bind].
  rewrite (proj2 He) by (unfold MAXFILE in *; lia). rewrite nth_overflow, Z.eqb_refl by lia. rewrite take_block_ok by done. cbv beta iota zeta.
  set (x := freeblock st) in *. rewrite (xint_id x) by lia. pose proof (entries_snoc ind bs x He Hb ltac:(lia)) as [Hl' He'].
  set (ind' := put32 _ x ind) in *. exists x. eexists. split.
  { rewrite He' by (unfold MAXFILE in *; lia). rewrite app_nth2 by lia.
    replace (NDIRECT + (length bs - NDIRECT) - length bs)%nat with 0%nat by lia.
    cbn [nth]. by rewrite (xint_id x) by lia. }
  apply NoDup_app in Hnd as (_ & Hno & (_ & Hnb & _)%NoDup_app).
  assert (forall b, b ∈ bs -> b <> ib) as Hne by (intros b Hb' ->; apply (Hnb ib Hb'); by left).
  split_and!; [split| |split|split]; cbn [img wsect freeblock freeinode].
  - by rewrite addrs_more by lia.
  - rewrite length_app. cbn [length]. lia.
  - rewrite length_app. cbn [length]. lia.
  - intros _. exists ind'. by rewrite lookup_insert_eq.
  - eapply placed_snoc; [exact Hp|..].
    + intros b Hb'. by rewrite lookup_insert_ne by (apply not_eq_sym; auto).
    + rewrite lookup_insert_ne by lia. apply (disk_fresh _ Hd). unfold FSSIZE. lia.
  - apply disk_ok_wsect; [by apply disk_ok_take|cbn; lia|done].
  - unfold FSSIZE. lia.
  - eapply shared_take; [lia|exact Hs|]. unfold owned. rewrite (proj2 (Nat.ltb_lt _ _)) by (rewrite length_app; cbn [length]; lia).
    rewrite <- !app_assoc. apply Permutation_app_head. cbn. constructor.
  - done.
  - intros b Hb'. rewrite lookup_insert_ne; [done|]. intros <-. destruct Hb' as [Hb'|Hb']; [lia|].
    apply (Hno ib Hb'). rewrite elem_of_app. right. by left.
  - done.
Qed.

(** A direct block. *)
Lemma block_for_direct st others din data bs ib : file_ok (img st) din data bs ib -> disk_ok st -> shared st others bs ib ->
  (length bs < NDIRECT)%nat -> freeblock st < FSSIZE ->
  exists x din' st', block_for (length bs) din st = Some (x, din', st') /\ file_ok (img st') din' data (bs ++ [x]) ib /\
    disk_ok st' /\ shared st' others (bs ++ [x]) ib /\ grown st st' others din din'.
Proof.
  intros Hf Hd Hs Hdir Hlt. pose proof Hs as [Hfb Hperm]. assert (nmeta = 46) as Hm by done. unfold FSSIZE in *.
  unfold block_for. rewrite (file_addrs _ _ _ _ _ Hf), (proj2 (Nat.ltb_lt _ _)) by done.
  rewrite addrs_direct, nth_overflow by lia. change (xint 0 =? 0) with true. cbv iota.
  rewrite take_block_ok by (unfold FSSIZE; lia). cbv beta iota zeta. cbn [di_addrs].
  set (x := freeblock st) in *. rewrite (xint_id x), addrs_snoc, addrs_direct by lia.
  rewrite app_nth2, Nat.sub_diag by lia. cbn [nth]. rewrite (xint_id x) by lia.
  eexists x, _, _. split; [done|]. split_and!; [split| |split|]; cbn [img freeblock freeinode di_addrs].
  - done.
  - rewrite length_app. cbn [length]. unfold MAXFILE. lia.
  - intros _. apply (file_direct _ _ _ _ _ Hf). lia.
  - rewrite length_app. cbn [length]. lia.
  - eapply placed_snoc; [apply Hf|done|]. apply (disk_fresh _ Hd). unfold FSSIZE. lia.
  - by apply disk_ok_take.
  - unfold FSSIZE. lia.
  - eapply shared_take; [lia|exact Hperm|]. unfold owned. rewrite !(proj2 (Nat.ltb_ge _ _)) by (rewrite ?length_app; cbn [length]; lia).
    by rewrite !app_nil_r.
  - by split.
Qed.

(** The first block beyond the direct ones takes the indirect block, too. *)
Lemma block_for_first st others din data bs ib : file_ok (img st) din data bs ib -> disk_ok st -> shared st others bs ib ->
  length bs = NDIRECT -> freeblock st + 2 <= FSSIZE ->
  exists x din' st' ib', block_for (length bs) din st = Some (x, din', st') /\ file_ok (img st') din' data (bs ++ [x]) ib' /\
    disk_ok st' /\ shared st' others (bs ++ [x]) ib' /\ grown st st' others din din'.
Proof.
  intros Hf Hd Hs E Hlt. pose proof Hs as [Hfb Hperm]. assert (nmeta = 46) as Hm by done. unfold FSSIZE, owned in *.
  unfold block_for. rewrite (file_addrs _ _ _ _ _ Hf), (proj2 (Nat.ltb_ge _ _)) by lia.
  rewrite addrs_indirect, (file_direct _ _ _ _ _ Hf) by lia. change (xint 0 =? 0) with true. cbv iota.
  rewrite take_block_ok by (unfold FSSIZE; lia). cbv beta iota zeta.
  set (x := freeblock st) in *. rewrite (xint_id x), addrs_set_indirect by lia.
  rewrite (proj2 (Nat.ltb_ge _ _)) in Hperm by lia.
  edestruct (indirect_new (mkimage (img st) (freeinode st) (x + 1)) others
    (mkdinode (di_type din) (di_major din) (di_minor din) (di_nlink din) (di_size din) (addrs_of bs x)) data bs x zeroes)
    as (y & st' & Hrun & Hf' & Hd' & Hs' & Hg); cbn [img freeblock freeinode di_addrs]; eauto.
  - by apply disk_ok_take.
  - unfold FSSIZE. lia.
  - unfold MAXFILE, NINDIRECT. lia.
  - apply (disk_fresh _ Hd). unfold FSSIZE. lia.
  - apply entries_zero. lia.
  - eapply shared_take; [lia|exact Hperm|]. by rewrite app_nil_r.
  - apply Hf.
  - eexists y, _, st', x. split; [exact Hrun|]. split_and!; auto. destruct Hg as [Hg1 Hg2 Hg3]. by split.
Qed.

(** The next block of a file. *)
Lemma block_for_new st others din data bs ib : file_ok (img st) din data bs ib -> disk_ok st -> shared st others bs ib ->
  (length bs < MAXFILE)%nat -> freeblock st + (if (length bs =? NDIRECT)%nat then 2 else 1) <= FSSIZE ->
  exists x din' st' ib', block_for (length bs) din st = Some (x, din', st') /\ file_ok (img st') din' data (bs ++ [x]) ib' /\
    disk_ok st' /\ shared st' others (bs ++ [x]) ib' /\ grown st st' others din din'.
Proof.
  intros Hf Hd Hs Hmax Hroom. destruct (lt_eq_lt_dec (length bs) NDIRECT) as [[Hdir|E]|Hind].
  - destruct (block_for_direct _ _ _ _ _ _ Hf Hd Hs Hdir) as (x & din' & st' & ?); [destruct (_ =? _)%nat; lia|].
    by exists x, din', st', ib.
  - rewrite E, Nat.eqb_refl in Hroom. eapply block_for_first; eauto.
  - pose proof Hs as [Hfb Hperm]. unfold owned in Hperm. rewrite (proj2 (Nat.ltb_lt _ _)) in Hperm by lia.
    destruct (file_indirect _ _ _ _ _ Hf Hind) as (ind & Hi & He).
    pose proof (shared_number _ _ _ _ _ Hs (owned_indirect bs ib Hind)) as Hib. pose proof (file_addrs _ _ _ _ _ Hf) as Ha.
    destruct (indirect_new st others din data bs ib ind) as (y & st' & Hrun & ?); auto;
      [destruct (_ =? _)%nat; lia|lia|apply Hf|].
    exists y, din, st', ib. split; [|done]. unfold block_for. rewrite Ha, (proj2 (Nat.ltb_ge _ _)), addrs_indirect, xint_id by lia.
    by destruct (Z.eqb_spec ib 0); [lia|].
Qed.

(** Bytes written to the last block of a file. *)
Lemma write_ok im din data pre x ib q buf : file_ok im din data (pre ++ [x]) ib -> NoDup (owned (pre ++ [x]) ib) ->
  (1024 * length pre <= length data)%nat -> (length data + length q <= 1024 * S (length pre))%nat -> im !! x = Some buf ->
  length (splice (length data - 1024 * length pre) q buf) = 1024%nat /\
  file_ok (<[x := splice (length data - 1024 * length pre) q buf]> im) din (data ++ q) (pre ++ [x]) ib.
Proof.
  intros Hf Hnd Hlo Hhi Hx. unfold owned in Hnd. apply NoDup_app in Hnd as (Hnd & Hni & _).
  apply NoDup_app in Hnd as (_ & Hnx & _).
  destruct Hf as [Ha Hmax Hdir Hind (blks & HF & Hd)]. apply Forall2_app_inv_l in HF as (bp & bl & Hp & Hl & ->).
  inversion Hl as [|? buf' ? ? [Hx' Hlb] Hnil]. subst. inversion Hnil. subst. rewrite Hx in Hx'. injection Hx' as <-.
  pose proof (placed_length _ _ _ Hp) as Hlen. rewrite concat_app, length_app in Hd. cbn [concat length] in Hd. rewrite app_nil_r in Hd.
  assert (exists d', data = concat bp ++ d' /\ buf = d' ++ replicate (1024 * S (length pre) - length data) 0) as (d' & Ed & Eb).
  { exists (drop (length (concat bp)) data). split.
    - rewrite <- (take_drop (length (concat bp)) data) at 1. f_equal.
      apply (f_equal (take (length (concat bp)))) in Hd. by rewrite take_app_length, take_app_le in Hd by lia.
    - apply (f_equal (drop (length (concat bp)))) in Hd. rewrite drop_app_length, drop_app_le in Hd by lia.
      by replace (1024 * S (length pre))%nat with (1024 * (length pre + 1))%nat by lia. }
  pose proof (f_equal length Ed) as Edl. rewrite length_app, Hlen in Edl.
  replace (length data - 1024 * length pre)%nat with (length d') by lia.
  assert (splice (length d') q buf = d' ++ q ++ replicate (1024 * S (length pre) - length data - length q) 0) as Es.
  { unfold splice. rewrite Eb, take_app_length, drop_app_ge, drop_replicate by lia. do 3 f_equal. lia. }
  rewrite Es. split; [rewrite !length_app, length_replicate; lia|].
  assert (forall b, b ∈ pre -> b <> x) as Hpx by (intros b Hb ->; apply (Hnx x Hb); by left).
  split; auto.
  - intros H. destruct (Hind H) as (ind & Hi & He). exists ind. split; [|done]. rewrite lookup_insert_ne; [done|].
    intros ->. apply (Hni ib); [rewrite elem_of_app; right; by left|]. rewrite (proj2 (Nat.ltb_lt _ _) H). by left.
  - exists (bp ++ [d' ++ q ++ replicate (1024 * S (length pre) - length data - length q) 0]). split.
    + apply Forall2_app.
      * eapply placed_ext; [exact Hp|]. intros b Hb. rewrite lookup_insert_ne; [done|]. apply not_eq_sym. auto.
      * repeat constructor; [by rewrite lookup_insert_eq|]. rewrite !length_app, length_replicate. lia.
    + rewrite concat_app. cbn [concat]. rewrite app_nil_r, !length_app, Ed, <- !app_assoc. cbn [length]. do 4 f_equal. rewrite length_app. lia.
Qed.

(** The blocks a file of [k] data blocks takes. *)
Definition costb (k : nat) : nat := k + (if (NDIRECT <? k)%nat then 1 else 0).

Definition cost (n : nat) : nat := costb (blocks_of n).

Lemma costb_grow k k' : (k < k')%nat -> (costb k + (if (k =? NDIRECT)%nat then 2 else 1) <= costb k')%nat.
Proof. intros H. unfold costb. destruct (Nat.ltb_spec NDIRECT k), (Nat.ltb_spec NDIRECT k'), (Nat.eqb_spec k NDIRECT); lia. Qed.

Lemma costb_mono k k' : (k <= k')%nat -> (costb k <= costb k')%nat.
Proof. intros H. unfold costb. destruct (Nat.ltb_spec NDIRECT k), (Nat.ltb_spec NDIRECT k'); lia. Qed.

Lemma blocks_of_mono n n' : (n <= n')%nat -> (blocks_of n <= blocks_of n')%nat.
Proof. intros H. unfold blocks_of. apply Nat.Div0.div_le_mono. lia. Qed.

Lemma blocks_of_div n : let k := (n / 1024)%nat in
  (n = 1024 * k /\ blocks_of n = k \/ 1024 * k < n /\ blocks_of n = S k)%nat /\ (1024 * k <= n < 1024 * S k)%nat.
Proof.
  unfold blocks_of. pose proof (Nat.div_mod_eq n 1024). pose proof (Nat.mod_upper_bound n 1024 ltac:(lia)).
  pose proof (Nat.div_mod_eq (n + 1023) 1024). pose proof (Nat.mod_upper_bound (n + 1023) 1024 ltac:(lia)). cbn zeta. lia.
Qed.

Lemma shared_free st others bs ib : shared st others bs ib -> freeblock st = nmeta + Z.of_nat (length others + costb (length bs)).
Proof.
  intros [Hf Hp]. apply Permutation_length in Hp. rewrite length_seqZ, length_app in Hp. unfold owned in Hp. rewrite length_app in Hp.
  unfold costb. destruct (_ <? _)%nat; cbn [length] in Hp; lia.
Qed.

(** The block that the next byte goes to. *)
Lemma place_ok st others din data bs ib : file_ok (img st) din data bs ib -> disk_ok st -> shared st others bs ib ->
  length bs = blocks_of (length data) -> (length data / 1024 < MAXFILE)%nat ->
  nmeta + Z.of_nat (length others + costb (S (length data / 1024))) <= FSSIZE ->
  exists x din' st' pre ib', block_for (length data / 1024) din st = Some (x, din', st') /\ length pre = (length data / 1024)%nat /\
    file_ok (img st') din' data (pre ++ [x]) ib' /\ disk_ok st' /\ shared st' others (pre ++ [x]) ib' /\ grown st st' others din din'.
Proof.
  intros Hf Hd Hs Hl Hmax Hroom. pose proof (blocks_of_div (length data)) as Hdiv. cbn zeta in Hdiv. set (fbn := (length data / 1024)%nat) in *.
  assert (length bs = fbn \/ length bs = S fbn) as [E|E] by lia.
  - rewrite <- E in Hmax, Hroom |- *.
    destruct (block_for_new st others din data bs ib Hf Hd Hs Hmax) as (x & din' & st' & ib' & ? & ?); [|by exists x, din', st', bs, ib'].
    pose proof (shared_free _ _ _ _ Hs). pose proof (costb_grow (length bs) (S (length bs)) ltac:(lia)).
    destruct (length bs =? NDIRECT)%nat; lia.
  - destruct (@exists_last _ bs) as (pre & x & ->); [by intros ->|]. rewrite length_app in E. cbn [length] in E.
    exists x, din, st, pre, ib. assert (length pre = fbn) as Ep by lia. split_and!; auto; [|by split].
    eapply block_for_old; eauto. rewrite <- Ep. apply list_lookup_middle. done.
Qed.

Lemma grown_trans st1 st2 st3 others d1 d2 d3 : grown st1 st2 others d1 d2 -> grown st2 st3 others d2 d3 -> grown st1 st3 others d1 d3.
Proof.
  intros [a1 a2 a3] [b1 b2 b3]. split; [congruence|intros b Hb; rewrite b2, a2; auto|].
  destruct a3 as (? & ? & ? & ? & ?), b3 as (? & ? & ? & ? & ?). split_and!; congruence.
Qed.

(** A file that is being appended to. *)
Record open_file (st : image) (others : list Z) (din : dinode) (data bs : list Z) (ib : Z) : Prop := {
  open_ok : file_ok (img st) din data bs ib;
  open_disk : disk_ok st;
  open_shared : shared st others bs ib;
  open_length : length bs = blocks_of (length data)
}.

(** One round of iappend(). *)
Lemma round_ok st others din data bs ib p n1 : open_file st others din data bs ib -> p <> [] ->
  nmeta + Z.of_nat (length others + cost (length data + length p)) <= FSSIZE ->
  (length data + length p <= 1024 * MAXFILE)%nat ->
  n1 = Nat.min (length p) (1024 * S (length data / 1024) - length data) ->
  exists x din' st' bs' ib' buf, block_for (length data / 1024) din st = Some (x, din', st') /\ rsect x st' = Some buf /\
    let st2 := wsect x (splice (length data - 1024 * (length data / 1024)) (take n1 p) buf) st' in
    open_file st2 others din' (data ++ take n1 p) bs' ib' /\ grown st st2 others din din'.
Proof.
  intros [Hf Hd Hs Hl] Hp Hroom Hmax Hn1. assert (0 < length p)%nat as Hlp by (destruct p; [done|cbn; lia]).
  pose proof (blocks_of_div (length data)) as [_ Hdiv]. cbn zeta in Hdiv.
  pose proof (blocks_of_div (length data + length p)) as [Htot _]. cbn zeta in Htot.
  assert (S (length data / 1024) <= blocks_of (length data + length p))%nat as Hk.
  { transitivity (blocks_of (length data + 1)); [|apply blocks_of_mono; lia]. unfold blocks_of.
    pose proof (Nat.div_mod_eq (length data + 1 + 1023) 1024). pose proof (Nat.mod_upper_bound (length data + 1 + 1023) 1024 ltac:(lia)). lia. }
  destruct (place_ok st others din data bs ib Hf Hd Hs Hl) as (x & din' & st' & pre & ib' & Hrun & Hpre & Hf' & Hd' & Hs' & Hg); [lia| |].
  { unfold cost in Hroom. pose proof (costb_mono _ _ Hk). lia. }
  assert (x ∈ owned (pre ++ [x]) ib') as Hox by (unfold owned; rewrite !elem_of_app; left; right; by left).
  pose proof (shared_range _ _ _ _ x Hs' ltac:(apply elem_of_app; auto)) as Hx.
  pose proof (shared_nodup _ _ _ _ Hs') as Hnd. apply NoDup_app in Hnd as (_ & Hno & Hnd). assert (nmeta = 46) as Hm by done.
  destruct (disk_block _ Hd' x) as (buf & Hbuf & _); [destruct Hs'; lia|].
  assert (length (take n1 p) = n1) as Ht by (rewrite length_take; lia).
  destruct (write_ok (img st') din' data pre x ib' (take n1 p) buf) as [Hlen Hf2]; auto; [lia..|].
  rewrite Hpre in Hlen, Hf2. exists x, din', st', (pre ++ [x]), ib', buf. split; [done|]. split; [done|]. cbn zeta. split; [split|].
  - done.
  - apply disk_ok_wsect; [done|lia|done].
  - done.
  - rewrite !length_app, Ht, Hpre. cbn [length]. pose proof (blocks_of_div (length data + n1)) as [Hb _]. cbn zeta in Hb.
    unfold blocks_of. pose proof (Nat.div_mod_eq (length data + n1 + 1023) 1024).
    pose proof (Nat.mod_upper_bound (length data + n1 + 1023) 1024 ltac:(lia)). lia.
  - eapply grown_trans; [exact Hg|]. split; [done| |done]. intros b Hb. cbn [img wsect]. rewrite lookup_insert_ne; [done|].
    intros <-. destruct Hb as [Hb|Hb]; [lia|]. by apply (Hno x Hb).
Qed.

Lemma iappend_loop_ok others fuel : forall p st din data bs ib, (length p <= fuel)%nat -> open_file st others din data bs ib ->
  nmeta + Z.of_nat (length others + cost (length data + length p)) <= FSSIZE ->
  (length data + length p <= 1024 * MAXFILE)%nat ->
  exists din' st' bs' ib',
    iappend_loop fuel p (Z.of_nat (length data)) din st = Some (Z.of_nat (length data + length p), din', st') /\
    open_file st' others din' (data ++ p) bs' ib' /\ grown st st' others din din'.
Proof.
  induction fuel as [|fuel IH]; intros p st din data bs ib Hfuel Ho Hroom Hmax.
  { destruct p; [|cbn in Hfuel; lia]. exists din, st, bs, ib. cbn. rewrite Nat.add_0_r, app_nil_r. split_and!; [done..|by split]. }
  destruct (decide (p = [])) as [->|Hp].
  { exists din, st, bs, ib. cbn. rewrite Nat.add_0_r, app_nil_r. split_and!; [done..|by split]. }
  pose proof (blocks_of_div (length data)) as [_ Hdiv]. cbn zeta in Hdiv.
  assert (0 < length p)%nat as Hlp by (destruct p; [done|cbn; lia]).
  set (n1 := Nat.min (length p) (1024 * S (length data / 1024) - length data)).
  destruct (round_ok st others din data bs ib p n1 Ho Hp Hroom Hmax eq_refl) as (x & din1 & st1 & bs1 & ib1 & buf & Hrun & Hbuf & Ho1 & Hg1).
  assert (length (take n1 p) = n1 /\ length (drop n1 p) = length p - n1)%nat as [Ht Hd] by (rewrite length_take, length_drop; lia).
  edestruct (IH (drop n1 p)) as (din2 & st2 & bs2 & ib2 & Hrun2 & Ho2 & Hg2); [|exact Ho1|..]; rewrite ?length_app, ?Ht, ?Hd.
  1-3: replace (length data + n1 + (length p - n1))%nat with (length data + length p)%nat by lia; lia || done.
  rewrite <- app_assoc, take_drop in Ho2. rewrite length_app, Ht, Hd in Hrun2.
  replace (length data + n1 + (length p - n1))%nat with (length data + length p)%nat in Hrun2 by lia.
  exists din2, st2, bs2, ib2. split_and!; [|done|by eapply grown_trans].
  rewrite <- Hrun2. destruct p as [|c p']; [done|]. cbn [iappend_loop].
  change BSIZE with 1024. assert (Z.of_nat (length data) / 1024 = Z.of_nat (length data / 1024)) as -> by (rewrite Nat2Z.inj_div; done).
  rewrite (proj2 (Z.ltb_lt _ _)) by lia. cbn [negb]. rewrite Nat2Z.id, Hrun. cbn [mbind option_bind]. rewrite Hbuf. cbn [mbind option_bind].
  replace (Z.to_nat (Z.min (Z.of_nat (length (c :: p'))) ((Z.of_nat (length data / 1024) + 1) * 1024 - Z.of_nat (length data)))) with n1 by lia.
  replace (Z.to_nat (Z.of_nat (length data) - Z.of_nat (length data / 1024) * 1024)) with (length data - 1024 * (length data / 1024))%nat by lia.
  by rewrite Nat2Z.inj_add.
Qed.

(** ** Inodes *)

Lemma IBLOCK_sb i : 0 <= i < NINODES -> IBLOCK i mkfs_sb = 32 + i / 16 /\ 32 <= IBLOCK i mkfs_sb < 45.
Proof.
  unfold NINODES. intros Hi. unfold IBLOCK. change (sb_inodestart mkfs_sb) with 32. change IPB with 16.
  rewrite u32_small; dlia.
Qed.

Lemma winode_ok st inum d : disk_ok st -> nmeta <= freeblock st -> 0 <= inum < NINODES -> dinode_ok d ->
  exists st', winode inum d st = Some st' /\ disk_ok st' /\ freeinode st' = freeinode st /\ freeblock st' = freeblock st /\
    rinode inum st' = Some d /\ (forall j, 0 <= j < NINODES -> j <> inum -> rinode j st' = rinode j st) /\
    forall b, b < 32 \/ 45 <= b -> img st' !! b = img st !! b.
Proof.
  intros Hd Hfb Hi Hok. destruct (IBLOCK_sb inum Hi) as [E Hr]. assert (nmeta = 46) as Hm by done. unfold winode, rsect, rinode.
  destruct (disk_block _ Hd (IBLOCK inum mkfs_sb)) as (buf & Hb & Hl); [unfold FSSIZE; lia|]. rewrite Hb. cbn [mbind option_bind].
  assert (forall j, (Z.to_nat (j mod IPB) < 16)%nat) as Hk by (intros j; change IPB with 16; dlia).
  assert (forall j, (DINODE * Z.to_nat (j mod IPB) + DINODE <= length buf)%nat) as Hk2
    by (intros j; specialize (Hk j); rewrite Hl; unfold DINODE; lia).
  eexists. split; [done|]. split_and!; cbn [wsect img freeinode freeblock]; auto.
  - apply disk_ok_wsect; [done|lia|]. rewrite <- Hl. apply length_splice. rewrite length_dinode_bytes by apply Hok. apply Hk2.
  - unfold rsect. cbn [wsect img]. rewrite lookup_insert_eq. cbn [mbind option_bind]. by rewrite dinode_get_put.
  - intros j Hj Hne. destruct (IBLOCK_sb j Hj) as [Ej _]. unfold rsect. cbn [wsect img].
    destruct (decide (IBLOCK j mkfs_sb = IBLOCK inum mkfs_sb)) as [Eb|Eb]; [|by rewrite lookup_insert_ne by done].
    rewrite Eb, lookup_insert_eq, Hb. cbn [mbind option_bind]. rewrite dinode_get_put_ne; [done..|].
    change IPB with 16. dlia.
  - intros b Hb'. by rewrite lookup_insert_ne by lia.
Qed.

(** ** The files of the image *)

Record rep := mkrep { r_type : Z; r_data : list Z; r_bs : list Z; r_ib : Z }.

Definition rep_din (r : rep) : dinode :=
  mkdinode (r_type r) 0 0 1 (Z.of_nat (length (r_data r))) (addrs_of (r_bs r) (r_ib r)).

Definition rep_owned (r : rep) : list Z := owned (r_bs r) (r_ib r).

(** Inode [i + 1] holds the file [F !! i]. *)
Record built (st : image) (F : list rep) : Prop := {
  built_disk : disk_ok st;
  built_super : forall b, 0 <= b < 32 -> img st !! b = Some (if b =? 1 then splice 0 (sb_bytes mkfs_sb) zeroes else zeroes);
  built_inode : freeinode st = Z.of_nat (S (length F));
  built_room : Z.of_nat (length F) < NINODES;
  built_shared : nmeta <= freeblock st <= FSSIZE /\ concat (map rep_owned F) ≡ₚ seqZ nmeta (freeblock st - nmeta);
  built_file : forall i r, F !! i = Some r ->
    rinode (Z.of_nat (S i)) st = Some (rep_din r) /\ short (r_type r) /\
    file_ok (img st) (rep_din r) (r_data r) (r_bs r) (r_ib r) /\ length (r_bs r) = blocks_of (length (r_data r))
}.

Fixpoint used (F : list rep) : nat :=
  match F with [] => 0 | r :: F => cost (length (r_data r)) + used F end.

Lemma used_app F G : used (F ++ G) = (used F + used G)%nat.
Proof. induction F as [|r F IH]; [done|]. cbn [app used]. rewrite IH. lia. Qed.

Lemma owned_used F : (forall i r, F !! i = Some r -> length (r_bs r) = blocks_of (length (r_data r))) ->
  length (concat (map rep_owned F)) = used F.
Proof.
  induction F as [|r F IH]; intros H; [done|]. cbn [map concat used]. rewrite length_app, IH.
  - unfold rep_owned, owned, cost, costb. rewrite length_app, (H 0%nat r) by done. by destruct (_ <? _)%nat.
  - intros i. apply (H (S i)).
Qed.

Lemma rep_dinode_ok im r data st others : file_ok im (rep_din r) data (r_bs r) (r_ib r) -> shared st others (r_bs r) (r_ib r) ->
  short (r_type r) -> (length (r_data r) <= 1024 * MAXFILE)%nat -> dinode_ok (rep_din r).
Proof.
  intros Hf Hs Ht Hl. unfold MAXFILE, NDIRECT, NINDIRECT in Hl. unfold dinode_ok, rep_din; cbn [di_type di_major di_minor di_nlink di_size di_addrs].
  split_and!; try (unfold short in *; lia); [apply length_addrs_of|].
  assert (0 <= r_ib r < 2 ^ 32) as Hib.
  { destruct (decide (length (r_bs r) <= NDIRECT)%nat) as [Hd|Hd]; [rewrite (file_direct _ _ _ _ _ Hf Hd); lia|].
    pose proof (shared_number _ _ _ _ _ Hs (owned_indirect (r_bs r) (r_ib r) ltac:(lia))). lia. }
  unfold addrs_of. apply Forall_app. split; [|by constructor].
  apply Forall_take, Forall_app. split; [|by apply Forall_replicate]. apply Forall_forall. intros b Hb.
  pose proof (shared_number _ _ _ _ b Hs ltac:(apply elem_of_app; auto)). lia.
Qed.

(** The blocks of the other files. *)
Lemma built_split st F1 r F2 : built st (F1 ++ r :: F2) ->
  shared st (concat (map rep_owned (F1 ++ F2))) (r_bs r) (r_ib r) /\ length (concat (map rep_owned (F1 ++ F2))) = used (F1 ++ F2).
Proof.
  intros HB. pose proof (built_shared _ _ HB) as [Hfb Hp]. split.
  - split; [done|]. rewrite <- Hp, !map_app, !concat_app. cbn [map concat].
    change (owned (r_bs r) (r_ib r)) with (rep_owned r). rewrite <- app_assoc. apply Permutation_app_head, Permutation_app_comm.
  - apply owned_used. intros i r' Hr'. assert (r' ∈ F1 ++ F2) as Hin by by eapply list_elem_of_lookup_2.
    assert (r' ∈ F1 ++ r :: F2) as Hin' by set_solver. apply list_elem_of_lookup_1 in Hin' as (j & Hj).
    by apply (built_file _ _ HB j).
Qed.

Lemma rep_owned_elem F i r b : F !! i = Some r -> b ∈ rep_owned r -> b ∈ concat (map rep_owned F).
Proof.
  revert i. induction F as [|r0 F IH]; intros [|i] Hr Hb; try done; cbn in *; apply elem_of_app.
  - left. by injection Hr as ->.
  - right. by eapply IH.
Qed.

Lemma lookup_other (F1 F2 : list rep) r r' j x : (F1 ++ r' :: F2) !! j = Some x ->
  (j = length F1 /\ x = r') \/ (j <> length F1 /\ (F1 ++ r :: F2) !! j = Some x /\ exists k, (F1 ++ F2) !! k = Some x).
Proof.
  intros H. destruct (decide (j < length F1)%nat) as [Hlt|Hge].
  - rewrite lookup_app_l in H by done. right. split; [lia|]. split; [by rewrite lookup_app_l|]. exists j. by rewrite lookup_app_l.
  - rewrite lookup_app_r in H by lia. destruct (j - length F1)%nat as [|k] eqn:Ek; cbn in H.
    + left. split; [lia|congruence].
    + right. split; [lia|]. split; [by rewrite lookup_app_r, Ek by lia|]. exists (length F1 + k)%nat.
      rewrite lookup_app_r by lia. by replace (length F1 + k - length F1)%nat with k by lia.
Qed.

Lemma file_ok_din im din din' data bs ib : file_ok im din data bs ib -> di_addrs din' = di_addrs din -> file_ok im din' data bs ib.
Proof. intros [] E. split; auto. congruence. Qed.

(** The files after one of them, and its inode, has changed. *)
Lemma built_update st st1 st' F1 r F2 r' others : built st (F1 ++ r :: F2) -> others = concat (map rep_owned (F1 ++ F2)) ->
  open_file st1 others (rep_din r') (r_data r') (r_bs r') (r_ib r') -> short (r_type r') ->
  freeinode st1 = freeinode st -> (forall b, b < nmeta \/ b ∈ others -> img st1 !! b = img st !! b) ->
  disk_ok st' -> freeinode st' = freeinode st1 -> freeblock st' = freeblock st1 ->
  rinode (Z.of_nat (S (length F1))) st' = Some (rep_din r') ->
  (forall j, 0 <= j < NINODES -> j <> Z.of_nat (S (length F1)) -> rinode j st' = rinode j st1) ->
  (forall b, b < 32 \/ 45 <= b -> img st' !! b = img st1 !! b) -> built st' (F1 ++ r' :: F2).
Proof.
  intros HB -> [Hf1 Hd1 Hs1 Hl1] Ht Hfi Hoth Hd' Hfi' Hfb' Hri Hrj Himg. assert (nmeta = 46) as Hm by done.
  pose proof (built_room _ _ HB) as Hroom. rewrite length_app in Hroom. cbn [length] in Hroom.
  pose proof (built_inode _ _ HB) as Hino. rewrite length_app in Hino. cbn [length] in Hino.
  assert (forall b, nmeta <= b -> img st' !! b = img st1 !! b) as Himg' by (intros b Hb; apply Himg; lia).
  split; [done|intros b Hb; rewrite Himg, Hoth by lia; by apply (built_super _ _ HB)|rewrite length_app; cbn [length]; congruence|rewrite length_app; cbn [length]; done|..].
  - destruct Hs1 as [Hfb Hp]. rewrite Hfb'. split; [done|]. rewrite <- Hp, !map_app, !concat_app. cbn [map concat].
    change (owned (r_bs r') (r_ib r')) with (rep_owned r'). rewrite <- app_assoc. apply Permutation_app_head, Permutation_app_comm.
  - intros j x Hx. destruct (lookup_other F1 F2 r r' j x Hx) as [[-> ->]|(Hne & Hx' & k & Hk)].
    + split_and!; auto. eapply file_ok_ext; [done|]. intros b Hb. apply Himg'.
      apply (shared_range _ _ _ _ b Hs1). apply elem_of_app. by right.
    + destruct (built_file _ _ HB j x Hx') as (Hr & Hxt & Hxf & Hxl). apply lookup_lt_Some in Hx. rewrite length_app in Hx. cbn [length] in Hx.
      split_and!; auto.
      * rewrite Hrj by lia. rewrite <- Hr. unfold rinode, rsect. f_equal. apply Hoth. left.
        destruct (IBLOCK_sb (Z.of_nat (S j))); lia.
      * eapply file_ok_ext; [done|]. intros b Hb. pose proof (rep_owned_elem _ _ _ b Hk Hb) as Hin.
        rewrite Himg', Hoth; auto. apply (shared_range _ _ _ _ b Hs1). apply elem_of_app. by left.
Qed.

Lemma iappend_ok st F1 r F2 p : built st (F1 ++ r :: F2) -> (length (r_data r) + length p <= 1024 * MAXFILE)%nat ->
  nmeta + Z.of_nat (used (F1 ++ F2) + cost (length (r_data r) + length p)) <= FSSIZE ->
  exists st' bs' ib', iappend (Z.of_nat (S (length F1))) p st = Some st' /\
    built st' (F1 ++ mkrep (r_type r) (r_data r ++ p) bs' ib' :: F2).
Proof.
  intros HB Hmax Hroom. destruct (built_split _ _ _ _ HB) as [Hs Hu]. set (others := concat _) in *.
  destruct (built_file _ _ HB (length F1) r (list_lookup_middle _ _ _ _ eq_refl)) as (Hr & Ht & Hf & Hl).
  pose proof (built_room _ _ HB) as Hro. rewrite length_app in Hro. cbn [length] in Hro.
  unfold iappend. rewrite Hr. cbn [mbind option_bind rep_din di_size].
  rewrite xint_id by (unfold MAXFILE, NDIRECT, NINDIRECT in Hmax; lia).
  destruct (iappend_loop_ok others (length p) p st (rep_din r) (r_data r) (r_bs r) (r_ib r)) as (din' & st1 & bs' & ib' & Hrun & Ho & Hg);
    [done|split; auto; apply (built_disk _ _ HB)|lia|done|].
  rewrite Hrun. cbn [mbind option_bind]. set (r' := mkrep (r_type r) (r_data r ++ p) bs' ib').
  destruct (grown_fields _ _ _ _ _ Hg) as (E1 & E2 & E3 & E4 & _). cbn in E1, E2, E3, E4. pose proof Ho as [Hf1 Hd1 Hs1 Hl1].
  assert (mkdinode (di_type din') (di_major din') (di_minor din') (di_nlink din')
    (xint (Z.of_nat (length (r_data r) + length p))) (di_addrs din') = rep_din r') as ->.
  { unfold rep_din, r'. cbn [r_type r_data r_bs r_ib]. rewrite E1, E2, E3, E4, (file_addrs _ _ _ _ _ Hf1), length_app, xint_id; [done|].
    unfold MAXFILE, NDIRECT, NINDIRECT in Hmax. lia. }
  assert (file_ok (img st1) (rep_din r') (r_data r') (r_bs r') (r_ib r')) as Hf'.
  { eapply file_ok_din; [exact Hf1|]. symmetry. apply (file_addrs _ _ _ _ _ Hf1). }
  destruct (winode_ok st1 (Z.of_nat (S (length F1))) (rep_din r')) as (st' & Hw & Hd' & Hfi' & Hfb' & Hri & Hrj & Himg);
    [done|apply Hs1|lia|eapply rep_dinode_ok; [exact Hf'|exact Hs1|exact Ht|unfold r'; cbn [r_data]; by rewrite length_app]|].
  exists st', bs', ib'. split; [done|].
  eapply (built_update st st1 st' F1 r F2 r' others); eauto; [by split|apply Hg|apply Hg].
Qed.

Lemma ialloc_ok st F type : built st F -> Z.of_nat (S (length F)) < NINODES -> s16 (xshort type) = type -> short type ->
  exists st', ialloc type st = Some (Z.of_nat (S (length F)), st') /\ built st' (F ++ [mkrep type [] [] 0]).
Proof.
  intros HB Hn Ht Hsh. pose proof HB as [Hd Hsup Hi Hroom Hs Hf]. unfold ialloc. rewrite Hi, Ht.
  set (st0 := mkimage _ _ _). set (r := mkrep type [] [] 0).
  change (mkdinode type 0 0 (s16 (xshort 1)) (xint 0) (replicate (S NDIRECT) 0)) with (rep_din r).
  assert (disk_ok st0) as Hd0 by (destruct Hd; by split). assert (nmeta = 46) as Hm by done.
  destruct (winode_ok st0 (Z.of_nat (S (length F))) (rep_din r)) as (st' & Hw & Hd' & Hfi & Hfb & Hri & Hrj & Himg);
    [done|apply Hs|lia| |].
  { unfold dinode_ok, rep_din, short in *. cbn. split_and!; try lia; [done|]. repeat (constructor; [lia|]). constructor. }
  rewrite Hw. cbn [mbind option_bind]. exists st'. split; [done|]. split.
  - done.
  - intros b Hb. rewrite Himg by lia. by apply Hsup.
  - rewrite Hfi, length_app. cbn [length freeinode st0]. unfold NINODES in Hn. rewrite u32_small; lia.
  - rewrite length_app. cbn [length]. unfold NINODES in *. lia.
  - rewrite Hfb. cbn [freeblock st0]. rewrite map_app, concat_app. cbn. by rewrite !app_nil_r.
  - intros i x Hx. apply lookup_app_Some in Hx as [Hx|[Hge Hx]].
    + destruct (Hf i x Hx) as (Hr & Hxt & Hxf & Hxl). apply lookup_lt_Some in Hx as Hlt. split_and!; auto.
      * rewrite Hrj by lia. done.
      * eapply file_ok_ext; [done|]. intros b Hb. rewrite Himg; [done|]. destruct Hs as [_ Hp].
        pose proof (rep_owned_elem _ _ _ b Hx Hb) as Hin. rewrite Hp, elem_of_seqZ in Hin. lia.
    + destruct (i - length F)%nat as [|k] eqn:Ek; [|by destruct k]. cbn in Hx. injection Hx as <-.
      replace i with (length F) by lia. split_and!; auto. split; cbn; auto; [lia|lia|]. exists []. by split.
Qed.

Lemma cost_mono n n' : (n <= n')%nat -> (cost n <= cost n')%nat.
Proof. intros. by apply costb_mono, blocks_of_mono. Qed.

Lemma append_chunks_ok F1 F2 chunks : forall st r, built st (F1 ++ r :: F2) ->
  (length (r_data r) + length (concat chunks) <= 1024 * MAXFILE)%nat ->
  nmeta + Z.of_nat (used (F1 ++ F2) + cost (length (r_data r) + length (concat chunks))) <= FSSIZE ->
  exists st' bs' ib', append_chunks (Z.of_nat (S (length F1))) chunks st = Some st' /\
    built st' (F1 ++ mkrep (r_type r) (r_data r ++ concat chunks) bs' ib' :: F2).
Proof.
  induction chunks as [|p chunks IH]; intros st r HB Hmax Hroom.
  { exists st, (r_bs r), (r_ib r). cbn [append_chunks concat]. rewrite app_nil_r. split; [done|]. by destruct r. }
  cbn [concat] in *. rewrite length_app in Hmax, Hroom.
  destruct (iappend_ok st F1 r F2 p HB) as (st1 & bs1 & ib1 & Hrun & HB1); [lia| |].
  { pose proof (cost_mono (length (r_data r) + length p) (length (r_data r) + (length p + length (concat chunks)))). lia. }
  destruct (IH st1 _ HB1) as (st' & bs' & ib' & Hrun' & HB'); cbn [r_data]; rewrite ?length_app, <- ?Nat.add_assoc; [done..|].
  exists st', bs', ib'. cbn [append_chunks]. rewrite Hrun. cbn [mbind option_bind]. split; [done|]. cbn [r_data r_type] in HB'. by rewrite app_assoc.
Qed.

Lemma length_dirent inum name : length (dirent_bytes inum name) = 16%nat.
Proof. unfold dirent_bytes. rewrite length_app, length_le_bytes, length_strncpy, length_replicate. done. Qed.

(** ** The directory and the files asked for *)

Notation named := (list Z * list Z)%type.

(** The name in the image and the bytes of a file. *)
Definition wanted (f : input) : option named :=
  name ← shortname f.1; chunks ← f.2; Some (name, concat chunks).

(** The entries of the root directory for the files that get the inodes from [k + 2] on. *)
Fixpoint listing (k : nat) (W : list named) : list Z :=
  match W with
  | [] => []
  | w :: W => dirent_bytes (xshort (Z.of_nat (S (S k)))) w.1 ++ listing (S k) W
  end.

Fixpoint wcost (W : list named) : nat :=
  match W with [] => 0 | w :: W => cost (length w.2) + wcost W end.

Lemma add_file_ok st root F f w : built st (root :: F) -> wanted f = Some w -> Z.of_nat (S (S (length F))) < NINODES ->
  (length (r_data root) + 16 <= 1024 * MAXFILE)%nat -> (length w.2 <= 1024 * MAXFILE)%nat ->
  nmeta + Z.of_nat (cost (length (r_data root) + 16) + used F + cost (length w.2)) <= FSSIZE ->
  exists st' root' r, add_file ROOTINO f st = Some st' /\ built st' (root' :: F ++ [r]) /\ r_type root' = r_type root /\
    r_data root' = r_data root ++ dirent_bytes (xshort (Z.of_nat (S (S (length F))))) w.1 /\ r_type r = T_FILE /\ r_data r = w.2.
Proof.
  intros HB Hw Hn Hmd Hmf Hroom. destruct f as [arg ofile]. unfold wanted in Hw. unfold add_file. cbn [fst snd] in *.
  destruct (shortname arg) as [name|]; [|done]. cbn [mbind option_bind] in *.
  destruct ofile as [chunks|]; [|done]. cbn [mbind option_bind] in *. injection Hw as <-. cbn [fst snd] in *.
  destruct (ialloc_ok st (root :: F) T_FILE HB) as (st1 & Ha & HB1); [done|done|unfold short, T_FILE; lia|].
  rewrite Ha. cbn [mbind option_bind length app] in *.
  destruct (iappend_ok st1 [] root (F ++ [mkrep T_FILE [] [] 0]) (dirent_bytes (xshort (Z.of_nat (S (S (length F))))) name))
    as (st2 & bs2 & ib2 & Hd & HB2); rewrite ?length_dirent; [done|done| |].
  { cbn [app]. rewrite used_app. cbn [used r_data length]. change (cost 0) with 0%nat. lia. }
  unfold append_dirent. change (Z.of_nat (S (length (@nil rep)))) with ROOTINO in Hd. rewrite Hd. cbn [mbind option_bind app] in *.
  set (root' := mkrep _ _ bs2 ib2) in *.
  destruct (append_chunks_ok (root' :: F) [] chunks st2 (mkrep T_FILE [] [] 0)) as (st3 & bs3 & ib3 & Hc & HB3); [done|done| |].
  { rewrite app_nil_r. cbn [used r_data length]. unfold root'. cbn [r_data]. rewrite length_app, length_dirent. cbn [Nat.add]. lia. }
  exists st3, root', (mkrep T_FILE (concat chunks) bs3 ib3). by split_and!.
Qed.

Lemma add_files_ok fs : forall st root F W, mapM wanted fs = Some W -> built st (root :: F) ->
  Z.of_nat (S (length F + length W)) < NINODES -> (length (r_data root) + 16 * length W <= 1024 * MAXFILE)%nat ->
  Forall (fun w : named => (length w.2 <= 1024 * MAXFILE)%nat) W ->
  nmeta + Z.of_nat (cost (length (r_data root) + 16 * length W) + used F + wcost W) <= FSSIZE ->
  exists st' root' G, add_files ROOTINO fs st = Some st' /\ built st' (root' :: F ++ G) /\ r_type root' = r_type root /\
    r_data root' = r_data root ++ listing (length F) W /\ Forall2 (fun (w : named) r => r_type r = T_FILE /\ r_data r = w.2) W G.
Proof.
  induction fs as [|f fs IH]; intros st root F W HW HB Hn Hmd Hmf Hroom.
  { injection HW as <-. exists st, root, []. cbn [add_files listing]. rewrite !app_nil_r. by split_and!. }
  apply bind_Some in HW as (w & Hw & (W' & HW & [= <-])%bind_Some). cbn [length wcost] in *. apply Forall_cons in Hmf as [Hmf1 Hmf].
  destruct (add_file_ok st root F f w HB Hw) as (st1 & root1 & r & Hrun & HB1 & Ht1 & Hd1 & Htr & Hdr); [lia..| |].
  { pose proof (cost_mono (length (r_data root) + 16) (length (r_data root) + 16 * S (length W'))). lia. }
  destruct (IH st1 root1 (F ++ [r]) W' HW HB1) as (st' & root' & G & Hrun' & HB' & Ht' & Hd' & HG).
  - rewrite length_app. cbn [length]. lia.
  - rewrite Hd1, length_app, length_dirent. lia.
  - done.
  - rewrite Hd1, length_app, length_dirent, used_app. cbn [used]. rewrite Hdr.
    replace (length (r_data root) + 16 + 16 * length W')%nat with (length (r_data root) + 16 * S (length W'))%nat by lia. lia.
  - exists st', root', (r :: G). cbn [add_files]. rewrite Hrun. cbn [mbind option_bind]. rewrite <- app_assoc in HB'. split_and!; auto.
    + congruence.
    + rewrite Hd', Hd1, <- app_assoc, length_app. cbn [listing length]. do 3 f_equal. lia.
Qed.

(** ** Reading back *)

Lemma file_addr_ok im din data bs ib i b : file_ok im din data bs ib -> bs !! i = Some b -> file_addr im din i = Some b.
Proof.
  intros Hf Hb. pose proof (lookup_lt_Some _ _ _ Hb) as Hlt. pose proof (file_max _ _ _ _ _ Hf) as Hmax.
  pose proof (file_addrs _ _ _ _ _ Hf) as Ha. pose proof (length_addrs_of bs ib) as Hl. pose proof (nth_lookup_Some _ _ 0 _ Hb) as Hn.
  assert (forall k, (k <= NDIRECT)%nat -> di_addrs din !! k = Some (nth k (addrs_of bs ib) 0)) as Hk.
  { intros k Hk. rewrite Ha. destruct (lookup_lt_is_Some_2 (addrs_of bs ib) k ltac:(lia)) as [a Hla].
    by rewrite Hla, (nth_lookup_Some _ _ _ _ Hla). }
  unfold file_addr. destruct (Nat.ltb_spec i NDIRECT) as [Hd|Hd].
  - rewrite Hk, addrs_direct, Hn by lia. done.
  - destruct (file_indirect _ _ _ _ _ Hf ltac:(lia)) as (ind & Hi & _ & He). rewrite Hk, addrs_indirect by lia. cbn [mbind option_bind].
    rewrite Hi. cbn [mbind option_bind]. rewrite He by (unfold MAXFILE in *; lia).
    replace (NDIRECT + (i - NDIRECT))%nat with i by lia. by rewrite Hn.
Qed.

Lemma file_block_ok im din data bs ib i b : file_ok im din data bs ib -> bs !! i = Some b -> file_block im din i = im !! b.
Proof. intros Hf Hb. unfold file_block. by rewrite (file_addr_ok _ _ _ _ _ _ _ Hf Hb). Qed.

Lemma file_bytes_ok im din data bs ib n : file_ok im din data bs ib -> length bs = blocks_of n ->
  file_bytes im din n = Some (take n (data ++ replicate (1024 * length bs - length data) 0)).
Proof.
  intros Hf Hl. destruct (file_data _ _ _ _ _ Hf) as (blks & HF & Hd). unfold file_bytes. rewrite <- Hl.
  assert (mapM (file_block im din) (seq 0 (length bs)) = Some blks) as ->; [|cbn [mbind option_bind]; by rewrite Hd].
  apply mapM_Some_2. pose proof (Forall2_length _ _ _ HF) as Hlen. apply Forall2_same_length_lookup_2; [by rewrite length_seq|].
  intros i k blk Hi Hblk. apply lookup_seq in Hi as [-> Hi]. cbn [Nat.add].
  destruct (lookup_lt_is_Some_2 bs i ltac:(lia)) as [b Hb]. rewrite (file_block_ok _ _ _ _ _ _ _ Hf Hb).
  by destruct (Forall2_lookup_lr _ _ _ _ _ _ HF Hb Hblk).
Qed.

(** The bit of block [b]. *)
Definition bit_of (buf : list Z) (b : nat) : bool := Z.testbit (nth (b / 8) buf 0) (Z.of_nat (b mod 8)).

Lemma bitmap_ok used : (used <= 8 * 1024)%nat -> length (bitmap_loop used zeroes) = 1024%nat /\
  forall b, (b < 8 * 1024)%nat -> bit_of (bitmap_loop used zeroes) b = (b <? used)%nat.
Proof.
  induction used as [|i IH]; intros Hu.
  - split; [done|]. intros b Hb. unfold bit_of. cbn [bitmap_loop]. assert (nth (b / 8) zeroes 0 = 0) as ->.
    { rewrite nth_lookup. unfold zeroes. destruct (_ !! _) eqn:E; [|done]. by apply lookup_replicate in E as [-> _]. }
    rewrite Z.bits_0. symmetry. apply Nat.ltb_ge. lia.
  - destruct (IH ltac:(lia)) as [Hl Hbit]. cbn [bitmap_loop]. rewrite length_insert. split; [done|]. intros b Hb. unfold bit_of in *.
    pose proof (Nat.div_mod_eq b 8). pose proof (Nat.mod_upper_bound b 8 ltac:(lia)).
    pose proof (Nat.div_mod_eq i 8). pose proof (Nat.mod_upper_bound i 8 ltac:(lia)).
    specialize (Hbit b Hb). rewrite nth_lookup in *. destruct (decide (b / 8 = i / 8)%nat) as [E|E].
    + rewrite E, list_lookup_insert_eq by (rewrite Hl; lia). cbn [default id]. rewrite Z.lor_spec, nth_lookup, <- E, Hbit.
      rewrite Z.shiftl_spec by lia. destruct (decide (b = i)) as [->|Hne].
      * rewrite Z.sub_diag. change (Z.testbit 1 0) with true. rewrite orb_true_r. symmetry. apply Nat.ltb_lt. lia.
      * assert (Z.testbit 1 (Z.of_nat (b mod 8) - Z.of_nat (i mod 8)) = false) as ->.
        { destruct (Z.of_nat (b mod 8) - Z.of_nat (i mod 8)) as [|p|p] eqn:Ep; [lia| |done]. by destruct p. }
        rewrite orb_false_r. destruct (Nat.ltb_spec b i), (Nat.ltb_spec b (S i)); lia || done.
    + rewrite list_lookup_insert_ne by done. rewrite Hbit.
      destruct (Nat.ltb_spec b i), (Nat.ltb_spec b (S i)); try done; try lia.
Qed.

(** ** The whole image *)

Lemma cleared_lookup n b : 0 <= b < Z.of_nat n -> cleared n !! b = Some zeroes.
Proof.
  induction n as [|n IH]; intros Hb; [lia|]. cbn [cleared]. destruct (decide (b = Z.of_nat n)) as [->|Hne].
  - by rewrite lookup_insert_eq.
  - rewrite lookup_insert_ne by done. apply IH. lia.
Qed.

Lemma cleared_zeroes n b blk : cleared n !! b = Some blk -> blk = zeroes.
Proof. induction n as [|n IH]; cbn [cleared]; [done|]. intros [[_ <-]|[_ Hb]]%lookup_insert_Some; [done|auto]. Qed.

Lemma start_built : built (wsect 1 (splice 0 (sb_bytes mkfs_sb) zeroes) (mkimage (cleared (Z.to_nat FSSIZE)) 1 nmeta)) [].
Proof.
  assert (forall b, 0 <= b < FSSIZE -> cleared (Z.to_nat FSSIZE) !! b = Some zeroes) as Hc.
  { intros b Hb. apply cleared_lookup. rewrite Z2Nat.id; [done|]. unfold FSSIZE. lia. }
  split.
  - apply disk_ok_wsect; [|done|done]. split; cbn [img freeblock]; [intros b Hb; exists zeroes; by rewrite Hc| |].
    + intros b Hb. apply Hc. assert (nmeta = 46) by done. lia.
    + intros b blk ->%cleared_zeroes. done.
  - intros b Hb. cbn [img wsect]. destruct (Z.eqb_spec b 1) as [->|Hne]; [by rewrite lookup_insert_eq|].
    rewrite lookup_insert_ne by done. apply Hc. unfold FSSIZE. lia.
  - done.
  - done.
  - cbn [wsect freeblock]. by rewrite Z.sub_diag.
  - done.
Qed.

Lemma built_used st F : built st F -> freeblock st = nmeta + Z.of_nat (used F).
Proof.
  intros HB. destruct (built_shared _ _ HB) as [Hf Hp]. apply Permutation_length in Hp.
  rewrite length_seqZ, owned_used in Hp; [lia|]. intros i r Hr. apply (built_file _ _ HB i r Hr).
Qed.

(** The root inode at the end. *)
Definition sized (r : rep) : dinode :=
  mkdinode (r_type r) 0 0 1 (Z.of_nat (1024 * S (length (r_data r) / 1024))) (addrs_of (r_bs r) (r_ib r)).

Lemma finish_ok st root F : built st (root :: F) -> (length (r_data root) < 1024 * MAXFILE)%nat ->
  exists st', finish ROOTINO st = Some st' /\ disk_ok st' /\ rinode ROOTINO st' = Some (sized root) /\
    (forall i r, F !! i = Some r -> rinode (Z.of_nat (S (S i))) st' = Some (rep_din r)) /\
    (forall b, b < 32 \/ nmeta <= b -> img st' !! b = img st !! b) /\
    exists buf, img st' !! sb_bmapstart mkfs_sb = Some buf /\
      forall b, (b < 1000)%nat -> bit_of buf b = (b <? 46 + used (root :: F))%nat.
Proof.
  intros HB Hmax. destruct (built_file _ _ HB 0%nat root eq_refl) as (Hr & Ht & Hf & Hl).
  destruct (built_split st [] root F HB) as [Hs _]. assert (nmeta = 46) as Hm by done. pose proof (built_used _ _ HB) as Hu.
  pose proof (blocks_of_div (length (r_data root))) as [_ Hdiv]. cbn zeta in Hdiv. unfold MAXFILE, NDIRECT, NINDIRECT in Hmax.
  unfold finish. change ROOTINO with (Z.of_nat 1). rewrite Hr. cbn [mbind option_bind]. cbn [rep_din di_size di_type di_major di_minor di_nlink di_addrs].
  rewrite (xint_id (Z.of_nat _)) by lia. change BSIZE with 1024.
  assert ((Z.of_nat (length (r_data root)) / 1024 + 1) * 1024 = Z.of_nat (1024 * S (length (r_data root) / 1024))) as ->.
  { rewrite <- (Nat2Z.inj_div _ 1024). lia. }
  rewrite xint_id by lia. fold (sized root).
  assert (dinode_ok (sized root)) as Hok.
  { assert (dinode_ok (rep_din root)) as (? & ? & ? & ? & ? & ? & ?) by (eapply rep_dinode_ok; eauto; unfold MAXFILE, NDIRECT, NINDIRECT; lia).
    unfold dinode_ok. cbn [sized di_type di_major di_minor di_nlink di_size di_addrs] in *. split_and!; auto; lia. }
  destruct (winode_ok st (Z.of_nat 1) (sized root)) as (st1 & Hw & Hd1 & Hfi & Hfb & Hri & Hrj & Himg);
    [apply (built_disk _ _ HB)|apply (built_shared _ _ HB)|done|done|].
  rewrite Hw. cbn [mbind option_bind]. destruct (built_shared _ _ HB) as [Hfr _]. unfold FSSIZE in Hfr.
  unfold balloc. rewrite Hfb, (proj2 (Z.ltb_lt _ _)) by (change (BSIZE * 8) with 8192; lia). eexists. split; [done|].
  change (sb_bmapstart mkfs_sb) with 45.
  assert (forall j, 0 <= j < NINODES -> forall st2, img st2 = <[45 := bitmap_loop (Z.to_nat (freeblock st)) zeroes]> (img st1) -> rinode j st2 = rinode j st1) as Hkeep.
  { intros j Hj st2 E. unfold rinode, rsect. rewrite E. destruct (IBLOCK_sb j Hj). by rewrite lookup_insert_ne by lia. }
  split_and!.
  - apply disk_ok_wsect; [done|lia|]. apply bitmap_ok. lia.
  - by rewrite (Hkeep (Z.of_nat 1)).
  - intros i r Hi. apply lookup_lt_Some in Hi as Hlt. pose proof (built_room _ _ HB) as Hro. cbn [length] in Hro.
    rewrite Hkeep, Hrj by (done || lia). apply (built_file _ _ HB (S i) r Hi).
  - intros b Hb. cbn [wsect img]. rewrite lookup_insert_ne by lia. apply Himg. lia.
  - exists (bitmap_loop (Z.to_nat (freeblock st)) zeroes). cbn [wsect img]. rewrite lookup_insert_eq. split; [done|]. intros b Hb.
    destruct (bitmap_ok (Z.to_nat (freeblock st))) as [_ Hbit]; [lia|]. rewrite Hbit by lia. f_equal. lia.
Qed.

(** The two first entries of the root directory. *)
Definition dots : list Z := dirent_bytes 1 [46] ++ dirent_bytes 1 [46; 46].

Lemma root_built st : built st [] -> exists st1 st2 st3 root, ialloc T_DIR st = Some (ROOTINO, st1) /\
  append_dirent ROOTINO ROOTINO [46] st1 = Some st2 /\ append_dirent ROOTINO ROOTINO [46; 46] st2 = Some st3 /\
  built st3 [root] /\ r_type root = T_DIR /\ r_data root = dots.
Proof.
  intros HB. destruct (ialloc_ok st [] T_DIR HB) as (st1 & Ha & HB1); [done|done|unfold short, T_DIR; lia|].
  destruct (iappend_ok st1 [] (mkrep T_DIR [] [] 0) [] (dirent_bytes (xshort ROOTINO) [46]) HB1)
    as (st2 & bs2 & ib2 & Hd2 & HB2); rewrite ?length_dirent; cbn [r_data length app used]; [unfold MAXFILE, NINDIRECT; lia|done|].
  destruct (iappend_ok st2 [] _ [] (dirent_bytes (xshort ROOTINO) [46; 46]) HB2)
    as (st3 & bs3 & ib3 & Hd3 & HB3); rewrite ?length_dirent; cbn [r_data r_type length app used]; [unfold MAXFILE, NINDIRECT; rewrite length_dirent; lia|done|].
  eexists st1, st2, st3, _. split_and!; [exact Ha|exact Hd2|exact Hd3|exact HB3|done|done].
Qed.

Lemma length_listing k W : length (listing k W) = (16 * length W)%nat.
Proof. revert k. induction W as [|w W IH]; intros k; [done|]. cbn [listing length]. rewrite length_app, length_dirent, IH. lia. Qed.

Lemma used_wcost W G : Forall2 (fun (w : named) r => r_type r = T_FILE /\ r_data r = w.2) W G -> used G = wcost W.
Proof. induction 1 as [|w r W G [_ E] _ IH]; [done|]. cbn [used wcost]. by rewrite E, IH. Qed.

Lemma built_bytes st F i r im din : built st F -> F !! i = Some r -> (forall b, b < 32 \/ nmeta <= b -> im !! b = img st !! b) ->
  di_addrs din = addrs_of (r_bs r) (r_ib r) -> file_bytes im din (length (r_data r)) = Some (r_data r).
Proof.
  intros HB Hr Him Ha. destruct (built_file _ _ HB i r Hr) as (_ & _ & Hf & Hl).
  rewrite (file_bytes_ok im din (r_data r) (r_bs r) (r_ib r)); [by rewrite take_app_length| |done].
  eapply file_ok_ext; [by eapply file_ok_din|]. intros b Hb. apply Him. right.
  pose proof (rep_owned_elem _ _ _ b Hr Hb) as Hin. destruct (built_shared _ _ HB) as [_ Hp].
  rewrite Hp, elem_of_seqZ in Hin. lia.
Qed.

(** The image has the files as [built] describes them, in [st0], and the inode of
    the root and the bitmap as finish() leaves them. *)
Lemma mkfs_built fs W : let n := (32 + 16 * length W)%nat in
  mapM wanted fs = Some W -> Z.of_nat (S (length W)) < NINODES ->
  Forall (fun w : named => (length w.2 <= 1024 * MAXFILE)%nat) W -> nmeta + Z.of_nat (cost n + wcost W) <= FSSIZE ->
  exists st st0 root G, main fs = Some st /\ disk_ok st /\ built st0 (root :: G) /\ r_type root = T_DIR /\ r_data root = dots ++ listing 0 W /\
    Forall2 (fun (w : named) r => r_type r = T_FILE /\ r_data r = w.2) W G /\
    rinode ROOTINO st = Some (sized root) /\
    (forall i r, G !! i = Some r -> rinode (Z.of_nat (S (S i))) st = Some (rep_din r)) /\
    (forall b, b < 32 \/ nmeta <= b -> img st !! b = img st0 !! b) /\
    exists buf, img st !! sb_bmapstart mkfs_sb = Some buf /\
      forall b, (b < 1000)%nat -> bit_of buf b = (b <? 46 + (cost n + wcost W))%nat.
Proof.
  intros n HW Hn Hmax Hroom. destruct (root_built _ start_built) as (st1 & st2 & st3 & root & H1 & H2 & H3 & HB & Ht & Hd).
  assert (length (r_data root) = 32%nat) as Hlr by by rewrite Hd. unfold NINODES in Hn.
  destruct (add_files_ok fs st3 root [] W HW HB) as (st4 & root' & G & H4 & HB4 & Ht4 & Hd4 & HG); rewrite ?Hlr; cbn [length used]; auto.
  { unfold MAXFILE, NDIRECT, NINDIRECT. lia. }
  { fold n. lia. }
  cbn [app] in HB4. rewrite Hd in Hd4. cbn [length] in Hd4.
  assert (length (r_data root') = n) as Hn' by (rewrite Hd4, length_app, length_listing; done).
  assert (used (root' :: G) = cost n + wcost W)%nat as Hused by (cbn [used]; rewrite Hn', (used_wcost W G) by done; done).
  destruct (finish_ok st4 root' G HB4) as (st & H5 & Hdk & Hroot & Hfiles & Himg & buf & Hbuf & Hbits).
  { rewrite Hn'. unfold n, MAXFILE, NDIRECT, NINDIRECT. lia. }
  exists st, st4, root', G. split; [|split; [exact Hdk|split; [exact HB4|split; [congruence|split; [exact Hd4|split; [exact HG|
    split; [exact Hroot|split; [exact Hfiles|split; [exact Himg|]]]]]]]]].
  - unfold main. rewrite H1. cbn [mbind option_bind]. change (negb (ROOTINO =? ROOTINO)) with false. cbv iota.
    rewrite H2. cbn [mbind option_bind]. rewrite H3. cbn [mbind option_bind]. rewrite H4. done.
  - exists buf. split; [done|]. intros b Hb. rewrite Hbits, Hused by done. done.
Qed.

(** C12: mkfs builds the file system it is asked for.  When the files fit, it
    ends and leaves an image whose superblock is the one the kernel is
    configured for, whose root directory lists "." and ".." and the files under
    their short names, in which every file has an inode of its own that leads to
    exactly the bytes of the file, and whose bitmap marks the blocks in use and
    no others. *)
Theorem mkfs_image fs W : let n := (32 + 16 * length W)%nat in
  mapM wanted fs = Some W -> Z.of_nat (S (length W)) < NINODES ->
  Forall (fun w : named => (length w.2 <= 1024 * MAXFILE)%nat) W -> nmeta + Z.of_nat (cost n + wcost W) <= FSSIZE ->
  exists st, main fs = Some st /\
    (exists buf, img st !! 1 = Some buf /\ sb_of buf = sb0) /\
    (exists din, rinode ROOTINO st = Some din /\ di_type din = T_DIR /\ di_size din = Z.of_nat (1024 * S (n / 1024)) /\
       file_bytes (img st) din n = Some (dots ++ listing 0 W)) /\
    (forall k w, W !! k = Some w -> exists din, rinode (Z.of_nat (S (S k))) st = Some din /\ di_type din = T_FILE /\
       di_nlink din = 1 /\ di_size din = Z.of_nat (length w.2) /\ file_bytes (img st) din (length w.2) = Some w.2) /\
    (exists buf, img st !! sb_bmapstart sb0 = Some buf /\
       forall b, (b < 1000)%nat -> bit_of buf b = (b <? 46 + (cost n + wcost W))%nat).
Proof.
  intros n HW Hn Hmax Hroom.
  destruct (mkfs_built fs W HW Hn Hmax Hroom) as (st & st0 & root & G & Hmain & _ & HB & Ht & Hd & HG & Hroot & Hfiles & Himg & Hbits).
  assert (length (r_data root) = n) as Hn' by (rewrite Hd, length_app, length_listing; done).
  exists st. split_and!; [done|..|done].
  - pose proof (built_super _ _ HB 1 ltac:(lia)) as Hsup. change (1 =? 1) with true in Hsup. cbv iota in Hsup.
    eexists. rewrite Himg by (left; lia). split; [exact Hsup|]. by vm_compute.
  - exists (sized root). split; [done|]. rewrite <- Hn'. split_and!; [done|done|].
    rewrite <- Hd. eapply (built_bytes st0 _ 0%nat); eauto.
  - intros k w Hw. destruct (Forall2_lookup_l _ _ _ _ _ HG Hw) as (r & Hr & Htr & Hdr). exists (rep_din r).
    split; [by apply Hfiles|]. rewrite <- Hdr. split_and!; [done..|]. eapply (built_bytes st0 _ (S k)); eauto.
Qed.

(** Two small files, one read in two pieces. *)
Definition some_files : list input :=
  [(bytes_of "user/_cat", Some [[127; 69; 76; 70]; [0; 1]]); (bytes_of "README", Some [bytes_of "xv6"])].

Lemma mkfs_image_witness : exists st din, main some_files = Some st /\ rinode 2 st = Some din /\
  file_bytes (img st) din 6 = Some [127; 69; 76; 70; 0; 1].
Proof.
  destruct (mkfs_image some_files [(bytes_of "cat", [127; 69; 76; 70; 0; 1]); (bytes_of "README", bytes_of "xv6")])
    as (st & Hst & _ & _ & Hf & _).
  - reflexivity.
  - unfold NINODES. cbn. lia.
  - unfold MAXFILE, NINDIRECT, NDIRECT. constructor; [|constructor; [|constructor]]; cbn [snd].
    + change (length _) with 6%nat. lia.
    + change (length _) with 3%nat. lia.
  - vm_compute. congruence.
  - destruct (Hf 0%nat _ eq_refl) as (din & Hd & _ & _ & _ & Hb). exists st, din. split_and!; assumption.
Defined.
