(* ===== verification/Readfs.v ===== *)
(** * Reading files through the whole stack

    bmap(), readi(), dirlookup(), namei() and fileread() over the buffer cache and
    the disk driver: what they return is what the blocks of the file store.  The
    last theorem composes this with the image mkfs builds: the kernel finds every
    file of the image by its name and reads back exactly the bytes mkfs was given. *)

From S2P Require Import Prelude State Machine Monad Spinlock Cstring Kalloc Vm Pagetable Proc Sleeplock.
From S2P Require Import Mkfs Console Pipe File.
From S2P Require Import Virtio Bio Bufcache Diskio Log Transact Crash Fs.

(** ** What the blocks store *)

(** The address of block [k] of a file, by the inode's addresses. *)
Definition block_addr (c : Z -> option (list Z)) (addrs : list Z) (k : nat) : option Z :=
  if (k <? NDIRECT)%nat then addrs !! k
  else ib ← addrs !! NDIRECT; ind ← c ib; Some (get32 ind (4 * (k - NDIRECT))).

(** The blocks [c] hold [data] as the content of a file with these addresses. *)
Record stored (c : Z -> option (list Z)) (addrs data : list Z) : Prop := {
  stored_size : (length data <= 1024 * MAXFILE)%nat;
  stored_indirect : (1024 * NDIRECT < length data)%nat -> exists ib, addrs !! NDIRECT = Some ib /\ 0 < ib < 2 ^ 31;
  stored_block : forall k, (1024 * k < length data)%nat ->
    exists a blk, block_addr c addrs k = Some a /\ 0 < a < 2 ^ 31 /\ c a = Some blk /\
      forall j, (j < 1024)%nat -> (1024 * k + j < length data)%nat -> blk !! j = data !! (1024 * k + j)%nat;
}.

Lemma stored_ext c c' addrs data : (forall b, c' b = c b) -> stored c addrs data -> stored c' addrs data.
Proof.
  intros E [H1 H2 H3]. split; [done..|]. intros k Hk. destruct (H3 k Hk) as (a & blk & Ha & Hr & Hc & Hj).
  exists a, blk. rewrite E. split; [|done]. rewrite <- Ha. unfold block_addr. case_match; [done|].
  destruct (addrs !! NDIRECT); [|done]. cbn. by rewrite E.
Qed.

(** The part of a block a read takes. *)
Lemma stored_sub (blk data : list Z) off m :
  (off mod 1024 + m <= 1024)%nat -> (off + m <= length data)%nat ->
  (forall j, (j < 1024)%nat -> (1024 * (off / 1024) + j < length data)%nat ->
     blk !! j = data !! (1024 * (off / 1024) + j)%nat) ->
  sub_bytes blk (off mod 1024) m = sub_bytes data off m.
Proof.
  intros Hm Hl Hj. apply list_eq. intros i. unfold sub_bytes.
  destruct (decide (i < m)%nat); [|by rewrite !lookup_take_ge by lia].
  rewrite !lookup_take_lt, !lookup_drop by done. pose proof (Nat.div_mod_eq off 1024).
  rewrite Hj by lia. f_equal. lia.
Qed.

(** ** Traffic between the cache and the disk *)

Section Reading.
Context `{HD : Disk, !DiskOk, HP : PlatformOk} (p : nat) (pid : Z) (pins : nat -> Z).
Context (Hroom : room pins []).

Notation idle_fs := (session p pid pins [] []).

(** From [s] to [s'] blocks may have been cached and others waked up, and the
    memory is now [m]: nothing else has changed. *)
Record traffic (m : gmap Z Z) (s s' : kernel) : Prop := {
  tr_erase : erase_io s' = erase_io s <| mem := m |>;
  tr_disk : disk s' = disk s;
  tr_writes : dwrites s' = dwrites s;
  tr_content : forall bn, content (bcache s') (disk s') bn = content (bcache s) (disk s) bn;
  tr_face : same_face p s s';
}.

Lemma traffic_refl s : traffic (mem s) s s.
Proof using. split; done. Qed.

Lemma traffic_trans m m' s s1 s2 : traffic m s s1 -> traffic m' s1 s2 -> traffic m' s s2.
Proof using.
  intros [E1 D1 W1 C1 F1] [E2 D2 W2 C2 F2]. split.
  - assert (H2 : forall x : kernel, x <| mem := m |> <| mem := m' |> = x <| mem := m' |>) by (intros []; reflexivity).
    by rewrite E2, E1, H2.
  - by rewrite D2.
  - by rewrite W2.
  - intros bn. by rewrite C2.
  - unfold same_face in *. by rewrite F2.
Qed.

Lemma traffic_mem m s s' : traffic m s s' -> mem s' = m.
Proof using. intros [E _ _ _ _]. change (mem s') with (mem (erase_io s')). by rewrite E. Qed.

Lemma traffic_itable m s s' : traffic m s s' -> itable s' = itable s.
Proof using. intros [E _ _ _ _]. change (itable s') with (itable (erase_io s')). by rewrite E. Qed.

Lemma traffic_sb m s s' : traffic m s s' -> sb s' = sb s.
Proof using. intros [E _ _ _ _]. change (sb s') with (sb (erase_io s')). by rewrite E. Qed.

Lemma traffic_ftable m s s' : traffic m s s' -> ftable s' = ftable s.
Proof using. intros [E _ _ _ _]. change (ftable s') with (ftable (erase_io s')). by rewrite E. Qed.

Lemma traffic_hw m s s' : traffic m s s' -> hw s' = hw s.
Proof using. intros [E _ _ _ _]. change (hw s') with (hw (erase_io s')). by rewrite E. Qed.

Lemma session_mem held dirty m s :
  session p pid pins held dirty s -> session p pid pins held dirty (s <| mem := m |>).
Proof using. intros [H1 H2 H3]. by split. Qed.

(** What has a content is a block of the disk. *)
Lemma content_exists held dirty s bn d :
  session p pid pins held dirty s -> content (bcache s) (disk s) bn = Some d -> is_Some (disk s !! bn).
Proof using.
  intros [_ _ Hc] Hd. destruct (content_cases (bcache s) bn) as [(b & bb & Hb & Hbb & Ht)|Hno].
  - apply caches_true in Ht as (_ & Hdev & <-). by apply (ca_buf _ _ _ _ _ _ Hc b bb Hb Hbb).
  - rewrite content_uncached in Hd by done. by eexists.
Qed.

Lemma bread_block n bn d e s :
  serves (S n) e -> idle_fs s -> 0 <= bn < 2 ^ 31 -> content (bcache s) (disk s) bn = Some d ->
  exists b bb e' s', bread ROOTDEV bn e s = Ret b e' s' /\ serves n e' /\ granted p pid pins [] [] bn s b bb s' /\
    b_data bb = d.
Proof using All.
  intros He Hs Hbn Hd. destruct (bread_ok p pid pins [] [] n bn e s) as (b & bb & e' & s' & R & He' & G); try done.
  - by eapply content_exists.
  - by intros b _ ?%elem_of_nil.
  - by left.
  - exists b, bb, e', s'. split; [done|]. split; [done|]. split; [done|].
    pose proof (gr_data _ _ _ _ _ _ _ _ _ _ G). congruence.
Qed.

Lemma bdata_run b bb e s : bcache s !! b = Some bb -> bdata b e s = Ret (b_data bb) e s.
Proof using. intros Hb. unfold bdata. by rewrite (bind_run _ _ _ _ _ _ _ (buf_at_run _ _ _ _ Hb)). Qed.

(** The buffer is given back, perhaps after its bytes have been copied. *)
Lemma brelse_block bn b bb m e s s' :
  granted p pid pins [] [] bn s b bb s' ->
  exists s'', brelse b e (s' <| mem := m |>) = Ret tt e s'' /\ idle_fs s'' /\ traffic m s s''.
Proof using All.
  intros G. pose proof (gr_session _ _ _ _ _ _ _ _ _ _ G) as Hs1.
  destruct (brelse_ok p pid pins [b] [] [] b bb e (s' <| mem := m |>)) as (s'' & R & Hs2 & E & D & W & F & V).
  - by apply session_mem.
  - apply (gr_lt _ _ _ _ _ _ _ _ _ _ G).
  - apply (gr_buf _ _ _ _ _ _ _ _ _ _ G).
  - left.
  - by intros ?%elem_of_nil.
  - set_solver.
  - exists s''. split; [done|]. split; [done|]. split.
    + rewrite E. change (erase_io (s' <| mem := m |>)) with (erase_io s' <| mem := m |>).
      by rewrite (gr_erase _ _ _ _ _ _ _ _ _ _ G).
    + rewrite D. apply (gr_disk _ _ _ _ _ _ _ _ _ _ G).
    + rewrite W. apply (gr_writes _ _ _ _ _ _ _ _ _ _ G).
    + intros x. rewrite <- (gr_content _ _ _ _ _ _ _ _ _ _ G), D.
      eapply (content_view _ _ _ _ _ _ _ (bcache s') (bcache s'') (disk s')); [apply Hs1| |exact V].
      change (disk s') with (disk (s' <| mem := m |>)). rewrite <- D. apply Hs2.
    + unfold same_face in *. rewrite F. apply (gr_face _ _ _ _ _ _ _ _ _ _ G).
Qed.

Lemma mem_id (s : kernel) : s <| mem := mem s |> = s.
Proof using. by destruct s. Qed.

Lemma brelse_same bn b bb e s s' :
  granted p pid pins [] [] bn s b bb s' ->
  exists s'', brelse b e s' = Ret tt e s'' /\ idle_fs s'' /\ traffic (mem s) s s''.
Proof using All.
  intros G. destruct (brelse_block bn b bb (mem s') e s s' G) as (s'' & R & Hs & T).
  rewrite mem_id in R. exists s''. split; [done|]. split; [done|]. assert (mem s' = mem s) as Em; [|by rewrite <- Em].
  change (mem (erase_io s') = mem (erase_io s)). by rewrite (gr_erase _ _ _ _ _ _ _ _ _ _ G).
Qed.

Lemma erase_same s s' : erase_io s' = erase_io s -> erase_io s' = erase_io s <| mem := mem s |>.
Proof using. intros E. rewrite E. reflexivity. Qed.

(** A buffer is given back whatever else the holder has changed. *)
Lemma brelse_held b bb e s :
  session p pid pins [b] [] s -> (b < NBUF)%nat -> bcache s !! b = Some bb ->
  exists s', brelse b e s = Ret tt e s' /\ idle_fs s' /\ traffic (mem s) s s'.
Proof using.
  intros Hs Hb Hbb. destruct (brelse_ok p pid pins [b] [] [] b bb e s) as (s' & R & Hs' & E & D & W & F & V); try done.
  - left.
  - by intros ?%elem_of_nil.
  - intros x. rewrite elem_of_nil, list_elem_of_singleton. tauto.
  - exists s'. split; [done|]. split; [done|]. split; [by apply erase_same|done|done| |done].
    intros x. rewrite D. eapply content_view; [apply Hs| |exact V]. rewrite <- D. apply Hs'.
Qed.

Lemma granted_traffic bn b bb s s' : granted p pid pins [] [] bn s b bb s' -> traffic (mem s) s s'.
Proof using. intros []. split; [by apply erase_same|done..]. Qed.

(** The inode table is not part of the traffic. *)
Lemma traffic_itable_upd m g s s' : traffic m s s' -> traffic m (s <| itable ::= g |>) (s' <| itable ::= g |>).
Proof using.
  intros [E D W C F]. split; [|done..].
  change (erase_io (s' <| itable ::= g |>)) with (erase_io s' <| itable ::= g |>). rewrite E. reflexivity.
Qed.

Lemma session_itable held dirty g s :
  session p pid pins held dirty s -> session p pid pins held dirty (s <| itable ::= g |>).
Proof using. intros [H1 H2 H3]. by split. Qed.

(** ** bmap *)

Lemma inode_at_run ip nd e s : itable s !! ip = Some nd -> inode_at ip e s = Ret nd e s.
Proof using. intros Hn. unfold inode_at. rewrite step_gets, Hn. done. Qed.

Lemma iaddr_run ip nd i a e s :
  itable s !! ip = Some nd -> i_addrs nd !! i = Some a -> iaddr ip i e s = Ret a e s.
Proof using.
  intros Hn Ha. unfold iaddr. rewrite (bind_run _ _ _ _ _ _ _ (inode_at_run _ _ _ _ Hn)), Ha. done.
Qed.

(** bmap() of a block the file has allocates nothing. *)
Lemma bmap_run n ip nd data k a e s :
  serves (S n) e -> idle_fs s -> itable s !! ip = Some nd -> i_dev nd = ROOTDEV ->
  stored (content (bcache s) (disk s)) (i_addrs nd) data -> (1024 * k < length data)%nat ->
  block_addr (content (bcache s) (disk s)) (i_addrs nd) k = Some a -> a <> 0 ->
  exists e' s', bmap ip (Z.of_nat k) e s = Ret a e' s' /\ serves n e' /\ idle_fs s' /\ traffic (mem s) s s'.
Proof using All.
  intros He Hs Hn Hdev [Hsz Hi _] Hk Ha Hz. unfold bmap. rewrite (bind_run _ _ _ _ _ _ _ (inode_at_run _ _ _ _ Hn)).
  unfold block_addr in Ha. destruct (k <? NDIRECT)%nat eqn:Hd.
  - apply Nat.ltb_lt in Hd. rewrite (proj2 (Z.ltb_lt _ _)), Nat2Z.id by lia.
    rewrite (bind_run _ _ _ _ _ _ _ (iaddr_run _ _ _ _ e _ Hn Ha)), (proj2 (Z.eqb_neq _ _)) by done.
    exists e, s. split; [done|]. split; [by apply serves_less|]. split; [done|apply traffic_refl].
  - apply Nat.ltb_ge in Hd. rewrite (proj2 (Z.ltb_ge _ _)) by lia.
    assert (k < NDIRECT + NINDIRECT)%nat by (unfold MAXFILE, NDIRECT, NINDIRECT in *; lia).
    rewrite (proj2 (Z.ltb_lt _ _)) by lia. destruct Hi as (ib & Hib & Hr); [lia|]. rewrite Hib in Ha. cbn [mbind option_bind] in Ha.
    destruct (content _ _ ib) as [ind|] eqn:Hind; [|done]. apply (inj Some) in Ha.
    rewrite (bind_run _ _ _ _ _ _ _ (iaddr_run _ _ _ _ e _ Hn Hib)), (proj2 (Z.eqb_neq _ _)), step_ret by lia.
    destruct (bread_block n ib ind e s) as (b & bb & e1 & s1 & R1 & He1 & G & Hbd); [done|done|lia|done|].
    rewrite Hdev, (bind_run _ _ _ _ _ _ _ R1).
    rewrite (bind_run _ _ _ _ _ _ _ (bdata_run _ _ e1 _ (gr_buf _ _ _ _ _ _ _ _ _ _ G))), Hbd.
    replace (Z.to_nat (4 * (Z.of_nat k - Z.of_nat NDIRECT))) with (4 * (k - NDIRECT))%nat by lia.
    rewrite Ha, (proj2 (Z.eqb_neq _ _)), step_ret by done.
    destruct (brelse_same ib b bb e1 s s1 G) as (s2 & R2 & Hs2 & T2).
    exists e1, s2. by rewrite (bind_run _ _ _ _ _ _ _ R2).
Qed.

(** ** Where the bytes go *)

Context (lvl : gmap Z nat) (f : Z -> Z).

(** The memory after [bytes] have been copied to [dst]; [f] gives the physical
    address of a user address. *)
Definition deliver (dst : dest) (bytes : list Z) (m : gmap Z Z) : gmap Z Z :=
  match dst with
  | DUser va => ustore f va bytes m
  | DPhys pa => put_bytes pa bytes m
  | DLocal => m
  end.

(** [n] bytes can be copied to [dst]: a user address range is mapped. *)
Definition accepts (dst : dest) (n : nat) (s : kernel) : Prop :=
  match dst with
  | DUser va => exists pp, procs s !! p = Some pp /\ shape (mem s) lvl /\ lvl !! p_pagetable pp = Some 2%nat /\
      0 <= va /\ va + Z.of_nat n <= MAXVA /\ user_range (mem s) lvl (p_pagetable pp) va (Z.of_nat n) f
  | _ => True
  end.

Lemma user_range_less m root va n n' : n' <= n -> user_range m lvl root va n f -> user_range m lvl root va n' f.
Proof using. intros Hn Hu i Hi. apply Hu. lia. Qed.

Lemma copy_run dst bytes n e s :
  calm p pid s -> accepts dst n s -> (length bytes <= n)%nat ->
  either_copyout dst bytes e s = Ret 0 e (s <| mem := deliver dst bytes (mem s) |>).
Proof using All.
  intros Hc Ha Hl. unfold either_copyout. mrun myproc_run; eauto with kernel. rewrite (calm_cur _ _ _ Hc).
  destruct dst as [va|pa|]; cbn [deliver accepts] in *.
  - destruct Ha as (pp & Hpp & Hs & Hr & Hva & Hmax & Hu). rewrite step_deref.
    rewrite (bind_run _ _ _ _ _ _ _ (proc_at_run _ _ _ _ Hpp)).
    rewrite (copyout_run _ va bytes lvl f); try done; [lia|]. eapply user_range_less; [|exact Hu]. lia.
  - done.
  - by rewrite mem_id.
Qed.

Lemma va_next va n : 0 <= va -> va + Z.of_nat n <= MAXVA -> va +64 Z.of_nat n = va + Z.of_nat n.
Proof using All. change MAXVA with (2 ^ 38). intros. apply u64_small. lia. Qed.

(** Being acceptable depends on the memory and the process only. *)
Lemma accepts_same dst n s s' : accepts dst n s -> mem s' = mem s -> same_face p s s' -> accepts dst n s'.
Proof using.
  destruct dst as [va|pa|]; cbn [accepts]; [|done..]. intros (pp & Hpp & Ha) Em F. unfold same_face in F.
  rewrite Hpp in F. destruct (procs s' !! p) as [pp'|] eqn:Hpp'; [|done]. injection F as F _ _ _ _.
  exists pp'. by rewrite F, Em.
Qed.

Lemma accepts_next dst n bytes s s' :
  accepts dst n s -> (length bytes <= n)%nat -> traffic (deliver dst bytes (mem s)) s s' ->
  accepts (dest_add dst (Z.of_nat (length bytes))) (n - length bytes) s'.
Proof using All.
  destruct dst as [va|pa|]; cbn [deliver accepts dest_add]; [|done..].
  intros (pp & Hpp & Hs & Hr & Hva & Hmax & Hu) Hl T. pose proof (tr_face _ _ _ T) as F. unfold same_face in F.
  rewrite Hpp in F. destruct (procs s' !! p) as [pp'|] eqn:Hpp'; [|done]. injection F as F _ _ _ _.
  rewrite va_next, (traffic_mem _ _ _ T) by lia.
  assert (same_tables lvl (mem s) (ustore f va bytes (mem s))) as Hsame.
  { eapply same_tables_ustore, user_range_less; [|exact Hu]. lia. }
  exists pp'. split; [done|]. rewrite F. split; [by eapply shape_same_tables|]. split; [done|].
  split; [lia|]. split; [lia|]. eapply user_range_same; [exact Hsame|done|done|].
  replace (Z.of_nat (n - length bytes)) with (Z.of_nat n - Z.of_nat (length bytes)) by lia.
  apply user_range_step; [lia|done].
Qed.

Lemma deliver_app dst n b1 b2 s :
  accepts dst n s -> (length b1 <= n)%nat ->
  deliver dst (b1 ++ b2) (mem s) =
    deliver (dest_add dst (Z.of_nat (length b1))) b2 (deliver dst b1 (mem s)).
Proof using All.
  destruct dst as [va|pa|]; cbn [deliver accepts dest_add]; [|intros _ _|done].
  - intros (pp & _ & _ & _ & Hva & Hmax & _) Hl. rewrite va_next by lia. apply ustore_app.
  - generalize (mem s). revert pa. induction b1 as [|b b1 IH]; intros pa m; cbn [app put_bytes length].
    + by rewrite Z.add_0_r.
    + rewrite IH. f_equal. lia.
Qed.

(** ** readi *)

(** One round of the loop of readi(). *)
Definition readi_round (ip : nat) (nd : inode) (n : Z) : Z * Z * dest * list Z -> M (Z * Z * dest * list Z + Z * list Z) :=
  fun '(tot, off, dst, got) =>
    if tot <? n then
      bn <- bmap ip (off / BSIZE);
      bp <- bread (i_dev nd) bn;
      let m := Z.min (n - tot) (BSIZE - off mod BSIZE) in
      data <- bdata bp;
      let bytes := sub_bytes data (Z.to_nat (off mod BSIZE)) (Z.to_nat m) in
      r <- either_copyout dst bytes;
      if r =? -1 then
        brelse bp ;; ret (inr (-1, got))
      else
        brelse bp ;;
        ret (inl (tot + m, off +32 m, dest_add dst m, got ++ bytes))
    else ret (inr (s32 tot, got)).

Lemma length_sub_bytes l off n : (off + n <= length l)%nat -> length (sub_bytes l off n) = n.
Proof using. intros Hl. unfold sub_bytes. rewrite length_take, length_drop. lia. Qed.

(** The inode in slot [ip] is in memory and its blocks hold [data]. *)
Record loaded (ip : nat) (nd : inode) (data : list Z) (s : kernel) : Prop := {
  lo_slot : itable s !! ip = Some nd;
  lo_dev : i_dev nd = ROOTDEV;
  lo_size : i_size nd = Z.of_nat (length data);
  lo_data : stored (content (bcache s) (disk s)) (i_addrs nd) data;
}.

Lemma loaded_traffic ip nd data m s s' : loaded ip nd data s -> traffic m s s' -> loaded ip nd data s'.
Proof using.
  intros [H1 H2 H3 H4] T. split; [by rewrite (traffic_itable _ _ _ T)|done..|].
  eapply stored_ext; [|exact H4]. apply (tr_content _ _ _ T).
Qed.

Lemma loaded_small ip nd data s : loaded ip nd data s -> Z.of_nat (length data) <= 274432.
Proof using. intros L. pose proof (stored_size _ _ _ (lo_data _ _ _ _ L)). unfold MAXFILE, NDIRECT, NINDIRECT in *. lia. Qed.

Lemma readi_round_run j ip nd data tot rem off dst got e s :
  let m := Nat.min rem (1024 - off mod 1024) in
  serves (S (S j)) e -> idle_fs s -> loaded ip nd data s -> (0 < rem)%nat -> (off + rem <= length data)%nat ->
  accepts dst rem s ->
  exists e' s', readi_round ip nd (Z.of_nat (tot + rem)) (Z.of_nat tot, Z.of_nat off, dst, got) e s =
    Ret (inl (Z.of_nat (tot + m), Z.of_nat (off + m), dest_add dst (Z.of_nat m), got ++ sub_bytes data off m)) e' s' /\
    serves j e' /\ idle_fs s' /\ traffic (deliver dst (sub_bytes data off m) (mem s)) s s'.
Proof using All.
  intros m He Hs L Hrem Hoff Hacc. pose proof (loaded_small _ _ _ _ L) as Hsm.
  pose proof (Nat.mod_upper_bound off 1024 ltac:(lia)) as Hmod. pose proof (Nat.div_mod_eq off 1024) as Hdm.
  destruct (stored_block _ _ _ (lo_data _ _ _ _ L) (off / 1024)) as (a & blk & Ha & Hr & Hblk & Hj); [lia|].
  destruct (bmap_run (S j) ip nd data (off / 1024) a e s) as (e1 & s1 & R1 & He1 & Hs1 & T1); try done;
    [apply L|apply L|apply L|lia|lia|].
  destruct (bread_block j a blk e1 s1) as (b & bb & e2 & s2 & R2 & He2 & G & Hbd); [done|done|lia|by rewrite (tr_content _ _ _ T1)|].
  assert (Ec : sub_bytes blk (off mod 1024) m = sub_bytes data off m) by (apply stored_sub; [lia|lia|done]).
  assert (Em : mem s2 = mem s).
  { rewrite <- (traffic_mem _ _ _ T1). change (mem (erase_io s2) = mem (erase_io s1)).
    by rewrite (gr_erase _ _ _ _ _ _ _ _ _ _ G). }
  assert (Hcopy : either_copyout dst (sub_bytes data off m) e2 s2 =
    Ret 0 e2 (s2 <| mem := deliver dst (sub_bytes data off m) (mem s2) |>)).
  { apply (copy_run _ _ rem); [apply (gr_session _ _ _ _ _ _ _ _ _ _ G)| |rewrite length_sub_bytes; lia].
    apply (accepts_same dst rem s); [done|done|].
    unfold same_face. rewrite (gr_face _ _ _ _ _ _ _ _ _ _ G). apply (tr_face _ _ _ T1). }
  destruct (brelse_block a b bb (deliver dst (sub_bytes data off m) (mem s2)) e2 s1 s2 G) as (s3 & R3 & Hs3 & T3).
  exists e2, s3. split; [|split; [done|split; [done|]]].
  - unfold readi_round. rewrite (proj2 (Z.ltb_lt _ _)) by lia. change BSIZE with 1024 at 1.
    replace (Z.of_nat off / 1024) with (Z.of_nat (off / 1024)) by (rewrite Nat2Z.inj_div; done).
    rewrite (bind_run _ _ _ _ _ _ _ R1), (lo_dev _ _ _ _ L), (bind_run _ _ _ _ _ _ _ R2).
    rewrite (bind_run _ _ _ _ _ _ _ (bdata_run _ _ _ _ (gr_buf _ _ _ _ _ _ _ _ _ _ G))), Hbd.
    assert (Em' : Z.min (Z.of_nat (tot + rem) - Z.of_nat tot) (BSIZE - Z.of_nat off mod BSIZE) = Z.of_nat m).
    { unfold m. change BSIZE with (Z.of_nat 1024). rewrite <- Nat2Z.inj_mod. lia. }
    assert (Eo : Z.to_nat (Z.of_nat off mod BSIZE) = (off mod 1024)%nat).
    { change BSIZE with (Z.of_nat 1024). rewrite <- Nat2Z.inj_mod. lia. }
    rewrite Em', Eo, Nat2Z.id, Ec, (bind_run _ _ _ _ _ _ _ Hcopy). change (0 =? -1) with false. cbv iota.
    rewrite (bind_run _ _ _ _ _ _ _ R3), u32_small, <- !Nat2Z.inj_add by lia. done.
  - rewrite <- Em. by apply (traffic_trans (mem s) _ s s1).
Qed.

Lemma sub_bytes_add l off n n' : sub_bytes l off (n + n') = sub_bytes l off n ++ sub_bytes l (off + n) n'.
Proof using. unfold sub_bytes. by rewrite <- take_take_drop, drop_drop. Qed.

Lemma readi_unroll k j ip nd data tot rem off dst got e s :
  serves (2 * k + j) e -> idle_fs s -> loaded ip nd data s -> (off + rem <= length data)%nat ->
  (tot + rem <= length data)%nat -> (rem = 0 \/ off mod 1024 + rem <= 1024 * k)%nat -> accepts dst rem s ->
  exists e' s', unroll (S k) (readi_round ip nd (Z.of_nat (tot + rem))) (Z.of_nat tot, Z.of_nat off, dst, got) e s =
    Ret (inr (Z.of_nat (tot + rem), got ++ sub_bytes data off rem)) e' s' /\
    serves j e' /\ idle_fs s' /\ traffic (deliver dst (sub_bytes data off rem) (mem s)) s s'.
Proof using All.
  revert tot rem off dst got e s. induction k as [|k IH]; intros tot rem off dst got e s He Hs L Hoff Htot Hk Hacc;
    rewrite unroll_S; (destruct (decide (rem = 0)%nat) as [->|Hrem]; [|]).
  1, 3: unfold readi_round at 1; pose proof (loaded_small _ _ _ _ L); rewrite Nat.add_0_r, Z.ltb_irrefl, step_ret, s32_small by lia;
    exists e, s; unfold sub_bytes; rewrite take_0, app_nil_r; split; [done|]; split;
    [eapply serves_le; [|exact He]; lia|]; split; [done|]; destruct dst; apply traffic_refl.
  - lia.
  - destruct (readi_round_run (2 * k + j) ip nd data tot rem off dst got e s) as (e1 & s1 & R1 & He1 & Hs1 & T1);
      [by replace (S (S (2 * k + j))) with (2 * S k + j)%nat by lia|done|done|lia|done|done|].
    set (m := Nat.min rem (1024 - off mod 1024)) in *.
    pose proof (Nat.mod_upper_bound off 1024 ltac:(lia)) as Hmod.
    assert (length (sub_bytes data off m) = m) as Hlm by (apply length_sub_bytes; lia).
    rewrite (bind_run _ _ _ _ _ _ _ R1).
    destruct (IH (tot + m)%nat (rem - m)%nat (off + m)%nat (dest_add dst (Z.of_nat m)) (got ++ sub_bytes data off m) e1 s1)
      as (e2 & s2 & R2 & He2 & Hs2 & T2); try done; [by eapply loaded_traffic|lia|lia| | |].
    + destruct (decide (m = rem)) as [->|Hne]; [left; lia|right].
      assert (m = 1024 - off mod 1024)%nat as Em by lia.
      replace ((off + m) mod 1024)%nat with 0%nat; [lia|]. pose proof (Nat.div_mod_eq off 1024).
      replace (off + m)%nat with (0 + (S (off / 1024)) * 1024)%nat by lia. by rewrite Nat.Div0.mod_add.
    + pose proof (accepts_next dst rem _ s s1 Hacc ltac:(rewrite Hlm; lia) T1) as Hn. by rewrite Hlm in Hn.
    + exists e2, s2. replace (tot + m + (rem - m))%nat with (tot + rem)%nat in R2 by lia. rewrite R2.
      assert (sub_bytes data off rem = sub_bytes data off m ++ sub_bytes data (off + m) (rem - m)) as Es
        by (rewrite <- sub_bytes_add; f_equal; lia).
      rewrite <- app_assoc, <- Es. split; [done|]. split; [done|]. split; [done|].
      rewrite Es, (deliver_app _ rem) by (done || lia). rewrite Hlm, <- (traffic_mem _ _ _ T1).
      by eapply traffic_trans.
Qed.

(** readi() of a file in memory returns the bytes from [off] on, [n] of them or
    as many as there are.  It reads at most two blocks per block of the file. *)
Lemma readi_ok k j ip nd data off n dst e s :
  let len := Nat.min n (length data - off) in
  serves (2 * k + j) e -> idle_fs s -> loaded ip nd data s ->
  Z.of_nat off + Z.of_nat n < 2 ^ 32 -> Z.of_nat k < 2 ^ 32 -> (len = 0 \/ off mod 1024 + len <= 1024 * k)%nat -> accepts dst len s ->
  exists e' s', readi ip dst (Z.of_nat off) (Z.of_nat n) e s = Ret (Z.of_nat len, sub_bytes data off len) e' s' /\
    serves j e' /\ idle_fs s' /\ traffic (deliver dst (sub_bytes data off len) (mem s)) s s'.
Proof using All.
  intros len He Hs L Hn Hk32 Hk Hacc. pose proof (loaded_small _ _ _ _ L) as Hsm.
  destruct (decide (off <= length data)%nat) as [Hoff|Hoff].
  2:{ assert (len = 0%nat) as Hz by lia. rewrite Hz in *. unfold sub_bytes. rewrite take_0. exists e, s. split.
      - unfold readi. rewrite (bind_run _ _ _ _ _ _ _ (inode_at_run _ _ _ _ (lo_slot _ _ _ _ L))), (lo_size _ _ _ _ L).
        by rewrite (proj2 (Z.ltb_lt _ _)) by lia.
      - split; [eapply serves_le; [|exact He]; lia|]. split; [done|]. destruct dst; apply traffic_refl. }
  destruct (readi_unroll k j ip nd data 0 len off dst [] e s) as (e' & s' & R & Hr); try done; try lia.
  exists e', s'. split; [|done]. unfold readi. rewrite (bind_run _ _ _ _ _ _ _ (inode_at_run _ _ _ _ (lo_slot _ _ _ _ L))).
  rewrite (lo_size _ _ _ _ L), u32_small, (proj2 (Z.ltb_ge _ _)), (proj2 (Z.ltb_ge (_ + _) _)) by lia. cbn [orb].
  assert ((if Z.of_nat (length data) <? Z.of_nat off + Z.of_nat n then Z.of_nat (length data) -32 Z.of_nat off
           else Z.of_nat n) = Z.of_nat (0 + len)) as ->.
  { destruct (Z.ltb_spec (Z.of_nat (length data)) (Z.of_nat off + Z.of_nat n)); [rewrite u32_small|]; lia. }
  eapply (loop_run (S k)); [exact R|lia].
Qed.

End Reading.
