(* ===== verification/Namei.v ===== *)
(** * Path names: the inode table, dirlookup() and namei()

    The file system as a tree of directories and files, given by what the blocks
    store.  namei() on a path returns the inode the tree names, or no inode when
    the tree has none, and takes one reference to it and no other. *)

From S2P Require Import Prelude State Machine Monad Spinlock Cstring Kalloc Vm Pagetable Proc Sleeplock.
From S2P Require Import Virtio Bio Bufcache Diskio Log Transact Crash Fs Readfs.

(** ** Path names *)

Fixpoint path_words (cur l : list Z) : list (list Z) :=
  match l with
  | [] => [cur]
  | c :: l => if c =? slash then cur :: path_words [] l else path_words (cur ++ [c]) l
  end.

(** The elements of a path, each cut at 14 characters. *)
Definition path_names (path : list Z) : list (list Z) :=
  map (take DIRSIZ) (filter (fun w => w <> []) (path_words [] (cstr path))).

Lemma path_names_slash l : path_names (slash :: l) = path_names l.
Proof. done. Qed.

Lemma path_names_end l : hd 0 l = 0 -> path_names l = [].
Proof. intros Hl. unfold path_names. by rewrite hd_zero_cstr. Qed.

Lemma path_names_skip l : path_names (skip_slashes l) = path_names l.
Proof.
  induction l as [|c l IH]; [done|]. cbn [skip_slashes]. destruct (Z.eqb_spec c slash) as [->|]; [|done].
  by rewrite IH, path_names_slash.
Qed.

Lemma path_names_slashes n l : path_names (replicate n slash ++ l) = path_names l.
Proof. induction n as [|n IH]; [done|]. cbn [replicate app]. by rewrite path_names_slash. Qed.

Lemma path_words_elem cur elem l : Forall elem_char elem -> path_words cur (elem ++ l) = path_words (cur ++ elem) l.
Proof.
  intros He. revert cur. induction He as [|c elem [Hs _] _ IH]; intros cur; [by rewrite app_nil_r|].
  cbn [app path_words]. rewrite (proj2 (Z.eqb_neq _ _)), IH, <- app_assoc by done. done.
Qed.

Lemma cstr_app_elem elem l : Forall elem_char elem -> cstr (elem ++ l) = elem ++ cstr l.
Proof.
  induction 1 as [|c elem [_ Hc] _ IH]; [done|]. cbn [app cstr]. by rewrite (proj2 (Z.eqb_neq _ _)), IH.
Qed.

Lemma path_names_elem elem tail :
  Forall elem_char elem -> elem <> [] -> hd 0 tail = slash \/ hd 0 tail = 0 ->
  path_names (elem ++ tail) = take DIRSIZ elem :: path_names tail.
Proof.
  intros He Hne Ht. unfold path_names at 1. rewrite cstr_app_elem, path_words_elem by done. cbn [app].
  destruct Ht as [Ht|Ht].
  - destruct tail as [|c tail]; [done|]. cbn in Ht. subst c. rewrite path_names_slash.
    change (cstr (slash :: tail)) with (slash :: cstr tail). cbn [path_words]. rewrite Z.eqb_refl.
    by rewrite filter_cons_True.
  - rewrite hd_zero_cstr, path_names_end by done. cbn [path_words]. by rewrite filter_cons_True.
Qed.

(** skipelem() takes the first name off a path. *)
Lemma skipelem_names path name :
  length name = DIRSIZ ->
  match skipelem path name with
  | None => path_names path = []
  | Some (rest, name') => path_names path = cstr name' :: path_names rest /\ length name' = DIRSIZ /\
      (length rest < length path)%nat
  end.
Proof.
  intros Hn. pose proof (skipelem_splits path name Hn) as Hs. destruct (skipelem path name) as [[rest name']|].
  - destruct Hs as (n & elem & tail & -> & Hne & Hf & Ht & Hc & Hl & -> & Hlt). split; [|done].
    by rewrite path_names_slashes, path_names_elem, path_names_skip, Hc.
  - destruct Hs as (n & rest & -> & Hh). by rewrite path_names_slashes, path_names_end.
Qed.

(** ** Directories *)

Definition dirents (data : list Z) : list (list Z) :=
  map (fun i => sub_bytes data (16 * i) 16) (seq 0 (length data / 16)).

(** The entry is in use and has this name. *)
Definition entitled (name de : list Z) : bool := negb (de_inum de =? 0) && bool_decide (cstr (de_name de) = name).

(** The inode number of the first entry with this name. *)
Definition dir_find (name data : list Z) : option Z :=
  (fun x => de_inum x.2) <$> list_find (entitled name) (dirents data).

(** The inodes in use, each with its content. *)
Definition tree := gmap Z (dinode * list Z).

(** The inode a path leads to. *)
Fixpoint resolve (T : tree) (inum : Z) (names : list (list Z)) : option Z :=
  match names with
  | [] => Some inum
  | name :: names =>
      '(d, data) ← T !! inum;
      if di_type d =? T_DIR then i ← dir_find name data; resolve T i names else None
  end.

(** The number of blocks read at most on the way. *)
Fixpoint way (T : tree) (inum : Z) (names : list (list Z)) : nat :=
  match names with
  | [] => 0
  | name :: names =>
      match T !! inum with
      | Some (d, data) => 1 + 2 * (length data / 16) + match dir_find name data with Some i => way T i names | None => 0 end
      | None => 0
      end
  end.

(** The blocks [c] hold the inode [d] under number [inum], with content [data]. *)
Record node_ok (sbk : superblock) (T : tree) (c : Z -> option (list Z)) (inum : Z) (d : dinode) (data : list Z) : Prop := {
  no_block : exists blk, 0 <= IBLOCK inum sbk < 2 ^ 31 /\ c (IBLOCK inum sbk) = Some blk /\
    dinode_get blk (Z.to_nat (inum mod IPB)) = d;
  no_type : di_type d <> 0;
  no_link : di_nlink d <> 0;
  no_size : di_size d = Z.of_nat (length data);
  no_data : stored c (di_addrs d) data;
  no_dir : di_type d = T_DIR -> (length data mod 16 = 0)%nat /\
    forall de, de ∈ dirents data -> de_inum de <> 0 -> is_Some (T !! de_inum de);
}.

Definition tree_ok (sbk : superblock) (T : tree) (c : Z -> option (list Z)) : Prop :=
  forall inum d data, T !! inum = Some (d, data) -> node_ok sbk T c inum d data.

Lemma tree_ok_ext sbk T c c' : (forall b, c' b = c b) -> tree_ok sbk T c -> tree_ok sbk T c'.
Proof.
  intros E Ht inum d data Hn. destruct (Ht _ _ _ Hn) as [(blk & Hr & Hb & Hd) H2 H3 H4 H5 H6]. split; try done.
  - exists blk. by rewrite E.
  - by eapply stored_ext.
Qed.

(** ** The inode table *)

Record agrees (nd : inode) (d : dinode) : Prop := {
  ag_type : i_type nd = di_type d;
  ag_nlink : i_nlink nd = di_nlink d;
  ag_size : i_size nd = di_size d;
  ag_addrs : i_addrs nd = di_addrs d;
}.

Section Table.
Context (pid : Z) (T : tree).

(** An entry of the table; [lk] is the inode the process has locked. *)
Record entry_ok (lk : option nat) (ip : nat) (nd : inode) : Prop := {
  en_lock : sl_locked (i_lock nd) = bool_decide (lk = Some ip);
  en_mine : lk = Some ip -> sl_pid (i_lock nd) = pid /\ i_valid nd = true /\ 0 < i_ref nd;
  en_ref : 0 <= i_ref nd;
  en_node : 0 < i_ref nd -> i_dev nd = ROOTDEV /\
    exists d data, T !! i_inum nd = Some (d, data) /\ (i_valid nd = true -> agrees nd d);
}.

Record icache (lk : option nat) (it : list inode) : Prop := {
  ic_len : length it = NINODE;
  ic_entry : forall ip nd, it !! ip = Some nd -> entry_ok lk ip nd;
  ic_uniq : forall i j ni nj, it !! i = Some ni -> it !! j = Some nj -> 0 < i_ref ni -> 0 < i_ref nj ->
    i_inum ni = i_inum nj -> i = j;
}.

Definition refs (it : list inode) : list Z := map i_ref it.

(** The inode numbers of the entries. *)
Definition inums (it : list inode) : list Z := map i_inum it.

Lemma inums_insert it ip nd nd' : it !! ip = Some nd -> i_inum nd' = i_inum nd -> inums (<[ip := nd']> it) = inums it.
Proof.
  intros Hn Hi. unfold inums. rewrite list_fmap_insert, Hi. apply list_insert_id. by rewrite list_lookup_fmap, Hn.
Qed.

Lemma inums_same it it' ip : inums it' = inums it -> i_inum <$> it' !! ip = i_inum <$> it !! ip.
Proof. intros E. rewrite <- !list_lookup_fmap. by apply (f_equal (.!! ip)) in E. Qed.

Lemma refs_lookup it ip : refs it !! ip = i_ref <$> it !! ip.
Proof. apply list_lookup_fmap. Qed.

Lemma refs_insert it ip nd nd' g :
  it !! ip = Some nd -> i_ref nd' = g (i_ref nd) -> refs (<[ip := nd']> it) = alter g ip (refs it).
Proof.
  intros Hn Hr. unfold refs. rewrite list_fmap_insert, Hr. symmetry. apply alter_insert.
  rewrite list_lookup_fmap, Hn. done.
Qed.

Lemma icache_insert lk lk' it ip nd nd' :
  icache lk it -> it !! ip = Some nd -> entry_ok lk' ip nd' ->
  (forall i, i <> ip -> lk = Some i <-> lk' = Some i) ->
  (0 < i_ref nd' -> forall i x, i <> ip -> it !! i = Some x -> 0 < i_ref x -> i_inum x <> i_inum nd') ->
  icache lk' (<[ip := nd']> it).
Proof.
  intros [Hl He Hu] Hn He' Hlk Hne. pose proof (lookup_lt_Some _ _ _ Hn) as Hlt. split.
  - by rewrite length_insert.
  - intros i x. destruct (decide (i = ip)) as [->|Hi].
    + rewrite list_lookup_insert_eq by done. by intros [= <-].
    + rewrite list_lookup_insert_ne by done. intros Hx. destruct (He i x Hx) as [H1 H2 H3 H4].
      split; [|rewrite <- Hlk by done; done|done|done]. rewrite H1. apply bool_decide_ext. by apply Hlk.
  - intros i j ni nj Hi Hj Hri Hrj E.
    destruct (decide (i = ip)) as [->|Hni], (decide (j = ip)) as [->|Hnj]; [done|..].
    + rewrite list_lookup_insert_eq in Hi by done. injection Hi as <-. rewrite list_lookup_insert_ne in Hj by done.
      by destruct (Hne Hri j nj).
    + rewrite list_lookup_insert_eq in Hj by done. injection Hj as <-. rewrite list_lookup_insert_ne in Hi by done.
      by destruct (Hne Hrj i ni).
    + rewrite list_lookup_insert_ne in Hi, Hj by done. by apply (Hu i j ni nj).
Qed.

(** The entry stays for the same inode. *)
Lemma icache_keep lk lk' it ip nd nd' :
  icache lk it -> it !! ip = Some nd -> entry_ok lk' ip nd' -> i_inum nd' = i_inum nd ->
  (0 < i_ref nd' -> 0 < i_ref nd) -> (forall i, i <> ip -> lk = Some i <-> lk' = Some i) ->
  icache lk' (<[ip := nd']> it).
Proof.
  intros Hic Hn He Ei Hr Hlk. eapply icache_insert; [done|done|done|done|].
  intros Hp i x Hi Hx Hrx E. apply Hi. eapply (ic_uniq _ _ Hic i ip x nd); try done; [by apply Hr|congruence].
Qed.

End Table.

(** ** iget *)

(** One round of the search of iget(). *)
Definition iget_step (dev inum : Z) : option nat * option nat -> nat -> M (option nat * option nat) :=
  fun '(found, empty) ip =>
    match found with
    | Some _ => ret (found, empty)
    | None =>
        n <- inode_at ip;
        if (0 <? i_ref n) && (i_dev n =? dev) && (i_inum n =? inum) then
          inode_upd ip (fun n => n <| i_ref ::= fun r => r + 1 |>) ;;
          ret (Some ip, empty)
        else
          ret (None, match empty with
                     | None => if i_ref n =? 0 then Some ip else None
                     | Some _ => empty
                     end)
    end.

Definition wanted_node (dev inum : Z) (nd : inode) : bool := (0 <? i_ref nd) && (i_dev nd =? dev) && (i_inum nd =? inum).

Lemma for_fold_app {X S} (l1 l2 : list X) (g : S -> X -> M S) a e s :
  for_fold (l1 ++ l2) g a e s = (a <- for_fold l1 g a; for_fold l2 g a) e s.
Proof.
  revert a e s. induction l1 as [|x l1 IH]; intros a e s; [done|]. cbn [app for_fold]. rewrite bind_assoc.
  unfold bind at 1 2. destruct (g a x e s); done.
Qed.

Lemma iget_found dev inum l ip em e s :
  for_fold l (iget_step dev inum) (Some ip, em) e s = Ret (Some ip, em) e s.
Proof. revert e s. induction l as [|x l IH]; intros e s; [done|]. cbn [for_fold iget_step]. rewrite step_ret. apply IH. Qed.

(** Entries for other inodes are passed over; a free one among them is kept in
    mind. *)
Lemma iget_pass dev inum k n em e s :
  (forall i, (k <= i < k + n)%nat -> exists nd, itable s !! i = Some nd /\ wanted_node dev inum nd = false) ->
  exists em', for_fold (seq k n) (iget_step dev inum) (None, em) e s = Ret (None, em') e s /\
    match em' with
    | Some i => em = Some i \/ exists nd, itable s !! i = Some nd /\ i_ref nd = 0
    | None => em = None /\ forall i nd, (k <= i < k + n)%nat -> itable s !! i = Some nd -> i_ref nd <> 0
    end.
Proof.
  revert k em. induction n as [|n IH]; intros k em Hall; cbn [seq for_fold].
  { exists em. split; [done|]. destruct em; [by left|]. split; [done|lia]. }
  destruct (Hall k) as (nd & Hn & Hw); [lia|]. unfold iget_step at 1. rewrite bind_assoc.
  rewrite (bind_run _ _ _ _ _ _ _ (inode_at_run _ _ _ _ Hn)). unfold wanted_node in Hw. rewrite Hw, step_ret.
  set (em1 := match em with Some _ => em | None => if i_ref nd =? 0 then Some k else None end).
  destruct (IH (S k) em1) as (em' & R & Hem); [intros i Hi; apply Hall; lia|].
  exists em'. split; [exact R|]. unfold em1 in Hem. destruct em' as [i|], em as [j|]; [auto|..].
  - destruct (Z.eqb_spec (i_ref nd) 0) as [E|E]; destruct Hem as [Hem|Hem]; auto; try done.
    injection Hem as <-. eauto.
  - by destruct Hem.
  - destruct (Z.eqb_spec (i_ref nd) 0) as [E|E]; destruct Hem as [Hem Hr]; [done|]. split; [done|].
    intros i x Hi Hx. destruct (decide (i = k)) as [->|]; [congruence|]. apply (Hr i x); [lia|done].
Qed.

Section Ops.
Context `{HD : Disk, !DiskOk, HP : PlatformOk} (p : nat) (pid : Z) (pins : nat -> Z) (T : tree).
Context (Hroom : room pins []).

Definition inode_locks_free (h : hart) : Prop :=
  free LItable h /\ forall ip, (ip < NINODE)%nat -> free (LSleep (SInode ip)) h.

(** The file system between two operations of the process, which has locked the
    inode [lk] if any. *)
Record at_rest (lk : option nat) (s : kernel) : Prop := {
  ar_session : session p pid pins [] [] s;
  ar_tree : tree_ok (sb s) T (content (bcache s) (disk s));
  ar_icache : icache pid T lk (itable s);
  ar_locks : inode_locks_free (hw s);
}.

Lemma at_rest_calm lk s : at_rest lk s -> calm p pid s.
Proof using. intros A. apply (ready_calm p pid), (se_ready _ _ _ _ _ _ (ar_session _ _ A)). Qed.

Lemma at_rest_settled lk s : at_rest lk s -> settled (hw s).
Proof using. intros A. eapply calm_settled, at_rest_calm, A. Qed.

Lemma at_rest_litable lk s : at_rest lk s -> free LItable (hw s).
Proof using. intros A. apply (ar_locks _ _ A). Qed.

Hint Resolve at_rest_calm at_rest_settled at_rest_litable : kernel.

(** Only the inode table and the cache have changed. *)
Definition moved (s s' : kernel) : Prop := traffic p (mem s) (s <| itable := itable s' |>) s'.

Lemma at_rest_moved lk lk' s s' :
  at_rest lk s -> moved s s' -> session p pid pins [] [] s' -> icache pid T lk' (itable s') -> at_rest lk' s'.
Proof using.
  intros [_ Ht _ Hl] M Hs Hi. split; [done| |done|].
  - assert (sb s' = sb s) as ->.
    { change (sb (erase_io s') = sb (erase_io s)). by rewrite (tr_erase _ _ _ _ M). }
    eapply tree_ok_ext; [|exact Ht]. apply (tr_content _ _ _ _ M).
  - by rewrite (traffic_hw _ _ _ _ M).
Qed.

Lemma at_rest_itable lk lk' it s :
  at_rest lk s -> icache pid T lk' it -> at_rest lk' (s <| itable := it |>).
Proof using. intros [[H1 H2 H3] Ht _ Hl] Hi. split; [by split|done..]. Qed.

Lemma moved_itable it s : moved s (s <| itable := it |>).
Proof using. split; done. Qed.

Lemma traffic_moved s s' : traffic p (mem s) s s' -> moved s s'.
Proof using.
  intros M. unfold moved. rewrite (traffic_itable _ _ _ _ M).
  replace (s <| itable := itable s |>) with s by (by destruct s). done.
Qed.

Lemma moved_trans s s1 s2 : moved s s1 -> moved s1 s2 -> moved s s2.
Proof using.
  intros M1 M2. unfold moved in M2 |- *. rewrite (traffic_mem _ _ _ _ M1 : mem s1 = mem s) in M2.
  eapply traffic_trans; [|exact M2]. exact (traffic_itable_upd p _ (fun _ => itable s2) _ _ M1).
Qed.

(** *** iget *)

Lemma iget_hit inum ip nd lk e s :
  at_rest lk s -> itable s !! ip = Some nd -> 0 < i_ref nd -> i_inum nd = inum ->
  iget ROOTDEV inum e s = Ret ip e (s <| itable := <[ip := nd <| i_ref ::= fun r => r + 1 |>]> (itable s) |>).
Proof using.
  intros A Hn Hr Hi. pose proof (ar_icache _ _ A) as Hic. pose proof (ic_len _ _ _ _ Hic) as Hlen.
  pose proof (lookup_lt_Some _ _ _ Hn) as Hlt. destruct (en_node _ _ _ _ _ (ic_entry _ _ _ _ Hic ip nd Hn) Hr) as [Hd _].
  unfold iget. mrun acquire_run; eauto with kernel.
  change (for_fold (seq 0 NINODE) _ _) with (for_fold (seq 0 NINODE) (iget_step ROOTDEV inum) (None, None)).
  set (s1 := s <| hw ::= lock_h LItable |>).
  assert (E : seq 0 NINODE = seq 0 ip ++ ip :: seq (S ip) (NINODE - S ip)).
  { replace NINODE with (ip + S (NINODE - S ip))%nat at 1 by lia. apply seq_app. }
  destruct (iget_pass ROOTDEV inum 0 ip None e s1) as (em & R & _).
  { intros i Hlti. destruct (lookup_lt_is_Some_2 (itable s) i ltac:(lia)) as [x Hx]. exists x. split; [done|].
    apply not_true_is_false. unfold wanted_node. intros Hw. destruct_bool.
    assert (i = ip); [|lia]. apply (ic_uniq _ _ _ _ Hic i ip x nd); done || congruence. }
  erewrite bind_run.
  2:{ rewrite E, for_fold_app, (bind_run _ _ _ _ _ _ _ R). cbn [for_fold]. unfold iget_step at 1. rewrite bind_assoc.
      rewrite (bind_run _ _ _ _ _ _ _ (inode_at_run ip nd e s1 Hn)).
      rewrite (proj2 (Z.ltb_lt _ _) Hr), Hd, Hi, !Z.eqb_refl. cbn [andb]. unfold inode_upd.
      rewrite bind_assoc, step_modify, step_ret. apply iget_found. }
  cbv iota beta. unfold s1. mrun release_run; st; eauto with kernel. same_hw. exact (alter_insert _ _ _ _ Hn).
Qed.

Lemma iget_miss inum lk i e s :
  at_rest lk s -> (forall ip nd, itable s !! ip = Some nd -> 0 < i_ref nd -> i_inum nd <> inum) ->
  refs (itable s) !! i = Some 0 ->
  exists ip nd, itable s !! ip = Some nd /\ i_ref nd = 0 /\
    iget ROOTDEV inum e s = Ret ip e (s <| itable := <[ip := nd <| i_dev := ROOTDEV |> <| i_inum := inum |>
      <| i_ref := 1 |> <| i_valid := false |>]> (itable s) |>).
Proof using.
  intros A Hno Hz. pose proof (ar_icache _ _ A) as Hic. pose proof (ic_len _ _ _ _ Hic) as Hlen.
  set (s1 := s <| hw ::= lock_h LItable |>).
  destruct (iget_pass ROOTDEV inum 0 NINODE None e s1) as (em & R & Hem).
  { intros j Hj. destruct (lookup_lt_is_Some_2 (itable s) j ltac:(lia)) as [x Hx]. exists x. split; [done|].
    apply not_true_is_false. unfold wanted_node. intros Hw. destruct_bool. by apply (Hno j x). }
  rewrite refs_lookup in Hz. destruct (itable s !! i) as [x|] eqn:Hx; [|done]. injection Hz as Hz.
  destruct em as [ip|]; [|destruct Hem as [_ Hem]; destruct (Hem i x); [|done..]; apply lookup_lt_Some in Hx; lia].
  destruct Hem as [?|(nd & Hn & Hr)]; [done|]. exists ip, nd. split; [done|]. split; [done|].
  unfold iget. mrun acquire_run; eauto with kernel. fold s1.
  change (for_fold (seq 0 NINODE) _ _) with (for_fold (seq 0 NINODE) (iget_step ROOTDEV inum) (None, None)).
  rewrite (bind_run _ _ _ _ _ _ _ R). cbv iota beta. unfold inode_upd. rewrite step_modify.
  unfold s1. mrun release_run; st; eauto with kernel. same_hw. exact (alter_insert _ _ _ _ Hn).
Qed.

(** iget() takes a reference to the inode, in the entry that has it or in a free
    one. *)
Lemma iget_ok inum lk i e s :
  at_rest lk s -> is_Some (T !! inum) -> refs (itable s) !! i = Some 0 ->
  exists ip it, iget ROOTDEV inum e s = Ret ip e (s <| itable := it |>) /\ icache pid T lk it /\
    refs it = alter (fun r => r + 1) ip (refs (itable s)) /\ i_inum <$> it !! ip = Some inum.
Proof using.
  intros A [[d data] Hd] Hz. pose proof (ar_icache _ _ A) as Hic.
  destruct (decide (Exists (fun nd => 0 < i_ref nd /\ i_inum nd = inum) (itable s))) as [Hex|Hno].
  - apply Exists_exists in Hex as (nd & (ip & Hn)%list_elem_of_lookup & Hr & Hi).
    exists ip. eexists. split; [by apply (iget_hit inum ip nd lk)|].
    pose proof (lookup_lt_Some _ _ _ Hn) as Hlt. split; [|split].
    + eapply icache_keep; [done|exact Hn| |done|done|done].
      destruct (ic_entry _ _ _ _ Hic ip nd Hn) as [H1 H2 H3 H4]. split; cbn; [done| |lia|].
      * intros E. destruct (H2 E) as (? & ? & ?). repeat split; try done. lia.
      * intros _. destruct (H4 Hr) as (? & d' & data' & ? & Hag). split; [done|]. exists d', data'. split; [done|].
        intros Hv. by destruct (Hag Hv).
    + by eapply refs_insert.
    + rewrite list_lookup_insert_eq by done. cbn. by rewrite Hi.
  - destruct (iget_miss inum lk i e s A) as (ip & nd & Hn & Hr & R); [|done|].
    { intros ip nd Hn Hr Hi. apply Hno, Exists_exists. exists nd. split; [by eapply list_elem_of_lookup_2|done]. }
    exists ip. eexists. split; [exact R|]. pose proof (lookup_lt_Some _ _ _ Hn) as Hlt. split; [|split].
    + eapply icache_insert; [done|exact Hn| |done|].
      * destruct (ic_entry _ _ _ _ Hic ip nd Hn) as [H1 H2 H3 H4]. split; cbn; [done| |lia|].
        -- intros E. destruct (H2 E) as (_ & _ & ?). lia.
        -- intros _. split; [done|]. by exists d, data.
      * intros _ j x Hj Hx Hrx E. apply Hno, Exists_exists. exists x. split; [by eapply list_elem_of_lookup_2|done].
    + eapply refs_insert; [exact Hn|]. cbn. by rewrite Hr.
    + by rewrite list_lookup_insert_eq.
Qed.

(** *** ilock and iunlock *)

Lemma slock_inode ip nd g s : itable s !! ip = Some nd ->
  slock_set (SInode ip) g s = s <| itable := <[ip := nd <| i_lock ::= g |>]> (itable s) |>.
Proof using. intros Hn. unfold slock_set. state_eq. exact (alter_insert _ _ _ _ Hn). Qed.

Lemma inode_upd_run ip nd g e s : itable s !! ip = Some nd ->
  inode_upd ip g e s = Ret tt e (s <| itable := <[ip := g nd]> (itable s) |>).
Proof using.
  intros Hn. unfold inode_upd, modify. apply ret_state. state_eq. exact (alter_insert _ _ _ _ Hn).
Qed.

(** The inode read in. *)
Definition filled_in (d : dinode) (nd : inode) : inode :=
  nd <| i_type := di_type d |> <| i_major := di_major d |> <| i_minor := di_minor d |> <| i_nlink := di_nlink d |>
     <| i_size := di_size d |> <| i_addrs := di_addrs d |>.

Definition fetched (d : dinode) (nd : inode) : inode := filled_in d nd <| i_valid := true |>.

(** The locked inode as ilock() leaves it. *)
Lemma ilock_entry lk ip nd d data nd' :
  entry_ok pid T None ip nd -> 0 < i_ref nd -> T !! i_inum nd = Some (d, data) -> lk = Some ip ->
  nd' = (if i_valid nd then nd else fetched d nd) <| i_lock ::= taken_by pid |> -> entry_ok pid T lk ip nd'.
Proof using.
  intros [H1 H2 H3 H4] Hr Hd -> ->. destruct (H4 Hr) as (Hdev & d' & data' & Hd' & Hag).
  assert (d' = d) as -> by congruence.
  split; destruct (i_valid nd) eqn:Hv; cbn; rewrite ?bool_decide_true by done; try done.
  - intros _. split; [done|]. exists d, data. split; [done|]. intros _. by destruct (Hag eq_refl).
  - intros _. split; [done|]. exists d, data. by split.
Qed.

Lemma ilock_read n ip nd d data e s :
  serves (S n) e -> session p pid pins [] [] s -> itable s !! ip = Some nd -> i_dev nd = ROOTDEV ->
  node_ok (sb s) T (content (bcache s) (disk s)) (i_inum nd) d data ->
  exists e' s', (sbk <- gets sb;
     bp <- bread (i_dev nd) (IBLOCK (i_inum nd) sbk);
     data <- bdata bp;
     let dip := dinode_get data (Z.to_nat (i_inum nd mod IPB)) in
     inode_upd ip (fun n => n <| i_type := di_type dip |> <| i_major := di_major dip |>
                              <| i_minor := di_minor dip |> <| i_nlink := di_nlink dip |>
                              <| i_size := di_size dip |> <| i_addrs := di_addrs dip |>) ;;
     brelse bp ;;
     inode_upd ip (fun n => n <| i_valid := true |>) ;;
     when (di_type dip =? 0) (panic "ilock: no type")) e s = Ret tt e' s' /\
    serves n e' /\ session p pid pins [] [] s' /\ moved s s' /\ itable s' = <[ip := fetched d nd]> (itable s).
Proof using All.
  intros He Hs Hn Hdev [(blk & Hr & Hb & Hd) Ht _ _ _ _]. rewrite step_gets, Hdev.
  destruct (bread_block p pid pins Hroom n _ blk e s He Hs Hr Hb) as (b & bb & e1 & s1 & R1 & He1 & G & Hbd).
  pose proof (granted_traffic p pid pins _ _ _ _ _ G) as T1. pose proof (traffic_itable _ _ _ _ T1) as I1.
  rewrite (bind_run _ _ _ _ _ _ _ R1).
  rewrite (bind_run _ _ _ _ _ _ _ (bdata_run _ _ _ _ (gr_buf _ _ _ _ _ _ _ _ _ _ G))), Hbd. cbv zeta. rewrite Hd.
  set (nd2 := filled_in d nd). set (s2 := s1 <| itable := <[ip := nd2]> (itable s1) |>).
  rewrite (bind_run _ _ _ _ tt e1 s2) by (apply (inode_upd_run ip nd); by rewrite I1).
  destruct (brelse_held p pid pins b bb e1 s2) as (s3 & R3 & Hs3 & T3);
    [apply (session_itable p pid pins [b] [] (fun _ => _) s1), G|apply G|apply G|].
  rewrite (bind_run _ _ _ _ _ _ _ R3). pose proof (traffic_itable _ _ _ _ T3) as I3. change (itable s2) with (<[ip := nd2]> (itable s1)) in I3.
  rewrite I1 in I3. pose proof (lookup_lt_Some _ _ _ Hn) as Hlt.
  assert (Hn3 : itable s3 !! ip = Some nd2) by (rewrite I3; by apply list_lookup_insert_eq).
  rewrite (bind_run _ _ _ _ _ _ _ (inode_upd_run ip nd2 _ _ _ Hn3)), (proj2 (Z.eqb_neq _ _) Ht).
  exists e1. eexists. split; [reflexivity|]. split; [done|].
  split; [by apply (session_itable p pid pins [] [] (fun _ => _))|]. split; [|st; by rewrite I3, list_insert_insert_eq].
  apply (moved_trans s s1); [by apply traffic_moved|]. apply (moved_trans s1 s2); [apply moved_itable|].
  apply (moved_trans s2 s3); [by apply traffic_moved|apply moved_itable].
Qed.

(** ilock() locks the inode and reads it in if it has to. *)
Lemma ilock_ok n ip nd e s :
  serves (S n) e -> at_rest None s -> itable s !! ip = Some nd -> 0 < i_ref nd ->
  exists e' s' nd', ilock ip e s = Ret tt e' s' /\ serves n e' /\ at_rest (Some ip) s' /\ moved s s' /\
    refs (itable s') = refs (itable s) /\ itable s' !! ip = Some nd' /\ i_inum nd' = i_inum nd.
Proof using All.
  intros He A Hn Hr. pose proof (ar_icache _ _ A) as Hic. pose proof (ic_entry _ _ _ _ Hic ip nd Hn) as Hen.
  pose proof (lookup_lt_Some _ _ _ Hn) as Hlt. destruct (en_node _ _ _ _ _ Hen Hr) as (Hdev & d & data & Hd & _).
  set (nd1 := nd <| i_lock ::= taken_by pid |>). set (s1 := s <| itable := <[ip := nd1]> (itable s) |>).
  assert (R1 : acquiresleep (SInode ip) e s = Ret tt e s1).
  { unfold s1, nd1. rewrite <- (slock_inode ip nd (taken_by pid)) by done.
    apply (acquiresleep_run p pid _ (i_lock nd)); [eauto with kernel| |cbn; by rewrite Hn|by rewrite (en_lock _ _ _ _ _ Hen)].
    apply (ar_locks _ _ A). by rewrite <- (ic_len _ _ _ _ Hic). }
  assert (Hn1 : itable s1 !! ip = Some nd1) by by apply list_lookup_insert_eq.
  unfold ilock. rewrite (bind_run _ _ _ _ _ _ _ (inode_at_run _ _ _ _ Hn)), (proj2 (Z.ltb_ge _ _)) by lia.
  rewrite (bind_run _ _ _ _ _ _ _ R1), (bind_run _ _ _ _ _ _ _ (inode_at_run _ _ _ _ Hn1)).
  change (i_valid nd1) with (i_valid nd).
  set (nd' := (if i_valid nd then nd else fetched d nd) <| i_lock ::= taken_by pid |>).
  assert (Hic' : icache pid T (Some ip) (<[ip := nd']> (itable s))).
  { eapply icache_keep; [exact Hic|exact Hn|by eapply ilock_entry|unfold nd'; by destruct (i_valid nd)|by intros _|].
    intros i Hi. split; [done|]. intros [= ->]. done. }
  assert (Hre : refs (<[ip := nd']> (itable s)) = refs (itable s)).
  { rewrite (refs_insert _ _ nd _ id) by (done || unfold nd'; by destruct (i_valid nd)).
    apply (alter_same _ _ _ (i_ref nd)); [|done]. by rewrite refs_lookup, Hn. }
  assert (Hi' : <[ip := nd']> (itable s) !! ip = Some nd') by by apply list_lookup_insert_eq.
  unfold nd' in Hic', Hre, Hi'. destruct (i_valid nd) eqn:Hv; cbn [negb].
  - exists e, s1, nd1. split; [done|]. split; [by apply serves_less|].
    split; [by eapply at_rest_itable|]. split; [apply moved_itable|]. done.
  - destruct (ilock_read n ip nd1 d data e s1) as (e' & s' & R & He' & Hs' & M & Hit); try done.
    { apply (session_itable p pid pins [] [] (fun _ => _)), A. }
    { apply (ar_tree _ _ A), Hd. }
    assert (Eit : itable s' = <[ip := fetched d nd <| i_lock ::= taken_by pid |>]> (itable s))
      by (rewrite Hit; unfold s1; st; apply list_insert_insert_eq).
    assert (M' : moved s s') by (apply (moved_trans s s1); [apply moved_itable|done]).
    exists e', s', (fetched d nd <| i_lock ::= taken_by pid |>). rewrite Eit. split; [exact R|]. split; [done|].
    split; [apply (at_rest_moved None _ s); [done|done|done|by rewrite Eit]|]. done.
Qed.

(** iunlock() of the locked inode. *)
Lemma iunlock_ok ip e s :
  at_rest (Some ip) s -> (ip < NINODE)%nat ->
  exists s', iunlock ip e s = Ret tt e s' /\ at_rest None s' /\ moved s s' /\ refs (itable s') = refs (itable s) /\
    inums (itable s') = inums (itable s).
Proof using.
  intros A Hlt. pose proof (ar_icache _ _ A) as Hic. pose proof (proj2 (ar_locks _ _ A) ip Hlt) as Hf.
  destruct (lookup_lt_is_Some_2 (itable s) ip) as [nd Hn]; [by rewrite (ic_len _ _ _ _ Hic)|].
  destruct (ic_entry _ _ _ _ Hic ip nd Hn) as [Hl Hm Hr Hnode]. destruct (Hm eq_refl) as (Hpid & Hv & Hpos).
  rewrite bool_decide_true in Hl by done. unfold iunlock.
  rewrite (bind_run _ _ _ _ _ _ _ (holdingsleep_run p pid (SInode ip) (i_lock nd) e s ltac:(eauto with kernel) Hf ltac:(cbn; by rewrite Hn))).
  rewrite (bind_run _ _ _ _ _ _ _ (inode_at_run _ _ _ _ Hn)), Hl, Hpid, Z.eqb_refl, (proj2 (Z.ltb_ge _ _)) by lia.
  cbn [andb negb orb]. rewrite (releasesleep_run p pid) by eauto with kernel.
  set (nd' := nd <| i_lock ::= let_go |>). set (s1 := s <| itable := <[ip := nd']> (itable s) |>).
  exists (s1 <| procs := wake_all (ChSleepLock (SInode ip)) s |>).
  assert (Hic' : icache pid T None (<[ip := nd']> (itable s))).
  { eapply icache_keep; [exact Hic|exact Hn| |done|done|intros i Hi; split; [by intros [= ->]|done]].
    split; cbn; [done..|]. intros _. destruct (Hnode Hpos) as (? & d & data & ? & Hag). split; [done|].
    exists d, data. split; [done|]. intros _. by destruct (Hag Hv). }
  assert (M : moved s (s1 <| procs := wake_all (ChSleepLock (SInode ip)) s |>)).
  { split; try done. unfold same_face. cbn. by rewrite wake_all_cur by eauto with kernel. }
  split; [by rewrite (slock_inode ip nd)|]. split; [|split; [done|split; [|by apply (inums_insert _ _ nd)]]].
  - apply (at_rest_moved (Some ip) _ s); [done|done| |done]. destruct A as [[Hre Hid Hca] _ _ _]. split; [|done|done].
    apply (ready_erase p pid s1); [done| |by destruct Hre as (? & ? & ? & ?)].
    exact (calm_wake _ p pid s1 ltac:(by destruct Hre)).
  - change (refs (<[ip := nd']> (itable s)) = refs (itable s)). rewrite (refs_insert _ _ nd _ id) by done.
    apply (alter_same _ _ _ (i_ref nd)); [|done]. by rewrite refs_lookup, Hn.
Qed.

(** *** iput and idup *)

(** Only the count of an entry changes. *)
Lemma recount lk ip nd r s :
  at_rest lk s -> itable s !! ip = Some nd -> 0 < i_ref nd -> 0 <= r -> (lk = Some ip -> 0 < r) ->
  let s' := s <| itable := <[ip := nd <| i_ref := r |>]> (itable s) |> in
  at_rest lk s' /\ moved s s' /\ refs (itable s') = alter (fun _ => r) ip (refs (itable s)) /\
    inums (itable s') = inums (itable s).
Proof using.
  intros A Hn Hr Hr' Hlk s'. pose proof (ar_icache _ _ A) as Hic. split; [|split; [apply moved_itable|split; [|by apply (inums_insert _ _ nd)]]].
  - apply (at_rest_itable lk); [done|]. eapply icache_keep; [done|exact Hn| |done|done|done].
    destruct (ic_entry _ _ _ _ Hic ip nd Hn) as [H1 H2 H3 H4]. split; cbn; [done| |done|].
    + intros E. destruct (H2 E) as (? & ? & _). auto.
    + intros _. destruct (H4 Hr) as (? & d & data & ? & Hag). split; [done|]. exists d, data. split; [done|].
      intros Hv. by destruct (Hag Hv).
  - by eapply refs_insert.
Qed.

(** iput() of an inode that has links drops one reference. *)
Lemma iput_ok ip nd e s :
  at_rest None s -> itable s !! ip = Some nd -> 0 < i_ref nd ->
  exists s', iput ip e s = Ret tt e s' /\ at_rest None s' /\ moved s s' /\
    refs (itable s') = alter (fun r => r - 1) ip (refs (itable s)) /\ inums (itable s') = inums (itable s).
Proof using.
  intros A Hn Hr. destruct (recount None ip nd (i_ref nd - 1) s A Hn Hr) as (A' & M & Hre & Hin); [lia|done|].
  eexists. split; [|split; [exact A'|split; [exact M|split; [|exact Hin]]]].
  - unfold iput. mrun acquire_run; eauto with kernel.
    erewrite bind_run by (apply inode_at_run; exact Hn).
    assert ((i_ref nd =? 1) && i_valid nd && (i_nlink nd =? 0) = false) as ->.
    { pose proof (ic_entry _ _ _ _ (ar_icache _ _ A) ip nd Hn) as [_ _ _ Hnode].
      destruct (Hnode Hr) as (_ & d & data & Hd & Hag). destruct (i_valid nd); [|by rewrite andb_false_r].
      rewrite (ag_nlink _ _ (Hag eq_refl)), (proj2 (Z.eqb_neq (di_nlink d) 0)), andb_false_r; [done|].
      apply (no_link _ _ _ _ _ _ (ar_tree _ _ A _ _ _ Hd)). }
    rewrite step_when_false. erewrite bind_run by by apply (inode_upd_run ip nd).
    rewrite release_run by (st; eauto with kernel). same_hw.
  - rewrite Hre. apply (alter_at _ _ _ _ (i_ref nd)); [|done]. by rewrite refs_lookup, Hn.
Qed.

Lemma idup_ok ip nd lk e s :
  at_rest lk s -> itable s !! ip = Some nd -> 0 < i_ref nd ->
  exists s', idup ip e s = Ret ip e s' /\ at_rest lk s' /\ moved s s' /\
    refs (itable s') = alter (fun r => r + 1) ip (refs (itable s)) /\ i_inum <$> itable s' !! ip = Some (i_inum nd).
Proof using.
  intros A Hn Hr. destruct (recount lk ip nd (i_ref nd + 1) s A Hn Hr) as (A' & M & Hre & _); [lia|intros; lia|].
  eexists. split; [|split; [exact A'|split; [exact M|split]]].
  - unfold idup. mrun acquire_run; eauto with kernel. erewrite bind_run by by apply (inode_upd_run ip nd).
    mrun release_run; st; eauto with kernel. same_hw.
  - rewrite Hre. apply (alter_at _ _ _ _ (i_ref nd)); [|done]. by rewrite refs_lookup, Hn.
  - st. by rewrite list_lookup_insert_eq by by eapply lookup_lt_Some.
Qed.

(** *** dirlookup *)

Lemma length_cstr l : (length (cstr l) <= length l)%nat.
Proof using. induction l as [|c l IH]; [done|]. cbn [cstr]. case_match; cbn [length]; lia. Qed.

Lemma namecmp_entitled name de :
  length name = DIRSIZ -> length de = 16%nat ->
  entitled (cstr name) de = negb (de_inum de =? 0) && (namecmp name (de_name de) =? 0).
Proof using.
  intros Hn Hd. unfold entitled. f_equal. apply eq_true_iff_eq. rewrite bool_decide_eq_true, Z.eqb_eq.
  unfold namecmp. rewrite strncmp_eq. pose proof (length_cstr name). pose proof (length_cstr (de_name de)).
  assert (length (de_name de) = DIRSIZ) by (unfold de_name; rewrite length_sub_bytes; unfold DIRSIZ; lia).
  rewrite !take_ge by lia. done.
Qed.

Definition dirlookup_round (dp : nat) (name : list Z) : Z -> M (Z + option (nat * Z)) :=
  fun off =>
    nd <- inode_at dp;
    if off <? i_size nd then
      ' (r, de) <- readi dp DLocal off DIRENT;
      if negb (r =? DIRENT) then panic "dirlookup read" else
      if de_inum de =? 0 then ret (inl (off +32 DIRENT)) else
      if namecmp name (de_name de) =? 0 then
        ip <- iget (i_dev nd) (de_inum de);
        ret (inr (Some (ip, off)))
      else ret (inl (off +32 DIRENT))
    else ret (inr None).

(** A locked inode can be read. *)
Lemma at_rest_loaded ip nd d data s :
  at_rest (Some ip) s -> itable s !! ip = Some nd -> T !! i_inum nd = Some (d, data) ->
  loaded ip nd data s /\ agrees nd d.
Proof using.
  intros A Hn Hd. destruct (ic_entry _ _ _ _ (ar_icache _ _ A) ip nd Hn) as [_ Hm _ Hnode].
  destruct (Hm eq_refl) as (_ & Hv & Hr). destruct (Hnode Hr) as (Hdev & d' & data' & Hd' & Hag).
  rewrite Hd in Hd'. injection Hd' as <- <-. destruct (Hag Hv) as [E1 E2 E3 E4].
  destruct (ar_tree _ _ A _ _ _ Hd) as [_ _ _ Hs Hst _].
  split; [|done]. split; [done|done|congruence|by rewrite E4].
Qed.

Lemma dirent_run j i ip nd d data e s :
  serves (2 + j) e -> at_rest (Some ip) s -> itable s !! ip = Some nd -> T !! i_inum nd = Some (d, data) ->
  (16 * i + 16 <= length data)%nat ->
  exists e' s', readi ip DLocal (Z.of_nat (16 * i)) DIRENT e s = Ret (DIRENT, sub_bytes data (16 * i) 16) e' s' /\
    serves j e' /\ at_rest (Some ip) s' /\ moved s s' /\ itable s' = itable s.
Proof using All.
  intros He A Hn Hd Hi. destruct (at_rest_loaded _ _ _ _ _ A Hn Hd) as [L _]. pose proof (loaded_small _ _ _ _ L) as Hsm.
  assert (16 * i mod 1024 <= 1008)%nat.
  { replace (16 * i mod 1024)%nat with (16 * (i mod 64))%nat by (symmetry; apply (Nat.Div0.mul_mod_distr_l i 64 16)).
    pose proof (Nat.mod_upper_bound i 64 ltac:(lia)). lia. }
  destruct (readi_ok p pid pins Hroom ∅ id 1 j ip nd data (16 * i) 16 DLocal e s) as (e' & s' & R & He' & Hs' & T1);
    [done|apply A|done|lia|lia|right; lia|done|].
  replace (Nat.min 16 (length data - 16 * i)) with 16%nat in * by lia.
  pose proof (traffic_itable _ _ _ _ T1) as I1.
  exists e', s'. split; [exact R|]. split; [done|]. split; [|split; [by apply traffic_moved|done]].
  apply (at_rest_moved (Some ip) _ s); [done|by apply traffic_moved|done|rewrite I1; apply A].
Qed.

(** The entries of a directory are in the tree. *)
Lemma dirent_some inum d data i s :
  tree_ok (sb s) T (content (bcache s) (disk s)) -> T !! inum = Some (d, data) -> di_type d = T_DIR ->
  (16 * i + 16 <= length data)%nat -> de_inum (sub_bytes data (16 * i) 16) <> 0 ->
  is_Some (T !! de_inum (sub_bytes data (16 * i) 16)).
Proof using.
  intros Ht Hd Hdir Hi Hne. apply (no_dir _ _ _ _ _ _ (Ht _ _ _ Hd) Hdir); [|done].
  apply list_elem_of_fmap. exists i. split; [done|]. apply elem_of_seq.
  split; [lia|]. apply (Nat.div_le_lower_bound _ 16 (S i)); lia.
Qed.

(** The directory is searched from entry [i] on. *)
Lemma dirlookup_unroll m i j ip nd d data name z e s :
  serves (2 * m + j) e -> at_rest (Some ip) s -> itable s !! ip = Some nd -> T !! i_inum nd = Some (d, data) ->
  di_type d = T_DIR -> (16 * (i + m) = length data)%nat -> length name = DIRSIZ -> refs (itable s) !! z = Some 0 ->
  exists r e' s', unroll (S m) (dirlookup_round ip name) (Z.of_nat (16 * i)) e s = Ret (inr r) e' s' /\
    serves j e' /\ at_rest (Some ip) s' /\ moved s s' /\
    match list_find (entitled (cstr name)) (map (fun i => sub_bytes data (16 * i) 16) (seq i m)) with
    | None => r = None /\ refs (itable s') = refs (itable s)
    | Some (_, de) => exists ip' off, r = Some (ip', off) /\ i_inum <$> itable s' !! ip' = Some (de_inum de) /\
        refs (itable s') = alter (fun r => r + 1) ip' (refs (itable s))
    end.
Proof using All.
  revert i e s. induction m as [|m IH]; intros i e s He A Hn Hd Hdir Hlen Hname Hz; rewrite unroll_S;
    unfold dirlookup_round at 1; destruct (at_rest_loaded _ _ _ _ _ A Hn Hd) as [L _];
    rewrite bind_assoc, (bind_run _ _ _ _ _ _ _ (inode_at_run _ _ _ _ Hn)), (lo_size _ _ _ _ L);
    pose proof (loaded_small _ _ _ _ L) as Hsm.
  { rewrite (proj2 (Z.ltb_ge _ _)), step_ret by lia. exists None, e, s. split; [done|]. split; [done|]. split; [done|].
    split; [apply traffic_moved, traffic_refl|done]. }
  rewrite (proj2 (Z.ltb_lt _ _)) by lia.
  destruct (dirent_run (2 * m + j) i ip nd d data e s) as (e1 & s1 & R1 & He1 & A1 & M1 & I1); try done; [|lia|].
  { by replace (2 + (2 * m + j))%nat with (2 * S m + j)%nat by lia. }
  rewrite bind_assoc, (bind_run _ _ _ _ _ _ _ R1). cbv iota beta. rewrite Z.eqb_refl. cbn [negb].
  set (de := sub_bytes data (16 * i) 16) in *. cbn [seq map list_find]. fold de.
  pose proof (namecmp_entitled name de Hname ltac:(by apply length_sub_bytes; lia)) as Hent.
  assert (Hnext : Z.of_nat (16 * i) +32 DIRENT = Z.of_nat (16 * S i)) by (rewrite u32_small; unfold DIRENT; lia).
  destruct (entitled (cstr name) de) eqn:Een.
  - rewrite decide_True by done. symmetry in Hent. apply andb_true_iff in Hent as [Hnz Hcmp].
    apply negb_true_iff in Hnz. rewrite Hnz, Hcmp, (lo_dev _ _ _ _ L). apply Z.eqb_neq in Hnz.
    destruct (iget_ok (de_inum de) (Some ip) z e1 s1 A1) as (ip' & it & Rg & Hic & Hre & Hin); [|by rewrite I1|].
    { apply (dirent_some (i_inum nd) d data i s); [apply A|done|done|lia|done]. }
    rewrite bind_assoc, (bind_run _ _ _ _ _ _ _ Rg), step_ret. eexists _, e1, _. split; [reflexivity|].
    split; [eapply serves_le; [|exact He1]; lia|]. split; [by eapply at_rest_itable|].
    split; [by eapply moved_trans, moved_itable|]. exists ip', (Z.of_nat (16 * i)). rewrite <- I1. done.
  - rewrite decide_False by (intros []).
    assert (Hgo : forall k, ((if de_inum de =? 0 then ret (inl (Z.of_nat (16 * i) +32 DIRENT)) else
        if namecmp name (de_name de) =? 0 then k else ret (inl (Z.of_nat (16 * i) +32 DIRENT))) : M (Z + option (nat * Z))) =
      ret (inl (Z.of_nat (16 * S i)))).
    { intros k. rewrite Hnext. destruct (de_inum de =? 0); [done|]. by destruct (namecmp name (de_name de) =? 0). }
    rewrite Hgo, step_ret.
    destruct (IH (S i) e1 s1) as (r & e' & s' & R & He' & A' & M' & Hr); try done; [by rewrite I1|lia|by rewrite I1|].
    exists r, e', s'. rewrite <- I1. split; [exact R|]. split; [done|]. split; [done|].
    split; [by eapply moved_trans|]. by destruct (list_find _ _) as [[? ?]|].
Qed.

(** dirlookup() of a name in a locked directory. *)
Lemma dirlookup_ok j ip nd d data name z e s :
  serves (2 * (length data / 16) + j) e -> at_rest (Some ip) s -> itable s !! ip = Some nd ->
  T !! i_inum nd = Some (d, data) -> di_type d = T_DIR -> length name = DIRSIZ -> refs (itable s) !! z = Some 0 ->
  exists r e' s', dirlookup ip name e s = Ret r e' s' /\ serves j e' /\ at_rest (Some ip) s' /\ moved s s' /\
    match dir_find (cstr name) data with
    | None => r = None /\ refs (itable s') = refs (itable s)
    | Some i => exists ip' off, r = Some (ip', off) /\ i_inum <$> itable s' !! ip' = Some i /\
        refs (itable s') = alter (fun r => r + 1) ip' (refs (itable s))
    end.
Proof using All.
  intros He A Hn Hd Hdir Hname Hz. destruct (at_rest_loaded _ _ _ _ _ A Hn Hd) as [L Hag].
  pose proof (no_dir _ _ _ _ _ _ (ar_tree _ _ A _ _ _ Hd) Hdir) as [Hmod _]. pose proof (loaded_small _ _ _ _ L) as Hsm.
  pose proof (Nat.div_mod_eq (length data) 16) as Hdm.
  destruct (dirlookup_unroll (length data / 16) 0 j ip nd d data name z e s) as (r & e' & s' & R & He' & A' & M & Hr);
    try done; [lia|].
  exists r, e', s'. split; [|split; [done|split; [done|split; [done|]]]].
  - unfold dirlookup. rewrite (bind_run _ _ _ _ _ _ _ (inode_at_run _ _ _ _ Hn)), (ag_type _ _ Hag), Hdir, Z.eqb_refl.
    cbn [negb]. eapply loop_run; [exact R|]. lia.
  - unfold dir_find, dirents. by destruct (list_find _ _) as [[? ?]|].
Qed.

Lemma alter_lookup (g : Z -> Z) ip i (r : list Z) : ip <> i -> alter g ip r !! i = r !! i.
Proof using. intros. by rewrite list_lookup_alter, decide_False. Qed.

Lemma alter_undo ip (r : list Z) : alter (fun x => x - 1) ip (alter (fun x => x + 1) ip r) = r.
Proof using.
  apply list_eq. intros i. rewrite !list_lookup_alter.
  repeat case_decide; subst; try done; (destruct (r !! _); [|done]); cbn [fmap option_fmap option_map]; f_equal; lia.
Qed.

Lemma alter_undo_other ip i (r : list Z) :
  alter (fun x => x - 1) ip (alter (fun x => x + 1) i (alter (fun x => x + 1) ip r)) = alter (fun x => x + 1) i r.
Proof using.
  apply list_eq. intros k. rewrite !list_lookup_alter. 
  repeat case_decide; subst; try done; (destruct (r !! _); [|done]); cbn [fmap option_fmap option_map]; f_equal; lia.
Qed.

(** The entry of a slot with a reference. *)
Lemma refs_slot r ip s : refs (itable s) = alter (fun x => x + 1) ip r -> Forall (fun x => 0 <= x) r -> (ip < NINODE)%nat ->
  length r = NINODE -> exists nd, itable s !! ip = Some nd /\ 0 < i_ref nd.
Proof using.
  intros Hre Hr Hlt Hlen. destruct (lookup_lt_is_Some_2 r ip ltac:(lia)) as [x Hx].
  assert (refs (itable s) !! ip = Some (x + 1)) as Hi by (by rewrite Hre, list_lookup_alter, decide_True, Hx).
  rewrite refs_lookup in Hi. destruct (itable s !! ip) as [nd|]; [|done]. exists nd. split; [done|].
  injection Hi as ->. apply (Forall_lookup_1 _ _ _ _ Hr) in Hx. lia.
Qed.

Lemma iunlockput_ok ip e s :
  at_rest (Some ip) s -> (ip < NINODE)%nat ->
  exists s', iunlockput ip e s = Ret tt e s' /\ at_rest None s' /\ moved s s' /\
    refs (itable s') = alter (fun r => r - 1) ip (refs (itable s)) /\ inums (itable s') = inums (itable s).
Proof using.
  intros A Hlt. destruct (iunlock_ok ip e s A Hlt) as (s1 & R1 & A1 & M1 & Hre1 & Hi1).
  pose proof (ar_icache _ _ A) as Hic.
  destruct (lookup_lt_is_Some_2 (itable s) ip) as [nd Hn]; [by rewrite (ic_len _ _ _ _ Hic)|].
  destruct (en_mine _ _ _ _ _ (ic_entry _ _ _ _ Hic ip nd Hn) eq_refl) as (_ & _ & Hpos).
  assert (exists nd1, itable s1 !! ip = Some nd1 /\ 0 < i_ref nd1) as (nd1 & Hn1 & Hr1).
  { assert (refs (itable s1) !! ip = Some (i_ref nd)) as Hi by (by rewrite Hre1, refs_lookup, Hn).
    rewrite refs_lookup in Hi. destruct (itable s1 !! ip) as [nd1|]; [|done]. injection Hi as Hi. exists nd1. split; [done|lia]. }
  destruct (iput_ok ip nd1 e s1 A1 Hn1 Hr1) as (s2 & R2 & A2 & M2 & Hre2 & Hi2).
  exists s2. unfold iunlockput. rewrite (bind_run _ _ _ _ _ _ _ R1). split; [done|]. split; [done|].
  split; [by eapply moved_trans|]. by rewrite Hre2, Hre1, Hi2, Hi1.
Qed.

(** *** namei *)

(** One round of the loop of namex() for namei(). *)
Definition namex_round : nat * list Z * list Z -> M (nat * list Z * list Z + option nat * list Z) :=
  fun '(ip, path, name) =>
    match skipelem path name with
    | None => ret (inr (Some ip, name))
    | Some (path, name) =>
        ilock ip ;;
        nd <- inode_at ip;
        if negb (i_type nd =? T_DIR) then
          iunlockput ip ;; ret (inr (None, name))
        else
          next <- dirlookup ip name;
          match next with
          | None => iunlockput ip ;; ret (inr (None, name))
          | Some (next, _) =>
              iunlockput ip ;;
              ret (inl (next, path, name))
          end
    end.

(** Two entries of the table are free. *)
Definition two_free (r : list Z) : Prop := exists z1 z2, z1 <> z2 /\ r !! z1 = Some 0 /\ r !! z2 = Some 0.

Lemma two_free_one ip r : two_free r -> exists z, alter (fun x => x + 1) ip r !! z = Some 0.
Proof using.
  intros (z1 & z2 & Hne & H1 & H2). destruct (decide (ip = z1)) as [->|]; [exists z2|exists z1]; by rewrite alter_lookup.
Qed.

(** The outcome of a walk that ends with [o]: a reference to the inode, and no
    other, is taken. *)
Definition reached (r : list Z) (o : option Z) (res : option nat) (s : kernel) : Prop :=
  match o, res with
  | Some i, Some ip => i_inum <$> itable s !! ip = Some i /\ refs (itable s) = alter (fun x => x + 1) ip r
  | None, None => refs (itable s) = r
  | _, _ => False
  end.

(** Let go of the directory with the references as they are. *)
Lemma leave_dir {A} ip r (a : A) e s :
  at_rest (Some ip) s -> (ip < NINODE)%nat -> refs (itable s) = alter (fun x => x + 1) ip r ->
  exists s', (iunlockput ip ;; ret a) e s = Ret a e s' /\ at_rest None s' /\ moved s s' /\ refs (itable s') = r.
Proof using.
  intros Ar Hlt Hre. destruct (iunlockput_ok ip e s Ar Hlt) as (s' & R & A' & M & Hr & _). exists s'.
  rewrite (bind_run _ _ _ _ _ _ _ R). split; [done|]. split; [done|]. split; [done|]. by rewrite Hr, Hre, alter_undo.
Qed.

Lemma namex_unroll r n j ip nd path name e s :
  two_free r -> Forall (fun x => 0 <= x) r -> length r = NINODE ->
  (length path < n)%nat -> length name = DIRSIZ -> at_rest None s -> itable s !! ip = Some nd ->
  refs (itable s) = alter (fun x => x + 1) ip r -> serves (way T (i_inum nd) (path_names path) + j) e ->
  exists res name' e' s', unroll n namex_round (ip, path, name) e s = Ret (inr (res, name')) e' s' /\
    serves j e' /\ at_rest None s' /\ moved s s' /\ reached r (resolve T (i_inum nd) (path_names path)) res s'.
Proof using All.
  intros Hfree Hpos Hlen. revert ip nd path name e s.
  induction n as [|n IH]; intros ip nd path name e s Hn Hname A Hnd Hre He; [lia|].
  rewrite unroll_S. unfold namex_round at 1. pose proof (skipelem_names path name Hname) as Hsk.
  destruct (skipelem path name) as [[path' name']|].
  2:{ rewrite Hsk in *. exists (Some ip), name, e, s. rewrite step_ret. split; [done|]. split; [done|]. split; [done|].
      split; [apply traffic_moved, traffic_refl|]. cbn. by rewrite Hnd. }
  destruct Hsk as (Hpn & Hname' & Hlt). rewrite Hpn in *.
  pose proof (lookup_lt_Some _ _ _ Hnd) as Hip. rewrite (ic_len _ _ _ _ (ar_icache _ _ A)) in Hip.
  destruct (refs_slot r ip s Hre Hpos Hip Hlen) as (nd0 & Hnd0 & Hr0). rewrite Hnd in Hnd0. injection Hnd0 as <-.
  destruct (en_node _ _ _ _ _ (ic_entry _ _ _ _ (ar_icache _ _ A) ip nd Hnd) Hr0) as (_ & d & data & Hd & _).
  cbn [way resolve] in *. rewrite Hd in *. cbn [mbind option_bind Nat.add] in *.
  destruct (ilock_ok _ ip nd e s He A Hnd Hr0) as (e1 & s1 & nd1 & R1 & He1 & A1 & M1 & Hre1 & Hn1 & Hi1).
  rewrite <- Hi1 in Hd. destruct (at_rest_loaded _ _ _ _ _ A1 Hn1 Hd) as [_ Hag]. rewrite Hre in Hre1.
  rewrite bind_assoc, (bind_run _ _ _ _ _ _ _ R1), bind_assoc, (bind_run _ _ _ _ _ _ _ (inode_at_run _ _ _ _ Hn1)), (ag_type _ _ Hag).
  destruct (Z.eqb_spec (di_type d) T_DIR) as [Hdir|Hdir]; cbn [negb].
  2:{ destruct (leave_dir ip r (inr (None, name') : (nat * list Z * list Z + option nat * list Z)%type) e1 s1 A1 Hip Hre1) as (s2 & R2 & A2 & M2 & Hre2).
      rewrite (bind_run _ _ _ _ _ _ _ R2). exists None, name', e1, s2. split; [done|].
      split; [eapply serves_le; [|exact He1]; lia|]. split; [done|]. split; [by eapply moved_trans|done]. }
  destruct (two_free_one ip r Hfree) as [z Hz]. rewrite <- Hre1 in Hz. rewrite <- Nat.add_assoc in He1.
  destruct (dirlookup_ok _ ip nd1 d data name' z e1 s1 He1 A1 Hn1 Hd Hdir Hname' Hz) as (nx & e2 & s2 & R2 & He2 & A2 & M2 & Hnx).
  rewrite bind_assoc, (bind_run _ _ _ _ _ _ _ R2). destruct (dir_find (cstr name') data) as [i|]; cbn [mbind option_bind].
  - destruct Hnx as (ip' & off & -> & Hin & Hre2). rewrite Hre1 in Hre2.
    destruct (iunlockput_ok ip e2 s2 A2 Hip) as (s3 & R3 & A3 & M3 & Hre3 & Hin3). rewrite Hre2, alter_undo_other in Hre3.
    rewrite bind_assoc, (bind_run _ _ _ _ _ _ _ R3), step_ret.
    rewrite <- (inums_same _ _ ip' Hin3) in Hin. destruct (itable s3 !! ip') as [nd3|] eqn:Hn3; [|done].
    injection Hin as Hin. rewrite <- Hin in He2 |- *.
    destruct (IH ip' nd3 path' name' e2 s3) as (res & nm & e4 & s4 & R4 & He4 & A4 & M4 & Hreach); try done; [lia|].
    exists res, nm, e4, s4. split; [exact R4|]. split; [done|]. split; [done|]. split; [|done].
    eapply moved_trans; [exact M1|]. eapply moved_trans; [exact M2|]. by eapply moved_trans.
  - destruct Hnx as [-> Hre2]. rewrite Hre1 in Hre2.
    destruct (leave_dir ip r (inr (None, name') : (nat * list Z * list Z + option nat * list Z)%type) e2 s2 A2 Hip Hre2)
      as (s3 & R3 & A3 & M3 & Hre3).
    rewrite (bind_run _ _ _ _ _ _ _ R3). exists None, name', e2, s3. split; [done|]. split; [done|]. split; [done|].
    split; [|done]. eapply moved_trans; [exact M1|]. by eapply moved_trans.
Qed.

(** The inode number a path is resolved from: the root, or the current directory
    of the process. *)
Definition starts (path : list Z) (from : Z) (s : kernel) : Prop :=
  if hd 0 path =? slash then from = ROOTINO /\ is_Some (T !! ROOTINO)
  else exists pp cwd nd, procs s !! p = Some pp /\ p_cwd pp = Some cwd /\ itable s !! cwd = Some nd /\
    0 < i_ref nd /\ i_inum nd = from.

Lemma at_rest_refs lk s : at_rest lk s -> Forall (fun x => 0 <= x) (refs (itable s)) /\ length (refs (itable s)) = NINODE.
Proof using.
  intros A. pose proof (ar_icache _ _ A) as Hic. split; [|unfold refs; rewrite length_map; apply Hic].
  apply Forall_lookup. intros i x. rewrite refs_lookup. intros (nd & Hn & ->)%fmap_Some.
  apply (en_ref _ _ _ _ _ (ic_entry _ _ _ _ Hic i nd Hn)).
Qed.

(** The first step of namex(). *)
Lemma namex_start path from e s :
  at_rest None s -> two_free (refs (itable s)) -> starts path from s ->
  exists ip s', (if hd 0 path =? slash then iget ROOTDEV ROOTINO
      else p <- curproc; pp <- proc_at p; cwd <- deref "cwd" (p_cwd pp); idup cwd) e s = Ret ip e s' /\
    at_rest None s' /\ moved s s' /\ refs (itable s') = alter (fun x => x + 1) ip (refs (itable s)) /\
    i_inum <$> itable s' !! ip = Some from.
Proof using.
  intros A (z & _ & _ & Hz & _) Hst. unfold starts in Hst. destruct (hd 0 path =? slash).
  - destruct Hst as [-> Hroot]. destruct (iget_ok ROOTINO None z e s A Hroot Hz) as (ip & it & R & Hic & Hre & Hi).
    exists ip, (s <| itable := it |>). split; [done|]. split; [by eapply at_rest_itable|]. split; [apply moved_itable|done].
  - destruct Hst as (pp & cwd & nd & Hpp & Hcwd & Hn & Hr & <-).
    destruct (idup_ok cwd nd None e s A Hn Hr) as (s' & R & A' & M & Hre & Hi).
    exists cwd, s'. split; [|done]. mrun curproc_run.
    rewrite (bind_run _ _ _ _ _ _ _ (proc_at_run _ _ _ _ Hpp)), Hcwd, step_deref. exact R.
Qed.

Lemma namei_ok j path from e s :
  at_rest None s -> two_free (refs (itable s)) -> starts path from s -> serves (way T from (path_names path) + j) e ->
  exists res e' s', namei path e s = Ret res e' s' /\ serves j e' /\ at_rest None s' /\ moved s s' /\
    reached (refs (itable s)) (resolve T from (path_names path)) res s'.
Proof using All.
  intros A Hfree Hst He. destruct (at_rest_refs _ _ A) as [Hpos Hlen].
  destruct (namex_start path from e s A Hfree Hst) as (ip & s1 & R1 & A1 & M1 & Hre1 & Hi1).
  destruct (itable s1 !! ip) as [nd|] eqn:Hn; [|done]. injection Hi1 as <-.
  destruct (namex_unroll (refs (itable s)) (S (length path)) j ip nd path (replicate DIRSIZ 0) e s1)
    as (res & name & e' & s' & R & He' & A' & M' & Hreach); try done; [lia|].
  exists res, e', s'. split; [|split; [done|split; [done|split; [by eapply moved_trans|done]]]].
  unfold namei, namex. rewrite bind_assoc, (bind_run _ _ _ _ _ _ _ R1).
  rewrite (bind_run _ _ _ _ (res, name) e' s'); [done|]. eapply while_run; [exact R|lia].
Qed.

End Ops.

(** C7: path resolution.  On a file system whose blocks store the tree [T],
    namei() returns for every path, absolute or relative to the current directory,
    the inode the tree has under it, and no inode when an element is missing or is
    not a directory.  It takes one reference to the inode it returns and leaves
    every other count, the disk and the content of every block as they were. *)
Theorem namei_resolves `{HD : Disk, !DiskOk, HP : PlatformOk} p pid pins T j path from e s :
  room pins [] -> at_rest p pid pins T None s -> two_free (refs (itable s)) -> starts p T path from s ->
  serves (way T from (path_names path) + j) e ->
  exists res e' s', namei path e s = Ret res e' s' /\ serves j e' /\ at_rest p pid pins T None s' /\
    disk s' = disk s /\ dwrites s' = dwrites s /\ mem s' = mem s /\
    (forall bn, content (bcache s') (disk s') bn = content (bcache s) (disk s) bn) /\
    reached (refs (itable s)) (resolve T from (path_names path)) res s'.
Proof.
  intros Hroom A Hfree Hst He.
  destruct (namei_ok p pid pins T Hroom j path from e s A Hfree Hst He) as (res & e' & s' & R & He' & A' & M & Hre).
  exists res, e', s'. split; [done|]. split; [done|]. split; [done|]. split; [exact (tr_disk _ _ _ _ M)|].
  split; [exact (tr_writes _ _ _ _ M)|]. split; [exact (traffic_mem _ _ _ _ M)|].
  split; [exact (tr_content _ _ _ _ M)|done].
Qed.
