(* ===== verification/Image.v ===== *)
(** * Booting on the image mkfs builds

    The file system of the image as a tree, and the kernel on it: after fsinit()
    namei() finds the files by their names and readi() returns the bytes mkfs was
    given. *)

From S2P Require Import Prelude State Machine Monad Spinlock Cstring Kalloc Vm Pagetable Proc Sleeplock.
From S2P Require Import Mkfs Virtio Bio Bufcache Diskio Log Transact Crash Fs Readfs Namei.

(** ** Files *)

Lemma concat_lookup (blks : list (list Z)) k blk j :
  Forall (fun b => length b = 1024%nat) blks -> blks !! k = Some blk -> (j < 1024)%nat ->
  concat blks !! (1024 * k + j)%nat = blk !! j.
Proof.
  intros Hf. revert k. induction Hf as [|b blks Hb _ IH]; intros k Hk Hj; [done|]. cbn [concat].
  destruct k as [|k]; cbn in Hk.
  - injection Hk as ->. by rewrite lookup_app_l by lia.
  - rewrite lookup_app_r, Hb by lia. rewrite <- (IH k Hk Hj). f_equal. lia.
Qed.

(** A file of the image is stored as the kernel expects it. *)
Lemma image_stored im din data bs ib N :
  file_ok im din data bs ib -> (forall b, b ∈ owned bs ib -> 0 < b < 2 ^ 31) -> (N <= 1024 * length bs)%nat ->
  stored (fun b => im !! b) (di_addrs din) (take N (data ++ replicate (1024 * length bs - length data) 0)).
Proof.
  intros Hf Ho HN. destruct (file_data _ _ _ _ _ Hf) as (blks & HF & <-). pose proof (file_max _ _ _ _ _ Hf) as Hmax.
  assert (Hlb : Forall (fun b => length b = 1024%nat) blks).
  { apply Forall_lookup. intros i b Hb. destruct (Forall2_lookup_r _ _ _ _ _ HF Hb) as (a & _ & _ & E). done. }
  assert (Hle : (length (take N (concat blks)) <= N)%nat) by (rewrite length_take; lia). split.
  - lia.
  - intros Hlt. destruct (decide (NDIRECT < length bs)%nat) as [Hi|Hi]; [|unfold NDIRECT in *; lia].
    exists ib. split; [|by apply Ho, owned_indirect]. rewrite (file_addrs _ _ _ _ _ Hf).
    destruct (lookup_lt_is_Some_2 (addrs_of bs ib) NDIRECT) as [x Hx]; [rewrite length_addrs_of; lia|].
    rewrite Hx. f_equal. rewrite <- (addrs_indirect bs ib). by rewrite (nth_lookup_Some _ _ _ _ Hx).
  - intros k Hk. destruct (lookup_lt_is_Some_2 bs k ltac:(lia)) as [a Ha].
    destruct (Forall2_lookup_l _ _ _ _ _ HF Ha) as (blk & Hblk & Him & Hl).
    exists a, blk. split; [exact (file_addr_ok _ _ _ _ _ _ _ Hf Ha)|]. split; [by eapply Ho, owned_data|]. split; [done|].
    intros j Hj Hlt. rewrite lookup_take_lt by lia. symmetry. by apply concat_lookup.
Qed.

(** ** Directory entries *)

Lemma dirents_app l l' : (length l mod 16 = 0)%nat -> dirents (l ++ l') = dirents l ++ dirents l'.
Proof.
  intros Hl. pose proof (Nat.div_mod_eq (length l) 16) as Hd. unfold dirents. rewrite length_app.
  replace ((length l + length l') / 16)%nat with (length l / 16 + length l' / 16)%nat.
  2:{ replace (length l + length l')%nat with (length l' + (length l / 16) * 16)%nat by lia. rewrite Nat.div_add by lia. lia. }
  rewrite seq_app, map_app. f_equal.
  - apply map_ext_in. intros i Hi%in_seq. apply sub_bytes_app_l. lia.
  - cbn [Nat.add]. rewrite <- (Nat.add_0_r (length l / 16)) at 1. rewrite <- fmap_add_seq, <- list_fmap_compose.
    apply map_ext. intros i. unfold compose. rewrite sub_bytes_app_r by lia. f_equal. lia.
Qed.

Lemma dirents_one l : length l = 16%nat -> dirents l = [l].
Proof.
  intros Hl. unfold dirents. rewrite Hl. change (16 / 16)%nat with 1%nat. cbn [seq map]. f_equal. by apply sub_bytes_all.
Qed.

Lemma dirents_zeros m : dirents (replicate (16 * m) 0) = replicate m (replicate 16 0).
Proof.
  induction m as [|m IH]; [done|]. replace (16 * S m)%nat with (16 + 16 * m)%nat by lia.
  rewrite replicate_add, dirents_app, dirents_one, IH by done. done.
Qed.

Lemma cstr_strncpy n s name : Forall elem_char name -> (n <= length s)%nat -> length s = n ->
  cstr (strncpy s name n) = take n name.
Proof.
  intros Hf. revert n s. induction Hf as [|c name [_ Hc] _ IH]; intros n s Hle Hl; destruct n as [|n], s as [|x s]; try done.
  cbn [strncpy hd tl take] in *. rewrite (proj2 (Z.eqb_neq _ _) Hc). cbn [cstr]. rewrite (proj2 (Z.eqb_neq _ _) Hc).
  rewrite IH; cbn in *; [done|lia|lia].
Qed.

Lemma dirent_inum i name : 0 <= i < 2 ^ 16 -> de_inum (dirent_bytes i name) = i.
Proof.
  intros Hi. unfold de_inum, dirent_bytes, get16. rewrite sub_bytes_app_l, sub_bytes_all by (by rewrite length_le_bytes).
  rewrite le_value_bytes. apply Z.mod_small. lia.
Qed.

Lemma dirent_name i name : Forall elem_char name -> cstr (de_name (dirent_bytes i name)) = take DIRSIZ name.
Proof.
  intros Hf. unfold de_name, dirent_bytes. rewrite sub_bytes_app_r, length_le_bytes by (by rewrite length_le_bytes).
  rewrite Nat.sub_diag, sub_bytes_all by (by rewrite length_strncpy). by apply cstr_strncpy.
Qed.

Lemma xshort_id x : 0 <= x < 2 ^ 16 -> xshort x = x.
Proof.
  intros H. unfold xshort. cbn [le_value]. unfold u8. rewrite !Z.shiftr_div_pow2 by lia.
  Z.to_euclidean_division_equations. lia.
Qed.

Lemma dirents_listing k W :
  dirents (listing k W) = imap (fun i (w : named) => dirent_bytes (xshort (Z.of_nat (S (S (k + i))))) w.1) W.
Proof.
  revert k. induction W as [|w W IH]; intros k; [done|]. cbn [listing imap].
  rewrite dirents_app, dirents_one, IH by (by rewrite length_dirent). cbn [app]. rewrite Nat.add_0_r. f_equal.
  apply imap_ext. intros i x _. cbn. by rewrite Nat.add_succ_r.
Qed.

Lemma blocks_of_enough n : (n <= 1024 * blocks_of n)%nat.
Proof.
  unfold blocks_of. pose proof (Nat.div_mod_eq (n + 1023) 1024). pose proof (Nat.mod_upper_bound (n + 1023) 1024 ltac:(lia)). lia.
Qed.

Lemma take_dots (l : list Z) (x : list Z) : (length x < DIRSIZ)%nat -> take DIRSIZ l = x -> l = x.
Proof.
  intros Hx E. rewrite take_ge in E; [done|]. apply (f_equal length) in E. rewrite length_take in E. lia.
Qed.

(** ** The tree of the image *)

Section Tree.
Context (st st0 : image) (root : rep) (G : list rep) (W : list named).
Context (HB : built st0 (root :: G)) (Htype : r_type root = T_DIR) (Hdata : r_data root = dots ++ listing 0 W).
Context (HG : Forall2 (fun (w : named) r => r_type r = T_FILE /\ r_data r = w.2) W G).
Context (Hroot : rinode ROOTINO st = Some (sized root)).
Context (Hfiles : forall i r, G !! i = Some r -> rinode (Z.of_nat (S (S i))) st = Some (rep_din r)).
Context (Himg : forall b, b < 32 \/ nmeta <= b -> img st !! b = img st0 !! b).

Let n := length (r_data root).

(** The content of the root directory, with the unused entries at its end. *)
Definition root_data : list Z := r_data root ++ replicate (1024 * S (n / 1024) - n) 0.

Definition image_tree : gmap Z (dinode * list Z) :=
  <[ROOTINO := (sized root, root_data)]> (map_seqZ 2 (map (fun r => (rep_din r, r_data r)) G)).

Lemma image_tree_root : image_tree !! ROOTINO = Some (sized root, root_data).
Proof using. apply lookup_insert_eq. Qed.

Lemma image_tree_file k r : G !! k = Some r -> image_tree !! Z.of_nat (S (S k)) = Some (rep_din r, r_data r).
Proof using.
  intros Hr. unfold image_tree. rewrite lookup_insert_ne by (unfold ROOTINO; lia). apply lookup_map_seqZ_Some.
  split; [lia|]. replace (Z.to_nat (Z.of_nat (S (S k)) - 2)) with k by lia. by rewrite list_lookup_fmap, Hr.
Qed.

Lemma image_tree_inv inum d data : image_tree !! inum = Some (d, data) ->
  inum = ROOTINO /\ d = sized root /\ data = root_data \/
  exists k r, inum = Z.of_nat (S (S k)) /\ G !! k = Some r /\ d = rep_din r /\ data = r_data r.
Proof using.
  unfold image_tree. intros [[<- [= <- <-]]|[Hne Hm]]%lookup_insert_Some; [by left|]. right.
  apply lookup_map_seqZ_Some in Hm as [Hge Hm]. rewrite list_lookup_fmap in Hm.
  apply fmap_Some in Hm as (r & Hr & [= -> ->]). exists (Z.to_nat (inum - 2)), r. split; [lia|done].
Qed.

(** The blocks of the files are proper block numbers. *)
Lemma image_owned i r b : (root :: G) !! i = Some r -> b ∈ rep_owned r -> nmeta <= b < FSSIZE.
Proof using HB.
  intros Hr Hb. pose proof (rep_owned_elem _ _ _ b Hr Hb) as Hin. destruct (built_shared _ _ HB) as [Hf Hp].
  rewrite Hp, elem_of_seqZ in Hin. lia.
Qed.

Lemma image_file_stored i r N din : (root :: G) !! i = Some r -> di_addrs din = addrs_of (r_bs r) (r_ib r) ->
  (N <= 1024 * length (r_bs r))%nat ->
  stored (fun b => img st !! b) (di_addrs din)
    (take N (r_data r ++ replicate (1024 * length (r_bs r) - length (r_data r)) 0)).
Proof using HB Himg.
  intros Hr Ha HN. destruct (built_file _ _ HB i r Hr) as (_ & _ & Hf & _). assert (nmeta = 46) as Hm by done.
  apply (image_stored _ _ _ _ (r_ib r)); [|intros b Hb; destruct (image_owned i r b Hr Hb); unfold FSSIZE in *; lia|done].
  eapply file_ok_ext; [by eapply file_ok_din|]. intros b Hb. apply Himg. right. by apply (image_owned i r b Hr Hb).
Qed.

Lemma image_inode inum d : 0 <= inum < NINODES -> rinode inum st = Some d ->
  exists blk, 0 <= IBLOCK inum mkfs_sb < 2 ^ 31 /\ img st !! IBLOCK inum mkfs_sb = Some blk /\
    dinode_get blk (Z.to_nat (inum mod IPB)) = d.
Proof using root.
  intros Hi Hr. unfold rinode, rsect in Hr. destruct (img st !! IBLOCK inum mkfs_sb) as [blk|] eqn:E; [|done].
  injection Hr as Hr. exists blk. destruct (IBLOCK_sb inum Hi). split; [lia|done].
Qed.

Context (Hmod : (length (r_data root) mod 1024 <> 0)%nat).

Lemma root_blocks : length (r_bs root) = S (n / 1024).
Proof using HB Hmod.
  destruct (built_file _ _ HB 0%nat root eq_refl) as (_ & _ & _ & Hl). rewrite Hl. unfold blocks_of. fold n.
  fold n in Hmod. pose proof (Nat.div_mod_eq n 1024). pose proof (Nat.mod_upper_bound n 1024 ltac:(lia)).
  replace (n + 1023)%nat with ((n mod 1024 - 1) + S (n / 1024) * 1024)%nat by lia.
  rewrite Nat.div_add, Nat.div_small by lia. lia.
Qed.

Lemma root_data_take :
  root_data = take (1024 * length (r_bs root)) (r_data root ++ replicate (1024 * length (r_bs root) - length (r_data root)) 0).
Proof using All.
  rewrite root_blocks. unfold root_data. fold n. rewrite take_ge; [done|].
  pose proof (Nat.div_mod_eq n 1024). pose proof (Nat.mod_upper_bound n 1024 ltac:(lia)).
  rewrite length_app, length_replicate. fold n. lia.
Qed.

Lemma length_root_data : length root_data = (1024 * S (n / 1024))%nat.
Proof using All.
  pose proof (Nat.div_mod_eq n 1024). pose proof (Nat.mod_upper_bound n 1024 ltac:(lia)).
  unfold root_data. rewrite length_app, length_replicate. fold n. lia.
Qed.

Lemma length_W : length W = length G /\ n = (32 + 16 * length W)%nat.
Proof using All. split; [by eapply Forall2_length|]. unfold n. rewrite Hdata, length_app, length_listing. done. Qed.

(** The entries of the root directory. *)
Lemma root_dirents :
  dirents root_data = [dirent_bytes 1 [46]; dirent_bytes 1 [46; 46]] ++
    imap (fun i (w : named) => dirent_bytes (Z.of_nat (S (S i))) w.1) W ++
    replicate ((1024 * S (n / 1024) - n) / 16) (replicate 16 0).
Proof using All.
  destruct length_W as [Hl Hn]. pose proof (built_room _ _ HB) as Hroom. cbn [length] in Hroom. unfold NINODES in Hroom.
  unfold root_data. rewrite Hdata. unfold dots.
  assert (Hz : exists m, (1024 * S (n / 1024) - n = 16 * m)%nat).
  { exists (64 * S (n / 1024) - (2 + length W))%nat. lia. }
  destruct Hz as [m ->]. replace (16 * m / 16)%nat with m by (rewrite Nat.mul_comm, Nat.div_mul; lia).
  rewrite <- !app_assoc. rewrite (dirents_app (dirent_bytes 1 [46])) by (by rewrite length_dirent).
  rewrite (dirents_app (dirent_bytes 1 [46; 46])) by (by rewrite length_dirent).
  rewrite (dirents_app (listing 0 W)) by (by rewrite length_listing, Nat.mul_comm, Nat.Div0.mod_mul).
  rewrite !dirents_one, dirents_zeros, dirents_listing by apply length_dirent.
  cbn [app]. do 3 f_equal. apply imap_ext. intros i w Hw. apply lookup_lt_Some in Hw. by rewrite xshort_id by lia.
Qed.

Lemma image_tree_ok : tree_ok mkfs_sb image_tree (fun b => img st !! b).
Proof using All.
  pose proof (built_room _ _ HB) as Hroom. cbn [length] in Hroom. destruct length_W as [Hl Hn].
  intros inum d data [(-> & -> & ->)|(k & r & -> & Hr & -> & ->)]%image_tree_inv.
  - split; try done.
    + by apply image_inode.
    + cbn [sized di_type]. by rewrite Htype.
    + cbn [sized di_size]. by rewrite length_root_data.
    + rewrite root_data_take. by apply (image_file_stored 0 root).
    + intros _. split.
      { rewrite length_root_data. replace (1024 * S (n / 1024))%nat with (64 * S (n / 1024) * 16)%nat by lia. apply Nat.Div0.mod_mul. }
      intros de Hde Hne. rewrite root_dirents in Hde. rewrite !elem_of_app in Hde. destruct Hde as [Hde|[Hde|Hde]].
      * assert (de_inum de = ROOTINO) as ->; [|eexists; exact image_tree_root].
        rewrite !elem_of_cons, elem_of_nil in Hde. destruct Hde as [->|[->|[]]]; by apply dirent_inum.
      * apply elem_of_lookup_imap in Hde as (i & w & -> & Hw). apply lookup_lt_Some in Hw as Hlt.
        rewrite dirent_inum by (unfold NINODES in Hroom; lia).
        destruct (Forall2_lookup_l _ _ _ _ _ HG Hw) as (r & Hr & _). eexists. exact (image_tree_file i r Hr).
      * apply elem_of_replicate in Hde as [-> _]. by destruct Hne.
  - apply lookup_lt_Some in Hr as Hlt. destruct (Forall2_lookup_r _ _ _ _ _ HG Hr) as (w & _ & Htr & _).
    destruct (built_file _ _ HB (S k) r Hr) as (_ & _ & _ & Hlb). split; try done.
    + apply image_inode; [lia|by apply Hfiles].
    + cbn [rep_din di_type]. by rewrite Htr.
    + rewrite <- (take_app_length (r_data r) (replicate (1024 * length (r_bs r) - length (r_data r)) 0)).
      apply (image_file_stored (S k) r); [done|done|]. rewrite Hlb. apply blocks_of_enough.
    + cbn [rep_din di_type]. by rewrite Htr.
Qed.

(** The file [k] is the first of its name. *)
Definition first_named (k : nat) (w : named) : Prop :=
  W !! k = Some w /\ w.1 <> [] /\ w.1 <> [46] /\ w.1 <> [46; 46] /\
  forall j w', (j < k)%nat -> W !! j = Some w' -> take DIRSIZ w'.1 <> take DIRSIZ w.1.

Lemma root_find k w : Forall (fun w : named => Forall elem_char w.1) W -> first_named k w ->
  dir_find (take DIRSIZ w.1) root_data = Some (Z.of_nat (S (S k))).
Proof using All.
  intros Hch (Hw & Hne & Hd1 & Hd2 & Hfirst). destruct length_W as [Hl _]. pose proof (built_room _ _ HB) as Hroom.
  cbn [length] in Hroom. unfold NINODES in Hroom. apply lookup_lt_Some in Hw as Hlt.
  assert (Hent : forall i nm m, 0 < i < 2 ^ 16 -> Forall elem_char m -> entitled nm (dirent_bytes i m) = bool_decide (take DIRSIZ m = nm)).
  { intros i nm m Hi Hm. unfold entitled. rewrite dirent_inum, dirent_name by (done || lia).
    by rewrite (proj2 (Z.eqb_neq i 0)) by lia. }
  assert (Hlk : forall i (w' : named), W !! i = Some w' -> Forall elem_char w'.1) by (intros i w' Hw'; exact (Forall_lookup_1 _ _ _ _ Hch Hw')).
  unfold dir_find. assert (list_find (entitled (take DIRSIZ w.1)) (dirents root_data) =
    Some (S (S k), dirent_bytes (Z.of_nat (S (S k))) w.1)) as ->;
    [|cbn [fmap option_fmap option_map snd]; by rewrite dirent_inum by lia].
  rewrite root_dirents. apply list_find_Some. cbn [app].
  assert (Hi : forall i w', W !! i = Some w' -> (imap (fun i (w : named) => dirent_bytes (Z.of_nat (S (S i))) w.1) W ++
    replicate ((1024 * S (n / 1024) - n) / 16) (replicate 16 0)) !! i = Some (dirent_bytes (Z.of_nat (S (S i))) w'.1)).
  { intros i w' Hw'. rewrite lookup_app_l by (rewrite length_imap; by eapply lookup_lt_Some). by rewrite list_lookup_imap, Hw'. }
  split; [by apply Hi|]. split; [rewrite Hent; [by apply bool_decide_pack|lia|by eapply Hlk]|].
  intros [|[|j]] de Hde Hj.
  - change (Some (dirent_bytes 1 [46]) = Some de) in Hde. apply (inj Some) in Hde as <-. rewrite Hent; [|lia|by repeat constructor]. intros E%bool_decide_unpack. apply Hd1, take_dots; [unfold DIRSIZ; cbn; lia|by rewrite <- E].
  - change (Some (dirent_bytes 1 [46; 46]) = Some de) in Hde. apply (inj Some) in Hde as <-.
    rewrite Hent; [|lia|by repeat constructor]. intros E%bool_decide_unpack. apply Hd2, take_dots; [unfold DIRSIZ; cbn; lia|by rewrite <- E].
  - destruct (lookup_lt_is_Some_2 W j ltac:(lia)) as [w' Hw']. pose proof (eq_trans (eq_sym (Hi j w' Hw')) Hde) as Hde'.
    apply (inj Some) in Hde' as <-.
    rewrite Hent; [|lia|by eapply Hlk]. intros E%bool_decide_unpack. by apply (Hfirst j w'); [lia|..].
Qed.

End Tree.

(** ** Booting *)

Section Boot.
Context `{HD : Disk, !DiskOk, HP : PlatformOk} (p : nat) (pid : Z).

Notation no_pins := (fun _ : nat => 0).

Lemma room_no_pins : room no_pins [].
Proof using. apply room_booted. unfold NBUF. cbn. lia. Qed.

Lemma readsb_ok n d e s :
  serves (S n) e -> session p pid no_pins [] [] s -> disk s !! 1 = Some d ->
  exists e' s', readsb ROOTDEV e s = Ret tt e' s' /\ serves n e' /\ session p pid no_pins [] [] s' /\
    traffic p (mem s) (s <| sb := sb_of d |>) s'.
Proof using HP.
  intros He Hs Hd. pose proof (content_clean p pid s 1 Hs) as Hc. rewrite Hd in Hc.
  destruct (bread_block p pid no_pins room_no_pins n 1 d e s) as (b & bb & e1 & s1 & R1 & He1 & G & Hbd); try done.
  pose proof (granted_traffic p pid no_pins _ _ _ _ _ G) as T1.
  destruct (brelse_held p pid no_pins b bb e1 (s1 <| sb := sb_of d |>)) as (s2 & R2 & Hs2 & T2).
  { destruct (gr_session _ _ _ _ _ _ _ _ _ _ G) as [H1 H2 H3]. by split. } { apply G. } { apply G. }
  exists e1, s2. unfold readsb. rewrite (bind_run _ _ _ _ _ _ _ R1).
  rewrite (bind_run _ _ _ _ _ _ _ (bdata_run _ _ _ _ (gr_buf _ _ _ _ _ _ _ _ _ _ G))), Hbd, step_modify.
  split; [exact R2|]. split; [done|]. split; [done|].
  assert (T1' : traffic p (mem s) (s <| sb := sb_of d |>) (s1 <| sb := sb_of d |>)).
  { destruct T1 as [E D W C F]. split; [|done..].
    change (erase_io (s1 <| sb := sb_of d |>)) with (erase_io s1 <| sb := sb_of d |>). rewrite E. reflexivity. }
  rewrite <- (traffic_mem _ _ _ _ T1' : mem (s1 <| sb := sb_of d |>) = mem s). by eapply traffic_trans.
Qed.

(** fsinit() on a disk whose log is empty changes nothing on the disk. *)
Lemma fsinit_ok n d h e s :
  serves (4 + n) e -> session p pid no_pins [] [] s -> length (lh_block (klog s)) = 30%nat ->
  disk s !! 1 = Some d -> sb_magic (sb_of d) = FSMAGIC ->
  log_area (sb_logstart (sb_of d)) (sb_nlog (sb_of d)) (disk s) -> 0 < sb_nlog (sb_of d) ->
  disk s !! sb_logstart (sb_of d) = Some h -> head_count h = 0 -> head_bytes [] h = h ->
  exists e' s', fsinit ROOTDEV e s = Ret tt e' s' /\ serves n e' /\ session p pid no_pins [] [] s' /\
    disk s' = disk s /\ only_klog (s <| sb := sb_of d |> <| hw ::= init_log_lock |>) s'.
Proof using HP.
  intros He Hs Hlh Hd Hmag Harea Hsz Hh Hcnt Hid.
  destruct (readsb_ok (3 + n) d e s) as (e1 & s1 & R1 & He1 & Hs1 & T1); try done.
  pose proof (tr_disk _ _ _ _ T1 : disk s1 = disk s) as D1.
  assert (Esb : sb s1 = sb_of d) by (change (sb (erase_io s1) = sb_of d); by rewrite (tr_erase _ _ _ _ T1)).
  assert (Ekl : klog s1 = klog s) by (change (klog (erase_io s1) = klog s); by rewrite (tr_erase _ _ _ _ T1)).
  destruct (initlog_ok p pid (sb_logstart (sb_of d)) (sb_nlog (sb_of d)) h [] (sb_of d) n e1 s1)
    as (e2 & s2 & R2 & He2 & [_ Hdk] & Hs2 & Hk); rewrite ?D1, ?(empty_blocks h Hcnt); try done.
  { by split; [|rewrite Ekl]. } { apply homes_nil, Hsz. } { lia. }
  exists e2, s2. split; [|split; [done|split; [done|split]]].
  - unfold fsinit. rewrite (bind_run _ _ _ _ _ _ _ R1), step_gets, Esb, Hmag, Z.eqb_refl. exact R2.
  - rewrite Hdk. unfold recovery_writes. rewrite (empty_blocks h Hcnt), Hid, D1. cbn [zip zip_with app].
    unfold replay. cbn. by apply insert_id.
  - eapply only_klog_trans; [|exact Hk]. exists (klog s).
    change (erase_io (s1 <| hw ::= init_log_lock |>)) with (erase_io s1 <| hw ::= init_log_lock |>).
    rewrite (tr_erase _ _ _ _ T1). reflexivity.
Qed.

End Boot.

(** *** A machine at boot *)

#[local] Existing Instance platform0.

(** A machine with the disk, before fsinit() has read the superblock. *)
Definition cold (dk : gmap Z (list Z)) : kernel := rebooted dk <| sb := mksuperblock 0 0 0 0 0 0 0 0 |>.

Lemma fresh_icache T : icache 1 T None (replicate NINODE inode0).
Proof.
  split; [apply length_replicate| |].
  - intros ip nd [-> _]%lookup_replicate. by split.
  - intros i j ni nj [-> _]%lookup_replicate. done.
Qed.

Lemma boot_locks : inode_locks_free (init_log_lock hart0).
Proof.
  split; [by exists "lock"%string|].
  assert (Forall (fun i => locks0 !! LSleep (SInode i) = Some (unlocked "lock")) (seq 0 NINODE)) as Hall by (repeat constructor).
  intros ip Hip. exists "lock"%string.
  change (locks (init_log_lock hart0)) with (<[LLog := mkspinlock false "log" None]> locks0).
  rewrite lookup_insert_ne by done. apply (Forall_elem _ _ ip Hall). apply elem_of_seq. lia.
Qed.

(** The superblock and the header of the log in the image. *)
Lemma image_super st st0 F : built st0 F -> (forall b, b < 32 \/ nmeta <= b -> img st !! b = img st0 !! b) ->
  exists d, img st !! 1 = Some d /\ sb_of d = mkfs_sb.
Proof.
  intros HB Himg. pose proof (built_super _ _ HB 1 ltac:(lia)) as Hs. rewrite <- Himg in Hs by lia.
  change (1 =? 1) with true in Hs. cbv iota in Hs. eexists. split; [exact Hs|]. by vm_compute.
Qed.

Lemma image_log st st0 F : built st0 F -> (forall b, b < 32 \/ nmeta <= b -> img st !! b = img st0 !! b) ->
  exists h, img st !! 2 = Some h /\ head_count h = 0 /\ head_bytes [] h = h.
Proof.
  intros HB Himg. pose proof (built_super _ _ HB 2 ltac:(lia)) as Hs. rewrite <- Himg in Hs by lia.
  change (2 =? 1) with false in Hs. cbv iota in Hs. eexists. split; [exact Hs|]. split; by vm_compute.
Qed.

(** fsinit() on the image: the file system is at rest, with no inode in use. *)
Lemma boot_ok n st st0 F T e :
  disk_ok st -> built st0 F -> (forall b, b < 32 \/ nmeta <= b -> img st !! b = img st0 !! b) ->
  tree_ok mkfs_sb T (fun b => img st !! b) -> serves (4 + n) e ->
  exists e' s', fsinit ROOTDEV e (cold (img st)) = Ret tt e' s' /\ serves n e' /\
    at_rest 0 1 (fun _ => 0) T None s' /\ itable s' = replicate NINODE inode0 /\ disk s' = img st.
Proof.
  intros Hok HB Himg HT He.
  assert (Hlow : forall b, 0 <= b < 32 -> is_Some (img st !! b)).
  { intros b Hb. rewrite Himg, (built_super _ _ HB) by lia. eauto. }
  destruct (image_super st st0 F HB Himg) as (d & Hd & Hsb). destruct (image_log st st0 F HB Himg) as (h & Hh & Hcnt & Hid).
  assert (Hs : session 0 1 (fun _ => 0) [] [] (cold (img st))).
  { destruct (bt_session _ _ _ (rebooted_ok (img st) (disk_len _ Hok))) as [H1 H2 H3]. by split. }
  destruct (fsinit_ok 0 1 n d h e (cold (img st))) as (e' & s' & R & He' & Hs' & Hdk & l & El);
    [done|done|done|done|by rewrite Hsb| |by rewrite Hsb|by rewrite Hsb|done|done|].
  - rewrite Hsb. split; [done|]. intros b Hb. change (sb_logstart mkfs_sb) with 2 in Hb.
    change (sb_nlog mkfs_sb) with 30 in Hb. apply Hlow. lia.
  - exists e', s'. rewrite Hsb in El. change (disk (cold (img st))) with (img st) in Hdk.
    assert (Hit : itable s' = replicate NINODE inode0)
      by (change (itable (erase_io s') = replicate NINODE inode0); by rewrite El).
    split; [done|]. split; [done|]. split; [|split; [exact Hit|exact Hdk]].
    split; [done| |rewrite Hit; apply fresh_icache|].
    + assert (sb s' = mkfs_sb) as -> by (change (sb (erase_io s') = mkfs_sb); by rewrite El).
      eapply tree_ok_ext; [|exact HT]. intros b. rewrite (content_clean 0 1), Hdk by done. done.
    + assert (hw s' = init_log_lock hart0) as -> by (change (hw (erase_io s') = init_log_lock hart0); by rewrite El).
      apply boot_locks.
Qed.

(** The number of blocks that are read, at most: the superblock and the log, the
    root directory, and the file. *)
Definition boot_reads (W : list named) (w : named) : nat :=
  4 + (1 + 2 * (64 * S ((32 + 16 * length W) / 1024)) + (1 + 2 * blocks_of (length w.2))).

Lemma path_names_file name : Forall elem_char name -> name <> [] ->
  path_names (slash :: name ++ [0]) = [take DIRSIZ name].
Proof. intros Hf Hne. by rewrite path_names_slash, path_names_elem, path_names_end by auto. Qed.

Lemma fresh_two_free : two_free (refs (replicate NINODE inode0)).
Proof. by exists 0%nat, 1%nat. Qed.

Lemma resolve_one T inum d data name i :
  T !! inum = Some (d, data) -> di_type d = T_DIR -> dir_find name data = Some i -> resolve T inum [name] = Some i.
Proof. intros HT Hd Hf. cbn [resolve]. rewrite HT. cbn [mbind option_bind]. by rewrite Hd, Hf. Qed.

Lemma way_one T inum d data name i :
  T !! inum = Some (d, data) -> dir_find name data = Some i -> way T inum [name] = (1 + 2 * (length data / 16))%nat.
Proof. intros HT Hf. cbn [way]. rewrite HT, Hf. lia. Qed.

(** From a file system at rest: find the file and read it. *)
Lemma open_and_read n T inum d data path e s :
  at_rest 0 1 (fun _ => 0) T None s -> two_free (refs (itable s)) -> hd 0 path = slash -> is_Some (T !! ROOTINO) ->
  resolve T ROOTINO (path_names path) = Some inum -> T !! inum = Some (d, data) ->
  (way T ROOTINO (path_names path) + (1 + 2 * blocks_of (length data)) <= n)%nat -> serves n e ->
  exists e' s', (o <- namei path; ip <- deref "namei" o; ilock ip ;;
    readi ip DLocal 0 (Z.of_nat (length data))) e s = Ret (Z.of_nat (length data), data) e' s'.
Proof.
  intros A Hfree Hsl Hroot Hres Hd Hn He. set (no_pins := fun _ : nat => 0). pose proof room_no_pins as Hroom.
  destruct (namei_ok 0 1 no_pins T Hroom (1 + 2 * blocks_of (length data)) path ROOTINO e s)
    as (res & e1 & s1 & R1 & He1 & A1 & M1 & Hre); [done|done| |by eapply serves_le|].
  { unfold starts. by rewrite Hsl, Z.eqb_refl. }
  rewrite Hres in Hre. destruct res as [ip|]; [|done]. destruct Hre as [Hi Hrefs].
  destruct (at_rest_refs _ _ _ _ _ _ A) as [Hpos Hlen]. destruct (itable s1 !! ip) as [nd|] eqn:Hnd; [|done].
  injection Hi as Hi. pose proof (lookup_lt_Some _ _ _ Hnd) as Hip.
  rewrite (ic_len _ _ _ _ (ar_icache _ _ _ _ _ _ A1)) in Hip.
  destruct (refs_slot _ ip s1 Hrefs Hpos Hip Hlen) as (nd0 & Hnd0 & Hr0). rewrite Hnd in Hnd0. injection Hnd0 as <-.
  destruct (ilock_ok 0 1 no_pins T Hroom (2 * blocks_of (length data)) ip nd e1 s1) as (e2 & s2 & nd2 & R2 & He2 & A2 & _ & _ & Hn2 & Hi2);
    [done..|].
  rewrite Hi in Hi2. rewrite <- Hi2 in Hd. destruct (at_rest_loaded _ _ _ _ _ _ _ _ _ A2 Hn2 Hd) as [L _].
  pose proof (loaded_small _ _ _ _ L) as Hsm. pose proof (blocks_of_enough (length data)) as Hb.
  assert (Z.of_nat (blocks_of (length data)) < 2 ^ 32).
  { unfold blocks_of. rewrite Nat2Z.inj_div. dlia. }
  destruct (readi_ok 0 1 no_pins Hroom ∅ id (blocks_of (length data)) 0 ip nd2 data 0 (length data) DLocal e2 s2)
    as (e3 & s3 & R3 & _); [by rewrite Nat.add_0_r|apply A2|done|lia|done| |done|].
  { right. change (0 mod 1024)%nat with 0%nat. lia. }
  exists e3, s3. rewrite (bind_run _ _ _ _ _ _ _ R1), step_deref, (bind_run _ _ _ _ _ _ _ R2).
  rewrite Nat.sub_0_r, Nat.min_id in R3. unfold sub_bytes in R3. rewrite drop_0, take_ge in R3 by done. exact R3.
Qed.

(** C1: from mkfs to the running kernel.  When the files given to mkfs fit, mkfs
    ends and the kernel boots on the image: fsinit() accepts it, namei() finds
    each file under its name, and ilock() and readi() return exactly the bytes
    mkfs was given, whatever the size of the file.  (The directory must not end at
    a block boundary.) *)
Theorem kernel_reads_image fs W k w : let n := (32 + 16 * length W)%nat in
  mapM wanted fs = Some W -> Z.of_nat (S (length W)) < NINODES ->
  Forall (fun w : named => (length w.2 <= 1024 * MAXFILE)%nat) W -> nmeta + Z.of_nat (cost n + wcost W) <= FSSIZE ->
  (n mod 1024 <> 0)%nat -> Forall (fun w : named => Forall elem_char w.1) W -> first_named W k w ->
  exists st, main fs = Some st /\ forall e, answers (boot_reads W w) e ->
    exists e' s', (fsinit ROOTDEV ;; o <- namei (slash :: w.1 ++ [0]); ip <- deref "namei" o; ilock ip ;;
      readi ip DLocal 0 (Z.of_nat (length w.2))) e (cold (img st)) = Ret (Z.of_nat (length w.2), w.2) e' s'.
Proof.
  intros n HW Hn Hmax Hroom Hmod Hch Hfirst.
  destruct (mkfs_built fs W HW Hn Hmax Hroom) as (st & st0 & root & G & Hmain & Hok & HB & Ht & Hd & HG & Hroot & Hfiles & Himg & _).
  exists st. split; [done|]. intros e He.
  assert (length (r_data root) = n) as Hn' by (rewrite Hd, length_app, length_listing; done).
  assert (Hmod' : (length (r_data root) mod 1024 <> 0)%nat) by by rewrite Hn'.
  pose proof (image_tree_ok st st0 root G W HB Ht Hd HG Hroot Hfiles Himg Hmod') as HT.
  unfold boot_reads in He. fold n in He.
  destruct (boot_ok (1 + 2 * (64 * S (n / 1024)) + (1 + 2 * blocks_of (length w.2))) st st0 (root :: G) (image_tree root G) e)
    as (e1 & s1 & R1 & He1 & A1 & Hit & _); [exact Hok|exact HB|exact Himg|exact HT|exact He|].
  rewrite (bind_run _ _ _ _ _ _ _ R1). pose proof Hfirst as (Hw & Hne & _).
  destruct (Forall2_lookup_l _ _ _ _ _ HG Hw) as (r & Hr & _ & Hdr).
  pose proof (root_find st st0 root G W HB Ht Hd HG Hroot Hfiles Himg Hmod' k w Hch Hfirst) as Hfind.
  pose proof (path_names_file w.1 (Forall_lookup_1 _ _ _ _ Hch Hw) Hne) as Hpn.
  rewrite <- Hdr in He1 |- *.
  eapply (open_and_read _ (image_tree root G) (Z.of_nat (S (S k))) (rep_din r) (r_data r)); [exact A1|..|exact He1].
  - rewrite Hit. exact fresh_two_free.
  - reflexivity.
  - eexists. exact (image_tree_root root G).
  - rewrite Hpn. apply (resolve_one _ _ (sized root) (root_data root)); [exact (image_tree_root root G)|exact Ht|exact Hfind].
  - exact (image_tree_file root G k r Hr).
  - rewrite Hpn, (way_one _ _ (sized root) (root_data root) _ (Z.of_nat (S (S k)))); [|exact (image_tree_root root G)|exact Hfind].
    rewrite (length_root_data st st0 root G W HB Ht Hd HG Hroot Hfiles Himg Hmod'), Hn'.
    replace (1024 * S (n / 1024) / 16)%nat with (64 * S (n / 1024))%nat; [lia|].
    replace (1024 * S (n / 1024))%nat with (64 * S (n / 1024) * 16)%nat by lia. by rewrite Nat.div_mul.
Qed.

(** The image of Mkfs.v: the kernel reads the first file. *)
Lemma kernel_reads_image_witness : exists st, main some_files = Some st /\ forall e, answers 136 e -> exists e' s',
  (fsinit ROOTDEV ;; o <- namei (bytes_of "/cat" ++ [0]); ip <- deref "namei" o; ilock ip ;;
   readi ip DLocal 0 6) e (cold (img st)) = Ret (6, [127; 69; 76; 70; 0; 1]) e' s'.
Proof.
  apply (kernel_reads_image some_files [(bytes_of "cat", [127; 69; 76; 70; 0; 1]); (bytes_of "README", bytes_of "xv6")] 0
    (bytes_of "cat", [127; 69; 76; 70; 0; 1])).
  - reflexivity.
  - unfold NINODES. cbn. lia.
  - unfold MAXFILE, NINDIRECT, NDIRECT. constructor; [|constructor; [|constructor]]; cbn [snd].
    + change (length _) with 6%nat. lia.
    + change (length _) with 3%nat. lia.
  - vm_compute. congruence.
  - vm_compute. congruence.
  - repeat constructor; done.
  - split; [done|]. split; [done|]. split; [done|]. split; [done|]. lia.
Defined.

(** A path with a dot in it, on the same image. *)
Lemma namei_resolves_witness : exists e s res e' s', namei (bytes_of "//./README") e s = Ret (Some res) e' s' /\
  i_inum <$> itable s' !! res = Some 3.
Proof.
  set (W := [(bytes_of "cat", [127; 69; 76; 70; 0; 1]); (bytes_of "README", bytes_of "xv6")]).
  destruct (mkfs_built some_files W) as (st & st0 & root & G & _ & Hok & HB & Ht & Hd & HG & Hroot & Hfiles & Himg & _).
  - reflexivity.
  - unfold NINODES. cbn. lia.
  - unfold MAXFILE, NINDIRECT, NDIRECT. constructor; [|constructor; [|constructor]]; cbn [snd].
    + change (length _) with 6%nat. lia.
    + change (length _) with 3%nat. lia.
  - vm_compute. congruence.
  - assert (Hmod : (length (r_data root) mod 1024 <> 0)%nat) by (rewrite Hd; vm_compute; congruence).
    pose proof (image_tree_ok st st0 root G W HB Ht Hd HG Hroot Hfiles Himg Hmod) as HT.
    destruct (boot_ok 258 st st0 (root :: G) (image_tree root G) (replicate 262 answer))
      as (e & s & _ & He & A & Hit & _); [exact Hok|exact HB|exact Himg|exact HT|by exists []; rewrite app_nil_r|].
    assert (Hpn : path_names (bytes_of "//./README") = [[46]; bytes_of "README"]) by reflexivity.
    assert (F1 : dir_find [46] (root_data root) = Some ROOTINO) by (unfold root_data; rewrite Hd; vm_compute; reflexivity).
    assert (F2 : dir_find (bytes_of "README") (root_data root) = Some 3) by (unfold root_data; rewrite Hd; vm_compute; reflexivity).
    pose proof (image_tree_root root G : (image_tree root G : tree) !! ROOTINO = _) as HR.
    destruct (namei_resolves 0 1 (fun _ => 0) (image_tree root G) 0 (bytes_of "//./README") ROOTINO e s)
      as (res & e' & s' & R & _ & _ & _ & _ & _ & _ & Hre).
    + apply room_no_pins.
    + exact A.
    + rewrite Hit. exact fresh_two_free.
    + split; [reflexivity|by eexists].
    + rewrite Hpn. cbn [way]. rewrite HR, F1, HR, F2, (length_root_data st st0 root G W HB Ht Hd HG Hroot Hfiles Himg Hmod), Hd.
      exact He.
    + rewrite Hpn in Hre. cbn [resolve] in Hre. rewrite HR in Hre. cbn [mbind option_bind] in Hre.
      change (di_type (sized root)) with (r_type root) in Hre. rewrite Ht, F1 in Hre. cbn [mbind option_bind] in Hre.
      change (T_DIR =? T_DIR) with true in Hre. cbv iota in Hre. rewrite HR in Hre. cbn [mbind option_bind] in Hre.
      change (di_type (sized root)) with (r_type root) in Hre. rewrite Ht, F2 in Hre.
      change (T_DIR =? T_DIR) with true in Hre. cbv iota in Hre. cbn [mbind option_bind] in Hre.
      destruct res as [ip|]; [|destruct Hre]. exists e, s, ip, e', s'. split; [exact R|apply Hre].
Defined.
