(* ===== verification/Readfile.v ===== *)
(** * The read() system call on a file

    sys_read() of sysfile.c down to the disk: the arguments from the trap frame, the
    descriptor, fileread(), ilock(), readi() and copyout(). *)

From S2P Require Import Prelude State Machine Monad Spinlock Cstring Kalloc Vm Pagetable Proc Sleeplock.
From S2P Require Import Mkfs Console Pipe File Procsys Exec Syscall.
From S2P Require Import Virtio Bio Bufcache Diskio Log Transact Crash Fs Readfs Namei Image.

Section Read.
Context `{HD : Disk, !DiskOk, HP : PlatformOk} (p : nat) (pid : Z) (pins : nat -> Z) (T : tree).
Context (Hroom : room pins []) (lvl : gmap Z nat) (f : Z -> Z).

(** Neither the memory nor the file table is part of the file system. *)
Lemma at_rest_traffic lk m s s' :
  at_rest p pid pins T lk s -> traffic p m s s' -> session p pid pins [] [] s' -> at_rest p pid pins T lk s'.
Proof using.
  intros [_ Ht Hi Hl] M Hs. split; [done| |by rewrite (traffic_itable _ _ _ _ M)|by rewrite (traffic_hw _ _ _ _ M)].
  rewrite (traffic_sb _ _ _ _ M). eapply tree_ok_ext; [|exact Ht]. apply (tr_content _ _ _ _ M).
Qed.

Lemma at_rest_ftable lk g s : at_rest p pid pins T lk s -> at_rest p pid pins T lk (s <| ftable ::= g |>).
Proof using. intros [[H1 H2 H3] Ht Hi Hl]. split; [by split|done..]. Qed.

Lemma file_at_run fi ff e s : ftable s !! fi = Some ff -> file_at fi e s = Ret ff e s.
Proof using. intros Hf. unfold file_at. rewrite step_gets, Hf. done. Qed.

(** An open file: descriptor table entry [fi] is for the inode in slot [ip], at
    offset [off]; the inode has the content [data]. *)
Record open_file (fi ip off : nat) (ff : file) (data : list Z) (s : kernel) : Prop := {
  of_file : ftable s !! fi = Some ff;
  of_type : f_type ff = FD_INODE;
  of_readable : f_readable ff = true;
  of_off : f_off ff = Z.of_nat off;
  of_ip : f_ip ff = Some ip;
  of_node : exists nd d, itable s !! ip = Some nd /\ 0 < i_ref nd /\ T !! i_inum nd = Some (d, data);
}.

(** What a read of [n] bytes takes from the file. *)
Definition taken (data : list Z) (off n : nat) : list Z := sub_bytes data off (Nat.min n (length data - off)).

Lemma length_taken data off n : length (taken data off n) = Nat.min n (length data - off).
Proof using. unfold taken, sub_bytes. rewrite length_take, length_drop. lia. Qed.

(** The number of blocks that are read, at most. *)
Definition read_cost (off n : nat) : nat := 1 + 2 * S ((off mod 1024 + n) / 1024).

(** The offset moves by what was read. *)
Lemma advance_run fi ff off len e s :
  ftable s !! fi = Some ff -> f_off ff = Z.of_nat off -> Z.of_nat off + Z.of_nat len < 2 ^ 32 ->
  when (0 <? Z.of_nat len) (file_upd fi (fun f => f <| f_off ::= fun o => o +32 Z.of_nat len |>)) e s =
    Ret tt e (s <| ftable := <[fi := ff <| f_off := Z.of_nat (off + len) |>]> (ftable s) |>).
Proof using.
  intros Hf Ho Hs. destruct (Z.ltb_spec 0 (Z.of_nat len)) as [Hlt|Hge].
  - unfold when, file_upd, modify. apply ret_state. state_eq. rewrite (alter_insert _ _ _ ff) by done. f_equal.
    apply file_eq; try done. cbn. rewrite Ho, u32_small by lia. lia.
  - assert (len = 0%nat) as -> by lia. unfold when. apply ret_state. state_eq. symmetry. apply list_insert_id.
    rewrite Hf. f_equal. apply file_eq; try done. cbn. rewrite Ho. lia.
Qed.

Lemma fileread_ok j fi ip off ff data addr n e s :
  serves (read_cost off n + j) e -> at_rest p pid pins T None s -> open_file fi ip off ff data s ->
  Z.of_nat off + Z.of_nat n < 2 ^ 31 -> accepts p lvl f (DUser addr) (length (taken data off n)) s ->
  exists e' s', fileread fi addr (Z.of_nat n) e s = Ret (Z.of_nat (length (taken data off n))) e' s' /\ serves j e' /\
    at_rest p pid pins T None s' /\ mem s' = ustore f addr (taken data off n) (mem s) /\ disk s' = disk s /\ dwrites s' = dwrites s /\
    refs (itable s') = refs (itable s) /\
    ftable s' = <[fi := ff <| f_off := Z.of_nat (off + length (taken data off n)) |>]> (ftable s).
Proof using All.
  intros He A [Hf Hty Hrd Hoff Hip (nd & d & Hn & Hr & Hd)] Hsm Hacc. rewrite length_taken in *.
  set (len := Nat.min n (length data - off)) in *. unfold read_cost in He. cbn [Nat.add] in He.
  destruct (ilock_ok p pid pins T Hroom _ ip nd e s He A Hn Hr) as (e1 & s1 & nd1 & R1 & He1 & A1 & M1 & Hre1 & Hn1 & Hi1).
  rewrite <- Hi1 in Hd. destruct (at_rest_loaded _ _ _ _ _ _ _ _ _ A1 Hn1 Hd) as [L _].
  pose proof (traffic_ftable _ _ _ _ M1 : ftable s1 = ftable s) as F1. pose proof (traffic_mem _ _ _ _ M1 : mem s1 = mem s) as E1.
  pose proof (Nat.div_mod_eq (off mod 1024 + n) 1024) as Hdm. pose proof (Nat.mod_upper_bound (off mod 1024 + n) 1024 ltac:(lia)).
  pose proof (Nat.mod_le off 1024 ltac:(lia)).
  destruct (readi_ok p pid pins Hroom lvl f (S ((off mod 1024 + n) / 1024)) j ip nd1 data off n (DUser addr) e1 s1)
    as (e2 & s2 & R2 & He2 & Hs2 & T2); [done|apply A1|done|lia|lia|fold len; right; lia| |].
  { fold len. apply (accepts_same p lvl f _ _ s); [done|done|exact (tr_face _ _ _ _ M1)]. }
  fold len in R2, T2. cbn [deliver] in T2. pose proof (at_rest_traffic _ _ _ _ A1 T2 Hs2) as A2.
  pose proof (traffic_ftable _ _ _ _ T2) as F2. rewrite F1 in F2.
  assert (Hadv : when (0 <? Z.of_nat len) (file_upd fi (fun f => f <| f_off ::= fun o => o +32 Z.of_nat len |>)) e2 s2 =
    Ret tt e2 (s2 <| ftable := <[fi := ff <| f_off := Z.of_nat (off + len) |>]> (ftable s) |>)).
  { rewrite <- F2. apply advance_run; [by rewrite F2|done|lia]. }
  set (s3 := s2 <| ftable := _ |>) in *.
  pose proof (at_rest_ftable (Some ip) (fun _ => <[fi := ff <| f_off := Z.of_nat (off + len) |>]> (ftable s)) s2 A2 : at_rest p pid pins T _ s3) as A3.
  pose proof (lookup_lt_Some _ _ _ Hn) as Hlt. rewrite (ic_len _ _ _ _ (ar_icache _ _ _ _ _ _ A)) in Hlt.
  destruct (iunlock_ok p pid pins T ip e2 s3 A3 Hlt) as (s4 & R4 & A4 & M4 & Hre4 & _).
  exists e2, s4. split; [|split; [done|split; [done|]]].
  - unfold fileread. rewrite (bind_run _ _ _ _ _ _ _ (file_at_run fi ff e s Hf)), Hrd, Hty, Hip. cbn [negb ilock_ptr].
    rewrite (bind_run _ _ _ _ _ _ _ R1), step_deref.
    rewrite (bind_run _ _ _ _ _ _ _ (file_at_run fi ff e1 s1 ltac:(by rewrite F1))), Hoff, u32_small by lia.
    rewrite (bind_run _ _ _ _ _ _ _ R2), (bind_run _ _ _ _ _ _ _ Hadv), (bind_run _ _ _ _ _ _ _ R4). done.
  - split; [by rewrite (traffic_mem _ _ _ _ M4 : mem s4 = mem s2), (traffic_mem _ _ _ _ T2), E1|].
    split; [by rewrite (tr_disk _ _ _ _ M4 : disk s4 = disk s2), (tr_disk _ _ _ _ T2), (tr_disk _ _ _ _ M1)|].
    split; [by rewrite (tr_writes _ _ _ _ M4 : dwrites s4 = dwrites s2), (tr_writes _ _ _ _ T2), (tr_writes _ _ _ _ M1)|].
    split; [rewrite Hre4; change (itable s3) with (itable s2); by rewrite (traffic_itable _ _ _ _ T2), Hre1|].
    exact (traffic_ftable _ _ _ _ M4).
Qed.

End Read.

Lemma argraw_run `{Platform} p pid pp tf e s n :
  calm p pid s -> procs s !! p = Some pp -> tfs s !! p_trapframe pp = Some tf -> (n < 3)%nat ->
  argraw n e s = Ret (match n with 0%nat => tf_a0 tf | 1%nat => tf_a1 tf | _ => tf_a2 tf end) e s.
Proof.
  intros Hc Hp Ht Hn. unfold argraw. mrun curproc_run. rewrite (bind_run _ _ _ _ _ _ _ (proc_at_run _ _ _ _ Hp)).
  unfold tf_at. rewrite bind_assoc, step_gets, Ht, step_deref. by destruct n as [|[|[|n]]]; [..|lia].
Qed.

(** C8: the read() system call, from the trap frame to the disk.  read(fd, buf, n)
    on an open file returns the number of bytes left after the offset, [n] at most,
    and stores exactly these bytes of the file at buf, whatever pages buf spans and
    whether the blocks are in the cache or on the disk.  The offset moves by as
    many, and neither the disk nor a reference count changes. *)
Theorem sys_read_reads `{HD : Disk, !DiskOk, HP : PlatformOk} p pid pins T lvl f j pp tf fd fi ip off ff data n e s :
  room pins [] -> at_rest p pid pins T None s -> procs s !! p = Some pp -> tfs s !! p_trapframe pp = Some tf ->
  s32 (tf_a0 tf) = Z.of_nat fd -> (fd < NOFILE)%nat -> p_ofile pp !! fd = Some (Some fi) ->
  s32 (tf_a2 tf) = Z.of_nat n -> open_file T fi ip off ff data s -> Z.of_nat off + Z.of_nat n < 2 ^ 31 ->
  accepts p lvl f (DUser (tf_a1 tf)) (length (taken data off n)) s -> serves (read_cost off n + j) e ->
  exists e' s', sys_read e s = Ret (Z.of_nat (length (taken data off n))) e' s' /\ serves j e' /\
    at_rest p pid pins T None s' /\ mem s' = ustore f (tf_a1 tf) (taken data off n) (mem s) /\
    disk s' = disk s /\ dwrites s' = dwrites s /\ refs (itable s') = refs (itable s) /\
    ftable s' = <[fi := ff <| f_off := Z.of_nat (off + length (taken data off n)) |>]> (ftable s).
Proof.
  intros Hroom A Hp Htf Ha0 Hfd Hof Ha2 Hopen Hsm Hacc He.
  destruct (fileread_ok p pid pins T Hroom lvl f j fi ip off ff data (tf_a1 tf) n e s He A Hopen Hsm Hacc) as (e' & s' & R & H').
  exists e', s'. split; [|exact H']. pose proof (at_rest_calm _ _ _ _ _ _ A) as Hc.
  unfold sys_read, argfd, argint, argaddr.
  rewrite !bind_assoc, (bind_run _ _ _ _ _ _ _ (argraw_run p pid pp tf e s 0 Hc Hp Htf ltac:(lia))), step_ret, Ha0.
  rewrite (proj2 (Z.ltb_ge _ _)), (proj2 (Z.leb_gt _ _)) by lia. cbn [orb]. rewrite !bind_assoc. mrun curproc_run.
  rewrite !bind_assoc, (bind_run _ _ _ _ _ _ _ (proc_at_run _ _ _ _ Hp)), Nat2Z.id, Hof, bind_assoc, step_deref, step_ret.
  rewrite !bind_assoc, (bind_run _ _ _ _ _ _ _ (argraw_run p pid pp tf e s 2 Hc Hp Htf ltac:(lia))), step_ret, Ha2.
  rewrite (bind_run _ _ _ _ _ _ _ (argraw_run p pid pp tf e s 1 Hc Hp Htf ltac:(lia))). exact R.
Qed.

#[local] Existing Instance platform0.

(** A process that has opened the first file of the image and read two bytes. *)
Definition reader : proc :=
  running 1 <| p_pagetable := root0 |> <| p_trapframe := 0x80600000 |> <| p_ofile ::= <[3%nat := Some 7%nat]> |>.

Definition reader_file : file := file0 <| f_type := FD_INODE |> <| f_readable := true |> <| f_ip := Some 5%nat |> <| f_off := 2 |>.

Definition reader_machine (m : gmap Z Z) (dk : gmap Z (list Z)) : kernel :=
  machine [reader] <| mem := m |> <| disk := dk |> <| ftable ::= <[7%nat := reader_file]> |>
    <| itable ::= <[5%nat := inode0 <| i_dev := ROOTDEV |> <| i_inum := 2 |> <| i_ref := 1 |>]> |>
    <| tfs := {[0x80600000 := tf_junk <| tf_a0 := 3 |> <| tf_a1 := 0x1ffe |> <| tf_a2 := 100 |>]} |>.

Lemma reader_icache T d data : T !! 2 = Some (d, data) ->
  icache 1 T None (<[5%nat := inode0 <| i_dev := ROOTDEV |> <| i_inum := 2 |> <| i_ref := 1 |>]> (replicate NINODE inode0)).
Proof.
  intros HT. eapply icache_insert; [apply fresh_icache|by apply lookup_replicate_2; unfold NINODE; lia| |done|].
  - split; [done|done|cbn; lia|]. intros _. split; [done|]. by exists d, data.
  - intros _ i x _ [-> _]%lookup_replicate. done.
Qed.

Lemma reader_rest m st T d data :
  disk_ok st -> tree_ok mkfs_sb T (fun b => img st !! b) -> T !! 2 = Some (d, data) ->
  at_rest 0 1 (fun _ => 0) T None (reader_machine m (img st)).
Proof.
  intros Hok HT Hd.
  assert (Hs : session 0 1 (fun _ => 0) [] [] (reader_machine m (img st))).
  { apply (fresh_session reader); try reflexivity. exact (disk_len _ Hok). }
  split; [exact Hs| |by eapply reader_icache|].
  - change (sb (reader_machine m (img st))) with sb0. assert (sb0 = mkfs_sb) as -> by reflexivity.
    eapply tree_ok_ext; [|exact HT]. intros b. exact (content_clean 0 1 _ b Hs).
  - destruct boot_locks as [H1 H2]. split; [by exists "lock"%string|]. intros i Hi. destruct (H2 i Hi) as [nm Hl]. exists nm.
    change (locks (init_log_lock hart0)) with (<[LLog := mkspinlock false "log" None]> locks0) in Hl.
    by rewrite lookup_insert_ne in Hl.
Qed.

Lemma sys_read_reads_witness : exists m s e' s',
  sys_read (replicate 3 answer) s = Ret 4 e' s' /\ mem s' = ustore user0 0x1ffe [76; 70; 0; 1] m.
Proof.
  set (W := [(bytes_of "cat", [127; 69; 76; 70; 0; 1]); (bytes_of "README", bytes_of "xv6")]).
  destruct (mkfs_built some_files W) as (st & st0 & root & G & _ & Hok & HB & Ht & Hd & HG & Hroot & Hfiles & Himg & _).
  - reflexivity.
  - unfold NINODES. cbn. lia.
  - unfold MAXFILE, NINDIRECT, NDIRECT. constructor; [|constructor; [|constructor]]; cbn [snd].
    + change (length _) with 6%nat. lia.
    + change (length _) with 3%nat. lia.
  - vm_compute. congruence.
  - assert (Hmod : (length (r_data root) mod 1024 <> 0)%nat) by (rewrite Hd; vm_compute; congruence).
    pose proof (image_tree_ok st st0 root G W HB Ht Hd HG Hroot Hfiles Himg Hmod) as HT.
    destruct user0_memory as (m & lvl & Hs & Hr & Hu).
    destruct (Forall2_lookup_l _ _ _ 0%nat _ HG eq_refl) as (r & Hr0 & _ & Hdr).
    pose proof (image_tree_file root G 0 r Hr0) as HT2. rewrite Hdr in HT2. cbn [snd] in HT2.
    destruct (sys_read_reads 0 1 (fun _ => 0) (image_tree root G) lvl user0 0 reader
      (tf_junk <| tf_a0 := 3 |> <| tf_a1 := 0x1ffe |> <| tf_a2 := 100 |>) 3 7 5 2 reader_file [127; 69; 76; 70; 0; 1] 100
      (replicate 3 answer) (reader_machine m (img st))) as (e' & s' & R & _ & _ & Hm & _).
    + apply room_no_pins.
    + by eapply reader_rest.
    + reflexivity.
    + reflexivity.
    + reflexivity.
    + unfold NOFILE. lia.
    + reflexivity.
    + reflexivity.
    + split; try reflexivity. eexists _, _. split; [reflexivity|]. split; [reflexivity|]. exact HT2.
    + lia.
    + exists reader. split; [reflexivity|]. split; [exact Hs|]. split; [exact Hr|]. split; [cbn; lia|].
      split; [vm_compute; congruence|]. apply Hu; cbn; lia.
    + exists []. reflexivity.
    + exists m, (reader_machine m (img st)), e', s'. split; [exact R|exact Hm].
Defined.
