(* ===== verification/Riscv.v ===== *)
(** * The RISC-V instructions of the assembly files

    A hart of the RV64 privileged architecture with the registers, the control and
    status registers (CSRs), the privilege modes, Sv39 address translation and the
    instructions that entry.S, swtch.S, kernelvec.S and trampoline.S use.  An
    access that would trap, and an access through a page table between the change
    of satp and the sfence.vma that must follow, is [None]. *)

From S2P Require Import Prelude State Machine Cstring Kalloc Vm Pagetable.

(** ** Registers *)

Inductive reg :=
| Zero | Ra | Sp | Gp | Tp | T0 | T1 | T2 | S0 | S1 | A0 | A1 | A2 | A3 | A4 | A5 | A6 | A7
| S2 | S3 | S4 | S5 | S6 | S7 | S8 | S9 | S10 | S11 | T3 | T4 | T5 | T6.

#[export] Instance reg_eq : EqDecision reg.
Proof. solve_decision. Defined.

Inductive csr :=
| Mhartid | Mstatus | Mepc | Mie | Mip | Medeleg | Mideleg | Mtvec | Mscratch | Mcause | Mcounteren | Pmpcfg0 | Pmpaddr0
| Time | Sstatus | Sip | Sie | Sepc | Stvec | Satp | Sscratch | Scause | Stval.

#[export] Instance csr_eq : EqDecision csr.
Proof. solve_decision. Defined.

Inductive priv := PU | PS | PM.

#[export] Instance priv_eq : EqDecision priv.
Proof. solve_decision. Defined.

Definition priv_bits (p : priv) : Z := match p with PU => 0 | PS => 1 | PM => 3 end.

Definition priv_of (n : Z) : priv := if n =? 0 then PU else if n =? 1 then PS else PM.

(** [synced] says that the TLB agrees with satp; [pc] is set by jumps. *)
Record core := mkcore {
  xs : reg -> Z;
  csrs : csr -> Z;
  prv : priv;
  pc : Z;
  synced : bool;
  ram : gmap Z Z
}.

Definition fset {A} `{EqDecision A} (k : A) (v : Z) (f : A -> Z) : A -> Z := fun k' => if decide (k = k') then v else f k'.

Definition xget (r : reg) (c : core) : Z := if decide (r = Zero) then 0 else xs c r.

Definition xset (r : reg) (v : Z) (c : core) : core :=
  if decide (r = Zero) then c else mkcore (fset r v (xs c)) (csrs c) (prv c) (pc c) (synced c) (ram c).

Definition set_xs (f : reg -> Z) (c : core) : core := mkcore f (csrs c) (prv c) (pc c) (synced c) (ram c).

Definition cset (k : csr) (v : Z) (c : core) : core :=
  mkcore (xs c) (fset k v (csrs c)) (prv c) (pc c) (synced c) (ram c).

Definition set_ram (m : gmap Z Z) (c : core) : core := mkcore (xs c) (csrs c) (prv c) (pc c) (synced c) m.

Definition set_synced (b : bool) (c : core) : core := mkcore (xs c) (csrs c) (prv c) (pc c) b (ram c).

Definition go (a : Z) (c : core) : core := mkcore (xs c) (csrs c) (prv c) a (synced c) (ram c).

Definition set_prv (p : priv) (c : core) : core := mkcore (xs c) (csrs c) p (pc c) (synced c) (ram c).

(** ** Control and status registers *)

(** The bits of mstatus that sstatus shows: SIE, SPIE, SPP; and the supervisor
    interrupts. *)
Definition SMASK : Z := 0x122.
Definition SINTS : Z := 0x222.

(** The bits of [mask] from [x], the others from [old]. *)
Definition merge (mask x old : Z) : Z := Z.lor (Z.land x mask) (Z.ldiff old mask).

Definition csr_read (k : csr) (c : core) : Z :=
  match k with
  | Sstatus => Z.land (csrs c Mstatus) SMASK
  | Sie => Z.land (csrs c Mie) (Z.land (csrs c Mideleg) SINTS)
  | Sip => Z.land (csrs c Mip) (Z.land (csrs c Mideleg) SINTS)
  | k => csrs c k
  end.

(** Writes keep the fields legal: only supervisor interrupts can be delegated, and
    all exceptions but a call from machine mode; satp ignores unknown modes; return
    addresses are even. *)
Definition csr_write (k : csr) (v : Z) (c : core) : core :=
  match k with
  | Sstatus => cset Mstatus (merge SMASK v (csrs c Mstatus)) c
  | Sie => cset Mie (merge (Z.land (csrs c Mideleg) SINTS) v (csrs c Mie)) c
  | Sip => cset Mip (merge (Z.land (csrs c Mideleg) 2) v (csrs c Mip)) c
  | Mideleg => cset Mideleg (Z.land v SINTS) c
  | Medeleg => cset Medeleg (Z.ldiff v (2 ^ 11)) c
  | Satp => if (Z.shiftr v 60 =? 0) || (Z.shiftr v 60 =? 8) then set_synced false (cset Satp v c) else c
  | Mepc | Sepc => cset k (v - v mod 2) c
  | Mhartid | Time => c
  | k => cset k v c
  end.

Definition csr_allowed (k : csr) (p : priv) : bool :=
  match k, p with
  | _, PM => true
  | (Sstatus | Sip | Sie | Sepc | Stvec | Satp | Sscratch | Scause | Stval), PS => true
  | Time, _ => true
  | _, _ => false
  end.

(** ** Memory *)

(** The root of the page table satp points to; no translation when its mode is 0. *)
Definition satp_root (satp : Z) : option Z :=
  if Z.shiftr satp 60 =? 0 then None else Some (4096 * (satp mod 2 ^ 44)).

(** The physical address of a doubleword. *)
Definition phys (store : bool) (p : priv) (satp : Z) (sync : bool) (m : gmap Z Z) (va : Z) : option Z :=
  if negb (va mod 8 =? 0) then None else
  match p with
  | PM => Some va
  | _ =>
      match satp_root satp with
      | None => Some va
      | Some root =>
          if negb sync then None else
          if negb ((0 <=? va) && (va <? MAXVA)) then None else
          match translate m root va with
          | None => None
          | Some pte =>
              if bit pte (if store then PTE_W else PTE_R) && Bool.eqb (bit pte PTE_U) (bool_decide (p = PU))
              then Some (PTE2PA pte + va mod 4096) else None
          end
      end
  end.

Definition addr_of (store : bool) (va : Z) (c : core) : option Z :=
  phys store (prv c) (csrs c Satp) (synced c) (ram c) va.

(** ** Instructions *)

Inductive instr :=
| Sd (rs : reg) (off : Z) (base : reg)
| Ld (rd : reg) (off : Z) (base : reg)
| Csrr (rd : reg) (k : csr)
| Csrw (k : csr) (rs : reg)
| Csrrw (rd : reg) (k : csr) (rs : reg)
| Li (rd : reg) (imm : Z)
| Addi (rd rs : reg) (imm : Z)
| Add (rd rs1 rs2 : reg)
| Mul (rd rs1 rs2 : reg)
| SfenceVma
| Call (f : core -> option core)
| Jr (rs : reg)
| Ret
| Mret
| Sret.

(** The fields of mstatus. *)
Definition get_bit (n x : Z) : bool := Z.testbit x n.
Definition set_bit (n : Z) (b : bool) (x : Z) : Z := if b then Z.setbit x n else Z.clearbit x n.
Definition mpp (x : Z) : Z := Z.land (Z.shiftr x 11) 3.
Definition set_mpp (p : Z) (x : Z) : Z := Z.lor (Z.ldiff x (Z.shiftl 3 11)) (Z.shiftl p 11).

(** mret and sret: back to the mode and with the interrupt enable from before the
    trap. *)
Definition mret (c : core) : core :=
  let x := csrs c Mstatus in
  go (csrs c Mepc) (set_prv (priv_of (mpp x)) (cset Mstatus (set_mpp 0 (set_bit 7 true (set_bit 3 (get_bit 7 x) x))) c)).

Definition sret (c : core) : core :=
  let x := csrs c Mstatus in
  go (csrs c Sepc) (set_prv (if get_bit 8 x then PS else PU)
    (cset Mstatus (set_bit 8 false (set_bit 5 true (set_bit 1 (get_bit 5 x) x))) c)).

(** A trap into machine or supervisor mode. *)
Definition mtrap (cause : Z) (c : core) : core :=
  let x := csrs c Mstatus in
  go (csrs c Mtvec) (set_prv PM (cset Mcause cause (cset Mepc (pc c)
    (cset Mstatus (set_mpp (priv_bits (prv c)) (set_bit 3 false (set_bit 7 (get_bit 3 x) x))) c)))).

Definition strap (cause : Z) (c : core) : core :=
  let x := csrs c Mstatus in
  go (csrs c Stvec) (set_prv PS (cset Scause cause (cset Sepc (pc c)
    (cset Mstatus (set_bit 8 (bool_decide (prv c <> PU)) (set_bit 1 false (set_bit 5 (get_bit 1 x) x))) c)))).

Definition step (i : instr) (c : core) : option core :=
  match i with
  | Sd rs off base => a ← addr_of true (u64 (xget base c + off)) c; Some (set_ram (st64 a (xget rs c) (ram c)) c)
  | Ld rd off base => a ← addr_of false (u64 (xget base c + off)) c; Some (xset rd (ld64 (ram c) a) c)
  | Csrr rd k => if csr_allowed k (prv c) then Some (xset rd (csr_read k c) c) else None
  | Csrw k rs => if csr_allowed k (prv c) then Some (csr_write k (xget rs c) c) else None
  | Csrrw rd k rs => if csr_allowed k (prv c) then Some (xset rd (csr_read k c) (csr_write k (xget rs c) c)) else None
  | Li rd imm => Some (xset rd (u64 imm) c)
  | Addi rd rs imm => Some (xset rd (u64 (xget rs c + imm)) c)
  | Add rd rs1 rs2 => Some (xset rd (u64 (xget rs1 c + xget rs2 c)) c)
  | Mul rd rs1 rs2 => Some (xset rd (u64 (xget rs1 c * xget rs2 c)) c)
  | SfenceVma => if decide (prv c = PU) then None else Some (set_synced true c)
  | Call f => f c
  | Jr rs => Some (go (xget rs c - xget rs c mod 2) c)
  | Ret => Some (go (xget Ra c - xget Ra c mod 2) c)
  | Mret => if decide (prv c = PM) then Some (mret c) else None
  | Sret => if decide (prv c = PU) then None else Some (sret c)
  end.

(** A piece of code without labels: a jump ends it. *)
Fixpoint execute (l : list instr) (c : core) : option core :=
  match l with
  | [] => Some c
  | i :: l => c ← step i c; execute l c
  end.

Lemma execute_app l k c : execute (l ++ k) c = c' ← execute l c; execute k c'.
Proof. revert c. induction l as [|i l IH]; intros c; cbn; [done|]. destruct (step i c); cbn; [apply IH|done]. Qed.

Lemma execute_cons i l c c' : step i c = Some c' -> execute (i :: l) c = execute l c'.
Proof. intros E. cbn. by rewrite E. Qed.

Lemma step_sret c : prv c = PS -> step Sret c = Some (sret c).
Proof. intros E. cbn [step]. by rewrite E. Qed.

Lemma xget_ne r c : r <> Zero -> xget r c = xs c r.
Proof. intros. unfold xget. by rewrite decide_False. Qed.

Lemma xset_ne r v c : r <> Zero -> xset r v c = set_xs (fset r v (xs c)) c.
Proof. intros. unfold xset. by rewrite decide_False. Qed.

Lemma addr_machine st a c : prv c = PM -> a mod 8 = 0 -> addr_of st a c = Some a.
Proof. intros Hp Ha. unfold addr_of, phys. by rewrite Hp, Ha. Qed.

Lemma fset_eq {A} `{EqDecision A} (k : A) v f : fset k v f k = v.
Proof. unfold fset. by rewrite decide_True. Qed.

Lemma fset_ne {A} `{EqDecision A} (k k' : A) v f : k <> k' -> fset k v f k' = f k'.
Proof. intros. unfold fset. by rewrite decide_False. Qed.

(** ** Runs of stores and of loads at offsets of one register *)

(** A layout gives registers their offset. *)
Notation layout := (list (reg * Z)).

Definition save (base : reg) (l : layout) : list instr := map (fun '(r, o) => Sd r o base) l.
Definition load (base : reg) (l : layout) : list instr := map (fun '(r, o) => Ld r o base) l.

(** The layout has distinct doublewords below [n] and distinct registers. *)
Definition layout_ok (n : Z) (l : layout) : bool :=
  forallb (fun ro => (0 <=? ro.2) && (ro.2 + 8 <=? n) && (ro.2 mod 8 =? 0)) l
  && bool_decide (NoDup l.*2) && bool_decide (NoDup l.*1) && bool_decide (Zero ∉ l.*1).

Definition word_ok (n o : Z) : Prop := 0 <= o /\ o + 8 <= n /\ o mod 8 = 0.

Lemma layout_words n l r o : layout_ok n l = true -> (r, o) ∈ l -> word_ok n o.
Proof.
  unfold layout_ok. intros Hl Hin. repeat rewrite andb_true_iff in Hl. destruct Hl as [[[Hl _] _] _].
  rewrite forallb_forall in Hl. apply list_elem_of_In in Hin. specialize (Hl _ Hin). cbn in Hl. unfold word_ok. lia.
Qed.

Lemma layout_cons n r o l : layout_ok n ((r, o) :: l) = true ->
  word_ok n o /\ r <> Zero /\ o ∉ l.*2 /\ r ∉ l.*1 /\ layout_ok n l = true.
Proof.
  intros Hl. pose proof (layout_words _ _ r o Hl (list_elem_of_here _ _)) as Hw. revert Hl.
  unfold layout_ok. cbn [forallb fmap list_fmap fst snd]. repeat rewrite andb_true_iff. repeat rewrite bool_decide_eq_true.
  rewrite !NoDup_cons, not_elem_of_cons. intros (((Hf & Ho & Hno) & Hr & Hnr) & Hz & Hnz). repeat split; try done; try apply Hw; by try apply Hf.
Qed.

(** Bytes in [Q] may have changed. *)
Definition untouched (Q : Z -> Prop) (m m' : gmap Z Z) : Prop := forall a, ~ Q a -> ld8 m' a = ld8 m a.

Lemma untouched_refl Q m : untouched Q m m.
Proof. by intros a _. Qed.

Lemma untouched_trans Q m m' m'' : untouched Q m m' -> untouched Q m' m'' -> untouched Q m m''.
Proof. intros H1 H2 a Ha. rewrite (H2 a Ha). apply (H1 a Ha). Qed.

Lemma untouched_weaken (Q Q' : Z -> Prop) m m' : (forall a, Q a -> Q' a) -> untouched Q m m' -> untouched Q' m m'.
Proof. intros HQ Hu a Ha. apply Hu. intros Hq. apply Ha, HQ, Hq. Qed.

Lemma untouched_word Q m m' a :
  untouched Q m m' -> (forall b, a <= b < a + 8 -> ~ Q b) -> ld64 m' a = ld64 m a.
Proof. intros Hu Hq. apply ld_le_ext. intros b Hb. apply Hu, Hq. lia. Qed.

(** [n] bytes at the virtual address [va] are the physical bytes at [pa], whatever
    happens to the bytes of [Q]. *)
Definition window (store : bool) (c : core) (va n pa : Z) (Q : Z -> Prop) : Prop :=
  0 <= va /\ va + n <= 2 ^ 64 /\
  forall m o, untouched Q (ram c) m -> word_ok n o ->
    phys store (prv c) (csrs c Satp) (synced c) m (va + o) = Some (pa + o).

Lemma window_keep st c c' va n pa Q :
  prv c' = prv c -> csrs c' Satp = csrs c Satp -> synced c' = synced c -> untouched Q (ram c) (ram c') ->
  window st c va n pa Q -> window st c' va n pa Q.
Proof.
  intros Hp Hs Hy Hu (Hva & Hn & Hw). split_and!; [done..|]. intros m o Hm Ho. rewrite Hp, Hs, Hy.
  apply Hw; [|done]. by eapply untouched_trans.
Qed.

Lemma window_addr st c va n pa Q o : window st c va n pa Q -> word_ok n o -> addr_of st (u64 (va + o)) c = Some (pa + o).
Proof.
  intros (Hva & Hn & Hw) Ho. rewrite u64_small by (unfold word_ok in Ho; lia).
  apply Hw; [apply untouched_refl|done].
Qed.

Definition saved (pa : Z) (l : layout) (f : reg -> Z) (m : gmap Z Z) : gmap Z Z :=
  foldl (fun m ro => st64 (pa + ro.2) (f ro.1) m) m l.

Definition loaded (pa : Z) (l : layout) (m : gmap Z Z) (f : reg -> Z) : reg -> Z :=
  foldl (fun f ro => fset ro.1 (ld64 m (pa + ro.2)) f) f l.

Definition within (pa n a : Z) : Prop := pa <= a < pa + n.

Lemma st64_untouched pa n o v m : word_ok n o -> untouched (within pa n) m (st64 (pa + o) v m).
Proof. intros (? & ? & _) a Ha. apply ld8_st64_ne. unfold within in Ha. lia. Qed.

Lemma saved_ext pa l f g m : (forall r o, (r, o) ∈ l -> f r = g r) -> saved pa l f m = saved pa l g m.
Proof.
  revert m. induction l as [|[r o] l IH]; intros m Hl; [done|]. cbn. rewrite (Hl r o) by apply list_elem_of_here.
  apply IH. intros r' o' Hin. apply (Hl r' o'). by apply list_elem_of_further.
Qed.

Lemma saved_untouched pa n l f m : layout_ok n l = true -> untouched (within pa n) m (saved pa l f m).
Proof.
  revert m. induction l as [|[r o] l IH]; intros m Hl; cbn; [apply untouched_refl|].
  apply layout_cons in Hl as (Ho & _ & _ & _ & Hl). eapply untouched_trans; [by apply st64_untouched|by apply IH].
Qed.

Lemma execute_save base l c n pa Q :
  base <> Zero -> layout_ok n l = true -> (forall a, within pa n a -> Q a) ->
  window true c (xs c base) n pa Q ->
  execute (save base l) c = Some (set_ram (saved pa l (xs c) (ram c)) c).
Proof.
  intros Hb Hl HQ. revert c Hl. induction l as [|[r o] l IH]; intros c Hl Hw; [by destruct c|].
  apply layout_cons in Hl as (Ho & Hr & _ & _ & Hl). cbn [save map].
  erewrite execute_cons; [|cbn [step]; unfold xget; rewrite !decide_False by done;
    rewrite (window_addr _ _ _ _ _ _ _ Hw Ho); reflexivity].
  fold (save base l). rewrite IH; [reflexivity|done|]. apply (window_keep true c); [done..| |exact Hw].
  eapply untouched_weaken; [exact HQ|]. by apply st64_untouched.
Qed.

Lemma execute_load base l c n pa Q :
  base <> Zero -> layout_ok n l = true -> window false c (xs c base) n pa Q ->
  (forall o, (base, o) ∈ l -> ld64 (ram c) (pa + o) = xs c base) ->
  execute (load base l) c = Some (set_xs (loaded pa l (ram c) (xs c)) c).
Proof.
  intros Hb. revert c. induction l as [|[r o] l IH]; intros c Hl Hw Hsame; [by destruct c|].
  apply layout_cons in Hl as (Ho & Hr & _ & _ & Hl). cbn [load map].
  erewrite execute_cons; [|cbn [step]; unfold xget; rewrite decide_False by done;
    rewrite (window_addr _ _ _ _ _ _ _ Hw Ho); reflexivity].
  unfold xset at 1. rewrite decide_False by done. fold (load base l).
  assert (Hbase : fset r (ld64 (ram c) (pa + o)) (xs c) base = xs c base).
  { destruct (decide (r = base)) as [->|]; [|by apply fset_ne]. rewrite fset_eq. apply Hsame, list_elem_of_here. }
  rewrite IH; [reflexivity|done| |]; cbn [xs ram]; rewrite Hbase.
  - apply (window_keep false c); [done..| |exact Hw]. apply untouched_refl.
  - intros o' Ho'. apply Hsame. by apply list_elem_of_further.
Qed.

(** ** What a save and a load leave *)

Lemma words_apart pa n n' o o' : word_ok n o -> word_ok n' o' -> o <> o' -> pa + o + 8 <= pa + o' \/ pa + o' + 8 <= pa + o.
Proof. unfold word_ok. intros. dlia. Qed.

Lemma saved_other pa n n' l f m o :
  layout_ok n l = true -> word_ok n' o -> o ∉ l.*2 -> ld64 (saved pa l f m) (pa + o) = ld64 m (pa + o).
Proof.
  revert m. induction l as [|[r o'] l IH]; intros m Hl Ho Hin; [done|]. cbn.
  apply layout_cons in Hl as (Ho' & _ & _ & _ & Hl). cbn in Hin. apply not_elem_of_cons in Hin as [Hne Hin].
  etrans; [by apply IH|]. apply ld64_st64_ne. by eapply words_apart.
Qed.

Lemma saved_in pa n l f m r o :
  layout_ok n l = true -> (r, o) ∈ l -> ld64 (saved pa l f m) (pa + o) = u64 (f r).
Proof.
  revert m. induction l as [|[r' o'] l IH]; intros m Hl Hin; [by apply elem_of_nil in Hin|]. cbn.
  apply layout_cons in Hl as (Ho' & _ & Hno & _ & Hl). apply elem_of_cons in Hin as [[= <- <-]|Hin]; [|by apply IH].
  etrans; [by apply (saved_other _ n n)|]. apply ld64_st64.
Qed.

Lemma loaded_other pa l m f r : r ∉ l.*1 -> loaded pa l m f r = f r.
Proof.
  revert f. induction l as [|[r' o'] l IH]; intros f Hin; [done|]. cbn.
  cbn in Hin. apply not_elem_of_cons in Hin as [Hne Hin]. etrans; [by apply IH|]. by apply fset_ne.
Qed.

Lemma loaded_in pa n l m f r o :
  layout_ok n l = true -> (r, o) ∈ l -> loaded pa l m f r = ld64 m (pa + o).
Proof.
  revert f. induction l as [|[r' o'] l IH]; intros f Hl Hin; [by apply elem_of_nil in Hin|]. cbn.
  apply layout_cons in Hl as (_ & _ & _ & Hnr & Hl). apply elem_of_cons in Hin as [[= <- <-]|Hin]; [|by apply IH].
  etrans; [by apply loaded_other|]. apply fset_eq.
Qed.

(** ** Where windows come from *)

(** Machine mode and supervisor mode without paging see physical memory. *)
Lemma window_bare st c va n Q :
  prv c = PM \/ (prv c = PS /\ csrs c Satp = 0) ->
  0 <= va -> va mod 8 = 0 -> va + n <= 2 ^ 64 -> window st c va n va Q.
Proof.
  intros Hm Hva Hal Hn. split_and!; [done..|]. intros m o _ (? & ? & ?). unfold phys.
  replace ((va + o) mod 8) with 0 by dlia. cbn [negb Z.eqb].
  destruct Hm as [->|(-> & ->)]; done.
Qed.

(** One page of a page table: the entry gives the physical page, and no byte of
    the tables is in [Q]. *)
Lemma window_paged `{Platform} `{!PlatformOk} (st : bool) c lvl root va n pte Q :
  prv c <> PM -> synced c = true -> satp_root (csrs c Satp) = Some root ->
  shape (ram c) lvl -> lvl !! root = Some 2%nat ->
  (forall p a, is_Some (lvl !! p) -> p <= a < p + PGSIZE -> ~ Q a) ->
  0 <= va -> va mod 8 = 0 -> va mod 4096 + n <= 4096 -> va + n <= MAXVA ->
  translate (ram c) root va = Some pte ->
  bit pte (if st then PTE_W else PTE_R) && Bool.eqb (bit pte PTE_U) (bool_decide (prv c = PU)) = true ->
  window st c va n (PTE2PA pte + va mod 4096) Q.
Proof.
  intros Hp Hy Hsatp Hs Hr HQ Hva Hal Hfit Hmax Ht Hperm.
  assert (MAXVA <= 2 ^ 64) by (vm_compute; discriminate).
  split_and!; [lia..|]. intros m o Hm (Ho & Hon & Hoa). unfold phys.
  replace ((va + o) mod 8) with 0 by dlia. cbn [negb Z.eqb]. rewrite Hsatp, Hy. cbn [negb].
  replace ((0 <=? va + o) && (va + o <? MAXVA)) with true by lia. cbn [negb].
  assert (Hsame : translate m root (va + o) = translate (ram c) root va).
  { rewrite (translate_same_tables lvl (ram c) m) by (try done; intros p a Hlp Ha; by apply Hm, (HQ p)).
    unfold translate. rewrite (trav_page _ _ va (va + o)); [done|]. unfold vpn. dlia. }
  rewrite Hsame, Ht. destruct (prv c); [..|done]; rewrite Hperm; f_equal; dlia.
Qed.
