(* ===== verification/Asm.v ===== *)
(** * The assembly files: swtch.S, kernelvec.S and trampoline.S

    The listings as lists of instructions of Riscv.v, with the layouts of struct
    context and struct trapframe.  A context switch saves the callee-saved
    registers of one thread and resumes another; an interrupt of the kernel and a
    timer interrupt give back the registers and the mode they found; the
    trampoline carries the user registers to the trapframe and back. *)

From S2P Require Import Prelude State Machine Cstring Kalloc Vm Pagetable Riscv.

(** ** swtch.S *)

Definition swtch : list instr := [
  Sd Ra 0 A0; Sd Sp 8 A0; Sd S0 16 A0; Sd S1 24 A0; Sd S2 32 A0; Sd S3 40 A0; Sd S4 48 A0;
  Sd S5 56 A0; Sd S6 64 A0; Sd S7 72 A0; Sd S8 80 A0; Sd S9 88 A0; Sd S10 96 A0; Sd S11 104 A0;
  Ld Ra 0 A1; Ld Sp 8 A1; Ld S0 16 A1; Ld S1 24 A1; Ld S2 32 A1; Ld S3 40 A1; Ld S4 48 A1;
  Ld S5 56 A1; Ld S6 64 A1; Ld S7 72 A1; Ld S8 80 A1; Ld S9 88 A1; Ld S10 96 A1; Ld S11 104 A1;
  Ret].

(** struct context. *)
Definition context_layout : layout :=
  [(Ra, 0); (Sp, 8); (S0, 16); (S1, 24); (S2, 32); (S3, 40); (S4, 48); (S5, 56); (S6, 64);
   (S7, 72); (S8, 80); (S9, 88); (S10, 96); (S11, 104)].

Definition context_size : Z := 112.

(** ** kernelvec.S *)

Definition kernelvec (kerneltrap : core -> option core) : list instr := [
  Addi Sp Sp (-256);
  Sd Ra 0 Sp; Sd Sp 8 Sp; Sd Gp 16 Sp; Sd Tp 24 Sp; Sd T0 32 Sp; Sd T1 40 Sp; Sd T2 48 Sp; Sd S0 56 Sp;
  Sd S1 64 Sp; Sd A0 72 Sp; Sd A1 80 Sp; Sd A2 88 Sp; Sd A3 96 Sp; Sd A4 104 Sp; Sd A5 112 Sp; Sd A6 120 Sp;
  Sd A7 128 Sp; Sd S2 136 Sp; Sd S3 144 Sp; Sd S4 152 Sp; Sd S5 160 Sp; Sd S6 168 Sp; Sd S7 176 Sp; Sd S8 184 Sp;
  Sd S9 192 Sp; Sd S10 200 Sp; Sd S11 208 Sp; Sd T3 216 Sp; Sd T4 224 Sp; Sd T5 232 Sp; Sd T6 240 Sp;
  Call kerneltrap;
  Ld Ra 0 Sp; Ld Sp 8 Sp; Ld Gp 16 Sp; Ld T0 32 Sp; Ld T1 40 Sp; Ld T2 48 Sp; Ld S0 56 Sp;
  Ld S1 64 Sp; Ld A0 72 Sp; Ld A1 80 Sp; Ld A2 88 Sp; Ld A3 96 Sp; Ld A4 104 Sp; Ld A5 112 Sp; Ld A6 120 Sp;
  Ld A7 128 Sp; Ld S2 136 Sp; Ld S3 144 Sp; Ld S4 152 Sp; Ld S5 160 Sp; Ld S6 168 Sp; Ld S7 176 Sp; Ld S8 184 Sp;
  Ld S9 192 Sp; Ld S10 200 Sp; Ld S11 208 Sp; Ld T3 216 Sp; Ld T4 224 Sp; Ld T5 232 Sp; Ld T6 240 Sp;
  Addi Sp Sp 256;
  Sret].

Definition timervec : list instr := [
  Csrrw A0 Mscratch A0;
  Sd A1 0 A0; Sd A2 8 A0; Sd A3 16 A0;
  Ld A1 24 A0; Ld A2 32 A0; Ld A3 0 A1; Add A3 A3 A2; Sd A3 0 A1;
  Li A1 2; Csrw Sip A1;
  Ld A3 16 A0; Ld A2 8 A0; Ld A1 0 A0;
  Csrrw A0 Mscratch A0;
  Mret].

(** ** trampoline.S *)

Definition uservec : list instr := [
  Csrrw A0 Sscratch A0;
  Sd Ra 40 A0; Sd Sp 48 A0; Sd Gp 56 A0; Sd Tp 64 A0; Sd T0 72 A0; Sd T1 80 A0; Sd T2 88 A0; Sd S0 96 A0;
  Sd S1 104 A0; Sd A1 120 A0; Sd A2 128 A0; Sd A3 136 A0; Sd A4 144 A0; Sd A5 152 A0; Sd A6 160 A0; Sd A7 168 A0;
  Sd S2 176 A0; Sd S3 184 A0; Sd S4 192 A0; Sd S5 200 A0; Sd S6 208 A0; Sd S7 216 A0; Sd S8 224 A0; Sd S9 232 A0;
  Sd S10 240 A0; Sd S11 248 A0; Sd T3 256 A0; Sd T4 264 A0; Sd T5 272 A0; Sd T6 280 A0;
  Csrr T0 Sscratch; Sd T0 112 A0;
  Ld Sp 8 A0; Ld Tp 32 A0; Ld T0 16 A0; Ld T1 0 A0;
  Csrw Satp T1; SfenceVma;
  Jr T0].

Definition userret : list instr := [
  Csrw Satp A1; SfenceVma;
  Ld T0 112 A0; Csrw Sscratch T0;
  Ld Ra 40 A0; Ld Sp 48 A0; Ld Gp 56 A0; Ld Tp 64 A0; Ld T0 72 A0; Ld T1 80 A0; Ld T2 88 A0; Ld S0 96 A0;
  Ld S1 104 A0; Ld A1 120 A0; Ld A2 128 A0; Ld A3 136 A0; Ld A4 144 A0; Ld A5 152 A0; Ld A6 160 A0; Ld A7 168 A0;
  Ld S2 176 A0; Ld S3 184 A0; Ld S4 192 A0; Ld S5 200 A0; Ld S6 208 A0; Ld S7 216 A0; Ld S8 224 A0; Ld S9 232 A0;
  Ld S10 240 A0; Ld S11 248 A0; Ld T3 256 A0; Ld T4 264 A0; Ld T5 272 A0; Ld T6 280 A0;
  Csrrw A0 Sscratch A0;
  Sret].

(** struct trapframe: its doublewords, and the user registers in it. *)
Definition trapframe_words (tf : trapframe) : list (Z * Z) :=
  [(0, tf_kernel_satp tf); (8, tf_kernel_sp tf); (16, tf_kernel_trap tf); (24, tf_epc tf); (32, tf_kernel_hartid tf);
   (40, tf_ra tf); (48, tf_sp tf); (56, tf_gp tf); (64, tf_tp tf); (72, tf_t0 tf); (80, tf_t1 tf); (88, tf_t2 tf);
   (96, tf_s0 tf); (104, tf_s1 tf); (112, tf_a0 tf); (120, tf_a1 tf); (128, tf_a2 tf); (136, tf_a3 tf); (144, tf_a4 tf);
   (152, tf_a5 tf); (160, tf_a6 tf); (168, tf_a7 tf); (176, tf_s2 tf); (184, tf_s3 tf); (192, tf_s4 tf); (200, tf_s5 tf);
   (208, tf_s6 tf); (216, tf_s7 tf); (224, tf_s8 tf); (232, tf_s9 tf); (240, tf_s10 tf); (248, tf_s11 tf);
   (256, tf_t3 tf); (264, tf_t4 tf); (272, tf_t5 tf); (280, tf_t6 tf)].

Definition trapframe_size : Z := 288.

Definition tf_reg (tf : trapframe) (r : reg) : Z :=
  match r with
  | Zero => 0 | Ra => tf_ra tf | Sp => tf_sp tf | Gp => tf_gp tf | Tp => tf_tp tf
  | T0 => tf_t0 tf | T1 => tf_t1 tf | T2 => tf_t2 tf | S0 => tf_s0 tf | S1 => tf_s1 tf
  | A0 => tf_a0 tf | A1 => tf_a1 tf | A2 => tf_a2 tf | A3 => tf_a3 tf | A4 => tf_a4 tf | A5 => tf_a5 tf
  | A6 => tf_a6 tf | A7 => tf_a7 tf | S2 => tf_s2 tf | S3 => tf_s3 tf | S4 => tf_s4 tf | S5 => tf_s5 tf
  | S6 => tf_s6 tf | S7 => tf_s7 tf | S8 => tf_s8 tf | S9 => tf_s9 tf | S10 => tf_s10 tf | S11 => tf_s11 tf
  | T3 => tf_t3 tf | T4 => tf_t4 tf | T5 => tf_t5 tf | T6 => tf_t6 tf
  end.

(** Memory at [pa] holds the trapframe. *)
Definition holds_tf (m : gmap Z Z) (pa : Z) (tf : trapframe) : Prop :=
  forall o v, (o, v) ∈ trapframe_words tf -> ld64 m (pa + o) = v.

(** The trapframe with the user registers of [u]. *)
Definition with_regs (u : reg -> Z) (tf : trapframe) : trapframe :=
  mktrapframe (tf_kernel_satp tf) (tf_kernel_sp tf) (tf_kernel_trap tf) (tf_epc tf) (tf_kernel_hartid tf)
    (u Ra) (u Sp) (u Gp) (u Tp) (u T0) (u T1) (u T2) (u S0) (u S1) (u A0) (u A1) (u A2) (u A3) (u A4) (u A5) (u A6)
    (u A7) (u S2) (u S3) (u S4) (u S5) (u S6) (u S7) (u S8) (u S9) (u S10) (u S11) (u T3) (u T4) (u T5) (u T6).

(** A register file holds 64-bit values. *)
Definition words (f : reg -> Z) : Prop := forall r, 0 <= f r < 2 ^ 64.

(** ** A context switch *)

(** The context of a register file, and memory that holds a context. *)
Definition callee_regs : list reg := [S0; S1; S2; S3; S4; S5; S6; S7; S8; S9; S10; S11].

Definition context_of (f : reg -> Z) : context := mkcontext (f Ra) (f Sp) (f <$> callee_regs).

Definition holds_context (m : gmap Z Z) (pa : Z) (k : context) : Prop :=
  ld64 m (pa + 0) = ctx_ra k /\ ld64 m (pa + 8) = ctx_sp k /\
  (fun o => ld64 m (pa + o)) <$> [16; 24; 32; 40; 48; 56; 64; 72; 80; 88; 96; 104] = ctx_s k.

Lemma context_layout_ok : layout_ok context_size context_layout = true.
Proof. reflexivity. Qed.

(** Picks the entry of a register in a literal layout. *)
Ltac in_layout := first [apply list_elem_of_here | apply list_elem_of_further; in_layout].

Lemma holds_saved m pa f g :
  words f -> (forall r o, (r, o) ∈ context_layout -> ld64 m (pa + o) = u64 (f r)) -> g = context_of f -> holds_context m pa g.
Proof.
  intros Hf Hm ->. assert (Hv : forall r o, (r, o) ∈ context_layout -> ld64 m (pa + o) = f r).
  { intros r o Hin. rewrite (Hm _ _ Hin). apply u64_small, Hf. }
  split_and!; [apply Hv; in_layout..|]. cbn -[ld64 Z.add].
  repeat (apply (f_equal2 (@Datatypes.cons Z)); [apply Hv; in_layout|]). reflexivity.
Qed.

Lemma context_loaded m pa f k :
  holds_context m pa k -> context_of (loaded pa context_layout m f) = k.
Proof. destruct k as [ra sp ss]. intros (H0 & H8 & Hs). cbn [ctx_ra ctx_sp ctx_s] in *. subst. reflexivity. Qed.

(** C33: swtch(old, new) stores the return address, the stack pointer and the twelve callee-saved
    registers in *old, loads them from *new and returns to the address that *new holds, so that
    the thread which saved *new goes on with its own registers; nothing else changes. *)
Theorem swtch_switches c old new k Q :
  words (xs c) ->
  window true c (xs c A0) context_size old Q -> (forall a, within old context_size a -> Q a) ->
  window false c (xs c A1) context_size new Q ->
  old + context_size <= new \/ new + context_size <= old ->
  holds_context (ram c) new k ->
  exists c', execute swtch c = Some c' /\
    holds_context (ram c') old (context_of (xs c)) /\
    untouched (within old context_size) (ram c) (ram c') /\
    context_of (xs c') = k /\ (forall r, r ∉ context_layout.*1 -> xs c' r = xs c r) /\
    pc c' = ctx_ra k - ctx_ra k mod 2 /\
    csrs c' = csrs c /\ prv c' = prv c /\ synced c' = synced c.
Proof.
  intros Hx Hold HQ Hnew Hsep Hk.
  change swtch with (save A0 context_layout ++ load A1 context_layout ++ [Ret]).
  rewrite execute_app, (execute_save A0 _ _ _ _ _ ltac:(done) context_layout_ok HQ Hold). cbn [mbind option_bind].
  set (m := saved old context_layout (xs c) (ram c)).
  assert (Hm : untouched (within old context_size) (ram c) m) by apply (saved_untouched _ _ _ _ _ context_layout_ok).
  rewrite execute_app. erewrite (execute_load A1 _ (set_ram m c)); [|done|exact context_layout_ok| |].
  2: { apply (window_keep false c); [done..| |exact Hnew]. by eapply untouched_weaken; [exact HQ|]. }
  2: { intros o Ho. exfalso. unfold context_layout in Ho. rewrite !elem_of_cons, elem_of_nil in Ho. naive_solver. }
  cbn [mbind option_bind]. eexists. split; [reflexivity|]. cbn [ram xs csrs prv pc go set_xs set_ram synced xget].
  assert (Hk' : holds_context m new k).
  { assert (Hw : forall o, 0 <= o -> o + 8 <= context_size -> ld64 m (new + o) = ld64 (ram c) (new + o)).
    { intros o Ho Ho'. eapply untouched_word; [exact Hm|]. unfold within, context_size in *. lia. }
    destruct Hk as (H0 & H8 & Hs). unfold context_size in Hw. split_and!; [rewrite Hw by lia; done..|].
    rewrite <- Hs. cbn -[ld64 Z.add]. by rewrite !Hw by lia. }
  split_and!; [|exact Hm|by apply context_loaded| |..|done|done|done].
  - eapply holds_saved; [exact Hx| |reflexivity]. intros r o Hin. by apply (saved_in _ _ _ _ _ _ _ context_layout_ok).
  - intros r Hr. by apply loaded_other.
  - unfold xget. cbn [xs]. rewrite decide_False by done. rewrite <- (context_loaded m new (xs c) k Hk'). reflexivity.
Qed.

Definition two_threads : core :=
  mkcore (fun r => match r with A0 => 0x80001000 | A1 => 0x80002000 | Ra => 0x80000040 | Sp => 0x80003000 | _ => 7 end)
    (fun _ => 0) PS 0 true (st64 0x80002008 0x80004000 (st64 0x80002000 0x80000100 ∅)).

Lemma swtch_switches_witness :
  exists c', execute swtch two_threads = Some c' /\ pc c' = 0x80000100 /\ xs c' Sp = 0x80004000 /\ ld64 (ram c') 0x80001008 = 0x80003000.
Proof.
  destruct (swtch_switches two_threads 0x80001000 0x80002000 (mkcontext 0x80000100 0x80004000 (replicate 12 0)) (fun _ => True))
    as (c' & R & (_ & Hsp & _) & _ & Hk & _ & Hpc & _).
  - intros r. destruct r; cbn; lia.
  - apply window_bare; [by right|cbn; vm_compute; intuition congruence..].
  - done.
  - apply window_bare; [by right|cbn; vm_compute; intuition congruence..].
  - vm_compute. left. discriminate.
  - split_and!; vm_compute; reflexivity.
  - exists c'. split; [exact R|]. split; [rewrite Hpc; reflexivity|]. split; [by injection Hk|exact Hsp].
Defined.

(** ** An interrupt of the kernel *)

Definition kernelvec_layout : layout :=
  [(Ra, 0); (Sp, 8); (Gp, 16); (Tp, 24); (T0, 32); (T1, 40); (T2, 48); (S0, 56); (S1, 64); (A0, 72); (A1, 80); (A2, 88);
   (A3, 96); (A4, 104); (A5, 112); (A6, 120); (A7, 128); (S2, 136); (S3, 144); (S4, 152); (S5, 160); (S6, 168); (S7, 176);
   (S8, 184); (S9, 192); (S10, 200); (S11, 208); (T3, 216); (T4, 224); (T5, 232); (T6, 240)].

Definition kernelvec_restore : layout := filter (fun ro => ro.1 <> Tp) kernelvec_layout.

Lemma kernelvec_layout_ok : layout_ok 256 kernelvec_layout = true /\ layout_ok 256 kernelvec_restore = true.
Proof. split; reflexivity. Qed.

Lemma kernelvec_restore_in r o : (r, o) ∈ kernelvec_restore <-> r <> Tp /\ (r, o) ∈ kernelvec_layout.
Proof. exact (list_elem_of_filter (fun ro => ro.1 <> Tp) kernelvec_layout (r, o)). Qed.

Lemma kernelvec_layout_all r : r <> Zero -> exists o, (r, o) ∈ kernelvec_layout.
Proof. intros Hr. destruct r; try done; eexists; in_layout. Qed.

(** What kerneltrap does for kernelvec: it returns with the stack pointer, sepc,
    sstatus and the address space it was called with, having changed only the bytes
    of [Q]. *)
Definition comes_back (Q : Z -> Prop) (f : core -> option core) (c1 c2 : core) : Prop :=
  f c1 = Some c2 /\ xs c2 Sp = xs c1 Sp /\ csrs c2 Sepc = csrs c1 Sepc /\ csr_read Sstatus c2 = csr_read Sstatus c1 /\
  csrs c2 Satp = csrs c1 Satp /\ prv c2 = prv c1 /\ synced c2 = synced c1 /\ untouched Q (ram c1) (ram c2).

(** The interrupted machine when kerneltrap is called. *)
Definition at_kerneltrap (cause pa : Z) (c : core) : core :=
  let c0 := xset Sp (xs c Sp - 256) (strap cause c) in
  set_ram (saved pa kernelvec_layout (xs c0) (ram c0)) c0.

Lemma sstatus_bits c c' n :
  csr_read Sstatus c' = csr_read Sstatus c -> n = 1 \/ n = 5 \/ n = 8 -> get_bit n (csrs c' Mstatus) = get_bit n (csrs c Mstatus).
Proof.
  cbn [csr_read]. intros E Hn. assert (Z.testbit SMASK n = true) by (by destruct Hn as [->|[->| ->]]).
  apply (f_equal (fun x => Z.testbit x n)) in E. rewrite !Z.land_spec in E. unfold get_bit.
  by destruct (Z.testbit (csrs c' Mstatus) n), (Z.testbit (csrs c Mstatus) n), (Z.testbit SMASK n).
Qed.

Lemma get_set_bit n b x : 0 <= n -> get_bit n (set_bit n b x) = b.
Proof. intros. unfold get_bit, set_bit. destruct b; [by apply Z.setbit_eq|apply Z.clearbit_eq]. Qed.

Lemma get_set_bit_ne n k b x : 0 <= n -> n <> k -> get_bit k (set_bit n b x) = get_bit k x.
Proof. intros. unfold get_bit, set_bit. destruct b; [by apply Z.setbit_neq|by apply Z.clearbit_neq]. Qed.

Lemma strap_sret_bits cause c : get_bit 5 (csrs (strap cause c) Mstatus) = get_bit 1 (csrs c Mstatus) /\
  get_bit 8 (csrs (strap cause c) Mstatus) = bool_decide (prv c <> PU).
Proof.
  change (csrs (strap cause c) Mstatus) with (set_bit 8 (bool_decide (prv c <> PU)) (set_bit 1 false (set_bit 5 (get_bit 1 (csrs c Mstatus)) (csrs c Mstatus)))).
  rewrite (get_set_bit 8), !get_set_bit_ne, get_set_bit by lia. done.
Qed.

(** The first half of kernelvec, up to the call. *)
Lemma kernelvec_saves cause c pa Q :
  words (xs c) -> prv c = PS -> 256 <= xs c Sp ->
  window true c (xs c Sp - 256) 256 pa Q -> (forall a, within pa 256 a -> Q a) ->
  execute (Addi Sp Sp (-256) :: save Sp kernelvec_layout) (strap cause c) = Some (at_kerneltrap cause pa c).
Proof.
  intros Hx Hp Hsp Hw HQ.
  erewrite execute_cons; [|cbn [step]; unfold xget; rewrite decide_False by done; reflexivity].
  change (xs (strap cause c)) with (xs c). replace (u64 (xs c Sp + -256)) with (xs c Sp - 256).
  2: { pose proof (Hx Sp). rewrite u64_small; lia. }
  rewrite (execute_save Sp kernelvec_layout _ 256 pa Q); [reflexivity|done|apply kernelvec_layout_ok|exact HQ|].
  apply (window_keep true c); [done..|apply untouched_refl|exact Hw].
Qed.

(** The second half, after the call: everything but tp comes from the frame. *)
Lemma kernelvec_restores c pa Q f :
  prv c = PS -> window false c (xs c Sp) 256 pa Q ->
  (forall r o, (r, o) ∈ kernelvec_layout -> ld64 (ram c) (pa + o) = f r) -> f Sp = xs c Sp ->
  exists c', execute (load Sp kernelvec_restore ++ [Addi Sp Sp 256; Sret]) c = Some c' /\
    (forall r, r <> Zero -> r <> Tp -> r <> Sp -> xs c' r = f r) /\ xs c' Sp = u64 (f Sp + 256) /\ xs c' Tp = xs c Tp /\
    pc c' = csrs c Sepc /\ prv c' = (if get_bit 8 (csrs c Mstatus) then PS else PU) /\
    get_bit 1 (csrs c' Mstatus) = get_bit 5 (csrs c Mstatus) /\ ram c' = ram c.
Proof.
  intros Hp Hw Hf Hsp. pose proof kernelvec_layout_ok as [_ Hr].
  assert (Hall : forall r, r <> Zero -> r <> Tp -> loaded pa kernelvec_restore (ram c) (xs c) r = f r).
  { intros r Hz Ht. destruct (kernelvec_layout_all r Hz) as (o & Ho).
    rewrite (loaded_in pa 256 kernelvec_restore (ram c) (xs c) r o Hr); [exact (Hf r o Ho)|]. exact (proj2 (kernelvec_restore_in r o) (conj Ht Ho)). }
  rewrite execute_app. erewrite (execute_load Sp); [|done|exact Hr|exact Hw|].
  2: { intros o Ho. rewrite <- Hsp. apply Hf. exact (proj2 (proj1 (kernelvec_restore_in Sp o) Ho)). }
  cbn [mbind option_bind]. set (g := loaded pa kernelvec_restore (ram c) (xs c)) in *.
  rewrite (execute_cons (Addi Sp Sp 256) _ (set_xs g c) (set_xs (fset Sp (u64 (g Sp + 256)) g) c) eq_refl), (Hall Sp) by done.
  rewrite (execute_cons Sret _ _ _ (step_sret (set_xs (fset Sp (u64 (f Sp + 256)) g) c) Hp)). eexists. split; [reflexivity|].
  cbn [xs ram csrs pc prv sret go set_prv cset set_xs].
  split_and!; [|apply fset_eq| |done|done| |done].
  - intros r Hz Ht Hs. rewrite fset_ne by congruence. by apply Hall.
  - rewrite fset_ne by done. apply loaded_other. apply (bool_decide_unpack _). reflexivity.
  - rewrite fset_eq, !get_set_bit_ne, get_set_bit by lia. done.
Qed.

(** C31: A trap taken in the kernel is transparent: kernelvec pushes the 31 registers, calls
    kerneltrap, and goes back to the interrupted instruction in supervisor mode with every
    register as it was - but tp, which is the one kerneltrap came back with - and with
    interrupts as they were. *)
Theorem kernelvec_transparent cause c c2 pa Q kerneltrap :
  words (xs c) -> prv c = PS -> 256 <= xs c Sp ->
  window true c (xs c Sp - 256) 256 pa (fun a => Q a \/ within pa 256 a) ->
  window false c (xs c Sp - 256) 256 pa (fun a => Q a \/ within pa 256 a) ->
  (forall a, within pa 256 a -> ~ Q a) ->
  comes_back Q kerneltrap (at_kerneltrap cause pa c) c2 ->
  exists c', execute (kernelvec kerneltrap) (strap cause c) = Some c' /\
    (forall r, r <> Zero -> r <> Tp -> xs c' r = xs c r) /\ xs c' Tp = xs c2 Tp /\
    pc c' = pc c /\ prv c' = prv c /\ get_bit 1 (csrs c' Mstatus) = get_bit 1 (csrs c Mstatus) /\
    untouched (fun a => Q a \/ within pa 256 a) (ram c) (ram c').
Proof.
  intros Hx Hp Hsp Hwt Hwf HQ (R & Esp & Eepc & Est & Esatp & Eprv & Esy & Eram).
  change (kernelvec kerneltrap) with ((Addi Sp Sp (-256) :: save Sp kernelvec_layout) ++ Call kerneltrap :: load Sp kernelvec_restore ++ [Addi Sp Sp 256; Sret]).
  rewrite execute_app, (kernelvec_saves _ _ pa _ Hx Hp Hsp Hwt) by tauto. cbn [mbind option_bind].
  rewrite (execute_cons (Call kerneltrap) _ _ c2 R). set (c1 := at_kerneltrap cause pa c) in *. pose proof kernelvec_layout_ok as [Hl _].
  set (f := fset Sp (xs c Sp - 256) (xs c)).
  assert (Hf : words f).
  { intros r. unfold f, fset. case_decide; [|apply Hx]. pose proof (Hx Sp). lia. }
  assert (Hm : untouched (fun a => Q a \/ within pa 256 a) (ram c) (ram c2)).
  { eapply untouched_trans; [|eapply untouched_weaken; [|exact Eram]; tauto].
    eapply untouched_weaken; [|apply (saved_untouched _ _ _ _ _ Hl)]. tauto. }
  destruct (kernelvec_restores c2 pa (fun a => Q a \/ within pa 256 a) f) as (c' & R' & Hr & Hsp' & Htp & Hpc & Hprv & Hie & Hram).
  - by rewrite Eprv.
  - rewrite Esp. apply (window_keep false c); [by rewrite Eprv, Hp|exact Esatp|exact Esy|exact Hm|exact Hwf].
  - intros r o Ho. etrans; [|etrans; [apply (saved_in pa _ _ f (ram c) _ _ Hl Ho)|apply u64_small, Hf]].
    eapply untouched_word; [exact Eram|]. intros b Hb. apply HQ. pose proof (layout_words _ _ _ _ Hl Ho) as (? & ? & _).
    unfold within. lia.
  - by rewrite Esp.
  - pose proof (strap_sret_bits cause c) as [H5 H8]. pose proof (Hx Sp).
    exists c'. split; [exact R'|]. rewrite Htp, Hpc, Hprv, Hie, Hram, Eepc, !(sstatus_bits c1 c2) by tauto.
    change (csrs c1 Mstatus) with (csrs (strap cause c) Mstatus). rewrite H5, H8, Hp. split_and!; [|done..|exact Hm].
    intros r Hz Ht. destruct (decide (r = Sp)) as [->|]; [rewrite Hsp'; unfold f; rewrite fset_eq, u64_small; lia|].
    rewrite Hr by done. by apply fset_ne.
Qed.

(** A handler that clobbers a register and comes back on another hart. *)
Definition some_handler (c : core) : option core := Some (xset A0 99 (xset Tp 1 c)).

Lemma some_handler_back c : comes_back (fun _ => False) some_handler c (xset A0 99 (xset Tp 1 c)).
Proof. split_and!; try reflexivity. apply untouched_refl. Qed.

Definition kernel_thread : core :=
  mkcore (fun r => match r with Sp => 0x80003000 | A0 => 0x80001000 | _ => 7 end)
    (fun k => match k with Mstatus => 2 | Stvec => 0x80005000 | _ => 0 end) PS 0x80000400 true ∅.

Lemma kernelvec_transparent_witness :
  exists c', execute (kernelvec some_handler) (strap 9 kernel_thread) = Some c' /\ xs c' A0 = 0x80001000 /\ xs c' Tp = 1 /\
    pc c' = 0x80000400 /\ get_bit 1 (csrs c' Mstatus) = true.
Proof.
  destruct (kernelvec_transparent 9 kernel_thread (xset A0 99 (xset Tp 1 (at_kerneltrap 9 0x80002f00 kernel_thread)))
              0x80002f00 (fun _ => False) some_handler) as (c' & R & Hr & Htp & Hpc & _ & Hie & _).
  - intros r. destruct r; cbn; lia.
  - done.
  - cbn. lia.
  - apply window_bare; [by right|cbn; vm_compute; intuition congruence..].
  - apply window_bare; [by right|cbn; vm_compute; intuition congruence..].
  - tauto.
  - apply some_handler_back.
  - exists c'. split; [exact R|]. split; [by apply (Hr A0)|]. split; [exact Htp|]. split; [exact Hpc|exact Hie].
Defined.

(** ** The machine-mode timer interrupt *)

(** What timervec needs and start() sets up: mscratch points to the five words of
    scratch[], which hold the address of the comparison register and the interval,
    and supervisor software interrupts are delegated. *)
Record timer_ready (t interval : Z) (c : core) : Prop := {
  tr_range : 0 <= csrs c Mscratch /\ csrs c Mscratch + 40 <= 2 ^ 64 /\ csrs c Mscratch mod 8 = 0;
  tr_mtimecmp : ld64 (ram c) (csrs c Mscratch + 24) = t;
  tr_interval : ld64 (ram c) (csrs c Mscratch + 32) = interval;
  tr_device : 0 <= t /\ t + 8 <= 2 ^ 64 /\ t mod 8 = 0;
  tr_apart : t + 8 <= csrs c Mscratch \/ csrs c Mscratch + 40 <= t;
  tr_delegated : Z.testbit (csrs c Mideleg) 1 = true
}.

(** The bytes timervec writes. *)
Definition timer_bytes (scratch t a : Z) : Prop := within scratch 24 a \/ within t 8 a.

(** timervec up to the software interrupt, in machine mode with a0 and mscratch
    already swapped. *)
Definition timer_saved (c : core) : gmap Z Z :=
  saved (xs c A0) [(A1, 0); (A2, 8); (A3, 16)] (xs c) (ram c).

Lemma timer_words c t :
  0 <= t /\ t + 8 <= 2 ^ 64 /\ t mod 8 = 0 ->
  t + 8 <= xs c A0 \/ xs c A0 + 40 <= t ->
  ld64 (timer_saved c) (xs c A0 + 24) = ld64 (ram c) (xs c A0 + 24) /\
  ld64 (timer_saved c) (xs c A0 + 32) = ld64 (ram c) (xs c A0 + 32) /\
  ld64 (timer_saved c) t = ld64 (ram c) t.
Proof.
  intros (Ht & Ht64 & Hal) Hap. pose proof (saved_untouched (xs c A0) 24 [(A1, 0); (A2, 8); (A3, 16)] (xs c) (ram c) eq_refl) as Hu.
  split_and!; (eapply untouched_word; [exact Hu|]); unfold within; lia.
Qed.

Lemma step_ld_machine r o b a c :
  prv c = PM -> b <> Zero -> r <> Zero -> u64 (xs c b + o) = a -> a mod 8 = 0 ->
  step (Ld r o b) c = Some (set_xs (fset r (ld64 (ram c) a) (xs c)) c).
Proof.
  intros Hp Hb Hr Ha Hal. cbn [step]. rewrite xget_ne, Ha, (addr_machine _ _ _ Hp Hal) by done. cbn [mbind option_bind].
  by rewrite xset_ne.
Qed.

Lemma step_csrw_machine k r c : prv c = PM -> r <> Zero -> step (Csrw k r) c = Some (csr_write k (xs c r) c).
Proof. intros Hp Hr. cbn [step]. rewrite Hp, xget_ne by done. by destruct k. Qed.

Lemma step_sd_machine r o b a c :
  prv c = PM -> b <> Zero -> r <> Zero -> u64 (xs c b + o) = a -> a mod 8 = 0 ->
  step (Sd r o b) c = Some (set_ram (st64 a (xs c r) (ram c)) c).
Proof.
  intros Hp Hb Hr Ha Hal. cbn [step]. by rewrite !xget_ne, Ha, (addr_machine _ _ _ Hp Hal) by done.
Qed.

Definition timer_core : list instr :=
  save A0 [(A1, 0); (A2, 8); (A3, 16)] ++ load A0 [(A1, 24); (A2, 32)] ++
  [Ld A3 0 A1; Add A3 A3 A2; Sd A3 0 A1; Li A1 2; Csrw Sip A1] ++ load A0 [(A3, 16); (A2, 8); (A1, 0)].

Definition next_tick (t interval : Z) (c : core) : gmap Z Z :=
  st64 t (u64 (ld64 (ram c) t + interval)) (timer_saved c).

(** The registers the last loads bring back. *)
Lemma next_tick_regs t i c f :
  words (xs c) -> t + 8 <= xs c A0 \/ xs c A0 + 40 <= t ->
  (forall r, r <> A1 -> r <> A2 -> r <> A3 -> f r = xs c r) ->
  forall r, loaded (xs c A0) [(A3, 16); (A2, 8); (A1, 0)] (next_tick t i c) f r = xs c r.
Proof.
  intros Hx Hap Hf r. cbn [loaded foldl fst snd].
  assert (Hw : forall r o, (r, o) ∈ [(A1, 0); (A2, 8); (A3, 16)] -> ld64 (next_tick t i c) (xs c A0 + o) = xs c r).
  { intros r' o Ho. unfold next_tick. pose proof (layout_words 24 [(A1, 0); (A2, 8); (A3, 16)] _ _ eq_refl Ho) as (? & ? & _).
    rewrite ld64_st64_ne by lia. unfold timer_saved. rewrite (saved_in _ 24 _ _ _ r' o) by done. apply u64_small, Hx. }
  unfold fset. repeat case_decide; subst; [apply Hw; in_layout..|]. by apply Hf.
Qed.

Lemma timer_core_run t i c :
  prv c = PM -> words (xs c) -> xs c A0 mod 8 = 0 -> xs c A0 + 40 <= 2 ^ 64 ->
  0 <= t /\ t + 8 <= 2 ^ 64 /\ t mod 8 = 0 -> t + 8 <= xs c A0 \/ xs c A0 + 40 <= t ->
  ld64 (ram c) (xs c A0 + 24) = t -> ld64 (ram c) (xs c A0 + 32) = i ->
  exists f, execute timer_core c = Some (csr_write Sip 2 (set_ram (next_tick t i c) (set_xs f c))) /\ forall r, f r = xs c r.
Proof.
  intros Hp Hx Hal H64 Ht Hap Hcmp Hi. destruct (timer_words c t Ht Hap) as (W24 & W32 & Wt). rewrite Hcmp in W24. rewrite Hi in W32.
  destruct Ht as (Ht0 & Ht64 & Htal). pose proof (Hx A0) as H0. unfold timer_core.
  rewrite execute_app, (execute_save A0 _ c 40 (xs c A0) (fun _ => True)) by (try (apply window_bare; [by left|lia..]); done). cbn [mbind option_bind].
  fold (timer_saved c). set (m := timer_saved c) in *.
  rewrite execute_app, (execute_load A0 _ (set_ram m c) 40 (xs c A0) (fun _ => True)); [|done|reflexivity| |].
  2: { apply window_bare; [by left|lia..]. }
  2: { intros o Ho. rewrite !elem_of_cons, elem_of_nil in Ho. naive_solver. }
  cbn [mbind option_bind]. set (f := loaded (xs c A0) [(A1, 24); (A2, 32)] m (xs c)).
  change (set_xs _ (set_ram m c)) with (set_xs f (set_ram m c)).
  assert (F1 : f A1 = t) by exact W24. assert (F2 : f A2 = i) by exact W32.
  rewrite execute_app. cbn [execute].
  rewrite (step_ld_machine A3 0 A1 t (set_xs f (set_ram m c))); [|done..|cbn [xs set_xs]; rewrite F1, u64_small; lia|done].
  cbn [mbind option_bind]. set (f' := fset A3 (ld64 m t) f).
  change (set_xs _ (set_xs f _)) with (set_xs f' (set_ram m c)).
  change (step (Add A3 A3 A2) (set_xs f' (set_ram m c))) with (Some (set_xs (fset A3 (u64 (f' A3 + f' A2)) f') (set_ram m c))).
  cbn [mbind option_bind]. set (f'' := fset A3 (u64 (f' A3 + f' A2)) f').
  rewrite (step_sd_machine A3 0 A1 t (set_xs f'' (set_ram m c))); [|done..|change (u64 (f A1 + 0) = t); rewrite F1, u64_small; lia|done].
  cbn [mbind option_bind].
  change (set_ram _ (set_xs f'' _)) with (set_ram (st64 t (u64 (ld64 m t + f A2)) m) (set_xs f'' c)).
  rewrite F2, Wt. change (st64 t _ m) with (next_tick t i c).
  set (g := fset A1 (u64 2) f'').
  change (step (Li A1 2) _) with (Some (set_xs g (set_ram (next_tick t i c) c))).
  cbn [mbind option_bind]. rewrite (step_csrw_machine Sip A1) by (exact Hp || done). cbn [mbind option_bind].
  change (csr_write Sip (xs _ A1) _) with (csr_write Sip 2 (set_ram (next_tick t i c) (set_xs g c))).
  assert (G : forall r, r <> A1 -> r <> A2 -> r <> A3 -> g r = xs c r) by (intros r ???; unfold g, f'', f', f; cbn; by rewrite !fset_ne).
  set (c3 := csr_write Sip 2 (set_ram (next_tick t i c) (set_xs g c))).
  rewrite (execute_load A0 _ c3 40 (xs c A0) (fun _ => True)); [|done|reflexivity| |].
  - eexists. split; [reflexivity|]. by apply next_tick_regs.
  - change (xs c3 A0) with (xs c A0). apply window_bare; [by left|lia..].
  - intros o Ho. rewrite !elem_of_cons, elem_of_nil in Ho. naive_solver.
Qed.

Lemma mpp_set p x : 0 <= p < 4 -> mpp (set_mpp p x) = p.
Proof.
  intros Hp. unfold mpp, set_mpp. apply Z.bits_inj'. intros n Hn.
  rewrite Z.land_spec, Z.shiftr_spec, Z.lor_spec, Z.ldiff_spec, !Z.shiftl_spec by lia. replace (n + 11 - 11) with n by lia.
  destruct (decide (n < 2)) as [|Hge].
  - assert (Z.testbit 3 n = true) as -> by (assert (n = 0 \/ n = 1) as [-> | ->] by lia; done).
    by rewrite andb_false_r, andb_true_r.
  - rewrite !(Z.bits_above_log2 _ n); [by rewrite andb_false_r|lia| |lia|cbn; lia]. destruct (decide (p = 0)) as [->|]; [cbn; lia|].
    apply Z.log2_lt_pow2; [lia|]. apply Z.lt_le_trans with 4; [lia|]. apply (Z.pow_le_mono_r 2 2 n); lia.
Qed.

Lemma get_bit_set_mpp n p x : 0 <= n < 11 -> get_bit n (set_mpp p x) = get_bit n x.
Proof.
  intros Hn. unfold get_bit, set_mpp. rewrite Z.lor_spec, Z.ldiff_spec, !Z.shiftl_spec_low by lia. by rewrite andb_true_r, orb_false_r.
Qed.

Lemma priv_of_bits p : priv_of (priv_bits p) = p.
Proof. by destruct p. Qed.

(** The mode and the interrupt enable that mret finds after a machine trap. *)
Lemma mtrap_mret_bits cause c :
  priv_of (mpp (csrs (mtrap cause c) Mstatus)) = prv c /\ get_bit 7 (csrs (mtrap cause c) Mstatus) = get_bit 3 (csrs c Mstatus).
Proof.
  change (csrs (mtrap cause c) Mstatus) with (set_mpp (priv_bits (prv c)) (set_bit 3 false (set_bit 7 (get_bit 3 (csrs c Mstatus)) (csrs c Mstatus)))).
  rewrite mpp_set, get_bit_set_mpp, get_set_bit_ne, get_set_bit by (try (destruct (prv c); cbn); lia). by rewrite priv_of_bits.
Qed.

Lemma raise_software n deleg old :
  Z.testbit deleg 1 = true -> 0 <= n ->
  Z.testbit (merge (Z.land deleg 2) 2 old) n = if n =? 1 then true else Z.testbit old n.
Proof.
  intros Hd Hn. unfold merge. rewrite Z.lor_spec, Z.ldiff_spec, !Z.land_spec. destruct (Z.eqb_spec n 1) as [->|Hne].
  - by rewrite Hd.
  - replace (Z.testbit 2 n) with false; [by rewrite andb_false_r, andb_true_r|]. symmetry. by apply (Z.pow2_bits_false 1).
Qed.

Lemma next_tick_untouched t i c : untouched (timer_bytes (xs c A0) t) (ram c) (next_tick t i c).
Proof.
  intros a Ha. unfold timer_bytes, within in Ha. unfold next_tick. rewrite ld8_st64_ne by lia.
  apply (saved_untouched (xs c A0) 24 [(A1, 0); (A2, 8); (A3, 16)] (xs c) (ram c) eq_refl). unfold within. lia.
Qed.

(** C32: The machine-mode timer interrupt is invisible to the code it interrupts, in whatever
    mode that runs: timervec gives back every register, the mode, the interrupt enable and the
    instruction, moves the comparison register one interval ahead, raises a supervisor software
    interrupt, writes only its scratch words, and is ready for the next interrupt. *)
Theorem timervec_transparent cause c t interval :
  words (xs c) -> timer_ready t interval c ->
  exists c', execute timervec (mtrap cause c) = Some c' /\
    (forall r, xs c' r = xs c r) /\ pc c' = pc c /\ prv c' = prv c /\ synced c' = synced c /\
    get_bit 3 (csrs c' Mstatus) = get_bit 3 (csrs c Mstatus) /\
    (forall k, k ∉ [Mstatus; Mepc; Mcause; Mip] -> csrs c' k = csrs c k) /\
    (forall n, 0 <= n -> Z.testbit (csrs c' Mip) n = if n =? 1 then true else Z.testbit (csrs c Mip) n) /\
    ld64 (ram c') t = u64 (ld64 (ram c) t + interval) /\
    untouched (timer_bytes (csrs c Mscratch) t) (ram c) (ram c') /\ timer_ready t interval c'.
Proof.
  intros Hx [(H0 & H40 & Hal) Hcmp Hi Ht Hap Hd].
  set (c1 := set_xs (fset A0 (csrs c Mscratch) (xs c)) (cset Mscratch (xs c A0) (mtrap cause c))).
  assert (Hx1 : words (xs c1)) by (intros r; cbn; unfold fset; case_decide; [lia|apply Hx]).
  change timervec with (Csrrw A0 Mscratch A0 :: timer_core ++ [Csrrw A0 Mscratch A0; Mret]).
  rewrite (execute_cons (Csrrw A0 Mscratch A0) _ (mtrap cause c) c1 eq_refl), execute_app.
  destruct (timer_core_run t interval c1) as (f & R & Hf); [done..|]. rewrite R. cbn [mbind option_bind]. clear R.
  set (m := next_tick t interval c1). set (c2 := csr_write Sip 2 (set_ram m (set_xs f c1))).
  set (c3 := set_xs (fset A0 (xs c A0) f) (cset Mscratch (f A0) c2)).
  rewrite (execute_cons (Csrrw A0 Mscratch A0) _ c2 c3 eq_refl), (execute_cons Mret _ c3 (mret c3) eq_refl).
  pose proof (mtrap_mret_bits cause c) as [Hprv Hie]. eexists. split; [reflexivity|].
  assert (Hm : untouched (timer_bytes (csrs c Mscratch) t) (ram c) m) by apply (next_tick_untouched t interval c1).
  assert (Hscr : csrs (mret c3) Mscratch = csrs c Mscratch) by (cbn; apply (Hf A0)).
  split_and!; try done.
  - intros r. change (fset A0 (xs c A0) f r = xs c r). unfold fset. case_decide as E; [by subst|]. rewrite Hf. cbn. by apply fset_ne.
  - etrans; [|exact Hie]. change (csrs (mret c3) Mstatus) with (set_mpp 0 (set_bit 7 true (set_bit 3 (get_bit 7 (csrs (mtrap cause c) Mstatus)) (csrs (mtrap cause c) Mstatus)))).
    by rewrite get_bit_set_mpp, get_set_bit_ne, get_set_bit by lia.
  - intros k Hk. rewrite !not_elem_of_cons in Hk. destruct k; try tauto; reflexivity.
  - intros n Hn. by apply raise_software.
  - etrans; [apply ld64_st64|]. apply Z.mod_mod. discriminate.
  - split; rewrite ?Hscr; try done; change (ram (mret c3)) with m.
    + rewrite <- Hcmp. apply (untouched_word _ _ _ _ Hm). unfold timer_bytes, within. lia.
    + rewrite <- Hi. apply (untouched_word _ _ _ _ Hm). unfold timer_bytes, within. lia.
Qed.

(** A hart in user mode, interrupted by its timer. *)
Definition ticking_core : core :=
  mkcore (fun r => match r with A0 => 41 | A1 => 42 | A2 => 43 | A3 => 44 | _ => 9 end)
    (fun k => match k with Mscratch => 0x80010078 | Mideleg => 0x222 | Mtvec => 0x80005000 | _ => 0 end) PU 0x1234 true
    (st64 0x80010098 1000000 (st64 0x80010090 0x2004018 (st64 0x2004018 1000077 ∅))).

Lemma timervec_transparent_witness :
  exists c', execute timervec (mtrap (2 ^ 63 + 7) ticking_core) = Some c' /\ prv c' = PU /\ pc c' = 0x1234 /\ xs c' A1 = 42 /\
    ld64 (ram c') 0x2004018 = 2000077.
Proof.
  destruct (timervec_transparent (2 ^ 63 + 7) ticking_core 0x2004018 1000000)
    as (c' & R & Hr & Hpc & Hprv & _ & _ & _ & _ & Ht & _).
  - intros r. destruct r; cbn; lia.
  - split; try (vm_compute; reflexivity); vm_compute; intuition congruence.
  - exists c'. split; [exact R|]. split; [exact Hprv|]. split; [exact Hpc|]. split; [exact (Hr A1)|].
    rewrite Ht. vm_compute. reflexivity.
Defined.
