(* ===== verification/Trampoline.v ===== *)
(** * Between user space and the kernel: trampoline.S

    uservec carries the user registers of a trap into struct trapframe and enters
    the kernel with the stack, hart number, page table and handler that the
    trapframe names; userret carries them back. *)

From S2P Require Import Prelude State Machine Cstring Kalloc Vm Pagetable Riscv Asm.

(** The user registers of struct trapframe. *)
Definition user_layout : layout :=
  [(Ra, 40); (Sp, 48); (Gp, 56); (Tp, 64); (T0, 72); (T1, 80); (T2, 88); (S0, 96); (S1, 104); (A0, 112); (A1, 120); (A2, 128);
   (A3, 136); (A4, 144); (A5, 152); (A6, 160); (A7, 168); (S2, 176); (S3, 184); (S4, 192); (S5, 200); (S6, 208); (S7, 216);
   (S8, 224); (S9, 232); (S10, 240); (S11, 248); (T3, 256); (T4, 264); (T5, 272); (T6, 280)].

(** a0 travels through sscratch. *)
Definition user_others : layout := filter (fun ro => ro.1 <> A0) user_layout.

Definition kernel_words (tf : trapframe) : list (Z * Z) :=
  [(0, tf_kernel_satp tf); (8, tf_kernel_sp tf); (16, tf_kernel_trap tf); (24, tf_epc tf); (32, tf_kernel_hartid tf)].

Lemma user_layout_ok : layout_ok trapframe_size user_layout = true /\ layout_ok trapframe_size user_others = true.
Proof. split; reflexivity. Qed.

Lemma user_others_in r o : (r, o) ∈ user_others <-> r <> A0 /\ (r, o) ∈ user_layout.
Proof. exact (list_elem_of_filter (fun ro => ro.1 <> A0) user_layout (r, o)). Qed.

Lemma user_layout_all r : r <> Zero -> exists o, (r, o) ∈ user_layout.
Proof. intros Hr. destruct r; try done; eexists; in_layout. Qed.

Lemma trapframe_split tf : trapframe_words tf = kernel_words tf ++ ((fun ro => (ro.2, tf_reg tf ro.1)) <$> user_layout).
Proof. reflexivity. Qed.

Lemma holds_tf_split m pa tf :
  holds_tf m pa tf <->
  (forall o v, (o, v) ∈ kernel_words tf -> ld64 m (pa + o) = v) /\ (forall r o, (r, o) ∈ user_layout -> ld64 m (pa + o) = tf_reg tf r).
Proof.
  unfold holds_tf. rewrite trapframe_split. split.
  - intros H. split; [intros o v Hin|intros r o Hin]; apply H, elem_of_app; [by left|right].
    apply list_elem_of_fmap. exists (r, o). split; [reflexivity|exact Hin].
  - intros [Hk Hu] o v [Hin|Hin]%elem_of_app; [by apply Hk|].
    apply list_elem_of_fmap in Hin as ([r o'] & [= -> ->] & Hin). exact (Hu r o' Hin).
Qed.

Lemma tf_reg_with_regs u tf r : r <> Zero -> tf_reg (with_regs u tf) r = u r.
Proof. intros. by destruct r. Qed.

Lemma user_layout_nonzero r o : (r, o) ∈ user_layout -> r <> Zero /\ 40 <= o.
Proof.
  intros Hin. assert (Forall (fun ro => ro.1 <> Zero /\ 40 <= ro.2) user_layout) as Hf.
  { apply (bool_decide_unpack _). reflexivity. }
  rewrite Forall_forall in Hf. exact (Hf (r, o) Hin).
Qed.

Lemma user_layout_a0 r o : (r, o) ∈ user_layout -> r = A0 <-> o = 112.
Proof.
  intros Hin. assert (Forall (fun ro => bool_decide (ro.1 = A0) = bool_decide (ro.2 = 112)) user_layout) as Hf.
  { apply (bool_decide_unpack _). reflexivity. }
  rewrite Forall_forall in Hf. specialize (Hf (r, o) Hin). cbn [fst snd] in Hf. repeat case_bool_decide; done.
Qed.

(** The memory after uservec: the others, then a0 by way of t0. *)
Definition frame_saved (pf : Z) (u : reg -> Z) (m : gmap Z Z) : gmap Z Z :=
  st64 (pf + 112) (u A0) (saved pf user_others u m).

Lemma frame_saved_untouched pf u m : untouched (within pf trapframe_size) m (frame_saved pf u m).
Proof.
  apply untouched_trans with (saved pf user_others u m); [apply (saved_untouched _ _ _ _ _ (proj2 user_layout_ok))|]. apply st64_untouched. by vm_compute.
Qed.

Lemma frame_saved_holds pf u m tf : words u -> holds_tf m pf tf -> holds_tf (frame_saved pf u m) pf (with_regs u tf).
Proof.
  intros Hu [Hk _]%holds_tf_split. pose proof user_layout_ok as [Hl Ho]. apply holds_tf_split. split.
  - intros o v Hin. assert (Hw : word_ok 40 o).
    { assert (Forall (fun ov => word_ok 40 ov.1) (kernel_words (with_regs u tf))) as Hf by (repeat constructor; by vm_compute).
      rewrite Forall_forall in Hf. exact (Hf (o, v) Hin). }
    rewrite <- (Hk o v Hin). unfold frame_saved. rewrite ld64_st64_ne by (unfold word_ok in Hw; lia).
    apply (saved_other _ trapframe_size 40); [exact Ho|exact Hw|]. intros ([r o'] & -> & Hin')%list_elem_of_fmap.
    apply user_others_in in Hin' as [_ Hin']. apply user_layout_nonzero in Hin' as [_ ?]. unfold word_ok in Hw. cbn [snd] in Hw. lia.
  - intros r o Hin. destruct (user_layout_nonzero r o Hin) as [Hz _]. rewrite tf_reg_with_regs by exact Hz. unfold frame_saved.
    destruct (decide (r = A0)) as [->|Hne].
    + assert (o = 112) as -> by by apply (user_layout_a0 A0 o Hin).
      rewrite ld64_st64. apply u64_small, Hu.
    + pose proof (proj2 (user_others_in r o) (conj Hne Hin)) as Hin'. rewrite ld64_st64_ne.
      * rewrite (saved_in _ _ _ _ _ _ _ Ho Hin'). apply u64_small, Hu.
      * eapply words_apart; [by apply (layout_words trapframe_size [(A0, 112)] A0); [|apply list_elem_of_here]|exact (layout_words _ _ _ _ Ho Hin')|].
        intros <-. by apply Hne, (user_layout_a0 r 112).
Qed.

(** ** Into the kernel *)

Lemma switch_satp r c v :
  prv c = PS -> r <> Zero -> xs c r = v -> Z.shiftr v 60 = 0 \/ Z.shiftr v 60 = 8 ->
  step (Csrw Satp r) c = Some (set_synced false (cset Satp v c)).
Proof.
  intros Hp Hr Hv Hmode. cbn [step]. rewrite Hp, xget_ne, Hv by done. cbn [csr_allowed csr_write].
  replace ((Z.shiftr v 60 =? 0) || (Z.shiftr v 60 =? 8)) with true by lia. done.
Qed.

Lemma step_sfence c : prv c = PS -> step SfenceVma c = Some (set_synced true c).
Proof. intros Hp. cbn [step]. by rewrite Hp. Qed.

(** The stores of uservec, with a0 and sscratch already swapped. *)
Lemma uservec_saves k va u pf Q :
  words u -> (forall a, within pf trapframe_size a -> Q a) -> csrs k Sscratch = u A0 -> prv k = PS ->
  window true k va trapframe_size pf Q ->
  execute (save A0 user_others ++ Csrr T0 Sscratch :: save A0 [(T0, 112)]) (set_xs (fset A0 va u) k) =
    Some (set_xs (fset T0 (u A0) (fset A0 va u)) (set_ram (frame_saved pf u (ram k)) k)).
Proof.
  intros Hu HQ Hscr Hp Hw. pose proof user_layout_ok as [_ Ho]. set (f := fset A0 va u).
  assert (Hkeep : forall g m, untouched Q (ram k) m -> window true (set_xs g (set_ram m k)) va trapframe_size pf Q)
    by (intros g m Hm; apply (window_keep true k); [done..|exact Hm|exact Hw]).
  rewrite execute_app, (execute_save A0 _ (set_xs f k) trapframe_size pf Q); [|done|exact Ho|exact HQ|exact (Hkeep f _ (untouched_refl _ _))].
  cbn [mbind option_bind]. change (set_ram _ (set_xs f k)) with (set_xs f (set_ram (saved pf user_others f (ram k)) k)).
  replace (saved pf user_others f (ram k)) with (saved pf user_others u (ram k)).
  2: { apply saved_ext. intros r o Hin. apply user_others_in in Hin as [Hr _]. unfold f. by rewrite fset_ne. }
  set (m := saved pf user_others u (ram k)).
  assert (Hm : untouched Q (ram k) m) by (eapply untouched_weaken; [exact HQ|apply (saved_untouched _ _ _ _ _ Ho)]).
  erewrite execute_cons; [|cbn [step csr_allowed prv set_xs set_ram]; rewrite Hp, xset_ne by done; cbn [csr_read csrs set_xs set_ram]; rewrite Hscr; reflexivity].
  rewrite (execute_save A0 _ _ trapframe_size pf Q); [reflexivity|done|reflexivity|exact HQ|].
  exact (Hkeep (fset T0 (u A0) f) m Hm).
Qed.

Lemma kernel_word m pf tf o v : holds_tf m pf tf -> (o, v) ∈ kernel_words tf -> ld64 m (pf + o) = v.
Proof. intros [Hk _]%holds_tf_split. apply Hk. Qed.

Definition kernel_entry : layout := [(Sp, 8); (Tp, 32); (T0, 16); (T1, 0)].

(** The rest of uservec: the kernel's stack, hart number, handler and page table. *)
Lemma uservec_enters c pf Q tf :
  prv c = PS -> window false c (xs c A0) trapframe_size pf Q -> holds_tf (ram c) pf tf -> Z.shiftr (tf_kernel_satp tf) 60 = 8 ->
  exists g, execute (load A0 kernel_entry ++ [Csrw Satp T1; SfenceVma; Jr T0]) c =
      Some (go (tf_kernel_trap tf - tf_kernel_trap tf mod 2) (set_synced true (cset Satp (tf_kernel_satp tf) (set_xs g c)))) /\
    g Sp = tf_kernel_sp tf /\ g Tp = tf_kernel_hartid tf.
Proof.
  intros Hp Hw Htf Hmode. rewrite execute_app, (execute_load A0 kernel_entry c trapframe_size pf Q); [|done|reflexivity|exact Hw|].
  2: { intros o Ho. unfold kernel_entry in Ho. rewrite !elem_of_cons, elem_of_nil in Ho. naive_solver. }
  cbn [mbind option_bind]. set (g := loaded pf kernel_entry (ram c) (xs c)).
  assert (G1 : g T1 = tf_kernel_satp tf) by (apply (kernel_word (ram c) pf tf 0 _ Htf); in_layout).
  assert (G0 : g T0 = tf_kernel_trap tf) by (apply (kernel_word (ram c) pf tf 16 _ Htf); in_layout).
  exists g. split; [|split; [apply (kernel_word (ram c) pf tf 8 _ Htf)|apply (kernel_word (ram c) pf tf 32 _ Htf)]; in_layout].
  rewrite (execute_cons _ _ _ _ (switch_satp T1 (set_xs g c) _ Hp ltac:(done) G1 (or_intror Hmode))).
  rewrite (execute_cons SfenceVma _ _ _ (step_sfence (set_synced false (cset Satp (tf_kernel_satp tf) (set_xs g c))) Hp)).
  cbn [execute step mbind option_bind]. rewrite xget_ne by done. cbn [xs set_xs set_synced cset]. by rewrite G0.
Qed.

Lemma uservec_run cause u pf Q tf :
  words (xs u) -> (forall a, within pf trapframe_size a -> Q a) ->
  window true (strap cause u) (csrs u Sscratch) trapframe_size pf Q ->
  window false (strap cause u) (csrs u Sscratch) trapframe_size pf Q ->
  holds_tf (ram u) pf tf -> Z.shiftr (tf_kernel_satp tf) 60 = 8 ->
  exists c, execute uservec (strap cause u) = Some c /\
    ram c = frame_saved pf (xs u) (ram u) /\
    xs c Sp = tf_kernel_sp tf /\ xs c Tp = tf_kernel_hartid tf /\ pc c = tf_kernel_trap tf - tf_kernel_trap tf mod 2 /\
    prv c = PS /\ synced c = true /\ csrs c Satp = tf_kernel_satp tf /\
    (forall k, k <> Satp -> k <> Sscratch -> csrs c k = csrs (strap cause u) k).
Proof.
  intros Hu HQ Hwt Hwf Htf Hmode. set (va := csrs u Sscratch) in *.
  change uservec with (Csrrw A0 Sscratch A0 :: (save A0 user_others ++ Csrr T0 Sscratch :: save A0 [(T0, 112)]) ++
    load A0 kernel_entry ++ [Csrw Satp T1; SfenceVma; Jr T0]).
  set (k := cset Sscratch (xs u A0) (strap cause u)).
  rewrite (execute_cons (Csrrw A0 Sscratch A0) _ (strap cause u) (set_xs (fset A0 va (xs u)) k) eq_refl), execute_app.
  rewrite (uservec_saves k va (xs u) pf Q Hu HQ eq_refl eq_refl) by (apply (window_keep true (strap cause u)); [done..|apply untouched_refl|exact Hwt]).
  cbn [mbind option_bind]. set (m := frame_saved pf (xs u) (ram k)).
  set (c1 := set_xs (fset T0 (xs u A0) (fset A0 va (xs u))) (set_ram m k)).
  destruct (uservec_enters c1 pf Q (with_regs (xs u) tf)) as (g & R & Hsp & Htp); [done| |by apply frame_saved_holds|exact Hmode|].
  - apply (window_keep false (strap cause u)); [done..| |exact Hwf].
    eapply untouched_weaken; [exact HQ|apply frame_saved_untouched].
  - eexists. split; [exact R|]. split_and!; try reflexivity; [exact Hsp|exact Htp|].
    intros k' H1 H2. cbn -[strap]. do 2 rewrite fset_ne by congruence. reflexivity.
Qed.

(** ** Back to user space *)

Lemma userret_run c pf Q tf :
  prv c = PS -> get_bit 8 (csrs c Mstatus) = false ->
  Z.shiftr (xs c A1) 60 = 8 ->
  window false (set_synced true (cset Satp (xs c A1) c)) (xs c A0) trapframe_size pf Q ->
  holds_tf (ram c) pf tf ->
  exists c', execute userret c = Some c' /\
    (forall r, r <> Zero -> xs c' r = tf_reg tf r) /\ pc c' = csrs c Sepc /\ prv c' = PU /\ ram c' = ram c /\ synced c' = true /\
    csrs c' Satp = xs c A1 /\ csrs c' Sscratch = xs c A0 /\ get_bit 1 (csrs c' Mstatus) = get_bit 5 (csrs c Mstatus) /\
    (forall k, k ∉ [Mstatus; Satp; Sscratch] -> csrs c' k = csrs c k).
Proof.
  intros Hp Hspp Hmode Hw Htf. pose proof user_layout_ok as [_ Ho]. apply holds_tf_split in Htf as [_ Htf].
  change userret with ([Csrw Satp A1; SfenceVma] ++ load A0 [(T0, 112)] ++ Csrw Sscratch T0 :: load A0 user_others ++ [Csrrw A0 Sscratch A0; Sret]).
  cbn [app]. rewrite (execute_cons _ _ _ _ (switch_satp A1 c _ Hp ltac:(done) eq_refl (or_intror Hmode))).
  rewrite (execute_cons SfenceVma _ _ _ (step_sfence (set_synced false (cset Satp (xs c A1) c)) Hp)).
  change (set_synced true _) with (set_synced true (cset Satp (xs c A1) c)). set (c1 := set_synced true (cset Satp (xs c A1) c)) in *.
  rewrite execute_app, (execute_load A0 _ c1 trapframe_size pf Q); [|done|reflexivity|exact Hw|].
  2: { intros o [=]%list_elem_of_singleton. }
  cbn [mbind option_bind]. change (loaded _ [(T0, 112)] _ _) with (fset T0 (ld64 (ram c) (pf + 112)) (xs c)).
  rewrite (Htf A0 112) by in_layout. set (g := fset T0 (tf_reg tf A0) (xs c)).
  set (c2 := set_xs g (cset Sscratch (tf_reg tf A0) c1)).
  erewrite (execute_cons (Csrw Sscratch T0) _ _ c2); [|cbn [step prv set_xs]; change (prv c1) with (prv c); rewrite Hp; reflexivity].
  rewrite execute_app, (execute_load A0 _ c2 trapframe_size pf Q); [|done|exact Ho| |].
  2: { apply (window_keep false c1); [done..|apply untouched_refl|exact Hw]. }
  2: { intros o [Hin _]%user_others_in. by destruct (Hin eq_refl). }
  cbn [mbind option_bind]. set (h := loaded pf user_others (ram c2) (xs c2)).
  assert (Ha0 : h A0 = xs c A0) by (etrans; [apply loaded_other, (bool_decide_unpack _); reflexivity|reflexivity]).
  set (c3 := set_xs (fset A0 (tf_reg tf A0) h) (cset Sscratch (h A0) c2)).
  erewrite (execute_cons (Csrrw A0 Sscratch A0) _ _ c3); [|cbn [step prv set_xs]; change (prv c2) with (prv c); rewrite Hp; reflexivity].
  rewrite (execute_cons Sret _ _ _ (step_sret c3 Hp)). eexists. split; [reflexivity|].
  change (csrs (sret c3) Sscratch) with (h A0). change (prv (sret c3)) with (if get_bit 8 (csrs c Mstatus) then PS else PU). rewrite Ha0, Hspp.
  split_and!; try reflexivity.
  - intros r Hz. change (fset A0 (tf_reg tf A0) h r = tf_reg tf r). unfold fset. case_decide as E; [by subst|].
    destruct (user_layout_all r Hz) as (o & Hin). rewrite <- (Htf r o Hin).
    apply (loaded_in pf trapframe_size user_others (ram c2) (xs c2) r o Ho), user_others_in. split; [congruence|exact Hin].
  - change (get_bit 1 (set_bit 8 false (set_bit 5 true (set_bit 1 (get_bit 5 (csrs c Mstatus)) (csrs c Mstatus)))) = get_bit 5 (csrs c Mstatus)).
    by rewrite !get_set_bit_ne, get_set_bit by lia.
  - intros k Hk. rewrite !not_elem_of_cons in Hk. clear - Hk. destruct k; try (exfalso; tauto); reflexivity.
Qed.

(** ** The round trip *)

(** What uservec finds on a trap from user space: the trapframe, in the user page
    table, at the address in sscratch, and in it the kernel's entry. *)
Record in_user (pf : Z) (Q : Z -> Prop) (tf : trapframe) (u : core) : Prop := {
  iu_words : words (xs u);
  iu_mode : prv u = PU;
  iu_store cause : window true (strap cause u) (csrs u Sscratch) trapframe_size pf Q;
  iu_load cause : window false (strap cause u) (csrs u Sscratch) trapframe_size pf Q;
  iu_frame : holds_tf (ram u) pf tf;
  iu_kernel : Z.shiftr (tf_kernel_satp tf) 60 = 8
}.

(** What usertrapret leaves for userret: a0 and a1 hold the address of the trapframe
    and the user page table, sstatus says user mode. *)
Record to_user (pf : Z) (Q : Z -> Prop) (tf : trapframe) (c : core) : Prop := {
  ru_mode : prv c = PS;
  ru_spp : get_bit 8 (csrs c Mstatus) = false;
  ru_satp : Z.shiftr (xs c A1) 60 = 8;
  ru_load : window false (set_synced true (cset Satp (xs c A1) c)) (xs c A0) trapframe_size pf Q;
  ru_frame : holds_tf (ram c) pf tf
}.

(** C4: A trap from user space saves all 31 user registers in the struct trapframe and enters
    the handler it names in supervisor mode with its stack pointer, hart number and page table,
    touching nothing else; and whenever the kernel goes back through userret with that trapframe
    - its registers changed at will, as a system call does with a0 - user mode goes on at sepc
    with exactly the registers of the trapframe. *)
Theorem trampoline_round_trip cause u pf Q tf :
  in_user pf Q tf u -> (forall a, within pf trapframe_size a -> Q a) ->
  exists c, execute uservec (strap cause u) = Some c /\
    holds_tf (ram c) pf (with_regs (xs u) tf) /\ untouched (within pf trapframe_size) (ram u) (ram c) /\
    prv c = PS /\ pc c = tf_kernel_trap tf - tf_kernel_trap tf mod 2 /\
    xs c Sp = tf_kernel_sp tf /\ xs c Tp = tf_kernel_hartid tf /\ csrs c Satp = tf_kernel_satp tf /\ synced c = true /\
    csrs c Sepc = pc u /\ csrs c Scause = cause /\ get_bit 8 (csrs c Mstatus) = false /\ get_bit 1 (csrs c Mstatus) = false /\
    forall c1 v epc, to_user pf Q (with_regs (fset A0 v (xs u)) tf) c1 -> csrs c1 Sepc = epc ->
      exists u', execute userret c1 = Some u' /\ prv u' = PU /\ pc u' = epc /\
        xs u' A0 = v /\ (forall r, r <> Zero -> r <> A0 -> xs u' r = xs u r) /\
        csrs u' Satp = xs c1 A1 /\ csrs u' Sscratch = xs c1 A0 /\ ram u' = ram c1.
Proof.
  intros [Hu Hp Hwt Hwf Htf Hk] HQ. destruct (uservec_run cause u pf Q tf) as (c & R & Hm & Hsp & Htp & Hpc & Hps & Hsy & Hsatp & Hcsr); [done..|].
  exists c. split; [exact R|]. rewrite Hm, (Hcsr Sepc), (Hcsr Scause), (Hcsr Mstatus) by done.
  pose proof (strap_sret_bits cause u) as [_ H8]. rewrite Hp in H8.
  split_and!; try done; [by apply frame_saved_holds|apply frame_saved_untouched| |].
  - change (csrs (strap cause u) Mstatus) with (set_bit 8 (bool_decide (prv u <> PU)) (set_bit 1 false (set_bit 5 (get_bit 1 (csrs u Mstatus)) (csrs u Mstatus)))).
    by rewrite get_set_bit_ne, get_set_bit by lia.
  - intros c1 v epc [Hp1 Hspp Hsatp1 Hw1 Hf1] <-.
    destruct (userret_run c1 pf Q _ Hp1 Hspp Hsatp1 Hw1 Hf1) as (u' & R' & Hr & Hpc' & Hpu & Hram & _ & Hs & Hscr & _).
    exists u'. split; [exact R'|]. split_and!; try done.
    + apply (Hr A0). done.
    + intros r Hz Ha. rewrite Hr, tf_reg_with_regs by done. by apply fset_ne.
Qed.

(** A user page table that maps a page at TRAPFRAME for the kernel alone. *)
Section User.
#[local] Existing Instance platform0.
#[local] Existing Instance platform0_ok.

Definition frame_page : Z := 0x80300000.

Lemma trapframe_memory :
  exists m lvl, shape m lvl /\ lvl !! root0 = Some 2%nat /\
    translate m root0 TRAPFRAME = Some (leaf frame_page (Z.lor PTE_R PTE_W)) /\
    forall p a, is_Some (lvl !! p) -> p <= a < p + PGSIZE -> ~ within frame_page trapframe_size a.
Proof.
  destruct (mappages_run root0 TRAPFRAME 4096 frame_page (Z.lor PTE_R PTE_W) {[root0 := 2%nat]} spare []
    (stocked spare (machine []))) as (r & s & lvl & l' & _ & Rm & _ & Hen & Hmap & _).
  - apply spare_space.
  - reflexivity.
  - vm_compute. congruence.
  - lia.
  - vm_compute. congruence.
  - split; [reflexivity|]. vm_compute. split; congruence.
  - vm_compute. congruence.
  - vm_compute. split; congruence.
  - intros a _. apply spare_space.
  - assert (r = 0) as -> by (apply Hen; vm_compute; lia). specialize (Hmap eq_refl).
    exists (mem s), lvl. split; [apply Rm|]. split; [eapply lookup_weaken; [|apply Rm]; reflexivity|]. split.
    + rewrite Hmap by (vm_compute; intuition congruence). reflexivity.
    + intros p a Hp Ha. unfold within, frame_page, trapframe_size, PGSIZE in *.
      apply (remapped_tables _ _ _ _ _ _ Rm) in Hp as [[k Hk]|Hp].
      * apply lookup_singleton_Some in Hk as [<- _]. unfold root0 in Ha. lia.
      * apply list_elem_of_fmap in Hp as (k & -> & Hk%elem_of_seq). lia.
Qed.

(** The trapframe that memory holds. *)
Definition read_tf (m : gmap Z Z) (pa : Z) : trapframe :=
  let w o := ld64 m (pa + o) in
  mktrapframe (w 0) (w 8) (w 16) (w 24) (w 32) (w 40) (w 48) (w 56) (w 64) (w 72) (w 80) (w 88) (w 96) (w 104) (w 112) (w 120)
    (w 128) (w 136) (w 144) (w 152) (w 160) (w 168) (w 176) (w 184) (w 192) (w 200) (w 208) (w 216) (w 224) (w 232) (w 240)
    (w 248) (w 256) (w 264) (w 272) (w 280).

Lemma holds_read_tf m pa : holds_tf m pa (read_tf m pa).
Proof.
  intros o v Hin. assert (Forall (fun ov => ld64 m (pa + ov.1) = ov.2) (trapframe_words (read_tf m pa))) as Hf
    by (repeat (constructor; [reflexivity|]); constructor).
  rewrite Forall_forall in Hf. exact (Hf (o, v) Hin).
Qed.

Definition user_core (m : gmap Z Z) : core :=
  mkcore (fun r => match r with Sp => 0x3000 | A7 => 16 | A0 => 1 | _ => 5 end)
    (fun k => match k with Satp => MAKE_SATP root0 | Sscratch => TRAPFRAME | _ => 0 end) PU 0x40 true m.

Lemma user_core_in m lvl :
  shape m lvl -> lvl !! root0 = Some 2%nat -> translate m root0 TRAPFRAME = Some (leaf frame_page (Z.lor PTE_R PTE_W)) ->
  (forall p a, is_Some (lvl !! p) -> p <= a < p + PGSIZE -> ~ within frame_page trapframe_size a) ->
  Z.shiftr (ld64 m frame_page) 60 = 8 ->
  in_user frame_page (within frame_page trapframe_size) (read_tf m frame_page) (user_core m).
Proof.
  intros Hs Hr Ht Hap Hk.
  assert (Hw : forall st cause, window st (strap cause (user_core m)) TRAPFRAME trapframe_size frame_page (within frame_page trapframe_size)).
  { intros st cause. change frame_page with (PTE2PA (leaf frame_page (Z.lor PTE_R PTE_W)) + TRAPFRAME mod 4096) at 1.
    apply (window_paged st (strap cause (user_core m)) lvl root0 TRAPFRAME trapframe_size (leaf frame_page (Z.lor PTE_R PTE_W)));
      [discriminate|reflexivity|reflexivity|exact Hs|exact Hr|exact Hap|vm_compute; congruence|reflexivity|vm_compute; congruence..|exact Ht|].
    destruct st; reflexivity. }
  split; [|reflexivity|intros; apply Hw|intros; apply Hw|apply holds_read_tf|exact Hk].
  intros r. destruct r; cbn; lia.
Qed.

Lemma trampoline_round_trip_witness :
  exists u c pf, prv u = PU /\ execute uservec (strap 8 u) = Some c /\ prv c = PS /\ ld64 (ram c) (pf + 168) = 16 /\ csrs c Sepc = 0x40.
Proof.
  destruct trapframe_memory as (m0 & lvl & Hs & Hr & Ht & Hap).
  set (m := st64 frame_page (2 ^ 63) m0).
  assert (Hsame : same_tables lvl m0 m).
  { intros p a Hp Ha. apply ld8_st64_ne. intros Hb. apply (Hap p a Hp Ha). unfold within, trapframe_size. lia. }
  destruct (trampoline_round_trip 8 (user_core m) frame_page (within frame_page trapframe_size) (read_tf m frame_page))
    as (c & R & Hf & _ & Hp & _ & _ & _ & _ & _ & Hepc & _).
  - apply (user_core_in m lvl); [by eapply shape_same_tables|done| |done|unfold m; rewrite ld64_st64; reflexivity].
    by rewrite (translate_same_tables lvl m0 m).
  - done.
  - exists (user_core m), c, frame_page. split; [reflexivity|]. split; [exact R|]. split; [exact Hp|]. split; [|exact Hepc].
    apply (Hf 168 16). in_layout.
Defined.

End User.
