(* ===== verification/Start.v ===== *)
(** * Booting a hart: entry.S and start.c

    Every hart starts in machine mode at _entry, gets its part of stack0 and calls
    start(), which prepares the machine-mode registers, asks for timer interrupts
    and drops into main() in supervisor mode.  The C code is a function on the hart
    of Riscv.v; the register accessors are those of riscv.h. *)

From S2P Require Import Prelude State Machine Cstring Kalloc Vm Pagetable Riscv Asm.

(** ** The accessors of riscv.h *)

Definition r_mhartid (c : core) : Z := csr_read Mhartid c.
Definition r_mstatus (c : core) : Z := csr_read Mstatus c.
Definition w_mstatus (x : Z) (c : core) : core := csr_write Mstatus x c.
Definition w_mepc (x : Z) (c : core) : core := csr_write Mepc x c.
Definition w_satp (x : Z) (c : core) : core := csr_write Satp x c.
Definition w_medeleg (x : Z) (c : core) : core := csr_write Medeleg x c.
Definition w_mideleg (x : Z) (c : core) : core := csr_write Mideleg x c.
Definition r_sie (c : core) : Z := csr_read Sie c.
Definition w_sie (x : Z) (c : core) : core := csr_write Sie x c.
Definition w_pmpaddr0 (x : Z) (c : core) : core := csr_write Pmpaddr0 x c.
Definition w_pmpcfg0 (x : Z) (c : core) : core := csr_write Pmpcfg0 x c.
Definition r_mie (c : core) : Z := csr_read Mie c.
Definition w_mie (x : Z) (c : core) : core := csr_write Mie x c.
Definition w_mscratch (x : Z) (c : core) : core := csr_write Mscratch x c.
Definition w_mtvec (x : Z) (c : core) : core := csr_write Mtvec x c.
Definition w_tp (x : Z) (c : core) : core := xset Tp x c.

Definition MSTATUS_MPP_MASK : Z := Z.shiftl 3 11.
Definition MSTATUS_MPP_S : Z := Z.shiftl 1 11.
Definition MSTATUS_MIE : Z := Z.shiftl 1 3.
Definition SIE_SEIE : Z := Z.shiftl 1 9.
Definition SIE_STIE : Z := Z.shiftl 1 5.
Definition SIE_SSIE : Z := Z.shiftl 1 1.
Definition MIE_MTIE : Z := Z.shiftl 1 7.

Definition CLINT : Z := 0x2000000.
Definition CLINT_MTIMECMP (hartid : Z) : Z := CLINT + 0x4000 + 8 * hartid.
Definition CLINT_MTIME : Z := CLINT + 0xBFF8.

(** The addresses the linker gives. *)
Class Symbols := {
  sym_stack0 : Z;
  sym_timer_scratch : Z;
  sym_timervec : Z;
  sym_main : Z;
}.

(** The kernel is linked from KERNBASE on, far above the CLINT, and aligned as the
    sources say. *)
Class SymbolsOk `{Symbols} : Prop := {
  stack0_ok : KERNBASE <= sym_stack0 < PHYSTOP;
  timer_scratch_ok : KERNBASE <= sym_timer_scratch < PHYSTOP /\ sym_timer_scratch mod 8 = 0;
  main_ok : sym_main mod 2 = 0;
}.

Section Boot.
Context `{Symbols}.

(** ** start.c *)

Definition store (a v : Z) (c : core) : core := set_ram (st64 a v (ram c)) c.

Definition timerinit (c : core) : core :=
  let id := s32 (r_mhartid c) in
  let interval := 1000000 in
  let c := store (CLINT_MTIMECMP id) (u64 (ld64 (ram c) CLINT_MTIME + interval)) c in
  let scratch := sym_timer_scratch + 8 * (5 * id) in
  let c := store (scratch + 8 * 3) (CLINT_MTIMECMP id) c in
  let c := store (scratch + 8 * 4) interval c in
  let c := w_mscratch scratch c in
  let c := w_mtvec sym_timervec c in
  let c := w_mstatus (Z.lor (r_mstatus c) MSTATUS_MIE) c in
  w_mie (Z.lor (r_mie c) MIE_MTIE) c.

Definition start (c : core) : core :=
  let x := r_mstatus c in
  let x := Z.land x (Z.lnot MSTATUS_MPP_MASK) in
  let x := Z.lor x MSTATUS_MPP_S in
  let c := w_mstatus x c in
  let c := w_mepc sym_main c in
  let c := w_satp 0 c in
  let c := w_medeleg 0xffff c in
  let c := w_mideleg 0xffff c in
  let c := w_sie (Z.lor (Z.lor (Z.lor (r_sie c) SIE_SEIE) SIE_STIE) SIE_SSIE) c in
  let c := w_pmpaddr0 0x3fffffffffffff c in
  let c := w_pmpcfg0 0xf c in
  let c := timerinit c in
  let id := s32 (r_mhartid c) in
  let c := w_tp (u64 id) c in
  mret c.

(** ** entry.S *)

Definition _entry : list instr := [
  Li Sp sym_stack0;
  Li A0 (1024 * 4);
  Csrr A1 Mhartid;
  Addi A1 A1 1;
  Mul A0 A0 A1;
  Add Sp Sp A0;
  Call (fun c => Some (start c))].

(** ** What booting sets up *)

Lemma merge_bit mask x old n :
  Z.testbit (merge mask x old) n = if Z.testbit mask n then Z.testbit x n else Z.testbit old n.
Proof.
  unfold merge. rewrite Z.lor_spec, Z.land_spec, Z.ldiff_spec.
  destruct (Z.testbit mask n); [by rewrite andb_true_r, andb_false_r, orb_false_r|by rewrite andb_false_r, andb_true_r].
Qed.

(** The registers that supervisor code finds. *)
Record hart_booted (id : Z) (c0 c : core) : Prop := {
  hb_mode : prv c = PS;
  hb_pc : pc c = sym_main;
  hb_sp : xs c Sp = sym_stack0 + 4096 * (id + 1);
  hb_tp : xs c Tp = id;
  hb_satp : csrs c Satp = 0;
  hb_pmp : csrs c Pmpcfg0 = 0xf /\ csrs c Pmpaddr0 = 0x3fffffffffffff;
  hb_interrupts : csrs c Mideleg = 0x222;
  hb_exceptions n : 0 <= n < 16 -> Z.testbit (csrs c Medeleg) n = negb (n =? 11);
  hb_enabled n : n = 1 \/ n = 5 \/ n = 7 \/ n = 9 -> Z.testbit (csrs c Mie) n = true;
  hb_sie : get_bit 1 (csrs c Mstatus) = get_bit 1 (csrs c0 Mstatus);
  hb_mtvec : csrs c Mtvec = sym_timervec;
  hb_timer : timer_ready (CLINT_MTIMECMP id) 1000000 c;
  hb_first : ld64 (ram c) (CLINT_MTIMECMP id) = u64 (ld64 (ram c0) CLINT_MTIME + 1000000);
  hb_ram : untouched (fun a => within (CLINT_MTIMECMP id) 8 a \/ within (sym_timer_scratch + 40 * id) 40 a) (ram c0) (ram c)
}.

(** start() is called on the hart's own stack. *)
Lemma entry_calls `{!SymbolsOk} c :
  prv c = PM -> 0 <= csrs c Mhartid < Z.of_nat NCPU ->
  exists f, execute _entry c = Some (start (set_xs f c)) /\ f Sp = sym_stack0 + 4096 * (csrs c Mhartid + 1).
Proof.
  intros Hp Hid. set (id := csrs c Mhartid) in *. pose proof stack0_ok as Hs. change (Z.of_nat NCPU) with 8 in Hid.
  unfold PHYSTOP, KERNBASE in Hs.
  set (f1 := fset Sp (u64 sym_stack0) (xs c)). set (f2 := fset A0 (1024 * 4) f1). set (f3 := fset A1 id f2).
  unfold _entry. rewrite (execute_cons (Li Sp sym_stack0) _ c (set_xs f1 c) eq_refl).
  rewrite (execute_cons (Li A0 (1024 * 4)) _ (set_xs f1 c) (set_xs f2 c) eq_refl).
  erewrite (execute_cons (Csrr A1 Mhartid) _ _ (set_xs f3 c)); [|cbn [step prv set_xs]; rewrite Hp; reflexivity].
  set (f4 := fset A1 (u64 (id + 1)) f3). rewrite (execute_cons (Addi A1 A1 1) _ (set_xs f3 c) (set_xs f4 c) eq_refl).
  set (f5 := fset A0 (u64 (1024 * 4 * u64 (id + 1))) f4). rewrite (execute_cons (Mul A0 A0 A1) _ (set_xs f4 c) (set_xs f5 c) eq_refl).
  set (f6 := fset Sp (u64 (u64 sym_stack0 + u64 (1024 * 4 * u64 (id + 1)))) f5).
  rewrite (execute_cons (Add Sp Sp A0) _ (set_xs f5 c) (set_xs f6 c) eq_refl). exists f6. split; [reflexivity|].
  change (f6 Sp) with (u64 (u64 sym_stack0 + u64 (1024 * 4 * u64 (id + 1)))).
  rewrite (u64_small (id + 1)), (u64_small (1024 * 4 * _)), (u64_small sym_stack0), u64_small; lia.
Qed.

Definition set_csrs (f : csr -> Z) (c : core) : core := mkcore (xs c) f (prv c) (pc c) (synced c) (ram c).

(** The registers before timerinit(). *)
Definition prepared (f : csr -> Z) : csr -> Z :=
  fset Pmpcfg0 0xf (fset Pmpaddr0 0x3fffffffffffff
  (fset Mie (merge SINTS (Z.lor (Z.lor (Z.lor (Z.land (f Mie) SINTS) SIE_SEIE) SIE_STIE) SIE_SSIE) (f Mie))
  (fset Mideleg SINTS (fset Medeleg 0xf7ff (fset Satp 0 (fset Mepc (sym_main - sym_main mod 2)
  (fset Mstatus (Z.lor (Z.land (f Mstatus) (Z.lnot MSTATUS_MPP_MASK)) MSTATUS_MPP_S) f))))))).

(** ... and after it. *)
Definition timer_csrs (sc : Z) (f : csr -> Z) : csr -> Z :=
  fset Mie (Z.lor (f Mie) MIE_MTIE) (fset Mstatus (Z.lor (f Mstatus) MSTATUS_MIE) (fset Mtvec sym_timervec (fset Mscratch sc f))).

Definition timer_ram (id sc : Z) (m : gmap Z Z) : gmap Z Z :=
  st64 (sc + 32) 1000000 (st64 (sc + 24) (CLINT_MTIMECMP id) (st64 (CLINT_MTIMECMP id) (u64 (ld64 m CLINT_MTIME + 1000000)) m)).

Lemma timerinit_eq id c :
  s32 (csrs c Mhartid) = id ->
  timerinit c = set_ram (timer_ram id (sym_timer_scratch + 40 * id) (ram c)) (set_csrs (timer_csrs (sym_timer_scratch + 40 * id) (csrs c)) c).
Proof.
  intros Hid. unfold timerinit, r_mhartid. cbn [csr_read]. rewrite Hid. replace (8 * (5 * id)) with (40 * id) by lia. reflexivity.
Qed.

Lemma start_eq id c :
  s32 (csrs c Mhartid) = id -> 0 <= id ->
  start c = mret (set_xs (fset Tp (u64 id) (xs c)) (set_synced false
    (set_ram (timer_ram id (sym_timer_scratch + 40 * id) (ram c))
      (set_csrs (timer_csrs (sym_timer_scratch + 40 * id) (prepared (csrs c))) c)))).
Proof.
  intros Hid H0. set (c1 := set_synced false (set_csrs (prepared (csrs c)) c)).
  change (start c) with (mret (w_tp (u64 (s32 (r_mhartid (timerinit c1)))) (timerinit c1))).
  rewrite (timerinit_eq id c1) by exact Hid. unfold w_tp. rewrite xset_ne by done.
  change (r_mhartid _) with (csrs c Mhartid). rewrite Hid. reflexivity.
Qed.

(** mret finds supervisor mode in MPP. *)
Lemma start_mpp x :
  mpp (Z.lor (Z.lor (Z.land x (Z.lnot MSTATUS_MPP_MASK)) MSTATUS_MPP_S) MSTATUS_MIE) = 1.
Proof.
  unfold mpp. apply Z.bits_inj'. intros n Hn. rewrite Z.land_spec, Z.shiftr_spec, !Z.lor_spec, Z.land_spec, Z.lnot_spec by lia.
  destruct (decide (n < 2)) as [|Hge].
  - assert (n = 0 \/ n = 1) as [-> | ->] by lia; cbn -[Z.testbit]; [|rewrite andb_false_r; reflexivity].
    change (Z.testbit MSTATUS_MPP_S 11) with true. by rewrite orb_true_r.
  - rewrite !(Z.bits_above_log2 3 n), (Z.bits_above_log2 1 n) by (cbn; lia). apply andb_false_r.
Qed.

Lemma start_sie b x :
  get_bit 1 (set_mpp 0 (set_bit 7 true (set_bit 3 b (Z.lor (Z.lor (Z.land x (Z.lnot MSTATUS_MPP_MASK)) MSTATUS_MPP_S) MSTATUS_MIE)))) = get_bit 1 x.
Proof.
  rewrite get_bit_set_mpp, !get_set_bit_ne by lia. unfold get_bit. rewrite !Z.lor_spec, Z.land_spec, Z.lnot_spec by lia.
  cbn. by rewrite !orb_false_r, andb_true_r.
Qed.

Lemma timer_ram_untouched id sc m :
  untouched (fun a => within (CLINT_MTIMECMP id) 8 a \/ within sc 40 a) m (timer_ram id sc m).
Proof. intros a Ha. unfold timer_ram, within in *. by rewrite !ld8_st64_ne by lia. Qed.

Lemma timer_ram_ready `{!SymbolsOk} id m :
  0 <= id < 8 -> let sc := sym_timer_scratch + 40 * id in let m' := timer_ram id sc m in
  ld64 m' (sc + 24) = CLINT_MTIMECMP id /\ ld64 m' (sc + 32) = 1000000 /\
  ld64 m' (CLINT_MTIMECMP id) = u64 (ld64 m CLINT_MTIME + 1000000).
Proof.
  intros Hid sc m'. pose proof timer_scratch_ok as [Hts _]. unfold PHYSTOP, KERNBASE in Hts.
  assert (0x2004000 <= CLINT_MTIMECMP id < 0x2004040) by (unfold CLINT_MTIMECMP, CLINT; lia). unfold m', timer_ram. split_and!.
  - rewrite ld64_st64_ne, ld64_st64 by lia. apply u64_small. lia.
  - by rewrite ld64_st64.
  - rewrite !ld64_st64_ne, ld64_st64 by (unfold sc; lia). apply Z.mod_mod. discriminate.
Qed.

Lemma prepared_mie x n : n = 1 \/ n = 5 \/ n = 7 \/ n = 9 ->
  Z.testbit (Z.lor (merge SINTS (Z.lor (Z.lor (Z.lor (Z.land x SINTS) SIE_SEIE) SIE_STIE) SIE_SSIE) x) MIE_MTIE) n = true.
Proof.
  intros Hn. rewrite Z.lor_spec, merge_bit, !Z.lor_spec. destruct Hn as [->|[->|[->| ->]]]; cbn; by rewrite ?orb_true_r.
Qed.

Lemma delegated n : 0 <= n < 16 -> Z.testbit 0xf7ff n = negb (n =? 11).
Proof.
  intros Hn. assert (Forall (fun n => Z.testbit 0xf7ff n = negb (n =? 11)) (seqZ 0 16)) as Hf by (apply (bool_decide_unpack _); reflexivity).
  rewrite Forall_forall in Hf. apply Hf, elem_of_seqZ. lia.
Qed.

Lemma start_booted `{!SymbolsOk} id c :
  csrs c Mhartid = id -> 0 <= id < Z.of_nat NCPU -> xs c Sp = sym_stack0 + 4096 * (id + 1) ->
  hart_booted id c (start c).
Proof.
  intros Eid Hid Hsp. change (Z.of_nat NCPU) with 8 in Hid. pose proof timer_scratch_ok as [Hts Hal]. unfold PHYSTOP, KERNBASE in Hts.
  rewrite (start_eq id c) by (rewrite ?Eid, ?s32_small; lia). set (sc := sym_timer_scratch + 40 * id).
  destruct (timer_ram_ready id (ram c) Hid) as (R24 & R32 & Rt). fold sc in R24, R32, Rt.
  assert (Ht : 0x2004000 <= CLINT_MTIMECMP id < 0x2004040 /\ CLINT_MTIMECMP id mod 8 = 0) by (unfold CLINT_MTIMECMP, CLINT; split; [lia|dlia]).
  split; try reflexivity.
  - change (priv_of (mpp (Z.lor (Z.lor (Z.land (csrs c Mstatus) (Z.lnot MSTATUS_MPP_MASK)) MSTATUS_MPP_S) MSTATUS_MIE)) = PS). by rewrite start_mpp.
  - change (sym_main - sym_main mod 2 = sym_main). rewrite main_ok. lia.
  - exact Hsp.
  - change (u64 id = id). apply u64_small. lia.
  - by split.
  - intros n Hn. by apply delegated.
  - intros n Hn. by apply prepared_mie.
  - apply start_sie.
  - split; [|exact R24|exact R32|split_and!; lia| |reflexivity]; change (csrs _ Mscratch) with sc; unfold sc; [split_and!; [lia|lia|dlia]|lia].
  - exact Rt.
  - apply timer_ram_untouched.
Qed.

(** C28: A hart that starts at _entry in machine mode reaches main() in supervisor mode with its
    own 4096 bytes of stack0, its number in tp, paging off, all of memory open to it, every
    supervisor interrupt and every exception but a call from machine mode delegated, the
    interrupt sources enabled, and the clock armed: the comparison register holds the time plus
    one interval and timervec finds its scratch words; no other memory is touched. *)
Theorem hart_boots `{!SymbolsOk} c :
  prv c = PM -> 0 <= csrs c Mhartid < Z.of_nat NCPU ->
  exists c', execute _entry c = Some c' /\ hart_booted (csrs c Mhartid) c c'.
Proof.
  intros Hp Hid. destruct (entry_calls c Hp Hid) as (f & R & Hsp). eexists. split; [exact R|].
  destruct (start_booted (csrs c Mhartid) (set_xs f c) eq_refl Hid Hsp) as []. by split.
Qed.

End Boot.

Definition symbols0 : Symbols :=
  {| sym_stack0 := 0x80008000; sym_timer_scratch := 0x80010000; sym_timervec := 0x80005000; sym_main := 0x80000100 |}.

Lemma symbols0_ok : @SymbolsOk symbols0.
Proof. split; vm_compute; intuition congruence. Qed.

Definition reset_core (id : Z) : core :=
  mkcore (fun _ => 0) (fun k => match k with Mhartid => id | _ => 0 end) PM 0x80000000 true (st64 CLINT_MTIME 77 ∅).

Lemma hart_boots_witness :
  exists c', execute (@_entry symbols0) (reset_core 3) = Some c' /\ prv c' = PS /\ pc c' = 0x80000100 /\
    xs c' Sp = 0x8000c000 /\ xs c' Tp = 3 /\ ld64 (ram c') (CLINT_MTIMECMP 3) = 1000077.
Proof.
  destruct (@hart_boots symbols0 symbols0_ok (reset_core 3)) as (c' & R & []); [reflexivity|split; vm_compute; congruence|].
  exists c'. split; [exact R|]. split; [done|]. split; [done|]. split; [done|]. split; [done|].
  etrans; [eassumption|]. vm_compute. reflexivity.
Defined.
