(* ===== verification/Uvm.v ===== *)
(** * Copying an address space: uvmcopy()

    A page that is mapped changes the translation of its own table only, and
    nothing of the kernel but memory and the free list; so uvmcopy() gives the child
    a frame of its own for every page, with the parent's bytes and permissions. *)

From S2P Require Import Prelude State Machine Monad Spinlock Cstring Kalloc Vm Pagetable.

(** Everything but memory and the free list. *)
Definition rest (s : kernel) : kernel := s <| mem := ∅ |> <| freelist := 0 |>.

Lemma rest_hw s s' : rest s' = rest s -> hw s' = hw s.
Proof. intros E. exact (f_equal hw E). Qed.

Lemma rest_procs s s' : rest s' = rest s -> procs s' = procs s.
Proof. intros E. exact (f_equal procs E). Qed.

Lemma rest_tfs s s' : rest s' = rest s -> tfs s' = tfs s.
Proof. intros E. exact (f_equal tfs E). Qed.

Lemma rest_ftable s s' : rest s' = rest s -> ftable s' = ftable s.
Proof. intros E. exact (f_equal ftable E). Qed.

Section Uvm.
Context `{Platform} `{!PlatformOk}.

Lemma mem_upd_const f s : s <| mem ::= f |> = s <| mem := f (mem s) |>.
Proof. reflexivity. Qed.

Lemma rest_upd f g s : rest (s <| freelist ::= f |> <| mem ::= g |>) = rest s.
Proof. reflexivity. Qed.

Lemma alloced_rest s : rest (alloced s) = rest s.
Proof. unfold alloced. destruct (freelist s =? 0); [reflexivity|apply rest_upd]. Qed.

Lemma walk_levels_rest level p va alloc e s r e' s' :
  settled (hw s) -> free LKmem (hw s) -> walk_levels level p va alloc e s = Ret r e' s' -> rest s' = rest s.
Proof.
  revert p s. induction level as [|level IH]; intros p s Hs Hf Hr; cbn [walk_levels] in Hr; [by injection Hr as _ _ <-|].
  unfold pte_get in Hr. rewrite step_gets in Hr. destruct (bit _ PTE_V); [by eapply IH|].
  destruct alloc; cbn [negb] in Hr; [|by injection Hr as _ _ <-].
  rewrite (bind_run _ _ _ _ _ _ _ (kalloc_run e s Hs Hf)) in Hr.
  destruct (freelist s =? 0); [injection Hr as _ _ <-; apply alloced_rest|].
  unfold mem_upd, pte_set, mem_upd in Hr. rewrite !step_modify in Hr. apply IH in Hr; [|st; by rewrite (rest_hw _ _ (alloced_rest s))..].
  rewrite Hr, <- (alloced_rest s). reflexivity.
Qed.

(** Writing an entry of one table leaves the others alone. *)
Lemma translate_set_other m lvl root root' va a v va' :
  shape m lvl -> lvl !! root = Some 2%nat -> lvl !! root' = Some 2%nat -> root <> root' ->
  trav m 2 root va = Some a -> translate (st64 a v m) root' va' = translate m root' va'.
Proof.
  intros Hs Hr Hr' Hne Ht. destruct (trav_leaf m lvl 2 root va a) as (p0 & Hp0 & ->); [done..|].
  pose proof (PX_range 0 va ltac:(lia)) as Hi. unfold translate. rewrite (trav_set_leaf m lvl) by done.
  destruct (trav m 2 root' va') as [a'|] eqn:Ht'; [|done].
  destruct (trav_leaf m lvl 2 root' va' a') as (p1 & Hp1 & ->); [done..|]. pose proof (PX_range 0 va' ltac:(lia)) as Hi'.
  fold (entry (st64 (pte_addr p0 (PX 0 va)) v m) p1 (PX 0 va')) (entry m p1 (PX 0 va')).
  rewrite entry_st64_ne; [done|by eapply shape_page..|done|done|]. intros [= -> Hpx].
  rewrite Hpx in Ht. by destruct (trav_inj m lvl 2 root root' va va' _ Hs Hr Hr' Ht Ht').
Qed.

(** Mapping one page. *)
Lemma map_page root v pa perm lvl l e s :
  space s lvl l -> lvl !! root = Some 2%nat -> 0 <= v < 2 ^ 26 -> frame_ok pa -> perm_ok perm ->
  translate (mem s) root (4096 * v) = None -> (2 <= length l)%nat ->
  exists s' lvl' l', mappages root (4096 * v) PGSIZE pa perm e s = Ret 0 e s' /\
    remapped s lvl l s' lvl' l' /\ (length l <= length l' + 2)%nat /\ rest s' = rest s /\
    (forall a, 0 <= a < MAXVA -> translate (mem s') root a = if vpn a =? v then Some (leaf pa perm) else translate (mem s) root a) /\
    (forall root' a, root' <> root -> lvl !! root' = Some 2%nat -> translate (mem s') root' a = translate (mem s) root' a).
Proof.
  intros Hsp Hr Hv Hpa Hperm Hnone Hlen. assert (Hva : 0 <= 4096 * v < MAXVA) by (change MAXVA with (2 ^ 38); lia).
  destruct (walk_alloc 2 root (4096 * v) lvl l e s Hsp Hr) as (r & s1 & lvl' & l' & Hw & W & Hl & Hen & Ht).
  specialize (Hen Hlen). specialize (Ht Hen). pose proof (walked_space _ _ _ _ _ _ W) as Hsp'.
  assert (Hsub : lvl ⊆ lvl') by apply W. assert (Hr' : lvl' !! root = Some 2%nat) by by eapply lookup_weaken.
  assert (Htr : forall root' a, lvl !! root' = Some 2%nat -> translate (mem s1) root' a = translate (mem s) root' a).
  { intros root' a Hr0. apply translate_grows with lvl lvl'; [apply Hsp|apply W|done]. }
  assert (Hinv : bit (ld64 (mem s1) r) PTE_V = false).
  { rewrite <- (Htr root) in Hnone by done. unfold translate in Hnone. rewrite Ht in Hnone. by destruct (bit _ _). }
  destruct (trav_leaf (mem s1) lvl' 2 root (4096 * v) r) as (p0 & Hp0 & Er); [apply Hsp'|done|done|].
  pose proof (PX_range 0 (4096 * v) ltac:(lia)) as Hi.
  exists (s1 <| mem ::= st64 r (leaf pa perm) |>), lvl', l'. split; [|split; [|split; [done|split; [|split]]]].
  - unfold mappages. change (PGSIZE =? 0) with false. cbv iota. unfold PGSIZE. rewrite (u64_small (_ - 1)), !PGROUNDDOWN_eq by lia. unfold PGSIZE.
    replace (4096 * (4096 * v / 4096)) with (4096 * v) by dlia. replace (4096 * ((4096 * v + 4096 - 1) / 4096)) with (4096 * v) by dlia.
    apply (loop_run 1); [|done]. cbn [unroll]. unfold walk. rewrite (proj2 (Z.leb_gt _ _)) by lia.
    erewrite bind_run.
    2: { rewrite (bind_run _ _ _ _ _ _ _ Hw), (proj2 (Z.eqb_neq r 0)) by done.
         unfold pte_get, pte_set, mem_upd. rewrite step_gets, Hinv, step_modify, Z.eqb_refl. reflexivity. }
    reflexivity.
  - eapply remapped_trans; [by apply walked_remapped|]. subst r. split; [by apply space_set_leaf|done|done|by left|].
    st. apply same_outside_set; [by eexists|done].
  - rewrite <- (walk_levels_rest 2 root (4096 * v) true e s r e s1); [reflexivity|apply Hsp|apply Hsp|done].
  - intros a Ha. st. rewrite (translate_set (mem s1) lvl' root (4096 * v)) by (done || apply Hsp').
    rewrite u64_small, leaf_valid, vpn_page by (by apply leaf_range). by rewrite Htr.
  - intros root' a Hne Hr0. st. rewrite (translate_set_other (mem s1) lvl' root root' (4096 * v)); [by apply Htr|apply Hsp'|done| |done|done].
    by eapply lookup_weaken.
Qed.

(** Writing a page that is neither free nor a table. *)
Lemma space_write s lvl l q m :
  space s lvl l -> page_ok q -> q ∉ l -> lvl !! q = None ->
  (forall a, ~ q <= a < q + PGSIZE -> ld8 m a = ld8 (mem s) a) ->
  space (s <| mem := m |>) lvl l /\ same_tables lvl (mem s) m.
Proof.
  intros [Hsh (Hl & Hok & Hnd) Hap Hs Hf] Hq Hql Hqt Hm.
  assert (Hapart : forall p, page_ok p -> p <> q -> forall a, p <= a < p + PGSIZE -> ld8 m a = ld8 (mem s) a).
  { intros p Hp Hne a Ha. apply Hm. unfold PGSIZE in *. destruct (pages_apart p q Hp Hq Hne); lia. }
  assert (Hsame : same_tables lvl (mem s) m).
  { intros p a [k Hp] Ha. apply (Hapart p); [by eapply shape_page|congruence|done]. }
  split; [|done]. split; [..|exact Hap|exact Hs|exact Hf]; st.
  - by eapply shape_same_tables.
  - split; [|done]. st. eapply linked_ext; [|exact Hl]. intros p Hp. apply ld_le_ext. intros a Ha.
    apply (Hapart p); [by eapply Forall_elem|by intros ->|unfold PGSIZE; lia].
Qed.

(** Taking a page off the free list. *)
Lemma space_alloc s lvl q l e :
  space s lvl (q :: l) ->
  kalloc e s = Ret q e (alloced s) /\ space (alloced s) lvl l /\ page_ok q /\ q ∉ l /\ lvl !! q = None /\ rest (alloced s) = rest s /\
  same_tables lvl (mem s) (mem (alloced s)) /\ (forall a, ~ q <= a < q + PGSIZE -> ld8 (mem (alloced s)) a = ld8 (mem s) a).
Proof.
  intros Hsp. destruct (space_kalloc s lvl _ e Hsp) as [Hk _]. pose proof Hsp as [Hsh Hfp Hap Hs Hf].
  destruct (alloced_cons s q l Hfp) as (Hfl & Hq & Hn & Ea). pose proof (alloced_free_pages s q l Hfp) as Hfp'.
  assert (Hm : forall a, ~ q <= a < q + PGSIZE -> ld8 (mem (alloced s)) a = ld8 (mem s) a).
  { intros a Ha. rewrite Ea. st. rewrite ld8_memset. by rewrite (proj2 (within_false _ _ _)) by (rewrite PGBYTES_Z; unfold PGSIZE in Ha; lia). }
  assert (Hqt : lvl !! q = None) by (apply Hap, list_elem_of_here).
  assert (Hsame : same_tables lvl (mem s) (mem (alloced s))).
  { intros p a [k Hp] Ha. apply Hm. assert (page_ok p) by (by eapply shape_page). assert (p <> q) by congruence.
    unfold PGSIZE in *. destruct (pages_apart p q); [done..|lia|lia]. }
  split_and!; [exact Hk| |done|done|done|apply alloced_rest|done|done].
  split; [by eapply shape_same_tables|done| |by rewrite (rest_hw _ _ (alloced_rest s))..].
  intros p Hp. apply Hap. by apply list_elem_of_further.
Qed.

(** ** uvmcopy() *)

(** One page of the parent: its entry, and a frame that is neither free nor a
    table. *)
Record user_page_at (m : gmap Z Z) (lvl : gmap Z nat) (l : list Z) (root j v : Z) : Prop := {
  up_entry : translate m root (4096 * j) = Some v;
  up_frame : page_ok (PTE2PA v);
  up_used : PTE2PA v ∉ l;
  up_data : lvl !! PTE2PA v = None;
  up_bytes b : 0 <= b < PGSIZE -> 0 <= ld8 m (PTE2PA v + b) < 256
}.

(** Page [j] of [new] is the frame [q] with the bytes and permissions of [v]. *)
Definition copied (m0 m : gmap Z Z) (new j v q : Z) : Prop :=
  translate m new (4096 * j) = Some (leaf q (PTE_FLAGS v)) /\
  forall b, 0 <= b < PGSIZE -> ld8 m (q + b) = ld8 m0 (PTE2PA v + b).

(** After [fs] has been filled with the first pages; [s0], [lvl0], [l0] are those
    at the start. *)
Record copying (s0 : kernel) (lvl0 : gmap Z nat) (l0 : list Z) (new : Z) (vs fs : list Z) (s : kernel) (lvl : gmap Z nat) (l : list Z) : Prop := {
  cp_space : space s lvl l;
  cp_sub : lvl0 ⊆ lvl;
  cp_free q : q ∈ l -> q ∈ l0;
  cp_tables p : is_Some (lvl !! p) -> is_Some (lvl0 !! p) \/ p ∈ l0;
  cp_count : (length l0 <= length l + 3 * length fs)%nat;
  cp_rest : rest s = rest s0;
  cp_frames q : q ∈ fs -> q ∈ l0 /\ page_ok q /\ (q ∉ l) /\ lvl !! q = None;
  cp_nodup : NoDup fs;
  cp_done j v q : vs !! j = Some v -> fs !! j = Some q -> copied (mem s0) (mem s) new (Z.of_nat j) v q;
  cp_new a : 0 <= a < MAXVA -> Z.of_nat (length fs) <= vpn a -> translate (mem s) new a = translate (mem s0) new a;
  cp_others root a : root <> new -> lvl0 !! root = Some 2%nat -> translate (mem s) root a = translate (mem s0) root a;
  cp_outside a : (forall q, q ∈ l0 -> ~ q <= a < q + PGSIZE) -> (forall p, is_Some (lvl0 !! p) -> ~ p <= a < p + PGSIZE) ->
    ld8 (mem s) a = ld8 (mem s0) a
}.

Lemma copying_start s lvl l new vs : space s lvl l -> copying s lvl l new vs [] s lvl l.
Proof.
  intros Hsp. split; try done; [by left|cbn; lia|by intros q ?%elem_of_nil|constructor].
Qed.

(** The loop body of uvmcopy() where it does not fail. *)
Definition uvmcopy_body (old new sz : Z) : Z -> M (Z + Z) := fun i =>
  let err i := uvmunmap new 0 (i / PGSIZE) true ;; ret (inr (-1)) in
  if i <? sz then
    pte <- walk old i false;
    if pte =? 0 then panic "uvmcopy: pte should exist" else
    v <- pte_get pte;
    if negb (bit v PTE_V) then panic "uvmcopy: page not present" else
    let pa := PTE2PA v in
    let flags := PTE_FLAGS v in
    mm <- kalloc;
    if mm =? 0 then err i else
    mem_upd (memmove mm pa PGBYTES) ;;
    r <- mappages new i PGSIZE mm flags;
    if negb (r =? 0) then kfree mm ;; err i
    else ret (inl (i +64 PGSIZE))
  else ret (inr 0).

Lemma uvmcopy_unfold old new sz : uvmcopy old new sz = loop (uvmcopy_body old new sz) 0.
Proof. reflexivity. Qed.

(** walk() without allocation finds the entry of a mapped page. *)
Lemma walk_entry root va v lvl e s :
  shape (mem s) lvl -> lvl !! root = Some 2%nat -> 0 <= va < MAXVA -> translate (mem s) root va = Some v ->
  exists pte, walk root va false e s = Ret pte e s /\ pte <> 0 /\ ld64 (mem s) pte = v /\ bit v PTE_V = true.
Proof.
  intros Hs Hr Hva Ht. unfold translate in Ht. destruct (trav (mem s) 2 root va) as [a|] eqn:E; [|done].
  destruct (bit (ld64 (mem s) a) PTE_V) eqn:Hb; [|done]. injection Ht as <-.
  exists a. unfold walk. rewrite (proj2 (Z.leb_gt _ _)) by lia. rewrite walk_levels_lookup, E.
  split; [done|]. split; [by eapply trav_nonzero|done].
Qed.

Lemma flags_ok v : perm_ok (PTE_FLAGS v).
Proof.
  unfold perm_ok, PTE_FLAGS. change 0x3FF with (Z.ones 10). rewrite Z.land_ones by lia. change (2 ^ 10) with 1024. apply Z.mod_pos_bound. lia.
Qed.

(** Copying a page into a fresh frame, before it is mapped. *)
Lemma copy_page s lvl q l pa e :
  space s lvl (q :: l) -> page_ok pa -> pa <> q ->
  exists s2, kalloc e s = Ret q e (alloced s) /\ s2 = alloced s <| mem ::= memmove q pa PGBYTES |> /\
    space s2 lvl l /\ page_ok q /\ q ∉ l /\ lvl !! q = None /\ rest s2 = rest s /\ same_tables lvl (mem s) (mem s2) /\
    (forall a, ~ q <= a < q + PGSIZE -> ld8 (mem s2) a = ld8 (mem s) a) /\
    (forall b, 0 <= b < PGSIZE -> ld8 (mem s2) (q + b) = u8 (ld8 (mem s) (pa + b))).
Proof.
  intros Hsp Hpa Hne. destruct (space_alloc s lvl q l e Hsp) as (Hk & Hsp1 & Hq & Hql & Hqt & Hrest & Hsame & Hm).
  set (s1 := alloced s) in *. set (m2 := memmove q pa PGBYTES (mem s1)).
  assert (Hm2 : forall a, ~ q <= a < q + PGSIZE -> ld8 m2 a = ld8 (mem s1) a).
  { intros a Ha. unfold m2. rewrite ld8_memmove. by rewrite (proj2 (within_false _ _ _)) by (rewrite PGBYTES_Z; unfold PGSIZE in Ha; lia). }
  destruct (space_write s1 lvl l q m2) as [Hsp2 Hsame2]; [done..|].
  exists (s1 <| mem ::= memmove q pa PGBYTES |>). split; [done|]. split; [done|]. rewrite mem_upd_const. fold m2.
  split_and!; [done|done|done|done|exact Hrest|..].
  - intros p a Hp Ha. st. rewrite (Hsame2 p a Hp Ha). by apply (Hsame p a).
  - intros a Ha. st. rewrite Hm2 by done. by apply Hm.
  - intros b Hb. st. unfold m2. rewrite ld8_memmove, (proj2 (within_true _ _ _)) by (rewrite PGBYTES_Z; unfold PGSIZE in Hb; lia).
    replace (q + b - q) with b by lia. f_equal. apply Hm. unfold PGSIZE in *. destruct (pages_apart pa q Hpa Hq Hne); lia.
Qed.

(** The invariant after one more page: [s2] has the copy in frame [q], [s'] maps
    it. *)
Lemma copying_extend s0 lvl0 l0 new vs fs s lvl q l v s2 s' lvl' l' :
  let k := Z.of_nat (length fs) in
  copying s0 lvl0 l0 new vs fs s lvl (q :: l) -> vs !! length fs = Some v -> k < 2 ^ 26 -> lvl0 !! new = Some 2%nat ->
  page_ok q -> q ∉ l -> lvl !! q = None -> rest s2 = rest s -> same_tables lvl (mem s) (mem s2) ->
  (forall a, ~ q <= a < q + PGSIZE -> ld8 (mem s2) a = ld8 (mem s) a) ->
  (forall b, 0 <= b < PGSIZE -> ld8 (mem s2) (q + b) = ld8 (mem s0) (PTE2PA v + b)) ->
  remapped s2 lvl l s' lvl' l' -> (length l <= length l' + 2)%nat -> rest s' = rest s2 ->
  (forall a, 0 <= a < MAXVA -> translate (mem s') new a = if vpn a =? k then Some (leaf q (PTE_FLAGS v)) else translate (mem s2) new a) ->
  (forall root' a, root' <> new -> lvl !! root' = Some 2%nat -> translate (mem s') root' a = translate (mem s2) root' a) ->
  copying s0 lvl0 l0 new vs (fs ++ [q]) s' lvl' l'.
Proof.
  intros k C Hv Hk Hnew Hq Hql Hqt Hr2 Hsame Hm2 Hc2 [Rsp Rsub Rfree Rtab Rout] Hl Hr Htr Hoth.
  destruct C as [Csp Csub Cfree Ctab Ccnt Crest Cfr Cnd Cdone Cnew Coth Cout].
  assert (Ht2 : forall root a, lvl !! root = Some 2%nat -> translate (mem s2) root a = translate (mem s) root a)
    by (intros root a Hroot; apply (translate_same_tables lvl); [done|apply Csp|done]).
  assert (Hnew' : lvl !! new = Some 2%nat) by by eapply lookup_weaken.
  (* a page that is neither a table nor free keeps its bytes *)
  assert (Hkeep : forall p, page_ok p -> p ∉ l -> lvl !! p = None -> forall b, 0 <= b < PGSIZE -> ld8 (mem s') (p + b) = ld8 (mem s2) (p + b)).
  { intros p Hp Hpl Hpt b Hb. apply Rout. intros p' [k' Hp'] Hin. assert (page_ok p') by (eapply shape_page; [apply Rsp|done]).
    destruct (decide (p' = p)) as [->|Hne]; [destruct (Rtab p (mk_is_Some _ _ Hp')) as [[? ?]|?]; [congruence|done]|].
    unfold PGSIZE in *. destruct (pages_apart p' p); [done..|lia|lia]. }
  assert (Hqfs : q ∉ fs) by (intros Hin; destruct (Cfr q Hin) as (_ & _ & Hn & _); apply Hn, list_elem_of_here).
  assert (Hnq : forall p, p ∈ fs -> p ∉ l' /\ lvl' !! p = None).
  { intros p Hin. destruct (Cfr p Hin) as (_ & _ & Hn & Ht). apply not_elem_of_cons in Hn as [_ Hn]. split; [by intros ?%Rfree|].
    apply eq_None_not_Some. intros [[? ?]|?]%Rtab; [congruence|done]. }
  assert (Hpq : page_ok q /\ q ∉ l' /\ lvl' !! q = None).
  { split; [done|]. split; [by intros ?%Rfree|]. apply eq_None_not_Some. intros [[? ?]|?]%Rtab; [congruence|done]. }
  assert (Hq0 : q ∈ l0) by (apply Cfree, list_elem_of_here).
  assert (Hlow : forall p, is_Some (lvl' !! p) -> is_Some (lvl0 !! p) \/ p ∈ l0).
  { intros p [Hp|Hp]%Rtab; [by apply Ctab|]. right. apply Cfree. by apply list_elem_of_further. }
  split; [exact Rsp|by etransitivity| |exact Hlow| |congruence| | | | | |].
  - intros p Hp%Rfree. apply Cfree. by apply list_elem_of_further.
  - rewrite length_app. cbn in Ccnt |- *. lia.
  - intros p [Hin| ->%list_elem_of_singleton]%elem_of_app; [|by destruct Hpq].
    destruct (Cfr p Hin) as (? & ? & _). by destruct (Hnq p Hin).
  - apply NoDup_app. split; [done|]. split; [|apply NoDup_singleton]. by intros p Hin ->%list_elem_of_singleton.
  - intros j v' q' Hj [Hf|[Hge Hf]]%lookup_app_Some.
    + destruct (Cdone j v' q' Hj Hf) as [Dt Db]. assert (Hjk : Z.of_nat j < k) by (apply lookup_lt_Some in Hf; unfold k; lia).
      assert (Hin : q' ∈ fs) by by eapply list_elem_of_lookup_2.
      destruct (Cfr q' Hin) as (_ & Hq' & Hn & Hnt). apply not_elem_of_cons in Hn as [Hqq Hn]. split.
      * rewrite Htr by (change MAXVA with (2 ^ 38); lia). rewrite vpn_page, (proj2 (Z.eqb_neq _ _)) by lia. by rewrite Ht2.
      * intros b Hbb. rewrite Hkeep, Hm2; [by apply Db| |done..]. unfold PGSIZE in *. destruct (pages_apart q' q); [done..|lia|lia].
    + destruct (j - length fs)%nat as [|d] eqn:Ed; [|by destruct d]. assert (j = length fs) as -> by lia. injection Hf as <-.
      assert (v' = v) as -> by congruence. fold k. split.
      * rewrite Htr by (change MAXVA with (2 ^ 38); lia). by rewrite vpn_page, Z.eqb_refl.
      * intros b Hbb. rewrite Hkeep by done. by apply Hc2.
  - intros a Ha Hge. rewrite length_app in Hge. cbn in Hge. rewrite Htr, (proj2 (Z.eqb_neq _ _)), Ht2 by (done || (unfold k; lia)).
    apply Cnew; [done|lia].
  - intros root a Hne Hroot. assert (lvl !! root = Some 2%nat) by by eapply lookup_weaken. rewrite Hoth, Ht2 by done. by apply Coth.
  - intros a Ha Hat. rewrite Rout by (intros p [Hp|Hp]%Hlow; [by apply Hat|by apply Ha]). rewrite Hm2 by by apply Ha. by apply Cout.
Qed.

Lemma copy_round s0 lvl0 l0 old new sz vs fs s lvl l v e :
  copying s0 lvl0 l0 new vs fs s lvl l -> space s0 lvl0 l0 ->
  lvl0 !! old = Some 2%nat -> lvl0 !! new = Some 2%nat -> old <> new ->
  vs !! length fs = Some v -> user_page_at (mem s0) lvl0 l0 old (Z.of_nat (length fs)) v ->
  translate (mem s0) new (4096 * Z.of_nat (length fs)) = None ->
  4096 * Z.of_nat (length fs) < sz -> Z.of_nat (length fs) < 2 ^ 26 -> (3 <= length l)%nat ->
  exists q s' lvl' l', uvmcopy_body old new sz (4096 * Z.of_nat (length fs)) e s = Ret (inl (4096 * Z.of_nat (S (length fs)))) e s' /\
    copying s0 lvl0 l0 new vs (fs ++ [q]) s' lvl' l'.
Proof.
  intros C Hsp0 Hold Hnew Hne Hv [Ue Uf Uu Ud Ub] Hnone Hsz Hmax Hlen. pose proof C as [Csp Csub Cfree Ctab Ccnt Crest Cfr Cnd Cdone Cnew Coth Cout].
  assert (Hva : 0 <= 4096 * Z.of_nat (length fs) < MAXVA) by (change MAXVA with (2 ^ 38); lia).
  destruct l as [|q l]; [cbn in Hlen; lia|].
  destruct (walk_entry old (4096 * Z.of_nat (length fs)) v lvl e s) as (pte & Hw & Hp0 & Hld & Hbit);
    [apply Csp|by eapply lookup_weaken|done|by rewrite Coth|].
  assert (Hq0 : q ∈ l0) by (apply Cfree, list_elem_of_here).
  destruct (copy_page s lvl q l (PTE2PA v) e Csp Uf) as (s2 & Hk & Es2 & Hsp2 & Hq & Hql & Hqt & Hr2 & Hsame2 & Hm2 & Hc2); [congruence|].
  assert (Hnew' : lvl !! new = Some 2%nat) by by eapply lookup_weaken.
  destruct (map_page new (Z.of_nat (length fs)) q (PTE_FLAGS v) lvl l e s2) as (s' & lvl' & l' & Hmap & Rm & Hl & Hr & Htr & Hoth);
    [done|done|lia|by apply page_frame_ok|apply flags_ok| |cbn in Hlen; lia|].
  { rewrite (translate_same_tables lvl (mem s)) by (done || apply Csp). rewrite Cnew by (done || (rewrite vpn_page; lia)). done. }
  exists q, s', lvl', l'. split.
  - unfold uvmcopy_body. rewrite (proj2 (Z.ltb_lt _ _)) by lia. rewrite (bind_run _ _ _ _ _ _ _ Hw), (proj2 (Z.eqb_neq pte 0)) by done.
    unfold pte_get, mem_upd. rewrite step_gets, Hld, Hbit. cbn [negb]. rewrite (bind_run _ _ _ _ _ _ _ Hk).
    rewrite (proj2 (Z.eqb_neq q 0)) by by apply page_ok_nonzero. rewrite step_modify, <- Es2, (bind_run _ _ _ _ _ _ _ Hmap). cbn [Z.eqb negb].
    do 3 f_equal. unfold PGSIZE. rewrite u64_small; lia.
  - eapply (copying_extend s0 lvl0 l0 new vs fs s lvl q l v s2); try done. intros b Hbb. rewrite Hc2 by done.
    assert (Hap : forall p, page_ok p -> p <> PTE2PA v -> ~ p <= PTE2PA v + b < p + PGSIZE).
    { intros p Hp Hpne. unfold PGSIZE in *. destruct (pages_apart p (PTE2PA v)); [done..|lia|lia]. }
    rewrite Cout; [by apply u8_small, Ub|..].
    + intros p Hp. apply Hap; [|by intros ->]. destruct Hsp0 as [_ (_ & Hok & _) _ _ _]. by eapply Forall_elem.
    + intros p [k Hp]. apply Hap; [eapply shape_page; [apply Hsp0|done]|congruence].
Qed.

Lemma copy_unroll n s0 lvl0 l0 old new sz vs fs s lvl l e :
  copying s0 lvl0 l0 new vs fs s lvl l -> space s0 lvl0 l0 ->
  lvl0 !! old = Some 2%nat -> lvl0 !! new = Some 2%nat -> old <> new ->
  (length vs = length fs + n)%nat -> sz <= 4096 * Z.of_nat (length vs) -> Z.of_nat (length vs) <= 2 ^ 26 ->
  (forall j v, vs !! j = Some v -> 4096 * Z.of_nat j < sz /\ user_page_at (mem s0) lvl0 l0 old (Z.of_nat j) v /\
     translate (mem s0) new (4096 * Z.of_nat j) = None) ->
  (3 * length vs <= length l0)%nat ->
  exists fs' s' lvl' l', unroll (S n) (uvmcopy_body old new sz) (4096 * Z.of_nat (length fs)) e s = Ret (inr 0) e s' /\
    length fs' = length vs /\ copying s0 lvl0 l0 new vs fs' s' lvl' l'.
Proof.
  revert fs s lvl l. induction n as [|n IH]; intros fs s lvl l C Hsp0 Hold Hnew Hne Hlen Hsz Hmax Hvs Hl.
  - exists fs, s, lvl, l. split; [|split; [lia|done]]. cbn [unroll]. unfold uvmcopy_body.
    rewrite (proj2 (Z.ltb_ge _ _)) by (replace (length fs) with (length vs) by lia; lia). reflexivity.
  - destruct (lookup_lt_is_Some_2 vs (length fs)) as [v Hv]; [lia|]. destruct (Hvs _ _ Hv) as (Hj & Hu & Hn).
    pose proof (cp_count _ _ _ _ _ _ _ _ _ C) as Hc.
    destruct (copy_round s0 lvl0 l0 old new sz vs fs s lvl l v e) as (q & s1 & lvl1 & l1 & Hrun & C1); [done..|lia|lia|].
    destruct (IH (fs ++ [q]) s1 lvl1 l1) as (fs' & s' & lvl' & l' & Hrun' & Hlen' & C'); try done.
    { rewrite length_app. cbn. lia. }
    exists fs', s', lvl', l'. split; [|done]. rewrite unroll_S, (bind_run _ _ _ _ _ _ _ Hrun).
    rewrite length_app, Nat.add_1_r in Hrun'. exact Hrun'.
Qed.

(** uvmcopy() of [length vs] pages, with memory enough for three pages each. *)
Lemma uvmcopy_ok s lvl l old new sz vs e :
  space s lvl l -> lvl !! old = Some 2%nat -> lvl !! new = Some 2%nat -> old <> new ->
  sz <= 4096 * Z.of_nat (length vs) -> Z.of_nat (length vs) <= 2 ^ 26 ->
  (forall j v, vs !! j = Some v -> 4096 * Z.of_nat j < sz /\ user_page_at (mem s) lvl l old (Z.of_nat j) v /\
     translate (mem s) new (4096 * Z.of_nat j) = None) ->
  (3 * length vs <= length l)%nat ->
  exists fs s' lvl' l', uvmcopy old new sz e s = Ret 0 e s' /\ length fs = length vs /\ copying s lvl l new vs fs s' lvl' l'.
Proof.
  intros Hsp Hold Hnew Hne Hsz Hmax Hvs Hl.
  destruct (copy_unroll (length vs) s lvl l old new sz vs [] s lvl l e) as (fs & s' & lvl' & l' & Hrun & Hlen & C);
    [by apply copying_start|done..|].
  exists fs, s', lvl', l'. split; [|done]. rewrite uvmcopy_unfold. eapply loop_run; [exact Hrun|]. lia.
Qed.

End Uvm.
