(* ===== verification/Newproc.v ===== *)
(** * A new process: proc_pagetable() and allocproc()

    What allocating an address space leaves alone ([vmstep]), the table of a new
    process with its trampoline and trapframe, and the slot allocproc() returns when
    there is memory. *)

From S2P Require Import Prelude State Machine Monad Spinlock Cstring Kalloc Vm Pagetable Uvm Proc.

Section Newproc.
Context `{Platform} `{!PlatformOk}.

(** Memory was taken from the free list for tables or pages: the translations that
    existed, the rest of memory and the rest of the kernel are as they were. *)
Record vmstep (s : kernel) (lvl : gmap Z nat) (l : list Z) (s' : kernel) (lvl' : gmap Z nat) (l' : list Z) : Prop := {
  vs_space : space s' lvl' l';
  vs_sub : lvl ⊆ lvl';
  vs_free q : q ∈ l' -> q ∈ l;
  vs_tables p : is_Some (lvl' !! p) -> is_Some (lvl !! p) \/ p ∈ l;
  vs_rest : rest s' = rest s;
  vs_translate root a : lvl !! root = Some 2%nat -> translate (mem s') root a = translate (mem s) root a;
  vs_outside a : (forall q, q ∈ l -> ~ q <= a < q + PGSIZE) -> (forall p, is_Some (lvl !! p) -> ~ p <= a < p + PGSIZE) ->
    ld8 (mem s') a = ld8 (mem s) a
}.

Lemma vmstep_trans s lvl l s1 lvl1 l1 s2 lvl2 l2 :
  vmstep s lvl l s1 lvl1 l1 -> vmstep s1 lvl1 l1 s2 lvl2 l2 -> vmstep s lvl l s2 lvl2 l2.
Proof.
  intros [A1 B1 C1 D1 E1 F1 G1] [A2 B2 C2 D2 E2 F2 G2]. split; [done|by etransitivity|auto| |congruence|..].
  - intros p [Hp|Hp]%D2; [auto|right; auto].
  - intros root a Hr. rewrite F2 by by eapply lookup_weaken. auto.
  - intros a Ha Hp. rewrite G2; [auto|auto|]. intros p [Hq|Hq]%D1; auto.
Qed.

(** A page of the free list for data. *)
Lemma vmstep_alloc s lvl q l e :
  space s lvl (q :: l) -> kalloc e s = Ret q e (alloced s) /\ vmstep s lvl (q :: l) (alloced s) lvl l /\ page_ok q /\ q ∉ l /\ lvl !! q = None.
Proof.
  intros Hsp. destruct (space_alloc s lvl q l e Hsp) as (Hk & Hsp1 & Hq & Hql & Hqt & Hr & Hsame & Hm).
  split; [done|]. split; [|done]. split; [done|done| |by left|done|..].
  - intros p Hp. by apply list_elem_of_further.
  - intros root a Hroot. apply (translate_same_tables lvl); [done|apply Hsp|done].
  - intros a Ha _. apply Hm, Ha, list_elem_of_here.
Qed.

(** An empty table from the free list. *)
Lemma vmstep_root s lvl q l e :
  space s lvl (q :: l) -> let s1 := alloced s <| mem ::= memset q 0 PGBYTES |> in
  uvmcreate e s = Ret q e s1 /\ vmstep s lvl (q :: l) s1 (<[q := 2%nat]> lvl) l /\ lvl !! q = None /\ q <> 0 /\
  forall a, translate (mem s1) q a = None.
Proof.
  intros Hsp s1. destruct (space_alloc s lvl q l e Hsp) as (Hk & Hsp1 & Hq & Hql & Hqt & Hr & Hsame & Hm).
  pose proof (page_ok_nonzero q Hq) as Hq0. set (m1 := memset q 0 PGBYTES (mem (alloced s))).
  assert (Hm1 : forall a, ~ q <= a < q + PGSIZE -> ld8 m1 a = ld8 (mem (alloced s)) a).
  { intros a Ha. unfold m1. rewrite ld8_memset. by rewrite (proj2 (within_false _ _ _)) by (rewrite PGBYTES_Z; unfold PGSIZE in Ha; lia). }
  destruct (space_write (alloced s) lvl l q m1) as [Hsp2 Hsame2]; [done..|].
  assert (He : forall i, 0 <= i < 512 -> entry m1 q i = 0) by (intros; by apply entry_memset0).
  assert (Hrun : uvmcreate e s = Ret q e (alloced s <| mem := m1 |>)).
  { unfold uvmcreate. rewrite (bind_run _ _ _ _ _ _ _ Hk), (proj2 (Z.eqb_neq q 0)) by done. unfold mem_upd. rewrite step_modify, mem_upd_const. reflexivity. }
  unfold s1. rewrite mem_upd_const. fold m1. clearbody m1. clear s1.
  assert (Hcase : forall p k i, <[q := 2%nat]> lvl !! p = Some (S k) -> 0 <= i < 512 -> bit (entry m1 p i) PTE_V = true -> p <> q /\ lvl !! p = Some (S k)).
  { intros p k i Hp Hi Hb. destruct (decide (p = q)) as [->|Hne]; [by rewrite He, bit_0 in Hb|]. by rewrite lookup_insert_ne in Hp. }
  destruct Hsp2 as [S1 S2 S3 S4 S5].
  split; [|split; [split|split; [done|split; [done|]]]].
  - exact Hrun.
  - split; [split| | | |]; st; try done.
    + intros p k Hp. destruct (decide (p = q)) as [->|]; [done|]. rewrite lookup_insert_ne in Hp by done. by eapply shape_page.
    + intros p k i Hp Hi Hb. destruct (Hcase p k i Hp Hi Hb) as [Hne Hp']. pose proof (shape_child _ _ S1 p k i Hp' Hi Hb) as Hc.
      change (lvl !! PTE2PA (entry m1 p i) = Some k) in Hc. rewrite lookup_insert_ne; [exact Hc|]. intros Eq. rewrite <- Eq in Hc. congruence.
    + intros p p' k k' i i' Hp Hp' Hi Hi' Hb Hb' Heq. destruct (Hcase p k i Hp Hi Hb), (Hcase p' k' i' Hp' Hi' Hb'). by eapply (shape_inj _ _ S1).
    + intros p Hp. rewrite lookup_insert_ne by by intros ->. by apply S3.
  - by apply insert_subseteq.
  - intros p Hp. by apply list_elem_of_further.
  - intros p Hp. destruct (decide (p = q)) as [->|]; [right; apply list_elem_of_here|]. rewrite lookup_insert_ne in Hp by done. by left.
  - exact Hr.
  - intros root a Hroot. st. rewrite (translate_same_tables lvl (mem (alloced s)) m1) by (done || apply Hsp1).
    apply (translate_same_tables lvl); [done|apply Hsp|done].
  - intros a Ha _. st. rewrite Hm1, Hm by (apply Ha, list_elem_of_here). done.
  - intros a. st. unfold translate. cbn [trav]. rewrite He by (apply PX_range; lia). by rewrite bit_0.
Qed.

(** Mapping a page of a table that is new. *)
Lemma vmstep_map s lvl l root v pa perm s1 lvl1 l1 e :
  vmstep s lvl l s1 lvl1 l1 -> lvl !! root = None -> lvl1 !! root = Some 2%nat ->
  0 <= v < 2 ^ 26 -> frame_ok pa -> perm_ok perm -> translate (mem s1) root (4096 * v) = None -> (2 <= length l1)%nat ->
  exists s2 lvl2 l2, mappages root (4096 * v) PGSIZE pa perm e s1 = Ret 0 e s2 /\ vmstep s lvl l s2 lvl2 l2 /\
    lvl2 !! root = Some 2%nat /\ (length l1 <= length l2 + 2)%nat /\
    (forall a, 0 <= a < MAXVA -> translate (mem s2) root a = if vpn a =? v then Some (leaf pa perm) else translate (mem s1) root a).
Proof.
  intros [A B C D E F G] Hn Hr Hv Hpa Hperm Hnone Hlen.
  destruct (map_page root v pa perm lvl1 l1 e s1) as (s2 & lvl2 & l2 & Hrun & [Rsp Rsub Rfree Rtab Rout] & Hl & Hrest & Htr & Hoth); [done..|].
  exists s2, lvl2, l2. split; [done|]. split; [|split; [by eapply lookup_weaken|done]].
  assert (Htab : forall p, is_Some (lvl2 !! p) -> is_Some (lvl !! p) \/ p ∈ l) by (intros p [Hp|Hp]%Rtab; [auto|right; auto]).
  split; [done|by etransitivity|auto|done|congruence|..].
  - intros root' a Hr'. rewrite Hoth; [auto|congruence|by eapply lookup_weaken].
  - intros a Ha Hp. rewrite Rout; [auto|]. intros p [Hq|Hq]%Htab; auto.
Qed.

Definition new_space (tf a : Z) : option Z :=
  if vpn a =? vpn TRAPFRAME then Some (leaf tf (Z.lor PTE_R PTE_W))
  else if vpn a =? vpn TRAMPOLINE then Some (leaf sym_trampoline (Z.lor PTE_R PTE_X)) else None.

(** proc_pagetable() with five free pages: a table with the trampoline and the
    trapframe and nothing else. *)
Lemma proc_pagetable_ok p pp s lvl l e :
  space s lvl l -> (5 <= length l)%nat -> procs s !! p = Some pp -> frame_ok (p_trapframe pp) -> frame_ok sym_trampoline ->
  exists pt s' lvl' l', proc_pagetable p e s = Ret pt e s' /\ pt <> 0 /\ vmstep s lvl l s' lvl' l' /\
    lvl !! pt = None /\ lvl' !! pt = Some 2%nat /\ (length l <= length l' + 5)%nat /\
    forall a, 0 <= a < MAXVA -> translate (mem s') pt a = new_space (p_trapframe pp) a.
Proof.
  intros Hsp Hlen Hp Htf Htr. destruct l as [|q l]; [cbn in Hlen; lia|].
  destruct (vmstep_root s lvl q l e Hsp) as (Hrun & V1 & Hq & Hq0 & Hnone). set (s1 := alloced s <| mem ::= memset q 0 PGBYTES |>) in *. cbv zeta in *.
  clearbody s1. assert (Hperm : forall x, 0 <= x < 16 -> perm_ok x) by (unfold perm_ok; lia).
  destruct (vmstep_map s lvl (q :: l) q (vpn TRAMPOLINE) sym_trampoline (Z.lor PTE_R PTE_X) s1 _ l e V1 Hq) as (s2 & lvl2 & l2 & Hrun2 & V2 & Hr2 & Hl2 & Ht2);
    [by rewrite lookup_insert_eq|vm_compute; intuition congruence|done|by apply Hperm|apply Hnone|cbn in Hlen; lia|].
  destruct (vmstep_map s lvl (q :: l) q (vpn TRAPFRAME) (p_trapframe pp) (Z.lor PTE_R PTE_W) s2 lvl2 l2 e V2 Hq Hr2) as (s3 & lvl3 & l3 & Hrun3 & V3 & Hr3 & Hl3 & Ht3);
    [vm_compute; intuition congruence|done|by apply Hperm| |cbn in Hlen; lia|].
  { rewrite Ht2 by (vm_compute; intuition congruence). apply Hnone. }
  exists q, s3, lvl3, l3. split; [|split; [done|split; [done|split; [done|split; [done|split; [cbn in *; lia|]]]]]].
  - unfold proc_pagetable. rewrite (bind_run _ _ _ _ _ _ _ Hrun), (proj2 (Z.eqb_neq q 0)) by done.
    change TRAMPOLINE with (4096 * vpn TRAMPOLINE). rewrite (bind_run _ _ _ _ _ _ _ Hrun2). change (0 <? 0) with false. cbv iota.
    erewrite bind_run by (apply proc_at_run; rewrite (rest_procs _ _ (vs_rest _ _ _ _ _ _ V2)); exact Hp).
    change TRAPFRAME with (4096 * vpn TRAPFRAME). rewrite (bind_run _ _ _ _ _ _ _ Hrun3). reflexivity.
  - intros a Ha. rewrite Ht3, Ht2, Hnone by done. unfold new_space. reflexivity.
Qed.

(** ** allocproc() *)

(** Updates of the process table and of the trapframes do not meet memory. *)
Lemma vmstep_procs f s lvl l s' lvl' l' :
  vmstep s lvl l s' lvl' l' -> vmstep (s <| procs ::= f |>) lvl l (s' <| procs ::= f |>) lvl' l'.
Proof.
  intros [[A1 A2 A3 A4 A5] B C D E F G]. split; try done.
  change (rest (s' <| procs ::= f |>)) with (rest s' <| procs ::= f |>). by rewrite E.
Qed.

Lemma vmstep_tfs f s lvl l s' lvl' l' :
  vmstep s lvl l s' lvl' l' -> vmstep (s <| tfs ::= f |>) lvl l (s' <| tfs ::= f |>) lvl' l'.
Proof.
  intros [[A1 A2 A3 A4 A5] B C D E F G]. split; try done.
  change (rest (s' <| tfs ::= f |>)) with (rest s' <| tfs ::= f |>). by rewrite E.
Qed.

(** The slot before its page table is known. *)
Definition slot (pid tf : Z) (pp : proc) : proc := pp <| p_pid := pid |> <| p_state := USED |> <| p_trapframe := tf |>.

(** What allocproc() does to the kernel apart from memory. *)
Definition allocated (i : nat) (pid tf pt : Z) (s : kernel) : kernel :=
  s <| hw ::= lock_h (LProc i) |> <| nextpid := s32 (pid + 1) |>
    <| procs ::= alter (slot pid tf) i |> <| tfs ::= <[tf := tf_junk]> |>
    <| procs ::= alter (fun pp => init_proc (ticks s) (pp <| p_pagetable := pt |>)) i |>.

Lemma allocpid_run e s :
  settled (hw s) -> free LPid (hw s) -> allocpid e s = Ret (nextpid s) e (s <| nextpid := s32 (nextpid s + 1) |>).
Proof. intros Hs Hf. unfold allocpid. mrun acquire_run. msteps. mrun release_run. msteps. same_hw. Qed.

Lemma allocproc_found_ok i pp s lvl l e :
  procs s !! i = Some pp -> space s lvl l -> (6 <= length l)%nat -> free LPid (hw s) -> frame_ok sym_trampoline ->
  exists tf pt s' lvl' l', allocproc_found i e s = Ret (Some i) e s' /\
    vmstep (s <| nextpid := s32 (nextpid s + 1) |> <| procs ::= alter (slot (nextpid s) tf) i |> <| tfs ::= <[tf := tf_junk]> |>
              <| procs ::= alter (fun pp => init_proc (ticks s) (pp <| p_pagetable := pt |>)) i |>) lvl l s' lvl' l' /\
    page_ok tf /\ tf ∈ l /\ tf ∉ l' /\ lvl' !! tf = None /\
    lvl !! pt = None /\ lvl' !! pt = Some 2%nat /\ (length l <= length l' + 6)%nat /\
    forall a, 0 <= a < MAXVA -> translate (mem s') pt a = new_space tf a.
Proof.
  intros Hp Hsp Hlen Hpid Htr. destruct l as [|q l]; [cbn in Hlen; lia|].
  set (pid := nextpid s). set (s1 := s <| nextpid := s32 (pid + 1) |> <| procs ::= alter (fun p => p <| p_pid := pid |> <| p_state := USED |>) i |>).
  assert (Hsp1 : space s1 lvl (q :: l)) by (destruct Hsp as [A1 A2 A3 A4 A5]; by split).
  destruct (vmstep_alloc s1 lvl q l e Hsp1) as (Hk & V1 & Hq & Hql & Hqt).
  apply (vmstep_procs (alter (fun p => p <| p_trapframe := q |>) i)), (vmstep_tfs <[q := tf_junk]>) in V1.
  set (t := s1 <| procs ::= _ |> <| tfs ::= _ |>) in V1. set (s2 := alloced s1 <| procs ::= _ |> <| tfs ::= _ |>) in V1.
  assert (Hp2 : procs s2 !! i = Some (slot pid q pp)).
  { rewrite (rest_procs _ _ (vs_rest _ _ _ _ _ _ V1)). unfold t, s1. st. rewrite !list_lookup_alter, !decide_True by done. by rewrite Hp. }
  destruct (proc_pagetable_ok i (slot pid q pp) s2 lvl l e) as (pt & s3 & lvl3 & l3 & Hrun & Hpt & V2 & Hn & Hr & Hl3 & Ht3);
    [apply V1|cbn in Hlen; lia|done|by apply page_frame_ok|done|].
  pose proof (vmstep_trans _ _ _ _ _ _ _ _ _ V1 V2) as V3.
  apply (vmstep_procs (alter (fun p => p <| p_pagetable := pt |>) i)), (vmstep_procs (alter (init_proc (ticks s)) i)) in V3.
  set (s4 := s3 <| procs ::= _ |> <| procs ::= _ |>) in V3.
  exists q, pt, s4, lvl3, l3. split; [|split; [|split; [done|split; [apply list_elem_of_here|]]]].
  - unfold allocproc_found. erewrite bind_run by (apply allocpid_run; [apply Hsp|done]). unfold proc_upd. rewrite step_modify.
    fold pid. fold s1. rewrite (bind_run _ _ _ _ _ _ _ Hk), step_modify, (proj2 (Z.eqb_neq q 0)) by by apply page_ok_nonzero.
    rewrite step_modify. fold s2. rewrite (bind_run _ _ _ _ _ _ _ Hrun), step_modify, (proj2 (Z.eqb_neq pt 0)), step_gets, step_modify by done.
    assert (ticks (s3 <| procs ::= alter (fun p => p <| p_pagetable := pt |>) i |>) = ticks s) as ->; [|reflexivity].
    exact (f_equal ticks (vs_rest _ _ _ _ _ _ (vmstep_trans _ _ _ _ _ _ _ _ _ V1 V2))).
  - match type of V3 with vmstep ?a _ _ _ _ _ => match goal with |- vmstep ?b _ _ _ _ _ => replace b with a; [exact V3|] end end.
    unfold t, s1. state_eq. by rewrite !list_alter_alter_eq.
  - split; [intros Hin; by apply Hql, (vs_free _ _ _ _ _ _ V2)|]. split; [|split; [done|split; [done|split; [cbn; lia|exact Ht3]]]].
    apply eq_None_not_Some. intros [[k ?]|?]%(vs_tables _ _ _ _ _ _ V2); [congruence|done].
Qed.

(** allocproc() with a free slot and six free pages. *)
Lemma allocproc_ok i pp s lvl l e :
  procs_ok s -> list_find (fun p => p_state p = UNUSED) (procs s) = Some (i, pp) ->
  space s lvl l -> (6 <= length l)%nat -> free LPid (hw s) -> frame_ok sym_trampoline ->
  exists tf pt s' lvl' l', allocproc e s = Ret (Some i) e s' /\ vmstep (allocated i (nextpid s) tf pt s) lvl l s' lvl' l' /\
    page_ok tf /\ tf ∈ l /\ tf ∉ l' /\ lvl' !! tf = None /\
    lvl !! pt = None /\ lvl' !! pt = Some 2%nat /\ (length l <= length l' + 6)%nat /\
    forall a, 0 <= a < MAXVA -> translate (mem s') pt a = new_space tf a.
Proof.
  intros Hok Hfind Hsp Hlen Hpid Htr. pose proof (find_unused_run e s Hok) as Hrun. rewrite Hfind in Hrun.
  apply list_find_Some in Hfind as (Hp & _ & _). set (s1 := s <| hw ::= lock_h (LProc i) |>).
  destruct (allocproc_found_ok i pp s1 lvl l e) as (tf & pt & s' & lvl' & l' & Hrun' & V & Hrest).
  - exact Hp.
  - destruct Hsp as [A1 A2 A3 A4 A5]. split; try done; unfold s1; st; eauto with kernel.
  - done.
  - unfold s1. st. by apply free_lock_ne.
  - done.
  - exists tf, pt, s', lvl', l'. split; [|split; [exact V|exact Hrest]]. unfold allocproc. fold find_unused.
    rewrite (bind_run _ _ _ _ _ _ _ Hrun). exact Hrun'.
Qed.
End Newproc.
