(* ===== verification/Fork.v ===== *)
(** * fork(): the child is a copy of the parent

    With memory enough, fork() returns the new pid and makes a process that differs
    from its parent in its identity, in the frames that hold its memory and in the
    value fork() returns to it. *)

From S2P Require Import Prelude State Machine Monad Spinlock Cstring Kalloc Vm Pagetable Uvm Proc Newproc.
From S2P Require Import Sleeplock Virtio Bio Bufcache Log Fs Console Pipe File Procsys.

(** ** Duplicating the open files *)

Definition dup_files (l : list (option nat)) (ft : list file) : list file :=
  foldl (fun ft fo => match fo with Some f => alter (fun f => f <| f_ref ::= fun r => r + 1 |>) f ft | None => ft end) ft l.

(** Every file in the table [l] is open. *)
Definition files_open (l : list (option nat)) (ft : list file) : Prop :=
  forall f, Some f ∈ l -> exists ff, ft !! f = Some ff /\ 1 <= f_ref ff.

Lemma filedup_run f ff e s :
  settled (hw s) -> free LFtable (hw s) -> ftable s !! f = Some ff -> 1 <= f_ref ff ->
  filedup f e s = Ret f e (s <| ftable ::= alter (fun f => f <| f_ref ::= fun r => r + 1 |>) f |>).
Proof.
  intros Hs Hl Hf Hr. unfold filedup, file_at, file_upd. mrun acquire_run. erewrite bind_run by (rewrite step_gets; st; rewrite Hf; reflexivity).
  rewrite (proj2 (Z.ltb_ge _ _)) by lia. rewrite step_modify. mrun release_run. msteps. same_hw.
Qed.

Lemma files_open_alter l f ft :
  files_open l ft -> files_open l (alter (fun f => f <| f_ref ::= fun r => r + 1 |>) f ft).
Proof.
  intros Ho g Hg. destruct (Ho g Hg) as (gg & Hgg & Hr). rewrite list_lookup_alter. case_decide as E; [subst|by exists gg].
  rewrite Hgg. eexists. split; [reflexivity|]. cbn. lia.
Qed.

(** The body of the loop. *)
Definition dup_body (p np : nat) (i : nat) : M unit :=
  pp <- proc_at p;
  fo <- deref "p->ofile" (p_ofile pp !! i);
  match fo with
  | Some f => f <- filedup f; proc_upd np (fun c => c <| p_ofile ::= <[i := Some f]> |>)
  | None => ret tt
  end.

(** The child when the entries from [k] to [k + n] are copied. *)
Definition with_files (fl : list (option nat)) (k n : nat) (c : proc) : proc :=
  c <| p_ofile ::= fun l => take k l ++ take n (drop k fl) ++ drop (k + n) l |>.

Lemma splice_step {A} (fl l : list A) k n fo :
  fl !! k = Some fo -> (k < length l)%nat ->
  take (S k) (<[k := fo]> l) ++ take n (drop (S k) fl) ++ drop (S k + n) (<[k := fo]> l) =
  take k l ++ take (S n) (drop k fl) ++ drop (k + S n) l.
Proof.
  intros Hk Hlt. rewrite (take_S_r _ k fo) by by rewrite list_lookup_insert_eq.
  rewrite (drop_S fl fo k Hk), take_insert_ge, drop_insert_lt, <- app_assoc by lia. cbn. by rewrite Nat.add_succ_r.
Qed.

Lemma ofile_upd f g (c : proc) : c <| p_ofile ::= f |> <| p_ofile ::= g |> = c <| p_ofile ::= fun l => g (f l) |>.
Proof. reflexivity. Qed.

Lemma ofile_ext f g (c : proc) : f (p_ofile c) = g (p_ofile c) -> c <| p_ofile ::= f |> = c <| p_ofile ::= g |>.
Proof. intros E. unfold upd, upd_p_ofile. by rewrite E. Qed.

Lemma with_files_step fl k n fo c :
  fl !! k = Some fo -> (k < length (p_ofile c))%nat ->
  with_files fl (S k) n (c <| p_ofile ::= <[k := fo]> |>) = with_files fl k (S n) c.
Proof. intros Hk Hlt. unfold with_files. rewrite ofile_upd. apply ofile_ext. by apply splice_step. Qed.

Lemma dup_loop p pp np cp k n e s :
  p <> np -> procs s !! p = Some pp -> procs s !! np = Some cp -> settled (hw s) -> free LFtable (hw s) ->
  files_open (p_ofile pp) (ftable s) -> (k + n <= length (p_ofile pp))%nat ->
  (forall i, (k <= i < k + n)%nat -> p_ofile cp !! i = Some None) ->
  for_ (seq k n) (dup_body p np) e s =
    Ret tt e (s <| ftable ::= dup_files (take n (drop k (p_ofile pp))) |> <| procs ::= <[np := with_files (p_ofile pp) k n cp]> |>).
Proof.
  revert k s cp. induction n as [|n IH]; intros k s cp Hne Hp Hc Hs Hl Ho Hlen Hnone; cbn [seq for_].
  { apply ret_state. state_eq. rewrite list_insert_id; [done|]. rewrite Hc. f_equal. unfold with_files. symmetry. rewrite (ofile_ext _ id); [by destruct cp|]. rewrite take_0, Nat.add_0_r. apply take_drop. }
  destruct (lookup_lt_is_Some_2 (p_ofile pp) k) as [fo Hfo]; [lia|].
  pose proof (Hnone k ltac:(lia)) as Hck. pose proof (lookup_lt_Some _ _ _ Hck) as Hlt.
  assert (Hstep : forall c', c' = cp <| p_ofile ::= <[k := fo]> |> -> with_files (p_ofile pp) (S k) n c' = with_files (p_ofile pp) k (S n) cp)
    by (intros c' ->; by apply with_files_step).
  assert (Hdrop : take (S n) (drop k (p_ofile pp)) = fo :: take n (drop (S k) (p_ofile pp))) by by rewrite (drop_S _ fo).
  destruct fo as [f|].
  - destruct (Ho f (list_elem_of_lookup_2 _ _ _ Hfo)) as (ff & Hff & Hr).
    set (s1 := s <| ftable ::= alter (fun f => f <| f_ref ::= fun r => r + 1 |>) f |>
                 <| procs ::= alter (fun c => c <| p_ofile ::= <[k := Some f]> |>) np |>).
    assert (Hb : dup_body p np k e s = Ret tt e s1).
    { unfold dup_body. rewrite (bind_run _ _ _ _ _ _ _ (proc_at_run p e s pp Hp)), Hfo, step_deref.
      by rewrite (bind_run _ _ _ _ _ _ _ (filedup_run f ff e s Hs Hl Hff Hr)). }
    rewrite (bind_run _ _ _ _ _ _ _ Hb), (IH (S k) s1 (cp <| p_ofile ::= <[k := Some f]> |>)); unfold s1; st; try done.
    + apply ret_state. rewrite Hdrop. state_eq. rewrite (Hstep _ eq_refl), (alter_insert _ _ _ _ Hc). by rewrite list_insert_insert_eq.
    + by rewrite list_lookup_alter, decide_False.
    + by rewrite list_lookup_alter, decide_True, Hc.
    + by apply files_open_alter.
    + lia.
    + intros i Hi. rewrite list_lookup_insert_ne by lia. apply Hnone. lia.
  - assert (Hb : dup_body p np k e s = Ret tt e s).
    { unfold dup_body. by rewrite (bind_run _ _ _ _ _ _ _ (proc_at_run p e s pp Hp)), Hfo, step_deref. }
    rewrite (bind_run _ _ _ _ _ _ _ Hb), (IH (S k) s cp); try done; [|lia|intros i Hi; apply Hnone; lia].
    apply ret_state. rewrite Hdrop. state_eq. rewrite (Hstep cp); [done|]. rewrite (ofile_ext _ id); [by destruct cp|]. by apply list_insert_id.
Qed.

Section Fork.
Context `{Platform} `{!PlatformOk} `{Disk}.

(** ** The child *)

Definition child (p : nat) (pp : proc) (now pid tf pt : Z) (old : proc) : proc :=
  init_proc now (slot pid tf old <| p_pagetable := pt |>)
    <| p_sz := p_sz pp |> <| p_ofile := p_ofile pp |> <| p_cwd := p_cwd pp |>
    <| p_name ::= fun nm => safestrcpy nm (p_name pp) 16 |>
    <| p_parent := Some p |> <| p_mask := p_mask pp |> <| p_queue := p_queue pp |> <| p_state := RUNNABLE |>.

(** The kernel after fork(), apart from memory. *)
Definition forked (p i : nat) (pp old : proc) (cwd : nat) (ptf : trapframe) (tf pt : Z) (s : kernel) : kernel :=
  s <| nextpid := s32 (nextpid s + 1) |> <| tfs ::= <[tf := ptf <| tf_a0 := 0 |>]> |>
    <| ftable ::= dup_files (p_ofile pp) |> <| itable ::= alter (fun n => n <| i_ref ::= fun r => r + 1 |>) cwd |>
    <| procs ::= <[i := child p pp (ticks s) (nextpid s) tf pt old]> |>.

Lemma idup_run ip e s :
  settled (hw s) -> free LItable (hw s) -> idup ip e s = Ret ip e (s <| itable ::= alter (fun n => n <| i_ref ::= fun r => r + 1 |>) ip |>).
Proof. intros Hs Hf. unfold idup, inode_upd. mrun acquire_run. rewrite step_modify. mrun release_run. msteps. same_hw. Qed.

(** fork() once the memory is copied. *)
Definition fork_tail (p np : nat) (pp npp : proc) : M Z :=
  proc_upd np (fun c => c <| p_sz := p_sz pp |>) ;;
  tf <- tf_at (p_trapframe pp);
  tf_upd (p_trapframe npp) (fun _ => tf) ;;
  tf_upd (p_trapframe npp) (fun tf => tf <| tf_a0 := 0 |>) ;;
  for_ (seq 0 NOFILE) (dup_body p np) ;;
  cwd <- deref "p->cwd" (p_cwd pp);
  cwd <- idup cwd;
  proc_upd np (fun c => c <| p_cwd := Some cwd |>) ;;
  proc_upd np (fun c => c <| p_name ::= fun nm => safestrcpy nm (p_name pp) 16 |>) ;;
  let pid := p_pid npp in
  release (LProc np) ;;
  acquire LWait ;;
  proc_upd np (fun c => c <| p_parent := Some p |> <| p_mask := p_mask pp |>
                          <| p_queue := p_queue pp |>) ;;
  release LWait ;;
  acquire (LProc np) ;;
  proc_upd np (fun c => c <| p_state := RUNNABLE |>) ;;
  release (LProc np) ;;
  ret pid.

Lemma fork_unfold :
  fork = (p <- curproc;
          o <- allocproc;
          match o with
          | None => ret (-1)
          | Some np =>
              pp <- proc_at p;
              npp <- proc_at np;
              r <- uvmcopy (p_pagetable pp) (p_pagetable npp) (p_sz pp);
              if r <? 0 then freeproc np ;; release (LProc np) ;; ret (-1) else fork_tail p np pp npp
          end).
Proof. reflexivity. Qed.

(** What the tail does to the slot of the child. *)
Definition inherits (p : nat) (pp : proc) (c : proc) : proc :=
  with_files (p_ofile pp) 0 NOFILE (c <| p_sz := p_sz pp |>)
    <| p_cwd := p_cwd pp |> <| p_name ::= fun nm => safestrcpy nm (p_name pp) 16 |>
    <| p_parent := Some p |> <| p_mask := p_mask pp |> <| p_queue := p_queue pp |> <| p_state := RUNNABLE |>.

Lemma fork_tail_run p np pp npp cwd ptf jtf h e s :
  p <> np -> hw s = lock_h (LProc np) h -> settled h -> free (LProc np) h -> free LFtable h -> free LItable h -> free LWait h ->
  procs s !! p = Some pp -> procs s !! np = Some npp -> p_cwd pp = Some cwd ->
  tfs s !! p_trapframe pp = Some ptf -> tfs s !! p_trapframe npp = Some jtf ->
  length (p_ofile pp) = NOFILE -> files_open (p_ofile pp) (ftable s) -> p_ofile npp = replicate NOFILE None ->
  fork_tail p np pp npp e s = Ret (p_pid npp) e
    (s <| hw := h |> <| tfs ::= <[p_trapframe npp := ptf <| tf_a0 := 0 |>]> |> <| ftable ::= dup_files (p_ofile pp) |>
       <| itable ::= alter (fun n => n <| i_ref ::= fun r => r + 1 |>) cwd |> <| procs ::= <[np := inherits p pp npp]> |>).
Proof.
  intros Hne Hh Hs Hfp Hff Hfi Hfw Hp Hc Hcwd Htf Hjtf Hlen Ho Hof. unfold fork_tail, proc_upd. rewrite step_modify.
  set (npp1 := npp <| p_sz := p_sz pp |>). set (s1 := s <| procs ::= alter _ np |>).
  assert (Hp1 : procs s1 !! p = Some pp) by (unfold s1; st; by rewrite list_lookup_alter, decide_False).
  assert (Hc1 : procs s1 !! np = Some npp1) by (unfold s1; st; by rewrite list_lookup_alter, decide_True, Hc).
  rewrite (bind_run _ _ _ _ _ _ _ (tf_at_run _ _ e s1 Htf)), (bind_run _ _ _ _ _ _ _ (tf_upd_run _ _ _ e s1 Hjtf)).
  erewrite bind_run by (apply tf_upd_run; st; apply lookup_insert_eq). cbv beta.
  set (s2 := s1 <| tfs ::= _ |> <| tfs ::= _ |>).
  assert (Hloop : for_ (seq 0 NOFILE) (dup_body p np) e s2 =
    Ret tt e (s2 <| ftable ::= dup_files (p_ofile pp) |> <| procs ::= <[np := with_files (p_ofile pp) 0 NOFILE npp1]> |>)).
  { rewrite (dup_loop p pp np npp1 0 NOFILE e s2); [by rewrite drop_0, firstn_all2 by lia|done|exact Hp1|exact Hc1|..].
    - change (hw s2) with (hw s). rewrite Hh. eauto with kernel.
    - change (hw s2) with (hw s). rewrite Hh. by apply free_lock_ne.
    - exact Ho.
    - lia.
    - intros i Hi. cbn [npp1]. change (p_ofile npp1) with (p_ofile npp). rewrite Hof, lookup_replicate_2; [done|lia]. }
  rewrite (bind_run _ _ _ _ _ _ _ Hloop), Hcwd, step_deref. unfold s2, s1.
  erewrite bind_run by (apply idup_run; st; rewrite Hh; [eauto with kernel|by apply free_lock_ne]). rewrite !step_modify. cbv zeta.
  assert (U : unlock_h (LProc np) (lock_h (LProc np) h) = h) by by apply unlock_lock.
  assert (UW : unlock_h LWait (lock_h LWait h) = h) by by apply unlock_lock.
  erewrite bind_run by (apply release_run; st; rewrite Hh; eauto with kernel).
  erewrite bind_run by (apply acquire_run; st; rewrite Hh, U; done). rewrite step_modify.
  erewrite bind_run by (apply release_run; st; rewrite Hh, U; eauto with kernel).
  erewrite bind_run by (apply acquire_run; st; rewrite Hh, U, UW; done). rewrite step_modify.
  erewrite bind_run by (apply release_run; st; rewrite Hh, U, UW; eauto with kernel).
  apply ret_state. state_eq.
  - by rewrite Hh, U, UW, U.
  - rewrite !list_alter_alter_eq, (alter_insert _ _ _ npp Hc), list_insert_insert_eq.
    erewrite alter_insert by (apply list_lookup_insert_eq; by eapply lookup_lt_Some). rewrite list_insert_insert_eq.
    unfold inherits. by rewrite Hcwd.
  - by rewrite insert_insert_eq.
Qed.

(** ** fork() *)

(** A process that can fork: [vs] are the entries of its pages and [i] is the first
    free slot of the process table. *)
Record forkable (p : nat) (pp : proc) (ptf : trapframe) (cwd i : nat) (old : proc) (vs : list Z) (lvl : gmap Z nat) (l : list Z) (s : kernel) : Prop := {
  fk_procs : procs_ok s;
  fk_cur : cur (hw s) = Some p;
  fk_parent : procs s !! p = Some pp;
  fk_running : p_state pp = RUNNING;
  fk_slot : list_find (fun p => p_state p = UNUSED) (procs s) = Some (i, old);
  fk_clean : p_ofile old = replicate NOFILE None;
  fk_files : length (p_ofile pp) = NOFILE /\ files_open (p_ofile pp) (ftable s);
  fk_cwd : p_cwd pp = Some cwd;
  fk_frame : tfs s !! p_trapframe pp = Some ptf;
  fk_frame_used : p_trapframe pp ∉ l;
  fk_space : space s lvl l;
  fk_table : lvl !! p_pagetable pp = Some 2%nat;
  fk_pages j v : vs !! j = Some v -> 4096 * Z.of_nat j < p_sz pp /\ user_page_at (mem s) lvl l (p_pagetable pp) (Z.of_nat j) v;
  fk_size : p_sz pp <= 4096 * Z.of_nat (length vs) <= TRAPFRAME;
  fk_memory : (6 + 3 * length vs <= length l)%nat;
  fk_locks lk : lk ∈ [LPid; LFtable; LItable; LWait] -> free lk (hw s);
  fk_trampoline : frame_ok sym_trampoline
}.

(** Pages of the parent are the same after allocproc(). *)
Lemma user_page_vmstep s lvl l s' lvl' l' root j v :
  vmstep s lvl l s' lvl' l' -> shape (mem s) lvl -> Forall page_ok l -> lvl !! root = Some 2%nat ->
  user_page_at (mem s) lvl l root j v -> user_page_at (mem s') lvl' l' root j v /\
    forall b, 0 <= b < PGSIZE -> ld8 (mem s') (PTE2PA v + b) = ld8 (mem s) (PTE2PA v + b).
Proof.
  intros [A B C D E F G] Hsh Hok Hr [U1 U2 U3 U4 U5].
  assert (Hap : forall q, page_ok q -> q <> PTE2PA v -> forall b, 0 <= b < PGSIZE -> ~ q <= PTE2PA v + b < q + PGSIZE).
  { intros q Hq Hne b Hb. unfold PGSIZE in *. destruct (pages_apart q (PTE2PA v)); [done..|lia|lia]. }
  assert (Hb : forall b, 0 <= b < PGSIZE -> ld8 (mem s') (PTE2PA v + b) = ld8 (mem s) (PTE2PA v + b)).
  { intros b Hb. apply G.
    - intros q Hq. apply Hap; [by eapply Forall_elem|by intros ->|done].
    - intros p [k Hp]. apply Hap; [by eapply shape_page|congruence|done]. }
  split; [|exact Hb]. split; [by rewrite F|done|auto| |intros b Hbb; rewrite Hb by done; auto].
  apply eq_None_not_Some. intros [[k ?]|?]%D; [congruence|done].
Qed.

Lemma inherits_child p pp now pid tf pt old :
  length (p_ofile pp) = NOFILE -> p_ofile old = replicate NOFILE None ->
  inherits p pp (init_proc now (slot pid tf old <| p_pagetable := pt |>)) = child p pp now pid tf pt old.
Proof.
  intros Hl Ho. unfold inherits, with_files, child.
  rewrite (ofile_ext _ (fun _ => p_ofile pp)); [reflexivity|].
  match goal with |- context [ p_ofile ?x ] => change (p_ofile x) with (p_ofile old) end. rewrite Ho, drop_0, take_0, drop_replicate, (firstn_all2 (p_ofile pp)) by lia. apply app_nil_r.
Qed.

Lemma rest_tail s t h f g i q : rest s = rest t ->
  rest (s <| hw := h |> <| tfs ::= f |> <| ftable ::= g |> <| itable ::= i |> <| procs ::= q |>) =
  rest (t <| hw := h |> <| tfs ::= f |> <| ftable ::= g |> <| itable ::= i |> <| procs ::= q |>).
Proof. intros E. exact (f_equal (fun x => x <| hw := h |> <| tfs ::= f |> <| ftable ::= g |> <| itable ::= i |> <| procs ::= q |>) E). Qed.

(** The child's address space: [fs] are its frames. *)
Record copy_of (s s' : kernel) (lvl lvl' : gmap Z nat) (l l' : list Z) (vs fs : list Z) (tf pt : Z) : Prop := {
  co_space : space s' lvl' l';
  co_new : lvl !! pt = None /\ lvl' !! pt = Some 2%nat;
  co_translate root a : lvl !! root = Some 2%nat -> translate (mem s') root a = translate (mem s) root a;
  co_count : length fs = length vs /\ NoDup fs;
  co_frames q : q ∈ fs -> q ∈ l /\ q ∉ l';
  co_pages j v q : vs !! j = Some v -> fs !! j = Some q -> copied (mem s) (mem s') pt (Z.of_nat j) v q;
  co_rest a : 0 <= a < MAXVA -> Z.of_nat (length vs) <= vpn a -> translate (mem s') pt a = new_space tf a;
  co_outside a : (forall q, q ∈ l -> ~ q <= a < q + PGSIZE) -> (forall p, is_Some (lvl !! p) -> ~ p <= a < p + PGSIZE) ->
    ld8 (mem s') a = ld8 (mem s) a
}.

(** The address space after allocproc() and uvmcopy(), whatever happened to the rest
    of the kernel. *)
Lemma copy_of_ok s t lvl l s1 lvl1 l1 tf pt old vs fs s2 lvl2 l2 s' :
  mem t = mem s -> space s lvl l -> vmstep t lvl l s1 lvl1 l1 -> lvl !! pt = None -> lvl1 !! pt = Some 2%nat ->
  (forall a, 0 <= a < MAXVA -> translate (mem s1) pt a = new_space tf a) ->
  lvl !! old = Some 2%nat -> (forall j v, vs !! j = Some v -> user_page_at (mem s) lvl l old (Z.of_nat j) v) ->
  copying s1 lvl1 l1 pt vs fs s2 lvl2 l2 -> length fs = length vs ->
  mem s' = mem s2 -> freelist s' = freelist s2 -> hw s' = hw s ->
  copy_of s s' lvl lvl2 l l2 vs fs tf pt.
Proof.
  intros Hmt Hsp V Hn Hpt Hnew Hold Hvs C Hlen Hm Hfl Hhw. destruct C as [Csp Csub Cfree Ctab Ccnt Crest Cfr Cnd Cdone Cnew Coth Cout].
  assert (Hok : Forall page_ok l) by apply Hsp.
  assert (Hb : forall j v, vs !! j = Some v -> forall b, 0 <= b < PGSIZE -> ld8 (mem s1) (PTE2PA v + b) = ld8 (mem s) (PTE2PA v + b)).
  { intros j v Hv b Hb. rewrite <- Hmt. eapply user_page_vmstep; [exact V|rewrite Hmt; apply Hsp|done|exact Hold|rewrite Hmt; by apply Hvs|done]. }
  destruct V as [A B D E F G I]. rewrite Hmt in G, I. split.
  - destruct Csp as [S1 (S2 & S2' & S2'') S3 _ _]. split; [by rewrite Hm|split; [by rewrite Hm, Hfl|done]|done|rewrite Hhw; apply Hsp..].
  - split; [done|by eapply lookup_weaken].
  - intros root a Hr. rewrite Hm, Coth; [by apply G|congruence|by eapply lookup_weaken].
  - done.
  - intros q Hq. destruct (Cfr q Hq) as (? & _ & ? & _). auto.
  - intros j v q Hv Hq. destruct (Cdone j v q Hv Hq) as [Dt Db]. rewrite Hm. split; [done|]. intros b Hbb. rewrite Db by done. by eapply Hb.
  - intros a Ha Hv. rewrite Hm, Cnew by (done || lia). by apply Hnew.
  - intros a Ha Hp. rewrite Hm, Cout; [by apply I|auto|]. intros p [Hq|Hq]%E; auto.
Qed.

(** allocproc() and uvmcopy() for a process that can fork. *)
Lemma fork_memory p pp ptf cwd i old vs lvl l e s :
  forkable p pp ptf cwd i old vs lvl l s ->
  exists tf pt fs s1 lvl1 l1 s2 lvl2 l2, allocproc e s = Ret (Some i) e s1 /\ vmstep (allocated i (nextpid s) tf pt s) lvl l s1 lvl1 l1 /\
    tf ∈ l /\ lvl !! pt = None /\ lvl1 !! pt = Some 2%nat /\ (forall a, 0 <= a < MAXVA -> translate (mem s1) pt a = new_space tf a) /\
    uvmcopy (p_pagetable pp) pt (p_sz pp) e s1 = Ret 0 e s2 /\ length fs = length vs /\ copying s1 lvl1 l1 pt vs fs s2 lvl2 l2.
Proof.
  intros [Hok Hcur Hp Hrun Hslot Hclean [Hlen Hfiles] Hcwd Htf Htfl Hsp Hroot Hvs Hsz Hmem Hlk Htr].
  destruct (allocproc_ok i old s lvl l e Hok Hslot Hsp) as (tf & pt & s1 & lvl1 & l1 & Halloc & V & Htfok & Htfin & _ & _ & Hn & Hpt & Hl1 & Hnew);
    [lia|apply Hlk; set_solver|done|].
  assert (Hroot1 : lvl1 !! p_pagetable pp = Some 2%nat) by (eapply lookup_weaken; [exact Hroot|apply V]).
  change TRAPFRAME with 0x3fffffe000 in Hsz.
  destruct (uvmcopy_ok s1 lvl1 l1 (p_pagetable pp) pt (p_sz pp) vs e) as (fs & s2 & lvl2 & l2 & Hcopy & Hfs & C);
    [apply V|done|done|congruence|lia|lia| |lia|].
  { intros j v Hv. destruct (Hvs j v Hv) as [Hj Hu]. split; [done|]. split.
    - eapply user_page_vmstep; [exact V|apply Hsp|apply Hsp|done|done].
    - apply lookup_lt_Some in Hv. rewrite Hnew by (change MAXVA with (2 ^ 38); lia). unfold new_space.
      rewrite vpn_page. change (vpn TRAPFRAME) with 0x3fffffe. change (vpn TRAMPOLINE) with 0x3ffffff. by rewrite !(proj2 (Z.eqb_neq _ _)) by lia. }
  exists tf, pt, fs, s1, lvl1, l1, s2, lvl2, l2. split_and!; done.
Qed.

(** C6: With a free slot and memory for the copy, fork() returns the next pid, and the process in
    that slot is a copy of its parent: every page of the parent is mapped in the child's own page
    table to a frame of its own with the same bytes and permissions, the registers are the
    parent's but for a0, which is 0, it has the same open files and directory, each counted once
    more, and is runnable; the parent's memory, every other address space and the rest of the
    kernel are as they were, and no lock is held. *)
Theorem fork_copies p pp ptf cwd i old vs lvl l e s :
  forkable p pp ptf cwd i old vs lvl l s ->
  exists tf pt fs s' lvl' l', fork e s = Ret (nextpid s) e s' /\
    rest s' = rest (forked p i pp old cwd ptf tf pt s) /\ copy_of s s' lvl lvl' l l' vs fs tf pt.
Proof.
  intros F. destruct (fork_memory p pp ptf cwd i old vs lvl l e s F) as (tf & pt & fs & s1 & lvl1 & l1 & s2 & lvl2 & l2 & Halloc & V & Htfin & Hn & Hpt & Hnew & Hcopy & Hfs & C).
  destruct F as [Hok Hcur Hp Hrun Hslot Hclean [Hlen Hfiles] Hcwd Htf Htfl Hsp Hroot Hvs Hsz Hmem Hlk Htr].
  assert (Hs : settled (hw s)) by apply Hok. apply list_find_Some in Hslot as (Hi & Hun & _).
  assert (Hne : p <> i) by (intros ->; congruence).
  set (t := allocated i (nextpid s) tf pt s) in *. set (npp := init_proc (ticks s) (slot (nextpid s) tf old <| p_pagetable := pt |>)).
  pose proof (vs_rest _ _ _ _ _ _ V) as R1. pose proof (eq_trans (cp_rest _ _ _ _ _ _ _ _ _ C) R1) as R2.
  assert (Htp : procs t !! p = Some pp) by (unfold t, allocated; st; by rewrite !list_lookup_alter, !decide_False by done).
  assert (Hti : procs t !! i = Some npp) by (unfold t, allocated; st; rewrite !list_lookup_alter, !decide_True by done; by rewrite Hi).
  eexists tf, pt, fs, _, lvl2, l2. split; [|split].
  - rewrite fork_unfold, (bind_run _ _ _ _ _ _ _ (curproc_run p e s Hs Hcur)), (bind_run _ _ _ _ _ _ _ Halloc).
    erewrite bind_run by (apply proc_at_run; rewrite (rest_procs _ _ R1); exact Htp).
    erewrite bind_run by (apply proc_at_run; rewrite (rest_procs _ _ R1); exact Hti).
    change (p_pagetable npp) with pt. rewrite (bind_run _ _ _ _ _ _ _ Hcopy). change (0 <? 0) with false. cbv iota.
    apply (fork_tail_run p i pp npp cwd ptf tf_junk (hw s)); [done|exact (rest_hw _ _ R2)|done|by eapply procs_ok_free|apply Hlk; set_solver..| | |done| | |done| |exact Hclean].
    + rewrite (rest_procs _ _ R2). exact Htp.
    + rewrite (rest_procs _ _ R2). exact Hti.
    + rewrite (rest_tfs _ _ R2). unfold t, allocated. st. rewrite lookup_insert_ne by congruence. exact Htf.
    + rewrite (rest_tfs _ _ R2). unfold t, allocated. st. apply lookup_insert_eq.
    + rewrite (rest_ftable _ _ R2). exact Hfiles.
  - rewrite (rest_tail s2 t) by exact R2. f_equal. unfold t, allocated, forked. change (p_trapframe npp) with tf.
    state_eq; [|by rewrite insert_insert_eq]. rewrite !list_alter_alter_eq, (alter_insert _ _ _ _ Hi), list_insert_insert_eq.
    apply (f_equal (fun c => <[i := c]> (procs s))). by apply inherits_child.
  - eapply (copy_of_ok s t lvl l s1 lvl1 l1 tf pt (p_pagetable pp) vs fs s2 lvl2 l2); try done. intros j v Hv. by apply Hvs.
Qed.

End Fork.

(** ** A process with one page and one open file *)

Section Sample.
#[local] Existing Instance platform0.
#[local] Existing Instance platform0_ok.

Definition parent : proc :=
  running 1 <| p_pagetable := root0 |> <| p_sz := 4096 |> <| p_trapframe := 0x80310000 |> <| p_cwd := Some 0%nat |>
    <| p_ofile := Some 0%nat :: replicate 15 None |>.

Lemma stocked_rest l s : rest (stocked l s) = rest s.
Proof. induction l as [|p l IH]; [reflexivity|]. cbn [stocked]. exact IH. Qed.

(** The machine of the parent over the memory of [s]. *)
Definition parent_machine (s : kernel) : kernel :=
  s <| tfs := {[0x80310000 := tf_junk]} |> <| ftable ::= alter (fun f => f <| f_ref := 1 |>) 0%nat |>.

Lemma parent_memory : exists s lvl l,
  space s lvl l /\ rest s = rest (machine [parent]) /\ lvl !! root0 = Some 2%nat /\ (10 <= length l)%nat /\ 0x80310000 ∉ l /\
  user_page_at (mem s) lvl l root0 0 (leaf 0x80300000 0x1e).
Proof.
  destruct (fresh_space root0 spare [parent]) as [Hsp Hnone];
    [split; vm_compute; intuition congruence|repeat (constructor; [split; vm_compute; intuition congruence|]); constructor
    |apply (bool_decide_unpack _); reflexivity|apply (bool_decide_unpack _); reflexivity|].
  destruct (map_page root0 0 0x80300000 0x1e {[root0 := 2%nat]} spare [] (stocked spare (machine [parent])))
    as (s & lvl & l & _ & Rm & Hl & Hr & Ht & _); [done|reflexivity|lia|split; vm_compute; intuition congruence|vm_compute; intuition congruence|apply Hnone|vm_compute; lia|].
  assert (Hpa : PTE2PA (leaf 0x80300000 0x1e) = 0x80300000) by reflexivity.
  assert (Htab : forall q, q = root0 \/ q ∈ spare -> q <> 0x80300000 /\ q <> 0x80310000 /\ (q + 4096 <= 0x80300000)).
  { intros q [->|(k & -> & Hk%elem_of_seq)%list_elem_of_fmap]; unfold root0 in *; lia. }
  assert (Hall : forall q, is_Some (lvl !! q) -> q = root0 \/ q ∈ spare).
  { intros q [[k Hk]|Hq]%(remapped_tables _ _ _ _ _ _ Rm); [left|by right]. by apply lookup_singleton_Some in Hk as [<- _]. }
  exists s, lvl, l. split; [apply Rm|]. split; [by rewrite Hr, stocked_rest|]. split; [eapply lookup_weaken; [|apply Rm]; reflexivity|].
  split; [change (length spare) with 12%nat in Hl; lia|].
  split; [intros Hin%(remapped_free _ _ _ _ _ _ Rm); by destruct (Htab 0x80310000 (or_intror Hin)) as (_ & ? & _)|].
  split; rewrite ?Hpa.
  - rewrite Ht by (vm_compute; intuition congruence). reflexivity.
  - split; vm_compute; intuition congruence.
  - intros Hin%(remapped_free _ _ _ _ _ _ Rm). by destruct (Htab _ (or_intror Hin)).
  - apply eq_None_not_Some. intros Hq%Hall%Htab. by destruct Hq.
  - intros b Hb. rewrite (remapped_outside _ _ _ _ _ _ Rm).
    + rewrite stocked_outside; [done|]. apply Forall_forall. intros q Hq. destruct (Htab q (or_intror Hq)) as (_ & _ & ?). unfold PGSIZE in Hb. lia.
    + intros q Hq. apply Hall, Htab in Hq as (_ & _ & ?). unfold PGSIZE in *. lia.
Qed.

Lemma parent_forkable s lvl l :
  space s lvl l -> rest s = rest (machine [parent]) -> lvl !! root0 = Some 2%nat -> (10 <= length l)%nat -> 0x80310000 ∉ l ->
  user_page_at (mem s) lvl l root0 0 (leaf 0x80300000 0x1e) ->
  forkable 0 parent tf_junk 0 1 proc0 [leaf 0x80300000 0x1e] lvl l (parent_machine s).
Proof.
  intros Hsp Hr Hroot Hlen Htf Hu. pose proof (rest_procs _ _ Hr) as Hps. pose proof (rest_hw _ _ Hr) as Hh.
  assert (Hok : procs_ok (machine [parent])) by (apply machine_procs_ok; vm_compute; lia).
  split; unfold parent_machine; st; rewrite ?Hps, ?Hh, ?(rest_ftable _ _ Hr).
  - destruct Hok as (A & B & C). unfold procs_ok. st. by rewrite Hps, Hh.
  - reflexivity.
  - reflexivity.
  - reflexivity.
  - reflexivity.
  - reflexivity.
  - split; [reflexivity|]. intros f Hf. assert (f = 0%nat) as ->.
    { change (p_ofile parent) with (Some 0%nat :: replicate 15 (@None nat)) in Hf.
      apply elem_of_cons in Hf as [[= ->]|Hf]; [done|]. by apply elem_of_replicate in Hf as [? _]. }
    eexists. split; [reflexivity|]. cbn. lia.
  - reflexivity.
  - reflexivity.
  - exact Htf.
  - destruct Hsp as [A1 A2 A3 A4 A5]. by split.
  - exact Hroot.
  - intros [|j] v Hv; [|by destruct j]. injection Hv as <-. split; [reflexivity|exact Hu].
  - vm_compute. intuition congruence.
  - cbn. lia.
  - intros lk Hlk. rewrite !elem_of_cons, elem_of_nil in Hlk. destruct Hlk as [->|[->|[->|[->|[]]]]]; by exists "lock"%string.
  - split; vm_compute; intuition congruence.
Qed.

Lemma fork_copies_witness : exists s s', fork [] s = Ret 1 [] s' /\
  p_state <$> procs s' !! 1%nat = Some RUNNABLE /\ p_parent <$> procs s' !! 1%nat = Some (Some 0%nat) /\
  f_ref <$> ftable s' !! 0%nat = Some 2.
Proof.
  destruct parent_memory as (s & lvl & l & Hsp & Hr & Hroot & Hlen & Htf & Hu).
  destruct (fork_copies 0 parent tf_junk 0 1 proc0 [leaf 0x80300000 0x1e] lvl l [] (parent_machine s))
    as (tf & pt & fs & s' & lvl' & l' & Hrun & Hrest & _); [by apply parent_forkable|].
  exists (parent_machine s), s'. assert (Hn : nextpid (parent_machine s) = 1) by exact (f_equal nextpid Hr).
  rewrite Hn in Hrun. split; [exact Hrun|]. rewrite (rest_procs _ _ Hrest), (rest_ftable _ _ Hrest).
  unfold forked, parent_machine. st. rewrite (rest_procs _ _ Hr), (rest_ftable _ _ Hr).
  split; [reflexivity|]. split; reflexivity.
Defined.

End Sample.
