(* ===== verification/Ucall.v ===== *)
(** * A system call from user space and back: usys.pl, syscall.h, trampoline.S, trap.c, syscall.c

    The stubs of the C library load the number of a call and trap; uservec, usertrap(),
    syscall(), usertrapret() and userret carry the registers to the kernel's function
    and its result back.  [models] says that a state of the kernel's C code and a state
    of the hart describe the same moment, which links the theorems about the assembly
    files with those about the C files. *)

From S2P Require Import Prelude Riscv Asm Trampoline State Machine Monad Spinlock Cstring Kalloc Vm Pagetable Proc Sleeplock.
From S2P Require Import Virtio Bio Log Fs Console Pipe File Procsys Exec Syscall Trap.

(** ** syscall.h and usys.pl *)

Definition SYS : gmap string Z := list_to_map
  [("fork", 1); ("exit", 2); ("wait", 3); ("pipe", 4); ("read", 5); ("kill", 6); ("exec", 7); ("fstat", 8); ("chdir", 9);
   ("dup", 10); ("getpid", 11); ("sbrk", 12); ("sleep", 13); ("uptime", 14); ("open", 15); ("write", 16); ("mknod", 17);
   ("unlink", 18); ("link", 19); ("mkdir", 20); ("close", 21); ("waitx", 22); ("trace", 23); ("setpriority", 24)]%string.

(** The entries of usys.pl. *)
Definition usys : list string :=
  ["fork"; "exit"; "wait"; "pipe"; "read"; "write"; "close"; "kill"; "exec"; "open"; "mknod"; "unlink"; "fstat"; "link";
   "mkdir"; "chdir"; "dup"; "getpid"; "sbrk"; "sleep"; "uptime"; "waitx"; "trace"; "setpriority"]%string.

(** The code entry() makes for a name, before and after its ecall. *)
Definition stub (name : string) : option (list instr * list instr) :=
  n ← SYS !! name; Some ([Li A7 n], [Riscv.Ret]).

Section Call.
Context `{Platform} `{Disk} `{Config}.

(** Every stub's number selects the function of the same name in syscalls[]. *)
Lemma stubs_dispatch : Forall (fun name => exists n (f : M Z) nargs,
  SYS !! name = Some n /\ 0 < n < Z.of_nat (length syscalls) /\ syscalls !! Z.to_nat n = Some (Some f, name, nargs)) usys.
Proof. repeat (constructor; [eexists _, _, _; split; [reflexivity|]; split; [by vm_compute|reflexivity]|]). constructor. Qed.

(** ** The kernel's side *)

(** The hart of a process that runs in user space: no lock held, no push_off() open. *)
Definition idle_hart (h : hart) : Prop := exists c, cpus h !! tp h = Some c /\ c_noff c = 0.

Lemma idle_orderly h : idle_hart h -> orderly h.
Proof. intros (c & Hc & Hn). exists c. split; [done|]. lia. Qed.

Lemma idle_norm h : idle_hart h -> idle_hart (norm_h h).
Proof. intros (c & Hc & Hn). eexists. split; [cbn; by rewrite list_lookup_alter, decide_True, Hc|done]. Qed.

Lemma curproc_norm p e s : idle_hart (hw s) -> cur (hw s) = Some p -> curproc e s = Ret p e (s <| hw ::= norm_h |>).
Proof.
  intros Hi Hc. pose proof (idle_orderly _ Hi) as Ho. transitivity (curproc e (s <| hw ::= norm_h |>)).
  - unfold curproc, myproc, bind. by rewrite push_off_norm.
  - apply curproc_run; st; [by apply settled_norm|by rewrite cur_norm].
Qed.

(** The state in which syscall() calls the function. *)
Definition in_syscall (pf : Z) (tf : trapframe) (s : kernel) : kernel :=
  s <| hw ::= fun h => norm_h (norm_h (h <| stvec := sym_kernelvec |>) <| sstatus ::= fun x => Z.lor x SSTATUS_SIE |>) |>
    <| tfs ::= <[pf := tf <| tf_epc := sepc (hw s) +64 4 |>]> |>.

(** The trapframe and the state usertrapret() leaves. *)
Definition returned_tf (h : hart) (pp : proc) (tf : trapframe) : trapframe :=
  tf <| tf_kernel_satp := satp h |> <| tf_kernel_sp := u64 (p_kstack pp + PGSIZE) |>
     <| tf_kernel_trap := sym_usertrap |> <| tf_kernel_hartid := Z.of_nat (tp h) |>.

Definition returned (pf : Z) (pp : proc) (tf : trapframe) (s : kernel) : kernel :=
  s <| hw ::= fun h => norm_h h <| stvec := TRAMPOLINE + (sym_uservec - sym_trampoline) |>
        <| sstatus ::= fun x => Z.lor (Z.land (Z.land x (Z.lnot SSTATUS_SIE)) (Z.lnot SSTATUS_SPP)) SSTATUS_SPIE |>
        <| sepc := tf_epc tf |> |>
    <| tfs ::= <[pf := returned_tf (hw s) pp tf]> |>.

Lemma usertrapret_run p pp pf tf e s :
  idle_hart (hw s) -> cur (hw s) = Some p -> procs s !! p = Some pp -> p_trapframe pp = pf -> tfs s !! pf = Some tf ->
  usertrapret e s = Ret tt e (returned pf pp tf s).
Proof.
  intros Hi Hc Hp <- Htf. unfold usertrapret, intr_off, r_sstatus, w_sstatus, hart_upd.
  rewrite (bind_run _ _ _ _ _ _ _ (curproc_norm p e s Hi Hc)). mrun proc_at_run. rewrite bind_assoc, step_gets, !step_modify, step_gets.
  erewrite bind_run by (apply tf_upd_run; st; exact Htf). rewrite step_gets, step_modify.
  erewrite bind_run by (apply tf_at_run; st; apply lookup_insert_eq). unfold modify. apply ret_state. unfold returned. state_eq.
Qed.

(** syscall() with a function that returns. *)
Lemma syscall_run p pp pf tf num (f : M Z) name nargs e s r s1 pp1 tf1 :
  idle_hart (hw s) -> cur (hw s) = Some p -> procs s !! p = Some pp -> p_trapframe pp = pf -> tfs s !! pf = Some tf ->
  s32 (tf_a7 tf) = num -> 0 < num < Z.of_nat (length syscalls) -> syscalls !! Z.to_nat num = Some (Some f, name, nargs) ->
  f e (s <| hw ::= norm_h |>) = Ret r e s1 ->
  procs s1 !! p = Some pp1 -> p_trapframe pp1 = pf -> tfs s1 !! pf = Some tf1 -> bit (Z.shiftr (s32 (p_mask pp1)) num) 1 = false ->
  syscall e s = Ret tt e (s1 <| tfs ::= <[pf := tf1 <| tf_a0 := u64 r |>]> |>).
Proof.
  intros Hi Hc Hp <- Htf Hnum Hr Hsys Hf Hp1 Hpf Htf1 Hmask. unfold syscall, trapframe_of.
  rewrite (bind_run _ _ _ _ _ _ _ (curproc_norm p e s Hi Hc)). rewrite bind_assoc. mrun proc_at_run.
  erewrite bind_run by (apply tf_at_run; st; exact Htf). mrun proc_at_run. rewrite Hnum.
  rewrite (proj2 (Z.ltb_lt 0 num)), (proj2 (Z.ltb_lt num _)) by lia. cbn [andb]. rewrite Hsys.
  rewrite (bind_run _ _ _ _ _ _ _ Hf). mrun proc_at_run. rewrite Hpf.
  rewrite (bind_run _ _ _ _ _ _ _ (tf_upd_run _ _ _ e s1 Htf1)). by rewrite Hmask.
Qed.

(** A function that comes back to its process, which has not been killed and is not traced,
    with the trapframe as it was. *)
Record comes_back (p : nat) (pf num : Z) (tf : trapframe) (pp : proc) (s : kernel) : Prop := {
  cb_hart : idle_hart (hw s);
  cb_cur : cur (hw s) = Some p;
  cb_proc : procs s !! p = Some pp;
  cb_frame : p_trapframe pp = pf;
  cb_tf : tfs s !! pf = Some tf;
  cb_alive : p_killed pp = 0;
  cb_untraced : bit (Z.shiftr (s32 (p_mask pp)) num) 1 = false
}.

Lemma usertrap_syscall p pp pf tf num (f : M Z) name nargs e s r s1 pp1 :
  idle_hart (hw s) -> cur (hw s) = Some p -> procs s !! p = Some pp -> p_trapframe pp = pf -> tfs s !! pf = Some tf -> p_killed pp = 0 ->
  bit (sstatus (hw s)) SSTATUS_SPP = false -> scause (hw s) = 8 ->
  s32 (tf_a7 tf) = num -> 0 < num < Z.of_nat (length syscalls) -> syscalls !! Z.to_nat num = Some (Some f, name, nargs) ->
  f e (in_syscall pf tf s) = Ret r e s1 -> comes_back p pf num (tf <| tf_epc := sepc (hw s) +64 4 |>) pp1 s1 ->
  usertrap e s = Ret tt e (returned pf pp1 (tf <| tf_epc := sepc (hw s) +64 4 |> <| tf_a0 := u64 r |>)
    (s1 <| tfs ::= <[pf := tf <| tf_epc := sepc (hw s) +64 4 |> <| tf_a0 := u64 r |>]> |>)).
Proof.
  intros Hi Hc Hp Hpf Htf Hk Hspp Hsc Hnum Hr Hsys Hf [B1 B2 B3 B4 B5 B6 B7]. unfold usertrap, r_sstatus, hart_upd.
  rewrite step_gets, Hspp, step_modify.
  erewrite bind_run by (apply curproc_norm; st; [exact Hi|exact Hc]). mrun proc_at_run. rewrite step_gets, Hpf.
  erewrite bind_run by (apply tf_upd_run; st; exact Htf). st.
  replace (scause (norm_h (hw s <| stvec := sym_kernelvec |>)) =? 8) with true by (change (true = (scause (hw s) =? 8)); by rewrite Hsc).
  change (sepc (norm_h (hw s <| stvec := sym_kernelvec |>))) with (sepc (hw s)).
  erewrite bind_run; [|]; cycle 1.
  { rewrite Hk. change (negb (0 =? 0)) with false. cbn [when]. rewrite step_ret.
    erewrite bind_run by (apply tf_upd_run; st; apply lookup_insert_eq). unfold intr_on, r_sstatus, w_sstatus.
    rewrite bind_assoc, step_gets, step_modify. erewrite bind_run; [reflexivity|].
    eapply (syscall_run p pp pf (tf <| tf_epc := sepc (hw s) +64 4 |>) num f name nargs); st; try done.
    - destruct (idle_norm _ Hi) as (c & Hcc & Hn). by exists c.
    - exact (eq_trans (cur_norm _) Hc).
    - by rewrite lookup_insert_eq.
    - erewrite <- Hf. f_equal. unfold in_syscall. state_eq. by rewrite insert_insert_eq. }
  mrun proc_at_run. rewrite B6. change (negb (0 =? 0)) with false. change (0 =? 2) with false. cbn [when]. rewrite !step_ret.
  apply (usertrapret_run p pp1); st; try done. apply lookup_insert_eq.
Qed.

(** ** The whole way *)

(** The kernel state [s] and the hart [c] describe the same moment: the trapframe, and the
    registers a trap sets. *)
Record models (pf : Z) (tf : trapframe) (c : core) (s : kernel) : Prop := {
  md_memory : holds_tf (ram c) pf tf;
  md_frame : tfs s !! pf = Some tf;
  md_spp : bit (sstatus (hw s)) SSTATUS_SPP = get_bit 8 (csrs c Mstatus);
  md_sepc : sepc (hw s) = csrs c Sepc;
  md_scause : scause (hw s) = csrs c Scause
}.

(** The jump to userret(TRAPFRAME, satp). *)
Record at_userret (pf : Z) (Q : Z -> Prop) (c : core) : Prop := {
  au_mode : prv c = PS;
  au_satp : Z.shiftr (xs c A1) 60 = 8;
  au_load : window false (set_synced true (cset Satp (xs c A1) c)) (xs c A0) trapframe_size pf Q
}.

Lemma in_user_call pf Q tf u n epc : in_user pf Q tf u -> 0 <= n < 2 ^ 64 -> in_user pf Q tf (go epc (xset A7 n u)).
Proof.
  intros [A1 A2 A3 A4 A5 A6] Hn. rewrite xset_ne by done. split; try done.
  intros r. cbn. unfold fset. case_decide; [lia|apply A1].
Qed.

Lemma returned_reg h pp u tf epc v r :
  r <> Zero -> tf_reg (returned_tf h pp (with_regs u tf <| tf_epc := epc |> <| tf_a0 := v |>)) r = fset A0 v u r.
Proof. intros Hr. by destruct r. Qed.

Lemma returned_frame pf pp tf s : tfs (returned pf pp tf s) !! pf = Some (returned_tf (hw s) pp tf).
Proof. unfold returned. st. apply lookup_insert_eq. Qed.

Lemma returned_spp pf pp tf s : bit (sstatus (hw (returned pf pp tf s))) SSTATUS_SPP = false.
Proof.
  unfold returned, bit. st. apply negb_false_iff, Z.eqb_eq. apply Z.bits_inj'. intros k Hk.
  change SSTATUS_SPP with (2 ^ 8). change SSTATUS_SPIE with (2 ^ 5).
  rewrite Z.land_spec, Z.lor_spec, Z.bits_0, !Z.land_spec, Z.lnot_spec, !Z.pow2_bits_eqb by lia.
  destruct (Z.eqb_spec 8 k) as [<-|]; [|by rewrite andb_false_r]. by rewrite !andb_false_r.
Qed.

End Call.

(** ** getpid() *)

Section Getpid.
#[local] Existing Instance platform0.
#[local] Existing Instance platform0_ok.
#[local] Instance round_robin : Config := RR.

(** The kernel as the trap of process 7 finds it. *)
Definition trapped (tf : trapframe) : kernel :=
  machine [running 7 <| p_trapframe := frame_page |>] <| hw ::= fun h => h <| sstatus := 0 |> <| scause := 8 |> <| sepc := 0x40 |> |>
    <| tfs := {[frame_page := tf]} |>.

Lemma getpid_run e tf : sys_getpid e (in_syscall frame_page tf (trapped tf)) = Ret 7 e (in_syscall frame_page tf (trapped tf)).
Proof.
  unfold sys_getpid. erewrite bind_run; [|apply (curproc_run 0); [|reflexivity]].
  - erewrite bind_run by (apply proc_at_run; reflexivity). reflexivity.
  - unfold in_syscall. st. apply settled_norm. eexists. split; [reflexivity|]. split; [done|]. cbn. lia.
Qed.

End Getpid.
