(* ===== verification/Initcode.v ===== *)
(** * The first user program: initcode.S and the array initcode[] of proc.c

    userinit() copies the array to address 0 of the first process, which starts there.
    The array is decoded as RV64 instructions, and run: it asks for exec("/init"),
    and exits for ever should that fail. *)

From S2P Require Import Prelude Riscv State Machine Monad Cstring Procsys Ucall.

(** ** Instructions as they are encoded *)

(** The register x[n]. *)
Definition reg_of (n : Z) : reg :=
  nth (Z.to_nat n)
    [Zero; Ra; Sp; Gp; Tp; T0; T1; T2; S0; S1; A0; A1; A2; A3; A4; A5; A6; A7; S2; S3; S4; S5; S6; S7; S8; S9; S10; S11; T3; T4; T5; T6]
    Zero.

(** The instructions of initcode.S: [la] is an auipc and an addi, [li] an addi. *)
Inductive uinstr :=
| Auipc (rd : reg) (imm : Z)
| Uaddi (rd rs : reg) (imm : Z)
| Ecall
| Jal (rd : reg) (off : Z).

Definition field (w lo n : Z) : Z := Z.shiftr w lo mod 2 ^ n.

(** An [n]-bit two's complement number. *)
Definition signed (n x : Z) : Z := if x <? 2 ^ (n - 1) then x else x - 2 ^ n.

Definition decode (w : Z) : option uinstr :=
  let rd := reg_of (field w 7 5) in
  let op := field w 0 7 in
  if op =? 0x17 then Some (Auipc rd (signed 20 (field w 12 20)))
  else if (op =? 0x13) && (field w 12 3 =? 0) then Some (Uaddi rd (reg_of (field w 15 5)) (signed 12 (field w 20 12)))
  else if w =? 0x73 then Some Ecall
  else if op =? 0x6f then
    Some (Jal rd (signed 21 (Z.shiftl (field w 31 1) 20 + Z.shiftl (field w 12 8) 12 + Z.shiftl (field w 20 1) 11 + Z.shiftl (field w 21 10) 1)))
  else None.

(** A user program: its page, the program counter and the registers. *)
Record ustate := Ustate { u_pc : Z; u_regs : reg -> Z }.

Definition uget (r : reg) (f : reg -> Z) : Z := if decide (r = Zero) then 0 else f r.

(** An instruction other than ecall. *)
Definition effect (i : uinstr) (u : ustate) : option ustate :=
  match i with
  | Auipc rd imm => Some (Ustate (u_pc u + 4) (fset rd (u64 (u_pc u + Z.shiftl imm 12)) (u_regs u)))
  | Uaddi rd rs imm => Some (Ustate (u_pc u + 4) (fset rd (u64 (uget rs (u_regs u) + imm)) (u_regs u)))
  | Ecall => None
  | Jal rd off => Some (Ustate (u_pc u + off) (fset rd (u64 (u_pc u + 4)) (u_regs u)))
  end.

Definition fetch (page : list Z) (u : ustate) : option uinstr := decode (get32 page (Z.to_nat (u_pc u))).

(** Up to the next ecall. *)
Fixpoint until_ecall (fuel : nat) (page : list Z) (u : ustate) : option ustate :=
  match fuel with
  | O => None
  | S fuel =>
      match fetch page u with
      | Some Ecall => Some u
      | Some i => u ← effect i u; until_ecall fuel page u
      | None => None
      end
  end.

(** initcode.S, with the addresses its labels have in the array. *)
Definition init_label : Z := 0x24.
Definition argv_label : Z := 0x2b.

Definition initcode_S : list uinstr :=
  [Auipc A0 0; Uaddi A0 A0 (init_label - 0); Auipc A1 0; Uaddi A1 A1 (argv_label - 8); Uaddi A7 Zero 7; Ecall;
   Uaddi A7 Zero 2; Ecall; Jal Ra (24 - 32)].

(** The page uvminit() makes. *)
Definition initcode_page : list Z := initcode ++ replicate (4096 - length initcode) 0.

(** The string at [a] in the page. *)
Definition string_at (page : list Z) (a : Z) : list Z := cstr (drop (Z.to_nat a) page).

(** ** Theorems *)

Lemma initcode_decodes : (fun k => decode (get32 initcode (4 * k))) <$> seq 0 9 = Some <$> initcode_S.
Proof. vm_compute. reflexivity. Qed.

Lemma until_step fuel page u i u' :
  fetch page u = Some i -> effect i u = Some u' -> until_ecall (S fuel) page u = until_ecall fuel page u'.
Proof. intros F E. cbn. rewrite F. destruct i; cbn [effect] in E; [by injection E as <-..|done|by injection E as <-]. Qed.

Lemma until_stop fuel page u : fetch page u = Some Ecall -> until_ecall (S fuel) page u = Some u.
Proof. intros F. cbn. by rewrite F. Qed.

(** Runs the next instruction, and stops at an ecall. *)
Ltac next := erewrite until_step; [|vm_compute; reflexivity|reflexivity].
Ltac stop := rewrite until_stop; [reflexivity|vm_compute; reflexivity].

Lemma runs_to_exec f : exists g, until_ecall 6 initcode_page (Ustate 0 f) = Some (Ustate 20 g) /\ g A7 = 7 /\ g A0 = init_label /\ g A1 = argv_label.
Proof. eexists. split; [do 5 next; stop|]. split_and!; vm_compute; reflexivity. Qed.

Lemma runs_to_exit f : exists g, until_ecall 2 initcode_page (Ustate 24 f) = Some (Ustate 28 g) /\ g A7 = 2.
Proof. eexists. split; [next; stop|]. vm_compute; reflexivity. Qed.

Lemma runs_to_exit_again f : exists g, until_ecall 3 initcode_page (Ustate 32 f) = Some (Ustate 28 g) /\ g A7 = 2.
Proof. eexists. split; [do 2 next; stop|]. vm_compute; reflexivity. Qed.

