(* ===== verification/Rtypes.v ===== *)
(** * The machine state keeps its types

    Riscv.v represents registers, control and status registers and memory by unbounded
    integers.  Every instruction, trap and trap return keeps them what the machine has:
    64-bit registers and 8-bit bytes. *)

From S2P Require Import Prelude State Machine Cstring Kalloc Vm Pagetable Riscv Asm.

Definition word64 (x : Z) : Prop := 0 <= x < 2 ^ 64.

Record typed (c : core) : Prop := {
  ty_regs r : word64 (xs c r);
  ty_csrs k : word64 (csrs c k);
  ty_pc : word64 (pc c);
  ty_ram : bytes_ok (ram c)
}.

(** C functions that assembly code calls keep the types. *)
Definition instr_typed (i : instr) : Prop :=
  match i with Call f => forall c c', typed c -> f c = Some c' -> typed c' | _ => True end.

(** ** 64-bit words *)

Lemma word64_bits x : word64 x <-> Z.land x (Z.ones 64) = x.
Proof.
  unfold word64. rewrite Z.land_ones by lia. split; [intros; by apply Z.mod_small|]. intros <-. by apply Z.mod_pos_bound.
Qed.

Lemma word64_land x y : word64 x -> word64 (Z.land x y).
Proof. rewrite !word64_bits. intros Hx. by rewrite (Z.land_comm x), <- Z.land_assoc, Hx. Qed.

Lemma word64_lor x y : word64 x -> word64 y -> word64 (Z.lor x y).
Proof. rewrite !word64_bits. intros Hx Hy. by rewrite Z.land_lor_distr_l, Hx, Hy. Qed.

Lemma word64_ldiff x y : word64 x -> word64 (Z.ldiff x y).
Proof. rewrite Z.ldiff_land. apply word64_land. Qed.

Lemma word64_u64 x : word64 (u64 x).
Proof. apply u64_range. Qed.

Lemma word64_even x : word64 x -> word64 (x - x mod 2).
Proof. unfold word64. intros. dlia. Qed.

Lemma word64_set_bit n b x : 0 <= n < 64 -> word64 x -> word64 (set_bit n b x).
Proof.
  intros Hn Hx. destruct b; [|by apply word64_ldiff]. apply word64_lor; [done|]. unfold word64. rewrite Z.shiftl_1_l.
  split; [by apply Z.pow_nonneg|]. apply Z.pow_lt_mono_r; lia.
Qed.

Lemma word64_set_mpp p x : 0 <= p < 4 -> word64 x -> word64 (set_mpp p x).
Proof. intros Hp Hx. apply word64_lor; [by apply word64_ldiff|]. unfold word64. rewrite Z.shiftl_mul_pow2 by lia. lia. Qed.

Lemma word64_merge mask x old : word64 x -> word64 old -> word64 (merge mask x old).
Proof. intros. apply word64_lor; [by apply word64_land|by apply word64_ldiff]. Qed.

#[export] Hint Resolve word64_land word64_lor word64_ldiff word64_u64 word64_even word64_merge : cint.

Lemma ld_le_bound m a n : bytes_ok m -> 0 <= ld_le m a n < 256 ^ Z.of_nat n.
Proof.
  intros Hm. revert a. induction n as [|n IH]; intros a; cbn [ld_le]; [by cbn|]. specialize (IH (a + 1)). specialize (Hm a).
  rewrite Nat2Z.inj_succ, Z.pow_succ_r by lia. lia.
Qed.

Lemma ld64_word m a : bytes_ok m -> word64 (ld64 m a).
Proof. intros Hm. exact (ld_le_bound m a 8 Hm). Qed.

(** ** The parts of a step *)

Lemma typed_xget r c : typed c -> word64 (xget r c).
Proof. intros [H1 _ _ _]. unfold xget. case_decide; [by vm_compute|apply H1]. Qed.

Lemma typed_xset r v c : typed c -> word64 v -> typed (xset r v c).
Proof. intros [H1 H2 H3 H4] Hv. unfold xset. case_decide; [done|]. split; try done. intros r'. cbn. unfold fset. by case_decide. Qed.

Lemma typed_cset k v c : typed c -> word64 v -> typed (cset k v c).
Proof. intros [H1 H2 H3 H4] Hv. split; try done. intros k'. cbn. unfold fset. by case_decide. Qed.

Lemma typed_go a c : typed c -> word64 a -> typed (go a c).
Proof. intros [H1 H2 H3 H4] Ha. by split. Qed.

Lemma typed_set_prv p c : typed c -> typed (set_prv p c).
Proof. intros [H1 H2 H3 H4]. by split. Qed.

Lemma typed_set_synced b c : typed c -> typed (set_synced b c).
Proof. intros [H1 H2 H3 H4]. by split. Qed.

Lemma typed_store a v c : typed c -> typed (set_ram (st64 a v (ram c)) c).
Proof. intros [H1 H2 H3 H4]. split; try done. by apply bytes_ok_st_le. Qed.

Lemma typed_csr_read k c : typed c -> word64 (csr_read k c).
Proof. intros [H1 H2 H3 H4]. destruct k; cbn; auto with cint. Qed.

Lemma typed_csr_write k v c : typed c -> word64 v -> typed (csr_write k v c).
Proof.
  intros Hc Hv. pose proof (ty_csrs c Hc) as H2. destruct k; cbn; try (apply typed_cset; auto with cint); try done.
  destruct (_ || _); [|done]. by apply typed_set_synced, typed_cset.
Qed.

#[export] Hint Resolve typed_xget typed_xset typed_cset typed_go typed_set_prv typed_set_synced typed_store typed_csr_read typed_csr_write : cint.

Lemma typed_mret c : typed c -> typed (mret c).
Proof.
  intros Hc. pose proof (ty_csrs c Hc) as H2. unfold mret. apply typed_go; [|apply H2]. apply typed_set_prv, typed_cset; [done|].
  apply word64_set_mpp; [lia|]. by do 2 (apply word64_set_bit; [lia|]).
Qed.

Lemma typed_sret c : typed c -> typed (sret c).
Proof.
  intros Hc. pose proof (ty_csrs c Hc) as H2. unfold sret. apply typed_go; [|apply H2]. apply typed_set_prv, typed_cset; [done|].
  by do 3 (apply word64_set_bit; [lia|]).
Qed.

Lemma typed_traps cause c : typed c -> word64 cause -> typed (strap cause c) /\ typed (mtrap cause c).
Proof.
  intros Hc Hv. pose proof (ty_csrs c Hc) as H2. pose proof (ty_pc c Hc) as H3. unfold strap, mtrap. split; apply typed_go; try apply H2;
    apply typed_set_prv; repeat (apply typed_cset; [|done]); apply typed_cset; try done.
  - by do 3 (apply word64_set_bit; [lia|]).
  - apply word64_set_mpp; [destruct (prv c); cbn; lia|]. by do 2 (apply word64_set_bit; [lia|]).
Qed.

Lemma typed_step i c c' : instr_typed i -> typed c -> step i c = Some c' -> typed c'.
Proof.
  intros Hi Hc. destruct i; cbn [step instr_typed] in *; try (injection 1 as <-; auto 6 with cint).
  - destruct (addr_of true _ c); cbn; [|done]. injection 1 as <-. auto with cint.
  - destruct (addr_of false _ c); cbn; [|done]. injection 1 as <-. apply typed_xset; [done|]. apply ld64_word, Hc.
  - destruct (csr_allowed _ _); [|done]. injection 1 as <-. auto with cint.
  - destruct (csr_allowed _ _); [|done]. injection 1 as <-. auto with cint.
  - destruct (csr_allowed _ _); [|done]. injection 1 as <-. auto with cint.
  - case_decide; [done|]. injection 1 as <-. auto with cint.
  - by apply Hi.
  - case_decide; [|done]. injection 1 as <-. by apply typed_mret.
  - case_decide; [done|]. injection 1 as <-. by apply typed_sret.
Qed.

Lemma typed_execute l c c' : Forall instr_typed l -> typed c -> execute l c = Some c' -> typed c'.
Proof.
  intros Hl. revert c. induction Hl as [|i l Hi _ IH]; intros c Hc; cbn; [by injection 1 as <-|].
  destruct (step i c) as [c1|] eqn:E; cbn; [|done]. apply IH. by eapply typed_step.
Qed.


